(* ===== verification/_CoqProject ===== *)
-Q . S2P
Prelude.v
DeviceClaims.v
DeviceLocks.v
JobStateMachine.v
ClusterState.v
Admission.v
ClusterClaims.v
Reservations.v
Jobs.v
Commands.v
Inventory.v
Reconciliation.v
JobRequests.v
OperationClaims.v
Transfers.v
Controller.v
Steps.v
JobInvariants.v
CommandInvariants.v
ClaimInvariants.v
LeaseInvariants.v
WorkerInvariants.v
InventoryInvariants.v
CommandProperties.v
DispatchProperties.v
JobProperties.v
OperationProperties.v
Encodings.v
Placement.v
PlacementProperties.v
ExecutionSpec.v
ExecutionSpecProperties.v
Threads.v
WorkerRuntime.v
WorkerAgent.v
WorkerAgentProperties.v
WorkerCompletion.v
Authority.v
Automation.v
RunHistory.v
Orchestrator.v
Schedule.v
ScheduleProperties.v
PlanStore.v
AutomationInvariants.v
AutomationProperties.v
Retries.v
RateLimit.v
Approvals.v
AgentTokens.v
AgentProperties.v
LoadCache.v
LoadCacheProperties.v
EventUpload.v
EventUploadProperties.v
Sessions.v
SessionProperties.v
Planner.v
PlannerProperties.v
TickProperties.v
Access.v
AccessProperties.v
Submission.v
RunPlacement.v
RunPlacementProperties.v
SubmissionProperties.v
UsbipProtocol.v
Regex.v
UsbipTransaction.v
UsbipTransactionProperties.v
