(* ===== verification/Prelude.v ===== *)
(** * GMS Remote Test: the cluster controller, its automation pipeline and its credentials

    GMS Remote Test runs Android certification suites on devices attached to many worker
    machines.  A controller (a Python web service) decides who may use which device,
    hands commands to workers that poll it, and follows the jobs they run.  Two SQLite
    databases carry its state: the claim registry ([src/foundation/device_claims.py]),
    whose claims fence the physical devices by identifier and generation, and the cluster
    database ([src/features/cluster/repository_*.py]) with workers, devices, jobs, leases,
    reservations and commands.  A third database holds automation runs
    ([src/features/automation]), which a driver takes from a firmware build to a test report
    stage by stage, and a fourth the credentials of people, agents and machines
    ([src/features/auth]).  What can go wrong is what this development is about: two
    holders of one device, a command executed twice, a stale worker or executor acting
    after it lost its claim, a failure between the two databases, a run driven twice or
    never finished, a credential used twice or for more than it was given for.

    ** How the code is modelled

    - A handler is a term of the state and exception monad [M W A] of this file; a raised
      exception keeps the store reached, as in Python, and [transaction] (in ClusterState)
      is what [with self.connect() as conn] does: commit, or roll the cluster database
      back.  The claim registry is another database, so a rollback does not undo what
      happened there: [claims_op] runs a registry operation inside or outside of a
      transaction of the other database.
    - A table is the list of its rows in rowid order; [fetchall], [fetchone],
      [update_where], [delete_where] and [order_by] are the statements, and unique
      indexes are the predicate [unique_index], checked where an insertion can run into
      them.
    - Time is a [Z] of seconds; each operation gets one clock reading, which the code's
      repeated [now()] calls of one operation are identified with.  A timestamp column is
      a [stamp]; expiry comparisons are the code's.
    - [uuid4().hex] is the class [Uuid]: distinct draws are distinct values without white
      space.  [counting_uuid] instantiates it for the samples.
    - Texts compared by the code are [string]s; JSON columns are decoded records.
      CPU, memory and disk figures are exact rationals.
    - Fuel: [replay_job_command], whose retry the code writes as a recursive call; the JSON
      reader of Encodings, which is given the length of its input and is proved to need no
      more on what the code writes; [walk_pages], a client following cursors, for which
      [run_pages_cover] gives the number of pages that is enough; and [wait_devices], the
      thirty-second wait for attached devices, for which thirty rounds are enough
      ([attach_wait_ends]).
    - In the credential files a time is in microseconds, as the timestamps there are.
      SHA-256, PBKDF2, HMAC and Unicode's case mappings are parameters; a theorem that needs two
      texts to have different digests says so ([CollisionFree]).

    ** The parts

    - Prelude: the monad, tables, Python's text functions, record updates, automation.
    - DeviceClaims: [DeviceClaimRegistry], every operation, its invariant [wf], what a
      grant, a refusal, a transfer and a release are, and how generations grow.
    - DeviceLocks: [foundation/device_locks.py], local locks over the registry, refined
      from an abstract table of locks ([lock_of]).
    - JobStateMachine: [features/cluster/state_machine.py].
    - ClusterState: the rows of [repository_schema.py], the store [world], transactions,
      and [repository_observability.py] (timeline, transitions, the lost-worker watchdog).
    - Admission, ClusterClaims, Reservations, Jobs, Commands, Inventory, Reconciliation,
      JobRequests, OperationClaims, Transfers: the mixins of the cluster repository and
      the modules that call them, one file each, named after the Python module.
    - Controller: every state-changing operation as a constructor of [cluster_op]; a
      history [cluster_run] is any sequence of them at any clock readings.  Handlers run
      under the repository's lock, so interleavings are such sequences.
    - Steps: how relations between stores are lifted through transactions and handlers.
    - JobInvariants, CommandInvariants, ClaimInvariants, LeaseInvariants,
      WorkerInvariants, InventoryInvariants: what every history keeps, handler by handler.
    - CommandProperties, DispatchProperties, JobProperties, OperationProperties: what
      single handlers achieve, on success and on failure.
    - Encodings: the formats of Python's library the code relies on (int(), UTF-8, Base64,
      JSON of text lists, splitting and joining), with their round trips.
    - Authority: [features/auth/constants.py], [authority.py] and
      [AutomationService.run_authority]: roles, the capabilities a run inherits from its
      creator, and the signed token that carries them to a worker.
    - Automation: the run table of [features/automation/models.py] and [repository.py], its
      status table and leases; RunHistory: [run_history.py] and [list_run_page];
      Orchestrator: [orchestrator.py], one stage of a run per call over any executor;
      PlanStore: the transactions of [plan_store.py] and the retry policy of [planning.py];
      Schedule: the calendar of [plan_models.py]; Planner: the rest of [planning.py], what people
      do with plans and the scheduler's tick.
    - AutomationInvariants: every transaction of that store as a constructor of [auto_op]
      and what it does to a row; AutomationProperties: histories, leases, the driver;
      Retries: where retried runs come from; ScheduleProperties: time zones whose clocks change;
      PlannerProperties, TickProperties: the authority of what is dispatched, and what is due.
    - ExecutionSpec: how a test request becomes the command line of the launcher script, is built
      again by the worker and read by the script, up to Tradefed's arguments
      ([foundation/execution_spec.py], [test_execution_options.py], [job_env.py],
      [worker_agent/runtime.py], [scripts/run_GMS_Test_Auto.sh]); ExecutionSpecProperties.
    - Placement: which worker and devices a test gets ([features/cluster/service.py],
      [devices/transport_policy.py]); PlacementProperties.  Submission: [POST /api/cluster/jobs] of
      [features/cluster/jobs_api.py], from the caller's identity to the queued command, composed of
      Access, Placement, ExecutionSpec, Jobs, Commands and JobRequests; SubmissionProperties.
    - RunPlacement: the check of a new automation run and the reservation of its devices
      ([AutomationService._prepare_cluster_plan], [HttpAutomationExecutor.select_devices]), on
      Placement and Reservations; it also gives the Planner its check of requests.
      RunPlacementProperties.
    - Threads: programs as trees of atomic actions that interleave, with rules for what a program
      does while others act ([wp]), for actions of one kind ([each]) and for what it must bring to
      an end ([settles]).  WorkerRuntime: [worker_agent/runtime.py], what a worker keeps across
      restarts; WorkerAgent: [worker_agent/app.py], its loop, its threads and its restarts;
      WorkerAgentProperties, WorkerCompletion.
    - EventUpload: [worker_agent/command_events.py], the upload of a command's log as threads
      interleaved in any order; LoadCache: [foundation/cache.py], likewise; with
      EventUploadProperties and LoadCacheProperties.
    - RateLimit, Approvals, AgentTokens: [features/auth/rate_limit.py],
      [approval_tokens.py], [agent_tokens.py] and [agent_enrollment.py];
      AgentProperties: histories of the administration of agents.  Sessions:
      [features/auth/service.py], accounts, browser sessions and their verification by an
      administrator; SessionProperties: histories of them.  Access: [access.py] and
      [request_security.py], who a request acts as; AccessProperties.
    - UsbipProtocol: [features/devices/usbip_protocol.py], the probe of attached devices.
      Regex: Python's regular expressions as far as the code uses them, with a backtracking
      matcher.  UsbipTransaction: [USBIPManager.start_usbip] of [usbip.py] from the connection to the
      source on, with [usbip_transaction.py], [usbip_source_sessions.py] and the listings of
      [usb.py] and [usbip_source_inventory.py]: binding devices on the source, attaching them on the
      target, waiting for adb, and the rollback on both sides; the hosts are an environment whose
      answers may depend on everything done so far.  UsbipTransactionProperties.

    ** What the theorems show

    - Fencing: a grant is all or nothing, and is given where nothing stands in its way ([acquire_grants]); the registry's invariant survives
      any sequence of its operations ([registry_invariant]) and any history of the controller
      ([controller_keeps_fencing]); an ended claim never validates again
      ([ended_claim_never_validates]).  DeviceClaims also has when a claim is refused,
      transferred and lost.
    - Both databases agree when it matters: a created job holds, device by device, a lease
      with the token of a live claim ([created_job_fenced]); one that cannot be created
      leaves nothing in either ([create_job_failure_clean]).
    - Jobs and commands: every history moves jobs along the state machine
      ([jobs_follow_state_machine]) and commands forward
      ([commands_only_move_forward]); compensation and synchronisation are exact
      ([compensation_exact]; DispatchProperties).  Devices have one holder
      ([one_holder_per_device]).
    - Submission: the worker chosen is the best of those that may take the test
      ([select_worker_best]); an accepted test is what was checked ([submission_sound]); a repeated
      submission creates nothing ([submission_once]).
    - Devices of automation runs: a run that is let in could have been served, but for one case
      ([prepared_admissible]; RunPlacementProperties has the case); the devices it gets are reserved and
      fenced for it alone ([selection_sound]), and asking again gives the same ones
      ([selection_recovers]).
    - Dispatch: a job's request is bound to the devices it leased, and these are what Tradefed is
      given, whatever the request says ([job_reaches_leased_devices]); stored requests are well
      typed ([canonical_requests_typed]); ExecutionSpecProperties also has that plain ones survive the
      command line and that the environment is filtered.
    - Workers: a command is executed once ([commands_run_once]), on devices nobody else has
      fenced ([worker_fencing]), and comes to an end ([running_commands_end]); WorkerCompletion
      also has three races that lose or spoil an outcome.
    - Automation: every history moves runs along the pipeline and leaves finished ones alone
      ([runs_follow_pipeline]); a leased run has one driver ([run_lease_exclusive]); the
      driver ends every run with an executor that answers, however many faults and delays
      come in between ([pipeline_terminates], by the measure [distance]); retries are
      bounded ([retries_bounded]); paged listings end and miss nothing ([run_pages_cover]).
    - Plans: nothing is dispatched on authority that is gone ([dispatch_authorized]); plans are
      their owners' ([plans_private]); the scheduler keeps up, and every due plan it takes is
      dispatched, skipped or put off with a note ([tick_clears_due]); the next
      occurrence is the first one (ScheduleProperties).
    - Credentials: a machine's token carries exactly its authority ([capability_round_trip]);
      an agent has what an administrator approved
      ([agent_authority]); approvals work once and for one purpose
      ([approval_single_use]); guessing credentials of one kind
      from one address is cut off ([brute_force_blocked]); the platform keeps an administrator
      ([last_admin_kept]), a browser session is its account's and ends for good
      (SessionProperties, [sessions_end]); a request with a bearer token gets what that token
      is worth, and requests of other sites are refused ([bearer_gets_its_own];
      AccessProperties).
    - Concurrency: what arrives of a command's log is in order, but its uploader can get stuck on an
      empty batch (EventUploadProperties); the cache refines a map with
      invalidation ([cache_refines_map]) and keeps the newest load (LoadCacheProperties).
    - Devices over USB/IP: an attach succeeds with every device seen twice in a row, or undoes what it
      did ([attach_transaction]); it touches no device that was not selected, and its wait ends
      (UsbipTransactionProperties); the narrowed status is what a probe of these devices alone would
      report ([scope_equivalent]).

    ** Not modelled

    The HTTP layers other than the submission of tests, file transfer and everything
    that runs external tools (automation executors, but for the choice of devices) are not modelled: to the
    controller a worker is any sequence of operations, an executor is any function from runs to
    answers, and what a tool does for the worker agent is the environment's answer.  The server of a Linux USB/IP source is an interface.  Parameters stand
    for [urlsplit] and [urlparse], what recovery profiles ask of a device, the fingerprint of a submission, the time-zone database, the texts that Fernet and pydantic write, and the file
    system the launcher script looks at.  The migration of old database files, aggregate reports
    ([get_worker_metrics_history]) and backups do not change what the theorems are about.
    Integrations (Redmine, Gerrit, reports, firmware, e-mail, knowledge, assistant) talk
    to external services, and the browser client is another language.  SQLite itself is
    taken at its documented behaviour: statements are atomic and transactions isolated. *)

From Stdlib Require Export ZArith Lia Ascii.
From stdpp Require Export base tactics list sorting strings gmap sets pretty.

Declare Scope gms_scope.
Delimit Scope gms_scope with gms.
Open Scope gms_scope.

(** ** Exceptions and fallible results *)

(** The exceptions the modelled code raises; the string is the message (or the
    name of the violated constraint). *)
Inductive exn :=
  | ValueError (msg : string)
  | PlanConflictError (msg : string)    (* a ValueError *)
  | InvalidJobTransitionError (msg : string)
  | IntegrityError (constraint : string)
  | ApiError (code : string) (msg : string)
  | HTTPException (status : Z) (msg : string)
  | RuntimeError (msg : string)
  | TypeError (msg : string)
  | KeyError (key : string).

(** The text of an exception in a message. *)
Definition exn_text (e : exn) : string :=
  match e with
  | ValueError m | PlanConflictError m | InvalidJobTransitionError m | IntegrityError m | ApiError _ m
  | HTTPException _ m | RuntimeError m | TypeError m | KeyError m => m
  end.

Inductive result (A : Type) :=
  | Ok (a : A)
  | Err (e : exn).
Arguments Ok {A} _.
Arguments Err {A} _.

(** A step that may fail before the rest. *)
Notation "'let?' x ':=' r 'in' k" := (match r with Ok x => k | Err e => Err e end)
  (at level 10, x name, r at level 100, k at level 200) : gms_scope.

(** ** A state and exception monad

    [M W A] is a handler over the store [W].  A raised exception keeps the store
    reached so far (a Python exception does not undo assignments); undoing is the
    business of a transaction combinator, defined where the store is. *)
Definition M (W A : Type) : Type := W → result A * W.

#[export] Instance M_ret {W} : MRet (M W) := λ A a w, (Ok a, w).
#[export] Instance M_bind {W} : MBind (M W) := λ A B f m w,
  match m w with
  | (Ok a, w') => f a w'
  | (Err e, w') => (Err e, w')
  end.

Definition raise {W A} (e : exn) : M W A := λ w, (Err e, w).
(** A computation without effects. *)
Definition lift {W A} (r : result A) : M W A := match r with Ok a => mret a | Err e => raise e end.
Definition gets {W A} (f : W → A) : M W A := λ w, (Ok (f w), w).
Definition modify {W} (f : W → W) : M W unit := λ w, (Ok tt, f w).
Definition run {W A} (m : M W A) (w : W) : result A := (m w).1.
Definition exec {W A} (m : M W A) (w : W) : W := (m w).2.
Definition require {W} (b : bool) (e : exn) : M W unit :=
  if b then mret tt else raise e.
Definition when {W} (b : bool) (m : M W unit) : M W unit :=
  if b then m else mret tt.

(** [try m h]: run [m]; a raised exception is handed to [h] in the store reached. *)
Definition try {W A} (m : M W A) (h : exn → M W A) : M W A := λ w,
  match m w with
  | (Ok a, w') => (Ok a, w')
  | (Err e, w') => h e w'
  end.

Fixpoint forM {W A B} (l : list A) (f : A → M W B) : M W (list B) :=
  match l with
  | [] => mret []
  | a :: l' => b ← f a; bs ← forM l' f; mret (b :: bs)
  end.

Fixpoint for_each {W A} (l : list A) (f : A → M W unit) : M W unit :=
  match l with
  | [] => mret tt
  | a :: l' => _ ← f a; for_each l' f
  end.

(** ** SQL tables as row lists in rowid order *)

Section sql.
Context {R : Type}.
Implicit Types (p : R → bool) (f : R → R) (t : list R).

Definition fetchall p t : list R := filter (λ r, p r = true) t.
Definition fetchone p t : option R := head (fetchall p t).
Definition exists_row p t : bool := existsb p t.
Definition update_where p f t : list R := map (λ r, if p r then f r else r) t.
Definition delete_where p t : list R := filter (λ r, p r = false) t.
Definition rowcount p t : nat := length (fetchall p t).
End sql.

(** A (partial) [UNIQUE] index on [key] over the rows satisfying [p]. *)
Definition unique_index {R K} (p : R → bool) (key : R → K) (t : list R) : Prop :=
  NoDup (key <$> fetchall p t).

(** [ORDER BY key] with ties in rowid order: a stable insertion sort. *)
Fixpoint insert_by {R} (leb : R → R → bool) (r : R) (t : list R) : list R :=
  match t with
  | [] => [r]
  | x :: t' => if leb r x then r :: x :: t' else x :: insert_by leb r t'
  end.
Fixpoint order_by {R} (leb : R → R → bool) (t : list R) : list R :=
  match t with
  | [] => []
  | r :: t' => insert_by leb r (order_by leb t')
  end.

(** ** Python values *)

(** A TEXT timestamp column: [None] is the empty string, which sorts first. *)
Definition stamp := option Z.
Definition stamp_leb (a b : stamp) : bool :=
  match a, b with
  | None, _ => true
  | Some _, None => false
  | Some x, Some y => Z.leb x y
  end.

(** [a or b] on strings, truth and equality of strings. *)
Definition str_or (a b : string) : string := if decide (a = "") then b else a.
Definition nonempty (s : string) : bool := bool_decide (s ≠ "").
Definition streqb (a b : string) : bool := bool_decide (a = b).
Definition mem (x : string) (l : list string) : bool := bool_decide (x ∈ l).

(** [str.strip]: ASCII white space only. *)
Definition is_space (a : ascii) : bool :=
  let n := N_of_ascii a in
  (((9 <=? n) && (n <=? 13)) || ((28 <=? n) && (n <=? 32)))%N.
Fixpoint lstrip (s : string) : string :=
  match s with
  | String a s' => if is_space a then lstrip s' else s
  | EmptyString => EmptyString
  end.
Fixpoint rstrip (s : string) : string :=
  match s with
  | EmptyString => EmptyString
  | String a s' =>
      match rstrip s' with
      | EmptyString => if is_space a then EmptyString else String a EmptyString
      | r => String a r
      end
  end.
Definition strip (s : string) : string := rstrip (lstrip s).

(** [str.startswith], [str.removeprefix] and [str.partition] on one character. *)
Fixpoint startswith (pre s : string) : bool :=
  match pre, s with
  | EmptyString, _ => true
  | String a pre', String b s' => bool_decide (a = b) && startswith pre' s'
  | String _ _, EmptyString => false
  end.
Fixpoint removeprefix (pre s : string) : string :=
  match pre, s with
  | String a pre', String b s' =>
      if startswith pre s then removeprefix pre' s' else s
  | _, _ => s
  end.
Fixpoint before (c : ascii) (s : string) : string :=
  match s with
  | EmptyString => EmptyString
  | String a s' => if bool_decide (a = c) then EmptyString else String a (before c s')
  end.
Fixpoint after (c : ascii) (s : string) : string :=
  match s with
  | EmptyString => EmptyString
  | String a s' => if bool_decide (a = c) then s' else after c s'
  end.

(** [str.lower] of an ASCII text, and SQLite's [lower]. *)
Definition lower_char (a : ascii) : ascii :=
  let n := N_of_ascii a in if ((65 <=? n) && (n <=? 90))%N then ascii_of_N (n + 32) else a.
Fixpoint ascii_lower (s : string) : string :=
  match s with EmptyString => EmptyString | String a s' => String (lower_char a) (ascii_lower s') end.
(** [sub in s]. *)
Fixpoint contains (sub s : string) : bool :=
  startswith sub s || match s with String _ s' => contains sub s' | EmptyString => false end.

(** [list(dict.fromkeys(l))]: first occurrences, in order. *)
Fixpoint dedup `{EqDecision A} (l : list A) : list A :=
  match l with
  | [] => []
  | x :: l' => x :: filter (λ y, y ≠ x) (dedup l')
  end.

Lemma elem_of_dedup {A} `{EqDecision A} (x : A) l : x ∈ dedup l ↔ x ∈ l.
Proof.
  induction l as [|y l IH]; [done|]. simpl. rewrite !elem_of_cons, list_elem_of_filter, IH.
  destruct (decide (x = y)); tauto.
Qed.

(** No character is white space. *)
Fixpoint no_space (s : string) : bool :=
  match s with
  | EmptyString => true
  | String a s' => negb (is_space a) && no_space s'
  end.
Lemma no_space_strip s : no_space s = true → strip s = s.
Proof.
  intros Hs. assert (lstrip s = s) as Hl.
  { destruct s as [|a s]; [done|]. simpl in *. by destruct (is_space a). }
  unfold strip. rewrite Hl. clear Hl. induction s as [|a s IH]; [done|]. simpl in *.
  destruct (is_space a) eqn:E; [done|]. rewrite IH by done. by destruct s.
Qed.
Lemma no_space_app a b : no_space (a +:+ b) = no_space a && no_space b.
Proof.
  induction a as [|x a IH]; [done|].
  change (String x a +:+ b) with (String x (a +:+ b)). simpl. by rewrite IH, andb_assoc.
Qed.

(** [uuid.uuid4().hex]: the [n]-th value a store draws.  Distinct draws are distinct
    values and they are hexadecimal digits, which is the documented behaviour the code's
    identifiers rely on. *)
Class Uuid := {
  uuid_hex : nat → string;
  uuid_hex_inj :: Inj eq eq uuid_hex;
  uuid_hex_no_space n : no_space (uuid_hex n) = true;
}.

(** A concrete generator, to evaluate the model with: the draw number in decimal. *)
Lemma pretty_no_space (n : nat) : no_space (pretty n) = true.
Proof.
  assert (∀ x s, no_space s = true → no_space (pretty_N_go x s) = true) as Hgo.
  { intros x. induction (N.lt_wf_0 x) as [x _ IH]. intros s Hs.
    destruct (decide (0 < x)%N) as [Hx|Hx].
    - rewrite pretty_N_go_step by done. apply IH; [by apply N.div_lt|]. simpl. rewrite Hs.
      assert (x mod 10 < 10)%N as Hm by by apply N.mod_lt. revert Hm. generalize (x mod 10)%N. clear.
      intros m Hm. unfold pretty_N_char. repeat case_match; done.
    - assert (x = 0%N) as -> by lia. by rewrite pretty_N_go_0. }
  unfold pretty, pretty_nat, pretty, pretty_N. case_decide; [done|]. by apply Hgo.
Qed.
Definition counting_uuid : Uuid :=
  {| uuid_hex := pretty; uuid_hex_inj := pretty_nat_inj; uuid_hex_no_space := pretty_no_space |}.

(** ** Record update: [r <| field := v |>] and [r <| field ::= f |>]

    A record type declares its eta-expanded constructor as an [Eta] instance; the
    setter of a field is that term with the field's projection abstracted. *)
Class Eta (R : Type) := eta_mk : R → R.
Class Upd {R T : Type} (proj : R → T) := upd : (T → T) → R → R.

Ltac derive_upd :=
  lazymatch goal with
  | |- @Upd ?R ?T ?proj =>
      let e := constr:(@eta_mk R _) in
      let e := eval unfold eta_mk in e in
      let e := (match e with ?i => eval cbv delta [i] in i end) in
      lazymatch (eval pattern proj in e) with
      | ?g _ => exact (λ (f : T → T) (r : R), g (λ r' : R, f (proj r')) r)
      end
  end.
#[export] Hint Extern 1 (Upd _) => derive_upd : typeclass_instances.

#[warnings="-postfix-notation-not-level-1"]
Notation "r <| p ::= f |>" := (upd (proj := p) f r)
  (at level 12, left associativity, format "r  <|  p  ::=  f  |>") : gms_scope.
#[warnings="-postfix-notation-not-level-1"]
Notation "r <| p := v |>" := (upd (proj := p) (λ _, v) r)
  (at level 12, left associativity, format "r  <|  p  :=  v  |>") : gms_scope.


(** ** Automation *)

(** [preserves R m]: every run of [m], raising or not, relates the store before to
    the store after.  With [R w w' := I w → I w'] it says [m] keeps the invariant
    [I]; with a monotonicity relation it is a two-state property. *)
Definition preserves {W A} (R : relation W) (m : M W A) : Prop :=
  ∀ w, R w (m w).2.

(** The invariant [I] as a relation between stores. *)
Definition keeps {W} (I : W → Prop) : relation W := λ w w', I w → I w'.

(** The database is discriminated and opaque, so that a hint is only tried on its handler. *)
Create HintDb gms discriminated.
#[export] Hint Constants Opaque : gms.

(** Destruct the boolean and option tests of a goal or hypothesis one by one. *)
Ltac case_tests :=
  repeat match goal with
    | H : context [if ?b then _ else _] |- _ => destruct b eqn:?; simplify_eq/=
    | |- context [if ?b then _ else _] => destruct b eqn:?; simplify_eq/=
    | H : context [match ?o with Some _ => _ | None => _ end] |- _ =>
        destruct o eqn:?; simplify_eq/=
    | |- context [match ?o with Some _ => _ | None => _ end] =>
        destruct o eqn:?; simplify_eq/=
    end.

(** Turn boolean equations into propositions. *)
Ltac bool_props :=
  repeat match goal with
    | H : _ && _ = true |- _ => apply andb_true_iff in H as [??]
    | H : _ || _ = false |- _ => apply orb_false_iff in H as [??]
    | H : negb _ = true |- _ => apply negb_true_iff in H
    | H : negb _ = false |- _ => apply negb_false_iff in H
    | H : bool_decide _ = true |- _ => apply bool_decide_eq_true in H
    | H : bool_decide _ = false |- _ => apply bool_decide_eq_false in H
    | H : streqb _ _ = true |- _ => apply bool_decide_eq_true in H
    | H : streqb _ _ = false |- _ => apply bool_decide_eq_false in H
    | H : Z.leb _ _ = true |- _ => apply Z.leb_le in H
    | H : Z.leb _ _ = false |- _ => apply Z.leb_gt in H
    | H : Z.ltb _ _ = true |- _ => apply Z.ltb_lt in H
    | H : Z.ltb _ _ = false |- _ => apply Z.ltb_ge in H
    end.

(** Run the monad's combinators. *)
Ltac monad :=
  unfold mbind, M_bind, mret, M_ret, gets, modify, raise, require, when; simpl.

(** ** Lemmas on the monad *)
Section monad.
Context {W : Type}.
Implicit Types (R : relation W).

Lemma bind_Ok {A B} (m : M W A) (k : A → M W B) w b w' :
  (m ≫= k) w = (Ok b, w') ↔ ∃ a w1, m w = (Ok a, w1) ∧ k a w1 = (Ok b, w').
Proof.
  unfold mbind, M_bind. destruct (m w) as [[a|e] w1]; split.
  - eauto.
  - intros (?&?&[= <- <-]&?); done.
  - done.
  - by intros (?&?&?&?).
Qed.

Lemma lift_Ok {A} (r : result A) (w : W) a w' : lift r w = (Ok a, w') → r = Ok a ∧ w' = w.
Proof. unfold lift. destruct r; [|done]. by intros [= -> ->]. Qed.
Lemma bind_run {A B} (m : M W A) (k : A → M W B) w a w1 :
  m w = (Ok a, w1) → (m ≫= k) w = k a w1.
Proof. intros E. unfold mbind, M_bind. by rewrite E. Qed.
Lemma try_Ok {A} (m : M W A) h w a w1 : m w = (Ok a, w1) → try m h w = (Ok a, w1).
Proof. intros E. unfold try. by rewrite E. Qed.
Lemma bind_Err {A B} (m : M W A) (k : A → M W B) w e w1 :
  m w = (Err e, w1) → (m ≫= k) w = (Err e, w1).
Proof. intros E. unfold mbind, M_bind. by rewrite E. Qed.
Lemma bind_require {B} b e (k : unit → M W B) w :
  (require b e ≫= k) w = if b then k tt w else (Err e, w).
Proof. by destruct b. Qed.
Lemma bind_gets {A B} (f : W → A) (k : A → M W B) w : (gets f ≫= k) w = k (f w) w.
Proof. done. Qed.
Lemma bind_modify {B} (f : W → W) (k : unit → M W B) w : (modify f ≫= k) w = k tt (f w).
Proof. done. Qed.
Lemma bind_ret {A B} (a : A) (k : A → M W B) w : (mret a ≫= k) w = k a w.
Proof. done. Qed.
Lemma snd_match_result {A B} (x : result A * W) (g : A → B) :
  (match x with (Ok a, w') => (Ok (g a), w') | (Err e, w') => (Err e, w') end).2 = x.2.
Proof. by destruct x as [[a|e] w]. Qed.
Lemma preserves_ret {A} R `{!Reflexive R} (a : A) : preserves R (mret a : M W A).
Proof. by intros w. Qed.
Lemma preserves_raise {A} R `{!Reflexive R} e : preserves R (raise e : M W A).
Proof. by intros w. Qed.
Lemma preserves_gets {A} R `{!Reflexive R} (f : W → A) : preserves R (gets f).
Proof. by intros w. Qed.
Lemma preserves_require R `{!Reflexive R} b e : preserves R (require (W:=W) b e).
Proof. intros w. by destruct b. Qed.
Lemma preserves_modify R (f : W → W) : (∀ w, R w (f w)) → preserves R (modify f).
Proof. intros Hf w. apply Hf. Qed.
Lemma preserves_when R `{!Reflexive R} b (m : M W unit) :
  preserves R m → preserves R (when b m).
Proof. intros Hm w. destruct b; [apply Hm|done]. Qed.
Lemma preserves_bind {A B} R `{!Transitive R} (m : M W A) (k : A → M W B) :
  preserves R m → (∀ a, preserves R (k a)) → preserves R (m ≫= k).
Proof.
  intros Hm Hk w. specialize (Hm w). unfold mbind, M_bind.
  destruct (m w) as [[a|e] w1]; simpl in *; [|done].
  etrans; [exact Hm|apply Hk].
Qed.
(** The rest may rely on what the first part returns. *)
Lemma preserves_bind_Ok {A B} R `{!Transitive R} (Q : A → Prop) (m : M W A) (k : A → M W B) :
  preserves R m → (∀ w a w', m w = (Ok a, w') → Q a) → (∀ a, Q a → preserves R (k a)) → preserves R (m ≫= k).
Proof.
  intros Hm HQ Hk w. specialize (Hm w). unfold mbind, M_bind. destruct (m w) as [[a|e] w'] eqn:E; [|exact Hm].
  etrans; [exact Hm|]. by eapply Hk, HQ.
Qed.
Lemma preserves_try {A} R `{!Transitive R} (m : M W A) h :
  preserves R m → (∀ e, preserves R (h e)) → preserves R (try m h).
Proof.
  intros Hm Hh w. specialize (Hm w). unfold try.
  destruct (m w) as [[a|e] w1]; simpl in *; [done|].
  etrans; [exact Hm|apply Hh].
Qed.
Lemma preserves_for_each {A} R `{!PreOrder R} (l : list A) (f : A → M W unit) :
  (∀ a, preserves R (f a)) → preserves R (for_each l f).
Proof.
  intros Hf. induction l as [|a l IH]; simpl.
  - apply preserves_ret, _.
  - apply preserves_bind; [apply _|apply Hf|done].
Qed.
Lemma preserves_forM {A B} R `{!PreOrder R} (l : list A) (f : A → M W B) :
  (∀ a, preserves R (f a)) → preserves R (forM l f).
Proof.
  intros Hf. induction l as [|a l IH]; simpl.
  - apply preserves_ret, _.
  - apply preserves_bind; [apply _|apply Hf|intros b].
    apply preserves_bind; [apply _|done|intros bs; apply preserves_ret, _].
Qed.
#[export] Instance keeps_preorder (I : W → Prop) : PreOrder (keeps I).
Proof. split; unfold keeps; [by intros w|intros x y z; tauto]. Qed.
End monad.

(** Invert a handler that returned. *)
Ltac inv_ret H := first [injection H as <- <- | injection H as <- | clear H].
Ltac inv_ok :=
  repeat match goal with
    | H : (_ ≫= _) _ = (Ok _, _) |- _ => apply bind_Ok in H as (?&?&?&?); cbv beta in *
    | H : mret _ _ = (Ok _, _) |- _ => unfold mret, M_ret in H; inv_ret H
    | H : gets _ _ = (Ok _, _) |- _ => unfold gets in H; inv_ret H
    | H : modify _ _ = (Ok _, _) |- _ => unfold modify in H; inv_ret H
    | H : require ?b _ _ = (Ok _, _) |- _ =>
        destruct b eqn:?; unfold require, raise, mret, M_ret in H; [inv_ret H|discriminate H]
    end.

#[export] Hint Resolve preserves_ret preserves_raise preserves_gets preserves_require
  preserves_when preserves_bind preserves_try preserves_for_each preserves_forM : gms.

(** ** Lemmas on tables *)
Section tables.
Context {R : Type}.
Implicit Types (p q : R → bool) (f : R → R) (t : list R) (r : R).

Lemma fetchall_cons p r t :
  fetchall p (r :: t) = if p r then r :: fetchall p t else fetchall p t.
Proof. unfold fetchall. rewrite filter_cons. by destruct (p r). Qed.
Lemma update_where_cons p f r t :
  update_where p f (r :: t) = (if p r then f r else r) :: update_where p f t.
Proof. done. Qed.
Lemma elem_of_fetchall p t r : r ∈ fetchall p t ↔ p r = true ∧ r ∈ t.
Proof. unfold fetchall. by rewrite list_elem_of_filter. Qed.
Lemma fetchone_Some p t r : fetchone p t = Some r → r ∈ t ∧ p r = true.
Proof.
  intros H. apply head_Some_elem_of in H.
  by apply elem_of_fetchall in H as [??].
Qed.
Lemma fetchone_None p t : fetchone p t = None ↔ ∀ r, r ∈ t → p r = false.
Proof.
  unfold fetchone. split.
  - intros H%head_None r Hr. apply not_true_is_false. intros Hp.
    assert (r ∈ fetchall p t) as Hin by (by apply elem_of_fetchall).
    rewrite H in Hin. by apply not_elem_of_nil in Hin.
  - intros H. apply head_None. destruct (fetchall p t) as [|r l] eqn:E; [done|].
    assert (r ∈ fetchall p t) as [Hp Hin]%elem_of_fetchall by (rewrite E; left).
    by rewrite H in Hp.
Qed.
Lemma exists_row_true p t : exists_row p t = true ↔ ∃ r, r ∈ t ∧ p r = true.
Proof.
  unfold exists_row. rewrite existsb_exists.
  by setoid_rewrite <-list_elem_of_In.
Qed.
Lemma exists_row_false p t : exists_row p t = false ↔ ∀ r, r ∈ t → p r = false.
Proof.
  rewrite <-not_true_iff_false, exists_row_true. split.
  - intros H r Hr. apply not_true_is_false. eauto.
  - intros H (r&Hr&Hp). by rewrite H in Hp.
Qed.
Lemma elem_of_update_where p f t r :
  r ∈ update_where p f t ↔ ∃ r0, r0 ∈ t ∧ r = if p r0 then f r0 else r0.
Proof. unfold update_where. rewrite list_elem_of_fmap. split; intros (r0&?&?); eauto. Qed.
Lemma elem_of_delete_where p t r : r ∈ delete_where p t ↔ r ∈ t ∧ p r = false.
Proof. unfold delete_where. rewrite list_elem_of_filter. tauto. Qed.
Lemma elem_of_update_where_keep p f t r : r ∈ t → p r = false → r ∈ update_where p f t.
Proof. intros Hr Hp. apply elem_of_update_where. exists r. by rewrite Hp. Qed.
Lemma elem_of_update_where_hit p f t r : r ∈ t → p r = true → f r ∈ update_where p f t.
Proof. intros Hr Hp. apply elem_of_update_where. exists r. by rewrite Hp. Qed.
Lemma update_where_id p f t :
  (∀ r, r ∈ t → p r = true → f r = r) → update_where p f t = t.
Proof.
  intros H. induction t as [|r t IH]; [done|]. simpl. rewrite IH.
  - destruct (p r) eqn:E; [by rewrite H; [|left|]|done].
  - intros ???. apply H; [by right|done].
Qed.
Lemma fmap_update_where {K} (key : R → K) p f t :
  (∀ r, p r = true → key (f r) = key r) → key <$> update_where p f t = key <$> t.
Proof.
  intros H. unfold update_where. rewrite <-list_fmap_compose.
  apply list_fmap_ext. intros _ r _. simpl. destruct (p r) eqn:E; auto.
Qed.
Lemma length_update_where p f t : length (update_where p f t) = length t.
Proof. apply length_fmap. Qed.
Lemma fetchall_app p t1 t2 : fetchall p (t1 ++ t2) = fetchall p t1 ++ fetchall p t2.
Proof. apply filter_app. Qed.
Lemma fetchall_nil p t : (∀ r, r ∈ t → p r = false) → fetchall p t = [].
Proof.
  intros H. destruct (fetchall p t) as [|r l] eqn:E; [done|].
  assert (r ∈ fetchall p t) as [Hp Hin]%elem_of_fetchall by (rewrite E; left).
  by rewrite H in Hp.
Qed.

Lemma fetchall_all p t : (∀ r, r ∈ t → p r = true) → fetchall p t = t.
Proof.
  induction t as [|r t IH]; intros H; [done|].
  rewrite fetchall_cons, H, IH; [done|..|left]. intros x Hx. apply H. by right.
Qed.
#[export] Instance fetchall_perm p : Proper ((≡ₚ) ==> (≡ₚ)) (fetchall p).
Proof. intros t1 t2 Ht. unfold fetchall. by rewrite Ht. Qed.
Lemma fetchall_update_frame p q f t :
  (∀ r, r ∈ t → p r = true → q r = false ∧ q (f r) = false) →
  fetchall q (update_where p f t) = fetchall q t.
Proof.
  induction t as [|r t IH]; intros H; [done|].
  rewrite update_where_cons, !fetchall_cons, IH by (intros; apply H; [by right|done]).
  destruct (p r) eqn:Ep; [|done]. by destruct (H r (list_elem_of_here _ _) Ep) as [-> ->].
Qed.
Lemma fetchone_update_frame p q f t :
  (∀ r, r ∈ t → p r = true → q r = false ∧ q (f r) = false) →
  fetchone q (update_where p f t) = fetchone q t.
Proof. intros H. unfold fetchone. by rewrite fetchall_update_frame. Qed.
Lemma fetchall_snoc p t r :
  fetchall p (t ++ [r]) = fetchall p t ++ (if p r then [r] else []).
Proof. rewrite fetchall_app, fetchall_cons. by destruct (p r). Qed.
Lemma fetchone_cons p r t : fetchone p (r :: t) = if p r then Some r else fetchone p t.
Proof. unfold fetchone. rewrite fetchall_cons. by destruct (p r). Qed.
Lemma fetchone_app p t1 t2 :
  fetchone p (t1 ++ t2) = match fetchone p t1 with Some r => Some r | None => fetchone p t2 end.
Proof. unfold fetchone. rewrite fetchall_app. by destruct (fetchall p t1). Qed.
Lemma fetchall_fetchall p q t : fetchall p (fetchall q t) = fetchall (λ r, q r && p r) t.
Proof.
  induction t as [|r t IH]; [done|]. rewrite !fetchall_cons.
  destruct (q r); simpl; [|done]. by rewrite fetchall_cons, IH.
Qed.

Lemma insert_by_perm leb r t : insert_by leb r t ≡ₚ r :: t.
Proof.
  induction t as [|x t IH]; [done|]. simpl. destruct (leb r x); [done|]. rewrite IH. constructor.
Qed.
Lemma order_by_perm leb t : order_by leb t ≡ₚ t.
Proof. induction t as [|r t IH]; [done|]. simpl. by rewrite insert_by_perm, IH. Qed.
Lemma elem_of_order_by leb t r : r ∈ order_by leb t ↔ r ∈ t.
Proof. by rewrite order_by_perm. Qed.
Lemma order_by_nil leb t : order_by leb t = [] ↔ t = [].
Proof.
  split; [|by intros ->]. intros E. apply Permutation_nil. by rewrite <-E, order_by_perm.
Qed.

Lemma elem_of_insert_by leb r t x : x ∈ insert_by leb r t ↔ x = r ∨ x ∈ t.
Proof. by rewrite insert_by_perm, elem_of_cons. Qed.
Lemma order_by_sorted leb t :
  (∀ x y, leb x y = true ∨ leb y x = true) →
  (∀ x y z, leb x y = true → leb y z = true → leb x z = true) →
  StronglySorted (λ x y, leb x y = true) (order_by leb t).
Proof.
  intros Htot Htr. induction t as [|r t IH]; [constructor|]. simpl.
  induction IH as [|x l Hl IHl Hx]; simpl; [repeat constructor|].
  destruct (leb r x) eqn:E.
  - constructor; [by constructor|]. constructor; [done|].
    eapply Forall_impl; [exact Hx|]. intros y Hy. by eapply Htr.
  - constructor; [done|]. apply Forall_forall. intros y [->|Hy]%elem_of_insert_by.
    + destruct (Htot r x); congruence.
    + by eapply Forall_forall in Hx.
Qed.

Lemma update_where_ext p q f g t :
  (∀ r, r ∈ t → p r = q r) → (∀ r, r ∈ t → p r = true → f r = g r) →
  update_where p f t = update_where q g t.
Proof.
  intros Hp Hf. apply map_ext_in. intros r Hr%list_elem_of_In. rewrite <-(Hp r Hr).
  destruct (p r) eqn:E; [|done]. by apply Hf.
Qed.
Lemma delete_where_id p t : (∀ r, r ∈ t → p r = false) → delete_where p t = t.
Proof.
  intros H. induction t as [|r t IH]; [done|]. unfold delete_where in *.
  rewrite filter_cons_True by (apply H; left). f_equal. apply IH. intros x Hx. apply H. by right.
Qed.

(** *** Unique indexes *)

Lemma unique_index_inj {K} p (key : R → K) t r1 r2 :
  unique_index p key t → r1 ∈ t → r2 ∈ t → p r1 = true → p r2 = true →
  key r1 = key r2 → r1 = r2.
Proof.
  unfold unique_index. intros Hnd H1 H2 Hp1 Hp2 Hk.
  assert (r1 ∈ fetchall p t) as [i Hi]%list_elem_of_lookup by (by apply elem_of_fetchall).
  assert (r2 ∈ fetchall p t) as [j Hj]%list_elem_of_lookup by (by apply elem_of_fetchall).
  assert (i = j) as ->; [|congruence].
  eapply NoDup_lookup; [exact Hnd| |].
  - by rewrite list_lookup_fmap, Hi.
  - rewrite list_lookup_fmap, Hj. simpl. by rewrite Hk.
Qed.
Lemma unique_index_fetchone {K} p (key : R → K) t r q :
  unique_index p key t → r ∈ t → p r = true → q r = true →
  (∀ r', r' ∈ t → q r' = true → p r' = true ∧ key r' = key r) →
  fetchone q t = Some r.
Proof.
  intros Hu Hr Hp Hq Hall. destruct (fetchone q t) as [r'|] eqn:E.
  - apply fetchone_Some in E as [Hin Hq'].
    destruct (Hall _ Hin Hq') as [??]. f_equal. by eapply unique_index_inj.
  - rewrite fetchone_None in E. by rewrite E in Hq.
Qed.
Lemma fetchone_unique {K} (key : R → K) t r p :
  unique_index (λ _, true) key t → r ∈ t → (∀ x, x ∈ t → p x = true ↔ key x = key r) →
  fetchone p t = Some r.
Proof.
  intros Hu Hr Hp. eapply unique_index_fetchone; [exact Hu|done|done|by apply Hp|].
  intros x Hx Hpx. split; [done|by apply Hp].
Qed.
Lemma unique_index_cons {K} q (key : R → K) r t :
  unique_index q key (r :: t) ↔
  (q r = true → ∀ r', r' ∈ t → q r' = true → key r' ≠ key r) ∧ unique_index q key t.
Proof.
  unfold unique_index. rewrite fetchall_cons. destruct (q r) eqn:Eq.
  - rewrite fmap_cons, NoDup_cons. f_equiv. rewrite list_elem_of_fmap. split.
    + intros Hn _ r' Hr' Hq' Hk. apply Hn. exists r'. by rewrite elem_of_fetchall.
    + intros Hn (r'&Hk&[??]%elem_of_fetchall). by apply (Hn eq_refl r').
  - split; [done|by intros [_ ?]].
Qed.
Lemma unique_index_weaken {K} p q (key : R → K) t :
  (∀ r, p r = true → q r = true) → unique_index q key t → unique_index p key t.
Proof.
  intros Hpq. induction t as [|r t IH]; [done|]. intros [Hr Hu]%unique_index_cons.
  apply unique_index_cons. split; [|by apply IH]. intros Hp r' Hr' Hp'. apply Hr; auto.
Qed.
Lemma unique_index_update {K} q (key : R → K) p f t :
  unique_index q key t →
  (∀ r, r ∈ t → p r = true → q (f r) = true → q r = true) →
  (∀ r, r ∈ t → p r = true → key (f r) = key r) →
  unique_index q key (update_where p f t).
Proof.
  induction t as [|r t IH]; intros Hu Hq Hk; [constructor|].
  rewrite update_where_cons, unique_index_cons.
  apply unique_index_cons in Hu as [Hr Hu]. split; [|naive_solver set_solver].
  intros Hq1 r' (r0&Hr0&->)%elem_of_update_where Hq2.
  assert (q r = true) as Hqr by (destruct (p r) eqn:?; [apply Hq; [left|..]|]; done).
  assert (q r0 = true) by (destruct (p r0) eqn:?; [apply Hq; [by right|..]|]; done).
  specialize (Hr Hqr r0 Hr0).
  destruct (p r) eqn:?, (p r0) eqn:?;
    rewrite ?(Hk r) by (done || left); rewrite ?(Hk r0) by (done || by right); auto.
Qed.
(** The row a keyed update rewrote. *)
Lemma fetchone_updated {K} (key : R → K) t r p f :
  unique_index (λ _, true) key t → r ∈ t → (∀ x, p x = true ↔ key x = key r) →
  (∀ x, p x = true → key (f x) = key x) → fetchone p (update_where p f t) = Some (f r).
Proof.
  intros Hu Hr Hp Hk. assert (p r = true) as Hpr by by apply Hp.
  eapply (fetchone_unique key); [apply unique_index_update; [exact Hu|done|auto]| |].
  - by apply elem_of_update_where_hit.
  - intros x _. rewrite Hp. by rewrite (Hk r Hpr).
Qed.
Lemma rowcount_unique {K} (key : R → K) t r p :
  unique_index (λ _, true) key t → r ∈ t → (∀ x, x ∈ t → p x = true ↔ key x = key r) →
  rowcount p t = 1%nat.
Proof.
  unfold rowcount. induction t as [|x t IH]; intros Hu Hr Hp; [by apply not_elem_of_nil in Hr|].
  apply unique_index_cons in Hu as [Hx Hu]. rewrite fetchall_cons.
  apply elem_of_cons in Hr as [->|Hr].
  - rewrite (proj2 (Hp x (list_elem_of_here _ _)) eq_refl). rewrite fetchall_nil; [done|].
    intros y Hy. apply not_true_iff_false. intros Hpy. apply (Hx eq_refl y Hy eq_refl).
    apply Hp; [by right|done].
  - destruct (p x) eqn:E.
    + exfalso. apply Hp in E; [|left]. by apply (Hx eq_refl r Hr eq_refl).
    + apply IH; [done|done|]. intros y Hy. apply Hp. by right.
Qed.
Lemma unique_index_snoc {K} q (key : R → K) t r :
  unique_index q key t →
  (q r = true → ∀ r', r' ∈ t → q r' = true → key r' ≠ key r) →
  unique_index q key (t ++ [r]).
Proof.
  induction t as [|x t IH]; simpl; intros Hu Hne.
  - apply unique_index_cons. split; [set_solver|constructor].
  - apply unique_index_cons in Hu as [Hx Hu]. apply unique_index_cons. split.
    + intros Hq r' [Hr'| ->%list_elem_of_singleton]%elem_of_app Hq'; [by apply Hx|].
      apply not_eq_sym, Hne; [done|left|done].
    + apply IH; [done|]. intros Hq r' Hr'. apply Hne; [done|by right].
Qed.
Lemma unique_index_delete {K} q (key : R → K) p t :
  unique_index q key t → unique_index q key (delete_where p t).
Proof.
  induction t as [|r t IH]; [done|]. intros [Hr Hu]%unique_index_cons.
  unfold delete_where in *. rewrite filter_cons. case_decide; [|by apply IH].
  apply unique_index_cons. split; [|by apply IH].
  intros Hq r' Hr'. apply elem_of_delete_where in Hr' as [??]. by apply Hr.
Qed.
End tables.

(** ** Stripping *)

Lemma lstrip_idemp s : lstrip (lstrip s) = lstrip s.
Proof. induction s as [|a s IH]; [done|]. simpl. destruct (is_space a) eqn:E; [done|]. simpl. by rewrite E. Qed.
Lemma rstrip_cons a s :
  rstrip (String a s) =
  if nonempty (rstrip s) then String a (rstrip s)
  else if is_space a then EmptyString else String a EmptyString.
Proof. simpl. unfold nonempty. by destruct (rstrip s). Qed.
Lemma rstrip_idemp s : rstrip (rstrip s) = rstrip s.
Proof.
  induction s as [|a s IH]; [done|]. rewrite rstrip_cons.
  destruct (nonempty (rstrip s)) eqn:E.
  - by rewrite rstrip_cons, IH, E.
  - destruct (is_space a) eqn:E'; [done|]. simpl. by rewrite E'.
Qed.
Lemma lstrip_rstrip s : lstrip s = s → lstrip (rstrip s) = rstrip s.
Proof.
  destruct s as [|a s]; [done|]. rewrite rstrip_cons. intros H. simpl in H.
  destruct (is_space a) eqn:E.
  - exfalso. assert (∀ s', String.length (lstrip s') ≤ String.length s')%nat as Hle.
    { induction s' as [|b s' IH]; [done|]. simpl. destruct (is_space b); simpl; lia. }
    specialize (Hle s). rewrite H in Hle. simpl in Hle. lia.
  - destruct (nonempty _); simpl; by rewrite E.
Qed.
Lemma strip_idemp s : strip (strip s) = strip s.
Proof. unfold strip. by rewrite (lstrip_rstrip _ (lstrip_idemp s)), rstrip_idemp. Qed.
Lemma rstrip_app a b : b ≠ "" → rstrip b = b → rstrip (a +:+ b) = a +:+ b.
Proof.
  intros Hb Hr. induction a as [|x a IH]; [done|].
  change (String x a +:+ b) with (String x (a +:+ b)). rewrite rstrip_cons, IH.
  unfold nonempty. rewrite bool_decide_eq_true_2; [done|]. by destruct a.
Qed.
Lemma lstrip_app a b : a ≠ "" → lstrip a = a → lstrip (a +:+ b) = a +:+ b.
Proof.
  destruct a as [|x a]; [done|]. intros _ H. simpl in *. destruct (is_space x) eqn:E; [|done].
  exfalso. assert (∀ s', String.length (lstrip s') ≤ String.length s')%nat as Hle.
  { induction s' as [|c s' IH]; [done|]. simpl. destruct (is_space c); simpl; lia. }
  specialize (Hle a). rewrite H in Hle. simpl in Hle. lia.
Qed.
