(* ===== verification/DeviceClaims.v ===== *)
(** The durable device-claim registry of [foundation/device_claims.py]: one SQLite
    table [device_claims] and the operations by which every execution mode (local
    UI, cluster jobs, reservations, firmware) owns a device.

    A registry is the row list of the table and the number of claim identifiers
    drawn so far.  Every operation runs under [BEGIN IMMEDIATE] or is one statement
    under the write lock, so it is one atomic function of the registry; [now] is the
    clock reading of the operation in seconds ([_now] prints it as an ISO-8601 UTC
    text, and the order of these texts is the order of the readings). *)

From S2P Require Import Prelude.

Open Scope Z_scope.

(** ** Data *)

Inductive claim_status :=
  | ClaimActive | ClaimExpired | ClaimReleased | ClaimCancelled | ClaimConverted
  | ClaimFailed | ClaimReconciled.

#[export] Instance claim_status_eq_dec : EqDecision claim_status.
Proof. solve_decision. Defined.

(* src/foundation/device_claims.py:50-77 DeviceClaimRegistry._initialize *)
Record claim := Claim {
  cl_id : string;
  cl_device_key : string;
  cl_worker_id : string;
  cl_serial : string;
  cl_owner_id : string;
  cl_username : string;
  cl_source_type : string;
  cl_source_id : string;
  cl_status : claim_status;
  cl_generation : Z;
  cl_acquired_at : Z;
  cl_heartbeat_at : Z;
  cl_expires_at : Z;
  cl_released_at : stamp;
}.

#[export] Instance claim_eta : Eta claim := λ c,
  Claim (cl_id c) (cl_device_key c) (cl_worker_id c) (cl_serial c) (cl_owner_id c)
    (cl_username c) (cl_source_type c) (cl_source_id c) (cl_status c)
    (cl_generation c) (cl_acquired_at c) (cl_heartbeat_at c) (cl_expires_at c)
    (cl_released_at c).

Record registry := Registry {
  rg_claims : list claim;
  rg_drawn : nat;
}.

#[export] Instance registry_eta : Eta registry := λ r,
  Registry (rg_claims r) (rg_drawn r).

(** A device as a caller passes it: an absent text field is the empty text, an
    absent [generation_floor] is [None]. *)
Record device_req := DeviceReq {
  dr_device_key : string;
  dr_worker_id : string;
  dr_serial : string;
  dr_generation_floor : option Z;
}.

(** A device after [_normalize_devices]. *)
Record device := Device {
  dv_device_key : string;
  dv_worker_id : string;
  dv_serial : string;
  dv_generation_floor : Z;
}.

(** ** Row predicates *)

Definition is_active (c : claim) : bool := bool_decide (cl_status c = ClaimActive).
Definition key_is (k : string) (c : claim) : bool := streqb (cl_device_key c) k.
Definition id_is (i : string) (c : claim) : bool := streqb (cl_id c) i.
Definition source_is (s : string) (c : claim) : bool := streqb (cl_source_id c) s.
Definition owner_is (o : string) (c : claim) : bool := streqb (cl_owner_id c) o.
Definition worker_is (w : string) (c : claim) : bool := streqb (cl_worker_id c) w.

(** [device_key IN (...)] is only added for a non-empty list of keys. *)
Definition in_keys (keys : list string) (c : claim) : bool :=
  match keys with [] => true | _ => mem (cl_device_key c) keys end.

(** ** Operations *)

(* src/foundation/device_claims.py:17-20 _expires *)
Definition expires (now ttl_seconds : Z) : Z := now + Z.max 30 ttl_seconds.

(* src/foundation/device_claims.py:87-107 DeviceClaimRegistry._normalize_devices *)
Fixpoint normalize_from (seen : list string) (devices : list device_req) : list device :=
  match devices with
  | [] => []
  | item :: rest =>
      let key := strip (dr_device_key item) in
      let worker_id := strip (dr_worker_id item) in
      let serial := strip (dr_serial item) in
      if negb (nonempty key) || negb (nonempty worker_id) || negb (nonempty serial)
         || mem key seen
      then normalize_from seen rest
      else {| dv_device_key := key; dv_worker_id := worker_id; dv_serial := serial;
              dv_generation_floor :=
                Z.max 1 (match dr_generation_floor item with
                         | Some f => if Z.eqb f 0 then 1 else f
                         | None => 1
                         end) |}
           :: normalize_from (key :: seen) rest
  end.

(* src/foundation/device_claims.py:87-110 DeviceClaimRegistry._normalize_devices *)
Definition normalize_devices (devices : list device_req) : result (list device) :=
  match normalize_from [] devices with
  | [] => Err (ValueError "at least one device claim is required")
  | normalized => Ok normalized
  end.

(** The rows [_expire] rewrites. *)
Definition overdue (now : Z) (c : claim) : bool := is_active c && (cl_expires_at c <=? now).
Definition retire (now : Z) (status : claim_status) (c : claim) : claim :=
  c <| cl_status := status |> <| cl_released_at := Some now |>.

(* src/foundation/device_claims.py:112-118 DeviceClaimRegistry._expire *)
Definition expire (now : Z) (t : list claim) : list claim :=
  update_where (overdue now) (retire now ClaimExpired) t.

(** The row [SELECT * FROM device_claims WHERE device_key=? AND status='active']. *)
Definition holder (k : string) (t : list claim) : option claim :=
  fetchone (λ c, key_is k c && is_active c) t.

(** A row held by another owner or source, or one the caller refuses to share. *)
Definition conflicting (owner_id source_id : string) (allow_existing_source : bool)
    (row : claim) : bool :=
  negb (owner_is owner_id row) || negb (source_is source_id row)
  || negb allow_existing_source.

(** The conflict scan of [acquire]: the active rows of the requested devices that
    another owner or another source holds. *)
(* src/foundation/device_claims.py:139-154 DeviceClaimRegistry.acquire *)
Definition conflicts_of (owner_id source_id : string) (allow_existing_source : bool)
    (t : list claim) (requested : list device) : list claim :=
  omap (λ d, match holder (dv_device_key d) t with
             | Some row =>
                 if conflicting owner_id source_id allow_existing_source row
                 then Some row else None
             | None => None
             end) requested.

(** [COALESCE(MAX(generation),0)] over all the rows of a device, active or not. *)
Definition max_generation (k : string) (t : list claim) : Z :=
  foldr Z.max 0 (cl_generation <$> fetchall (key_is k) t).

(** [INSERT INTO device_claims] under the primary key and the partial unique index
    [idx_active_device_claim]. *)
(* src/foundation/device_claims.py:50-77 DeviceClaimRegistry._initialize *)
Definition insert_claim (row : claim) : M registry unit := λ r,
  if exists_row (id_is (cl_id row)) (rg_claims r)
  then (Err (IntegrityError "device_claims.id"), r)
  else if is_active row && exists_row (λ c, key_is (cl_device_key row) c && is_active c)
                              (rg_claims r)
  then (Err (IntegrityError "idx_active_device_claim"), r)
  else (Ok tt, r <| rg_claims := rg_claims r ++ [row] |>).

Section registry.
Context `{U : Uuid}.

(** One device of the second loop of [acquire]: the existing row is renewed, or a
    new row is inserted with a fresh identifier and the next generation.  [t0] is
    the table the conflict scan saw, whose hits are [existing_by_key]. *)
(* src/foundation/device_claims.py:159-229 DeviceClaimRegistry.acquire *)
Definition acquire_device (now expires_at : Z) (owner_id username source_type source_id : string)
    (t0 : list claim) (d : device) : M registry claim :=
  match holder (dv_device_key d) t0 with
  | Some existing =>
      let touch c := c <| cl_heartbeat_at := now |> <| cl_expires_at := expires_at |> in
      _ ← modify (λ r, r <| rg_claims ::=
                    update_where (λ c, id_is (cl_id existing) c && is_active c) touch |>);
      mret (touch existing)
  | None =>
      t ← gets rg_claims;
      n ← gets rg_drawn;
      _ ← modify (λ r, r <| rg_drawn ::= S |>);
      let row := {|
        cl_id := "claim-" +:+ uuid_hex n;
        cl_device_key := dv_device_key d;
        cl_worker_id := dv_worker_id d;
        cl_serial := dv_serial d;
        cl_owner_id := owner_id;
        cl_username := str_or username owner_id;
        cl_source_type := str_or source_type "unknown";
        cl_source_id := source_id;
        cl_status := ClaimActive;
        cl_generation := Z.max (dv_generation_floor d) (max_generation (dv_device_key d) t + 1);
        cl_acquired_at := now;
        cl_heartbeat_at := now;
        cl_expires_at := expires_at;
        cl_released_at := None |} in
      _ ← insert_claim row;
      mret row
  end.

(** [acquire]: [Ok (true, records)] or [Ok (false, conflicts)].  A conflict or an
    exception rolls the transaction back (the drawn identifiers stay drawn). *)
(* src/foundation/device_claims.py:120-233 DeviceClaimRegistry.acquire *)
Definition acquire (now : Z) (devices : list device_req)
    (owner_id username source_type source_id : string) (ttl_seconds : Z)
    (allow_existing_source : bool) : M registry (bool * list claim) := λ r,
  match normalize_devices devices with
  | Err e => (Err e, r)
  | Ok requested =>
      let owner := strip owner_id in
      let source := strip source_id in
      if negb (nonempty owner) || negb (nonempty source)
      then (Err (ValueError "device claim owner and source are required"), r)
      else
        let t0 := expire now (rg_claims r) in
        match conflicts_of owner source allow_existing_source t0 requested with
        | [] =>
            match forM requested
                    (acquire_device now (expires now ttl_seconds) owner
                       username source_type source t0)
                    (r <| rg_claims := t0 |>) with
            | (Ok records, r') => (Ok (true, records), r')
            | (Err e, r') => (Err e, r <| rg_drawn := rg_drawn r' |>)
            end
        | conflicts => (Ok (false, conflicts), r)
        end
  end.
End registry.

(** A [SELECT] that first expires overdue rows, and commits that. *)
Definition select_after_expire {A} (now : Z) (q : list claim → A) : M registry A :=
  _ ← modify (λ r, r <| rg_claims ::= expire now |>);
  gets (λ r, q (rg_claims r)).

(* src/foundation/device_claims.py:235-248 DeviceClaimRegistry.active_claim *)
Definition active_claim (now : Z) (device_key : string) : M registry (option claim) :=
  select_after_expire now (holder device_key).

(** An empty [worker_id] or [owner_id] adds no clause. *)
(* src/foundation/device_claims.py:250-276 DeviceClaimRegistry.list_active *)
Definition list_active (now : Z) (worker_id owner_id : string) : M registry (list claim) :=
  select_after_expire now (fetchall (λ c, is_active c
    && (negb (nonempty worker_id) || worker_is worker_id c)
    && (negb (nonempty owner_id) || owner_is owner_id c))).

(* src/foundation/device_claims.py:278-292 DeviceClaimRegistry.list_by_source *)
Definition list_by_source (now : Z) (source_id : string) : M registry (list claim) :=
  select_after_expire now (fetchall (λ c, source_is source_id c && is_active c)).

(** One [UPDATE ... WHERE p], returning its row count. *)
Definition update_claims (p : claim → bool) (f : claim → claim) : M registry nat :=
  n ← gets (λ r, rowcount p (rg_claims r));
  _ ← modify (λ r, r <| rg_claims ::= update_where p f |>);
  mret n.

(* src/foundation/device_claims.py:294-320 DeviceClaimRegistry.renew *)
Definition renew (now : Z) (source_id : string) (ttl_seconds : Z) (device_keys : list string)
    : M registry nat :=
  _ ← modify (λ r, r <| rg_claims ::= expire now |>);
  update_claims (λ c, source_is source_id c && is_active c && in_keys device_keys c)
    (λ c, c <| cl_heartbeat_at := now |> <| cl_expires_at := expires now ttl_seconds |>).

Definition key_set (rows : list claim) : gset string := list_to_set (cl_device_key <$> rows).

(** An empty [owner_id] or an empty [device_keys] adds no guard; a rollback also
    undoes the expiry. *)
(* src/foundation/device_claims.py:322-366 DeviceClaimRegistry.transfer *)
Definition transfer (now : Z) (old_source_id new_source_id source_type : string)
    (ttl_seconds : Z) (owner_id : string) (device_keys : list string) : M registry nat := λ r,
  let t := expire now (rg_claims r) in
  let moved c := source_is old_source_id c && is_active c in
  let rows := fetchall moved t in
  if bool_decide (rows = []) then (Ok 0%nat, r)
  else if nonempty owner_id && exists_row (λ c, negb (owner_is owner_id c)) rows
  then (Ok 0%nat, r)
  else if bool_decide (device_keys ≠ [])
          && bool_decide (key_set rows ≠ list_to_set device_keys)
  then (Ok 0%nat, r)
  else update_claims moved
         (λ c, c <| cl_source_id := new_source_id |> <| cl_source_type := source_type |>
                 <| cl_heartbeat_at := now |> <| cl_expires_at := expires now ttl_seconds |>)
         (r <| rg_claims := t |>).

(** The statuses [release] accepts. *)
Definition parse_release_status (s : string) : option claim_status :=
  if streqb s "released" then Some ClaimReleased
  else if streqb s "cancelled" then Some ClaimCancelled
  else if streqb s "converted" then Some ClaimConverted
  else if streqb s "expired" then Some ClaimExpired
  else if streqb s "failed" then Some ClaimFailed
  else if streqb s "reconciled" then Some ClaimReconciled
  else None.

(* src/foundation/device_claims.py:368-395 DeviceClaimRegistry.release *)
Definition release (now : Z) (source_id status : string) (device_keys : list string)
    : M registry nat :=
  match parse_release_status status with
  | None => raise (ValueError "invalid device claim release status")
  | Some st =>
      update_claims (λ c, source_is source_id c && is_active c && in_keys device_keys c)
        (retire now st)
  end.

(* src/foundation/device_claims.py:397-422 DeviceClaimRegistry.release_operation_if_current *)
Definition release_operation_if_current (now : Z) (device_key lease_id : string)
    (generation : Z) (source_id : string) : M registry bool := λ r,
  let t := expire now (rg_claims r) in
  match fetchone (λ c, key_is device_key c && id_is lease_id c
                       && (cl_generation c =? generation) && source_is source_id c
                       && is_active c) t with
  | None => (Ok false, r)
  | Some row =>
      (Ok true, r <| rg_claims := t |> <| rg_claims ::= update_where
        (λ c, source_is source_id c && owner_is (cl_owner_id row) c
              && worker_is (cl_worker_id row) c && is_active c)
        (retire now ClaimCancelled) |>)
  end.

(* src/foundation/device_claims.py:424-442 DeviceClaimRegistry.force_release *)
Definition force_release (now : Z) (device_key : string) : M registry (option claim) := λ r,
  match holder device_key (rg_claims r) with
  | None => (Ok None, r)
  | Some row =>
      (Ok (Some row), r <| rg_claims ::=
         update_where (λ c, id_is (cl_id row) c && is_active c) (retire now ClaimCancelled) |>)
  end.

(** ** Traces: any sequence of operations at any clock readings *)

Inductive op :=
  | OpAcquire (devices : list device_req) (owner_id username source_type source_id : string)
      (ttl_seconds : Z) (allow_existing_source : bool)
  | OpActiveClaim (device_key : string)
  | OpListActive (worker_id owner_id : string)
  | OpListBySource (source_id : string)
  | OpRenew (source_id : string) (ttl_seconds : Z) (device_keys : list string)
  | OpTransfer (old_source_id new_source_id source_type : string) (ttl_seconds : Z)
      (owner_id : string) (device_keys : list string)
  | OpRelease (source_id status : string) (device_keys : list string)
  | OpReleaseOperation (device_key lease_id : string) (generation : Z) (source_id : string)
  | OpForceRelease (device_key : string).

Definition step `{Uuid} (now : Z) (o : op) : registry → registry :=
  match o with
  | OpAcquire ds ow us st so ttl al => exec (acquire now ds ow us st so ttl al)
  | OpActiveClaim k => exec (active_claim now k)
  | OpListActive w ow => exec (list_active now w ow)
  | OpListBySource so => exec (list_by_source now so)
  | OpRenew so ttl ks => exec (renew now so ttl ks)
  | OpTransfer so so' st ttl ow ks => exec (transfer now so so' st ttl ow ks)
  | OpRelease so st ks => exec (release now so st ks)
  | OpReleaseOperation k l g so => exec (release_operation_if_current now k l g so)
  | OpForceRelease k => exec (force_release now k)
  end.

Definition run_trace `{Uuid} (tr : list (Z * op)) (r : registry) : registry :=
  foldl (λ r '(now, o), step now o r) r tr.

Definition empty_registry : registry := Registry [] 0.

(** ** Well-formed registries *)

Record wf `{Uuid} (r : registry) : Prop := {
  wf_ids : unique_index (λ _, true) cl_id (rg_claims r);
  wf_active : unique_index is_active cl_device_key (rg_claims r);
  wf_drawn : ∀ c, c ∈ rg_claims r → ∃ n, (n < rg_drawn r)%nat ∧ cl_id c = "claim-" +:+ uuid_hex n;
  wf_positive : ∀ c, c ∈ rg_claims r → 1 ≤ cl_generation c;
  wf_fence : ∀ a c, a ∈ rg_claims r → c ∈ rg_claims r → is_active a = true →
    cl_device_key c = cl_device_key a → cl_generation c ≤ cl_generation a;
  wf_released : ∀ c, c ∈ rg_claims r → is_active c = true ↔ cl_released_at c = None;
}.

Definition drawn_le : relation registry := λ r r', (rg_drawn r ≤ rg_drawn r')%nat.
#[export] Instance drawn_le_preorder : PreOrder drawn_le.
Proof. split; unfold drawn_le; [by intros r|intros ???; lia]. Qed.

(** A row rewrite that keeps identity and fencing, and never revives a row. *)
Record settles (f : claim → claim) : Prop := {
  st_id : ∀ c, cl_id (f c) = cl_id c;
  st_key : ∀ c, cl_device_key (f c) = cl_device_key c;
  st_gen : ∀ c, cl_generation (f c) = cl_generation c;
  st_act : ∀ c, is_active (f c) = true → is_active c = true;
  st_rel : ∀ c, (is_active c = true ↔ cl_released_at c = None) →
    (is_active (f c) = true ↔ cl_released_at (f c) = None);
}.

(** [foreign c o]: [o] is not made on behalf of the source of the claim [c], and is
    not an administrator's forced release of its device. *)
Definition foreign (c : claim) (o : op) : Prop :=
  match o with
  | OpAcquire _ _ _ _ source_id _ _ => strip source_id ≠ cl_source_id c
  | OpRenew source_id _ _ | OpRelease source_id _ _ | OpReleaseOperation _ _ _ source_id =>
      source_id ≠ cl_source_id c
  | OpTransfer old_source_id _ _ _ _ _ => old_source_id ≠ cl_source_id c
  | OpForceRelease device_key => device_key ≠ cl_device_key c
  | OpActiveClaim _ | OpListActive _ _ | OpListBySource _ => True
  end.

(** [advances r r']: no row of [r] disappears, rows keep identifier, device and
    generation and are never revived, and a row that is new in [r'] has a generation
    above all those its device had in [r]. *)
Definition claim_continues (c c' : claim) : Prop :=
  cl_id c = cl_id c' ∧ cl_device_key c = cl_device_key c' ∧ cl_generation c = cl_generation c' ∧
  (is_active c' = true → is_active c = true).
Record advances (r r' : registry) : Prop := {
  ad_kept : ∀ c, c ∈ rg_claims r → ∃ c', c' ∈ rg_claims r' ∧ claim_continues c c';
  ad_new : ∀ c', c' ∈ rg_claims r' →
    (∃ c, c ∈ rg_claims r ∧ claim_continues c c') ∨
    (∀ c, c ∈ rg_claims r → cl_device_key c = cl_device_key c' →
          cl_generation c < cl_generation c');
}.

(** ** What a grant is *)

(** All the rows a device ever had. *)
Definition rows (k : string) (t : list claim) : list claim := fetchall (key_is k) t.

(** [granted ... t0 d c]: the row [c] answers the request [d] against the table [t0]:
    either the requester's own active row, with its times renewed, or a new row whose
    generation is above every generation of the device. *)
Definition granted (now expires_at : Z) (owner_id source_id : string) (t0 : list claim)
    (d : device) (c : claim) : Prop :=
  cl_device_key c = dv_device_key d ∧ cl_owner_id c = owner_id ∧
  cl_source_id c = source_id ∧ cl_heartbeat_at c = now ∧ cl_expires_at c = expires_at ∧
  match holder (dv_device_key d) t0 with
  | Some old => c = old <| cl_heartbeat_at := now |> <| cl_expires_at := expires_at |>
  | None => cl_worker_id c = dv_worker_id d ∧ cl_serial c = dv_serial d ∧
            cl_acquired_at c = now ∧ dv_generation_floor d ≤ cl_generation c ∧
            ∀ old, old ∈ rows (dv_device_key d) t0 → cl_generation old < cl_generation c
  end.

(** ** Lemmas *)
Section lemmas.
Context `{U : Uuid}.
Implicit Types (r : registry) (c : claim) (t : list claim) (d : device).

Lemma settles_retire now st : st ≠ ClaimActive → settles (retire now st).
Proof.
  intros Hst. split; try done; unfold is_active; simpl; intros c.
  - by rewrite bool_decide_eq_true.
  - intros _. rewrite bool_decide_eq_true. split; [done|intros [=]].
Qed.
Lemma settles_keep f :
  (∀ c, cl_id (f c) = cl_id c) → (∀ c, cl_device_key (f c) = cl_device_key c) →
  (∀ c, cl_generation (f c) = cl_generation c) → (∀ c, cl_status (f c) = cl_status c) →
  (∀ c, cl_released_at (f c) = cl_released_at c) → settles f.
Proof.
  intros ??? Hst Hrel. split; try done; intros c; unfold is_active; rewrite Hst; [done|].
  by rewrite Hrel.
Qed.

Lemma wf_update r p f : settles f → wf r → wf (r <| rg_claims ::= update_where p f |>).
Proof.
  intros [Hid Hkey Hgen Hact Hrel] [Hu Ha Hd Hp Hf Hr]. split; simpl.
  - apply unique_index_update; auto.
  - apply unique_index_update; auto.
  - intros c (c0&Hc0&->)%elem_of_update_where.
    destruct (p c0); rewrite ?Hid; by apply Hd.
  - intros c (c0&Hc0&->)%elem_of_update_where.
    destruct (p c0); rewrite ?Hgen; by apply Hp.
  - intros a c (a0&Ha0&->)%elem_of_update_where (c0&Hc0&->)%elem_of_update_where Hac Hk.
    assert (is_active a0 = true) by (destruct (p a0); auto).
    assert (cl_device_key c0 = cl_device_key a0)
      by (destruct (p a0), (p c0); rewrite ?Hkey in Hk; done).
    destruct (p a0), (p c0); rewrite ?Hgen; by apply Hf.
  - intros c (c0&Hc0&->)%elem_of_update_where. destruct (p c0); auto.
Qed.

Lemma active_update p f t :
  settles f → unique_index is_active cl_device_key t →
  unique_index is_active cl_device_key (update_where p f t).
Proof. intros [_ Hkey _ Hact _] Hu. apply unique_index_update; auto. Qed.

Lemma wf_expire now r : wf r → wf (r <| rg_claims ::= expire now |>).
Proof. apply wf_update, settles_retire. done. Qed.

Lemma max_generation_ge k t c : c ∈ t → cl_device_key c = k → cl_generation c ≤ max_generation k t.
Proof.
  intros Hc Hk. assert (c ∈ fetchall (key_is k) t) as Hin.
  { apply elem_of_fetchall. split; [by apply bool_decide_eq_true|done]. }
  unfold max_generation. clear Hc Hk. induction (fetchall (key_is k) t) as [|x l IH].
  - by apply not_elem_of_nil in Hin.
  - apply elem_of_cons in Hin as [<-|Hin]; simpl; [apply Z.le_max_l|].
    etrans; [by apply IH|apply Z.le_max_r].
Qed.
Lemma max_generation_nonneg k t : 0 ≤ max_generation k t.
Proof. unfold max_generation. induction (cl_generation <$> _) as [|x l IH]; simpl; [done|].
  etrans; [exact IH|apply Z.le_max_r]. Qed.

Lemma uuid_prefix_inj (p : string) n m : p +:+ uuid_hex n = p +:+ uuid_hex m → n = m.
Proof. intros H%(inj (String.app p)). by apply uuid_hex_inj in H. Qed.

Lemma wf_insert r row n :
  wf r → (n < rg_drawn r)%nat → cl_id row = "claim-" +:+ uuid_hex n →
  is_active row = true → cl_released_at row = None →
  max_generation (cl_device_key row) (rg_claims r) < cl_generation row →
  wf (insert_claim row r).2.
Proof.
  intros Hw Hn Hid Hact Hrel Hgen. unfold insert_claim.
  destruct (exists_row (id_is _) _) eqn:Eid; [done|].
  destruct (_ && exists_row _ _) eqn:Eact; [done|]. simpl.
  destruct Hw as [Hu Ha Hd Hp Hf Hr].
  rewrite exists_row_false in Eid. rewrite Hact in Eact. simpl in Eact.
  rewrite exists_row_false in Eact.
  split; simpl.
  - apply unique_index_snoc; [done|]. intros _ c Hc _ Heq.
    specialize (Eid c Hc). unfold id_is in Eid. bool_props. done.
  - apply unique_index_snoc; [done|]. intros _ c Hc Hca Heq.
    specialize (Eact c Hc). rewrite Hca, andb_true_r in Eact. unfold key_is in Eact.
    bool_props. done.
  - intros c [Hc| ->%list_elem_of_singleton]%elem_of_app; [by apply Hd|]. eauto.
  - intros c [Hc| ->%list_elem_of_singleton]%elem_of_app; [by apply Hp|].
    pose proof (max_generation_nonneg (cl_device_key row) (rg_claims r)). lia.
  - intros a c [Hain| ->%list_elem_of_singleton]%elem_of_app
      [Hcin| ->%list_elem_of_singleton]%elem_of_app Haa Hk; [by apply Hf| | |done].
    + specialize (Eact a Hain). rewrite Haa, andb_true_r in Eact. unfold key_is in Eact.
      bool_props. congruence.
    + pose proof (max_generation_ge _ _ _ Hcin Hk). lia.
  - intros c [Hc| ->%list_elem_of_singleton]%elem_of_app; [by apply Hr|]. by rewrite Hact.
Qed.

Lemma wf_draw r n : (rg_drawn r ≤ n)%nat → wf r → wf (r <| rg_drawn := n |>).
Proof.
  intros Hn [Hu Ha Hd Hp Hf Hr]. split; try done. simpl.
  intros c Hc. destruct (Hd c Hc) as (m&?&?). exists m. split; [lia|done].
Qed.

(** *** Every operation keeps the registry well formed *)

Lemma acquire_device_wf now ex ow us st so t0 d :
  preserves (keeps wf) (acquire_device now ex ow us st so t0 d).
Proof.
  intros r Hw. unfold acquire_device. destruct (holder _ t0) as [c|].
  - simpl. by apply wf_update; [apply settles_keep|].
  - monad. rewrite snd_match_result.
    apply (wf_insert _ _ (rg_drawn r)); simpl; try done; [|lia|lia].
    apply (wf_draw _ (S (rg_drawn r))); [lia|done].
Qed.
Lemma acquire_device_drawn now ex ow us st so t0 d :
  preserves drawn_le (acquire_device now ex ow us st so t0 d).
Proof.
  intros r. unfold acquire_device, drawn_le. destruct (holder _ t0) as [c|]; [done|].
  monad. rewrite snd_match_result.
  unfold insert_claim. repeat case_match; simpl; lia.
Qed.

Lemma acquire_wf now ds ow us st so ttl al :
  preserves (keeps wf) (acquire now ds ow us st so ttl al).
Proof.
  intros r Hw. unfold acquire. destruct (normalize_devices ds) as [req|e]; [|done].
  destruct (_ || _); [done|]. destruct (conflicts_of _ _ _ _ _); [|done].
  destruct (forM _ _ _) as [[recs|e] r'] eqn:E; simpl.
  - change r' with (Ok recs, r').2. rewrite <-E.
    apply (preserves_forM (keeps wf)); [intros d; apply acquire_device_wf|by apply wf_expire].
  - apply wf_draw; [|done]. change r' with (@Err (list claim) e, r').2. rewrite <-E.
    rewrite <-(preserves_forM drawn_le); [done|].
    intros d. apply acquire_device_drawn.
Qed.
Lemma update_claims_wf p f : settles f → preserves (keeps wf) (update_claims p f).
Proof. intros Hf r Hw. by apply wf_update. Qed.
Lemma select_after_expire_wf {A} now (q : list claim → A) :
  preserves (keeps wf) (select_after_expire now q).
Proof. intros r Hw. by apply wf_expire. Qed.
Lemma release_status_inactive s st : parse_release_status s = Some st → st ≠ ClaimActive.
Proof. unfold parse_release_status. intros H. by case_tests. Qed.

Lemma step_wf now o r : wf r → wf (step now o r).
Proof.
  destruct o; simpl; unfold exec.
  - apply acquire_wf.
  - apply select_after_expire_wf.
  - apply select_after_expire_wf.
  - apply select_after_expire_wf.
  - intros Hw. apply update_claims_wf; [by apply settles_keep|by apply wf_expire].
  - intros Hw. unfold transfer. repeat case_match; try done.
    apply (update_claims_wf _ _); [by apply settles_keep|by apply (wf_expire now)].
  - intros Hw. unfold release. destruct (parse_release_status _) eqn:E; [|done].
    by apply update_claims_wf; [eapply settles_retire, release_status_inactive|].
  - intros Hw. unfold release_operation_if_current. case_match; [|done]. simpl.
    apply wf_update; [by apply settles_retire|by apply (wf_expire now)].
  - intros Hw. unfold force_release. case_match; [|done].
    by apply wf_update; [apply settles_retire|].
Qed.
Lemma run_trace_wf tr r : wf r → wf (run_trace tr r).
Proof.
  unfold run_trace. revert r. induction tr as [|[now o] tr IH]; intros r Hw; [done|].
  simpl. by apply IH, step_wf.
Qed.
Lemma empty_registry_wf : wf empty_registry.
Proof. split; [apply NoDup_nil_2|apply NoDup_nil_2|..]; simpl; set_solver. Qed.

(** *** The holder of a device *)

Lemma holder_Some k t c :
  holder k t = Some c → c ∈ t ∧ cl_device_key c = k ∧ is_active c = true.
Proof. intros [? ?]%fetchone_Some. unfold key_is in *. bool_props. done. Qed.
Lemma holder_None k t c : holder k t = None → c ∈ t → cl_device_key c = k → is_active c = false.
Proof.
  unfold holder. rewrite fetchone_None. intros H Hc Hk. specialize (H c Hc).
  unfold key_is, streqb in H. by rewrite bool_decide_eq_true_2 in H.
Qed.
Lemma holder_rows k t : holder k t = fetchone is_active (rows k t).
Proof. unfold holder, fetchone, rows. by rewrite fetchall_fetchall. Qed.
Lemma holder_intro k t c :
  unique_index is_active cl_device_key t → c ∈ t → is_active c = true →
  cl_device_key c = k → holder k t = Some c.
Proof.
  intros Hu Hc Ha <-. eapply unique_index_fetchone; [done|done|done| |].
  - unfold key_is, streqb. by rewrite bool_decide_eq_true_2.
  - intros c' _ H. unfold key_is in H. bool_props. done.
Qed.
Lemma elem_of_rows k t c : c ∈ rows k t ↔ c ∈ t ∧ cl_device_key c = k.
Proof.
  unfold rows. rewrite elem_of_fetchall. unfold key_is, streqb.
  rewrite bool_decide_eq_true. tauto.
Qed.

(** *** Normalised requests *)

Lemma normalize_from_nodup seen ds :
  NoDup (dv_device_key <$> normalize_from seen ds) ∧
  ∀ d, d ∈ normalize_from seen ds → dv_device_key d ∉ seen.
Proof.
  revert seen. induction ds as [|x ds IH]; intros seen; simpl.
  { split; [apply NoDup_nil_2|set_solver]. }
  destruct (_ || mem _ _) eqn:E; [apply IH|].
  destruct (IH (strip (dr_device_key x) :: seen)) as [Hnd Hni]. bool_props.
  simpl. split.
  - apply NoDup_cons. split; [|done]. intros (d&Hd&Hin)%list_elem_of_fmap.
    apply (Hni d Hin). rewrite <-Hd. left.
  - intros d [->|Hd]%elem_of_cons; [|intros Hx; apply (Hni d Hd); by right].
    simpl. unfold mem in *. by bool_props.
Qed.
Lemma normalize_nodup ds req : normalize_devices ds = Ok req → NoDup (dv_device_key <$> req).
Proof.
  unfold normalize_devices. pose proof (normalize_from_nodup [] ds) as [H _].
  by case_match; intros [= <-].
Qed.

(** *** The grant loop *)

Lemma acquire_device_spec now ex ow us st so t0 d r :
  wf r →
  rows (dv_device_key d) t0 = rows (dv_device_key d) (rg_claims r) →
  (∀ old, holder (dv_device_key d) t0 = Some old → cl_owner_id old = ow ∧ cl_source_id old = so) →
  ∃ c r', acquire_device now ex ow us st so t0 d r = (Ok c, r') ∧ wf r' ∧
    holder (dv_device_key d) (rg_claims r') = Some c ∧ granted now ex ow so t0 d c ∧
    ∀ k, k ≠ dv_device_key d → rows k (rg_claims r') = rows k (rg_claims r).
Proof.
  intros Hw Hrows Hown.
  pose proof (acquire_device_wf now ex ow us st so t0 d r Hw) as Hw'.
  unfold acquire_device, granted in *. rewrite (holder_rows _ t0) in *. rewrite Hrows, <-holder_rows in *.
  destruct (holder _ (rg_claims r)) as [c|] eqn:Eh.
  - destruct (holder_Some _ _ _ Eh) as (Hc&Hk&Ha). destruct (Hown c eq_refl) as [??].
    eexists _, _. split; [done|]. split; [done|]. split; [|split; [done|]].
    + apply holder_intro; [apply Hw'| |done|done].
      apply elem_of_update_where. exists c. split; [done|].
      unfold id_is, streqb. by rewrite bool_decide_eq_true_2, Ha by done.
    + intros k Hne. apply fetchall_update_frame. simpl. intros c' Hc' Hp. bool_props.
      unfold id_is, key_is in *. bool_props.
      assert (c' = c) as -> by (eapply unique_index_inj; [apply Hw|..]; done).
      by split; apply bool_decide_eq_false_2; simpl; congruence.
  - revert Hw'. unfold insert_claim. monad.
    set (row := Claim _ _ _ _ _ _ _ _ _ _ _ _ _ _).
    assert (exists_row (id_is ("claim-" +:+ uuid_hex (rg_drawn r))) (rg_claims r) = false) as ->.
    { apply exists_row_false. intros c Hc. unfold id_is. apply bool_decide_eq_false_2.
      destruct (wf_drawn _ Hw c Hc) as (n&Hn&->). simpl. intros Heq%uuid_prefix_inj. lia. }
    assert (exists_row (λ c, key_is (dv_device_key d) c && is_active c) (rg_claims r) = false) as ->.
    { apply exists_row_false, fetchone_None. done. }
    simpl. intros Hw'. eexists _, _. split; [done|]. split; [done|]. split; [|split].
    + apply holder_intro; [apply Hw'| |done|done].
      apply elem_of_app. right. by apply list_elem_of_singleton.
    + simpl. repeat (split; [done || apply Z.le_max_l|]). intros old [Hold Hk]%elem_of_rows.
      pose proof (max_generation_ge _ _ _ Hold Hk). lia.
    + intros k Hne. unfold rows. simpl. rewrite fetchall_snoc.
      assert (key_is k row = false) as -> by (apply bool_decide_eq_false_2; done).
      by rewrite app_nil_r.
Qed.

Lemma granted_frame now ex ow so t1 t2 d c :
  rows (dv_device_key d) t1 = rows (dv_device_key d) t2 →
  granted now ex ow so t1 d c → granted now ex ow so t2 d c.
Proof. intros H. unfold granted. by rewrite !holder_rows, H. Qed.

Lemma acquire_devices_spec now ex ow us st so t0 req r :
  wf r → NoDup (dv_device_key <$> req) →
  (∀ d, d ∈ req → rows (dv_device_key d) t0 = rows (dv_device_key d) (rg_claims r)) →
  (∀ d old, d ∈ req → holder (dv_device_key d) t0 = Some old →
     cl_owner_id old = ow ∧ cl_source_id old = so) →
  ∃ recs r', forM req (acquire_device now ex ow us st so t0) r = (Ok recs, r') ∧ wf r' ∧
    Forall2 (λ d c, holder (dv_device_key d) (rg_claims r') = Some c ∧
                    granted now ex ow so t0 d c) req recs ∧
    ∀ k, k ∉ (dv_device_key <$> req) → rows k (rg_claims r') = rows k (rg_claims r).
Proof.
  revert r. induction req as [|d req IH]; intros r Hw Hnd Hrows Hown.
  { eexists _, _. split; [done|]. split; [done|]. split; [constructor|done]. }
  rewrite fmap_cons in Hnd. apply NoDup_cons in Hnd as [Hni Hnd].
  destruct (acquire_device_spec now ex ow us st so t0 d r) as (c&r1&E1&Hw1&Hh1&Hg1&Hf1);
    [done|apply Hrows; left|intros old; apply Hown; left|].
  assert (Hne : ∀ d', d' ∈ req → dv_device_key d' ≠ dv_device_key d).
  { intros d' Hd' Heq. apply Hni. rewrite <-Heq. by apply list_elem_of_fmap_2. }
  destruct (IH r1) as (recs&r2&E2&Hw2&Hall&Hf2); [done|done| | |].
  { intros d' Hd'. rewrite Hf1 by auto. apply Hrows. by right. }
  { intros d' old Hd'. apply Hown. by right. }
  exists (c :: recs), r2. simpl. unfold mbind, M_bind. rewrite E1, E2.
  split; [done|]. split; [done|]. split.
  - constructor; [|done]. split; [|done]. by rewrite holder_rows, Hf2, <-holder_rows.
  - intros k Hk. apply not_elem_of_cons in Hk as [??].
    by rewrite Hf2, Hf1.
Qed.

Lemma conflicting_true ow so al c :
  conflicting ow so al c = true ↔ cl_owner_id c ≠ ow ∨ cl_source_id c ≠ so ∨ al = false.
Proof.
  unfold conflicting, owner_is, source_is, streqb.
  rewrite !orb_true_iff, !negb_true_iff, !bool_decide_eq_false. tauto.
Qed.
Lemma elem_of_conflicts ow so al t req c :
  c ∈ conflicts_of ow so al t req ↔
  ∃ d, d ∈ req ∧ holder (dv_device_key d) t = Some c ∧ conflicting ow so al c = true.
Proof.
  unfold conflicts_of. rewrite list_elem_of_omap. split; intros (d&Hd&H); exists d.
  - split; [done|]. destruct (holder _ t) as [row|]; [|done].
    destruct (conflicting _ _ _ row) eqn:E; by simplify_eq.
  - destruct H as [-> ->]. done.
Qed.
Lemma conflicts_nil ow so al t req d old :
  conflicts_of ow so al t req = [] → d ∈ req → holder (dv_device_key d) t = Some old →
  cl_owner_id old = ow ∧ cl_source_id old = so ∧ al = true.
Proof.
  intros Hnil Hd Hh. destruct (conflicting ow so al old) eqn:E.
  - assert (old ∈ conflicts_of ow so al t req) as Hin by (apply elem_of_conflicts; eauto).
    rewrite Hnil in Hin. by apply not_elem_of_nil in Hin.
  - unfold conflicting, owner_is, source_is in E. by bool_props.
Qed.

(** *** What [acquire] returns *)

Lemma acquire_ok now ds ow us st so ttl al r req :
  wf r → normalize_devices ds = Ok req → strip ow ≠ "" → strip so ≠ "" →
  conflicts_of (strip ow) (strip so) al (expire now (rg_claims r)) req = [] →
  ∃ recs r', acquire now ds ow us st so ttl al r = (Ok (true, recs), r') ∧
    Forall2 (λ d c, holder (dv_device_key d) (rg_claims r') = Some c ∧
        granted now (expires now ttl) (strip ow) (strip so) (expire now (rg_claims r)) d c)
      req recs ∧
    ∀ k, k ∉ (dv_device_key <$> req) → rows k (rg_claims r') = rows k (expire now (rg_claims r)).
Proof.
  intros Hw Hn How Hso Hc.
  destruct (acquire_devices_spec now (expires now ttl) (strip ow) us st (strip so)
    (expire now (rg_claims r)) req (r <| rg_claims := expire now (rg_claims r) |>))
    as (recs&r'&E&_&Hall&Hf).
  - by apply (wf_expire now).
  - by eapply normalize_nodup.
  - done.
  - intros d old Hd Hh. by destruct (conflicts_nil _ _ _ _ _ _ _ Hc Hd Hh) as (?&?&_).
  - exists recs, r'. unfold acquire, nonempty. rewrite Hn, !bool_decide_eq_true_2 by done.
    simpl. by rewrite Hc, E.
Qed.
(** Whatever it returns: either all the requested claims, or none and an unchanged table. *)
Lemma acquire_inv now ds ow us st so ttl al r :
  wf r →
  let (a, r') := acquire now ds ow us st so ttl al r in
  (∃ recs req, a = Ok (true, recs) ∧ normalize_devices ds = Ok req ∧
     Forall2 (λ d c, holder (dv_device_key d) (rg_claims r') = Some c ∧
        granted now (expires now ttl) (strip ow) (strip so) (expire now (rg_claims r)) d c) req recs) ∨
  ((∀ recs, a ≠ Ok (true, recs)) ∧ rg_claims r' = rg_claims r).
Proof.
  intros Hw. unfold acquire. destruct (normalize_devices ds) as [req|e] eqn:Hn; [|by right].
  destruct (negb (nonempty (strip ow)) || _) eqn:E; [by right|].
  destruct (conflicts_of _ _ _ _ _) as [|c cs] eqn:Hc; [|by right].
  unfold nonempty in E. bool_props.
  destruct (acquire_ok now ds ow us st so ttl al r req Hw Hn) as (recs&r'&Ha&Hall&_); [done|done|done|].
  unfold acquire, nonempty in Ha. rewrite Hn, !bool_decide_eq_true_2 in Ha by done. simpl in Ha. rewrite Hc in Ha.
  rewrite Ha. left. by exists recs, req.
Qed.
Lemma normalize_from_in seen ds q :
  q ∈ ds → strip (dr_device_key q) ∉ seen → strip (dr_device_key q) ≠ "" → strip (dr_worker_id q) ≠ "" →
  strip (dr_serial q) ≠ "" → ∃ d, d ∈ normalize_from seen ds ∧ dv_device_key d = strip (dr_device_key q).
Proof.
  revert seen. induction ds as [|x ds IH]; intros seen Hq Hs H1 H2 H3; [by apply not_elem_of_nil in Hq|].
  simpl. destruct (_ || mem _ seen) eqn:E.
  - apply IH; try done. apply elem_of_cons in Hq as [->|]; [|done]. exfalso.
    unfold nonempty, mem in E. apply orb_true_iff in E as [E|E]; [|by bool_props].
    apply orb_true_iff in E as [E|E]; [apply orb_true_iff in E as [E|E]|]; bool_props; tauto.
  - destruct (decide (strip (dr_device_key q) = strip (dr_device_key x))) as [->|Hne].
    + eexists. split; [left|done].
    + apply elem_of_cons in Hq as [->|Hq]; [done|].
      destruct (IH (strip (dr_device_key x) :: seen) Hq) as (d&Hd&Hk); try done.
      { intros [|]%elem_of_cons; done. }
      exists d. split; [by right|done].
Qed.

(** *** Foreign operations leave a live claim alone *)

Lemma live_expire now t c :
  c ∈ t → now < cl_expires_at c → c ∈ expire now t.
Proof.
  intros Hc Hlive. apply elem_of_update_where_keep; [done|].
  unfold overdue. apply andb_false_iff. right. by apply Z.leb_gt.
Qed.

Lemma holder_expire_Some now k t c :
  holder k (expire now t) = Some c → c ∈ t ∧ cl_device_key c = k ∧ is_active c = true ∧ now < cl_expires_at c.
Proof.
  intros ((c0&Hc0&->)%elem_of_update_where&Hk&Ha)%holder_Some. destruct (overdue now c0) eqn:E.
  - by unfold retire, is_active in Ha.
  - split; [done|]. split; [done|]. split; [done|]. unfold overdue in E. rewrite Ha in E. simpl in E. bool_props. lia.
Qed.
Lemma acquire_foreign now ds ow us st so ttl al r c :
  wf r → c ∈ rg_claims r → is_active c = true → now < cl_expires_at c →
  strip so ≠ cl_source_id c → c ∈ rg_claims (exec (acquire now ds ow us st so ttl al) r).
Proof.
  intros Hw Hc Ha Hlive Hne. unfold exec, acquire.
  destruct (normalize_devices ds) as [req|] eqn:En; [|done]. destruct (_ || _); [done|].
  destruct (conflicts_of _ _ _ _ _) eqn:Ec; [|done].
  pose proof (wf_expire now _ Hw) as Hw0.
  pose proof (live_expire _ _ _ Hc Hlive) as Hc0.
  destruct (acquire_devices_spec now (expires now ttl) (strip ow) us st (strip so)
    (expire now (rg_claims r)) req (r <| rg_claims := expire now (rg_claims r) |>))
    as (recs&r'&->&_&_&Hf); [done|by eapply normalize_nodup|done| |].
  { intros d old Hd Hh. by destruct (conflicts_nil _ _ _ _ _ _ _ Ec Hd Hh) as (?&?&_). }
  assert (c ∈ rows (cl_device_key c) (rg_claims r')) as [? _]%elem_of_rows; [|done].
  rewrite Hf; [by apply elem_of_rows|].
  intros (d&Hk&Hd)%list_elem_of_fmap.
  destruct (conflicts_nil _ _ _ _ _ d c Ec Hd) as (_&Hso&_); [|done].
  by apply holder_intro; [apply Hw0|..].
Qed.

Lemma step_foreign now o r c :
  wf r → c ∈ rg_claims r → is_active c = true → now < cl_expires_at c → foreign c o →
  c ∈ rg_claims (step now o r).
Proof.
  intros Hw Hc Ha Hlive Hf.
  pose proof (live_expire _ _ _ Hc Hlive) as Hc0.
  assert (Hmiss : ∀ s, s ≠ cl_source_id c → source_is s c = false).
  { intros s Hs. by apply bool_decide_eq_false_2. }
  destruct o; simpl in *; unfold exec; simpl; [by apply acquire_foreign|done|done|done|..].
  - apply elem_of_update_where_keep; [done|]. by rewrite Hmiss.
  - unfold transfer. repeat case_match; simpl; try done.
    apply elem_of_update_where_keep; [done|]. by rewrite Hmiss.
  - unfold release. case_match; simpl; [|done].
    apply elem_of_update_where_keep; [done|]. by rewrite Hmiss.
  - unfold release_operation_if_current. case_match; simpl; [|done].
    apply elem_of_update_where_keep; [done|]. by rewrite Hmiss.
  - unfold force_release. destruct (holder _ _) as [row|] eqn:Eh; simpl; [|done].
    apply elem_of_update_where_keep; [done|].
    destruct (holder_Some _ _ _ Eh) as (Hrow&Hk&_). apply andb_false_iff. left.
    apply bool_decide_eq_false_2. intros Hid. apply Hf. rewrite <-Hk.
    by rewrite (unique_index_inj _ _ _ c row (wf_ids _ Hw) Hc Hrow).
Qed.

(** *** Generations advance *)

#[export] Instance advances_preorder : PreOrder advances.
Proof.
  split.
  - intros r. split; intros c Hc; [|left]; by exists c.
  - intros r1 r2 r3 [K1 N1] [K2 N2]. split.
    + intros c (c'&Hc'&?&?&?&?)%K1. destruct (K2 c' Hc') as (c''&?&?&?&?&?).
      exists c''. unfold claim_continues. repeat split; try congruence; auto.
    + intros c'' [(c'&Hc'&Hi&Hk&Hg)|Hnew]%N2.
      * destruct Hg as [Hg ?]. destruct (N1 c' Hc') as [(c&?&?&?&?&?)|Hnew]; [left|right].
        -- exists c. unfold claim_continues. repeat split; try congruence; auto.
        -- intros c Hc Hk'. rewrite <-Hg. apply Hnew; [done|congruence].
      * right. intros c (c'&Hc'&?&?&Hg&_)%K1 Hk. rewrite Hg. apply Hnew; [done|congruence].
Qed.
Lemma advances_update p f r : settles f → advances r (r <| rg_claims ::= update_where p f |>).
Proof.
  intros [Hid Hkey Hgen Hact _].
  assert (Hsame : ∀ c, claim_continues c (if p c then f c else c)).
  { intros c. unfold claim_continues. destruct (p c); auto. }
  split; simpl.
  - intros c Hc. exists (if p c then f c else c). split; [|done].
    apply elem_of_update_where. eauto.
  - intros c' (c&Hc&->)%elem_of_update_where. left. eauto.
Qed.
Lemma advances_expire now r : advances r (r <| rg_claims ::= expire now |>).
Proof. by apply advances_update, settles_retire. Qed.
Lemma advances_draw f r : advances r (r <| rg_drawn ::= f |>).
Proof. split; simpl; intros c Hc; [|left]; by exists c. Qed.
Lemma advances_insert r row :
  max_generation (cl_device_key row) (rg_claims r) < cl_generation row →
  advances r (insert_claim row r).2.
Proof.
  intros Hgen. unfold insert_claim. destruct (exists_row (id_is _) _); [done|].
  destruct (is_active row && exists_row _ _); [done|]. split; simpl; intros c.
  - intros Hc. exists c. split; [|done]. apply elem_of_app. by left.
  - intros [Hc| ->%list_elem_of_singleton]%elem_of_app; [left; by exists c|right].
    intros c Hc Hk. pose proof (max_generation_ge _ _ _ Hc Hk). lia.
Qed.
Lemma acquire_device_advances now ex ow us st so t0 d :
  preserves advances (acquire_device now ex ow us st so t0 d).
Proof.
  intros r. unfold acquire_device. destruct (holder _ t0) as [c|].
  - by apply advances_update, settles_keep.
  - monad. rewrite snd_match_result. etrans; [apply (advances_draw S)|].
    apply advances_insert. simpl. lia.
Qed.
Lemma step_advances now o : ∀ r, advances r (step now o r).
Proof.
  intros r. destruct o; simpl; unfold exec; try apply advances_expire.
  - unfold acquire. destruct (normalize_devices _); [|done]. destruct (_ || _); [done|].
    destruct (conflicts_of _ _ _ _ _); [|done].
    destruct (forM _ _ _) as [[recs|e] r'] eqn:E; simpl; [|by apply (advances_draw (λ _, rg_drawn r'))].
    etrans; [apply (advances_expire now)|]. change r' with (Ok recs, r').2. rewrite <-E.
    apply (preserves_forM advances). intros d. apply acquire_device_advances.
  - etrans; [apply (advances_expire now)|]. by apply advances_update, settles_keep.
  - unfold transfer. repeat case_match; try done.
    etrans; [apply (advances_expire now)|]. by apply advances_update, settles_keep.
  - unfold release. destruct (parse_release_status _) eqn:E; [|done].
    by eapply advances_update, settles_retire, release_status_inactive.
  - unfold release_operation_if_current. case_match; [|done].
    etrans; [apply (advances_expire now)|]. by apply advances_update, settles_retire.
  - unfold force_release. case_match; [|done]. by apply advances_update, settles_retire.
Qed.
Lemma run_trace_advances tr r : advances r (run_trace tr r).
Proof.
  unfold run_trace. revert r. induction tr as [|[now o] tr IH]; intros r; [done|].
  simpl. etrans; [apply (step_advances now o)|apply IH].
Qed.
End lemmas.

(** [C2] After any sequence of registry operations, at any clock readings, the claim
    table is well formed: claim identifiers are unique, at most one active claim
    exists per device, an active claim carries the highest generation its device ever
    had, generations are positive, and exactly the active rows have no release time. *)
Theorem registry_invariant `{Uuid} (tr : list (Z * op)) : wf (run_trace tr empty_registry).
Proof. apply run_trace_wf, empty_registry_wf. Qed.

(** [C1] All or nothing, the granting side: in a well-formed registry, for a request that names its
    owner, source and devices, when every live claim of a requested device belongs to the
    caller, with the same source, and the caller accepts such claims ([allow_existing_source]),
    [acquire] never fails (in particular no unique index is violated); it returns, in request order,
    one row per requested device, each of which is the device's active row afterwards and is either
    the caller's own row with renewed times or a new row above every earlier generation; every other
    device keeps its rows, apart from the expiry of overdue ones. *)
Theorem acquire_grants `{Uuid} now ds ow us st so ttl al r req :
  wf r → normalize_devices ds = Ok req → strip ow ≠ "" → strip so ≠ "" →
  (∀ d c, d ∈ req → holder (dv_device_key d) (expire now (rg_claims r)) = Some c →
     cl_owner_id c = strip ow ∧ cl_source_id c = strip so ∧ al = true) →
  ∃ recs r', acquire now ds ow us st so ttl al r = (Ok (true, recs), r') ∧
    Forall2 (λ d c, holder (dv_device_key d) (rg_claims r') = Some c ∧
        granted now (expires now ttl) (strip ow) (strip so) (expire now (rg_claims r)) d c)
      req recs ∧
    ∀ k, k ∉ (dv_device_key <$> req) → rows k (rg_claims r') = rows k (expire now (rg_claims r)).
Proof.
  intros Hw Hn How Hso Hc. apply acquire_ok; [done..|]. destruct (conflicts_of _ _ _ _ _) as [|c cs] eqn:Ec; [done|].
  assert (c ∈ c :: cs) as Hin by left. rewrite <-Ec in Hin.
  apply elem_of_conflicts in Hin as (d&Hd&Hh&Hx%conflicting_true). destruct (Hc d c Hd Hh) as (?&?&?). by destruct Hx as [?|[?|?]]; congruence.
Qed.

(** All or nothing, the refusing side: when some requested device has a live claim
    of another owner or source (or the caller does not accept its own), [acquire]
    returns [False] with exactly these claims, and nothing in the registry changes,
    not even the expiry of overdue rows. *)
Theorem acquire_refuses `{Uuid} now ds ow us st so ttl al r req d c :
  normalize_devices ds = Ok req → strip ow ≠ "" → strip so ≠ "" →
  d ∈ req → holder (dv_device_key d) (expire now (rg_claims r)) = Some c →
  conflicting (strip ow) (strip so) al c = true →
  ∃ cs, acquire now ds ow us st so ttl al r = (Ok (false, cs), r) ∧ c ∈ cs ∧
    ∀ c', c' ∈ cs ↔ ∃ d', d' ∈ req ∧
      holder (dv_device_key d') (expire now (rg_claims r)) = Some c' ∧
      (cl_owner_id c' ≠ strip ow ∨ cl_source_id c' ≠ strip so ∨ al = false).
Proof.
  intros Hn How Hso Hd Hh Hc.
  assert (Hin : c ∈ conflicts_of (strip ow) (strip so) al (expire now (rg_claims r)) req)
    by (apply elem_of_conflicts; eauto).
  exists (conflicts_of (strip ow) (strip so) al (expire now (rg_claims r)) req).
  split; [|split; [done|]].
  - unfold acquire, nonempty. rewrite Hn, !bool_decide_eq_true_2 by done. simpl.
    destruct (conflicts_of _ _ _ _ _) eqn:E; [|done]. by apply not_elem_of_nil in Hin.
  - intros c'. rewrite elem_of_conflicts. by setoid_rewrite conflicting_true.
Qed.

(** Mutual exclusion over time: a live claim survives, unchanged and as the active
    row of its device, any sequence of operations of other sources made before its
    expiry.  (By [acquire_refuses] every such acquisition of its device is refused.) *)
Theorem live_claim_survives `{Uuid} tr r c :
  wf r → c ∈ rg_claims r → is_active c = true →
  Forall (λ '(now, o), now < cl_expires_at c ∧ foreign c o) tr →
  holder (cl_device_key c) (rg_claims (run_trace tr r)) = Some c.
Proof.
  intros Hw Hc Ha Htr. apply holder_intro; [by apply run_trace_wf| |done|done].
  unfold run_trace. revert r Hw Hc. induction Htr as [|[now o] tr [Hnow Hf] _ IH];
    intros r Hw Hc; [done|].
  simpl. apply IH; [by apply step_wf|by apply step_foreign].
Qed.

(** Fencing tokens: whatever happens between two registry states, a claim that is
    new in the second has a generation strictly above every generation its device had
    in the first, and no claim of the first is ever forgotten or renumbered, or revived once
    it ended. *)
Theorem fencing_generations_increase `{Uuid} tr r c' :
  c' ∈ rg_claims (run_trace tr r) →
  (∃ c, c ∈ rg_claims r ∧ claim_continues c c') ∨
  (∀ c, c ∈ rg_claims r → cl_device_key c = cl_device_key c' →
        cl_generation c < cl_generation c').
Proof. apply run_trace_advances. Qed.

(** [transfer] moves the live claims of a source all together or not at all: when
    it counts no row the registry is unchanged and one of its guards failed; otherwise
    it counts all the rows, each becomes the active row of its device under the new
    source with identifier, owner and generation kept and its lifetime restarted, the
    old source holds nothing any more, and every other row stays. *)
Theorem transfer_all_or_nothing `{Uuid} now so so' st ttl ow ks r :
  wf r → so ≠ so' →
  let t := expire now (rg_claims r) in
  let old := fetchall (λ c, source_is so c && is_active c) t in
  let moved c := c <| cl_source_id := so' |> <| cl_source_type := st |>
                   <| cl_heartbeat_at := now |> <| cl_expires_at := expires now ttl |> in
  (transfer now so so' st ttl ow ks r = (Ok 0%nat, r) ∧
   (old = [] ∨ (ow ≠ "" ∧ ∃ c, c ∈ old ∧ cl_owner_id c ≠ ow) ∨
    (ks ≠ [] ∧ key_set old ≠ list_to_set ks))) ∨
  (∃ r', transfer now so so' st ttl ow ks r = (Ok (length old), r') ∧ old ≠ [] ∧
    (∀ c, c ∈ old → holder (cl_device_key c) (rg_claims r') = Some (moved c)) ∧
    fetchall (λ c, source_is so c && is_active c) (rg_claims r') = [] ∧
    (∀ c, c ∈ t → c ∉ old → c ∈ rg_claims r')).
Proof.
  intros Hw Hne t old moved. unfold transfer. fold t.
  change (fetchall _ t) with old. destruct (bool_decide (old = [])) eqn:E1; bool_props.
  { left. auto. }
  destruct (nonempty ow && _) eqn:E2; bool_props.
  { left. split; [done|]. right. left. split; [by unfold nonempty in *; bool_props|].
    match goal with H : exists_row _ _ = true |- _ => apply exists_row_true in H as (c&?&?) end.
    exists c. unfold owner_is in *. by bool_props. }
  destruct (bool_decide (ks ≠ []) && _) eqn:E3; bool_props.
  { left. auto. }
  right. assert (Hw' : wf (r <| rg_claims := t |>)) by by apply (wf_expire now).
  eexists. split; [done|]. split; [done|]. split; [|split]; simpl.
  - intros c [[Hs Ha]%andb_true_iff Hc]%elem_of_fetchall. apply holder_intro; [| |done|done].
    + apply active_update; [by apply settles_keep|apply (wf_active _ Hw')].
    + apply elem_of_update_where. exists c. split; [done|]. simpl. by rewrite Hs, Ha.
  - apply fetchall_nil. intros c (c0&Hc0&->)%elem_of_update_where.
    destruct (source_is so c0 && is_active c0) eqn:E; [|done]. simpl.
    apply andb_false_iff. left. by apply bool_decide_eq_false_2.
  - intros c Hc Hni. apply elem_of_update_where_keep; [done|].
    apply not_true_iff_false. intros Hp. apply Hni. by apply elem_of_fetchall.
Qed.

(** [release_operation_if_current] revokes the exact operation only: if the device's
    live claim differs in identifier, generation or source (a successor), it answers
    [False] and changes nothing; if it matches, it answers [True], the device has no
    active claim afterwards, and every live claim of another source stays as it was. *)
Theorem release_operation_exact `{Uuid} now k lease gen so r c :
  wf r → holder k (expire now (rg_claims r)) = Some c →
  (cl_id c = lease ∧ cl_generation c = gen ∧ cl_source_id c = so →
   ∃ r', release_operation_if_current now k lease gen so r = (Ok true, r') ∧
     holder k (rg_claims r') = None ∧
     ∀ k' c', holder k' (expire now (rg_claims r)) = Some c' → cl_source_id c' ≠ so →
              holder k' (rg_claims r') = Some c') ∧
  (¬ (cl_id c = lease ∧ cl_generation c = gen ∧ cl_source_id c = so) →
   release_operation_if_current now k lease gen so r = (Ok false, r)).
Proof.
  intros Hw Hh. destruct (holder_Some _ _ _ Hh) as (Hc&Hk&Ha).
  pose proof (wf_expire now _ Hw) as Hw0. unfold release_operation_if_current.
  set (t := expire now (rg_claims r)) in *.
  destruct (fetchone _ t) as [row|] eqn:E.
  - apply fetchone_Some in E as [Hrow Hp]. bool_props. unfold key_is, id_is, source_is in *.
    bool_props. match goal with H : (_ =? _) = true |- _ => apply Z.eqb_eq in H end.
    assert (row = c) as ->.
    { eapply (unique_index_inj _ _ _ row c (wf_active _ Hw0)); try done. congruence. }
    split; [intros _|intros []; done]. eexists. split; [done|]. simpl. split.
    + apply fetchone_None. intros c' (c0&Hc0&->)%elem_of_update_where.
      destruct (_ && is_active c0) eqn:E0; [apply andb_false_r|].
      apply not_true_iff_false. intros [Hk0 Ha0]%andb_true_iff.
      assert (c0 = c) as ->.
      { eapply (unique_index_inj _ _ _ c0 c (wf_active _ Hw0)); try done.
        unfold key_is in Hk0. bool_props. congruence. }
      rewrite Ha0 in E0. unfold source_is, owner_is, worker_is, streqb in E0.
      by rewrite !bool_decide_eq_true_2 in E0.
    + intros k' c' Hh' Hne. destruct (holder_Some _ _ _ Hh') as (Hc'&Hk'&Ha').
      apply holder_intro; [|apply elem_of_update_where_keep; [done|]|done|done].
      * apply active_update; [by apply settles_retire|apply (wf_active _ Hw0)].
      * unfold source_is, streqb. by rewrite bool_decide_eq_false_2.
  - split; [|done]. intros (Hid&Hg&Hs). rewrite fetchone_None in E. specialize (E c Hc).
    unfold key_is, id_is, source_is, streqb in E.
    rewrite !bool_decide_eq_true_2, Ha in E by done. rewrite (proj2 (Z.eqb_eq _ _) Hg) in E. done.
Qed.

(** Lifetime: at any clock reading, [active_claim] reports the device's active row
    exactly as long as its expiry is in the future, and no claim once it is overdue; a
    claim granted or renewed at [t] with any time-to-live is reported for at least the
    30 seconds that follow. *)
Theorem active_claim_lifetime `{Uuid} now k r c :
  wf r → holder k (rg_claims r) = Some c →
  run (active_claim now k) r = Ok (if now <? cl_expires_at c then Some c else None) ∧
  ∀ t ttl, cl_expires_at c = expires t ttl → now < t + 30 →
           run (active_claim now k) r = Ok (Some c).
Proof.
  intros Hw Hh.
  assert (run (active_claim now k) r = Ok (if now <? cl_expires_at c then Some c else None)) as Hrun.
  { destruct (holder_Some _ _ _ Hh) as (Hc&Hk&Ha). unfold run, active_claim. simpl. f_equal.
    destruct (now <? cl_expires_at c) eqn:E; bool_props.
    - apply holder_intro; [apply (wf_active _ (wf_expire now r Hw))|by apply live_expire|done|done].
    - apply fetchone_None. intros c' (c0&Hc0&->)%elem_of_update_where.
      destruct (overdue now c0) eqn:E0; [apply andb_false_r|].
      apply not_true_iff_false. intros [Hk0 Ha0]%andb_true_iff. unfold key_is in Hk0. bool_props.
      assert (c0 = c) as -> by (eapply (unique_index_inj _ _ _ c0 c (wf_active _ Hw)); done || congruence).
      unfold overdue in E0. rewrite Ha in E0. simpl in E0. bool_props. lia. }
  split; [done|]. intros t ttl He Hnow. rewrite Hrun.
  assert ((now <? cl_expires_at c) = true) as ->; [|done].
  apply Z.ltb_lt. unfold expires in He. lia.
Qed.

(** ** Witnesses: the theorems at concrete registries *)

(** Alice holds device [w:a] under the source [s1] from second 100 to 3700. *)
Definition sample_op : op :=
  OpAcquire [DeviceReq "w:a" "w" "a" None] "alice" "" "local" "s1" 3600 true.
Definition sample_registry : registry :=
  run_trace (H := counting_uuid) [(100, sample_op)] empty_registry.
Definition sample_claim : claim :=
  Claim "claim-0" "w:a" "w" "a" "alice" "alice" "local" "s1" ClaimActive 1 100 100 3700 None.

Lemma sample_registry_wf : wf (H := counting_uuid) sample_registry.
Proof. apply run_trace_wf, empty_registry_wf. Qed.
Lemma sample_holder now : now = 200 → holder "w:a" (expire now (rg_claims sample_registry)) = Some sample_claim.
Proof. intros ->. vm_compute. reflexivity. Qed.

(** Of the two devices one is Alice's already. *)
Lemma sample_requests_own d c :
  d ∈ [Device "w:b" "w" "b" 7; Device "w:a" "w" "a" 1] → holder (dv_device_key d) (expire 200 (rg_claims sample_registry)) = Some c →
  cl_owner_id c = strip "alice" ∧ cl_source_id c = strip "s1" ∧ true = true.
Proof. intros [->|[->|[]%not_elem_of_nil]%elem_of_cons]%elem_of_cons; vm_compute; [done|]. by intros [= <-]. Qed.
Lemma acquire_grants_witness : ∃ recs r',
  acquire (U := counting_uuid) 200 [DeviceReq " w:b " "w" "b" (Some 7); DeviceReq "w:a" "w" "a" None]
    "alice" "" "local" "s1" 60 true sample_registry = (Ok (true, recs), r').
Proof.
  edestruct (acquire_grants (H := counting_uuid) 200
    [DeviceReq " w:b " "w" "b" (Some 7); DeviceReq "w:a" "w" "a" None]
    "alice" "" "local" "s1" 60 true sample_registry) as (recs&r'&E&_).
  - apply sample_registry_wf.
  - vm_compute. reflexivity.
  - vm_compute. intros [=].
  - vm_compute. intros [=].
  - apply sample_requests_own.
  - exists recs, r'. exact E.
Defined.

Lemma acquire_refuses_witness : ∃ cs,
  acquire (U := counting_uuid) 200 [DeviceReq "w:b" "w" "b" None; DeviceReq "w:a" "w" "a" None]
    "bob" "" "local" "s9" 60 true sample_registry = (Ok (false, cs), sample_registry) ∧
  sample_claim ∈ cs.
Proof.
  edestruct (acquire_refuses (H := counting_uuid) 200
    [DeviceReq "w:b" "w" "b" None; DeviceReq "w:a" "w" "a" None]
    "bob" "" "local" "s9" 60 true sample_registry
    [Device "w:b" "w" "b" 1; Device "w:a" "w" "a" 1] (Device "w:a" "w" "a" 1) sample_claim)
    as (cs&E&Hin&_).
  - vm_compute. reflexivity.
  - vm_compute. intros [=].
  - vm_compute. intros [=].
  - right. left.
  - by apply sample_holder.
  - vm_compute. reflexivity.
  - exists cs. split; [exact E|exact Hin].
Defined.

Lemma live_claim_survives_witness :
  holder "w:a" (rg_claims (run_trace (H := counting_uuid)
    [(200, OpAcquire [DeviceReq "w:a" "w" "a" None] "bob" "" "local" "s9" 60 true);
     (300, OpRelease "s9" "released" []); (3699, OpForceRelease "w:b")] sample_registry))
  = Some sample_claim.
Proof.
  apply (live_claim_survives (H := counting_uuid) _ sample_registry sample_claim).
  - apply sample_registry_wf.
  - left.
  - reflexivity.
  - repeat constructor; vm_compute; congruence.
Defined.

Lemma fencing_generations_increase_witness :
  let c' := Claim "claim-1" "w:a" "w" "a" "bob" "bob" "local" "s9" ClaimActive 2
              4000 4000 4060 None in
  (∃ c, c ∈ rg_claims sample_registry ∧ claim_continues c c') ∨
  (∀ c, c ∈ rg_claims sample_registry → cl_device_key c = cl_device_key c' →
        cl_generation c < cl_generation c').
Proof.
  apply (fencing_generations_increase (H := counting_uuid)
    [(4000, OpAcquire [DeviceReq "w:a" "w" "a" None] "bob" "" "local" "s9" 60 true)]).
  vm_compute. right. left.
Defined.

Lemma transfer_all_or_nothing_witness :
  wf (H := counting_uuid) sample_registry ∧
  (∃ r', transfer 200 "s1" "job:1" "cluster-job" 90 "alice" ["w:a"] sample_registry = (Ok 1%nat, r')).
Proof.
  split; [apply sample_registry_wf|].
  edestruct (transfer_all_or_nothing (H := counting_uuid) 200 "s1" "job:1" "cluster-job" 90
    "alice" ["w:a"] sample_registry) as [[E _]|(r'&E&_)].
  - apply sample_registry_wf.
  - vm_compute. intros [=].
  - vm_compute in E. discriminate E.
  - exists r'. exact E.
Defined.

Lemma release_operation_exact_witness :
  (∃ r', release_operation_if_current 200 "w:a" "claim-0" 1 "s1" sample_registry = (Ok true, r')) ∧
  release_operation_if_current 200 "w:a" "claim-0" 2 "s1" sample_registry
    = (Ok false, sample_registry).
Proof.
  split.
  - destruct (release_operation_exact (H := counting_uuid) 200 "w:a" "claim-0" 1 "s1"
      sample_registry sample_claim) as [Hyes _].
    + apply sample_registry_wf.
    + by apply sample_holder.
    + destruct Hyes as (r'&E&_); [done|]. exists r'. exact E.
  - apply (release_operation_exact (H := counting_uuid) 200 "w:a" "claim-0" 2 "s1"
      sample_registry sample_claim).
    + apply sample_registry_wf.
    + by apply sample_holder.
    + intros (_&[=]&_).
Defined.

Lemma active_claim_lifetime_witness :
  run (active_claim 3699 "w:a") sample_registry = Ok (Some sample_claim) ∧
  run (active_claim 3700 "w:a") sample_registry = Ok None.
Proof.
  split.
  - apply (active_claim_lifetime (H := counting_uuid) 3699 "w:a" sample_registry sample_claim);
      [apply sample_registry_wf|vm_compute; reflexivity].
  - apply (active_claim_lifetime (H := counting_uuid) 3700 "w:a" sample_registry sample_claim);
      [apply sample_registry_wf|vm_compute; reflexivity].
Defined.
