(* ===== verification/DeviceLocks.v ===== *)
(** The local lock facade of [foundation/device_locks.py]: locks by device serial,
    backed by the claim registry under the keys [local_worker_id:serial].

    The facade is stated twice: the handlers as the code composes them from registry
    operations, and an abstract lock table (who holds which serial, under which
    source) that they are proved to implement. *)

From S2P Require Import Prelude DeviceClaims.

Open Scope Z_scope.

(** ** The handlers *)

(* src/foundation/device_locks.py:19-19 LOCK_TTL_SECONDS *)
Definition LOCK_TTL_SECONDS : Z := 3600.

Section locks.
Context `{U : Uuid}.

(** The manager's [local_worker_id], and the injected owner display-name resolver,
    if one is configured; it answers [None] when it raises. *)
Variable local_worker_id : string.
Variable display_name_resolver : option (string → string → option string).

(* src/foundation/device_locks.py:62-68 DeviceLockManager._device *)
Definition lock_device_req (serial : string) : device_req :=
  {| dr_device_key := local_worker_id +:+ ":" +:+ strip serial;
     dr_worker_id := local_worker_id;
     dr_serial := strip serial;
     dr_generation_floor := None |}.
Definition lock_key (serial : string) : string := dr_device_key (lock_device_req serial).

(* src/foundation/device_locks.py:32-36 _default_display_username *)
Definition default_display_username (client_id username : string) : string :=
  let cleaned := strip username in
  if nonempty cleaned && negb (mem cleaned ["unknown"; client_id]) then cleaned
  else str_or cleaned client_id.

(* src/foundation/device_locks.py:70-75 DeviceLockManager._display_username *)
Definition display_username (client_id username : string) : string :=
  match display_name_resolver with
  | Some resolver =>
      match resolver client_id (strip username) with
      | Some name => name
      | None => default_display_username client_id username
      end
  | None => default_display_username client_id username
  end.

(** An absent [source_id] is the empty text. *)
(* src/foundation/device_locks.py:77-79 DeviceLockManager._source_id *)
Definition lock_source (client_id source_id : string) : string :=
  strip (str_or source_id ("local:" +:+ client_id)).

(* src/foundation/device_locks.py:81-104 DeviceLockManager.lock_device *)
Definition lock_device (now : Z) (device_id client_id username source_id source_type : string)
    (ttl_seconds : Z) : M registry (bool * string) :=
  let source := lock_source client_id source_id in
  res ← acquire now [lock_device_req device_id] client_id username source_type source
          ttl_seconds true;
  match res with
  | (true, _) => mret (true, "设备 " +:+ device_id +:+ " 锁定成功")
  | (false, conflict :: _) =>
      let owner := display_username (cl_owner_id conflict) (cl_username conflict) in
      mret (false, "设备 " +:+ device_id +:+ " 已被 " +:+ owner +:+ " 锁定")
  | (false, []) => raise (RuntimeError "IndexError")
  end.

(* src/foundation/device_locks.py:106-125 DeviceLockManager.lock_devices *)
Definition lock_devices (now : Z) (device_ids : list string)
    (client_id username source_id source_type : string) (ttl_seconds : Z)
    (allow_existing_source : bool) : M registry (bool * list claim) :=
  acquire now (lock_device_req <$> device_ids) client_id username source_type source_id
    ttl_seconds allow_existing_source.

(* src/foundation/device_locks.py:127-144 DeviceLockManager.unlock_device *)
Definition unlock_device (now : Z) (device_id client_id source_id : string)
    : M registry (bool * string) :=
  claim ← active_claim now (lock_key device_id);
  match claim with
  | None => mret (true, "设备 " +:+ device_id +:+ " 未锁定")
  | Some c =>
      if negb (owner_is client_id c)
      then mret (false, "设备 " +:+ device_id +:+ " 被其他用户锁定，无法解锁")
      else if nonempty source_id && negb (source_is (lock_source client_id source_id) c)
      then mret (false, "设备 " +:+ device_id +:+ " 属于另一个运行中的操作")
      else
        _ ← release now (cl_source_id c) "released" [lock_key device_id];
        mret (true, "设备 " +:+ device_id +:+ " 解锁成功")
  end.

(** A claim held for a cluster job or reservation. *)
Definition cluster_held (c : claim) : bool :=
  startswith "cluster-" (cl_source_type c)
  || startswith "job:" (cl_source_id c) || startswith "reservation:" (cl_source_id c).

(* src/foundation/device_locks.py:146-160 DeviceLockManager.force_unlock_device *)
Definition force_unlock_device (now : Z) (device_id : string) : M registry (bool * string) :=
  active ← active_claim now (lock_key device_id);
  match active with
  | Some c =>
      if cluster_held c
      then mret (false, "设备 " +:+ device_id +:+ " 正由集群任务或预约占用，请先取消对应任务或预约")
      else
        claim ← force_release now (lock_key device_id);
        match claim with
        | None => mret (true, "设备 " +:+ device_id +:+ " 未锁定")
        | Some _ => mret (true, "设备 " +:+ device_id +:+ " 已强制释放")
        end
  | None =>
      claim ← force_release now (lock_key device_id);
      match claim with
      | None => mret (true, "设备 " +:+ device_id +:+ " 未锁定")
      | Some _ => mret (true, "设备 " +:+ device_id +:+ " 已强制释放")
      end
  end.

(** The fields of a status report. *)
Record lock_status := LockStatus {
  ls_device_id : string; ls_locked_by : string; ls_client_id : string;
  ls_locked_at : Z; ls_source_id : string; ls_source_type : string;
  ls_lease_id : string; ls_generation : Z;
}.
Definition status_of (device_id : string) (c : claim) : lock_status :=
  LockStatus device_id (display_username (cl_owner_id c) (cl_username c)) (cl_owner_id c)
    (cl_acquired_at c) (cl_source_id c) (cl_source_type c) (cl_id c) (cl_generation c).

(* src/foundation/device_locks.py:162-178 DeviceLockManager.get_lock_status *)
Definition get_lock_status (now : Z) (device_id : string) : M registry (option lock_status) :=
  claim ← active_claim now (lock_key device_id);
  mret (status_of device_id <$> claim).

(** The dictionary is keyed by serial; a later row replaces an earlier one. *)
(* src/foundation/device_locks.py:180-194 DeviceLockManager.get_all_locks *)
Definition get_all_locks (now : Z) : M registry (gmap string lock_status) :=
  records ← list_active now local_worker_id "";
  mret (foldl (λ m row, <[cl_serial row := status_of (cl_serial row) row]> m) ∅ records).

(* src/foundation/device_locks.py:196-220 DeviceLockManager.refresh_locks *)
Definition refresh_locks (now : Z) (client_id : string) (device_ids : list string)
    (source_id : string) : M registry nat :=
  let source := lock_source client_id source_id in
  records ← list_active now local_worker_id client_id;
  let owned := cl_serial <$> fetchall (source_is source) records in
  let renewable := filter (λ s, s ≠ "" ∧ s ∈ owned) (dedup (strip <$> device_ids)) in
  if bool_decide (renewable = []) then mret 0%nat
  else renew now source LOCK_TTL_SECONDS (lock_key <$> renewable).

(* src/foundation/device_locks.py:222-232 DeviceLockManager.unlock_all *)
Definition unlock_all (now : Z) (client_id source_id : string) : M registry nat :=
  records ← list_active now local_worker_id client_id;
  let records' := if nonempty source_id then fetchall (source_is source_id) records
                  else records in
  counts ← forM (dedup (cl_source_id <$> records')) (λ source, release now source "released" []);
  mret (foldr Nat.add 0%nat counts).
End locks.

(** ** The abstract lock table *)

(** Who holds a serial at a clock reading, and under which source. *)
Definition lock_of (local_worker_id : string) (now : Z) (r : registry) (serial : string)
    : option (string * string) :=
  (λ c, (cl_owner_id c, cl_source_id c)) <$>
    holder (lock_key local_worker_id serial) (expire now (rg_claims r)).

(** ** Lemmas *)

Section lemmas.
Context `{U : Uuid}.
Variable lw : string.
Variable resolver : option (string → string → option string).
Hypothesis lw_nonempty : lw ≠ "".
Hypothesis lw_stripped : strip lw = lw.

Lemma lw_lstrip : lstrip lw = lw.
Proof using lw_stripped. rewrite <-lw_stripped. unfold strip. apply lstrip_rstrip, lstrip_idemp. Qed.
Lemma lock_key_strip s : strip s ≠ "" → strip (lock_key lw s) = lock_key lw s.
Proof using lw_nonempty lw_stripped.
  intros Hs. unfold lock_key. simpl. unfold strip at 1.
  rewrite lstrip_app by (done || apply lw_lstrip).
  assert (":" +:+ strip s ≠ "") by done.
  apply rstrip_app; [done|]. apply rstrip_app; [done|]. unfold strip. apply rstrip_idemp.
Qed.
Lemma lock_key_inj s s' : lock_key lw s = lock_key lw s' ↔ strip s = strip s'.
Proof.
  unfold lock_key. simpl. split; [|by intros ->]. intros H.
  apply (inj (String.append lw)) in H. by injection H.
Qed.
Lemma lock_normalize s :
  strip s ≠ "" →
  normalize_devices [lock_device_req lw s] = Ok [Device (lock_key lw s) lw (strip s) 1].
Proof using lw_nonempty lw_stripped.
  intros Hs. unfold normalize_devices, normalize_from. fold (lock_key lw s).
  cbn [dr_worker_id dr_serial dr_generation_floor lock_device_req].
  rewrite (lock_key_strip _ Hs), strip_idemp, lw_stripped.
  unfold nonempty. rewrite !bool_decide_eq_true_2 by (done || by destruct lw). done.
Qed.

(** Retiring one source's claims on one device only frees that device. *)
Lemma lock_of_retire now st r p serial :
  st ≠ ClaimActive → wf r → (∀ c, c ∈ rg_claims r → p c = true → is_active c = true ∧ cl_device_key c = lock_key lw serial) →
  (∀ c, holder (lock_key lw serial) (rg_claims r) = Some c → p c = true) →
  (∀ c, c ∈ rg_claims r → overdue now c = false) →
  let r' := r <| rg_claims ::= update_where p (retire now st) |> in
  lock_of lw now r' serial = None ∧
  ∀ s, strip s ≠ strip serial → lock_of lw now r' s = lock_of lw now r s.
Proof.
  intros Hst Hw Hp Hh Hlive r'.
  assert (∀ c, is_active (retire now st c) = false) as Hret by (intros c; by apply bool_decide_eq_false_2).
  assert (∀ c, overdue now (retire now st c) = false) as Hov by (intros c; unfold overdue; by rewrite Hret).
  assert (∀ c, c ∈ rg_claims r' → overdue now c = false) as Hlive'.
  { intros c (c0&Hc0&->)%elem_of_update_where. destruct (p c0); [apply Hov|by apply Hlive]. }
  assert (∀ t, (∀ c, c ∈ t → overdue now c = false) → expire now t = t) as Hid.
  { intros t Ht. apply update_where_id. intros c Hc. by rewrite Ht. }
  unfold lock_of. rewrite !Hid by done. simpl. split.
  - assert (holder (lock_key lw serial) (update_where p (retire now st) (rg_claims r)) = None) as ->; [|done].
    apply fetchone_None. intros c (c0&Hc0&->)%elem_of_update_where.
    destruct (p c0) eqn:E; [rewrite Hret; apply andb_false_r|]. apply not_true_iff_false.
    intros [Hk Ha]%andb_true_iff. unfold key_is in Hk. bool_props.
    assert (p c0 = true); [|congruence]. apply Hh, holder_intro; [apply (wf_active _ Hw)|done..].
  - intros s Hs. f_equal. unfold holder. apply fetchone_update_frame.
    intros c Hc Hpc. destruct (Hp c Hc Hpc) as [_ Hk]. split; [|rewrite Hret; apply andb_false_r].
    apply andb_false_iff. left. unfold key_is, streqb. rewrite Hk.
    apply bool_decide_eq_false_2. rewrite lock_key_inj. congruence.
Qed.
Lemma expire_not_overdue now r c :
  c ∈ rg_claims (r <| rg_claims ::= expire now |>) → overdue now c = false.
Proof.
  simpl. intros (c0&Hc0&->)%elem_of_update_where. by destruct (overdue now c0) eqn:E.
Qed.
Lemma expire_idemp now t : expire now (expire now t) = expire now t.
Proof.
  apply update_where_id. intros c Hc Ho.
  by rewrite (expire_not_overdue now (Registry t 0) c Hc) in Ho.
Qed.
Lemma lock_of_expire now r s : lock_of lw now (r <| rg_claims ::= expire now |>) s = lock_of lw now r s.
Proof. unfold lock_of. simpl. by rewrite expire_idemp. Qed.
Lemma rows_expire now k t : rows k (expire now t) = expire now (rows k t).
Proof.
  unfold rows, expire. induction t as [|c t IH]; [done|].
  rewrite update_where_cons, !fetchall_cons, IH.
  assert (key_is k (if overdue now c then retire now ClaimExpired c else c) = key_is k c) as ->
    by by destruct (overdue now c).
  by destruct (key_is k c).
Qed.
Lemma holder_expire_live now k t c :
  unique_index is_active cl_device_key t → holder k t = Some c → now < cl_expires_at c →
  holder k (expire now t) = Some c.
Proof.
  intros Hu Hh Hlt. destruct (holder_Some _ _ _ Hh) as (Hc&Hk&Ha).
  apply holder_intro; [|by apply live_expire|done|done].
  by apply active_update; [apply settles_retire|].
Qed.

(** [acquire] of one device, as the lock facade calls it. *)
Lemma acquire_one now req d ow us st so ttl r :
  wf r → normalize_devices [req] = Ok [d] → strip ow ≠ "" → strip so ≠ "" →
  let mine c := cl_owner_id c = strip ow ∧ cl_source_id c = strip so in
  match holder (dv_device_key d) (expire now (rg_claims r)) with
  | Some c =>
      ¬ mine c → acquire now [req] ow us st so ttl true r = (Ok (false, [c]), r)
  | None => True
  end ∧
  (match holder (dv_device_key d) (expire now (rg_claims r)) with
   | Some c => mine c
   | None => True
   end →
   ∃ c r', acquire now [req] ow us st so ttl true r = (Ok (true, [c]), r') ∧ wf r' ∧
     holder (dv_device_key d) (expire now (rg_claims r')) = Some c ∧ mine c ∧
     ∀ k, k ≠ dv_device_key d →
       holder k (expire now (rg_claims r')) = holder k (expire now (rg_claims r))).
Proof.
  intros Hw Hn How Hso mine. unfold acquire, nonempty.
  rewrite Hn, !bool_decide_eq_true_2 by done. simpl.
  set (t := expire now (rg_claims r)).
  assert ((∀ old, holder (dv_device_key d) t = Some old → mine old) →
    ∃ c r', (x ← acquire_device now (expires now ttl) (strip ow) us st (strip so) t d; mret [x])
              (r <| rg_claims := t |>) = (Ok [c], r') ∧ wf r' ∧
      holder (dv_device_key d) (expire now (rg_claims r')) = Some c ∧ mine c ∧
      ∀ k, k ≠ dv_device_key d → holder k (expire now (rg_claims r')) = holder k t) as Hgrant.
  { intros Hold. edestruct (acquire_device_spec now (expires now ttl) (strip ow) us st (strip so)
      t d (r <| rg_claims := t |>)) as (c'&r'&Hrun&Hw'&Hc'&(_&Hm1&Hm2&_&Hex&_)&Hf);
      [by apply (wf_expire now)|done|done|].
    exists c', r'. unfold mbind, M_bind, mret, M_ret. rewrite Hrun. split_and!; try done.
    + apply holder_expire_live; [apply (wf_active _ Hw')|done|]. rewrite Hex. unfold expires. lia.
    + intros k Hk. rewrite !holder_rows, !rows_expire, (Hf k Hk). simpl. unfold t.
      by rewrite rows_expire, expire_idemp. }
  unfold conflicts_of. simpl. destruct (holder (dv_device_key d) t) as [c|] eqn:Hh.
  - pose proof (conflicting_true (strip ow) (strip so) true c) as Hcf.
    destruct (conflicting _ _ _ c) eqn:E; simpl.
    + split; [done|]. intros [??]. by destruct (proj1 Hcf eq_refl) as [|[|]].
    + split.
      * intros Hm. exfalso. apply Hm. split; apply dec_stable; intros ?;
          assert (false = true) by (apply Hcf; auto); done.
      * intros Hm. destruct Hgrant as (c'&r'&Hrun&H); [by intros old [= <-]|].
        exists c', r'. split; [|done]. unfold mbind, M_bind, mret, M_ret in *.
        destruct (acquire_device _ _ _ _ _ _ _ _ _) as [[x|] r0]; by simplify_eq.
  - split; [done|]. intros _. destruct Hgrant as (c'&r'&Hrun&H); [done|].
    exists c', r'. split; [|done]. unfold mbind, M_bind, mret, M_ret in *.
    destruct (acquire_device _ _ _ _ _ _ _ _ _) as [[x|] r0]; by simplify_eq.
Qed.
End lemmas.

(** ** Properties *)

(** [C39] Refinement, locking: on the abstract lock table (serial to owner and source),
    [lock_device] is an atomic test-and-set.  A free serial, or one the same owner holds
    under the same source, becomes the caller's and nothing else moves; a serial held by
    anyone else, or by another operation of the same owner, is refused and the registry
    is untouched. *)
Theorem lock_device_refines `{Uuid} lw resolver now r serial client user src sty ttl :
  lw ≠ "" → strip lw = lw → wf r →
  strip serial ≠ "" → strip client ≠ "" → lock_source client src ≠ "" →
  let me := (strip client, lock_source client src) in
  let lock := lock_device lw resolver now serial client user src sty ttl in
  (lock_of lw now r serial = None ∨ lock_of lw now r serial = Some me →
   ∃ msg r', lock r = (Ok (true, msg), r') ∧ wf r' ∧ lock_of lw now r' serial = Some me ∧
     ∀ s, strip s ≠ strip serial → lock_of lw now r' s = lock_of lw now r s) ∧
  (∀ other, lock_of lw now r serial = Some other → other ≠ me →
   ∃ msg, lock r = (Ok (false, msg), r)).
Proof.
  intros Hlw Hlws Hw Hs Hc Hso me lock.
  assert (Hso' : strip (lock_source client src) = lock_source client src) by apply strip_idemp.
  destruct (acquire_one now (lock_device_req lw serial) _ client user sty
    (lock_source client src) ttl r Hw (lock_normalize lw Hlw Hlws serial Hs) Hc
    ltac:(by rewrite Hso')) as [Hno Hyes].
  simpl in Hno, Hyes. rewrite Hso' in Hno, Hyes. unfold lock_of. split.
  - intros Hfree. destruct Hyes as (c&r'&Hrun&Hw'&Hh&[Ho Hs']&Hf).
    { destruct (holder _ _) as [c|]; [|done]. destruct Hfree as [|[= Ho' Hs']]; done. }
    eexists _, r'. unfold lock, lock_device, mbind, M_bind. rewrite Hrun.
    split_and!; [done..| |].
    + rewrite Hh. unfold me. rewrite <-Ho, <-Hs'. done.
    + intros s Hne. rewrite Hf; [done|]. rewrite lock_key_inj. done.
  - intros [o' s'] Hheld Hne. destruct (holder _ _) as [c|]; [|done]. simplify_eq/=.
    unfold lock, lock_device, mbind, M_bind.
    rewrite Hno; [by eexists|]. intros [??]. apply Hne. unfold me. congruence.
Qed.

(** Refinement, unlocking: [unlock_device] releases exactly the caller's lock on the
    serial.  On a free serial it succeeds and changes no lock; on a lock of another
    client, or of another operation when a source is named, it refuses and changes no
    lock; otherwise the serial becomes free and every other lock stays. *)
Theorem unlock_device_refines `{Uuid} lw now r serial client src :
  wf r →
  let '(res, r') := unlock_device lw now serial client src r in
  let unlocked o s := o = client ∧ (src = "" ∨ s = lock_source client src) in
  match lock_of lw now r serial with
  | None => (∃ msg, res = Ok (true, msg)) ∧ ∀ s, lock_of lw now r' s = lock_of lw now r s
  | Some (o, s) =>
      (¬ unlocked o s →
        (∃ msg, res = Ok (false, msg)) ∧ ∀ s, lock_of lw now r' s = lock_of lw now r s) ∧
      (unlocked o s →
        (∃ msg, res = Ok (true, msg)) ∧ lock_of lw now r' serial = None ∧
        ∀ s, strip s ≠ strip serial → lock_of lw now r' s = lock_of lw now r s)
  end.
Proof.
  intros Hw. destruct (unlock_device lw now serial client src r) as [res r'] eqn:E.
  cbv zeta. unfold unlock_device, active_claim, select_after_expire in E. revert E. monad.
  pose proof (wf_expire now _ Hw) as Hw0. pose proof (lock_of_expire lw now r) as Hle.
  unfold lock_of at 1. simpl in *.
  destruct (holder (lock_key lw serial) (expire now (rg_claims r))) as [c|] eqn:Hh; simpl.
  2:{ intros [= <- <-]. split; [by eexists|exact Hle]. }
  unfold owner_is, source_is, nonempty, streqb.
  destruct (decide (cl_owner_id c = client)) as [Ho|Ho];
    [rewrite (bool_decide_eq_true_2 _ Ho)|rewrite (bool_decide_eq_false_2 _ Ho)]; simpl.
  2:{ intros [= <- <-]. split; [split; [by eexists|exact Hle]|tauto]. }
  destruct (_ && _) eqn:Eb; bool_props.
  { intros [= <- <-]. split; [split; [by eexists|exact Hle]|]. by intros [_ [|]]. }
  intros [= <- <-]. split.
  { intros Hn. exfalso. apply Hn. split; [done|]. apply andb_false_iff in Eb as [?|?]; bool_props; [|by right].
    left. by apply dec_stable. }
  intros _. split; [by eexists|].
  pose proof (lock_of_retire lw now ClaimReleased (r <| rg_claims ::= expire now |>)
    (λ c0, source_is (cl_source_id c) c0 && is_active c0 && in_keys [lock_key lw serial] c0)
    serial ltac:(done) Hw0) as [Hfree Hother].
  - intros c0 _ Hp. bool_props. split; [done|]. simpl in *. unfold mem in *. bool_props.
    by apply list_elem_of_singleton.
  - intros c0. simpl. rewrite Hh. intros [= <-]. destruct (holder_Some _ _ _ Hh) as (_&Hk&Ha).
    unfold source_is, streqb, in_keys, mem.
    rewrite Ha, !bool_decide_eq_true_2; first [done|rewrite Hk; left].
  - intros c0. apply expire_not_overdue.
  - split; [exact Hfree|]. intros s Hs. etrans; [by apply Hother|apply Hle].
Qed.

(** An administrator's [force_unlock_device] frees any locally held serial, but never
    takes a device away from a running cluster job or a reservation. *)
Theorem force_unlock_spares_cluster `{Uuid} lw now r serial :
  wf r →
  let '(res, r') := force_unlock_device lw now serial r in
  match holder (lock_key lw serial) (expire now (rg_claims r)) with
  | Some c =>
      if cluster_held c
      then (∃ msg, res = Ok (false, msg)) ∧ ∀ s, lock_of lw now r' s = lock_of lw now r s
      else (∃ msg, res = Ok (true, msg)) ∧ lock_of lw now r' serial = None ∧
           ∀ s, strip s ≠ strip serial → lock_of lw now r' s = lock_of lw now r s
  | None => (∃ msg, res = Ok (true, msg)) ∧ ∀ s, lock_of lw now r' s = lock_of lw now r s
  end.
Proof.
  intros Hw. destruct (force_unlock_device lw now serial r) as [res r'] eqn:E.
  unfold force_unlock_device, active_claim, select_after_expire in E. revert E. monad.
  pose proof (wf_expire now _ Hw) as Hw0. pose proof (lock_of_expire lw now r) as Hle.
  simpl in *. destruct (holder (lock_key lw serial) (expire now (rg_claims r))) as [c|] eqn:Hh.
  2:{ unfold force_release. simpl. rewrite Hh. intros [= <- <-]. split; [by eexists|exact Hle]. }
  destruct (cluster_held c).
  { intros [= <- <-]. split; [by eexists|exact Hle]. }
  unfold force_release. simpl. rewrite Hh. simpl. intros [= <- <-]. split; [by eexists|].
  destruct (holder_Some _ _ _ Hh) as (Hc&Hk&Ha).
  pose proof (lock_of_retire lw now ClaimCancelled (r <| rg_claims ::= expire now |>)
    (λ c0, id_is (cl_id c) c0 && is_active c0) serial ltac:(done) Hw0) as [Hfree Hother].
  - intros c0 Hc0 Hp. bool_props. split; [done|]. rewrite <-Hk. f_equal. unfold id_is in *. bool_props.
    by eapply (unique_index_inj _ _ _ c0 c (wf_ids _ Hw0)).
  - intros c0. simpl. rewrite Hh. intros [= <-]. unfold id_is, streqb.
    by rewrite Ha, bool_decide_eq_true_2.
  - intros c0. apply expire_not_overdue.
  - split; [exact Hfree|]. intros s Hs. etrans; [by apply Hother|apply Hle].
Qed.

(** ** Witnesses *)

Lemma sample_lock_of : lock_of "w" 200 sample_registry "a" = Some ("alice", "s1").
Proof. vm_compute. reflexivity. Qed.

Lemma lock_device_refines_witness :
  (∃ msg r', lock_device (U := counting_uuid) "w" None 200 " b" "bob" "" "" "cluster" 60
               sample_registry = (Ok (true, msg), r')) ∧
  (∃ msg, lock_device (U := counting_uuid) "w" None 200 "a" "bob" "" "" "cluster" 60
            sample_registry = (Ok (false, msg), sample_registry)).
Proof.
  split.
  - destruct (lock_device_refines (H := counting_uuid) "w" None 200 sample_registry
      " b" "bob" "" "" "cluster" 60) as [Hyes _];
      [done|done|apply sample_registry_wf|done|done|done|].
    destruct Hyes as (msg&r'&E&_); [left; vm_compute; reflexivity|].
    exists msg, r'. exact E.
  - destruct (lock_device_refines (H := counting_uuid) "w" None 200 sample_registry
      "a" "bob" "" "" "cluster" 60) as [_ Hno];
      [done|done|apply sample_registry_wf|done|done|done|].
    apply (Hno ("alice", "s1")); [apply sample_lock_of|done].
Defined.

Lemma unlock_device_refines_witness :
  (unlock_device "w" 200 "a" "alice" "" sample_registry).1 = Ok (true, "设备 a 解锁成功") ∧
  lock_of "w" 200 (unlock_device "w" 200 "a" "alice" "" sample_registry).2 "a" = None.
Proof.
  split; [vm_compute; reflexivity|].
  pose proof (unlock_device_refines (H := counting_uuid) "w" 200 sample_registry "a" "alice" ""
    sample_registry_wf) as Hu.
  destruct (unlock_device "w" 200 "a" "alice" "" sample_registry) as [res r'].
  rewrite sample_lock_of in Hu. destruct Hu as [_ Hu]. apply Hu. split; [done|]. by left.
Defined.

Lemma force_unlock_spares_cluster_witness :
  lock_of "w" 200 (force_unlock_device "w" 200 "a" sample_registry).2 "a" = None.
Proof.
  pose proof (force_unlock_spares_cluster (H := counting_uuid) "w" 200 sample_registry "a"
    sample_registry_wf) as Hf.
  destruct (force_unlock_device "w" 200 "a" sample_registry) as [res r'].
  assert (holder (lock_key "w" "a") (expire 200 (rg_claims sample_registry)) = Some sample_claim)
    as Eh by (vm_compute; reflexivity).
  rewrite Eh in Hf. apply Hf.
Defined.
