(* ===== verification/JobStateMachine.v ===== *)
(** The life cycle of a cluster job: [features/cluster/state_machine.py].

    The statuses and the transition table as the code has them, the step relation the
    table defines, and what the table guarantees: terminal statuses are final, and
    every other status of the table can still be brought to an end. *)

From Stdlib Require Import Relations.
From S2P Require Import Prelude.

(** ** Statuses *)

(** The statuses a job row can hold, also those older rows may still carry. *)
(* src/features/cluster/state_machine.py:8-11 ACTIVE_CLUSTER_JOB_STATUSES *)
Inductive job_status :=
  | JobCreated | JobQueued | JobLeasing | JobAssigned | JobDispatching | JobRunning
  | JobStopping | JobCollecting | JobWorkerLost
  | JobCompleted | JobFailed | JobCancelled.

#[export] Instance job_status_eq_dec : EqDecision job_status.
Proof. solve_decision. Defined.

(** The text of a status in messages. *)
Definition job_status_text (s : job_status) : string :=
  match s with
  | JobCreated => "created" | JobQueued => "queued" | JobLeasing => "leasing"
  | JobAssigned => "assigned" | JobDispatching => "dispatching" | JobRunning => "running"
  | JobStopping => "stopping" | JobCollecting => "collecting" | JobWorkerLost => "worker_lost"
  | JobCompleted => "completed" | JobFailed => "failed" | JobCancelled => "cancelled"
  end.

(** [status in ("completed", "failed", "cancelled")] *)
Definition is_terminal (s : job_status) : bool :=
  match s with JobCompleted | JobFailed | JobCancelled => true | _ => false end.

(* src/features/cluster/state_machine.py:13-24 _ALLOWED_TRANSITIONS *)
Definition ALLOWED_TRANSITIONS (from_status : job_status) : option (list job_status) :=
  match from_status with
  | JobAssigned => Some [JobDispatching; JobStopping; JobCompleted; JobFailed; JobCancelled; JobWorkerLost]
  | JobDispatching => Some [JobRunning; JobStopping; JobCompleted; JobFailed; JobCancelled; JobWorkerLost]
  | JobRunning => Some [JobStopping; JobCompleted; JobFailed; JobCancelled; JobWorkerLost]
  | JobStopping => Some [JobCancelled; JobFailed; JobWorkerLost]
  | JobWorkerLost => Some [JobRunning; JobStopping; JobCompleted; JobFailed; JobCancelled]
  | JobCompleted | JobFailed | JobCancelled => Some []
  | JobCreated | JobQueued | JobLeasing | JobCollecting => None
  end.

(* src/features/cluster/state_machine.py:30-37 validate_job_transition *)
Definition validate_job_transition (from_status to_status : job_status) : result unit :=
  if decide (from_status = to_status) then Ok tt
  else
    match ALLOWED_TRANSITIONS from_status with
    | Some allowed =>
        if decide (to_status ∈ allowed) then Ok tt
        else Err (InvalidJobTransitionError ("invalid cluster job transition: "
               +:+ job_status_text from_status +:+ " -> " +:+ job_status_text to_status))
    | None => Err (InvalidJobTransitionError ("invalid cluster job transition: "
               +:+ job_status_text from_status +:+ " -> " +:+ job_status_text to_status))
    end.

(** ** The transition relation *)

(** One change of status the table allows. *)
Inductive job_step : relation job_status :=
  | job_step_intro a b allowed :
      ALLOWED_TRANSITIONS a = Some allowed → b ∈ allowed → job_step a b.

(** Any number of allowed changes. *)
Definition job_steps : relation job_status := rtc job_step.

(** ** Lemmas *)

Lemma validate_job_transition_Ok a b :
  validate_job_transition a b = Ok tt ↔ a = b ∨ job_step a b.
Proof.
  unfold validate_job_transition. destruct (decide (a = b)) as [->|Hne]; [tauto|].
  split.
  - intros H. right. destruct (ALLOWED_TRANSITIONS a) as [l|] eqn:E; [|done].
    destruct (decide (b ∈ l)); [by econstructor|done].
  - intros [|Hs]; [done|]. destruct Hs as [a b l E Hb]. rewrite E. by rewrite decide_True.
Qed.
Lemma validate_job_transition_Err a b e :
  validate_job_transition a b = Err e → ∃ msg, e = InvalidJobTransitionError msg.
Proof.
  unfold validate_job_transition. repeat case_match; intros [= <-]; eauto.
Qed.
Lemma job_step_spec a b :
  job_step a b ↔ match ALLOWED_TRANSITIONS a with
                 | Some l => bool_decide (b ∈ l)
                 | None => false
                 end = true.
Proof.
  split.
  - intros Hs. destruct Hs as [a b l E Hb]. rewrite E. by apply bool_decide_eq_true.
  - destruct (ALLOWED_TRANSITIONS a) as [l|] eqn:E; [|done].
    intros Hb%bool_decide_eq_true. by econstructor.
Qed.
Lemma terminal_no_step a b : is_terminal a = true → ¬ job_step a b.
Proof.
  intros Ha Hs. revert Ha. destruct Hs as [a b l E Hb]. intros Ha. destruct a; simplify_eq/=;
    by apply not_elem_of_nil in Hb.
Qed.
Lemma terminal_steps a b : is_terminal a = true → job_steps a b → b = a.
Proof. intros Ha Hs. destruct Hs as [|??? Hs]; [done|]. by apply terminal_no_step in Hs. Qed.

(** ** Properties *)

(** The job life cycle is sound: the code accepts exactly the self-loops and the table's
    steps; a terminal status is final under any number of steps; every status the table
    starts from can still be failed or cancelled, directly or at all, and a lost worker's
    job can come back to running; and no step leads back to [assigned], the only status
    a job is dispatched from, so a job is dispatched at most once in its life. *)
Theorem job_lifecycle_table a b :
  (validate_job_transition a b = Ok tt ↔ a = b ∨ job_step a b) ∧
  (is_terminal a = true → job_steps a b → b = a) ∧
  (is_terminal a = false → is_Some (ALLOWED_TRANSITIONS a) →
     job_step a JobFailed ∧ job_step a JobCancelled) ∧
  (job_step a JobRunning ↔ a = JobDispatching ∨ a = JobWorkerLost) ∧
  ¬ job_step a JobAssigned ∧ (job_step a JobDispatching ↔ a = JobAssigned).
Proof.
  split; [apply validate_job_transition_Ok|]. split; [apply terminal_steps|].
  split; [|split; [|split]]; rewrite ?job_step_spec.
  - intros Ht [l Hl]. by destruct a.
  - destruct a; vm_compute; intuition congruence.
  - by destruct a.
  - destruct a; vm_compute; intuition congruence.
Qed.
