(* ===== verification/ClusterState.v ===== *)
(** The state of the cluster controller: the tables of [repository_schema.py], the
    store the handlers run over, and the observability mixin that appends the
    timeline.

    A table is the list of its rows in rowid order; a TEXT timestamp is a [stamp]; the
    JSON columns are decoded values with the keys the code reads (absent keys are
    [None] or the value [dict.get] defaults to).  The store keeps the database inside
    the running transaction next to the last committed one, which is what a second
    connection opened meanwhile reads; the claim registry is another database file,
    whose effects a rollback of this one does not undo. *)

From Stdlib Require Export QArith.
From S2P Require Import Prelude DeviceClaims JobStateMachine.

Open Scope Z_scope.

(** ** Statuses *)

Inductive command_status :=
  | CmdQueued | CmdDelivered | CmdAccepted | CmdRunning
  | CmdCompleted | CmdFailed | CmdCancelled.
#[export] Instance command_status_eq_dec : EqDecision command_status.
Proof. solve_decision. Defined.

Inductive attempt_status :=
  | AttAssigned | AttDispatching | AttRunning | AttCompleted | AttFailed | AttCancelled.
#[export] Instance attempt_status_eq_dec : EqDecision attempt_status.
Proof. solve_decision. Defined.

Inductive lease_status := LeaseActive | LeaseOrphaned | LeaseReleased | LeaseRevoked.
#[export] Instance lease_status_eq_dec : EqDecision lease_status.
Proof. solve_decision. Defined.

Inductive reservation_status :=
  | ResActive | ResExpired | ResConverted | ResReleased | ResCancelled.
#[export] Instance reservation_status_eq_dec : EqDecision reservation_status.
Proof. solve_decision. Defined.

Inductive worker_status := WorkerOnline | WorkerBusy | WorkerDraining | WorkerOffline.
#[export] Instance worker_status_eq_dec : EqDecision worker_status.
Proof. solve_decision. Defined.

(** ** Rows *)

(* src/features/cluster/repository_schema.py:125-146 cluster_workers *)
Record worker := Worker {
  wk_id : string;
  wk_name : string;
  wk_hostname : string;
  wk_address : string;
  wk_agent_version : string;
  wk_status : worker_status;
  wk_capabilities : list (string * string);
  wk_cpu_percent : Q;
  wk_memory_percent : Q;
  wk_memory_total_gb : Q;
  wk_memory_available_gb : Q;
  wk_load_1m : Q;
  wk_disk_free_gb : Q;
  wk_disk_total_gb : Q;
  wk_max_jobs : Z;
  wk_running_jobs : Z;
  wk_external_jobs : Z;
  wk_unknown_external_jobs : Z;
  wk_session_id : string;
  wk_connection_generation : Z;
  wk_disconnected_at : stamp;
  wk_last_recovered_at : stamp;
  wk_registered_at : stamp;
  wk_last_heartbeat_at : stamp;
  wk_updated_at : stamp;
}.
#[export] Instance worker_eta : Eta worker := λ r,
  Worker (wk_id r) (wk_name r) (wk_hostname r) (wk_address r) (wk_agent_version r)
    (wk_status r) (wk_capabilities r) (wk_cpu_percent r) (wk_memory_percent r)
    (wk_memory_total_gb r) (wk_memory_available_gb r) (wk_load_1m r) (wk_disk_free_gb r)
    (wk_disk_total_gb r) (wk_max_jobs r) (wk_running_jobs r) (wk_external_jobs r)
    (wk_unknown_external_jobs r) (wk_session_id r) (wk_connection_generation r)
    (wk_disconnected_at r) (wk_last_recovered_at r) (wk_registered_at r)
    (wk_last_heartbeat_at r) (wk_updated_at r).

(** The properties are kept as the text each key reads as: the code takes
    [str(properties.get(key) or '')] of the keys it looks at. *)
(* src/features/cluster/repository_schema.py:147-156 cluster_worker_devices *)
Record device_row := DeviceRow {
  dev_id : string;
  dev_worker_id : string;
  dev_serial : string;
  dev_transport : string;
  dev_state : string;
  dev_properties : gmap string string;
  dev_first_seen_at : stamp;
  dev_last_seen_at : stamp;
  dev_updated_at : stamp;
}.
#[export] Instance device_row_eta : Eta device_row := λ r,
  DeviceRow (dev_id r) (dev_worker_id r) (dev_serial r) (dev_transport r) (dev_state r)
    (dev_properties r) (dev_first_seen_at r) (dev_last_seen_at r) (dev_updated_at r).

(* src/features/cluster/repository_schema.py:157-165 cluster_worker_suites *)
Record suite_row := SuiteRow {
  su_id : Z;
  su_worker_id : string;
  su_suite_type : string;
  su_suite_version : string;
  su_suite_key : string;
  su_tools_path : string;
  su_checksum : string;
  su_size_bytes : Z;
  su_available : bool;
  su_last_scanned_at : stamp;
}.
#[export] Instance suite_row_eta : Eta suite_row := λ r,
  SuiteRow (su_id r) (su_worker_id r) (su_suite_type r) (su_suite_version r) (su_suite_key r)
    (su_tools_path r) (su_checksum r) (su_size_bytes r) (su_available r) (su_last_scanned_at r).

(** [payload_json] repeats the reported item, whose keys are the other columns. *)
(* src/features/cluster/repository_schema.py:166-172 cluster_worker_tests *)
Record test_row := TestRow {
  wt_worker_id : string;
  wt_worker_job_id : string;
  wt_source : string;
  wt_status : string;
  wt_suite_type : string;
  wt_pid : option Z;
  wt_devices : list string;
  wt_last_seen_at : stamp;
}.
#[export] Instance test_row_eta : Eta test_row := λ r,
  TestRow (wt_worker_id r) (wt_worker_job_id r) (wt_source r) (wt_status r) (wt_suite_type r)
    (wt_pid r) (wt_devices r) (wt_last_seen_at r).

Record lease_token := LeaseToken {
  tok_lease_id : string;
  tok_device_id : string;
  tok_generation : Z;
  tok_attempt_id : string;
}.
#[export] Instance lease_token_eta : Eta lease_token := λ r,
  LeaseToken (tok_lease_id r) (tok_device_id r) (tok_generation r) (tok_attempt_id r).

(** An entry of the AOA debug queue kept in a command payload. *)
Record debug_entry := DebugEntry {
  dbg_sequence : Z;
  dbg_request_id : string;
  dbg_command : string;
}.
#[export] Instance debug_entry_eta : Eta debug_entry := λ r,
  DebugEntry (dbg_sequence r) (dbg_request_id r) (dbg_command r).

(** The keys of [payload_json] the controller reads or writes; an absent key is [None],
    the empty list, [False] or 0, as the code's [get] and [or] make it. *)
Record payload := Payload {
  pl_owner_id : option string;
  pl_request_sha256 : option string;
  pl_playback_control_id : option string;
  pl_automation_run_id : option string;
  pl_transfer_id : option string;
  pl_aoa_debug_session_id : option string;
  pl_aoa_debug_queue : list debug_entry;
  pl_aoa_debug_closed : bool;
  pl_aoa_control_action : option string;
  pl_aoa_control_revision : Z;
  pl_release_claim_on_terminal : bool;
  pl_claim_source_id : option string;
  pl_action : option string;
  pl_devices : list string;
  pl_lease_tokens : list lease_token;
  pl_worker_job_id : option string;
  pl_trace_id : option string;
  pl_argv : list string;
  pl_execution_spec : option string;
  pl_env : list (string * string);
}.
#[export] Instance payload_eta : Eta payload := λ r,
  Payload (pl_owner_id r) (pl_request_sha256 r) (pl_playback_control_id r)
    (pl_automation_run_id r) (pl_transfer_id r) (pl_aoa_debug_session_id r)
    (pl_aoa_debug_queue r) (pl_aoa_debug_closed r) (pl_aoa_control_action r)
    (pl_aoa_control_revision r) (pl_release_claim_on_terminal r) (pl_claim_source_id r)
    (pl_action r) (pl_devices r) (pl_lease_tokens r) (pl_worker_job_id r) (pl_trace_id r)
    (pl_argv r) (pl_execution_spec r) (pl_env r).

(** [result_json]: only [worker_job_id] is read by the controller. *)
Record command_result := CommandResult {
  cr_worker_job_id : string;
  cr_rest : list (string * string);
}.
#[export] Instance command_result_eta : Eta command_result := λ r,
  CommandResult (cr_worker_job_id r) (cr_rest r).

(* src/features/cluster/repository_schema.py:173-186 cluster_commands *)
Record command := Command {
  cm_id : string;
  cm_worker_id : string;
  cm_command_type : string;
  cm_job_id : string;
  cm_attempt_id : string;
  cm_dispatch_token : string;
  cm_payload : payload;
  cm_operation_id : string;
  cm_trace_id : string;
  cm_status : command_status;
  cm_result : command_result;
  cm_error : string;
  cm_created_at : stamp;
  cm_delivered_at : stamp;
  cm_acknowledged_at : stamp;
  cm_terminal_notified_at : stamp;
  cm_updated_at : stamp;
}.
#[export] Instance command_eta : Eta command := λ r,
  Command (cm_id r) (cm_worker_id r) (cm_command_type r) (cm_job_id r) (cm_attempt_id r)
    (cm_dispatch_token r) (cm_payload r) (cm_operation_id r) (cm_trace_id r) (cm_status r)
    (cm_result r) (cm_error r) (cm_created_at r) (cm_delivered_at r) (cm_acknowledged_at r)
    (cm_terminal_notified_at r) (cm_updated_at r).

(** A row of [cluster_job_events] ([subject_id] is [attempt_id], [owner_id] is [job_id]) or of
    [cluster_command_events] ([subject_id] is [command_id], [owner_id] is [worker_id]): in
    both, [subject_id] and [sequence] are unique together. *)
(* src/features/cluster/repository_schema.py:187-200 cluster_job_events *)
Record event_row := EventRow {
  ev_id : Z;
  ev_subject_id : string;
  ev_owner_id : string;
  ev_sequence : Z;
  ev_event_type : string;
  ev_source : string;
  ev_level : string;
  ev_message : string;
  ev_payload : list (string * string);
  ev_created_at : stamp;
}.
#[export] Instance event_row_eta : Eta event_row := λ r,
  EventRow (ev_id r) (ev_subject_id r) (ev_owner_id r) (ev_sequence r) (ev_event_type r)
    (ev_source r) (ev_level r) (ev_message r) (ev_payload r) (ev_created_at r).

(** The submission a job is created from, stored (without its keys starting with [_]) as
    [request_json]. *)
Record job_data := JobData {
  jd_worker_id : string;
  jd_devices : list string;
  jd_owner_id : string;
  jd_owner_username : string;
  jd_device_reservation_id : string;
  jd_automation_run_id : string;
  jd_trace_id : string;
  jd_source_type : string;
  jd_suite_key : string;
  jd_suite_path : string;
  jd_priority : Z;
  jd_required_memory_gb : Q;
  jd_exclusive_host : bool;
  jd_argv : list string;
  jd_execution_spec : option string;
  jd_env : list (string * string);
  jd_idempotency_key : string;
  jd_request_hash : string;
}.
#[export] Instance job_data_eta : Eta job_data := λ r,
  JobData (jd_worker_id r) (jd_devices r) (jd_owner_id r) (jd_owner_username r)
    (jd_device_reservation_id r) (jd_automation_run_id r) (jd_trace_id r) (jd_source_type r)
    (jd_suite_key r) (jd_suite_path r) (jd_priority r) (jd_required_memory_gb r)
    (jd_exclusive_host r) (jd_argv r) (jd_execution_spec r) (jd_env r) (jd_idempotency_key r)
    (jd_request_hash r).

(* src/features/cluster/repository_schema.py:201-215 cluster_jobs *)
Record job := Job {
  jb_id : string;
  jb_owner_id : string;
  jb_source_type : string;
  jb_requested_worker_id : string;
  jb_assigned_worker_id : string;
  jb_suite_key : string;
  jb_suite_path : string;
  jb_request : job_data;
  jb_status : job_status;
  jb_priority : Z;
  jb_current_attempt_id : string;
  jb_trace_id : string;
  jb_state_version : Z;
  jb_recovery_count : Z;
  jb_last_transition_at : stamp;
  jb_created_at : stamp;
  jb_queued_at : stamp;
  jb_started_at : stamp;
  jb_finished_at : stamp;
  jb_updated_at : stamp;
  jb_error : string;
}.
#[export] Instance job_eta : Eta job := λ r,
  Job (jb_id r) (jb_owner_id r) (jb_source_type r) (jb_requested_worker_id r)
    (jb_assigned_worker_id r) (jb_suite_key r) (jb_suite_path r) (jb_request r) (jb_status r)
    (jb_priority r) (jb_current_attempt_id r) (jb_trace_id r) (jb_state_version r)
    (jb_recovery_count r) (jb_last_transition_at r) (jb_created_at r) (jb_queued_at r)
    (jb_started_at r) (jb_finished_at r) (jb_updated_at r) (jb_error r).

(* src/features/cluster/repository_schema.py:216-220 cluster_job_requests *)
Record job_request := JobRequest {
  jr_owner_id : string;
  jr_request_key : string;
  jr_request_hash : string;
  jr_job_id : string;
}.
#[export] Instance job_request_eta : Eta job_request := λ r,
  JobRequest (jr_owner_id r) (jr_request_key r) (jr_request_hash r) (jr_job_id r).

(** Values of a timeline payload, which the controller only writes. *)
Inductive pval :=
  | PStr (s : string)
  | PInt (z : Z)
  | PStrs (l : list string).

(* src/features/cluster/repository_schema.py:221-230 cluster_timeline_events *)
Record timeline_event := TimelineEvent {
  tl_id : Z;
  tl_job_id : string;
  tl_attempt_id : string;
  tl_trace_id : string;
  tl_operation_id : string;
  tl_worker_id : string;
  tl_event_type : string;
  tl_source : string;
  tl_level : string;
  tl_from_state : string;
  tl_to_state : string;
  tl_message : string;
  tl_payload : list (string * pval);
  tl_created_at : stamp;
}.
#[export] Instance timeline_event_eta : Eta timeline_event := λ r,
  TimelineEvent (tl_id r) (tl_job_id r) (tl_attempt_id r) (tl_trace_id r) (tl_operation_id r)
    (tl_worker_id r) (tl_event_type r) (tl_source r) (tl_level r) (tl_from_state r)
    (tl_to_state r) (tl_message r) (tl_payload r) (tl_created_at r).

(* src/features/cluster/repository_schema.py:231-240 cluster_job_attempts *)
Record attempt := Attempt {
  at_id : string;
  at_job_id : string;
  at_attempt_number : Z;
  at_worker_id : string;
  at_worker_job_id : string;
  at_dispatch_token : string;
  at_status : attempt_status;
  at_result : command_result;
  at_started_at : stamp;
  at_heartbeat_at : stamp;
  at_finished_at : stamp;
  at_error : string;
}.
#[export] Instance attempt_eta : Eta attempt := λ r,
  Attempt (at_id r) (at_job_id r) (at_attempt_number r) (at_worker_id r) (at_worker_job_id r)
    (at_dispatch_token r) (at_status r) (at_result r) (at_started_at r) (at_heartbeat_at r)
    (at_finished_at r) (at_error r).

(* src/features/cluster/repository_schema.py:241-250 device_leases *)
Record lease := Lease {
  le_id : string;
  le_device_id : string;
  le_worker_id : string;
  le_serial : string;
  le_job_id : string;
  le_attempt_id : string;
  le_owner_id : string;
  le_status : lease_status;
  le_generation : Z;
  le_acquired_at : stamp;
  le_heartbeat_at : stamp;
  le_expires_at : stamp;
  le_released_at : stamp;
}.
#[export] Instance lease_eta : Eta lease := λ r,
  Lease (le_id r) (le_device_id r) (le_worker_id r) (le_serial r) (le_job_id r)
    (le_attempt_id r) (le_owner_id r) (le_status r) (le_generation r) (le_acquired_at r)
    (le_heartbeat_at r) (le_expires_at r) (le_released_at r).

(* src/features/cluster/repository_schema.py:251-260 cluster_device_reservations *)
Record reservation := Reservation {
  rs_id : string;
  rs_reservation_id : string;
  rs_device_id : string;
  rs_worker_id : string;
  rs_serial : string;
  rs_owner_id : string;
  rs_source_id : string;
  rs_status : reservation_status;
  rs_acquired_at : stamp;
  rs_heartbeat_at : stamp;
  rs_expires_at : stamp;
  rs_released_at : stamp;
}.
#[export] Instance reservation_eta : Eta reservation := λ r,
  Reservation (rs_id r) (rs_reservation_id r) (rs_device_id r) (rs_worker_id r) (rs_serial r)
    (rs_owner_id r) (rs_source_id r) (rs_status r) (rs_acquired_at r) (rs_heartbeat_at r)
    (rs_expires_at r) (rs_released_at r).

(* src/features/cluster/repository_schema.py:261-267 cluster_job_artifacts *)
Record artifact := Artifact {
  ar_id : string;
  ar_job_id : string;
  ar_attempt_id : string;
  ar_worker_id : string;
  ar_filename : string;
  ar_relative_path : string;
  ar_artifact_type : string;
  ar_size_bytes : Z;
  ar_sha256 : string;
  ar_created_at : stamp;
}.
#[export] Instance artifact_eta : Eta artifact := λ r,
  Artifact (ar_id r) (ar_job_id r) (ar_attempt_id r) (ar_worker_id r) (ar_filename r)
    (ar_relative_path r) (ar_artifact_type r) (ar_size_bytes r) (ar_sha256 r) (ar_created_at r).

(* src/features/cluster/repository_schema.py:268-277 cluster_artifact_uploads *)
Record upload := Upload {
  up_id : string;
  up_job_id : string;
  up_attempt_id : string;
  up_worker_id : string;
  up_filename : string;
  up_artifact_type : string;
  up_size_bytes : Z;
  up_sha256 : string;
  up_chunk_size : Z;
  up_chunk_count : Z;
  up_status : string;
  up_created_at : stamp;
  up_updated_at : stamp;
  up_completed_at : stamp;
}.
#[export] Instance upload_eta : Eta upload := λ r,
  Upload (up_id r) (up_job_id r) (up_attempt_id r) (up_worker_id r) (up_filename r)
    (up_artifact_type r) (up_size_bytes r) (up_sha256 r) (up_chunk_size r) (up_chunk_count r)
    (up_status r) (up_created_at r) (up_updated_at r) (up_completed_at r).

(** [metadata_json] is kept as its text. *)
(* src/features/cluster/repository_schema.py:278-285 cluster_transfers *)
Record transfer_row := TransferRow {
  tr_id : string;
  tr_worker_id : string;
  tr_transfer_type : string;
  tr_owner_id : string;
  tr_metadata : string;
  tr_status : string;
  tr_filename : string;
  tr_relative_path : string;
  tr_size_bytes : Z;
  tr_sha256 : string;
  tr_error : string;
  tr_created_at : stamp;
  tr_updated_at : stamp;
  tr_completed_at : string;
}.
#[export] Instance transfer_row_eta : Eta transfer_row := λ r,
  TransferRow (tr_id r) (tr_worker_id r) (tr_transfer_type r) (tr_owner_id r) (tr_metadata r)
    (tr_status r) (tr_filename r) (tr_relative_path r) (tr_size_bytes r) (tr_sha256 r)
    (tr_error r) (tr_created_at r) (tr_updated_at r) (tr_completed_at r).

(* src/features/cluster/repository_schema.py:286-294 cluster_worker_metrics *)
Record metric_row := MetricRow {
  mt_worker_id : string;
  mt_recorded_at : stamp;
  mt_cpu_percent : Q;
  mt_memory_percent : Q;
  mt_disk_free_gb : Q;
  mt_running_jobs : Z;
  mt_external_jobs : Z;
}.
#[export] Instance metric_row_eta : Eta metric_row := λ r,
  MetricRow (mt_worker_id r) (mt_recorded_at r) (mt_cpu_percent r) (mt_memory_percent r)
    (mt_disk_free_gb r) (mt_running_jobs r) (mt_external_jobs r).

(** ** The database and the store *)

(** The tables, and the AUTOINCREMENT counters of the four tables that have one. *)
(* src/features/cluster/repository_schema.py:123-296 apply_schema *)
Record db := Db {
  db_workers : list worker;
  db_devices : list device_row;
  db_suites : list suite_row;
  db_tests : list test_row;
  db_commands : list command;
  db_job_events : list event_row;
  db_command_events : list event_row;
  db_jobs : list job;
  db_job_requests : list job_request;
  db_timeline : list timeline_event;
  db_attempts : list attempt;
  db_leases : list lease;
  db_reservations : list reservation;
  db_artifacts : list artifact;
  db_uploads : list upload;
  db_transfers : list transfer_row;
  db_metrics : list metric_row;
  db_seq_timeline : Z;
  db_seq_job_events : Z;
  db_seq_command_events : Z;
  db_seq_suites : Z;
}.
#[export] Instance db_eta : Eta db := λ r,
  Db (db_workers r) (db_devices r) (db_suites r) (db_tests r) (db_commands r) (db_job_events r)
    (db_command_events r) (db_jobs r) (db_job_requests r) (db_timeline r) (db_attempts r)
    (db_leases r) (db_reservations r) (db_artifacts r) (db_uploads r) (db_transfers r)
    (db_metrics r) (db_seq_timeline r) (db_seq_job_events r) (db_seq_command_events r)
    (db_seq_suites r).

(** Events handed to the in-process event bus. *)
Inductive bus_event :=
  | EventJobTransition (job_id : string) (status : job_status) (worker_id target : string)
  | EventWorkerUpdated (worker_id : string) (status : worker_status)
  | EventWorkerAvailability (worker_id name : string) (status : worker_status).

(** [w_db] is the database as the open transaction sees it, [w_committed] the committed
    one; outside a transaction they are equal. *)
Record world := World {
  w_db : db;
  w_committed : db;
  w_claims : registry;
  w_drawn : nat;
  w_events : list bus_event;
}.
#[export] Instance world_eta : Eta world := λ r,
  World (w_db r) (w_committed r) (w_claims r) (w_drawn r) (w_events r).

(** ** Handlers over the store *)

(** A statement on the database of the running transaction, and a query on it. *)
Definition sql (f : db → db) : M world unit := modify (λ w, w <| w_db ::= f |>).
Definition select {A} (q : db → A) : M world A := gets (λ w, q (w_db w)).

(** A query on a connection of its own: it reads the committed database. *)
Definition connect_read {A} (q : db → A) : M world A := gets (λ w, q (w_committed w)).

(** [with self.connect() as conn: ...]: commits when the block ends or returns, rolls the
    database back when it raises.  Claims, drawn identifiers and emitted events are not
    part of the transaction. *)
Definition transaction {A} (m : M world A) : M world A := λ w,
  match m w with
  | (Ok a, w') => (Ok a, w' <| w_committed := w_db w' |>)
  | (Err e, w') => (Err e, w' <| w_db := w_committed w' |>)
  end.

(** An operation of the claim registry. *)
Definition claims_op {A} (m : M registry A) : M world A := λ w,
  let (a, r) := m (w_claims w) in (a, w <| w_claims := r |>).

Definition emit (e : bus_event) : M world unit := modify (λ w, w <| w_events ::= λ l, l ++ [e] |>).

(** A uniqueness or foreign-key constraint a statement checks. *)
Definition constraint (q : db → bool) (name : string) : M world unit :=
  ok ← select q; require ok (IntegrityError name).

Section draws.
Context `{Uuid}.
Definition uuid4_hex : M world string :=
  n ← gets w_drawn; _ ← modify (λ w, w <| w_drawn ::= S |>); mret (uuid_hex n).
End draws.

(** [sorted] on texts. *)
Definition text_leb (a b : string) : bool := String.leb a b.

(** The row a table holds under a key. *)
Definition get_worker_row (worker_id : string) (d : db) : option worker :=
  fetchone (λ r, streqb (wk_id r) worker_id) (db_workers d).
Definition get_job_row (job_id : string) (d : db) : option job :=
  fetchone (λ r, streqb (jb_id r) job_id) (db_jobs d).
Definition get_device_row (device_id : string) (d : db) : option device_row :=
  fetchone (λ r, streqb (dev_id r) device_id) (db_devices d).
Definition get_command_row (command_id : string) (d : db) : option command :=
  fetchone (λ r, streqb (cm_id r) command_id) (db_commands d).
Definition get_attempt_row (attempt_id : string) (d : db) : option attempt :=
  fetchone (λ r, streqb (at_id r) attempt_id) (db_attempts d).

(** [status='active'] leases of a device: the row of [idx_active_device_lease]. *)
Definition lease_is_active (l : lease) : bool := bool_decide (le_status l = LeaseActive).
Definition active_lease (device_id : string) (d : db) : option lease :=
  fetchone (λ l, streqb (le_device_id l) device_id && lease_is_active l) (db_leases d).
Definition device_leased (device_id : string) (d : db) : bool :=
  bool_decide (is_Some (active_lease device_id d)).
Definition reservation_is_active (r : reservation) : bool :=
  bool_decide (rs_status r = ResActive).
Definition device_reserved (device_id : string) (d : db) : bool :=
  exists_row (λ r, streqb (rs_device_id r) device_id && reservation_is_active r)
    (db_reservations d).

(** ** The timeline and job transitions: [repository_observability.py] *)

(** The keyword arguments of [_append_timeline_conn]; the defaults are [tl_default]. *)
(* src/features/cluster/repository_observability.py:18-34 ClusterObservabilityRepositoryMixin._append_timeline_conn *)
Definition tl_default (event_type source message : string) : timeline_event :=
  TimelineEvent 0 "" "" "" "" "" event_type source "info" "" "" message [] None.

(* src/features/cluster/repository_observability.py:18-55 ClusterObservabilityRepositoryMixin._append_timeline_conn *)
Definition log_timeline (now : Z) (e : timeline_event) (d : db) : db :=
  d <| db_seq_timeline ::= Z.succ |>
    <| db_timeline ::= λ t, t ++ [e <| tl_id := Z.succ (db_seq_timeline d) |>
                                    <| tl_created_at := Some now |>] |>.
Definition append_timeline_conn (now : Z) (e : timeline_event) : M world unit :=
  sql (log_timeline now e).

(** [limit or 500], clamped to 1..2000; [after or 0], not negative. *)
(* src/features/cluster/repository_observability.py:57-92 ClusterObservabilityRepositoryMixin.list_timeline *)
Definition list_timeline (job_id worker_id trace_id : string) (after limit : Z)
    : M world (list timeline_event) :=
  connect_read (λ d,
    take (Z.to_nat (Z.max 1 (Z.min (if Z.eqb limit 0 then 500 else limit) 2000)))
      (order_by (λ a b, Z.leb (tl_id a) (tl_id b))
        (fetchall (λ e, Z.ltb (Z.max 0 after) (tl_id e)
           && (negb (nonempty job_id) || streqb (tl_job_id e) job_id)
           && (negb (nonempty worker_id) || streqb (tl_worker_id e) worker_id)
           && (negb (nonempty trace_id) || streqb (tl_trace_id e) trace_id))
          (db_timeline d)))).

(** The [UPDATE cluster_jobs] of a transition. *)
(* src/features/cluster/repository_observability.py:118-141 ClusterObservabilityRepositoryMixin._transition_job_conn *)
Definition transition_row (now : Z) (to_status : job_status) (error : string) (j : job) : job :=
  j <| jb_status := to_status |> <| jb_error := error |> <| jb_updated_at := Some now |>
    <| jb_last_transition_at := Some now |> <| jb_state_version ::= Z.succ |>
    <| jb_started_at ::= λ s, if bool_decide (to_status = JobRunning) && bool_decide (s = None)
                              then Some now else s |>
    <| jb_finished_at ::= λ s, if is_terminal to_status then Some now else s |>
    <| jb_recovery_count ::= λ n,
         if bool_decide (jb_status j = JobWorkerLost) && bool_decide (to_status = JobRunning)
         then n + 1 else n |>.

(* src/features/cluster/repository_observability.py:94-159 ClusterObservabilityRepositoryMixin._transition_job_conn *)
Definition transition_job_conn (now : Z) (job_id : string) (to_status : job_status)
    (source message error operation_id worker_id : string) (pl : list (string * pval))
    : M world bool :=
  job ← select (get_job_row job_id);
  match job with
  | None => mret false
  | Some job =>
      let from_status := jb_status job in
      if decide (from_status = to_status) then mret false
      else
        match validate_job_transition from_status to_status with
        | Err e => raise e
        | Ok _ =>
            let hit j := streqb (jb_id j) job_id
                         && Z.eqb (jb_state_version j) (jb_state_version job) in
            n ← select (λ d, rowcount hit (db_jobs d));
            _ ← sql (λ d, d <| db_jobs ::= update_where hit (transition_row now to_status error) |>);
            if negb (Nat.eqb n 1) then mret false
            else
              _ ← append_timeline_conn now
                (tl_default "job.transition" source message
                   <| tl_job_id := job_id |> <| tl_attempt_id := jb_current_attempt_id job |>
                   <| tl_trace_id := jb_trace_id job |> <| tl_operation_id := operation_id |>
                   <| tl_worker_id := str_or worker_id (jb_assigned_worker_id job) |>
                   <| tl_level := if bool_decide (to_status = JobFailed)
                                     || bool_decide (to_status = JobWorkerLost)
                                  then "error" else "info" |>
                   <| tl_from_state := job_status_text from_status |>
                   <| tl_to_state := job_status_text to_status |>
                   <| tl_payload := pl |>);
              mret true
        end
  end.

(** [except InvalidJobTransitionError]: only a refused transition is caught. *)
Definition catch_invalid_transition {A} (m : M world A) (h : M world A) : M world A :=
  try m (λ e, match e with InvalidJobTransitionError _ => h | _ => raise e end).

(* src/features/cluster/repository_observability.py:245-284 ClusterObservabilityRepositoryMixin.transition_job *)
Definition transition_job (now : Z) (job_id : string) (to_status : job_status)
    (source message error operation_id worker_id : string) (pl : list (string * pval))
    : M world bool :=
  result ← transaction (transition_job_conn now job_id to_status source
    (str_or message ("Cluster Job entered " +:+ job_status_text to_status))
    error operation_id worker_id pl);
  _ ← (if result : bool then
         job ← connect_read (get_job_row job_id);
         match job with
         | Some j =>
             if nonempty (jb_owner_id j)
             then emit (EventJobTransition job_id to_status worker_id (jb_owner_id j))
             else mret tt
         | None => mret tt
         end
       else mret tt);
  mret result.

(** Leases a job still holds in some form. *)
Definition lease_held (l : lease) : bool :=
  lease_is_active l || bool_decide (le_status l = LeaseOrphaned).
Definition release_lease (now : Z) (l : lease) : lease :=
  l <| le_status := LeaseReleased |> <| le_released_at := Some now |>.
Definition set_device_state (now : Z) (state : string) (r : device_row) : device_row :=
  r <| dev_state := state |> <| dev_updated_at := Some now |>.
Definition attempt_is_terminal (a : attempt) : bool :=
  match at_status a with AttCompleted | AttFailed | AttCancelled => true | _ => false end.

(** One abandoned job: its transition and the release of what it holds. *)
(* src/features/cluster/repository_observability.py:181-227 ClusterObservabilityRepositoryMixin.fail_abandoned_worker_lost_jobs *)
Definition fail_abandoned_job (now : Z) (row : job) : M world (option (string * string)) :=
  let job_id := jb_id row in
  let error := "worker lost and did not reconnect in time" in
  transitioned ← catch_invalid_transition
    (transition_job_conn now job_id JobFailed "controller-watchdog"
       "Worker did not resume the lost Attempt in time; failing the stale worker_lost Cluster Job"
       error "" "" [])
    (mret false);
  if negb transitioned then mret None
  else
    attempt ← select (λ d, jb_current_attempt_id <$> get_job_row job_id d);
    _ ← match attempt with
        | Some attempt_id =>
            when (nonempty attempt_id)
              (sql (λ d, d <| db_attempts ::= update_where
                 (λ a, streqb (at_id a) attempt_id && negb (attempt_is_terminal a))
                 (λ a, a <| at_status := AttFailed |> <| at_finished_at := Some now |>
                         <| at_error := error |>) |>))
        | None => mret tt
        end;
    let held l := streqb (le_job_id l) job_id && lease_held l in
    leases ← select (λ d, le_device_id <$> fetchall held (db_leases d));
    _ ← sql (λ d, d <| db_leases ::= update_where held (release_lease now) |>);
    _ ← for_each leases (λ device_id,
          sql (λ d, d <| db_devices ::= update_where (λ r, streqb (dev_id r) device_id)
                           (set_device_state now "available") |>));
    _ ← claims_op (release now ("job:" +:+ job_id) "failed" []);
    mret (Some (job_id, jb_owner_id row)).

(** [datetime(last_transition_at) <= datetime('now', '-s seconds')] with the column set. *)
Definition older_than (now seconds : Z) (s : stamp) : bool :=
  match s with Some t => Z.leb t (now - seconds) | None => false end.

(* src/features/cluster/repository_observability.py:161-243 ClusterObservabilityRepositoryMixin.fail_abandoned_worker_lost_jobs *)
Definition fail_abandoned_worker_lost_jobs (now : Z) (min_age_seconds : Z)
    : M world (list string) :=
  if Z.ltb min_age_seconds 0 then mret []
  else
    notified ← transaction (
      rows ← select (λ d, fetchall (λ j, bool_decide (jb_status j = JobWorkerLost)
                             && older_than now min_age_seconds (jb_last_transition_at j))
                            (db_jobs d));
      found ← forM rows (fail_abandoned_job now);
      mret (omap id found));
    _ ← for_each notified (λ '(job_id, owner_id),
          when (nonempty owner_id) (emit (EventJobTransition job_id JobFailed "" owner_id)));
    mret (fst <$> notified).

(** A worker's reported session is current. *)
(* src/features/cluster/repository_observability.py:286-299 ClusterObservabilityRepositoryMixin.validate_worker_session *)
Definition validate_worker_session (worker_id session_id : string) (generation : Z)
    : M world bool :=
  connect_read (λ d,
    match get_worker_row worker_id d with
    | None => false
    | Some w =>
        if negb (nonempty (wk_session_id w))
        then negb (nonempty session_id) && Z.eqb generation 0
        else streqb (wk_session_id w) session_id && Z.eqb (wk_connection_generation w) generation
    end).

(** ** Lemmas *)

Lemma get_job_row_Some i d j : get_job_row i d = Some j → j ∈ db_jobs d ∧ jb_id j = i.
Proof. intros [Hj Hi]%fetchone_Some. unfold streqb in Hi. by bool_props. Qed.
Lemma get_job_row_unique d j :
  unique_index (λ _, true) jb_id (db_jobs d) → j ∈ db_jobs d → get_job_row (jb_id j) d = Some j.
Proof.
  intros Hu Hj. eapply fetchone_unique; [done|done|]. intros x _. apply bool_decide_eq_true.
Qed.
Lemma job_step_irrefl a b : job_step a b → a ≠ b.
Proof. rewrite job_step_spec. intros H ->. by destruct b. Qed.

(** An allowed transition of a job: exactly its row moves, and the timeline grows. *)
Lemma transition_run now st so msg er op wid pl w j :
  unique_index (λ _, true) jb_id (db_jobs (w_db w)) → j ∈ db_jobs (w_db w) →
  job_step (jb_status j) st →
  ∃ e, transition_job_conn now (jb_id j) st so msg er op wid pl w =
    (Ok true, w <| w_db := log_timeline now e (w_db w <| db_jobs ::=
       update_where (λ r, streqb (jb_id r) (jb_id j)) (transition_row now st er) |>) |>).
Proof.
  intros Hu Hj Hs. unfold transition_job_conn, select. rewrite bind_gets.
  rewrite (get_job_row_unique _ _ Hu Hj).
  assert (validate_job_transition (jb_status j) st = Ok tt) as ->
    by (apply validate_job_transition_Ok; by right).
  destruct (decide _) as [E|_]; [by apply job_step_irrefl in Hs|]. rewrite bind_gets.
  assert (Hhit : ∀ r, r ∈ db_jobs (w_db w) →
    streqb (jb_id r) (jb_id j) && (jb_state_version r =? jb_state_version j)%Z
    = streqb (jb_id r) (jb_id j)).
  { intros r Hr. destruct (streqb (jb_id r) (jb_id j)) eqn:E; [|done]. unfold streqb in E. bool_props.
    assert (r = j) as -> by by eapply (unique_index_inj _ _ _ r j Hu). by rewrite Z.eqb_refl. }
  rewrite (rowcount_unique jb_id _ j); [|done|done|].
  - simpl negb. cbv iota. unfold mbind, M_bind. eexists.
    unfold sql at 1, modify at 1. cbv beta iota.
    match goal with |- context [update_where ?p ?f] => assert (Hd : w_db w <| db_jobs ::= update_where p f |> =
      w_db w <| db_jobs ::= update_where (λ r, streqb (jb_id r) (jb_id j)) f |>) end.
    { unfold upd. cbv beta. f_equal. by apply update_where_ext. }
    rewrite <-Hd. reflexivity.
  - intros r Hr. rewrite Hhit by done. apply bool_decide_eq_true.
Qed.
Lemma transition_refused now i st so msg er op wid pl w j :
  get_job_row i (w_db w) = Some j → jb_status j ≠ st → ¬ job_step (jb_status j) st →
  ∃ m, transition_job_conn now i st so msg er op wid pl w = (Err (InvalidJobTransitionError m), w).
Proof.
  intros Hj Hne Hn. unfold transition_job_conn, select. rewrite bind_gets, Hj.
  destruct (decide _); [done|].
  destruct (validate_job_transition (jb_status j) st) as [[]|e] eqn:Ev.
  - apply validate_job_transition_Ok in Ev as [|]; done.
  - destruct (validate_job_transition_Err _ _ _ Ev) as [m ->]. by exists m.
Qed.
