(* ===== verification/Admission.v ===== *)
(** Worker admission: [features/cluster/admission.py] and [config.normalize_max_jobs],
    the one decision the worker directory, the scheduler and the claim-time re-check
    share.  Metrics are exact rationals. *)

From Stdlib Require Import Lqa.
From S2P Require Import Prelude JobStateMachine ClusterState.

Open Scope Z_scope.

Inductive admission_reason :=
  | ReasonDraining | ReasonOffline | ReasonLowDisk | ReasonLowMemory | ReasonMaxJobs
  | ReasonExternalTradefed.
#[export] Instance admission_reason_eq_dec : EqDecision admission_reason.
Proof. solve_decision. Defined.

Definition admission_reason_text (r : admission_reason) : string :=
  match r with
  | ReasonDraining => "draining" | ReasonOffline => "offline" | ReasonLowDisk => "low_disk"
  | ReasonLowMemory => "low_memory" | ReasonMaxJobs => "max_jobs"
  | ReasonExternalTradefed => "external_tradefed"
  end.

(* src/features/cluster/config.py:17-19 normalize_max_jobs *)
Definition normalize_max_jobs (value : Z) : Z := Z.min 32 (Z.max 1 value).

(** Zero or less is "unknown". *)
(* src/features/cluster/admission.py:31-37 _positive_metric *)
Definition positive_metric (value : Q) : Q := if Qle_bool value 0 then 0%Q else value.

Definition Qlt_bool (a b : Q) : bool := negb (Qle_bool b a).
Definition Qmax (a b : Q) : Q := if Qle_bool a b then b else a.

Section admission.
(** [GMS_CLUSTER_MIN_DISK_FREE_GB] and [GMS_CLUSTER_MIN_MEMORY_AVAILABLE_GB]. *)
Variables min_disk_free_gb min_memory_available_gb : Q.

(* src/features/cluster/admission.py:40-77 worker_admission_state *)
Definition worker_admission_state (w : worker) (required_memory_gb : Q)
    : list admission_reason :=
  let disk_free := positive_metric (wk_disk_free_gb w) in
  let memory_available := positive_metric (wk_memory_available_gb w) in
  let required_memory := Qmax (positive_metric required_memory_gb) min_memory_available_gb in
  match wk_status w with
  | WorkerDraining => [ReasonDraining]
  | WorkerOnline | WorkerBusy => []
  | WorkerOffline => [ReasonOffline]
  end
  ++ (if negb (Qeq_bool disk_free 0) && Qlt_bool disk_free min_disk_free_gb
      then [ReasonLowDisk] else [])
  ++ (if negb (Qeq_bool memory_available 0) && negb (Qeq_bool required_memory 0)
         && Qlt_bool memory_available required_memory
      then [ReasonLowMemory] else [])
  ++ (if Z.leb (normalize_max_jobs (wk_max_jobs w)) (Z.max 0 (wk_running_jobs w))
      then [ReasonMaxJobs] else [])
  ++ (if Z.ltb 0 (wk_unknown_external_jobs w) then [ReasonExternalTradefed] else []).

Definition blocked (reasons : list admission_reason) : bool := bool_decide (reasons ≠ []).
End admission.

(** ** Lemmas *)

Lemma Qle_bool_false a b : Qle_bool a b = false ↔ (b < a)%Q.
Proof.
  rewrite <-not_true_iff_false, Qle_bool_iff. split; [apply Qnot_le_lt|apply Qlt_not_le].
Qed.
Lemma positive_metric_low m floor :
  negb (Qeq_bool (positive_metric m) 0) && Qlt_bool (positive_metric m) floor = false ↔
  (m <= 0 ∨ floor <= m)%Q.
Proof.
  unfold positive_metric, Qlt_bool. destruct (Qle_bool m 0) eqn:E; simpl.
  - apply Qle_bool_iff in E. tauto.
  - apply Qle_bool_false in E. assert (Qeq_bool m 0 = false) as ->.
    { apply not_true_iff_false. rewrite Qeq_bool_iff. lra. }
    simpl. rewrite negb_false_iff, Qle_bool_iff. split; [by right|]. intros [|]; [lra|done].
Qed.
Lemma positive_metric_memory m required floor :
  let r := Qmax (positive_metric required) floor in
  negb (Qeq_bool (positive_metric m) 0) && negb (Qeq_bool r 0)
    && Qlt_bool (positive_metric m) r = false ↔
  (m <= 0 ∨ (floor <= m ∧ required <= m))%Q.
Proof.
  intros r. assert ((m <= 0 ∨ r <= m)%Q ↔ (m <= 0 ∨ (floor <= m ∧ required <= m))%Q) as <-.
  { unfold r, Qmax, positive_metric. destruct (Qle_bool required 0) eqn:E1;
      [apply Qle_bool_iff in E1|apply Qle_bool_false in E1];
      destruct (Qle_bool _ floor) eqn:E2;
      [apply Qle_bool_iff in E2|apply Qle_bool_false in E2|
       apply Qle_bool_iff in E2|apply Qle_bool_false in E2];
      destruct (Qlt_le_dec 0 m); intuition lra. }
  rewrite <-positive_metric_low. destruct (Qeq_bool r 0) eqn:E; [|by rewrite andb_true_r].
  rewrite andb_false_r. simpl. split; [|done]. intros _. apply positive_metric_low.
  apply Qeq_bool_iff in E. destruct (Qlt_le_dec 0 m); [right|left]; lra.
Qed.
Lemma if_nil {A} (b : bool) (x : A) : (if b then [x] else []) = [] ↔ b = false.
Proof. by destruct b. Qed.

(** ** Properties *)

(** Admission is exactly the conjunction of its reasons: a worker is admitted when and
    only when it is online or busy, its known free disk reaches the floor, its known
    available memory reaches both the floor and the job's requirement, it runs fewer jobs
    than its capacity clamped to 1..32, and no unidentified external test runs on it.
    Unknown metrics (zero or less) never block. *)
Theorem admission_exact min_disk min_mem w required :
  blocked (worker_admission_state min_disk min_mem w required) = false ↔
  (wk_status w = WorkerOnline ∨ wk_status w = WorkerBusy) ∧
  (wk_disk_free_gb w <= 0 ∨ min_disk <= wk_disk_free_gb w)%Q ∧
  (wk_memory_available_gb w <= 0 ∨
     (min_mem <= wk_memory_available_gb w ∧ required <= wk_memory_available_gb w))%Q ∧
  wk_running_jobs w < Z.min 32 (Z.max 1 (wk_max_jobs w)) ∧
  wk_unknown_external_jobs w <= 0.
Proof.
  unfold blocked, worker_admission_state. rewrite bool_decide_eq_false.
  assert (∀ l : list admission_reason, ¬ (l ≠ []) ↔ l = []) as -> 
    by (intros l; split; [apply dec_stable|by intros -> []]).
  rewrite !app_nil, !if_nil, positive_metric_low, positive_metric_memory.
  rewrite Z.leb_gt, Z.ltb_ge. unfold normalize_max_jobs.
  assert (Z.max 0 (wk_running_jobs w) < Z.min 32 (Z.max 1 (wk_max_jobs w)) ↔
          wk_running_jobs w < Z.min 32 (Z.max 1 (wk_max_jobs w))) as -> by lia.
  destruct (wk_status w); intuition congruence.
Qed.
