(* ===== verification/ClusterClaims.v ===== *)
(** Physical device claims of the cluster: [features/cluster/repository_claims.py].

    A device reachable through several routes (its own USB row and ADB-proxy rows that
    point at it, and its USB port) is claimed under all its keys at once, so that the
    registry's mutual exclusion is by hardware and not by route. *)

From S2P Require Import Prelude DeviceClaims JobStateMachine ClusterState.

Open Scope Z_scope.

(** ** Device identities *)

(** [value if value.startswith(worker + ':') else worker + ':' + value] *)
Definition qualify (worker_id value : string) : string :=
  if startswith (worker_id +:+ ":") value then value else worker_id +:+ ":" +:+ value.

(** A property read as text: [str(properties.get(key) or '')]. *)
Definition prop (key : string) (properties : gmap string string) : string :=
  default "" (properties !! key).
Definition is_proxy (r : device_row) : bool := streqb (dev_transport r) "adb_proxy".
(** A proxy row that points at a source worker and serial. *)
Definition proxies (source_worker source_serial : string) (r : device_row) : bool :=
  streqb (prop "adb_proxy_source_worker_id" (dev_properties r)) source_worker
  && streqb (prop "adb_proxy_source_serial" (dev_properties r)) source_serial.

(* src/features/cluster/repository_claims.py:27-81 ClusterClaimRepositoryMixin._physical_alias_keys *)
Definition physical_alias_keys (device_key : string) (d : db) : list string :=
  match get_device_row device_key d with
  | None => [device_key]
  | Some row =>
      let properties := dev_properties row in
      let '(aliases, port_worker, port_properties) :=
        if is_proxy row then
          let source_worker := prop "adb_proxy_source_worker_id" properties in
          let source_serial := prop "adb_proxy_source_serial" properties in
          if nonempty source_worker && nonempty source_serial then
            let source_key := source_worker +:+ ":" +:+ source_serial in
            ([source_key], source_worker,
             match get_device_row source_key d with
             | Some source => dev_properties source
             | None => ∅
             end)
          else ([], before ":" device_key, properties)
        else
          (dev_id <$> fetchall (λ r, is_proxy r && proxies (before ":" device_key)
                                                     (after ":" device_key) r) (db_devices d),
           before ":" device_key, properties) in
      let port := prop "usb" port_properties in
      dedup ([device_key] ++ aliases
             ++ (if nonempty port then [port_worker +:+ ":@usb:" +:+ port] else []))
  end.

(** [COALESCE(MAX(generation),0)+1] over the leases of a device. *)
Definition next_lease_generation (device_id : string) (d : db) : Z :=
  foldr Z.max 0 (le_generation <$> fetchall (λ l, streqb (le_device_id l) device_id) (db_leases d))
  + 1.

(** The claim requests of a list of device ids or serials of a worker; it runs on a
    connection of its own. *)
(* src/features/cluster/repository_claims.py:83-113 ClusterClaimRepositoryMixin._claim_devices *)
Definition claim_devices (worker_id : string) (devices : list string) (d : db)
    : list device_req :=
  let values := dedup (filter (λ s, s ≠ "") (strip <$> devices)) in
  values ≫= λ value,
    (λ key, DeviceReq key (before ":" key) (after ":" key) (Some (next_lease_generation key d)))
      <$> physical_alias_keys (qualify worker_id value) d.

(** ** Claim operations *)

(** The display name of a conflicting holder. *)
Definition claim_owner_name (c : claim) : string := str_or (cl_username c) (cl_owner_id c).

(** What [raise ValueError] says of a refused claim; [records[0]] of an empty list raises
    [IndexError]. *)
Definition refuse_claim {A} (conflicts : list claim) : M world A :=
  match conflicts with
  | c :: _ => raise (ValueError ("device is already claimed by " +:+ claim_owner_name c))
  | [] => raise (RuntimeError "IndexError")
  end.

Section claims.
Context `{U : Uuid}.
(** The repository's [claim_lease_ttl_seconds]. *)
Variable claim_lease_ttl_seconds : Z.

(* src/features/cluster/repository_claims.py:115-137 ClusterClaimRepositoryMixin.acquire_device_operation_claim *)
Definition acquire_device_operation_claim (now : Z) (worker_id : string)
    (devices : list string) (owner_id source_type source_id : string) (ttl_seconds : Z)
    (username : string) : M world (list claim) :=
  requests ← connect_read (claim_devices worker_id devices);
  res ← claims_op (acquire now requests owner_id (str_or username owner_id) source_type
                     source_id ttl_seconds true);
  match res with
  | (true, records) => mret records
  | (false, records) => refuse_claim records
  end.

(** A running job's claims are still its own, and their lifetime restarts. *)
(* src/features/cluster/repository_claims.py:139-172 ClusterClaimRepositoryMixin.renew_job_device_claim *)
Definition renew_job_device_claim (now : Z) (job_id owner_id : string)
    (device_ids : list string) : M world bool :=
  let expected := order_by text_leb (dedup (filter (λ s, s ≠ "") device_ids)) in
  if bool_decide (expected = []) then mret false
  else
    let source_id := "job:" +:+ job_id in
    full_keys ← connect_read (λ d,
      order_by text_leb (dedup (expected ++ (expected ≫= λ k, physical_alias_keys k d))));
    records ← forM full_keys (λ key, claims_op (active_claim now key));
    if negb (forallb (λ r, bool_decide (is_Some r)) records) then mret false
    else if negb (forallb (λ r, match r with
                                | Some c => source_is source_id c && owner_is owner_id c
                                | None => false
                                end) records)
    then mret false
    else
      renewed ← claims_op (renew now source_id claim_lease_ttl_seconds []);
      mret (Nat.leb (length full_keys) renewed).

(** [device_ids] is [None] for every record. *)
(* src/features/cluster/repository_claims.py:174-189 ClusterClaimRepositoryMixin.claim_fencing_tokens *)
Definition claim_fencing_tokens (records : list claim) (attempt_id : string)
    (device_ids : option (list string)) : list lease_token :=
  (λ c, LeaseToken (cl_id c) (cl_device_key c) (cl_generation c) attempt_id) <$>
    fetchall (λ c, match device_ids with
                   | None => true
                   | Some ids => mem (cl_device_key c) ids
                   end) records.
End claims.
