(* ===== verification/Reservations.v ===== *)
(** Durable device reservations: [features/cluster/repository_reservations.py].

    A reservation is one row per device with a common [reservation_id]; the device rows
    it covers are in state [reserved] and its physical claims are held under the source
    [reservation:id].  Every operation expires overdue reservations first. *)

From S2P Require Import Prelude DeviceClaims JobStateMachine ClusterState ClusterClaims.

Open Scope Z_scope.

(** ** Definitions *)

(* src/features/cluster/repository_reservations.py:14-17 _expires *)
Definition reservation_expires (now seconds : Z) : Z := now + Z.max 60 seconds.

Definition reservation_is (reservation_id : string) (r : reservation) : bool :=
  streqb (rs_reservation_id r) reservation_id.
Definition reservation_overdue (now : Z) (r : reservation) : bool :=
  reservation_is_active r && stamp_leb (rs_expires_at r) (Some now).
Definition end_reservation (now : Z) (st : reservation_status) (r : reservation) : reservation :=
  r <| rs_status := st |> <| rs_released_at := Some now |>.

(** The [UPDATE cluster_worker_devices SET state='available' WHERE id=? AND
    state='reserved' AND NOT EXISTS ...]; renewal does not look at other reservations. *)
Definition free_reserved_device (now : Z) (check_reservations : bool) (device_id : string)
    (d : db) : db :=
  d <| db_devices ::= update_where
         (λ r, streqb (dev_id r) device_id && streqb (dev_state r) "reserved"
               && negb (device_leased device_id d)
               && negb (check_reservations && device_reserved device_id d))
         (set_device_state now "available") |>.

(* src/features/cluster/repository_reservations.py:35-74 ClusterReservationRepositoryMixin._expire_device_reservations *)
Definition expire_device_reservations (now : Z) : M world nat :=
  rows ← select (λ d, fetchall (reservation_overdue now) (db_reservations d));
  if bool_decide (rows = []) then mret 0%nat
  else
    _ ← sql (λ d, d <| db_reservations ::=
               update_where (reservation_overdue now) (end_reservation now ResExpired) |>);
    _ ← for_each rows (λ row, sql (free_reserved_device now true (rs_device_id row)));
    reservation_ids ← select (λ d, dedup (rs_reservation_id <$>
        fetchall (λ r, bool_decide (rs_status r = ResExpired)
                       && bool_decide (rs_released_at r = Some now)) (db_reservations d)));
    _ ← for_each reservation_ids (λ i,
          _ ← claims_op (release now ("reservation:" +:+ i) "expired" []); mret tt);
    mret (length rows).

(* src/features/cluster/repository_reservations.py:21-33 ClusterReservationRepositoryMixin.owned_reservation_device_ids *)
Definition owned_reservation_device_ids (now : Z) (owner_id : string) : M world (list string) :=
  if negb (nonempty owner_id) then mret []
  else transaction (
    _ ← expire_device_reservations now;
    select (λ d, dedup (filter (λ i, i ≠ "") (rs_device_id <$>
      fetchall (λ r, streqb (rs_owner_id r) owner_id && reservation_is_active r)
        (db_reservations d))))).

(** What [_reservation_payload] reports of a reservation. *)
Record reservation_view := ReservationView {
  rv_id : string; rv_worker_id : string; rv_owner_id : string; rv_source_id : string;
  rv_status : reservation_status; rv_expires_at : stamp;
  rv_devices : list (string * string);
}.

Definition by_device_id (a b : reservation) : bool := text_leb (rs_device_id a) (rs_device_id b).
Definition stamp_min (a b : stamp) : stamp := if stamp_leb a b then a else b.

(** The empty dictionary is [None]. *)
(* src/features/cluster/repository_reservations.py:189-209 ClusterReservationRepositoryMixin._reservation_payload *)
Definition reservation_payload (reservation_id : string) (d : db) : option reservation_view :=
  match order_by by_device_id (fetchall (reservation_is reservation_id) (db_reservations d)) with
  | [] => None
  | row :: rows => Some (ReservationView reservation_id (rs_worker_id row) (rs_owner_id row)
      (rs_source_id row) (rs_status row)
      (foldr (λ r m, stamp_min (rs_expires_at r) m) (rs_expires_at row) rows)
      ((λ r, (rs_device_id r, rs_serial r)) <$> row :: rows))
  end.

(* src/features/cluster/repository_reservations.py:211-214 ClusterReservationRepositoryMixin.get_reservation *)
Definition get_reservation (reservation_id : string) : M world (option reservation_view) :=
  connect_read (reservation_payload reservation_id).

(** [ORDER BY acquired_at DESC LIMIT 1] *)
(* src/features/cluster/repository_reservations.py:216-229 ClusterReservationRepositoryMixin.get_reservation_by_source *)
Definition get_reservation_by_source (now : Z) (source_id : string)
    : M world (option reservation_view) :=
  if negb (nonempty source_id) then mret None
  else transaction (
    _ ← expire_device_reservations now;
    select (λ d,
      match head (order_by (λ a b, stamp_leb (rs_acquired_at b) (rs_acquired_at a))
              (fetchall (λ r, streqb (rs_source_id r) source_id && reservation_is_active r)
                 (db_reservations d))) with
      | Some row => reservation_payload (rs_reservation_id row) d
      | None => None
      end)).

(** The devices of a request, qualified, without blanks or repetitions. *)
Definition requested_device_ids (worker_id : string) (devices : list string) : list string :=
  dedup (qualify worker_id <$> filter (λ s, s ≠ "") (strip <$> devices)).

Definition source_active (source_id : string) (r : reservation) : bool :=
  streqb (rs_source_id r) source_id && reservation_is_active r.
Definition active_of (reservation_id : string) (r : reservation) : bool :=
  reservation_is reservation_id r && reservation_is_active r.

(** The device a new reservation may take. *)
(* src/features/cluster/repository_reservations.py:134-148 ClusterReservationRepositoryMixin.reserve_devices *)
Definition reservable_device (worker_id device_id : string) : M world device_row :=
  row ← select (λ d, fetchone (λ r, streqb (dev_id r) device_id && streqb (dev_worker_id r) worker_id)
                       (db_devices d));
  match row with
  | None => raise (ValueError ("device not found on worker: " +:+ device_id))
  | Some device =>
      _ ← require (streqb (dev_state device) "available")
            (ValueError ("device is not available: " +:+ dev_serial device));
      leased ← select (device_leased device_id);
      _ ← require (negb leased) (ValueError ("device is already leased: " +:+ dev_serial device));
      mret device
  end.

Definition touch_reservation (now ttl_seconds : Z) (r : reservation) : reservation :=
  r <| rs_heartbeat_at := Some now |>
    <| rs_expires_at := Some (reservation_expires now ttl_seconds) |>.

Section reservations.
Context `{U : Uuid}.

(** One device of the insertion loop; the partial unique index
    [idx_active_device_reservation] admits one active row per device. *)
(* src/features/cluster/repository_reservations.py:166-181 ClusterReservationRepositoryMixin.reserve_devices *)
Definition insert_reservation (now : Z) (reservation_id worker_id owner_id source_id : string)
    (ttl_seconds : Z) (device : device_row) : M world unit :=
  hex ← uuid4_hex;
  _ ← constraint (λ d, negb (device_reserved (dev_id device) d)) "idx_active_device_reservation";
  _ ← sql (λ d, d <| db_reservations ::= λ t, t ++
        [Reservation ("reservation-item-" +:+ hex) reservation_id (dev_id device) worker_id
           (dev_serial device) owner_id source_id ResActive (Some now) (Some now)
           (Some (reservation_expires now ttl_seconds)) None] |>);
  sql (λ d, d <| db_devices ::= update_where (λ r, streqb (dev_id r) (dev_id device))
                   (set_device_state now "reserved") |>).

(** An identical live reservation of the same source is renewed, [ROLLBACK] on refusal. *)
(* src/features/cluster/repository_reservations.py:106-129 ClusterReservationRepositoryMixin.reserve_devices *)
Definition renew_same_reservation (now : Z) (reservation_id worker_id : string)
    (existing_ids : list string) (owner_id username : string) (ttl_seconds : Z)
    : M world (option reservation_view) :=
  _ ← sql (λ d, d <| db_reservations ::=
             update_where (active_of reservation_id) (touch_reservation now ttl_seconds) |>);
  requests ← connect_read (claim_devices worker_id existing_ids);
  res ← claims_op (acquire now requests owner_id (str_or username owner_id)
          "cluster-reservation" ("reservation:" +:+ reservation_id) ttl_seconds true);
  match res with
  | (true, _) => select (reservation_payload reservation_id)
  | (false, conflicts) => refuse_claim conflicts
  end.

(* src/features/cluster/repository_reservations.py:133-187 ClusterReservationRepositoryMixin.reserve_devices *)
Definition reserve_new (now : Z) (worker_id : string) (requested : list string)
    (owner_id source_id : string) (ttl_seconds : Z) (username : string)
    : M world (option reservation_view) :=
  rows ← forM requested (reservable_device worker_id);
  hex ← uuid4_hex;
  let reservation_id := "reservation-" +:+ hex in
  requests ← connect_read (claim_devices worker_id (dev_id <$> rows));
  res ← claims_op (acquire now requests owner_id (str_or username owner_id)
          "cluster-reservation" ("reservation:" +:+ reservation_id) ttl_seconds true);
  match res with
  | (false, conflicts) => refuse_claim conflicts
  | (true, _) =>
      try (_ ← for_each rows
                 (insert_reservation now reservation_id worker_id owner_id source_id ttl_seconds);
           select (reservation_payload reservation_id))
          (λ e, _ ← claims_op (release now ("reservation:" +:+ reservation_id) "failed" []);
                raise e)
  end.

(* src/features/cluster/repository_reservations.py:76-187 ClusterReservationRepositoryMixin.reserve_devices *)
Definition reserve_devices (now : Z) (worker_id : string) (devices : list string)
    (owner_id source_id : string) (ttl_seconds : Z) (username : string)
    : M world (option reservation_view) :=
  let requested := requested_device_ids worker_id devices in
  if bool_decide (requested = []) then raise (ValueError "at least one device is required")
  else transaction (
    _ ← expire_device_reservations now;
    existing ← select (λ d, order_by by_device_id
                  (fetchall (source_active source_id) (db_reservations d)));
    match existing with
    | [] => reserve_new now worker_id requested owner_id source_id ttl_seconds username
    | first :: _ =>
        if bool_decide (rs_device_id <$> existing = order_by text_leb requested)
           && forallb (λ r, streqb (rs_worker_id r) worker_id && streqb (rs_owner_id r) owner_id)
                existing
        then renew_same_reservation now (rs_reservation_id first) worker_id
               (rs_device_id <$> existing) owner_id username ttl_seconds
        else raise (ValueError "automation run already has a different active reservation")
    end).

(* src/features/cluster/repository_reservations.py:231-277 ClusterReservationRepositoryMixin.renew_reservation *)
Definition renew_reservation (now : Z) (reservation_id : string) (ttl_seconds : Z)
    : M world bool :=
  transaction (
    _ ← expire_device_reservations now;
    rows ← select (λ d, order_by by_device_id
              (fetchall (active_of reservation_id) (db_reservations d)));
    match rows with
    | [] => mret false
    | first :: _ =>
        requests ← connect_read (claim_devices (rs_worker_id first) (rs_device_id <$> rows));
        res ← claims_op (acquire now requests (rs_owner_id first) (rs_owner_id first)
                "cluster-reservation" ("reservation:" +:+ reservation_id) ttl_seconds true);
        match res with
        | (false, _) =>
            _ ← sql (λ d, d <| db_reservations ::= update_where (active_of reservation_id)
                                 (end_reservation now ResExpired) |>);
            _ ← for_each rows (λ row, sql (free_reserved_device now false (rs_device_id row)));
            mret false
        | (true, _) =>
            _ ← sql (λ d, d <| db_reservations ::= update_where (active_of reservation_id)
                                 (touch_reservation now ttl_seconds) |>);
            mret true
        end
    end).
End reservations.

(** The statuses [release_reservation] accepts. *)
Definition parse_reservation_status (s : string) : option reservation_status :=
  if streqb s "released" then Some ResReleased
  else if streqb s "cancelled" then Some ResCancelled
  else if streqb s "converted" then Some ResConverted
  else if streqb s "expired" then Some ResExpired
  else None.

(* src/features/cluster/repository_reservations.py:279-311 ClusterReservationRepositoryMixin.release_reservation *)
Definition release_reservation (now : Z) (reservation_id status : string) : M world bool :=
  match parse_reservation_status status with
  | None => raise (ValueError "invalid reservation release status")
  | Some st =>
      found ← transaction (
        rows ← select (λ d, fetchall (active_of reservation_id) (db_reservations d));
        if bool_decide (rows = []) then mret false
        else
          _ ← sql (λ d, d <| db_reservations ::=
                     update_where (active_of reservation_id) (end_reservation now st) |>);
          _ ← for_each rows (λ row, sql (free_reserved_device now true (rs_device_id row)));
          mret true);
      if negb found then mret false
      else
        _ ← claims_op (release now ("reservation:" +:+ reservation_id) status []);
        mret true
  end.
