(* ===== verification/Jobs.v ===== *)
(** Cluster jobs: [features/cluster/repository.py].

    A job is created together with its first attempt and a lease per device, after the
    physical claims of the devices were acquired (or taken over from a reservation) in
    the other database; a failure afterwards gives the claims back. *)

From S2P Require Import Prelude DeviceClaims JobStateMachine ClusterState Admission ClusterClaims Reservations.

Open Scope Z_scope.

(** ** Reading jobs *)

(** [dict.get] of a job: its row, its current attempt and its leases. *)
Record job_view := JobView {
  jv_job : job;
  jv_attempt : option attempt;
  jv_leases : list lease;
}.

(* src/features/cluster/repository.py:514-526 ClusterRepository.get_job *)
Definition get_job_view (job_id : string) (d : db) : option job_view :=
  j ← get_job_row job_id d;
  Some (JobView j (get_attempt_row (jb_current_attempt_id j) d)
          (fetchall (λ l, streqb (le_job_id l) job_id) (db_leases d))).
Definition get_job (job_id : string) : M world (option job_view) :=
  connect_read (get_job_view job_id).

(** [ORDER BY created_at DESC] *)
Definition newest_first (a b : job) : bool := stamp_leb (jb_created_at b) (jb_created_at a).
(** [LIMIT n]: a negative limit is none. *)
Definition limit {A} (n : Z) (l : list A) : list A := if Z.ltb n 0 then l else take (Z.to_nat n) l.

(* src/features/cluster/repository.py:528-538 ClusterRepository.get_job_by_automation_run *)
Definition get_job_by_automation_run (automation_run_id : string) : M world (option job_view) :=
  if negb (nonempty automation_run_id) then mret None
  else connect_read (λ d,
    j ← head (order_by newest_first
          (fetchall (λ j, streqb (jd_automation_run_id (jb_request j)) automation_run_id) (db_jobs d)));
    get_job_view (jb_id j) d).

(* src/features/cluster/repository.py:540-563 ClusterRepository.list_jobs *)
Definition list_jobs (n : Z) (owner_id : string) (include_active : bool) : M world (list job_view) :=
  connect_read (λ d, omap (λ j, get_job_view (jb_id j) d)
    (limit n (order_by newest_first
      (fetchall (λ j, negb (nonempty owner_id) || streqb (jb_owner_id j) owner_id
                      || (include_active && negb (is_terminal (jb_status j))))
         (db_jobs d))))).

(** ** Events and artifacts *)

(** An event as a worker reports it. *)
Record event_in := EventIn {
  ei_sequence : Z; ei_event_type : string; ei_source : string; ei_level : string;
  ei_message : string; ei_payload : list (string * string);
}.
Definition same_event (subject : string) (sequence : Z) (r : event_row) : bool :=
  streqb (ev_subject_id r) subject && Z.eqb (ev_sequence r) sequence.

(** [INSERT OR IGNORE] of one event under the unique key (subject, sequence): the row
    list, the AUTOINCREMENT counter and the number of rows inserted so far. *)
Definition insert_event (now : Z) (subject owner : string)
    (acc : list event_row * Z * nat) (e : event_in) : list event_row * Z * nat :=
  let '(rows, seq, inserted) := acc in
  if exists_row (same_event subject (ei_sequence e)) rows then acc
  else (rows ++ [EventRow (Z.succ seq) subject owner (ei_sequence e) (ei_event_type e)
                   (ei_source e) (ei_level e) (ei_message e) (ei_payload e) (Some now)],
        Z.succ seq, S inserted).
Definition insert_events (now : Z) (subject owner : string) (events : list event_in)
    (rows : list event_row) (seq : Z) : list event_row * Z * nat :=
  foldl (insert_event now subject owner) (rows, seq, 0%nat) events.

(* src/features/cluster/repository.py:565-576 ClusterRepository.add_events *)
Definition add_events (now : Z) (job_id attempt_id : string) (events : list event_in)
    : M world nat :=
  transaction (
    res ← select (λ d, insert_events now attempt_id job_id events (db_job_events d)
                         (db_seq_job_events d));
    let '(rows, seq, inserted) := res in
    _ ← sql (λ d, d <| db_job_events := rows |> <| db_seq_job_events := seq |>);
    mret inserted).

Definition by_sequence (a b : event_row) : bool := Z.leb (ev_sequence a) (ev_sequence b).

(* src/features/cluster/repository.py:578-587 ClusterRepository.list_events *)
Definition list_events (job_id : string) (after n : Z) : M world (list event_row) :=
  connect_read (λ d, limit n (order_by by_sequence
    (fetchall (λ e, streqb (ev_owner_id e) job_id && Z.ltb after (ev_sequence e)) (db_job_events d)))).

(* src/features/cluster/repository.py:606-611 ClusterRepository.recent_job_progress *)
Definition recent_job_progress (job_id attempt_id : string) : M world (list event_row) :=
  connect_read (λ d, rev (take 1000 (order_by (λ a b, by_sequence b a)
    (fetchall (λ e, streqb (ev_owner_id e) job_id && streqb (ev_subject_id e) attempt_id
                    && streqb (ev_event_type e) "module_progress") (db_job_events d))))).

(* src/features/cluster/repository.py:613-618 ClusterRepository.job_last_output_at *)
Definition job_last_output_at (job_id attempt_id : string) : M world stamp :=
  connect_read (λ d,
    match head (order_by (λ a b, by_sequence b a)
      (fetchall (λ e, streqb (ev_owner_id e) job_id && streqb (ev_subject_id e) attempt_id
                      && mem (ev_source e) ["stdout"; "stderr"]) (db_job_events d))) with
    | Some e => ev_created_at e
    | None => None
    end).

(* src/features/cluster/repository.py:620-625 ClusterRepository.list_artifacts *)
Definition list_artifacts (job_id : string) : M world (list artifact) :=
  connect_read (λ d,
    order_by (λ a b, negb (stamp_leb (ar_created_at b) (ar_created_at a))
                     || (stamp_leb (ar_created_at a) (ar_created_at b)
                         && text_leb (ar_filename a) (ar_filename b)))
      (fetchall (λ a, streqb (ar_job_id a) job_id) (db_artifacts d))).

(** ** Deleting a finished job *)

(** The removal of the artifact directories after the commit is file-system work and
    not part of the model. *)
(* src/features/cluster/repository.py:122-147 ClusterRepository.delete_job *)
Definition delete_job (job_id : string) : M world bool :=
  transaction (
    row ← select (get_job_row job_id);
    match row with
    | None => mret false
    | Some j =>
        if negb (is_terminal (jb_status j)) then mret false
        else
          command_ids ← select (λ d, cm_id <$>
            fetchall (λ c, streqb (cm_job_id c) job_id) (db_commands d));
          _ ← sql (λ d, d
            <| db_job_events ::= delete_where (λ e, streqb (ev_owner_id e) job_id) |>
            <| db_artifacts ::= delete_where (λ a, streqb (ar_job_id a) job_id) |>
            <| db_uploads ::= delete_where (λ u, streqb (up_job_id u) job_id) |>
            <| db_leases ::= delete_where (λ l, streqb (le_job_id l) job_id) |>
            <| db_commands ::= delete_where (λ c, streqb (cm_job_id c) job_id) |>
            <| db_attempts ::= delete_where (λ a, streqb (at_job_id a) job_id) |>
            <| db_timeline ::= delete_where (λ t, streqb (tl_job_id t) job_id) |>);
          _ ← for_each command_ids (λ i,
                sql (λ d, d <| db_command_events ::= delete_where (λ e, streqb (ev_subject_id e) i) |>));
          _ ← sql (λ d, d <| db_jobs ::= delete_where (λ j, streqb (jb_id j) job_id) |>);
          mret true
    end).

(** ** Creating a job *)

(* src/features/cluster/repository.py:249-288 ClusterRepository._physical_alias_device_ids *)
Definition physical_alias_device_ids (source_worker_id source_serial exclude_device_id : string)
    (d : db) : list string :=
  (dev_id <$> fetchall (λ r, is_proxy r && negb (streqb (dev_id r) exclude_device_id)
                             && proxies source_worker_id source_serial r) (db_devices d))
  ++ match fetchone (λ r, streqb (dev_worker_id r) source_worker_id
                          && streqb (dev_serial r) source_serial) (db_devices d) with
     | Some r => if streqb (dev_id r) exclude_device_id then [] else [dev_id r]
     | None => []
     end.

(** The alias devices of [device]; [worker_id] is the worker the job goes to. *)
Definition alias_candidates (worker_id device_id : string) (device : device_row) (d : db)
    : list string :=
  if is_proxy device then
    let source_worker_id := prop "adb_proxy_source_worker_id" (dev_properties device) in
    let source_serial := prop "adb_proxy_source_serial" (dev_properties device) in
    if nonempty source_worker_id && nonempty source_serial
    then physical_alias_device_ids source_worker_id source_serial device_id d
    else []
  else dev_id <$> fetchall (λ r, is_proxy r && negb (streqb (dev_id r) device_id)
                                 && proxies worker_id (dev_serial device) r) (db_devices d).

(** The lease of the first leased alias; the message names it. *)
(* src/features/cluster/repository.py:290-350 ClusterRepository._physical_alias_lease_conflict *)
Definition physical_alias_lease_conflict (worker_id device_id : string) (device : device_row)
    (d : db) : option string :=
  match omap (λ alias, (pair alias) <$> active_lease alias d)
             (alias_candidates worker_id device_id device d) with
  | (alias, l) :: _ => Some (alias +:+ " (job " +:+ le_job_id l +:+ ", owner "
                               +:+ le_owner_id l +:+ ")")
  | [] => None
  end.

Definition job_is_active (j : job) : bool :=
  match jb_status j with JobAssigned | JobDispatching | JobRunning | JobStopping => true | _ => false end.

(** [normalize_max_jobs(worker["max_jobs"])] and the exclusive-host rule. *)
(* src/features/cluster/repository.py:388-399 ClusterRepository._create_job_with_leases_metadata *)
Definition check_worker_capacity (data : job_data) (w : worker) : M world unit :=
  active_rows ← select (λ d, fetchall (λ j, streqb (jb_assigned_worker_id j) (jd_worker_id data)
                                            && job_is_active j) (db_jobs d));
  _ ← require (Z.ltb (Z.of_nat (length active_rows)) (normalize_max_jobs (wk_max_jobs w)))
        (ValueError "worker already has the maximum number of active jobs");
  require (negb (existsb (λ j, jd_exclusive_host (jb_request j)) active_rows
                 || (jd_exclusive_host data
                     && (bool_decide (active_rows ≠ []) || Z.ltb 0 (wk_running_jobs w)))))
    (ValueError "a full-suite test requires exclusive use of the worker").

(** The devices the reservation of the request holds, or none. *)
(* src/features/cluster/repository.py:400-423 ClusterRepository._create_job_with_leases_metadata *)
Definition reserved_device_ids (data : job_data) : M world (list string) :=
  if negb (nonempty (jd_device_reservation_id data)) then mret []
  else
    rows ← select (λ d, fetchall (active_of (jd_device_reservation_id data)) (db_reservations d));
    _ ← require (bool_decide (rows ≠ [])) (ValueError "device reservation is missing or expired");
    _ ← require (forallb (λ r, streqb (rs_worker_id r) (jd_worker_id data)) rows)
          (ValueError "device reservation belongs to another Worker");
    _ ← require (negb (nonempty (jd_automation_run_id data))
                 || forallb (λ r, streqb (rs_source_id r) (jd_automation_run_id data)) rows)
          (ValueError "device reservation belongs to another automation run");
    _ ← require (negb (nonempty (jd_owner_id data))
                 || forallb (λ r, streqb (rs_owner_id r) (jd_owner_id data)) rows)
          (ValueError "device reservation belongs to another owner");
    _ ← require (bool_decide ((list_to_set (qualify (jd_worker_id data) <$> jd_devices data) : gset string)
                              = list_to_set (rs_device_id <$> rows)))
          (ValueError "test devices do not match the active reservation");
    mret (rs_device_id <$> rows).

(** The claim held for a device key: the last record of that key. *)
Definition claim_record (key : string) (records : list claim) : option claim :=
  last (fetchall (key_is key) records).

Section jobs.
Context `{U : Uuid}.
(** The admission floors and the repository's [claim_lease_ttl_seconds]. *)
Variables (min_disk_free_gb min_memory_available_gb : Q) (claim_lease_ttl_seconds : Z).

(* src/features/cluster/repository.py:589-604 ClusterRepository.record_artifact *)
Definition record_artifact (now : Z) (job_id attempt_id worker_id filename relative_path artifact_type : string)
    (size_bytes : Z) (sha256 : string) : M world (option artifact) :=
  hex ← uuid4_hex;
  transaction (
    let same a := streqb (ar_attempt_id a) attempt_id && streqb (ar_filename a) filename in
    _ ← sql (λ d,
      if exists_row same (db_artifacts d)
      then d <| db_artifacts ::= update_where same (λ a,
             a <| ar_relative_path := relative_path |> <| ar_artifact_type := artifact_type |>
               <| ar_size_bytes := size_bytes |> <| ar_sha256 := sha256 |>
               <| ar_created_at := Some now |>) |>
      else d <| db_artifacts ::= λ t, t ++ [Artifact ("artifact-" +:+ hex) job_id attempt_id
             worker_id filename relative_path artifact_type size_bytes sha256 (Some now)] |>);
    select (λ d, fetchone same (db_artifacts d))).

(** One device of the lease loop; [reserved_ids] are the devices of the reservation. *)
(* src/features/cluster/repository.py:446-484 ClusterRepository._create_job_with_leases_metadata *)
Definition lease_device (now : Z) (data : job_data) (job_id attempt_id : string)
    (records : list claim) (reserved_ids : list string) (raw_id : string) : M world string :=
  let worker_id := jd_worker_id data in
  let device_id := qualify worker_id raw_id in
  row ← select (λ d, fetchone (λ r, streqb (dev_id r) device_id && streqb (dev_worker_id r) worker_id)
                       (db_devices d));
  match row with
  | None => raise (ValueError ("device not found on worker: " +:+ raw_id))
  | Some device =>
      _ ← require (streqb (dev_state device) "available" || mem device_id reserved_ids)
            (ValueError ("device is not available: " +:+ raw_id));
      leased ← select (device_leased device_id);
      _ ← require (negb leased) (ValueError ("device is already leased: " +:+ raw_id));
      alias_conflict ← select (physical_alias_lease_conflict worker_id device_id device);
      _ ← match alias_conflict with
          | Some alias => raise (ValueError ("device is already claimed through another transport alias: "
                                               +:+ alias))
          | None => mret tt
          end;
      next ← select (next_lease_generation device_id);
      lease_id ← match claim_record device_id records with
                 | Some c => mret (cl_id c)
                 | None => hex ← uuid4_hex; mret ("lease-" +:+ hex)
                 end;
      let generation := match claim_record device_id records with
                        | Some c => if Z.leb (cl_generation c) 0 then next else cl_generation c
                        | None => next
                        end in
      _ ← constraint (λ d, negb (exists_row (λ l, streqb (le_id l) lease_id) (db_leases d)))
            "device_leases.id";
      _ ← sql (λ d, d
            <| db_leases ::= λ t, t ++ [Lease lease_id device_id worker_id (dev_serial device) job_id
                 attempt_id (jd_owner_id data) LeaseActive generation (Some now) (Some now)
                 (Some (now + claim_lease_ttl_seconds)) None] |>
            <| db_devices ::= update_where (λ r, streqb (dev_id r) device_id)
                 (set_device_state now "allocated") |>);
      mret lease_id
  end.

(* src/features/cluster/repository.py:424-445 ClusterRepository._create_job_with_leases_metadata *)
Definition insert_job_rows (now : Z) (data : job_data) (job_id attempt_id trace_id : string)
    : M world unit :=
  _ ← constraint (λ d, negb (exists_row (λ j, streqb (jb_id j) job_id) (db_jobs d))) "cluster_jobs.id";
  _ ← sql (λ d, d <| db_jobs ::= λ t, t ++
        [Job job_id (jd_owner_id data) (jd_source_type data) (jd_worker_id data) (jd_worker_id data)
           (jd_suite_key data) (jd_suite_path data)
           (data <| jd_trace_id := trace_id |> <| jd_idempotency_key := "" |> <| jd_request_hash := "" |>)
           JobAssigned (jd_priority data) attempt_id trace_id 1 0
           (Some now) (Some now) (Some now) None None (Some now) ""] |>);
  _ ← when (nonempty (jd_idempotency_key data))
        (_ ← constraint (λ d, negb (exists_row (λ r, streqb (jr_owner_id r) (jd_owner_id data)
                             && streqb (jr_request_key r) (jd_idempotency_key data)) (db_job_requests d)))
               "cluster_job_requests.owner_id, cluster_job_requests.request_key";
         sql (λ d, d <| db_job_requests ::= λ t, t ++
               [JobRequest (jd_owner_id data) (jd_idempotency_key data) (jd_request_hash data) job_id] |>));
  dispatch_token ← uuid4_hex;
  _ ← constraint (λ d, negb (exists_row (λ a, streqb (at_id a) attempt_id) (db_attempts d)))
        "cluster_job_attempts.id";
  sql (λ d, d <| db_attempts ::= λ t, t ++
        [Attempt attempt_id job_id 1 (jd_worker_id data) "" dispatch_token AttAssigned
           (CommandResult "" []) None None None ""] |>).

(* src/features/cluster/repository.py:352-512 ClusterRepository._create_job_with_leases_metadata *)
Definition create_job_with_leases_metadata (now : Z) (data : job_data) (job_id : string)
    (records : list claim) : M world (option job_view * list string) :=
  attempt_hex ← uuid4_hex;
  let attempt_id := "attempt-" +:+ attempt_hex in
  let worker_id := jd_worker_id data in
  trace_id ← (let given := str_or (jd_trace_id data) (jd_automation_run_id data) in
              if nonempty given then mret given
              else hex ← uuid4_hex; mret ("trace-" +:+ hex));
  lease_ids ← transaction (
    _ ← expire_device_reservations now;
    row ← select (get_worker_row worker_id);
    match row with
    | None => raise (ValueError "worker not found")
    | Some w =>
        let reasons := worker_admission_state min_disk_free_gb min_memory_available_gb w
                         (jd_required_memory_gb data) in
        _ ← require (negb (blocked reasons)) (ValueError ("worker is not admissible ("
               +:+ foldr (λ r s, admission_reason_text r +:+ (if nonempty s then ", " +:+ s else s)) "" reasons
               +:+ ")"));
        _ ← check_worker_capacity data w;
        reserved_ids ← reserved_device_ids data;
        _ ← insert_job_rows now data job_id attempt_id trace_id;
        lease_ids ← forM (jd_devices data)
                      (lease_device now data job_id attempt_id records reserved_ids);
        _ ← when (nonempty (jd_device_reservation_id data))
              (sql (λ d, d <| db_reservations ::= update_where (active_of (jd_device_reservation_id data))
                                 (end_reservation now ResConverted) |>));
        _ ← append_timeline_conn now
              (tl_default "job.created" "controller" "Cluster Job created and device leases acquired"
                 <| tl_job_id := job_id |> <| tl_attempt_id := attempt_id |>
                 <| tl_trace_id := trace_id |> <| tl_worker_id := worker_id |>
                 <| tl_to_state := "assigned" |>
                 <| tl_payload := [("device_ids", PStrs (qualify worker_id <$> jd_devices data));
                                   ("automation_run_id", PStr (jd_automation_run_id data))] |>);
        mret lease_ids
    end);
  view ← get_job job_id;
  mret (view, lease_ids).

(** The reservation a job is created from must be the requester's, for these devices. *)
(* src/features/cluster/repository.py:176-203 ClusterRepository.create_job_with_leases *)
Definition check_reservation (data : job_data) (owner_id : string) : M world unit :=
  let worker_id := jd_worker_id data in
  res ← get_reservation (jd_device_reservation_id data);
  match res with
  | None => raise (ValueError "device reservation is missing or expired")
  | Some rv =>
      _ ← require (bool_decide (rv_status rv = ResActive))
            (ValueError "device reservation is missing or expired");
      _ ← require (streqb (rv_worker_id rv) worker_id)
            (ValueError "device reservation belongs to another Worker");
      _ ← require (streqb (rv_owner_id rv) owner_id)
            (ValueError "device reservation belongs to another owner");
      _ ← require (negb (nonempty (jd_automation_run_id data))
                   || streqb (rv_source_id rv) (jd_automation_run_id data))
            (ValueError "device reservation belongs to another automation run");
      require (bool_decide ((list_to_set (qualify worker_id <$> filter (λ s, s ≠ "") (strip <$> jd_devices data)) : gset string)
                            = list_to_set (fst <$> rv_devices rv)))
        (ValueError "test devices do not match the active reservation")
  end.

(** The claims of the new job: the reservation's, when they can be moved, or new ones.
    The flag says which. *)
(* src/features/cluster/repository.py:204-228 ClusterRepository.create_job_with_leases *)
Definition obtain_job_claims (now : Z) (data : job_data) (owner_id job_source : string)
    (devices : list device_req) : M world (bool * list claim) :=
  let device_keys := dr_device_key <$> devices in
  moved ← (if nonempty (jd_device_reservation_id data) then
             _ ← check_reservation data owner_id;
             claims_op (transfer now ("reservation:" +:+ jd_device_reservation_id data) job_source
                          "cluster-job" claim_lease_ttl_seconds owner_id device_keys)
           else mret 0%nat);
  if Nat.ltb 0 moved then
    found ← forM device_keys (λ key, claims_op (active_claim now key));
    mret (true, omap id found)
  else
    res ← claims_op (acquire now devices owner_id (str_or (strip (jd_owner_username data)) owner_id)
                       "cluster-job" job_source claim_lease_ttl_seconds true);
    match res with
    | (true, records) => mret (false, records)
    | (false, records) => refuse_claim records
    end.

(* src/features/cluster/repository.py:158-247 ClusterRepository.create_job_with_leases *)
Definition create_job_with_leases (now : Z) (data : job_data)
    : M world (option job_view * list string) :=
  job_hex ← uuid4_hex;
  let job_id := "job-" +:+ job_hex in
  let worker_id := jd_worker_id data in
  row ← connect_read (get_worker_row worker_id);
  match row with
  | None => raise (ValueError "worker not found")
  | Some w =>
      _ ← require (bool_decide (wk_status w = WorkerOnline) || bool_decide (wk_status w = WorkerBusy))
            (ValueError "worker is not online");
      devices ← connect_read (claim_devices worker_id (jd_devices data));
      let owner_id := strip (jd_owner_id data) in
      _ ← require (nonempty owner_id) (ValueError "authenticated owner_id is required");
      let job_source := "job:" +:+ job_id in
      let reservation_source := "reservation:" +:+ jd_device_reservation_id data in
      claims ← obtain_job_claims now data owner_id job_source devices;
      let '(transferred, records) := claims in
      try (create_job_with_leases_metadata now data job_id records)
        (λ e,
          _ ← (if transferred : bool then
                 restored ← claims_op (transfer now job_source reservation_source
                              "cluster-reservation" (6 * 60 * 60) owner_id (dr_device_key <$> devices));
                 if Nat.ltb 0 restored then mret tt
                 else _ ← claims_op (release now job_source "failed" []); mret tt
               else _ ← claims_op (release now job_source "failed" []); mret tt);
          raise e)
  end.
End jobs.

(** ** Lemmas *)

Lemma elem_of_limit {A} n (l : list A) x : x ∈ limit n l → x ∈ l.
Proof.
  unfold limit. destruct (Z.ltb n 0); [done|]. intros Hx.
  rewrite <-(take_drop (Z.to_nat n) l). apply elem_of_app. by left.
Qed.
(** A limit keeps a prefix, all of it when there is room. *)
Lemma limit_prefix {A} n (l : list A) :
  ∃ rest, l = limit n l ++ rest ∧ (rest ≠ [] → Z.of_nat (length (limit n l)) = n)%Z.
Proof.
  unfold limit. destruct (Z.ltb_spec n 0); [exists []; by rewrite app_nil_r|].
  exists (drop (Z.to_nat n) l). split; [by rewrite take_drop|]. intros Hne. rewrite length_take.
  assert (Z.to_nat n < length l)%nat; [|lia]. apply Nat.nle_gt. intros Hle. by apply Hne, drop_ge.
Qed.
