(* ===== verification/Commands.v ===== *)
(** Worker commands and their synchronisation with jobs:
    [features/cluster/repository_commands.py].

    A command is queued once per (worker, operation id), delivered by polling (and again
    when a delivery was not acknowledged in time), acknowledged by its worker with
    growing progress, and its terminal acknowledgement moves the job. *)

From S2P Require Import Prelude DeviceClaims JobStateMachine ClusterState Jobs.

Open Scope Z_scope.

(** ** Row predicates and small readers *)

Definition cmd_is_terminal (s : command_status) : bool :=
  match s with CmdCompleted | CmdFailed | CmdCancelled => true | _ => false end.
Definition command_is (command_id : string) (c : command) : bool := streqb (cm_id c) command_id.
Definition operation_is (worker_id operation_id : string) (c : command) : bool :=
  streqb (cm_worker_id c) worker_id && streqb (cm_operation_id c) operation_id.
Definition oldest_first (a b : command) : bool := stamp_leb (cm_created_at a) (cm_created_at b).
Definition latest_first (a b : command) : bool := stamp_leb (cm_created_at b) (cm_created_at a).

(** [not value] and [value or default] of an optional text. *)
Definition truthy (o : option string) : bool := nonempty (default "" o).

(* src/features/cluster/repository_commands.py:29-33 ClusterCommandRepositoryMixin.get_command *)
Definition get_command (command_id : string) : M world (option command) :=
  connect_read (get_command_row command_id).

(* src/features/cluster/repository_commands.py:35-44 ClusterCommandRepositoryMixin.get_command_by_operation *)
Definition get_command_by_operation (worker_id operation_id : string) : M world (option command) :=
  connect_read (λ d, fetchone (operation_is worker_id operation_id) (db_commands d)).

(** [c.updated_at < cutoff] on timestamps. *)
Definition before_stamp (s : stamp) (cutoff : Z) : bool := negb (stamp_leb (Some cutoff) s).

(* src/features/cluster/repository_commands.py:46-79 ClusterCommandRepositoryMixin.prune_terminal_command_events *)
Definition prune_terminal_command_events (now retention_hours n : Z) : M world nat :=
  let cutoff := now - retention_hours * 3600 in
  transaction (
    rows ← select (λ d, limit n (order_by (λ a b, stamp_leb (cm_updated_at a) (cm_updated_at b))
      (fetchall (λ c, cmd_is_terminal (cm_status c) && before_stamp (cm_updated_at c) cutoff
                      && exists_row (λ e, streqb (ev_subject_id e) (cm_id c)) (db_command_events d))
         (db_commands d))));
    counts ← forM rows (λ c,
      let hit e := streqb (ev_subject_id e) (cm_id c) in
      k ← select (λ d, rowcount hit (db_command_events d));
      _ ← sql (λ d, d <| db_command_events ::= delete_where hit |>);
      mret k);
    mret (foldr Nat.add 0%nat counts)).

(** [json_extract(payload_json, '$.key') = value] for the two supported keys. *)
Definition correlation_key (key : string) : option (payload → option string) :=
  if streqb key "automation_run_id" then Some pl_automation_run_id
  else if streqb key "transfer_id" then Some pl_transfer_id
  else None.

(* src/features/cluster/repository_commands.py:81-94 ClusterCommandRepositoryMixin.find_correlated_command *)
Definition find_correlated_command (worker_id command_type key value : string)
    : M world (option command) :=
  match correlation_key key with
  | Some field =>
      if nonempty value then
        connect_read (λ d, head (order_by latest_first
          (fetchall (λ c, streqb (cm_worker_id c) worker_id && streqb (cm_command_type c) command_type
                          && bool_decide (field (cm_payload c) = Some value)) (db_commands d))))
      else mret None
  | None => mret None
  end.

(* src/features/cluster/repository_commands.py:96-103 ClusterCommandRepositoryMixin.compact_command_result *)
Definition compact_command_result (now : Z) (command_id : string) (r : command_result) : M world unit :=
  transaction (sql (λ d, d <| db_commands ::= update_where (command_is command_id)
    (λ c, c <| cm_result := r |> <| cm_updated_at := Some now |>) |>)).

(** ** Attaching a start command to its job *)

(* src/features/cluster/repository_commands.py:607-618 ClusterCommandRepositoryMixin._attempt_has_no_start_command *)
Definition attempt_has_no_start_command (job_id attempt_id exclude_command_id : string) (d : db)
    : bool :=
  negb (exists_row (λ c, streqb (cm_job_id c) job_id && streqb (cm_attempt_id c) attempt_id
          && streqb (cm_command_type c) "start_test"
          && (negb (nonempty exclude_command_id) || negb (command_is exclude_command_id c)))
    (db_commands d)).

Definition set_attempt_status (st : attempt_status) (a : attempt) : attempt := a <| at_status := st |>.

(* src/features/cluster/repository_commands.py:620-657 ClusterCommandRepositoryMixin._attach_command_to_job_conn *)
Definition attach_command_to_job_conn (now : Z) (job_id : string) (c : command)
    (newly_created : bool) : M world unit :=
  row ← select (get_job_row job_id);
  match row with
  | None => raise (ValueError "job not found")
  | Some j =>
      _ ← require (streqb (cm_job_id c) job_id && streqb (cm_worker_id c) (jb_assigned_worker_id j)
                   && (negb (nonempty (cm_attempt_id c))
                       || streqb (cm_attempt_id c) (jb_current_attempt_id j)))
            (ValueError "start command does not match the current job attempt");
      if negb (bool_decide (jb_status j = JobAssigned)) then
        recovery ← select (λ d, bool_decide (jb_status j = JobDispatching)
          && attempt_has_no_start_command job_id (jb_current_attempt_id j) (cm_id c) d);
        require (negb newly_created || recovery) (ValueError "job is no longer awaiting dispatch")
      else
        _ ← transition_job_conn now job_id JobDispatching "controller"
              "Start command attached to Cluster Job" "" (str_or (cm_operation_id c) (cm_id c))
              (cm_worker_id c) [("command_id", PStr (cm_id c))];
        sql (λ d, d <| db_attempts ::= update_where
               (λ a, streqb (at_id a) (jb_current_attempt_id j) && bool_decide (at_status a = AttAssigned))
               (set_attempt_status AttDispatching) |>)
  end.

(* src/features/cluster/repository_commands.py:602-605 ClusterCommandRepositoryMixin.attach_command_to_job *)
Definition attach_command_to_job (now : Z) (job_id : string) (c : command) : M world unit :=
  transaction (attach_command_to_job_conn now job_id c false).

(** ** Creating commands *)

(** The [data] of [create_command]; absent texts are empty. *)
Record command_in := CommandIn {
  ci_worker_id : string; ci_command_type : string; ci_job_id : string; ci_attempt_id : string;
  ci_operation_id : string; ci_trace_id : string; ci_payload : payload;
  ci_initial_status : command_status;
}.

(* src/features/cluster/device_action_operations.py:21-26 require_same_request *)
Definition require_same_request (c : command) (owner_id digest : string) : M world unit :=
  _ ← require (bool_decide (pl_owner_id (cm_payload c) = Some owner_id))
        (ApiError "NOT_FOUND" "device action operation not found");
  require (bool_decide (pl_request_sha256 (cm_payload c) = Some digest))
    (ApiError "STATE_CONFLICT" "operation key is already bound to a different request").

(** The status text of a command in messages and timeline states. *)
Definition command_status_text (s : command_status) : string :=
  match s with
  | CmdQueued => "queued" | CmdDelivered => "delivered" | CmdAccepted => "accepted"
  | CmdRunning => "running" | CmdCompleted => "completed" | CmdFailed => "failed"
  | CmdCancelled => "cancelled"
  end.

(** [INSERT INTO cluster_commands] under its primary key, its foreign key and
    [idx_cluster_commands_operation]. *)
Definition insert_command (c : command) : M world unit :=
  _ ← constraint (λ d, negb (exists_row (command_is (cm_id c)) (db_commands d))) "cluster_commands.id";
  _ ← constraint (λ d, bool_decide (is_Some (get_worker_row (cm_worker_id c) d)))
        "FOREIGN KEY cluster_commands.worker_id";
  _ ← constraint (λ d, negb (nonempty (cm_operation_id c)
                 && exists_row (operation_is (cm_worker_id c) (cm_operation_id c)) (db_commands d)))
        "idx_cluster_commands_operation";
  sql (λ d, d <| db_commands ::= λ t, t ++ [c] |>).

Section commands.
Context `{U : Uuid}.

(** The new row of [create_command], once no earlier one answers the operation. *)
(* src/features/cluster/repository_commands.py:253-303 ClusterCommandRepositoryMixin.create_command *)
Definition create_new_command (now : Z) (data : command_in) (command_id token operation_id : string)
    (attach_to_job : bool) : M world unit :=
  bound ← select (λ d, truthy (pl_playback_control_id (ci_payload data))
    && exists_row (λ c, streqb (cm_worker_id c) (ci_worker_id data)
         && bool_decide (pl_playback_control_id (cm_payload c)
                         = pl_playback_control_id (ci_payload data))) (db_commands d));
  _ ← require (negb bound)
        (ApiError "STATE_CONFLICT" "playback control handle is already bound to an operation");
  job_trace ← select (λ d, if nonempty (ci_job_id data)
                           then match get_job_row (ci_job_id data) d with
                                | Some j => jb_trace_id j
                                | None => ""
                                end
                           else "");
  let given := str_or (ci_trace_id data)
                 (str_or job_trace (default "" (pl_automation_run_id (ci_payload data)))) in
  trace_id ← (if nonempty given then mret given
              else hex ← uuid4_hex; mret ("trace-" +:+ hex));
  let row := Command command_id (ci_worker_id data) (ci_command_type data) (ci_job_id data)
      (ci_attempt_id data) token (ci_payload data) operation_id trace_id (ci_initial_status data)
      (CommandResult "" []) "" (Some now) None None None (Some now) in
  _ ← insert_command row;
  _ ← append_timeline_conn now
        (tl_default "command.queued" "controller" ("Persisted Worker command " +:+ ci_command_type data)
           <| tl_job_id := ci_job_id data |> <| tl_attempt_id := ci_attempt_id data |>
           <| tl_trace_id := trace_id |> <| tl_operation_id := operation_id |>
           <| tl_worker_id := ci_worker_id data |>
           <| tl_to_state := command_status_text (ci_initial_status data) |>
           <| tl_payload := [("command_id", PStr command_id);
                             ("command_type", PStr (ci_command_type data))] |>);
  if attach_to_job then attach_command_to_job_conn now (ci_job_id data) row true else mret tt.

(* src/features/cluster/repository_commands.py:227-304 ClusterCommandRepositoryMixin.create_command *)
Definition create_command (now : Z) (data : command_in) (attach_to_job : bool)
    : M world (option command) :=
  hex ← uuid4_hex;
  let command_id := "cmd-" +:+ hex in
  token ← uuid4_hex;
  found ← transaction (
    existing ← (if nonempty (ci_operation_id data)
                then select (λ d, fetchone (operation_is (ci_worker_id data) (ci_operation_id data))
                                    (db_commands d))
                else mret None);
    match existing with
    | Some c =>
        _ ← when (streqb (ci_command_type data) "device_action")
              (require_same_request c (default "" (pl_owner_id (ci_payload data)))
                 (default "" (pl_request_sha256 (ci_payload data))));
        _ ← when attach_to_job (attach_command_to_job_conn now (ci_job_id data) c false);
        mret (Some c)
    | None =>
        _ ← create_new_command now data command_id token
              (str_or (ci_operation_id data) command_id) attach_to_job;
        mret None
    end);
  match found with
  | Some c => mret (Some c)
  | None => get_command command_id
  end.

(** The fencing token of a lease. *)
Definition token_of_lease (l : lease) : lease_token :=
  LeaseToken (le_id l) (le_device_id l) (le_generation l) (le_attempt_id l).
Definition empty_payload : payload :=
  Payload None None None None None None [] false None 0 false None None [] [] None None [] None [].

(* src/features/cluster/repository_commands.py:105-145 ClusterCommandRepositoryMixin.dispatch_job_start_command *)
Definition dispatch_job_start_command (now : Z) (v : job_view) (argv : list string)
    (execution_spec : option string) (env : list (string * string)) (devices : list string)
    : M world (option command) :=
  let j := jv_job v in
  create_command now (CommandIn (jb_assigned_worker_id j) "start_test" (jb_id j)
      (jb_current_attempt_id j) (jb_current_attempt_id j +:+ ":start_test") ""
      (empty_payload <| pl_worker_job_id := Some ("wj-" +:+ jb_id j) |> <| pl_argv := argv |>
         <| pl_execution_spec := execution_spec |> <| pl_env := env |> <| pl_devices := devices |>
         <| pl_trace_id := Some (jb_trace_id j) |>
         <| pl_lease_tokens := token_of_lease <$> fetchall lease_is_active (jv_leases v) |>)
      CmdQueued) true.
End commands.

(** ** Compensating a failed dispatch *)

(** A start command of the attempt a worker may have seen. *)
Definition start_command_of (job_id attempt_id : string) (c : command) : bool :=
  streqb (cm_job_id c) job_id && streqb (cm_attempt_id c) attempt_id
  && streqb (cm_command_type c) "start_test".
Definition never_delivered (c : command) : bool :=
  bool_decide (cm_status c = CmdQueued) && bool_decide (cm_delivered_at c = None)
  && bool_decide (cm_acknowledged_at c = None).

(** The transaction: [Some job] when the dispatch was compensated. *)
(* src/features/cluster/repository_commands.py:158-207 ClusterCommandRepositoryMixin.compensate_failed_dispatch *)
Definition compensate_dispatch_conn (now : Z) (job_id error attempt_id : string)
    : M world (option job) :=
  row ← select (get_job_row job_id);
  match row with
  | None => mret None
  | Some j =>
      if negb (bool_decide (jb_status j = JobAssigned) || bool_decide (jb_status j = JobDispatching))
         || (nonempty attempt_id && negb (streqb (jb_current_attempt_id j) attempt_id))
      then mret None
      else
        let start := start_command_of job_id (jb_current_attempt_id j) in
        delivered ← select (λ d, fetchone (λ c, start c && negb (never_delivered c)) (db_commands d));
        match delivered with
        | Some c =>
            _ ← append_timeline_conn now
              (tl_default "command.dispatch_unconfirmed" "controller"
                 "派发响应异常，命令已交付；保留设备锁等待 Worker 确认"
                 <| tl_job_id := job_id |> <| tl_attempt_id := jb_current_attempt_id j |>
                 <| tl_trace_id := jb_trace_id j |> <| tl_worker_id := jb_assigned_worker_id j |>
                 <| tl_level := "warning" |> <| tl_payload := [("command_id", PStr (cm_id c))] |>);
            mret None
        | None =>
            _ ← transition_job_conn now job_id JobFailed "controller"
                  "任务派发命令写入失败，任务已置为失败" error "" "" [];
            _ ← sql (λ d, d <| db_attempts ::= update_where
                  (λ a, streqb (at_id a) (jb_current_attempt_id j))
                  (λ a, a <| at_status := AttFailed |> <| at_finished_at := Some now |>
                          <| at_error := error |>) |>);
            _ ← sql (λ d, d <| db_commands ::= update_where (λ c, start c && never_delivered c)
                  (λ c, c <| cm_status := CmdCancelled |> <| cm_error := error |>
                          <| cm_updated_at := Some now |>) |>);
            let held l := streqb (le_job_id l) job_id && lease_is_active l in
            leases ← select (λ d, le_device_id <$> fetchall held (db_leases d));
            _ ← sql (λ d, d <| db_leases ::= update_where held (release_lease now) |>);
            _ ← for_each leases (λ i, sql (λ d, d <| db_devices ::= update_where
                  (λ r, streqb (dev_id r) i && streqb (dev_state r) "allocated")
                  (set_device_state now "available") |>));
            mret (Some j)
        end
  end.

(** Any exception of the transaction is logged and means [False], with the database
    rolled back; one of the claim release is only logged. *)
(* src/features/cluster/repository_commands.py:147-225 ClusterCommandRepositoryMixin.compensate_failed_dispatch *)
Definition compensate_failed_dispatch (now : Z) (job_id exc attempt_id : string) : M world bool :=
  done ← try (transaction (compensate_dispatch_conn now job_id
                ("dispatch command failed: " +:+ exc) attempt_id)) (λ _, mret None);
  match done with
  | None => mret false
  | Some j =>
      _ ← try (_ ← claims_op (release now ("job:" +:+ job_id) "failed" []); mret tt) (λ _, mret tt);
      _ ← when (nonempty (jb_owner_id j))
            (emit (EventJobTransition job_id JobFailed (jb_assigned_worker_id j) (jb_owner_id j)));
      mret true
  end.

(** ** The AOA debug queue and playback control *)

Definition set_payload (now : Z) (command_id : string) (p : payload) (d : db) : db :=
  d <| db_commands ::= update_where (command_is command_id)
         (λ c, c <| cm_payload := p |> <| cm_updated_at := Some now |>) |>.

(* src/features/cluster/repository_commands.py:306-331 ClusterCommandRepositoryMixin.enqueue_aoa_debug_command *)
Definition enqueue_aoa_debug_command (now : Z) (command_id owner_id request_id text : string)
    : M world Z :=
  transaction (
    row ← select (get_command_row command_id);
    match row with
    | None => raise (ApiError "NOT_FOUND" "AOA debug session not found")
    | Some c =>
        let p := cm_payload c in
        _ ← require (truthy (pl_aoa_debug_session_id p) && bool_decide (pl_owner_id p = Some owner_id))
              (ApiError "NOT_FOUND" "AOA debug session not found");
        let queue := pl_aoa_debug_queue p in
        match fetchone (λ e, streqb (dbg_request_id e) request_id) queue with
        | Some entry =>
            _ ← require (streqb (dbg_command entry) text)
                  (ApiError "STATE_CONFLICT" "debug request id is bound to another command");
            mret (dbg_sequence entry)
        | None =>
            _ ← require ((bool_decide (cm_status c = CmdAccepted) || bool_decide (cm_status c = CmdRunning))
                         && negb (pl_aoa_debug_closed p)
                         && negb (bool_decide (pl_aoa_control_action p = Some "cancel")))
                  (ApiError "STATE_CONFLICT" "调试连接已结束，请结束调试后重新连接");
            _ ← require (Nat.ltb (length queue) 256)
                  (ApiError "STATE_CONFLICT" "调试会话已达到 256 条上限，请结束调试后重新连接");
            let sequence := Z.of_nat (length queue) + 1 in
            _ ← sql (set_payload now command_id
                  (p <| pl_aoa_debug_queue := queue ++ [DebugEntry sequence request_id text] |>));
            mret sequence
        end
    end).

(** The closing write leaves [updated_at] alone. *)
(* src/features/cluster/repository_commands.py:333-348 ClusterCommandRepositoryMixin.read_aoa_debug_command *)
Definition read_aoa_debug_command (command_id : string) (cursor : Z) (close : bool)
    : M world (option debug_entry) :=
  transaction (
    row ← select (get_command_row command_id);
    match row with
    | None => raise (RuntimeError "AOA debug operation disappeared")
    | Some c =>
        let entry := fetchone (λ e, Z.ltb cursor (dbg_sequence e)) (pl_aoa_debug_queue (cm_payload c)) in
        _ ← when (close && bool_decide (entry = None))
              (sql (λ d, d <| db_commands ::= update_where (command_is command_id)
                     (λ c', c' <| cm_payload := cm_payload c <| pl_aoa_debug_closed := true |> |>) |>));
        mret entry
    end).

Definition cmd_is_open (s : command_status) : bool :=
  match s with CmdQueued | CmdDelivered | CmdAccepted | CmdRunning => true | _ => false end.

(* src/features/cluster/repository_commands.py:350-374 ClusterCommandRepositoryMixin.request_aoa_playback_control *)
Definition request_aoa_playback_control (now : Z) (worker_id control_id owner_id action : string)
    : M world (option command * Z) :=
  if negb (mem action ["pause"; "resume"; "cancel"])
  then raise (ValueError "invalid AOA playback control")
  else transaction (
    row ← select (λ d, head (order_by latest_first (fetchall (λ c,
        streqb (cm_worker_id c) worker_id && streqb (cm_command_type c) "device_action"
        && bool_decide (pl_playback_control_id (cm_payload c) = Some control_id)
        && bool_decide (pl_owner_id (cm_payload c) = Some owner_id)
        && bool_decide (pl_action (cm_payload c) = Some "aoa_sequence")
        && cmd_is_open (cm_status c)) (db_commands d))));
    match row with
    | None => mret (None, 0)
    | Some c =>
        let action' := if bool_decide (pl_aoa_control_action (cm_payload c) = Some "cancel")
                       then "cancel" else action in
        let revision := pl_aoa_control_revision (cm_payload c) + 1 in
        let p := cm_payload c <| pl_aoa_control_action := Some action' |>
                              <| pl_aoa_control_revision := revision |> in
        _ ← sql (set_payload now (cm_id c) p);
        mret (Some (c <| cm_payload := p |>), revision)
    end).

(** ** Local device actions *)

(* src/foundation/aoa_profile.py:188-188 MAX_AOA_OPERATION_SECONDS *)
Definition MAX_AOA_OPERATION_SECONDS : Z := 960.
(* src/features/cluster/repository_commands.py:21-21 STALE_LOCAL_DEVICE_ACTION_SECONDS *)
Definition STALE_LOCAL_DEVICE_ACTION_SECONDS : Z := MAX_AOA_OPERATION_SECONDS + 120.

Definition cmd_in_progress (c : command) : bool :=
  bool_decide (cm_status c = CmdAccepted) || bool_decide (cm_status c = CmdRunning).
Definition stale_local_action (now threshold : Z) (c : command) : bool :=
  streqb (cm_command_type c) "device_action" && cmd_in_progress c
  && bool_decide (cm_delivered_at c = None) && bool_decide (cm_acknowledged_at c = None)
  && older_than now threshold (cm_updated_at c).

(** Absent or zero [max_age_seconds] is the default.  The result lists the command, the
    source of its claim and its operation. *)
(* src/features/cluster/repository_commands.py:376-438 ClusterCommandRepositoryMixin.fail_stale_local_device_actions *)
Definition fail_stale_local_device_actions (now max_age_seconds : Z)
    : M world (list (string * string * string)) :=
  let threshold := if Z.eqb max_age_seconds 0 then STALE_LOCAL_DEVICE_ACTION_SECONDS
                   else max_age_seconds in
  failed ← transaction (
    rows ← select (λ d, fetchall (stale_local_action now threshold) (db_commands d));
    found ← forM rows (λ c,
      if negb (pl_release_claim_on_terminal (cm_payload c)) then mret None
      else
        let hit r := command_is (cm_id c) r && cmd_in_progress r in
        n ← select (λ d, rowcount hit (db_commands d));
        _ ← sql (λ d, d <| db_commands ::= update_where hit (λ r,
              r <| cm_status := CmdFailed |>
                <| cm_error := "local device_action interrupted by a Controller restart; fencing claim released, replay the operation if needed" |>
                <| cm_updated_at := Some now |>) |>);
        if negb (Nat.eqb n 1) then mret None
        else mret (Some (cm_id c, default "" (pl_claim_source_id (cm_payload c)), cm_operation_id c)));
    mret (omap id found));
  _ ← for_each failed (λ '(_, claim_source_id, _),
        when (nonempty claim_source_id)
          (_ ← claims_op (release now claim_source_id "failed" []); mret tt));
  mret failed.

(* src/features/cluster/repository_commands.py:440-445 ClusterCommandRepositoryMixin.start_local_command *)
Definition start_local_command (now : Z) (command_id : string) : M world bool :=
  transaction (
    let hit c := command_is command_id c && bool_decide (cm_status c = CmdAccepted) in
    n ← select (λ d, rowcount hit (db_commands d));
    _ ← sql (λ d, d <| db_commands ::= update_where hit
          (λ c, c <| cm_status := CmdRunning |> <| cm_updated_at := Some now |>) |>);
    mret (Nat.eqb n 1)).

(** ** Command events *)

(* src/features/cluster/repository_commands.py:447-483 ClusterCommandRepositoryMixin.append_command_events *)
Definition append_command_events (now : Z) (worker_id command_id : string) (events : list event_in)
    : M world nat :=
  transaction (
    owner ← select (get_command_row command_id);
    match owner with
    | Some c =>
        if negb (streqb (cm_worker_id c) worker_id) then mret 0%nat
        else
          res ← select (λ d, insert_events now command_id worker_id events (db_command_events d)
                               (db_seq_command_events d));
          let '(rows, seq, inserted) := res in
          _ ← sql (λ d, d <| db_command_events := rows |> <| db_seq_command_events := seq |>);
          mret inserted
    | None => mret 0%nat
    end).

(* src/features/cluster/repository_commands.py:485-499 ClusterCommandRepositoryMixin.list_command_events *)
Definition list_command_events (command_id : string) (after n : Z) : M world (list event_row) :=
  connect_read (λ d, limit n (order_by by_sequence
    (fetchall (λ e, streqb (ev_subject_id e) command_id && Z.ltb after (ev_sequence e))
       (db_command_events d)))).

(** ** Delivery and acknowledgement *)

(** A delivery the worker did not acknowledge in time. *)
Definition redeliverable (now redelivery_seconds : Z) (worker_id : string) (c : command) : bool :=
  streqb (cm_worker_id c) worker_id && bool_decide (cm_status c = CmdDelivered)
  && older_than now (Z.max 1 redelivery_seconds) (cm_delivered_at c).
Definition deliver (now : Z) (c : command) : command :=
  c <| cm_status := CmdDelivered |> <| cm_delivered_at := Some now |> <| cm_updated_at := Some now |>.

(** The rows are returned as they were before the delivery was stamped. *)
(* src/features/cluster/repository_commands.py:501-541 ClusterCommandRepositoryMixin.poll_commands *)
Definition poll_commands (now : Z) (worker_id : string) (n redelivery_seconds : Z)
    : M world (list command) :=
  transaction (
    _ ← sql (λ d, d <| db_commands ::= update_where (redeliverable now redelivery_seconds worker_id)
          (λ c, c <| cm_status := CmdQueued |> <| cm_updated_at := Some now |>) |>);
    rows ← select (λ d, limit n (order_by oldest_first
      (fetchall (λ c, streqb (cm_worker_id c) worker_id && bool_decide (cm_status c = CmdQueued))
         (db_commands d))));
    _ ← for_each rows (λ row,
          sql (λ d, d <| db_commands ::= update_where (command_is (cm_id row)) (deliver now) |>));
    _ ← for_each rows (λ row, append_timeline_conn now
          (tl_default "command.delivered" "controller"
             ("Delivered Worker command " +:+ cm_command_type row)
             <| tl_job_id := cm_job_id row |> <| tl_attempt_id := cm_attempt_id row |>
             <| tl_trace_id := cm_trace_id row |> <| tl_operation_id := cm_operation_id row |>
             <| tl_worker_id := worker_id |> <| tl_from_state := "queued" |>
             <| tl_to_state := "delivered" |> <| tl_payload := [("command_id", PStr (cm_id row))] |>));
    mret rows).

(** [progress_rank]: terminal statuses have no rank and read as 4 when incoming. *)
Definition progress_rank (s : command_status) : Z :=
  match s with
  | CmdQueued => 0 | CmdDelivered => 1 | CmdAccepted => 2 | CmdRunning => 3 | _ => 4
  end.

(* src/features/cluster/repository_commands.py:543-587 ClusterCommandRepositoryMixin.ack_command *)
Definition ack_command (now : Z) (worker_id command_id : string) (incoming_status : command_status)
    (result : command_result) (error : string) : M world (option command) :=
  let mine c := command_is command_id c && streqb (cm_worker_id c) worker_id in
  answered ← transaction (
    row ← select (λ d, fetchone mine (db_commands d));
    match row with
    | None => mret (Some None)
    | Some current =>
        let current_status := cm_status current in
        if cmd_is_terminal current_status
           || Z.ltb (progress_rank incoming_status) (progress_rank current_status)
        then mret (Some (Some current))
        else
          _ ← sql (λ d, d <| db_commands ::= update_where mine (λ c,
                c <| cm_status := incoming_status |> <| cm_result := result |> <| cm_error := error |>
                  <| cm_acknowledged_at := Some now |> <| cm_updated_at := Some now |>) |>);
          _ ← append_timeline_conn now
            (tl_default "command.acknowledged" "worker"
               ("Worker command " +:+ cm_command_type current +:+ " is "
                  +:+ command_status_text incoming_status)
               <| tl_job_id := cm_job_id current |> <| tl_attempt_id := cm_attempt_id current |>
               <| tl_trace_id := cm_trace_id current |> <| tl_operation_id := cm_operation_id current |>
               <| tl_worker_id := worker_id |>
               <| tl_level := if bool_decide (incoming_status = CmdFailed) then "error" else "info" |>
               <| tl_from_state := command_status_text current_status |>
               <| tl_to_state := command_status_text incoming_status |>
               <| tl_payload := [("command_id", PStr command_id); ("error", PStr error)] |>);
          mret None
    end);
  match answered with
  | Some c => mret c
  | None => get_command command_id
  end.

(* src/features/cluster/repository_commands.py:589-600 ClusterCommandRepositoryMixin.claim_terminal_notification *)
Definition claim_terminal_notification (now : Z) (command_id : string) : M world bool :=
  transaction (
    let hit c := command_is command_id c && bool_decide (cm_terminal_notified_at c = None)
                 && cmd_is_terminal (cm_status c) in
    n ← select (λ d, rowcount hit (db_commands d));
    _ ← sql (λ d, d <| db_commands ::= update_where hit
          (λ c, c <| cm_terminal_notified_at := Some now |>) |>);
    mret (Nat.eqb n 1)).

(** ** Job synchronisation *)

(** The statuses of a command that move its job, and the attempt's status with it. *)
Definition sync_status (c : command) : option (job_status * attempt_status) :=
  match cm_status c with
  | CmdRunning => Some (JobRunning, AttRunning)
  | CmdCompleted => if streqb (cm_command_type c) "stop_test"
                    then Some (JobCancelled, AttCancelled) else Some (JobCompleted, AttCompleted)
  | CmdFailed => Some (JobFailed, AttFailed)
  | CmdCancelled => Some (JobCancelled, AttCancelled)
  | CmdQueued | CmdDelivered | CmdAccepted => None
  end.

(** The transaction; the result says whether the job's claim must be released. *)
(* src/features/cluster/repository_commands.py:670-734 ClusterCommandRepositoryMixin.sync_job_from_command *)
Definition sync_job_conn (now : Z) (c : command) (js : job_status) (ats : attempt_status)
    : M world bool :=
  let job_id := cm_job_id c in
  row ← select (get_job_row job_id);
  match row with
  | None => mret false
  | Some j =>
      if nonempty (cm_attempt_id c) && negb (streqb (cm_attempt_id c) (jb_current_attempt_id j)) then
        _ ← append_timeline_conn now
          (tl_default "command.stale_attempt" "controller" "Ignored command result from a stale Attempt"
             <| tl_job_id := job_id |> <| tl_attempt_id := cm_attempt_id c |>
             <| tl_trace_id := cm_trace_id c |> <| tl_operation_id := cm_operation_id c |>
             <| tl_worker_id := cm_worker_id c |> <| tl_level := "warning" |>
             <| tl_payload := [("command_id", PStr (cm_id c))] |>);
        mret false
      else
        moved ← catch_invalid_transition
          (b ← transition_job_conn now job_id js "worker-ack"
                 ("Worker command moved Cluster Job to " +:+ job_status_text js) (cm_error c)
                 (cm_operation_id c) (cm_worker_id c)
                 [("command_id", PStr (cm_id c)); ("command_type", PStr (cm_command_type c))];
           mret (Some b))
          (mret None);
        match moved with
        | None => mret false
        | Some transitioned =>
            _ ← sql (λ d, d <| db_attempts ::= update_where
                  (λ a, streqb (at_id a) (jb_current_attempt_id j)) (λ a,
                  a <| at_status := ats |> <| at_worker_job_id := cr_worker_job_id (cm_result c) |>
                    <| at_result := cm_result c |> <| at_error := cm_error c |>
                    <| at_started_at ::= λ s, if bool_decide (ats = AttRunning) then Some now else s |>
                    <| at_finished_at ::= λ s, if is_terminal js then Some now else s |>) |>);
            if transitioned && is_terminal js then
              let held l := streqb (le_job_id l) job_id && lease_is_active l in
              leases ← select (λ d, le_device_id <$> fetchall held (db_leases d));
              _ ← sql (λ d, d <| db_leases ::= update_where held (release_lease now) |>);
              _ ← for_each leases (λ i, sql (λ d, d <| db_devices ::= update_where
                    (λ r, streqb (dev_id r) i) (set_device_state now "available") |>));
              mret true
            else mret false
        end
  end.

(* src/features/cluster/repository_commands.py:659-739 ClusterCommandRepositoryMixin.sync_job_from_command *)
Definition sync_job_from_command (now : Z) (c : command) : M world unit :=
  match sync_status c with
  | Some (js, ats) =>
      if negb (nonempty (cm_job_id c)) then mret tt
      else
        release_claim ← transaction (sync_job_conn now c js ats);
        when release_claim
          (_ ← claims_op (release now ("job:" +:+ cm_job_id c)
                 (if bool_decide (js = JobCancelled) then "cancelled" else "released") []);
           mret tt)
  | None => mret tt
  end.
