(* ===== verification/Inventory.v ===== *)
(** The worker inventory: [features/cluster/repository_inventory.py].

    Registration opens a worker session; a heartbeat of the current session replaces the
    worker's devices, tests and suites, renews the claims of the jobs it reports running
    and revokes the attempts whose claims were lost; the watchdog marks silent workers
    offline and parks their jobs as lost. *)

From S2P Require Import Prelude DeviceClaims JobStateMachine ClusterState Admission ClusterClaims Reservations.

Open Scope Z_scope.

(** ** What workers report *)

(* src/features/cluster/models.py:30-34 WorkerDevice *)
Record device_in := DeviceIn {
  di_serial : string; di_transport : string; di_state : string; di_properties : gmap string string;
}.
(* src/features/cluster/models.py:37-44 WorkerSuite *)
Record suite_in := SuiteIn {
  si_suite_type : string; si_suite_version : string; si_suite_key : string;
  si_tools_path : string; si_checksum : string; si_size_bytes : Z; si_available : bool;
}.
(** The keys of a reported running job the controller reads. *)
(* src/features/cluster/models.py:47-66 RunningWorkerJob *)
Record running_job := RunningJob {
  rj_worker_job_id : string; rj_attempt_id : string; rj_status : string; rj_pid : option Z;
  rj_devices : list string; rj_source : string; rj_suite_type : string;
}.
(* src/features/cluster/models.py:19-27 WorkerRegistration *)
Record registration := Registration {
  reg_worker_id : string; reg_name : string; reg_hostname : string; reg_address : string;
  reg_agent_version : string; reg_capabilities : list (string * string);
  reg_max_jobs : option Z; reg_session_id : string;
}.
(** [suites] is [None] when the heartbeat carries no suite scan. *)
(* src/features/cluster/models.py:76-92 WorkerHeartbeat *)
Record heartbeat_in := HeartbeatIn {
  hb_agent_version : string;
  hb_cpu_percent : Q; hb_memory_percent : Q; hb_memory_total_gb : Q; hb_memory_available_gb : Q;
  hb_load_1m : Q; hb_disk_free_gb : Q; hb_disk_total_gb : Q;
  hb_running_jobs : list running_job; hb_devices : list device_in;
  hb_suites : option (list suite_in);
  hb_session_id : string; hb_connection_generation : Z;
}.

(** ** Reading the inventory *)

(* src/features/cluster/repository_inventory.py:102-106 ClusterInventoryRepositoryMixin.get_worker *)
Definition get_worker (worker_id : string) : M world (option worker) :=
  connect_read (get_worker_row worker_id).

(* src/features/cluster/repository_inventory.py:108-112 ClusterInventoryRepositoryMixin.list_workers *)
Definition list_workers : M world (list worker) :=
  connect_read (λ d, order_by (λ a b, text_leb (wk_id a) (wk_id b)) (db_workers d)).

(** Lexicographic [ORDER BY] on two texts. *)
Definition leb2 (a1 a2 b1 b2 : string) : bool :=
  if decide (a1 = b1) then text_leb a2 b2 else text_leb a1 b1.
Definition worker_filter {R} (field : R → string) (worker_id : string) (r : R) : bool :=
  negb (nonempty worker_id) || streqb (field r) worker_id.

(** Each device with the live claim of its id, if there is one. *)
(* src/features/cluster/repository_inventory.py:569-595 ClusterInventoryRepositoryMixin.list_devices *)
Definition list_devices (now : Z) (worker_id : string)
    : M world (list (device_row * option claim)) :=
  devices ← connect_read (λ d,
    order_by (λ a b, leb2 (dev_worker_id a) (dev_serial a) (dev_worker_id b) (dev_serial b))
      (fetchall (worker_filter dev_worker_id worker_id) (db_devices d)));
  claims ← claims_op (list_active now worker_id "");
  mret ((λ r, (r, last (fetchall (key_is (dev_id r)) claims))) <$> devices).

(* src/features/cluster/repository_claims.py:15-25 ClusterClaimRepositoryMixin.resolve_worker_device *)
Definition resolve_worker_device (now : Z) (worker_id value : string)
    : M world (option (device_row * option claim)) :=
  let value := strip value in
  if negb (nonempty value) then mret None
  else
    devices ← list_devices now worker_id;
    mret (fetchone (λ '(r, _), streqb value (dev_id r) || streqb value (dev_serial r)) devices).

(* src/features/cluster/repository_inventory.py:597-605 ClusterInventoryRepositoryMixin.list_suites *)
Definition list_suites (worker_id : string) : M world (list suite_row) :=
  connect_read (λ d,
    order_by (λ a b, if decide (su_worker_id a = su_worker_id b)
                     then leb2 (su_suite_type a) (su_suite_version a) (su_suite_type b) (su_suite_version b)
                     else text_leb (su_worker_id a) (su_worker_id b))
      (fetchall (worker_filter su_worker_id worker_id) (db_suites d))).

(* src/features/cluster/repository_inventory.py:502-517 ClusterInventoryRepositoryMixin.list_worker_tests *)
Definition list_worker_tests (worker_id : string) : M world (list test_row) :=
  connect_read (λ d,
    order_by (λ a b,
        if decide (wt_worker_id a = wt_worker_id b) then
          if decide (wt_last_seen_at a = wt_last_seen_at b)
          then text_leb (wt_worker_job_id a) (wt_worker_job_id b)
          else stamp_leb (wt_last_seen_at a) (wt_last_seen_at b)
        else text_leb (wt_worker_id a) (wt_worker_id b))
      (fetchall (worker_filter wt_worker_id worker_id) (db_tests d))).

(** ** Replacing a worker's inventory *)

(** [serial LIKE 'localhost:%'], which ignores the case of ASCII letters. *)
Definition temporary_route (r : device_row) : bool :=
  startswith "localhost:" (ascii_lower (dev_serial r)) || streqb (dev_transport r) "usbip".

Definition reported_id (worker_id : string) (x : device_in) : string :=
  worker_id +:+ ":" +:+ di_serial x.
(** The state an upsert gives a known device: its lease and its reservation come before
    what the worker reports. *)
Definition merged_state (external_serials : list string) (device_id : string) (x : device_in)
    (reported_state : string) (r : device_row) (d : db) : string :=
  if device_leased device_id d then "allocated"
  else if device_reserved device_id d then "reserved"
  else if mem (di_serial x) external_serials then "external_busy"
  else reported_state.

(** One [INSERT ... ON CONFLICT(id) DO UPDATE] of a reported device. *)
(* src/features/cluster/repository_inventory.py:400-447 ClusterInventoryRepositoryMixin._replace_devices *)
Definition upsert_device (now : Z) (worker_id : string) (external_serials : list string)
    (x : device_in) : M world unit :=
  let device_id := reported_id worker_id x in
  let reported_state := if mem (di_serial x) external_serials then "external_busy" else di_state x in
  known ← select (get_device_row device_id);
  match known with
  | Some _ =>
      sql (λ d, d <| db_devices ::= update_where (λ r, streqb (dev_id r) device_id) (λ r,
        r <| dev_transport := di_transport x |>
          <| dev_state := merged_state external_serials device_id x reported_state r d |>
          <| dev_properties := di_properties x |> <| dev_last_seen_at := Some now |>
          <| dev_updated_at := Some now |>) |>)
  | None =>
      _ ← constraint (λ d, bool_decide (is_Some (get_worker_row worker_id d)))
            "FOREIGN KEY cluster_worker_devices.worker_id";
      sql (λ d, d <| db_devices ::= λ t, t ++
        [DeviceRow device_id worker_id (di_serial x) (di_transport x) reported_state
           (di_properties x) (Some now) (Some now) (Some now)] |>)
  end.

(* src/features/cluster/repository_inventory.py:390-474 ClusterInventoryRepositoryMixin._replace_devices *)
Definition replace_devices (now : Z) (worker_id : string) (devices : list device_in)
    (external_serials : list string) : M world unit :=
  _ ← for_each devices (upsert_device now worker_id external_serials);
  let seen := reported_id worker_id <$> devices in
  let gone r := streqb (dev_worker_id r) worker_id && negb (mem (dev_id r) seen) in
  _ ← sql (λ d, d <| db_devices ::= delete_where (λ r, gone r && temporary_route r) |>);
  sql (λ d, d <| db_devices ::= update_where gone (set_device_state now "offline") |>).

(* src/features/cluster/repository_inventory.py:476-500 ClusterInventoryRepositoryMixin._replace_worker_tests *)
Definition replace_worker_tests (now : Z) (worker_id : string) (tests : list running_job)
    : M world unit :=
  _ ← sql (λ d, d <| db_tests ::= delete_where (λ t, streqb (wt_worker_id t) worker_id) |>);
  for_each tests (λ item,
    _ ← constraint (λ d, negb (exists_row (λ t, streqb (wt_worker_id t) worker_id
                            && streqb (wt_worker_job_id t) (rj_worker_job_id item)) (db_tests d)))
          "cluster_worker_tests.worker_id, cluster_worker_tests.worker_job_id";
    sql (λ d, d <| db_tests ::= λ t, t ++
      [TestRow worker_id (rj_worker_job_id item) (rj_source item) (rj_status item)
         (rj_suite_type item) (rj_pid item) (rj_devices item) (Some now)] |>)).

(* src/features/cluster/repository_inventory.py:519-554 ClusterInventoryRepositoryMixin._replace_suites *)
Definition replace_suites (now : Z) (worker_id : string) (suites : list suite_in) : M world unit :=
  _ ← sql (λ d, d <| db_suites ::= update_where (λ s, streqb (su_worker_id s) worker_id)
                       (λ s, s <| su_available := false |>) |>);
  for_each suites (λ x,
    let same s := streqb (su_worker_id s) worker_id && streqb (su_tools_path s) (si_tools_path x) in
    sql (λ d,
      if exists_row same (db_suites d)
      then d <| db_suites ::= update_where same (λ s,
             s <| su_suite_type := si_suite_type x |> <| su_suite_version := si_suite_version x |>
               <| su_suite_key := si_suite_key x |> <| su_checksum := si_checksum x |>
               <| su_size_bytes := si_size_bytes x |> <| su_available := si_available x |>
               <| su_last_scanned_at := Some now |>) |>
      else d <| db_seq_suites ::= Z.succ |>
             <| db_suites ::= λ t, t ++
                  [SuiteRow (Z.succ (db_seq_suites d)) worker_id (si_suite_type x)
                     (si_suite_version x) (si_suite_key x) (si_tools_path x) (si_checksum x)
                     (si_size_bytes x) (si_available x) (Some now)] |>)).

(* src/features/cluster/repository_inventory.py:556-567 ClusterInventoryRepositoryMixin.replace_worker_suites *)
Definition replace_worker_suites (now : Z) (worker_id : string) (suites : list suite_in)
    : M world unit :=
  _ ← require (nonempty worker_id) (ValueError "worker_id is required");
  transaction (
    known ← select (get_worker_row worker_id);
    _ ← require (bool_decide (is_Some known)) (ValueError "worker not found");
    replace_suites now worker_id suites).

(* src/features/cluster/repository_inventory.py:313-327 ClusterInventoryRepositoryMixin.refresh_worker_devices *)
Definition refresh_worker_devices (now : Z) (worker_id : string) (devices : list device_in)
    : M world unit :=
  transaction (replace_devices now worker_id devices []).

(** A device the terminal handshake found; a known one only has its times refreshed. *)
(* src/features/cluster/repository_inventory.py:607-630 ClusterInventoryRepositoryMixin.upsert_seen_device *)
Definition upsert_seen_device (now : Z) (worker_id serial : string) : M world unit :=
  let device_id := worker_id +:+ ":" +:+ serial in
  transaction (
    known ← select (get_device_row device_id);
    match known with
    | Some _ => sql (λ d, d <| db_devices ::= update_where (λ r, streqb (dev_id r) device_id)
                 (λ r, r <| dev_last_seen_at := Some now |> <| dev_updated_at := Some now |>) |>)
    | None =>
        _ ← constraint (λ d, bool_decide (is_Some (get_worker_row worker_id d)))
              "FOREIGN KEY cluster_worker_devices.worker_id";
        sql (λ d, d <| db_devices ::= λ t, t ++
          [DeviceRow device_id worker_id serial "local_usb" "available" ∅
             (Some now) (Some now) (Some now)] |>)
    end).

(** ** Registration and removal *)

(* src/features/cluster/repository_inventory.py:634-640 emit_worker_availability *)
Definition emit_worker_availability (w : worker) (status : worker_status) : M world unit :=
  emit (EventWorkerAvailability (wk_id w) (wk_name w) status).

(** [default_max_jobs] is the configured default of [ClusterConfig]. *)
(* src/features/cluster/repository_inventory.py:42-100 ClusterInventoryRepositoryMixin.register_worker *)
Definition register_worker (default_max_jobs now : Z) (data : registration)
    : M world (option worker) :=
  let worker_id := reg_worker_id data in
  outcome ← transaction (
    existing ← select (get_worker_row worker_id);
    let reported_session := reg_session_id data in
    let previous_session := match existing with Some w => wk_session_id w | None => "" end in
    let session_id := str_or reported_session previous_session in
    let fresh := nonempty reported_session && negb (streqb reported_session previous_session) in
    let generation := match existing with Some w => wk_connection_generation w | None => 0 end
                      + (if fresh then 1 else 0) in
    let recovered := match existing with
                     | Some w => bool_decide (wk_status w = WorkerOffline) || fresh
                     | None => false
                     end in
    let max_jobs := normalize_max_jobs (default default_max_jobs (reg_max_jobs data)) in
    let recovered_at := if recovered then Some now else None in
    _ ← sql (λ d,
      match existing with
      | Some _ => d <| db_workers ::= update_where (λ w, streqb (wk_id w) worker_id) (λ w,
          w <| wk_name := reg_name data |> <| wk_hostname := reg_hostname data |>
            <| wk_address := reg_address data |> <| wk_agent_version := reg_agent_version data |>
            <| wk_status := WorkerOnline |> <| wk_capabilities := reg_capabilities data |>
            <| wk_max_jobs := max_jobs |> <| wk_session_id := session_id |>
            <| wk_connection_generation := generation |> <| wk_disconnected_at := None |>
            <| wk_last_recovered_at := recovered_at |> <| wk_last_heartbeat_at := Some now |>
            <| wk_updated_at := Some now |>) |>
      | None => d <| db_workers ::= λ t, t ++
          [Worker worker_id (reg_name data) (reg_hostname data) (reg_address data)
             (reg_agent_version data) WorkerOnline (reg_capabilities data)
             0 0 0 0 0 0 0 max_jobs 0 0 0 session_id generation None recovered_at
             (Some now) (Some now) (Some now)] |>
      end);
    _ ← append_timeline_conn now
      (tl_default (if recovered then "worker.reconnected" else "worker.registered") "worker"
         (if recovered then "Worker reconnected" else "Worker registered")
         <| tl_worker_id := worker_id |>
         <| tl_payload := [("session_id", PStr session_id);
                           ("connection_generation", PInt generation);
                           ("previous_session_id", PStr previous_session)] |>);
    mret (recovered, existing));
  let '(recovered, existing) := outcome in
  worker ← get_worker worker_id;
  _ ← match worker, existing with
      | Some w, Some old =>
          when ((recovered : bool) && bool_decide (wk_status old = WorkerOffline))
            (emit_worker_availability w WorkerOnline)
      | _, _ => mret tt
      end;
  mret worker.

(** [conn.total_changes > 0]: some statement deleted a row. *)
(* src/features/cluster/repository_inventory.py:135-153 ClusterInventoryRepositoryMixin.delete_worker *)
Definition delete_worker (worker_id : string) : M world bool :=
  transaction (
    active ← select (λ d, exists_row (λ j, streqb (jb_assigned_worker_id j) worker_id
                                           && negb (is_terminal (jb_status j))) (db_jobs d));
    if active : bool then mret false
    else
      command_ids ← select (λ d, cm_id <$> fetchall (λ c, streqb (cm_worker_id c) worker_id) (db_commands d));
      changed ← select (λ d,
        exists_row (λ e, mem (ev_subject_id e) command_ids) (db_command_events d)
        || exists_row (λ c, streqb (cm_worker_id c) worker_id) (db_commands d)
        || exists_row (λ r, streqb (dev_worker_id r) worker_id) (db_devices d)
        || exists_row (λ s, streqb (su_worker_id s) worker_id) (db_suites d)
        || exists_row (λ t, streqb (wt_worker_id t) worker_id) (db_tests d)
        || exists_row (λ m, streqb (mt_worker_id m) worker_id) (db_metrics d)
        || exists_row (λ t, streqb (tr_worker_id t) worker_id) (db_transfers d)
        || exists_row (λ w, streqb (wk_id w) worker_id) (db_workers d));
      _ ← sql (λ d, d
        <| db_command_events ::= delete_where (λ e, mem (ev_subject_id e) command_ids) |>
        <| db_commands ::= delete_where (λ c, streqb (cm_worker_id c) worker_id) |>
        <| db_devices ::= delete_where (λ r, streqb (dev_worker_id r) worker_id) |>
        <| db_suites ::= delete_where (λ s, streqb (su_worker_id s) worker_id) |>
        <| db_tests ::= delete_where (λ t, streqb (wt_worker_id t) worker_id) |>
        <| db_metrics ::= delete_where (λ m, streqb (mt_worker_id m) worker_id) |>
        <| db_transfers ::= delete_where (λ t, streqb (tr_worker_id t) worker_id) |>
        <| db_workers ::= delete_where (λ w, streqb (wk_id w) worker_id) |>);
      mret changed).

(** ** Heartbeats *)

(** [recorded_at < strftime('now', '-24 hours')] *)
Definition day_old (now : Z) (s : stamp) : bool := negb (stamp_leb (Some (now - 24 * 3600)) s).

Definition is_external (r : running_job) : bool := streqb (rj_source r) "external".
(** The serials external tests occupy, without their worker prefix. *)
Definition external_serials_of (worker_id : string) (running : list running_job) : list string :=
  fetchall is_external running ≫= λ item, removeprefix (worker_id +:+ ":") <$> rj_devices item.
Definition heartbeat_status (running : list running_job) : worker_status :=
  if bool_decide (fetchall (λ r, is_external r && bool_decide (rj_devices r = [])) running ≠ [])
  then WorkerDraining
  else if bool_decide (running ≠ []) then WorkerBusy else WorkerOnline.

Definition lease_of_attempt (attempt_id : string) (l : lease) : bool :=
  streqb (le_attempt_id l) attempt_id.

(** The job of an attempt this worker runs: [cluster_job_attempts JOIN cluster_jobs]. *)
Definition attempt_job (worker_id attempt_id : string) (d : db) : option job :=
  a ← fetchone (λ a, streqb (at_id a) attempt_id && streqb (at_worker_id a) worker_id) (db_attempts d);
  get_job_row (at_job_id a) d.

(** An attempt whose claims were lost is failed and its leases revoked. *)
(* src/features/cluster/repository_inventory.py:227-252 ClusterInventoryRepositoryMixin.heartbeat *)
Definition revoke_attempt (now : Z) (worker_id attempt_id : string) (j : job) : M world unit :=
  let error := "device fencing claim expired or was superseded" in
  _ ← catch_invalid_transition
    (_ ← transition_job_conn now (jb_id j) JobFailed "controller-fencing"
           "Rejected running Attempt after its device claim expired" error "" worker_id
           [("attempt_id", PStr attempt_id)];
     mret tt)
    (mret tt);
  _ ← sql (λ d, d <| db_attempts ::= update_where (λ a, streqb (at_id a) attempt_id)
        (λ a, a <| at_status := AttFailed |> <| at_finished_at := Some now |> <| at_error := error |>) |>);
  _ ← sql (λ d, d <| db_leases ::= update_where (λ l, lease_of_attempt attempt_id l && lease_held l)
        (λ l, l <| le_status := LeaseRevoked |> <| le_released_at := Some now |>) |>);
  _ ← claims_op (release now ("job:" +:+ jb_id j) "failed" []);
  mret tt.

Section heartbeat.
Context `{U : Uuid}.
(** The repository's [claim_lease_ttl_seconds]. *)
Variable claim_lease_ttl_seconds : Z.

(** A confirmed attempt is running, and its orphaned leases are active again under
    [idx_active_device_lease]. *)
(* src/features/cluster/repository_inventory.py:253-285 ClusterInventoryRepositoryMixin.heartbeat *)
Definition confirm_attempt (now : Z) (worker_id : string) (data : heartbeat_in) (item : running_job)
    (j : job) : M world unit :=
  let attempt_id := rj_attempt_id item in
  let expires_at := Some (now + claim_lease_ttl_seconds) in
  _ ← sql (λ d, d <| db_attempts ::= update_where
        (λ a, streqb (at_id a) attempt_id && streqb (at_worker_id a) worker_id)
        (λ a, a <| at_status := AttRunning |> <| at_worker_job_id := rj_worker_job_id item |>
                <| at_heartbeat_at := Some now |>) |>);
  resumed ← catch_invalid_transition
    (_ ← transition_job_conn now (jb_id j) JobRunning "worker-heartbeat"
           "Worker reported the persisted Attempt running" "" "" worker_id
           [("worker_job_id", PStr (rj_worker_job_id item));
            ("session_id", PStr (hb_session_id data));
            ("connection_generation", PInt (hb_connection_generation data))];
     mret true)
    (mret false);
  if negb resumed then mret tt
  else
    let reactivated := update_where
      (λ l, lease_of_attempt attempt_id l && streqb (le_worker_id l) worker_id
            && bool_decide (le_status l = LeaseOrphaned))
      (λ l, l <| le_status := LeaseActive |> <| le_heartbeat_at := Some now |>
              <| le_expires_at := expires_at |> <| le_released_at := None |>) in
    _ ← constraint (λ d, bool_decide (NoDup (le_device_id <$> fetchall lease_is_active
                                               (reactivated (db_leases d)))))
          "idx_active_device_lease";
    _ ← sql (λ d, d <| db_leases ::= reactivated |>);
    _ ← sql (λ d, d <| db_devices ::= update_where
          (λ r, exists_row (λ l, lease_of_attempt attempt_id l && lease_is_active l
                                 && streqb (le_device_id l) (dev_id r)) (db_leases d))
          (set_device_state now "allocated") |>);
    sql (λ d, d <| db_leases ::= update_where
          (λ l, lease_of_attempt attempt_id l && lease_is_active l)
          (λ l, l <| le_heartbeat_at := Some now |> <| le_expires_at := expires_at |>) |>).

(** One reported job; the result lists its attempt when it was revoked. *)
(* src/features/cluster/repository_inventory.py:204-285 ClusterInventoryRepositoryMixin.heartbeat *)
Definition heartbeat_job (now : Z) (worker_id : string) (data : heartbeat_in) (item : running_job)
    : M world (list string) :=
  if is_external item then mret []
  else
    row ← select (attempt_job worker_id (rj_attempt_id item));
    match row with
    | None => mret []
    | Some j =>
        lease_ids ← select (λ d, le_device_id <$>
          fetchall (λ l, lease_of_attempt (rj_attempt_id item) l && lease_held l) (db_leases d));
        renewed ← renew_job_device_claim claim_lease_ttl_seconds now (jb_id j) (jb_owner_id j) lease_ids;
        if negb renewed then
          _ ← revoke_attempt now worker_id (rj_attempt_id item) j;
          mret [rj_attempt_id item]
        else
          _ ← confirm_attempt now worker_id data item j;
          mret []
    end.

(** [session["session_id"] and (session differs or generation differs)] *)
(* src/features/cluster/repository_inventory.py:170-180 ClusterInventoryRepositoryMixin.heartbeat *)
Definition stale_session (data : heartbeat_in) (w : worker) : bool :=
  nonempty (wk_session_id w)
  && (negb (streqb (wk_session_id w) (hb_session_id data))
      || negb (Z.eqb (wk_connection_generation w) (hb_connection_generation data))).

(* src/features/cluster/repository_inventory.py:181-196 ClusterInventoryRepositoryMixin.heartbeat *)
Definition heartbeat_worker_row (now : Z) (data : heartbeat_in) (w : worker) : worker :=
  let running := hb_running_jobs data in
  w <| wk_status := heartbeat_status running |> <| wk_agent_version := hb_agent_version data |>
    <| wk_cpu_percent := hb_cpu_percent data |> <| wk_memory_percent := hb_memory_percent data |>
    <| wk_memory_total_gb := hb_memory_total_gb data |>
    <| wk_memory_available_gb := hb_memory_available_gb data |>
    <| wk_load_1m := hb_load_1m data |> <| wk_disk_free_gb := hb_disk_free_gb data |>
    <| wk_disk_total_gb := hb_disk_total_gb data |>
    <| wk_running_jobs := Z.of_nat (length running) |>
    <| wk_external_jobs := Z.of_nat (length (fetchall is_external running)) |>
    <| wk_unknown_external_jobs := Z.of_nat (length
         (fetchall (λ r, is_external r && bool_decide (rj_devices r = [])) running)) |>
    <| wk_last_heartbeat_at := Some now |> <| wk_updated_at := Some now |>.

(** The result is the worker with the revoked attempts in order, or [None] for an
    unknown worker. *)
(* src/features/cluster/repository_inventory.py:155-311 ClusterInventoryRepositoryMixin.heartbeat *)
Definition heartbeat (now : Z) (worker_id : string) (data : heartbeat_in)
    : M world (option (worker * list string)) :=
  let running := hb_running_jobs data in
  outcome ← transaction (
    session ← select (get_worker_row worker_id);
    _ ← match session with
        | Some w => require (negb (stale_session data w)) (ValueError "stale worker session")
        | None => mret tt
        end;
    _ ← sql (λ d, d <| db_workers ::= update_where (λ w, streqb (wk_id w) worker_id)
                         (heartbeat_worker_row now data) |>);
    match session with
    | None => mret None
    | Some w =>
        _ ← expire_device_reservations now;
        _ ← replace_devices now worker_id (hb_devices data) (external_serials_of worker_id running);
        _ ← replace_worker_tests now worker_id running;
        _ ← match hb_suites data with
            | Some suites => replace_suites now worker_id suites
            | None => mret tt
            end;
        revoked ← forM running (heartbeat_job now worker_id data);
        _ ← sql (λ d, d <| db_metrics ::= λ t,
              delete_where (λ m, day_old now (mt_recorded_at m))
                (t ++ [MetricRow worker_id (Some now) (hb_cpu_percent data) (hb_memory_percent data)
                   (hb_disk_free_gb data) (Z.of_nat (length running))
                   (Z.of_nat (length (fetchall is_external running)))]) |>);
        mret (Some (wk_status w, mjoin revoked))
    end);
  match outcome with
  | None => mret None
  | Some (previous_status, revoked) =>
      worker ← get_worker worker_id;
      _ ← emit (EventWorkerUpdated worker_id (heartbeat_status running));
      _ ← match worker with
          | Some w => when (bool_decide (previous_status = WorkerOffline))
                        (emit_worker_availability w WorkerOnline)
          | None => mret tt
          end;
      mret ((λ w, (w, order_by text_leb (dedup revoked))) <$> worker)
  end.
End heartbeat.

(** ** Lost workers *)

(* src/features/cluster/repository_inventory.py:329-388 ClusterInventoryRepositoryMixin.mark_worker_offline *)
Definition mark_worker_offline (now : Z) (worker_id : string) : M world unit :=
  w0 ← transaction (
    row ← select (get_worker_row worker_id);
    let session_id := match row with Some w => wk_session_id w | None => "" end in
    let generation := match row with Some w => wk_connection_generation w | None => 0 end in
    _ ← sql (λ d, d
      <| db_workers ::= update_where (λ w, streqb (wk_id w) worker_id) (λ w,
           w <| wk_status := WorkerOffline |> <| wk_disconnected_at := Some now |>
             <| wk_updated_at := Some now |>) |>
      <| db_devices ::= update_where (λ r, streqb (dev_worker_id r) worker_id)
           (set_device_state now "unknown") |>);
    jobs ← select (λ d, jb_id <$> fetchall (λ j, streqb (jb_assigned_worker_id j) worker_id
      && match jb_status j with
         | JobAssigned | JobDispatching | JobRunning | JobStopping => true
         | _ => false
         end) (db_jobs d));
    _ ← for_each jobs (λ job_id,
      parked ← catch_invalid_transition
        (_ ← transition_job_conn now job_id JobWorkerLost "controller-watchdog"
               "Worker heartbeat timed out; waiting for the same Attempt to reconnect"
               "worker heartbeat lost" "" worker_id
               [("session_id", PStr session_id); ("connection_generation", PInt generation)];
         mret true)
        (mret false);
      when parked (sql (λ d, d <| db_leases ::= update_where
        (λ l, streqb (le_job_id l) job_id && lease_is_active l)
        (λ l, l <| le_status := LeaseOrphaned |>) |>)));
    _ ← append_timeline_conn now
      (tl_default "worker.disconnected" "controller-watchdog" "Worker heartbeat timed out"
         <| tl_worker_id := worker_id |> <| tl_level := "warning" |>
         <| tl_payload := [("session_id", PStr session_id); ("connection_generation", PInt generation);
                           ("affected_jobs", PStrs jobs)] |>);
    mret row);
  match w0 with
  | Some w => when (negb (bool_decide (wk_status w = WorkerOffline)))
                (emit_worker_availability w WorkerOffline)
  | None => mret tt
  end.
