(* ===== verification/Reconciliation.v ===== *)
(** Crash reconciliation between the cluster database and the claim registry:
    [features/cluster/repository_reconciliation.py].

    The two databases are never committed together, so a crash between two commits
    leaves ghost claims or unfenced reservations and jobs; [reconcile_claims] repairs
    each source at startup. *)

From S2P Require Import Prelude DeviceClaims JobStateMachine ClusterState ClusterClaims Reservations.

Open Scope Z_scope.

(** ** Definitions *)

(** The repairs the statistics count. *)
Inductive repair :=
  | ReservationClaimReacquired | ReservationClaimReleased
  | JobClaimReleased | JobClaimReacquired | UnfenceableJobFailed.
#[export] Instance repair_eq_dec : EqDecision repair.
Proof. solve_decision. Defined.

(** The counter of one repair in the returned statistics. *)
Definition stat (r : repair) (repairs : list repair) : nat :=
  length (filter (λ x, x = r) repairs).

Definition reservation_key (r : reservation) : string * string * string * reservation_status :=
  (rs_reservation_id r, rs_worker_id r, rs_owner_id r, rs_status r).

Section reconcile.
Context `{U : Uuid}.
(** The repository's [claim_lease_ttl_seconds]. *)
Variable claim_lease_ttl_seconds : Z.

(* src/features/cluster/repository_reconciliation.py:53-79 ClusterReconciliationRepositoryMixin.reconcile_claims *)
Definition reconcile_reservation (now : Z)
    (row : string * string * string * reservation_status) : M world (list repair) :=
  let '(reservation_id, worker_id, owner_id, status) := row in
  let source_id := "reservation:" +:+ reservation_id in
  claims ← claims_op (list_by_source now source_id);
  if bool_decide (status = ResActive) && bool_decide (claims = []) then
    device_ids ← select (λ d, rs_device_id <$> fetchall (reservation_is reservation_id) (db_reservations d));
    requests ← connect_read (claim_devices worker_id device_ids);
    res ← claims_op (acquire now requests owner_id owner_id "cluster-reservation" source_id
                       (6 * 60 * 60) true);
    mret (if (res.1 : bool) then [ReservationClaimReacquired] else [])
  else if negb (bool_decide (status = ResActive)) && bool_decide (claims ≠ []) then
    _ ← claims_op (release now source_id "reconciled" []);
    mret [ReservationClaimReleased]
  else mret [].

(* src/features/cluster/repository_reconciliation.py:84-88 ClusterReconciliationRepositoryMixin.reconcile_claims *)
Definition reconcile_terminal_job (now : Z) (j : job) : M world (list repair) :=
  let source_id := "job:" +:+ jb_id j in
  claims ← claims_op (list_by_source now source_id);
  if bool_decide (claims ≠ []) then
    _ ← claims_op (release now source_id "reconciled" []);
    mret [JobClaimReleased]
  else mret [].

Definition reconcilable (j : job) : bool :=
  match jb_status j with JobAssigned | JobDispatching | JobRunning | JobStopping => true | _ => false end.

(* src/features/cluster/repository_reconciliation.py:98-138 ClusterReconciliationRepositoryMixin.reconcile_claims *)
Definition reconcile_active_job (now : Z) (j : job) : M world (list repair) :=
  let source_id := "job:" +:+ jb_id j in
  claims ← claims_op (list_by_source now source_id);
  if bool_decide (claims ≠ []) then mret []
  else
    device_ids ← select (λ d, dedup (le_device_id <$>
      fetchall (λ l, streqb (le_job_id l) (jb_id j) && lease_is_active l) (db_leases d)));
    match device_ids with
    | [] => mret []
    | first :: _ =>
        requests ← connect_read (claim_devices (before ":" first) device_ids);
        res ← claims_op (acquire now requests (jb_owner_id j) (jb_owner_id j) "cluster-job"
                           source_id claim_lease_ttl_seconds true);
        if (res.1 : bool) then mret [JobClaimReacquired]
        else
          _ ← sql (λ d, d <| db_jobs ::= update_where
                (λ r, streqb (jb_id r) (jb_id j) && reconcilable r)
                (λ r, r <| jb_status := JobFailed |>
                        <| jb_error := "device fencing lost during a crash and could not be reacquired (reconciliation)" |>
                        <| jb_finished_at := Some now |> <| jb_updated_at := Some now |>) |>);
          mret [UnfenceableJobFailed]
    end.

(* src/features/cluster/repository_reconciliation.py:20-139 ClusterReconciliationRepositoryMixin.reconcile_claims *)
Definition reconcile_claims (now : Z) : M world (list repair) :=
  transaction (
    _ ← expire_device_reservations now;
    reservation_rows ← select (λ d, dedup (reservation_key <$> db_reservations d));
    r1 ← forM reservation_rows (reconcile_reservation now);
    terminal_jobs ← select (λ d, fetchall (λ j, is_terminal (jb_status j)) (db_jobs d));
    r2 ← forM terminal_jobs (reconcile_terminal_job now);
    active_jobs ← select (λ d, fetchall reconcilable (db_jobs d));
    r3 ← forM active_jobs (reconcile_active_job now);
    mret (mjoin r1 ++ mjoin r2 ++ mjoin r3)).
End reconcile.
