(* ===== verification/JobRequests.v ===== *)
(** Submission receipts and the replay of a submission:
    [features/cluster/job_requests.py].  The cross-process file lock around a submission
    ([job_request_guard]) is not part of the model. *)

From S2P Require Import Prelude DeviceClaims JobStateMachine ClusterState ClusterClaims Reservations Jobs Commands.

Open Scope Z_scope.

(** ** Definitions *)

(* src/features/cluster/job_requests.py:50-63 ClusterJobRequestRepositoryMixin.find_job_request *)
Definition find_job_request (owner_id key fingerprint : string) : M world (option job_view) :=
  receipt ← connect_read (λ d, fetchone (λ r, streqb (jr_owner_id r) owner_id
                                              && streqb (jr_request_key r) key) (db_job_requests d));
  match receipt with
  | None => mret None
  | Some r =>
      _ ← require (streqb (jr_request_hash r) fingerprint)
            (ApiError "STATE_CONFLICT" "Idempotency-Key was already used with a different job request");
      job ← get_job (jr_job_id r);
      match job with
      | None => raise (ApiError "STATE_CONFLICT" "The job created by this Idempotency-Key has been deleted")
      | Some v => mret (Some v)
      end
  end.

(** The generation of the active lease of a device in the submission's view of the job. *)
Definition lease_generation (v : job_view) (key : string) : option Z :=
  le_generation <$> last (fetchall (λ l, lease_is_active l && streqb (le_device_id l) key) (jv_leases v)).

(** A device the job still fences: its claim is the job's, at the lease's generation. *)
Definition claim_matches (v : job_view) (key : string) (c : option claim) : bool :=
  match c with
  | None => false
  | Some c =>
      source_is ("job:" +:+ jb_id (jv_job v)) c && owner_is (jb_owner_id (jv_job v)) c
      && match lease_generation v key with
         | Some g => Z.eqb (cl_generation c) g
         | None => true
         end
  end.

(** The loop over the claimed devices stops at the first that is not fenced. *)
Fixpoint all_fenced (now : Z) (v : job_view) (keys : list string) : M world bool :=
  match keys with
  | [] => mret true
  | key :: rest =>
      c ← claims_op (active_claim now key);
      if claim_matches v key c then all_fenced now v rest else mret false
  end.

Definition requested_keys (v : job_view) : list string :=
  qualify (jb_assigned_worker_id (jv_job v))
    <$> filter (λ s, s ≠ "") (strip <$> jd_devices (jb_request (jv_job v))).

Section replay.
Context `{U : Uuid}.

(** Finishing the original submission of a job that was never dispatched. *)
(* src/features/cluster/job_requests.py:120-140 ClusterJobRequestRepositoryMixin.replay_job_command *)
Definition resume_dispatch (now : Z) (v : job_view) (row : option command) : M world (option command) :=
  let j := jv_job v in
  try
    (match row with
     | Some r =>
         c ← get_command (cm_id r);
         match c with
         | None => raise (ValueError "the original start command is missing")
         | Some c =>
             _ ← attach_command_to_job now (jb_id j) c;
             _ ← sync_job_from_command now c;
             mret (Some c)
         end
     | None => dispatch_job_start_command now v (jd_argv (jb_request j))
                 (jd_execution_spec (jb_request j)) (jd_env (jb_request j)) (jd_devices (jb_request j))
     end)
    (λ e,
      compensated ← compensate_failed_dispatch now (jb_id j) (exn_text e) (jb_current_attempt_id j);
      raise (ApiError "DEPENDENCY_UNAVAILABLE"
        (if compensated : bool then "Could not queue the original job"
         else "Original job delivery is unconfirmed; device claims remain held"))).

(** [fuel] bounds the code's recursion on a job that moved meanwhile. *)
(* src/features/cluster/job_requests.py:65-140 ClusterJobRequestRepositoryMixin.replay_job_command *)
Fixpoint replay_job_command (fuel : nat) (now : Z) (v : job_view) : M world (option command) :=
  let j := jv_job v in
  let get (row : option command) : M world (option command) :=
    match row with Some r => get_command (cm_id r) | None => mret None end in
  row ← connect_read (λ d, head (order_by oldest_first
    (fetchall (start_command_of (jb_id j) (jb_current_attempt_id j)) (db_commands d))));
  attempt ← connect_read (get_attempt_row (jb_current_attempt_id j));
  if bool_decide (is_Some row) && negb (bool_decide (jb_status j = JobAssigned)) then get row
  else if negb (bool_decide (jb_status j = JobAssigned) || bool_decide (jb_status j = JobDispatching))
          || match attempt with Some a => negb (Z.eqb (at_attempt_number a) 1) | None => true end
  then get row
  else
    let keys := requested_keys v in
    let leased := bool_decide (keys ≠ []) && forallb (λ k, bool_decide (is_Some (lease_generation v k))) keys in
    requests ← connect_read (claim_devices (jb_assigned_worker_id j) (jd_devices (jb_request j)));
    held ← all_fenced now v (dr_device_key <$> requests);
    if leased && held then resume_dispatch now v row
    else
      compensated ← compensate_failed_dispatch now (jb_id j) "device claim was lost before dispatch"
                      (jb_current_attempt_id j);
      let lost : M world (option command) :=
        raise (ApiError "STATE_CONFLICT" "The original job lost its device claim before dispatch") in
      if compensated : bool then lost
      else
        current ← get_job (jb_id j);
        match current with
        | Some v' =>
            if negb (bool_decide (jb_status (jv_job v') = JobAssigned))
               || negb (streqb (jb_current_attempt_id (jv_job v')) (jb_current_attempt_id j))
            then match fuel with
                 | O => raise (RuntimeError "RecursionError")
                 | S fuel' => replay_job_command fuel' now v'
                 end
            else lost
        | None => lost
        end.
End replay.
