(* ===== verification/OperationClaims.v ===== *)
(** Claims of standalone device operations: [features/cluster/operation_claims.py],
    [claim_release.py] and the fencing check of [device_action_operations.py].

    An operation borrows its owner's reservation claims and acquires the rest; the
    command payload carries the fencing tokens, which the executor revalidates, and an
    administrator can revoke exactly the operation a live claim belongs to. *)

From S2P Require Import Prelude DeviceClaims JobStateMachine ClusterState ClusterClaims Reservations Commands.

Open Scope Z_scope.

(** ** Definitions *)

(** The claim part of an operation's payload. *)
Record claim_payload := ClaimPayload {
  cp_owner_id : string; cp_claim_source_id : string; cp_release_on_terminal : bool;
  cp_lease_tokens : list lease_token;
}.

(** [except ValueError as exc: raise HTTPException(409, str(exc))] *)
Definition conflict_409 {A} (m : M world A) : M world A :=
  try m (λ e, match e with ValueError msg => raise (HTTPException 409 msg) | _ => raise e end).

(** A claim the owner may lend to an operation. *)
Definition borrowable (c : claim) : bool :=
  streqb (cl_source_type c) "cluster-reservation" || startswith "reservation:" (cl_source_id c).

Section operations.
Context `{U : Uuid}.

(* src/features/cluster/operation_claims.py:8-45 device_action_claim_payload *)
Definition device_action_claim_payload (now : Z) (worker_id : string) (device_ids : list string)
    (operation_id owner_id username : string) : M world claim_payload :=
  let source_id := "operation:" +:+ operation_id in
  owned ← claims_op (list_active now "" owner_id);
  let lookup key := last (fetchall (λ c, borrowable c && key_is key c) owned) in
  let borrowed := omap lookup device_ids in
  let missing := filter (λ key, lookup key = None) device_ids in
  acquired ← (if bool_decide (missing = []) then mret []
              else conflict_409 (acquire_device_operation_claim now worker_id missing owner_id
                     "cluster-device-action" source_id 3600 username));
  mret (ClaimPayload owner_id source_id (bool_decide (missing ≠ []))
          (claim_fencing_tokens (borrowed ++ acquired) operation_id (Some device_ids))).

(* src/features/cluster/operation_claims.py:48-93 operation_claim_payload *)
Definition operation_claim_payload (now : Z) (worker_id device_id operation_id owner_id
    reservation_id username : string) : M world claim_payload :=
  if nonempty reservation_id then
    res ← get_reservation reservation_id;
    match res with
    | None => raise (HTTPException 409 "device reservation is missing or expired")
    | Some rv =>
        _ ← require (bool_decide (rv_status rv = ResActive))
              (HTTPException 409 "device reservation is missing or expired");
        _ ← require (streqb (rv_owner_id rv) owner_id)
              (HTTPException 404 "device reservation not found");
        c ← claims_op (active_claim now device_id);
        let expected_source := "reservation:" +:+ reservation_id in
        match c with
        | Some c =>
            _ ← require (source_is expected_source c)
                  (HTTPException 409 "device reservation claim is missing or expired");
            mret (ClaimPayload owner_id expected_source false
                    (claim_fencing_tokens [c] operation_id (Some [device_id])))
        | None => raise (HTTPException 409 "device reservation claim is missing or expired")
        end
    end
  else
    let claim_source := "operation:" +:+ operation_id in
    records ← conflict_409 (acquire_device_operation_claim now worker_id [device_id] owner_id
                "cluster-firmware" claim_source (6 * 60 * 60) username);
    mret (ClaimPayload owner_id claim_source true
            (claim_fencing_tokens records operation_id (Some [device_id]))).
End operations.

(** A token names the claim it was issued for. *)
Definition token_of (device_key : string) (c : claim) (t : lease_token) : bool :=
  streqb (tok_device_id t) device_key && streqb (tok_lease_id t) (cl_id c)
  && Z.eqb (tok_generation t) (cl_generation c).

(** The closure [validate_claims], run before every physical input. *)
(* src/features/cluster/device_action_operations.py:29-43 fenced_local_payload *)
Definition fenced_local_payload (now : Z) (p : payload) : M world unit :=
  _ ← require (bool_decide (pl_lease_tokens p ≠ []))
        (RuntimeError "AOA requires an active device claim");
  for_each (pl_lease_tokens p) (λ t,
    current ← claims_op (active_claim now (tok_device_id t));
    require (match current with
             | Some c => streqb (cl_id c) (tok_lease_id t) && Z.eqb (cl_generation c) (tok_generation t)
             | None => false
             end)
      (RuntimeError "device claim changed during AOA; reconcile required")).

(** The command is the unattached device action whose payload holds this claim. *)
(* src/features/cluster/claim_release.py:22-31 force_release_local_aoa_operation *)
Definition operation_matches (device_key source : string) (c : claim) (cmd : command) : bool :=
  streqb (cm_command_type cmd) "device_action" && negb (nonempty (cm_job_id cmd))
  && bool_decide (pl_claim_source_id (cm_payload cmd) = Some source)
  && pl_release_claim_on_terminal (cm_payload cmd)
  && existsb (token_of device_key c) (pl_lease_tokens (cm_payload cmd)).

(** Cancelling the open command before its fence is revoked. *)
(* src/features/cluster/claim_release.py:41-53 force_release_local_aoa_operation *)
Definition cancel_operation (now : Z) (cmd : command) : M world unit :=
  let p := cm_payload cmd <| pl_aoa_control_action := Some "cancel" |>
                          <| pl_aoa_control_revision ::= Z.succ |> in
  transaction (sql (λ d, d <| db_commands ::= update_where
    (λ c, command_is (cm_id cmd) c && cmd_is_open (cm_status c))
    (λ c, c <| cm_status := CmdCancelled |> <| cm_payload := p |>
            <| cm_result := CommandResult "" [("success", "false"); ("forced_release", "true");
                                              ("reconcile_required", "true")] |>
            <| cm_error := "管理员强制终止 AOA 回放；请核对设备当前页面后再操作" |>
            <| cm_updated_at := Some now |> <| cm_acknowledged_at := Some now |>) |>)).

(* src/features/cluster/claim_release.py:8-59 force_release_local_aoa_operation *)
Definition force_release_local_aoa_operation (now : Z) (device_key local_worker_id : string)
    : M world (bool * string) :=
  c ← claims_op (active_claim now device_key);
  match c with
  | None => mret (true, "设备未被占用")
  | Some c =>
      let source := cl_source_id c in
      if negb (worker_is local_worker_id c) || negb (streqb (cl_source_type c) "cluster-device-action")
         || negb (startswith "operation:" source)
      then mret (false, "该占用不是本机独立回放，请先结束对应任务或预约")
      else
        found ← get_command_by_operation local_worker_id (removeprefix "operation:" source);
        let unmatched : M world (bool * string) :=
          mret (false, "无法确认占用对应的独立操作，请先结束原操作后重试") in
        match found with
        | None => unmatched
        | Some cmd =>
            if negb (operation_matches device_key source c cmd) then unmatched
            else
              let revoke : M world (bool * string) :=
                released ← claims_op (release_operation_if_current now device_key (cl_id c)
                                        (cl_generation c) source);
                if negb released then mret (false, "设备占用已变化，请刷新后重试")
                else mret (true, "原回放占用及 USB 端口锁已释放；请核对设备当前页面后再操作") in
              if cmd_is_terminal (cm_status cmd) then revoke
              else if negb (cmd_is_open (cm_status cmd))
                      || negb (bool_decide (cm_delivered_at cmd = None))
                      || negb (bool_decide (cm_acknowledged_at cmd = None))
              then mret (false, "该回放由 Worker 执行，请先通过回放停止按钮结束操作")
              else if negb (bool_decide (pl_action (cm_payload cmd) = Some "aoa_sequence"))
                      || negb (Nat.eqb (length (pl_devices (cm_payload cmd))) 1)
              then mret (false, "设备仍在执行其他操作，请等待该操作结束")
              else
                _ ← cancel_operation now cmd;
                revoke
        end
  end.
