(* ===== verification/Transfers.v ===== *)
(** File-transfer records: [features/cluster/repository_transfers.py].  The bytes travel
    elsewhere; the repository keeps one row per transfer. *)

From S2P Require Import Prelude DeviceClaims JobStateMachine ClusterState.

Open Scope Z_scope.

(** ** Definitions *)

(** The assignments [update_transfer] takes; any other keyword is ignored. *)
(* src/features/cluster/repository_transfers.py:57-68 ClusterTransferRepositoryMixin.update_transfer *)
Inductive transfer_field :=
  | TfStatus (s : string) | TfFilename (s : string) | TfRelativePath (s : string)
  | TfSizeBytes (n : Z) | TfSha256 (s : string) | TfError (s : string)
  | TfCompletedAt (s : string) | TfOwnerId (s : string) | TfMetadata (s : string)
  | TfOther (key : string).

Definition allowed_field (f : transfer_field) : bool :=
  match f with TfOther _ => false | _ => true end.
Definition assign (r : transfer_row) (f : transfer_field) : transfer_row :=
  match f with
  | TfStatus s => r <| tr_status := s |>
  | TfFilename s => r <| tr_filename := s |>
  | TfRelativePath s => r <| tr_relative_path := s |>
  | TfSizeBytes n => r <| tr_size_bytes := n |>
  | TfSha256 s => r <| tr_sha256 := s |>
  | TfError s => r <| tr_error := s |>
  | TfCompletedAt s => r <| tr_completed_at := s |>
  | TfOwnerId s => r <| tr_owner_id := s |>
  | TfMetadata s => r <| tr_metadata := s |>
  | TfOther _ => r
  end.

(* src/features/cluster/repository_transfers.py:38-50 ClusterTransferRepositoryMixin.get_transfer *)
Definition get_transfer (transfer_id : string) : M world (option transfer_row) :=
  connect_read (λ d, fetchone (λ r, streqb (tr_id r) transfer_id) (db_transfers d)).

(* src/features/cluster/repository_transfers.py:16-36 ClusterTransferRepositoryMixin.create_transfer *)
Definition create_transfer `{Uuid} (now : Z) (worker_id transfer_type owner_id metadata : string)
    : M world (option transfer_row) :=
  hex ← uuid4_hex;
  let transfer_id := "transfer-" +:+ hex in
  _ ← transaction (
    _ ← constraint (λ d, negb (exists_row (λ r, streqb (tr_id r) transfer_id) (db_transfers d)))
          "cluster_transfers.id";
    sql (λ d, d <| db_transfers ::= λ t, t ++
      [TransferRow transfer_id worker_id transfer_type owner_id metadata "created" "" "" 0 "" ""
         (Some now) (Some now) ""] |>));
  get_transfer transfer_id.

(* src/features/cluster/repository_transfers.py:52-76 ClusterTransferRepositoryMixin.update_transfer *)
Definition update_transfer (now : Z) (transfer_id : string) (values : list transfer_field)
    : M world (option transfer_row) :=
  let fields := fetchall allowed_field values in
  _ ← when (bool_decide (fields ≠ []))
        (transaction (sql (λ d, d <| db_transfers ::= update_where (λ r, streqb (tr_id r) transfer_id)
           (λ r, foldl assign r fields <| tr_updated_at := Some now |>) |>)));
  get_transfer transfer_id.
