(* ===== verification/Controller.v ===== *)
(** The controller as a transition system: every operation of the cluster repository
    that changes state, at any clock reading and in any order.

    All handlers run under the repository's lock and each database transaction is
    atomic, so a history of the controller is a sequence of these steps. *)

From S2P Require Import Prelude DeviceClaims JobStateMachine ClusterState Admission ClusterClaims.
From S2P Require Import Reservations Jobs Commands Inventory Reconciliation JobRequests.
From S2P Require Import OperationClaims Transfers.

Open Scope Z_scope.

(** The deployment's settings the handlers read. *)
Record settings := Settings {
  st_min_disk_free_gb : Q; st_min_memory_available_gb : Q;
  st_claim_lease_ttl_seconds : Z; st_default_max_jobs : Z;
}.

Inductive cluster_op :=
  | CTransitionJob (job_id : string) (to_status : job_status)
      (source message error operation_id worker_id : string) (pl : list (string * pval))
  | CFailAbandoned (min_age_seconds : Z)
  | COwnedReservationIds (owner_id : string)
  | CReserve (worker_id : string) (devices : list string) (owner_id source_id : string)
      (ttl_seconds : Z) (username : string)
  | CReservationBySource (source_id : string)
  | CRenewReservation (reservation_id : string) (ttl_seconds : Z)
  | CReleaseReservation (reservation_id status : string)
  | CDeleteJob (job_id : string)
  | CCreateJob (data : job_data)
  | CAddEvents (job_id attempt_id : string) (events : list event_in)
  | CRecordArtifact (job_id attempt_id worker_id filename relative_path artifact_type : string)
      (size_bytes : Z) (sha256 : string)
  | CCreateCommand (data : command_in) (attach_to_job : bool)
  | CDispatch (v : job_view) (argv : list string) (execution_spec : option string)
      (env : list (string * string)) (devices : list string)
  | CCompensate (job_id exc attempt_id : string)
  | CAttach (job_id : string) (c : command)
  | CEnqueueDebug (command_id owner_id request_id text : string)
  | CReadDebug (command_id : string) (cursor : Z) (close : bool)
  | CPlayback (worker_id control_id owner_id action : string)
  | CFailStale (max_age_seconds : Z)
  | CStartLocal (command_id : string)
  | CAppendEvents (worker_id command_id : string) (events : list event_in)
  | CPoll (worker_id : string) (n redelivery_seconds : Z)
  | CAck (worker_id command_id : string) (status : command_status) (result : command_result)
      (error : string)
  | CClaimNotification (command_id : string)
  | CSync (c : command)
  | CCompact (command_id : string) (result : command_result)
  | CPrune (retention_hours n : Z)
  | CRegister (data : registration)
  | CDeleteWorker (worker_id : string)
  | CHeartbeat (worker_id : string) (data : heartbeat_in)
  | CRefreshDevices (worker_id : string) (devices : list device_in)
  | CMarkOffline (worker_id : string)
  | CReplaceSuites (worker_id : string) (suites : list suite_in)
  | CListDevices (worker_id : string)
  | CSeenDevice (worker_id serial : string)
  | CReconcile
  | CReplay (fuel : nat) (v : job_view)
  | CDeviceActionClaim (worker_id : string) (device_ids : list string)
      (operation_id owner_id username : string)
  | COperationClaim (worker_id device_id operation_id owner_id reservation_id username : string)
  | CFencedPayload (p : payload)
  | CForceRelease (device_key local_worker_id : string)
  | CCreateTransfer (worker_id transfer_type owner_id metadata : string)
  | CUpdateTransfer (transfer_id : string) (values : list transfer_field)
  | CClaims (o : op).

Section controller.
Context `{U : Uuid}.
Variable cfg : settings.
Let ttl := st_claim_lease_ttl_seconds cfg.

(** The handler of an operation, its answer dropped. *)
Definition handler (now : Z) (o : cluster_op) : M world unit :=
  let ignore {A} (m : M world A) : M world unit := _ ← m; mret tt in
  match o with
  | CTransitionJob i s so m e oi w pl => ignore (transition_job now i s so m e oi w pl)
  | CFailAbandoned s => ignore (fail_abandoned_worker_lost_jobs now s)
  | COwnedReservationIds ow => ignore (owned_reservation_device_ids now ow)
  | CReserve w ds ow so t us => ignore (reserve_devices now w ds ow so t us)
  | CReservationBySource so => ignore (get_reservation_by_source now so)
  | CRenewReservation i t => ignore (renew_reservation now i t)
  | CReleaseReservation i s => ignore (release_reservation now i s)
  | CDeleteJob i => ignore (delete_job i)
  | CCreateJob data => ignore (create_job_with_leases (st_min_disk_free_gb cfg)
                                 (st_min_memory_available_gb cfg) ttl now data)
  | CAddEvents i a es => ignore (add_events now i a es)
  | CRecordArtifact i a w f r t n s => ignore (record_artifact now i a w f r t n s)
  | CCreateCommand data at_ => ignore (create_command now data at_)
  | CDispatch v argv es env ds => ignore (dispatch_job_start_command now v argv es env ds)
  | CCompensate i e a => ignore (compensate_failed_dispatch now i e a)
  | CAttach i c => ignore (attach_command_to_job now i c)
  | CEnqueueDebug i ow r t => ignore (enqueue_aoa_debug_command now i ow r t)
  | CReadDebug i cur cl => ignore (read_aoa_debug_command i cur cl)
  | CPlayback w c ow a => ignore (request_aoa_playback_control now w c ow a)
  | CFailStale s => ignore (fail_stale_local_device_actions now s)
  | CStartLocal i => ignore (start_local_command now i)
  | CAppendEvents w i es => ignore (append_command_events now w i es)
  | CPoll w n r => ignore (poll_commands now w n r)
  | CAck w i s r e => ignore (ack_command now w i s r e)
  | CClaimNotification i => ignore (claim_terminal_notification now i)
  | CSync c => ignore (sync_job_from_command now c)
  | CCompact i r => ignore (compact_command_result now i r)
  | CPrune h n => ignore (prune_terminal_command_events now h n)
  | CRegister data => ignore (register_worker (st_default_max_jobs cfg) now data)
  | CDeleteWorker w => ignore (delete_worker w)
  | CHeartbeat w data => ignore (heartbeat ttl now w data)
  | CRefreshDevices w ds => ignore (refresh_worker_devices now w ds)
  | CMarkOffline w => ignore (mark_worker_offline now w)
  | CReplaceSuites w ss => ignore (replace_worker_suites now w ss)
  | CListDevices w => ignore (list_devices now w)
  | CSeenDevice w s => ignore (upsert_seen_device now w s)
  | CReconcile => ignore (reconcile_claims ttl now)
  | CReplay fuel v => ignore (replay_job_command fuel now v)
  | CDeviceActionClaim w ds oi ow us => ignore (device_action_claim_payload now w ds oi ow us)
  | COperationClaim w d oi ow r us => ignore (operation_claim_payload now w d oi ow r us)
  | CFencedPayload p => ignore (fenced_local_payload now p)
  | CForceRelease k w => ignore (force_release_local_aoa_operation now k w)
  | CCreateTransfer w t ow m => ignore (create_transfer now w t ow m)
  | CUpdateTransfer i vs => ignore (update_transfer now i vs)
  | CClaims o => claims_op (λ r, (Ok tt, step now o r))
  end.

Definition cluster_step (now : Z) (o : cluster_op) (w : world) : world := exec (handler now o) w.
Definition cluster_run (tr : list (Z * cluster_op)) (w : world) : world :=
  foldl (λ w '(now, o), cluster_step now o w) w tr.
End controller.

(** The store of a fresh installation. *)
Definition empty_db : db :=
  Db [] [] [] [] [] [] [] [] [] [] [] [] [] [] [] [] [] 0 0 0 0.
Definition empty_world : world := World empty_db empty_db empty_registry 0 [].

(** ** A small deployment, to evaluate the handlers on *)

Definition sample_settings : settings := Settings 50 8 90 6.
(** Worker [w] with the device [d1], and two more devices behind it. *)
Definition sample_devices : list device_in :=
  [DeviceIn "d1" "local_usb" "available" ∅; DeviceIn "d2" "local_usb" "available" ∅].
Definition sample_heartbeat (running : list running_job) (session : string) : heartbeat_in :=
  HeartbeatIn "1.0" 0 0 0 64 0 100 200 running sample_devices None session 1.
Definition sample_registration : registration := Registration "w" "rack" "host" "10.0.0.2" "1.0" [] None "s".
Definition sample_job_data : job_data :=
  JobData "w" ["d1"] "alice" "Alice" "" "" "" "manual" "cts" "/suites/cts" 100 0 false
    ["run"; "cts"] None [] "key-1" "hash-1".
Definition sample_setup : list (Z * cluster_op) :=
  [(100, CRegister sample_registration); (101, CHeartbeat "w" (sample_heartbeat [] "s"));
   (102, CCreateJob sample_job_data)].
Definition sample_world : world :=
  cluster_run (U := counting_uuid) sample_settings sample_setup empty_world.

(** The start command of alice's job, and a device action of hers that takes debug input. *)
Definition sample_start : command_in :=
  CommandIn "w" "start_test" "job-0" "attempt-1" "attempt-1:start_test" "" empty_payload CmdQueued.
Definition sample_action (digest : string) : command_in :=
  CommandIn "w" "device_action" "" "" "op-1" ""
    (empty_payload <| pl_owner_id := Some "alice" |> <| pl_request_sha256 := Some digest |>
       <| pl_aoa_debug_session_id := Some "dbg" |>) CmdAccepted.
(** The start command is delivered and the worker runs it; it is [cmd-4]. *)
Definition sample_delivery : list (Z * cluster_op) :=
  [(103, CCreateCommand sample_start true); (104, CPoll "w" 10 30)].
Definition sample_delivered : world :=
  cluster_run (U := counting_uuid) sample_settings sample_delivery sample_world.
Definition no_result : command_result := CommandResult "" [].
