(* ===== verification/Steps.v ===== *)
(** How properties of the store are lifted over the controller's operations.

    A [StoreRel] relates the store before and after; inside a transaction it is kept
    together with the committed database ([txn_rel]), and a transaction that starts from
    a settled store (nothing uncommitted) ends in a settled store whether it commits or
    rolls back ([top_rel]).  [walk] follows the code of a handler and leaves its
    statements. *)

From S2P Require Import Prelude DeviceClaims JobStateMachine ClusterState.

(** ** Definitions *)

(** Nothing is uncommitted. *)
Definition settled (w : world) : Prop := w_committed w = w_db w.

(** A relation of stores that does not look at the committed database, and holds again
    when only the database is put back. *)
Class StoreRel (R : relation world) := {
  sr_preorder :: PreOrder R;
  sr_commit w w' d : R w w' → R w (w' <| w_committed := d |>);
  sr_rollback w w' : R w w' → R w (w' <| w_db := w_db w |>);
  sr_events w f : R w (w <| w_events ::= f |>);
}.

Definition txn_rel (R : relation world) : relation world := λ w w',
  R w w' ∧ w_committed w' = w_committed w.
Definition top_rel (R : relation world) : relation world := λ w w',
  settled w → R w w' ∧ settled w'.

(** A relation that reads one part of the database; identifiers are only ever drawn. *)
Definition reads {T} (part : db → T) (Q : relation T) : relation world := λ w w',
  (w_drawn w ≤ w_drawn w')%nat ∧ Q (part (w_db w)) (part (w_db w')).

(** ** Lemmas *)

#[export] Instance txn_rel_preorder R `{!PreOrder R} : PreOrder (txn_rel R).
Proof.
  split.
  - intros w. by split.
  - intros w1 w2 w3 [H1 E1] [H2 E2]. split; [by etrans|congruence].
Qed.
#[export] Instance top_rel_preorder R `{!PreOrder R} : PreOrder (top_rel R).
Proof.
  split.
  - intros w Hs. by split.
  - intros w1 w2 w3 H1 H2 Hs. destruct (H1 Hs) as [? Hs2]. destruct (H2 Hs2). split; [by etrans|done].
Qed.
#[export] Instance reads_store {T} (part : db → T) Q `{!PreOrder Q} : StoreRel (reads part Q).
Proof.
  split; unfold reads; simpl; try done.
  - split.
    + intros w. by simpl.
    + intros w1 w2 w3 [??] [??]. split; [lia|by etrans].
  - intros w w' [??]. by split.
Qed.

Lemma uuid4_hex_run `{Uuid} w : uuid4_hex w = (Ok (uuid_hex (w_drawn w)), w <| w_drawn ::= S |>).
Proof. done. Qed.

Section lift.
Context (R : relation world) `{!StoreRel R}.

Lemma transaction_top {A} (m : M world A) :
  preserves (txn_rel R) m → preserves (top_rel R) (transaction m).
Proof using StoreRel0.
  intros Hm w Hs. destruct (Hm w) as [HR Hc]. unfold transaction.
  destruct (m w) as [[a|e] w']; simpl in *; (split; [|done]).
  - by apply sr_commit.
  - rewrite Hc, Hs. by apply sr_rollback.
Qed.
Lemma emit_top e : preserves (top_rel R) (emit e).
Proof using StoreRel0. intros w Hs. split; [apply sr_events|done]. Qed.
Lemma emit_txn e : preserves (txn_rel R) (emit e).
Proof using StoreRel0. intros w. split; [apply sr_events|done]. Qed.
Lemma claims_op_top {A} (m : M registry A) :
  (∀ w, R w (claims_op m w).2) → preserves (top_rel R) (claims_op m).
Proof.
  intros Hm w Hs. split; [apply Hm|]. unfold claims_op. by destruct (m (w_claims w)).
Qed.
Lemma claims_op_txn {A} (m : M registry A) :
  (∀ w, R w (claims_op m w).2) → preserves (txn_rel R) (claims_op m).
Proof.
  intros Hm w. split; [apply Hm|]. unfold claims_op. by destruct (m (w_claims w)).
Qed.
Lemma sql_txn f : (∀ w, R w (w <| w_db ::= f |>)) → preserves (txn_rel R) (sql f).
Proof. intros Hf w. split; [apply Hf|done]. Qed.
Lemma uuid_txn `{Uuid} : (∀ w, R w (w <| w_drawn ::= S |>)) → preserves (txn_rel R) uuid4_hex.
Proof. intros Hd w. split; [apply Hd|done]. Qed.
Lemma uuid_top `{Uuid} : (∀ w, R w (w <| w_drawn ::= S |>)) → preserves (top_rel R) uuid4_hex.
Proof. intros Hd w Hs. split; [apply Hd|done]. Qed.
End lift.

(** [reads]: statements elsewhere, claim operations and draws do not matter. *)
Section reads.
Context {T} (part : db → T) (Q : relation T) `{!PreOrder Q}.

Lemma reads_sql f : (∀ d, Q (part d) (part (f d))) → preserves (txn_rel (reads part Q)) (sql f).
Proof. intros Hf. apply sql_txn. intros w. split; [done|apply Hf]. Qed.
Lemma reads_sql_frame f : (∀ d, part (f d) = part d) → preserves (txn_rel (reads part Q)) (sql f).
Proof using PreOrder0. intros Hf. apply reads_sql. intros d. by rewrite Hf. Qed.
Lemma reads_claims {A} (m : M registry A) w : reads part Q w (claims_op m w).2.
Proof using PreOrder0. unfold claims_op. destruct (m (w_claims w)). unfold reads. by simpl. Qed.
Lemma reads_draw w : reads part Q w (w <| w_drawn ::= S |>).
Proof using PreOrder0. unfold reads. simpl. split; [lia|done]. Qed.
End reads.

(** Loops over one statement. *)
Lemma for_each_fmap {W A B} (f : A → B) (g : B → M W unit) (l : list A) w :
  for_each l (λ a, g (f a)) w = for_each (f <$> l) g w.
Proof.
  revert w. induction l as [|a l IH]; intros w; [done|]. simpl. unfold mbind, M_bind.
  destruct (g (f a) w) as [[[]|e] w']; [apply IH|done].
Qed.
Lemma for_each_sql {A} (f : A → db → db) l w :
  for_each l (λ a, sql (f a)) w = (Ok tt, w <| w_db ::= λ d, foldl (λ d a, f a d) d l |>).
Proof.
  revert w. induction l as [|a l IH]; intros w; [by destruct w|]. simpl.
  unfold mbind, M_bind. simpl. by rewrite IH.
Qed.

Lemma foldl_frame {A T} (part : db → T) (f : A → db → db) l d :
  (∀ a d, part (f a d) = part d) → part (foldl (λ d a, f a d) d l) = part d.
Proof. intros Hf. revert d. induction l as [|a l IH]; intros d; [done|]. simpl. by rewrite IH. Qed.

(** The outcomes of a transaction. *)
Lemma transaction_Ok {A} (m : M world A) w a w' :
  m w = (Ok a, w') → transaction m w = (Ok a, w' <| w_committed := w_db w' |>).
Proof. intros E. unfold transaction. by rewrite E. Qed.
Lemma transaction_Err {A} (m : M world A) w e w' :
  m w = (Err e, w') → transaction m w = (Err e, w' <| w_db := w_committed w' |>).
Proof. intros E. unfold transaction. by rewrite E. Qed.

Lemma transaction_inv {A} (m : M world A) w a w' :
  transaction m w = (Ok a, w') → ∃ w1, m w = (Ok a, w1) ∧ w' = w1 <| w_committed := w_db w1 |>.
Proof. unfold transaction. destruct (m w) as [[a'|e] w1]; [|done]. intros [= -> <-]. by exists w1. Qed.
Lemma transaction_refused {A} (m : M world A) w e :
  settled w → m w = (Err e, w) → transaction m w = (Err e, w).
Proof. intros Hs E. rewrite (transaction_Err _ _ _ _ E), Hs. by destruct w. Qed.

(** Statements run one after the other. *)
Lemma bind_sql {A} f (k : unit → M world A) w : (sql f ≫= k) w = k tt (w <| w_db ::= f |>).
Proof. done. Qed.
Lemma bind_select {A B} (q : db → A) (k : A → M world B) w : (select q ≫= k) w = k (q (w_db w)) w.
Proof. done. Qed.
Lemma bind_connect_read {A B} (q : db → A) (k : A → M world B) w :
  settled w → (connect_read q ≫= k) w = k (q (w_db w)) w.
Proof. intros Hs. unfold connect_read. by rewrite bind_gets, Hs. Qed.
Lemma bind_for_each_sql {A B} (f : A → db → db) l (k : unit → M world B) w :
  (for_each l (λ a, sql (f a)) ≫= k) w = k tt (w <| w_db ::= λ d, foldl (λ d a, f a d) d l |>).
Proof. apply bind_run, for_each_sql. Qed.

(** Releasing a source ends all its claims and no other. *)
Lemma release_source now src st r :
  parse_release_status st ≠ None →
  ∃ n s, s ≠ ClaimActive ∧ release now src st [] r = (Ok n, r <| rg_claims ::=
    update_where (λ c, source_is src c && is_active c && true) (retire now s) |>).
Proof.
  intros Hst. unfold release. destruct (parse_release_status st) as [s|] eqn:E; [|done].
  eexists _, s. split; [by eapply release_status_inactive|]. reflexivity.
Qed.
Lemma release_claims_op now src st w :
  parse_release_status st ≠ None →
  ∃ n s, s ≠ ClaimActive ∧ claims_op (release now src st []) w = (Ok n, w <| w_claims ::= λ r, r <| rg_claims ::=
    update_where (λ c, source_is src c && is_active c && true) (retire now s) |> |>).
Proof.
  intros Hst. destruct (release_source now src st (w_claims w) Hst) as (n&s&Hs&E).
  exists n, s. split; [done|]. unfold claims_op. by rewrite E.
Qed.
Lemma released_inactive now src s t c :
  s ≠ ClaimActive → c ∈ update_where (λ c, source_is src c && is_active c && true) (retire now s) t →
  cl_source_id c = src → is_active c = false.
Proof.
  intros Hs (c0&Hc0&->)%elem_of_update_where. rewrite andb_true_r. destruct (source_is src c0) eqn:E1; simpl.
  - destruct (is_active c0) eqn:E2; [|done]. intros _. by apply bool_decide_eq_false.
  - intros E. unfold source_is, streqb in E1. by bool_props.
Qed.

(** Follow the handler's code. *)
Ltac walk_step :=
  match goal with
  | |- preserves _ (mbind _ _) => apply preserves_bind; [apply _| |intro]
  | |- preserves _ (mret _) => apply preserves_ret, _
  | |- preserves _ (raise _) => apply preserves_raise, _
  | |- preserves _ (require _ _) => apply preserves_require, _
  | |- preserves _ (select _) => apply preserves_gets, _
  | |- preserves _ (connect_read _) => apply preserves_gets, _
  | |- preserves _ (gets _) => apply preserves_gets, _
  | |- preserves _ (when _ _) => apply preserves_when; [apply _|]
  | |- preserves _ (try _ _) => apply preserves_try; [apply _| |intro]
  | |- preserves _ (for_each _ _) => apply preserves_for_each; [apply _|intro]
  | |- preserves _ (forM _ _) => apply preserves_forM; [apply _|intro]
  | |- preserves _ (catch_invalid_transition _ _) => unfold catch_invalid_transition
  | |- preserves _ (constraint _ _) => unfold constraint
  | |- preserves _ (transaction _) => apply transaction_top; [apply _|]
  | |- preserves _ (emit _) => first [apply emit_top, _ | apply emit_txn, _]
  | |- preserves _ (match ?x with _ => _ end) => destruct x
  end.
Ltac walk := repeat (cbv zeta; walk_step).
