(* ===== verification/JobInvariants.v ===== *)
(** Every handler of the controller moves jobs along the state machine.

    [jobs_advance] relates the job table before and after a handler; the lemmas below
    establish it handler by handler, through the statements each executes. *)

From S2P Require Import Prelude DeviceClaims JobStateMachine ClusterState Admission ClusterClaims.
From S2P Require Import Reservations Jobs Commands Inventory Reconciliation JobRequests.
From S2P Require Import OperationClaims Transfers Controller Steps.

(** ** Definitions *)

(** [j'] is a later state of the job [j]. *)
Record continues (j j' : job) : Prop := {
  ct_id : jb_id j' = jb_id j;
  ct_owner : jb_owner_id j' = jb_owner_id j;
  ct_worker : jb_assigned_worker_id j' = jb_assigned_worker_id j;
  ct_attempt : jb_current_attempt_id j' = jb_current_attempt_id j;
  ct_request : jb_request j' = jb_request j;
  ct_steps : job_steps (jb_status j) (jb_status j');
  ct_version : (jb_state_version j ≤ jb_state_version j')%Z;
}.

(** Identifiers stay unique, every row continues an old row or is a job created
    meanwhile, under an identifier of [P]. *)
Definition jobs_advance (P : string → Prop) (l l' : list job) : Prop :=
  unique_index (λ _, true) jb_id l →
  unique_index (λ _, true) jb_id l' ∧
  ∀ j', j' ∈ l' → (∃ j, j ∈ l ∧ continues j j') ∨
                  (P (jb_id j') ∧ job_steps JobAssigned (jb_status j')).

Definition jobs_rel (P : string → Prop) : relation world := reads db_jobs (jobs_advance P).

(** ** Lemmas *)

#[export] Instance continues_preorder : PreOrder continues.
Proof.
  split.
  - intros j. split; done.
  - intros j1 j2 j3 [] []. split; try congruence; [by etrans|lia].
Qed.
#[export] Instance jobs_advance_preorder P : PreOrder (jobs_advance P).
Proof.
  split.
  - intros l Hu. split; [done|]. intros j Hj. left. by exists j.
  - intros l1 l2 l3 H1 H2 Hu. destruct (H1 Hu) as [Hu2 A1]. destruct (H2 Hu2) as [Hu3 A2].
    split; [done|]. intros j3 Hj3. destruct (A2 j3 Hj3) as [(j2&Hj2&C2)|]; [|by right].
    destruct (A1 j2 Hj2) as [(j1&Hj1&C1)|[HP Hs]].
    + left. exists j1. split; [done|by etrans].
    + right. rewrite (ct_id _ _ C2). split; [done|]. etrans; [done|apply C2].
Qed.

#[export] Instance jobs_rel_store P : StoreRel (jobs_rel P) := reads_store _ _.

Section jobs.
Context (P : string → Prop).

(** The two shapes of statement on the job table. *)
Lemma jobs_update p f l :
  (∀ j, j ∈ l → p j = true → continues j (f j)) → jobs_advance P l (update_where p f l).
Proof.
  intros Hf Hu. split.
  - apply unique_index_update; [done|done|]. intros j Hj Hp. apply (Hf j Hj Hp).
  - intros j' (j&Hj&->)%elem_of_update_where. left. exists j. split; [done|].
    destruct (p j) eqn:E; [by apply Hf|done].
Qed.
Lemma jobs_delete p l : jobs_advance P l (delete_where p l).
Proof.
  intros Hu. split; [by apply unique_index_delete|].
  intros j' [Hj _]%elem_of_delete_where. left. by exists j'.
Qed.

Lemma jobs_sql_other f : (∀ d, db_jobs (f d) = db_jobs d) → preserves (txn_rel (jobs_rel P)) (sql f).
Proof. apply reads_sql_frame, _. Qed.
Lemma jobs_claims {A} (m : M registry A) : preserves (txn_rel (jobs_rel P)) (claims_op m).
Proof. apply claims_op_txn. intros w. apply reads_claims, _. Qed.
Lemma jobs_claims_top {A} (m : M registry A) : preserves (top_rel (jobs_rel P)) (claims_op m).
Proof. apply claims_op_top. intros w. apply reads_claims, _. Qed.
Lemma jobs_uuid `{Uuid} : preserves (txn_rel (jobs_rel P)) uuid4_hex.
Proof. apply uuid_txn. intros w. apply reads_draw, _. Qed.
Lemma jobs_uuid_top `{Uuid} : preserves (top_rel (jobs_rel P)) uuid4_hex.
Proof. apply uuid_top. intros w. apply reads_draw, _. Qed.
Lemma jobs_timeline now e : preserves (txn_rel (jobs_rel P)) (append_timeline_conn now e).
Proof. by apply jobs_sql_other. Qed.

End jobs.

(** Walk the handler; statements on other tables are done. *)
Ltac jobs_leaf :=
  lazymatch goal with
  | |- preserves (txn_rel _) (claims_op _) => apply jobs_claims
  | |- preserves (top_rel _) (claims_op _) => apply jobs_claims_top
  | |- preserves (txn_rel _) uuid4_hex => apply jobs_uuid
  | |- preserves (top_rel _) uuid4_hex => apply jobs_uuid_top
  | |- preserves _ (append_timeline_conn _ _) => apply jobs_timeline
  | |- preserves _ (sql (λ d, @upd _ _ db_jobs _ (@?f d) d)) => fail
  | |- preserves _ (sql _) => apply jobs_sql_other; intros ?; reflexivity
  | |- preserves _ _ => solve [eauto with gms]
  end.
Ltac jobs_walk := repeat first [walk_step | progress cbv zeta | jobs_leaf].

Section handlers.
Context (P : string → Prop).

Lemma transition_job_conn_jobs now job_id st so msg er op wid pl :
  preserves (txn_rel (jobs_rel P)) (transition_job_conn now job_id st so msg er op wid pl).
Proof.
  intros w. unfold transition_job_conn, select. monad.
  destruct (get_job_row job_id (w_db w)) as [j|] eqn:Ej; [|reflexivity].
  destruct (decide (jb_status j = st)) as [|Hne]; [reflexivity|].
  destruct (validate_job_transition (jb_status j) st) as [[]|e] eqn:Ev; [|reflexivity].
  apply fetchone_Some in Ej as [Hj Hid]. unfold streqb in Hid. bool_props.
  assert (Hs : job_step (jb_status j) st) by (by apply validate_job_transition_Ok in Ev as [|]).
  simpl. set (hit := λ j', _ && _). set (w1 := w <| w_db ::= _ |>).
  assert (txn_rel (jobs_rel P) w w1) as H1.
  { split; [split; [done|]|done]. intros Hu. apply jobs_update; [|done].
    intros j' Hj' Hit. unfold hit, streqb in Hit. bool_props.
    assert (j' = j) as -> by (eapply (unique_index_inj _ _ _ j' j Hu); done || congruence).
    split; try done; simpl; [by apply rtc_once|lia]. }
  destruct (negb _); [done|]. etrans; [exact H1|]. simpl. split; [|done].
  unfold jobs_rel, reads. simpl. by split.
Qed.
#[local] Hint Resolve transition_job_conn_jobs : gms.

(** *** Observability and reservations *)

Lemma transition_job_jobs now i st so msg er op wid pl :
  preserves (top_rel (jobs_rel P)) (transition_job now i st so msg er op wid pl).
Proof. unfold transition_job. jobs_walk. Qed.
Lemma fail_abandoned_job_jobs now j : preserves (txn_rel (jobs_rel P)) (fail_abandoned_job now j).
Proof. unfold fail_abandoned_job. jobs_walk. Qed.
#[local] Hint Resolve fail_abandoned_job_jobs : gms.
Lemma fail_abandoned_jobs now s : preserves (top_rel (jobs_rel P)) (fail_abandoned_worker_lost_jobs now s).
Proof. unfold fail_abandoned_worker_lost_jobs. jobs_walk. Qed.
Lemma expire_reservations_jobs now : preserves (txn_rel (jobs_rel P)) (expire_device_reservations now).
Proof. unfold expire_device_reservations. jobs_walk. Qed.
#[local] Hint Resolve expire_reservations_jobs : gms.
Lemma owned_ids_jobs now o : preserves (top_rel (jobs_rel P)) (owned_reservation_device_ids now o).
Proof. unfold owned_reservation_device_ids. jobs_walk. Qed.
Lemma reservation_by_source_jobs now i : preserves (top_rel (jobs_rel P)) (get_reservation_by_source now i).
Proof. unfold get_reservation_by_source. jobs_walk. Qed.
Lemma reserve_devices_jobs `{Uuid} now w ds ow so ttl us :
  preserves (top_rel (jobs_rel P)) (reserve_devices now w ds ow so ttl us).
Proof.
  unfold reserve_devices, reserve_new, renew_same_reservation, insert_reservation,
    reservable_device, refuse_claim. jobs_walk.
Qed.
Lemma renew_reservation_jobs `{Uuid} now i ttl :
  preserves (top_rel (jobs_rel P)) (renew_reservation now i ttl).
Proof. unfold renew_reservation. jobs_walk. Qed.
Lemma release_reservation_jobs now i st : preserves (top_rel (jobs_rel P)) (release_reservation now i st).
Proof. unfold release_reservation. jobs_walk. Qed.

(** *** Jobs and commands *)

Lemma delete_job_jobs i : preserves (top_rel (jobs_rel P)) (delete_job i).
Proof. unfold delete_job. jobs_walk. apply reads_sql. intros d. apply jobs_delete. Qed.
Lemma attach_conn_jobs now i c b : preserves (txn_rel (jobs_rel P)) (attach_command_to_job_conn now i c b).
Proof. unfold attach_command_to_job_conn. jobs_walk. Qed.
#[local] Hint Resolve attach_conn_jobs : gms.
Lemma create_command_jobs `{Uuid} now x b : preserves (top_rel (jobs_rel P)) (create_command now x b).
Proof.
  unfold create_command, create_new_command, insert_command, require_same_request, get_command. jobs_walk.
Qed.
Lemma dispatch_jobs `{Uuid} now v argv es env ds :
  preserves (top_rel (jobs_rel P)) (dispatch_job_start_command now v argv es env ds).
Proof. apply create_command_jobs. Qed.
Lemma compensate_conn_jobs now i e a :
  preserves (txn_rel (jobs_rel P)) (compensate_dispatch_conn now i e a).
Proof. unfold compensate_dispatch_conn. jobs_walk. Qed.
#[local] Hint Resolve compensate_conn_jobs : gms.
Lemma compensate_jobs now i e a : preserves (top_rel (jobs_rel P)) (compensate_failed_dispatch now i e a).
Proof. unfold compensate_failed_dispatch. jobs_walk. Qed.
Lemma sync_conn_jobs now c js ats : preserves (txn_rel (jobs_rel P)) (sync_job_conn now c js ats).
Proof. unfold sync_job_conn. jobs_walk. Qed.
#[local] Hint Resolve sync_conn_jobs : gms.
Lemma sync_jobs now c : preserves (top_rel (jobs_rel P)) (sync_job_from_command now c).
Proof. unfold sync_job_from_command. jobs_walk. Qed.
Lemma attach_jobs now i c : preserves (top_rel (jobs_rel P)) (attach_command_to_job now i c).
Proof. unfold attach_command_to_job. jobs_walk. Qed.

(** *** The remaining handlers *)

Lemma enqueue_jobs now i o r t : preserves (top_rel (jobs_rel P)) (enqueue_aoa_debug_command now i o r t).
Proof. unfold enqueue_aoa_debug_command. jobs_walk. Qed.
Lemma fail_stale_jobs now s : preserves (top_rel (jobs_rel P)) (fail_stale_local_device_actions now s).
Proof. unfold fail_stale_local_device_actions. jobs_walk. Qed.
Lemma poll_jobs now w n r : preserves (top_rel (jobs_rel P)) (poll_commands now w n r).
Proof. unfold poll_commands. jobs_walk. Qed.
Lemma ack_jobs now w i s r e : preserves (top_rel (jobs_rel P)) (ack_command now w i s r e).
Proof. unfold ack_command, get_command. jobs_walk. Qed.
Lemma replace_devices_jobs now w ds ext : preserves (txn_rel (jobs_rel P)) (replace_devices now w ds ext).
Proof. unfold replace_devices, upsert_device. jobs_walk. Qed.
#[local] Hint Resolve replace_devices_jobs : gms.
Lemma replace_tests_jobs now w ts : preserves (txn_rel (jobs_rel P)) (replace_worker_tests now w ts).
Proof. unfold replace_worker_tests. jobs_walk. Qed.
Lemma replace_suites_jobs now w ss : preserves (txn_rel (jobs_rel P)) (replace_suites now w ss).
Proof. unfold replace_suites. jobs_walk. apply jobs_sql_other. intros d. by case_match. Qed.
#[local] Hint Resolve replace_tests_jobs replace_suites_jobs : gms.
Lemma heartbeat_job_jobs `{Uuid} ttl now w data item :
  preserves (txn_rel (jobs_rel P)) (heartbeat_job ttl now w data item).
Proof.
  unfold heartbeat_job, revoke_attempt, confirm_attempt, renew_job_device_claim. jobs_walk.
Qed.
#[local] Hint Resolve heartbeat_job_jobs : gms.
Lemma heartbeat_jobs `{Uuid} ttl now w data : preserves (top_rel (jobs_rel P)) (heartbeat ttl now w data).
Proof. unfold heartbeat, get_worker, emit_worker_availability. jobs_walk. Qed.
Lemma register_jobs m now data : preserves (top_rel (jobs_rel P)) (register_worker m now data).
Proof.
  unfold register_worker, get_worker, emit_worker_availability. jobs_walk;
    apply jobs_sql_other; intros d; by case_match.
Qed.
Lemma mark_offline_jobs now w : preserves (top_rel (jobs_rel P)) (mark_worker_offline now w).
Proof. unfold mark_worker_offline, emit_worker_availability. jobs_walk. Qed.
Lemma reconcile_active_jobs `{Uuid} ttl now j :
  preserves (txn_rel (jobs_rel P)) (reconcile_active_job ttl now j).
Proof.
  unfold reconcile_active_job. jobs_walk. apply reads_sql. intros d. apply jobs_update.
  intros r _ Hr. bool_props. split; try done; simpl.
  apply rtc_once, job_step_spec. unfold reconcilable in *. by destruct (jb_status r).
Qed.
#[local] Hint Resolve reconcile_active_jobs : gms.
Lemma reconcile_jobs `{Uuid} ttl now : preserves (top_rel (jobs_rel P)) (reconcile_claims ttl now).
Proof. unfold reconcile_claims, reconcile_reservation, reconcile_terminal_job. jobs_walk. Qed.
Lemma resume_jobs `{Uuid} now v row : preserves (top_rel (jobs_rel P)) (resume_dispatch now v row).
Proof.
  unfold resume_dispatch, get_command. pose proof attach_jobs. pose proof sync_jobs.
  pose proof compensate_jobs. pose proof @dispatch_jobs. jobs_walk.
Qed.
Lemma all_fenced_jobs now v ks : preserves (top_rel (jobs_rel P)) (all_fenced now v ks).
Proof. induction ks; simpl; jobs_walk. Qed.
Lemma replay_jobs `{Uuid} fuel now v : preserves (top_rel (jobs_rel P)) (replay_job_command fuel now v).
Proof.
  pose proof all_fenced_jobs. pose proof @resume_jobs. pose proof compensate_jobs.
  revert v. induction fuel as [|fuel IH]; intros v; simpl; unfold get_command, get_job; jobs_walk.
Qed.

(** *** Creating a job *)

Lemma insert_job_jobs (row : job) (k : M world unit) :
  P (jb_id row) → jb_status row = JobAssigned → preserves (txn_rel (jobs_rel P)) k →
  preserves (txn_rel (jobs_rel P))
    (_ ← constraint (λ d, negb (exists_row (λ j, streqb (jb_id j) (jb_id row)) (db_jobs d))) "cluster_jobs.id";
     _ ← sql (λ d, d <| db_jobs ::= λ t, t ++ [row] |>); k).
Proof.
  intros HP Hst Hk w. unfold constraint, select. monad.
  destruct (exists_row _ _) eqn:E; simpl; [reflexivity|].
  etrans; [|apply Hk]. split; [split; [done|]|done]. intros Hu. simpl. rewrite exists_row_false in E. split.
  - apply unique_index_snoc; [exact Hu|]. intros _ j Hj _ Heq. specialize (E j Hj).
    unfold streqb in E. by bool_props.
  - intros j [Hj| ->%list_elem_of_singleton]%elem_of_app.
    + left. by exists j.
    + right. by rewrite Hst.
Qed.
Lemma create_metadata_jobs `{Uuid} md mm ttl now data job_id records :
  P job_id →
  preserves (top_rel (jobs_rel P)) (create_job_with_leases_metadata md mm ttl now data job_id records).
Proof.
  intros HP. unfold create_job_with_leases_metadata, check_worker_capacity, reserved_device_ids,
    lease_device, get_job. jobs_walk.
  unfold insert_job_rows. apply insert_job_jobs; [done|done|]. jobs_walk.
Qed.
Lemma obtain_claims_jobs `{Uuid} ttl now data ow so ds :
  preserves (top_rel (jobs_rel P)) (obtain_job_claims ttl now data ow so ds).
Proof. unfold obtain_job_claims, check_reservation, get_reservation, refuse_claim. jobs_walk. Qed.
End handlers.

(** The identifier the next job gets. *)
Definition next_job_id `{Uuid} (w : world) : string := "job-" +:+ uuid_hex (w_drawn w).

Lemma create_job_jobs `{Uuid} md mm ttl now data w :
  top_rel (jobs_rel (λ i, i = next_job_id w)) w (create_job_with_leases md mm ttl now data w).2.
Proof.
  unfold create_job_with_leases. rewrite (bind_run uuid4_hex _ _ _ _ (uuid4_hex_run w)).
  etrans; [apply (uuid_top (jobs_rel _)); intros w'; apply reads_draw, _|].
  pose proof (obtain_claims_jobs (λ i, i = next_job_id w)).
  pose proof (create_metadata_jobs (λ i, i = next_job_id w)) as Hmeta.
  cbv zeta. match goal with |- top_rel ?R _ (?m _).2 => enough (preserves (top_rel R) m) as Hp by apply Hp end.
  jobs_walk; by apply Hmeta.
Qed.

(** *** Any step, any history *)

Lemma handler_jobs `{Uuid} P cfg now o :
  (∀ data, o ≠ CCreateJob data) → preserves (top_rel (jobs_rel P)) (handler cfg now o).
Proof.
  intros Hne.
  pose proof (transition_job_jobs P). pose proof (fail_abandoned_jobs P). pose proof (owned_ids_jobs P).
  pose proof (reserve_devices_jobs P). pose proof (reservation_by_source_jobs P).
  pose proof (renew_reservation_jobs P). pose proof (release_reservation_jobs P).
  pose proof (delete_job_jobs P). pose proof (create_command_jobs P). pose proof (dispatch_jobs P).
  pose proof (compensate_jobs P). pose proof (attach_jobs P). pose proof (enqueue_jobs P).
  pose proof (fail_stale_jobs P). pose proof (poll_jobs P). pose proof (ack_jobs P).
  pose proof (sync_jobs P). pose proof (register_jobs P). pose proof (heartbeat_jobs P).
  pose proof (replace_devices_jobs P). pose proof (replace_suites_jobs P). pose proof (mark_offline_jobs P).
  pose proof (reconcile_jobs P). pose proof (replay_jobs P).
  destruct o; try (by destruct (Hne data)); unfold handler.
  all: unfold add_events, record_artifact, read_aoa_debug_command, request_aoa_playback_control,
    start_local_command, append_command_events, claim_terminal_notification, compact_command_result,
    prune_terminal_command_events, delete_worker, refresh_worker_devices, replace_worker_suites,
    list_devices, upsert_seen_device, device_action_claim_payload, operation_claim_payload,
    conflict_409, acquire_device_operation_claim, refuse_claim, get_reservation, fenced_local_payload,
    force_release_local_aoa_operation, cancel_operation, get_command_by_operation,
    create_transfer, update_transfer, get_transfer.
  all: jobs_walk.
  all: apply jobs_sql_other; intros d; by case_match.
Qed.

(** A settled store whose job identifiers are unique and were drawn. *)
Record jobs_ok `{Uuid} (w : world) : Prop := {
  jo_settled : settled w;
  jo_unique : unique_index (λ _, true) jb_id (db_jobs (w_db w));
  jo_drawn : ∀ j, j ∈ db_jobs (w_db w) → ∃ n, (n < w_drawn w)%nat ∧ jb_id j = "job-" +:+ uuid_hex n;
}.

(** The jobs of a later store: older ones, moved along, and new ones. *)
Definition jobs_later `{Uuid} (w w' : world) : Prop :=
  (w_drawn w ≤ w_drawn w')%nat ∧
  ∀ j', j' ∈ db_jobs (w_db w') → (∃ j, j ∈ db_jobs (w_db w) ∧ continues j j') ∨
    (∃ n, (w_drawn w ≤ n < w_drawn w')%nat ∧ jb_id j' = "job-" +:+ uuid_hex n ∧
          job_steps JobAssigned (jb_status j')).

Lemma create_job_draws `{Uuid} md mm ttl now data w :
  settled w → (S (w_drawn w) ≤ w_drawn (create_job_with_leases md mm ttl now data w).2)%nat.
Proof.
  intros Hs. unfold create_job_with_leases. rewrite (bind_run uuid4_hex _ _ _ _ (uuid4_hex_run w)).
  pose proof (obtain_claims_jobs (λ _, True)). pose proof (create_metadata_jobs (λ _, True)) as Hmeta.
  assert (∀ A (m : M world A) w1, settled w1 → preserves (top_rel (jobs_rel (λ _, True))) m →
    (w_drawn w1 ≤ w_drawn (m w1).2)%nat) as Hgen.
  { intros A m w1 Hs1 Hp. by destruct (Hp w1 Hs1) as [[? _] _]. }
  etrans; [|apply Hgen; [exact Hs|]]; [done|].
  cbv zeta. jobs_walk; by apply Hmeta.
Qed.

Lemma cluster_step_jobs `{Uuid} cfg now o w :
  jobs_ok w → jobs_ok (cluster_step cfg now o w) ∧ jobs_later w (cluster_step cfg now o w).
Proof.
  intros [Hs Hu Hd].
  assert (∃ P : string → Prop, settled (cluster_step cfg now o w) ∧
    jobs_rel P w (cluster_step cfg now o w) ∧
    ∀ i, P i → ∃ n, (w_drawn w ≤ n < w_drawn (cluster_step cfg now o w))%nat ∧ i = "job-" +:+ uuid_hex n)
    as (P&Hs'&[Hle Hadv]&HP).
  { assert ((∃ data, o = CCreateJob data) ∨ ∀ data, o ≠ CCreateJob data) as [[data ->]|Hne].
    { destruct o; solve [by right|left; eauto]. }
    - exists (λ i, i = next_job_id w). unfold cluster_step, exec, handler.
      pose proof (create_job_jobs (st_min_disk_free_gb cfg) (st_min_memory_available_gb cfg)
        (st_claim_lease_ttl_seconds cfg) now data w Hs) as [Hj Hs'].
      pose proof (create_job_draws (st_min_disk_free_gb cfg) (st_min_memory_available_gb cfg)
        (st_claim_lease_ttl_seconds cfg) now data w Hs) as Hdr.
      unfold mbind, M_bind. destruct (create_job_with_leases _ _ _ _ _ _) as [[a|e] w'];
        (split; [done|]; split; [done|]; intros i ->; exists (w_drawn w); simpl in *; split; [lia|done]).
    - exists (λ _, False). destruct (handler_jobs (λ _, False) cfg now o Hne w Hs).
      done. }
  destruct (Hadv Hu) as [Hu' Hj]. split.
  - split; [done|done|]. intros j' Hj'. destruct (Hj j' Hj') as [(j&Hin&C)|[Hp _]].
    + destruct (Hd j Hin) as (n&?&E). exists n. rewrite (ct_id _ _ C). split; [lia|done].
    + destruct (HP _ Hp) as (n&?&E). exists n. split; [lia|done].
  - split; [done|]. intros j' Hj'. destruct (Hj j' Hj') as [|[Hp ?]]; [by left|].
    right. destruct (HP _ Hp) as (n&?&E). by exists n.
Qed.

Lemma jobs_later_trans `{Uuid} w1 w2 w3 : jobs_later w1 w2 → jobs_later w2 w3 → jobs_later w1 w3.
Proof.
  intros [L1 J1] [L2 J2]. split; [lia|]. intros j3 Hj3.
  destruct (J2 j3 Hj3) as [(j2&Hj2&C2)|(n&?&?&?)].
  - destruct (J1 j2 Hj2) as [(j1&Hj1&C1)|(n&?&E&Hst)].
    + left. exists j1. split; [done|by etrans].
    + right. exists n. rewrite (ct_id _ _ C2). split; [lia|]. split; [done|]. etrans; [done|apply C2].
  - right. exists n. split; [lia|done].
Qed.

Lemma cluster_run_jobs `{Uuid} cfg tr w :
  jobs_ok w → jobs_ok (cluster_run cfg tr w) ∧ jobs_later w (cluster_run cfg tr w).
Proof.
  unfold cluster_run. revert w. induction tr as [|[now o] tr IH]; intros w Hw; simpl.
  - split; [done|]. split; [done|]. intros j Hj. left. by exists j.
  - destruct (cluster_step_jobs cfg now o w Hw) as [Hw1 L1].
    destruct (IH _ Hw1) as [Hw2 L2]. split; [done|by eapply jobs_later_trans].
Qed.

Lemma empty_jobs_ok `{Uuid} : jobs_ok empty_world.
Proof. split; [done|constructor|by intros j Hj%not_elem_of_nil]. Qed.

(** ** Properties *)

(** [C5] Jobs follow the state machine under every operation of the controller, in any order
    and at any time (heartbeats, polls, acknowledgements, watchdogs, reconciliation,
    replays, crashes of a transaction included): whatever happens to a job, its status
    only ever moved along allowed transitions, its version never decreased, its owner,
    worker, attempt and request are what they were; in particular a finished job keeps
    its outcome for as long as it exists. *)
Theorem jobs_follow_state_machine `{Uuid} cfg tr w j j' :
  jobs_ok w → j ∈ db_jobs (w_db w) → j' ∈ db_jobs (w_db (cluster_run cfg tr w)) →
  jb_id j' = jb_id j →
  continues j j' ∧ (is_terminal (jb_status j) = true → jb_status j' = jb_status j).
Proof.
  intros Hw Hj Hj' Hid. destruct (cluster_run_jobs cfg tr w Hw) as [_ [_ Hl]].
  assert (continues j j') as C.
  { destruct (Hl j' Hj') as [(j0&Hj0&C)|(n&Hn&E&_)].
    - assert (j0 = j) as ->; [|done].
      eapply (unique_index_inj _ _ _ j0 j (jo_unique _ Hw)); try done.
      rewrite <-Hid. symmetry. apply C.
    - destruct (jo_drawn _ Hw j Hj) as (m&Hm&Em). rewrite Hid, Em in E.
      apply uuid_prefix_inj in E. lia. }
  split; [done|]. intros Ht. by apply terminal_steps; [|apply C].
Qed.

(** ** Witness *)

(** Alice's job is lost with its worker and fails an hour later. *)
Lemma jobs_follow_state_machine_witness :
  let w' := cluster_run (U := counting_uuid) sample_settings
    [(200, CMarkOffline "w"); (4000, CFailAbandoned 3600); (4001, CTransitionJob "job-0" JobRunning "" "" "" "" "" [])]
    sample_world in
  ∃ j j', db_jobs (w_db sample_world) = [j] ∧ db_jobs (w_db w') = [j'] ∧
    jb_status j = JobAssigned ∧ jb_status j' = JobFailed ∧ continues j j'.
Proof.
  eexists _, _. split; [vm_compute; reflexivity|]. split; [vm_compute; reflexivity|].
  split; [reflexivity|]. split; [reflexivity|].
  apply (jobs_follow_state_machine (H := counting_uuid) sample_settings
    [(200, CMarkOffline "w"); (4000, CFailAbandoned 3600); (4001, CTransitionJob "job-0" JobRunning "" "" "" "" "" [])]
    sample_world).
  - apply cluster_run_jobs, empty_jobs_ok.
  - vm_compute. left.
  - vm_compute. left.
  - reflexivity.
Defined.
