(* ===== verification/CommandInvariants.v ===== *)
(** Every handler of the controller moves worker commands forward.

    [cmd_continues] is what never happens backwards in the life of a command;
    [commands_rel] relates the command table before and after a handler, and the lemmas
    establish it handler by handler. *)

From S2P Require Import Prelude DeviceClaims JobStateMachine ClusterState Admission ClusterClaims.
From S2P Require Import Reservations Jobs Commands Inventory Reconciliation JobRequests.
From S2P Require Import OperationClaims Transfers Controller Steps.

(** ** Definitions *)

(** Progress of a command: a redelivery may put it back in the queue, an accepted one
    never returns there. *)
Definition cmd_phase (s : command_status) : Z :=
  match s with
  | CmdQueued | CmdDelivered => 0 | CmdAccepted => 1 | CmdRunning => 2
  | CmdCompleted | CmdFailed | CmdCancelled => 3
  end.

(** [c'] is a later state of the command [c]. *)
Record cmd_continues (c c' : command) : Prop := {
  cc_id : cm_id c' = cm_id c;
  cc_worker : cm_worker_id c' = cm_worker_id c;
  cc_type : cm_command_type c' = cm_command_type c;
  cc_job : cm_job_id c' = cm_job_id c;
  cc_attempt : cm_attempt_id c' = cm_attempt_id c;
  cc_operation : cm_operation_id c' = cm_operation_id c;
  cc_phase : (cmd_phase (cm_status c) ≤ cmd_phase (cm_status c'))%Z;
  cc_final : cmd_is_terminal (cm_status c) = true → cm_status c' = cm_status c;
  cc_delivered : cm_delivered_at c ≠ None → cm_delivered_at c' ≠ None;
  cc_notified : cm_terminal_notified_at c ≠ None →
    cm_terminal_notified_at c' = cm_terminal_notified_at c;
}.

Definition commands_unique (l : list command) : Prop :=
  unique_index (λ _, true) cm_id l ∧
  unique_index (λ c, nonempty (cm_operation_id c)) (λ c, (cm_worker_id c, cm_operation_id c)) l.

Definition commands_advance (P : string → Prop) (l l' : list command) : Prop :=
  commands_unique l → commands_unique l' ∧
  ∀ c', c' ∈ l' → (∃ c, c ∈ l ∧ cmd_continues c c') ∨ P (cm_id c').
Definition commands_rel (P : string → Prop) : relation world := reads db_commands (commands_advance P).

(** The same for handlers that draw command identifiers on the way: new commands have an
    identifier drawn since the [N]-th draw. *)
Definition commands_since `{Uuid} (N : nat) : relation world := λ w w',
  (N ≤ w_drawn w)%nat →
  commands_rel (λ i, ∃ n, (N ≤ n < w_drawn w')%nat ∧ i = "cmd-" +:+ uuid_hex n) w w'.

(** ** Lemmas *)

#[export] Instance cmd_continues_preorder : PreOrder cmd_continues.
Proof.
  split.
  - intros c. by split.
  - intros c1 c2 c3 [] []. split; try congruence; [lia| |by auto|].
    + intros Ht. rewrite cc_final1; [auto|]. by rewrite cc_final0.
    + intros Hn. rewrite cc_notified1; [auto|]. by rewrite cc_notified0.
Qed.
Lemma commands_advance_compose (P1 P2 P3 : string → Prop) l1 l2 l3 :
  (∀ i, P1 i → P3 i) → (∀ i, P2 i → P3 i) →
  commands_advance P1 l1 l2 → commands_advance P2 l2 l3 → commands_advance P3 l1 l3.
Proof.
  intros HP1 HP2 H1 H2 Hu. destruct (H1 Hu) as [Hu2 A1]. destruct (H2 Hu2) as [Hu3 A2].
  split; [done|]. intros c3 Hc3. destruct (A2 c3 Hc3) as [(c2&Hc2&C2)|]; [|by right; auto].
  destruct (A1 c2 Hc2) as [(c1&Hc1&C1)|HP].
  - left. exists c1. split; [done|by etrans].
  - right. rewrite (cc_id _ _ C2). auto.
Qed.
#[export] Instance commands_advance_preorder P : PreOrder (commands_advance P).
Proof.
  split.
  - intros l Hu. split; [done|]. intros c Hc. left. by exists c.
  - intros l1 l2 l3. by apply commands_advance_compose.
Qed.
#[export] Instance commands_rel_store P : StoreRel (commands_rel P) := reads_store _ _.
#[export] Instance commands_since_store `{Uuid} N : StoreRel (commands_since N).
Proof.
  split.
  - split.
    + intros w _. apply (sr_preorder (R := commands_rel _)).
    + intros w1 w2 w3 H1 H2 HN. destruct (H1 HN) as [L1 A1].
      destruct (H2 ltac:(lia)) as [L2 A2]. split; [lia|].
      eapply commands_advance_compose; [| |exact A1|exact A2].
      * intros i (n&?&?). exists n. split; [lia|done].
      * done.
  - intros w w' d H1 HN. by destruct (H1 HN).
  - intros w w' H1 HN. destruct (H1 HN). by split.
  - intros w f HN. by split.
Qed.
Lemma commands_rel_since `{Uuid} N w w' : commands_rel (λ _, False) w w' → commands_since N w w'.
Proof.
  intros [L A] HN. split; [done|]. intros Hu. destruct (A Hu) as [Hu' Hc].
  split; [done|]. intros c' Hc'. destruct (Hc c' Hc') as [|[]]; by left.
Qed.
Lemma commands_since_txn `{Uuid} {A} N (m : M world A) :
  preserves (txn_rel (commands_rel (λ _, False))) m → preserves (txn_rel (commands_since N)) m.
Proof. intros Hm w. destruct (Hm w). split; [by apply commands_rel_since|done]. Qed.
Lemma commands_since_top `{Uuid} {A} N (m : M world A) :
  preserves (top_rel (commands_rel (λ _, False))) m → preserves (top_rel (commands_since N)) m.
Proof. intros Hm w Hs. destruct (Hm w Hs). split; [by apply commands_rel_since|done]. Qed.

Section commands.
Context (P : string → Prop).

(** The shapes of statement on the command table. *)
Lemma commands_update p f l :
  (∀ c, c ∈ l → p c = true → cmd_continues c (f c)) → commands_advance P l (update_where p f l).
Proof.
  intros Hf [Hu Ho]. split; [split|].
  - apply unique_index_update; [done|done|]. intros c Hc Hp. apply (Hf c Hc Hp).
  - apply unique_index_update; [done| |]; intros c Hc Hp; destruct (Hf c Hc Hp) as [].
    + intros Hn. by rewrite <-cc_operation0.
    + congruence.
  - intros c' (c&Hc&->)%elem_of_update_where. left. exists c. split; [done|].
    destruct (p c) eqn:E; [by apply Hf|done].
Qed.
Lemma commands_delete p l : commands_advance P l (delete_where p l).
Proof.
  intros [Hu Ho]. split; [split; by apply unique_index_delete|].
  intros c [Hc _]%elem_of_delete_where. left. by exists c.
Qed.

Lemma commands_sql_update p f :
  (∀ c, p c = true → cmd_continues c (f c)) →
  preserves (txn_rel (commands_rel P)) (sql (λ d, d <| db_commands ::= update_where p f |>)).
Proof. intros Hf. apply reads_sql. intros d. apply commands_update. auto. Qed.
Lemma commands_sql_delete p :
  preserves (txn_rel (commands_rel P)) (sql (λ d, d <| db_commands ::= delete_where p |>)).
Proof. apply reads_sql. intros d. apply commands_delete. Qed.
Lemma commands_sql_other f :
  (∀ d, db_commands (f d) = db_commands d) → preserves (txn_rel (commands_rel P)) (sql f).
Proof. apply reads_sql_frame, _. Qed.
Lemma commands_claims {A} (m : M registry A) : preserves (txn_rel (commands_rel P)) (claims_op m).
Proof. apply claims_op_txn. intros w. apply reads_claims, _. Qed.
Lemma commands_claims_top {A} (m : M registry A) : preserves (top_rel (commands_rel P)) (claims_op m).
Proof. apply claims_op_top. intros w. apply reads_claims, _. Qed.
Lemma commands_uuid `{Uuid} : preserves (txn_rel (commands_rel P)) uuid4_hex.
Proof. apply uuid_txn. intros w. apply reads_draw, _. Qed.
Lemma commands_uuid_top `{Uuid} : preserves (top_rel (commands_rel P)) uuid4_hex.
Proof. apply uuid_top. intros w. apply reads_draw, _. Qed.
Lemma commands_timeline now e : preserves (txn_rel (commands_rel P)) (append_timeline_conn now e).
Proof. by apply commands_sql_other. Qed.
End commands.

(** Walk the handler; statements on other tables are done. *)
Ltac commands_leaf :=
  lazymatch goal with
  | |- preserves (txn_rel _) (claims_op _) => apply commands_claims
  | |- preserves (top_rel _) (claims_op _) => apply commands_claims_top
  | |- preserves (txn_rel _) uuid4_hex => apply commands_uuid
  | |- preserves (top_rel _) uuid4_hex => apply commands_uuid_top
  | |- preserves _ (append_timeline_conn _ _) => apply commands_timeline
  | |- preserves _ (sql (λ d, @upd _ _ db_commands _ (delete_where _) d)) => apply commands_sql_delete
  | |- preserves _ (sql (λ d, @upd _ _ db_commands _ (@?f d) d)) => fail
  | |- preserves _ (sql _) => apply commands_sql_other; intros ?; reflexivity
  | |- preserves _ _ => solve [eauto with gms]
  end.
Ltac commands_walk := repeat first [walk_step | progress cbv zeta | commands_leaf].

(** A statement on a command whose status is known, or kept. *)
Ltac cmd_continues :=
  split; simpl; try done; repeat match goal with H : cm_status _ = _ |- _ => rewrite H end; done.

Section handlers.
Context (P : string → Prop).

Lemma transition_conn_commands now i st so m e oi wi pl :
  preserves (txn_rel (commands_rel P)) (transition_job_conn now i st so m e oi wi pl).
Proof. unfold transition_job_conn. commands_walk. Qed.
#[local] Hint Resolve transition_conn_commands : gms.
Lemma fail_abandoned_commands now s :
  preserves (top_rel (commands_rel P)) (fail_abandoned_worker_lost_jobs now s).
Proof. unfold fail_abandoned_worker_lost_jobs, fail_abandoned_job. commands_walk. Qed.
Lemma expire_commands now : preserves (txn_rel (commands_rel P)) (expire_device_reservations now).
Proof. unfold expire_device_reservations. commands_walk. Qed.
#[local] Hint Resolve expire_commands : gms.
Lemma reserve_commands `{Uuid} now w ds ow so ttl us :
  preserves (top_rel (commands_rel P)) (reserve_devices now w ds ow so ttl us).
Proof.
  unfold reserve_devices, reserve_new, renew_same_reservation, insert_reservation,
    reservable_device, refuse_claim. commands_walk.
Qed.
Lemma renew_reservation_commands `{Uuid} now i ttl :
  preserves (top_rel (commands_rel P)) (renew_reservation now i ttl).
Proof. unfold renew_reservation. commands_walk. Qed.
Lemma attach_conn_commands now i c b :
  preserves (txn_rel (commands_rel P)) (attach_command_to_job_conn now i c b).
Proof. unfold attach_command_to_job_conn. commands_walk. Qed.
#[local] Hint Resolve attach_conn_commands : gms.
Lemma attach_commands now i c : preserves (top_rel (commands_rel P)) (attach_command_to_job now i c).
Proof. unfold attach_command_to_job. commands_walk. Qed.
Lemma create_job_commands `{Uuid} md mm ttl now data :
  preserves (top_rel (commands_rel P)) (create_job_with_leases md mm ttl now data).
Proof.
  unfold create_job_with_leases, create_job_with_leases_metadata, obtain_job_claims, check_reservation,
    get_reservation, refuse_claim, check_worker_capacity, reserved_device_ids, insert_job_rows,
    lease_device, get_job. commands_walk.
Qed.
Lemma compensate_commands now i e a :
  preserves (top_rel (commands_rel P)) (compensate_failed_dispatch now i e a).
Proof.
  unfold compensate_failed_dispatch, compensate_dispatch_conn. commands_walk.
  apply commands_sql_update. intros c Hc. unfold never_delivered in Hc. bool_props. cmd_continues.
Qed.
#[local] Hint Resolve attach_commands : gms.
Lemma sync_commands now c : preserves (top_rel (commands_rel P)) (sync_job_from_command now c).
Proof. unfold sync_job_from_command, sync_job_conn. commands_walk. Qed.
Lemma fail_stale_commands now s : preserves (top_rel (commands_rel P)) (fail_stale_local_device_actions now s).
Proof.
  unfold fail_stale_local_device_actions. commands_walk. apply commands_sql_update.
  intros c Hc. unfold cmd_in_progress in Hc. bool_props.
  match goal with H : _ || _ = true |- _ => apply orb_true_iff in H as [H|H]; bool_props; cmd_continues end.
Qed.
Lemma start_local_commands now i : preserves (top_rel (commands_rel P)) (start_local_command now i).
Proof.
  unfold start_local_command. commands_walk. apply commands_sql_update. intros c Hc. bool_props. cmd_continues.
Qed.
Lemma claim_notification_commands now i :
  preserves (top_rel (commands_rel P)) (claim_terminal_notification now i).
Proof.
  unfold claim_terminal_notification. commands_walk. apply commands_sql_update. intros c Hc. bool_props.
  by split.
Qed.
Lemma compact_commands now i r : preserves (top_rel (commands_rel P)) (compact_command_result now i r).
Proof. unfold compact_command_result. commands_walk. apply commands_sql_update. intros c _. cmd_continues. Qed.
Lemma enqueue_commands now i o r t : preserves (top_rel (commands_rel P)) (enqueue_aoa_debug_command now i o r t).
Proof.
  unfold enqueue_aoa_debug_command, set_payload. commands_walk. apply commands_sql_update. intros c' _. cmd_continues.
Qed.
Lemma read_debug_commands i cur cl : preserves (top_rel (commands_rel P)) (read_aoa_debug_command i cur cl).
Proof.
  unfold read_aoa_debug_command. commands_walk. apply commands_sql_update. intros c' _. cmd_continues.
Qed.
Lemma playback_commands now w c ow a :
  preserves (top_rel (commands_rel P)) (request_aoa_playback_control now w c ow a).
Proof.
  unfold request_aoa_playback_control, set_payload. commands_walk. apply commands_sql_update.
  intros c' _. cmd_continues.
Qed.
Lemma force_release_commands now k w :
  preserves (top_rel (commands_rel P)) (force_release_local_aoa_operation now k w).
Proof.
  unfold force_release_local_aoa_operation, cancel_operation, get_command_by_operation. commands_walk.
  apply commands_sql_update. intros c' Hc. bool_props. unfold cmd_is_open in *.
  split; simpl; try done; by destruct (cm_status c').
Qed.
Lemma ack_commands now w i s r e : preserves (top_rel (commands_rel P)) (ack_command now w i s r e).
Proof.
  unfold ack_command, get_command. cbv zeta. apply preserves_bind; [apply _| |intros o; commands_walk].
  apply transaction_top; [apply _|]. intros st. unfold select. monad.
  destruct (fetchone _ (db_commands (w_db st))) as [c|] eqn:Ec; [|reflexivity]. simpl.
  destruct (cmd_is_terminal (cm_status c) || _) eqn:Et; [reflexivity|]. simpl.
  apply orb_false_iff in Et as [Et Hrank]. apply Z.ltb_ge in Hrank.
  apply fetchone_Some in Ec as [Hc Hm]. unfold command_is, streqb in Hm. bool_props.
  split; [split; [done|]|done]. simpl. intros Hu. apply commands_update; [|done].
  intros c' Hc' Hm'. unfold command_is, streqb in Hm'. bool_props.
  assert (c' = c) as -> by (eapply (unique_index_inj _ _ _ c' c (proj1 Hu)); done || congruence).
  split; simpl; try done; [|by rewrite Et].
  destruct (cm_status c), s; simpl in *; done || lia.
Qed.
Lemma deliver_commands now ids l :
  commands_unique l → (∀ c, c ∈ l → cm_id c ∈ ids → cmd_phase (cm_status c) = 0%Z) →
  commands_advance P l (foldl (λ l i, update_where (command_is i) (deliver now) l) l ids).
Proof.
  revert l. induction ids as [|i ids IH]; intros l Hu Hq; [reflexivity|]. simpl.
  assert (Hstep : commands_advance P l (update_where (command_is i) (deliver now) l)).
  { apply commands_update. intros c Hc Hi. unfold command_is, streqb in Hi. bool_props.
    assert (cmd_phase (cm_status c) = 0%Z) as Hp by (apply Hq; [done|subst; left]).
    split; simpl; try done; by destruct (cm_status c). }
  etrans; [exact Hstep|]. apply IH; [by destruct (Hstep Hu)|].
  intros c' Hc' Hin. apply elem_of_update_where in Hc' as (c&Hc&->).
  destruct (command_is i c); [done|]. apply Hq; [done|by right].
Qed.
Lemma foldl_commands {A} (f : A → list command → list command) ids d :
  db_commands (foldl (λ d a, d <| db_commands ::= f a |>) d ids)
  = foldl (λ l a, f a l) (db_commands d) ids.
Proof. revert d. induction ids as [|a ids IH]; intros d; [done|]. simpl. by rewrite IH. Qed.
Lemma poll_commands_commands now w n r : preserves (top_rel (commands_rel P)) (poll_commands now w n r).
Proof.
  unfold poll_commands. apply transaction_top; [apply _|]. apply preserves_bind; [apply _| |intros _].
  { apply commands_sql_update. intros c Hc. unfold redeliverable in Hc. bool_props. cmd_continues. }
  intros st. unfold select. rewrite (bind_run (gets _) _ st _ st eq_refl).
  match goal with |- context [limit n ?l] => set (rows := limit n l) end.
  assert (∀ c, c ∈ rows → c ∈ db_commands (w_db st) ∧ cm_status c = CmdQueued) as Hrows.
  { intros c Hc%elem_of_limit. rewrite elem_of_order_by, elem_of_fetchall in Hc.
    destruct Hc as [Hp ?]. by bool_props. }
  rewrite (bind_run _ _ _ _ _ (for_each_sql (λ row d, d <| db_commands ::=
    update_where (command_is (cm_id row)) (deliver now) |>) rows st)).
  match goal with |- txn_rel ?R st ((_ ≫= _) ?st1).2 =>
    assert (txn_rel R st st1) as H1; [|etrans; [exact H1|]; set (st2 := st1); clearbody st2] end.
  - split; [split; [done|]|done]. simpl. intros Hu.
    rewrite (foldl_commands (λ row, update_where (command_is (cm_id row)) (deliver now))).
    assert (∀ l, foldl (λ l row, update_where (command_is (cm_id row)) (deliver now) l) l rows
      = foldl (λ l i, update_where (command_is i) (deliver now) l) l (cm_id <$> rows)) as ->.
    { clear. induction rows as [|x rows IH]; intros l; [done|]. simpl. by rewrite IH. }
    apply deliver_commands; [done| |done]. intros c Hc (c'&Hid&Hin)%list_elem_of_fmap.
    destruct (Hrows c' Hin) as [Hc' Hq].
    assert (c = c') as -> by (by eapply (unique_index_inj _ _ _ c c' (proj1 Hu))). by rewrite Hq.
  - match goal with |- txn_rel ?R _ (?m _).2 => enough (preserves (txn_rel R) m) as Hm by apply Hm end.
    commands_walk.
Qed.
Lemma delete_job_commands i : preserves (top_rel (commands_rel P)) (delete_job i).
Proof.
  unfold delete_job. commands_walk. apply reads_sql. intros d. apply commands_delete.
Qed.
Lemma delete_worker_commands w : preserves (top_rel (commands_rel P)) (delete_worker w).
Proof.
  unfold delete_worker. commands_walk. apply reads_sql. intros d. apply commands_delete.
Qed.
Lemma replace_devices_commands now w ds ext :
  preserves (txn_rel (commands_rel P)) (replace_devices now w ds ext).
Proof. unfold replace_devices, upsert_device. commands_walk. Qed.
Lemma replace_suites_commands now w ss : preserves (txn_rel (commands_rel P)) (replace_suites now w ss).
Proof. unfold replace_suites. commands_walk. apply commands_sql_other. intros d. by case_match. Qed.
#[local] Hint Resolve replace_devices_commands replace_suites_commands : gms.
Lemma heartbeat_commands `{Uuid} ttl now w data :
  preserves (top_rel (commands_rel P)) (heartbeat ttl now w data).
Proof.
  unfold heartbeat, get_worker, emit_worker_availability, replace_worker_tests, heartbeat_job,
    revoke_attempt, confirm_attempt, renew_job_device_claim. commands_walk.
Qed.
Lemma register_commands m now data : preserves (top_rel (commands_rel P)) (register_worker m now data).
Proof.
  unfold register_worker, get_worker, emit_worker_availability. commands_walk;
    apply commands_sql_other; intros d; by case_match.
Qed.
Lemma mark_offline_commands now w : preserves (top_rel (commands_rel P)) (mark_worker_offline now w).
Proof. unfold mark_worker_offline, emit_worker_availability. commands_walk. Qed.
Lemma reconcile_commands `{Uuid} ttl now : preserves (top_rel (commands_rel P)) (reconcile_claims ttl now).
Proof.
  unfold reconcile_claims, reconcile_reservation, reconcile_terminal_job, reconcile_active_job. commands_walk.
Qed.
Lemma all_fenced_commands now v ks : preserves (top_rel (commands_rel P)) (all_fenced now v ks).
Proof. induction ks; simpl; commands_walk. Qed.

(** *** Creating a command *)

Lemma insert_command_commands c : P (cm_id c) → preserves (txn_rel (commands_rel P)) (insert_command c).
Proof.
  intros HP st. unfold insert_command, constraint, select. monad.
  destruct (exists_row (command_is _) _) eqn:E1; simpl; [reflexivity|].
  destruct (bool_decide _); simpl; [|reflexivity].
  destruct (nonempty _ && _) eqn:E2; simpl; [reflexivity|].
  split; [split; [done|]|done]. simpl. intros [Hu Ho]. rewrite exists_row_false in E1. split; [split|].
  - apply unique_index_snoc; [done|]. intros _ c' Hc' _ Heq. specialize (E1 c' Hc').
    unfold command_is, streqb in E1. by bool_props.
  - apply unique_index_snoc; [done|]. intros Hne c' Hc' _ [= Ew Eo]. rewrite Hne in E2. simpl in E2.
    rewrite exists_row_false in E2. specialize (E2 c' Hc'). unfold operation_is, streqb in E2.
    apply andb_false_iff in E2 as [|]; by bool_props.
  - intros c' [Hc'| ->%list_elem_of_singleton]%elem_of_app; [left; by exists c'|by right].
Qed.
Lemma create_new_command_commands `{Uuid} now data i t o b :
  P i → preserves (txn_rel (commands_rel P)) (create_new_command now data i t o b).
Proof.
  intros HP. unfold create_new_command. pose proof insert_command_commands. commands_walk.
Qed.
End handlers.

(** What a handler that starts by drawing a command identifier does. *)
Lemma create_command_since `{Uuid} N now data b :
  preserves (top_rel (commands_since N)) (create_command now data b).
Proof.
  intros w Hs. unfold create_command. rewrite (bind_run uuid4_hex _ _ _ _ (uuid4_hex_run w)). cbv zeta.
  set (P := λ i, i = "cmd-" +:+ uuid_hex (w_drawn w)). set (w1 := w <| w_drawn ::= S |>).
  match goal with |- context [?m w1] =>
    assert (preserves (top_rel (commands_rel P)) m) as Hm end.
  { pose proof (create_new_command_commands P) as Hnew. pose proof (attach_conn_commands P) as Hatt.
    unfold require_same_request, get_command. commands_walk. by apply Hnew. }
  destruct (Hm w1 Hs) as [[L A] Hs']. split; [|done]. intros HN.
  assert (w_drawn w1 = S (w_drawn w)) as Hd by done. split; [lia|].
  intros Hu. destruct (A Hu) as [Hu' Hc]. split; [done|]. intros c' Hc'.
  destruct (Hc c' Hc') as [|Hp]; [by left|]. right. exists (w_drawn w). split; [lia|done].
Qed.
Ltac since_walk := repeat first
  [ walk_step | progress cbv zeta | solve [eauto with gms] ].
Lemma resume_since `{Uuid} N now v row : preserves (top_rel (commands_since N)) (resume_dispatch now v row).
Proof.
  unfold resume_dispatch, get_command, dispatch_job_start_command. pose proof (create_command_since N).
  since_walk; apply commands_since_top;
    [apply attach_commands|apply sync_commands|apply compensate_commands].
Qed.
Lemma replay_since `{Uuid} N fuel now v :
  preserves (top_rel (commands_since N)) (replay_job_command fuel now v).
Proof.
  pose proof (resume_since N). revert v.
  induction fuel as [|fuel IH]; intros v; simpl; unfold get_command, get_job; since_walk;
    apply commands_since_top; first [apply all_fenced_commands|apply compensate_commands].
Qed.

#[local] Hint Resolve fail_abandoned_commands reserve_commands renew_reservation_commands
  delete_job_commands create_job_commands compensate_commands attach_commands enqueue_commands
  read_debug_commands playback_commands fail_stale_commands start_local_commands
  poll_commands_commands ack_commands claim_notification_commands sync_commands compact_commands
  register_commands delete_worker_commands heartbeat_commands mark_offline_commands
  reconcile_commands force_release_commands commands_claims_top create_command_since
  expire_commands transition_conn_commands replace_devices_commands replace_suites_commands : gms.

(** *** Any step, any history *)

Lemma handler_commands `{Uuid} N cfg now o : preserves (top_rel (commands_since N)) (handler cfg now o).
Proof.
  destruct o; unfold handler.
  all: try (apply preserves_bind; [apply _| |intros; apply preserves_ret, _]).
  all: first [apply create_command_since | apply replay_since | apply commands_since_top].
  all: try solve [eauto with gms].
  all: unfold transition_job, owned_reservation_device_ids, get_reservation_by_source, release_reservation,
    add_events, record_artifact,
    append_command_events, prune_terminal_command_events, refresh_worker_devices, replace_worker_suites,
    list_devices, upsert_seen_device, device_action_claim_payload, operation_claim_payload,
    conflict_409, acquire_device_operation_claim, refuse_claim, get_reservation, fenced_local_payload,
    create_transfer, update_transfer, get_transfer.
  all: commands_walk.
  all: apply commands_sql_other; intros d; by case_match.
Qed.

(** A settled store whose command and operation identifiers are unique and drawn. *)
Record commands_ok `{Uuid} (w : world) : Prop := {
  co_settled : settled w;
  co_unique : commands_unique (db_commands (w_db w));
  co_drawn : ∀ c, c ∈ db_commands (w_db w) → ∃ n, (n < w_drawn w)%nat ∧ cm_id c = "cmd-" +:+ uuid_hex n;
}.
Definition commands_later `{Uuid} (w w' : world) : Prop :=
  ∀ c', c' ∈ db_commands (w_db w') → (∃ c, c ∈ db_commands (w_db w) ∧ cmd_continues c c') ∨
    (∃ n, (w_drawn w ≤ n)%nat ∧ cm_id c' = "cmd-" +:+ uuid_hex n).

Lemma cluster_run_commands `{Uuid} cfg tr w :
  commands_ok w → commands_ok (cluster_run cfg tr w) ∧ commands_later w (cluster_run cfg tr w).
Proof.
  intros [Hs Hu Hd].
  assert (∀ tr w0, settled w0 → (w_drawn w ≤ w_drawn w0)%nat →
    settled (cluster_run cfg tr w0) ∧ commands_since (w_drawn w) w0 (cluster_run cfg tr w0)) as Hall.
  { clear. intros tr. unfold cluster_run. induction tr as [|[now o] tr IH]; intros w0 Hs0 Hle; simpl.
    - split; [done|]. reflexivity.
    - destruct (handler_commands (w_drawn w) cfg now o w0 Hs0) as [H1 Hs1].
      destruct (H1 Hle) as [L1 _].
      destruct (IH (cluster_step cfg now o w0) Hs1 ltac:(unfold cluster_step, exec; lia)) as [Hs2 H2].
      split; [exact Hs2|]. etrans; [exact H1|exact H2]. }
  destruct (Hall tr w Hs (le_n _)) as [Hs' Hsince]. destruct (Hsince (le_n _)) as [L A].
  destruct (A Hu) as [Hu' Hc]. split.
  - split; [done|done|]. intros c' Hc'. destruct (Hc c' Hc') as [(c&Hin&C)|(n&?&?)].
    + destruct (Hd c Hin) as (n&?&E). exists n. rewrite (cc_id _ _ C). split; [lia|done].
    + exists n. split; [lia|done].
  - intros c' Hc'. destruct (Hc c' Hc') as [|(n&?&?)]; [by left|]. right. exists n. split; [lia|done].
Qed.
Lemma empty_commands_ok `{Uuid} : commands_ok empty_world.
Proof. split; [done|split; constructor|by intros c Hc%not_elem_of_nil]. Qed.

(** ** Properties *)

(** [C6] Commands only move forward under every operation of the controller: through any
    history a command keeps its identity, its worker, its job and its operation, it never
    falls back from accepted or running to the queue, and once completed, failed or
    cancelled it keeps that outcome whatever late acknowledgements, redeliveries,
    watchdogs or forced releases arrive; the evidence that it was delivered and that its
    outcome was notified is never erased. *)
Theorem commands_only_move_forward `{Uuid} cfg tr w c c' :
  commands_ok w → c ∈ db_commands (w_db w) → c' ∈ db_commands (w_db (cluster_run cfg tr w)) →
  cm_id c' = cm_id c → cmd_continues c c'.
Proof.
  intros Hw Hc Hc' Hid. destruct (cluster_run_commands cfg tr w Hw) as [_ Hl].
  destruct (Hl c' Hc') as [(c0&Hc0&C)|(n&Hn&E)].
  - assert (c0 = c) as ->; [|done].
    eapply (unique_index_inj _ _ _ c0 c (proj1 (co_unique _ Hw))); try done.
    rewrite <-Hid. symmetry. apply C.
  - destruct (co_drawn _ Hw c Hc) as (m&Hm&Em). rewrite Hid, Em in E. apply uuid_prefix_inj in E. lia.
Qed.

(** At most one command per worker and operation: in every store the controller can
    reach, two commands of the same worker with the same operation identifier are one
    row, so a replayed request can never make a worker execute its operation twice. *)
Theorem operation_unique `{Uuid} cfg tr c c' :
  let w := cluster_run cfg tr empty_world in
  c ∈ db_commands (w_db w) → c' ∈ db_commands (w_db w) →
  cm_operation_id c ≠ "" → cm_worker_id c = cm_worker_id c' →
  cm_operation_id c = cm_operation_id c' → c = c'.
Proof.
  intros w Hc Hc' Hne Hw Ho.
  destruct (cluster_run_commands cfg tr _ empty_commands_ok) as [[_ [_ Hu] _] _].
  eapply (unique_index_inj _ _ _ c c' Hu); try done; [by apply bool_decide_eq_true| |congruence].
  apply bool_decide_eq_true. congruence.
Qed.

(** ** Witnesses *)

(** The queued start command is delivered, completed, and reported running too late. *)
Lemma commands_only_move_forward_witness :
  let later := [(105, CAck "w" "cmd-4" CmdCompleted no_result ""); (106, CAck "w" "cmd-4" CmdRunning no_result "");
                (900, CPoll "w" 10 30)] in
  let w' := cluster_run (U := counting_uuid) sample_settings later sample_delivered in
  ∃ c c', db_commands (w_db sample_delivered) = [c] ∧ db_commands (w_db w') = [c'] ∧
    cm_status c = CmdDelivered ∧ cm_status c' = CmdCompleted ∧ cmd_continues c c'.
Proof.
  eexists _, _. split; [vm_compute; reflexivity|]. split; [vm_compute; reflexivity|].
  split; [reflexivity|]. split; [reflexivity|].
  apply (commands_only_move_forward (H := counting_uuid) sample_settings
    [(105, CAck "w" "cmd-4" CmdCompleted no_result ""); (106, CAck "w" "cmd-4" CmdRunning no_result "");
     (900, CPoll "w" 10 30)] sample_delivered).
  - unfold sample_delivered, sample_world. do 2 apply cluster_run_commands. apply empty_commands_ok.
  - vm_compute. left.
  - vm_compute. left.
  - reflexivity.
Defined.

(** The same request twice leaves one command. *)
Lemma operation_unique_witness :
  let tr := sample_setup ++ sample_delivery ++ [(110, CCreateCommand sample_start false)] in
  ∃ c, db_commands (w_db (cluster_run (U := counting_uuid) sample_settings tr empty_world)) = [c] ∧ c = c.
Proof.
  eexists. split; [vm_compute; reflexivity|].
  apply (operation_unique (H := counting_uuid) sample_settings
    (sample_setup ++ sample_delivery ++ [(110, CCreateCommand sample_start false)])).
  - vm_compute. left.
  - vm_compute. left.
  - discriminate.
  - reflexivity.
  - reflexivity.
Defined.
