(* ===== verification/ClaimInvariants.v ===== *)
(** The claim registry under the controller: whatever the cluster handlers do to it, with
    every transaction of the other database committing or rolling back, it stays well
    formed and its fencing generations only grow. *)

From S2P Require Import Prelude DeviceClaims JobStateMachine ClusterState Admission ClusterClaims.
From S2P Require Import Reservations Jobs Commands Inventory Reconciliation JobRequests.
From S2P Require Import OperationClaims Transfers Controller Steps.

(** ** Definitions *)

Definition registry_advances `{Uuid} (r r' : registry) : Prop := wf r → wf r' ∧ advances r r'.
Definition claims_rel `{Uuid} : relation world := λ w w', registry_advances (w_claims w) (w_claims w').

(** ** Lemmas *)

#[export] Instance registry_advances_preorder `{Uuid} : PreOrder registry_advances.
Proof.
  split.
  - intros r Hw. by split.
  - intros r1 r2 r3 H1 H2 Hw. destruct (H1 Hw) as [Hw2 A1]. destruct (H2 Hw2) as [Hw3 A2].
    split; [done|by etrans].
Qed.
#[export] Instance claims_rel_store `{Uuid} : StoreRel claims_rel.
Proof.
  split; unfold claims_rel; simpl; try done. split.
  - intros w. by simpl.
  - intros w1 w2 w3 H1 H2. etrans; [exact H1|exact H2].
Qed.

Section claims.
Context `{U : Uuid}.

Lemma step_registry_advances now o r : registry_advances r (step now o r).
Proof. intros Hw. split; [by apply step_wf|apply step_advances]. Qed.
Lemma claims_op_rel {A} (m : M registry A) w :
  (∀ r, registry_advances r (m r).2) → claims_rel w (claims_op m w).2.
Proof. intros Hm. unfold claims_rel, claims_op. specialize (Hm (w_claims w)). by destruct (m (w_claims w)). Qed.

(** The registry operations the handlers use are steps of the registry. *)
Lemma acquire_rel now ds ow us st so ttl al r : registry_advances r (acquire now ds ow us st so ttl al r).2.
Proof. apply (step_registry_advances now (OpAcquire ds ow us st so ttl al)). Qed.
Lemma active_claim_rel now k r : registry_advances r (active_claim now k r).2.
Proof. apply (step_registry_advances now (OpActiveClaim k)). Qed.
Lemma list_active_rel now w o r : registry_advances r (list_active now w o r).2.
Proof. apply (step_registry_advances now (OpListActive w o)). Qed.
Lemma list_by_source_rel now so r : registry_advances r (list_by_source now so r).2.
Proof. apply (step_registry_advances now (OpListBySource so)). Qed.
Lemma renew_rel now so ttl ks r : registry_advances r (renew now so ttl ks r).2.
Proof. apply (step_registry_advances now (OpRenew so ttl ks)). Qed.
Lemma transfer_rel now so so' st ttl ow ks r : registry_advances r (transfer now so so' st ttl ow ks r).2.
Proof. apply (step_registry_advances now (OpTransfer so so' st ttl ow ks)). Qed.
Lemma release_rel now so st ks r : registry_advances r (release now so st ks r).2.
Proof. apply (step_registry_advances now (OpRelease so st ks)). Qed.
Lemma release_operation_rel now k l g so r :
  registry_advances r (release_operation_if_current now k l g so r).2.
Proof. apply (step_registry_advances now (OpReleaseOperation k l g so)). Qed.
Lemma force_release_rel now k r : registry_advances r (force_release now k r).2.
Proof. apply (step_registry_advances now (OpForceRelease k)). Qed.
Lemma step_rel now o r : registry_advances r ((λ r, (Ok tt, step now o r)) r : result unit * registry).2.
Proof. apply step_registry_advances. Qed.
End claims.

#[export] Hint Resolve acquire_rel active_claim_rel list_active_rel list_by_source_rel renew_rel
  transfer_rel release_rel release_operation_rel force_release_rel step_rel : gms.

(** Walk the handler; statements on the cluster database do not matter. *)
Ltac claims_leaf :=
  lazymatch goal with
  | |- preserves (txn_rel _) (claims_op _) =>
      apply claims_op_txn; intros ?; apply claims_op_rel; intros ?; solve [eauto with gms]
  | |- preserves (top_rel _) (claims_op _) =>
      apply claims_op_top; intros ?; apply claims_op_rel; intros ?; solve [eauto with gms]
  | |- preserves (txn_rel _) uuid4_hex => apply uuid_txn; intros ? ?; by split
  | |- preserves (top_rel _) uuid4_hex => apply uuid_top; intros ? ?; by split
  | |- preserves _ (append_timeline_conn _ _) => apply sql_txn; intros ? ?; by split
  | |- preserves _ (sql _) => apply sql_txn; intros ? ?; by split
  | |- preserves _ _ => solve [eauto with gms]
  end.
Ltac claims_walk := repeat first [walk_step | progress cbv zeta | claims_leaf].

Section handlers.
Context `{U : Uuid}.

Lemma transition_claims now i st so m e oi wi pl :
  preserves (txn_rel claims_rel) (transition_job_conn now i st so m e oi wi pl).
Proof. unfold transition_job_conn. claims_walk. Qed.
Lemma expire_claims now : preserves (txn_rel claims_rel) (expire_device_reservations now).
Proof. unfold expire_device_reservations. claims_walk. Qed.
#[local] Hint Resolve transition_claims expire_claims : gms.
Lemma attach_claims now i c b : preserves (txn_rel claims_rel) (attach_command_to_job_conn now i c b).
Proof. unfold attach_command_to_job_conn. claims_walk. Qed.
#[local] Hint Resolve attach_claims : gms.
Lemma create_command_claims now x b : preserves (top_rel claims_rel) (create_command now x b).
Proof.
  unfold create_command, create_new_command, insert_command, require_same_request, get_command. claims_walk.
Qed.
Lemma compensate_claims now i e a : preserves (top_rel claims_rel) (compensate_failed_dispatch now i e a).
Proof. unfold compensate_failed_dispatch, compensate_dispatch_conn. claims_walk. Qed.
Lemma attach_top_claims now i c : preserves (top_rel claims_rel) (attach_command_to_job now i c).
Proof. unfold attach_command_to_job. claims_walk. Qed.
Lemma sync_claims now c : preserves (top_rel claims_rel) (sync_job_from_command now c).
Proof. unfold sync_job_from_command, sync_job_conn. claims_walk. Qed.
Lemma all_fenced_claims now v ks : preserves (top_rel claims_rel) (all_fenced now v ks).
Proof. induction ks; simpl; claims_walk. Qed.
#[local] Hint Resolve create_command_claims compensate_claims attach_top_claims sync_claims
  all_fenced_claims : gms.
Lemma resume_claims now v row : preserves (top_rel claims_rel) (resume_dispatch now v row).
Proof. unfold resume_dispatch, get_command, dispatch_job_start_command. claims_walk. Qed.
#[local] Hint Resolve resume_claims : gms.
Lemma replay_claims fuel now v : preserves (top_rel claims_rel) (replay_job_command fuel now v).
Proof.
  revert v. induction fuel as [|fuel IH]; intros v; simpl; unfold get_command, get_job; claims_walk.
Qed.
Lemma create_job_claims md mm ttl now data :
  preserves (top_rel claims_rel) (create_job_with_leases md mm ttl now data).
Proof.
  unfold create_job_with_leases, create_job_with_leases_metadata, obtain_job_claims, check_reservation,
    get_reservation, refuse_claim, check_worker_capacity, reserved_device_ids, insert_job_rows,
    lease_device, get_job. claims_walk.
Qed.
Lemma replace_devices_claims now w ds ext : preserves (txn_rel claims_rel) (replace_devices now w ds ext).
Proof. unfold replace_devices, upsert_device. claims_walk. Qed.
Lemma replace_suites_claims now w ss : preserves (txn_rel claims_rel) (replace_suites now w ss).
Proof. unfold replace_suites. claims_walk. Qed.
#[local] Hint Resolve replace_devices_claims replace_suites_claims replay_claims create_job_claims : gms.
Lemma heartbeat_claims ttl now w data : preserves (top_rel claims_rel) (heartbeat ttl now w data).
Proof.
  unfold heartbeat, get_worker, emit_worker_availability, replace_worker_tests, heartbeat_job,
    revoke_attempt, confirm_attempt, renew_job_device_claim. claims_walk.
Qed.
#[local] Hint Resolve heartbeat_claims : gms.

Lemma handler_claims cfg now o : preserves (top_rel claims_rel) (handler cfg now o).
Proof.
  destruct o; unfold handler;
    unfold transition_job, fail_abandoned_worker_lost_jobs, fail_abandoned_job,
      owned_reservation_device_ids, get_reservation_by_source, reserve_devices, reserve_new,
      renew_same_reservation, insert_reservation, reservable_device, renew_reservation,
      release_reservation, delete_job, add_events, record_artifact, dispatch_job_start_command,
      enqueue_aoa_debug_command, set_payload, read_aoa_debug_command, request_aoa_playback_control,
      fail_stale_local_device_actions, start_local_command, append_command_events, poll_commands,
      ack_command, get_command, claim_terminal_notification, compact_command_result,
      prune_terminal_command_events, register_worker, delete_worker, refresh_worker_devices,
      mark_worker_offline, replace_worker_suites, list_devices, upsert_seen_device, reconcile_claims,
      reconcile_reservation, reconcile_terminal_job, reconcile_active_job,
      device_action_claim_payload, operation_claim_payload, conflict_409, acquire_device_operation_claim,
      refuse_claim, get_reservation, fenced_local_payload, force_release_local_aoa_operation,
      cancel_operation, get_command_by_operation, create_transfer, update_transfer, get_transfer,
      get_worker, emit_worker_availability;
    claims_walk.
Qed.

Lemma cluster_run_claims cfg tr w :
  settled w → registry_advances (w_claims w) (w_claims (cluster_run cfg tr w)).
Proof.
  unfold cluster_run. revert w. induction tr as [|[now o] tr IH]; intros w Hs; [reflexivity|]. simpl.
  destruct (handler_claims cfg now o w Hs) as [H1 Hs1].
  etrans; [exact H1|]. by apply (IH (cluster_step cfg now o w)).
Qed.
End handlers.

(** ** Properties *)

(** [C4] Physical fencing survives the whole controller: whatever sequence of cluster
    operations runs, with transactions of the cluster database committing or rolling back
    around them, the claim registry never holds two active claims for one device key (nor
    breaks any other of its invariants), never forgets a claim nor revives an ended one, and every claim it gains
    has a generation above all those its device ever had. *)
Theorem controller_keeps_fencing `{Uuid} cfg tr w :
  settled w → wf (w_claims w) →
  let r' := w_claims (cluster_run cfg tr w) in
  wf r' ∧ (∀ c, c ∈ rg_claims (w_claims w) → ∃ c', c' ∈ rg_claims r' ∧ claim_continues c c') ∧
  ∀ c', c' ∈ rg_claims r' →
    (∃ c, c ∈ rg_claims (w_claims w) ∧ claim_continues c c') ∨
    (∀ c, c ∈ rg_claims (w_claims w) → cl_device_key c = cl_device_key c' →
          (cl_generation c < cl_generation c')%Z).
Proof.
  intros Hs Hw r'. destruct (cluster_run_claims cfg tr w Hs Hw) as [Hw' [Hk Hn]]. auto.
Qed.

(** ** Witness *)

Lemma controller_keeps_fencing_witness :
  wf (H := counting_uuid) (w_claims sample_world) ∧
  ∃ c, rg_claims (w_claims sample_world) = [c] ∧ cl_source_id c = "job:job-0" ∧ cl_generation c = 1%Z.
Proof.
  split; [|eexists; vm_compute; split; [reflexivity|split; reflexivity]].
  apply (controller_keeps_fencing (H := counting_uuid) sample_settings sample_setup empty_world);
    [reflexivity|apply empty_registry_wf].
Defined.
