(* ===== verification/LeaseInvariants.v ===== *)
(** One holder per device: the unique indexes [idx_active_device_lease] and
    [idx_active_device_reservation] hold in every store the controller reaches, so its
    updates never run into them. *)

From S2P Require Import Prelude DeviceClaims JobStateMachine ClusterState Admission ClusterClaims.
From S2P Require Import Reservations Jobs Commands Inventory Reconciliation JobRequests.
From S2P Require Import OperationClaims Transfers Controller Steps.

(** ** Definitions *)

Definition leases_ok (l : list lease) : Prop :=
  unique_index (λ _, true) le_id l ∧ unique_index lease_is_active le_device_id l.
Definition reservations_ok (l : list reservation) : Prop :=
  unique_index reservation_is_active rs_device_id l.

Definition leases_rel : relation world := reads db_leases (keeps leases_ok).
Definition reservations_rel : relation world := reads db_reservations (keeps reservations_ok).

(** ** Lemmas *)

#[export] Instance leases_rel_store : StoreRel leases_rel := reads_store _ _.
#[export] Instance reservations_rel_store : StoreRel reservations_rel := reads_store _ _.

(** *** Leases *)

(** A rewrite that keeps identity and never makes a lease active. *)
Lemma leases_update p f l :
  (∀ x, p x = true → le_id (f x) = le_id x ∧ le_device_id (f x) = le_device_id x ∧
        (lease_is_active (f x) = true → lease_is_active x = true)) →
  leases_ok l → leases_ok (update_where p f l).
Proof.
  intros Hf [Hi Hu]. split; apply unique_index_update; try done; intros x _ Hp; by destruct (Hf x Hp) as (?&?&?).
Qed.
Lemma leases_delete p l : leases_ok l → leases_ok (delete_where p l).
Proof. intros [??]. split; by apply unique_index_delete. Qed.

Lemma leases_sql_update p f :
  (∀ x, p x = true → le_id (f x) = le_id x ∧ le_device_id (f x) = le_device_id x ∧
        (lease_is_active (f x) = true → lease_is_active x = true)) →
  preserves (txn_rel leases_rel) (sql (λ d, d <| db_leases ::= update_where p f |>)).
Proof. intros Hf. apply reads_sql. intros d Hok. simpl. by apply leases_update. Qed.

Ltac leases_leaf :=
  lazymatch goal with
  | |- preserves (txn_rel _) (claims_op _) => apply claims_op_txn; intros ?; apply reads_claims, _
  | |- preserves (top_rel _) (claims_op _) => apply claims_op_top; intros ?; apply reads_claims, _
  | |- preserves (txn_rel _) uuid4_hex => apply uuid_txn; intros ?; apply reads_draw, _
  | |- preserves (top_rel _) uuid4_hex => apply uuid_top; intros ?; apply reads_draw, _
  | |- preserves _ (append_timeline_conn _ _) => apply reads_sql_frame; [apply _|reflexivity]
  | |- preserves _ (sql (λ d, @upd _ _ db_leases _ (update_where _ _) d)) =>
      apply leases_sql_update; intros ? ?; split; [done|split; [done|done]]
  | |- preserves _ (sql (λ d, @upd _ _ db_leases _ (@?f d) d)) => fail
  | |- preserves _ (sql _) => apply reads_sql_frame; [apply _|intros ?; reflexivity]
  | |- preserves _ _ => solve [eauto with gms]
  end.
Ltac leases_walk := repeat first [walk_step | progress cbv zeta | leases_leaf].

Section leases.
Context `{U : Uuid}.

Lemma transition_leases now i st so m e oi wi pl :
  preserves (txn_rel leases_rel) (transition_job_conn now i st so m e oi wi pl).
Proof. unfold transition_job_conn. leases_walk. Qed.
Lemma expire_leases now : preserves (txn_rel leases_rel) (expire_device_reservations now).
Proof. unfold expire_device_reservations. leases_walk. Qed.
#[local] Hint Resolve transition_leases expire_leases : gms.

(** The insertion of a lease, after the check that its device is not leased. *)
Lemma insert_lease_leases {A} (row : lease) (f : db → db) (k : M world A) :
  (∀ d, db_leases (f d) = db_leases d ++ [row]) → preserves (txn_rel leases_rel) k →
  ∀ st, device_leased (le_device_id row) (w_db st) = false →
  txn_rel leases_rel st
    ((_ ← constraint (λ d, negb (exists_row (λ l, streqb (le_id l) (le_id row)) (db_leases d))) "device_leases.id";
      _ ← sql f; k) st).2.
Proof.
  intros Hf Hk st Hfree. unfold constraint, select. monad.
  destruct (exists_row _ _) eqn:E; simpl; [reflexivity|].
  etrans; [|apply Hk]. split; [split; [done|]|done]. simpl. rewrite Hf. intros [Hi Hu]. split.
  - apply unique_index_snoc; [done|]. intros _ x Hx _ Heq. rewrite exists_row_false in E.
    specialize (E x Hx). unfold streqb in E. by bool_props.
  - apply unique_index_snoc; [done|]. intros _ x Hx Hax Heq.
    unfold device_leased in Hfree. bool_props. apply Hfree.
    destruct (active_lease _ _) as [y|] eqn:Ey; [by eexists|]. unfold active_lease in Ey.
    rewrite fetchone_None in Ey. specialize (Ey x Hx). unfold streqb in Ey.
    by rewrite Heq, bool_decide_eq_true_2, Hax in Ey.
Qed.
Lemma lease_device_leases ttl now data j a records reserved raw :
  preserves (txn_rel leases_rel) (lease_device ttl now data j a records reserved raw).
Proof.
  intros st. unfold lease_device. cbv zeta. unfold select. rewrite bind_gets.
  destruct (fetchone _ _) as [device|] eqn:Ed; [|reflexivity].
  rewrite bind_require. destruct (_ || mem _ _); [|reflexivity].
  rewrite bind_gets, bind_require. destruct (device_leased _ _) eqn:El; [reflexivity|]. simpl negb. cbv iota.
  rewrite bind_gets. destruct (physical_alias_lease_conflict _ _ _ _); [reflexivity|].
  rewrite bind_ret, bind_gets. destruct (claim_record _ _) as [c|].
  - rewrite bind_ret.
    refine (insert_lease_leases (Lease (cl_id c) _ _ _ _ _ _ LeaseActive _ _ _ _ _) _ _ _ _ st El);
      [reflexivity|leases_walk].
  - rewrite (bind_run _ _ st ("lease-" +:+ uuid_hex (w_drawn st)) (uuid4_hex st).2 eq_refl).
    etrans; [apply uuid_txn; intros ?; apply reads_draw, _|].
    refine (insert_lease_leases (Lease ("lease-" +:+ uuid_hex (w_drawn st)) _ _ _ _ _ _ LeaseActive _ _ _ _ _)
      _ _ _ _ (uuid4_hex st).2 El); [reflexivity|leases_walk].
Qed.
#[local] Hint Resolve lease_device_leases : gms.
Lemma create_job_leases md mm ttl now data :
  preserves (top_rel leases_rel) (create_job_with_leases md mm ttl now data).
Proof.
  unfold create_job_with_leases, create_job_with_leases_metadata, obtain_job_claims, check_reservation,
    get_reservation, refuse_claim, check_worker_capacity, reserved_device_ids, insert_job_rows, get_job.
  leases_walk.
Qed.

(** Reactivation is checked by the index before it is written. *)
Lemma reactivate_leases {A} (g : list lease → list lease) (k : M world A) :
  (∀ l, leases_ok l → unique_index (λ _, true) le_id (g l)) → preserves (txn_rel leases_rel) k →
  preserves (txn_rel leases_rel)
    (_ ← constraint (λ d, bool_decide (NoDup (le_device_id <$> fetchall lease_is_active (g (db_leases d)))))
           "idx_active_device_lease";
     _ ← sql (λ d, d <| db_leases ::= g |>); k).
Proof.
  intros Hg Hk st. unfold constraint, select. monad. destruct (bool_decide _) eqn:E; simpl; [|reflexivity].
  etrans; [|apply Hk]. split; [split; [done|]|done]. simpl. intros Hok.
  split; [by apply Hg|]. by apply bool_decide_eq_true in E.
Qed.
Lemma confirm_leases ttl now w data item j :
  preserves (txn_rel leases_rel) (confirm_attempt ttl now w data item j).
Proof.
  unfold confirm_attempt. cbv zeta. apply preserves_bind; [apply _|leases_walk|intros _].
  apply preserves_bind; [apply _|leases_walk|intros resumed].
  destruct (negb resumed); [leases_walk|]. apply reactivate_leases.
  - intros l [Hi _]. by apply unique_index_update.
  - leases_walk.
Qed.
Lemma replace_devices_leases now w ds ext : preserves (txn_rel leases_rel) (replace_devices now w ds ext).
Proof. unfold replace_devices, upsert_device. leases_walk. Qed.
Lemma replace_suites_leases now w ss : preserves (txn_rel leases_rel) (replace_suites now w ss).
Proof.
  unfold replace_suites. leases_walk. apply reads_sql_frame; [apply _|]. intros d. by case_match.
Qed.
Lemma attach_leases now i c b : preserves (txn_rel leases_rel) (attach_command_to_job_conn now i c b).
Proof. unfold attach_command_to_job_conn. leases_walk. Qed.
#[local] Hint Resolve create_job_leases confirm_leases replace_devices_leases replace_suites_leases
  attach_leases : gms.
Lemma heartbeat_leases ttl now w data : preserves (top_rel leases_rel) (heartbeat ttl now w data).
Proof.
  unfold heartbeat, get_worker, emit_worker_availability, replace_worker_tests, heartbeat_job,
    revoke_attempt, renew_job_device_claim. leases_walk.
Qed.
Lemma create_command_leases now x b : preserves (top_rel leases_rel) (create_command now x b).
Proof.
  unfold create_command, create_new_command, insert_command, require_same_request, get_command. leases_walk.
Qed.
Lemma compensate_leases now i e a : preserves (top_rel leases_rel) (compensate_failed_dispatch now i e a).
Proof. unfold compensate_failed_dispatch, compensate_dispatch_conn. leases_walk. Qed.
Lemma sync_leases now c : preserves (top_rel leases_rel) (sync_job_from_command now c).
Proof. unfold sync_job_from_command, sync_job_conn. leases_walk. Qed.
Lemma attach_top_leases now i c : preserves (top_rel leases_rel) (attach_command_to_job now i c).
Proof. unfold attach_command_to_job. leases_walk. Qed.
Lemma all_fenced_leases now v ks : preserves (top_rel leases_rel) (all_fenced now v ks).
Proof. induction ks; simpl; leases_walk. Qed.
#[local] Hint Resolve heartbeat_leases create_command_leases compensate_leases sync_leases
  attach_top_leases all_fenced_leases : gms.
Lemma replay_leases fuel now v : preserves (top_rel leases_rel) (replay_job_command fuel now v).
Proof.
  revert v. induction fuel as [|fuel IH]; intros v; simpl;
    unfold resume_dispatch, dispatch_job_start_command, get_command, get_job; leases_walk.
Qed.
Lemma delete_job_leases i : preserves (top_rel leases_rel) (delete_job i).
Proof.
  unfold delete_job. leases_walk. apply reads_sql. intros d Hok. by apply leases_delete.
Qed.
#[local] Hint Resolve replay_leases delete_job_leases : gms.

Lemma handler_leases cfg now o : preserves (top_rel leases_rel) (handler cfg now o).
Proof.
  destruct o; unfold handler;
    unfold transition_job, fail_abandoned_worker_lost_jobs, fail_abandoned_job,
      owned_reservation_device_ids, get_reservation_by_source, reserve_devices, reserve_new,
      renew_same_reservation, insert_reservation, reservable_device, renew_reservation,
      release_reservation, add_events, record_artifact, dispatch_job_start_command,
      enqueue_aoa_debug_command, set_payload, read_aoa_debug_command, request_aoa_playback_control,
      fail_stale_local_device_actions, start_local_command, append_command_events, poll_commands,
      ack_command, get_command, claim_terminal_notification, compact_command_result,
      prune_terminal_command_events, register_worker, delete_worker, refresh_worker_devices,
      mark_worker_offline, replace_worker_suites, list_devices, upsert_seen_device, reconcile_claims,
      reconcile_reservation, reconcile_terminal_job, reconcile_active_job,
      device_action_claim_payload, operation_claim_payload, conflict_409, acquire_device_operation_claim,
      refuse_claim, get_reservation, fenced_local_payload, force_release_local_aoa_operation,
      cancel_operation, get_command_by_operation, create_transfer, update_transfer, get_transfer,
      get_worker, emit_worker_availability;
    leases_walk.
  all: apply reads_sql_frame; [apply _|]; intros d; by case_match.
Qed.
End leases.

(** *** Reservations *)

Lemma reservations_update p f l :
  (∀ x, p x = true → rs_device_id (f x) = rs_device_id x ∧
        (reservation_is_active (f x) = true → reservation_is_active x = true)) →
  reservations_ok l → reservations_ok (update_where p f l).
Proof. intros Hf Hu. apply unique_index_update; try done; intros x _ Hp; by destruct (Hf x Hp). Qed.
Lemma end_reservation_inactive now st x :
  st ≠ ResActive → reservation_is_active (end_reservation now st x) = true → reservation_is_active x = true.
Proof. intros Hst H. unfold reservation_is_active in H. simpl in H. by bool_props. Qed.
Lemma reservations_sql_update p f :
  (∀ x, p x = true → rs_device_id (f x) = rs_device_id x ∧
        (reservation_is_active (f x) = true → reservation_is_active x = true)) →
  preserves (txn_rel reservations_rel) (sql (λ d, d <| db_reservations ::= update_where p f |>)).
Proof. intros Hf. apply reads_sql. intros d Hok. simpl. by apply reservations_update. Qed.

Ltac reservations_leaf :=
  lazymatch goal with
  | |- preserves (txn_rel _) (claims_op _) => apply claims_op_txn; intros ?; apply reads_claims, _
  | |- preserves (top_rel _) (claims_op _) => apply claims_op_top; intros ?; apply reads_claims, _
  | |- preserves (txn_rel _) uuid4_hex => apply uuid_txn; intros ?; apply reads_draw, _
  | |- preserves (top_rel _) uuid4_hex => apply uuid_top; intros ?; apply reads_draw, _
  | |- preserves _ (append_timeline_conn _ _) => apply reads_sql_frame; [apply _|reflexivity]
  | |- preserves _ (sql (λ d, @upd _ _ db_reservations _ (update_where _ _) d)) =>
      apply reservations_sql_update; intros ? ?; split; [done|];
      first [done | by apply end_reservation_inactive]
  | |- preserves _ (sql (λ d, @upd _ _ db_reservations _ (@?f d) d)) => fail
  | |- preserves _ (sql _) => apply reads_sql_frame; [apply _|intros ?; reflexivity]
  | |- preserves _ _ => solve [eauto with gms]
  end.
Ltac reservations_walk := repeat first [walk_step | progress cbv zeta | reservations_leaf].

Section reservations.
Context `{U : Uuid}.

Lemma insert_reservation_ok now i w ow so ttl device :
  preserves (txn_rel reservations_rel) (insert_reservation now i w ow so ttl device).
Proof.
  unfold insert_reservation. apply preserves_bind; [apply _|reservations_walk|intros hex].
  intros st. unfold constraint, select. monad. destruct (device_reserved _ _) eqn:E; simpl; [reflexivity|].
  split; [split; [done|]|done]. simpl. intros Hu. apply unique_index_snoc; [done|].
  intros _ x Hx Ha Heq. unfold device_reserved in E. rewrite exists_row_false in E.
  specialize (E x Hx). unfold streqb in E. simpl in Heq. by rewrite Heq, bool_decide_eq_true_2, Ha in E.
Qed.
Lemma transition_reservations now i st so m e oi wi pl :
  preserves (txn_rel reservations_rel) (transition_job_conn now i st so m e oi wi pl).
Proof. unfold transition_job_conn. reservations_walk. Qed.
Lemma expire_reservations_ok now : preserves (txn_rel reservations_rel) (expire_device_reservations now).
Proof. unfold expire_device_reservations. reservations_walk. Qed.
#[local] Hint Resolve insert_reservation_ok transition_reservations expire_reservations_ok : gms.
Lemma attach_reservations now i c b : preserves (txn_rel reservations_rel) (attach_command_to_job_conn now i c b).
Proof. unfold attach_command_to_job_conn. reservations_walk. Qed.
#[local] Hint Resolve attach_reservations : gms.
Lemma release_reservation_ok now i s : preserves (top_rel reservations_rel) (release_reservation now i s).
Proof.
  unfold release_reservation. destruct (parse_reservation_status s) as [st|] eqn:E; [|reservations_walk].
  assert (st ≠ ResActive).
  { unfold parse_reservation_status in E. repeat case_match; by simplify_eq. }
  reservations_walk.
Qed.
Lemma create_job_reservations md mm ttl now data :
  preserves (top_rel reservations_rel) (create_job_with_leases md mm ttl now data).
Proof.
  unfold create_job_with_leases, create_job_with_leases_metadata, obtain_job_claims, check_reservation,
    get_reservation, refuse_claim, check_worker_capacity, reserved_device_ids, insert_job_rows, lease_device,
    get_job. reservations_walk.
Qed.
Lemma replace_devices_reservations now w ds ext :
  preserves (txn_rel reservations_rel) (replace_devices now w ds ext).
Proof. unfold replace_devices, upsert_device. reservations_walk. Qed.
Lemma replace_suites_reservations now w ss : preserves (txn_rel reservations_rel) (replace_suites now w ss).
Proof.
  unfold replace_suites. reservations_walk. apply reads_sql_frame; [apply _|]. intros d. by case_match.
Qed.
Lemma create_command_reservations now x b : preserves (top_rel reservations_rel) (create_command now x b).
Proof.
  unfold create_command, create_new_command, insert_command, require_same_request, get_command. reservations_walk.
Qed.
Lemma compensate_reservations now i e a : preserves (top_rel reservations_rel) (compensate_failed_dispatch now i e a).
Proof. unfold compensate_failed_dispatch, compensate_dispatch_conn. reservations_walk. Qed.
Lemma sync_reservations now c : preserves (top_rel reservations_rel) (sync_job_from_command now c).
Proof. unfold sync_job_from_command, sync_job_conn. reservations_walk. Qed.
Lemma attach_top_reservations now i c : preserves (top_rel reservations_rel) (attach_command_to_job now i c).
Proof. unfold attach_command_to_job. reservations_walk. Qed.
Lemma all_fenced_reservations now v ks : preserves (top_rel reservations_rel) (all_fenced now v ks).
Proof. induction ks; simpl; reservations_walk. Qed.
#[local] Hint Resolve release_reservation_ok create_job_reservations replace_devices_reservations
  replace_suites_reservations create_command_reservations compensate_reservations sync_reservations
  attach_top_reservations all_fenced_reservations : gms.
Lemma replay_reservations fuel now v : preserves (top_rel reservations_rel) (replay_job_command fuel now v).
Proof.
  revert v. induction fuel as [|fuel IH]; intros v; simpl;
    unfold resume_dispatch, dispatch_job_start_command, get_command, get_job; reservations_walk.
Qed.
#[local] Hint Resolve replay_reservations : gms.

Lemma handler_reservations cfg now o : preserves (top_rel reservations_rel) (handler cfg now o).
Proof.
  destruct o; unfold handler;
    unfold transition_job, fail_abandoned_worker_lost_jobs, fail_abandoned_job, delete_job,
      owned_reservation_device_ids, get_reservation_by_source, reserve_devices, reserve_new,
      renew_same_reservation, reservable_device, renew_reservation, heartbeat, heartbeat_job,
      revoke_attempt, confirm_attempt, renew_job_device_claim, replace_worker_tests,
      add_events, record_artifact, dispatch_job_start_command,
      enqueue_aoa_debug_command, set_payload, read_aoa_debug_command, request_aoa_playback_control,
      fail_stale_local_device_actions, start_local_command, append_command_events, poll_commands,
      ack_command, get_command, claim_terminal_notification, compact_command_result,
      prune_terminal_command_events, register_worker, delete_worker, refresh_worker_devices,
      mark_worker_offline, replace_worker_suites, list_devices, upsert_seen_device, reconcile_claims,
      reconcile_reservation, reconcile_terminal_job, reconcile_active_job,
      device_action_claim_payload, operation_claim_payload, conflict_409, acquire_device_operation_claim,
      refuse_claim, get_reservation, fenced_local_payload, force_release_local_aoa_operation,
      cancel_operation, get_command_by_operation, create_transfer, update_transfer, get_transfer,
      get_worker, emit_worker_availability;
    reservations_walk.
  all: apply reads_sql_frame; [apply _|]; intros d; by case_match.
Qed.

(** *** Histories *)

Lemma cluster_run_holders cfg tr w :
  settled w → leases_ok (db_leases (w_db w)) → reservations_ok (db_reservations (w_db w)) →
  let w' := cluster_run cfg tr w in
  settled w' ∧ leases_ok (db_leases (w_db w')) ∧ reservations_ok (db_reservations (w_db w')).
Proof.
  unfold cluster_run. revert w. induction tr as [|[now o] tr IH]; intros w Hs Hl Hr; [done|]. simpl.
  destruct (handler_leases cfg now o w Hs) as [[_ H1] Hs1].
  destruct (handler_reservations cfg now o w Hs) as [[_ H2] _].
  apply (IH (cluster_step cfg now o w) Hs1); [by apply H1|by apply H2].
Qed.
End reservations.

(** ** Properties *)

(** [C7] One holder per device: in every store the controller reaches, whatever order jobs,
    reservations, heartbeats, losses, recoveries and reconciliations come in, a device has
    at most one active lease and at most one active reservation. *)
Theorem one_holder_per_device `{Uuid} cfg tr :
  let d := w_db (cluster_run cfg tr empty_world) in
  (∀ l l', l ∈ db_leases d → l' ∈ db_leases d → lease_is_active l = true → lease_is_active l' = true →
     le_device_id l = le_device_id l' → l = l') ∧
  (∀ r r', r ∈ db_reservations d → r' ∈ db_reservations d →
     reservation_is_active r = true → reservation_is_active r' = true →
     rs_device_id r = rs_device_id r' → r = r').
Proof.
  destruct (cluster_run_holders cfg tr empty_world) as (_&[_ Hl]&Hr); [done|split; constructor|constructor|].
  split.
  - intros l l' ????. by apply (unique_index_inj _ _ _ l l' Hl).
  - intros r r' ????. by apply (unique_index_inj _ _ _ r r' Hr).
Qed.
