(* ===== verification/WorkerInvariants.v ===== *)
(** Worker sessions: the generation of a worker's connection never goes back, so a
    superseded worker process is locked out for good. *)

From S2P Require Import Prelude DeviceClaims JobStateMachine ClusterState Admission ClusterClaims.
From S2P Require Import Reservations Jobs Commands Inventory Reconciliation JobRequests.
From S2P Require Import OperationClaims Transfers Controller Steps.

Open Scope Z_scope.

(** ** Definitions *)

(** [x'] is a later state of the row of the worker [x]. *)
Record worker_continues (x x' : worker) : Prop := {
  wc_id : wk_id x' = wk_id x;
  wc_generation : wk_connection_generation x ≤ wk_connection_generation x';
  wc_session : wk_connection_generation x' = wk_connection_generation x → wk_session_id x' = wk_session_id x;
  wc_tracked : wk_session_id x ≠ "" → wk_session_id x' ≠ "";
}.

(** The table keeps its index, and the row of [worker_id] if it has one. *)
Definition workers_advance (worker_id : string) : relation (list worker) := λ l l',
  unique_index (λ _, true) wk_id l → unique_index (λ _, true) wk_id l' ∧
  ∀ x, x ∈ l → wk_id x = worker_id → ∃ x', x' ∈ l' ∧ worker_continues x x'.
Definition workers_rel (worker_id : string) : relation world := reads db_workers (workers_advance worker_id).

(** ** Lemmas *)

#[export] Instance worker_continues_preorder : PreOrder worker_continues.
Proof.
  split.
  - intros x. by split.
  - intros x y z [] []. split; [congruence|lia| |auto]. intros E.
    rewrite wc_session1, wc_session0; [done|lia|lia].
Qed.
#[export] Instance workers_advance_preorder i : PreOrder (workers_advance i).
Proof.
  split.
  - intros l Hu. split; [done|]. intros x Hx _. by exists x.
  - intros l1 l2 l3 H1 H2 Hu. destruct (H1 Hu) as [Hu2 A1]. destruct (H2 Hu2) as [Hu3 A2]. split; [done|].
    intros x Hx Hi. destruct (A1 x Hx Hi) as (y&Hy&C1).
    destruct (A2 y Hy) as (z&Hz&C2); [rewrite <-Hi; apply C1|]. exists z. split; [done|by etrans].
Qed.
#[export] Instance workers_rel_store i : StoreRel (workers_rel i) := reads_store _ _.

Section workers.
Context (i : string).

Lemma workers_update p f l :
  (∀ x, x ∈ l → p x = true → worker_continues x (f x)) → workers_advance i l (update_where p f l).
Proof.
  intros Hf Hu. split.
  - apply unique_index_update; [done|done|]. intros x Hx Hp. apply (Hf x Hx Hp).
  - intros x Hx _. exists (if p x then f x else x). split; [apply elem_of_update_where; eauto|].
    destruct (p x) eqn:E; [by apply Hf|done].
Qed.
Lemma workers_delete j l : j ≠ i → workers_advance i l (delete_where (λ x, streqb (wk_id x) j) l).
Proof.
  intros Hne Hu. split; [by apply unique_index_delete|]. intros x Hx <-. exists x. split; [|done].
  apply elem_of_delete_where. split; [done|]. by apply bool_decide_eq_false_2.
Qed.
Lemma workers_insert x l :
  fetchone (λ y, streqb (wk_id y) (wk_id x)) l = None → workers_advance i l (l ++ [x]).
Proof.
  intros Hn Hu. split.
  - apply unique_index_snoc; [done|]. intros _ y Hy _ E. rewrite fetchone_None in Hn. specialize (Hn y Hy).
    unfold streqb in Hn. by bool_props.
  - intros y Hy _. exists y. split; [apply elem_of_app; by left|done].
Qed.
End workers.

Ltac workers_leaf :=
  lazymatch goal with
  | |- preserves (txn_rel _) (claims_op _) => apply claims_op_txn; intros ?; apply reads_claims, _
  | |- preserves (top_rel _) (claims_op _) => apply claims_op_top; intros ?; apply reads_claims, _
  | |- preserves (txn_rel _) uuid4_hex => apply uuid_txn; intros ?; apply reads_draw, _
  | |- preserves (top_rel _) uuid4_hex => apply uuid_top; intros ?; apply reads_draw, _
  | |- preserves _ (append_timeline_conn _ _) => apply reads_sql_frame; [apply _|reflexivity]
  | |- preserves _ (sql (λ d, @upd _ _ db_workers _ (@?f d) d)) => fail
  | |- preserves _ (sql _) => apply reads_sql_frame; [apply _|intros ?; reflexivity]
  | |- preserves _ _ => solve [eauto with gms]
  end.
Ltac workers_walk := repeat first [walk_step | progress cbv zeta | workers_leaf].

Section handlers.
Context `{U : Uuid} (i : string).

Lemma transition_workers now j st so m e oi wi pl :
  preserves (txn_rel (workers_rel i)) (transition_job_conn now j st so m e oi wi pl).
Proof. unfold transition_job_conn. workers_walk. Qed.
Lemma expire_workers now : preserves (txn_rel (workers_rel i)) (expire_device_reservations now).
Proof. unfold expire_device_reservations. workers_walk. Qed.
Lemma replace_devices_workers now w ds ext : preserves (txn_rel (workers_rel i)) (replace_devices now w ds ext).
Proof. unfold replace_devices, upsert_device. workers_walk. Qed.
Lemma replace_suites_workers now w ss : preserves (txn_rel (workers_rel i)) (replace_suites now w ss).
Proof. unfold replace_suites. workers_walk; apply reads_sql_frame; [apply _|intros d; by case_match]. Qed.
Lemma attach_workers now j c b : preserves (txn_rel (workers_rel i)) (attach_command_to_job_conn now j c b).
Proof. unfold attach_command_to_job_conn. pose proof transition_workers. workers_walk. Qed.
#[local] Hint Resolve transition_workers expire_workers replace_devices_workers replace_suites_workers
  attach_workers : gms.

(** The handlers that write the table. *)
Lemma heartbeat_workers ttl now w data : preserves (top_rel (workers_rel i)) (heartbeat ttl now w data).
Proof.
  unfold heartbeat, get_worker, emit_worker_availability, replace_worker_tests, heartbeat_job,
    revoke_attempt, confirm_attempt, renew_job_device_claim. workers_walk.
  all: apply reads_sql; intros d; apply workers_update; intros x _ _; by split.
Qed.
Lemma mark_offline_workers now w : preserves (top_rel (workers_rel i)) (mark_worker_offline now w).
Proof.
  unfold mark_worker_offline, emit_worker_availability. workers_walk.
  all: apply reads_sql; intros d; apply workers_update; intros x _ _; by split.
Qed.
Lemma delete_worker_workers w : w ≠ i → preserves (top_rel (workers_rel i)) (delete_worker w).
Proof.
  intros Hne. unfold delete_worker. workers_walk. apply reads_sql. intros d. simpl. by apply workers_delete.
Qed.
Lemma register_workers m now data : preserves (top_rel (workers_rel i)) (register_worker m now data).
Proof.
  unfold register_worker, get_worker, emit_worker_availability. cbv zeta.
  apply preserves_bind; [apply _| |intros [rec ex]; workers_walk].
  apply transaction_top; [apply _|]. intros st. rewrite bind_select.
  set (existing := get_worker_row (reg_worker_id data) (w_db st)). rewrite bind_sql.
  match goal with |- txn_rel ?R st (?m ?st1).2 =>
    assert (txn_rel R st st1) as H1; [|etrans; [exact H1|]; enough (preserves (txn_rel R) m) as Hm by apply Hm;
      workers_walk] end.
  split; [split; [done|]|done]. destruct existing as [old|] eqn:E; subst existing; simpl.
  - intros Hu. apply workers_update; [|done]. intros x Hx Hp. unfold streqb in Hp. bool_props.
    apply fetchone_Some in E as [Hold Hid]. unfold streqb in Hid. bool_props.
    assert (x = old) as -> by (eapply (unique_index_inj _ _ _ x old Hu); done || congruence).
    unfold nonempty, streqb, str_or. split; simpl; repeat case_bool_decide; simpl; try done; try lia.
    all: destruct (decide _); try done; try lia.
  - apply workers_insert. exact E.
Qed.
#[local] Hint Resolve heartbeat_workers mark_offline_workers register_workers : gms.

(** The others do not write it. *)
Lemma create_job_workers md mm ttl now data :
  preserves (top_rel (workers_rel i)) (create_job_with_leases md mm ttl now data).
Proof.
  unfold create_job_with_leases, create_job_with_leases_metadata, obtain_job_claims, check_reservation,
    get_reservation, refuse_claim, check_worker_capacity, reserved_device_ids, insert_job_rows, lease_device, get_job.
  workers_walk.
Qed.
Lemma create_command_workers now x b : preserves (top_rel (workers_rel i)) (create_command now x b).
Proof.
  unfold create_command, create_new_command, insert_command, require_same_request, get_command. workers_walk.
Qed.
Lemma compensate_workers now j e a : preserves (top_rel (workers_rel i)) (compensate_failed_dispatch now j e a).
Proof. unfold compensate_failed_dispatch, compensate_dispatch_conn. workers_walk. Qed.
Lemma sync_workers now c : preserves (top_rel (workers_rel i)) (sync_job_from_command now c).
Proof. unfold sync_job_from_command, sync_job_conn. workers_walk. Qed.
Lemma attach_top_workers now j c : preserves (top_rel (workers_rel i)) (attach_command_to_job now j c).
Proof. unfold attach_command_to_job. workers_walk. Qed.
Lemma all_fenced_workers now v ks : preserves (top_rel (workers_rel i)) (all_fenced now v ks).
Proof. induction ks; simpl; workers_walk. Qed.
#[local] Hint Resolve create_job_workers create_command_workers compensate_workers sync_workers
  attach_top_workers all_fenced_workers : gms.
Lemma replay_workers fuel now v : preserves (top_rel (workers_rel i)) (replay_job_command fuel now v).
Proof.
  revert v. induction fuel as [|fuel IH]; intros v; simpl;
    unfold resume_dispatch, dispatch_job_start_command, get_command, get_job; workers_walk.
Qed.
#[local] Hint Resolve replay_workers : gms.

Lemma handler_workers cfg now o :
  o ≠ CDeleteWorker i → preserves (top_rel (workers_rel i)) (handler cfg now o).
Proof.
  intros Hne. assert ((∃ w, o = CDeleteWorker w) ∨ ∀ w, o ≠ CDeleteWorker w) as [[w ->]|Hnd]
    by (destruct o; solve [by right|left; eauto]).
  { apply preserves_bind; [apply _|apply delete_worker_workers; congruence|intros; apply preserves_ret, _]. }
  destruct o; try (by destruct (Hnd _ eq_refl)); clear Hne Hnd; unfold handler;
    unfold transition_job, fail_abandoned_worker_lost_jobs, fail_abandoned_job,
      owned_reservation_device_ids, get_reservation_by_source, reserve_devices, reserve_new,
      renew_same_reservation, insert_reservation, reservable_device, renew_reservation,
      release_reservation, delete_job, add_events, record_artifact, dispatch_job_start_command,
      enqueue_aoa_debug_command, set_payload, read_aoa_debug_command, request_aoa_playback_control,
      fail_stale_local_device_actions, start_local_command, append_command_events, poll_commands,
      ack_command, get_command, claim_terminal_notification, compact_command_result,
      prune_terminal_command_events, refresh_worker_devices,
      replace_worker_suites, list_devices, upsert_seen_device, reconcile_claims,
      reconcile_reservation, reconcile_terminal_job, reconcile_active_job,
      device_action_claim_payload, operation_claim_payload, conflict_409, acquire_device_operation_claim,
      refuse_claim, get_reservation, fenced_local_payload, force_release_local_aoa_operation,
      cancel_operation, get_command_by_operation, create_transfer, update_transfer, get_transfer;
    workers_walk.
  all: apply reads_sql_frame; [apply _|]; intros d; by case_match.
Qed.
Lemma cluster_run_workers cfg tr w :
  settled w → unique_index (λ _, true) wk_id (db_workers (w_db w)) →
  (∀ now, (now, CDeleteWorker i) ∉ tr) →
  let w' := cluster_run cfg tr w in
  settled w' ∧ unique_index (λ _, true) wk_id (db_workers (w_db w')) ∧
  ∀ x, x ∈ db_workers (w_db w) → wk_id x = i → ∃ x', x' ∈ db_workers (w_db w') ∧ worker_continues x x'.
Proof.
  intros Hs Hu Hn. assert (settled (cluster_run cfg tr w) ∧ workers_rel i w (cluster_run cfg tr w)) as [Hs' [_ H]].
  { clear Hu. unfold cluster_run. revert w Hs. induction tr as [|[now o] tr IH]; intros w Hs; [by split|]. simpl.
    assert (o ≠ CDeleteWorker i) as Hne by (intros ->; apply (Hn now); left).
    destruct (handler_workers cfg now o Hne w Hs) as [H1 Hs1].
    destruct (IH ltac:(intros t Ht; apply (Hn t); by right) (cluster_step cfg now o w) Hs1) as [Hs2 H2].
    split; [exact Hs2|by etrans]. }
  destruct (H Hu) as [Hu' A]. by split.
Qed.
End handlers.

(** ** Properties *)

(** A superseded worker process is locked out for good: once the session a process
    reports is stale (another process of the worker registered since), every heartbeat it
    sends is refused and changes nothing in the store, whatever happened in between, for
    as long as the worker is not removed; the row of the worker meanwhile keeps a session,
    never takes an older generation, and keeps its session within one generation. *)
Theorem stale_session_locked_out `{Uuid} cfg tr ttl now data x w :
  settled w → unique_index (λ _, true) wk_id (db_workers (w_db w)) → x ∈ db_workers (w_db w) →
  (∀ now, (now, CDeleteWorker (wk_id x)) ∉ tr) →
  stale_session data x = true → hb_connection_generation data ≤ wk_connection_generation x →
  let w' := cluster_run cfg tr w in
  heartbeat ttl now (wk_id x) data w' = (Err (ValueError "stale worker session"), w') ∧
  ∃ x', x' ∈ db_workers (w_db w') ∧ worker_continues x x'.
Proof.
  intros Hs Hu Hx Hn Hst Hgen w'.
  destruct (cluster_run_workers (wk_id x) cfg tr w Hs Hu Hn) as (Hs'&Hu'&A). fold w' in Hs', Hu', A.
  destruct (A x Hx eq_refl) as (x'&Hx'&C). split; [|by exists x'].
  assert (stale_session data x' = true) as Hst'.
  { unfold stale_session, nonempty, streqb in *. apply andb_true_iff in Hst as [Hne Hd]. bool_props.
    apply andb_true_iff. split; [apply bool_decide_eq_true, (wc_tracked _ _ C), Hne|].
    apply orb_true_iff. destruct (decide (wk_connection_generation x' = wk_connection_generation x)) as [E|E].
    - by rewrite (wc_session _ _ C E), E, <-orb_true_iff.
    - right. apply negb_true_iff, Z.eqb_neq. pose proof (wc_generation _ _ C). lia. }
  assert (get_worker_row (wk_id x) (w_db w') = Some x') as Hrow.
  { rewrite <-(wc_id _ _ C). eapply fetchone_unique; [exact Hu'|done|]. intros y _. apply bool_decide_eq_true. }
  unfold heartbeat. cbv zeta. apply bind_Err, transaction_refused; [done|].
  rewrite bind_select, Hrow. by rewrite bind_require, Hst'.
Qed.

(** ** Witness *)

(** The worker restarts with the session [s2]; the old process reports again. *)
Lemma stale_session_locked_out_witness : ∃ w x,
  wk_session_id x = "s2" ∧
  let w' := cluster_run (U := counting_uuid) sample_settings [(300, CMarkOffline "w"); (310, CReconcile)] w in
  heartbeat 90 320 "w" (sample_heartbeat [] "s") w'
    = (Err (ValueError "stale worker session"), w').
Proof.
  set (w := cluster_run (U := counting_uuid) sample_settings
    [(200, CRegister (Registration "w" "rack" "host" "10.0.0.2" "1.1" [] None "s2"))] sample_world).
  assert (∃ x, x ∈ db_workers (w_db w) ∧ wk_id x = "w" ∧ wk_session_id x = "s2" ∧
    stale_session (sample_heartbeat [] "s") x = true ∧ wk_connection_generation x = 2)
    as (x&Hx&Hi&Hse&Hst&Hg) by (eexists; split; [vm_compute; left|]; split; [reflexivity|]; by split).
  assert (settled w) as Hs by (vm_compute; reflexivity).
  assert (unique_index (λ _, true) wk_id (db_workers (w_db w))) as Hu.
  { unfold unique_index. vm_compute. apply NoDup_singleton. }
  clearbody w. exists w, x. split; [done|].
  destruct (stale_session_locked_out (H := counting_uuid) sample_settings [(300, CMarkOffline "w"); (310, CReconcile)]
    90 320 (sample_heartbeat [] "s") x w) as [Hrun _]; try done.
  - intros now. rewrite !elem_of_cons. intros [|[|Hin]]; [done|done|by apply not_elem_of_nil in Hin].
  - rewrite Hg. done.
  - by rewrite Hi in Hrun.
Defined.
