(* ===== verification/InventoryInvariants.v ===== *)
(** Every handler of the controller keeps the device inventory keyed: identifiers are unique and
    spell out the worker and the serial number.  Placement relies on it. *)

From S2P Require Import Prelude DeviceClaims JobStateMachine ClusterState Admission ClusterClaims.
From S2P Require Import Reservations Jobs Commands Inventory Reconciliation JobRequests.
From S2P Require Import OperationClaims Transfers Controller Steps.

Open Scope Z_scope.

Definition keyed (l : list device_row) : Prop :=
  NoDup (dev_id <$> l) ∧ ∀ r, r ∈ l → dev_id r = dev_worker_id r +:+ ":" +:+ dev_serial r.
Definition inventory_keyed (d : db) : Prop := keyed (db_devices d).
Definition keyed_still (l l' : list device_row) : Prop := keyed l → keyed l'.
Definition devices_rel : relation world := reads db_devices keyed_still.
#[export] Instance keyed_still_preorder : PreOrder keyed_still.
Proof. split; unfold keyed_still; [by intros x Hx|]. intros x y z H1 H2 Hx. by apply H2, H1. Qed.
#[export] Instance devices_rel_store : StoreRel devices_rel := reads_store _ _.

(** The three shapes of statement on the table. *)
Lemma devices_update p f l :
  (∀ r, dev_id (f r) = dev_id r ∧ dev_worker_id (f r) = dev_worker_id r ∧ dev_serial (f r) = dev_serial r) →
  keyed_still l (update_where p f l).
Proof.
  intros Hf [Hn Hk]. split.
  - rewrite fmap_update_where; [done|]. intros x _. apply Hf.
  - intros r (x&Hx&->)%elem_of_update_where. destruct (p x); [|by apply Hk]. destruct (Hf x) as (->&->&->). by apply Hk.
Qed.
Lemma devices_delete p l : keyed_still l (delete_where p l).
Proof.
  intros [Hn Hk]. split.
  - eapply sublist_NoDup; [exact Hn|]. apply fmap_sublist, sublist_filter.
  - intros r [Hr _]%elem_of_delete_where. by apply Hk.
Qed.
Lemma devices_insert worker_id serial transport state properties a b c l :
  fetchone (λ r, streqb (dev_id r) (worker_id +:+ ":" +:+ serial)) l = None →
  keyed_still l (l ++ [DeviceRow (worker_id +:+ ":" +:+ serial) worker_id serial transport state properties a b c]).
Proof.
  intros Hnone [Hn Hk]. rewrite fetchone_None in Hnone. split.
  - rewrite fmap_app. apply NoDup_app. split_and!; [done| |apply NoDup_singleton].
    intros i (r&->&Hr)%list_elem_of_fmap Hi%list_elem_of_singleton. specialize (Hnone r Hr). cbn in Hi. by bool_props.
  - intros r [Hr| ->%list_elem_of_singleton]%elem_of_app; [by apply Hk|done].
Qed.

Ltac devices_leaf :=
  lazymatch goal with
  | |- preserves (txn_rel _) (claims_op _) => apply claims_op_txn; intros ?; apply reads_claims, _
  | |- preserves (top_rel _) (claims_op _) => apply claims_op_top; intros ?; apply reads_claims, _
  | |- preserves (txn_rel _) uuid4_hex => apply uuid_txn; intros ?; apply reads_draw, _
  | |- preserves (top_rel _) uuid4_hex => apply uuid_top; intros ?; apply reads_draw, _
  | |- preserves _ (append_timeline_conn _ _) => apply reads_sql_frame; [apply _|reflexivity]
  | |- preserves _ (sql _) => first
      [ apply reads_sql_frame; [apply _|intros ?; reflexivity]
      | apply reads_sql; intros ?; apply devices_update; intros ?; split_and!; reflexivity
      | apply reads_sql; intros ?; apply devices_delete ]
  | |- preserves _ _ => solve [eauto with gms]
  end.
Ltac devices_walk := repeat first [walk_step | progress cbv zeta | devices_leaf].

Section handlers.
Context `{U : Uuid}.

Lemma transition_devices now j st so m e oi wi pl :
  preserves (txn_rel devices_rel) (transition_job_conn now j st so m e oi wi pl).
Proof. unfold transition_job_conn. devices_walk. Qed.
Lemma expire_devices now : preserves (txn_rel devices_rel) (expire_device_reservations now).
Proof. unfold expire_device_reservations, free_reserved_device. devices_walk. Qed.
Lemma upsert_device_devices now w ext x : preserves (txn_rel devices_rel) (upsert_device now w ext x).
Proof.
  unfold upsert_device, reported_id. cbv zeta. intros st. rewrite bind_select. destruct (get_device_row _ _) as [r|] eqn:Er.
  - apply sql_txn. intros st'. split; [done|]. apply devices_update. intros r'. by split_and!.
  - unfold constraint, mbind, M_bind, select, gets, require. destruct (bool_decide _); [|by reflexivity].
    split; [split; [done|]|done]. by apply devices_insert.
Qed.
Lemma seen_device_devices now w serial : preserves (top_rel devices_rel) (upsert_seen_device now w serial).
Proof.
  unfold upsert_seen_device. cbv zeta. apply transaction_top; [apply _|]. intros st. rewrite bind_select.
  destruct (get_device_row _ _) as [r|] eqn:Er.
  - apply sql_txn. intros st'. split; [done|]. apply devices_update. intros r'. by split_and!.
  - unfold constraint, mbind, M_bind, select, gets, require. destruct (bool_decide _); [|by reflexivity].
    split; [split; [done|]|done]. by apply devices_insert.
Qed.
#[local] Hint Resolve transition_devices expire_devices upsert_device_devices seen_device_devices : gms.
Lemma replace_devices_devices now w ds ext : preserves (txn_rel devices_rel) (replace_devices now w ds ext).
Proof. unfold replace_devices. devices_walk. Qed.
Lemma replace_suites_devices now w ss : preserves (txn_rel devices_rel) (replace_suites now w ss).
Proof. unfold replace_suites. devices_walk; apply reads_sql_frame; [apply _|intros d; by case_match]. Qed.
Lemma attach_devices now j c b : preserves (txn_rel devices_rel) (attach_command_to_job_conn now j c b).
Proof. unfold attach_command_to_job_conn. devices_walk. Qed.
#[local] Hint Resolve replace_devices_devices replace_suites_devices attach_devices : gms.

(** A statement that updates rows of other tables besides, or a part of the device table. *)
Ltac devices_sql := apply reads_sql; intros d; repeat case_match; first [reflexivity
  | apply devices_update; intros ?; split_and!; reflexivity | apply devices_delete].
Lemma heartbeat_devices ttl now w data : preserves (top_rel devices_rel) (heartbeat ttl now w data).
Proof.
  unfold heartbeat, get_worker, emit_worker_availability, replace_worker_tests, heartbeat_job,
    revoke_attempt, confirm_attempt, renew_job_device_claim. devices_walk; devices_sql.
Qed.
Lemma mark_offline_devices now w : preserves (top_rel devices_rel) (mark_worker_offline now w).
Proof. unfold mark_worker_offline, emit_worker_availability. devices_walk; devices_sql. Qed.
Lemma delete_worker_devices w : preserves (top_rel devices_rel) (delete_worker w).
Proof. unfold delete_worker. devices_walk; devices_sql. Qed.
Lemma register_devices m now data : preserves (top_rel devices_rel) (register_worker m now data).
Proof. unfold register_worker, get_worker, emit_worker_availability. devices_walk; devices_sql. Qed.
Lemma create_job_devices md mm ttl now data : preserves (top_rel devices_rel) (create_job_with_leases md mm ttl now data).
Proof.
  unfold create_job_with_leases, create_job_with_leases_metadata, obtain_job_claims, check_reservation,
    get_reservation, refuse_claim, check_worker_capacity, reserved_device_ids, insert_job_rows, lease_device, get_job.
  devices_walk; devices_sql.
Qed.
Lemma create_command_devices now x b : preserves (top_rel devices_rel) (create_command now x b).
Proof.
  unfold create_command, create_new_command, insert_command, require_same_request, get_command. devices_walk; devices_sql.
Qed.
Lemma compensate_devices now j e a : preserves (top_rel devices_rel) (compensate_failed_dispatch now j e a).
Proof. unfold compensate_failed_dispatch, compensate_dispatch_conn. devices_walk; devices_sql. Qed.
Lemma sync_devices now c : preserves (top_rel devices_rel) (sync_job_from_command now c).
Proof. unfold sync_job_from_command, sync_job_conn. devices_walk; devices_sql. Qed.
Lemma attach_top_devices now j c : preserves (top_rel devices_rel) (attach_command_to_job now j c).
Proof. unfold attach_command_to_job. devices_walk; devices_sql. Qed.
Lemma all_fenced_devices now v ks : preserves (top_rel devices_rel) (all_fenced now v ks).
Proof. induction ks; simpl; devices_walk. Qed.
#[local] Hint Resolve heartbeat_devices mark_offline_devices delete_worker_devices register_devices create_job_devices
  create_command_devices compensate_devices sync_devices attach_top_devices all_fenced_devices : gms.
Lemma replay_devices fuel now v : preserves (top_rel devices_rel) (replay_job_command fuel now v).
Proof.
  revert v. induction fuel as [|fuel IH]; intros v; simpl;
    unfold resume_dispatch, dispatch_job_start_command, get_command, get_job; devices_walk.
Qed.
#[local] Hint Resolve replay_devices : gms.
Lemma handler_devices cfg now o : preserves (top_rel devices_rel) (handler cfg now o).
Proof.
  destruct o; unfold handler;
    unfold transition_job, fail_abandoned_worker_lost_jobs, fail_abandoned_job,
      owned_reservation_device_ids, get_reservation_by_source, reserve_devices, reserve_new,
      renew_same_reservation, insert_reservation, reservable_device, renew_reservation,
      release_reservation, delete_job, add_events, record_artifact, dispatch_job_start_command,
      enqueue_aoa_debug_command, set_payload, read_aoa_debug_command, request_aoa_playback_control,
      fail_stale_local_device_actions, start_local_command, append_command_events, poll_commands,
      ack_command, get_command, claim_terminal_notification, compact_command_result,
      prune_terminal_command_events, refresh_worker_devices,
      replace_worker_suites, list_devices, reconcile_claims,
      reconcile_reservation, reconcile_terminal_job, reconcile_active_job,
      device_action_claim_payload, operation_claim_payload, conflict_409, acquire_device_operation_claim,
      refuse_claim, get_reservation, fenced_local_payload, force_release_local_aoa_operation,
      cancel_operation, get_command_by_operation, create_transfer, update_transfer, get_transfer;
    devices_walk; devices_sql.
Qed.
(** Every store the controller reaches has its devices keyed. *)
Lemma cluster_run_keyed cfg tr w :
  settled w → inventory_keyed (w_db w) → settled (cluster_run cfg tr w) ∧ inventory_keyed (w_db (cluster_run cfg tr w)).
Proof.
  unfold cluster_run. revert w. induction tr as [|[now o] tr IH]; intros w Hs Hk; [done|]. simpl.
  destruct (handler_devices cfg now o w Hs) as [[_ H1] Hs1]. apply IH; [exact Hs1|by apply H1].
Qed.
End handlers.
