(* ===== verification/CommandProperties.v ===== *)
(** What the command handlers do: idempotent creation, delivery, acknowledgement,
    compensation and the debug queue. *)

From S2P Require Import Prelude DeviceClaims JobStateMachine ClusterState Admission ClusterClaims.
From S2P Require Import Reservations Jobs Commands Controller Steps JobInvariants CommandInvariants.

Open Scope Z_scope.

(** ** Definitions *)

(** The existing command answers the new request. *)
Definition same_request (c : command) (data : command_in) : Prop :=
  ci_command_type data ≠ "device_action" ∨
  (pl_owner_id (cm_payload c) = Some (default "" (pl_owner_id (ci_payload data))) ∧
   pl_request_sha256 (cm_payload c) = Some (default "" (pl_request_sha256 (ci_payload data)))).

(** A debug queue as the code builds it: numbered from 1, without repeated requests. *)
Record queue_ok (q : list debug_entry) : Prop := {
  qo_sequence : ∀ i e, q !! i = Some e → dbg_sequence e = Z.of_nat i + 1;
  qo_requests : NoDup (dbg_request_id <$> q);
  qo_length : (length q ≤ 256)%nat;
}.

(** A command that takes debug input. *)
Definition debug_open (c : command) : Prop :=
  (cm_status c = CmdAccepted ∨ cm_status c = CmdRunning) ∧
  pl_aoa_debug_closed (cm_payload c) = false ∧ pl_aoa_control_action (cm_payload c) ≠ Some "cancel".

(** ** Lemmas *)

Lemma get_command_row_unique d c :
  commands_unique (db_commands d) → c ∈ db_commands d → get_command_row (cm_id c) d = Some c.
Proof.
  intros [Hu _] Hc. eapply fetchone_unique; [done|done|]. intros x _. apply bool_decide_eq_true.
Qed.
Lemma operation_row_unique d c :
  commands_unique (db_commands d) → c ∈ db_commands d → cm_operation_id c ≠ "" →
  fetchone (operation_is (cm_worker_id c) (cm_operation_id c)) (db_commands d) = Some c.
Proof.
  intros [_ Hu] Hc Hne. eapply unique_index_fetchone; [exact Hu|done|by apply bool_decide_eq_true| |].
  - unfold operation_is, streqb. by rewrite !bool_decide_eq_true_2.
  - intros c' _ H. unfold operation_is, streqb in H. bool_props. split; [|congruence].
    apply bool_decide_eq_true. congruence.
Qed.
(** ** Properties *)

(** Creating a command is idempotent: when the worker already has a command with the
    requested operation, an equal request is answered with that command, and a different
    one is refused; in both cases nothing is written to the database, whatever state the
    command has reached. *)
Theorem create_command_idempotent `{Uuid} now data w c :
  settled w → commands_unique (db_commands (w_db w)) → c ∈ db_commands (w_db w) →
  cm_worker_id c = ci_worker_id data → cm_operation_id c = ci_operation_id data →
  ci_operation_id data ≠ "" →
  let (answer, w') := create_command now data false w in
  w_db w' = w_db w ∧ settled w' ∧
  (same_request c data → answer = Ok (Some c)) ∧
  (¬ same_request c data → ∃ code msg, answer = Err (ApiError code msg)).
Proof.
  intros Hs Hu Hc Hw Ho Hne. unfold create_command.
  do 2 rewrite (bind_run uuid4_hex _ _ _ _ (uuid4_hex_run _)). cbv zeta.
  set (w2 := (w <| w_drawn ::= S |>) <| w_drawn ::= S |>).
  assert (Hs2 : w_committed w2 = w_db w2) by exact Hs. assert (Hd2 : w_db w2 = w_db w) by done.
  match goal with |- context [transaction ?m] => set (txn := m) end.
  assert (Htxn : txn w2 = (_ ← when (streqb (ci_command_type data) "device_action")
      (require_same_request c (default "" (pl_owner_id (ci_payload data)))
         (default "" (pl_request_sha256 (ci_payload data)))); mret (Some c)) w2).
  { unfold txn, nonempty. rewrite bool_decide_eq_true_2 by done. unfold select at 1.
    rewrite bind_gets, Hd2, <-Hw, <-Ho. rewrite operation_row_unique by (done || congruence).
    unfold mbind, M_bind. by destruct (when _ _ w2) as [[[]|e] w']. }
  clearbody txn. unfold streqb in Htxn. destruct (decide (ci_command_type data = "device_action")) as [Ht|Ht].
  - rewrite bool_decide_eq_true_2 in Htxn by done. unfold when, require_same_request in Htxn.
    unfold mbind, M_bind in Htxn. destruct (bool_decide (pl_owner_id _ = _)) eqn:E1; simpl in Htxn; bool_props.
    + destruct (bool_decide (pl_request_sha256 _ = _)) eqn:E2; simpl in Htxn; bool_props.
      * rewrite (bind_run _ _ _ _ _ (transaction_Ok _ _ _ _ Htxn)). simpl.
        split; [done|]. split; [done|]. split; [done|]. intros Hn. destruct Hn. by right.
      * unfold mbind, M_bind. rewrite (transaction_Err _ _ _ _ Htxn). simpl.
        split; [by rewrite Hs|]. split; [by unfold settled|]. split; [|by eauto]. by intros [|[]].
    + unfold mbind, M_bind. rewrite (transaction_Err _ _ _ _ Htxn). simpl.
      split; [by rewrite Hs|]. split; [by unfold settled|]. split; [|by eauto]. by intros [|[]].
  - rewrite bool_decide_eq_false_2 in Htxn by done.
    rewrite (bind_run _ _ _ _ _ (transaction_Ok _ _ _ _ Htxn)). simpl.
    split; [done|]. split; [done|]. split; [done|]. intros Hn. destruct Hn. by left.
Qed.

(** Each terminal notification is sent once: the reservation succeeds exactly for a
    finished command that was not notified, and after a success every later attempt on
    that command fails, whatever the controller did in between. *)
Theorem notification_claimed_once `{Uuid} cfg tr now now' i w :
  commands_ok w →
  (run (claim_terminal_notification now i) w = Ok true ↔
   ∃ c, c ∈ db_commands (w_db w) ∧ cm_id c = i ∧ cm_terminal_notified_at c = None ∧
        cmd_is_terminal (cm_status c) = true) ∧
  (run (claim_terminal_notification now i) w = Ok true →
   run (claim_terminal_notification now' i)
     (cluster_run cfg tr (exec (claim_terminal_notification now i) w)) = Ok false).
Proof.
  intros Hw.
  set (hit := λ c, command_is i c && bool_decide (cm_terminal_notified_at c = None)
                   && cmd_is_terminal (cm_status c)).
  assert (Hrun : ∀ t w0, run (claim_terminal_notification t i) w0
            = Ok (Nat.eqb (rowcount hit (db_commands (w_db w0))) 1)) by done.
  assert (Hone : ∀ w0, commands_ok w0 →
    (rowcount hit (db_commands (w_db w0)) = 1%nat ↔ ∃ c, c ∈ db_commands (w_db w0) ∧ hit c = true)).
  { intros w0 H0. split.
    - intros E. unfold rowcount in E. destruct (fetchall hit (db_commands (w_db w0))) as [|c l] eqn:El; [done|].
      exists c. apply and_comm, elem_of_fetchall. rewrite El. left.
    - intros (c&Hc&Hh). apply (rowcount_unique cm_id _ c); [apply (co_unique _ H0)|done|].
      intros x Hx. unfold hit, command_is, streqb in *. bool_props. split; intros Hx2; bool_props.
      + congruence.
      + assert (x = c) as -> by by eapply (unique_index_inj _ _ _ x c (proj1 (co_unique _ H0))).
        rewrite !bool_decide_eq_true_2 by done. done. }
  split.
  - rewrite Hrun. split.
    + intros [= E%Nat.eqb_eq]. apply (Hone w Hw) in E as (c&Hc&Hh). exists c.
      unfold hit, command_is, streqb in Hh. by bool_props.
    + intros (c&Hc&Hi&Hn&Ht). f_equal. apply Nat.eqb_eq, (Hone w Hw). exists c. split; [done|].
      unfold hit, command_is, streqb. by rewrite !bool_decide_eq_true_2, Ht.
  - rewrite Hrun. intros [= E%Nat.eqb_eq]. apply (Hone w Hw) in E as (c&Hc&Hh).
    assert (Hw1 : exec (claim_terminal_notification now i) w
              = cluster_run cfg [(now, CClaimNotification i)] w) by done.
    assert (Hok1 : commands_ok (exec (claim_terminal_notification now i) w)).
    { rewrite Hw1. by apply cluster_run_commands. }
    set (c1 := c <| cm_terminal_notified_at := Some now |>).
    assert (Hc1 : c1 ∈ db_commands (w_db (exec (claim_terminal_notification now i) w))).
    { simpl. apply elem_of_update_where. exists c. split; [done|]. change (_ && _ && _) with (hit c). by rewrite Hh. }
    destruct (cluster_run_commands cfg tr _ Hok1) as [Hok2 Hl].
    rewrite Hrun. f_equal. apply Nat.eqb_neq. intros Hn. apply (Hone _ Hok2) in Hn as (c2&Hc2&Hh2).
    unfold hit, command_is, streqb in Hh, Hh2. bool_props.
    destruct (Hl c2 Hc2) as [(c0&Hc0&C)|(n&Hle&En)].
    + assert (c0 = c1) as ->.
      { eapply (unique_index_inj _ _ _ c0 c1 (proj1 (co_unique _ Hok1))); try done. simpl.
        rewrite <-(cc_id _ _ C). congruence. }
      pose proof (cc_notified _ _ C) as Hnot. simpl in Hnot.
      rewrite Hnot in * by done. done.
    + destruct (co_drawn _ Hok1 c1 Hc1) as (m&Hm&Em). simpl in Em.
      assert (n = m) by (apply (uuid_prefix_inj "cmd-"); congruence). lia.
Qed.

(** What the queue of the command reads after the statement that appends to it. *)
Lemma set_payload_row now i p d c :
  commands_unique (db_commands d) → c ∈ db_commands d → cm_id c = i →
  get_command_row i (set_payload now i p d) = Some (c <| cm_payload := p |> <| cm_updated_at := Some now |>).
Proof.
  intros [Hu _] Hc <-. apply (fetchone_updated cm_id (db_commands d) c (command_is (cm_id c))
    (λ c, c <| cm_payload := p |> <| cm_updated_at := Some now |>)); [done|done| |done].
  intros x. apply bool_decide_eq_true.
Qed.
Lemma debug_open_true c :
  (bool_decide (cm_status c = CmdAccepted) || bool_decide (cm_status c = CmdRunning))
    && negb (pl_aoa_debug_closed (cm_payload c))
    && negb (bool_decide (pl_aoa_control_action (cm_payload c) = Some "cancel")) = true ↔ debug_open c.
Proof.
  unfold debug_open. rewrite !andb_true_iff, orb_true_iff, !negb_true_iff, !bool_decide_eq_true,
    bool_decide_eq_false. tauto.
Qed.
Lemma queue_ok_snoc q rid text :
  queue_ok q → (∀ e, e ∈ q → dbg_request_id e ≠ rid) → (length q < 256)%nat →
  queue_ok (q ++ [DebugEntry (Z.of_nat (length q) + 1) rid text]).
Proof.
  intros [Hs Hn Hl] Hne Hlt. split.
  - intros k e [He|[Hk He]]%lookup_app_Some; [by apply Hs|].
    destruct (k - length q)%nat as [|m] eqn:E; [|done]. injection He as <-. simpl. lia.
  - rewrite fmap_app, NoDup_app. split; [done|]. split; [|apply NoDup_singleton].
    intros x (e&->&He)%list_elem_of_fmap Hx. apply list_elem_of_singleton in Hx. by apply (Hne e He).
  - rewrite length_app. simpl. lia.
Qed.
(** A reader that has consumed [k] entries gets entry [k + 1]. *)
Lemma queue_ok_next q k :
  queue_ok q → fetchone (λ e, Z.ltb (Z.of_nat k) (dbg_sequence e)) q = q !! k.
Proof.
  intros [Hs _ _]. assert (∀ n, ∀ q : list debug_entry, (∀ i e, q !! i = Some e → dbg_sequence e = Z.of_nat (n + i) + 1) →
    ∀ k, (n ≤ k)%nat → fetchone (λ e, Z.ltb (Z.of_nat k) (dbg_sequence e)) q = q !! (k - n)%nat) as Hall.
  { clear. intros n q. revert n. induction q as [|e q IH]; intros n Hs k Hk; [by rewrite lookup_nil|].
    unfold fetchone in *. rewrite fetchall_cons. pose proof (Hs 0%nat e eq_refl) as He. rewrite He.
    destruct (Z.ltb_spec (Z.of_nat k) (Z.of_nat (n + 0) + 1)).
    - assert (k - n = 0)%nat as -> by lia. done.
    - replace (k - n)%nat with (S (k - S n)) by lia. simpl. apply IH; [|lia].
      intros i e' Hi. rewrite (Hs (S i) e' Hi). lia. }
  rewrite (Hall 0%nat q Hs k (Nat.le_0_l _)). by rewrite Nat.sub_0_r.
Qed.

Lemma enqueue_found now c owner rid text w e :
  get_command_row (cm_id c) (w_db w) = Some c → truthy (pl_aoa_debug_session_id (cm_payload c)) = true →
  pl_owner_id (cm_payload c) = Some owner →
  fetchone (λ e, streqb (dbg_request_id e) rid) (pl_aoa_debug_queue (cm_payload c)) = Some e →
  enqueue_aoa_debug_command now (cm_id c) owner rid text w =
    transaction (_ ← require (streqb (dbg_command e) text)
                  (ApiError "STATE_CONFLICT" "debug request id is bound to another command");
                mret (dbg_sequence e)) w.
Proof.
  intros Hc H1 H2 He. unfold enqueue_aoa_debug_command, transaction, select. rewrite bind_gets, Hc.
  cbv zeta. by rewrite bind_require, H1, bool_decide_eq_true_2, He.
Qed.
Lemma enqueue_stranger now c owner rid text w :
  get_command_row (cm_id c) (w_db w) = Some c →
  truthy (pl_aoa_debug_session_id (cm_payload c)) && bool_decide (pl_owner_id (cm_payload c) = Some owner) = false →
  enqueue_aoa_debug_command now (cm_id c) owner rid text w =
    transaction (raise (ApiError "NOT_FOUND" "AOA debug session not found")) w.
Proof.
  intros Hc Hs. unfold enqueue_aoa_debug_command, transaction, select. rewrite bind_gets, Hc.
  cbv zeta. by rewrite bind_require, Hs.
Qed.
Lemma enqueue_fresh now c owner rid text w :
  get_command_row (cm_id c) (w_db w) = Some c → truthy (pl_aoa_debug_session_id (cm_payload c)) = true →
  pl_owner_id (cm_payload c) = Some owner →
  let q := pl_aoa_debug_queue (cm_payload c) in
  let n := Z.of_nat (length q) + 1 in
  fetchone (λ e, streqb (dbg_request_id e) rid) q = None →
  (debug_open c ∧ (length q < 256)%nat ∧
   enqueue_aoa_debug_command now (cm_id c) owner rid text w =
     transaction (_ ← sql (set_payload now (cm_id c)
       (cm_payload c <| pl_aoa_debug_queue := q ++ [DebugEntry n rid text] |>)); mret n) w) ∨
  (¬ (debug_open c ∧ (length q < 256)%nat) ∧
   ∃ e, enqueue_aoa_debug_command now (cm_id c) owner rid text w = transaction (raise e) w).
Proof.
  intros Hc H1 H2 q n He. unfold enqueue_aoa_debug_command, transaction, select. rewrite bind_gets, Hc.
  cbv zeta. rewrite bind_require, H1, bool_decide_eq_true_2 by done. fold q. rewrite He, bind_require. simpl.
  pose proof (debug_open_true c) as Ho. destruct (_ && _ && _).
  - rewrite bind_require. destruct (Nat.ltb_spec (length q) 256) as [Hl|Hl].
    + left. split; [by apply Ho|]. by split.
    + right. split; [lia|]. by eexists.
  - right. split; [|by eexists]. intros [Hd _]. by apply Ho in Hd.
Qed.

(** Debug input is queued exactly once and in order: an accepted request appears in
    the queue under the sequence number the caller is told, everything queued before
    keeps its place, the numbering stays gapless and within 256 entries, and repeating
    the request answers the same number without queueing it again; a new request is
    accepted exactly for the owner of an open session with room left, and a refused one
    leaves the database as it was. *)
Theorem debug_queued_once now now' owner rid text w c :
  settled w → commands_unique (db_commands (w_db w)) → c ∈ db_commands (w_db w) →
  queue_ok (pl_aoa_debug_queue (cm_payload c)) →
  let q := pl_aoa_debug_queue (cm_payload c) in
  let (answer, w') := enqueue_aoa_debug_command now (cm_id c) owner rid text w in
  match answer with
  | Ok n => ∃ c', get_command_row (cm_id c) (w_db w') = Some c' ∧
      queue_ok (pl_aoa_debug_queue (cm_payload c')) ∧
      q `prefix_of` pl_aoa_debug_queue (cm_payload c') ∧
      DebugEntry n rid text ∈ pl_aoa_debug_queue (cm_payload c') ∧
      run (enqueue_aoa_debug_command now' (cm_id c) owner rid text) w' = Ok n
  | Err _ => w_db w' = w_db w
  end ∧
  ((∀ e, e ∈ q → dbg_request_id e ≠ rid) →
   (∃ n, answer = Ok n) ↔ truthy (pl_aoa_debug_session_id (cm_payload c)) = true ∧
     pl_owner_id (cm_payload c) = Some owner ∧ debug_open c ∧ (length q < 256)%nat).
Proof.
  intros Hs Hu Hc Hq q. pose proof (get_command_row_unique _ _ Hu Hc) as Hrow.
  destruct (truthy (pl_aoa_debug_session_id (cm_payload c)) && bool_decide (pl_owner_id (cm_payload c) = Some owner))
    eqn:Hses.
  2:{ rewrite (enqueue_stranger _ _ _ _ _ _ Hrow Hses). split; [done|]. intros _. split; [by intros [??]|].
      intros (H1&H2&_). by rewrite H1, bool_decide_eq_true_2 in Hses. }
  bool_props. destruct (fetchone (λ e, streqb (dbg_request_id e) rid) q) as [e|] eqn:He.
  - rewrite (enqueue_found _ _ _ _ _ _ e) by done.
    destruct (fetchone_Some _ _ _ He) as [Hin Hrid]. unfold streqb in Hrid. bool_props.
    unfold transaction. rewrite bind_require. destruct (streqb (dbg_command e) text) eqn:Et.
    + split; [|intros Hne; by destruct (Hne e Hin)]. exists c. split; [done|]. split; [done|]. split; [done|].
      unfold run. rewrite (enqueue_found _ _ _ _ _ _ e) by done. unfold transaction. rewrite bind_require, Et.
      unfold streqb in Et. bool_props. split; [by destruct e; simplify_eq/=|done].
    + split; [done|]. intros Hne. by destruct (Hne e Hin).
  - assert (Hfresh : ∀ e, e ∈ q → dbg_request_id e ≠ rid).
    { intros e Hin. rewrite fetchone_None in He. specialize (He e Hin). unfold streqb in He. by bool_props. }
    destruct (enqueue_fresh now c owner rid text w) as [(Ho&Hl&->)|[Hno [e ->]]]; try done.
    2:{ split; [done|]. intros _. split; [by intros [??]|]. naive_solver. }
    unfold transaction, mbind, M_bind, sql, modify, mret, M_ret. cbv beta iota. split; [|naive_solver].
    pose proof (set_payload_row now (cm_id c) (cm_payload c <| pl_aoa_debug_queue := q ++
      [DebugEntry (Z.of_nat (length q) + 1) rid text] |>) (w_db w) c Hu Hc eq_refl) as Hrow'.
    eexists. split; [exact Hrow'|]. split; [by apply queue_ok_snoc|]. split; [by eexists|].
    split; [apply elem_of_app; right; by left|]. unfold run.
    match type of Hrow' with _ = Some ?c' => rewrite (enqueue_found _ c' _ _ _ _
      (DebugEntry (Z.of_nat (length q) + 1) rid text)) end; [|exact Hrow'|done|done|].
    + unfold transaction. rewrite bind_require. unfold streqb. by rewrite bool_decide_eq_true_2.
    + simpl. fold q. unfold fetchone in *. rewrite fetchall_snoc. simpl. unfold streqb at 2.
      rewrite bool_decide_eq_true_2 by done. by destruct (fetchall _ q).
Qed.

(** A debug session is drained before it closes: a worker that has consumed the first
    [k] entries is given exactly the next one, the queue is never changed by reading, and
    the read closes the session only when nothing is left for the reader; once it closed,
    every new request is refused, so no accepted request is ever left unread. *)
Theorem debug_drained_before_close now owner rid text k close w c :
  settled w → commands_unique (db_commands (w_db w)) → c ∈ db_commands (w_db w) →
  queue_ok (pl_aoa_debug_queue (cm_payload c)) →
  let q := pl_aoa_debug_queue (cm_payload c) in
  let (answer, w') := read_aoa_debug_command (cm_id c) (Z.of_nat k) close w in
  answer = Ok (q !! k) ∧
  ∃ c', get_command_row (cm_id c) (w_db w') = Some c' ∧ pl_aoa_debug_queue (cm_payload c') = q ∧
    (pl_aoa_debug_closed (cm_payload c') = true ↔
       pl_aoa_debug_closed (cm_payload c) = true ∨ (close = true ∧ (length q ≤ k)%nat)) ∧
    (pl_aoa_debug_closed (cm_payload c') = true → (∀ e, e ∈ q → dbg_request_id e ≠ rid) →
       ∃ e, run (enqueue_aoa_debug_command now (cm_id c) owner rid text) w' = Err e).
Proof.
  intros Hs Hu Hc Hq q. pose proof (get_command_row_unique _ _ Hu Hc) as Hrow.
  assert (Hclosed : ∀ w' c', get_command_row (cm_id c) (w_db w') = Some c' → cm_id c' = cm_id c →
    pl_aoa_debug_queue (cm_payload c') = q → pl_aoa_debug_closed (cm_payload c') = true →
    (∀ e, e ∈ q → dbg_request_id e ≠ rid) →
    ∃ e, run (enqueue_aoa_debug_command now (cm_id c) owner rid text) w' = Err e).
  { intros w' c' Hc' Hid Hq' Hcl Hf. rewrite <-Hid in *.
    destruct (truthy (pl_aoa_debug_session_id (cm_payload c')) && bool_decide (pl_owner_id (cm_payload c') = Some owner))
      eqn:Hses; [|unfold run; rewrite (enqueue_stranger _ _ _ _ _ _ Hc' Hses); by eexists].
    bool_props. destruct (enqueue_fresh now c' owner rid text w') as [([_ [Hn _]]&_)|[_ [e He]]]; try done.
    - rewrite Hq'. apply fetchone_None. intros e He. apply bool_decide_eq_false. auto.
    - congruence.
    - unfold run. rewrite He. by eexists. }
  unfold read_aoa_debug_command, transaction, select. rewrite bind_gets, Hrow, queue_ok_next by done.
  fold q. cbv zeta. destruct (close && bool_decide (q !! k = None)) eqn:E; bool_props.
  - unfold when, mbind, M_bind, sql, modify, mret, M_ret. cbv beta iota. split; [done|].
    set (close_row := λ c', c' <| cm_payload := cm_payload c <| pl_aoa_debug_closed := true |> |>).
    assert (Hrow' : fetchone (λ r, streqb (cm_id r) (cm_id c))
      (update_where (command_is (cm_id c)) close_row (db_commands (w_db w))) = Some (close_row c)).
    { apply (fetchone_updated cm_id); [apply Hu|done| |done]. intros x. apply bool_decide_eq_true. }
    exists (close_row c). split; [exact Hrow'|]. split; [done|]. split.
    + split; [|done]. intros _. right. split; [done|]. by apply lookup_ge_None.
    + apply Hclosed; [exact Hrow'|done|done].
  - unfold when. rewrite bind_ret. simpl. split; [done|]. exists c. split; [done|]. split; [done|].
    split; [|by apply Hclosed]. split; [by left|]. intros [|[-> Hl]]; [done|].
    simpl in E. bool_props. apply lookup_ge_None in Hl. done.
Qed.

(** *** Delivery *)

Lemma oldest_first_total a b : oldest_first a b = true ∨ oldest_first b a = true.
Proof.
  unfold oldest_first, stamp_leb. destruct (cm_created_at a), (cm_created_at b); try (by left); try (by right).
  rewrite !Z.leb_le. lia.
Qed.
Lemma oldest_first_trans a b c : oldest_first a b = true → oldest_first b c = true → oldest_first a c = true.
Proof.
  unfold oldest_first, stamp_leb. destruct (cm_created_at a), (cm_created_at b), (cm_created_at c); try done.
  rewrite !Z.leb_le. lia.
Qed.
Lemma deliver_all now (rows l : list command) :
  foldl (λ l row, update_where (command_is (cm_id row)) (deliver now) l) l rows =
  update_where (λ c, bool_decide (cm_id c ∈ cm_id <$> rows)) (deliver now) l.
Proof.
  revert l. induction rows as [|r rows IH]; intros l; simpl.
  - symmetry. by apply update_where_id.
  - rewrite IH. unfold update_where. rewrite map_map. apply map_ext. intros c.
    unfold command_is, streqb. destruct (decide (cm_id c = cm_id r)) as [E|E].
    + rewrite (bool_decide_eq_true_2 (cm_id c = cm_id r)) by done.
      rewrite (bool_decide_eq_true_2 (cm_id c ∈ _ :: _)) by (rewrite E; left). by case_bool_decide.
    + rewrite (bool_decide_eq_false_2 (cm_id c = cm_id r)) by done.
      erewrite (bool_decide_ext (cm_id c ∈ cm_id r :: _)); [done|]. rewrite elem_of_cons. tauto.
Qed.
Lemma foldl_timeline {A} (f : A → timeline_event) now l d :
  db_commands (foldl (λ d a, log_timeline now (f a) d) d l) = db_commands d.
Proof. revert d. induction l as [|a l IH]; intros d; [done|]. simpl. by rewrite IH. Qed.

(** The commands a poll of the worker may return, as the poll reads them. *)
Definition requeue (now redelivery : Z) (worker_id : string) (c : command) : command :=
  if redeliverable now redelivery worker_id c
  then c <| cm_status := CmdQueued |> <| cm_updated_at := Some now |> else c.
Definition waiting (worker_id : string) (c : command) : bool :=
  streqb (cm_worker_id c) worker_id && bool_decide (cm_status c = CmdQueued).

(** A poll hands a worker its waiting commands in order: it returns only commands
    queued for that worker (deliveries it did not acknowledge within the redelivery time
    are queued again first), each once, oldest first and at most as many as asked for; a
    waiting command is left out only for older ones that filled the poll; what is
    returned is recorded as delivered now, and no other command changes. *)
Theorem poll_delivers now worker_id n redelivery w :
  let before := requeue now redelivery worker_id <$> db_commands (w_db w) in
  ∃ rows w', poll_commands now worker_id n redelivery w = (Ok rows, w') ∧
    (∀ c, c ∈ rows → c ∈ before ∧ waiting worker_id c = true) ∧
    (unique_index (λ _, true) cm_id (db_commands (w_db w)) → NoDup (cm_id <$> rows)) ∧
    (0 ≤ n → Z.of_nat (length rows) ≤ n) ∧
    StronglySorted (λ a b, oldest_first a b = true) rows ∧
    (∀ c, c ∈ before → waiting worker_id c = true → c ∉ rows →
       Z.of_nat (length rows) = n ∧ ∀ r, r ∈ rows → oldest_first r c = true) ∧
    db_commands (w_db w') =
      update_where (λ c, bool_decide (cm_id c ∈ cm_id <$> rows)) (deliver now) before.
Proof.
  intros before. unfold poll_commands, transaction.
  set (w1 := w <| w_db ::= λ d, d <| db_commands ::= update_where (redeliverable now redelivery worker_id)
          (λ c, c <| cm_status := CmdQueued |> <| cm_updated_at := Some now |>) |> |>).
  assert (Hb : db_commands (w_db w1) = before) by done.
  rewrite (bind_run (sql _) _ _ tt w1 eq_refl). unfold select. rewrite bind_gets, Hb. clearbody w1.
  change (λ c, streqb (cm_worker_id c) worker_id && bool_decide (cm_status c = CmdQueued))
    with (waiting worker_id).
  set (all := order_by oldest_first (fetchall (waiting worker_id) before)). set (rows := limit n all).
  rewrite (bind_run _ _ _ _ _ (for_each_sql (λ row d, d <| db_commands ::=
    update_where (command_is (cm_id row)) (deliver now) |>) rows w1)).
  unfold append_timeline_conn. rewrite (bind_run _ _ _ _ _ (for_each_sql _ rows _)).
  unfold mret, M_ret. eexists rows, _. split; [reflexivity|].
  destruct (limit_prefix n all) as (rest&Hall&Hfull).
  assert (Hin : ∀ c, c ∈ all ↔ c ∈ before ∧ waiting worker_id c = true).
  { intros c. subst all. rewrite elem_of_order_by, elem_of_fetchall. tauto. }
  assert (Hsorted : StronglySorted (λ a b, oldest_first a b = true) (rows ++ rest)).
  { unfold rows. rewrite <-Hall. apply order_by_sorted; [apply oldest_first_total|apply oldest_first_trans]. }
  split; [intros c Hc%elem_of_limit; by apply Hin|]. split.
  { intros Hu. assert (NoDup (cm_id <$> all)) as Hn.
    { unfold all. rewrite order_by_perm. apply (unique_index_weaken _ (λ _, true)); [done|].
      unfold before, requeue. by apply (unique_index_update _ _ (redeliverable now redelivery worker_id)). }
    rewrite Hall, fmap_app in Hn. by apply NoDup_app in Hn as [? _]. }
  apply StronglySorted_app in Hsorted as (Hle&Hrows&_).
  split; [intros Hn; unfold rows, limit; destruct (Z.ltb_spec n 0); [lia|]; rewrite length_take; lia|].
  split; [done|]. split.
  { intros c Hc Hwait Hnot. assert (c ∈ rest) as Hrest.
    { assert (c ∈ all) as Hca by by apply Hin. rewrite Hall in Hca. by apply elem_of_app in Hca as [|]. }
    split; [apply Hfull; intros ->; by apply not_elem_of_nil in Hrest|]. intros r Hr. by apply Hle. }
  simpl. rewrite foldl_timeline, foldl_commands, deliver_all. by rewrite Hb.
Qed.

(** ** Witnesses *)

(** The start command created again, and a device action with another digest. *)
Lemma create_command_idempotent_witness :
  let w := cluster_run (U := counting_uuid) sample_settings [(107, CCreateCommand (sample_action "d") false)]
             sample_delivered in
  let (answer, w') := create_command (U := counting_uuid) 108 (sample_action "other") false w in
  w_db w' = w_db w ∧ ∃ code msg, answer = Err (ApiError code msg).
Proof.
  intros w.
  assert (commands_ok (H := counting_uuid) w) as Hw.
  { subst w. unfold sample_delivered, sample_world. do 3 apply cluster_run_commands. apply empty_commands_ok. }
  assert (∃ c, db_commands (w_db w) !! 1%nat = Some c ∧ cm_worker_id c = "w" ∧ cm_operation_id c = "op-1" ∧
    pl_request_sha256 (cm_payload c) = Some "d") as (c&Hc&Hw1&Ho&Hd)
    by (eexists; split; [vm_compute; reflexivity|done]).
  clearbody w.
  pose proof (create_command_idempotent (H := counting_uuid) 108 (sample_action "other") w c
    (co_settled _ Hw) (co_unique _ Hw) (list_elem_of_lookup_2 _ _ _ Hc) Hw1 Ho ltac:(discriminate)) as Hthm.
  destruct (create_command _ _ _ _) as [answer w']. destruct Hthm as (Hdb&_&_&Hno).
  split; [done|]. apply Hno. intros [Hn|[_ Hs]]; [by apply Hn|]. rewrite Hd in Hs. discriminate.
Defined.

Lemma notification_claimed_once_witness :
  let w := cluster_run (U := counting_uuid) sample_settings
             [(105, CAck "w" "cmd-4" CmdCompleted no_result "")] sample_delivered in
  run (claim_terminal_notification 106 "cmd-4") w = Ok true ∧
  run (claim_terminal_notification 109 "cmd-4") (cluster_run (U := counting_uuid) sample_settings
    [(107, CAck "w" "cmd-4" CmdFailed no_result ""); (108, CPoll "w" 10 30)]
    (exec (claim_terminal_notification 106 "cmd-4") w)) = Ok false.
Proof.
  split; [vm_compute; reflexivity|].
  apply (notification_claimed_once (H := counting_uuid) sample_settings
    [(107, CAck "w" "cmd-4" CmdFailed no_result ""); (108, CPoll "w" 10 30)] 106 109 "cmd-4").
  - unfold sample_delivered, sample_world. do 3 apply cluster_run_commands. apply empty_commands_ok.
  - vm_compute; reflexivity.
Defined.

(** Alice's debug session [cmd-6], with one request queued; a second one is accepted. *)
Lemma sample_debug : ∃ w c,
  commands_ok (H := counting_uuid) w ∧ c ∈ db_commands (w_db w) ∧ cm_id c = "cmd-6" ∧
  pl_aoa_debug_queue (cm_payload c) = [DebugEntry 1 "r1" "ls"] ∧
  queue_ok (pl_aoa_debug_queue (cm_payload c)) ∧
  run (enqueue_aoa_debug_command 109 "cmd-6" "alice" "r2" "pwd") w = Ok 2.
Proof.
  set (w := cluster_run (U := counting_uuid) sample_settings
    [(107, CCreateCommand (sample_action "d") false); (108, CEnqueueDebug "cmd-6" "alice" "r1" "ls")]
    sample_delivered).
  assert (commands_ok (H := counting_uuid) w) as Hw.
  { subst w. unfold sample_delivered, sample_world. do 3 apply cluster_run_commands. apply empty_commands_ok. }
  exists w. eexists. split; [exact Hw|].
  split; [eapply (list_elem_of_lookup_2 _ 1%nat); vm_compute; reflexivity|].
  split; [reflexivity|]. split; [reflexivity|]. split; [|vm_compute; reflexivity].
  simpl. split; [|apply NoDup_singleton|simpl; lia]. intros i e [-> <-]%list_lookup_singleton_Some. done.
Qed.

(** A second request is queued as number 2, and again as number 2. *)
Lemma debug_queued_once_witness :
  ∃ w w', enqueue_aoa_debug_command 109 "cmd-6" "alice" "r2" "pwd" w = (Ok 2, w') ∧
    run (enqueue_aoa_debug_command 110 "cmd-6" "alice" "r2" "pwd") w' = Ok 2.
Proof.
  destruct sample_debug as (w&c&Hw&Hc&Hi&_&Hq&Hrun).
  pose proof (debug_queued_once 109 110 "alice" "r2" "pwd" w c (co_settled _ Hw) (co_unique _ Hw) Hc Hq) as Hthm.
  rewrite Hi in Hthm. cbv zeta in Hthm. unfold run in Hrun. exists w.
  destruct (enqueue_aoa_debug_command 109 "cmd-6" "alice" "r2" "pwd" w) as [answer w'].
  simpl in Hrun. subst answer. exists w'. split; [done|]. by destruct Hthm as [(c'&_&_&_&_&Hr) _].
Defined.

(** A reader past the only entry closes the session. *)
Lemma debug_drained_before_close_witness :
  ∃ w, let w' := exec (read_aoa_debug_command "cmd-6" 1 true) w in
  run (read_aoa_debug_command "cmd-6" 1 true) w = Ok None ∧
  ∃ e, run (enqueue_aoa_debug_command 110 "cmd-6" "alice" "r2" "pwd") w' = Err e.
Proof.
  destruct sample_debug as (w&c&Hw&Hc&Hi&Hqe&Hq&_).
  pose proof (debug_drained_before_close 110 "alice" "r2" "pwd" 1 true w c (co_settled _ Hw)
    (co_unique _ Hw) Hc Hq) as Hthm.
  exists w. cbv zeta. unfold run, exec. rewrite Hi, Hqe in Hthm. change (Z.of_nat 1) with 1 in Hthm.
  destruct (read_aoa_debug_command "cmd-6" 1 true w) as [answer w']. cbn [fst snd].
  destruct Hthm as (Ha&c'&_&_&Hcl&Hno). split; [done|]. apply Hno.
  - apply Hcl. right. split; [done|]. simpl. lia.
  - intros e ->%list_elem_of_singleton. discriminate.
Defined.
