(* ===== verification/DispatchProperties.v ===== *)
(** What happens to a job when its dispatch fails, and when its worker reports the
    command's progress. *)

From S2P Require Import Prelude DeviceClaims JobStateMachine ClusterState Admission ClusterClaims.
From S2P Require Import Reservations Jobs Commands Controller Steps JobInvariants CommandInvariants.
From S2P Require Import CommandProperties.

Open Scope Z_scope.

(** ** Definitions *)

(** The dispatch of the attempt may be taken back: the job waits for it, and no worker was
    handed one of its start commands. *)
Definition compensable (attempt_id : string) (j : job) (d : db) : Prop :=
  (jb_status j = JobAssigned ∨ jb_status j = JobDispatching) ∧
  (attempt_id = "" ∨ attempt_id = jb_current_attempt_id j) ∧
  ∀ c, c ∈ db_commands d → start_command_of (jb_id j) (jb_current_attempt_id j) c = true →
       never_delivered c = true.

(** Nothing fences devices for the job any more. *)
Definition holds_nothing (job_id : string) (w : world) : Prop :=
  (∀ l, l ∈ db_leases (w_db w) → le_job_id l = job_id → lease_is_active l = false) ∧
  (∀ c, c ∈ rg_claims (w_claims w) → cl_source_id c = "job:" +:+ job_id → is_active c = false).

(** The two stores differ at most in the timeline. *)
Definition same_but_timeline (d d' : db) : Prop :=
  ∃ t n, d' = d <| db_timeline := t |> <| db_seq_timeline := n |>.

(** ** Lemmas *)

Lemma released_leases now i l t :
  l ∈ update_where (λ l, streqb (le_job_id l) i && lease_is_active l) (release_lease now) t →
  le_job_id l = i → lease_is_active l = false.
Proof.
  intros (l0&_&->)%elem_of_update_where. destruct (streqb (le_job_id l0) i) eqn:E; simpl.
  - by destruct (lease_is_active l0) eqn:El.
  - intros Hi. unfold streqb in E. by bool_props.
Qed.

(** The transaction of a compensation. *)
Lemma compensate_conn_run now err att w j :
  unique_index (λ _, true) jb_id (db_jobs (w_db w)) → j ∈ db_jobs (w_db w) →
  compensable att j (w_db w) →
  ∃ d', compensate_dispatch_conn now (jb_id j) err att w = (Ok (Some j), w <| w_db := d' |>) ∧
    db_jobs d' = update_where (λ r, streqb (jb_id r) (jb_id j)) (transition_row now JobFailed err) (db_jobs (w_db w)) ∧
    db_leases d' = update_where (λ l, streqb (le_job_id l) (jb_id j) && lease_is_active l) (release_lease now)
                     (db_leases (w_db w)) ∧
    db_commands d' = update_where
      (λ c, start_command_of (jb_id j) (jb_current_attempt_id j) c && never_delivered c)
      (λ c, c <| cm_status := CmdCancelled |> <| cm_error := err |> <| cm_updated_at := Some now |>)
      (db_commands (w_db w)).
Proof.
  intros Hu Hj (Hst&Hatt&Hnd). unfold compensate_dispatch_conn. rewrite bind_select, get_job_row_unique by done.
  assert (negb (bool_decide (jb_status j = JobAssigned) || bool_decide (jb_status j = JobDispatching))
         || (nonempty att && negb (streqb (jb_current_attempt_id j) att)) = false) as ->.
  { unfold nonempty, streqb. apply orb_false_iff. split.
    - apply negb_false_iff, orb_true_iff. rewrite !bool_decide_eq_true. done.
    - destruct Hatt as [->| ->]; [done|]. rewrite (bool_decide_eq_true_2 (_ = _)) by done. apply andb_false_r. }
  cbv zeta. rewrite bind_select.
  assert (fetchone (λ c, start_command_of (jb_id j) (jb_current_attempt_id j) c && negb (never_delivered c))
            (db_commands (w_db w)) = None) as ->.
  { apply fetchone_None. intros c Hc. destruct (start_command_of _ _ c) eqn:E; [|done]. by rewrite Hnd. }
  destruct (transition_run now JobFailed "controller" "任务派发命令写入失败，任务已置为失败" err "" "" [] w j Hu Hj)
    as [e He].
  { apply job_step_spec. by destruct Hst as [-> | ->]. }
  rewrite (bind_run _ _ _ _ _ He), !bind_sql, bind_select, bind_sql, bind_for_each_sql.
  unfold mret, M_ret. eexists. split; [reflexivity|].
  rewrite !foldl_frame by done. done.
Qed.

(** A dispatch that cannot be taken back leaves everything but the timeline as it was. *)
Lemma compensate_conn_refused now err att w j :
  unique_index (λ _, true) jb_id (db_jobs (w_db w)) → j ∈ db_jobs (w_db w) →
  ¬ compensable att j (w_db w) →
  ∃ d', compensate_dispatch_conn now (jb_id j) err att w = (Ok None, w <| w_db := d' |>) ∧
    same_but_timeline (w_db w) d'.
Proof.
  intros Hu Hj Hno. unfold compensate_dispatch_conn. rewrite bind_select, get_job_row_unique by done.
  destruct (negb (bool_decide (jb_status j = JobAssigned) || bool_decide (jb_status j = JobDispatching))
         || (nonempty att && negb (streqb (jb_current_attempt_id j) att))) eqn:E.
  { exists (w_db w). split; [by destruct w|]. exists (db_timeline (w_db w)), (db_seq_timeline (w_db w)).
    by destruct (w_db w). }
  cbv zeta. rewrite bind_select.
  destruct (fetchone _ (db_commands (w_db w))) as [c|] eqn:Ec.
  - unfold append_timeline_conn. rewrite bind_sql. unfold mret, M_ret. eexists. split; [reflexivity|].
    by eexists _, _.
  - destruct Hno. bool_props. unfold nonempty, streqb in *. split; [|split].
    + match goal with H : _ || _ = true |- _ => apply orb_true_iff in H end. by rewrite !bool_decide_eq_true in *.
    + match goal with H : _ && _ = false |- _ => apply andb_false_iff in H as [H|H] end; bool_props.
      * left. by apply dec_stable.
      * by right.
    + intros c Hc Hst. rewrite fetchone_None in Ec. specialize (Ec c Hc). rewrite Hst in Ec. simpl in Ec.
      by apply negb_false_iff in Ec.
Qed.

#[local] Instance compensable_dec att j d : Decision (compensable att j d).
Proof.
  refine (if decide ((jb_status j = JobAssigned ∨ jb_status j = JobDispatching) ∧
    (att = "" ∨ att = jb_current_attempt_id j) ∧ exists_row (λ c,
      start_command_of (jb_id j) (jb_current_attempt_id j) c && negb (never_delivered c)) (db_commands d) = false)
    then left _ else right _); unfold compensable.
  - destruct a as (H1&H2&H3). split; [done|]. split; [done|]. intros c Hc Hst.
    rewrite exists_row_false in H3. specialize (H3 c Hc). rewrite Hst in H3. by apply negb_false_iff in H3.
  - intros (H1&H2&H3). apply n. split; [done|]. split; [done|]. apply exists_row_false. intros c Hc.
    destruct (start_command_of _ _ c) eqn:E; [|done]. by rewrite H3.
Defined.

(** *** Synchronisation *)

(** The command reports on the attempt its job is at. *)
Definition reports_on (c : command) (j : job) : Prop :=
  cm_attempt_id c = "" ∨ cm_attempt_id c = jb_current_attempt_id j.

Lemma reports_on_test c j :
  nonempty (cm_attempt_id c) && negb (streqb (cm_attempt_id c) (jb_current_attempt_id j)) = false ↔ reports_on c j.
Proof.
  unfold reports_on, nonempty, streqb. rewrite andb_false_iff, negb_false_iff, bool_decide_eq_false, bool_decide_eq_true.
  split; intros [H|H]; try tauto. left. by apply dec_stable.
Qed.
(** A report of another attempt, or one the job can no longer follow, only enters the
    timeline; one that repeats the job's status updates the attempt. *)
Lemma sync_conn_ignored now c js ats w j :
  unique_index (λ _, true) jb_id (db_jobs (w_db w)) → j ∈ db_jobs (w_db w) → cm_job_id c = jb_id j →
  ¬ reports_on c j ∨ (jb_status j ≠ js ∧ ¬ job_step (jb_status j) js) →
  ∃ d', sync_job_conn now c js ats w = (Ok false, w <| w_db := d' |>) ∧ same_but_timeline (w_db w) d'.
Proof.
  intros Hu Hj Hid Hno. unfold sync_job_conn. rewrite Hid, bind_select, get_job_row_unique by done.
  pose proof (reports_on_test c j) as Ht. destruct (_ && _).
  - unfold append_timeline_conn. rewrite bind_sql. unfold mret, M_ret. eexists. split; [reflexivity|]. by eexists _, _.
  - destruct Hno as [Hno|[Hne Hstep]]; [by destruct Hno; apply Ht|].
    destruct (transition_refused now (jb_id j) js "worker-ack"
      ("Worker command moved Cluster Job to " +:+ job_status_text js) (cm_error c) (cm_operation_id c)
      (cm_worker_id c) [("command_id", PStr (cm_id c)); ("command_type", PStr (cm_command_type c))] w j)
      as [m Hm]; [by apply get_job_row_unique|done|done|].
    exists (w_db w). split.
    + unfold catch_invalid_transition, try. unfold mbind at 1, M_bind at 1. unfold mbind at 1, M_bind at 1.
      rewrite Hm. by destruct w.
    + exists (db_timeline (w_db w)), (db_seq_timeline (w_db w)). by destruct (w_db w).
Qed.
Lemma sync_conn_moves now c js ats w j :
  unique_index (λ _, true) jb_id (db_jobs (w_db w)) → j ∈ db_jobs (w_db w) → cm_job_id c = jb_id j →
  reports_on c j → job_step (jb_status j) js →
  ∃ d', sync_job_conn now c js ats w = (Ok (is_terminal js), w <| w_db := d' |>) ∧
    db_jobs d' = update_where (λ r, streqb (jb_id r) (jb_id j)) (transition_row now js (cm_error c)) (db_jobs (w_db w)) ∧
    db_leases d' = if is_terminal js
      then update_where (λ l, streqb (le_job_id l) (jb_id j) && lease_is_active l) (release_lease now) (db_leases (w_db w))
      else db_leases (w_db w).
Proof.
  intros Hu Hj Hid Hr Hstep. unfold sync_job_conn. rewrite Hid, bind_select, get_job_row_unique by done.
  apply reports_on_test in Hr as ->.
  destruct (transition_run now js "worker-ack" ("Worker command moved Cluster Job to " +:+ job_status_text js)
    (cm_error c) (cm_operation_id c) (cm_worker_id c)
    [("command_id", PStr (cm_id c)); ("command_type", PStr (cm_command_type c))] w j Hu Hj Hstep) as [e He].
  unfold catch_invalid_transition.
  erewrite bind_run; [|apply try_Ok; rewrite (bind_run _ _ _ _ _ He); reflexivity]. cbv beta iota.
  rewrite bind_sql. simpl. destruct (is_terminal js); simpl.
  - rewrite bind_select, bind_sql, bind_for_each_sql. unfold mret, M_ret. eexists. split; [reflexivity|].
    by rewrite !foldl_frame.
  - eexists. by split.
Qed.

(** ** Properties *)

(** [C25] A failed dispatch is compensated exactly when no worker can have seen it: if the job
    still waits for the attempt and none of the attempt's start commands was delivered,
    the job becomes failed, each of those commands is cancelled (so that no later poll
    hands one out), and nothing fences devices for the job any more; otherwise the answer
    is no and jobs, commands, leases and claims are exactly what they were, so a running
    test never loses its devices. *)
Theorem compensation_exact now exc att w j :
  settled w → unique_index (λ _, true) jb_id (db_jobs (w_db w)) → j ∈ db_jobs (w_db w) →
  let (answer, w') := compensate_failed_dispatch now (jb_id j) exc att w in
  settled w' ∧
  (compensable att j (w_db w) →
     answer = Ok true ∧ jb_status <$> get_job_row (jb_id j) (w_db w') = Some JobFailed ∧
     holds_nothing (jb_id j) w' ∧
     (∀ c, c ∈ db_commands (w_db w') → start_command_of (jb_id j) (jb_current_attempt_id j) c = true →
        cm_status c = CmdCancelled) ∧
     (∀ c, c ∈ db_commands (w_db w) → start_command_of (jb_id j) (jb_current_attempt_id j) c = false →
        c ∈ db_commands (w_db w'))) ∧
  (¬ compensable att j (w_db w) →
     answer = Ok false ∧ same_but_timeline (w_db w) (w_db w') ∧ w_claims w' = w_claims w).
Proof.
  intros Hs Hu Hj. unfold compensate_failed_dispatch.
  destruct (decide (compensable att j (w_db w))) as [Hc|Hn].
  - destruct (compensate_conn_run now ("dispatch command failed: " +:+ exc) att w j Hu Hj Hc)
      as (d'&Hrun&Hjobs&Hleases&Hcmds).
    rewrite (bind_run _ _ _ _ _ (try_Ok _ _ _ _ _ (transaction_Ok _ _ _ _ Hrun))). simpl.
    set (w1 := (w <| w_db := d' |>) <| w_committed := d' |>).
    destruct (release_claims_op now ("job:" +:+ jb_id j) "failed" w1) as (n&s&Hne&Hrel); [done|].
    unfold when. rewrite (bind_run _ _ _ tt _ (try_Ok _ _ _ _ _ (bind_run _ _ _ _ _ Hrel))).
    set (w2 := w1 <| w_claims ::= _ |>).
    assert (∃ w3, (_ ← (if nonempty (jb_owner_id j) then emit (EventJobTransition (jb_id j) JobFailed
        (jb_assigned_worker_id j) (jb_owner_id j)) else mret tt); mret true) w2 = (Ok true, w3) ∧
      w_db w3 = d' ∧ w_committed w3 = d' ∧ w_claims w3 = w_claims w2) as (w3&->&Hd3&Hcm3&Hcl3)
      by (destruct (nonempty _); eexists; by split).
    unfold settled. rewrite Hd3, Hcm3. split; [done|]. split; [intros _|done]. split; [done|]. split; [|split; [|split]].
    + unfold get_job_row. rewrite Hjobs, (fetchone_updated jb_id _ j) by (done || (intros x; apply bool_decide_eq_true)).
      done.
    + split; [|rewrite Hcl3; intros c; apply released_inactive, Hne].
      rewrite Hd3, Hleases. intros l. apply released_leases.
    + rewrite Hcmds. intros c (c0&Hc0&->)%elem_of_update_where. destruct (_ && _) eqn:E; [done|].
      intros Hst. rewrite Hst in E. simpl in E. apply Hc in Hst; [|done]. congruence.
    + rewrite Hcmds. intros c Hin Hst. apply elem_of_update_where_keep; [done|]. by rewrite Hst.
  - destruct (compensate_conn_refused now ("dispatch command failed: " +:+ exc) att w j Hu Hj Hn)
      as (d'&Hrun&Hsame).
    rewrite (bind_run _ _ _ _ _ (try_Ok _ _ _ _ _ (transaction_Ok _ _ _ _ Hrun))). simpl.
    split; [done|]. split; [done|]. done.
Qed.

(** A command's outcome reaches its job, and only its job's current attempt: when the
    command reports on that attempt and the job may follow, the job takes the status, and
    a terminal one frees every device the job held; a report of a stale attempt or one the
    job can no longer follow changes neither jobs nor leases nor claims, whatever order
    the acknowledgements arrive in. *)
Theorem command_outcome_reaches_job now c js ats w j :
  settled w → unique_index (λ _, true) jb_id (db_jobs (w_db w)) → j ∈ db_jobs (w_db w) →
  cm_job_id c = jb_id j → jb_id j ≠ "" → sync_status c = Some (js, ats) →
  let (answer, w') := sync_job_from_command now c w in
  (reports_on c j → job_step (jb_status j) js →
     answer = Ok tt ∧ settled w' ∧ jb_status <$> get_job_row (jb_id j) (w_db w') = Some js ∧
     (is_terminal js = true → holds_nothing (jb_id j) w') ∧
     (is_terminal js = false → db_leases (w_db w') = db_leases (w_db w) ∧ w_claims w' = w_claims w)) ∧
  (¬ reports_on c j ∨ (jb_status j ≠ js ∧ ¬ job_step (jb_status j) js) →
     answer = Ok tt ∧ settled w' ∧ same_but_timeline (w_db w) (w_db w') ∧ w_claims w' = w_claims w).
Proof.
  intros Hs Hu Hj Hid Hne Hst. unfold sync_job_from_command. rewrite Hst.
  assert (nonempty (cm_job_id c) = true) as -> by (apply bool_decide_eq_true; congruence). cbn [negb]. cbv iota.
  match goal with |- context [let (_, _) := ?x in _] => destruct x as [answer w'] eqn:E2 end. split.
  - intros Hr Hstep. destruct (sync_conn_moves now c js ats w j Hu Hj Hid Hr Hstep) as (d'&Hrun&Hjobs&Hleases).
    rewrite (bind_run _ _ _ _ _ (transaction_Ok _ _ _ _ Hrun)) in E2. rewrite Hid in E2.
    assert (jb_status <$> get_job_row (jb_id j) d' = Some js) as Hrow.
    { unfold get_job_row. rewrite Hjobs, (fetchone_updated jb_id _ j) by (done || (intros x; apply bool_decide_eq_true)).
      done. }
    destruct (is_terminal js); simpl in E2.
    + set (w2 := (w <| w_db := d' |>) <| w_committed := d' |>) in E2.
      destruct (release_claims_op now ("job:" +:+ jb_id j)
        (if bool_decide (js = JobCancelled) then "cancelled" else "released") w2) as (n&s&Hns&Hrel);
        [by case_bool_decide|].
      rewrite (bind_run _ _ _ _ _ Hrel) in E2. unfold mret, M_ret in E2. injection E2 as <- <-.
      split; [done|]. split; [done|]. split; [done|]. split; [|done]. intros _. split.
      * simpl. rewrite Hleases. intros l. apply released_leases.
      * intros cl. apply released_inactive, Hns.
    + unfold mret, M_ret in E2. injection E2 as <- <-. split; [done|]. split; [done|]. split; [done|]. done.
  - intros Hno. destruct (sync_conn_ignored now c js ats w j Hu Hj Hid Hno) as (d'&Hrun&Hsame).
    rewrite (bind_run _ _ _ _ _ (transaction_Ok _ _ _ _ Hrun)) in E2. unfold when, mret, M_ret in E2.
    by injection E2 as <- <-.
Qed.

(** ** Witnesses *)

(** The dispatch of alice's job is taken back before the worker polls, not afterwards. *)
Lemma compensation_exact_witness : ∃ w c j,
  db_commands (w_db w) = [c] ∧ jb_status j = JobDispatching ∧
  let (answer, w') := compensate_failed_dispatch 110 "job-0" "timeout" "attempt-1" w in
  answer = Ok true ∧ holds_nothing "job-0" w'.
Proof.
  set (w := cluster_run (U := counting_uuid) sample_settings [(103, CCreateCommand sample_start true)] sample_world).
  assert (jobs_ok (H := counting_uuid) w) as Hw by (do 2 apply cluster_run_jobs; apply empty_jobs_ok).
  assert (∃ c j, db_commands (w_db w) = [c] ∧ j ∈ db_jobs (w_db w) ∧ jb_id j = "job-0" ∧
    jb_status j = JobDispatching ∧ compensable "attempt-1" j (w_db w)) as (c&j&Hc&Hj&Hi&Hst&Hcomp).
  { eexists _, _. split; [vm_compute; reflexivity|]. split; [vm_compute; left|]. split; [reflexivity|].
    split; [reflexivity|]. apply (bool_decide_unpack _). vm_compute. done. }
  clearbody w. exists w, c, j. split; [done|]. split; [done|].
  pose proof (compensation_exact 110 "timeout" "attempt-1" w j (jo_settled _ Hw) (jo_unique _ Hw) Hj) as Hthm.
  rewrite Hi in Hthm. destruct (compensate_failed_dispatch _ _ _ _ w) as [answer w'].
  destruct Hthm as (_&Hyes&_). destruct (Hyes Hcomp) as (?&_&?&_). done.
Defined.

(** The worker reports alice's test completed. *)
Lemma command_outcome_reaches_job_witness : ∃ w c,
  sync_status c = Some (JobCompleted, AttCompleted) ∧
  let (answer, w') := sync_job_from_command 120 c w in
  answer = Ok tt ∧ jb_status <$> get_job_row "job-0" (w_db w') = Some JobCompleted ∧ holds_nothing "job-0" w'.
Proof.
  set (w := cluster_run (U := counting_uuid) sample_settings
    [(105, CAck "w" "cmd-4" CmdCompleted no_result "")] sample_delivered).
  assert (jobs_ok (H := counting_uuid) w) as Hw
    by (unfold w, sample_delivered; do 3 apply cluster_run_jobs; apply empty_jobs_ok).
  assert (∃ c j, db_commands (w_db w) = [c] ∧ j ∈ db_jobs (w_db w) ∧ jb_id j = "job-0" ∧ cm_job_id c = "job-0" ∧
    sync_status c = Some (JobCompleted, AttCompleted) ∧ reports_on c j ∧ jb_status j = JobDispatching)
    as (c&j&_&Hj&Hi&Hci&Hsy&Hr&Hst).
  { eexists _, _. split; [vm_compute; reflexivity|]. split; [vm_compute; left|]. split; [reflexivity|].
    split; [reflexivity|]. split; [reflexivity|]. split; [by right|reflexivity]. }
  clearbody w. exists w, c. split; [done|].
  pose proof (command_outcome_reaches_job 120 c JobCompleted AttCompleted w j (jo_settled _ Hw) (jo_unique _ Hw) Hj
    ltac:(congruence) ltac:(by rewrite Hi) Hsy) as Hthm.
  rewrite Hi in Hthm. destruct (sync_job_from_command _ c w) as [answer w'].
  destruct Hthm as [Hyes _]. destruct Hyes as (?&_&?&Hn&_); [done|apply job_step_spec; by rewrite Hst|auto].
Defined.
