(* ===== verification/JobProperties.v ===== *)
(** Creating a job: both databases end up fencing its devices, or neither does. *)

From S2P Require Import Prelude DeviceClaims JobStateMachine ClusterState Admission ClusterClaims.
From S2P Require Import DeviceLocks Reservations Jobs Commands Controller Steps ClaimInvariants.

Open Scope Z_scope.

(** ** Definitions *)

(** The identifier the next job gets, and the source of its claims. *)
Definition fresh_job_id `{Uuid} (w : world) : string := "job-" +:+ uuid_hex (w_drawn w).
Definition job_source (job_id : string) : string := "job:" +:+ job_id.

(** The source holds no device. *)
Definition source_free (src : string) (w : world) : Prop :=
  ∀ c, c ∈ rg_claims (w_claims w) → cl_source_id c = src → is_active c = false.

(** A claim the source holds. *)
Definition held_by (src : string) (w : world) (c : claim) : Prop :=
  c ∈ rg_claims (w_claims w) ∧ is_active c = true ∧ cl_source_id c = src.

(** A lease and the claim that fences it: the same token in both databases. *)
Definition same_fence (l : lease) (c : claim) : Prop :=
  cl_id c = le_id l ∧ cl_generation c = le_generation l ∧ cl_device_key c = le_device_id l.

(** An identifier the registry uses as it is. *)
Definition plain_request (q : device_req) : Prop :=
  dr_device_key q ≠ "" ∧ strip (dr_device_key q) = dr_device_key q ∧
  strip (dr_worker_id q) ≠ "" ∧ strip (dr_serial q) ≠ "".

(** Any relation at all: what is left is that a transaction leaves the committed database. *)
Definition any_rel : relation world := λ _ _, True.

(** Only the registry changed. *)
Definition db_kept : relation world := λ w w',
  w_db w' = w_db w ∧ w_committed w' = w_committed w ∧ w_drawn w' = w_drawn w.

(** The source keeps its claims. *)
Definition source_kept (src : string) : relation world := λ w w', ∀ c, held_by src w c → held_by src w' c.

(** ** Lemmas *)

#[export] Instance any_rel_store : StoreRel any_rel.
Proof. by split. Qed.
#[export] Instance source_kept_store src : StoreRel (source_kept src).
Proof.
  split; unfold source_kept; try done. split.
  - by intros w c.
  - intros w1 w2 w3 H1 H2 c Hc. auto.
Qed.

#[export] Instance db_kept_preorder : PreOrder db_kept.
Proof. split; unfold db_kept; [by intros w|]. intros w1 w2 w3 (?&?&?) (?&?&?). repeat split; congruence. Qed.
Lemma db_kept_claims {A} (m : M registry A) : preserves db_kept (claims_op m).
Proof. intros w. unfold claims_op. by destruct (m (w_claims w)). Qed.
#[export] Hint Resolve db_kept_claims : gms.

Lemma transaction_failed {A} (m : M world A) w e w' :
  preserves (txn_rel any_rel) m → settled w → transaction m w = (Err e, w') → w_db w' = w_db w ∧ settled w'.
Proof.
  intros Hm Hs. destruct (Hm w) as [_ Hc]. unfold transaction. destruct (m w) as [[a|e'] w1]; [done|].
  intros [= -> <-]. unfold settled in *. simpl in *. split; [congruence|done].
Qed.
Lemma any_claims {A} (m : M registry A) : preserves (txn_rel any_rel) (claims_op m).
Proof. by apply claims_op_txn. Qed.
Lemma any_sql f : preserves (txn_rel any_rel) (sql f).
Proof. by apply sql_txn. Qed.
Lemma any_uuid `{Uuid} : preserves (txn_rel any_rel) uuid4_hex.
Proof. by apply uuid_txn. Qed.
Lemma any_timeline now e : preserves (txn_rel any_rel) (append_timeline_conn now e).
Proof. by apply sql_txn. Qed.
#[export] Hint Resolve any_claims any_sql any_uuid any_timeline : gms.
Ltac any_walk := repeat first [walk_step | progress cbv zeta | solve [eauto with gms]].

Section jobs.
Context `{U : Uuid} (min_disk min_mem : Q) (ttl : Z).

(** *** The claims *)

(** The claims step touches only the registry. *)
Lemma obtain_db_kept now data ow src ds : preserves db_kept (obtain_job_claims ttl now data ow src ds).
Proof. unfold obtain_job_claims, check_reservation, get_reservation, refuse_claim. any_walk. Qed.
Lemma obtain_wf now data ow src ds w a w' :
  wf (w_claims w) → obtain_job_claims ttl now data ow src ds w = (a, w') → wf (w_claims w').
Proof.
  intros Hw E. assert (preserves claims_rel (obtain_job_claims ttl now data ow src ds)) as Hp.
  { unfold obtain_job_claims, check_reservation, get_reservation, refuse_claim.
    repeat first [walk_step | intros ?; apply claims_op_rel; intros ?; solve [eauto with gms]]. }
  specialize (Hp w). rewrite E in Hp. by apply Hp.
Qed.

(** The registry step of a transfer: all the claims of the source, or none. *)
Lemma transfer_inv now so so' st tl ow ks r n r' :
  so ≠ so' → transfer now so so' st tl ow ks r = (Ok n, r') →
  (n = 0%nat ∧ r' = r) ∨
  n ≠ 0%nat ∧
  (∀ c, c ∈ rg_claims r' → cl_source_id c = so → is_active c = false) ∧
  (ks ≠ [] → ∀ k, k ∈ ks → ∃ c, c ∈ rg_claims r' ∧ is_active c = true ∧ cl_source_id c = so' ∧ cl_device_key c = k ∧
     now < cl_expires_at c).
Proof.
  intros Hne. unfold transfer. set (t := expire now (rg_claims r)).
  set (old := fetchall (λ c, source_is so c && is_active c) t).
  destruct (bool_decide (old = [])) eqn:E1; [intros [= <- <-]; by left|].
  destruct (nonempty ow && _) eqn:E2; [intros [= <- <-]; by left|].
  destruct (bool_decide (ks ≠ []) && _) eqn:E3; [intros [= <- <-]; by left|].
  unfold update_claims. monad. intros [= <- <-]. right. split; [|split].
  { unfold rowcount. simpl. change (fetchall _ t) with old. bool_props. by destruct old. }
  - intros c (c0&Hc0&->)%elem_of_update_where. destruct (source_is so c0 && is_active c0) eqn:E; simpl.
    + intros ->. done.
    + intros Hs. unfold source_is, streqb in E. rewrite bool_decide_eq_true_2 in E by done. done.
  - intros Hks k Hk. rewrite bool_decide_eq_true_2 in E3 by done. simpl in E3. bool_props.
    apply dec_stable in E3. assert (k ∈ key_set old) as Hin by (rewrite E3; set_solver).
    unfold key_set in Hin. apply elem_of_list_to_set, list_elem_of_fmap in Hin as (c&->&[Hp Hc]%elem_of_fetchall).
    eexists. split; [by eapply elem_of_update_where_hit; [exact Hc|]|]. simpl. bool_props.
    repeat (split; [done|]). unfold expires. lia.
Qed.

Lemma transfer_claims_op now so so' st tl ow ks w :
  ∃ n r', transfer now so so' st tl ow ks (w_claims w) = (Ok n, r') ∧
    claims_op (transfer now so so' st tl ow ks) w = (Ok n, w <| w_claims := r' |>).
Proof.
  unfold claims_op. destruct (transfer now so so' st tl ow ks (w_claims w)) as [[n|e] r'] eqn:E; [by exists n, r'|].
  exfalso. revert E. unfold transfer, update_claims. monad. repeat case_match; done.
Qed.

(** Reading the claims of some devices. *)
Lemma active_claims_run now keys w :
  ∃ w', forM keys (λ k, claims_op (active_claim now k)) w
      = (Ok ((λ k, holder k (expire now (rg_claims (w_claims w)))) <$> keys), w') ∧
    ∀ c, c ∈ rg_claims (w_claims w) → now < cl_expires_at c → c ∈ rg_claims (w_claims w').
Proof.
  revert w. induction keys as [|k keys IH]; intros w; simpl; [by exists w|].
  set (w1 := w <| w_claims ::= λ r, r <| rg_claims ::= expire now |> |>).
  assert (claims_op (active_claim now k) w = (Ok (holder k (expire now (rg_claims (w_claims w)))), w1)) as E by done.
  rewrite (bind_run _ _ _ _ _ E). destruct (IH w1) as (w'&Hrun&Hkeep). rewrite (bind_run _ _ _ _ _ Hrun).
  exists w'. split.
  - unfold mret, M_ret. f_equal. f_equal. simpl. by rewrite expire_idemp.
  - intros c Hc Hl. apply Hkeep; [|done]. by apply live_expire.
Qed.
Lemma check_reservation_run data ow w : (check_reservation data ow w).2 = w.
Proof.
  enough (preserves eq (check_reservation data ow)) as H by (symmetry; apply H).
  unfold check_reservation, get_reservation. any_walk.
Qed.

(** The claims taken over from the reservation, if the request names one. *)
Definition take_over (now : Z) (data : job_data) (ow src : string) (ds : list device_req) : M world nat :=
  if nonempty (jd_device_reservation_id data) then
    _ ← check_reservation data ow;
    claims_op (transfer now ("reservation:" +:+ jd_device_reservation_id data) src
                 "cluster-job" ttl ow (dr_device_key <$> ds))
  else mret 0%nat.
Lemma take_over_wf now data ow src ds w : wf (w_claims w) → wf (w_claims (take_over now data ow src ds w).2).
Proof.
  intros Hw. assert (preserves claims_rel (take_over now data ow src ds)) as Hp.
  { unfold take_over, check_reservation, get_reservation.
    repeat first [walk_step | intros ?; apply claims_op_rel; intros ?; solve [eauto with gms]]. }
  by apply Hp.
Qed.
Lemma take_over_run now data ow src ds w :
  src ≠ "reservation:" +:+ jd_device_reservation_id data →
  let (a, w0) := take_over now data ow src ds w in
  (a = Ok 0%nat ∧ w0 = w) ∨ ((∃ e, a = Err e) ∧ w0 = w) ∨
  ∃ n, a = Ok (S n) ∧ (ds ≠ [] → ∀ k, k ∈ dr_device_key <$> ds → ∃ c, held_by src w0 c ∧ cl_device_key c = k ∧
     now < cl_expires_at c).
Proof.
  intros Hne. unfold take_over. destruct (nonempty _); [|by left]. pose proof (check_reservation_run data ow w) as Hc.
  destruct (check_reservation data ow w) as [[[]|e] w0] eqn:E; simpl in Hc; subst w0.
  2:{ rewrite (bind_Err _ _ _ _ _ E). right. left. split; [by eexists|done]. }
  rewrite (bind_run _ _ _ _ _ E).
  destruct (transfer_claims_op now ("reservation:" +:+ jd_device_reservation_id data) src "cluster-job" ttl ow
    (dr_device_key <$> ds) w) as (n&r'&Et&->).
  destruct (transfer_inv _ _ _ _ _ _ _ _ _ _ (not_eq_sym Hne) Et) as [[-> ->]|(Hn0&_&Hk)]; [left; split; [done|by destruct w]|].
  right. right. destruct n as [|n]; [done|]. exists n. split; [done|]. intros Hds k Hk1.
  destruct (Hk ltac:(destruct ds; simpl; congruence) k Hk1) as (c&Hin&Ha&Hs&Hkey&Hl). by exists c.
Qed.

(** The claims the job gets: one for each requested device, all under its source. *)
Lemma obtain_spec now data ow src ds w :
  wf (w_claims w) → src ≠ "reservation:" +:+ jd_device_reservation_id data → strip src = src →
  let (a, w') := obtain_job_claims ttl now data ow src ds w in
  match a with
  | Ok (_, recs) => Forall plain_request ds →
      (∀ q, q ∈ ds → ∃ c, c ∈ recs ∧ cl_device_key c = dr_device_key q) ∧
      (∀ c, c ∈ recs → held_by src w' c ∨ ds = [])
  | Err _ => source_free src w → source_free src w'
  end.
Proof.
  intros Hw Hne Hsrc. unfold obtain_job_claims. cbv zeta. fold (take_over now data ow src ds).
  pose proof (take_over_run now data ow src ds w Hne) as Hm.
  pose proof (take_over_wf now data ow src ds w Hw) as Hw0.
  destruct (take_over now data ow src ds w) as [[n|e] w0] eqn:Em.
  2:{ rewrite (bind_Err _ _ _ _ _ Em). destruct Hm as [[? _]|[[_ ->]|(?&?&_)]]; done. }
  rewrite (bind_run _ _ _ _ _ Em). simpl in Hw0. destruct Hm as [[[= ->] ->]|[[[? ?] _]|(n'&[= ->]&Hmoved)]]; [|done|].
  - (* acquired *)
    clear Em. change (0 <? 0)%nat with false. cbv iota.
    pose proof (acquire_inv now ds ow (str_or (strip (jd_owner_username data)) ow) "cluster-job" src ttl true
      (w_claims w) Hw) as Hacq.
    unfold claims_op, mbind, M_bind. cbv beta.
    destruct (acquire _ _ _ _ _ _ _ _ _) as [a r'] eqn:Ea.
    destruct Hacq as [(recs&req&->&Hn&Hall)|[Hno Hsame]].
    + unfold mret, M_ret. intros Hplain. rewrite Hsrc in Hall. split.
      * intros q Hq. pose proof Hplain as Hp. rewrite Forall_forall in Hp. destruct (Hp q Hq) as (H1&H2&H3&H4).
        unfold normalize_devices in Hn. destruct (normalize_from_in [] ds q Hq) as (d&Hd&Hk);
          [apply not_elem_of_nil|congruence|done|done|].
        destruct (normalize_from [] ds) as [|d0 l] eqn:El; [done|]. injection Hn as <-.
        apply list_elem_of_lookup in Hd as [k Hd]. destruct (Forall2_lookup_l _ _ _ _ _ Hall Hd) as (c&Hc&_&Hg).
        exists c. split; [by eapply list_elem_of_lookup_2|]. destruct Hg as [-> _]. congruence.
      * intros c [k Hc]%list_elem_of_lookup. left. destruct (Forall2_lookup_r _ _ _ _ _ Hall Hc) as (d&_&Hh&Hg).
        destruct (holder_Some _ _ _ Hh) as (?&?&?). destruct Hg as (_&_&?&_). done.
    + assert (∀ c, c ∈ rg_claims r' ↔ c ∈ rg_claims (w_claims w)) as Hiff by (intros c; by rewrite Hsame).
      destruct a as [[[|] recs]|e].
      * by destruct (Hno recs).
      * unfold refuse_claim. destruct recs; simpl; unfold source_free; simpl; by setoid_rewrite Hiff.
      * unfold source_free. simpl. by setoid_rewrite Hiff.
  - (* taken over *)
    cbn [Nat.ltb Nat.leb]. destruct (active_claims_run now (dr_device_key <$> ds) w0) as (w'&Hrun&Hkeep).
    rewrite (bind_run _ _ _ _ _ Hrun). unfold mret, M_ret. intros _.
    destruct (decide (ds = [])) as [->|Hds]; [split; [by intros q Hq%not_elem_of_nil|by right]|].
    specialize (Hmoved Hds).
    assert (Hh : ∀ k, k ∈ dr_device_key <$> ds → ∃ c, holder k (expire now (rg_claims (w_claims w0))) = Some c ∧
      held_by src w' c ∧ cl_device_key c = k).
    { intros k Hk. destruct (Hmoved k Hk) as (c&(Hc&Ha&Hs)&Hkey&Hl). exists c. split; [|split; [|done]].
      - apply holder_intro; [|by apply live_expire|done|done].
        apply active_update; [by apply settles_retire|apply (wf_active _ Hw0)].
      - split; [by apply Hkeep|done]. }
    split.
    + intros q Hq. destruct (Hh (dr_device_key q)) as (c&Hc&_&Hkey); [by apply list_elem_of_fmap_2|].
      exists c. split; [|done]. apply list_elem_of_omap. exists (Some c). split; [|done]. rewrite <-Hc.
      apply (list_elem_of_fmap_2 (λ k, holder k _)). by apply list_elem_of_fmap_2.
    + intros c (o&(k&->&Hk)%list_elem_of_fmap&Ho)%list_elem_of_omap. left.
      destruct (Hh k Hk) as (c'&Hc'&Hheld&_). simpl in Ho. by rewrite Hc' in Ho; simplify_eq.
Qed.

(** *** The rows *)

(** The expiry of reservations releases claims of reservations only. *)
Lemma release_other_kept now src src' st :
  src ≠ src' → preserves (txn_rel (source_kept src)) (claims_op (release now src' st [])).
Proof.
  intros Hne. apply claims_op_txn. intros w. unfold claims_op, release.
  destruct (parse_release_status st) as [s|]; [|by intros c].
  intros c (Hc&Ha&Hs). split; [|done]. simpl. apply elem_of_update_where_keep; [done|].
  unfold source_is, streqb. by rewrite Hs, bool_decide_eq_false_2.
Qed.
Lemma expire_kept now i : preserves (txn_rel (source_kept (job_source i))) (expire_device_reservations now).
Proof.
  unfold expire_device_reservations. repeat first [walk_step | progress cbv zeta].
  all: try (by apply sql_txn; intros w c).
  by apply release_other_kept.
Qed.
Ltac kept_leaf :=
  lazymatch goal with
  | |- preserves (txn_rel _) uuid4_hex => apply uuid_txn; intros ? ?; done
  | |- preserves (top_rel _) uuid4_hex => apply uuid_top; intros ? ?; done
  | |- preserves _ (append_timeline_conn _ _) => apply sql_txn; intros ? ?; done
  | |- preserves _ (sql _) => apply sql_txn; intros ? ?; done
  | |- preserves _ _ => solve [eauto with gms]
  end.
#[local] Hint Resolve expire_kept : gms.
Lemma metadata_kept now data i recs :
  preserves (top_rel (source_kept (job_source i)))
    (create_job_with_leases_metadata min_disk min_mem ttl now data i recs).
Proof.
  unfold create_job_with_leases_metadata, check_worker_capacity, reserved_device_ids, insert_job_rows,
    lease_device, get_job. repeat first [walk_step | progress cbv zeta | kept_leaf].
Qed.
Lemma any_expire now : preserves (txn_rel any_rel) (expire_device_reservations now).
Proof. unfold expire_device_reservations. any_walk. Qed.
#[local] Hint Resolve any_expire : gms.
Lemma metadata_failed now data i recs w e w' :
  settled w → create_job_with_leases_metadata min_disk min_mem ttl now data i recs w = (Err e, w') →
  w_db w' = w_db w ∧ settled w'.
Proof.
  intros Hs. unfold create_job_with_leases_metadata. rewrite (bind_run uuid4_hex _ _ _ _ (uuid4_hex_run _)).
  cbv zeta. set (w1 := w <| w_drawn ::= S |>). assert (settled w1 ∧ w_db w1 = w_db w) as [Hs1 <-] by done.
  clearbody w1. clear Hs. unfold get_job.
  match goal with |- (?m ≫= ?k) w1 = _ → _ => set (trace := m); set (rest := k) end.
  assert (∃ t w2, trace w1 = (Ok t, w2) ∧ settled w2 ∧ w_db w2 = w_db w1) as (t&w2&Et&Hs2&<-).
  { subst trace. cbv zeta. clear rest.
    match goal with |- context [if ?b then _ else _] => destruct b end; [eexists _, w1|eexists _, (w1 <| w_drawn ::= S |>)];
      (split; [reflexivity|by split]). }
  rewrite (bind_run _ _ _ _ _ Et). subst rest. cbv beta.
  match goal with |- (transaction ?m ≫= _) w2 = _ → _ => assert (preserves (txn_rel any_rel) m) as Hany end.
  { unfold check_worker_capacity, reserved_device_ids, insert_job_rows, lease_device. any_walk. }
  match goal with |- (?m ≫= _) w2 = _ → _ => destruct (m w2) as [[ids|e0] w3] eqn:E3 end.
  - rewrite (bind_run _ _ _ _ _ E3). done.
  - rewrite (bind_Err _ _ _ _ _ E3). intros [= -> ->]. by eapply transaction_failed.
Qed.

(** The lease a device gets: it carries the identifier and generation of its claim. *)
Definition leased (data : job_data) (i attempt_id : string) (recs : list claim) (raw : string) (l : lease) : Prop :=
  le_device_id l = qualify (jd_worker_id data) raw ∧ le_job_id l = i ∧ le_attempt_id l = attempt_id ∧
  lease_is_active l = true ∧
  ∀ c, claim_record (qualify (jd_worker_id data) raw) recs = Some c → 0 < cl_generation c →
    le_id l = cl_id c ∧ le_generation l = cl_generation c.

Lemma bind_constraint {A} q name (k : unit → M world A) w :
  (constraint q name ≫= k) w = if q (w_db w) then k tt w else (Err (IntegrityError name), w).
Proof. unfold constraint, select. monad. by destruct (q (w_db w)). Qed.

(** The insertion that ends [lease_device]. *)
Lemma lease_device_ok now data i a recs reserved raw w id w' :
  lease_device ttl now data i a recs reserved raw w = (Ok id, w') →
  ∃ l, db_leases (w_db w') = db_leases (w_db w) ++ [l] ∧ leased data i a recs raw l ∧
       db_jobs (w_db w') = db_jobs (w_db w) ∧ db_job_requests (w_db w') = db_job_requests (w_db w).
Proof.
  unfold lease_device. cbv zeta. rewrite bind_select. destruct (fetchone _ _) as [device|]; [|done].
  rewrite bind_require. destruct (_ || _); [|done]. rewrite bind_select, bind_require.
  destruct (negb _); [|done]. rewrite bind_select. destruct (physical_alias_lease_conflict _ _ _ _); [done|].
  rewrite bind_ret, bind_select. unfold leased.
  destruct (claim_record _ recs) as [c|].
  - rewrite bind_ret, bind_constraint. destruct (negb _); [|done]. rewrite bind_sql. unfold mret, M_ret.
    intros [= <- <-]. eexists. split; [reflexivity|]. split; [|done]. simpl. repeat (split; [done|]).
    intros c' [= <-] Hc. split; [done|]. destruct (Z.leb_spec (cl_generation c) 0); [lia|done].
  - unfold mbind at 1, M_bind at 1. rewrite (bind_run uuid4_hex _ _ _ _ (uuid4_hex_run w)).
    unfold mret at 1, M_ret at 1. rewrite bind_constraint. destruct (negb _); [|done]. rewrite bind_sql.
    unfold mret, M_ret. intros [= <- <-]. eexists. split; [reflexivity|]. split; [|done]. simpl. by repeat (split; [done|]).
Qed.
Lemma lease_devices_ok now data i a recs reserved raws w ids w' :
  forM raws (lease_device ttl now data i a recs reserved) w = (Ok ids, w') →
  (∀ l, l ∈ db_leases (w_db w) → l ∈ db_leases (w_db w')) ∧ db_jobs (w_db w') = db_jobs (w_db w) ∧
  db_job_requests (w_db w') = db_job_requests (w_db w) ∧
  ∀ raw, raw ∈ raws → ∃ l, l ∈ db_leases (w_db w') ∧ leased data i a recs raw l.
Proof.
  revert w ids. induction raws as [|raw raws IH]; intros w ids; simpl.
  { intros [= <- <-]. split_and!; [done..|]. by intros raw ?%not_elem_of_nil. }
  rewrite bind_Ok. intros (id&w1&E1&E2). rewrite bind_Ok in E2. destruct E2 as (ids'&w2&E2&E3).
  unfold mret, M_ret in E3. injection E3 as <- <-.
  destruct (lease_device_ok _ _ _ _ _ _ _ _ _ _ E1) as (l&Hl&Hleased&Hj&Hq).
  destruct (IH _ _ E2) as (Hmono&Hj2&Hq2&Hall). split_and!.
  - intros x Hx. apply Hmono. rewrite Hl. apply elem_of_app. by left.
  - congruence.
  - congruence.
  - intros r [->|Hr]%elem_of_cons; [|by apply Hall]. exists l. split; [|done]. apply Hmono. rewrite Hl.
    apply elem_of_app. right. by left.
Qed.

(** What a job keeps of its submission: all but the receipt, and a trace of its own. *)
Definition same_submission (data r : job_data) : Prop :=
  r = data <| jd_trace_id := jd_trace_id r |> <| jd_idempotency_key := "" |> <| jd_request_hash := "" |>.
(** The receipt of a submission. *)
Definition receipt (data : job_data) (i : string) : job_request :=
  JobRequest (jd_owner_id data) (jd_idempotency_key data) (jd_request_hash data) i.
Lemma insert_job_rows_ok now data i a tr w w' :
  insert_job_rows now data i a tr w = (Ok tt, w') →
  ∃ j, db_jobs (w_db w') = db_jobs (w_db w) ++ [j] ∧ jb_id j = i ∧ jb_status j = JobAssigned ∧
    jb_owner_id j = jd_owner_id data ∧ jb_assigned_worker_id j = jd_worker_id data ∧ jb_current_attempt_id j = a ∧
    same_submission data (jb_request j) ∧
    (jd_idempotency_key data ≠ "" → receipt data i ∈ db_job_requests (w_db w')).
Proof.
  unfold insert_job_rows. rewrite bind_constraint. destruct (negb _); [|done]. rewrite bind_sql.
  destruct (nonempty (jd_idempotency_key data)) eqn:Ek; unfold when, constraint, sql, select, uuid4_hex; intros H; inv_ok;
    simpl; (eexists; split; [reflexivity|]); split_and!; try done.
  - intros _. apply elem_of_app. right. left.
  - unfold nonempty in Ek. bool_props. by intros Hk.
Qed.
Lemma metadata_ok now data i recs w v ids w' :
  create_job_with_leases_metadata min_disk min_mem ttl now data i recs w = (Ok (v, ids), w') →
  ∃ j, j ∈ db_jobs (w_db w') ∧ jb_id j = i ∧ jb_status j = JobAssigned ∧
    jb_owner_id j = jd_owner_id data ∧ jb_assigned_worker_id j = jd_worker_id data ∧
    (∀ raw, raw ∈ jd_devices data → ∃ l, l ∈ db_leases (w_db w') ∧ leased data i (jb_current_attempt_id j) recs raw l) ∧
    same_submission data (jb_request j) ∧ v = get_job_view i (w_db w') ∧
    (jd_idempotency_key data ≠ "" → receipt data i ∈ db_job_requests (w_db w')).
Proof.
  unfold create_job_with_leases_metadata, get_job, connect_read. cbv zeta. intros H. inv_ok.
  match goal with H : transaction _ _ = _ |- _ => apply transaction_inv in H as (w3&H&->) end.
  inv_ok. unfold select in *. inv_ok. case_match; [|done]. inv_ok.
  match goal with H : insert_job_rows _ _ _ _ _ _ = (Ok ?u, _) |- _ =>
    destruct u; pose proof (insert_job_rows_ok _ _ _ _ _ _ _ H) as (j&Hj&?&?&?&?&Ha&?&Hreceipt) end.
  match goal with H : forM _ _ _ = _ |- _ => pose proof (lease_devices_ok _ _ _ _ _ _ _ _ _ _ H) as (_&Hjobs&Hreq&Hall) end.
  rewrite <-Ha in Hall.
  match goal with H : when _ _ ?wa = (Ok _, ?wb) |- _ =>
    assert (db_jobs (w_db wb) = db_jobs (w_db wa) ∧ db_leases (w_db wb) = db_leases (w_db wa) ∧
            db_job_requests (w_db wb) = db_job_requests (w_db wa)) as (Ej&El&Eq)
      by (unfold when, sql in H; destruct (nonempty (jd_device_reservation_id data)); inv_ok; subst; done) end.
  unfold append_timeline_conn, sql in *. inv_ok. subst. exists j. simpl.
  rewrite Ej, El, Eq, Hjobs, Hreq, Hj. split; [apply elem_of_app; right; by left|]. done.
Qed.

(** *** The whole creation *)

Lemma job_source_plain (w : world) : strip (job_source (fresh_job_id w)) = job_source (fresh_job_id w).
Proof.
  apply no_space_strip. unfold job_source, fresh_job_id. by rewrite !no_space_app, uuid_hex_no_space.
Qed.
(** Giving the claims back after a failure: the job keeps none. *)
Lemma give_back_free (transferred : bool) now src src' tl ow ks w :
  src ≠ src' →
  let (a, w') := (if transferred then
                 restored ← claims_op (transfer now src src' "cluster-reservation" tl ow ks);
                 if Nat.ltb 0 restored then mret tt
                 else _ ← claims_op (release now src "failed" []); mret tt
               else _ ← claims_op (release now src "failed" []); mret tt) w in
  a = Ok tt ∧ w_db w' = w_db w ∧ w_committed w' = w_committed w ∧ source_free src w'.
Proof.
  intros Hne. assert (Hrel : ∀ w, ∃ w', (_ ← claims_op (release now src "failed" []); mret tt) w = (Ok tt, w') ∧
    w_db w' = w_db w ∧ w_committed w' = w_committed w ∧ source_free src w').
  { intros w0. destruct (release_claims_op now src "failed" w0) as (n&s&Hs&E); [done|].
    rewrite (bind_run _ _ _ _ _ E). unfold mret, M_ret. eexists. split; [reflexivity|]. split; [done|].
    split; [done|]. intros c Hc. by apply (released_inactive _ _ _ _ _ Hs Hc). }
  destruct transferred.
  - destruct (transfer_claims_op now src src' "cluster-reservation" tl ow ks w) as (n&r'&Et&Ec).
    rewrite (bind_run _ _ _ _ _ Ec).
    destruct (transfer_inv _ _ _ _ _ _ _ _ _ _ Hne Et) as [[-> ->]|(Hn&Hfree&_)].
    + change (0 <? 0)%nat with false. cbv iota.
      destruct (Hrel (w <| w_claims := w_claims w |>)) as (w'&E&?&?&?). rewrite E. done.
    + destruct n as [|n]; [done|]. cbn [Nat.ltb Nat.leb]. unfold mret, M_ret. by repeat (split; [done|]).
  - destruct (Hrel w) as (w'&E&?&?&?). rewrite E. done.
Qed.
End jobs.

(** ** Properties *)

(** [C26] A job that cannot be created leaves nothing behind: whatever step fails (the worker
    is missing or not admissible, a device is claimed, leased or absent, the reservation
    does not fit, an index is violated), the cluster database is exactly what it was and
    no device stays claimed for the job that does not exist. *)
Theorem create_job_failure_clean `{Uuid} md mm ttl now data w e w' :
  settled w → wf (w_claims w) → source_free (job_source (fresh_job_id w)) w →
  create_job_with_leases md mm ttl now data w = (Err e, w') →
  w_db w' = w_db w ∧ settled w' ∧ source_free (job_source (fresh_job_id w)) w'.
Proof.
  intros Hs Hw Hfree. unfold create_job_with_leases. rewrite (bind_run uuid4_hex _ _ _ _ (uuid4_hex_run w)).
  cbv zeta. fold (fresh_job_id w). fold (job_source (fresh_job_id w)).
  pose proof (job_source_plain w) as Hplain.
  assert (∀ s, job_source (fresh_job_id w) ≠ "reservation:" +:+ s) as Hne by done.
  set (i := fresh_job_id w) in *. set (w1 := w <| w_drawn ::= S |>).
  assert (settled w1 ∧ w_db w1 = w_db w ∧ wf (w_claims w1) ∧ source_free (job_source i) w1) as (Hs1&<-&Hw1&Hf1) by done.
  clearbody w1 i. clear Hs Hw Hfree. rewrite bind_connect_read by done.
  assert (Hself : w_db w1 = w_db w1 ∧ settled w1 ∧ source_free (job_source i) w1) by done.
  destruct (get_worker_row _ _) as [wk|]; [|by intros [= _ <-]].
  rewrite bind_require. destruct (_ || _); [|by intros [= _ <-]]. rewrite bind_connect_read by done.
  rewrite bind_require. destruct (nonempty _); [|by intros [= _ <-]].
  set (ds := claim_devices _ _ _). clearbody ds.
  pose proof (obtain_spec ttl now data (strip (jd_owner_id data)) (job_source i) ds w1 Hw1 (Hne _) Hplain) as Ho.
  pose proof (obtain_db_kept ttl now data (strip (jd_owner_id data)) (job_source i) ds w1) as (Hd&Hc&_).
  destruct (obtain_job_claims _ _ _ _ _ _ w1) as [[[transferred recs]|e1] w2] eqn:Eo.
  2:{ rewrite (bind_Err _ _ _ _ _ Eo). intros [= _ <-]. simpl in *. unfold settled. split; [done|]. split; [congruence|auto]. }
  rewrite (bind_run _ _ _ _ _ Eo). simpl in Hd, Hc. assert (settled w2) as Hs2 by (unfold settled; congruence).
  unfold try. destruct (create_job_with_leases_metadata _ _ _ _ _ _ _ w2) as [[v|e2] w3] eqn:Em; [done|].
  destruct (metadata_failed _ _ _ _ _ _ _ _ _ _ Hs2 Em) as [Hd3 Hs3].
  pose proof (give_back_free transferred now (job_source i) ("reservation:" +:+ jd_device_reservation_id data)
    (6 * 60 * 60) (strip (jd_owner_id data)) (dr_device_key <$> ds) w3 (Hne _)) as Hg.
  match type of Hg with let (_, _) := ?x in _ => destruct x as [a w4] eqn:Eg end. destruct Hg as (->&Hd4&Hc4&Hf4).
  rewrite (bind_run _ _ _ _ _ Eg). intros [= _ <-]. unfold settled in *. split; [congruence|]. split; [congruence|done].
Qed.

Lemma elem_of_claim_devices worker_id devices d raw :
  raw ∈ devices → strip raw = raw → raw ≠ "" →
  ∃ q, q ∈ claim_devices worker_id devices d ∧ dr_device_key q = qualify worker_id raw.
Proof.
  intros Hin Hs Hne. unfold claim_devices.
  set (f := λ key, DeviceReq key (before ":" key) (after ":" key) (Some (next_lease_generation key d))).
  exists (f (qualify worker_id raw)). split; [|reflexivity].
  apply list_elem_of_bind. exists raw. split.
  - apply (list_elem_of_fmap_2 f).
    unfold physical_alias_keys. destruct (get_device_row _ _); [|by left].
    repeat case_match; apply elem_of_dedup; left.
  - apply elem_of_dedup, list_elem_of_filter. split; [done|]. rewrite <-Hs. by apply list_elem_of_fmap_2.
Qed.
Lemma claim_record_spec key recs :
  (∃ c, c ∈ recs ∧ cl_device_key c = key) →
  ∃ c, claim_record key recs = Some c ∧ c ∈ recs ∧ cl_device_key c = key.
Proof.
  intros (c&Hc&Hk). unfold claim_record. destruct (last (fetchall (key_is key) recs)) as [x|] eqn:E.
  - exists x. split; [done|]. apply last_Some_elem_of, elem_of_fetchall in E as [Hp Hx].
    unfold key_is in Hp. by bool_props.
  - apply last_None in E. assert (c ∈ fetchall (key_is key) recs) as Hin
      by (apply elem_of_fetchall; split; [by apply bool_decide_eq_true|done]).
    rewrite E in Hin. by apply not_elem_of_nil in Hin.
Qed.

(** [C3] A created job is fenced in both databases: every requested device has an active
    lease of the job's attempt, and the lease carries the identifier and the generation
    of a live claim on that device which belongs to this job alone; so the tokens its
    start command is dispatched with are those the physical fence will accept. *)
Theorem created_job_fenced `{Uuid} md mm ttl now data w v ids w' :
  settled w → wf (w_claims w) →
  (∀ raw, raw ∈ jd_devices data → strip raw = raw ∧ raw ≠ "") →
  Forall plain_request (claim_devices (jd_worker_id data) (jd_devices data) (w_db w)) →
  create_job_with_leases md mm ttl now data w = (Ok (v, ids), w') →
  ∃ j, j ∈ db_jobs (w_db w') ∧ jb_id j = fresh_job_id w ∧ jb_status j = JobAssigned ∧
    jb_owner_id j = jd_owner_id data ∧ jb_assigned_worker_id j = jd_worker_id data ∧
    ∀ raw, raw ∈ jd_devices data → ∃ l c, l ∈ db_leases (w_db w') ∧ lease_is_active l = true ∧
      le_device_id l = qualify (jd_worker_id data) raw ∧ le_job_id l = jb_id j ∧
      le_attempt_id l = jb_current_attempt_id j ∧
      held_by (job_source (jb_id j)) w' c ∧ same_fence l c.
Proof.
  intros Hs Hw Hraw Hreq. unfold create_job_with_leases. rewrite (bind_run uuid4_hex _ _ _ _ (uuid4_hex_run w)).
  cbv zeta. fold (fresh_job_id w). fold (job_source (fresh_job_id w)).
  pose proof (job_source_plain w) as Hplain.
  assert (∀ s, job_source (fresh_job_id w) ≠ "reservation:" +:+ s) as Hne by done.
  set (i := fresh_job_id w) in *. set (w1 := w <| w_drawn ::= S |>).
  assert (settled w1 ∧ w_db w1 = w_db w ∧ wf (w_claims w1)) as (Hs1&Hdb1&Hw1) by done. rewrite <-Hdb1 in Hreq.
  clearbody w1 i. clear Hs Hw Hdb1. rewrite bind_connect_read by done.
  destruct (get_worker_row _ _) as [wk|]; [|done].
  rewrite bind_require. destruct (_ || _); [|done]. rewrite bind_connect_read by done.
  rewrite bind_require. destruct (nonempty _); [|done].
  set (ds := claim_devices _ _ _) in *.
  pose proof (obtain_spec ttl now data (strip (jd_owner_id data)) (job_source i) ds w1 Hw1 (Hne _) Hplain) as Ho.
  pose proof (obtain_db_kept ttl now data (strip (jd_owner_id data)) (job_source i) ds w1) as (Hd&Hc&_).
  destruct (obtain_job_claims _ _ _ _ _ _ w1) as [[[transferred recs]|e1] w2] eqn:Eo;
    [|by rewrite (bind_Err _ _ _ _ _ Eo)].
  pose proof (obtain_wf _ _ _ _ _ _ _ _ _ Hw1 Eo) as Hw2.
  rewrite (bind_run _ _ _ _ _ Eo). simpl in Hd, Hc. assert (settled w2) as Hs2 by (unfold settled; congruence).
  destruct (Ho Hreq) as [Hrec Hheld].
  unfold try. destruct (create_job_with_leases_metadata _ _ _ _ _ _ _ w2) as [[x|e2] w3] eqn:Em.
  2:{ intros E. exfalso. revert E. unfold mbind, M_bind. match goal with |- context [match ?x with (_, _) => _ end] =>
        destruct x as [[?|?] ?] end; done. }
  intros [= -> ->]. destruct (metadata_ok _ _ _ _ _ _ _ _ _ _ _ Em) as (j&Hj&Hi&Hst&How&Hwk&Hleases&_).
  destruct (metadata_kept md mm ttl now data i recs w2 Hs2) as [Hkept _]. rewrite Em in Hkept. simpl in Hkept.
  exists j. repeat (split; [done|]). intros raw Hin. destruct (Hraw raw Hin) as [Hstrip Hnn].
  destruct (Hleases raw Hin) as (l&Hl&Hdev&Hjob&Hatt&Hact&Hfence).
  destruct (elem_of_claim_devices (jd_worker_id data) (jd_devices data) (w_db w1) raw Hin Hstrip Hnn) as (q&Hq&Hk).
  destruct (claim_record_spec (qualify (jd_worker_id data) raw) recs) as (c&Hcr&Hcin&Hck).
  { destruct (Hrec q Hq) as (c&?&?). exists c. split; [done|congruence]. }
  destruct (Hheld c Hcin) as [Hhc|Hnil]; [|fold ds in Hq; rewrite Hnil in Hq; by apply not_elem_of_nil in Hq].
  destruct (Hfence c Hcr) as [Hid Hgen].
  { pose proof (wf_positive _ Hw2 c (proj1 Hhc)). lia. }
  exists l, c. split; [done|]. split; [done|]. split; [done|]. split; [congruence|]. split; [done|].
  split; [rewrite Hi; by apply Hkept|]. split; [done|]. split; [done|congruence].
Qed.

(** ** Witnesses *)

(** Bob asks for alice's device and for a free one. *)
Definition sample_refused : job_data :=
  sample_job_data <| jd_devices := ["d2"; "d1"] |> <| jd_owner_id := "bob" |> <| jd_idempotency_key := "" |>.

Lemma create_job_failure_clean_witness : ∃ w e w',
  create_job_with_leases (U := counting_uuid) 50 8 90 110 sample_refused w = (Err e, w') ∧
  w_db w' = w_db w ∧ source_free "job:job-4" w'.
Proof.
  assert (settled sample_world) as Hs by (vm_compute; reflexivity).
  assert (wf (H := counting_uuid) (w_claims sample_world)) as Hw.
  { apply (cluster_run_claims (U := counting_uuid) sample_settings sample_setup empty_world); [done|apply empty_registry_wf]. }
  assert (source_free "job:job-4" sample_world) as Hf.
  { unfold source_free. vm_compute. intros c [->|Hc]%elem_of_cons; [done|by apply not_elem_of_nil in Hc]. }
  assert (fresh_job_id (H := counting_uuid) sample_world = "job-4") as Hid by (vm_compute; reflexivity).
  assert (∃ e, run (create_job_with_leases (U := counting_uuid) 50 8 90 110 sample_refused) sample_world = Err e)
    as [e He] by (eexists; vm_compute; reflexivity).
  revert Hs Hw Hf Hid He. generalize sample_world. intros w Hs Hw Hf Hid He. unfold run in He.
  destruct (create_job_with_leases _ _ _ _ _ w) as [a w'] eqn:E. simpl in He. subst a. exists w, e, w'. split; [done|].
  destruct (create_job_failure_clean (H := counting_uuid) 50 8 90 110 sample_refused w e w' Hs Hw) as (?&_&Hfree).
  - unfold job_source. rewrite Hid. exact Hf.
  - exact E.
  - split; [done|]. unfold job_source in Hfree. by rewrite Hid in Hfree.
Defined.

Lemma sample_free_device : ∃ w v ids,
  settled w ∧ wf (H := counting_uuid) (w_claims w) ∧ Forall plain_request (claim_devices "w" ["d1"] (w_db w)) ∧
  run (create_job_with_leases (U := counting_uuid) 50 8 90 102 sample_job_data) w = Ok (v, ids).
Proof.
  eexists (cluster_run (U := counting_uuid) sample_settings (take 2 sample_setup) empty_world), _, _.
  split; [vm_compute; reflexivity|]. split.
  { apply (cluster_run_claims (U := counting_uuid) sample_settings (take 2 sample_setup) empty_world);
      [done|apply empty_registry_wf]. }
  split; [vm_compute; constructor; [by repeat split|constructor]|]. vm_compute. reflexivity.
Qed.
Lemma created_job_fenced_witness : ∃ w v ids w' j l c,
  create_job_with_leases (U := counting_uuid) 50 8 90 102 sample_job_data w = (Ok (v, ids), w') ∧
  j ∈ db_jobs (w_db w') ∧ l ∈ db_leases (w_db w') ∧ le_device_id l = "w:d1" ∧ le_job_id l = jb_id j ∧
  held_by (job_source (jb_id j)) w' c ∧ same_fence l c.
Proof.
  destruct sample_free_device as (w&v&ids&Hs&Hw&Hp&He). unfold run in He.
  destruct (create_job_with_leases _ _ _ _ _ w) as [a w'] eqn:E. simpl in He. subst a.
  destruct (created_job_fenced (H := counting_uuid) 50 8 90 102 sample_job_data w v ids w' Hs Hw)
    as (j&Hj&_&_&_&_&Hall).
  - intros raw ->%list_elem_of_singleton. done.
  - exact Hp.
  - exact E.
  - destruct (Hall "d1") as (l&c&Hl&_&Hd&Hjl&_&Hheld&Hsame); [by left|].
    exists w, v, ids, w', j, l, c. done.
Defined.
