(* ===== verification/OperationProperties.v ===== *)
(** What fencing guarantees to device operations: the check an executor makes before each
    physical input, and the administrator's forced release. *)

From S2P Require Import Prelude DeviceClaims DeviceLocks JobStateMachine ClusterState Admission.
From S2P Require Import ClusterClaims Reservations Jobs Commands OperationClaims Controller Steps.
From S2P Require Import ClaimInvariants CommandInvariants.

Open Scope Z_scope.

(** ** Definitions *)

(** The token names the live claim of its device. *)
Definition token_fences (now : Z) (t : lease_token) (c : claim) : Prop :=
  cl_device_key c = tok_device_id t ∧ cl_id c = tok_lease_id t ∧ cl_generation c = tok_generation t ∧
  is_active c = true ∧ now < cl_expires_at c.

(** The test of one token. *)
Definition token_valid (now : Z) (t : lease_token) (r : registry) : bool :=
  match holder (tok_device_id t) (expire now (rg_claims r)) with
  | Some c => streqb (cl_id c) (tok_lease_id t) && Z.eqb (cl_generation c) (tok_generation t)
  | None => false
  end.

(** The claim belongs to a standalone operation of the local worker. *)
Definition local_operation (local_worker_id : string) (c : claim) : bool :=
  worker_is local_worker_id c && streqb (cl_source_type c) "cluster-device-action"
  && startswith "operation:" (cl_source_id c).

(** What a forced release of [k] may leave behind, [released] being its answer. *)
Record force_outcome (now : Z) (k local_worker_id : string) (w : world) (released : bool) (w' : world) : Prop := {
  fo_settled : settled w';
  fo_free : released = true → holder k (expire now (rg_claims (w_claims w'))) = None;
  fo_refused : released = false →
    w_db w' = w_db w ∧ rg_claims (w_claims w') = expire now (rg_claims (w_claims w));
  fo_local : ∀ c, holder k (expire now (rg_claims (w_claims w))) = Some c →
    local_operation local_worker_id c = false → released = false;
  fo_others : ∀ x, x ∈ rg_claims (w_claims w) → now < cl_expires_at x →
    (∀ c, holder k (expire now (rg_claims (w_claims w))) = Some c → cl_source_id x ≠ cl_source_id c) →
    x ∈ rg_claims (w_claims w');
  fo_commands : ∀ cmd, cmd ∈ db_commands (w_db w) → cmd ∈ db_commands (w_db w') ∨
    ∃ c, holder k (expire now (rg_claims (w_claims w))) = Some c ∧ cm_worker_id cmd = local_worker_id ∧
      cm_operation_id cmd = removeprefix "operation:" (cl_source_id c) ∧
      cm_delivered_at cmd = None ∧ cm_acknowledged_at cmd = None;
}.

(** ** Lemmas *)

Lemma token_valid_iff `{Uuid} now t r :
  wf r → token_valid now t r = true ↔ ∃ c, c ∈ rg_claims r ∧ token_fences now t c.
Proof.
  intros Hw. unfold token_valid, token_fences. split.
  - destruct (holder _ _) as [c|] eqn:E; [|done]. intros Hv. unfold streqb in Hv.
    apply andb_true_iff in Hv as [Hi Hg%Z.eqb_eq]. bool_props.
    apply holder_expire_Some in E as (?&?&?&?). by exists c.
  - intros (c&Hc&Hk&Hi&Hg&Ha&Hl). rewrite (holder_intro _ _ c).
    + unfold streqb. by rewrite bool_decide_eq_true_2, Hg, Z.eqb_refl.
    + apply active_update; [by apply settles_retire|apply (wf_active _ Hw)].
    + by apply live_expire.
    + done.
    + done.
Qed.

(** The check of one token: it only expires overdue claims. *)
Definition check_token (now : Z) (t : lease_token) : M world unit :=
  current ← claims_op (active_claim now (tok_device_id t));
  require (match current with
           | Some c => streqb (cl_id c) (tok_lease_id t) && Z.eqb (cl_generation c) (tok_generation t)
           | None => false
           end)
    (RuntimeError "device claim changed during AOA; reconcile required").
Lemma check_token_run now t w :
  ∃ e, check_token now t w = (if token_valid now t (w_claims w) then Ok tt else Err e,
                              w <| w_claims ::= λ r, r <| rg_claims ::= expire now |> |>).
Proof.
  eexists. unfold check_token, claims_op. unfold mbind, M_bind at 1. simpl. unfold token_valid.
  destruct (holder _ _) as [c|]; [|done]. by destruct (_ && _).
Qed.
Lemma check_tokens_run now ts w :
  let (answer, w') := for_each ts (check_token now) w in
  w_db w' = w_db w ∧
  (answer = Ok tt ↔ ∀ t, t ∈ ts → token_valid now t (w_claims w) = true).
Proof.
  revert w. induction ts as [|t ts IH]; intros w; simpl.
  { split; [done|]. split; [|done]. by intros _ t Ht%not_elem_of_nil. }
  unfold mbind, M_bind. destruct (check_token_run now t w) as [e ->].
  destruct (token_valid now t (w_claims w)) eqn:E.
  - set (w1 := w <| w_claims ::= _ |>). specialize (IH w1). destruct (for_each ts _ w1) as [answer w'].
    destruct IH as [Hdb IH]. split; [done|]. rewrite IH.
    assert (∀ t, token_valid now t (w_claims w1) = token_valid now t (w_claims w)) as Hsame
      by (intros t0; unfold token_valid; simpl; by rewrite expire_idemp).
    setoid_rewrite Hsame. split; [intros H t0 [->|]%elem_of_cons; auto|intros H t0 ?; apply H; by right].
  - split; [done|]. split; [done|]. intros H. by rewrite H in E by left.
Qed.
Lemma fenced_run now p w :
  run (fenced_local_payload now p) w = Ok tt ↔
  pl_lease_tokens p ≠ [] ∧ ∀ t, t ∈ pl_lease_tokens p → token_valid now t (w_claims w) = true.
Proof.
  unfold run, fenced_local_payload. rewrite bind_require. case_bool_decide as Hne; [|naive_solver].
  pose proof (check_tokens_run now (pl_lease_tokens p) w) as Hrun. unfold check_token in Hrun.
  destruct (for_each _ _ w) as [answer w']. destruct Hrun as [_ ->]. tauto.
Qed.

(** *** Forced release *)

(** The claims once the operation of [c] is revoked. *)
Definition revoked (now : Z) (c : claim) (t : list claim) : list claim :=
  update_where (λ x, source_is (cl_source_id c) x && owner_is (cl_owner_id c) x
                     && worker_is (cl_worker_id c) x && is_active x)
    (retire now ClaimCancelled) t.

Lemma release_current_run `{Uuid} now k r c :
  wf r → holder k (expire now (rg_claims r)) = Some c →
  release_operation_if_current now k (cl_id c) (cl_generation c) (cl_source_id c)
    (r <| rg_claims ::= expire now |>)
  = (Ok true, r <| rg_claims := revoked now c (expire now (rg_claims r)) |>).
Proof.
  intros Hw Hh. destruct (holder_Some _ _ _ Hh) as (Hc&Hk&Ha). unfold release_operation_if_current.
  simpl. rewrite expire_idemp. rewrite (unique_index_fetchone is_active cl_device_key _ c).
  - done.
  - apply active_update; [by apply settles_retire|apply (wf_active _ Hw)].
  - done.
  - done.
  - unfold key_is, id_is, source_is, streqb. by rewrite !bool_decide_eq_true_2, Z.eqb_refl, Ha.
  - intros c' _ Hc'. unfold key_is, streqb in Hc'. bool_props. split; [done|congruence].
Qed.
Lemma revoked_holder `{Uuid} now k c r :
  wf r → holder k (expire now (rg_claims r)) = Some c →
  holder k (expire now (revoked now c (expire now (rg_claims r)))) = None.
Proof.
  intros Hw Hh. destruct (holder_Some _ _ _ Hh) as (Hc&Hk&Ha).
  destruct (holder k (expire now (revoked _ _ _))) as [x|] eqn:E; [|done].
  apply holder_expire_Some in E as ((x0&Hx0&->)%elem_of_update_where&Hkx&Hax&_).
  destruct (_ && _) eqn:E0; [by unfold is_active, retire in Hax|].
  assert (x0 = c) as ->.
  { eapply (unique_index_inj is_active cl_device_key _ x0 c); try done; [|congruence].
    apply active_update; [by apply settles_retire|apply (wf_active _ Hw)]. }
  unfold source_is, owner_is, worker_is, streqb in E0. by rewrite !bool_decide_eq_true_2, Ha in E0.
Qed.
Lemma revoked_spares now c t x :
  x ∈ t → cl_source_id x ≠ cl_source_id c → x ∈ revoked now c t.
Proof.
  intros Hx Hne. apply elem_of_update_where_keep; [done|]. unfold source_is, streqb.
  by rewrite bool_decide_eq_false_2.
Qed.
Lemma get_by_operation_run w worker_id op :
  settled w → get_command_by_operation worker_id op w
    = (Ok (fetchone (operation_is worker_id op) (db_commands (w_db w))), w).
Proof. intros Hs. unfold get_command_by_operation, connect_read, gets. by rewrite Hs. Qed.
Lemma cancel_operation_run now cmd w :
  settled w → ∃ d, cancel_operation now cmd w = (Ok tt, (w <| w_db := d |>) <| w_committed := d |>) ∧
    ∀ c, c ∈ db_commands (w_db w) → cm_id c ≠ cm_id cmd → c ∈ db_commands d.
Proof.
  intros Hs. unfold cancel_operation, transaction, sql, modify. eexists. split; [reflexivity|].
  simpl. intros c Hc Hne. apply elem_of_update_where_keep; [done|]. unfold command_is, streqb.
  by rewrite bool_decide_eq_false_2.
Qed.

Lemma force_refused now k lw w :
  settled w → force_outcome now k lw w false (w <| w_claims ::= λ r, r <| rg_claims ::= expire now |> |>).
Proof.
  intros Hs. split; try done; [|by left]. intros x Hx Hl _. by apply live_expire.
Qed.
Lemma force_revoked `{Uuid} now k lw w w' c :
  wf (w_claims w) → holder k (expire now (rg_claims (w_claims w))) = Some c → settled w' →
  local_operation lw c = true → rg_claims (w_claims w') = revoked now c (expire now (rg_claims (w_claims w))) →
  (∀ cmd, cmd ∈ db_commands (w_db w) → cmd ∈ db_commands (w_db w') ∨
     cm_worker_id cmd = lw ∧ cm_operation_id cmd = removeprefix "operation:" (cl_source_id c) ∧
     cm_delivered_at cmd = None ∧ cm_acknowledged_at cmd = None) →
  force_outcome now k lw w true w'.
Proof.
  intros Hw Hh Hs Hloc Hcl Hcmd. split; try done.
  - intros _. rewrite Hcl. by apply revoked_holder.
  - intros c' Hc'. rewrite Hh in Hc'. congruence.
  - intros x Hx Hl Hne. rewrite Hcl. apply revoked_spares; [by apply live_expire|by apply Hne].
  - intros cmd [|]%Hcmd; [by left|]. right. by exists c.
Qed.

(** ** Properties *)

(** Fencing before every physical input: the executor's check passes exactly when the
    payload carries tokens and each one names the live claim of its device, identifier
    and generation; and it never writes to the cluster database. *)
Theorem fenced_payload_exact `{Uuid} now p w :
  wf (w_claims w) →
  (run (fenced_local_payload now p) w = Ok tt ↔
   pl_lease_tokens p ≠ [] ∧
   ∀ t, t ∈ pl_lease_tokens p → ∃ c, c ∈ rg_claims (w_claims w) ∧ token_fences now t c) ∧
  w_db (exec (fenced_local_payload now p) w) = w_db w.
Proof.
  intros Hw. split.
  - rewrite fenced_run. by setoid_rewrite token_valid_iff.
  - unfold exec, fenced_local_payload. rewrite bind_require. case_bool_decide; [|done].
    pose proof (check_tokens_run now (pl_lease_tokens p) w) as Hrun. unfold check_token in Hrun.
    destruct (for_each _ _ w) as [answer w']. by destruct Hrun.
Qed.

(** [C27] A stale executor is stopped for good: once the claim a token was issued for has
    ended (released, expired, taken over by another operation, forced), every later check
    of a payload with that token fails, whatever the controller did in between and
    whoever holds the device now. *)
Theorem ended_claim_never_validates `{Uuid} cfg tr now p t c w :
  settled w → wf (w_claims w) → c ∈ rg_claims (w_claims w) → is_active c = false →
  t ∈ pl_lease_tokens p → tok_lease_id t = cl_id c →
  run (fenced_local_payload now p) (cluster_run cfg tr w) ≠ Ok tt.
Proof.
  intros Hs Hw Hc Hended Ht Hid Hok.
  destruct (cluster_run_claims cfg tr w Hs Hw) as [Hw' [Hk _]].
  apply fenced_run in Hok as [_ Hall]. specialize (Hall t Ht). rewrite token_valid_iff in Hall by done.
  destruct Hall as (c1&Hc1&_&Hi&_&Ha&_). destruct (Hk c Hc) as (c2&Hc2&Hi2&_&_&Hrev).
  assert (c1 = c2) as -> by (eapply (unique_index_inj _ _ _ c1 c2 (wf_ids _ Hw')); done || congruence).
  rewrite Hrev in Hended by done. done.
Qed.

(** An administrator's forced release is bounded: it succeeds only when the device is
    free afterwards; it always refuses the claims of jobs, reservations and other workers'
    operations; a refusal changes neither the cluster database nor any live claim; live
    claims of every other source survive it; and the only command it may touch is the
    undelivered command of the very operation that holds the device. *)
Theorem force_release_bounded `{Uuid} now k local_worker_id w :
  settled w → wf (w_claims w) → commands_unique (db_commands (w_db w)) →
  ∃ released msg w', force_release_local_aoa_operation now k local_worker_id w = (Ok (released, msg), w') ∧
    force_outcome now k local_worker_id w released w'.
Proof.
  intros Hs Hw Hu. unfold force_release_local_aoa_operation.
  set (w1 := w <| w_claims ::= λ r, r <| rg_claims ::= expire now |> |>).
  assert (claims_op (active_claim now k) w = (Ok (holder k (expire now (rg_claims (w_claims w)))), w1)) as Hactive by done.
  rewrite (bind_run _ _ _ _ _ Hactive). pose proof (force_refused now k local_worker_id w Hs) as Hno. fold w1 in Hno.
  destruct (holder k (expire now (rg_claims (w_claims w)))) as [c|] eqn:Hh.
  2:{ eexists _, _, _. split; [reflexivity|]. split; try apply Hno.
      - intros _. simpl. by rewrite expire_idemp.
      - intros ?; done.
      - intros c. by rewrite Hh. }
  cbv zeta. destruct (_ || _) eqn:E1; [by eexists _, _, _|]. bool_props.
  rewrite (bind_run _ _ _ _ _ (get_by_operation_run w1 _ _ Hs)).
  destruct (fetchone _ _) as [cmd|] eqn:Ecmd; [|by eexists _, _, _].
  destruct (operation_matches k _ c cmd) eqn:E2; [|by eexists _, _, _]. cbn [negb]. cbv iota.
  assert (Hrevoke : ∀ w2, w_claims w2 = w_claims w1 →
    claims_op (release_operation_if_current now k (cl_id c) (cl_generation c) (cl_source_id c)) w2
    = (Ok true, w2 <| w_claims := w_claims w <| rg_claims := revoked now c (expire now (rg_claims (w_claims w))) |> |>)).
  { intros w2 Hc2. unfold claims_op. rewrite Hc2. unfold w1. simpl. by rewrite release_current_run. }
  assert (Hloc : local_operation local_worker_id c = true).
  { unfold local_operation, streqb. rewrite bool_decide_eq_true_2 by done. by rewrite !andb_true_iff. }
  destruct (cmd_is_terminal (cm_status cmd)).
  { rewrite (bind_run _ _ _ _ _ (Hrevoke w1 eq_refl)). eexists _, _, _. split; [reflexivity|].
    eapply force_revoked; try done. by left. }
  destruct (_ || _) eqn:E3; [by eexists _, _, _|]. bool_props.
  destruct (_ || _); [by eexists _, _, _|].
  destruct (cancel_operation_run now cmd w1 Hs) as (d&Hcancel&Hkeep).
  rewrite (bind_run _ _ _ _ _ Hcancel). cbv beta.
  erewrite bind_run by (apply Hrevoke; reflexivity).
  eexists _, _, _. split; [reflexivity|]. eapply force_revoked; try done.
  apply fetchone_Some in Ecmd as [Hcmd Hop]. unfold operation_is, streqb in Hop. bool_props.
  intros cmd' Hcmd'. destruct (decide (cm_id cmd' = cm_id cmd)) as [Hid|Hne]; [right|left; by apply Hkeep].
  assert (cmd' = cmd) as -> by (by eapply (unique_index_inj _ _ _ cmd' cmd (proj1 Hu))).
  done.
Qed.

(** ** Witnesses *)

(** The payload of an operation on the device alice's job holds. *)
Definition sample_fenced : payload :=
  empty_payload <| pl_lease_tokens := [LeaseToken "claim-0" "w:d1" 1 "attempt-1"] |>.

Lemma sample_world_ok :
  commands_ok (H := counting_uuid) sample_world ∧ wf (H := counting_uuid) (w_claims sample_world).
Proof.
  unfold sample_world. split.
  - apply (cluster_run_commands (H := counting_uuid) sample_settings sample_setup empty_world empty_commands_ok).
  - apply (cluster_run_claims sample_settings sample_setup empty_world); [reflexivity|apply empty_registry_wf].
Qed.

Lemma fenced_payload_exact_witness :
  wf (H := counting_uuid) (w_claims sample_world) ∧
  run (fenced_local_payload 110 sample_fenced) sample_world = Ok tt.
Proof.
  destruct sample_world_ok as [_ Hw]. split; [done|].
  apply (fenced_payload_exact (H := counting_uuid) 110 sample_fenced sample_world Hw).
  split; [discriminate|]. intros t ->%list_elem_of_singleton. eexists. split; [vm_compute; left|].
  repeat split; vm_compute; reflexivity.
Defined.

(** The claim of alice's job is force-released, and the device reserved by bob. *)
Lemma ended_claim_never_validates_witness : ∃ w,
  settled w ∧ run (fenced_local_payload 130 sample_fenced) (cluster_run (U := counting_uuid) sample_settings
    [(120, CReserve "w" ["w:d1"] "bob" "r" 600 "Bob")] w) ≠ Ok tt.
Proof.
  set (w := cluster_run (U := counting_uuid) sample_settings [(110, CClaims (OpForceRelease "w:d1"))] sample_world).
  destruct sample_world_ok as [Hok Hw].
  assert (settled w) as Hs' by (vm_compute; reflexivity).
  destruct (cluster_run_claims (U := counting_uuid) sample_settings [(110, CClaims (OpForceRelease "w:d1"))]
    sample_world (co_settled _ Hok) Hw) as [Hw' _]. fold w in Hw'.
  assert (∃ c, c ∈ rg_claims (w_claims w) ∧ is_active c = false ∧ cl_id c = "claim-0") as (c&Hc&Ha&Hi)
    by (eexists; split; [vm_compute; left|]; split; vm_compute; reflexivity).
  clearbody w. exists w. split; [done|].
  apply (ended_claim_never_validates (H := counting_uuid) _ _ 130 sample_fenced
    (LeaseToken "claim-0" "w:d1" 1 "attempt-1") c); try done. by left.
Defined.

(** Bob's standalone playback on [d2]. *)
Definition sample_playback : payload :=
  empty_payload <| pl_claim_source_id := Some "operation:op-9" |> <| pl_release_claim_on_terminal := true |>
    <| pl_lease_tokens := [LeaseToken "claim-1" "w:d2" 1 "op-9"] |> <| pl_action := Some "aoa_sequence" |>
    <| pl_devices := ["w:d2"] |>.
Definition sample_playback_ops : list (Z * cluster_op) :=
  [(110, CDeviceActionClaim "w" ["w:d2"] "op-9" "bob" "Bob");
   (111, CCreateCommand (CommandIn "w" "device_action" "" "" "op-9" "" sample_playback CmdAccepted) false)].
Lemma sample_playback_world : ∃ w,
  commands_ok (H := counting_uuid) w ∧ wf (H := counting_uuid) (w_claims w) ∧
  cm_status <$> db_commands (w_db (exec (force_release_local_aoa_operation 120 "w:d2" "w") w)) = [CmdCancelled] ∧
  ∃ msg, run (force_release_local_aoa_operation 120 "w:d2" "w") w = Ok (true, msg).
Proof.
  destruct sample_world_ok as [Hok Hw].
  exists (cluster_run (U := counting_uuid) sample_settings sample_playback_ops sample_world).
  split; [by apply cluster_run_commands|]. split; [apply (cluster_run_claims _ _ _ (co_settled _ Hok) Hw)|].
  split; [vm_compute; reflexivity|]. eexists. vm_compute. reflexivity.
Qed.

(** It is revoked, and its command cancelled. *)
Lemma force_release_bounded_witness : ∃ w msg w',
  force_release_local_aoa_operation 120 "w:d2" "w" w = (Ok (true, msg), w') ∧
  force_outcome 120 "w:d2" "w" w true w' ∧ cm_status <$> db_commands (w_db w') = [CmdCancelled].
Proof.
  destruct sample_playback_world as (w&Hok&Hw&Hst&msg0&Hrun).
  destruct (force_release_bounded (H := counting_uuid) 120 "w:d2" "w" w (co_settled _ Hok) Hw (co_unique _ Hok))
    as (b&msg&w'&E&Hout).
  unfold run, exec in Hrun, Hst. rewrite E in Hrun, Hst. injection Hrun as -> ->. by exists w, msg0, w'.
Defined.
