(* ===== verification/Encodings.v ===== *)
(** The encodings the tokens and cursors of the program are built from, as Python's
    standard library defines them: [str.split]/[join]/[rstrip], decimal integers, UTF-8,
    URL-safe Base64 ([base64.urlsafe_b64encode], [b64decode]) and JSON ([json.dumps] of a
    list of texts, [json.loads]).

    A Python text is its UTF-8 encoding, a [string] of bytes (a lone surrogate, which only
    [json.loads] can produce, is the three bytes [surrogatepass] gives it), so that
    [str.encode] is the identity; a [bytes] value is a [string] too. *)

From S2P Require Import Prelude.

Open Scope Z_scope.

(** ** Texts *)

Fixpoint split_by (p : ascii → bool) (s : string) : list string :=
  match s with
  | EmptyString => [EmptyString]
  | String a s' =>
      if p a then EmptyString :: split_by p s'
      else match split_by p s' with
           | [] => [String a EmptyString]
           | x :: l => String a x :: l
           end
  end.
Definition words_by (p : ascii → bool) (s : string) : list string :=
  filter (λ w, nonempty w = true) (split_by p s).
(** [str.split] at a character, and at white space. *)
Abbreviation split_on c := (split_by (λ a, bool_decide (a = (c : ascii)))).
Abbreviation split_spaces := (split_by is_space).
Abbreviation words := (words_by is_space).
Fixpoint join (sep : string) (l : list string) : string :=
  match l with
  | [] => EmptyString
  | [x] => x
  | x :: l' => x +:+ sep +:+ join sep l'
  end.
Fixpoint rstrip_char (c : ascii) (s : string) : string :=
  match s with
  | EmptyString => EmptyString
  | String a s' =>
      match rstrip_char c s' with
      | EmptyString => if bool_decide (a = c) then EmptyString else String a EmptyString
      | r => String a r
      end
  end.
Fixpoint repeat_char (c : ascii) (n : nat) : string :=
  match n with O => EmptyString | S n' => String c (repeat_char c n') end.
Fixpoint all_chars (p : ascii → bool) (s : string) : bool :=
  match s with EmptyString => true | String a s' => p a && all_chars p s' end.
Fixpoint has_char (c : ascii) (s : string) : bool :=
  match s with EmptyString => false | String a s' => bool_decide (a = c) || has_char c s' end.
(** ASCII letters and digits; [[A-Za-z0-9][A-Za-z0-9more]{0,n}]. *)
Definition alnum (a : ascii) : bool :=
  let n := N_of_ascii a in
  (((48 <=? n) && (n <=? 57)) || ((65 <=? n) && (n <=? 90)) || ((97 <=? n) && (n <=? 122)))%N.
Definition plain_word (more : string) (n : nat) (s : string) : bool :=
  match s with
  | String a rest => alnum a && all_chars (λ c, alnum c || has_char c more) rest && Nat.leb (String.length rest) n
  | EmptyString => false
  end.
Definition ascii_text : string → bool := all_chars (λ a, (N_of_ascii a <? 128)%N).
Definition lacks (c : ascii) : string → bool := all_chars (λ a, bool_decide (a ≠ c)).

(** ** Decimal integers: [str(n)] and [int(text)]

    [int] takes white space around the digits, a sign, and single underscores between
    digits; the digits are ASCII digits here. *)
Definition digit_val (a : ascii) : option Z :=
  let n := Z.of_N (N_of_ascii a) in
  if (48 <=? n) && (n <=? 57) then Some (n - 48) else None.
Fixpoint int_digits (acc : Z) (s : string) : option Z :=
  match s with
  | EmptyString => Some acc
  | String a s' =>
      match digit_val a with
      | Some d => int_digits (acc * 10 + d) s'
      | None =>
          if bool_decide (a = "_"%char) then
            match s' with
            | String b s'' =>
                match digit_val b with
                | Some d => int_digits (acc * 10 + d) s''
                | None => None
                end
            | EmptyString => None
            end
          else None
      end
  end.
Definition int_unsigned (s : string) : option Z :=
  match s with
  | String a s' => match digit_val a with Some d => int_digits d s' | None => None end
  | EmptyString => None
  end.
Definition py_int (text : string) : option Z :=
  match strip text with
  | String "-" s => Z.opp <$> int_unsigned s
  | String "+" s => int_unsigned s
  | s => int_unsigned s
  end.

(** ** UTF-8 *)

Definition byte_of (n : N) : ascii := ascii_of_N n.
Definition continuation (a : ascii) : option N :=
  let n := N_of_ascii a in
  if ((128 <=? n) && (n <? 192))%N then Some (n - 128)%N else None.
(** [len], in code points. *)
Fixpoint text_length (s : string) : Z :=
  match s with
  | EmptyString => 0
  | String a s' => (if bool_decide (is_Some (continuation a)) then 0 else 1) + text_length s'
  end.
Definition is_surrogate (u : N) : bool := ((55296 <=? u) && (u <=? 57343))%N.
(** The code point a multi-byte sequence starting with lead byte [n] spells. *)
Definition code2 (n : N) (b : ascii) : option N :=
  if ((194 <=? n) && (n <=? 223))%N then (λ x, (n - 192) * 64 + x)%N <$> continuation b
  else None.
Definition code3 (n : N) (b c : ascii) : option N :=
  if ((224 <=? n) && (n <=? 239))%N then
    x ← continuation b; y ← continuation c;
    let u := ((n - 224) * 4096 + x * 64 + y)%N in
    if (2048 <=? u)%N then Some u else None
  else None.
Definition code4 (n : N) (b c d : ascii) : option N :=
  if ((240 <=? n) && (n <=? 244))%N then
    x ← continuation b; y ← continuation c; z ← continuation d;
    let u := ((n - 240) * 262144 + x * 4096 + y * 64 + z)%N in
    if ((65536 <=? u) && (u <=? 1114111))%N then Some u else None
  else None.

(** [bytes.decode("utf-8")] succeeds; with [surrogatepass], also on lone surrogates. *)
Fixpoint utf8_valid (surrogatepass : bool) (s : string) : bool :=
  match s with
  | EmptyString => true
  | String a s1 =>
      let n := N_of_ascii a in
      if (n <? 128)%N then utf8_valid surrogatepass s1
      else match s1 with
      | EmptyString => false
      | String b s2 =>
          if code2 n b is Some _ then utf8_valid surrogatepass s2
          else match s2 with
          | EmptyString => false
          | String c s3 =>
              match code3 n b c with
              | Some u => (surrogatepass || negb (is_surrogate u)) && utf8_valid surrogatepass s3
              | None =>
                  match s3 with
                  | EmptyString => false
                  | String d s4 => if code4 n b c d is Some _ then utf8_valid surrogatepass s4 else false
                  end
              end
          end
      end
  end.
Definition utf8_encode (u : N) : string :=
  (if u <? 128 then String (byte_of u) ""
   else if u <? 2048 then
     String (byte_of (192 + u / 64)) (String (byte_of (128 + u mod 64)) "")
   else if u <? 65536 then
     String (byte_of (224 + u / 4096)) (String (byte_of (128 + u / 64 mod 64))
       (String (byte_of (128 + u mod 64)) ""))
   else
     String (byte_of (240 + u / 262144)) (String (byte_of (128 + u / 4096 mod 64))
       (String (byte_of (128 + u / 64 mod 64)) (String (byte_of (128 + u mod 64)) ""))))%N.

(** ** Base64 *)

Definition b64_char (n : N) : ascii :=
  (if n <? 26 then ascii_of_N (65 + n)
   else if n <? 52 then ascii_of_N (97 + (n - 26))
   else if n <? 62 then ascii_of_N (48 + (n - 52))
   else if n =? 62 then "+"%char else "/"%char)%N.
Definition b64_val (a : ascii) : option N :=
  (let n := N_of_ascii a in
   if (65 <=? n) && (n <=? 90) then Some (n - 65)
   else if (97 <=? n) && (n <=? 122) then Some (n - 97 + 26)
   else if (48 <=? n) && (n <=? 57) then Some (n - 48 + 52)
   else if n =? 43 then Some 62
   else if n =? 47 then Some 63
   else None)%N.

(** [bytes.translate] of the URL-safe alphabet, in both directions. *)
Definition to_urlsafe (a : ascii) : ascii :=
  if bool_decide (a = "+"%char) then "-"%char
  else if bool_decide (a = "/"%char) then "_"%char else a.
Definition from_urlsafe (a : ascii) : ascii :=
  if bool_decide (a = "-"%char) then "+"%char
  else if bool_decide (a = "_"%char) then "/"%char else a.
Fixpoint translate (f : ascii → ascii) (s : string) : string :=
  match s with EmptyString => EmptyString | String a s' => String (f a) (translate f s') end.

(** [binascii.b2a_base64] without its newline. *)
Fixpoint b2a_base64 (s : string) : string :=
  (match s with
   | EmptyString => EmptyString
   | String a EmptyString =>
       let x := N_of_ascii a in
       String (b64_char (x / 4)) (String (b64_char (x mod 4 * 16)) "==")
   | String a (String b EmptyString) =>
       let x := N_of_ascii a in let y := N_of_ascii b in
       String (b64_char (x / 4)) (String (b64_char (x mod 4 * 16 + y / 16))
         (String (b64_char (y mod 16 * 4)) "="))
   | String a (String b (String c s')) =>
       let x := N_of_ascii a in let y := N_of_ascii b in let z := N_of_ascii c in
       String (b64_char (x / 4)) (String (b64_char (x mod 4 * 16 + y / 16))
         (String (b64_char (y mod 16 * 4 + z / 64)) (String (b64_char (z mod 64))
           (b2a_base64 s'))))
   end)%N.
Definition urlsafe_b64encode (s : string) : string := translate to_urlsafe (b2a_base64 s).

(** [binascii.a2b_base64]: characters outside the alphabet are skipped; [quad] counts the
    characters of the current group and [left] holds its unused low bits; a padding that
    completes a group ends the input. *)
Fixpoint a2b_base64 (quad : nat) (left : N) (pads : nat) (s : string) : option string :=
  match s with
  | EmptyString => if bool_decide (quad = 0%nat) then Some EmptyString else None
  | String ch s' =>
      if bool_decide (ch = "="%char) then
        if Nat.leb 2 quad then
          if Nat.leb 4 (quad + S pads) then Some EmptyString
          else a2b_base64 quad left (S pads) s'
        else a2b_base64 quad left pads s'
      else
        match b64_val ch with
        | None => a2b_base64 quad left pads s'
        | Some v =>
            (match quad with
             | 0%nat => a2b_base64 1 v 0 s'
             | 1%nat => String (byte_of (left * 4 + v / 16)) <$> a2b_base64 2 (v mod 16) 0 s'
             | 2%nat => String (byte_of (left * 16 + v / 4)) <$> a2b_base64 3 (v mod 4) 0 s'
             | _ => String (byte_of (left * 64 + v)) <$> a2b_base64 0 0 0 s'
             end)%N
        end
  end.
Definition urlsafe_b64decode (s : string) : option string :=
  a2b_base64 0 0 0 (translate from_urlsafe s).

(** [b64decode(s, altchars=b'-_', validate=True)]: the translated text must be characters
    of the alphabet followed by at most two paddings. *)
Fixpoint at_most_pads (n : nat) (s : string) : bool :=
  match s with
  | EmptyString => true
  | String a s' =>
      match n with O => false | S n' => bool_decide (a = "="%char) && at_most_pads n' s' end
  end.
Fixpoint b64_shape (s : string) : bool :=
  match s with
  | EmptyString => true
  | String a s' => match b64_val a with Some _ => b64_shape s' | None => at_most_pads 2 s end
  end.
Definition b64decode_validate (s : string) : option string :=
  let t := translate from_urlsafe s in
  if b64_shape t then a2b_base64 0 0 0 t else None.

(** ['=' * (-len(s) % 4)]. *)
Definition padding (s : string) : string :=
  repeat_char "=" (Z.to_nat (- Z.of_nat (String.length s) mod 4)).

(** ** JSON *)

#[warnings="-register-all"]
Inductive json :=
  | JNull
  | JBool (b : bool)
  | JNum (lexeme : string)
  | JStr (s : string)
  | JList (l : list json)
  | JObj (kvs : list (string * json)).

Definition quote : ascii := "034".
Definition backslash : ascii := "\".

Definition hex_digit (n : N) : ascii :=
  (if n <? 10 then ascii_of_N (48 + n) else ascii_of_N (87 + n))%N.
Definition hex_val (a : ascii) : option N :=
  (let n := N_of_ascii a in
   if (48 <=? n) && (n <=? 57) then Some (n - 48)
   else if (97 <=? n) && (n <=? 102) then Some (n - 87)
   else if (65 <=? n) && (n <=? 70) then Some (n - 55)
   else None)%N.
Definition hex4 (a b c d : ascii) : option N :=
  (x ← hex_val a; y ← hex_val b; z ← hex_val c; t ← hex_val d;
   Some (((x * 16 + y) * 16 + z) * 16 + t)%N).

(** [\uXXXX], as a surrogate pair outside the basic plane. *)
Definition unicode_escape (u : N) : string :=
  (let four v :=
     String backslash (String "u" (String (hex_digit (v / 4096)) (String (hex_digit (v / 256 mod 16))
       (String (hex_digit (v / 16 mod 16)) (String (hex_digit (v mod 16)) ""))))) in
   if u <? 65536 then four u
   else four (55296 + (u - 65536) / 1024) +:+ four (56320 + (u - 65536) mod 1024))%N.
Definition escape_ascii (a : ascii) : string :=
  let n := N_of_ascii a in
  if bool_decide (a = quote) || bool_decide (a = backslash) then String backslash (String a "")
  else if ((32 <=? n) && (n <=? 126))%N then String a ""
  else if (n =? 10)%N then String backslash "n"
  else if (n =? 13)%N then String backslash "r"
  else if (n =? 9)%N then String backslash "t"
  else if (n =? 12)%N then String backslash "f"
  else if (n =? 8)%N then String backslash "b"
  else unicode_escape n.

(** [json.dumps] of a text, without its quotes: the output is ASCII. *)
Fixpoint json_escape (s : string) : string :=
  match s with
  | EmptyString => EmptyString
  | String a s1 =>
      let n := N_of_ascii a in
      if (n <? 128)%N then escape_ascii a +:+ json_escape s1
      else match s1 with
      | EmptyString => EmptyString
      | String b s2 =>
          match code2 n b with
          | Some u => unicode_escape u +:+ json_escape s2
          | None =>
              match s2 with
              | EmptyString => EmptyString
              | String c s3 =>
                  match code3 n b c with
                  | Some u => unicode_escape u +:+ json_escape s3
                  | None =>
                      match s3 with
                      | EmptyString => EmptyString
                      | String d s4 =>
                          match code4 n b c d with
                          | Some u => unicode_escape u +:+ json_escape s4
                          | None => EmptyString
                          end
                      end
                  end
              end
          end
      end
  end.
Definition json_quote (s : string) : string := String quote (json_escape s +:+ String quote "").

(** [json.dumps(texts, separators=(",", ":"))]. *)
Definition json_quoted (l : list string) : string := join "," (json_quote <$> l).
Definition json_dumps_list (l : list string) : string := String "[" (json_quoted l +:+ "]").

(** *** [json.loads] *)

Definition is_json_space (a : ascii) : bool :=
  let n := N_of_ascii a in ((n =? 32) || (n =? 9) || (n =? 10) || (n =? 13))%N.
Fixpoint skip_ws (s : string) : string :=
  match s with
  | String a s' => if is_json_space a then skip_ws s' else s
  | EmptyString => EmptyString
  end.
Definition simple_escape (a : ascii) : option ascii :=
  if bool_decide (a = quote) then Some quote
  else if bool_decide (a = backslash) then Some backslash
  else if bool_decide (a = "/"%char) then Some "/"%char
  else if bool_decide (a = "b"%char) then Some "008"%char
  else if bool_decide (a = "f"%char) then Some "012"%char
  else if bool_decide (a = "n"%char) then Some "010"%char
  else if bool_decide (a = "r"%char) then Some "013"%char
  else if bool_decide (a = "t"%char) then Some "009"%char
  else None.
Definition prepend (x : string) (r : option (string * string)) : option (string * string) :=
  match r with Some (s, rest) => Some (x +:+ s, rest) | None => None end.

(** The text after an opening quote, and what follows its closing quote. *)
Fixpoint scan_string (s : string) : option (string * string) :=
  match s with
  | EmptyString => None
  | String a r =>
      if bool_decide (a = quote) then Some (EmptyString, r)
      else if bool_decide (a = backslash) then
        match r with
        | EmptyString => None
        | String e r1 =>
            match simple_escape e with
            | Some c => prepend (String c "") (scan_string r1)
            | None =>
                if bool_decide (e = "u"%char) then
                  match r1 with
                  | String h1 (String h2 (String h3 (String h4 r2))) =>
                      match hex4 h1 h2 h3 h4 with
                      | None => None
                      | Some u =>
                          if ((55296 <=? u) && (u <=? 56319))%N then
                            match r2 with
                            | String b1 (String b2 (String l1 (String l2 (String l3 (String l4 r3))))) =>
                                if bool_decide (b1 = backslash) && bool_decide (b2 = "u"%char) then
                                  match hex4 l1 l2 l3 l4 with
                                  | Some v =>
                                      if ((56320 <=? v) && (v <=? 57343))%N then
                                        prepend (utf8_encode (65536 + (u - 55296) * 1024 + (v - 56320))%N)
                                          (scan_string r3)
                                      else prepend (utf8_encode u) (scan_string r2)
                                  | None => prepend (utf8_encode u) (scan_string r2)
                                  end
                                else prepend (utf8_encode u) (scan_string r2)
                            | _ => prepend (utf8_encode u) (scan_string r2)
                            end
                          else prepend (utf8_encode u) (scan_string r2)
                      end
                  | _ => None
                  end
                else None
            end
        end
      else if (N_of_ascii a <? 32)%N then None
      else prepend (String a "") (scan_string r)
  end.

Fixpoint scan_digits (s : string) : string * string :=
  match s with
  | String a s' =>
      if digit_val a is Some _ then let '(d, r) := scan_digits s' in (String a d, r)
      else (EmptyString, s)
  | EmptyString => (EmptyString, EmptyString)
  end.
Definition scan_fraction (s : string) : string * string :=
  match s with
  | String "." s' => let '(d, r) := scan_digits s' in if nonempty d then ("." +:+ d, r) else ("", s)
  | _ => ("", s)
  end.
Definition scan_exponent (s : string) : string * string :=
  match s with
  | String e s' =>
      if bool_decide (e = "e"%char) || bool_decide (e = "E"%char) then
        let '(sign, s'') := match s' with
          | String "+" t => ("+", t) | String "-" t => ("-", t) | _ => ("", s') end in
        let '(d, r) := scan_digits s'' in
        if nonempty d then (String e (sign +:+ d), r) else ("", s)
      else ("", s)
  | EmptyString => ("", s)
  end.
(** The integer part has no leading zero; an integer of more than 4300 digits is refused. *)
Definition scan_number (s : string) : option (string * string) :=
  let '(sign, s1) := match s with String "-" t => ("-", t) | _ => ("", s) end in
  let '(i, s2) := match s1 with
    | String "0" t => ("0", t)
    | _ => scan_digits s1 end in
  if negb (nonempty i) then None
  else
    let '(f, s3) := scan_fraction s2 in
    let '(e, s4) := scan_exponent s3 in
    if negb (nonempty f) && negb (nonempty e) && Nat.ltb 4300 (String.length i) then None
    else Some (sign +:+ i +:+ f +:+ e, s4).
Definition literals : list (string * json) :=
  [("null", JNull); ("true", JBool true); ("false", JBool false); ("NaN", JNum "NaN");
   ("Infinity", JNum "Infinity"); ("-Infinity", JNum "-Infinity")].
Definition scan_atom (s : string) : option (json * string) :=
  match find (λ '(k, _), startswith k s) literals with
  | Some (k, v) => Some (v, removeprefix k s)
  | None => match scan_number s with Some (n, r) => Some (JNum n, r) | None => None end
  end.

(** One value; the list and object scanners take over after the opening bracket and the
    white space behind it. *)
Fixpoint scan_value (fuel : nat) (s : string) : option (json * string) :=
  match fuel with
  | O => None
  | S fuel' =>
      match s with
      | EmptyString => None
      | String a r =>
          if bool_decide (a = quote) then
            match scan_string r with Some (t, r') => Some (JStr t, r') | None => None end
          else if bool_decide (a = "["%char) then
            match skip_ws r with
            | String "]" r' => Some (JList [], r')
            | r' => match scan_items fuel' r' with Some (l, r'') => Some (JList l, r'') | None => None end
            end
          else if bool_decide (a = "{"%char) then
            match skip_ws r with
            | String "}" r' => Some (JObj [], r')
            | r' => match scan_pairs fuel' r' with Some (l, r'') => Some (JObj l, r'') | None => None end
            end
          else scan_atom s
      end
  end
with scan_items (fuel : nat) (s : string) : option (list json * string) :=
  match fuel with
  | O => None
  | S fuel' =>
      match scan_value fuel' s with
      | None => None
      | Some (v, r) =>
          match skip_ws r with
          | String "]" r' => Some ([v], r')
          | String "," r' =>
              match scan_items fuel' (skip_ws r') with
              | Some (l, r'') => Some (v :: l, r'')
              | None => None
              end
          | _ => None
          end
      end
  end
with scan_pairs (fuel : nat) (s : string) : option (list (string * json) * string) :=
  match fuel with
  | O => None
  | S fuel' =>
      match s with
      | EmptyString => None
      | String a r0 =>
          if negb (bool_decide (a = quote)) then None
          else
            match scan_string r0 with
            | None => None
            | Some (k, r) =>
                match skip_ws r with
                | String ":" r1 =>
                    match scan_value fuel' (skip_ws r1) with
                    | None => None
                    | Some (v, r2) =>
                        match skip_ws r2 with
                        | String "}" r' => Some ([(k, v)], r')
                        | String "," r' =>
                            match scan_pairs fuel' (skip_ws r') with
                            | Some (l, r'') => Some ((k, v) :: l, r'')
                            | None => None
                            end
                        | _ => None
                        end
                    end
                | _ => None
                end
            end
      end
  end.
(** Every recursive call but the one into a bracket has consumed a character, and that one
    has too, so twice the length is enough fuel. *)
Definition json_loads (s : string) : option json :=
  match scan_value (2 * S (String.length s)) (skip_ws s) with
  | Some (v, r) => if nonempty (skip_ws r) then None else Some v
  | None => None
  end.

(** ** Lemmas on texts *)

Lemma all_chars_app p a b : all_chars p (a +:+ b) = all_chars p a && all_chars p b.
Proof.
  induction a as [|x a IH]; [done|].
  change (String x a +:+ b) with (String x (a +:+ b)). simpl. by rewrite IH, andb_assoc.
Qed.
Lemma string_app_assoc (a b c : string) : (a +:+ b) +:+ c = a +:+ (b +:+ c).
Proof.
  induction a as [|x a IH]; [done|].
  change ((String x a +:+ b) +:+ c) with (String x ((a +:+ b) +:+ c)). by rewrite IH.
Qed.
Lemma string_app_nil (a : string) : a +:+ "" = a.
Proof. induction a as [|x a IH]; [done|]. change (String x (a +:+ "") = String x a). by f_equal. Qed.
Lemma split_on_lacks c s : lacks c s = true → split_on c s = [s].
Proof.
  unfold lacks. induction s as [|a s IH]; [done|]. simpl. intros [Ha Hs]%andb_true_iff.
  apply bool_decide_eq_true in Ha. rewrite bool_decide_eq_false_2 by done. by rewrite IH.
Qed.
Lemma split_on_cons c s rest :
  lacks c s = true → split_on c (s +:+ String c rest) = s :: split_on c rest.
Proof.
  unfold lacks. induction s as [|a s IH].
  - intros _. change (split_on c (String c rest) = "" :: split_on c rest). simpl.
    by rewrite bool_decide_eq_true_2.
  - simpl. intros [Ha Hs]%andb_true_iff. change (String a s +:+ ?x) with (String a (s +:+ x)).
    simpl. apply bool_decide_eq_true in Ha. rewrite bool_decide_eq_false_2 by done. by rewrite IH.
Qed.
Lemma split_on_join c l :
  l ≠ [] → Forall (λ x, lacks c x = true) l → split_on c (join (String c "") l) = l.
Proof.
  intros Hne Hl. induction Hl as [|x l Hx Hl IH]; [done|]. destruct l as [|y l].
  - by apply split_on_lacks.
  - change (join (String c "") (x :: y :: l))
      with (x +:+ (String c (join (String c "") (y :: l)))).
    rewrite split_on_cons by done. by rewrite IH.
Qed.

Lemma rstrip_repeat c s n :
  lacks c s = true → rstrip_char c (s +:+ repeat_char c n) = s.
Proof.
  unfold lacks. intros Hs.
  assert (rstrip_char c (repeat_char c n) = "") as Hc.
  { induction n as [|n IH]; [done|]. simpl. rewrite IH. by rewrite bool_decide_eq_true_2. }
  induction s as [|a s IH]; [exact Hc|]. simpl in Hs. apply andb_true_iff in Hs as [Ha Hs].
  change (String a s +:+ repeat_char c n) with (String a (s +:+ repeat_char c n)). simpl.
  rewrite IH by done. apply bool_decide_eq_true in Ha. destruct s; [|done].
  by rewrite bool_decide_eq_false_2.
Qed.
Lemma string_length_app (a b : string) :
  String.length (a +:+ b) = (String.length a + String.length b)%nat.
Proof.
  induction a as [|x a IH]; [done|]. change (String x a +:+ b) with (String x (a +:+ b)).
  simpl. by rewrite IH.
Qed.

(** ** The Base64 round trip *)

Lemma string_ind3 (P : string → Prop) :
  P "" → (∀ a, P (String a "")) → (∀ a b, P (String a (String b ""))) →
  (∀ a b c s, P s → P (String a (String b (String c s)))) → ∀ s, P s.
Proof. intros H0 H1 H2 H3. fix IH 1. intros [|a [|b [|c s]]]; [done|done|done|]. apply H3, IH. Qed.

Definition sextets : list N := N.of_nat <$> seq 0 64.
Lemma elem_of_sextets v : (v < 64)%N → v ∈ sextets.
Proof.
  intros Hv. apply list_elem_of_fmap. exists (N.to_nat v). rewrite N2Nat.id, elem_of_seq. lia.
Qed.
Definition url_char (a : ascii) : bool :=
  bool_decide (a ≠ "="%char) && bool_decide (a ≠ "."%char) && (N_of_ascii a <? 128)%N.
Lemma b64_char_spec v :
  (v < 64)%N →
  b64_val (b64_char v) = Some v ∧ b64_char v ≠ "="%char ∧
  from_urlsafe (to_urlsafe (b64_char v)) = b64_char v ∧ url_char (to_urlsafe (b64_char v)) = true.
Proof.
  intros Hv%elem_of_sextets.
  assert (Forall (λ v, b64_val (b64_char v) = Some v ∧ b64_char v ≠ "="%char ∧
    from_urlsafe (to_urlsafe (b64_char v)) = b64_char v ∧
    url_char (to_urlsafe (b64_char v)) = true) sextets) as Hall.
  { apply (bool_decide_unpack _). by vm_compute. }
  by eapply Forall_forall in Hall.
Qed.
Lemma ascii_bound a : (N_of_ascii a < 256)%N.
Proof. destruct a as [[] [] [] [] [] [] [] []]; by vm_compute. Qed.
Lemma byte_of_ascii a n : n = N_of_ascii a → byte_of n = a.
Proof. intros ->. apply ascii_N_embedding. Qed.

(** The four groups of six bits of three bytes, and back. *)
Lemma low_high (q r m : N) : (r < m → (q * m + r) / m = q ∧ (q * m + r) mod m = r)%N.
Proof.
  intros Hr. assert (m ≠ 0)%N by lia.
  split; [rewrite N.div_add_l, (N.div_small r m) by done; lia|].
  rewrite N.add_comm, N.Div0.mod_add. by apply N.mod_small.
Qed.
Lemma div_bound (x k m : N) : (x < k * m → m ≠ 0 → x / m < k)%N.
Proof. intros. apply N.Div0.div_lt_upper_bound. lia. Qed.
Lemma mod_div (x m : N) : (x / m * m + x mod m = x)%N.
Proof. rewrite N.mul_comm. symmetry. apply N.Div0.div_mod. Qed.
Lemma sextet_bounds x y :
  (x < 256 → y < 256 →
   x / 4 < 64 ∧ x mod 4 * 16 + y / 16 < 64 ∧ y mod 16 * 4 + x / 64 < 64 ∧ x mod 64 < 64 ∧
   x mod 4 * 16 < 64 ∧ y mod 16 * 4 < 64)%N.
Proof.
  intros Hx Hy.
  pose proof (div_bound x 64 4 ltac:(lia) ltac:(done)). pose proof (div_bound x 4 64 ltac:(lia) ltac:(done)).
  pose proof (div_bound y 16 16 ltac:(lia) ltac:(done)).
  pose proof (N.mod_lt x 4 ltac:(done)). pose proof (N.mod_lt y 16 ltac:(done)).
  pose proof (N.mod_lt x 64 ltac:(done)). lia.
Qed.
Lemma sextet_bytes x y z :
  (x < 256 → y < 256 → z < 256 →
   x / 4 * 4 + (x mod 4 * 16 + y / 16) / 16 = x ∧
   (x mod 4 * 16 + y / 16) mod 16 * 16 + (y mod 16 * 4 + z / 64) / 4 = y ∧
   (y mod 16 * 4 + z / 64) mod 4 * 64 + z mod 64 = z)%N.
Proof.
  intros Hx Hy Hz.
  destruct (low_high (x mod 4) (y / 16) 16) as [-> ->]; [by apply div_bound|].
  destruct (low_high (y mod 16) (z / 64) 4) as [-> ->]; [by apply div_bound|].
  by rewrite !mod_div.
Qed.

Lemma a2b_char q l p v s :
  (v < 64)%N →
  a2b_base64 q l p (String (b64_char v) s) =
  (match q with
   | 0%nat => a2b_base64 1 v 0 s
   | 1%nat => String (byte_of (l * 4 + v / 16)) <$> a2b_base64 2 (v mod 16) 0 s
   | 2%nat => String (byte_of (l * 16 + v / 4)) <$> a2b_base64 3 (v mod 4) 0 s
   | _ => String (byte_of (l * 64 + v)) <$> a2b_base64 0 0 0 s
   end)%N.
Proof.
  intros Hv. destruct (b64_char_spec v Hv) as (Hval&Hne&_). simpl.
  by rewrite bool_decide_eq_false_2, Hval by done.
Qed.

Lemma a2b_b2a s : a2b_base64 0 0 0 (b2a_base64 s) = Some s.
Proof.
  induction s as [|a|a b|a b c s IH] using string_ind3; [done|..];
    pose proof (ascii_bound a) as Ba; cbn [b2a_base64].
  - destruct (sextet_bounds _ 0 Ba eq_refl) as (B1&B2&_&_&B3&_).
    destruct (sextet_bytes _ 0 0 Ba eq_refl eq_refl) as (E1&_).
    rewrite !a2b_char by done. simpl. f_equal. f_equal. apply byte_of_ascii.
    by rewrite N.add_0_r in E1.
  - pose proof (ascii_bound b) as Bb.
    destruct (sextet_bounds _ _ Ba Bb) as (B1&B2&_&_&_&B3).
    destruct (sextet_bytes _ _ 0 Ba Bb eq_refl) as (E1&E2&_). rewrite N.add_0_r in E2.
    rewrite !a2b_char by done. simpl. do 2 f_equal; [by apply byte_of_ascii|].
    f_equal. by apply byte_of_ascii.
  - pose proof (ascii_bound b) as Bb. pose proof (ascii_bound c) as Bc.
    destruct (sextet_bounds _ _ Ba Bb) as (B1&B2&_).
    destruct (sextet_bounds _ _ Bc Bb) as (_&_&B3&B4&_).
    destruct (sextet_bytes _ _ _ Ba Bb Bc) as (E1&E2&E3).
    rewrite !a2b_char, IH by done. simpl. do 2 f_equal; [by apply byte_of_ascii|].
    f_equal; [by apply byte_of_ascii|]. f_equal. by apply byte_of_ascii.
Qed.

(** The encoding is alphabet characters and the padding that completes the last group. *)
Definition b64_text (s : string) : Prop :=
  all_chars (λ a, bool_decide (from_urlsafe (to_urlsafe a) = a) && bool_decide (a ≠ "="%char) &&
    url_char (to_urlsafe a)) s = true.
Lemma b64_char_text v s : (v < 64)%N → b64_text s → b64_text (String (b64_char v) s).
Proof.
  intros Hv Hs. destruct (b64_char_spec v Hv) as (_&H1&H2&H3). unfold b64_text. simpl.
  rewrite Hs, H3, !bool_decide_eq_true_2 by done. done.
Qed.
Lemma b2a_shape s :
  ∃ body, b2a_base64 s = body +:+ padding body ∧ b64_text body.
Proof.
  induction s as [|a|a b|a b c s (body&IH&Ht)] using string_ind3; [by exists ""|..];
    pose proof (ascii_bound a) as Ba; cbn [b2a_base64].
  - destruct (sextet_bounds _ 0 Ba eq_refl) as (B1&_&_&_&B3&_).
    eexists (String _ (String _ "")). split; [done|]. by repeat apply b64_char_text.
  - pose proof (ascii_bound b) as Bb. destruct (sextet_bounds _ _ Ba Bb) as (B1&B2&_&_&_&B3).
    eexists (String _ (String _ (String _ ""))). split; [done|]. by repeat apply b64_char_text.
  - pose proof (ascii_bound b) as Bb. pose proof (ascii_bound c) as Bc.
    destruct (sextet_bounds _ _ Ba Bb) as (B1&B2&_).
    destruct (sextet_bounds _ _ Bc Bb) as (_&_&B3&B4&_).
    eexists (String _ (String _ (String _ (String _ body)))). split.
    + rewrite IH. unfold padding. simpl String.length.
      replace (- Z.of_nat (S (S (S (S (String.length body)))))) with
        (- Z.of_nat (String.length body) + (-1) * 4) by lia. by rewrite Z_mod_plus_full.
    + by repeat apply b64_char_text.
Qed.

Lemma translate_app f a b : translate f (a +:+ b) = translate f a +:+ translate f b.
Proof.
  induction a as [|x a IH]; [done|]. change (String x a +:+ b) with (String x (a +:+ b)).
  simpl. by rewrite IH.
Qed.
Lemma translate_repeat f c n : f c = c → translate f (repeat_char c n) = repeat_char c n.
Proof. intros Hf. induction n as [|n IH]; [done|]. simpl. by rewrite Hf, IH. Qed.
Lemma translate_length f s : String.length (translate f s) = String.length s.
Proof. induction s as [|a s IH]; [done|]. simpl. by rewrite IH. Qed.
Lemma b64_text_back s : b64_text s → translate from_urlsafe (translate to_urlsafe s) = s.
Proof.
  unfold b64_text. induction s as [|a s IH]; [done|]. simpl. intros [Ha Hs]%andb_true_iff.
  bool_props. rewrite IH by done. by f_equal.
Qed.
Lemma b64_text_url s :
  b64_text s →
  lacks "=" (translate to_urlsafe s) = true ∧ lacks "." (translate to_urlsafe s) = true ∧
  ascii_text (translate to_urlsafe s) = true.
Proof.
  unfold b64_text, lacks, ascii_text. induction s as [|a s IH]; [done|]. simpl.
  intros [Ha Hs]%andb_true_iff. destruct (IH Hs) as (->&->&->). unfold url_char in Ha.
  apply andb_true_iff in Ha as [_ Ha]. apply andb_true_iff in Ha as [Ha ->]. bool_props.
  by rewrite !bool_decide_eq_true_2.
Qed.

(** What [rstrip("=")] leaves of an encoding; putting the padding back restores it. *)
Definition b64_field (s : string) : string := rstrip_char "=" (urlsafe_b64encode s).
Lemma b64_unpadded s :
  b64_field s +:+ padding (b64_field s) = urlsafe_b64encode s ∧
  lacks "." (b64_field s) = true ∧ ascii_text (b64_field s) = true.
Proof.
  destruct (b2a_shape s) as (body&E&Ht). destruct (b64_text_url body Ht) as (Heq&Hdot&Hasc).
  assert (urlsafe_b64encode s = translate to_urlsafe body +:+ padding body) as Eu.
  { unfold urlsafe_b64encode. rewrite E, translate_app. unfold padding. by rewrite translate_repeat. }
  assert (b64_field s = translate to_urlsafe body) as ->.
  { unfold b64_field. rewrite Eu. by apply rstrip_repeat. }
  rewrite Eu. unfold padding. by rewrite translate_length.
Qed.
Lemma b64_round_trip s :
  urlsafe_b64decode (b64_field s +:+ padding (b64_field s)) = Some s.
Proof.
  destruct (b64_unpadded s) as [-> _].
  unfold urlsafe_b64decode, urlsafe_b64encode. destruct (b2a_shape s) as (body&Eb&Ht).
  rewrite Eb, !translate_app, b64_text_back by done. unfold padding.
  rewrite !translate_repeat by done. fold (padding body). by rewrite <-Eb, a2b_b2a.
Qed.

(** ** The JSON round trip on lists of ASCII texts *)

Lemma prepend_prepend a b r : prepend a (prepend b r) = prepend (a +:+ b) r.
Proof. destruct r as [[s rest]|]; [|done]. simpl. by rewrite string_app_assoc. Qed.
Lemma scan_escape_ascii a rest :
  (N_of_ascii a <? 128)%N = true →
  scan_string (escape_ascii a +:+ rest) = prepend (String a "") (scan_string rest).
Proof. destruct a as [[] [] [] [] [] [] [] []]; intros Ha; try discriminate Ha; reflexivity. Qed.
Lemma scan_escape s rest :
  ascii_text s = true → scan_string (json_escape s +:+ String quote rest) = Some (s, rest).
Proof.
  unfold ascii_text. induction s as [|a s IH]; intros Hs; [done|].
  simpl in Hs. apply andb_true_iff in Hs as [Ha Hs]. cbn [json_escape]. rewrite Ha.
  rewrite string_app_assoc, scan_escape_ascii, IH by done. done.
Qed.
Lemma scan_quoted fuel s rest :
  ascii_text s = true → scan_value (S fuel) (json_quote s +:+ rest) = Some (JStr s, rest).
Proof.
  intros Hs. change (json_quote s +:+ rest)
    with (String quote ((json_escape s +:+ String quote "") +:+ rest)).
  rewrite string_app_assoc. change (String quote "" +:+ rest) with (String quote rest).
  cbn [scan_value]. rewrite bool_decide_eq_true_2 by done. by rewrite scan_escape.
Qed.
Lemma json_quoted_cons x y l :
  json_quoted (x :: y :: l) = json_quote x +:+ String "," (json_quoted (y :: l)).
Proof. done. Qed.
Lemma json_quoted_head x l r : ∃ r', json_quoted (x :: l) +:+ r = String quote r'.
Proof. destruct l as [|y l]; by eexists. Qed.
Lemma scan_items_S fuel s :
  scan_items (S fuel) s =
  match scan_value fuel s with
  | None => None
  | Some (v, r) =>
      match skip_ws r with
      | String "]" r' => Some ([v], r')
      | String "," r' =>
          match scan_items fuel (skip_ws r') with
          | Some (l, r'') => Some (v :: l, r'')
          | None => None
          end
      | _ => None
      end
  end.
Proof. done. Qed.
Lemma scan_items_join l rest fuel :
  l ≠ [] → Forall (λ x, ascii_text x = true) l → (length l < fuel)%nat →
  scan_items fuel (json_quoted l +:+ String "]" rest) = Some (JStr <$> l, rest).
Proof.
  intros Hne Hl. revert fuel Hne. induction Hl as [|x l Hx Hl IH]; intros fuel Hne Hf; [done|].
  destruct fuel as [|[|fuel]]; simpl in Hf; [lia|lia|]. destruct l as [|y l].
  - unfold json_quoted. cbn [fmap list_fmap join]. cbn [scan_items]. by rewrite scan_quoted.
  - rewrite json_quoted_cons, string_app_assoc, scan_items_S, scan_quoted by done.
    change (String "," (json_quoted (y :: l)) +:+ ?r) with (String "," (json_quoted (y :: l) +:+ r)).
    change (skip_ws (String "," ?r)) with (String "," r). cbv match.
    pose proof (IH (S fuel) ltac:(done) ltac:(simpl in *; lia)) as IH'.
    destruct (json_quoted_head y l (String "]" rest)) as [r' Er]. rewrite Er in *.
    change (skip_ws (String quote r')) with (String quote r'). by rewrite IH'.
Qed.
Lemma join_length sep l :
  (∀ x, x ∈ l → 0 < String.length x)%nat → (length l ≤ String.length (join sep l))%nat.
Proof.
  induction l as [|x l IH]; intros Hl; simpl; [lia|].
  pose proof (Hl x (list_elem_of_here _ _)). destruct l as [|y l]; [simpl; lia|].
  rewrite !string_length_app. specialize (IH (λ z Hz, Hl z (list_elem_of_further _ _ _ Hz))).
  simpl in *. lia.
Qed.
Lemma json_round_trip l :
  Forall (λ x, ascii_text x = true) l → json_loads (json_dumps_list l) = Some (JList (JStr <$> l)).
Proof.
  intros Hl. destruct l as [|x l]; [done|]. unfold json_loads, json_dumps_list.
  change (skip_ws (String "[" ?r)) with (String "[" r).
  assert (length (x :: l) ≤ String.length (json_quoted (x :: l)))%nat as Hlen.
  { rewrite <-(length_fmap json_quote). apply join_length. intros y (z&->&_)%list_elem_of_fmap.
    simpl. lia. }
  cbn [String.length]. rewrite string_length_app. cbn [String.length].
  remember (2 * S (S (String.length (json_quoted (x :: l)) + 1)))%nat as fuel eqn:Ef.
  destruct fuel as [|fuel]; [lia|]. cbn [scan_value].
  rewrite bool_decide_eq_false_2, bool_decide_eq_true_2 by done.
  pose proof (scan_items_join (x :: l) "" fuel ltac:(done) Hl ltac:(lia)) as Hs.
  destruct (json_quoted_head x l "]") as [r Er]. change (String "]" "") with "]" in Hs.
  rewrite Er in *. change (skip_ws (String quote r)) with (String quote r). unfold quote in *. cbv match. by rewrite Hs.
Qed.

(** ** [int(str(n)) == n] *)

Definition is_digit (a : ascii) : bool := bool_decide (is_Some (digit_val a)).
Lemma pretty_N_char_digit m :
  (m < 10)%N → digit_val (pretty_N_char m) = Some (Z.of_N m).
Proof.
  intros Hm. assert (m ∈ N.of_nat <$> seq 0 10) as Hin.
  { apply list_elem_of_fmap. exists (N.to_nat m). rewrite N2Nat.id, elem_of_seq. lia. }
  assert (Forall (λ m, digit_val (pretty_N_char m) = Some (Z.of_N m)) (N.of_nat <$> seq 0 10)) as Hall.
  { apply (bool_decide_unpack _). by vm_compute. }
  by eapply Forall_forall in Hall.
Qed.
Lemma pretty_go_digits x s :
  all_chars is_digit s = true → all_chars is_digit (pretty_N_go x s) = true.
Proof.
  revert s. induction (N.lt_wf_0 x) as [x _ IH]. intros s Hs.
  destruct (decide (0 < x)%N) as [Hx|Hx].
  - rewrite pretty_N_go_step by done. apply IH; [by apply N.div_lt|]. simpl. rewrite Hs.
    unfold is_digit. rewrite pretty_N_char_digit by by apply N.mod_lt. done.
  - assert (x = 0%N) as -> by lia. by rewrite pretty_N_go_0.
Qed.
Lemma int_digits_pretty x s :
  int_digits 0 (pretty_N_go x s) = int_digits (Z.of_N x) s.
Proof.
  revert s. induction (N.lt_wf_0 x) as [x _ IH]. intros s.
  destruct (decide (0 < x)%N) as [Hx|Hx].
  - rewrite pretty_N_go_step, IH by (done || by apply N.div_lt). cbn [int_digits].
    rewrite pretty_N_char_digit by by apply N.mod_lt. f_equal.
    pose proof (N.div_mod x 10 ltac:(done)). lia.
  - assert (x = 0%N) as -> by lia. by rewrite pretty_N_go_0.
Qed.
Lemma pretty_digits (n : N) : all_chars is_digit (pretty n) = true.
Proof. unfold pretty, pretty_N. case_decide; [done|]. by apply pretty_go_digits. Qed.
Lemma int_unsigned_digits s :
  all_chars is_digit s = true → s ≠ "" → int_unsigned s = int_digits 0 s.
Proof.
  destruct s as [|a s]; [done|]. simpl. unfold is_digit. intros [Ha _]%andb_true_iff _.
  apply bool_decide_eq_true in Ha as [d ->]. by rewrite Z.mul_0_l.
Qed.
Lemma digit_facts a : is_digit a = true → is_space a = false ∧ a ≠ "-"%char ∧ a ≠ "+"%char ∧ (N_of_ascii a <? 128)%N = true.
Proof. destruct a as [[] [] [] [] [] [] [] []]; intros Ha; try discriminate Ha; by vm_compute. Qed.
Lemma all_chars_impl (p q : ascii → bool) s :
  (∀ a, p a = true → q a = true) → all_chars p s = true → all_chars q s = true.
Proof.
  intros Hpq. induction s as [|a s IH]; [done|]. simpl. intros [Ha Hs]%andb_true_iff.
  by rewrite Hpq, IH.
Qed.
Lemma pretty_N_nonempty (n : N) : pretty n ≠ "".
Proof.
  unfold pretty, pretty_N. case_decide; [done|]. intros E.
  assert (∀ x s, s ≠ "" → pretty_N_go x s ≠ "") as Hne.
  { intros x. induction (N.lt_wf_0 x) as [x _ IH]. intros s Hs. destruct (decide (0 < x)%N).
    - rewrite pretty_N_go_step by done. apply IH; [by apply N.div_lt|done].
    - assert (x = 0%N) as -> by lia. by rewrite pretty_N_go_0. }
  rewrite pretty_N_go_step in E by lia. by eapply Hne in E.
Qed.
Lemma no_space_chars s : no_space s = all_chars (λ a, negb (is_space a)) s.
Proof. induction s as [|a s IH]; [done|]. simpl. by rewrite IH. Qed.
Lemma py_int_pretty (n : N) : py_int (pretty n) = Some (Z.of_N n).
Proof.
  pose proof (pretty_digits n) as Hd. pose proof (pretty_N_nonempty n) as Hne.
  unfold py_int. rewrite no_space_strip.
  2:{ rewrite no_space_chars. eapply all_chars_impl; [|exact Hd]. intros a Ha.
      by destruct (digit_facts a Ha) as [-> _]. }
  assert (int_unsigned (pretty n) = Some (Z.of_N n)) as Hi.
  { rewrite int_unsigned_digits by done. unfold pretty, pretty_N. case_decide as E; [by subst|].
    by rewrite int_digits_pretty. }
  destruct (pretty n) as [|a s] eqn:E; [done|]. simpl in Hd. apply andb_true_iff in Hd as [Ha _].
  destruct (digit_facts a Ha) as (_&H1&H2&_).
  destruct a as [[] [] [] [] [] [] [] []]; try done; try discriminate Ha.
Qed.

Lemma ascii_utf8 b s : ascii_text s = true → utf8_valid b s = true.
Proof.
  unfold ascii_text. induction s as [|a s IH]; [done|]. simpl. intros [-> Hs]%andb_true_iff. auto.
Qed.
Lemma json_dumps_ascii l :
  Forall (λ x, ascii_text x = true) l → ascii_text (json_dumps_list l) = true.
Proof.
  intros Hl. assert (∀ x, ascii_text x = true → ascii_text (json_quote x) = true) as Hq.
  { intros x Hx. unfold json_quote, ascii_text in *. simpl. rewrite all_chars_app. simpl.
    rewrite andb_true_r. induction x as [|a x IH]; [done|]. simpl in Hx.
    apply andb_true_iff in Hx as [Ha Hx]. cbn [json_escape]. rewrite Ha, all_chars_app, (IH Hx).
    rewrite andb_true_r. clear -Ha. by destruct a as [[] [] [] [] [] [] [] []]. }
  unfold json_dumps_list, ascii_text in *. simpl. rewrite all_chars_app. simpl. rewrite andb_true_r.
  induction Hl as [|x l Hx Hl IH]; [done|]. destruct l as [|y l].
  - by apply Hq.
  - rewrite json_quoted_cons, all_chars_app, Hq by done. exact IH.
Qed.
(** ** The order of texts *)

Lemma string_compare_trans a b c o :
  String.compare a b = o → String.compare b c = o → o ≠ Gt → String.compare a c = o.
Proof.
  revert b c. induction a as [|x a IH]; intros [|y b] [|z c]; simpl; try congruence.
  unfold Ascii.compare.
  destruct (N.compare_spec (N_of_ascii x) (N_of_ascii y)) as [Exy|Lxy|Gxy],
    (N.compare_spec (N_of_ascii y) (N_of_ascii z)) as [Eyz|Lyz|Gyz];
    destruct (N.compare_spec (N_of_ascii x) (N_of_ascii z)) as [Exz|Lxz|Gxz];
    try (exfalso; lia); try congruence; eauto.
Qed.
Lemma string_compare_refl a : String.compare a a = Eq.
Proof.
  induction a as [|x a IH]; [done|]. simpl. unfold Ascii.compare. by rewrite N.compare_refl.
Qed.
Lemma string_ltb_trans a b c : String.ltb a b = true → String.ltb b c = true → String.ltb a c = true.
Proof.
  unfold String.ltb. destruct (String.compare a b) eqn:E1; try done.
  destruct (String.compare b c) eqn:E2; try done. intros _ _.
  by rewrite (string_compare_trans a b c Lt).
Qed.
Lemma string_leb_ltb a b : String.leb a b = negb (String.ltb b a).
Proof.
  unfold String.leb, String.ltb. rewrite String.compare_antisym. by destruct (String.compare b a).
Qed.
Lemma string_ltb_irrefl a : String.ltb a a = false.
Proof. unfold String.ltb. by rewrite string_compare_refl. Qed.
Lemma string_ltb_asym a b : String.ltb a b = true → String.ltb b a = false.
Proof.
  intros H. apply not_true_iff_false. intros H'.
  pose proof (string_ltb_trans a b a H H') as E. by rewrite string_ltb_irrefl in E.
Qed.
Lemma string_tricho a b : String.ltb a b = true ∨ a = b ∨ String.ltb b a = true.
Proof.
  unfold String.ltb. rewrite (String.compare_antisym b a).
  destruct (String.compare a b) eqn:E; simpl; [|by left|by right; right].
  right. left. by apply String.compare_eq_iff.
Qed.
Lemma string_leb_trans a b c : String.leb a b = true → String.leb b c = true → String.leb a c = true.
Proof.
  rewrite !string_leb_ltb, !negb_true_iff. intros Hba Hcb. apply not_true_iff_false. intros Hca.
  destruct (string_tricho a b) as [H|[->|H]]; [|congruence|congruence].
  rewrite (string_ltb_trans c a b) in Hcb by done. done.
Qed.
