(* ===== verification/Placement.v ===== *)
(** Where a test runs: the directory of workers and the one decision that matches suite, devices,
    transport and admission ([features/cluster/service.py]), and which transports a command needs
    ([features/devices/transport_policy.py]).

    The warnings the directory shows to people are left out, and the incident an operator is told
    of when a worker is lost.  Patterns ignore the case of ASCII letters. *)

From Stdlib Require Import QArith.
From S2P Require Import Prelude Encodings JobStateMachine ClusterState Admission Inventory.

Open Scope Z_scope.

(** ** Transports *)

Definition lower_letter (a : ascii) : bool := let n := N_of_ascii a in ((97 <=? n) && (n <=? 122))%N.
(** [(?:^|[^a-z])w(?:[^a-z]|$)] at some place of a text in lower case; [free]: no letter comes
    before this place. *)
Fixpoint has_word (w : string) (free : bool) (s : string) : bool :=
  (free && startswith w s
   && match removeprefix w s with String b _ => negb (lower_letter b) | EmptyString => true end)
  || match s with String a s' => has_word w (negb (lower_letter a)) s' | EmptyString => false end.
(** [a.*(?:b|...)] on one line. *)
Fixpoint followed_by (a : string) (bs : list string) (s : string) : bool :=
  (startswith a s && existsb (λ b, contains b (removeprefix a s)) bs)
  || match s with String _ s' => followed_by a bs s' | EmptyString => false end.
(* src/features/devices/transport_policy.py:9-15 _PHYSICAL_USB_PATTERNS *)
Definition needs_usb_channel (command : string) : bool :=
  let s := ascii_lower command in
  existsb (λ w, has_word w true s) ["fastboot"; "flash"; "flashing"; "sideload"]
  || existsb (λ line, followed_by "cts" ["usb"] line
       || followed_by "usb" ["accessory"; "host"; "device"; "descriptor"; "role"; "audio"; "camera"; "hid"; "mtp"; "ptp"] line)
       (split_on "010" s).

Definition env_get (key : string) (env : list (string * string)) : string :=
  match fetchone (λ x, streqb x.1 key) env with Some x => x.2 | None => "" end.
(* src/features/devices/transport_policy.py:18-38 test_transport_requirement *)
Definition physical_usb (argv : list string) (env : list (string * string)) : bool :=
  mem (ascii_lower (env_get "GMS_TRANSPORT_REQUIREMENT" env)) ["physical_usb"; "usbip"; "local_usb"]
  || needs_usb_channel (join " " argv).
Definition allowed_transports (argv : list string) (env : list (string * string)) : list string :=
  if physical_usb argv env then ["local_usb"; "usbip"] else ["local_usb"; "usbip"; "adb_proxy"].
(* src/features/devices/transport_policy.py:41-53 incompatible_test_devices *)
Definition incompatible_test_devices (devices : list device_row) (argv : list string) (env : list (string * string)) :
    list string :=
  filter (λ x, nonempty x = true)
    ((λ r, str_or (dev_serial r) (dev_id r)) <$>
     fetchall (λ r, negb (mem (ascii_lower (str_or (dev_transport r) "local_usb")) (allowed_transports argv env))) devices).

(** ** Device conditions *)

Record device_selector := DeviceSelector {
  sl_product : string;
  sl_variant : string;
  sl_build_id : string;
  sl_android_version : string;
  sl_serial_prefix : string;
  sl_board : string;
  sl_min_count : Z;
}.
(** The first of these properties that has a text. *)
Definition property (keys : list string) (r : device_row) : string :=
  default "" (head (filter (λ x, nonempty x = true) ((λ k, default "" (dev_properties r !! k)) <$> keys))).
(** A row has no other columns of these names. *)
(* src/foundation/test_execution_options.py:40-59 matches_device_selector *)
Definition matches_device_selector (r : device_row) (s : device_selector) : bool :=
  forallb (λ '(wanted, aliases),
      let expected := ascii_lower (strip wanted) in
      negb (nonempty expected) || streqb (ascii_lower (property aliases r)) expected)
    [(sl_product s, ["product"; "ro.product.name"]);
     (sl_variant s, ["variant"; "product_variant"; "device"; "ro.product.device"]);
     (sl_build_id s, ["build_id"; "ro.build.id"]);
     (sl_android_version s, ["android_version"; "ro.build.version.release"])]
  && startswith (sl_serial_prefix s) (dev_serial r)
  && contains (ascii_lower (sl_board s)) (ascii_lower (property ["board"; "product"] r)).

(** ** The directory *)

(** [except (KeyError, ValueError, TypeError)]. *)
Definition value_error (e : exn) : bool :=
  match e with
  | ValueError _ | PlanConflictError _ | InvalidJobTransitionError _ | KeyError _ | TypeError _ => true
  | _ => false
  end.

(** [except ValueError]. *)
Definition is_value_error (e : exn) : bool :=
  match e with ValueError _ | PlanConflictError _ | InvalidJobTransitionError _ => true | _ => false end.
(** A false value reads as the empty text. *)
Definition capable (capability : string) (w : worker) : bool :=
  existsb (λ x, streqb x.1 capability && nonempty x.2) (wk_capabilities w).

Section service.
Context (min_disk_free_gb min_memory_available_gb : Q) (offline_seconds : Z) (local_worker_id : string).

(** Its last heartbeat is too old, or is no time. *)
Definition heartbeat_lost (now : Z) (w : worker) : bool :=
  match wk_last_heartbeat_at w with Some t => Z.ltb offline_seconds (now - t) | None => true end.
Definition seen (now : Z) (w : worker) : worker :=
  if heartbeat_lost now w then w <| wk_status := WorkerOffline |> else w.
(** The loop marks the workers it finds lost; the local worker comes first. *)
(* src/features/cluster/service.py:85-145 ClusterService.list_workers *)
Definition worker_directory (now : Z) : M world (list worker) :=
  workers ← list_workers;
  _ ← for_each workers (λ w,
    when (bool_decide (is_Some (wk_last_heartbeat_at w)) && heartbeat_lost now w
          && negb (bool_decide (wk_status w = WorkerOffline)))
      (try (mark_worker_offline now (wk_id w)) (λ e, if value_error e then mret tt else raise e)));
  let workers := seen now <$> workers in
  mret (fetchall (λ w, streqb (wk_id w) local_worker_id) workers
        ++ fetchall (λ w, negb (streqb (wk_id w) local_worker_id)) workers).
(** An agent that polls: not the controller acting for the local worker. *)
Definition no_agent (i : string) (w : worker) : bool :=
  streqb i local_worker_id && startswith "controller-" (wk_agent_version w).
(* src/features/cluster/service.py:225-233 ClusterService.has_command_agent *)
Definition has_command_agent (worker_id : string) : M world bool :=
  row ← get_worker worker_id;
  mret match row with
       | Some w => (bool_decide (wk_status w = WorkerOnline) || bool_decide (wk_status w = WorkerBusy))
                   && negb (no_agent worker_id w)
       | None => false
       end.

(** ** The decision *)

Record demand := Demand {
  dm_suite_key : string;
  dm_device_count : Z;
  dm_include_local : bool;
  dm_require_agent : bool;
  dm_excluded : list string;
  dm_requested : list string;
  dm_worker_id : option string;
  dm_suite_path : string;
  dm_allowed : option (list string);
}.

Definition transport_of (r : device_row) : string := ascii_lower (strip (str_or (dev_transport r) "local_usb")).
(** An available suite of this key and path. *)
Definition suite_fits (q : demand) (x : suite_row) : bool :=
  su_available x && (negb (nonempty (dm_suite_key q)) || streqb (su_suite_key x) (dm_suite_key q))
  && (negb (nonempty (dm_suite_path q)) || streqb (su_tools_path x) (dm_suite_path q)).
Definition device_fits (q : demand) (r : device_row) : bool :=
  streqb (dev_state r) "available"
  && negb (mem (transport_of r) (filter (λ x, nonempty x = true) ((λ x, ascii_lower (strip x)) <$> dm_excluded q)))
  && match dm_allowed q with Some l => mem (transport_of r) l | None => true end.
(** The devices named, by identifier when the inventory has such an identifier, else by serial
    number; [None]: one is missing or named twice. *)
Fixpoint pick_devices (inventory_ids : list string) (devices selected : list device_row) (requested : list string) :
    option (list device_row) :=
  match requested with
  | [] => Some selected
  | identity :: requested =>
      match fetchone (λ r, streqb (if mem identity inventory_ids then dev_id r else dev_serial r) identity) devices with
      | None => None
      | Some r =>
          if exists_row (λ x, streqb (dev_id x) (dev_id r)) selected then None
          else pick_devices inventory_ids devices (selected ++ [r]) requested
      end
  end.
(** [l[:n]]. *)
Definition slice_to {A} (n : Z) (l : list A) : list A :=
  if Z.ltb n 0 then take (Z.to_nat (Z.of_nat (length l) + n)) l else take (Z.to_nat n) l.
(** The devices a worker would give. *)
(* src/features/cluster/service.py:190-215 ClusterService.select_worker *)
Definition offer (q : demand) (suites : list suite_row) (inventory : list device_row) (w : worker) :
    option (list device_row) :=
  let devices := fetchall (λ r, device_fits q r && streqb (dev_worker_id r) (wk_id w)) inventory in
  let needed := if bool_decide (dm_requested q = []) then dm_device_count q else Z.of_nat (length (dm_requested q)) in
  if match dm_worker_id q with Some i => nonempty i && negb (streqb (wk_id w) i) | None => false end
     || (negb (dm_include_local q) && streqb (wk_id w) local_worker_id)
     || (dm_require_agent q && no_agent (wk_id w) w)
     || negb (exists_row (λ x, suite_fits q x && streqb (su_worker_id x) (wk_id w)) suites)
     || Z.ltb (Z.of_nat (length devices)) needed
  then None
  else
    match (if bool_decide (dm_requested q = []) then Some (slice_to (dm_device_count q) devices)
           else pick_devices (dev_id <$> inventory) devices [] (dm_requested q)) with
    | None => None
    | Some selected =>
        if blocked (worker_admission_state min_disk_free_gb min_memory_available_gb w 0) then None else Some selected
    end.
Definition Qmin (a b : Q) : Q := if Qle_bool a b then a else b.
(* src/features/cluster/service.py:216-218 ClusterService.select_worker *)
Definition score (q : demand) (inventory : list device_row) (w : worker) : Q :=
  let devices := fetchall (λ r, device_fits q r && streqb (dev_worker_id r) (wk_id w)) inventory in
  let disk_score := Qmin 10 (wk_disk_free_gb w / 50) in
  let load_score := Qmax 0 (10 - wk_cpu_percent w / 10) in
  (40 + Qmin 20 (inject_Z (Z.of_nat (length devices)) * 5) + 20 + disk_score + load_score)%Q.

Record candidate := Candidate { cd_score : Q; cd_worker_id : string; cd_devices : list device_row }.
Definition better (a b : candidate) : bool :=
  Qlt_bool (cd_score b) (cd_score a)
  || (Qeq_bool (cd_score a) (cd_score b) && String.ltb (cd_worker_id b) (cd_worker_id a)).
(** [max]: the first of the best. *)
Definition best (c : candidate) (l : list candidate) : candidate := foldl (λ b x, if better x b then x else b) c l.
Definition candidates (q : demand) (suites : list suite_row) (inventory : list device_row) (workers : list worker) :
    list candidate :=
  omap (λ w, (λ l, Candidate (score q inventory w) (wk_id w) l) <$> offer q suites inventory w) workers.
(* src/features/cluster/service.py:147-223 ClusterService.select_worker *)
Definition select_worker (now : Z) (q : demand) : M world (string * list string) :=
  suites ← list_suites "";
  rows ← list_devices now "";
  workers ← worker_directory now;
  match candidates q suites rows.*1 workers with
  | [] => raise (ValueError "no worker has the requested suite and available devices")
  | c :: l => let b := best c l in mret (cd_worker_id b, dev_id <$> cd_devices b)
  end.
End service.
