(* ===== verification/PlacementProperties.v ===== *)
(** What the placement of tests guarantees: a worker that may take the test, with the suite and the
    devices asked for, and no better one left out. *)

From Stdlib Require Import QArith Lqa.
From S2P Require Import Prelude DeviceClaims Encodings JobStateMachine ClusterState Admission ClusterClaims Inventory Controller InventoryInvariants Placement.

Open Scope Z_scope.

(** ** The best of the candidates *)

Lemma better_score a b : better a b = true → (cd_score b <= cd_score a)%Q.
Proof.
  unfold better. intros [H|H]%orb_true_iff.
  - unfold Qlt_bool in H. apply negb_true_iff, Qle_bool_false in H. lra.
  - apply andb_true_iff in H as [H%Qeq_bool_iff _]. lra.
Qed.
Lemma not_better_score a b : better a b = false → (cd_score a <= cd_score b)%Q.
Proof.
  unfold better. intros [H _]%orb_false_iff. unfold Qlt_bool in H. by apply negb_false_iff, Qle_bool_iff in H.
Qed.
Lemma best_spec c l : best c l ∈ c :: l ∧ ∀ x, x ∈ c :: l → (cd_score x <= cd_score (best c l))%Q.
Proof.
  unfold best. revert c. induction l as [|y l IH]; intros c; cbn [foldl].
  - split; [left|]. intros x Hx%list_elem_of_singleton. subst. lra.
  - destruct (better y c) eqn:Eb.
    + destruct (IH y) as [Hin Hle]. split; [by right|]. intros x Hx. apply elem_of_cons in Hx as [->|Hx]; [|by apply Hle].
      apply better_score in Eb. specialize (Hle y ltac:(left)). lra.
    + destruct (IH c) as [Hin Hle]. split; [apply elem_of_cons in Hin as [->|Hin]; [left|by do 2 right]|].
      apply not_better_score in Eb. pose proof (Hle c ltac:(left)) as Hc.
      intros x Hx. apply elem_of_cons in Hx as [->|[->|Hx]%elem_of_cons]; [done|lra|]. apply Hle. by right.
Qed.

(** ** Devices by name *)

(** [identity] names a device: by identifier, if the inventory has such an identifier, else by
    serial number. *)
Definition names (inventory : list device_row) (identity : string) (r : device_row) : Prop :=
  (if mem identity (dev_id <$> inventory) then dev_id r else dev_serial r) = identity.
Lemma pick_devices_Some inventory devices selected requested rows :
  pick_devices (dev_id <$> inventory) devices selected requested = Some rows →
  NoDup (dev_id <$> selected) →
  NoDup (dev_id <$> rows) ∧ ∃ l, rows = selected ++ l ∧ Forall2 (λ i r, names inventory i r ∧ r ∈ devices) requested l.
Proof.
  revert selected. induction requested as [|i requested IH]; intros selected; cbn [pick_devices].
  { intros [= ->] Hn. split; [done|]. exists []. by rewrite app_nil_r. }
  destruct (fetchone _ _) as [r|] eqn:Ef; [|done]. destruct (exists_row _ _) eqn:Ex; [done|]. intros E Hn.
  apply fetchone_Some in Ef as [Hin Hi]. bool_props. apply IH in E as [Hd (l&->&Hf)].
  - split; [done|]. exists (r :: l). split; [by rewrite <-app_assoc|]. by constructor.
  - rewrite fmap_app. apply NoDup_app. split_and!; [done| |apply NoDup_singleton].
    intros x (y&->&Hy)%list_elem_of_fmap Hx%list_elem_of_singleton. rewrite exists_row_false in Ex.
    specialize (Ex y Hy). by bool_props.
Qed.
(** Names that stand for different devices are all found. *)
Lemma pick_devices_complete inventory devices selected requested rows :
  (∀ i r r', names inventory i r → names inventory i r' → r ∈ devices → r' ∈ devices → r = r') →
  Forall2 (λ i r, names inventory i r ∧ r ∈ devices) requested rows → NoDup (dev_id <$> selected ++ rows) →
  pick_devices (dev_id <$> inventory) devices selected requested = Some (selected ++ rows).
Proof.
  intros Hinj Hf. revert selected. induction Hf as [|i r requested rows [Hi Hr] Hf IH]; intros selected Hn; cbn [pick_devices].
  { by rewrite app_nil_r. }
  destruct (fetchone _ _) as [r'|] eqn:Ef.
  - apply fetchone_Some in Ef as [Hin Hi']. bool_props. assert (r' = r) as -> by (by eapply Hinj).
    destruct (exists_row _ _) eqn:Ex.
    + apply exists_row_true in Ex as (x&Hx&E). bool_props. exfalso. rewrite fmap_app in Hn.
      apply NoDup_app in Hn as (_&Hn&_). apply (Hn (dev_id x)); [by apply list_elem_of_fmap_2|]. rewrite E. left.
    + replace (selected ++ r :: rows) with ((selected ++ [r]) ++ rows) in * by (by rewrite <-app_assoc). by apply IH.
  - rewrite fetchone_None in Ef. specialize (Ef r Hr). unfold names in Hi. by bool_props.
Qed.

(** ** What a worker offers *)

Section decision.
Context (md mm : Q) (offline_seconds : Z) (local : string) (now : Z).

(** A worker that may take the test, and devices of it: everything asked for. *)
Record suitable (q : demand) (d : db) (k : worker) (rows : list device_row) : Prop := {
  sb_worker : k ∈ db_workers d;
  sb_heard : heartbeat_lost offline_seconds now k = false;
  sb_admitted : blocked (worker_admission_state md mm k 0) = false;
  sb_asked : ∀ i, dm_worker_id q = Some i → i ≠ "" → wk_id k = i;
  sb_local : dm_include_local q = true ∨ wk_id k ≠ local;
  sb_agent : dm_require_agent q = true → no_agent local (wk_id k) k = false;
  sb_suite : ∃ x, x ∈ db_suites d ∧ suite_fits q x = true ∧ su_worker_id x = wk_id k;
  sb_devices : ∀ r, r ∈ rows → r ∈ db_devices d ∧ device_fits q r = true ∧ dev_worker_id r = wk_id k;
  sb_distinct : NoDup (dev_id <$> rows);
  sb_count : dm_requested q = [] → Z.of_nat (length rows) = dm_device_count q;
  sb_named : dm_requested q ≠ [] → Forall2 (names (db_devices d)) (dm_requested q) rows;
}.
Abbreviation offers := (offer md mm local).
Implicit Types (q : demand) (d : db).
Lemma names_perm inventory inventory' i r : inventory ≡ₚ inventory' → names inventory i r ↔ names inventory' i r.
Proof.
  intros Hp. unfold names, mem. assert (i ∈ dev_id <$> inventory ↔ i ∈ dev_id <$> inventory') as E by by rewrite Hp.
  by rewrite (bool_decide_ext _ _ E).
Qed.
Lemma slice_all {A} (n : Z) (l : list A) : 0 ≤ n ≤ Z.of_nat (length l) →
  sublist (slice_to n l) l ∧ Z.of_nat (length (slice_to n l)) = n.
Proof.
  intros Hn. unfold slice_to. rewrite (proj2 (Z.ltb_ge n 0)) by lia. split; [apply sublist_take|]. rewrite length_take. lia.
Qed.
Lemma seen_kept k : heartbeat_lost offline_seconds now k = false → seen offline_seconds now k = k.
Proof. unfold seen. by intros ->. Qed.
Lemma lost_blocked k : heartbeat_lost offline_seconds now k = true → blocked (worker_admission_state md mm (seen offline_seconds now k) 0) = true.
Proof. unfold seen. intros ->. done. Qed.

Lemma offer_suitable q d suites inventory k rows :
  suites ≡ₚ db_suites d → inventory ≡ₚ db_devices d → NoDup (dev_id <$> db_devices d) → k ∈ db_workers d →
  (dm_requested q = [] → 0 ≤ dm_device_count q) →
  offers q suites inventory (seen offline_seconds now k) = Some rows → suitable q d k rows.
Proof.
  intros Hs Hi Hn Hk Hcount. unfold offer. cbv zeta.
  match goal with |- (if ?b then None else _) = _ → _ => destruct b eqn:Eb; [done|] end.
  match goal with |- match ?x with Some _ => _ | None => None end = _ → _ => destruct x as [selected|] eqn:Es; [|done] end.
  destruct (blocked _) eqn:Ea; [done|]. intros [= ->].
  destruct (heartbeat_lost offline_seconds now k) eqn:El; [by rewrite lost_blocked in Ea|].
  rewrite (seen_kept k El) in *. bool_props.
  match goal with H : exists_row _ suites = true |- _ => apply exists_row_true in H as (x&Hx&Hfit) end. bool_props.
  set (devices := fetchall (λ r, device_fits q r && streqb (dev_worker_id r) (wk_id k)) inventory) in *.
  assert (∀ r, r ∈ devices → r ∈ db_devices d ∧ device_fits q r = true ∧ dev_worker_id r = wk_id k) as Hdev.
  { intros r [Hb Hr]%elem_of_fetchall. rewrite Hi in Hr. by bool_props. }
  assert (NoDup (dev_id <$> devices)) as Hnd.
  { apply (sublist_NoDup _ (dev_id <$> inventory)); [by rewrite Hi|]. apply fmap_sublist, sublist_filter. }
  assert (NoDup (dev_id <$> rows) ∧ (∀ r, r ∈ rows → r ∈ devices) ∧
    (dm_requested q = [] → Z.of_nat (length rows) = dm_device_count q) ∧
    (dm_requested q ≠ [] → Forall2 (names inventory) (dm_requested q) rows)) as (Hnr&Hrows&Hc&Hf).
  { case_bool_decide as Er.
    - injection Es as <-. destruct (slice_all (dm_device_count q) devices) as [Hsub Hlen].
      { rewrite Er in *. cbn in *. auto. }
      split_and!; [|intros r Hr; by eapply sublist_subseteq|done|by rewrite Er].
      eapply sublist_NoDup; [exact Hnd|by apply fmap_sublist].
    - apply pick_devices_Some in Es as [Hnr (l&->&Hf)]; [|constructor]. cbn in *. split_and!; [done| |done|].
      + intros r (j&Hj)%list_elem_of_lookup. eapply Forall2_lookup_r in Hf as (i&_&_&Hr); done.
      + intros _. eapply Forall2_impl; [exact Hf|]. by intros i r [? _]. }
  split; try done.
  - intros i Ei Hi'. rewrite Ei in *. unfold nonempty in *. rewrite bool_decide_eq_true_2 in * by done. cbn in *. by bool_props.
  - destruct (dm_include_local q); [by left|right]. cbn in *. by bool_props.
  - intros Ha. rewrite Ha in *. by cbn in *.
  - exists x. split; [by rewrite <-Hs|done].
  - intros r Hr. by apply Hdev, Hrows.
  - intros Hne. eapply Forall2_impl; [by apply Hf|]. intros i r. by apply names_perm.
Qed.
Lemma keyed_inj d r r' : inventory_keyed d → r ∈ db_devices d → r' ∈ db_devices d → dev_id r = dev_id r' → r = r'.
Proof.
  intros [Hn _] Hr Hr' E. eapply (unique_index_inj (λ _, true) dev_id (db_devices d)); try done.
  unfold unique_index. by rewrite fetchall_all.
Qed.
Lemma names_inj d k i r r' :
  inventory_keyed d → names (db_devices d) i r → names (db_devices d) i r' → r ∈ db_devices d → r' ∈ db_devices d →
  dev_worker_id r = k → dev_worker_id r' = k → r = r'.
Proof.
  intros Hk Hi Hi' Hr Hr' Hw Hw'. apply (keyed_inj d); try done. unfold names in *. destruct (mem _ _); [congruence|].
  destruct Hk as [_ Hk]. rewrite !Hk by done. congruence.
Qed.
Lemma offer_complete q d suites inventory k rows :
  suites ≡ₚ db_suites d → inventory ≡ₚ db_devices d → inventory_keyed d → suitable q d k rows →
  ∃ rows', offers q suites inventory (seen offline_seconds now k) = Some rows'.
Proof.
  intros Hs Hi Hkeyed [Hk Hh Ha Hasked Hlocal Hagent Hsuite Hrows Hd Hcount Hnamed].
  rewrite (seen_kept k Hh). unfold offer. cbv zeta.
  set (devices := fetchall (λ r, device_fits q r && streqb (dev_worker_id r) (wk_id k)) inventory).
  assert (∀ r, r ∈ rows → r ∈ devices) as Hin.
  { intros r Hr. destruct (Hrows r Hr) as (Hr1&Hr2&Hr3). apply elem_of_fetchall. rewrite Hr2, Hi. split; [|done].
    by apply bool_decide_eq_true. }
  assert (length rows ≤ length devices)%nat as Hlen.
  { apply submseteq_length, NoDup_submseteq; [by eapply NoDup_fmap_1|done]. }
  match goal with |- context [if ?b then None else _] => assert (b = false) as -> end.
  { rewrite !orb_false_iff. split_and!.
    - destruct (dm_worker_id q) as [i|]; [|done]. unfold nonempty. case_bool_decide as En; [|done].
      cbn. rewrite (Hasked i eq_refl En). apply negb_false_iff. by apply bool_decide_eq_true.
    - destruct Hlocal as [->|Hlocal]; [done|]. apply andb_false_iff. right. by apply bool_decide_eq_false.
    - destruct (dm_require_agent q); [by apply Hagent|done].
    - apply negb_false_iff, exists_row_true. destruct Hsuite as (x&Hx&Hf&Hw). exists x. rewrite Hs. split; [done|].
      rewrite Hf. by apply bool_decide_eq_true.
    - apply Z.ltb_ge. case_bool_decide as Er; [specialize (Hcount Er); lia|].
      apply Forall2_length in Hnamed; [lia|done]. }
  case_bool_decide as Er; [by rewrite Ha; eexists|].
  rewrite (pick_devices_complete inventory devices [] (dm_requested q) rows); [by rewrite Ha; eexists| | |done].
  - intros i r r' Hr Hr' [Hb Hr1]%elem_of_fetchall [Hb' Hr1']%elem_of_fetchall.
    rewrite names_perm in Hr, Hr' by done. rewrite Hi in Hr1, Hr1'. bool_props. by eapply (names_inj d (wk_id k)).
  - apply Forall2_same_length_lookup_2; [by eapply Forall2_length, Hnamed|].
    intros j i r Hj Hr. eapply Forall2_lookup_lr in Hnamed; [|done..]. split; [by apply (names_perm inventory (db_devices d))|].
    apply Hin. by eapply list_elem_of_lookup_2.
Qed.
Lemma score_perm q inventory d k : inventory ≡ₚ db_devices d → score q inventory k = score q (db_devices d) k.
Proof.
  intros Hi. unfold score. cbv zeta. assert (∀ p, length (fetchall p inventory) = length (fetchall p (db_devices d))) as ->; [|done].
  intros p. unfold fetchall. by rewrite Hi.
Qed.
End decision.

(** ** The decision *)

Lemma list_suites_all w : ∃ l, list_suites "" w = (Ok l, w) ∧ l ≡ₚ db_suites (w_committed w).
Proof.
  eexists. split; [done|]. rewrite order_by_perm, fetchall_all; [done|]. by intros x.
Qed.
Lemma list_devices_all now w :
  ∃ rows w', list_devices now "" w = (Ok rows, w') ∧ rows.*1 ≡ₚ db_devices (w_committed w) ∧ w_committed w' = w_committed w.
Proof.
  unfold list_devices, list_active, select_after_expire. eexists _, _. split; [reflexivity|]. split; [|reflexivity].
  rewrite <-list_fmap_compose, (list_fmap_ext _ id) by done. rewrite list_fmap_id, order_by_perm, fetchall_all; [done|].
  by intros x.
Qed.
Lemma for_each_raises {W A} (P : exn → Prop) (l : list A) (f : A → M W unit) w :
  (∀ a w, match (f a w).1 with Err e => P e | Ok _ => True end) →
  match (for_each l f w).1 with Err e => P e | Ok _ => True end.
Proof.
  intros Hf. revert w. induction l as [|a l IH]; intros w; [done|]. cbn [for_each]. unfold mbind, M_bind.
  specialize (Hf a w). destruct (f a w) as [[[]|e] w']; [apply IH|done].
Qed.
Lemma fetchall_split {R} (p : R → bool) t : fetchall p t ++ fetchall (λ r, negb (p r)) t ≡ₚ t.
Proof.
  induction t as [|x t IH]; [done|]. rewrite !fetchall_cons. destruct (p x); cbn; [by rewrite IH|].
  by rewrite <-Permutation_middle, IH.
Qed.
Lemma directory_all off local now w :
  match (worker_directory off local now w).1 with
  | Ok l => l ≡ₚ seen off now <$> db_workers (w_committed w)
  | Err e => value_error e = false
  end.
Proof.
  unfold worker_directory, list_workers, connect_read. rewrite bind_gets.
  match goal with |- context [for_each ?l ?f] => pose proof (for_each_raises (λ e, value_error e = false) l f w) as Hr;
    unfold mbind at 1, M_bind at 1; destruct (for_each l f w) as [[[]|e] w'] end.
  - cbn. rewrite fetchall_split.
    by rewrite order_by_perm.
  - apply Hr. clear. intros a w. unfold when, try. destruct (_ && _); [|done].
    destruct (mark_worker_offline now (wk_id a) w) as [[]]; [done|]. by destruct (value_error e) eqn:Ee.
Qed.

Lemma select_worker_spec md mm off local now q w :
  let d := w_committed w in
  inventory_keyed d → (dm_requested q = [] → 0 ≤ dm_device_count q) →
  match (select_worker md mm off local now q w).1 with
  | Ok (i, ids) => ∃ k rows, suitable md mm off local now q d k rows ∧ i = wk_id k ∧ ids = dev_id <$> rows ∧
      ∀ k' rows', suitable md mm off local now q d k' rows' → (score q (db_devices d) k' <= score q (db_devices d) k)%Q
  | Err e => value_error e = true → ∀ k rows, ¬ suitable md mm off local now q d k rows
  end.
Proof.
  intros d Hkeyed Hcount. unfold select_worker.
  destruct (list_suites_all w) as (suites&Es&Hs). rewrite (bind_run _ _ _ _ _ Es).
  destruct (list_devices_all now w) as (rows&w1&Er&Hr&Hc). rewrite (bind_run _ _ _ _ _ Er).
  pose proof (directory_all off local now w1) as Hdir. rewrite Hc in Hdir. fold d in Hs, Hr, Hdir.
  unfold mbind at 1, M_bind at 1. destruct (worker_directory off local now w1) as [[workers|e] w2]; cbn in Hdir; [|by intros; congruence].
  assert (∀ c, c ∈ candidates md mm local q suites rows.*1 workers ↔
    ∃ k l, k ∈ db_workers d ∧ offer md mm local q suites rows.*1 (seen off now k) = Some l ∧
      c = Candidate (score q rows.*1 (seen off now k)) (wk_id (seen off now k)) l) as Hcand.
  { intros c. unfold candidates. rewrite list_elem_of_omap. setoid_rewrite Hdir. split.
    - intros (x&(k&->&Hk)%list_elem_of_fmap&E). destruct (offer _ _ _ _ _ _ _) as [l|] eqn:Eo; [|done].
      injection E as <-. by exists k, l.
    - intros (k&l&Hk&Eo&->). exists (seen off now k). split; [by apply list_elem_of_fmap_2|]. by rewrite Eo. }
  assert (∀ k l, suitable md mm off local now q d k l → ∃ l',
    Candidate (score q (db_devices d) k) (wk_id k) l' ∈ candidates md mm local q suites rows.*1 workers) as Hall.
  { intros k l Hk. destruct (offer_complete md mm off local now q d suites rows.*1 k l) as [l' Eo]; [done..|].
    exists l'. apply Hcand. exists k, l'. rewrite <-(score_perm q rows.*1 d) by done.
    rewrite (seen_kept off now k) in * by apply Hk. split_and!; [apply Hk|done..]. }
  destruct (candidates _ _ _ _ _ _ _) as [|c l] eqn:Ec; cbn.
  - intros _ k l Hk. destruct (Hall k l Hk) as [l' Hin]. by apply elem_of_nil in Hin.
  - destruct (best_spec c l) as [Hin Hbest]. apply Hcand in Hin as (k&sel&Hk&Eo&Eb). rewrite Eb in *.
    pose proof (offer_suitable md mm off local now q d suites rows.*1 k sel Hs Hr (proj1 Hkeyed) Hk Hcount Eo) as Hsuit.
    rewrite (seen_kept off now k) in * by apply Hsuit. exists k, sel. split_and!; [done..|].
    intros k' rows' Hk'. destruct (Hall k' rows' Hk') as [l' Hin']. apply Hbest in Hin'. cbn in Hin'.
    by rewrite <-(score_perm q rows.*1 d k) by done.
Qed.

(** [C13] The best worker that may.  When a test is placed, the worker chosen and the devices given are
    everything that was asked for: the worker was heard from in time, admits tests, has an available
    suite of this key and path and, where that matters, an agent of its own; the devices are
    available, on this worker, reached over a transport that is allowed, all different, and as many as
    asked for or exactly those that were named, in order.  No worker that could have been chosen
    scores higher.  And when the request is refused for want of a worker, there is none. *)
Theorem select_worker_best md mm off local now q w :
  let d := w_committed w in
  inventory_keyed d → (dm_requested q = [] → 0 ≤ dm_device_count q) →
  match (select_worker md mm off local now q w).1 with
  | Ok (i, ids) => ∃ k rows, suitable md mm off local now q d k rows ∧ i = wk_id k ∧ ids = dev_id <$> rows ∧
      ∀ k' rows', suitable md mm off local now q d k' rows' → (score q (db_devices d) k' <= score q (db_devices d) k)%Q
  | Err e => value_error e = true → ∀ k rows, ¬ suitable md mm off local now q d k rows
  end.
Proof. apply select_worker_spec. Qed.

(** ** The theorem at work *)

(** Two workers with the suite; the second one's third device is reached through a proxy. *)
Definition suite_report : list suite_in := [SuiteIn "cts" "17_r1" "CTS:17_r1" "/suites/cts" "" 0 true].
Definition farm_report (devices : list device_in) (cpu : Q) : heartbeat_in :=
  HeartbeatIn "1.0" cpu 0 0 64 0 100 200 [] devices (Some suite_report) "s" 1.
Definition farm_device (serial transport : string) : device_in := DeviceIn serial transport "available" ∅.
Definition farm_history : list (Z * cluster_op) :=
  [(100, CRegister (Registration "w1" "rack" "host" "10.0.0.2" "1.0" [] None "s"));
   (100, CRegister (Registration "w2" "rack" "host" "10.0.0.3" "1.0" [] None "s"));
   (101, CHeartbeat "w1" (farm_report [farm_device "d1" "local_usb"; farm_device "d2" "local_usb"] 80));
   (102, CHeartbeat "w2" (farm_report [farm_device "d3" "local_usb"; farm_device "d4" "usbip"; farm_device "d5" "adb_proxy"] 10))].
Definition farm : world := cluster_run (U := counting_uuid) sample_settings farm_history empty_world.
Definition two_devices : demand := Demand "CTS:17_r1" 2 true true ["adb_proxy"] [] None "" None.
Lemma farm_keyed : inventory_keyed (w_committed farm).
Proof.
  split; [vm_compute; repeat constructor; set_solver|]. intros r Hr. revert r Hr. apply Forall_forall.
  vm_compute. by repeat constructor.
Qed.
Lemma farm_placed : (select_worker 50 8 45 "local" 110 two_devices farm).1 = Ok ("w2", ["w2:d3"; "w2:d4"]).
Proof. vm_compute. reflexivity. Qed.
Lemma farm_silent : ∃ m, (select_worker 50 8 45 "local" 200 two_devices farm).1 = Err (ValueError m).
Proof. eexists. vm_compute. reflexivity. Qed.
(** At 200 no worker was heard from for a while. *)
Lemma select_worker_best_witness :
  (∃ k rows, suitable 50 8 45 "local" 110 two_devices (w_committed farm) k rows ∧ wk_id k = "w2") ∧
  (∀ k rows, ¬ suitable 50 8 45 "local" 200 two_devices (w_committed farm) k rows).
Proof.
  assert (dm_requested two_devices = [] → 0 ≤ dm_device_count two_devices) as Hc by done. split.
  - pose proof (select_worker_best 50 8 45 "local" 110 two_devices farm farm_keyed Hc) as H.
    rewrite farm_placed in H. destruct H as (k&rows&Hk&Hi&_). by exists k, rows.
  - pose proof (select_worker_best 50 8 45 "local" 200 two_devices farm farm_keyed Hc) as H.
    destruct farm_silent as [m E]. rewrite E in H. by apply H.
Defined.
