(* ===== verification/ExecutionSpec.v ===== *)
(** The dispatch of a test: [foundation/execution_spec.py] and [test_execution_options.py]
    turn the structured request of a client into the command line of
    [scripts/run_GMS_Test_Auto.sh]; the worker agent builds it again from the request
    ([worker_agent/runtime.py]); the script reads it and calls Tradefed.

    The argument lists have no NUL characters.  The file system enters as parameters: which
    paths exist, the entries of a suite's [testcases] directory and which modules it has, and the
    Tradefed session of a result directory.  [ExecutionSpecError] carries a status and a text, which the
    controller's wrapper copies to an [HTTPException]. *)

From S2P Require Import Prelude Encodings ClusterState.

Open Scope Z_scope.

(* src/features/cluster/models.py:111-132 ExecutionSpec *)
Record execution_spec := ExecutionSpec {
  sp_test_type : string;
  sp_suite_path : string;
  sp_module : string;
  sp_test_case : string;
  sp_retry_dir : string;
  sp_devices : list string;
  sp_local_server : string;
  sp_no_retry : bool;
  sp_copy_remote : bool;
  sp_shard_count : Z;
  sp_preparations : list string;
  sp_queue_timeout_seconds : Z;
  sp_execution_timeout_seconds : Z;
  sp_output_idle_timeout_seconds : Z;
}.
#[export] Instance execution_spec_eta : Eta execution_spec := λ s,
  ExecutionSpec (sp_test_type s) (sp_suite_path s) (sp_module s) (sp_test_case s) (sp_retry_dir s) (sp_devices s)
    (sp_local_server s) (sp_no_retry s) (sp_copy_remote s) (sp_shard_count s) (sp_preparations s)
    (sp_queue_timeout_seconds s) (sp_execution_timeout_seconds s) (sp_output_idle_timeout_seconds s).

(** ** Options *)

(* src/foundation/test_execution_options.py:6-13 PREPARATION_TEMPLATES *)
Definition PREPARATION_TEMPLATES : list string := ["stay_awake"; "animations_off"; "wifi_on"].

Record execution_options := ExecutionOptions {
  op_shard_count : Z;
  op_queue_timeout_seconds : Z;
  op_execution_timeout_seconds : Z;
  op_output_idle_timeout_seconds : Z;
  op_preparations : list string;
}.
(** The message of the check that fails first. *)
Fixpoint first_failed (checks : list (bool * string)) : option string :=
  match checks with
  | [] => None
  | (ok, message) :: checks => if ok : bool then first_failed checks else Some message
  end.
Definition within (lo hi n : Z) : bool := Z.leb lo n && Z.leb n hi.
Definition timeout_checks (key : string) (maximum n : Z) : list (bool * string) :=
  [(within 0 maximum n, key +:+ " must be an integer between 0 and " +:+ pretty maximum);
   (negb (Z.ltb 0 n && Z.ltb n 60), key +:+ " must be zero or at least 60 seconds")].
(* src/foundation/test_execution_options.py:16-37 validate_execution_options *)
Definition validate_execution_options (s : execution_spec) (device_count : Z) : result execution_options :=
  let checks :=
    [(within 0 32 (sp_shard_count s), "shard_count must be an integer between 0 and 32")] ++
    timeout_checks "queue_timeout_seconds" 604800 (sp_queue_timeout_seconds s) ++
    timeout_checks "execution_timeout_seconds" 604800 (sp_execution_timeout_seconds s) ++
    timeout_checks "output_idle_timeout_seconds" 86400 (sp_output_idle_timeout_seconds s) ++
    [(Z.eqb device_count 0 || Z.leb (sp_shard_count s) device_count, "shard_count cannot exceed the number of leased devices");
     (Nat.leb (length (sp_preparations s)) 8, "preparations must contain at most 8 templates");
     (forallb (λ a, mem a PREPARATION_TEMPLATES) (sp_preparations s), "Unknown preparation template");
     (bool_decide (NoDup (sp_preparations s)), "Duplicate preparation template")] in
  match first_failed checks with
  | Some message => Err (ValueError message)
  | None => Ok (ExecutionOptions (sp_shard_count s) (sp_queue_timeout_seconds s) (sp_execution_timeout_seconds s)
                  (sp_output_idle_timeout_seconds s) (sp_preparations s))
  end.

(** ** Requests *)

Definition ExecutionSpecError : Z → string → exn := HTTPException.
(** [except ValueError as exc: raise ExecutionSpecError(400, str(exc))]. *)
Definition as_bad_request {A} (r : result A) : result A :=
  match r with Err (ValueError m) => Err (ExecutionSpecError 400 m) | _ => r end.

(* src/foundation/execution_spec.py:19-19 _VALID_TEST_TYPES *)
Definition VALID_TEST_TYPES : list string := ["cts"; "gsi"; "gts"; "gts-root"; "sts"; "vts"; "apts"].
(* src/foundation/execution_spec.py:20-25 _SUITE_TEST_TYPES *)
Definition suite_test_types (suite_type : string) : list string :=
  if streqb suite_type "cts" then ["cts"; "gsi"]
  else if streqb suite_type "gts" then ["gts"; "gts-root"; "apts"]
  else if streqb suite_type "sts" then ["sts"]
  else if streqb suite_type "vts" then ["vts"] else [].
(* src/foundation/execution_spec.py:26-26 _DEVICE_SERIAL_RE *)
Definition device_serial_ok : string → bool := plain_word "._:-" 255.
(* src/foundation/execution_spec.py:27-29 _LOCAL_SERVER_RE *)
Definition local_server_ok (s : string) : bool :=
  has_char "@" s && plain_word "._-" 63 (before "@" s) && plain_word ".:[]_-" 254 (after "@" s).

(** The serial number in a device identifier. *)
(* src/foundation/execution_spec.py:45-49 _device_serials *)
Definition device_serial (worker_id item : string) : string :=
  let serial := strip item in
  if nonempty worker_id then removeprefix (worker_id +:+ ":") serial else serial.
(* src/foundation/execution_spec.py:43-56 _device_serials *)
Fixpoint bind_serials (worker_id : string) (serials devices : list string) : result (list string) :=
  match devices with
  | [] => Ok serials
  | item :: devices =>
      let serial := device_serial worker_id item in
      if negb (device_serial_ok serial)
      then Err (ExecutionSpecError 400 ("invalid device serial in execution_spec: " +:+ serial))
      else if mem serial serials
      then Err (ExecutionSpecError 400 ("duplicate device in execution_spec: " +:+ serial))
      else bind_serials worker_id (serials ++ [serial]) devices
  end.
(* src/foundation/execution_spec.py:42-59 _device_serials *)
Definition device_serials (devices : list string) (worker_id : string) : result (list string) :=
  bind_serials worker_id [] devices.

(* src/foundation/execution_spec.py:62-94 canonicalize_execution_spec *)
Definition canonicalize_execution_spec (spec : execution_spec) (suite_path suite_type : string)
    (devices : list string) (worker_id : string) : result execution_spec :=
  let? requested_serials := device_serials (sp_devices spec) worker_id in
  let? leased_serials := device_serials devices worker_id in
  if bool_decide (leased_serials = [])
  then Err (ExecutionSpecError 409 "execution_spec requires at least one leased device")
  else if bool_decide (requested_serials ≠ []) && bool_decide (requested_serials ≠ leased_serials)
  then Err (ExecutionSpecError 409 "execution_spec devices must match the job's leased devices")
  else
    let test_type := ascii_lower (sp_test_type spec) in
    let compatible_types := suite_test_types (ascii_lower suite_type) in
    if bool_decide (compatible_types ≠ []) && negb (mem test_type compatible_types)
    then Err (ExecutionSpecError 409 ("execution_spec test_type " +:+ test_type +:+ " is incompatible with " +:+ suite_type))
    else
      let canonical := spec <| sp_suite_path := suite_path |> <| sp_devices := leased_serials |> in
      let? options := as_bad_request (validate_execution_options canonical (Z.of_nat (length leased_serials))) in
      Ok (canonical <| sp_shard_count := op_shard_count options |>
            <| sp_queue_timeout_seconds := op_queue_timeout_seconds options |>
            <| sp_execution_timeout_seconds := op_execution_timeout_seconds options |>
            <| sp_output_idle_timeout_seconds := op_output_idle_timeout_seconds options |>
            <| sp_preparations := op_preparations options |>).

(** ** Paths: [os.path] and [pathlib] *)

Definition newline : ascii := "010".
(** Up to the last slash, and behind it. *)
Fixpoint path_head (s : string) : string :=
  match s with
  | EmptyString => EmptyString
  | String a s' => if has_char "/" s then String a (path_head s') else EmptyString
  end.
Fixpoint basename (s : string) : string :=
  match s with
  | EmptyString => EmptyString
  | String a s' => if has_char "/" s then basename s' else s
  end.
Definition dirname (p : string) : string :=
  let head := path_head p in
  if nonempty (rstrip_char "/" head) then rstrip_char "/" head else head.
Definition path_join (a b : string) : string :=
  if startswith "/" b then b
  else if bool_decide (a = "") || bool_decide (rstrip_char "/" a ≠ a) then a +:+ b else a +:+ "/" +:+ b.
(** Two leading slashes are kept, more are one. *)
Definition path_root (p : string) : string :=
  if startswith "///" p then "/" else if startswith "//" p then "//" else if startswith "/" p then "/" else "".
Definition norm_comp (absolute : bool) (comps : list string) (comp : string) : list string :=
  if mem comp [""; "."] then comps
  else if negb (streqb comp "..") || (negb absolute && bool_decide (comps = []))
          || bool_decide (last comps = Some "..")
  then comps ++ [comp]
  else take (length comps - 1) comps.
Definition normpath (path : string) : string :=
  let root := path_root path in
  str_or (root +:+ join "/" (foldl (norm_comp (nonempty root)) [] (split_on "/" path))) ".".
(** [str(Path(a) / b)]. *)
Definition pure_path (a b : string) : string :=
  let p := if startswith "/" b then b else a +:+ "/" +:+ b in
  let p := if streqb a "" then b else p in
  str_or (path_root p +:+ join "/" (filter (λ x, negb (mem x [""; "."]) = true) (split_on "/" p))) ".".

(** ** The command line *)

(** The parts up to the first [GMS-Suite], if there is one. *)
Fixpoint suite_root (parts : list string) : option (list string) :=
  match parts with
  | [] => None
  | part :: parts =>
      if streqb part "GMS-Suite" then Some [part]
      else match suite_root parts with Some l => Some (part :: l) | None => None end
  end.
(* src/foundation/execution_spec.py:105-115 build_argv_from_spec *)
Definition script_path (suite_path : string) : string :=
  let script := path_join (dirname (dirname (dirname suite_path))) "run_GMS_Test_Auto.sh" in
  match suite_root (split_on "/" (normpath suite_path)) with
  | Some parts => path_join (join "/" parts) "run_GMS_Test_Auto.sh"
  | None => script
  end.
(** What the request selects: a result to retry, or a module and a test case. *)
(* src/foundation/execution_spec.py:117-133 build_argv_from_spec *)
Definition selection (s : execution_spec) : result (list string) :=
  let retry_dir := strip (sp_retry_dir s) in
  let module := strip (sp_module s) in
  let test_case := strip (sp_test_case s) in
  if nonempty retry_dir && (nonempty module || nonempty test_case)
  then Err (ExecutionSpecError 400 "retry_dir cannot be combined with module or test_case")
  else if nonempty test_case && negb (nonempty module)
  then Err (ExecutionSpecError 400 "test_case requires module in execution_spec")
  else if nonempty retry_dir then
    let retry_name := basename (rstrip_char "/" retry_dir) in
    if mem retry_name [""; "."; ".."] then Err (ExecutionSpecError 400 "invalid retry_dir in execution_spec")
    else Ok ["retry"; retry_name]
  else Ok (filter (λ x, nonempty x = true) [module; test_case]).
(** One argument of the script. *)
(* src/foundation/execution_spec.py:140-143 build_argv_from_spec *)
Definition device_args (shard_count : Z) (serials : list string) : list string :=
  (if Z.ltb 1 shard_count then ["--shard-count"; pretty shard_count] else [])
  ++ (serials ≫= λ serial, ["-s"; serial]).
(* src/foundation/execution_spec.py:146-158 build_argv_from_spec *)
Definition delivery_args (s : execution_spec) : result (list string) :=
  let local_server := strip (sp_local_server s) in
  if nonempty local_server && negb (local_server_ok local_server)
  then Err (ExecutionSpecError 400 "invalid local_server in execution_spec")
  else if sp_copy_remote s && negb (nonempty local_server)
  then Err (ExecutionSpecError 400 "copy_remote requires local_server in execution_spec")
  else Ok ((if nonempty local_server then ["--local-server"; local_server] else [])
           ++ (if sp_copy_remote s then ["--copy-remote"] else [])
           ++ (if sp_no_retry s then ["--no-retry"] else [])).
(* src/foundation/execution_spec.py:97-158 build_argv_from_spec *)
Definition build_argv_from_spec (s : execution_spec) : result (list string) :=
  let test_type := ascii_lower (sp_test_type s) in
  let suite_path := strip (sp_suite_path s) in
  if negb (mem test_type VALID_TEST_TYPES)
  then Err (ExecutionSpecError 400 ("invalid test_type in execution_spec: " +:+ test_type))
  else if negb (nonempty suite_path)
  then Err (ExecutionSpecError 400 "suite_path is required in execution_spec")
  else
    let? selected := selection s in
    let? serials := device_serials (sp_devices s) "" in
    if bool_decide (serials = [])
    then Err (ExecutionSpecError 400 "execution_spec requires at least one device")
    else
      let? options := as_bad_request (validate_execution_options s (Z.of_nat (length serials))) in
      let shard_count := if Z.eqb (op_shard_count options) 0 then Z.of_nat (length serials) else op_shard_count options in
      let? delivery := delivery_args s in
      Ok ([script_path suite_path; test_type] ++ selected
          ++ ["--device-args"; join " " (device_args shard_count serials); "--test-suite"; suite_path]
          ++ delivery).

Section files.
Context (path_exists : string → bool).

Definition tradefed_names : list string := ["cts-tradefed"; "gts-tradefed"; "vts-tradefed"; "sts-tradefed"].
(** The command, the suite's path and its key when a job has no request. *)
(* src/features/cluster/execution_spec.py:54-93 build_default_argv *)
Definition build_default_argv (suite_path suite_key worker_id local_worker_id : string)
    (available_suites : list suite_row) : result (list string * string * string) :=
  let? chosen :=
    (if nonempty suite_path then Ok (suite_path, suite_key, "")
     else match fetchone (λ x, streqb (su_suite_key x) suite_key && su_available x) available_suites with
          | None => Err (HTTPException 409 "suite is not available on worker")
          | Some x => Ok (su_tools_path x, su_suite_key x, ascii_lower (su_suite_type x))
          end) in
  let '(suite_path, suite_key, suite_type) := chosen in
  let executable := if nonempty suite_type then pure_path suite_path (suite_type +:+ "-tradefed") else "" in
  let executable :=
    if negb (nonempty executable) && streqb worker_id local_worker_id
    then default "" (fetchone path_exists (pure_path suite_path <$> tradefed_names))
    else executable in
  if negb (nonempty executable) then Err (HTTPException 409 "suite executable not found")
  else Ok ([executable; "list"; "devices"], suite_path, suite_key).
End files.

(** ** The worker *)

(** What matters here of the payload of a [start_test] command. *)
Record start_payload := StartPayload {
  sy_execution_spec : option execution_spec;
  sy_argv : list string;
  sy_devices : list string;
}.
(** The command line the worker runs. *)
(* src/worker_agent/runtime.py:513-540 WorkerRuntime.start_process *)
Definition worker_argv (p : start_payload) : result (list string) :=
  let? argv :=
    match sy_execution_spec p with
    | Some spec =>
        if nonempty (sp_test_type spec) then
          match build_argv_from_spec spec with
          | Err (HTTPException _ detail) => Err (ValueError ("invalid execution_spec in start_test payload: " +:+ detail))
          | r => r
          end
        else Ok (sy_argv p)
    | None => Ok (sy_argv p)
    end in
  if bool_decide (argv = []) then Err (ValueError "start_test payload requires argv string list") else Ok argv.
(** Whether preparations may touch the devices the request names. *)
(* src/worker_agent/runtime.py:563-568 WorkerRuntime.start_process *)
Definition preparation_devices_ok (worker_id : string) (p : start_payload) : bool :=
  match sy_execution_spec p with
  | Some spec =>
      bool_decide (sp_preparations spec = [])
      || (nonempty (sp_test_type spec)
          && bool_decide (removeprefix (worker_id +:+ ":") <$> sy_devices p = sp_devices spec))
  | None => true
  end.

(** ** The environment of a job *)

(* src/foundation/job_env.py:29-36 ALLOWED_JOB_ENV_KEYS *)
Definition ALLOWED_JOB_ENV_KEYS : list string :=
  ["GMS_TRANSPORT_REQUIREMENT"; "GMS_COPY_ROUTE_NETWORK"; "GMS_COPY_ROUTE_GATEWAY"; "GMS_LOCAL_SERVER";
   "LOCAL_SERVER"; "TERM"].
(** [re.match(r'^[^\r\n\x00]*$', value)]: the dollar sign matches at the end, and before a line
    feed at the end. *)
Definition line_char (a : ascii) : bool :=
  negb (bool_decide (a = newline) || bool_decide (a = "013"%char) || bool_decide (a = "000"%char)).
Fixpoint job_env_value_ok (s : string) : bool :=
  match s with
  | EmptyString => true
  | String a s' => if line_char a then job_env_value_ok s' else bool_decide (a = newline) && bool_decide (s' = "")
  end.
Definition job_env_ok (x : string * string) : bool :=
  mem x.1 ALLOWED_JOB_ENV_KEYS && Z.leb (text_length x.2) 4096 && job_env_value_ok x.2.
(** The items of a dict, in order. *)
(* src/foundation/job_env.py:43-65 filter_job_env *)
Definition filter_job_env (env : list (string * string)) : list (string * string) * list string :=
  (filter (λ x, job_env_ok x = true) env, (filter (λ x, job_env_ok x = false) env).*1).

(** ** The script *)

(* src/scripts/run_GMS_Test_Auto.sh:21-33 *)
Record script_settings := ScriptSettings {
  sc_args : list string;
  sc_device_args : string;
  sc_suite_path : string;
  sc_remote_user : string;
  sc_remote_host : string;
  sc_copy_to_remote : bool;
  sc_process_group : string;
}.
#[export] Instance script_settings_eta : Eta script_settings := λ s,
  ScriptSettings (sc_args s) (sc_device_args s) (sc_suite_path s) (sc_remote_user s) (sc_remote_host s)
    (sc_copy_to_remote s) (sc_process_group s).
Definition unset : script_settings := ScriptSettings [] "" "" "" "" false "".

Definition posix_space (a : ascii) : bool :=
  let n := N_of_ascii a in (((9 <=? n) && (n <=? 13)) || (n =? 32))%N.
(** [[[ "$DEVICE_ARGS" =~ -s[[:space:]]+[^[:space:]]+ ]]]. *)
Fixpoint names_device (s : string) : bool :=
  match s with
  | EmptyString => false
  | String a s' =>
      match s with
      | String "-" (String "s" (String b rest)) => posix_space b && negb (all_chars posix_space rest)
      | _ => false
      end || names_device s'
  end.
(** What the loop does with a word where no value is expected. *)
Inductive expected := AnyWord | LocalServer | TestSuite | DeviceArgs | MoreDeviceArgs | ProcessGroup.
Definition script_word (a : string) (s : script_settings) : option (expected * script_settings) :=
  if streqb a "--no-retry" then Some (AnyWord, s)
  else if streqb a "--local-server" then Some (LocalServer, s)
  else if streqb a "--test-suite" then Some (TestSuite, s)
  else if streqb a "--device-args" then Some (DeviceArgs, s)
  else if streqb a "--copy-remote" then Some (AnyWord, s <| sc_copy_to_remote := true |>)
  else if streqb a "--pgid" then Some (ProcessGroup, s)
  else if startswith "-" a then None
  else Some (AnyWord, s <| sc_args ::= λ l, l ++ [a] |>).
(** Behind the last [@]. *)
Fixpoint after_last (c : ascii) (s : string) : string :=
  match s with
  | EmptyString => EmptyString
  | String a s' => if has_char c s' then after_last c s' else if bool_decide (a = c) then s' else s
  end.
Fixpoint before_last (c : ascii) (s : string) : string :=
  match s with
  | EmptyString => EmptyString
  | String a s' => if has_char c s' then String a (before_last c s') else if bool_decide (a = c) then EmptyString else s
  end.
(** The loop over the arguments; [None] is the end of the script, without a test. *)
(* src/scripts/run_GMS_Test_Auto.sh:65-141 parse_args *)
Fixpoint parse_words (e : expected) (l : list string) (s : script_settings) : option script_settings :=
  match l with
  | [] =>
      match e with
      | AnyWord => Some s
      | MoreDeviceArgs => if names_device (sc_device_args s) then Some s else None
      | _ => None
      end
  | a :: l =>
      let word s := match script_word a s with Some (e, s) => parse_words e l s | None => None end in
      match e with
      | AnyWord => word s
      | LocalServer =>
          if has_char "@" a
          then parse_words AnyWord l (s <| sc_remote_user := before_last "@" a |> <| sc_remote_host := after "@" a |>)
          else None
      | TestSuite => parse_words AnyWord l (s <| sc_suite_path := a |>)
      | DeviceArgs => parse_words MoreDeviceArgs l (s <| sc_device_args := a |>)
      | MoreDeviceArgs =>
          if startswith "--" a then if names_device (sc_device_args s) then word s else None
          else parse_words MoreDeviceArgs l (s <| sc_device_args ::= λ d, d +:+ " " +:+ a |>)
      | ProcessGroup => parse_words AnyWord l (s <| sc_process_group := a |>)
      end
  end.
(** The prefix of the suite's tools, and the name of the plan. *)
(* src/scripts/run_GMS_Test_Auto.sh:170-206 parse_args *)
Definition test_plan (test_type : string) : option (string * string) :=
  if streqb test_type "cts" then Some ("cts", "cts")
  else if streqb test_type "gsi" then Some ("cts", "cts-on-gsi")
  else if streqb test_type "gts" then Some ("gts", "gts")
  else if streqb test_type "gts-root" then Some ("gts", "gts-root")
  else if streqb test_type "sts" then Some ("sts", "sts-dynamic-full")
  else if streqb test_type "vts" then Some ("vts", "vts")
  else if streqb test_type "apts" then Some ("gts", "apts") else None.

Record script_run := ScriptRun {
  sr_settings : script_settings;
  sr_test_type : string;
  sr_suite_prefix : string;
  sr_test_command : string;
  sr_retry : option string;      (* MODE=retry, with its RESULT_TIMESTAMP *)
  sr_module : string;
  sr_test_case : string;
}.
(* src/scripts/run_GMS_Test_Auto.sh:65-207 parse_args *)
Definition parse_args (l : list string) : option script_run :=
  match parse_words AnyWord l unset with
  | None => None
  | Some s =>
      match sc_args s with
      | [] => None
      | a :: args =>
          if bool_decide (sc_suite_path s = "")
             || (sc_copy_to_remote s && (bool_decide (sc_remote_host s = "") || bool_decide (sc_remote_user s = "")))
          then None
          else
            let module := nth 0 args "" in
            let test_case := nth 1 args "" in
            let retry := streqb (ascii_lower module) "retry" in
            if retry && bool_decide (test_case = "") then None
            else
              match test_plan (ascii_lower a) with
              | None => None
              | Some (prefix, command) =>
                  Some (ScriptRun s (ascii_lower a) prefix command
                          (if retry then Some test_case else None)
                          (if retry then "" else module) (if retry then "" else test_case))
              end
      end
  end.

Section environment.
Context (testcases : string → option (list string)) (has_module : string → string → bool)
  (vts_session : string → option string).

(** The module as the suite spells it: an entry of [testcases], or the first that equals a line
    of it but for its case. *)
(* src/scripts/run_GMS_Test_Auto.sh:454-474 validate_module *)
Definition validate_module (r : script_run) : option string :=
  let module := sr_module r in
  if bool_decide (module = "") || bool_decide (is_Some (sr_retry r)) then Some module
  else
    match testcases (sc_suite_path (sr_settings r)) with
    | None => Some module
    | Some entries =>
        if has_module (sc_suite_path (sr_settings r)) module then Some module
        else fetchone (λ e, mem (ascii_lower e) (ascii_lower <$> split_on newline module)) entries
    end.
(** [read -r -a]: the words of the first line. *)
Definition read_words (s : string) : list string :=
  words_by (λ a, bool_decide (a = " "%char) || bool_decide (a = "009"%char)) (before newline s).
(** The command of Tradefed. *)
(* src/scripts/run_GMS_Test_Auto.sh:210-256 run_tradefed *)
Definition tradefed_command (r : script_run) : option (list string) :=
  let selected :=
    match sr_retry r with
    | Some timestamp =>
        if streqb (sr_test_type r) "vts"
        then match vts_session timestamp with Some id => Some ["retry"; "--retry"; id] | None => None end
        else Some ["retry"; "--retry-result-dir"; timestamp]
    | None =>
        match validate_module r with
        | Some module =>
            Some ([sr_test_command r]
                  ++ (if nonempty module
                      then ["-m"; module] ++ (if nonempty (sr_test_case r) then ["-t"; sr_test_case r] else [])
                      else []))
        | None => None
        end
    end in
  match selected with
  | Some selected =>
      Some (["./" +:+ sr_suite_prefix r +:+ "-tradefed"; "run"; "commandAndExit"] ++ selected
            ++ read_words (sc_device_args (sr_settings r)) ++ ["--disable-reboot"])
  | None => None
  end.
(** What the script runs. *)
(* src/scripts/run_GMS_Test_Auto.sh:478-499 main *)
Definition script_main (args : list string) : option (list string) :=
  match parse_args args with Some r => tradefed_command r | None => None end.
End environment.
