(* ===== verification/ExecutionSpecProperties.v ===== *)
(** What the command line of a test means: a job reaches the devices it leased and no others,
    whatever its request says; a plain request is read back as it was; canonical requests are
    well formed and stay what they are. *)

From S2P Require Import Prelude Encodings ClusterState ExecutionSpec.

Open Scope Z_scope.

(** ** Serial numbers *)

Lemma plain_word_chars more n s : plain_word more n s = true → all_chars (λ c, alnum c || has_char c more) s = true.
Proof.
  destruct s as [|a s]; [done|]. simpl. intros [[Ha Hs]%andb_true_iff _]%andb_true_iff. by rewrite Ha, Hs.
Qed.
Lemma plain_word_nonempty more n s : plain_word more n s = true → s ≠ "".
Proof. by destruct s. Qed.
(** Characters a class does not have. *)
Lemma plain_word_lacks more n s c : plain_word more n s = true → alnum c = false → has_char c more = false → lacks c s = true.
Proof.
  intros Hs Hc Hm. apply plain_word_chars in Hs. revert Hs. apply all_chars_impl. intros a Ha.
  apply bool_decide_eq_true. intros ->. by rewrite Hc, Hm in Ha.
Qed.
Lemma serial_lacks s c : device_serial_ok s = true → c ∈ [" "%char; newline; "009"%char; "@"%char] → lacks c s = true.
Proof.
  intros Hs Hc. eapply plain_word_lacks; [exact Hs|..]; repeat (apply elem_of_cons in Hc as [->|Hc]; [done|]); by apply elem_of_nil in Hc.
Qed.
Lemma serial_no_space s : device_serial_ok s = true → no_space s = true.
Proof.
  intros Hs%plain_word_chars. rewrite no_space_chars. revert Hs. apply all_chars_impl.
  intros a. destruct a as [[] [] [] [] [] [] [] []]; vm_compute; done.
Qed.

(** The serials are those of the items, in order, well formed and different. *)
Lemma bind_serials_Ok worker_id serials devices l :
  bind_serials worker_id serials devices = Ok l ↔
  let new := device_serial worker_id <$> devices in
  l = serials ++ new ∧ Forall (λ x, device_serial_ok x = true) new ∧ NoDup new ∧ ∀ x, x ∈ new → x ∉ serials.
Proof.
  revert serials. induction devices as [|item devices IH]; intros serials; cbn [bind_serials fmap list_fmap].
  { rewrite app_nil_r. split; [intros [= ->]|intros [-> _]; done]. split_and!; [done|constructor..|]. by intros ? ?%elem_of_nil. }
  destruct (device_serial_ok _) eqn:Eo; cbn [negb]; [|split; [done|intros (_&Hf&_); apply Forall_cons in Hf as [? _]; congruence]].
  unfold mem. case_bool_decide as Em.
  { split; [done|]. intros (_&_&_&Hn). exfalso. apply (Hn _ ltac:(left) Em). }
  rewrite IH. cbv zeta. rewrite <-app_assoc. cbn [app]. split.
  - intros (->&Hf&Hd&Hn). split_and!; [done|by constructor| |].
    + constructor; [|done]. intros Hin. apply (Hn _ Hin). apply elem_of_app. right. left.
    + intros x [->|Hx]%elem_of_cons; [done|]. intros Hin. apply (Hn _ Hx), elem_of_app. by left.
  - intros (->&[_ Hf]%Forall_cons&[Hni Hd]%NoDup_cons&Hn). split_and!; [done..|].
    intros x Hx [Hin|Hin%list_elem_of_singleton]%elem_of_app; [by apply (Hn x); [right|]|congruence].
Qed.
Definition good_serials (l : list string) : Prop := Forall (λ x, device_serial_ok x = true) l ∧ NoDup l.
Lemma device_serials_Ok devices worker_id l :
  device_serials devices worker_id = Ok l ↔ l = device_serial worker_id <$> devices ∧ good_serials l.
Proof.
  unfold device_serials. rewrite bind_serials_Ok. cbn [app]. split.
  - intros (->&Hf&Hd&_). by split.
  - intros [-> [Hf Hd]]. split_and!; [done..|]. by intros ? _ ?%elem_of_nil.
Qed.
(** Serial numbers are their own. *)
Lemma device_serial_plain s : device_serial_ok s = true → device_serial "" s = s.
Proof. intros Hs. unfold device_serial. by rewrite (no_space_strip s (serial_no_space s Hs)). Qed.
Lemma removeprefix_none pre s : startswith pre s = false → removeprefix pre s = s.
Proof. destruct pre as [|a pre], s as [|b s]; cbn [removeprefix]; try done. by intros ->. Qed.
Lemma device_serial_bare worker_id s :
  device_serial_ok s = true → startswith (worker_id +:+ ":") s = false → device_serial worker_id s = s.
Proof.
  intros Hs Hp. unfold device_serial. rewrite (no_space_strip s (serial_no_space s Hs)). destruct (nonempty _); [|done].
  by apply removeprefix_none.
Qed.
Lemma device_serials_plain l : good_serials l → device_serials l "" = Ok l.
Proof.
  intros Hl. apply device_serials_Ok. split; [|done]. destruct Hl as [Hf _].
  induction Hf as [|x l Hx Hf IH]; [done|]. simpl. rewrite (device_serial_plain x Hx). by f_equal.
Qed.

(** ** The words of a text *)

Section words.
Context (p : ascii → bool).
Definition one_word (w : string) : Prop := w ≠ "" ∧ all_chars (λ a, negb (p a)) w = true.
Lemma split_by_nonnil s : split_by p s ≠ [].
Proof. destruct s as [|a s]; simpl; [done|]. case_match; [done|]. by destruct (split_by p s). Qed.
Lemma split_by_word w : all_chars (λ a, negb (p a)) w = true → split_by p w = [w].
Proof.
  induction w as [|a w IH]; [done|]. simpl. intros [Ha Hw]%andb_true_iff. apply negb_true_iff in Ha.
  by rewrite Ha, IH.
Qed.
Lemma split_by_cons w c s :
  all_chars (λ a, negb (p a)) w = true → p c = true → split_by p (w +:+ String c s) = w :: split_by p s.
Proof.
  intros Hw Hc. induction w as [|a w IH]; [simpl; by rewrite Hc|]. simpl in *.
  apply andb_true_iff in Hw as [Ha Hw]. apply negb_true_iff in Ha.
  change (String a w +:+ ?x) with (String a (w +:+ x)). simpl. by rewrite Ha, IH.
Qed.
Lemma words_join l : p " "%char = true → Forall one_word l → words_by p (join " " l) = l.
Proof.
  intros Hp Hl. unfold words_by. induction Hl as [|w l [Hne Hw] Hl IH]; [done|]. destruct l as [|w' l].
  - simpl. rewrite (split_by_word w Hw). rewrite filter_cons_True; [done|]. by apply bool_decide_eq_true.
  - change (join " " (w :: w' :: l)) with (w +:+ String " " (join " " (w' :: l))).
    rewrite split_by_cons by done. rewrite filter_cons_True by (by apply bool_decide_eq_true). by rewrite IH.
Qed.
End words.

Lemma lacks_before c s : lacks c s = true → before c s = s.
Proof.
  unfold lacks. induction s as [|a s IH]; [done|]. simpl. intros [Ha Hs]%andb_true_iff.
  apply bool_decide_eq_true in Ha. rewrite bool_decide_eq_false_2 by done. by rewrite IH.
Qed.
Lemma all_chars_join f sep l :
  all_chars f sep = true → Forall (λ x, all_chars f x = true) l → all_chars f (join sep l) = true.
Proof.
  intros Hs Hl. induction Hl as [|x l Hx Hl IH]; [done|]. destruct l as [|y l]; [done|].
  change (join sep (x :: y :: l)) with (x +:+ sep +:+ join sep (y :: l)). by rewrite !all_chars_app, Hx, Hs, IH.
Qed.

(** Words of the device arguments: no blanks, no line feeds. *)
Definition device_word_char (a : ascii) : bool :=
  negb (bool_decide (a = " "%char) || bool_decide (a = "009"%char) || bool_decide (a = newline)).
Definition device_word (w : string) : Prop := w ≠ "" ∧ all_chars device_word_char w = true.
Lemma read_words_join l : Forall device_word l → read_words (join " " l) = l.
Proof.
  intros Hl. unfold read_words. rewrite lacks_before.
  - apply words_join; [done|]. eapply Forall_impl; [exact Hl|]. intros w [Hne Hw]. split; [done|].
    revert Hw. apply all_chars_impl. intros a. unfold device_word_char. by destruct (bool_decide (a = " "%char)), (bool_decide (a = "009"%char)).
  - apply all_chars_join; [done|]. eapply Forall_impl; [exact Hl|]. intros w [_ Hw]. revert Hw.
    apply all_chars_impl. intros a. unfold device_word_char. intros Ha. bool_props. by apply bool_decide_eq_true.
Qed.
Lemma serial_word s : device_serial_ok s = true → device_word s.
Proof.
  intros Hs. split; [by eapply plain_word_nonempty|]. apply plain_word_chars in Hs. revert Hs.
  apply all_chars_impl. intros a. destruct a as [[] [] [] [] [] [] [] []]; vm_compute; done.
Qed.
Lemma pretty_word (n : Z) : 0 ≤ n → device_word (pretty n).
Proof.
  intros Hn. assert (pretty n = pretty (Z.to_N n)) as ->.
  { destruct n as [|n|n]; [done|done|lia]. }
  split; [apply pretty_N_nonempty|]. pose proof (pretty_digits (Z.to_N n)) as Hd. revert Hd.
  apply all_chars_impl. intros a. destruct a as [[] [] [] [] [] [] [] []]; vm_compute; done.
Qed.
Lemma device_args_words shard_count serials :
  good_serials serials → Forall device_word (device_args shard_count serials).
Proof.
  intros [Hf _]. unfold device_args. apply Forall_app. split.
  - destruct (Z.ltb_spec 1 shard_count); [|constructor]. constructor; [by split|]. constructor; [|constructor].
    apply pretty_word. lia.
  - apply Forall_bind. eapply Forall_impl; [exact Hf|]. intros x Hx. constructor; [by split|].
    constructor; [by apply serial_word|constructor].
Qed.

(** The values of an option in a list of words. *)
Fixpoint option_values (o : string) (l : list string) : list string :=
  match l with
  | a :: l' => match l' with b :: l'' => if streqb a o then b :: option_values o l'' else option_values o l' | [] => [] end
  | [] => []
  end.
Lemma option_values_skip o l1 l2 : o ∉ l1 → option_values o (l1 ++ l2) = option_values o l2.
Proof.
  induction l1 as [|a l1 IH]; [done|]. intros [Ha Hn]%not_elem_of_cons. specialize (IH Hn). cbn [app option_values].
  destruct (l1 ++ l2) as [|b l] eqn:E; [destruct l1; simplify_eq/=; done|].
  unfold streqb. rewrite bool_decide_eq_false_2 by done. exact IH.
Qed.
Lemma option_values_serials serials rest :
  option_values "-s" ((serials ≫= λ x, ["-s"; x]) ++ rest) = serials ++ option_values "-s" rest.
Proof.
  induction serials as [|x serials IH]; [done|]. cbn [mbind list_bind app]. cbn [option_values]. cbn [streqb].
  change (streqb "-s" "-s") with true. cbn [app]. by rewrite <-IH.
Qed.
Lemma device_args_values shard_count serials pre :
  1 ≤ shard_count → "-s" ∉ pre →
  option_values "-s" (pre ++ device_args shard_count serials ++ ["--disable-reboot"]) = serials.
Proof.
  intros Hn Hpre. unfold device_args. rewrite <-app_assoc, app_assoc, option_values_skip.
  - rewrite option_values_serials. apply app_nil_r.
  - intros [Hin|Hin]%elem_of_app; [done|]. destruct (Z.ltb_spec 1 shard_count); [|by apply elem_of_nil in Hin].
    apply elem_of_cons in Hin as [?|[Hp|?%elem_of_nil]%elem_of_cons]; [done| |done].
    assert (pretty shard_count = pretty (Z.to_N shard_count)) as Hq.
    { destruct shard_count; [done|done|lia]. }
    rewrite Hq in Hp. pose proof (pretty_digits (Z.to_N shard_count)) as Hd. rewrite <-Hp in Hd. done.
Qed.

(** ** Reading the command line *)

Definition plain_argument (a : string) : Prop := startswith "-" a = false.

Lemma script_word_args a s e s' :
  script_word a s = Some (e, s') → Forall plain_argument (sc_args s) → Forall plain_argument (sc_args s').
Proof.
  unfold script_word. intros E Hs. repeat (case_match; [by simplify_eq|]). simplify_eq/=.
  apply Forall_app. split; [done|]. by repeat constructor.
Qed.
(** What is left of the options is no option. *)
Lemma parse_words_args e l s s' :
  parse_words e l s = Some s' → Forall plain_argument (sc_args s) → Forall plain_argument (sc_args s').
Proof.
  revert e s. induction l as [|a l IH]; intros e s; simpl.
  - destruct e; try done; [by intros [= <-]|]. by case_match; intros [= <-].
  - assert (∀ x, match script_word a x with Some (e', y) => parse_words e' l y | None => None end = Some s' →
      Forall plain_argument (sc_args x) → Forall plain_argument (sc_args s')) as Hw.
    { intros x E Hx. destruct (script_word a x) as [[e' y]|] eqn:Ew; [|done]. eapply IH; [exact E|].
      by eapply script_word_args. }
    destruct e; intros E Hs.
    + by eapply Hw.
    + case_match; [by eapply IH|done].
    + by eapply IH.
    + by eapply IH.
    + case_match; [|by eapply IH]. case_match; [by eapply Hw|done].
    + by eapply IH.
Qed.

(** What is read depends on what was read before through the state of the loop only. *)
Lemma parse_words_app e l1 l2 s s' : parse_words e (l1 ++ l2) s = Some s' → ∃ e' t, parse_words e' l2 t = Some s'.
Proof.
  revert e s. induction l1 as [|a l1 IH]; intros e s; [by exists e, s|]. simpl.
  destruct (script_word a s) as [[e1 t]|]; destruct e; repeat case_match; try done; apply IH.
Qed.

(** The options, one by one. *)
Lemma word_local_server s : script_word "--local-server" s = Some (LocalServer, s).
Proof. done. Qed.
Lemma word_test_suite s : script_word "--test-suite" s = Some (TestSuite, s).
Proof. done. Qed.
Lemma word_device_args s : script_word "--device-args" s = Some (DeviceArgs, s).
Proof. done. Qed.
Lemma word_copy_remote s : script_word "--copy-remote" s = Some (AnyWord, s <| sc_copy_to_remote := true |>).
Proof. done. Qed.
Lemma word_no_retry s : script_word "--no-retry" s = Some (AnyWord, s).
Proof. done. Qed.
Create Rewrite HintDb script.
#[local] Hint Rewrite word_local_server word_test_suite word_device_args word_copy_remote word_no_retry : script.
Ltac read_options := cbn [parse_words app]; autorewrite with script; cbn [parse_words app]; autorewrite with script.

(** The options behind the suite change neither devices nor suite. *)
Lemma parse_delivery spec delivery s s' :
  delivery_args spec = Ok delivery → parse_words AnyWord delivery s = Some s' →
  sc_device_args s' = sc_device_args s ∧ sc_suite_path s' = sc_suite_path s.
Proof.
  unfold delivery_args. do 2 (case_match; [done|]). intros [= <-].
  destruct (nonempty _), (sp_copy_remote spec), (sp_no_retry spec); read_options; repeat case_match; intros; by simplify_eq/=.
Qed.

(** The one argument with the devices cannot be taken for anything else. *)
Lemma device_args_form shard_count serials :
  serials ≠ [] → ∃ r, join " " (device_args shard_count serials) = "-s " +:+ r ∨
                      join " " (device_args shard_count serials) = "--shard-count " +:+ r.
Proof.
  intros Hne. destruct serials as [|x serials]; [done|]. unfold device_args. destruct (Z.ltb _ _).
  - eexists. right. reflexivity.
  - cbn [mbind list_bind app]. generalize (mbind (λ x, ["-s"; x]) serials). intros [|y l]; eexists; left; reflexivity.
Qed.
Lemma device_args_no_word shard_count serials s :
  serials ≠ [] → script_word (join " " (device_args shard_count serials)) s = None.
Proof. intros Hne. by destruct (device_args_form shard_count serials Hne) as [r [->| ->]]. Qed.

(** Whatever came before, the script takes the devices and the suite from the arguments
    [build_argv_from_spec] appends, or it ends. *)
Lemma parse_devices e s s' n serials suite rest :
  serials ≠ [] →
  parse_words e (["--device-args"; join " " (device_args n serials); "--test-suite"; suite] ++ rest) s = Some s' →
  ∃ pre t, (pre = [] ∨ pre = ["--device-args"]) ∧ sc_device_args t = join " " (pre ++ device_args n serials) ∧
    sc_suite_path t = suite ∧ parse_words AnyWord rest t = Some s'.
Proof.
  intros Hne. pose proof (device_args_no_word n serials) as Hnone.
  pose proof (device_args_form n serials Hne) as Hform. set (d := join " " (device_args n serials)) in *.
  assert (∀ t, parse_words AnyWord (["--device-args"; d; "--test-suite"; suite] ++ rest) t = Some s' →
    ∃ pre t', (pre = [] ∨ pre = ["--device-args"]) ∧ sc_device_args t' = join " " (pre ++ device_args n serials) ∧
      sc_suite_path t' = suite ∧ parse_words AnyWord rest t' = Some s') as Hany.
  { intros t. read_options. change (startswith "--" "--test-suite") with true. cbv iota. case_match; [|done].
    intros E. eexists [], _. split_and!; [by left| | |exact E]; done. }
  destruct e; [apply Hany| | | | |]; cbn [app parse_words]; autorewrite with script.
  - done.
  - by rewrite Hnone.
  - destruct (startswith "--" d) eqn:Es; [done|]. change (startswith "--" "--test-suite") with true. cbv iota.
    autorewrite with script. cbn [parse_words]. case_match; [|done]. intros E.
    eexists ["--device-args"], _. split_and!; [by right| | |exact E]; [|done].
    destruct (device_args n serials) as [|w l] eqn:El; [|reflexivity].
    destruct Hform as [r [Hd|Hd]]; done.
  - case_match; [|done]. case_match; [|done]. apply Hany.
  - by rewrite Hnone.
Qed.

(** ** What the script runs *)

Ltac no_option := repeat (apply not_elem_of_cons; split; [by first [done|apply not_eq_sym]|]); by apply not_elem_of_nil.

Section environment.
Context (testcases : string → option (list string)) (has_module : string → string → bool)
  (vts_session : string → option string).
(** The names of modules and sessions are not mistaken for options. *)
Context (testcases_names : ∀ suite l e, testcases suite = Some l → e ∈ l → e ≠ "-s").
Context (vts_session_names : ∀ timestamp i, vts_session timestamp = Some i → i ≠ "-s").

Lemma plain_not_option a : plain_argument a → a ≠ "-s".
Proof. by intros Ha ->. Qed.
Lemma plain_nth n l : Forall plain_argument l → nth n l "" ≠ "-s".
Proof.
  intros Hl. destruct (nth_in_or_default n l "") as [Hin| ->]; [|done].
  apply plain_not_option. rewrite Forall_forall in Hl. by apply Hl, list_elem_of_In.
Qed.

(** A run the script has read: its words are no options. *)
Definition sound_run (r : script_run) : Prop :=
  sr_module r ≠ "-s" ∧ sr_test_case r ≠ "-s" ∧ (∀ t, sr_retry r = Some t → t ≠ "-s") ∧
  ∃ t, test_plan t = Some (sr_suite_prefix r, sr_test_command r).
Lemma parse_args_sound l r :
  parse_args l = Some r → parse_words AnyWord l unset = Some (sr_settings r) ∧ sound_run r.
Proof.
  unfold parse_args. destruct (parse_words AnyWord l unset) as [s|] eqn:E; [|done].
  apply parse_words_args in E as Hs; [|constructor]. destruct (sc_args s) as [|a args]; [done|].
  apply Forall_cons in Hs as [_ Hs]. case_match; [done|]. case_match; [done|].
  destruct (test_plan (ascii_lower a)) as [[prefix command]|] eqn:Et; [|done]. intros [= <-].
  split; [done|]. unfold sound_run. cbn. split_and!; [| | |by eexists].
  1,2: case_match; [done|by apply plain_nth].
  intros t. case_match; [|done]. intros [= <-]. by apply plain_nth.
Qed.
Lemma validate_module_name r m :
  sr_module r ≠ "-s" → validate_module testcases has_module r = Some m → m ≠ "-s".
Proof.
  intros Hr. unfold validate_module. case_match; [by intros [= <-]|].
  destruct (testcases _) as [l|] eqn:El; [|by intros [= <-]]. case_match; [by intros [= <-]|].
  intros [Hin _]%fetchone_Some. by eapply testcases_names.
Qed.
Lemma test_plan_words t prefix command :
  test_plan t = Some (prefix, command) → command ≠ "-s" ∧ "./" +:+ prefix +:+ "-tradefed" ≠ "-s".
Proof. unfold test_plan. repeat (case_match; [by intros [= <- <-]|]). done. Qed.
(** The only [-s] are those of the device arguments. *)
Lemma tradefed_command_values r command :
  sound_run r → tradefed_command testcases has_module vts_session r = Some command →
  ∃ pre, ("-s" ∉ pre) ∧ command = pre ++ read_words (sc_device_args (sr_settings r)) ++ ["--disable-reboot"].
Proof.
  intros (Hm&Hc&Hr&t&Ht). apply test_plan_words in Ht as [Hcmd Hbin]. unfold tradefed_command.
  case_match eqn:Es; [|done]. intros [= <-].
  rename l into selected. exists ([("./" +:+ sr_suite_prefix r +:+ "-tradefed"); "run"; "commandAndExit"] ++ selected).
  split; [|by rewrite <-app_assoc]. enough ("-s" ∉ selected) by (repeat (apply not_elem_of_cons; split; [done|]); done).
  destruct (sr_retry r) as [ts|]; [specialize (Hr ts eq_refl)|clear Hr].
  - destruct (streqb (sr_test_type r) "vts"); [|simplify_eq; no_option].
    destruct (vts_session ts) as [i|] eqn:Ei; simplify_eq. apply vts_session_names in Ei.
    no_option.
  - destruct (validate_module _ _ r) as [m|] eqn:Em; simplify_eq. apply validate_module_name in Em; [|done].
    destruct (nonempty m), (nonempty (sr_test_case r)); cbn; no_option.
Qed.

End environment.

(** ** Options *)

Definition timeout_ok (maximum n : Z) : Prop := n = 0 ∨ 60 ≤ n ≤ maximum.
Record options_ok (s : execution_spec) (device_count : Z) : Prop := {
  ok_shard_count : 0 ≤ sp_shard_count s ≤ 32 ∧ (device_count = 0 ∨ sp_shard_count s ≤ device_count);
  ok_queue_timeout : timeout_ok 604800 (sp_queue_timeout_seconds s);
  ok_execution_timeout : timeout_ok 604800 (sp_execution_timeout_seconds s);
  ok_output_idle_timeout : timeout_ok 86400 (sp_output_idle_timeout_seconds s);
  ok_preparations : (length (sp_preparations s) ≤ 8)%nat ∧ NoDup (sp_preparations s) ∧
                    ∀ a, a ∈ sp_preparations s → a ∈ PREPARATION_TEMPLATES;
}.
Definition options_of (s : execution_spec) : execution_options :=
  ExecutionOptions (sp_shard_count s) (sp_queue_timeout_seconds s) (sp_execution_timeout_seconds s)
    (sp_output_idle_timeout_seconds s) (sp_preparations s).

Lemma first_failed_None checks : first_failed checks = None ↔ Forall (λ x, x.1 = true) checks.
Proof.
  induction checks as [|[[] m] checks IH]; [done|..]; cbn [first_failed]; rewrite Forall_cons; [rewrite IH; tauto|].
  by split; [|intros []].
Qed.
Lemma timeout_checks_ok key maximum n :
  60 ≤ maximum → Forall (λ x, x.1 = true) (timeout_checks key maximum n) ↔ timeout_ok maximum n.
Proof.
  intros Hm. unfold timeout_checks, within, timeout_ok. rewrite !Forall_cons, Forall_nil. cbn. split.
  - intros (H1&H2&_). bool_props; lia.
  - intros Hn. split_and!; [lia|lia|done].
Qed.
Lemma validate_execution_options_Ok s n o :
  validate_execution_options s n = Ok o ↔ o = options_of s ∧ options_ok s n.
Proof.
  unfold validate_execution_options. cbv zeta.
  destruct (first_failed _) as [m|] eqn:E.
  - split; [done|]. intros [_ [Hs Hq He Ho (Hl&Hd&Hp)]]. exfalso.
    enough (first_failed _ = None) as Hn by (rewrite E in Hn; discriminate Hn).
    apply first_failed_None. rewrite !Forall_app, !timeout_checks_ok by lia. split_and!; [|done..|].
    + repeat constructor. unfold within. cbn. lia.
    + repeat constructor; cbn; [lia|by apply Nat.leb_le| |by apply bool_decide_eq_true].
      apply forallb_forall. intros a Ha%list_elem_of_In. apply bool_decide_eq_true. by apply Hp.
  - apply first_failed_None in E. rewrite !Forall_app, !timeout_checks_ok in E by lia.
    destruct E as (Hs&Hq&He&Ho&Hr). apply Forall_cons in Hs as [Hs _].
    do 3 (apply Forall_cons in Hr as [? Hr]). apply Forall_cons in Hr as [Hd _].
    rename H into Hc, H0 into Hl, H1 into Hp. cbn in Hs, Hc, Hl, Hp, Hd. split; [intros [= <-]; split; [done|]|by intros [-> _]].
    split; [|done..|].
    + unfold within in Hs. split; lia.
    + split_and!; [by apply Nat.leb_le|by apply bool_decide_eq_true in Hd|]. intros a Ha%list_elem_of_In.
      rewrite forallb_forall in Hp. by apply Hp, bool_decide_eq_true in Ha.
Qed.
Lemma as_bad_request_Ok {A} (r : result A) a : as_bad_request r = Ok a ↔ r = Ok a.
Proof. destruct r as [b|[]]; by split. Qed.

(** ** The command line of a request *)

Definition shards (s : execution_spec) (serials : list string) : Z :=
  if Z.eqb (sp_shard_count s) 0 then Z.of_nat (length serials) else sp_shard_count s.
(** What [build_argv_from_spec] accepts, and the arguments it makes of it. *)
Lemma build_argv_Ok s argv :
  build_argv_from_spec s = Ok argv ↔
  ∃ selected delivery, let serials := device_serial "" <$> sp_devices s in
    ascii_lower (sp_test_type s) ∈ VALID_TEST_TYPES ∧ strip (sp_suite_path s) ≠ "" ∧ selection s = Ok selected ∧
    good_serials serials ∧ serials ≠ [] ∧ options_ok s (Z.of_nat (length serials)) ∧ delivery_args s = Ok delivery ∧
    argv = [script_path (strip (sp_suite_path s)); ascii_lower (sp_test_type s)] ++ selected
      ++ ["--device-args"; join " " (device_args (shards s serials) serials); "--test-suite"; strip (sp_suite_path s)]
      ++ delivery.
Proof.
  unfold build_argv_from_spec, shards, mem. cbv zeta. split.
  - case_bool_decide as Ht; [|done]. cbn [negb]. unfold nonempty at 1. case_bool_decide as Hs; [|done]. cbn [negb].
    destruct (selection s) as [selected|] eqn:Esel; [|done].
    destruct (device_serials _ _) as [serials|] eqn:Eser; [|done]. apply device_serials_Ok in Eser as [-> Hg].
    case_bool_decide as Hn; [done|]. destruct (as_bad_request _) as [o|] eqn:Eo; [|done].
    apply as_bad_request_Ok, validate_execution_options_Ok in Eo as [-> Ho].
    destruct (delivery_args s) as [delivery|] eqn:Ed; [|done]. intros [= <-]. by exists selected, delivery.
  - intros (selected&delivery&Ht&Hs&Hsel&Hg&Hn&Ho&Hd&->). rewrite bool_decide_eq_true_2 by done. cbn [negb].
    unfold nonempty at 1. rewrite (bool_decide_eq_true_2 _ Hs). cbn [negb]. rewrite Hsel.
    rewrite (proj2 (device_serials_Ok (sp_devices s) "" _) (conj eq_refl Hg)), (bool_decide_eq_false_2 _ Hn).
    rewrite (proj2 (as_bad_request_Ok _ _) (proj2 (validate_execution_options_Ok _ _ _) (conj eq_refl Ho))).
    by rewrite Hd.
Qed.

Lemma shards_positive s serials : options_ok s (Z.of_nat (length serials)) → serials ≠ [] → 1 ≤ shards s serials.
Proof.
  intros [[Hs _] _ _ _ _] Hne. unfold shards. destruct serials; [done|]. destruct (Z.eqb_spec (sp_shard_count s) 0); simpl; lia.
Qed.

Definition leased worker_id devices : list string := device_serial worker_id <$> devices.
Lemma canonicalize_Ok spec suite_path suite_type devices worker_id c :
  canonicalize_execution_spec spec suite_path suite_type devices worker_id = Ok c →
  c = spec <| sp_suite_path := suite_path |> <| sp_devices := leased worker_id devices |> ∧
  good_serials (leased worker_id devices) ∧ leased worker_id devices ≠ [] ∧
  options_ok c (Z.of_nat (length (leased worker_id devices))) ∧
  (sp_devices spec ≠ [] → leased worker_id (sp_devices spec) = leased worker_id devices) ∧
  (suite_test_types (ascii_lower suite_type) = [] ∨
   ascii_lower (sp_test_type spec) ∈ suite_test_types (ascii_lower suite_type)).
Proof.
  unfold canonicalize_execution_spec. destruct (device_serials (sp_devices spec) _) as [l|] eqn:E1; [|done].
  destruct (device_serials devices _) as [l'|] eqn:E2; [|done].
  apply device_serials_Ok in E1 as [-> _]. apply device_serials_Ok in E2 as [-> Hg]. fold (leased worker_id devices) in *.
  fold (leased worker_id (sp_devices spec)). case_bool_decide as Hne; [done|]. case_match eqn:Eq; [done|].
  cbv zeta. case_match eqn:Et; [done|]. destruct (as_bad_request _) as [o|] eqn:Eo; [|done].
  apply as_bad_request_Ok, validate_execution_options_Ok in Eo as [-> Ho].
  intros [= <-]. split_and!; [by destruct spec|done..| |].
  - intros Hd. apply andb_false_iff in Eq as [Eq%bool_decide_eq_false|Eq%bool_decide_eq_false].
    + destruct Eq. by destruct (sp_devices spec).
    + by apply dec_stable.
  - unfold mem in Et. apply andb_false_iff in Et as [Et%bool_decide_eq_false|Et%negb_false_iff%bool_decide_eq_true].
    + left. by apply dec_stable.
    + by right.
Qed.

(** [C11] A job reaches the devices it leased.  Whatever a client writes into its request (the
    module, the test case, the result to retry may be any text, option words included), when the
    controller accepts it for a job's devices, the worker rebuilds the command line from it,
    whatever command line came along, and the script goes on to run Tradefed, then Tradefed is
    given exactly the serial numbers of these devices, each once, and the script works in the
    suite the controller chose. *)
Theorem job_reaches_leased_devices testcases has_module vts_session spec suite_path suite_type devices worker_id
    c p script args command :
  (∀ suite l e, testcases suite = Some l → e ∈ l → e ≠ "-s") →
  (∀ timestamp i, vts_session timestamp = Some i → i ≠ "-s") →
  canonicalize_execution_spec spec suite_path suite_type devices worker_id = Ok c → sp_test_type spec ≠ "" →
  sy_execution_spec p = Some c → worker_argv p = Ok (script :: args) →
  script_main testcases has_module vts_session args = Some command →
  option_values "-s" command = device_serial worker_id <$> devices ∧
  NoDup (device_serial worker_id <$> devices) ∧
  ∃ r, parse_args args = Some r ∧ sc_suite_path (sr_settings r) = strip suite_path.
Proof.
  intros Htest Hvts Hc Htype Hp Hargv Hrun. apply canonicalize_Ok in Hc as (Ec&Hg&Hne&Ho&_&_).
  assert (build_argv_from_spec c = Ok (script :: args)) as Hb.
  { unfold worker_argv in Hargv. rewrite Hp in Hargv. unfold nonempty in Hargv.
    rewrite bool_decide_eq_true_2 in Hargv by (by subst c). destruct (build_argv_from_spec c) as [l|[]]; try done.
    case_bool_decide; congruence. }
  apply build_argv_Ok in Hb as (selected&delivery&_&_&_&_&_&_&Hd&E).
  assert (device_serial "" <$> sp_devices c = leased worker_id devices) as El.
  { subst c. change (device_serial "" <$> leased worker_id devices = leased worker_id devices).
    pose proof (device_serials_plain _ Hg) as Hl. apply device_serials_Ok in Hl as [Hl _]. by rewrite <-Hl. }
  rewrite El in E. injection E as _ ->. unfold script_main in Hrun.
  destruct (parse_args _) as [r|] eqn:Er; [|done]. apply parse_args_sound in Er as [Ew Hr].
  apply (tradefed_command_values _ _ _ Htest Hvts _ _ Hr) in Hrun as (pre&Hpre&->).
  change (?t :: selected ++ ?l) with ((t :: selected) ++ l) in Ew.
  apply parse_words_app in Ew as (e&s1&Ew). apply parse_devices in Ew as (pre'&t&Hpre'&Hdev&Hsuite&Ew); [|done].
  eapply parse_delivery in Ew as [Edev Esuite]; [|exact Hd].
  split_and!; [|by apply Hg|eexists; split; [done|by rewrite Esuite, Hsuite; subst c]].
  assert (Forall device_word (pre' ++ device_args (shards c (leased worker_id devices)) (leased worker_id devices))) as Hw.
  { apply Forall_app. split; [destruct Hpre' as [->| ->]; by repeat constructor|by apply device_args_words]. }
  rewrite Edev, Hdev, read_words_join by done. rewrite <-app_assoc, app_assoc.
  apply device_args_values; [by eapply shards_positive|].
  apply not_elem_of_app. split; [done|]. destruct Hpre' as [->| ->]; [apply not_elem_of_nil|no_option].
Qed.

(** [C24] Canonical requests are well typed.  What the controller stores as a job's request names at
    least one device by a well-formed serial number, each once, and its options are within their
    bounds, for this number of devices; making it canonical once more, for the same job, changes
    nothing, as long as no serial number begins with the worker's own name and a colon; the worker's
    check before preparations accepts it for the devices of the job, where a test type is given and
    the names have no white space around them; and whether a
    command line can be built from it no longer depends on devices and options. *)
Theorem canonical_requests_typed spec suite_path suite_type devices worker_id c :
  canonicalize_execution_spec spec suite_path suite_type devices worker_id = Ok c →
  good_serials (sp_devices c) ∧ sp_devices c ≠ [] ∧ options_ok c (Z.of_nat (length (sp_devices c))) ∧
  ((∀ d, d ∈ sp_devices c → startswith (worker_id +:+ ":") d = false) →
     canonicalize_execution_spec c suite_path suite_type devices worker_id = Ok c) ∧
  (∀ argv, sp_test_type spec ≠ "" → worker_id ≠ "" → (∀ d, d ∈ devices → strip d = d) →
     preparation_devices_ok worker_id (StartPayload (Some c) argv devices) = true) ∧
  ((∃ argv, build_argv_from_spec c = Ok argv) ↔
     ascii_lower (sp_test_type spec) ∈ VALID_TEST_TYPES ∧ strip suite_path ≠ "" ∧
     (∃ selected, selection spec = Ok selected) ∧ ∃ delivery, delivery_args spec = Ok delivery).
Proof.
  intros Hc. apply canonicalize_Ok in Hc as (Ec&Hg&Hne&Ho&_&Ht).
  assert (sp_devices c = leased worker_id devices) as Ed by (by subst c). rewrite Ed.
  pose proof (device_serials_plain _ Hg) as Hp. pose proof Hp as [Hs _]%device_serials_Ok. split_and!; [done..| | |].
  - intros Hpre. assert (device_serials (leased worker_id devices) worker_id = Ok (leased worker_id devices)) as Hagain.
    { apply device_serials_Ok. split; [|done]. rewrite <-(list_fmap_id (leased _ _)) at 1. apply list_fmap_ext.
      intros i d Hi%list_elem_of_lookup_2. symmetry. apply device_serial_bare; [|by apply Hpre].
      destruct Hg as [Hf _]. by eapply Forall_forall in Hf. }
    assert (device_serials devices worker_id = Ok (leased worker_id devices)) as Hfirst by (by apply device_serials_Ok).
    unfold canonicalize_execution_spec. rewrite Ed, Hagain, Hfirst, (bool_decide_eq_false_2 _ Hne).
    rewrite (bool_decide_eq_false_2 (leased worker_id devices ≠ leased worker_id devices)) by tauto. rewrite andb_false_r.
    assert (ascii_lower (sp_test_type c) = ascii_lower (sp_test_type spec)) as -> by (by subst c).
    rewrite (proj2 (andb_false_iff _ _)).
    + assert (c <| sp_suite_path := suite_path |> <| sp_devices := leased worker_id devices |> = c) as -> by (by subst c).
      cbv zeta. rewrite (proj2 (as_bad_request_Ok _ _) (proj2 (validate_execution_options_Ok _ _ _) (conj eq_refl Ho))).
      subst c. by destruct spec.
    + destruct Ht as [Ht|Ht]; [left; rewrite Ht; apply bool_decide_eq_false; intros Hx; by apply Hx|right].
      unfold mem. by rewrite (bool_decide_eq_true_2 _ Ht).
  - intros argv Htype Hw Hd. unfold preparation_devices_ok. cbn [sy_execution_spec sy_devices]. rewrite Ed.
    apply orb_true_iff. right. apply andb_true_iff. split; [unfold nonempty; apply bool_decide_eq_true_2; by subst c|].
    apply bool_decide_eq_true. unfold leased. apply list_fmap_ext. intros i d Hi. unfold device_serial, nonempty.
    rewrite (bool_decide_eq_true_2 _ Hw). by rewrite (Hd d) by (by eapply list_elem_of_lookup_2).
  - split.
    + intros [argv Hb]. apply build_argv_Ok in Hb as (selected&delivery&?&?&?&_&_&_&?&_). subst c.
      split_and!; [done|done|by exists selected|by exists delivery].
    + intros (Hv&Hsp&[selected Hsel]&[delivery Hdel]). eexists. apply build_argv_Ok. exists selected, delivery.
      rewrite Ed, <-Hs. split_and!; first [done|by subst c].
Qed.

(** ** Reading a plain request back *)

Lemma script_word_plain a s : plain_argument a → script_word a s = Some (AnyWord, s <| sc_args ::= λ l, l ++ [a] |>).
Proof.
  intros Ha. unfold script_word, streqb.
  repeat (rewrite bool_decide_eq_false_2; [|by intros ->]). by rewrite Ha.
Qed.
Lemma parse_plain l l' s :
  Forall plain_argument l → parse_words AnyWord (l ++ l') s = parse_words AnyWord l' (s <| sc_args ::= λ x, x ++ l |>).
Proof.
  intros Hl. revert s. induction Hl as [|a l Ha Hl IH]; intros s.
  - destruct s. unfold upd. cbn. by rewrite app_nil_r.
  - cbn [app parse_words]. rewrite (script_word_plain a s Ha), IH. f_equal. destruct s. unfold upd. cbn. by rewrite <-app_assoc.
Qed.
Lemma names_device_app a b : names_device b = true → names_device (a +:+ b) = true.
Proof.
  intros Hb. induction a as [|x a IH]; [done|]. change (String x a +:+ b) with (String x (a +:+ b)).
  cbn [names_device]. rewrite IH. apply orb_true_r.
Qed.
Lemma serial_not_space x : device_serial_ok x = true → all_chars posix_space x = false.
Proof.
  destruct x as [|a x]; [done|]. simpl. intros [[Ha _]%andb_true_iff _]%andb_true_iff.
  assert (posix_space a = false) as ->; [|done]. revert Ha. by destruct a as [[] [] [] [] [] [] [] []]; vm_compute.
Qed.
Lemma names_first_device x r : device_serial_ok x = true → names_device ("-s " +:+ x +:+ r) = true.
Proof.
  intros Hx. change ("-s " +:+ x +:+ r) with (String "-" (String "s" (String " " (x +:+ r)))).
  cbn [names_device]. rewrite all_chars_app, (serial_not_space x Hx). done.
Qed.
Lemma device_args_named n serials :
  good_serials serials → serials ≠ [] → names_device (join " " (device_args n serials)) = true.
Proof.
  intros [Hf _] Hne. destruct serials as [|x serials]; [done|]. apply Forall_cons in Hf as [Hx _].
  assert (∃ r, join " " ((x :: serials) ≫= λ y, ["-s"; y]) = "-s " +:+ x +:+ r) as [r Hr].
  { cbn [mbind list_bind app]. generalize (mbind (λ y, ["-s"; y]) serials). intros [|y l].
    - exists "". by rewrite string_app_nil.
    - eexists. reflexivity. }
  unfold device_args. remember ((x :: serials) ≫= λ y, ["-s"; y]) as l eqn:El. destruct l as [|w l]; [done|].
  destruct (Z.ltb 1 n); [|cbn [app]; rewrite Hr; by apply names_first_device].
  change (join " " (["--shard-count"; pretty n] ++ w :: l))
    with ("--shard-count" +:+ " " +:+ pretty n +:+ " " +:+ join " " (w :: l)).
  rewrite Hr. do 4 apply names_device_app. by apply names_first_device.
Qed.

Lemma valid_types t :
  t ∈ VALID_TEST_TYPES → ascii_lower t = t ∧ plain_argument t ∧ ∃ prefix command, test_plan t = Some (prefix, command).
Proof.
  intros Ht. repeat (apply elem_of_cons in Ht as [->|Ht]; [split_and!; [done..|by do 2 eexists]|]).
  by apply elem_of_nil in Ht.
Qed.
(** The address of the local server is read as it is written. *)
Lemma at_sign_once s : lacks "@" (after "@" s) = true → has_char "@" s = true → before_last "@" s = before "@" s.
Proof.
  induction s as [|a s IH]; [done|]. cbn [after before before_last has_char]. intros Hl Hc.
  destruct (bool_decide (a = "@"%char)) eqn:Ea.
  - assert (has_char "@" s = false) as ->; [|done]. clear IH Hc. revert Hl. unfold lacks.
    induction s as [|b s IH]; [done|]. simpl. intros [Hb Hs]%andb_true_iff. apply bool_decide_eq_true in Hb.
    rewrite bool_decide_eq_false_2 by done. by apply IH.
  - simpl in Hc. rewrite Hc. f_equal. by apply IH.
Qed.
Lemma local_server_read s :
  local_server_ok s = true →
  has_char "@" s = true ∧ before_last "@" s = before "@" s ∧ before "@" s ≠ "" ∧ after "@" s ≠ "".
Proof.
  unfold local_server_ok. intros [[Hc Hb]%andb_true_iff Ha]%andb_true_iff. split_and!; [done| | |].
  - apply at_sign_once; [|done]. by eapply plain_word_lacks.
  - by eapply plain_word_nonempty.
  - by eapply plain_word_nonempty.
Qed.

(** Nothing in the request looks like an option. *)
Definition plain_request (s : execution_spec) : Prop :=
  plain_argument (strip (sp_module s)) ∧ plain_argument (strip (sp_test_case s)) ∧
  ascii_lower (strip (sp_module s)) ≠ "retry" ∧ plain_argument (basename (rstrip_char "/" (strip (sp_retry_dir s)))).
Definition retried_result (s : execution_spec) : option string :=
  if nonempty (strip (sp_retry_dir s)) then Some (basename (rstrip_char "/" (strip (sp_retry_dir s)))) else None.
Lemma selection_read s selected :
  plain_request s → selection s = Ok selected →
  Forall plain_argument selected ∧
  let module := nth 0 selected "" in let test_case := nth 1 selected "" in
  let retry := streqb (ascii_lower module) "retry" in
  (retry && bool_decide (test_case = "")) = false ∧
  (if retry then Some test_case else None) = retried_result s ∧
  (if retry then "" else module) = strip (sp_module s) ∧ (if retry then "" else test_case) = strip (sp_test_case s).
Proof.
  intros (Hm&Hc&Hn&Hr). unfold selection, retried_result, nonempty. cbv zeta.
  destruct (decide (strip (sp_retry_dir s) = "")) as [Er|Er].
  - rewrite (bool_decide_eq_false_2 (strip (sp_retry_dir s) ≠ "")) by tauto. cbn [andb].
    destruct (decide (strip (sp_module s) = "")) as [Em|Em], (decide (strip (sp_test_case s) = "")) as [Ec|Ec].
    + rewrite Em, Ec. intros [= <-]. split; [constructor|done].
    + rewrite bool_decide_eq_true_2, bool_decide_eq_false_2 by tauto. done.
    + rewrite Ec. rewrite bool_decide_eq_false_2 by tauto. cbn [andb]. rewrite filter_cons_True by by apply bool_decide_eq_true.
      intros [= <-]. split; [by repeat constructor|]. cbn. unfold streqb. by rewrite bool_decide_eq_false_2.
    + rewrite (bool_decide_eq_true_2 (strip (sp_module s) ≠ "")) by done. rewrite andb_false_r.
      rewrite !filter_cons_True by by apply bool_decide_eq_true.
      intros [= <-]. split; [by repeat constructor|]. cbn. unfold streqb. by rewrite bool_decide_eq_false_2.
  - rewrite (bool_decide_eq_true_2 _ Er). cbn [andb]. case_match eqn:E1; [done|]. case_match eqn:E2; [done|].
    case_match eqn:E3; [done|]. intros [= <-]. apply orb_false_iff in E1 as [E1%bool_decide_eq_false E1'%bool_decide_eq_false].
    apply dec_stable in E1, E1'. split; [by repeat constructor|]. cbn. rewrite E1, E1'.
    split_and!; [|done..]. apply bool_decide_eq_false. intros E. unfold mem in E3. apply bool_decide_eq_false in E3.
    apply E3. rewrite E. left.
Qed.

(** The options behind the suite say where results are copied to. *)
Lemma delivery_read s delivery l d p :
  delivery_args s = Ok delivery → let server := strip (sp_local_server s) in
  parse_words AnyWord delivery (ScriptSettings l d p "" "" false "") =
    Some (ScriptSettings l d p (before "@" server) (after "@" server) (sp_copy_remote s) "") ∧
  (sp_copy_remote s = true → before "@" server ≠ "" ∧ after "@" server ≠ "").
Proof.
  unfold delivery_args, nonempty. cbv zeta. set (server := strip (sp_local_server s)).
  destruct (decide (server = "")) as [->|Hne].
  - rewrite bool_decide_eq_false_2 by tauto. cbn [andb negb]. destruct (sp_copy_remote s); [done|].
    cbn [andb]. intros [= <-]. by destruct (sp_no_retry s).
  - rewrite (bool_decide_eq_true_2 _ Hne). cbn [andb negb]. destruct (local_server_ok server) eqn:Eo; [|done]. cbn [negb].
    rewrite andb_false_r. intros [= <-]. apply local_server_read in Eo as (Hc&Hb&Hu&Hh). split; [|done].
    rewrite <-Hb. read_options. rewrite Hc.
    destruct (sp_copy_remote s), (sp_no_retry s); read_options; reflexivity.
Qed.

(** A plain request survives the command line.  When no text of an accepted request looks like
    an option, the script, given the arguments built from it, reads the test type, the result to
    retry or else the module and the test case, the devices, the suite and the address of the
    local server, whether to copy there included, exactly as the request has them. *)
Theorem plain_request_read_back s script args :
  plain_request s → build_argv_from_spec s = Ok (script :: args) →
  let serials := device_serial "" <$> sp_devices s in let server := strip (sp_local_server s) in
  ∃ r, parse_args args = Some r ∧
    sr_test_type r = ascii_lower (sp_test_type s) ∧ sr_retry r = retried_result s ∧
    sr_module r = strip (sp_module s) ∧ sr_test_case r = strip (sp_test_case s) ∧
    read_words (sc_device_args (sr_settings r)) = device_args (shards s serials) serials ∧
    sc_suite_path (sr_settings r) = strip (sp_suite_path s) ∧
    sc_remote_user (sr_settings r) = before "@" server ∧ sc_remote_host (sr_settings r) = after "@" server ∧
    sc_copy_to_remote (sr_settings r) = sp_copy_remote s ∧ sc_process_group (sr_settings r) = "".
Proof.
  intros Hplain Hb. cbv zeta. apply build_argv_Ok in Hb as (selected&delivery&Hv&Hp&Hsel&Hg&Hne&_&Hd&E).
  injection E as _ ->. apply valid_types in Hv as (Hlow&Hvt&prefix&command&Hplan).
  apply selection_read in Hsel as (Hargs&Hretry&Hresult&Hmodule&Hcase); [|done]. cbv zeta in *.
  set (serials := device_serial "" <$> sp_devices s) in *.
  change (?t :: selected ++ ?l) with ((t :: selected) ++ l). unfold parse_args.
  rewrite parse_plain by by constructor. read_options. change (startswith "--" "--test-suite") with true. cbv iota.
  change (names_device _) with (names_device (join " " (device_args (shards s serials) serials))).
  rewrite device_args_named by done. autorewrite with script. cbn [parse_words].
  destruct (delivery_read s delivery (ascii_lower (sp_test_type s) :: selected)
    (join " " (device_args (shards s serials) serials)) (strip (sp_suite_path s)) Hd) as [Ed Hcopy].
  match goal with |- context [parse_words AnyWord delivery ?t] =>
    change (parse_words AnyWord delivery t) with (parse_words AnyWord delivery (ScriptSettings (ascii_lower (sp_test_type s) :: selected)
      (join " " (device_args (shards s serials) serials)) (strip (sp_suite_path s)) "" "" false "")) end.
  rewrite Ed. cbn [sc_args sc_suite_path sc_copy_to_remote sc_remote_host sc_remote_user].
  rewrite (bool_decide_eq_false_2 _ Hp), Hlow, Hretry, Hplan. cbn [orb].
  rewrite (proj2 (andb_false_iff _ _)).
  - eexists. split; [reflexivity|].
    cbn [sr_settings sr_test_type sr_retry sr_module sr_test_case sc_device_args].
    by rewrite read_words_join by by apply device_args_words.
  - destruct (sp_copy_remote s); [right|by left]. destruct (Hcopy eq_refl). by rewrite !bool_decide_eq_false_2.
Qed.

(** A job's environment cannot change how its shell starts.  Of the variables a client asks
    for, those that reach the worker are on the list, keep their values and their order, and have
    values without carriage returns and NUL characters in which a line feed can only be the last
    character; what is neither passed on nor reported is nothing; and the worker's own filter, run
    on what the controller passed on, rejects nothing more. *)
Theorem job_env_filtered env :
  let '(allowed, rejected) := filter_job_env env in
  (∀ k v, (k, v) ∈ allowed ↔ (k, v) ∈ env ∧ job_env_ok (k, v) = true) ∧
  (∀ k v, (k, v) ∈ allowed → k ∈ ALLOWED_JOB_ENV_KEYS ∧ text_length v ≤ 4096 ∧
     ∃ line, all_chars line_char line = true ∧ (v = line ∨ v = line +:+ String newline "")) ∧
  (∀ k v, (k, v) ∈ env → (k, v) ∉ allowed → k ∈ rejected) ∧
  sublist allowed env ∧ filter_job_env allowed = (allowed, []).
Proof.
  unfold filter_job_env. split_and!.
  - intros k v. rewrite list_elem_of_filter. tauto.
  - intros k v [Hok _]%list_elem_of_filter. unfold job_env_ok in Hok. cbn in Hok.
    apply andb_true_iff in Hok as [[Hk%bool_decide_eq_true Hl%Z.leb_le]%andb_true_iff Hv]. split_and!; [done..|].
    clear Hk Hl. induction v as [|a v IH]; [by exists ""; auto|]. cbn in Hv. destruct (line_char a) eqn:Ea.
    + destruct (IH Hv) as (line&Hline&[->| ->]); exists (String a line); cbn; rewrite Ea; auto.
    + apply andb_true_iff in Hv as [->%bool_decide_eq_true ->%bool_decide_eq_true]. exists "". auto.
  - intros k v Hin Hn. apply list_elem_of_fmap. exists (k, v). split; [done|]. apply list_elem_of_filter. split; [|done].
    destruct (job_env_ok (k, v)) eqn:E; [|done]. destruct Hn. by apply list_elem_of_filter.
  - apply sublist_filter.
  - assert (∀ x, x ∈ filter (λ x, job_env_ok x = true) env → job_env_ok x = true) as Hall
      by (by intros x [Hx _]%list_elem_of_filter).
    f_equal; [by apply fetchall_all|]. change (filter (λ x, job_env_ok x = false)) with (delete_where job_env_ok).
    revert Hall. generalize (filter (λ x, job_env_ok x = true) env). intros l Hl.
    induction l as [|x l IH]; [done|]. unfold delete_where. rewrite filter_cons_False; [|by rewrite Hl by left].
    apply IH. intros y Hy. apply Hl. by right.
Qed.

(** A line feed at the end gets through, although the pattern is meant to exclude it. *)
Lemma trailing_line_feed_allowed :
  filter_job_env [("TERM", "xterm" +:+ String newline ""); ("BASH_ENV", "/tmp/x")] =
    ([("TERM", "xterm" +:+ String newline "")], ["BASH_ENV"]).
Proof. vm_compute. reflexivity. Qed.

(** ** A request that tries to reach another device, and a plain one *)

Definition suite_dir : string := "/srv/GMS-Suite/android-cts/tools".
Definition hostile : execution_spec :=
  ExecutionSpec "CTS" "" "--device-args" "-s OTHER" "" [] "" true false 2 ["wifi_on"] 0 3600 0.
Definition no_testcases : string → option (list string) := λ _, None.
Definition found_module : string → string → bool := λ _ _, true.
Definition first_session : string → option string := λ _, Some "1".
Definition canonical_or {A} (d : A) (r : result A) : A := match r with Ok a => a | Err _ => d end.
Definition hostile_canonical : execution_spec :=
  canonical_or hostile (canonicalize_execution_spec hostile suite_dir "CTS" ["w1:ABC"; "DEF"] "w1").

Lemma job_reaches_leased_devices_witness :
  ∃ script args command, worker_argv (StartPayload (Some hostile_canonical) ["rm"] ["w1:ABC"; "DEF"]) = Ok (script :: args) ∧
    script_main no_testcases found_module first_session args = Some command ∧
    option_values "-s" command = ["ABC"; "DEF"].
Proof.
  destruct (worker_argv (StartPayload (Some hostile_canonical) ["rm"] ["w1:ABC"; "DEF"])) as [[|script args]|] eqn:Ew;
    [vm_compute in Ew; discriminate| |vm_compute in Ew; discriminate].
  destruct (script_main no_testcases found_module first_session args) as [command|] eqn:Es;
    [|vm_compute in Ew; injection Ew as <- <-; vm_compute in Es; discriminate].
  exists script, args, command. split_and!; [done|done|].
  apply (job_reaches_leased_devices no_testcases found_module first_session hostile suite_dir "CTS" ["w1:ABC"; "DEF"] "w1"
    hostile_canonical (StartPayload (Some hostile_canonical) ["rm"] ["w1:ABC"; "DEF"]) script args command);
    [done|by intros ? ? [= <-]|vm_compute; reflexivity|done|done|done|done].
Defined.
Lemma canonical_requests_typed_witness :
  canonicalize_execution_spec hostile_canonical suite_dir "CTS" ["w1:ABC"; "DEF"] "w1" = Ok hostile_canonical.
Proof.
  apply (canonical_requests_typed hostile suite_dir "CTS" ["w1:ABC"; "DEF"] "w1" hostile_canonical).
  - vm_compute. reflexivity.
  - intros d Hd. vm_compute in Hd. apply elem_of_cons in Hd as [->|[->|[]%not_elem_of_nil]%elem_of_cons]; reflexivity.
Defined.
Definition plain_one : execution_spec :=
  ExecutionSpec "gsi" (suite_dir +:+ " ") "CtsUsb" "a.B#c" "" ["ABC"; "DEF"] "qa@10.0.0.1" false true 0 [] 0 0 0.
Lemma plain_request_read_back_witness :
  ∃ script args r, build_argv_from_spec plain_one = Ok (script :: args) ∧ parse_args args = Some r ∧
    sr_module r = "CtsUsb" ∧ sc_remote_host (sr_settings r) = "10.0.0.1".
Proof.
  destruct (build_argv_from_spec plain_one) as [[|script args]|] eqn:Eb;
    [vm_compute in Eb; discriminate| |vm_compute in Eb; discriminate].
  destruct (plain_request_read_back plain_one script args) as (r&Hr&_&_&Hm&_&_&_&_&Hh&_); [|exact Eb|].
  { split_and!; try reflexivity. vm_compute. discriminate. }
  exists script, args, r. split_and!; [done|exact Hr|exact Hm|exact Hh].
Defined.
(** A module of this name turns its test case into a result to retry, which [build_argv_from_spec]
    would have refused. *)
Lemma module_named_retry :
  let s := plain_one <| sp_module := "retry" |> <| sp_test_case := ".." |> in
  (∃ args, build_argv_from_spec s = Ok args ∧ option_map sr_retry (parse_args (tail args)) = Some (Some "..")) ∧
  (∃ e, build_argv_from_spec (plain_one <| sp_module := "" |> <| sp_test_case := "" |> <| sp_retry_dir := ".." |>) = Err e).
Proof. split; eexists; [split|]; vm_compute; reflexivity. Qed.
