(* ===== verification/Threads.v ===== *)
(** Threads that share a store: programs as trees of atomic actions, interleaved in any order, and
    the rules to reason about them while others act.

    An action runs at once; between two actions of one thread, those of others may happen.  An
    action may also wait ([None]: not yet), ask the environment (how an HTTP call ends, what a tool
    reports), or start a thread. *)

From S2P Require Import Prelude.

Section threads.
Context {W answer : Type}.

Inductive prog (A : Type) : Type :=
  | Return (r : result A)
  | Act {B : Type} (m : W → option (result B * W)) (k : result B → prog A)
  | Ask (k : answer → prog A)
  | Fork (t : prog unit) (k : prog A).
Arguments Return {A} _.
Arguments Act {A B} _ _.
Arguments Ask {A} _.
Arguments Fork {A} _ _.

(** Induction on a program, not on the threads it starts. *)
Lemma prog_main_ind {A} (P : prog A → Prop) :
  (∀ r, P (Return r)) → (∀ B (m : W → option (result B * W)) k, (∀ r, P (k r)) → P (Act m k)) →
  (∀ k, (∀ a, P (k a)) → P (Ask k)) → (∀ t k, P k → P (Fork t k)) → ∀ p, P p.
Proof.
  intros HR HA HK HF. fix IH 1. intros [r|B m k|k|t k];
  [apply HR|apply HA; intros r; apply IH|apply HK; intros a; apply IH|apply HF; apply IH].
Qed.

Fixpoint pbind {A B} (p : prog A) (f : A → prog B) : prog B :=
  match p with
  | Return (Ok a) => f a
  | Return (Err e) => Return (Err e)
  | Act m k => Act m (λ r, pbind (k r) f)
  | Ask k => Ask (λ a, pbind (k a) f)
  | Fork t k => Fork t (pbind k f)
  end.
#[export] Instance prog_ret : MRet prog := λ A a, Return (Ok a).
#[export] Instance prog_bind : MBind prog := λ A B f p, pbind p f.

(** What a program ends with, as a value. *)
Fixpoint attempt {A} (p : prog A) : prog (result A) :=
  match p with
  | Return r => Return (Ok r)
  | Act m k => Act m (λ r, attempt (k r))
  | Ask k => Ask (λ a, attempt (k a))
  | Fork t k => Fork t (attempt k)
  end.
Definition ptry {A} (p : prog A) (h : exn → prog A) : prog A :=
  attempt p ≫= λ r, match r with Ok a => mret a | Err e => h e end.
(** [try: ... finally: ...]. *)
Definition pfinally {A} (p : prog A) (f : prog unit) : prog A :=
  attempt p ≫= λ r, f ≫= λ _, Return r.
Definition act {A} (m : M W A) : prog A := Act (λ w, Some (m w)) Return.
(** Wait until the store has it. *)
Definition await {A} (f : W → option (result A)) : prog A := Act (λ w, (λ r, (r, w)) <$> f w) Return.
Definition ask {A} (f : answer → A) : prog A := Ask (λ a, Return (Ok (f a))).
Definition fork (t : prog unit) : prog unit := Fork t (Return (Ok tt)).
Definition praise {A} (e : exn) : prog A := Return (Err e).
Definition plift {A} (r : result A) : prog A := Return r.
Definition pwhen (b : bool) (p : prog unit) : prog unit := if b then p else mret tt.
Fixpoint pfor_each {A} (l : list A) (f : A → prog unit) : prog unit :=
  match l with
  | [] => mret tt
  | a :: l' => pbind (f a) (λ _, pfor_each l' f)
  end.

(** One step of a program, and the threads it starts. *)
Definition pstep {A} (p : prog A) (a : answer) (w : W) : option (prog A * W * list (prog unit)) :=
  match p with
  | Return _ => None
  | Act m k => match m w with Some (r, w') => Some (k r, w', []) | None => None end
  | Ask k => Some (k a, w, [])
  | Fork t k => Some (k, w, [t])
  end.

(** ** While others act

    [rely]: what others may do between two actions; [guar]: what each action does; [child]: what a
    started thread must satisfy. *)
Section wp.
Context (rely guar : relation W) (child : prog unit → W → Prop).

Fixpoint wp {A : Type} (p : prog A) (Q : result A → W → Prop) (w : W) : Prop :=
  match p with
  | Return r => ∀ w1, rely w w1 → Q r w1
  | Act m k => ∀ w1, rely w w1 →
      match m w1 with Some (r, w2) => guar w1 w2 ∧ wp (k r) Q w2 | None => True end
  | Ask k => ∀ a, wp (k a) Q w
  | Fork t k => (∀ w1, rely w w1 → child t w1) ∧ wp k Q w
  end.
Context `{!PreOrder rely}.

Lemma wp_stable {A} (p : prog A) Q w w' : rely w w' → wp p Q w → wp p Q w'.
Proof.
  induction p as [r|B m k IH|k IH|t k IH] using prog_main_ind; cbn; intros Hr Hp.
  - intros w1 H1. apply Hp. by etrans.
  - intros w1 H1. apply Hp. by etrans.
  - intros a. by apply IH.
  - destruct Hp as [Ht Hk]. split; [|by apply IH]. intros w1 H1. apply Ht. by etrans.
Qed.
Lemma wp_mono {A} (p : prog A) (Q Q' : result A → W → Prop) w :
  (∀ r w', Q r w' → Q' r w') → wp p Q w → wp p Q' w.
Proof.
  intros HQ. revert w. induction p as [r|B m k IH|k IH|t k IH] using prog_main_ind; cbn; intros w Hp.
  - intros w1 H1. by apply HQ, Hp.
  - intros w1 H1. specialize (Hp w1 H1). destruct (m w1) as [[r w2]|]; [|done].
    split; [apply Hp|]. by apply IH, Hp.
  - intros a. by apply IH.
  - split; [apply Hp|]. by apply IH, Hp.
Qed.
Lemma wp_bind {A B} (p : prog A) (f : A → prog B) (Q : result B → W → Prop) w :
  wp p (λ r w', match r with Ok a => wp (f a) Q w' | Err e => Q (Err e) w' end) w → wp (p ≫= f) Q w.
Proof.
  unfold mbind, prog_bind. revert w. induction p as [[a|e]|C m k IH|k IH|t k IH] using prog_main_ind; cbn [wp pbind]; intros w Hp.
  - by apply Hp.
  - done.
  - intros w1 H1. specialize (Hp w1 H1). destruct (m w1) as [[r w2]|]; [|done].
    split; [apply Hp|]. by apply IH, Hp.
  - intros a. by apply IH.
  - split; [apply Hp|]. by apply IH, Hp.
Qed.
Lemma wp_attempt {A} (p : prog A) (Q : result (result A) → W → Prop) w :
  wp p (λ r w', Q (Ok r) w') w → wp (attempt p) Q w.
Proof.
  revert w. induction p as [r|C m k IH|k IH|t k IH] using prog_main_ind; cbn; intros w Hp; [done| | |].
  - intros w1 H1. specialize (Hp w1 H1). destruct (m w1) as [[r w2]|]; [|done].
    split; [apply Hp|]. by apply IH, Hp.
  - intros a. by apply IH.
  - split; [apply Hp|]. by apply IH, Hp.
Qed.
End wp.

(** ** Programs all of whose actions are of one kind *)
Fixpoint each (R : relation W) {A : Type} (p : prog A) : Prop :=
  match p with
  | Return _ => True
  | Act m k => ∀ w r w', m w = Some (r, w') → R w w' ∧ each R (k r)
  | Ask k => ∀ a, each R (k a)
  | Fork t k => each R t ∧ each R k
  end.
Lemma each_bind R {A B} (p : prog A) (f : A → prog B) : each R p → (∀ a, each R (f a)) → each R (p ≫= f).
Proof.
  unfold mbind, prog_bind. intros Hp Hf. induction p as [[a|e]|C m k IH|k IH|t k IH] using prog_main_ind; cbn in *; [auto|done| |auto|].
  - intros w r w' E. destruct (Hp w r w' E). auto.
  - split; [apply Hp|apply IH, Hp].
Qed.
Lemma each_attempt R {A} (p : prog A) : each R p → each R (attempt p).
Proof.
  intros Hp. induction p as [r|C m k IH|k IH|t k IH] using prog_main_ind; cbn in *; [done| |auto|].
  - intros w r w' E. destruct (Hp w r w' E). auto.
  - split; [apply Hp|apply IH, Hp].
Qed.
Lemma each_ret R {A} (a : A) : each R (mret a : prog A).
Proof. done. Qed.
Lemma each_return R {A} (r : result A) : each R (Return r).
Proof. done. Qed.
Lemma each_raise R {A} e : each R (praise e : prog A).
Proof. done. Qed.
Lemma each_lift R {A} (r : result A) : each R (plift r).
Proof. done. Qed.
Lemma each_ask R {A} (f : answer → A) : each R (ask f).
Proof. by intros a. Qed.
Lemma each_fork R t : each R t → each R (fork t).
Proof. done. Qed.
Lemma each_try R {A} (p : prog A) h : each R p → (∀ e, each R (h e)) → each R (ptry p h).
Proof. intros Hp Hh. apply each_bind; [by apply each_attempt|]. intros [a|e]; [done|apply Hh]. Qed.
Lemma each_finally R {A} (p : prog A) f : each R p → each R f → each R (pfinally p f).
Proof. intros Hp Hf. apply each_bind; [by apply each_attempt|]. intros r. by apply each_bind. Qed.
Lemma each_when R b p : each R p → each R (pwhen b p).
Proof. by destruct b. Qed.
Lemma each_for_each R {A} (l : list A) f : (∀ a, each R (f a)) → each R (pfor_each l f).
Proof. intros Hf. induction l as [|a l IH]; [done|]. by apply (each_bind R (f a)). Qed.
Lemma each_act (R : relation W) {A} (m : M W A) : preserves R m → each R (act m).
Proof. intros Hm w r w' [= E]. split; [|done]. specialize (Hm w). by rewrite E in Hm. Qed.
Lemma each_await (R : relation W) `{!Reflexive R} {A} (f : W → option (result A)) : each R (await f).
Proof. intros w r w' E. split; [|done]. destruct (f w); [|done]. by injection E as _ <-. Qed.
Lemma each_mono (R R' : relation W) {A} (p : prog A) : (∀ w w', R w w' → R' w w') → each R p → each R' p.
Proof.
  revert R R'. induction p as [A r|A C m k IH|A k IH|A t IHt k IH]; cbn; intros R R' HR; [done| | |].
  - intros Hp w r w' E. destruct (Hp w r w' E). eauto.
  - intros Hp a. by eapply IH.
  - intros [Ht Hk]. split; [by eapply IHt|by eapply IH].
Qed.

(** A program of harmless actions keeps what harmless actions keep. *)
Lemma each_wp (rely guar R : relation W) (child : prog unit → W → Prop) `{!PreOrder rely} {A} (p : prog A)
    (P : W → Prop) w :
  (∀ w1 w2, P w1 → rely w1 w2 → P w2) →
  (∀ w1 w2, P w1 → R w1 w2 → guar w1 w2 ∧ P w2) → (∀ t w1, each R t → P w1 → child t w1) →
  each R p → P w → wp rely guar child p (λ _, P) w.
Proof.
  intros Hrely HR Hchild. revert w. induction p as [r|C m k IH|k IH|t k IH] using prog_main_ind; cbn; intros w Hp HP.
  - intros w1 H1. by eapply Hrely.
  - intros w1 H1. destruct (m w1) as [[r w2]|] eqn:E; [|done]. destruct (Hp w1 r w2 E) as [Hm Hk].
    destruct (HR w1 w2) as [Hg HP2]; [by eapply Hrely|done|]. split; [done|]. by apply IH.
  - intros a. by apply IH.
  - destruct Hp as [Ht Hk]. split; [|by apply IH]. intros w1 H1. apply Hchild; [done|]. by eapply Hrely.
Qed.

(** ** Obligations

    [pending c]: something remains to be done about [c].  A program settles [c] if on each of its
    paths some action leaves it done, or a thread that settles it is started, or the program ends in
    a way that [S] accepts.  A program is responsible if it settles whatever it makes pending. *)
Section obligations.
Context {K : Type} (pending : K → W → Prop).

Fixpoint settles (c : K) {A : Type} (p : prog A) (S : result A → Prop) : Prop :=
  match p with
  | Return r => S r
  | Act m k => ∀ w r w', m w = Some (r, w') → ¬ pending c w' ∨ settles c (k r) S
  | Ask k => ∀ a, settles c (k a) S
  | Fork t k => settles c t (λ _, False) ∨ settles c k S
  end.
Fixpoint responsible {A : Type} (p : prog A) (S : K → result A → Prop) : Prop :=
  match p with
  | Return _ => True
  | Act m k => ∀ w r w', m w = Some (r, w') →
      responsible (k r) S ∧ ∀ c, pending c w' → pending c w ∨ settles c (k r) (S c)
  | Ask k => ∀ a, responsible (k a) S
  | Fork t k => responsible t (λ _ _, False) ∧ responsible k S
  end.
Definition calm : relation W := λ w w', ∀ c, pending c w' → pending c w.
#[export] Instance calm_preorder : PreOrder calm.
Proof. split; unfold calm; [by intros w c|]. intros x y z H1 H2 c H. by apply H1, H2. Qed.

Lemma settles_mono c {A} (p : prog A) (S S' : result A → Prop) : (∀ r, S r → S' r) → settles c p S → settles c p S'.
Proof. intros HS. induction p as [r|B m k IH|k IH|t k IH] using prog_main_ind; cbn; naive_solver. Qed.
Lemma settles_any c {A} (p : prog A) (S : result A → Prop) : (∀ r, S r) → settles c p S.
Proof. intros HS. induction p as [r|B m k IH|k IH|t k IH] using prog_main_ind; cbn; eauto. Qed.
Lemma settles_bind c {A B} (p : prog A) (f : A → prog B) S :
  settles c p (λ r, match r with Ok a => settles c (f a) S | Err e => S (Err e) end) → settles c (p ≫= f) S.
Proof.
  unfold mbind, prog_bind. induction p as [[a|e]|C m k IH|k IH|t k IH] using prog_main_ind; cbn; naive_solver.
Qed.
Lemma settles_attempt c {A} (p : prog A) S : settles c p (λ r, S (Ok r)) → settles c (attempt p) S.
Proof. induction p as [r|C m k IH|k IH|t k IH] using prog_main_ind; cbn; naive_solver. Qed.
Lemma settles_try c {A} (p : prog A) h S :
  settles c p (λ r, match r with Ok a => S (Ok a) | Err e => settles c (h e) S end) → settles c (ptry p h) S.
Proof. intros Hp. apply settles_bind, settles_attempt. eapply settles_mono, Hp. by intros [a|e]. Qed.
Lemma settles_finally c {A} (p : prog A) f S : settles c p (λ _, False) → settles c (pfinally p f) S.
Proof. intros Hp. apply settles_bind, settles_attempt. by eapply settles_mono, Hp. Qed.
Lemma settles_act c {A} (m : M W A) S : (∀ w, ¬ pending c (m w).2 ∨ S (m w).1) → settles c (act m) S.
Proof. intros Hm w r w' [= E]. specialize (Hm w). by rewrite E in Hm. Qed.
Lemma settles_ask c {A} (f : answer → A) S : (∀ a, S (Ok (f a))) → settles c (ask f) S.
Proof. intros Hf a. apply Hf. Qed.

Lemma responsible_mono {A} (p : prog A) (S S' : K → result A → Prop) :
  (∀ c r, S c r → S' c r) → responsible p S → responsible p S'.
Proof.
  intros HS. induction p as [r|B m k IH|k IH|t k IH] using prog_main_ind; cbn; [done| | |].
  2:{ intros H a. by apply IH. }
  2:{ intros [H1 H2]. split; [done|by apply IH]. }
  intros H w r w' E. destruct (H w r w' E) as [H1 H2]. split; [by apply IH|]. intros c Hc.
  destruct (H2 c Hc) as [?|?]; [by left|right]. eapply settles_mono; [apply HS|done].
Qed.
Lemma responsible_bind {A B} (p : prog A) (f : A → prog B) S :
  responsible p (λ c r, match r with Ok a => settles c (f a) (S c) | Err e => S c (Err e) end) →
  (∀ a, responsible (f a) S) → responsible (p ≫= f) S.
Proof.
  unfold mbind, prog_bind. intros Hp Hf. induction p as [[a|e]|C m k IH|k IH|t k IH] using prog_main_ind; cbn in *; [done..| | |].
  - intros w r w' E. destruct (Hp w r w' E) as [H1 H2]. split; [by apply IH|]. intros c Hc.
    destruct (H2 c Hc) as [?|?]; [by left|right]. by apply (settles_bind c (k r) f).
  - intros a. apply IH, Hp.
  - split; [apply Hp|apply IH, Hp].
Qed.
Lemma responsible_attempt {A} (p : prog A) S : responsible p (λ c r, S c (Ok r)) → responsible (attempt p) S.
Proof.
  induction p as [r|C m k IH|k IH|t k IH] using prog_main_ind; cbn; intros Hp; [done| | |].
  - intros w r w' E. destruct (Hp w r w' E) as [H1 H2]. split; [by apply IH|]. intros c Hc.
    destruct (H2 c Hc) as [?|?]; [by left|right]. by apply settles_attempt.
  - intros a. apply IH, Hp.
  - split; [apply Hp|apply IH, Hp].
Qed.
Lemma responsible_try {A} (p : prog A) h S :
  responsible p (λ c r, match r with Ok a => S c (Ok a) | Err e => settles c (h e) (S c) end) →
  (∀ e, responsible (h e) S) → responsible (ptry p h) S.
Proof.
  intros Hp Hh. apply responsible_bind; [apply responsible_attempt|by intros [a|e]].
  eapply responsible_mono, Hp. by intros c [a|e].
Qed.
(** An obligation of the body is not one of the clean-up. *)
Lemma responsible_finally {A} (p : prog A) f S :
  responsible p (λ _ _, False) → responsible f (λ _ _, False) → responsible (pfinally p f) S.
Proof.
  intros Hp Hf. apply responsible_bind; [apply responsible_attempt; by eapply responsible_mono, Hp|].
  intros r. apply responsible_bind; [by eapply responsible_mono, Hf|done].
Qed.
Lemma responsible_act {A} (m : M W A) S :
  (∀ w c, pending c (m w).2 → pending c w ∨ S c (m w).1) → responsible (act m) S.
Proof. intros Hm w r w' [= E]. split; [done|]. intros c Hc. specialize (Hm w c). rewrite E in Hm. by apply Hm. Qed.
Lemma responsible_calm {A} (p : prog A) S : each calm p → responsible p S.
Proof.
  revert S. induction p as [A r|A C m k IH|A k IH|A t IHt k IH]; cbn; intros S Hp; [done| | |].
  - intros w r w' E. destruct (Hp w r w' E) as [Hc Hk]. split; [by apply IH|]. intros c H. left. by apply Hc.
  - intros a. by apply IH.
  - split; [by apply IHt, Hp|by apply IH, Hp].
Qed.
End obligations.

(** ** How a program may return *)
Fixpoint returns {A : Type} (p : prog A) (S : result A → Prop) : Prop :=
  match p with
  | Return r => S r
  | Act m k => ∀ w r w', m w = Some (r, w') → returns (k r) S
  | Ask k => ∀ a, returns (k a) S
  | Fork _ k => returns k S
  end.
Lemma returns_mono {A} (p : prog A) (S S' : result A → Prop) : (∀ r, S r → S' r) → returns p S → returns p S'.
Proof. intros HS. induction p as [r|B m k IH|k IH|t k IH] using prog_main_ind; cbn; eauto. Qed.
Lemma returns_any {A} (p : prog A) (S : result A → Prop) : (∀ r, S r) → returns p S.
Proof. intros HS. induction p as [r|B m k IH|k IH|t k IH] using prog_main_ind; cbn; eauto. Qed.
Lemma returns_bind {A B} (p : prog A) (f : A → prog B) S :
  returns p (λ r, match r with Ok a => returns (f a) S | Err e => S (Err e) end) → returns (p ≫= f) S.
Proof. unfold mbind, prog_bind. induction p as [[a|e]|C m k IH|k IH|t k IH] using prog_main_ind; cbn; eauto. Qed.
Lemma returns_attempt {A} (p : prog A) S : returns p (λ r, S (Ok r)) → returns (attempt p) S.
Proof. induction p as [r|C m k IH|k IH|t k IH] using prog_main_ind; cbn; eauto. Qed.
Lemma returns_skip {A B} (p : prog A) (f : A → prog B) S : (∀ a, returns (f a) S) → (∀ e, S (Err e)) → returns (p ≫= f) S.
Proof. intros Hf He. apply returns_bind, returns_any. intros [a|e]; [apply Hf|apply He]. Qed.
Lemma returns_act {A} (m : M W A) S : (∀ w, S (m w).1) → returns (act m) S.
Proof. intros Hm w r w' [= E]. specialize (Hm w). by rewrite E in Hm. Qed.
Lemma each_bind_returns R {A B} (p : prog A) (f : A → prog B) :
  each R p → returns p (λ r, match r with Ok a => each R (f a) | Err _ => True end) → each R (p ≫= f).
Proof.
  unfold mbind, prog_bind.
  induction p as [[a|e]|C m k IH|k IH|t k IH] using prog_main_ind; cbn; intros Hp Hr; [done|done| | |].
  - intros w r w' E. destruct (Hp w r w' E) as [HR Hk]. split; [done|]. apply IH; [done|]. by eapply Hr.
  - intros a. by apply IH.
  - destruct Hp as [Ht Hk]. split; [done|]. by apply IH.
Qed.
Lemma settles_returns {K} (pending : K → W → Prop) c {A B} (p : prog A) (f : A → prog B) S :
  returns p (λ r, match r with Ok a => settles pending c (f a) S | Err e => S (Err e) end) → settles pending c (p ≫= f) S.
Proof.
  intros Hp. apply settles_bind. induction p as [[a|e]|C m k IH|k IH|t k IH] using prog_main_ind; cbn in *; [done|done| |auto|].
  - intros w r w' E. right. apply IH. by eapply Hp.
  - right. by apply IH.
Qed.
End threads.
Arguments Return {W answer A} _.
Arguments Act {W answer A B} _ _.
Arguments Ask {W answer A} _.
Arguments Fork {W answer A} _ _.
Arguments prog : clear implicits.
