(* ===== verification/WorkerRuntime.v ===== *)
(** What a worker keeps across restarts ([worker_agent/runtime.py]): the commands it was given, the
    test processes it started, and the fences of its devices, next to the operating system's
    processes.

    A program here is one of the agent's threads; every connection to the worker's database is one
    action.  A wait for a process to end, with or without a limit, is one action: others act before
    it, and with a limit it may find the process still running.  Processes end when the environment
    ends them; the shell around a test writes its exit code to a file then.  Log files and the
    figures computed from them are left out. *)

From stdpp Require Import pretty.
From S2P Require Import Prelude Encodings ClusterState ExecutionSpec Threads.

Open Scope Z_scope.

(** ** Data *)

(** A command as the controller delivers it; an absent key of the payload is the empty text, the
    empty list, [false] or 0, as the code's [get] and [or] make it. *)
Record worker_payload := WorkerPayload {
  wp_lease_tokens : list lease_token;
  wp_devices : list string;
  wp_read_only : bool;
  wp_action : string;
  wp_worker_job_id : string;
  wp_execution_spec : option execution_spec;
  wp_argv : list string;
  wp_control_id : string;
  wp_target_command_id : string;
  wp_source_host : string;
  wp_busids : list string;
  wp_adb_server_socket : string;
  wp_generation : Z;
  wp_stage_id : string;
  wp_transfer_id : string;
}.
Record delivered := Delivered {
  dl_id : string;
  dl_command_type : string;
  dl_job_id : string;
  dl_attempt_id : string;
  dl_trace_id : string;
  dl_operation_id : string;
  dl_payload : worker_payload;
}.

(* src/worker_agent/runtime.py:65-69 WorkerRuntime._migrate_schema *)
Record local_command := LocalCommand {
  lc_id : string;
  lc_status : string;
  lc_result : command_result;
  lc_error : string;
  lc_synced : bool;
  lc_updated_at : Z;
}.
#[export] Instance local_command_eta : Eta local_command := λ r,
  LocalCommand (lc_id r) (lc_status r) (lc_result r) (lc_error r) (lc_synced r) (lc_updated_at r).
(* src/worker_agent/runtime.py:70-76 WorkerRuntime._migrate_schema *)
Record local_job := LocalJob {
  lj_worker_job_id : string;
  lj_job_id : string;
  lj_attempt_id : string;
  lj_pid : Z;
  lj_pgid : Z;
  lj_status : string;
  lj_devices : list string;
  lj_work_dir : string;
  lj_exit_code : option Z;
  lj_error : string;
  lj_command_id : string;
  lj_trace_id : string;
  lj_operation_id : string;
}.
#[export] Instance local_job_eta : Eta local_job := λ r,
  LocalJob (lj_worker_job_id r) (lj_job_id r) (lj_attempt_id r) (lj_pid r) (lj_pgid r) (lj_status r)
    (lj_devices r) (lj_work_dir r) (lj_exit_code r) (lj_error r) (lj_command_id r) (lj_trace_id r) (lj_operation_id r).
(* src/worker_agent/runtime.py:91-94 WorkerRuntime._migrate_schema *)
Record device_fence := DeviceFence {
  df_device_id : string;
  df_generation : Z;
  df_lease_id : string;
  df_attempt_id : string;
}.
#[export] Instance device_fence_eq_dec : EqDecision device_fence.
Proof. solve_decision. Defined.
(* src/worker_agent/runtime.py:95-110 WorkerRuntime._migrate_schema *)
Record usbip_assignment := UsbipAssignment {
  ua_source_host : string;
  ua_busid : string;
  ua_adb_server_socket : string;
  ua_generation : Z;
}.

(** The worker.  [ho_attached]: the processes this instance of the agent started, by worker job
    ([self._processes]); [ho_processes]: every process of a test, [None] while it runs;
    [ho_exit_codes]: the files the shell writes, by work directory; [ho_staging]: the directories of
    firmware and report transfers.

    Two histories: [ho_signals], the signals sent ([true]: SIGKILL), and [ho_started], the commands
    whose execution began, in order, and whether it was left to a thread. *)
(* src/worker_agent/runtime.py:40-49 WorkerRuntime.__init__ *)
Record host := Host {
  ho_commands : list local_command;
  ho_jobs : list local_job;
  ho_fences : list device_fence;
  ho_assignments : list usbip_assignment;
  ho_attached : list (string * Z);
  ho_processes : list (Z * option Z);
  ho_exit_codes : list (string * Z);
  ho_staging : list string;
  ho_signals : list (Z * bool);
  ho_started : list (delivered * bool);
  ho_restarts : nat;
  ho_recovered : bool;
  ho_clock : Z;
}.
#[export] Instance host_eta : Eta host := λ h,
  Host (ho_commands h) (ho_jobs h) (ho_fences h) (ho_assignments h) (ho_attached h) (ho_processes h)
    (ho_exit_codes h) (ho_staging h) (ho_signals h) (ho_started h) (ho_restarts h) (ho_recovered h) (ho_clock h).

(** What the environment answers when it is asked. *)
Inductive answer :=
  | Delivery (arrived : bool)                 (* whether the controller answered *)
  | Outcome (r : result command_result) (cancelled : bool)   (* what an operation came to *)
  | Heard (reply : option (list string * list string)).      (* the reply to a heartbeat *)
Definition arrived (a : answer) : bool := match a with Delivery b => b | _ => false end.
Definition outcome (a : answer) : result command_result * bool :=
  match a with Outcome r b => (r, b) | _ => (Err (RuntimeError "operation failed"), false) end.
Definition heard (a : answer) : option (list string * list string) := match a with Heard r => r | _ => None end.
Abbreviation program := (prog host answer).

Definition no_result : command_result := CommandResult "" [].
Definition terminal (s : string) : bool := mem s ["completed"; "failed"; "cancelled"].

(** ** USB/IP assignments *)

Definition assignment_is (source_host busid : string) (r : usbip_assignment) : bool :=
  streqb (ua_source_host r) source_host && streqb (ua_busid r) busid.
Definition named_busids (source_host : string) (busids : list string) : list string :=
  if nonempty (strip source_host) then filter (λ x, nonempty x = true) (strip <$> dedup busids) else [].
(** [INSERT ... ON CONFLICT DO UPDATE]. *)
Definition upsert {R} (hit : R → bool) (row : R) (f : R → R) (t : list R) : list R :=
  if exists_row hit t then update_where hit f t else t ++ [row].
(* src/worker_agent/runtime.py:121-148 WorkerRuntime.remember_usbip_assignments *)
Definition remember_usbip_assignments (source_host : string) (busids : list string) (socket : string)
    (generation : Z) : M host unit :=
  let generation := Z.max 0 generation in let source_host' := strip source_host in
  modify (λ h, h <| ho_assignments ::= λ t, foldl (λ t busid,
    upsert (assignment_is source_host' busid) (UsbipAssignment source_host' busid socket generation)
      (λ r, UsbipAssignment (ua_source_host r) (ua_busid r) socket generation) t) t (named_busids source_host busids) |>).
(* src/worker_agent/runtime.py:150-166 WorkerRuntime.forget_usbip_assignments *)
Definition forget_usbip_assignments (source_host : string) (busids : list string) : M host unit :=
  modify (λ h, h <| ho_assignments ::= λ t, foldl (λ t busid,
    delete_where (assignment_is (strip source_host) busid) t) t (named_busids source_host busids) |>).

(** ** Commands *)

Definition local_is (command_id : string) (r : local_command) : bool := streqb (lc_id r) command_id.
(* src/worker_agent/runtime.py:176-181 WorkerRuntime.previous_command *)
Definition previous_command (command_id : string) : M host (option local_command) :=
  gets (λ h, fetchone (local_is command_id) (ho_commands h)).
(* src/worker_agent/runtime.py:183-189 WorkerRuntime.save_command *)
Definition save_command (command_id status : string) (r : command_result) (error : string) : M host unit :=
  modify (λ h, h <| ho_commands ::=
    upsert (local_is command_id) (LocalCommand command_id status r error false (ho_clock h))
      (λ x, x <| lc_status := status |> <| lc_result := r |> <| lc_error := error |> <| lc_synced := false |>
              <| lc_updated_at := ho_clock h |>) |>).
(* src/worker_agent/runtime.py:191-195 WorkerRuntime.mark_command_synced *)
Definition mark_command_synced (command_id : string) : M host unit :=
  modify (λ h, h <| ho_commands ::= update_where (local_is command_id) (λ x, x <| lc_synced := true |>) |>).
(* src/worker_agent/runtime.py:197-204 WorkerRuntime.mark_commands_synced *)
Definition mark_commands_synced (command_ids : list string) : M host unit :=
  modify (λ h, h <| ho_commands ::= λ t,
    foldl (λ t i, update_where (local_is i) (λ x, x <| lc_synced := true |>) t) t command_ids |>).
Definition reported_first (a b : local_command) : bool :=
  Z.ltb (lc_updated_at a) (lc_updated_at b)
  || (Z.eqb (lc_updated_at a) (lc_updated_at b) && negb (String.ltb (lc_id b) (lc_id a))).
(* src/worker_agent/runtime.py:206-228 WorkerRuntime.unsynced_commands *)
Definition unsynced_commands : M host (list local_command) :=
  gets (λ h, take 200 (order_by reported_first (fetchall (λ r, negb (lc_synced r)) (ho_commands h)))).

(** ** Processes *)

Definition job_row (worker_job_id : string) (r : local_job) : bool := streqb (lj_worker_job_id r) worker_job_id.
Definition process_state (pid : Z) (h : host) : option (option Z) := snd <$> fetchone (λ x, Z.eqb x.1 pid) (ho_processes h).
(* src/worker_agent/runtime.py:746-757 WorkerRuntime.pid_alive *)
Definition pid_alive (pid : Z) (h : host) : bool := bool_decide (process_state pid h = Some None).
(** [os.killpg]; nobody there is no error to the callers. *)
Definition killpg (pgid : Z) (sigkill : bool) : M host unit := modify (λ h, h <| ho_signals ::= λ l, l ++ [(pgid, sigkill)] |>).
Definition attached (worker_job_id : string) (h : host) : option Z :=
  snd <$> fetchone (λ x, streqb x.1 worker_job_id) (ho_attached h).
Definition detach (worker_job_id : string) : M host unit :=
  modify (λ h, h <| ho_attached ::= delete_where (λ x, streqb x.1 worker_job_id) |>).
Definition not_attached : exn := ValueError "worker process is not attached to this agent instance".
Definition set_job (hit : local_job → bool) (f : local_job → local_job) : M host unit :=
  modify (λ h, h <| ho_jobs ::= update_where hit f |>).

(** ** Fencing *)

Definition fence_of (t : lease_token) : device_fence :=
  DeviceFence (tok_device_id t) (tok_generation t) (tok_lease_id t) (tok_attempt_id t).
Definition fence_on (device_id : string) (f : device_fence) : bool := streqb (df_device_id f) device_id.
Definition protected_types : list string :=
  ["start_test"; "device_action"; "flash_firmware"; "flash_gsi"; "device_export"; "usbip_detach"].

(** The jobs of an attempt that lost its devices are signalled and given up. *)
(* src/worker_agent/runtime.py:366-396 WorkerRuntime.revoke_attempt *)
Definition revoke_attempt (attempt_id reason : string) : program (list string) :=
  let running r := streqb (lj_attempt_id r) attempt_id && streqb (lj_status r) "running" in
  rows ← act (gets (λ h, fetchall running (ho_jobs h)));
  _ ← pfor_each rows (λ row,
    _ ← act (killpg (lj_pgid row) false);
    alive ← act (gets (pid_alive (lj_pid row)));
    pwhen alive (act (killpg (lj_pgid row) true)));
  _ ← act (set_job running (λ r, r <| lj_status := "cancelled" |> <| lj_error := reason |>));
  mret (lj_worker_job_id <$> rows).

Section runtime.
Context (worker_id data_root : string) (require_fencing : bool).

Definition qualified (device : string) : string :=
  let value := strip device in if startswith (worker_id +:+ ":") value then value else worker_id +:+ ":" +:+ value.
Definition requested_devices (c : delivered) : list string :=
  qualified <$> filter (λ x, nonempty (strip x) = true) (wp_devices (dl_payload c)).
(** Whether a command must show a fencing token for every device it names. *)
Definition needs_fencing (c : delivered) : bool :=
  require_fencing && mem (dl_command_type c) protected_types
  && negb (streqb (dl_command_type c) "device_action" && wp_read_only (dl_payload c))
  && negb (bool_decide (requested_devices c = [])).
Definition same_devices (a b : list string) : bool := forallb (λ x, mem x b) a && forallb (λ x, mem x a) b.
(** The loop over the tokens, in one transaction; what it collects are the attempts superseded. *)
(* src/worker_agent/runtime.py:260-303 WorkerRuntime.validate_fencing *)
Fixpoint admit_tokens (tokens : list lease_token) (t : list device_fence) (revoked : list string) :
    result (list device_fence * list string) :=
  match tokens with
  | [] => Ok (t, revoked)
  | tok :: tokens =>
      if negb (nonempty (tok_device_id tok) && nonempty (tok_lease_id tok) && nonempty (tok_attempt_id tok))
         || Z.leb (tok_generation tok) 0
      then Err (ValueError "invalid device fencing token")
      else
        let current := fetchone (fence_on (tok_device_id tok)) t in
        match current with
        | Some f =>
            if Z.ltb (tok_generation tok) (df_generation f)
               || (Z.eqb (tok_generation tok) (df_generation f)
                   && negb (streqb (df_lease_id f) (tok_lease_id tok) && streqb (df_attempt_id f) (tok_attempt_id tok)))
            then Err (ValueError ("stale fencing token for device " +:+ tok_device_id tok))
            else
              admit_tokens tokens (update_where (fence_on (tok_device_id tok)) (λ _, fence_of tok) t)
                (if Z.ltb (df_generation f) (tok_generation tok) then revoked ++ [df_attempt_id f] else revoked)
        | None => admit_tokens tokens (t ++ [fence_of tok]) revoked
        end
  end.
(** [revoked_attempts] is a set; its members are revoked in some order. *)
(* src/worker_agent/runtime.py:230-308 WorkerRuntime.validate_fencing *)
Definition validate_fencing (c : delivered) : program unit :=
  let tokens := wp_lease_tokens (dl_payload c) in
  if needs_fencing c && bool_decide (tokens = []) then
    praise (ValueError (dl_command_type c +:+ " requires a valid device fencing token"))
  else if needs_fencing c && negb (same_devices (tok_device_id <$> tokens) (requested_devices c)) then
    praise (ValueError "device fencing tokens do not match requested devices")
  else if bool_decide (tokens = []) then mret tt
  else
    revoked ← act (λ h,
      match admit_tokens tokens (ho_fences h) [] with
      | Ok (t, revoked) => (Ok (dedup revoked), h <| ho_fences := t |>)
      | Err e => (Err e, h)
      end);
    pfor_each revoked (λ attempt_id, pwhen (nonempty attempt_id)
      (_ ← revoke_attempt attempt_id "superseded by a newer device fencing generation"; mret tt)).
(* src/worker_agent/runtime.py:310-319 WorkerRuntime.check_current_fencing *)
Definition check_current_fencing (c : delivered) : M host unit :=
  ok ← gets (λ h, forallb (λ t, bool_decide (fetchone (fence_on (tok_device_id t)) (ho_fences h) = Some (fence_of t)))
                    (wp_lease_tokens (dl_payload c)));
  require ok (ValueError "device fencing changed during AOA; reconcile required").
(* src/worker_agent/runtime.py:321-343 WorkerRuntime.release_fencing *)
Definition release_fencing (c : delivered) : M host unit :=
  modify (λ h, h <| ho_fences ::= λ t,
    foldl (λ t tok, delete_where (λ f, bool_decide (f = fence_of tok)) t) t (wp_lease_tokens (dl_payload c)) |>).
(* src/worker_agent/runtime.py:345-353 WorkerRuntime.release_attempt_fencing *)
Definition release_attempt_fencing (attempt_id : string) : M host unit :=
  when (nonempty attempt_id)
    (modify (λ h, h <| ho_fences ::= delete_where (λ f, streqb (df_attempt_id f) attempt_id) |>)).
(* src/worker_agent/runtime.py:355-364 WorkerRuntime.prune_inactive_fences *)
Definition prune_inactive_fences : M host unit :=
  modify (λ h, h <| ho_fences ::= delete_where (λ f,
    negb (exists_row (λ r, streqb (lj_status r) "running" && streqb (lj_attempt_id r) (df_attempt_id f)) (ho_jobs h))) |>).

(** ** Recovery *)

Definition interrupted : string :=
  "Worker Agent restarted while the command was running; the operation was not resumed and device state must be verified".
Definition reconcile_result : command_result := CommandResult "" [("success", "false"); ("reconcile_required", "true")].
(** A command that ran without a test process cannot be resumed. *)
(* src/worker_agent/runtime.py:398-429 WorkerRuntime.fail_interrupted_commands *)
Definition fail_interrupted_commands : M host (list local_command) :=
  let managed h i := exists_row (λ r, mem (lj_status r) ["running"; "stopping"] && nonempty (lj_command_id r)
                                      && streqb (lj_command_id r) i) (ho_jobs h) in
  let lost h r := streqb (lc_status r) "running" && negb (managed h (lc_id r)) in
  rows ← gets (λ h, fetchall (lost h) (ho_commands h));
  _ ← modify (λ h, h <| ho_commands ::= update_where (lost h) (λ r,
        r <| lc_status := "failed" |> <| lc_error := interrupted |> <| lc_result := reconcile_result |>
          <| lc_synced := false |> <| lc_updated_at := ho_clock h |>) |>);
  mret rows.
(* src/worker_agent/runtime.py:431-451 WorkerRuntime.running_jobs *)
Definition running_jobs : M host (list local_job) := gets (λ h, fetchall (λ r, streqb (lj_status r) "running") (ho_jobs h)).
Definition exit_code_file (work_dir : string) (h : host) : option Z :=
  snd <$> fetchone (λ x, streqb x.1 work_dir) (ho_exit_codes h).
(** The jobs that still run or left an exit code; the others are over. *)
(* src/worker_agent/runtime.py:759-781 WorkerRuntime.recoverable_jobs *)
Definition recoverable_jobs : M host (list local_job) :=
  let open r := mem (lj_status r) ["running"; "stopping"] in
  let there h r := pid_alive (lj_pid r) h || bool_decide (is_Some (exit_code_file (lj_work_dir r) h)) in
  rows ← gets (λ h, fetchall (λ r, open r && there h r) (ho_jobs h));
  _ ← modify (λ h, h <| ho_jobs ::= update_where (λ r, open r && negb (there h r)) (λ r,
        if streqb (lj_status r) "stopping"
        then r <| lj_status := "cancelled" |> <| lj_error := "process stopped while Worker Agent was restarting" |>
        else r <| lj_status := "failed" |> <| lj_error := "process missing after agent restart" |>) |>);
  mret rows.
(** The job it was: identifier, status, exit code, work directory, command and attempt. *)
(* src/worker_agent/runtime.py:783-802 WorkerRuntime.finish_recovered_job *)
Definition finish_recovered_job (worker_job_id : string) : program (string * Z) :=
  row ← act (gets (λ h, fetchone (job_row worker_job_id) (ho_jobs h)));
  match row with
  | None => praise (ValueError "worker job not found")
  | Some r =>
      exit_code ← act (gets (λ h, default (-1) (exit_code_file (lj_work_dir r) h)));
      let status := if streqb (lj_status r) "stopping" then "cancelled"
                    else if Z.eqb exit_code 0 then "completed" else "failed" in
      _ ← act (set_job (job_row worker_job_id) (λ r,
            r <| lj_status := status |> <| lj_exit_code := Some exit_code |>
              <| lj_error := if mem status ["completed"; "cancelled"] then "" else "recovered process failed" |>));
      mret (status, exit_code)
  end.

(** ** Running a test *)

(** The controller's host and file system: whether a path is inside a suite root once resolved,
    whether it is a file, what is wrong with a module of a suite, and the directory a path is in. *)
Context (in_suite_roots is_file : string → bool) (module_error : string → string → option string).

Definition path_segment (field value : string) : result string :=
  let text := strip value in
  if nonempty text && Nat.leb (String.length text) 128 && all_chars (λ c, alnum c || has_char c "._-") text
     && negb (mem text ["."; ".."])
  then Ok text else Err (ValueError ("invalid " +:+ field +:+ " in start_test payload")).
Fixpoint option_value (name : string) (argv : list string) : string :=
  match argv with
  | x :: rest => match rest with y :: _ => if streqb x name then y else option_value name rest | [] => "" end
  | [] => ""
  end.
(* src/worker_agent/runtime.py:490-511 WorkerRuntime._validate_requested_module *)
Definition _validate_requested_module (argv : list string) : result unit :=
  match argv with
  | _ :: _ :: module :: _ =>
      if streqb (ascii_lower module) "retry" then Ok tt
      else
        let suite_tools_path := option_value "--test-suite" argv in
        if negb (nonempty suite_tools_path) then Ok tt
        else match module_error module suite_tools_path with
             | Some error => if nonempty error then Err (ValueError error) else Ok tt
             | None => Ok tt
             end
  | _ => Ok tt
  end.
(** The command line and the work directory of a test, if it may run. *)
(* src/worker_agent/runtime.py:513-563 WorkerRuntime.start_process *)
Definition launch_plan (c : delivered) : result (list string * string) :=
  let p := dl_payload c in
  let? argv := worker_argv (StartPayload (wp_execution_spec p) (wp_argv p) (wp_devices p)) in
  let executable := default "" (head argv) in
  if negb (in_suite_roots executable) then Err (ValueError "test executable is outside configured suite roots")
  else if negb (is_file executable) then Err (ValueError "test executable not found")
  else
    let? _x := _validate_requested_module argv in
    let? job_segment := path_segment "job_id" (str_or (dl_job_id c) (dl_id c)) in
    let? attempt_segment := path_segment "attempt_id" (str_or (dl_attempt_id c) "1") in
    Ok (argv, data_root +:+ "/jobs/" +:+ job_segment +:+ "/" +:+ attempt_segment).
Definition fresh_pid (h : host) : Z := foldr Z.max 0 (fst <$> ho_processes h) + 1.
Definition started (c : delivered) (thread : bool) : M host unit := modify (λ h, h <| ho_started ::= λ l, l ++ [(c, thread)] |>).
(** [subprocess.Popen]: the execution of the command begins here. *)
(* src/worker_agent/runtime.py:590-597 WorkerRuntime.start_process *)
Definition popen (c : delivered) : M host Z :=
  pid ← gets fresh_pid;
  _ ← modify (λ h, h <| ho_processes ::= λ l, l ++ [(pid, None)] |>);
  _ ← started c false;
  mret pid.
(** The environment answers whether the devices could be prepared, the process started and the row
    written. *)
(* src/worker_agent/runtime.py:513-625 WorkerRuntime.start_process *)
Definition start_process (c : delivered) : program command_result :=
  let p := dl_payload c in
  plan ← plift (launch_plan c);
  let work_dir := plan.2 in
  let worker_job_id := str_or (wp_worker_job_id p) ("wj-" +:+ dl_id c) in
  _ ← (if preparation_devices_ok worker_id (StartPayload (wp_execution_spec p) (wp_argv p) (wp_devices p)) then
         if match wp_execution_spec p with Some s => bool_decide (sp_preparations s ≠ []) | None => false end
         then prepared ← ask outcome; _ ← plift prepared.1; mret tt else mret tt
       else praise (ValueError "Preparation devices must match the fenced job devices"));
  spawned ← ask outcome;
  _ ← plift spawned.1;
  pid ← act (popen c);
  written ← ask outcome;
  _ ← ptry
    (_ ← act (modify (λ h, h <| ho_attached ::= λ l, delete_where (λ x, streqb x.1 worker_job_id) l ++ [(worker_job_id, pid)] |>));
     _ ← plift written.1;
     act (modify (λ h, h <| ho_jobs ::= λ t, delete_where (job_row worker_job_id) t ++
       [LocalJob worker_job_id (dl_job_id c) (dl_attempt_id c) pid pid "running" (wp_devices p) work_dir None ""
          (dl_id c) (dl_trace_id c) (dl_operation_id c)] |>)))
    (λ e, _ ← act (killpg pid true); _ ← act (detach worker_job_id); praise e);
  mret (CommandResult worker_job_id [("pid", pretty pid); ("work_dir", work_dir)]).
(** A process that outlives SIGKILL leaves the job running.  [0.1] seconds at least are waited, here
    any time. *)
(* src/worker_agent/runtime.py:646-716 WorkerRuntime.stop_process *)
Definition stop_process (worker_job_id : string) : program command_result :=
  let answer_with s := CommandResult worker_job_id [("status", s)] in
  row ← act (gets (λ h, fetchone (job_row worker_job_id) (ho_jobs h)));
  match row with
  | None => praise (ValueError "worker job not found")
  | Some r =>
      if negb (streqb (lj_status r) "running") then mret (answer_with (lj_status r))
      else
        process ← act (gets (attached worker_job_id));
        _ ← act (set_job (job_row worker_job_id) (λ r, r <| lj_status := "stopping" |>));
        _ ← act (killpg (lj_pgid r) false);
        let pid := default (lj_pid r) process in
        alive ← act (gets (pid_alive pid));
        _ ← pwhen alive
          (_ ← act (killpg (lj_pgid r) true);
           alive ← act (gets (pid_alive pid));
           pwhen alive
             (_ ← act (set_job (job_row worker_job_id) (λ r, r <| lj_status := "running" |>));
              praise (RuntimeError "worker process did not stop after SIGKILL")));
        exit_code ← act (gets (λ h, match process with Some pid => default None (process_state pid h) | None => None end));
        _ ← act (detach worker_job_id);
        _ ← act (set_job (job_row worker_job_id) (λ r, r <| lj_status := "cancelled" |> <| lj_exit_code := exit_code |>));
        mret (answer_with "cancelled")
  end.
(* src/worker_agent/runtime.py:718-737 WorkerRuntime.wait_process *)
Definition wait_process (worker_job_id : string) : program (string * Z) :=
  process ← act (gets (attached worker_job_id));
  match process with
  | None => praise not_attached
  | Some pid =>
      exit_code ← await (λ h, match process_state pid h with Some (Some rc) => Some (Ok rc) | _ => None end);
      status ← act (
        existing ← gets (λ h, lj_status <$> fetchone (job_row worker_job_id) (ho_jobs h));
        let status := if match existing with Some s => mem s ["stopping"; "cancelled"] | None => false end then "cancelled"
                      else if Z.eqb exit_code 0 then "completed" else "failed" in
        _ ← set_job (job_row worker_job_id) (λ r, r <| lj_status := status |> <| lj_exit_code := Some exit_code |>);
        mret status);
      _ ← act (detach worker_job_id);
      mret (status, exit_code)
  end.
(** [None]: the process runs. *)
(* src/worker_agent/runtime.py:739-744 WorkerRuntime.process_poll *)
Definition process_poll (worker_job_id : string) (h : host) : result (option Z) :=
  match attached worker_job_id h with
  | None => Err not_attached
  | Some pid => Ok (default None (process_state pid h))
  end.
End runtime.
