(* ===== verification/WorkerAgent.v ===== *)
(** The worker agent ([worker_agent/app.py]): the loop that polls the controller, the threads that
    execute long commands, the monitors of tests, and recovery after a restart.

    What an operation on devices, files or the network comes to is the environment's answer; so is
    whether an acknowledgement arrived.  The recovery of USB/IP attachments, suite scans, telemetry
    and log files are left out.  The log of a command is EventUpload. *)

From stdpp Require Import pretty.
From S2P Require Import Prelude Encodings ClusterState ExecutionSpec Threads WorkerRuntime.

Open Scope Z_scope.

Section agent.
Context (worker_id data_root : string) (require_fencing : bool).
Context (in_suite_roots is_file : string → bool) (module_error : string → string → option string).

(** The controller may not hear of it: the row stays unsynchronised then, and is reported again with
    a heartbeat. *)
(* src/worker_agent/app.py:338-361 WorkerAgent._ack_command *)
Definition _ack_command (command_id status : string) (r : command_result) (error : string) : program unit :=
  ok ← ask arrived;
  pwhen ok (act (mark_command_synced command_id)).
(** The end of a command: what happened is written down, then told. *)
Definition conclude (command_id status : string) (r : command_result) (error : string) : program unit :=
  _ ← act (save_command command_id status r error); _ack_command command_id status r error.
Definition device_action (c : delivered) : bool := streqb (dl_command_type c) "device_action".

(* src/worker_agent/app.py:293-336 WorkerAgent.heartbeat *)
Definition heartbeat : program unit :=
  command_states ← act unsynced_commands;
  response ← ask heard;
  match response with
  | None => praise (RuntimeError "controller is unreachable")
  | Some (revoked, reconciled) =>
      _ ← pfor_each revoked (λ attempt_id,
        _ ← revoke_attempt attempt_id "Controller revoked the expired or superseded device claim"; mret tt);
      act (mark_commands_synced reconciled)
  end.

(** ** Threads *)

(** A raised exception carries whether the user cancelled, and what the operation had reached. *)
(* src/worker_agent/app.py:610-681 WorkerAgent.run_slow_command *)
Definition run_slow_command (c : delivered) : program unit :=
  o ← ask outcome;
  let release := pwhen (device_action c) (act (release_fencing c)) in
  match o with
  | (Ok r, _) =>
      _ ← act (save_command (dl_id c) "completed" r ""); _ ← release; _ack_command (dl_id c) "completed" r ""
  | (Err e, cancelled) =>
      let r := if streqb (wp_action (dl_payload c)) "aoa_sequence" then reconcile_result else no_result in
      let status := if cancelled : bool then "cancelled" else "failed" in
      _ ← act (save_command (dl_id c) status r (exn_text e)); _ ← release; _ack_command (dl_id c) status r (exn_text e)
  end.
(* src/worker_agent/app.py:683-723 WorkerAgent.run_adb_proxy_command *)
Definition run_adb_proxy_command (c : delivered) : program unit :=
  o ← ask outcome;
  match o.1 with
  | Ok r =>
      _ ← pwhen (mem (wp_action (dl_payload c)) ["target_connect"; "target_disconnect"]) (ptry heartbeat (λ _, mret tt));
      conclude (dl_id c) "completed" r ""
  | Err e => conclude (dl_id c) "failed" no_result (exn_text e)
  end.
(** Progress is written as it is told, any number of times: [reports]. *)
(* src/worker_agent/app.py:895-913 WorkerAgent.run_suite_action *)
Definition run_suite_action (reports : list command_result) (c : delivered) : program unit :=
  _ ← pfor_each reports (λ progress, conclude (dl_id c) "running" progress "");
  o ← ask outcome;
  match o.1 with
  | Ok r => conclude (dl_id c) "completed" r ""
  | Err e => conclude (dl_id c) "failed" no_result (exn_text e)
  end.
(** [usbip_operation_lock] keeps two of these apart. *)
(* src/worker_agent/app.py:915-978 WorkerAgent.run_usbip_action *)
Definition run_usbip_action (c : delivered) : program unit :=
  let p := dl_payload c in
  pfinally
    (newer ← act (gets (λ h, exists_row (λ r, streqb (ua_source_host r) (wp_source_host p) && mem (ua_busid r) (wp_busids p)
                                           && Z.ltb (wp_generation p) (ua_generation r)) (ho_assignments h)));
     if newer : bool
     then conclude (dl_id c) "failed" (CommandResult "" [("error_code", "TRANSPORT_STALE_GENERATION")])
            "a newer USB/IP operation was accepted"
     else
       o ← ask outcome;
       match o.1 with
       | Ok r =>
           _ ← act (if streqb (dl_command_type c) "usbip_attach"
                    then remember_usbip_assignments (wp_source_host p) (wp_busids p) (wp_adb_server_socket p) (wp_generation p)
                    else forget_usbip_assignments (wp_source_host p) (wp_busids p));
           conclude (dl_id c) "completed" r ""
       | Err e => conclude (dl_id c) "failed" no_result (exn_text e)
       end)
    (act (release_fencing c)).
(** A transfer that keeps no fence, of a suite or a file. *)
(* src/worker_agent/app.py:1057-1077 WorkerAgent.run_suite_export *)
Definition run_transfer (c : delivered) : program unit :=
  o ← ask outcome;
  match o.1 with
  | Ok r => conclude (dl_id c) "completed" r ""
  | Err e => conclude (dl_id c) "failed" no_result (exn_text e)
  end.
(* src/worker_agent/app.py:1174-1200 WorkerAgent.run_device_export *)
Definition run_device_export (c : delivered) : program unit := pfinally (run_transfer c) (act (release_fencing c)).

(** [mkdir(exist_ok=False)], and the removal of a directory with what is in it. *)
Definition make_directory (name : string) (e : exn) : M host unit :=
  there ← gets (λ h, mem name (ho_staging h));
  _ ← require (negb there) e;
  modify (λ h, h <| ho_staging ::= λ l, l ++ [name] |>).
Definition remove_directory (name : string) : M host unit :=
  modify (λ h, h <| ho_staging ::= filter (λ x, x ≠ name) |>).
Definition hex_name (prefix s : string) : bool :=
  startswith prefix s && Nat.eqb (String.length (removeprefix prefix s)) 32
  && all_chars (λ a, has_char a "0123456789abcdef") (removeprefix prefix s).
(** Only the command that made the directory removes it. *)
(* src/worker_agent/app.py:1123-1172 WorkerAgent.run_report_import *)
Definition run_report_import (c : delivered) : program unit :=
  let transfer_id := wp_transfer_id (dl_payload c) in
  let failed e := conclude (dl_id c) "failed" no_result (exn_text e) in
  if negb (hex_name "transfer-" transfer_id) then failed (ValueError "invalid report copy transfer")
  else
    let directory := "report-copies/" +:+ transfer_id in
    owns ← attempt (act (make_directory directory (ValueError "report copy staging already owned by another command")));
    match owns with
    | Err e => failed e
    | Ok tt =>
        o ← ask outcome;
        _ ← match o.1 with Ok r => conclude (dl_id c) "completed" r "" | Err e => failed e end;
        act (remove_directory directory)
    end.
(** The outcome: what the flashing tool reported, or an exception of the preparation. *)
(* src/worker_agent/app.py:1202-1339 WorkerAgent.run_firmware_flash *)
Definition run_firmware_flash (c : delivered) : program unit :=
  let stage_id := wp_stage_id (dl_payload c) in
  let failed e := conclude (dl_id c) "failed" no_result (exn_text e) in
  if negb (hex_name "fw-" stage_id)
  then pfinally (failed (ValueError "invalid firmware staging id")) (act (release_fencing c))
  else
    let directory := "firmware/" +:+ stage_id in
    pfinally
      (made ← attempt (act (make_directory directory (RuntimeError "File exists")));
       match made with
       | Err e => failed e
       | Ok tt =>
           o ← ask outcome;
           match o.1 with
           | Ok r =>
               let status := if existsb (λ x, streqb x.1 "success" && streqb x.2 "true") (cr_rest r) then "completed" else "failed" in
               conclude (dl_id c) status r (if streqb status "completed" then "" else "firmware flash failed")
           | Err e => failed e
           end
       end)
      (_ ← act (release_fencing c); act (remove_directory directory)).
Definition job_result (worker_job_id status : string) (exit_code : Z) : command_result :=
  CommandResult worker_job_id [("status", status); ("exit_code", pretty exit_code)].
(** The loop that uploads the log while the test runs, [while process_poll is None], is one wait:
    it ends when the process did, or when somebody detached it.  The uploads after it may raise. *)
(* src/worker_agent/app.py:802-893 WorkerAgent.monitor_job *)
Definition monitor_job (command_id worker_job_id : string) : program unit :=
  row ← act (gets (λ h, fetchone (job_row worker_job_id) (ho_jobs h)));
  let body :=
    _ ← match row with
         | Some _ => await (λ h, match process_poll worker_job_id h with
                                 | Ok None => None | Ok (Some _) => Some (Ok tt) | Err e => Some (Err e) end)
         | None => mret tt
         end;
    result ← wait_process worker_job_id;
    let '(status, exit_code) := result in
    _ ← match row with Some _ => o ← ask outcome; _ ← plift o.1; mret tt | None => mret tt end;
    conclude command_id status (job_result worker_job_id status exit_code)
      (if mem status ["completed"; "cancelled"] then "" else "process exited with " +:+ pretty exit_code) in
  pfinally (ptry body (λ e, conclude command_id "failed" no_result (exn_text e)))
    (match row with Some r => act (release_attempt_fencing (lj_attempt_id r)) | None => mret tt end).
(* src/worker_agent/app.py:1601-1636 WorkerAgent._finish_recovered_job *)
Definition _finish_recovered_job (job : local_job) : program (string * command_result * string) :=
  _ ← await (λ h, if pid_alive (lj_pid job) h then None else Some (Ok tt));
  result ← finish_recovered_job (lj_worker_job_id job);
  o ← ask outcome;
  _ ← plift o.1;
  mret (result.1, job_result (lj_worker_job_id job) result.1 result.2,
        if streqb result.1 "completed" then "" else "recovered process exited with " +:+ pretty result.2).
(* src/worker_agent/app.py:1581-1599 WorkerAgent.monitor_recovered_job *)
Definition monitor_recovered_job (job : local_job) : program unit :=
  r ← attempt (_finish_recovered_job job);
  let '(status, result, error) :=
    match r with Ok x => x | Err e => ("failed", no_result, "recovered job monitor crashed: " +:+ exn_text e) end in
  _ ← conclude (lj_command_id job) status result error;
  act (release_attempt_fencing (lj_attempt_id job)).

(** ** The loop *)

(** The thread a command is left to, with the reports it will make. *)
(* src/worker_agent/app.py:398-517 WorkerAgent.handle *)
Definition background (c : delivered) (reports : list command_result) : option (program unit) :=
  let kind := dl_command_type c in
  if mem kind ["device_action"; "connect_vpn"] then Some (run_slow_command c)
  else if streqb kind "adb_proxy" then Some (run_adb_proxy_command c)
  else if mem kind ["usbip_attach"; "usbip_detach"] then Some (run_usbip_action c)
  else if streqb kind "suite_action" && mem (wp_action (dl_payload c)) ["download_url"; "extract"]
  then Some (run_suite_action reports c)
  else if mem kind ["suite_export"; "file_transfer"] then Some (run_transfer c)
  else if streqb kind "report_import" then Some (run_report_import c)
  else if streqb kind "device_export" then Some (run_device_export c)
  else if mem kind ["flash_firmware"; "flash_gsi"] then Some (run_firmware_flash c)
  else None.
(** The kinds the loop executes itself, apart from tests. *)
Definition inline_kinds : list string :=
  ["refresh_devices"; "refresh_suites"; "usbip_preflight"; "suite_action"; "file_browse"; "stop_test"; "aoa_playback_control";
   "restart_vnc"; "check_vpn"; "list_vpn_connections"; "get_config"; "update_config"].
(** A playback that is over is not controlled any more; otherwise the environment answers. *)
(* src/worker_agent/app.py:398-573 WorkerAgent.handle *)
Definition inline (c : delivered) : program command_result :=
  let p := dl_payload c in
  if streqb (dl_command_type c) "stop_test" then stop_process (wp_worker_job_id p)
  else if streqb (dl_command_type c) "aoa_playback_control" then
    if negb (nonempty (wp_control_id p)) then praise (ValueError "aoa_playback_control requires control_id")
    else
      target ← act (previous_command (wp_target_command_id p));
      if match target with Some t => terminal (lc_status t) | None => false end
      then mret (CommandResult "" [("finished", "true")])
      else o ← ask outcome; plift o.1
  else o ← ask outcome; plift o.1.
(** A command is executed when it is seen for the first time; later deliveries are answered with what
    is known of it. *)
(* src/worker_agent/app.py:381-608 WorkerAgent.handle *)
Definition handle (c : delivered) (reports : list command_result) : program unit :=
  let id := dl_id c in
  let release := pwhen (device_action c) (act (release_fencing c)) in
  previous ← act (previous_command id);
  match previous with
  | Some p =>
      _ ← pwhen (device_action c && mem (lc_status p) ["completed"; "failed"]) (act (release_fencing c));
      _ack_command id (lc_status p) (lc_result p) (lc_error p)
  | None =>
      ptry
        (_ ← validate_fencing worker_id require_fencing c;
         match background c reports with
         | Some thread =>
             _ ← conclude id "running" no_result "";
             _ ← act (started c true);
             fork thread
         | None =>
             if streqb (dl_command_type c) "start_test" then
               result ← start_process worker_id data_root in_suite_roots is_file module_error c;
               _ ← conclude id "running" result "";
               fork (monitor_job id (cr_worker_job_id result))
             else if streqb (dl_command_type c) "uninstall_agent" then
               _ ← conclude id "completed" (CommandResult "" [("stopping", "true"); ("removed_data", "false")]) "";
               _ ← act (started c true);
               fork (mret tt)
             else if mem (dl_command_type c) inline_kinds then
               _ ← act (started c false);
               result ← inline c;
               _ ← act (save_command id "completed" result "");
               _ ← release;
               _ack_command id "completed" result ""
             else praise (ValueError ("unsupported command type: " +:+ dl_command_type c))
         end)
        (λ e,
          _ ← act (save_command id "failed" no_result (exn_text e));
          _ ← release;
          _ack_command id "failed" no_result (exn_text e))
  end.
(** What the loop does first, once. *)
Definition resume (jobs : list local_job) : program unit :=
  items ← act fail_interrupted_commands;
  _ ← pfor_each items (λ r, _ack_command (lc_id r) "failed" reconcile_result interrupted);
  _ ← pfor_each jobs (λ job, fork (monitor_recovered_job job));
  act (modify (λ h, h <| ho_recovered := true |>)).
(* src/worker_agent/app.py:1543-1568 WorkerAgent.run *)
Definition recover : program unit := jobs ← act recoverable_jobs; resume jobs.

(** ** The machine *)

Record agent := Agent { ag_host : host; ag_main : program unit; ag_threads : list (program unit) }.
#[export] Instance agent_eta : Eta agent := λ g, Agent (ag_host g) (ag_main g) (ag_threads g).
(** [MainTurn]: the loop goes on to its next turn; an exception of the last one is forgotten.
    [ProcessEnds pid rc written]: a test ends, and the shell writes its exit code unless it was
    killed, too. *)
Inductive move :=
  | MainTurn (work : option (delivered * list command_result))   (* a command that was polled, or a heartbeat *)
  | MainStep (a : answer)
  | ThreadStep (i : nat) (a : answer)
  | ProcessEnds (pid rc : Z) (written : bool)
  | ClockTicks (t : Z)
  | AgentRestarts.
Definition idle : program unit := Return (Ok tt).
(** A restart loses the threads; tests go on, and the fences of attempts without a running test go. *)
(* src/worker_agent/app.py:207-218 WorkerAgent.__init__ *)
Definition restarted (h : host) : host :=
  (prune_inactive_fences h).2 <| ho_attached := [] |> <| ho_recovered := false |> <| ho_restarts ::= S |>.
Definition work_dir_of (pid : Z) (h : host) : option string :=
  lj_work_dir <$> fetchone (λ r, Z.eqb (lj_pid r) pid) (ho_jobs h).
Definition process_ends (pid rc : Z) (written : bool) (h : host) : host :=
  if pid_alive pid h then
    let h' := h <| ho_processes ::= update_where (λ x, Z.eqb x.1 pid) (λ x, (x.1, Some rc)) |> in
    match work_dir_of pid h with
    | Some d => if written then h' <| ho_exit_codes ::= λ l, delete_where (λ x, streqb x.1 d) l ++ [(d, rc)] |> else h'
    | None => h'
    end
  else h.
(* src/worker_agent/app.py:1543-1579 WorkerAgent.run *)
Definition turn (work : option (delivered * list command_result)) (h : host) : program unit :=
  if negb (ho_recovered h) then recover
  else match work with Some (c, reports) => handle c reports | None => heartbeat end.
Definition step (m : move) (g : agent) : agent :=
  match m with
  | MainTurn work => match ag_main g with Return _ => g <| ag_main := turn work (ag_host g) |> | _ => g end
  | MainStep a =>
      match pstep (ag_main g) a (ag_host g) with
      | Some (p, h, ts) => Agent h p (ag_threads g ++ ts)
      | None => g
      end
  | ThreadStep i a =>
      match ag_threads g !! i with
      | None => g
      | Some t =>
          match pstep t a (ag_host g) with
          | Some (p, h, ts) => Agent h (ag_main g) (<[i := p]> (ag_threads g) ++ ts)
          | None => g
          end
      end
  | ProcessEnds pid rc written => g <| ag_host ::= process_ends pid rc written |>
  | ClockTicks t => g <| ag_host ::= λ h, h <| ho_clock := Z.max t (ho_clock h) |> |>
  | AgentRestarts => Agent (restarted (ag_host g)) idle []
  end.
(* src/worker_agent/app.py:1543-1579 WorkerAgent.run *)
Definition history (l : list move) (g : agent) : agent := foldl (λ g m, step m g) g l.
Definition empty_host : host := Host [] [] [] [] [] [] [] [] [] [] 0 false 0.
Definition new_agent : agent := Agent empty_host idle [].
End agent.
