(* ===== verification/WorkerAgentProperties.v ===== *)
(** What the worker agent guarantees whatever its threads' interleaving, however often it is
    restarted, and whatever tools and the network answer: commands are executed once, on devices that
    are the command's own, and each of them comes to an end. *)

From stdpp Require Import pretty.
From S2P Require Import Prelude Encodings ClusterState ExecutionSpec Threads WorkerRuntime WorkerAgent.

Open Scope Z_scope.

(** ** What an action does to the table of commands *)

Definition known (i : string) (h : host) : Prop := ∃ r, r ∈ ho_commands h ∧ lc_id r = i.
Definition running (i : string) (h : host) : Prop := ∃ r, r ∈ ho_commands h ∧ lc_id r = i ∧ lc_status r = "running".
Abbreviation quiet := (calm running).

Lemma elem_of_upsert {R} (hit : R → bool) row f (t : list R) x :
  x ∈ upsert hit row f t → (∃ y, y ∈ t ∧ hit y = true ∧ x = f y) ∨ (x ∈ t ∧ hit x = false) ∨ x = row.
Proof.
  unfold upsert. destruct (exists_row hit t) eqn:E.
  - intros (y&Hy&->)%elem_of_update_where. destruct (hit y) eqn:Ey; [left; by eexists|by right; left].
  - intros [Hx| ->%list_elem_of_singleton]%elem_of_app; [|by do 2 right]. right. left. split; [done|].
    by apply (proj1 (exists_row_false hit t)).
Qed.
Lemma save_running i st r e h j : running j (save_command i st r e h).2 → (j = i ∧ st = "running") ∨ (j ≠ i ∧ running j h).
Proof.
  intros (x&[(y&Hy&Hh&->)|[[Hx Hh]| ->]]%elem_of_upsert&Hi&Hs); cbn in Hi, Hs; unfold local_is in *; bool_props; subst.
  - by left.
  - right. split; [done|]. by exists x.
  - by left.
Qed.
Lemma upsert_keeps {R} (hit : R → bool) row f (t : list R) x : x ∈ t → x ∈ upsert hit row f t ∨ f x ∈ upsert hit row f t.
Proof.
  intros Hx. unfold upsert. destruct (exists_row hit t).
  - destruct (hit x) eqn:E; [right; by apply elem_of_update_where_hit|left; by apply elem_of_update_where_keep].
  - left. apply elem_of_app. by left.
Qed.
Lemma upsert_hits {R} (hit : R → bool) row f (t : list R) :
  row ∈ upsert hit row f t ∨ ∃ x, hit x = true ∧ f x ∈ upsert hit row f t.
Proof.
  unfold upsert. destruct (exists_row hit t) eqn:E.
  - apply exists_row_true in E as (x&Hx&E). right. exists x. split; [done|]. by apply elem_of_update_where_hit.
  - left. apply elem_of_app. right. left.
Qed.
Lemma save_known i st r e h j : known j h → known j (save_command i st r e h).2.
Proof. intros (x&Hx&<-). eapply (upsert_keeps (local_is i)) in Hx as [Hx|Hx]; eexists; (split; [exact Hx|done]). Qed.
Lemma save_knows i st r e h : known i (save_command i st r e h).2.
Proof.
  edestruct (upsert_hits (local_is i)) as [Hx|(x&E&Hx)]; eexists; (split; [exact Hx|]); [done|].
  unfold local_is in E. by bool_props.
Qed.
(** Statements that keep identifiers and start nothing. *)
Lemma update_known (hit : local_command → bool) f (t : list local_command) i :
  (∀ r, lc_id (f r) = lc_id r) → (∃ r, r ∈ t ∧ lc_id r = i) → ∃ r, r ∈ update_where hit f t ∧ lc_id r = i.
Proof.
  intros Hf (r&Hr&<-). destruct (hit r) eqn:E.
  - exists (f r). split; [by apply elem_of_update_where_hit|apply Hf].
  - exists r. split; [by apply elem_of_update_where_keep|done].
Qed.
Lemma update_running (hit : local_command → bool) f (t : list local_command) i :
  (∀ r, lc_id (f r) = lc_id r ∧ (lc_status (f r) = "running" → lc_status r = "running")) →
  (∃ r, r ∈ update_where hit f t ∧ lc_id r = i ∧ lc_status r = "running") → ∃ r, r ∈ t ∧ lc_id r = i ∧ lc_status r = "running".
Proof.
  intros Hf (x&(y&Hy&->)%elem_of_update_where&Hi&Hs). exists y. destruct (hit y); [|done].
  destruct (Hf y) as [E Hst]. rewrite E in Hi. auto.
Qed.

(** What anything but the loop does: it starts no command, forgets none, and only gives fences up. *)
Record harmless (h h' : host) : Prop := {
  hl_started : ho_started h' = ho_started h;
  hl_restarts : ho_restarts h' = ho_restarts h;
  hl_known : ∀ i, known i h → known i h';
  hl_fences : ∀ f, f ∈ ho_fences h' → f ∈ ho_fences h;
}.
#[export] Instance harmless_preorder : PreOrder harmless.
Proof.
  split; [by split|]. intros x y z [] []. split; [congruence|congruence|auto|auto].
Qed.
Lemma harmless_frame (f : host → host) :
  (∀ h, ho_started (f h) = ho_started h ∧ ho_restarts (f h) = ho_restarts h ∧ ho_commands (f h) = ho_commands h ∧
        ho_fences (f h) = ho_fences h) → preserves harmless (modify f).
Proof.
  intros Hf h. destruct (Hf h) as (H1&H2&H3&H4). unfold modify, snd. split; [done|done| |by rewrite H4].
  intros i (r&Hr&E). exists r. by rewrite H3.
Qed.
Lemma quiet_frame (f : host → host) : (∀ h, ho_commands (f h) = ho_commands h) → preserves quiet (modify f).
Proof. intros Hf h i (r&Hr&E). exists r. by rewrite <-(Hf h). Qed.

Lemma save_harmless i st r e : preserves harmless (save_command i st r e).
Proof. intros h. split; [done|done| |done]. intros j. apply save_known. Qed.
Lemma save_quiet i st r e : st ≠ "running" → preserves quiet (save_command i st r e).
Proof. intros Hs h j [[_ ?]|[_ ?]]%save_running; done. Qed.
Lemma synced_harmless i : preserves harmless (mark_command_synced i).
Proof. intros h. split; [done|done| |done]. intros j. by apply update_known. Qed.
Lemma synced_quiet i : preserves quiet (mark_command_synced i).
Proof. intros h j. by apply update_running. Qed.
Lemma all_synced_harmless l : preserves harmless (mark_commands_synced l).
Proof.
  intros h. split; [done|done| |done]. intros j. unfold known. cbn.
  generalize (ho_commands h). induction l as [|i l IH]; [done|]. intros t Ht. cbn. by apply IH, update_known.
Qed.
Lemma all_synced_quiet l : preserves quiet (mark_commands_synced l).
Proof.
  intros h j. unfold running. cbn. generalize (ho_commands h). induction l as [|i l IH]; [done|]. intros t Ht%IH.
  eapply update_running, Ht. done.
Qed.
Lemma interrupted_harmless : preserves harmless fail_interrupted_commands.
Proof. intros h. split; [done|done| |done]. intros j. by apply update_known. Qed.
Lemma recoverable_harmless : preserves harmless recoverable_jobs.
Proof. intros h. by split. Qed.
Lemma recoverable_quiet : preserves quiet recoverable_jobs.
Proof. intros h i (r&Hr). by exists r. Qed.
Lemma release_subset c h f : f ∈ ho_fences (release_fencing c h).2 → f ∈ ho_fences h.
Proof.
  cbn. generalize (ho_fences h). induction (wp_lease_tokens _) as [|tok l IH]; [done|]. intros t Hf%IH.
  by apply elem_of_delete_where in Hf as [? _].
Qed.
Lemma release_harmless c : preserves harmless (release_fencing c).
Proof. intros h. split; [done|done|by intros i (r&Hr); exists r|]. intros f. apply release_subset. Qed.
Lemma release_quiet c : preserves quiet (release_fencing c).
Proof. by apply quiet_frame. Qed.
Lemma release_attempt_harmless a : preserves harmless (release_attempt_fencing a).
Proof.
  intros h. unfold release_attempt_fencing. destruct (nonempty a); [|by split].
  split; [done|done|by intros i (r&Hr); exists r|]. cbn. by intros f [? _]%elem_of_delete_where.
Qed.
Lemma release_attempt_quiet a : preserves quiet (release_attempt_fencing a).
Proof. unfold release_attempt_fencing. intros h. destruct (nonempty a); [|done]. by intros i (r&Hr); exists r. Qed.
#[local] Hint Resolve save_harmless synced_harmless all_synced_harmless interrupted_harmless recoverable_harmless
  release_harmless release_attempt_harmless synced_quiet all_synced_quiet recoverable_quiet release_quiet
  release_attempt_quiet : gms.

(** Walk through a program. *)
Ltac each_leaf :=
  lazymatch goal with
  | |- preserves harmless (modify _) => apply harmless_frame; intros ?; split_and!; reflexivity
  | |- preserves quiet (modify _) => apply quiet_frame; intros ?; reflexivity
  | |- preserves quiet (save_command _ _ _ _) => apply save_quiet; done
  | |- preserves _ (gets _) => apply preserves_gets; apply _
  | |- preserves _ (mret _) => apply preserves_ret; apply _
  | |- preserves _ (require _ _) => apply preserves_require; apply _
  | |- preserves _ _ => first [solve [eauto with gms] | apply preserves_bind; [apply _| |intros ?]]
  end.
Ltac each_step :=
  first
  [ progress cbv zeta
  | lazymatch goal with
    | |- each _ (act _) => apply each_act
    | |- each _ (_ ≫= _) => apply each_bind; [|intros ?]
    | |- each _ (ptry _ _) => apply each_try; [|intros ?]
    | |- each _ (pfinally _ _) => apply each_finally
    | |- each _ (attempt _) => apply each_attempt
    | |- each _ (pwhen _ _) => apply each_when
    | |- each _ (pfor_each _ _) => apply each_for_each; intros ?
    | |- each _ (ask _) => apply each_ask
    | |- each _ (await _) => apply each_await; apply _
    | |- each _ (plift _) => exact I
    | |- each _ (praise _) => exact I
    | |- each _ (Return _) => exact I
    | |- each _ (mret _) => exact I
    | |- each _ (fork _) => split; [|exact I]
    | |- each _ (if ?b then _ else _) => destruct b
    | |- each _ (match ?x with _ => _ end) => destruct x
    end
  | each_leaf ].
Ltac each_walk := repeat each_step.

Lemma killpg_harmless pgid b : preserves harmless (killpg pgid b).
Proof. by apply harmless_frame. Qed.
Lemma detach_harmless i : preserves harmless (detach i).
Proof. by apply harmless_frame. Qed.
Lemma set_job_harmless hit f : preserves harmless (set_job hit f).
Proof. by apply harmless_frame. Qed.
Lemma killpg_quiet pgid b : preserves quiet (killpg pgid b).
Proof. by apply quiet_frame. Qed.
Lemma detach_quiet i : preserves quiet (detach i).
Proof. by apply quiet_frame. Qed.
Lemma set_job_quiet hit f : preserves quiet (set_job hit f).
Proof. by apply quiet_frame. Qed.
#[local] Hint Resolve killpg_harmless detach_harmless set_job_harmless killpg_quiet detach_quiet set_job_quiet : gms.
Lemma ack_harmless i s r e : each harmless (_ack_command i s r e).
Proof. unfold _ack_command. each_walk. Qed.
Lemma ack_quiet i s r e : each quiet (_ack_command i s r e).
Proof. unfold _ack_command. each_walk. Qed.
Lemma revoke_harmless a reason : each harmless (revoke_attempt a reason).
Proof. unfold revoke_attempt. each_walk. Qed.
Lemma revoke_quiet a reason : each quiet (revoke_attempt a reason).
Proof. unfold revoke_attempt. each_walk. Qed.
#[local] Hint Resolve ack_harmless ack_quiet revoke_harmless revoke_quiet : gms.

(** ** Threads are harmless *)

Lemma conclude_harmless i s r e : each harmless (conclude i s r e).
Proof. unfold conclude. each_walk. apply ack_harmless. Qed.
Lemma heartbeat_harmless : each harmless heartbeat.
Proof. unfold heartbeat, unsynced_commands. each_walk. apply revoke_harmless. Qed.
#[local] Hint Resolve conclude_harmless heartbeat_harmless : gms.
Lemma remember_harmless a b c d : preserves harmless (remember_usbip_assignments a b c d).
Proof. by apply harmless_frame. Qed.
Lemma forget_harmless a b : preserves harmless (forget_usbip_assignments a b).
Proof. by apply harmless_frame. Qed.
Lemma remove_directory_harmless d : preserves harmless (remove_directory d).
Proof. by apply harmless_frame. Qed.
Lemma make_directory_harmless d e : preserves harmless (make_directory d e).
Proof.
  unfold make_directory. apply preserves_bind; [apply _|apply preserves_gets, _|intros there].
  apply preserves_bind; [apply _|apply preserves_require, _|intros _]. by apply harmless_frame.
Qed.
#[local] Hint Resolve remember_harmless forget_harmless remove_directory_harmless make_directory_harmless : gms.
Lemma background_harmless c reports t : background c reports = Some t → each harmless t.
Proof.
  unfold background. intros E. repeat (case_match; [injection E as <-|]); [..|done];
    unfold run_slow_command, run_adb_proxy_command, run_usbip_action, run_suite_action, run_device_export, run_transfer,
      run_report_import, run_firmware_flash; each_walk; eauto with gms.
  case_match; auto with gms.
Qed.
Lemma wait_harmless wj : each harmless (wait_process wj).
Proof. unfold wait_process. each_walk. Qed.
Lemma monitor_harmless i wj : each harmless (monitor_job i wj).
Proof. unfold monitor_job. each_walk; eauto with gms. apply wait_harmless. Qed.
Lemma monitor_recovered_harmless job : each harmless (monitor_recovered_job job).
Proof. unfold monitor_recovered_job, _finish_recovered_job, finish_recovered_job. each_walk; eauto with gms. Qed.
Lemma recover_harmless : each harmless recover.
Proof. unfold recover, resume. each_walk; eauto using monitor_recovered_harmless with gms. Qed.

(** ** The loop *)

(** How often the execution of a command began; left to a thread. *)
Definition times (i : string) (h : host) : nat := length (fetchall (λ x, streqb (dl_id x.1) i) (ho_started h)).
Definition thread_times (i : string) (h : host) : nat :=
  length (fetchall (λ x, streqb (dl_id x.1) i && x.2) (ho_started h)).
Definition one_fence (h : host) : Prop :=
  ∀ f f', f ∈ ho_fences h → f' ∈ ho_fences h → df_device_id f = df_device_id f' → f = f'.
(** At any moment. *)
Record bounded (h : host) : Prop := {
  bd_times : ∀ i, (times i h ≤ S (ho_restarts h))%nat;
  bd_threads : ∀ i, (thread_times i h ≤ 1)%nat;
  bd_known : ∀ i, (0 < thread_times i h)%nat → known i h;
  bd_fences : one_fence h;
}.
(** Between two commands, and within the command [i]. *)
Definition tidy (h : host) : Prop := bounded h ∧ ∀ i, ¬ known i h → (times i h ≤ ho_restarts h)%nat.
Definition before (i : string) (h : host) : Prop := tidy h ∧ (times i h ≤ ho_restarts h)%nat ∧ thread_times i h = 0%nat.
Definition after (i : string) (h : host) : Prop := bounded h ∧ ∀ j, j ≠ i → ¬ known j h → (times j h ≤ ho_restarts h)%nat.

Section loop.
Context (worker_id data_root : string) (require_fencing : bool).
Context (in_suite_roots is_file : string → bool) (module_error : string → string → option string).

(** The devices of a command are fenced for nobody else. *)
Definition permitted (c : delivered) (h : host) : Prop :=
  let tokens := wp_lease_tokens (dl_payload c) in
  ∀ f, f ∈ ho_fences h →
    df_device_id f ∈ (tok_device_id <$> tokens)
    ∨ (needs_fencing worker_id require_fencing c = true ∧ df_device_id f ∈ requested_devices worker_id c) →
    f ∈ (fence_of <$> tokens).
Definition fences_rise (h h' : host) : Prop :=
  ∀ f f', f ∈ ho_fences h → f' ∈ ho_fences h' → df_device_id f = df_device_id f' →
    f = f' ∨ df_generation f < df_generation f'.
(** What an action of the loop does. *)
Record guarded (h h' : host) : Prop := {
  gd_bounded : bounded h';
  gd_restarts : ho_restarts h' = ho_restarts h;
  gd_rise : fences_rise h h';
  gd_started : ho_started h' = ho_started h ∨ ∃ c b, ho_started h' = ho_started h ++ [(c, b)] ∧ permitted c h';
}.
Abbreviation loop p Q w := (wp harmless guarded (λ (t : program unit) (_ : host), each harmless t) p Q w).

(** *** Invariants under harmless actions *)
Lemma harmless_times i h h' : harmless h h' → times i h' = times i h ∧ thread_times i h' = thread_times i h.
Proof. intros []. unfold times, thread_times. by rewrite hl_started0. Qed.
Lemma harmless_bounded h h' : bounded h → harmless h h' → bounded h'.
Proof.
  intros [] Hh. pose proof (λ i, harmless_times i h h' Hh) as Ht. destruct Hh. split; intros i.
  - destruct (Ht i) as [-> _]. by rewrite hl_restarts0.
  - by destruct (Ht i) as [_ ->].
  - destruct (Ht i) as [_ ->]. auto.
  - intros f' Hf Hf'. by apply bd_fences0; apply hl_fences0.
Qed.
Lemma harmless_tidy h h' : tidy h → harmless h h' → tidy h'.
Proof.
  intros [Hb Ht] Hh. split; [by eapply harmless_bounded|]. intros i Hi.
  rewrite (proj1 (harmless_times i h h' Hh)), (hl_restarts _ _ Hh). apply Ht. intros Hk. by apply Hi, (hl_known _ _ Hh).
Qed.
Lemma harmless_before i h h' : before i h → harmless h h' → before i h'.
Proof.
  intros (Ht&H1&H2) Hh. split; [by eapply harmless_tidy|]. destruct (harmless_times i h h' Hh) as [-> ->].
  by rewrite (hl_restarts _ _ Hh).
Qed.
Lemma harmless_after i h h' : after i h → harmless h h' → after i h'.
Proof.
  intros [Hb Ht] Hh. split; [by eapply harmless_bounded|]. intros j Hj Hk.
  rewrite (proj1 (harmless_times j h h' Hh)), (hl_restarts _ _ Hh). apply Ht; [done|]. intros ?. by apply Hk, (hl_known _ _ Hh).
Qed.
Lemma harmless_permitted c h h' : permitted c h → harmless h h' → permitted c h'.
Proof. intros Hp Hh f Hf. apply Hp. by apply (hl_fences _ _ Hh). Qed.
Lemma harmless_guarded h h' : bounded h → harmless h h' → guarded h h'.
Proof.
  intros Hb Hh. split; [by eapply harmless_bounded|apply Hh| |left; apply Hh].
  intros f f' Hf Hf'%(hl_fences _ _ Hh) E. left. by apply (bd_fences _ Hb).
Qed.
Lemma before_after i h : before i h → after i h.
Proof. intros ([Hb Ht]&_&_). split; [done|]. intros j _. apply Ht. Qed.
Lemma after_tidy i h : after i h → known i h → tidy h.
Proof.
  intros [Hb Ht] Hk. split; [done|]. intros j Hj. apply Ht; [|done]. intros ->. done.
Qed.
Lemma before_bounded i h : before i h → bounded h.
Proof. intros ([Hb _]&_). exact Hb. Qed.

(** Programs of harmless actions, in a state that lasts. *)
Class Lasting (P : host → Prop) : Prop := {
  lasting_bounded h : P h → bounded h;
  lasting_harmless h h' : P h → harmless h h' → P h';
}.
#[export] Instance tidy_lasting : Lasting tidy.
Proof. split; [by intros h []|apply harmless_tidy]. Qed.
#[export] Instance before_lasting i : Lasting (before i).
Proof. split; [apply before_bounded|apply harmless_before]. Qed.
#[export] Instance after_lasting i : Lasting (after i).
Proof. split; [by intros h []|apply harmless_after]. Qed.
#[export] Instance permitted_lasting P c : Lasting P → Lasting (λ h, P h ∧ permitted c h).
Proof.
  intros [H1 H2]. split; [intros h [? _]; auto|]. intros h h' [HP Hc] Hh. split; [by eapply H2|by eapply harmless_permitted].
Qed.
#[export] Instance known_lasting P i : Lasting P → Lasting (λ h, P h ∧ known i h).
Proof. intros [H1 H2]. split; [intros h [? _]; auto|]. intros h h' [HP Hc] Hh. split; [by eapply H2|by apply (hl_known _ _ Hh)]. Qed.
Lemma loop_harmless {A} (p : program A) (P : host → Prop) `{!Lasting P} w : each harmless p → P w → loop p (λ _, P) w.
Proof.
  intros Hp HP. apply (each_wp harmless guarded harmless (λ (t : program unit) (_ : host), each harmless t) p P w); [apply lasting_harmless| |done..].
  intros w1 w2 H1 Hh. split; [|by eapply lasting_harmless]. apply harmless_guarded; [by apply lasting_bounded|done].
Qed.
Lemma loop_act {A} (m : M host A) (P : host → Prop) `{!Lasting P} (Q : result A → host → Prop) w :
  P w → (∀ w1, P w1 → guarded w1 (m w1).2 ∧ ∀ w2, harmless (m w1).2 w2 → Q (m w1).1 w2) → loop (act m) Q w.
Proof.
  intros HP Hm w1 Hr. destruct (Hm w1) as [Hg HQ]; [by eapply lasting_harmless|]. destruct (m w1) as [r w2]. by split.
Qed.
Lemma loop_bind {A B} (p : program A) (f : A → program B) (P : result A → host → Prop) (Q : result B → host → Prop) w :
  loop p P w → (∀ a w', P (Ok a) w' → loop (f a) Q w') → (∀ e w', P (Err e) w' → Q (Err e) w') → loop (p ≫= f) Q w.
Proof.
  intros Hp Hok Herr. apply wp_bind; [apply _|]. eapply (wp_mono _ _ _ p P); [|exact Hp]. intros [a|e]; eauto.
Qed.

(** *** Fencing *)

Definition unique_fences (t : list device_fence) : Prop :=
  ∀ f f', f ∈ t → f' ∈ t → df_device_id f = df_device_id f' → f = f'.
Definition rises (t t' : list device_fence) : Prop :=
  ∀ f f', f ∈ t → f' ∈ t' → df_device_id f = df_device_id f' → f = f' ∨ df_generation f < df_generation f'.
(** One token is admitted. *)
Definition puts (tok : lease_token) (t t1 : list device_fence) : Prop :=
  fence_of tok ∈ t1
  ∧ (∀ f, f ∈ t1 ↔ f = fence_of tok ∨ f ∈ t ∧ df_device_id f ≠ tok_device_id tok)
  ∧ (unique_fences t → ∀ f, f ∈ t → df_device_id f = tok_device_id tok →
       f = fence_of tok ∨ df_generation f < tok_generation tok).
Lemma admit_cons tok tokens t revoked t' revoked' :
  admit_tokens (tok :: tokens) t revoked = Ok (t', revoked') →
  ∃ t1 r1, puts tok t t1 ∧ admit_tokens tokens t1 r1 = Ok (t', revoked').
Proof.
  cbn. destruct (_ || _); [done|]. destruct (fetchone _ _) as [f|] eqn:Ef.
  - apply fetchone_Some in Ef as [Hin Hf]. destruct (_ || _) eqn:Estale; [done|]. intros E.
    eexists _, _. split; [|exact E]. unfold fence_on, streqb in *. apply bool_decide_eq_true in Hf.
    apply orb_false_iff in Estale as [Elt Eeq]. split_and!.
    + rewrite elem_of_update_where. exists f. by rewrite bool_decide_eq_true_2.
    + intros x. rewrite elem_of_update_where. split.
      * intros (y&Hy&->). destruct (bool_decide_reflect (df_device_id y = tok_device_id tok)); [by left|by right].
      * intros [->|[Hx Hne]]; [exists f; by rewrite bool_decide_eq_true_2|exists x; by rewrite bool_decide_eq_false_2].
    + intros Hu x Hx Ed. assert (x = f) as -> by (apply Hu; congruence). apply Z.ltb_ge in Elt.
      destruct (Z.eqb_spec (tok_generation tok) (df_generation f)) as [Eg|]; [left|right; lia].
      cbn in Eeq. apply negb_false_iff, andb_true_iff in Eeq as [El Ea].
      apply bool_decide_eq_true in El, Ea. destruct f; unfold fence_of; cbn in *; congruence.
  - rewrite fetchone_None in Ef. intros E. eexists _, _. split; [|exact E]. unfold fence_on in Ef. split_and!.
    + apply elem_of_app. right. left.
    + intros x. rewrite elem_of_app, list_elem_of_singleton. split; [|tauto].
      intros [Hx| ->]; [right|by left]. specialize (Ef x Hx). by bool_props.
    + intros _ x Hx Ed. specialize (Ef x Hx). by bool_props.
Qed.
Lemma puts_unique tok t t1 : puts tok t t1 → unique_fences t → unique_fences t1.
Proof.
  intros (_&Ht&_) Hu f f'. rewrite !Ht. intros [->|[Hf Hn]] [->|[Hf' Hn']] E; [done|cbn in E; congruence..|by apply Hu].
Qed.
Lemma admit_spec tokens t revoked t' revoked' :
  admit_tokens tokens t revoked = Ok (t', revoked') → unique_fences t →
  unique_fences t' ∧ rises t t' ∧
  (∀ f, f ∈ t' → df_device_id f ∈ (tok_device_id <$> tokens) → f ∈ (fence_of <$> tokens)) ∧
  (∀ f, f ∈ t' → f ∈ t ∨ f ∈ (fence_of <$> tokens)).
Proof.
  revert t revoked. induction tokens as [|tok tokens IH]; intros t revoked.
  - intros [= <- _] Hu. split_and!; [done| |by intros f _ ?%elem_of_nil|by left].
    intros f f' Hf Hf' E. left. by apply Hu.
  - intros (t1&r1&Hp&E)%admit_cons Hu. destruct (IH _ _ E (puts_unique _ _ _ Hp Hu)) as (Hu'&Hr&Ho&Hs).
    destruct Hp as (Hin&Ht1&Hg). split_and!; [done| | |].
    + intros f f' Hf Hf' Ed. destruct (decide (df_device_id f = tok_device_id tok)) as [Et|Et].
      * destruct (Hr (fence_of tok) f' Hin Hf') as [<-|Hlt]; [cbn; congruence|by apply Hg|].
        cbn in Hlt. destruct (Hg Hu f Hf Et) as [->|]; [by right|right; lia].
      * apply Hr; [|done..]. apply Ht1. by right.
    + intros f Hf. rewrite !fmap_cons. intros [Ed|Hd]%elem_of_cons; [|right; by apply Ho].
      destruct (Hs f Hf) as [[->|[_ Hn]]%Ht1|Hf1]; [left|done|by right].
    + intros f Hf. rewrite fmap_cons. destruct (Hs f Hf) as [[->|[? _]]%Ht1|Hf1]; [right; left|by left|right; by right].
Qed.
Lemma loop_post {A} (p : program A) (P Q : result A → host → Prop) w :
  loop p P w → (∀ r w', P r w' → Q r w') → loop p Q w.
Proof. intros Hp HPQ. by eapply (wp_mono _ _ _ p P). Qed.
Lemma loop_ret {A} (r : result A) (P : host → Prop) `{!Lasting P} (Q : result A → host → Prop) w :
  P w → (∀ w1, P w1 → Q r w1) → loop (Return r) Q w.
Proof. intros HP HQ w1 Hh. by eapply HQ, lasting_harmless. Qed.

(** A change of the fences that keeps them one per device. *)
Lemma fenced_bounded h t : bounded h → unique_fences t → bounded (h <| ho_fences := t |>).
Proof. intros [] Hu. by split. Qed.
Lemma fenced_before i h t : before i h → unique_fences t → before i (h <| ho_fences := t |>).
Proof.
  intros ([Hb Ht]&H1&H2) Hu. split; [|done]. split; [by apply fenced_bounded|]. intros j Hj. apply Ht. exact Hj.
Qed.
Abbreviation validate := (validate_fencing worker_id require_fencing).
Lemma validate_loop c w : before (dl_id c) w →
  loop (validate c) (λ r h, before (dl_id c) h ∧ (r = Ok tt → permitted c h)) w.
Proof.
  intros Hw. unfold validate_fencing. cbv zeta. set (tokens := wp_lease_tokens (dl_payload c)).
  destruct (needs_fencing worker_id require_fencing c && bool_decide (tokens = [])) eqn:E1.
  { eapply (loop_ret _ (before (dl_id c))); [exact Hw|]. by intros w1 H1. }
  destruct (needs_fencing worker_id require_fencing c && negb (same_devices (tok_device_id <$> tokens) (requested_devices worker_id c))) eqn:E2.
  { eapply (loop_ret _ (before (dl_id c))); [exact Hw|]. by intros w1 H1. }
  (* the devices of the command are those of its tokens *)
  assert (∀ f (h : host), (f ∈ ho_fences h → df_device_id f ∈ (tok_device_id <$> tokens) → f ∈ (fence_of <$> tokens)) →
    f ∈ ho_fences h → df_device_id f ∈ (tok_device_id <$> tokens)
      ∨ (needs_fencing worker_id require_fencing c = true ∧ df_device_id f ∈ requested_devices worker_id c) →
    f ∈ (fence_of <$> tokens)) as Hperm.
  { intros f h Hf Hin [Hd|[Hn Hd]]; [by apply Hf|]. apply Hf; [done|]. rewrite Hn in E2. cbn in E2.
    apply negb_false_iff, andb_true_iff in E2 as [_ E2]. rewrite forallb_forall in E2.
    rewrite list_elem_of_In in Hd. specialize (E2 _ Hd). unfold mem in E2. by bool_props. }
  destruct (bool_decide_reflect (tokens = [])) as [En|En].
  { eapply (loop_ret _ (before (dl_id c))); [exact Hw|]. intros w1 H1. split; [done|]. intros _ f Hf Hd.
    eapply Hperm; [|exact Hf|exact Hd]. rewrite En. by intros _ ?%elem_of_nil. }
  eapply (loop_bind _ _ (λ r h, before (dl_id c) h ∧ (is_Some (match r with Ok a => Some a | Err _ => None end) → permitted c h))).
  - eapply (loop_act _ (before (dl_id c))); [exact Hw|]. intros w1 H1. unfold fst, snd.
    destruct (admit_tokens tokens (ho_fences w1) []) as [[t revoked]|e] eqn:Ea.
    + apply admit_spec in Ea as (Hu&Hr&Ho&_); [|apply (bd_fences _ (before_bounded _ _ H1))]. split.
      * split; [by apply fenced_bounded; [eapply before_bounded|]|done|exact Hr|by left].
      * intros w2 H2. split; [eapply harmless_before; [|exact H2]; by apply fenced_before|]. intros _.
        eapply harmless_permitted; [|exact H2]. intros f Hf. apply (Hperm f (w1 <| ho_fences := t |>)); [|exact Hf]. intros _. apply Ho. exact Hf.
    + split; [apply harmless_guarded; [by eapply before_bounded|done]|]. intros w2 H2.
      split; [by eapply harmless_before|]. by intros [].
  - intros revoked w1 [H1 H2]. eapply loop_post.
    + apply (loop_harmless _ (λ h, before (dl_id c) h ∧ permitted c h)); [|by split; [|apply H2]].
      each_walk. apply revoke_harmless.
    + intros r w2 [? ?]. by split.
  - by intros e w1 [H1 _].
Qed.

(** The execution begins. *)
Lemma started_times c b i h : times i (started c b h).2 = (times i h + if streqb (dl_id c) i then 1 else 0)%nat ∧
  thread_times i (started c b h).2 = (thread_times i h + if streqb (dl_id c) i && b then 1 else 0)%nat.
Proof.
  assert (∀ p (l : list (delivered * bool)) x, length (fetchall p (l ++ [x])) = (length (fetchall p l) + if p x then 1 else 0)%nat) as Happ.
  { intros p l x. rewrite fetchall_app, length_app, fetchall_cons. by destruct (p x). }
  split; apply Happ.
Qed.
Lemma started_known c b i h : known i (started c b h).2 ↔ known i h.
Proof. done. Qed.
Lemma started_inline c h : before (dl_id c) h → permitted c h →
  after (dl_id c) (started c false h).2 ∧ guarded h (started c false h).2.
Proof.
  intros ([[] Ht]&H1&H2) Hp.
  assert (bounded (started c false h).2) as Hb.
  { split; [| | |done].
    - intros i. rewrite (proj1 (started_times c false i h)). specialize (bd_times0 i).
      unfold streqb. case_bool_decide; subst; cbn in *; lia.
    - intros i. rewrite (proj2 (started_times c false i h)), andb_false_r. specialize (bd_threads0 i). lia.
    - intros i. rewrite (proj2 (started_times c false i h)), andb_false_r. intros Hi. apply bd_known0. lia. }
  split; [split; [done|]|split; [done|done| |right; by exists c, false]].
  - intros j Hj Hk. rewrite (proj1 (started_times c false j h)). unfold streqb. rewrite bool_decide_eq_false_2 by done.
    specialize (Ht j Hk). cbn in *. lia.
  - intros f f' Hf Hf' E. left. by apply bd_fences0.
Qed.
Lemma started_thread c h : before (dl_id c) h → known (dl_id c) h → permitted c h →
  tidy (started c true h).2 ∧ guarded h (started c true h).2.
Proof.
  intros ([[] Ht]&H1&H2) Hk Hp.
  assert (bounded (started c true h).2) as Hb.
  { split; [| | |done].
    - intros i. rewrite (proj1 (started_times c true i h)). specialize (bd_times0 i).
      unfold streqb. case_bool_decide; subst; cbn in *; lia.
    - intros i. rewrite (proj2 (started_times c true i h)). specialize (bd_threads0 i). unfold streqb.
      case_bool_decide; subst; cbn in *; lia.
    - intros i. rewrite (proj2 (started_times c true i h)). intros Hi. unfold streqb in Hi.
      case_bool_decide; subst; [done|]. apply bd_known0. cbn in *. lia. }
  split; [split; [done|]|split; [done|done| |right; by exists c, true]].
  - intros j Hj. rewrite (proj1 (started_times c true j h)). unfold streqb.
    case_bool_decide; subst; [by destruct Hj|]. specialize (Ht j Hj). cbn in *. lia.
  - intros f f' Hf Hf' E. left. by apply bd_fences0.
Qed.

(** The rest is harmless and its result does not matter. *)
Lemma loop_rest {A} (p : program A) (P : host → Prop) `{!Lasting P} (Q : result A → host → Prop) w :
  each harmless p → P w → (∀ r h, P h → Q r h) → loop p Q w.
Proof. intros Hp HP HQ. eapply loop_post; [by apply (loop_harmless p P)|]. intros r h. apply HQ. Qed.
(** A row is written; whoever hears of it. *)
Lemma loop_save i s r e (P : host → Prop) `{!Lasting P} w : P w →
  loop (act (save_command i s r e)) (λ _ h, P h ∧ known i h) w.
Proof.
  intros HP. eapply (loop_act _ P); [done|]. intros w1 H1.
  split; [apply harmless_guarded; [by apply lasting_bounded|apply save_harmless]|].
  intros w2 H2. eapply (lasting_harmless (P := λ h, P h ∧ known i h)); [|exact H2].
  split; [eapply lasting_harmless; [exact H1|apply save_harmless]|apply save_knows].
Qed.
Lemma loop_conclude i s r e (P : host → Prop) `{!Lasting P} w : P w →
  loop (conclude i s r e) (λ _ h, P h ∧ known i h) w.
Proof.
  intros HP. unfold conclude. eapply loop_bind; [by apply (loop_save i s r e P)| |done].
  intros ? w1 H1. apply (loop_harmless _ (λ h, P h ∧ known i h)); [apply ack_harmless|done].
Qed.
Lemma after_known_tidy i h : after i h ∧ known i h → tidy h.
Proof. intros [Ha Hk]. by eapply after_tidy. Qed.
Lemma tidy_after i h : tidy h → after i h.
Proof. intros [Hb Ht]. split; [done|]. intros j _. apply Ht. Qed.

Abbreviation permitted_before c := (λ h, before (dl_id c) h ∧ permitted c h).
Abbreviation run_test := (start_process worker_id data_root in_suite_roots is_file module_error).
Lemma loop_start c w : permitted_before c w → loop (run_test c) (λ _, after (dl_id c)) w.
Proof.
  intros Hw. unfold start_process. cbv zeta.
  assert (∀ h, permitted_before c h → after (dl_id c) h) as Hafter by (intros h [? _]; by apply before_after).
  eapply (loop_bind _ _ (λ _, permitted_before c)); [by apply (loop_harmless _ (permitted_before c))| |auto].
  intros [argv work_dir] w1 H1. eapply (loop_bind _ _ (λ _, permitted_before c)); [|intros [] w2 H2|auto].
  { apply (loop_harmless _ (permitted_before c)); [|done]. each_walk. }
  eapply (loop_bind _ _ (λ _, permitted_before c)); [by apply (loop_harmless _ (permitted_before c))|intros o w3 H3|auto].
  eapply (loop_bind _ _ (λ _, permitted_before c)); [by apply (loop_harmless _ (permitted_before c))|intros r w4 H4|auto].
  eapply (loop_bind _ _ (λ _, after (dl_id c))); [|intros pid w5 H5|done].
  - apply (loop_act _ (permitted_before c)); [done|]. intros w5 [H5 Hp5].
    destruct (started_inline c (w5 <| ho_processes ::= λ l, l ++ [(fresh_pid w5, None)] |>)) as [Ha Hg].
    { eapply harmless_before; [exact H5|]. by split. }
    { by intros f Hf; apply Hp5. }
    split; [destruct Hg as [Hg1 Hg2 Hg3 Hg4]; exact (Build_guarded w5 _ Hg1 Hg2 Hg3 Hg4)|]. intros w6 H6. by eapply harmless_after.
  - apply (loop_harmless _ (after (dl_id c))); [|done]. each_walk.
Qed.
Lemma background_None_kind c reports : background c reports = None → True.
Proof. done. Qed.
Lemma inline_harmless c : each harmless (inline c).
Proof. unfold inline, stop_process, previous_command. each_walk. Qed.
Lemma handle_loop c reports w :
  tidy w → loop (handle worker_id data_root require_fencing in_suite_roots is_file module_error c reports) (λ _, tidy) w.
Proof.
  intros Hw. unfold handle. cbv zeta. set (id := dl_id c).
  eapply (loop_bind _ _ (λ r h, tidy h ∧ (r = Ok None → before id h))); [| |by intros e w1 []].
  { apply (loop_act _ tidy); [done|]. intros w1 H1. split; [by apply harmless_guarded; [apply H1|]|].
    intros w2 H2. split; [by eapply harmless_tidy|]. intros [= Hn]. eapply harmless_before; [|exact H2].
    assert (¬ known id w1) as Hk.
    { intros (r&Hr&Hi). rewrite fetchone_None in Hn. specialize (Hn r Hr). unfold local_is in Hn. by bool_props. }
    split; [done|]. split; [by apply H1|]. destruct (thread_times id w1) eqn:Et; [done|].
    destruct Hk. apply (bd_known _ (proj1 H1)). fold id. lia. }
  intros [previous|] w1 [H1 Hb].
  { apply (loop_harmless _ tidy); [|done]. each_walk. apply ack_harmless. }
  specialize (Hb eq_refl). clear w Hw H1.
  (* the body: tidy when it returns, and whatever it raises is followed by a row *)
  enough (loop (_ ← validate c;
    match background c reports with
    | Some thread => _ ← conclude id "running" no_result ""; _ ← act (started c true); fork thread
    | None =>
        if streqb (dl_command_type c) "start_test" then
          result ← run_test c; _ ← conclude id "running" result ""; fork (monitor_job id (cr_worker_job_id result))
        else if streqb (dl_command_type c) "uninstall_agent" then
          _ ← conclude id "completed" (CommandResult "" [("stopping", "true"); ("removed_data", "false")]) "";
          _ ← act (started c true); fork (mret tt)
        else if mem (dl_command_type c) inline_kinds then
          _ ← act (started c false); result ← inline c; _ ← act (save_command id "completed" result "");
          _ ← pwhen (device_action c) (act (release_fencing c)); _ack_command id "completed" result ""
        else praise (ValueError ("unsupported command type: " +:+ dl_command_type c))
    end) (λ r h, match r with Ok _ => tidy h | Err _ => after id h end) w1) as Hbody.
  { unfold ptry. apply (loop_bind _ _ (λ r h, match r with Ok (Err _) => after id h | _ => tidy h end)); [| |done].
    - apply wp_attempt. eapply loop_post; [exact Hbody|]. by intros [[]|e].
    - intros [[]|e] w2 H2; [by apply (loop_ret _ tidy)|].
      eapply (loop_bind _ _ (λ _ h, after id h ∧ known id h)); [by apply (loop_save id _ _ _ (after id))| |].
      + intros ? w3 H3%after_known_tidy. apply (loop_harmless _ tidy); [|done]. each_walk; apply ack_harmless.
      + intros e' w3 H3. by eapply after_known_tidy. }
  eapply loop_bind; [by apply validate_loop| |intros e w2 [H2 _]; by apply before_after].
  intros [] w2 [H2 Hp]. specialize (Hp eq_refl).
  (* a command that is left to a thread *)
  assert (∀ s r thread, each harmless thread →
    loop (_ ← conclude id s r ""; _ ← act (started c true); fork thread)
      (λ r h, match r with Ok _ => tidy h | Err _ => after id h end) w2) as Hthread.
  { intros s r thread Ht. eapply (loop_bind _ _ (λ _ h, permitted_before c h ∧ known id h)).
    - by apply (loop_conclude id s r "" (permitted_before c)).
    - intros ? w3 H3. eapply (loop_bind _ _ (λ _, tidy)); [|intros ? w4 H4|intros e w4 H4; by apply tidy_after].
      + apply (loop_act _ (λ h, permitted_before c h ∧ known id h)); [done|]. intros w4 [[Hb4 Hp4] Hk4].
        destruct (started_thread c w4 Hb4 Hk4 Hp4) as [Ht4 Hg4]. split; [done|]. intros w5 H5. by eapply harmless_tidy.
      + split; [by intros|]. by apply (loop_ret _ tidy).
    - intros e w3 [[H3 _] _]. by apply before_after. }
  destruct (background c reports) as [thread|] eqn:Eb; [apply Hthread; by eapply background_harmless|].
  destruct (streqb (dl_command_type c) "start_test").
  { eapply (loop_bind _ _ (λ _, after id)); [by apply loop_start| |done]. intros result w3 H3.
    eapply (loop_bind _ _ (λ _ h, after id h ∧ known id h)); [by apply (loop_conclude id _ _ _ (after id))| |by intros e w4 []].
    intros ? w4 H4%after_known_tidy. split; [intros w5 _; apply monitor_harmless|]. by apply (loop_ret _ tidy). }
  destruct (streqb (dl_command_type c) "uninstall_agent"); [by apply Hthread|].
  destruct (mem (dl_command_type c) inline_kinds).
  2:{ apply (loop_ret _ (before id)); [done|]. intros w3 H3. by apply before_after. }
  eapply (loop_bind _ _ (λ _, after id)); [|intros ? w3 H3|done].
  { apply (loop_act _ (permitted_before c)); [done|]. intros w3 [H3 Hp3]. destruct (started_inline c w3 H3 Hp3) as [Ha Hg].
    split; [done|]. intros w4 H4. by eapply harmless_after. }
  eapply (loop_bind _ _ (λ _, after id)); [apply (loop_harmless _ (after id)); [apply inline_harmless|done]|intros result w4 H4|done].
  eapply (loop_bind _ _ (λ _ h, after id h ∧ known id h)); [by apply (loop_save id _ _ _ (after id))| |by intros e w5 []].
  intros ? w5 H5%after_known_tidy. eapply loop_post; [apply (loop_harmless _ tidy); [|exact H5]; each_walk; apply ack_harmless|].
  intros [?|e] w6 H6; [done|by apply tidy_after].
Qed.

(** *** Histories *)

Abbreviation agent_step := (step worker_id data_root require_fencing in_suite_roots is_file module_error).
Abbreviation agent_history := (history worker_id data_root require_fencing in_suite_roots is_file module_error).
Record sound (g : agent) : Prop := {
  sd_bounded : bounded (ag_host g);
  sd_threads : ∀ t, t ∈ ag_threads g → each harmless t;
  sd_main : loop (ag_main g) (λ _, tidy) (ag_host g);
}.
Lemma sound_harmless g h : sound g → harmless (ag_host g) h → sound (Agent h (ag_main g) (ag_threads g)).
Proof.
  intros [] Hh. split; [by eapply harmless_bounded|done|]. eapply wp_stable; [apply _|exact Hh|done].
Qed.
Lemma process_ends_harmless pid rc b h : harmless h (process_ends pid rc b h).
Proof. unfold process_ends. repeat case_match; by split. Qed.
Lemma prune_subset h f : f ∈ ho_fences (prune_inactive_fences h).2 → f ∈ ho_fences h.
Proof. cbn. by intros [? _]%elem_of_delete_where. Qed.
Lemma restarted_tidy h : bounded h → tidy (restarted h).
Proof.
  intros []. assert (bounded (restarted h)) as Hb.
  { split; [| | |].
    - intros i. apply le_S, bd_times0.
    - intros i. apply bd_threads0.
    - intros i Hi. apply (bd_known0 i Hi).
    - intros f f' Hf%prune_subset Hf'%prune_subset. by apply bd_fences0. }
  split; [done|]. intros i _. apply bd_times0.
Qed.
Lemma each_step_harmless (t : program unit) a h p h' ts :
  each harmless t → pstep t a h = Some (p, h', ts) → harmless h h' ∧ each harmless p ∧ ∀ t', t' ∈ ts → each harmless t'.
Proof.
  destruct t as [r|B m k|k|t k]; cbn.
  - done.
  - intros Hm E. destruct (m h) as [[r h1]|] eqn:Em; [|done]. injection E as <- <- <-.
    destruct (Hm h r h1 Em). split; [done|]. split; [done|]. by intros t' ?%elem_of_nil.
  - intros Hk [= <- <- <-]. split; [done|]. split; [done|]. by intros t' ?%elem_of_nil.
  - intros [Ht Hk] [= <- <- <-]. split; [done|]. split; [done|]. by intros t' ->%list_elem_of_singleton.
Qed.
Lemma main_step (p : program unit) a h p' h' ts :
  bounded h → loop p (λ _, tidy) h → pstep p a h = Some (p', h', ts) →
  guarded h h' ∧ loop p' (λ _, tidy) h' ∧ ∀ t', t' ∈ ts → each harmless t'.
Proof.
  intros Hb. destruct p as [r|B m k|k|t k]; cbn [wp pstep].
  - done.
  - intros Hp E. specialize (Hp h ltac:(done)). destruct (m h) as [[r h1]|] eqn:Em; [|done]. injection E as <- <- <-.
    destruct Hp as [Hg Hk]. split; [done|]. split; [done|]. by intros t' ?%elem_of_nil.
  - intros Hk [= <- <- <-]. split; [by apply harmless_guarded|]. split; [done|]. by intros t' ?%elem_of_nil.
  - intros [Ht Hk] [= <- <- <-]. split; [by apply harmless_guarded|]. split; [done|].
    intros t' ->%list_elem_of_singleton. by apply (Ht h).
Qed.
Lemma turn_loop work h :
  tidy h → loop (turn worker_id data_root require_fencing in_suite_roots is_file module_error work h) (λ _, tidy) h.
Proof.
  intros Ht. unfold turn. destruct (negb _); [by apply (loop_harmless _ tidy); [apply recover_harmless|]|].
  destruct work as [[c reports]|]; [by apply handle_loop|]. apply (loop_harmless _ tidy); [apply heartbeat_harmless|done].
Qed.
Lemma step_sound m g : sound g → sound (agent_step m g) ∧
  (guarded (ag_host g) (ag_host (agent_step m g)) ∨
   m = AgentRestarts ∧ ag_host (agent_step m g) = restarted (ag_host g)).
Proof.
  intros Hg. pose proof Hg as [Hb Ht Hm].
  assert (∀ h, harmless (ag_host g) h → guarded (ag_host g) h) as Hquiet by (intros h; by apply harmless_guarded).
  destruct m as [work|a|i a|pid rc b|t|]; cbn [step].
  - destruct (ag_main g) as [r|? ? ?|?|? ?] eqn:Em; try (split; [done|left; by apply Hquiet]).
    split; [|left; by apply Hquiet]. split; [done|done|]. cbn. apply turn_loop. by apply (Hm (ag_host g)).
  - destruct (pstep (ag_main g) a (ag_host g)) as [[[p h] ts]|] eqn:E; [|split; [done|left; by apply Hquiet]].
    destruct (main_step _ _ _ _ _ _ Hb Hm E) as (Hgd&Hp&Hts). split; [|by left].
    split; cbn; [apply Hgd| |done]. intros t [Hin|Hin]%elem_of_app; auto.
  - destruct (ag_threads g !! i) as [t|] eqn:Ei; [|split; [done|left; by apply Hquiet]].
    destruct (pstep t a (ag_host g)) as [[[p h] ts]|] eqn:E; [|split; [done|left; by apply Hquiet]].
    apply list_elem_of_lookup_2 in Ei as Hin.
    destruct (each_step_harmless _ _ _ _ _ _ (Ht t Hin) E) as (Hh&Hp&Hts). split; [|left; by apply Hquiet].
    destruct (sound_harmless g h Hg Hh) as [? _ ?]. split; [done| |done]. cbn.
    intros t' [Hin'|Hin']%elem_of_app; [|auto]. apply list_elem_of_lookup in Hin' as [j Hj].
    rewrite list_lookup_insert_Some in Hj. destruct Hj as [(_&<-&_)|[_ Hj]]; [done|].
    apply Ht. by eapply list_elem_of_lookup_2.
  - split; [|left; apply Hquiet, process_ends_harmless]. apply sound_harmless; [done|apply process_ends_harmless].
  - split; [|left; by apply Hquiet]. by apply sound_harmless.
  - split; [|by right]. split; cbn; [by apply restarted_tidy| |].
    + by intros t ?%elem_of_nil.
    + intros w1 Hh. eapply harmless_tidy; [by apply restarted_tidy|exact Hh].
Qed.
Lemma new_sound : sound new_agent.
Proof.
  assert (tidy empty_host) as Ht.
  { split; [split|]; [intros i; cbn; lia..| |]; [by intros f f' ?%elem_of_nil|intros i _; cbn; lia]. }
  split; [apply Ht|by intros t ?%elem_of_nil|]. intros w1. by apply harmless_tidy.
Qed.
Lemma history_app l l' g : agent_history (l ++ l') g = agent_history l' (agent_history l g).
Proof. apply foldl_app. Qed.
Lemma history_sound l : sound (agent_history l new_agent).
Proof.
  induction l as [|m l IH] using rev_ind; [apply new_sound|]. rewrite history_app. by apply step_sound.
Qed.
Definition restarts_in (l : list move) : nat := length (fetchall (λ m, match m with AgentRestarts => true | _ => false end) l).
Lemma history_restarts l : ho_restarts (ag_host (agent_history l new_agent)) = restarts_in l.
Proof.
  induction l as [|m l IH] using rev_ind; [done|]. unfold restarts_in in *. rewrite history_app, fetchall_app, length_app, <-IH, fetchall_cons.
  change (agent_history [m] (agent_history l new_agent)) with (agent_step m (agent_history l new_agent)). destruct (step_sound m _ (history_sound l)) as [_ [Hg|[-> Hr]]].
  - pose proof (gd_restarts _ _ Hg) as E. rewrite E. destruct m; [unfold length, fetchall; cbn; lia..|]. exfalso. cbn in E. lia.
  - rewrite Hr. unfold length, fetchall. cbn. lia.
Qed.

(** [C18] Commands are executed once.  However the controller repeats its deliveries, however the agent's
    threads interleave, whatever the tools and the network answer and whenever the agent is restarted:
    the execution of a command that is left to a thread (a device action, flashing, a transfer, ...)
    begins at most once, ever; and that of any command at most once more than the agent was
    restarted.  (A restart between the start of a test and the row that records it is the reason,
    see [test_started_twice].) *)
Theorem commands_run_once (l : list move) (i : string) :
  let h := ag_host (agent_history l new_agent) in
  (thread_times i h ≤ 1)%nat ∧ (times i h ≤ S (restarts_in l))%nat.
Proof.
  cbv zeta. destruct (history_sound l) as [[Ht Hn _ _] _ _]. split; [apply Hn|]. by rewrite <-history_restarts.
Qed.

(** [C19] A worker's devices are the commands' own.  Whatever happened before and whatever the agent does
    next: the generation of a device's fence does not fall, and within one generation the fence does
    not change hands; and when the execution of a command begins, each fence on a device that it
    names, or that its tokens are for, is the fence of one of its own tokens.  So a command whose
    lease was superseded is not executed while the newer holder's fence stands. *)
Theorem worker_fencing (l : list move) (m : move) :
  let g := agent_history l new_agent in
  let h := ag_host g in let h' := ag_host (agent_step m g) in
  (∀ f f', f ∈ ho_fences h → f' ∈ ho_fences h' → df_device_id f = df_device_id f' →
     f = f' ∨ df_generation f < df_generation f') ∧
  (∀ c b, ho_started h' = ho_started h ++ [(c, b)] → ∀ f, f ∈ ho_fences h' →
     df_device_id f ∈ (tok_device_id <$> wp_lease_tokens (dl_payload c))
     ∨ needs_fencing worker_id require_fencing c = true ∧ df_device_id f ∈ requested_devices worker_id c →
     f ∈ (fence_of <$> wp_lease_tokens (dl_payload c))).
Proof.
  cbv zeta. destruct (step_sound m _ (history_sound l)) as [_ [[_ _ Hr Hs]|[_ E]]].
  - split; [exact Hr|]. intros c b E f Hf Hd. destruct Hs as [Hs|(c'&b'&Hs&Hp)]; rewrite Hs in E.
    + apply (f_equal length) in E. rewrite length_app in E. cbn in E. lia.
    + simplify_list_eq. by apply Hp.
  - rewrite E. split.
    + intros f f' Hf Hf'%prune_subset Ed. left. by apply (bd_fences _ (sd_bounded _ (history_sound l))).
    + intros c b Es. apply (f_equal length) in Es. rewrite length_app in Es. cbn in Es. lia.
Qed.
End loop.

(** ** A worker at work *)

Definition sample_token (generation : Z) (attempt_id : string) : lease_token :=
  LeaseToken ("lease-" +:+ attempt_id) "w1:d1" generation attempt_id.
Definition sample_command (id kind : string) (p : worker_payload) : delivered := Delivered id kind "job-1" "a" "" "" p.
Definition sample_payload (tokens : list lease_token) (devices : list string) (worker_job_id : string) : worker_payload :=
  WorkerPayload tokens devices false "" worker_job_id None ["/suites/run.sh"] "" "" "" [] "" 0 "" "".
Definition sample_test (id attempt_id : string) (generation : Z) : delivered :=
  Delivered id "start_test" "job-1" attempt_id "" "" (sample_payload [sample_token generation attempt_id] ["d1"] "").
Abbreviation sample_run := (history "w1" "/data" true (λ _, true) (λ _, true) (λ _ _, None)).
Definition fine : answer := Outcome (Ok no_result) false.
(** The loop goes on to its next turn, and through it; [ok]: the controller answers. *)
Definition main_turn (work : option (delivered * list command_result)) (ok : bool) (n : nat) : list move :=
  MainTurn work :: concat (replicate n [MainStep (Delivery ok)]).
Definition boot : list move := main_turn None true 4.
Definition launch (c : delivered) (n : nat) : list move :=
  MainTurn (Some (c, [])) :: replicate 2 (MainStep fine) ++ replicate n (MainStep fine).
Definition started_ids (g : agent) : list (string * bool) := (λ x, (dl_id x.1, x.2)) <$> ho_started (ag_host g).

(** The agent is restarted after the test was started, before the command was written down; the
    controller delivers it again. *)
Definition twice : list move := boot ++ launch (sample_test "c1" "a1" 5) 4 ++ AgentRestarts :: boot ++ launch (sample_test "c1" "a1" 5) 4.
Lemma test_started_twice :
  started_ids (sample_run twice new_agent) = [("c1", false); ("c1", false)] ∧
  pid_alive 1 (ag_host (sample_run twice new_agent)) = true ∧ pid_alive 2 (ag_host (sample_run twice new_agent)) = true.
Proof. vm_compute. by split_and!. Qed.
