(* ===== verification/WorkerCompletion.v ===== *)
(** Every command the worker accepted comes to an end: one that is recorded as running has a thread
    that records how it ended, and a restart fails those it cannot resume. *)

From stdpp Require Import pretty.
From S2P Require Import Prelude Encodings ClusterState ExecutionSpec Threads WorkerRuntime WorkerAgent WorkerAgentProperties.

Open Scope Z_scope.

(** A thread that will have recorded the end of the command when it is through, on each of its paths;
    and a program that starts such a thread, or is one, for every command it records as running. *)
Definition ends (c : string) (p : program unit) : Prop := settles running c p (λ _, False).
Definition answers (p : program unit) : Prop := responsible running p (λ _ _, False).

(** ** Ends *)

Lemma save_ends i st r e (S : result unit → Prop) : st ≠ "running" → settles running i (act (save_command i st r e) : program unit) S.
Proof. intros Hst. apply settles_act. intros w. left. by intros [[_ ?]|[[] _]]%save_running. Qed.
Lemma conclude_ends i st r e (S : result unit → Prop) : st ≠ "running" → settles running i (conclude i st r e) S.
Proof. intros Hst. apply settles_bind. by apply save_ends. Qed.
Ltac settle_step :=
  first
  [ progress cbv zeta
  | lazymatch goal with
    | |- settles _ _ (conclude _ _ _ _) _ => apply conclude_ends
    | |- settles _ _ (act (save_command _ _ _ _)) _ => apply save_ends
    | |- settles _ _ (pfinally _ _) _ => apply settles_finally
    | |- settles _ _ (ask _) _ => apply settles_ask; intros ?
    | |- settles _ _ (if ?b then _ else _) _ => destruct b
    | |- settles _ _ (match ?x with _ => _ end) _ => destruct x
    | |- match ?x with _ => _ end => destruct x
    | |- settles _ _ (?p ≫= _) _ => apply settles_bind
    | |- _ ≠ _ => done
    end ].
Lemma settles_skip c {A B} (p : program A) (f : A → program B) (S : result B → Prop) :
  (∀ a, settles running c (f a) S) → (∀ e, S (Err e)) → settles running c (p ≫= f) S.
Proof. intros Hf He. apply settles_bind, settles_any. intros [a|e]; [apply Hf|apply He]. Qed.
(** A first part that raises nothing. *)
Lemma settles_after c {A B} (p : program A) (f : A → program B) (S : result B → Prop) :
  settles running c p (λ r, is_Some (match r with Ok a => Some a | Err _ => None end)) → (∀ a, settles running c (f a) S) →
  settles running c (p ≫= f) S.
Proof. intros Hp Hf. apply settles_bind. eapply settles_mono, Hp. intros [a|e]; [done|by intros []]. Qed.
Lemma gets_raises_nothing c {A} (f : host → A) :
  settles running c (act (gets f) : program A) (λ r, is_Some (match r with Ok a => Some a | Err _ => None end)).
Proof. apply settles_act. intros w. right. by eexists. Qed.
Lemma attempt_raises_nothing c {A} (p : program A) :
  settles running c (attempt p) (λ r, is_Some (match r with Ok a => Some a | Err _ => None end)).
Proof. apply settles_attempt, settles_any. by eexists. Qed.
Lemma try_raises_nothing c {A} (p : program A) a :
  settles running c (ptry p (λ _, mret a)) (λ r, is_Some (match r with Ok a => Some a | Err _ => None end)).
Proof. apply settles_try, settles_any. intros [b|e]; [by eexists|]. by exists a. Qed.

Lemma slow_ends c : ends (dl_id c) (run_slow_command c).
Proof. unfold ends, run_slow_command. repeat settle_step. all: by case_match. Qed.
Lemma adb_proxy_ends c : ends (dl_id c) (run_adb_proxy_command c).
Proof.
  unfold ends, run_adb_proxy_command. apply settles_after; [by apply settles_ask|]. intros o. destruct o.1; [|by repeat settle_step].
  apply settles_after; [|by intros; apply conclude_ends]. unfold pwhen. destruct (mem _ _); [apply try_raises_nothing|by eexists].
Qed.
Lemma transfer_ends c : ends (dl_id c) (run_transfer c).
Proof. unfold ends, run_transfer. by repeat settle_step. Qed.
Lemma ack_raises_nothing c i s r e :
  settles running c (_ack_command i s r e) (λ r, is_Some (match r with Ok a => Some a | Err _ => None end)).
Proof.
  unfold _ack_command. apply settles_after; [by apply settles_ask|]. intros [|]; [|by eexists].
  apply settles_act. intros w. right. by eexists.
Qed.
Lemma conclude_raises_nothing c i s r e :
  settles running c (conclude i s r e) (λ r, is_Some (match r with Ok a => Some a | Err _ => None end)).
Proof.
  unfold conclude. apply settles_after; [|intros; apply ack_raises_nothing]. apply settles_act. intros w. right. by eexists.
Qed.
Lemma suite_action_rest_ends c : ends (dl_id c) (o ← ask outcome;
  match o.1 with Ok r => conclude (dl_id c) "completed" r "" | Err e => conclude (dl_id c) "failed" no_result (exn_text e) end).
Proof. unfold ends. by repeat settle_step. Qed.
Lemma suite_action_ends reports c : ends (dl_id c) (run_suite_action reports c).
Proof.
  unfold ends, run_suite_action. apply settles_after; [|intros; apply suite_action_rest_ends].
  induction reports as [|x l IH]; [by eexists|]. apply (settles_after _ (conclude (dl_id c) "running" x "")); [|done].
  apply conclude_raises_nothing.
Qed.
Lemma usbip_ends c : ends (dl_id c) (run_usbip_action c).
Proof.
  unfold ends, run_usbip_action. cbv zeta. apply settles_finally, settles_after; [apply gets_raises_nothing|].
  intros [|]; [by apply conclude_ends|]. apply settles_after; [by apply settles_ask|]. intros o.
  destruct o.1; [|by apply conclude_ends]. apply settles_after; [|by intros; apply conclude_ends].
  apply settles_act. intros w. right. destruct (streqb _ _); by eexists.
Qed.
Lemma report_import_ends c : ends (dl_id c) (run_report_import c).
Proof.
  unfold ends, run_report_import. cbv zeta. destruct (negb _); [by apply conclude_ends|].
  apply settles_after; [apply attempt_raises_nothing|]. intros [[]|e]; [|by apply conclude_ends].
  apply settles_after; [by apply settles_ask|]. intros o. apply settles_bind. destruct o.1; by apply conclude_ends.
Qed.
Lemma flash_ends c : ends (dl_id c) (run_firmware_flash c).
Proof.
  unfold ends, run_firmware_flash. cbv zeta. destruct (negb _); [by apply settles_finally, conclude_ends|].
  apply settles_finally, settles_after; [apply attempt_raises_nothing|]. intros [[]|e]; [|by apply conclude_ends].
  apply settles_after; [by apply settles_ask|]. intros o. destruct o.1; [|by apply conclude_ends].
  apply conclude_ends. by destruct (existsb _ _).
Qed.
Lemma background_ends c reports t : background c reports = Some t → ends (dl_id c) t.
Proof.
  unfold background. intros E. repeat (case_match; [injection E as <-|]); [..|done].
  - apply slow_ends.
  - apply adb_proxy_ends.
  - apply usbip_ends.
  - apply suite_action_ends.
  - apply transfer_ends.
  - apply report_import_ends.
  - apply settles_finally, transfer_ends.
  - apply flash_ends.
Qed.
(** A process ends with one of three statuses. *)
Definition over (r : result (string * Z)) : Prop := match r with Ok (s, _) => s ≠ "running" | Err _ => True end.
Lemma wait_status wj : returns (wait_process wj) over.
Proof.
  unfold wait_process. apply returns_skip; [|done]. intros [pid|]; [|done]. apply returns_skip; [|done]. intros rc.
  apply returns_bind, returns_act. intros w. unfold mbind, M_bind, gets, set_job, modify, mret, M_ret.
  cbv beta iota zeta. cbn [fst]. apply returns_skip; [|done]. intros []. cbn. repeat case_match; done.
Qed.
Lemma recovered_status wj : returns (finish_recovered_job wj) over.
Proof.
  unfold finish_recovered_job. apply returns_skip; [|done]. intros [r|]; [|done]. apply returns_skip; [|done]. intros rc.
  cbv zeta. apply returns_skip; [|done]. intros []. cbn. repeat case_match; done.
Qed.
Lemma monitor_ends i wj : ends i (monitor_job i wj).
Proof.
  unfold ends, monitor_job. apply settles_after; [apply gets_raises_nothing|]. intros row. cbv zeta.
  apply settles_finally, settles_try.
  assert (∀ e, settles running i (conclude i "failed" no_result (exn_text e)) (λ _, False)) as Hfail by (intros; by apply conclude_ends).
  apply settles_skip; [|done]. intros ?. apply settles_returns. eapply returns_mono, wait_status.
  intros [[s rc]|e]; [|done]. intros Hs. apply settles_skip; [|done]. intros ?. by apply conclude_ends.
Qed.
Lemma monitor_recovered_ends job : ends (lj_command_id job) (monitor_recovered_job job).
Proof.
  unfold ends, monitor_recovered_job. apply settles_bind, settles_attempt.
  assert (∀ s r e, s ≠ "running" → settles running (lj_command_id job)
    (_ ← conclude (lj_command_id job) s r e; act (release_attempt_fencing (lj_attempt_id job)) : program unit) (λ _, False)) as Hend.
  { intros s r e Hs. by apply settles_bind, conclude_ends. }
  unfold _finish_recovered_job. apply settles_skip; [|intros e; by apply Hend]. intros ?.
  apply settles_returns. eapply returns_mono, recovered_status. intros [[s rc]|e]; [|intros _; by apply Hend]. intros Hs.
  apply settles_skip; [|intros e; by apply Hend]. intros o. apply settles_skip; [|intros e; by apply Hend]. intros ?.
  by apply Hend.
Qed.

(** ** Programs that answer for what they start *)

Lemma each_quiet_answers {A} (p : program A) S : each (calm running) p → responsible running p S.
Proof. apply responsible_calm. Qed.
Lemma conclude_answers i st r e (S : string → result unit → Prop) :
  (st = "running" → S i (Ok tt)) → responsible running (conclude i st r e) S.
Proof.
  intros HS. unfold conclude. apply responsible_bind; [|intros ?; apply each_quiet_answers, ack_quiet].
  apply responsible_act. intros w c [[-> Hst]|[_ ?]]%save_running; [right|by left]. cbn [fst save_command modify].
  eapply settles_mono, ack_raises_nothing. intros [[]|e']; [intros _; by apply HS|by intros []].
Qed.
Lemma reports_answer l i (S : string → result unit → Prop) :
  S i (Ok tt) → responsible running (pfor_each l (λ x, conclude i "running" x "")) S.
Proof.
  intros HS. induction l as [|x l IH]; [done|].
  apply (responsible_bind running (conclude i "running" x "")); [|done]. apply conclude_answers. intros _. clear IH.
  induction l as [|y l IH]; [done|]. apply (settles_after i (conclude i "running" y "")); [apply conclude_raises_nothing|done].
Qed.
Lemma conclude_quiet i st r e : st ≠ "running" → each (calm running) (conclude i st r e).
Proof. intros Hst. unfold conclude. each_walk; first [by apply save_quiet|apply ack_quiet]. Qed.
#[local] Hint Resolve set_job_quiet killpg_quiet detach_quiet synced_quiet all_synced_quiet recoverable_quiet
  release_quiet release_attempt_quiet ack_quiet revoke_quiet : gms.
Lemma heartbeat_quiet : each (calm running) heartbeat.
Proof. unfold heartbeat, unsynced_commands. each_walk; auto with gms. Qed.
Lemma remember_quiet a b c d : preserves (calm running) (remember_usbip_assignments a b c d).
Proof. by apply quiet_frame. Qed.
Lemma forget_quiet a b : preserves (calm running) (forget_usbip_assignments a b).
Proof. by apply quiet_frame. Qed.
Lemma remove_directory_quiet d : preserves (calm running) (remove_directory d).
Proof. by apply quiet_frame. Qed.
Lemma make_directory_quiet d e : preserves (calm running) (make_directory d e).
Proof.
  unfold make_directory. apply preserves_bind; [apply _|apply preserves_gets, _|intros there].
  apply preserves_bind; [apply _|apply preserves_require, _|intros _]. by apply quiet_frame.
Qed.
#[local] Hint Resolve remember_quiet forget_quiet remove_directory_quiet make_directory_quiet heartbeat_quiet : gms.
#[local] Hint Extern 2 (each _ (conclude _ _ _ _)) => apply conclude_quiet; repeat case_match; done : gms.
Lemma transfer_quiet c : each (calm running) (run_transfer c).
Proof. unfold run_transfer. each_walk; auto with gms. Qed.
#[local] Hint Extern 2 (preserves _ (save_command _ _ _ _)) => apply save_quiet; repeat case_match; done : gms.
Lemma background_answers c reports t : background c reports = Some t → answers t.
Proof.
  unfold background. intros E.
  destruct (streqb (dl_command_type c) "suite_action" && _) eqn:Es.
  - assert (t = run_suite_action reports c) as ->.
    { apply andb_true_iff in Es as [Es _]. bool_props. rewrite Es in E. by injection E. }
    unfold answers, run_suite_action. apply responsible_bind.
    + apply reports_answer, suite_action_rest_ends.
    + intros []. apply each_quiet_answers. each_walk; auto with gms.
  - apply each_quiet_answers. repeat (case_match; [injection E as <-|]); [..|done]; try done;
    unfold run_slow_command, run_adb_proxy_command, run_usbip_action, run_device_export, run_transfer,
      run_report_import, run_firmware_flash; each_walk; auto with gms.
    case_match; auto with gms.
Qed.
Lemma wait_quiet wj : each (calm running) (wait_process wj).
Proof. unfold wait_process. each_walk; auto with gms. Qed.
Lemma monitor_quiet i wj : each (calm running) (monitor_job i wj).
Proof.
  unfold monitor_job. apply each_bind; [by each_walk|]. intros row. cbv zeta.
  apply each_finally; [apply each_try; [|intros; by apply conclude_quiet]|by destruct row; each_walk; auto with gms].
  apply each_bind; [by destruct row; each_walk|]. intros ?.
  apply each_bind_returns; [apply wait_quiet|]. eapply returns_mono, wait_status. intros [[s rc]|e]; [|done]. intros Hs.
  apply each_bind; [by destruct row; each_walk|]. intros ?. by apply conclude_quiet.
Qed.
Lemma monitor_recovered_quiet job : each (calm running) (monitor_recovered_job job).
Proof.
  unfold monitor_recovered_job. apply each_bind_returns.
  { apply each_attempt. unfold _finish_recovered_job, finish_recovered_job. each_walk; auto with gms. }
  assert (∀ s r e, s ≠ "running" → each (calm running) (_ ← conclude (lj_command_id job) s r e;
    act (release_attempt_fencing (lj_attempt_id job)) : program unit)) as Hend.
  { intros s r e Hs. apply each_bind; [by apply conclude_quiet|intros ?]. each_walk; auto with gms. }
  assert (returns (_finish_recovered_job job) (λ r, match r with Ok (s, _, _) => s ≠ "running" | Err _ => True end)) as Hs.
  { unfold _finish_recovered_job. apply returns_skip; [|done]. intros ?. apply returns_bind.
    eapply returns_mono, recovered_status. intros [[s rc]|e]; [|done]. intros Hs.
    apply returns_skip; [|done]. intros ?. by apply returns_skip. }
  clear -Hs Hend. revert Hs. generalize (_finish_recovered_job job). intros p Hp.
  apply returns_attempt. eapply returns_mono, Hp. intros [[[s r] e]|e] Hs; by apply Hend.
Qed.
Lemma interrupted_quiet : preserves (calm running) fail_interrupted_commands.
Proof. intros h c. by apply update_running. Qed.
#[local] Hint Resolve interrupted_quiet wait_quiet monitor_quiet monitor_recovered_quiet : gms.

Section completion.
Context (worker_id data_root : string) (require_fencing : bool).
Context (in_suite_roots is_file : string → bool) (module_error : string → string → option string).
Abbreviation agent_handle := (handle worker_id data_root require_fencing in_suite_roots is_file module_error).
Abbreviation agent_step := (step worker_id data_root require_fencing in_suite_roots is_file module_error).
Abbreviation agent_history := (history worker_id data_root require_fencing in_suite_roots is_file module_error).

Lemma frame_quiet (f : host → host) : (∀ h, ho_commands (f h) = ho_commands h) → each (calm running) (act (modify f) : program unit).
Proof. intros Hf. by apply each_act, quiet_frame. Qed.
Lemma validate_quiet c : each (calm running) (validate_fencing worker_id require_fencing c).
Proof.
  unfold validate_fencing. cbv zeta. repeat (case_match; [done|]). apply each_bind; [|intros ?; each_walk; auto with gms].
  apply each_act. intros h i Hi. by destruct (admit_tokens _ _ _) as [[]|].
Qed.
Lemma started_quiet c b : preserves (calm running) (started c b).
Proof. by apply quiet_frame. Qed.
Lemma popen_quiet c : preserves (calm running) (popen c).
Proof. by intros h i. Qed.
Lemma run_test_quiet c :
  each (calm running) (start_process worker_id data_root in_suite_roots is_file module_error c).
Proof.
  unfold start_process. pose proof (popen_quiet c). each_walk; auto with gms.
Qed.
Lemma inline_quiet c : each (calm running) (inline c).
Proof. unfold inline, stop_process, previous_command. each_walk; auto with gms. Qed.
(** A command that is left to a thread. *)
Lemma thread_answers c s r thread (S : string → result unit → Prop) :
  ends (dl_id c) thread → answers thread →
  responsible running (_ ← conclude (dl_id c) s r ""; _ ← act (started c true); fork thread) S.
Proof.
  intros He Ha. apply responsible_bind.
  - apply conclude_answers. intros _. apply settles_after; [|intros ?; by left].
    apply settles_act. intros w. right. by eexists.
  - intros ?. apply responsible_bind; [apply each_quiet_answers; by apply frame_quiet|]. intros ?. by split.
Qed.
Lemma handle_answers c reports : answers (agent_handle c reports).
Proof.
  unfold answers, handle. cbv zeta. apply responsible_bind; [apply each_quiet_answers; unfold previous_command; by each_walk|].
  intros [previous|]; [apply each_quiet_answers; each_walk; auto with gms|].
  apply responsible_try; [|intros e; apply each_quiet_answers; each_walk; auto with gms].
  apply responsible_bind; [apply each_quiet_answers, validate_quiet|]. intros ?.
  destruct (background c reports) as [thread|] eqn:Eb.
  { apply thread_answers; [by eapply background_ends|by eapply background_answers]. }
  destruct (streqb _ _).
  { apply responsible_bind; [apply each_quiet_answers, run_test_quiet|]. intros result. apply responsible_bind.
    - apply conclude_answers. intros _. left. apply monitor_ends.
    - intros ?. split; [apply each_quiet_answers, monitor_quiet|done]. }
  destruct (streqb _ _); [pose proof (started_quiet c true); apply each_quiet_answers; each_walk; auto with gms|].
  apply each_quiet_answers. pose proof (inline_quiet c). pose proof (started_quiet c false). each_walk; auto with gms.
Qed.
Lemma resume_answers jobs : answers (resume jobs).
Proof. apply each_quiet_answers. unfold resume. each_walk; auto with gms. Qed.
Lemma recover_answers : answers recover.
Proof. unfold answers, recover. apply responsible_bind; [apply each_quiet_answers; each_walk; auto with gms|apply resume_answers]. Qed.
Lemma turn_answers work h :
  answers (turn worker_id data_root require_fencing in_suite_roots is_file module_error work h).
Proof.
  unfold turn. destruct (negb _); [apply recover_answers|]. destruct work as [[c reports]|]; [apply handle_answers|].
  apply each_quiet_answers, heartbeat_quiet.
Qed.

(** ** Histories *)

(** Something will record the end of whatever runs. *)
Definition covered (g : agent) : Prop := ∀ c, running c (ag_host g) → ∃ p, p ∈ ag_main g :: ag_threads g ∧ ends c p.
Definition open_job (r : local_job) : bool := mem (lj_status r) ["running"; "stopping"].
(** The agent has not resumed anything yet; or it knows which jobs to. *)
Definition booting (g : agent) : Prop :=
  ag_threads g = [] ∧ ho_recovered (ag_host g) = false ∧
  (ag_main g = idle ∨ ag_main g = recover ∨
   ∃ jobs, ag_main g = resume jobs ∧ ∀ r, r ∈ ho_jobs (ag_host g) → open_job r = true → lj_command_id r ∈ (lj_command_id <$> jobs)).
Record complete (g : agent) : Prop := {
  cp_main : answers (ag_main g);
  cp_threads : ∀ t, t ∈ ag_threads g → answers t;
  cp_covered : booting g ∨ covered g;
}.
(** A step of one of the programs. *)
Lemma program_step (p : program unit) a h p' h' ts :
  answers p → pstep p a h = Some (p', h', ts) →
  answers p' ∧ (∀ t, t ∈ ts → answers t) ∧
  (∀ c, running c h' → running c h ∨ ends c p') ∧
  (∀ c, running c h' → ends c p → ∃ q, q ∈ p' :: ts ∧ ends c q).
Proof.
  unfold answers, ends. destruct p as [r|B m k|k|t k]; cbn [responsible settles pstep].
  - done.
  - intros Hp E. destruct (m h) as [[r h1]|] eqn:Em; [|done]. injection E as <- <- <-.
    destruct (Hp h r h1 Em) as [Hk Hc]. split_and!; [done|by intros t ?%elem_of_nil|done|].
    intros c Hr Hs. destruct (Hs h r h1 Em) as [?|?]; [done|]. eexists. split; [left|done].
  - intros Hk [= <- <- <-]. split_and!; [done|by intros t ?%elem_of_nil|by left|].
    intros c _ Hs. eexists. split; [left|done].
  - intros [Ht Hk] [= <- <- <-]. split_and!; [done|by intros t' ->%list_elem_of_singleton|by left|].
    intros c _ [Hs|Hs]; eexists; (split; [|exact Hs]); [right; left|left].
Qed.
(** Restarting: the jobs that are found are the open ones; what is not one of them is failed. *)
Lemma recoverable_open h r :
  r ∈ ho_jobs (recoverable_jobs h).2 → open_job r = true →
  ∃ rows, (recoverable_jobs h).1 = Ok rows ∧ r ∈ rows.
Proof.
  unfold recoverable_jobs. intros Hr Ho. eexists. split; [reflexivity|]. cbn in Hr.
  apply elem_of_update_where in Hr as (x&Hx&->). destruct (_ && negb _) eqn:E.
  - exfalso. revert Ho. by destruct (streqb _ _).
  - apply elem_of_fetchall. split; [|done]. unfold open_job in Ho. rewrite Ho in *. cbn in *. by apply negb_false_iff in E.
Qed.
Lemma interrupted_managed h c :
  running c (fail_interrupted_commands h).2 → ∃ r, r ∈ ho_jobs h ∧ open_job r = true ∧ lj_command_id r = c.
Proof.
  intros (x&Hx&Hc&Hs). cbn in Hx. apply elem_of_update_where in Hx as (y&Hy&->).
  destruct (streqb (lc_status y) "running" && _) eqn:E; [by cbn in Hs|]. rewrite Hs in E. cbn in E.
  apply negb_false_iff, exists_row_true in E as (r&Hr&E). apply andb_true_iff in E as [[E1 E2]%andb_true_iff E3].
  exists r. split_and!; [done|done|]. bool_props. congruence.
Qed.
Lemma resumed_ends jobs c (items : list local_command) :
  c ∈ (lj_command_id <$> jobs) →
  ends c (_ ← pfor_each items (λ r, _ack_command (lc_id r) "failed" reconcile_result interrupted);
          _ ← pfor_each jobs (λ job, fork (monitor_recovered_job job));
          act (modify (λ h, h <| ho_recovered := true |>))).
Proof.
  intros Hc. unfold ends. apply settles_after.
  - induction items as [|x l IH]; [by eexists|]. apply (settles_after c (_ack_command (lc_id x) "failed" reconcile_result interrupted)); [apply ack_raises_nothing|done].
  - intros _. apply settles_bind. apply list_elem_of_fmap in Hc as (job&->&Hj).
    induction jobs as [|x l IH]; [by apply elem_of_nil in Hj|].
    apply elem_of_cons in Hj as [<-|Hj]; [left; apply monitor_recovered_ends|right; by apply IH].
Qed.
Lemma environment_complete g f :
  (∀ h, ho_commands (f h) = ho_commands h ∧ ho_jobs (f h) = ho_jobs h ∧ ho_recovered (f h) = ho_recovered h) →
  complete g → complete (g <| ag_host ::= f |>).
Proof.
  intros Hf [Hm Ht Hc]. destruct (Hf (ag_host g)) as (H1&H2&H3). split; [done|done|]. destruct Hc as [(Et&Er&Hb)|Hc].
  - left. split; [done|]. split; [cbn; congruence|]. destruct Hb as [?|[?|(jobs&?&Hj)]]; [by left|by right; left|].
    right; right. exists jobs. split; [done|]. intros r Hr. apply Hj. cbn in Hr. by rewrite H2 in Hr.
  - right. intros c (r&Hr&E). apply Hc. exists r. cbn in Hr. by rewrite H1 in Hr.
Qed.
(** A program steps while the others keep what they have. *)
Lemma step_covered (others : list (program unit)) p p' ts a h h' :
  pstep p a h = Some (p', h', ts) → answers p →
  (∀ c, running c h → ∃ q, q ∈ p :: others ∧ ends c q) →
  ∀ c, running c h' → ∃ q, q ∈ p' :: others ++ ts ∧ ends c q.
Proof.
  intros E Hp Hc c Hr. destruct (program_step p a h p' h' ts Hp E) as (_&_&H1&H2).
  destruct (H1 c Hr) as [Hr'|He]; [|exists p'; by split; [left|]].
  destruct (Hc c Hr') as (q&[->|Hq]%elem_of_cons&He).
  - destruct (H2 c Hr He) as (q&[->|Hq]%elem_of_cons&He'); [by exists p'; split; [left|]|].
    exists q. split; [|done]. right. apply elem_of_app. by right.
  - exists q. split; [|done]. right. apply elem_of_app. by left.
Qed.
Lemma boot_step g a p h ts :
  booting g → pstep (ag_main g) a (ag_host g) = Some (p, h, ts) → booting (Agent h p (ag_threads g ++ ts)) ∨ covered (Agent h p (ag_threads g ++ ts)).
Proof.
  intros (Et&Er&[->|[->|(jobs&->&Hj)]]) E; [done| |].
  - left. pose proof (recoverable_open (ag_host g)) as Ho. cbn [pstep recover act mbind prog_bind pbind] in E.
    injection E as <- <- <-. split; [by rewrite Et|]. split; [done|]. right; right. eexists. split; [reflexivity|].
    intros r Hr Hopen. destruct (Ho r Hr Hopen) as (rows&[= <-]&Hin). by apply list_elem_of_fmap_2.
  - right. pose proof (interrupted_managed (ag_host g)) as Hm. unfold resume in E. cbn [pstep act mbind prog_bind pbind] in E.
    injection E as <- <- <-. intros c Hc. eexists. split; [left|]. apply resumed_ends.
    destruct (Hm c Hc) as (r&Hr&Hopen&<-). by apply Hj.
Qed.
Lemma step_complete m g : complete g → complete (agent_step m g).
Proof.
  intros Hg. pose proof Hg as [Hm Ht Hc]. destruct m as [work|a|i a|pid rc b|t|]; cbn [step].
  - destruct (ag_main g) as [r|? ? ?|?|? ?] eqn:Em; try done. split; [apply turn_answers|done|]. destruct Hc as [(Et&Er&_)|Hc].
    + left. split; [done|]. split; [done|]. right; left. cbn. unfold turn. by rewrite Er.
    + right. intros c Hr. destruct (Hc c Hr) as (q&[->|Hq]%elem_of_cons&He); [by rewrite Em in He|].
      exists q. split; [by right|done].
  - destruct (pstep (ag_main g) a (ag_host g)) as [[[p h] ts]|] eqn:E; [|done].
    destruct (program_step _ _ _ _ _ _ Hm E) as (Hp&Hts&_&_). split; [done| |].
    + intros t [?|?]%elem_of_app; auto.
    + destruct Hc as [Hb|Hc]; [by eapply boot_step|]. right. intros c Hr. by eapply step_covered.
  - destruct (ag_threads g !! i) as [t|] eqn:Ei; [|done].
    destruct (pstep t a (ag_host g)) as [[[p h] ts]|] eqn:E; [|done].
    apply list_elem_of_lookup_2 in Ei as Hin.
    destruct (program_step _ _ _ _ _ _ (Ht t Hin) E) as (Hp&Hts&_&_). split; cbn; [done| |].
    + intros t' [[j Hj]%list_elem_of_lookup|?]%elem_of_app; [|auto]. rewrite list_lookup_insert_Some in Hj.
      destruct Hj as [(_&<-&_)|[_ Hj]]; [done|]. apply Ht. by eapply list_elem_of_lookup_2.
    + destruct Hc as [(Et&_)|Hc]; [by rewrite Et in Ei|]. right. intros c Hr. cbn in *.
      assert (<[i:=p]> (ag_threads g) ≡ₚ p :: delete i (ag_threads g)) as Hperm.
      { rewrite insert_take_drop by (by eapply lookup_lt_Some). by rewrite delete_take_drop, Permutation_middle. }
      destruct (step_covered (ag_main g :: delete i (ag_threads g)) t p ts a (ag_host g) h E (Ht t Hin)) with (c := c) as (q&Hq&He); [|done|].
      { intros c' Hr'. destruct (Hc c' Hr') as (q&Hq&He). exists q. split; [|done].
        rewrite (delete_Permutation _ _ _ Ei) in Hq. set_solver. }
      exists q. split; [|done]. rewrite Hperm. set_solver.
  - apply environment_complete; [|done]. intros h. unfold process_ends. by repeat case_match.
  - by apply environment_complete.
  - split; cbn; [done|by intros t ?%elem_of_nil|]. left. split; [done|]. split; [done|]. by left.
Qed.
Lemma history_complete l : complete (agent_history l new_agent).
Proof.
  induction l as [|m l IH] using rev_ind.
  - split; cbn; [done|by intros t ?%elem_of_nil|]. left. split; [done|]. split; [done|]. by left.
  - rewrite history_app. by apply step_complete.
Qed.

(** [C20] No accepted command is forgotten.  Whatever happened to the agent, restarts included: once it
    has resumed its work and is between two turns, every command that is recorded as running has a
    thread of its own that is not through yet and that, on each of its paths, records how the
    command ended: whatever tools answer and whoever cannot be reached. *)
Theorem running_commands_end (l : list move) (r : result unit) (c : string) :
  let g := agent_history l new_agent in
  ho_recovered (ag_host g) = true → ag_main g = Return r → running c (ag_host g) →
  ∃ t, t ∈ ag_threads g ∧ ends c t.
Proof.
  cbv zeta. intros Hr Hm Hc. destruct (history_complete l) as [_ _ [(_&Hb&_)|Hcov]]; [congruence|].
  destruct (Hcov c Hc) as (t&[->|Ht]%elem_of_cons&He); [|by exists t]. by rewrite Hm in He.
Qed.
End completion.

(** ** A worker at work *)

(** A test that runs on; the agent is restarted, and the test is watched again; a device action that a
    restart interrupts is failed. *)
Definition action : delivered := sample_command "c2" "device_action" (sample_payload [LeaseToken "lease-b" "w1:d2" 3 "b"] ["d2"] "").
Definition busy : list move :=
  boot ++ launch (sample_test "c1" "a1" 5) 12 ++ MainTurn (Some (action, [])) :: replicate 12 (MainStep fine)
  ++ AgentRestarts :: boot ++ replicate 8 (MainStep fine).
Definition statuses (g : agent) : list (string * string) := (λ r, (lc_id r, lc_status r)) <$> ho_commands (ag_host g).
Lemma busy_statuses :
  statuses (sample_run (take 31 busy) new_agent) = [("c1", "running"); ("c2", "running")] ∧
  statuses (sample_run busy new_agent) = [("c1", "running"); ("c2", "failed")].
Proof. vm_compute. by split. Qed.
Lemma running_commands_end_witness : ∃ t, t ∈ ag_threads (sample_run busy new_agent) ∧ ends "c1" t.
Proof.
  apply (running_commands_end "w1" "/data" true (λ _, true) (λ _, true) (λ _ _, None) busy (Ok tt) "c1").
  - vm_compute. reflexivity.
  - vm_compute. reflexivity.
  - vm_compute. eexists. split; [left|]. by split.
Defined.

(** ** Races *)

Definition main_steps (n : nat) (a : answer) : list move := replicate n (MainStep a).
Definition thread_steps (i n : nat) (a : answer) : list move := replicate n (ThreadStep i a).
(** A test is stopped while its monitor sleeps between two looks at the process. *)
Definition stopping : list move := boot ++ launch (sample_test "c1" "a1" 5) 12
  ++ MainTurn (Some (sample_command "c3" "stop_test" (sample_payload [] [] "wj-c1"), [])) :: main_steps 5 fine ++ [ProcessEnds 1 130 true].
(** The monitor finds the process detached: the command of the stopped test failed, with an error of the
    agent; had the monitor looked first, it was cancelled. *)
Lemma stopped_test_fails :
  statuses (sample_run (stopping ++ main_steps 8 fine ++ thread_steps 0 14 fine) new_agent) = [("c1", "failed"); ("c3", "completed")] ∧
  statuses (sample_run (stopping ++ thread_steps 0 14 fine ++ main_steps 8 fine) new_agent) = [("c1", "cancelled"); ("c3", "completed")].
Proof. vm_compute. by split. Qed.
(** No acknowledgement arrives.  A heartbeat reports the command as running; before its answer is
    there, the thread records the end. *)
Definition unheard : list move := boot ++ MainTurn (Some (action, [])) :: main_steps 9 (Delivery false)
  ++ MainTurn None :: main_steps 1 fine ++ thread_steps 0 1 fine ++ thread_steps 0 4 (Delivery false)
  ++ main_steps 3 (Heard (Some ([], ["c2"]))).
(** The row counts as synchronised: no heartbeat will report the end, and no thread is left to. *)
Lemma end_never_reported :
  let g := sample_run unheard new_agent in
  statuses g = [("c2", "completed")] ∧ (unsynced_commands (ag_host g)).1 = Ok [] ∧
  ag_main g = idle ∧ (∀ t, t ∈ ag_threads g → t = idle).
Proof. vm_compute. split_and!; [done..|]. by intros t ->%list_elem_of_singleton. Qed.
(** Two flashing commands with one stage: the second one cannot make the directory, and removes it
    while the first one works. *)
Definition flash (id lease device : string) : delivered := sample_command id "flash_firmware"
  (WorkerPayload [LeaseToken lease ("w1:" +:+ device) 1 lease] [device] false "" "" None [] "" "" "" [] "" 0
     "fw-00112233445566778899aabbccddeeff" "").
Definition flashing : list move := boot ++ MainTurn (Some (flash "c5" "x" "d1", [])) :: main_steps 9 fine
  ++ MainTurn (Some (flash "c6" "y" "d2", [])) :: main_steps 9 fine ++ thread_steps 0 1 fine.
Lemma staging_of_another_removed :
  ho_staging (ag_host (sample_run flashing new_agent)) = ["firmware/fw-00112233445566778899aabbccddeeff"] ∧
  ho_staging (ag_host (sample_run (flashing ++ thread_steps 1 9 fine) new_agent)) = [] ∧
  statuses (sample_run (flashing ++ thread_steps 1 9 fine) new_agent) = [("c5", "running"); ("c6", "failed")].
Proof. vm_compute. by split_and!. Qed.
