(* ===== verification/Authority.v ===== *)
(** Principals and the machine authority of [features/auth/constants.py] and
    [features/auth/authority.py]: what a role may do, which capabilities an automation
    run snapshots from its creator, and the signed token that carries the snapshot to
    the worker and back.

    The HMAC of Python's [hmac] module is a parameter of the section ([hmac_sha256]), of
    which only the form of its result is used: hexadecimal digits.  The signing key is the
    value [derive_application_key] returns.  A time is in seconds, [time.time()] truncated. *)

From stdpp Require Import gmap.
From S2P Require Import Prelude Encodings.

Open Scope Z_scope.

(** ** Principals *)

#[warnings="-notation-for-abbreviation"]
Notation permissions := (gset string).

(* src/features/auth/constants.py:103-131 CurrentUser *)
Record current_user := CurrentUserOf {
  cu_id : string;
  cu_username : string;
  cu_role : string;
  cu_display_name : string;
  cu_extra_permissions : permissions;
  cu_resource_owner_id : string;
}.
#[export] Instance current_user_eta : Eta current_user := λ u,
  CurrentUserOf (cu_id u) (cu_username u) (cu_role u) (cu_display_name u)
    (cu_extra_permissions u) (cu_resource_owner_id u).

(* src/features/auth/constants.py:125-128 CurrentUser.__post_init__ *)
Definition current_user_post_init (u : current_user) : current_user :=
  if nonempty (cu_resource_owner_id u) then u else u <| cu_resource_owner_id := cu_id u |>.

(* src/features/auth/constants.py:15-15 AGENT_ROLE *)
Definition AGENT_ROLE : string := "agent_service".

(* src/features/auth/constants.py:50-96 ROLE_PERMISSIONS *)
Definition ROLE_PERMISSIONS (role : string) : permissions :=
  if streqb role "user" then list_to_set
    ["tests.execute"; "tests.cancel"; "jobs.read"; "reports.read"; "devices.use_leased";
     "redmine.read"; "artifacts.read_own"; "apk.analyze_own"; "sdk.read"; "knowledge.read";
     "email.send"; "build.read"; "build.execute"; "build.cancel"]
  else if streqb role "device_operator" then list_to_set
    ["tests.execute"; "tests.cancel"; "jobs.read"; "reports.read"; "devices.use_leased";
     "devices.inventory"; "devices.lease"; "devices.read"; "redmine.read"; "artifacts.read_own";
     "apk.analyze_own"; "sdk.read"; "knowledge.read"; "email.send"; "build.read";
     "build.execute"; "build.cancel"]
  else if streqb role "admin" then {["*"]}
  else if streqb role "worker_service" then list_to_set
    ["worker.register"; "worker.heartbeat"; "worker.commands"; "worker.artifacts"]
  else ∅.

(* src/features/auth/constants.py:146-147 CurrentUser.effective_permissions *)
Definition effective_permissions (u : current_user) : permissions :=
  ROLE_PERMISSIONS (cu_role u) ∪ cu_extra_permissions u.

(* src/features/auth/constants.py:149-150 CurrentUser.has_permission *)
Definition has_permission (u : current_user) (permission : string) : bool :=
  bool_decide ("*" ∈ effective_permissions u) || bool_decide (permission ∈ effective_permissions u).

(** ** The capability snapshot of a run *)

(* src/features/auth/authority.py:46-57 MACHINE_PERMISSIONS *)
Definition CAPABILITY_TOKEN_PREFIX : string := "gmscap_v1_".
Definition MACHINE_PERMISSIONS : list string := ["jobs.read"; "reports.read"].
Definition CAPABILITY_TTL_SECONDS : Z := 2 * 60 * 60.

(* src/features/auth/authority.py:62-72 AUTOMATION_PLAN_CAPABILITIES *)
Definition AUTOMATION_PLAN_CAPABILITIES : list string :=
  ["build.read"; "build.execute"; "build.cancel"; "devices.read"; "devices.lease";
   "devices.use_leased"; "tests.execute"; "tests.cancel"; "firmware.stage"].

(** The keys of a test plan the compiler looks at: [flash.get("mode")] when [flash] is an
    object, and whether [build] is one. *)
Record plan_shape := PlanShape {
  ps_flash_mode : option string;
  ps_has_build : bool;
}.

Definition sorted_texts (s : permissions) : list string := order_by String.leb (elements s).

(* src/features/auth/authority.py:79-125 automation_granted_capabilities *)
Definition automation_granted_capabilities (principal : option current_user) (plan : plan_shape)
    : result (list string) :=
  match principal with
  | None => Ok []
  | Some p =>
      let granted0 :=
        (if bool_decide (ps_flash_mode plan = Some "skip") then [] else ["firmware.stage"])
        ++ (if ps_has_build plan then ["build.execute"; "build.cancel"; "build.read"] else [])
        ++ ["devices.lease"; "devices.read"; "devices.use_leased"; "tests.execute"; "tests.cancel"] in
      let granted := filter (λ name, name ∈ granted0) AUTOMATION_PLAN_CAPABILITIES in
      let missing := filter (λ name, has_permission p name = false) granted in
      match missing with
      | [] => Ok granted
      | _ => Err (ValueError ("Automation plan requires capabilities the caller does not hold: "
                    +:+ join ", " (sorted_texts (list_to_set missing))))
      end
  end.

Definition known_capabilities : list string := AUTOMATION_PLAN_CAPABILITIES ++ MACHINE_PERMISSIONS.

(* src/features/auth/authority.py:128-158 automation_authority *)
Definition automation_authority (run_id created_by : string) (granted : list string) : current_user :=
  let names := filter (λ name, nonempty name = true) granted in
  current_user_post_init
    (CurrentUserOf ("automation:" +:+ run_id) ("automation:" +:+ run_id) AGENT_ROLE
       ("Automation run " +:+ run_id)
       (list_to_set (filter (λ name, name ∈ known_capabilities) names) ∪ list_to_set MACHINE_PERMISSIONS)
       created_by).

(** The columns of a run [run_authority] reads, and the snapshot [prepare_run] stores:
    [",".join(granted_capabilities)]. *)
(* src/features/automation/service.py:70-84 AutomationService.run_authority *)
Definition run_authority (run_id created_by owner granted_text : string) : current_user :=
  let granted := filter (λ part, nonempty part = true) (strip <$> split_on "," granted_text) in
  automation_authority run_id (str_or created_by owner) granted.

(* src/features/auth/authority.py:273-279 is_machine_principal *)
Definition is_machine_principal (user : option current_user) : bool :=
  match user with Some u => startswith "automation:" (cu_id u) | None => false end.

(** ** The capability token *)

(* src/features/auth/authority.py:165-168 _encode_field *)
Definition encode_field (value : string) : string := rstrip_char "=" (urlsafe_b64encode value).

(* src/features/auth/authority.py:171-176 _decode_field *)
Definition decode_field (value : string) : option string :=
  if ascii_text value then
    match urlsafe_b64decode (value +:+ padding value) with
    | Some s => if utf8_valid false s then Some s else None
    | None => None
    end
  else None.

(** [hmac.compare_digest] of two texts: both have to be ASCII. *)
Definition compare_digest (a b : string) : result bool :=
  if ascii_text a && ascii_text b then Ok (streqb a b)
  else Err (TypeError "comparing strings with non-ASCII characters is not supported").

(** The items of a decoded list that can be capability names: [str] of a number, a
    literal, a list or an object is not a known name, and [automation_authority] drops
    what is not known. *)
Definition text_items (l : list json) : list string :=
  omap (λ v, match v with JStr s => Some s | _ => None end) l.

Section token.
Context (hmac_sha256 : string → string → string) (signing_key : string).

(* src/features/auth/authority.py:179-222 mint_capability_token *)
Definition mint_capability_token (now : Z) (nonce : string) (principal : current_user)
    (ttl_seconds : Z) : result string :=
  let principal_id := cu_id principal in
  let owner_id := cu_resource_owner_id principal in
  if negb (startswith "automation:" principal_id) then
    Err (ValueError "capability tokens can only be minted for automation principals")
  else if negb (nonempty owner_id) then
    Err (ValueError "capability tokens require the creating account (resource owner)")
  else
    let expires := now + Z.max 60 ttl_seconds in
    let capabilities := sorted_texts (cu_extra_permissions principal) in
    let payload := join "."
      [encode_field (pretty expires); encode_field nonce; encode_field principal_id;
       encode_field owner_id; encode_field (json_dumps_list capabilities)] in
    let digest := hmac_sha256 signing_key payload in
    Ok (CAPABILITY_TOKEN_PREFIX +:+ payload +:+ "." +:+ digest).

(* src/features/auth/authority.py:225-270 verify_capability_token *)
Definition verify_capability_token (now : Z) (token : string) : result (option current_user) :=
  if negb (startswith CAPABILITY_TOKEN_PREFIX token) then Ok None
  else
    match split_on "." (removeprefix CAPABILITY_TOKEN_PREFIX token) with
    | [p1; p2; p3; p4; p5; digest] =>
        let payload := join "." [p1; p2; p3; p4; p5] in
        let expected := hmac_sha256 signing_key payload in
        match compare_digest expected digest with
        | Err e => Err e
        | Ok false => Ok None
        | Ok true =>
          match decode_field p1, decode_field p2, decode_field p3, decode_field p4, decode_field p5 with
          | Some expires_raw, Some _, Some principal_id, Some owner_id, Some capabilities_raw =>
              match py_int expires_raw with
              | None => Ok None
              | Some expires =>
                  if Z.ltb expires now then Ok None
                  else if negb (startswith "automation:" principal_id) || negb (nonempty owner_id)
                  then Ok None
                  else
                    match json_loads capabilities_raw with
                    | Some (JList capabilities) =>
                        Ok (Some (automation_authority (removeprefix "automation:" principal_id)
                                    owner_id (text_items capabilities)))
                    | _ => Ok None
                    end
              end
          | _, _, _, _, _ => Ok None
          end
        end
    | _ => Ok None
    end.
End token.

(** ** Lemmas *)

Lemma startswith_app p s : startswith p (p +:+ s) = true.
Proof.
  induction p as [|a p IH]; [by destruct s|].
  change (String a p +:+ s) with (String a (p +:+ s)). simpl. by rewrite bool_decide_eq_true_2.
Qed.
Lemma removeprefix_app p s : removeprefix p (p +:+ s) = s.
Proof.
  induction p as [|a p IH]; [by destruct s|].
  change (String a p +:+ s) with (String a (p +:+ s)). cbn [removeprefix].
  change (String a (p +:+ s)) with (String a p +:+ s). by rewrite startswith_app.
Qed.

Lemma sorted_texts_spec (s : permissions) x : x ∈ sorted_texts s ↔ x ∈ s.
Proof. unfold sorted_texts. by rewrite elem_of_order_by, elem_of_elements. Qed.
Lemma text_items_strs l : text_items (JStr <$> l) = l.
Proof. induction l as [|x l IH]; [done|]. by apply (f_equal (cons x)). Qed.

Lemma known_ascii x : x ∈ known_capabilities → ascii_text x = true.
Proof.
  assert (Forall (λ x, ascii_text x = true) known_capabilities) as H
    by (apply (bool_decide_unpack _); by vm_compute).
  intros Hx. by eapply Forall_forall in H.
Qed.
Lemma known_nonempty x : x ∈ known_capabilities → nonempty x = true.
Proof.
  assert (Forall (λ x, nonempty x = true) known_capabilities) as H
    by (apply (bool_decide_unpack _); by vm_compute).
  intros Hx. by eapply Forall_forall in H.
Qed.

(** What a machine principal may do: the known names of its snapshot and the floor. *)
Lemma authority_permissions run_id created_by granted x :
  x ∈ cu_extra_permissions (automation_authority run_id created_by granted) ↔
  (x ∈ granted ∧ x ∈ known_capabilities) ∨ x ∈ MACHINE_PERMISSIONS.
Proof.
  assert (cu_extra_permissions (automation_authority run_id created_by granted) =
    list_to_set (filter (λ name, name ∈ known_capabilities) (filter (λ name, nonempty name = true) granted))
      ∪ list_to_set MACHINE_PERMISSIONS) as ->.
  { unfold automation_authority, current_user_post_init. by case_match. }
  rewrite elem_of_union, !elem_of_list_to_set, !list_elem_of_filter.
  split; [tauto|]. intros [[??]|?]; [|by right]. left. auto using known_nonempty.
Qed.
Lemma authority_known run_id created_by granted x :
  x ∈ cu_extra_permissions (automation_authority run_id created_by granted) → x ∈ known_capabilities.
Proof.
  rewrite authority_permissions. unfold known_capabilities. rewrite elem_of_app. tauto.
Qed.
Lemma authority_role run_id created_by granted :
  cu_role (automation_authority run_id created_by granted) = AGENT_ROLE.
Proof. unfold automation_authority, current_user_post_init. by case_match. Qed.
Lemma authority_has_permission run_id created_by granted x :
  has_permission (automation_authority run_id created_by granted) x = true ↔
  x ∈ cu_extra_permissions (automation_authority run_id created_by granted).
Proof.
  unfold has_permission, effective_permissions. rewrite authority_role.
  change (ROLE_PERMISSIONS AGENT_ROLE) with (∅ : permissions). rewrite union_empty_l_L.
  rewrite bool_decide_eq_false_2.
  - simpl. by rewrite bool_decide_eq_true.
  - intros H%authority_known. revert H. apply (bool_decide_unpack _). by vm_compute.
Qed.

Lemma decode_encode s : utf8_valid false s = true → decode_field (encode_field s) = Some s.
Proof.
  intros Hs. unfold decode_field, encode_field. fold (b64_field s).
  destruct (b64_unpadded s) as (_&_&->). by rewrite b64_round_trip, Hs.
Qed.
Lemma pretty_Z_of_N (n : N) : pretty (Z.of_N n) = pretty n.
Proof. by destruct n. Qed.

Lemma authority_shape run_id created_by granted :
  cu_id (automation_authority run_id created_by granted) = "automation:" +:+ run_id ∧
  cu_resource_owner_id (automation_authority run_id created_by granted) =
    str_or created_by ("automation:" +:+ run_id).
Proof.
  unfold automation_authority, current_user_post_init, str_or, nonempty. simpl.
  by destruct (decide (created_by = "")) as [->|Hne]; [|rewrite bool_decide_eq_true_2].
Qed.

Lemma authority_eta run_id created_by granted :
  automation_authority run_id created_by granted =
  CurrentUserOf ("automation:" +:+ run_id) ("automation:" +:+ run_id) AGENT_ROLE
    ("Automation run " +:+ run_id)
    (cu_extra_permissions (automation_authority run_id created_by granted))
    (str_or created_by ("automation:" +:+ run_id)).
Proof.
  unfold automation_authority, current_user_post_init, str_or, nonempty. simpl.
  by destruct (decide (created_by = "")) as [->|Hne]; [|rewrite bool_decide_eq_true_2].
Qed.

(** The owner a machine principal ends up with is its own owner again. *)
Lemma authority_restored run_id created_by granted granted' :
  (∀ x, x ∈ known_capabilities → x ∈ granted' ↔ x ∈ cu_extra_permissions
     (automation_authority run_id created_by granted)) →
  automation_authority run_id
    (cu_resource_owner_id (automation_authority run_id created_by granted)) granted' =
  automation_authority run_id created_by granted.
Proof.
  intros Hg. destruct (authority_shape run_id created_by granted) as [_ Ho].
  etrans; [apply authority_eta|]. etrans; [|symmetry; apply authority_eta]. f_equal.
  - apply set_eq. intros x. rewrite authority_permissions. split.
    + intros [[Hx Hk]|Hx]; [by apply Hg|]. apply authority_permissions. by right.
    + intros Hx. left. pose proof (authority_known _ _ _ _ Hx). by rewrite Hg.
  - rewrite Ho. unfold str_or. by repeat case_decide.
Qed.

Section token_lemmas.
Context (hmac_sha256 : string → string → string) (signing_key : string).
(** [hexdigest()]: lower-case hexadecimal digits. *)
Definition hex_digest_form : Prop :=
  ∀ k m, lacks "." (hmac_sha256 k m) = true ∧ ascii_text (hmac_sha256 k m) = true.

Lemma signed_parts fields :
  hex_digest_form → length fields = 5%nat → Forall (λ x, lacks "." x = true) fields →
  let digest := hmac_sha256 signing_key (join "." fields) in
  split_on "." (removeprefix CAPABILITY_TOKEN_PREFIX
    (CAPABILITY_TOKEN_PREFIX +:+ join "." fields +:+ "." +:+ digest)) = fields ++ [digest] ∧
  compare_digest digest digest = Ok true.
Proof.
  intros Hh Hl Hf digest. destruct (Hh signing_key (join "." fields)) as [Hd Ha].
  rewrite removeprefix_app. split.
  - replace (join "." fields +:+ "." +:+ digest) with (join (String "." "") (fields ++ [digest])).
    + apply split_on_join; [by destruct fields|]. apply Forall_app. auto.
    + destruct fields as [|f1 [|f2 [|f3 [|f4 [|f5 [|]]]]]]; try discriminate Hl.
      simpl. by rewrite !string_app_assoc.
  - unfold compare_digest, digest, streqb. by rewrite Ha, bool_decide_eq_true_2.
Qed.
Lemma encode_field_dotless s : lacks "." (encode_field s) = true.
Proof. by destruct (b64_unpadded s) as (_&?&_). Qed.
Lemma automation_utf8 run_id :
  utf8_valid false run_id = true → utf8_valid false ("automation:" +:+ run_id) = true.
Proof. done. Qed.
Lemma owner_utf8 run_id created_by granted :
  utf8_valid false run_id = true → utf8_valid false created_by = true →
  utf8_valid false (cu_resource_owner_id (automation_authority run_id created_by granted)) = true ∧
  cu_resource_owner_id (automation_authority run_id created_by granted) ≠ "".
Proof.
  intros Hr Hc. destruct (authority_shape run_id created_by granted) as [_ ->].
  unfold str_or. case_decide; [|done]. by split; [apply automation_utf8|].
Qed.
Lemma snapshot_ascii run_id created_by granted :
  Forall (λ x, ascii_text x = true)
    (sorted_texts (cu_extra_permissions (automation_authority run_id created_by granted))).
Proof.
  apply Forall_forall. intros x Hx%sorted_texts_spec. eapply known_ascii, authority_known, Hx.
Qed.

(** [C37] The signed capability token gives the worker back exactly the principal it was minted
    for: for a machine principal of any run, whatever capabilities its snapshot holds,
    minting succeeds, and verifying the token restores the same account, owner and
    permissions until the token's lifetime (at least a minute) is over, and nobody after it.
    The text fields survive their URL-safe Base64 and JSON encodings unchanged. *)
Theorem capability_round_trip minted nonce ttl run_id created_by granted :
  hex_digest_form → 0 ≤ minted → ascii_text nonce = true →
  utf8_valid false run_id = true → utf8_valid false created_by = true →
  let p := automation_authority run_id created_by granted in
  ∃ token,
    mint_capability_token hmac_sha256 signing_key minted nonce p ttl = Ok token ∧
    ∀ now, verify_capability_token hmac_sha256 signing_key now token =
           Ok (if Z.leb now (minted + Z.max 60 ttl) then Some p else None).
Proof.
  intros Hh Hm Hn Hr Hc p. destruct (owner_utf8 run_id created_by granted Hr Hc) as [Ho Hne].
  destruct (authority_shape run_id created_by granted) as [Hid _].
  unfold mint_capability_token. unfold p at 1 2. rewrite Hid, startswith_app. cbn [negb]. cbv iota.
  unfold nonempty at 1. rewrite bool_decide_eq_true_2 by done. cbn [negb]. cbv iota zeta.
  eexists. split; [done|]. intros now. unfold verify_capability_token. rewrite startswith_app.
  cbn [negb]. cbv iota.
  match goal with |- context [join "." ?fs] =>
    destruct (signed_parts fs Hh eq_refl) as [-> Hcmp];
      [repeat (constructor; [apply encode_field_dotless|]); constructor|] end.
  cbn [app]. cbv zeta. rewrite Hcmp. rewrite !decode_encode.
  2:{ apply ascii_utf8, json_dumps_ascii, snapshot_ascii. }
  2:{ exact Ho. }
  2:{ unfold p. rewrite Hid. by apply automation_utf8. }
  2:{ by apply ascii_utf8. }
  2:{ rewrite <-(Z2N.id (minted + Z.max 60 ttl)), pretty_Z_of_N by lia. apply ascii_utf8.
      eapply all_chars_impl; [|apply pretty_digits]. intros a Ha. by destruct (digit_facts a Ha) as (_&_&_&?). }
  rewrite <-(Z2N.id (minted + Z.max 60 ttl)) at 1 by lia.
  rewrite pretty_Z_of_N, py_int_pretty, Z2N.id by lia.
  rewrite Z.leb_antisym. destruct (Z.ltb _ now); [done|]. cbn [negb]. cbv iota.
  unfold p at 1. rewrite Hid, startswith_app. unfold nonempty. rewrite bool_decide_eq_true_2 by done.
  cbn [negb orb]. cbv iota. rewrite json_round_trip by apply snapshot_ascii. rewrite text_items_strs.
  unfold p. rewrite Hid. rewrite removeprefix_app. do 2 f_equal. apply authority_restored.
  intros x _. apply sorted_texts_spec.
Qed.
End token_lemmas.

(** ** The snapshot *)

Lemma snapshot_text l :
  Forall (λ x, lacks "," x = true ∧ no_space x = true ∧ nonempty x = true) l →
  filter (λ part, nonempty part = true) (strip <$> split_on "," (join "," l)) = l.
Proof.
  intros Hl. destruct l as [|x l]; [done|].
  change (join "," (x :: l)) with (join (String "," "") (x :: l)).
  rewrite split_on_join; [|done|by eapply Forall_impl; [exact Hl|]; intros y [? _]].
  generalize dependent (x :: l). clear. intros l Hl. induction Hl as [|x l (_&Hs&Hn) Hl IH]; [done|].
  rewrite fmap_cons, no_space_strip by done. rewrite filter_cons_True by done. by f_equal.
Qed.
Lemma plan_capability_text x :
  x ∈ AUTOMATION_PLAN_CAPABILITIES → lacks "," x = true ∧ no_space x = true ∧ nonempty x = true.
Proof.
  assert (Forall (λ x, lacks "," x = true ∧ no_space x = true ∧ nonempty x = true)
    AUTOMATION_PLAN_CAPABILITIES) as H by (apply (bool_decide_unpack _); by vm_compute).
  intros Hx. by eapply Forall_forall in H.
Qed.
Lemma granted_spec creator plan granted :
  automation_granted_capabilities (Some creator) plan = Ok granted →
  ∀ x, x ∈ granted → x ∈ AUTOMATION_PLAN_CAPABILITIES ∧ has_permission creator x = true.
Proof.
  unfold automation_granted_capabilities. case_match eqn:E; [|done]. intros [= <-] x Hx.
  pose proof Hx as [_ Hp]%list_elem_of_filter. split; [done|]. apply not_false_iff_true. intros Hn.
  match type of E with ?m = [] => assert (x ∈ m) as Hin end.
  { by apply list_elem_of_filter. }
  rewrite E in Hin. by apply not_elem_of_nil in Hin.
Qed.
Lemma granted_none plan : automation_granted_capabilities None plan = Ok [].
Proof. done. Qed.

Lemma verified_known hmac key now token q :
  verify_capability_token hmac key now token = Ok (Some q) →
  ∃ run_id owner caps, q = automation_authority run_id owner caps.
Proof.
  unfold verify_capability_token. intros H.
  repeat (case_match; simplify_eq); eauto.
Qed.

(** A machine principal never has more authority than the human who created the run: when
    the creator's capability snapshot is taken, the principal later built from the stored text
    may do exactly the snapshotted capabilities, each of which the creator holds, and the two
    fixed machine permissions; and no capability token, forged or not, ever resolves to a
    principal that may do anything but plan capabilities and these two (in particular it is
    never an administrator). *)
Theorem machine_authority_bounded hmac_sha256 signing_key creator plan granted run_id created_by owner :
  automation_granted_capabilities (Some creator) plan = Ok granted →
  (∀ x, has_permission (run_authority run_id created_by owner (join "," granted)) x = true ↔
        x ∈ granted ∨ x ∈ MACHINE_PERMISSIONS) ∧
  (∀ x, x ∈ granted → has_permission creator x = true) ∧
  (∀ now token q x,
     verify_capability_token hmac_sha256 signing_key now token = Ok (Some q) →
     has_permission q x = true → x ∈ known_capabilities).
Proof.
  intros Hg. pose proof (granted_spec _ _ _ Hg) as Hspec. split_and!.
  - intros x. unfold run_authority. rewrite snapshot_text.
    2:{ apply Forall_forall. intros y Hy. by apply plan_capability_text, Hspec. }
    rewrite authority_has_permission, authority_permissions.
    split; [tauto|]. intros [Hx|Hx]; [|by right]. left. split; [done|].
    apply elem_of_app. left. by apply Hspec.
  - intros x Hx. by apply Hspec.
  - intros now token q x (r&o&c&->)%verified_known Hx%authority_has_permission.
    by eapply authority_known.
Qed.

(** A token whose signature part is not ASCII is not answered with "no principal": the
    comparison raises. *)
Lemma non_ascii_signature_raises :
  verify_capability_token (λ _ _, "00") "key" 0
    (CAPABILITY_TOKEN_PREFIX +:+ "a.b.c.d.e." +:+ String "255" "") =
  Err (TypeError "comparing strings with non-ASCII characters is not supported").
Proof. by vm_compute. Qed.

(** ** Witnesses *)

(** A stand-in for the digest: decimal digits, which are hexadecimal digits. *)
Definition length_digest (k m : string) : string := pretty (N.of_nat (String.length (k +:+ m))).
Lemma length_digest_form : hex_digest_form length_digest.
Proof.
  intros k m. unfold length_digest, lacks, ascii_text. split;
    (eapply all_chars_impl; [|apply pretty_digits]); intros a Ha;
    destruct (digit_facts a Ha) as (_&_&_&?); [|done].
  destruct a as [[] [] [] [] [] [] [] []]; try discriminate Ha; by vm_compute.
Qed.
Definition sample_creator : current_user :=
  CurrentUserOf "u-1" "alice" "admin" "Alice" ∅ "u-1".

Lemma capability_round_trip_witness :
  let p := automation_authority "r.1" "alice@example" ["tests.execute"; "devices.lease"] in
  ∃ token,
    mint_capability_token length_digest "key" 1000 "0a1b" p 7200 = Ok token ∧
    ∀ now, verify_capability_token length_digest "key" now token =
           Ok (if Z.leb now (1000 + Z.max 60 7200) then Some p else None).
Proof. apply capability_round_trip; [apply length_digest_form|lia|reflexivity..]. Defined.

Lemma machine_authority_bounded_witness :
  ∃ granted,
    automation_granted_capabilities (Some sample_creator) (PlanShape None true) = Ok granted ∧
    (∀ x, has_permission (run_authority "r1" "u-1" "" (join "," granted)) x = true ↔
          x ∈ granted ∨ x ∈ MACHINE_PERMISSIONS).
Proof.
  eexists. split; [vm_compute; reflexivity|].
  eapply (machine_authority_bounded length_digest "key" sample_creator (PlanShape None true)).
  vm_compute. reflexivity.
Defined.
