(* ===== verification/Automation.v ===== *)
(** Automation runs: [features/automation/models.py] and the store of
    [features/automation/repository.py].

    The store is the tables of the automation database, in rowid order.  Every method opens
    one connection and is one transaction ([BEGIN IMMEDIATE] where it reads before it
    writes), so it is one atomic function of the tables; a raised [IntegrityError] rolls it
    back.  A row keeps the columns the code decides by as typed fields and the others, which
    it only copies, in [rn_columns] by name.  Timestamps are fixed-width ISO texts, whose
    order is the order of the clock readings; the empty text is [None]. *)

From stdpp Require Import gmap.
From S2P Require Import Prelude Encodings.

Open Scope Z_scope.

(** ** Statuses *)

(* src/features/automation/models.py:12-38 RUN_STATUS_QUEUED *)
Inductive run_status :=
  | RunQueued | RunJenkinsQueued | RunJenkinsBuilding | RunArtifactReady | RunWaitingDevice
  | RunDeviceLocked | RunFlashing | RunFlashCompleted | RunPostFlashVerifying | RunFlashVerified
  | RunAoaRecovering | RunTesting | RunTestRunning | RunReportCollecting | RunAnalyzing
  | RunReporting | RunCompleted | RunCancelled | RunFailed | RunJenkinsFailed
  | RunArtifactMissing | RunFlashFailed | RunAoaFailed | RunTestFailed | RunAnalysisFailed
  | RunReportingFailed.
#[export] Instance run_status_eq_dec : EqDecision run_status.
Proof. solve_decision. Defined.

(* src/features/automation/models.py:40-51 TERMINAL_STATUSES *)
Definition TERMINAL_STATUSES : list run_status :=
  [RunCompleted; RunCancelled; RunFailed; RunJenkinsFailed; RunArtifactMissing; RunFlashFailed;
   RunAoaFailed; RunTestFailed; RunAnalysisFailed; RunReportingFailed].

(* src/features/automation/models.py:53-71 _RUN_FORWARD_TRANSITIONS *)
Definition RUN_FORWARD_TRANSITIONS (s : run_status) : list run_status :=
  match s with
  | RunQueued => [RunJenkinsQueued; RunWaitingDevice]
  | RunJenkinsQueued => [RunJenkinsBuilding; RunJenkinsFailed]
  | RunJenkinsBuilding => [RunArtifactReady; RunJenkinsFailed]
  | RunArtifactReady => [RunWaitingDevice; RunArtifactMissing]
  | RunWaitingDevice => [RunDeviceLocked]
  | RunDeviceLocked => [RunFlashing]
  | RunFlashing => [RunFlashCompleted; RunFlashFailed]
  | RunFlashCompleted => [RunAoaRecovering; RunPostFlashVerifying]
  | RunPostFlashVerifying => [RunFlashVerified; RunFlashFailed]
  | RunFlashVerified => [RunAoaRecovering; RunPostFlashVerifying; RunTesting]
  | RunAoaRecovering => [RunPostFlashVerifying; RunAoaFailed]
  | RunTesting => [RunTestRunning; RunTestFailed]
  | RunTestRunning => [RunReportCollecting; RunTestFailed]
  | RunReportCollecting => [RunAnalyzing; RunTestFailed]
  | RunAnalyzing => [RunReporting; RunAnalysisFailed]
  | RunReporting => [RunCompleted; RunReportingFailed]
  | _ => []
  end.

Definition terminal (s : run_status) : bool := bool_decide (s ∈ TERMINAL_STATUSES).

(* src/features/automation/models.py:74-82 validate_run_transition *)
Definition validate_run_transition (from_status to_status : run_status) : result unit :=
  if bool_decide (from_status = to_status) then Ok tt
  else if terminal from_status then
    Err (ValueError "terminal automation run cannot transition")
  else
    let allowed := RUN_FORWARD_TRANSITIONS from_status ++ [RunCancelled; RunFailed] in
    if bool_decide (to_status ∈ allowed) then Ok tt
    else Err (ValueError "invalid automation run transition").

(** ** Rows *)

(** A Python value used as a flag: the code tests truth ([if result.get(...)]) in some
    places and identity with [True] in others. *)
Inductive flag := Falsy | IsTrue | Truthy.
#[export] Instance flag_eq_dec : EqDecision flag.
Proof. solve_decision. Defined.
Definition truthy (f : flag) : bool := bool_decide (f ≠ Falsy).
Definition is_true (f : flag) : bool := bool_decide (f = IsTrue).

(** [result_json]: the [verified] key of [post_flash] ([Falsy] when absent), when the stage
    started, and the names of the other keys that were merged in. *)
Record result_doc := ResultDoc {
  rd_post_flash_verified : flag;
  rd_stage_started_at : stamp;
  rd_keys : list string;
}.
#[export] Instance result_doc_eta : Eta result_doc := λ r,
  ResultDoc (rd_post_flash_verified r) (rd_stage_started_at r) (rd_keys r).
Definition empty_result : result_doc := ResultDoc Falsy None [].

(** [test_summary_json]: the report's outcome and what a retry needs. *)
Record test_summary := TestSummary {
  ts_outcome : option string;
  ts_total : option Z;
  ts_passed : option Z;
  ts_failed : option Z;
  ts_counts_complete : bool;
  ts_retry_dir : option string;
  ts_retry_worker_id : string;
}.
#[export] Instance test_summary_eta : Eta test_summary := λ t,
  TestSummary (ts_outcome t) (ts_total t) (ts_passed t) (ts_failed t) (ts_counts_complete t)
    (ts_retry_dir t) (ts_retry_worker_id t).
Definition empty_summary : test_summary := TestSummary None None None None false None "".

(** [test_plan_json]: the keys the pipeline and the planner read. *)
Record test_plan := TestPlan {
  tp_has_build : bool;
  tp_test_suite : string;
  tp_retry_dir : string;
  tp_flash_skip : bool;
  tp_worker_id : string;
  tp_max_retries : Z;
  tp_retry_delay : Z;
}.
#[export] Instance test_plan_eta : Eta test_plan := λ t,
  TestPlan (tp_has_build t) (tp_test_suite t) (tp_retry_dir t) (tp_flash_skip t)
    (tp_worker_id t) (tp_max_retries t) (tp_retry_delay t).

(** A device of [devices_json]: the keys of the object in order. *)
Definition device_doc : Type := list (string * string).

(* src/features/automation/repository.py:24-37 RUN_COLUMNS *)
Record run := Run {
  rn_id : string;
  rn_trace_id : string;
  rn_state_version : Z;
  rn_recovery_count : Z;
  rn_last_recovered_at : stamp;
  rn_source_type : string;
  rn_source_key : string;
  rn_created_by : string;
  rn_status : run_status;
  rn_current_stage : run_status;
  rn_jenkins_job : string;
  rn_worker_id : string;
  rn_report_id : string;
  rn_result : result_doc;
  rn_devices : list device_doc;
  rn_test_plan : test_plan;
  rn_test_summary : test_summary;
  rn_error : string;
  rn_created_at : Z;
  rn_updated_at : Z;
  rn_started_at : stamp;
  rn_finished_at : stamp;
  rn_lease_owner : string;
  rn_lease_expires_at : stamp;
  rn_retry_of_run_id : string;
  rn_retry_root_run_id : string;
  rn_retry_index : Z;
  rn_retry_limit : Z;
  rn_not_before : stamp;
  rn_followup_state : string;
  rn_plan_id : string;
  rn_plan_batch_id : string;
  rn_columns : gmap string string;
}.
#[export] Instance run_eta : Eta run := λ r,
  Run (rn_id r) (rn_trace_id r) (rn_state_version r) (rn_recovery_count r)
    (rn_last_recovered_at r) (rn_source_type r) (rn_source_key r) (rn_created_by r)
    (rn_status r) (rn_current_stage r) (rn_jenkins_job r) (rn_worker_id r) (rn_report_id r)
    (rn_result r) (rn_devices r) (rn_test_plan r) (rn_test_summary r) (rn_error r) (rn_created_at r)
    (rn_updated_at r) (rn_started_at r) (rn_finished_at r) (rn_lease_owner r)
    (rn_lease_expires_at r) (rn_retry_of_run_id r) (rn_retry_root_run_id r) (rn_retry_index r)
    (rn_retry_limit r) (rn_not_before r) (rn_followup_state r) (rn_plan_id r)
    (rn_plan_batch_id r) (rn_columns r).

(* src/features/automation/repository.py:175-190 AutomationStore._init_schema *)
Record run_event := RunEvent {
  ev_run_id : string;
  ev_stage : string;
  ev_level : string;
  ev_message : string;
  ev_payload : gmap string string;
  ev_trace_id : string;
  ev_event_type : string;
  ev_operation_id : string;
  ev_from_status : option run_status;
  ev_to_status : option run_status;
  ev_created_at : Z;
}.

(* src/features/automation/repository.py:215-223 AutomationStore._init_schema *)
Record run_secret := RunSecret {
  sc_run_id : string;
  sc_name : string;
  sc_encrypted_value : string;
  sc_updated_at : Z;
}.

(* src/features/automation/plan_store.py:18-26 initialize_plan_schema *)
Record plan_row := PlanRow {
  pn_id : string;
  pn_created_by : string;
  pn_username : string;
  pn_name : string;
  pn_enabled : bool;
  pn_stop_on_failure : bool;
  pn_schedule : string;
  pn_template : string;
  pn_step_count : Z;
  pn_next_run_at : stamp;
  pn_last_run_at : stamp;
  pn_last_error : string;
  pn_active_batch_id : string;
  pn_version : Z;
  pn_created_at : Z;
  pn_updated_at : Z;
  pn_labels : list string;
}.
#[export] Instance plan_row_eta : Eta plan_row := λ p,
  PlanRow (pn_id p) (pn_created_by p) (pn_username p) (pn_name p) (pn_enabled p)
    (pn_stop_on_failure p) (pn_schedule p) (pn_template p) (pn_step_count p) (pn_next_run_at p)
    (pn_last_run_at p) (pn_last_error p) (pn_active_batch_id p) (pn_version p)
    (pn_created_at p) (pn_updated_at p) (pn_labels p).

Inductive batch_status := BatchRunning | BatchStopping | BatchCompleted | BatchFailed | BatchCancelled.
#[export] Instance batch_status_eq_dec : EqDecision batch_status.
Proof. solve_decision. Defined.

(* src/features/automation/plan_store.py:27-34 initialize_plan_schema *)
Record batch_row := BatchRow {
  bt_id : string;
  bt_plan_id : string;
  bt_created_by : string;
  bt_username : string;
  bt_template : string;
  bt_stop_on_failure : bool;
  bt_step_count : Z;
  bt_next_step : Z;
  bt_last_run_id : string;
  bt_status : batch_status;
  bt_created_at : Z;
  bt_finished_at : stamp;
  bt_had_failures : bool;
}.
#[export] Instance batch_row_eta : Eta batch_row := λ b,
  BatchRow (bt_id b) (bt_plan_id b) (bt_created_by b) (bt_username b) (bt_template b)
    (bt_stop_on_failure b) (bt_step_count b) (bt_next_step b) (bt_last_run_id b) (bt_status b)
    (bt_created_at b) (bt_finished_at b) (bt_had_failures b).

(** The automation database, and the number of identifiers drawn so far. *)
Record store := Store {
  st_runs : list run;
  st_events : list run_event;
  st_secrets : list run_secret;
  st_plans : list plan_row;
  st_batches : list batch_row;
  st_drawn : nat;
}.
#[export] Instance store_eta : Eta store := λ s,
  Store (st_runs s) (st_events s) (st_secrets s) (st_plans s) (st_batches s) (st_drawn s).

(** ** Creating runs *)

Inductive device_item := DeviceText (s : string) | DeviceDict (d : device_doc).

Definition doc_get (k : string) (d : device_doc) : string :=
  match find (λ '(k', _), streqb k' k) d with Some (_, v) => v | None => "" end.
(** [{**item, k: v}]. *)
Fixpoint doc_set (k v : string) (d : device_doc) : device_doc :=
  match d with
  | [] => [(k, v)]
  | (k', v') :: d' => if streqb k' k then (k, v) :: d' else (k', v') :: doc_set k v d'
  end.

(* src/features/automation/models.py:91-102 normalize_devices *)
Definition normalize_devices (devices : list device_item) : list device_doc :=
  omap (λ item,
    match item with
    | DeviceText s =>
        let serial := strip s in
        if nonempty serial then Some [("serial", serial)] else None
    | DeviceDict d =>
        let serial := strip (str_or (str_or (doc_get "serial" d) (doc_get "device" d)) (doc_get "id" d)) in
        if nonempty serial then Some (doc_set "serial" serial d) else None
    end) devices.

(** The text of [devices_json]: [ensure_ascii=False] escapes quotes, backslashes and
    control characters only. *)
Fixpoint json_escape_raw (s : string) : string :=
  match s with
  | EmptyString => EmptyString
  | String a s' =>
      (if (N_of_ascii a <? 127)%N then escape_ascii a else String a "") +:+ json_escape_raw s'
  end.
Definition json_quote_raw (s : string) : string := String quote (json_escape_raw s +:+ String quote "").
Definition devices_json (l : list device_doc) : string :=
  "[" +:+ join "," ((λ d : device_doc,
    "{" +:+ join "," ((λ '(k, v), json_quote_raw k +:+ ":" +:+ json_quote_raw v) <$> d) +:+ "}") <$> l)
  +:+ "]".

(** The columns the request only passes on (project, branch, ...) are in [rq_columns]. *)
(* src/features/automation/models.py:105-119 AutomationRunCreateRequest *)
Record run_request := RunRequest {
  rq_source_type : string;
  rq_source_key : string;
  rq_jenkins_job : string;
  rq_devices : list device_item;
  rq_test_plan : test_plan;
  rq_columns : gmap string string;
}.

(* src/features/automation/models.py:121-176 AutomationRunCreateRequest.to_run_dict *)
Definition to_run_dict (now : Z) (run_id : string) (q : run_request) : run :=
  {| rn_id := run_id; rn_trace_id := run_id; rn_state_version := 1; rn_recovery_count := 0;
     rn_last_recovered_at := None; rn_source_type := str_or (rq_source_type q) "manual";
     rn_source_key := rq_source_key q; rn_created_by := ""; rn_status := RunQueued;
     rn_current_stage := RunQueued; rn_jenkins_job := rq_jenkins_job q;
     rn_worker_id := tp_worker_id (rq_test_plan q); rn_report_id := "";
     rn_result := empty_result; rn_devices := normalize_devices (rq_devices q);
     rn_test_plan := rq_test_plan q; rn_test_summary := empty_summary; rn_error := "";
     rn_created_at := now; rn_updated_at := now; rn_started_at := None; rn_finished_at := None;
     rn_lease_owner := ""; rn_lease_expires_at := None; rn_retry_of_run_id := "";
     rn_retry_root_run_id := ""; rn_retry_index := 0; rn_retry_limit := 0; rn_not_before := None;
     rn_followup_state := ""; rn_plan_id := ""; rn_plan_batch_id := "";
     rn_columns := rq_columns q |}.

(** ** Store operations *)

(** [with self._connect() as conn]: what was written is undone when the block raises. *)
Definition atomic {A} (m : M store A) : M store A := λ w,
  match m w with
  | (Ok a, w') => (Ok a, w')
  | (Err e, _) => (Err e, w)
  end.

Definition run_is (i : string) (r : run) : bool := streqb (rn_id r) i.

(** [INSERT INTO automation_runs]: the primary key, and the unique index on non-empty
    source keys. *)
Definition insert_run (r : run) : M store unit :=
  runs ← gets st_runs;
  _ ← require (negb (exists_row (run_is (rn_id r)) runs)) (IntegrityError "automation_runs.id");
  _ ← require (negb (nonempty (rn_source_key r) &&
                     exists_row (λ x, streqb (rn_source_key x) (rn_source_key r)) runs))
        (IntegrityError "idx_automation_runs_source_key");
  modify (λ s, s <| st_runs ::= λ t, t ++ [r] |>).
Definition insert_secret (x : run_secret) : M store unit :=
  secrets ← gets st_secrets;
  _ ← require (negb (exists_row (λ y, streqb (sc_run_id y) (sc_run_id x) && streqb (sc_name y) (sc_name x))
                      secrets)) (IntegrityError "automation_run_secrets");
  modify (λ s, s <| st_secrets ::= λ t, t ++ [x] |>).
Definition insert_event (e : run_event) : M store unit :=
  modify (λ s, s <| st_events ::= λ t, t ++ [e] |>).

(* src/features/automation/repository.py:268-271 AutomationStore.get_run *)
Definition get_run (run_id : string) : M store (option run) :=
  gets (λ s, fetchone (run_is run_id) (st_runs s)).

(* src/features/automation/repository.py:231-257 AutomationStore.create_run *)
Definition create_run (now : Z) (r : run) (encrypted_secrets : list (string * string)) :
    M store (option run) :=
  _ ← atomic (
    _ ← insert_run r;
    for_each encrypted_secrets (λ '(name, v), insert_secret (RunSecret (rn_id r) name v now)));
  get_run (rn_id r).

(* src/features/automation/repository.py:259-266 AutomationStore.get_run_secret *)
Definition get_run_secret (run_id name : string) : M store string :=
  gets (λ s, match fetchone (λ x, streqb (sc_run_id x) run_id && streqb (sc_name x) name) (st_secrets s) with
             | Some x => sc_encrypted_value x
             | None => ""
             end).

(* src/features/automation/repository.py:273-278 AutomationStore.get_run_by_source_key *)
Definition get_run_by_source_key (source_key : string) : M store (option run) :=
  if nonempty source_key
  then gets (λ s, fetchone (λ r, streqb (rn_source_key r) source_key) (st_runs s))
  else mret None.

(** [ORDER BY created_at DESC, id DESC]. *)
Definition newest_first (a b : run) : bool :=
  Z.ltb (rn_created_at b) (rn_created_at a)
  || (Z.eqb (rn_created_at a) (rn_created_at b) && String.leb (rn_id b) (rn_id a)).

Definition status_text (s : run_status) : string :=
  match s with
  | RunQueued => "queued" | RunJenkinsQueued => "jenkins_queued"
  | RunJenkinsBuilding => "jenkins_building" | RunArtifactReady => "artifact_ready"
  | RunWaitingDevice => "waiting_device" | RunDeviceLocked => "device_locked"
  | RunFlashing => "flashing" | RunFlashCompleted => "flash_completed"
  | RunPostFlashVerifying => "post_flash_verifying" | RunFlashVerified => "flash_verified"
  | RunAoaRecovering => "aoa_recovering" | RunTesting => "testing"
  | RunTestRunning => "test_running" | RunReportCollecting => "report_collecting"
  | RunAnalyzing => "analyzing" | RunReporting => "reporting" | RunCompleted => "completed"
  | RunCancelled => "cancelled" | RunFailed => "failed" | RunJenkinsFailed => "jenkins_failed"
  | RunArtifactMissing => "artifact_missing" | RunFlashFailed => "flash_failed"
  | RunAoaFailed => "aoa_failed" | RunTestFailed => "test_failed"
  | RunAnalysisFailed => "analysis_failed" | RunReportingFailed => "reporting_failed"
  end.

(* src/features/automation/repository.py:280-299 AutomationStore.list_runs *)
Definition list_runs (status : string) (limit : Z) (created_by : string) : M store (list run) :=
  let limit := Z.max 1 (Z.min (if Z.eqb limit 0 then 50 else limit) 500) in
  gets (λ s, take (Z.to_nat limit) (order_by newest_first
    (fetchall (λ r, (negb (nonempty status) || streqb (status_text (rn_status r)) status)
                    && (negb (nonempty created_by) || streqb (rn_created_by r) created_by))
       (st_runs s)))).

(** The keyword arguments [update_run_if_status] is called with. *)
Inductive assignment :=
  | SetStatus (s : run_status)
  | SetStage (s : run_status)
  | SetError (e : string)
  | SetResult (d : result_doc)
  | SetSummary (t : test_summary)
  | SetStartedAt (t : stamp)
  | SetFinishedAt (t : stamp)
  | SetDevices (l : list device_doc)
  | SetWorker (w : string)
  | SetReport (i : string)
  | SetColumn (k v : string).
Definition assign (a : assignment) (r : run) : run :=
  match a with
  | SetStatus s => r <| rn_status := s |>
  | SetStage s => r <| rn_current_stage := s |>
  | SetError e => r <| rn_error := e |>
  | SetResult d => r <| rn_result := d |>
  | SetSummary t => r <| rn_test_summary := t |>
  | SetStartedAt t => r <| rn_started_at := t |>
  | SetFinishedAt t => r <| rn_finished_at := t |>
  | SetDevices l => r <| rn_devices := l |>
  | SetWorker w => r <| rn_worker_id := w |>
  | SetReport i => r <| rn_report_id := i |>
  | SetColumn k v => r <| rn_columns ::= <[k := v]> |>
  end.
Definition assign_all (updates : list assignment) (r : run) : run :=
  foldl (λ r a, assign a r) r updates.
Definition target_status (expected : run_status) (updates : list assignment) : run_status :=
  foldl (λ s a, match a with SetStatus s' => s' | _ => s end) expected updates.

(* src/features/automation/repository.py:361-383 AutomationStore.update_run_if_status *)
Definition update_run_if_status (now : Z) (run_id : string) (expected_status : run_status)
    (updates : list assignment) : M store (run * bool) :=
  let target := target_status expected_status updates in
  match validate_run_transition expected_status target with
  | Err e => raise e
  | Ok _ =>
      let hit r := run_is run_id r && bool_decide (rn_status r = expected_status) in
      let write r :=
        let r := assign_all updates r <| rn_updated_at := now |> in
        if bool_decide (target = expected_status) then r
        else r <| rn_state_version ::= λ v, v + 1 |> in
      runs ← gets st_runs;
      _ ← modify (λ s, s <| st_runs ::= update_where hit write |>);
      current ← get_run run_id;
      match current with
      | None => raise (ValueError ("automation run not found: " +:+ run_id))
      | Some r => mret (r, bool_decide (rowcount hit runs = 1%nat))
      end
  end.

(* src/features/automation/repository.py:480-518 AutomationStore.append_event *)
Definition append_event (now : Z) (run_id stage level message : string)
    (payload : gmap string string) (event_type operation_id : string)
    (from_status to_status : option run_status) : M store unit :=
  found ← get_run run_id;
  let trace_id := str_or (match found with Some r => rn_trace_id r | None => "" end) run_id in
  let structured_payload :=
    payload ∪ <["run_id" := run_id]> (<["trace_id" := trace_id]> {["operation_id" := operation_id]}) in
  insert_event {| ev_run_id := run_id; ev_stage := stage; ev_level := level; ev_message := message;
    ev_payload := structured_payload; ev_trace_id := trace_id; ev_event_type := event_type;
    ev_operation_id := operation_id; ev_from_status := from_status; ev_to_status := to_status;
    ev_created_at := now |}.

(* src/features/automation/repository.py:520-526 AutomationStore.list_events *)
Definition list_events (run_id : string) : M store (list run_event) :=
  gets (λ s, fetchall (λ e, streqb (ev_run_id e) run_id) (st_events s)).

(** *** The lease of a run *)

(* src/features/automation/repository.py:385-389 AutomationStore._lease_expiry *)
Definition lease_expiry (now seconds : Z) : Z := now + Z.max 10 seconds.

(** [lease_owner='' OR lease_expires_at='' OR lease_expires_at < now]. *)
Definition lease_free (now : Z) (r : run) : bool :=
  negb (nonempty (rn_lease_owner r))
  || match rn_lease_expires_at r with None => true | Some e => Z.ltb e now end.
(** [not_before='' OR not_before <= now]. *)
Definition run_due (now : Z) (r : run) : bool :=
  match rn_not_before r with None => true | Some t => Z.leb t now end.
(** [ORDER BY updated_at ASC, created_at ASC, id ASC]. *)
Definition oldest_first (a b : run) : bool :=
  Z.ltb (rn_updated_at a) (rn_updated_at b)
  || (Z.eqb (rn_updated_at a) (rn_updated_at b) &&
      (Z.ltb (rn_created_at a) (rn_created_at b)
       || (Z.eqb (rn_created_at a) (rn_created_at b) && String.leb (rn_id a) (rn_id b)))).

Definition take_lease (now : Z) (owner : string) (lease_seconds : Z) (recovered : bool) (r : run) : run :=
  r <| rn_lease_owner := owner |>
    <| rn_lease_expires_at := Some (lease_expiry now lease_seconds) |>
    <| rn_recovery_count ::= λ n, if recovered then n + 1 else n |>
    <| rn_last_recovered_at ::= λ t, if recovered then Some now else t |>.

Definition recovery_event (now : Z) (run_id previous owner : string) : M store unit :=
  append_event now run_id "recovery" "warning" "Controller reclaimed an expired automation lease"
    (<["previous_owner" := previous]> {["new_owner" := owner]}) "run.recovered" owner None None.

(* src/features/automation/repository.py:391-431 AutomationStore.claim_next_active *)
Definition claim_next_active (now : Z) (owner : string) (lease_seconds : Z) : M store (option run) :=
  rows ← gets (λ s, order_by oldest_first
    (fetchall (λ r, negb (terminal (rn_status r)) && run_due now r && lease_free now r) (st_runs s)));
  match rows with
  | [] => mret None
  | row :: _ =>
      let recovered := nonempty (rn_lease_owner row) && negb (streqb (rn_lease_owner row) owner) in
      let hit r := run_is (rn_id row) r && lease_free now r in
      runs ← gets st_runs;
      _ ← modify (λ s, s <| st_runs ::= update_where hit (take_lease now owner lease_seconds recovered) |>);
      if negb (bool_decide (rowcount hit runs = 1%nat)) then mret None
      else
        _ ← when recovered (recovery_event now (rn_id row) (rn_lease_owner row) owner);
        get_run (rn_id row)
  end.

(* src/features/automation/repository.py:433-462 AutomationStore.claim_run *)
Definition claim_run (now : Z) (run_id owner : string) (lease_seconds : Z) : M store bool :=
  current ← get_run run_id;
  let previous := match current with Some r => rn_lease_owner r | None => "" end in
  let recovered := nonempty previous && negb (streqb previous owner) in
  let hit r := run_is run_id r && (lease_free now r || streqb (rn_lease_owner r) owner) && run_due now r in
  runs ← gets st_runs;
  _ ← modify (λ s, s <| st_runs ::= update_where hit (take_lease now owner lease_seconds recovered) |>);
  let claimed := bool_decide (rowcount hit runs = 1%nat) in
  _ ← when (claimed && recovered) (recovery_event now run_id previous owner);
  mret claimed.

(* src/features/automation/repository.py:464-469 AutomationStore.release_claim *)
Definition release_claim (run_id owner : string) : M store unit :=
  modify (λ s, s <| st_runs ::= update_where
    (λ r, run_is run_id r && streqb (rn_lease_owner r) owner)
    (λ r, r <| rn_lease_owner := "" |> <| rn_lease_expires_at := None |>) |>).

(* src/features/automation/repository.py:471-478 AutomationStore.renew_claim *)
Definition renew_claim (now : Z) (run_id owner : string) (lease_seconds : Z) : M store bool :=
  let hit r := run_is run_id r && streqb (rn_lease_owner r) owner in
  runs ← gets st_runs;
  _ ← modify (λ s, s <| st_runs ::= update_where hit
    (λ r, r <| rn_lease_expires_at := Some (lease_expiry now lease_seconds) |>) |>);
  mret (bool_decide (rowcount hit runs = 1%nat)).
