(* ===== verification/RunHistory.v ===== *)
(** Result snapshots and the run history of [features/automation/run_history.py], with the
    cursor-paged listing of [AutomationStore.list_run_page].

    A creation time reaches a cursor as its text.  [IsoTime] is the text of a time,
    [datetime.isoformat] with a fixed number of digits in UTC: its texts are ASCII and sort
    as the times do. *)

From stdpp Require Import gmap.
From S2P Require Import Prelude Encodings Automation.

Open Scope Z_scope.

Class IsoTime := {
  iso : Z → string;
  iso_ltb a b : String.ltb (iso a) (iso b) = Z.ltb a b;
  iso_inj :: Inj eq eq iso;
  iso_text t : ascii_text (iso t) = true ∧ iso t ≠ "";
}.

(** ** Report snapshots *)

Definition RESULT_OUTCOMES : list string := ["passed"; "failed"; "incomplete"; "unknown"].

Definition json_get (k : string) (kvs : list (string * json)) : option json :=
  match find (λ '(k', _), streqb k' k) kvs with Some (_, v) => Some v | None => None end.
(** [next((summary[key] for key in aliases if key in summary), None)]. *)
Fixpoint first_of (aliases : list string) (kvs : list (string * json)) : option json :=
  match aliases with
  | [] => None
  | k :: ks => match json_get k kvs with Some v => Some v | None => first_of ks kvs end
  end.
(** A count: an integer or a text [int] reads, and not negative. *)
Definition count_of (v : option json) : option Z :=
  match v with
  | Some (JNum l) | Some (JStr l) =>
      match py_int l with Some n => if Z.leb 0 n then Some n else None | None => None end
  | _ => None
  end.

(** The keys a snapshot sets; a snapshot without counts is empty. *)
Record snapshot := Snapshot {
  sn_total : option Z;
  sn_passed : option Z;
  sn_failed : option Z;
  sn_outcome : string;
  sn_counts_complete : bool;
}.

Definition snapshot_of_summary (summary : list (string * json)) : option snapshot :=
  let total := count_of (first_of ["total"] summary) in
  let passed := count_of (first_of ["pass"; "passed"] summary) in
  let failed := count_of (first_of ["failed"; "fail"] summary) in
  match total, passed, failed with
  | None, None, None => None
  | _, _, _ =>
      let complete :=
        match total, passed, failed with
        | Some t, Some p, Some f => Z.ltb 0 t && Z.eqb (p + f) t
        | _, _, _ => false
        end in
      let outcome := if Z.ltb 0 (default 0 failed) then "failed" else "incomplete" in
      let outcome := if complete && Z.eqb (default 0 failed) 0 then "passed" else outcome in
      Some (Snapshot total passed failed outcome complete)
  end.

(** The display texts of [details] are not kept. *)
(* src/features/automation/run_history.py:16-55 report_snapshot *)
Fixpoint report_snapshot (payload : json) : option snapshot :=
  match payload with
  | JObj kvs =>
      let inner wrapper :=
        (fix go (l : list (string * json)) : option (option snapshot) :=
           match l with
           | [] => None
           | (k, v) :: l' =>
               if streqb k wrapper
               then match v with JObj _ => Some (report_snapshot v) | _ => None end
               else go l'
           end) kvs in
      match inner "response" with
      | Some s => s
      | None =>
          match inner "data" with
          | Some s => s
          | None =>
              match json_get "summary" kvs with
              | Some (JObj summary) => snapshot_of_summary summary
              | _ => None
              end
          end
      end
  | _ => None
  end.

(** ** Cursors *)

Section history.
Context `{I : IsoTime}.

(* src/features/automation/run_history.py:58-60 encode_run_cursor *)
Definition encode_run_cursor (r : run) : string :=
  rstrip_char "=" (urlsafe_b64encode (json_dumps_list [iso (rn_created_at r); rn_id r])).

(** [json.loads] of bytes: the encoding is guessed from a byte order mark and the zero
    bytes at the start. *)
Inductive json_encoding := Utf8 | Utf8Sig | Utf16 (big : bool) (skip : nat) | Utf32 (big : bool) (skip : nat).
Fixpoint bytes_of (s : string) : list N :=
  match s with EmptyString => [] | String a s' => N_of_ascii a :: bytes_of s' end.
Definition detect_encoding (b : list N) : json_encoding :=
  match b with
  | 0 :: 0 :: 254 :: 255 :: _ => Utf32 true 4
  | 255 :: 254 :: 0 :: 0 :: _ => Utf32 false 4
  | 254 :: 255 :: _ => Utf16 true 2
  | 255 :: 254 :: _ => Utf16 false 2
  | 239 :: 187 :: 191 :: _ => Utf8Sig
  | b0 :: b1 :: b2 :: b3 :: _ =>
      if (b0 =? 0) then (if (b1 =? 0) then Utf32 true 0 else Utf16 true 0)
      else if (b1 =? 0) then (if (b2 =? 0) && (b3 =? 0) then Utf32 false 0 else Utf16 false 0)
      else Utf8
  | [b0; b1] => if (b0 =? 0) then Utf16 true 0 else if (b1 =? 0) then Utf16 false 0 else Utf8
  | _ => Utf8
  end%N.
Fixpoint utf16_decode (big : bool) (b : list N) : option string :=
  (match b with
   | [] => Some ""
   | x :: y :: b' =>
       let u := if big then x * 256 + y else y * 256 + x in
       if (55296 <=? u) && (u <=? 56319) then
         match b' with
         | z :: t :: b'' =>
             let v := if big then z * 256 + t else t * 256 + z in
             if (56320 <=? v) && (v <=? 57343) then
               (λ s, utf8_encode (65536 + (u - 55296) * 1024 + (v - 56320)) +:+ s) <$> utf16_decode big b''
             else (λ s, utf8_encode u +:+ s) <$> utf16_decode big b'
         | _ => (λ s, utf8_encode u +:+ s) <$> utf16_decode big b'
         end
       else (λ s, utf8_encode u +:+ s) <$> utf16_decode big b'
   | _ => None
   end)%N.
Fixpoint utf32_decode (big : bool) (b : list N) : option string :=
  (match b with
   | [] => Some ""
   | x :: y :: z :: t :: b' =>
       let u := if big then ((x * 256 + y) * 256 + z) * 256 + t else ((t * 256 + z) * 256 + y) * 256 + x in
       if u <=? 1114111 then (λ s, utf8_encode u +:+ s) <$> utf32_decode big b' else None
   | _ => None
   end)%N.
Definition json_loads_bytes (raw : string) : option json :=
  let text :=
    match detect_encoding (bytes_of raw) with
    | Utf8 => if utf8_valid true raw then Some raw else None
    | Utf8Sig =>
        match raw with
        | String _ (String _ (String _ r)) => if utf8_valid true r then Some r else None
        | _ => None
        end
    | Utf16 big skip => utf16_decode big (drop skip (bytes_of raw))
    | Utf32 big skip => utf32_decode big (drop skip (bytes_of raw))
    end in
  match text with Some s => json_loads s | None => None end.

(* src/features/automation/run_history.py:63-75 decode_run_cursor *)
Definition decode_run_cursor (cursor : string) : result (string * string) :=
  let invalid := Err (ValueError "Invalid run cursor") in
  if negb (nonempty cursor) || Nat.ltb 2048 (String.length cursor) then invalid
  else
    match b64decode_validate (cursor +:+ padding cursor) with
    | None => invalid
    | Some raw =>
        match json_loads_bytes raw with
        | Some (JList [JStr a; JStr b]) => if nonempty a && nonempty b then Ok (a, b) else invalid
        | _ => invalid
        end
    end.

(** ** Filters and pages *)

(** [instr(a, b) > 0] is containment. *)

Definition run_column (r : run) (k : string) : string := default "" (rn_columns r !! k).
Definition searched_columns (r : run) : list string :=
  [rn_id r; run_column r "profile_id"; run_column r "project"; run_column r "branch";
   rn_worker_id r; devices_json (rn_devices r); run_column r "artifact_path";
   run_column r "gerrit_change_id"; run_column r "gerrit_subject"; rn_retry_of_run_id r].

Record run_filters := RunFilters {
  rf_status : string;
  rf_created_by : string;
  rf_query : string;
  rf_profile_id : string;
  rf_worker_id : string;
  rf_outcome : string;
  rf_reports_only : bool;
}.

(** The rows the filters let through, the cursor aside. *)
Definition filter_predicate (f : run_filters) (r : run) : bool :=
  (if streqb (rf_status f) "running" then negb (terminal (rn_status r))
   else if streqb (rf_status f) "failed" then
     terminal (rn_status r) && negb (mem (status_text (rn_status r)) ["completed"; "cancelled"])
   else if streqb (rf_status f) "testing" then
     mem (status_text (rn_status r)) ["testing"; "test_running"]
   else negb (nonempty (rf_status f)) || streqb (status_text (rn_status r)) (rf_status f))
  && (negb (nonempty (rf_created_by f)) || streqb (rn_created_by r) (rf_created_by f))
  && (negb (nonempty (rf_profile_id f)) || streqb (run_column r "profile_id") (rf_profile_id f))
  && (negb (nonempty (rf_worker_id f)) || streqb (rn_worker_id r) (rf_worker_id f))
  && (negb (nonempty (rf_query f)) ||
      existsb (λ c, contains (ascii_lower (rf_query f)) (ascii_lower c)) (searched_columns r))
  && (negb (nonempty (rf_outcome f)) ||
      streqb (default "unknown" (ts_outcome (rn_test_summary r))) (rf_outcome f))
  && (negb (rf_reports_only f) || nonempty (run_column r "report_timestamp")).

(** [created_at < ? OR (created_at = ? AND id < ?)]. *)
Definition after_cursor (c : string * string) (r : run) : bool :=
  String.ltb (iso (rn_created_at r)) c.1
  || (streqb (iso (rn_created_at r)) c.1 && String.ltb (rn_id r) c.2).

(* src/features/automation/run_history.py:78-120 history_predicate *)
Definition history_predicate (f : run_filters) (cursor : string) : result (run → bool) :=
  if nonempty (rf_outcome f) && negb (mem (rf_outcome f) RESULT_OUTCOMES)
  then Err (ValueError "Invalid test outcome")
  else if nonempty cursor then
    match decode_run_cursor cursor with
    | Ok c => Ok (λ r, filter_predicate f r && after_cursor c r)
    | Err e => Err e
    end
  else Ok (filter_predicate f).

Record run_page := RunPage {
  pg_items : list run;
  pg_has_more : bool;
  pg_next_cursor : string;
}.

(* src/features/automation/repository.py:324-344 AutomationStore.list_run_page *)
Definition list_run_page (limit : Z) (f : run_filters) (cursor : string) : M store run_page :=
  let limit := Z.to_nat (Z.max 1 (Z.min limit 500)) in
  match history_predicate f cursor with
  | Err e => raise e
  | Ok p =>
      rows ← gets (λ s, take (limit + 1) (order_by newest_first (fetchall p (st_runs s))));
      let has_more := Nat.ltb limit (length rows) in
      let items := take limit rows in
      mret (RunPage items has_more
              (if has_more then match last items with Some r => encode_run_cursor r | None => "" end
               else ""))
  end.

(** A client that follows [next_cursor], with at most [fuel] pages. *)
Fixpoint walk_pages (fuel : nat) (limit : Z) (f : run_filters) (cursor : string) (s : store) :
    option (list run) :=
  match fuel with
  | O => None
  | S fuel' =>
      match list_run_page limit f cursor s with
      | (Ok p, _) =>
          if pg_has_more p
          then (λ l, pg_items p ++ l) <$> walk_pages fuel' limit f (pg_next_cursor p) s
          else Some (pg_items p)
      | (Err _, _) => None
      end
  end.
End history.

(** ** The cursor round trip *)

Section cursor_lemmas.
Context `{I : IsoTime}.

Lemma b64_shape_char v s : (v < 64)%N → b64_shape (String (b64_char v) s) = b64_shape s.
Proof. intros Hv. destruct (b64_char_spec v Hv) as (E&_). simpl. by rewrite E. Qed.
Lemma b2a_b64_shape s : b64_shape (b2a_base64 s) = true.
Proof.
  induction s as [|a|a b|a b c s IH] using string_ind3; [done|..];
    pose proof (ascii_bound a) as Ba; cbn [b2a_base64].
  - destruct (sextet_bounds _ 0 Ba eq_refl) as (B1&_&_&_&B3&_). by rewrite !b64_shape_char.
  - pose proof (ascii_bound b) as Bb. destruct (sextet_bounds _ _ Ba Bb) as (B1&B2&_&_&_&B3).
    by rewrite !b64_shape_char.
  - pose proof (ascii_bound b) as Bb. pose proof (ascii_bound c) as Bc.
    destruct (sextet_bounds _ _ Ba Bb) as (B1&B2&_).
    destruct (sextet_bounds _ _ Bc Bb) as (_&_&B3&B4&_). by rewrite !b64_shape_char.
Qed.
Lemma b64_validate_round_trip s :
  b64decode_validate (b64_field s +:+ padding (b64_field s)) = Some s.
Proof.
  pose proof (b64_round_trip s) as H. unfold urlsafe_b64decode, b64decode_validate in *.
  destruct (b64_unpadded s) as [E _]. rewrite E in *. unfold urlsafe_b64encode in *.
  destruct (b2a_shape s) as (body&Eb&Ht).
  assert (translate from_urlsafe (translate to_urlsafe (b2a_base64 s)) = b2a_base64 s) as Et.
  { rewrite Eb, !translate_app, b64_text_back by done. unfold padding.
    by rewrite !translate_repeat. }
  rewrite Et in *. by rewrite b2a_b64_shape.
Qed.

Lemma detect_json_list l :
  l ≠ [] → detect_encoding (bytes_of (json_dumps_list l)) = Utf8.
Proof.
  intros Hl. destruct l as [|x l]; [done|]. unfold json_dumps_list.
  destruct (json_quoted_head x l "]") as [r ->].
  destruct r as [|b2 [|b3 r]]; reflexivity.
Qed.

Lemma cursor_round_trip r :
  ascii_text (rn_id r) = true → rn_id r ≠ "" →
  (String.length (encode_run_cursor r) ≤ 2048)%nat →
  decode_run_cursor (encode_run_cursor r) = Ok (iso (rn_created_at r), rn_id r).
Proof.
  intros Hid Hne Hlen. destruct (iso_text (rn_created_at r)) as [Hiso Hiso_ne].
  unfold decode_run_cursor. destruct (Nat.ltb_spec 2048 (String.length (encode_run_cursor r))); [lia|].
  rewrite orb_false_r. unfold encode_run_cursor in *.
  set (l := [iso (rn_created_at r); rn_id r]) in *. fold (b64_field (json_dumps_list l)) in *.
  assert (Forall (λ x, ascii_text x = true) l) as Hl by by repeat constructor.
  destruct (nonempty (b64_field (json_dumps_list l))) eqn:En.
  - cbn [negb]. rewrite b64_validate_round_trip. unfold json_loads_bytes.
    rewrite detect_json_list, ascii_utf8 by (done || by apply json_dumps_ascii).
    rewrite json_round_trip by done. simpl. unfold nonempty. by rewrite !bool_decide_eq_true_2.
  - exfalso. unfold nonempty in En. bool_props. apply dec_stable in En.
    pose proof (b64_round_trip (json_dumps_list l)) as Hrt.
    by rewrite En in Hrt.
Qed.

(** ** The pages *)

Lemma after_cursor_spec r c :
  after_cursor (iso (rn_created_at c), rn_id c) r =
  Z.ltb (rn_created_at r) (rn_created_at c)
  || (Z.eqb (rn_created_at r) (rn_created_at c) && String.ltb (rn_id r) (rn_id c)).
Proof.
  unfold after_cursor. simpl. rewrite iso_ltb. f_equal. f_equal. unfold streqb.
  destruct (Z.eqb_spec (rn_created_at r) (rn_created_at c)) as [->|Hne].
  - by rewrite bool_decide_eq_true_2.
  - apply bool_decide_eq_false_2. by intros ?%(inj iso).
Qed.
Lemma newest_first_strict a b : after_cursor (iso (rn_created_at a), rn_id a) b = negb (newest_first b a).
Proof.
  rewrite after_cursor_spec. unfold newest_first. rewrite string_leb_ltb.
  destruct (Z.ltb_spec (rn_created_at b) (rn_created_at a)), (Z.ltb_spec (rn_created_at a) (rn_created_at b)),
    (Z.eqb_spec (rn_created_at b) (rn_created_at a)); simpl; try lia; try done.
  all: try (exfalso; lia). by rewrite negb_involutive.
Qed.
Lemma newest_first_total x y : newest_first x y = true ∨ newest_first y x = true.
Proof.
  unfold newest_first. rewrite !string_leb_ltb.
  destruct (Z.ltb_spec (rn_created_at y) (rn_created_at x)), (Z.ltb_spec (rn_created_at x) (rn_created_at y)),
    (Z.eqb_spec (rn_created_at x) (rn_created_at y)), (Z.eqb_spec (rn_created_at y) (rn_created_at x));
    simpl; try lia; auto.
  destruct (String.ltb (rn_id x) (rn_id y)) eqn:E; [|by left]. right. by rewrite (string_ltb_asym _ _ E).
Qed.
Lemma newest_first_refl x : newest_first x x = true.
Proof. by destruct (newest_first_total x x). Qed.
Lemma newest_first_trans x y z :
  newest_first x y = true → newest_first y z = true → newest_first x z = true.
Proof.
  unfold newest_first. rewrite !orb_true_iff, !andb_true_iff, !Z.ltb_lt, !Z.eqb_eq.
  intros [H1|[H1 L1]] [H2|[H2 L2]]; [left; lia..|]. right. split; [lia|]. by eapply string_leb_trans.
Qed.
Lemma newest_first_antisym x y : newest_first x y = true → newest_first y x = true → rn_id x = rn_id y.
Proof.
  unfold newest_first. rewrite !orb_true_iff, !andb_true_iff, !Z.ltb_lt, !Z.eqb_eq.
  intros [H1|[H1 L1]] [H2|[H2 L2]]; try lia. by apply String.leb_antisym.
Qed.

Section pages.
Context (s : store) (f : run_filters) (limit : Z).
Let page_size : nat := Z.to_nat (Z.max 1 (Z.min limit 500)).
Let sorted : list run := order_by newest_first (fetchall (filter_predicate f) (st_runs s)).

Lemma sorted_rows p :
  StronglySorted (λ x y, newest_first x y = true) (order_by newest_first (fetchall p (st_runs s))).
Proof. apply order_by_sorted; [apply newest_first_total|apply newest_first_trans]. Qed.
Lemma page_row_in p r : r ∈ order_by newest_first (fetchall p (st_runs s)) → r ∈ st_runs s ∧ p r = true.
Proof. rewrite elem_of_order_by, elem_of_fetchall. tauto. Qed.

Context (Hids : unique_index (λ _, true) rn_id (st_runs s)).
Lemma same_row x y : x ∈ st_runs s → y ∈ st_runs s → rn_id x = rn_id y → x = y.
Proof. intros. by eapply (unique_index_inj (λ _, true) rn_id). Qed.

(** The rows after a cursor are the rest of the listing. *)
Lemma rows_after pre c suf :
  sorted = pre ++ c :: suf →
  order_by newest_first
    (fetchall (λ r, filter_predicate f r && after_cursor (iso (rn_created_at c), rn_id c) r) (st_runs s)) = suf.
Proof.
  intros E. pose proof (sorted_rows (filter_predicate f)) as Hs. fold sorted in Hs. rewrite E in Hs.
  apply StronglySorted_app in Hs as (Hpre&_&Hs). apply StronglySorted_inv in Hs as [Hsuf Hc].
  assert (∀ x, x ∈ pre ++ c :: suf → x ∈ st_runs s) as Hin.
  { intros x. rewrite <-E. intros Hx. by apply page_row_in in Hx as [? _]. }
  assert (NoDup (rn_id <$> pre ++ c :: suf)) as Hnd.
  { rewrite <-E. unfold sorted. rewrite order_by_perm. by apply (unique_index_weaken _ (λ _, true)). }
  rewrite fmap_app, fmap_cons in Hnd. apply NoDup_app in Hnd as (_&_&Hnd). apply NoDup_cons in Hnd as [Hnd _].
  apply (StronglySorted_unique_strong (λ x y, newest_first x y = true)); [|apply sorted_rows|done|].
  - intros x y Hx Hy H1 H2. apply same_row; [by apply page_row_in in Hx as [? _]|..].
    + apply Hin, elem_of_app. right. by right.
    + by apply newest_first_antisym.
  - rewrite order_by_perm, <-fetchall_fetchall.
    assert (fetchall (filter_predicate f) (st_runs s) ≡ₚ pre ++ c :: suf) as ->
      by (rewrite <-E; unfold sorted; by rewrite order_by_perm).
    rewrite fetchall_app, fetchall_cons, newest_first_strict, newest_first_refl. cbn [negb].
    rewrite fetchall_nil, fetchall_all; [done|..].
    + intros x Hx. rewrite newest_first_strict. apply negb_true_iff, not_true_iff_false. intros H1.
      apply Hnd. rewrite (newest_first_antisym c x); [by apply list_elem_of_fmap_2| |done].
      by eapply Forall_forall in Hc.
    + intros x Hx. rewrite newest_first_strict. apply negb_false_iff, Hpre; [done|left].
Qed.

Context (Hcursors : ∀ r, r ∈ st_runs s →
  ascii_text (rn_id r) = true ∧ rn_id r ≠ "" ∧ (String.length (encode_run_cursor r) ≤ 2048)%nat).
Context (Houtcome : nonempty (rf_outcome f) && negb (mem (rf_outcome f) RESULT_OUTCOMES) = false).

Lemma page_size_pos : (0 < page_size)%nat.
Proof. unfold page_size. lia. Qed.

Lemma next_predicate c :
  c ∈ st_runs s →
  nonempty (encode_run_cursor c) = true →
  history_predicate f (encode_run_cursor c) =
  Ok (λ r, filter_predicate f r && after_cursor (iso (rn_created_at c), rn_id c) r).
Proof.
  intros Hc Hn. destruct (Hcursors c Hc) as (H1&H2&H3). unfold history_predicate.
  by rewrite Houtcome, Hn, cursor_round_trip.
Qed.
Lemma cursor_nonempty c : c ∈ st_runs s → nonempty (encode_run_cursor c) = true.
Proof.
  intros Hc. destruct (Hcursors c Hc) as (H1&H2&H3).
  pose proof (cursor_round_trip c H1 H2 H3) as Hrt. unfold decode_run_cursor in Hrt.
  by destruct (nonempty (encode_run_cursor c)).
Qed.

Lemma walk_rows fuel cursor p pre suf :
  history_predicate f cursor = Ok p →
  order_by newest_first (fetchall p (st_runs s)) = suf →
  sorted = pre ++ suf → (length suf / page_size < fuel)%nat →
  walk_pages fuel limit f cursor s = Some suf.
Proof.
  revert cursor p pre suf. induction fuel as [|fuel IH]; intros cursor p pre suf Hp Hrows Hall Hf; [lia|].
  pose proof page_size_pos as Hpos. cbn [walk_pages]. unfold list_run_page. rewrite Hp.
  fold page_size. unfold gets, mbind, M_bind, mret, M_ret. rewrite Hrows.
  rewrite length_take. destruct (Nat.ltb_spec page_size (Nat.min (page_size + 1) (length suf))) as [Hmore|Hlast].
  - cbn [pg_has_more pg_items pg_next_cursor]. rewrite take_take, Nat.min_l by lia.
    destruct (exists_last (l := take page_size suf)) as (init&c&Einit).
    { intros E%(f_equal length). rewrite length_take in E. simpl in E. lia. }
    rewrite Einit, last_snoc.
    assert (sorted = (pre ++ init) ++ c :: drop page_size suf) as Hsplit.
    { rewrite Hall, <-(take_drop page_size suf), Einit at 1. by rewrite <-!app_assoc. }
    assert (c ∈ st_runs s) as Hc.
    { apply (page_row_in (filter_predicate f)). fold sorted. rewrite Hsplit.
      apply elem_of_app. right. left. }
    rewrite (IH _ _ (pre ++ init ++ [c]) (drop page_size suf) (next_predicate c Hc (cursor_nonempty c Hc))).
    + simpl. by rewrite <-Einit, take_drop.
    + by eapply rows_after.
    + rewrite Hsplit. by rewrite <-!app_assoc.
    + rewrite length_drop.
      assert (length suf / page_size = S ((length suf - page_size) / page_size))%nat as Hdiv; [|lia].
      replace (length suf) with (1 * page_size + (length suf - page_size))%nat at 1 by lia.
      by rewrite Nat.div_add_l by lia.
  - cbn [pg_has_more pg_items]. rewrite take_take, Nat.min_l by lia. by rewrite take_ge by lia.
Qed.
End pages.

(** [C38] Following the cursors of a listing ends, and shows every run exactly once: whatever the
    page size and the filters, a client that starts without a cursor and follows
    [next_cursor] receives, after at most (number of matching runs / page size) + 1 pages,
    precisely the matching runs, newest first.  Each cursor survives its JSON and Base64
    encoding; run identifiers are ASCII texts for which the cursor keeps below the length the
    decoder accepts. *)
Theorem run_pages_cover s f limit fuel :
  let page_size := Z.to_nat (Z.max 1 (Z.min limit 500)) in
  let matching := fetchall (filter_predicate f) (st_runs s) in
  unique_index (λ _, true) rn_id (st_runs s) →
  (∀ r, r ∈ st_runs s →
     ascii_text (rn_id r) = true ∧ rn_id r ≠ "" ∧ (String.length (encode_run_cursor r) ≤ 2048)%nat) →
  (rf_outcome f = "" ∨ rf_outcome f ∈ RESULT_OUTCOMES) →
  (length matching / page_size < fuel)%nat →
  ∃ l, walk_pages fuel limit f "" s = Some l ∧ l ≡ₚ matching ∧
       StronglySorted (λ x y, newest_first x y = true) l.
Proof.
  intros page_size matching Hids Hcur Hout Hfuel. exists (order_by newest_first matching).
  assert (nonempty (rf_outcome f) && negb (mem (rf_outcome f) RESULT_OUTCOMES) = false) as Ho.
  { unfold nonempty, mem. destruct Hout as [->|Hin]; [done|].
    rewrite (bool_decide_eq_true_2 (_ ∈ _)) by done. by rewrite andb_false_r. }
  split_and!; [|apply order_by_perm|apply sorted_rows].
  eapply (walk_rows s f limit Hids Hcur Ho _ _ (filter_predicate f) []); [|done|done|].
  - unfold history_predicate. by rewrite Ho.
  - by rewrite order_by_perm.
Qed.
End cursor_lemmas.

(** ** Witness *)

(** A text that sorts as its number: ["b"] repeated from zero on, ["a"] repeated and then
    ["b"] below. *)
Definition unary_text (t : Z) : string :=
  if Z.ltb t 0 then repeat_char "a" (Z.to_nat (- t)) +:+ "b" else repeat_char "b" (S (Z.to_nat t)).
Lemma repeat_compare n m :
  String.compare (repeat_char "b" n) (repeat_char "b" m) = Nat.compare n m ∧
  String.compare (repeat_char "a" n +:+ "b") (repeat_char "a" m +:+ "b") = Nat.compare m n.
Proof. revert m. induction n as [|n IH]; intros [|m]; try done. apply IH. Qed.
Lemma unary_compare a b : String.compare (unary_text a) (unary_text b) = Z.compare a b.
Proof.
  unfold unary_text. destruct (Z.ltb_spec a 0), (Z.ltb_spec b 0).
  - destruct (repeat_compare (Z.to_nat (- a)) (Z.to_nat (- b))) as [_ ->].
    rewrite <-Nat2Z.inj_compare, !Z2Nat.id by lia. apply Z.compare_opp.
  - destruct (Z.to_nat (- a)) eqn:E; [lia|]. symmetry. apply Z.compare_lt_iff. lia.
  - destruct (Z.to_nat (- b)) eqn:E; [lia|]. symmetry. apply Z.compare_gt_iff. lia.
  - destruct (repeat_compare (S (Z.to_nat a)) (S (Z.to_nat b))) as [-> _].
    rewrite <-Nat2Z.inj_compare, !Nat2Z.inj_succ, !Z2Nat.id by lia. apply Zcompare_succ_compat.
Qed.
Lemma unary_ltb a b : String.ltb (unary_text a) (unary_text b) = Z.ltb a b.
Proof. unfold String.ltb, Z.ltb. by rewrite unary_compare. Qed.
Lemma unary_inj : Inj eq eq unary_text.
Proof.
  intros a b E. apply Z.compare_eq_iff. rewrite <-unary_compare, E. apply string_compare_refl.
Qed.
Lemma unary_ascii t : ascii_text (unary_text t) = true ∧ unary_text t ≠ "".
Proof.
  unfold unary_text, ascii_text. destruct (Z.ltb t 0).
  - split; [|by destruct (Z.to_nat (- t))]. rewrite all_chars_app, andb_true_r.
    by induction (Z.to_nat (- t)).
  - split; [|done]. by induction (S (Z.to_nat t)).
Qed.
Definition unary_iso : IsoTime :=
  {| iso := unary_text; iso_ltb := unary_ltb; iso_inj := unary_inj; iso_text := unary_ascii |}.

Definition sample_plan : test_plan := TestPlan false "/suites/cts" "" true "worker-1" 2 60.
Definition sample_request : run_request := RunRequest "manual" "" "" [DeviceText " SER1 "] sample_plan ∅.
Definition sample_runs : list run :=
  [to_run_dict 10 "ats_1" sample_request; to_run_dict 30 "ats_2" sample_request;
   to_run_dict 30 "ats_3" sample_request].
Definition sample_store : store := Store sample_runs [] [] [] [] 0.

Lemma run_pages_cover_witness :
  ∃ l, walk_pages (I := unary_iso) 2 2 (RunFilters "running" "" "" "" "" "" false) "" sample_store = Some l ∧
       rn_id <$> l = ["ats_3"; "ats_2"; "ats_1"].
Proof.
  destruct (run_pages_cover (I := unary_iso) sample_store
              (RunFilters "running" "" "" "" "" "" false) 2 2) as (l&E&_).
  - vm_compute. repeat constructor; set_solver.
  - intros r Hr. repeat (apply elem_of_cons in Hr as [->|Hr]); [..|by apply not_elem_of_nil in Hr];
      (split; [reflexivity|split; [discriminate|vm_compute; lia]]).
  - by left.
  - vm_compute. lia.
  - exists l. split; [done|]. vm_compute in E. injection E as <-. reflexivity.
Defined.
