(* ===== verification/Orchestrator.v ===== *)
(** The state machine driver of [features/automation/orchestrator.py]: one stage of a run per
    call, over any executor.

    An executor is a record of its methods; each answers for the run it is given, or raises.
    What it does to devices, builds and reports is outside of the store.  The heartbeat
    thread is the store's [renew_claim] at any moment, which the histories of
    AutomationInvariants contain; the best-effort audit log is not part of the store. *)

From stdpp Require Import gmap.
From S2P Require Import Prelude Encodings Automation RunHistory.

Open Scope Z_scope.

(** ** The executor *)

(** [aoa_result] when it is an object. *)
Record aoa_result := AoaResult {
  ao_success : flag;
  ao_adb_recovered : flag;
  ao_adb_state : string;
}.

(** The keys of a stage result the driver reads; [sr_text] are the text valued ones, and
    [sr_payload] is the result as a whole, for the report snapshot. *)
Record stage_result := StageResult {
  sr_success : flag;
  sr_error : option string;
  sr_retry : flag;
  sr_running : flag;
  sr_building : flag;
  sr_verified : flag;
  sr_reconcile_required : flag;
  sr_result : string;
  sr_artifact_id : string;
  sr_devices : list device_doc;
  sr_aoa : option aoa_result;
  sr_text : gmap string string;
  sr_payload : json;
  sr_report : json;
}.
#[export] Instance stage_result_eta : Eta stage_result := λ r,
  StageResult (sr_success r) (sr_error r) (sr_retry r) (sr_running r) (sr_building r)
    (sr_verified r) (sr_reconcile_required r) (sr_result r) (sr_artifact_id r) (sr_devices r)
    (sr_aoa r) (sr_text r) (sr_payload r) (sr_report r).

Record executor := Executor {
  ex_trigger_build : run → result stage_result;
  ex_poll_build : run → result stage_result;
  ex_select_artifact : run → result stage_result;
  ex_select_devices : run → result stage_result;
  ex_flash : run → result stage_result;
  ex_aoa_enabled : run → bool;
  ex_verify_post_flash : run → result stage_result;
  ex_aoa_recover : run → result stage_result;
  ex_start_test : run → result stage_result;
  ex_poll_test : run → result stage_result;
  ex_collect_report : run → result stage_result;
  ex_analyze_report : run → result stage_result;
  ex_report_result : run → result stage_result;
  ex_cancel : run → result stage_result;
}.

Definition call {A} (r : result A) : M store A :=
  match r with Ok a => mret a | Err e => raise e end.
(** [result.get(k, d)]. *)
Definition get_text (d : string) (k : string) (r : stage_result) : string := default d (sr_text r !! k).
(** [try: m finally: h]. *)
Definition finally {A} (m : M store A) (h : M store unit) : M store A := λ w,
  let '(r, w1) := m w in
  match h w1 with
  | (Ok _, w2) => (r, w2)
  | (Err e, w2) => (Err e, w2)
  end.

(** ** Documents *)

(** [_merged_result_json(run, {"post_flash": result})], with another key, and with the
    start of the stage. *)
(* src/features/automation/orchestrator.py:383-392 AutomationOrchestrator._merged_result_json *)
Definition merged_result (d : result_doc) (key : string) (res : stage_result) : result_doc :=
  if streqb key "post_flash"
  then d <| rd_post_flash_verified := sr_verified res |>
  else d <| rd_keys ::= λ ks, if mem key ks then ks else ks ++ [key] |>.

Definition update_summary (sn : option snapshot) (t : test_summary) : test_summary :=
  match sn with
  | None => t
  | Some x =>
      t <| ts_total ::= λ o, match sn_total x with Some n => Some n | None => o end |>
        <| ts_passed ::= λ o, match sn_passed x with Some n => Some n | None => o end |>
        <| ts_failed ::= λ o, match sn_failed x with Some n => Some n | None => o end |>
        <| ts_outcome := Some (sn_outcome x) |>
        <| ts_counts_complete := sn_counts_complete x |>
  end.
Definition payload_text (k : string) (payload : json) : option string :=
  match payload with
  | JObj kvs => match json_get k kvs with Some (JStr s) => Some s | _ => None end
  | _ => None
  end.
(* src/features/automation/orchestrator.py:367-381 AutomationOrchestrator._report_snapshot *)
Definition summary_after (r : run) (payload : json) (collected : bool) : test_summary :=
  let t := update_summary (report_snapshot payload) (rn_test_summary r) in
  if collected then
    let t := match payload_text "source_timestamp" payload with
             | Some folder => t <| ts_retry_dir := Some folder |>
             | None => t
             end in
    t <| ts_retry_worker_id := default "" (payload_text "worker_id" payload) |>
  else t.

(* src/features/automation/orchestrator.py:51-57 _run_has_build *)
Definition run_has_build (r : run) : bool := tp_has_build (rn_test_plan r).

(** ** Writing a stage's outcome *)

(** [current and current["status"] in TERMINAL_STATUSES]. *)
Definition already_over (current : option run) : option run :=
  match current with Some c => if terminal (rn_status c) then Some c else None | None => None end.

(* src/features/automation/orchestrator.py:394-423 AutomationOrchestrator._transition *)
Definition transition (now : Z) (r : run) (status : run_status) (message : string)
    (payload : gmap string string) (result_update : option result_doc)
    (updates : list assignment) : M store run :=
  current ← get_run (rn_id r);
  match already_over current with
  | Some c => mret c
  | None =>
      let doc := default (rn_result r) result_update <| rd_stage_started_at := Some now |> in
      let started :=
        if bool_decide (rn_started_at r = None) && negb (bool_decide (status = RunQueued))
        then [SetStartedAt (Some now)] else [] in
      '(updated, applied) ← update_run_if_status now (rn_id r) (rn_status r)
        ([SetStatus status; SetStage status] ++ updates ++ [SetResult doc] ++ started);
      if negb applied then mret updated
      else
        _ ← append_event now (rn_id r) (status_text status)
          (if bool_decide (status = RunCompleted) then "success" else "info") message payload
          "run.transition" (rn_id r +:+ ":transition:" +:+ pretty (rn_state_version updated))
          (Some (rn_status r)) (Some status);
        mret updated
  end.

(* src/features/automation/orchestrator.py:425-440 AutomationOrchestrator._stay *)
Definition stay (now : Z) (r : run) (message : string) (payload : gmap string string)
    (updates : list assignment) : M store run :=
  '(updated, applied) ← update_run_if_status now (rn_id r) (rn_status r) updates;
  _ ← when applied
    (append_event now (rn_id r) (status_text (rn_status r)) "info" message payload "stage.poll"
       (rn_id r +:+ ":" +:+ status_text (rn_status r) +:+ ":poll")
       (Some (rn_status r)) (Some (rn_status r)));
  mret updated.

(** Releasing resources and reporting the failure reach the executor only; a raised
    exception there is logged. *)
(* src/features/automation/orchestrator.py:442-478 AutomationOrchestrator._fail *)
Definition fail (now : Z) (X : executor) (r : run) (status : run_status) (error : string)
    (payload : gmap string string) : M store run :=
  current ← get_run (rn_id r);
  match already_over current with
  | Some c => mret c
  | None =>
      let notified :=
        if bool_decide (status = RunReportingFailed) then payload
        else match ex_report_result X (r <| rn_status := status |> <| rn_error := error |>) with
             | Ok res => <["notifications" := get_text "" "notifications" res]> payload
             | Err _ => payload
             end in
      '(updated, applied) ← update_run_if_status now (rn_id r) (rn_status r)
        [SetStatus status; SetStage status; SetError error; SetFinishedAt (Some now)];
      if negb applied then mret updated
      else
        _ ← append_event now (rn_id r) (status_text status) "error" error notified "run.transition"
          (rn_id r +:+ ":transition:" +:+ pretty (rn_state_version updated))
          (Some (rn_status r)) (Some status);
        mret updated
  end.

(** ** The stages *)

Definition col (k v : string) : assignment := SetColumn k v.
Definition column (r : run) (k : string) : string := default "" (rn_columns r !! k).
Definition strip_colons (s : string) : string :=
  (fix lstrip_colon (t : string) := match t with String ":" t' => lstrip_colon t' | _ => t end)
    (rstrip_char ":" s).

Section stages.
Context (now : Z) (X : executor) (r : run).

(* src/features/automation/orchestrator.py:156-162 AutomationOrchestrator._advance_run *)
Definition build_artifact_id (res : stage_result) : string :=
  str_or (sr_artifact_id res)
    (strip_colons (get_text "" "jenkins_build_number" res +:+ ":" +:+
       str_or (get_text "" "artifact_path" res) (get_text "" "artifact_url" res))).

(* src/features/automation/orchestrator.py:121-124 AutomationOrchestrator._advance_run *)
Definition stage_queued : M store run :=
  if nonempty (rn_jenkins_job r) || run_has_build r
  then transition now r RunJenkinsQueued "Run is queued for firmware build" ∅ None []
  else transition now r RunWaitingDevice "Run is waiting for device selection" ∅ None [].
(* src/features/automation/orchestrator.py:125-137 AutomationOrchestrator._advance_run *)
Definition stage_jenkins_queued : M store run :=
  res ← call (ex_trigger_build X r);
  if negb (truthy (sr_success res))
  then fail now X r RunJenkinsFailed (default "Jenkins trigger failed" (sr_error res)) (sr_text res)
  else transition now r RunJenkinsBuilding "Firmware build triggered" (sr_text res) None
    [col "jenkins_queue_url" (get_text "" "jenkins_queue_url" res);
     col "jenkins_build_number" (get_text "" "jenkins_build_number" res);
     col "jenkins_build_url" (get_text "" "jenkins_build_url" res)].
(* src/features/automation/orchestrator.py:138-163 AutomationOrchestrator._advance_run *)
Definition stage_jenkins_building : M store run :=
  res ← call (ex_poll_build X r);
  if negb (truthy (sr_success res))
  then fail now X r RunJenkinsFailed (default "Firmware build failed" (sr_error res)) (sr_text res)
  else if truthy (sr_building res) then stay now r "Firmware build is still running" (sr_text res) []
  else if nonempty (sr_result res) && negb (streqb (sr_result res) "SUCCESS")
  then fail now X r RunJenkinsFailed ("Jenkins build result: " +:+ sr_result res) (sr_text res)
  else
    let keep k := col k (get_text (column r k) k res) in
    transition now r RunArtifactReady "Firmware build completed" (sr_text res) None
      [keep "jenkins_queue_url"; keep "jenkins_build_number"; keep "jenkins_build_url";
       keep "artifact_url"; keep "artifact_path"; col "build_artifact_id" (build_artifact_id res)].
(* src/features/automation/orchestrator.py:164-175 AutomationOrchestrator._advance_run *)
Definition stage_artifact_ready : M store run :=
  res ← call (ex_select_artifact X r);
  if negb (truthy (sr_success res))
  then fail now X r RunArtifactMissing (default "artifact missing" (sr_error res)) (sr_text res)
  else transition now r RunWaitingDevice "Build artifact selected" (sr_text res) None
    [col "artifact_url" (get_text "" "artifact_url" res);
     col "artifact_path" (get_text (column r "artifact_path") "artifact_path" res)].
(* src/features/automation/orchestrator.py:176-195 AutomationOrchestrator._advance_run *)
Definition stage_waiting_device : M store run :=
  res ← call (ex_select_devices X r);
  if negb (truthy (sr_success res)) then
    if truthy (sr_retry res)
    then stay now r ("Waiting for devices: " +:+ default "" (sr_error res)) (sr_text res) []
    else fail now X r RunFailed (default "device selection failed" (sr_error res)) (sr_text res)
  else transition now r RunDeviceLocked "Devices selected and locked" (sr_text res) None
    [SetDevices (sr_devices res); SetWorker (get_text (rn_worker_id r) "worker_id" res);
     col "device_reservation_id" (get_text "" "reservation_id" res)].
(* src/features/automation/orchestrator.py:198-213 AutomationOrchestrator._advance_run *)
Definition stage_flashing : M store run :=
  res ← call (ex_flash X r);
  if negb (truthy (sr_success res))
  then fail now X r RunFlashFailed (default "flash failed" (sr_error res)) (sr_text res)
  else
    let flash_updates :=
      [col "flash_stage_id" (get_text (column r "flash_stage_id") "stage_id" res);
       col "flash_command_id" (get_text (column r "flash_command_id") "command_id" res)] in
    if truthy (sr_running res)
    then stay now r "Firmware flash is still running" (sr_text res) flash_updates
    else transition now r RunFlashCompleted "Firmware flash completed" (sr_text res) None flash_updates.
(* src/features/automation/orchestrator.py:214-221 AutomationOrchestrator._advance_run *)
Definition stage_flashed : M store run :=
  if bool_decide (rn_status r = RunFlashVerified) && is_true (rd_post_flash_verified (rn_result r))
  then transition now r RunTesting "Starting GMS test" ∅ None []
  else if ex_aoa_enabled X r
  then transition now r RunAoaRecovering "Starting AOA recovery" ∅ None []
  else transition now r RunPostFlashVerifying "Verifying flashed firmware" ∅ None [].
(* src/features/automation/orchestrator.py:222-232 AutomationOrchestrator._advance_run *)
Definition stage_post_flash : M store run :=
  res ← call (ex_verify_post_flash X r);
  if truthy (sr_running res) then stay now r "Waiting for post-flash verification" (sr_text res) []
  else if negb (is_true (sr_success res)) || negb (is_true (sr_verified res))
  then fail now X r RunFlashFailed (default "post-flash verification failed" (sr_error res)) (sr_text res)
  else transition now r RunFlashVerified "Firmware identity verified" (sr_text res)
    (Some (merged_result (rn_result r) "post_flash" res)) [].
(* src/features/automation/orchestrator.py:233-254 AutomationOrchestrator._advance_run *)
Definition stage_aoa : M store run :=
  res ← call (ex_aoa_recover X r);
  if negb (truthy (sr_success res))
  then fail now X r RunAoaFailed (default "AOA recovery failed" (sr_error res)) (sr_text res)
  else
    let command := col "aoa_command_id" (get_text (column r "aoa_command_id") "command_id" res) in
    if truthy (sr_running res) then stay now r "AOA recovery is still running" (sr_text res) [command]
    else
      let online := match sr_aoa res with
        | Some a => is_true (ao_success a) && is_true (ao_adb_recovered a)
                    && streqb (ao_adb_state a) "device"
        | None => false
        end in
      if negb online
      then fail now X r RunAoaFailed "AOA recovery did not verify ADB online"
             (<["reconcile_required" := "True"]> (sr_text res))
      else transition now r RunPostFlashVerifying "AOA recovery completed, verifying firmware"
             (sr_text res) None [command].
(* src/features/automation/orchestrator.py:255-264 AutomationOrchestrator._advance_run *)
Definition stage_testing : M store run :=
  res ← call (ex_start_test X r);
  if negb (truthy (sr_success res))
  then fail now X r RunTestFailed (default "test failed" (sr_error res)) (sr_text res)
  else transition now r RunTestRunning "GMS test accepted and running" (sr_text res)
    (Some (merged_result (rn_result r) "test_start" res))
    [col "cluster_job_id" (get_text "" "cluster_job_id" res);
     col "attempt_id" (get_text "" "attempt_id" res)].
(* src/features/automation/orchestrator.py:265-278 AutomationOrchestrator._advance_run *)
Definition stage_test_running : M store run :=
  res ← call (ex_poll_test X r);
  if negb (truthy (sr_success res))
  then fail now X r RunTestFailed (default "test failed" (sr_error res)) (sr_text res)
  else if truthy (sr_running res) then stay now r "GMS test is still running" (sr_text res) []
  else transition now r RunReportCollecting "Test completed, collecting report" (sr_text res) None
    [col "report_timestamp" (get_text "" "report_timestamp" res);
     SetReport (get_text "" "report_id" res)].
(* src/features/automation/orchestrator.py:279-293 AutomationOrchestrator._advance_run *)
Definition stage_report_collecting : M store run :=
  res ← call (ex_collect_report X r);
  if negb (truthy (sr_success res)) then
    if truthy (sr_retry res)
    then stay now r (default "Waiting for report indexing" (sr_error res)) (sr_text res) []
    else fail now X r RunTestFailed (default "report collection failed" (sr_error res)) (sr_text res)
  else transition now r RunAnalyzing "Report collected" (sr_text res) None
    [col "report_timestamp" (get_text "" "report_timestamp" res);
     SetReport (get_text (rn_report_id r) "report_id" res);
     SetSummary (summary_after r (sr_report res) true)].
(* src/features/automation/orchestrator.py:294-310 AutomationOrchestrator._advance_run *)
Definition stage_analyzing : M store run :=
  res ← call (ex_analyze_report X r);
  if negb (truthy (sr_success res))
  then fail now X r RunAnalysisFailed (default "analysis failed" (sr_error res)) (sr_text res)
  else transition now r RunReporting "Report analysis completed" (sr_text res)
    (Some (merged_result (rn_result r) "analysis" res))
    [SetSummary (summary_after r (sr_payload res) false)].
(* src/features/automation/orchestrator.py:311-321 AutomationOrchestrator._advance_run *)
Definition stage_reporting : M store run :=
  res ← call (ex_report_result X r);
  if negb (truthy (sr_success res))
  then fail now X r RunReportingFailed (default "result reporting failed" (sr_error res)) (sr_text res)
  else transition now r RunCompleted "Automation run completed" (sr_text res) None
    [SetFinishedAt (Some now)].

(* src/features/automation/orchestrator.py:116-323 AutomationOrchestrator._advance_run *)
Definition advance_stage : M store run :=
  if terminal (rn_status r) then mret r
  else
    match rn_status r with
    | RunQueued => stage_queued
    | RunJenkinsQueued => stage_jenkins_queued
    | RunJenkinsBuilding => stage_jenkins_building
    | RunArtifactReady => stage_artifact_ready
    | RunWaitingDevice => stage_waiting_device
    | RunDeviceLocked => transition now r RunFlashing "Starting firmware flash" ∅ None []
    | RunFlashing => stage_flashing
    | RunFlashCompleted | RunFlashVerified => stage_flashed
    | RunPostFlashVerifying => stage_post_flash
    | RunAoaRecovering => stage_aoa
    | RunTesting => stage_testing
    | RunTestRunning => stage_test_running
    | RunReportCollecting => stage_report_collecting
    | RunAnalyzing => stage_analyzing
    | RunReporting => stage_reporting
    | _ => fail now X r RunFailed ("unsupported status: " +:+ status_text (rn_status r)) ∅
    end.
End stages.

(** ** The operations *)

Section operations.
Context (claim_owner : string) (X : executor).
Definition LEASE_SECONDS : Z := 120.

(* src/features/automation/orchestrator.py:66-73 AutomationOrchestrator.advance_next *)
Definition advance_next (now : Z) : M store (option run) :=
  claimed ← claim_next_active now claim_owner LEASE_SECONDS;
  match claimed with
  | None => mret None
  | Some r =>
      finally (updated ← advance_stage now X r; mret (Some updated))
        (release_claim (rn_id r) claim_owner)
  end.

(* src/features/automation/orchestrator.py:75-87 AutomationOrchestrator.advance_run *)
Definition advance_run (now : Z) (run_id : string) : M store run :=
  found ← get_run run_id;
  match found with
  | None => raise (ValueError ("automation run not found: " +:+ run_id))
  | Some r =>
      if terminal (rn_status r) then mret r
      else
        claimed ← claim_run now run_id claim_owner LEASE_SECONDS;
        if negb claimed then (current ← get_run run_id; mret (default r current))
        else
          finally (current ← get_run run_id; advance_stage now X (default r current))
            (release_claim run_id claim_owner)
  end.

(* src/features/automation/orchestrator.py:325-365 AutomationOrchestrator.cancel_run *)
Definition cancel_run (now : Z) (run_id reason : string) (cleanup : bool) : M store run :=
  found ← get_run run_id;
  match found with
  | None => raise (ValueError ("automation run not found: " +:+ run_id))
  | Some r =>
      if terminal (rn_status r) then mret r
      else
        claimed ← claim_run now run_id claim_owner LEASE_SECONDS;
        if negb claimed then raise (RuntimeError "automation run is being advanced; retry cancellation")
        else
          finally
            (current ← get_run run_id;
             let r := default r current in
             if terminal (rn_status r) then mret r
             else
               _ ← (if cleanup then
                      res ← call (ex_cancel X r);
                      if truthy (sr_success res) then mret tt
                      else
                        let error := default "cancel failed" (sr_error res) in
                        _ ← append_event now (rn_id r) (status_text (rn_status r)) "error" error
                              (sr_text res) "log" "" None None;
                        raise (RuntimeError error)
                    else mret tt);
               transition now r RunCancelled reason ∅ None [SetFinishedAt (Some now)])
            (release_claim run_id claim_owner)
  end.
End operations.
