(* ===== verification/Schedule.v ===== *)
(** The calendar of test plans, [features/automation/plan_models.py], and the time zones of
    [zoneinfo] it computes with.

    A moment is a number of seconds since 1970-01-01 UTC, a wall clock reading the number of
    seconds since 1970-01-01 00:00 on that clock; a [datetime] with a zone is its reading and
    its fold.  A zone is what [ZoneInfo] reads from the database: the offset before the first
    transition and, in order, the moments of the transitions with the offsets after them (the
    rule for the years after the last one being unrolled as far as wanted).  The database
    itself is a parameter.  Digits that are not ASCII, and the last years of the calendar,
    for which [datetime] raises, are left out. *)

From S2P Require Import Prelude Encodings.

Open Scope Z_scope.

Definition MINUTE_SECONDS : Z := 60.
Definition HOUR_SECONDS : Z := 60 * MINUTE_SECONDS.
Definition DAY_SECONDS : Z := 24 * HOUR_SECONDS.

(** ** Time zones *)

Record zone := Zone { zn_first : Z; zn_transitions : list (Z * Z) }.

(** The offset in force at a moment. *)
Fixpoint offset_from (o : Z) (l : list (Z * Z)) (t : Z) : Z :=
  match l with
  | [] => o
  | (u, o') :: l => if Z.leb u t then offset_from o' l t else o
  end.
Definition offset (z : zone) (t : Z) : Z := offset_from (zn_first z) (zn_transitions z) t.
(** The offset of a reading with fold 0: a transition takes place, on the clock, at the later of
    the two readings it has. *)
Fixpoint wall_offset_from (o : Z) (l : list (Z * Z)) (w : Z) : Z :=
  match l with
  | [] => o
  | (u, o') :: l => if Z.leb (u + Z.max o o') w then wall_offset_from o' l w else o
  end.
Definition wall_offset (z : zone) (w : Z) : Z := wall_offset_from (zn_first z) (zn_transitions z) w.
(** [t.astimezone(zone)] and [datetime(..., tzinfo=zone, fold=0).astimezone(utc)]. *)
Definition to_wall (z : zone) (t : Z) : Z := t + offset z t.
Definition from_wall (z : zone) (w : Z) : Z := w - wall_offset z w.

(** ** Schedules *)

(** [date.weekday()] of a day since 1970-01-01, a Thursday; 0 is Monday. *)
Definition weekday (day : Z) : Z := (day + 3) mod 7.

Inductive schedule_kind := Manual | Interval | Daily | Weekly.
#[export] Instance schedule_kind_eq_dec : EqDecision schedule_kind.
Proof. solve_decision. Defined.
(* src/features/automation/plan_models.py:23-29 PlanSchedule *)
Record plan_schedule := PlanSchedule {
  ps_kind : schedule_kind;
  ps_timezone : string;
  ps_time : string;
  ps_weekdays : list Z;
  ps_interval_minutes : Z;
}.
Definition default_schedule : plan_schedule := PlanSchedule Manual "Asia/Shanghai" "02:00" [0] 1440.

Definition digit_value (a : ascii) : Z := Z.of_N (N_of_ascii a) - 48.
Definition digit_upto (n : Z) (a : ascii) : bool := Z.leb 0 (digit_value a) && Z.leb (digit_value a) n.
(** [re.fullmatch(r'(?:[01]\d|2[0-3]):[0-5]\d', time)], and the numbers that are split off. *)
Definition clock_time (time : string) : option (Z * Z) :=
  match time with
  | String h1 (String h2 (String c (String m1 (String m2 EmptyString)))) =>
      if ((digit_upto 1 h1 && digit_upto 9 h2) || (Z.eqb (digit_value h1) 2 && digit_upto 3 h2))
         && bool_decide (c = ":"%char) && digit_upto 5 m1 && digit_upto 9 m2
      then Some (10 * digit_value h1 + digit_value h2, 10 * digit_value m1 + digit_value m2)
      else None
  | _ => None
  end.

Section zones.
Context (zone_info : string → option zone).

(** The constraints of the fields, then the validator. *)
(* src/features/automation/plan_models.py:31-45 PlanSchedule.validate_wall_clock *)
Definition validate_schedule (s : plan_schedule) : result plan_schedule :=
  if Nat.ltb 64 (String.length (ps_timezone s)) || Nat.ltb 7 (length (ps_weekdays s))
     || negb (Z.leb 5 (ps_interval_minutes s) && Z.leb (ps_interval_minutes s) 10080)
  then Err (ValueError "field")
  else if bool_decide (zone_info (ps_timezone s) = None) then Err (ValueError "Unknown schedule timezone")
  else if bool_decide (clock_time (ps_time s) = None) then Err (ValueError "Schedule time must be HH:MM")
  else if negb (forallb (λ d, Z.leb 0 d && Z.leb d 6) (ps_weekdays s))
  then Err (ValueError "Weekdays must be integers from 0 (Monday) to 6")
  else if bool_decide (ps_kind s = Weekly) && bool_decide (ps_weekdays s = [])
  then Err (ValueError "Select at least one weekday")
  else Ok (PlanSchedule (ps_kind s) (ps_timezone s) (ps_time s)
             (order_by Z.leb (dedup (ps_weekdays s))) (ps_interval_minutes s)).

(** The reading of the schedule on the day [offset] days after that of [local], and its moment,
    unless it does not exist, has passed, or is not on a day of the schedule. *)
(* src/features/automation/plan_models.py:57-68 PlanSchedule.next_after *)
Definition occurrence (s : plan_schedule) (z : zone) (now hour minute k : Z) : option Z :=
  let day := to_wall z now / DAY_SECONDS + k in
  if bool_decide (ps_kind s = Weekly) && negb (bool_decide (weekday day ∈ ps_weekdays s)) then None
  else
    let candidate := day * DAY_SECONDS + hour * HOUR_SECONDS + minute * MINUTE_SECONDS in
    let utc_candidate := from_wall z candidate in
    if negb (Z.eqb (to_wall z utc_candidate) candidate) then None
    else if Z.ltb now utc_candidate then Some utc_candidate else None.
Fixpoint first_occurrence (f : Z → option Z) (days : list Z) : option Z :=
  match days with
  | [] => None
  | k :: days => match f k with Some t => Some t | None => first_occurrence f days end
  end.
(** [''] is [None].  A zone or a time that is not valid raises. *)
(* src/features/automation/plan_models.py:47-70 PlanSchedule.next_after *)
Definition next_after (s : plan_schedule) (now : Z) : result stamp :=
  match ps_kind s with
  | Manual => Ok None
  | Interval => Ok (Some (now + ps_interval_minutes s * MINUTE_SECONDS))
  | Daily | Weekly =>
      match zone_info (ps_timezone s), clock_time (ps_time s) with
      | Some z, Some (hour, minute) =>
          match first_occurrence (occurrence s z now hour minute) [0; 1; 2; 3; 4; 5; 6; 7; 8] with
          | Some t => Ok (Some t)
          | None => Err (ValueError "No schedule occurrence found")
          end
      | _, _ => Err (ValueError "schedule")
      end
  end.
End zones.

(** ** Clocks that are put forward and back *)

(** Two transitions do not meet on the clock. *)
Fixpoint apart (o : Z) (l : list (Z * Z)) : Prop :=
  match l with
  | (u, o') :: (((u', o'') :: _) as l') => u + Z.max o o' ≤ u' + Z.min o' o'' ∧ u ≤ u' ∧ apart o' l'
  | _ => True
  end.
Definition zone_ok (z : zone) : Prop := apart (zn_first z) (zn_transitions z).

Lemma apart_tail o u o' l : apart o ((u, o') :: l) → apart o' l.
Proof. destruct l as [|[u' o''] l]; simpl; tauto. Qed.
Lemma offset_before o l t : (∀ u o', head l = Some (u, o') → t < u) → offset_from o l t = o.
Proof. destruct l as [|[u o'] l]; [done|]. intros Hh. simpl. specialize (Hh u o' eq_refl). by case_match; [lia|]. Qed.
(** After a transition the clock does not go back behind it. *)
Lemma wall_after o u o' l t : apart o ((u, o') :: l) → u ≤ t → u + o' ≤ t + offset_from o' l t.
Proof.
  revert o u o'. induction l as [|[u' o''] l IH]; intros o u o' Hl Ht; simpl; [lia|].
  destruct Hl as (Hle&Hu&Hl). case_match; [|lia]. specialize (IH o' u' o'' Hl ltac:(lia)). lia.
Qed.

Lemma reading_before o u o' l w t :
  apart o ((u, o') :: l) → t + offset_from o ((u, o') :: l) t = w → w < u + Z.max o o' → w - o < u.
Proof.
  intros Hl Ht Hw. cbn [offset_from] in Ht. destruct (Z.leb_spec u t) as [Hut|Hut]; [|lia].
  pose proof (wall_after o u o' l t Hl Hut). lia.
Qed.

(** [from_wall] is the first moment of a reading, if it has one. *)
Definition first_moment (f : Z → Z) (w t : Z) : Prop := f t = w ∧ ∀ t', f t' = w → t ≤ t'.
Lemma from_wall_first o l w :
  apart o l → (∃ t, t + offset_from o l t = w) →
  first_moment (λ t, t + offset_from o l t) w (w - wall_offset_from o l w).
Proof.
  revert o. induction l as [|[u o'] l IH]; intros o Hl [t Ht0]; pose proof Ht0 as Ht; cbn [offset_from wall_offset_from] in *.
  { split; [lia|]. intros t'. lia. }
  unfold first_moment. destruct (Z.leb_spec (u + Z.max o o') w) as [Ew|Ew].
  - destruct (Z.leb_spec u t) as [Hut|Hut]; [|lia].
    destruct (IH o' (apart_tail _ _ _ _ Hl)) as [He Hle]; [by exists t|]. cbv beta in He, Hle.
    assert (u ≤ w - wall_offset_from o' l w) as Hu.
    { destruct (decide (u ≤ w - wall_offset_from o' l w)) as [|Hlt]; [done|]. exfalso.
      rewrite (offset_before o' l) in He; [lia|]. intros u' o'' Hh. destruct l as [|[u1 o1] l]; [done|].
      injection Hh as -> ->. destruct Hl as (_&Huu&_). lia. }
    split; [destruct (Z.leb_spec u (w - wall_offset_from o' l w)); lia|].
    intros t'. destruct (Z.leb_spec u t'); [apply Hle|lia].
  - pose proof (reading_before o u o' l w t Hl Ht0 Ew).
    split; [destruct (Z.leb_spec u (w - o)); lia|]. intros t'. destruct (Z.leb_spec u t'); lia.
Qed.
(** First moments come in the order of their readings. *)
Lemma first_moments_ordered o l w w' :
  apart o l → (∃ t, t + offset_from o l t = w) → (∃ t, t + offset_from o l t = w') → w < w' →
  w - wall_offset_from o l w < w' - wall_offset_from o l w'.
Proof.
  revert o. induction l as [|[u o'] l IH]; intros o Hl Hw Hw' Hlt; [simpl; lia|].
  assert (w < u + Z.max o o' → w - o < u) as Hb by (destruct Hw as [t Ht]; by apply (reading_before o u o' l w t)).
  pose proof (from_wall_first o ((u, o') :: l) w Hl Hw) as [He _].
  pose proof (from_wall_first o ((u, o') :: l) w' Hl Hw') as [He' _].
  assert (∀ x, (∃ t, t + offset_from o ((u, o') :: l) t = x) → u + Z.max o o' ≤ x →
    ∃ t, t + offset_from o' l t = x) as Htail.
  { intros x [t Ht] Hx. exists t. cbn [offset_from] in Ht. destruct (Z.leb_spec u t); lia. }
  cbn [offset_from wall_offset_from] in *.
  destruct (Z.leb_spec (u + Z.max o o') w); destruct (Z.leb_spec (u + Z.max o o') w'); try lia.
  - apply (IH o' (apart_tail _ _ _ _ Hl)); [apply Htail; [done|lia]..|done].
  - destruct (Z.leb_spec u (w - o)); destruct (Z.leb_spec u (w' - wall_offset_from o' l w')); lia.
Qed.
