(* ===== verification/ScheduleProperties.v ===== *)
(** What the calendar of plans promises: the next occurrence is the first one after now, a daily
    plan always has one; and a weekly plan can have none. *)

From S2P Require Import Prelude Encodings Schedule.

Open Scope Z_scope.

(** The moments of a schedule: the clock shows its time, on one of its days, and has not shown
    this reading before. *)
Definition occurs (s : plan_schedule) (z : zone) (hour minute t : Z) : Prop :=
  first_moment (to_wall z) (to_wall z t) t ∧
  to_wall z t mod DAY_SECONDS = hour * HOUR_SECONDS + minute * MINUTE_SECONDS ∧
  (ps_kind s = Weekly → weekday (to_wall z t / DAY_SECONDS) ∈ ps_weekdays s).

Lemma clock_time_range time hour minute :
  clock_time time = Some (hour, minute) → 0 ≤ hour ≤ 23 ∧ 0 ≤ minute ≤ 59.
Proof.
  destruct time as [|h1 [|h2 [|c [|m1 [|m2 [|]]]]]]; try done. cbn [clock_time].
  destruct (_ && _) eqn:E; [|done]. intros [= <- <-]. unfold digit_upto in E.
  repeat match goal with H : _ && _ = true |- _ => apply andb_true_iff in H as [? ?] end.
  match goal with H : _ || _ = true |- _ => apply orb_true_iff in H as [H|H]; apply andb_true_iff in H as [? ?] end.
  all: repeat match goal with H : _ && _ = true |- _ => apply andb_true_iff in H as [? ?] end; lia.
Qed.

Section zone.
Context (z : zone) (Hz : zone_ok z).

Lemma moment_first w : (∃ t, to_wall z t = w) → first_moment (to_wall z) w (from_wall z w).
Proof. apply (from_wall_first (zn_first z) (zn_transitions z) w Hz). Qed.
Lemma moments_ordered w w' :
  (∃ t, to_wall z t = w) → (∃ t, to_wall z t = w') → w < w' → from_wall z w < from_wall z w'.
Proof. apply (first_moments_ordered (zn_first z) (zn_transitions z) w w' Hz). Qed.
Lemma first_moment_unique w t : first_moment (to_wall z) w t → t = from_wall z w.
Proof.
  intros [E Hle]. destruct (moment_first w) as [E' Hle']; [by exists t|].
  specialize (Hle _ E'). specialize (Hle' _ E). lia.
Qed.

Section schedule.
Context (s : plan_schedule) (now hour minute : Z).
Context (Hhour : 0 ≤ hour ≤ 23) (Hminute : 0 ≤ minute ≤ 59).
Let today := to_wall z now / DAY_SECONDS.
Let reading (k : Z) : Z := (today + k) * DAY_SECONDS + hour * HOUR_SECONDS + minute * MINUTE_SECONDS.

Lemma reading_day k : reading k / DAY_SECONDS = today + k ∧
  reading k mod DAY_SECONDS = hour * HOUR_SECONDS + minute * MINUTE_SECONDS.
Proof.
  unfold reading, DAY_SECONDS, HOUR_SECONDS, MINUTE_SECONDS.
  assert (0 ≤ hour * (60 * 60) + minute * 60 < 24 * (60 * 60)) as Hb by lia.
  split.
  - symmetry. apply (Z.div_unique_pos _ _ _ (hour * (60 * 60) + minute * 60)); lia.
  - symmetry. apply (Z.mod_unique_pos _ _ (today + k)); lia.
Qed.
(** An occurrence is the moment of a reading on one of the days. *)
Lemma occurrence_Some k t :
  occurrence s z now hour minute k = Some t ↔
  now < t ∧ t = from_wall z (reading k) ∧ to_wall z t = reading k ∧ occurs s z hour minute t.
Proof.
  unfold occurrence. fold today. fold (reading k). destruct (reading_day k) as [Hd Hm]. split.
  - destruct (_ && _) eqn:Ew; [done|]. destruct (Z.eqb_spec (to_wall z (from_wall z (reading k))) (reading k)) as [E|];
      [|done]. cbn [negb]. destruct (Z.ltb_spec now (from_wall z (reading k))); [|done]. intros [= <-].
    split_and!; [done..|]. unfold occurs. rewrite E, Hd, Hm. split_and!; [apply moment_first; by eexists|done|].
    intros Hk. rewrite bool_decide_eq_true_2 in Ew by done. simpl in Ew. by bool_props.
  - intros (Hlt&->&E&_&_&Hw). rewrite E, Hd in Hw.
    assert (bool_decide (ps_kind s = Weekly) && negb (bool_decide (weekday (today + k) ∈ ps_weekdays s)) = false) as ->.
    { case_bool_decide as Hk; [|done]. rewrite bool_decide_eq_true_2; [done|by apply Hw]. }
    rewrite E, Z.eqb_refl. cbn [negb]. destruct (Z.ltb_spec now (from_wall z (reading k))); [done|lia].
Qed.
(** Every moment of the schedule after now is one of them. *)
Lemma occurs_reading t :
  now < t → occurs s z hour minute t → ∃ k, 0 ≤ k ∧ occurrence s z now hour minute k = Some t.
Proof.
  intros Hlt Ho. pose proof Ho as (Hf&Hm&_). set (w := to_wall z t) in *.
  assert (to_wall z now ≤ w) as Hle.
  { destruct (decide (to_wall z now ≤ w)) as [|Hgt]; [done|]. exfalso.
    rewrite (first_moment_unique _ _ Hf) in Hlt.
    assert (from_wall z w < from_wall z (to_wall z now)) by (apply moments_ordered; [by exists t|by exists now|lia]).
    destruct (moment_first (to_wall z now)) as [_ Hmin]; [by exists now|]. specialize (Hmin now eq_refl). lia. }
  exists (w / DAY_SECONDS - today). split.
  { unfold today. assert (to_wall z now / DAY_SECONDS ≤ w / DAY_SECONDS) by (apply Z.div_le_mono; [done|lia]). lia. }
  assert (reading (w / DAY_SECONDS - today) = w) as Er.
  { unfold reading. rewrite (Z.div_mod w DAY_SECONDS) at 2 by done. rewrite Hm. lia. }
  apply occurrence_Some. rewrite Er. split_and!; [done|by apply first_moment_unique|done|done].
Qed.
Lemma occurrence_ordered k k' t t' :
  occurrence s z now hour minute k = Some t → occurrence s z now hour minute k' = Some t' → k < k' → t < t'.
Proof.
  intros (_&->&E&_)%occurrence_Some (_&->&E'&_)%occurrence_Some Hk.
  apply moments_ordered; [by eexists..|]. unfold reading, DAY_SECONDS, HOUR_SECONDS, MINUTE_SECONDS. lia.
Qed.
End schedule.
End zone.

(** The first of the days that has an occurrence. *)
Lemma first_occurrence_Some f days t :
  first_occurrence f days = Some t →
  ∃ i k, days !! i = Some k ∧ f k = Some t ∧ ∀ j k', (j < i)%nat → days !! j = Some k' → f k' = None.
Proof.
  induction days as [|k days IH]; [done|]. simpl. destruct (f k) as [x|] eqn:Ek.
  - intros [= ->]. exists 0%nat, k. split_and!; [done..|]. intros j k' Hj. lia.
  - intros (i&k0&Hi&Hk0&Hb)%IH. exists (S i), k0. split_and!; [done..|]. intros [|j] k' Hj Hk'; simpl in Hk'.
    + by injection Hk' as <-.
    + apply (Hb j); [lia|done].
Qed.
Lemma first_occurrence_None f days k : first_occurrence f days = None → k ∈ days → f k = None.
Proof.
  induction days as [|k0 days IH]; intros E Hin; [by apply elem_of_nil in Hin|]. simpl in E.
  destruct (f k0) eqn:E0; [done|]. apply elem_of_cons in Hin as [->|]; [done|by apply IH].
Qed.
Definition next_days : list Z := [0; 1; 2; 3; 4; 5; 6; 7; 8].
Lemma next_days_lookup i k : next_days !! i = Some k → k = Z.of_nat i ∧ (i ≤ 8)%nat.
Proof. do 9 (destruct i as [|i]; [intros [= <-]; split; [done|lia]|]). done. Qed.
Lemma next_days_in k : 0 ≤ k ≤ 8 → k ∈ next_days.
Proof.
  intros Hk. assert (k = 0 ∨ k = 1 ∨ k = 2 ∨ k = 3 ∨ k = 4 ∨ k = 5 ∨ k = 6 ∨ k = 7 ∨ k = 8) as Hc by lia.
  unfold next_days. set_solver.
Qed.

(** ** Readings that do not exist *)

(** Offsets are less than a day, and transitions days apart, as everywhere in the database. *)
Definition offset_ok (o : Z) : Prop := - DAY_SECONDS < o < DAY_SECONDS.
Definition spaced (z : zone) : Prop :=
  offset_ok (zn_first z) ∧ Forall (λ x, offset_ok x.2) (zn_transitions z) ∧
  ∀ x y, x ∈ zn_transitions z → y ∈ zn_transitions z →
    x.1 = y.1 ∨ x.1 + 4 * DAY_SECONDS ≤ y.1 ∨ y.1 + 4 * DAY_SECONDS ≤ x.1.

(** A reading that the clock skips is skipped by a transition. *)
Definition skipped (l : list (Z * Z)) (w : Z) : Prop :=
  ∃ x o, x ∈ l ∧ offset_ok o ∧ x.1 + o ≤ w < x.1 + x.2.
Lemma moment_or_skipped o l w :
  apart o l → offset_ok o → Forall (λ x, offset_ok x.2) l → (∃ t, t + offset_from o l t = w) ∨ skipped l w.
Proof.
  revert o. induction l as [|[u o'] l IH]; intros o Hl Ho Hall; [left; exists (w - o); simpl; lia|].
  apply Forall_cons in Hall as [Ho' Hall]. cbn [offset_from].
  destruct (decide (w < u + o)) as [Hw|Hw].
  { left. exists (w - o). destruct (Z.leb_spec u (w - o)); lia. }
  destruct (decide (w < u + o')) as [Hw'|Hw'].
  { right. exists (u, o'), o. split; [left|]. split; [done|simpl; lia]. }
  destruct (IH o' (apart_tail _ _ _ _ Hl) Ho' Hall) as [Ht|(x&op&Hx&?)]; [|right; exists x, op; split; [by right|done]].
  left. destruct (from_wall_first o' l w (apart_tail _ _ _ _ Hl) Ht) as [E _]. cbv beta in E.
  exists (w - wall_offset_from o' l w). destruct (Z.leb_spec u (w - wall_offset_from o' l w)) as [|Hlt]; [done|].
  rewrite (offset_before o' l) in E; [lia|]. intros u' o'' Hh. destruct l as [|[u1 o1] l]; [done|].
  injection Hh as -> ->. destruct Hl as (_&Huu&_). lia.
Qed.
Lemma offset_bounded o l t : offset_ok o → Forall (λ x, offset_ok x.2) l → offset_ok (offset_from o l t).
Proof.
  revert o. induction l as [|[u o'] l IH]; intros o Ho Hall; [done|]. apply Forall_cons in Hall as [??]. simpl.
  case_match; [by apply IH|done].
Qed.
Lemma wall_offset_bounded o l w : offset_ok o → Forall (λ x, offset_ok x.2) l → offset_ok (wall_offset_from o l w).
Proof.
  revert o. induction l as [|[u o'] l IH]; intros o Ho Hall; [done|]. apply Forall_cons in Hall as [??]. simpl.
  case_match; [by apply IH|done].
Qed.
(** Two readings two days apart are not both skipped. *)
Lemma not_both_skipped z w : spaced z → skipped (zn_transitions z) w → ¬ skipped (zn_transitions z) (w + 2 * DAY_SECONDS).
Proof.
  intros (_&Hall&Hsp) (x&o&Hx&Ho&Hw) (x'&o'&Hx'&Ho'&Hw'). rewrite Forall_forall in Hall.
  pose proof (Hall x Hx). pose proof (Hall x' Hx'). specialize (Hsp x x' Hx Hx'). unfold offset_ok, DAY_SECONDS in *. lia.
Qed.

Section daily.
Context (zone_info : string → option zone) (s : plan_schedule) (z : zone) (now hour minute : Z).
Context (Hz : zone_ok z) (Hs : spaced z).
Context (Hhour : 0 ≤ hour ≤ 23) (Hminute : 0 ≤ minute ≤ 59) (Hdaily : ps_kind s = Daily).

Lemma daily_occurrence k :
  3 ≤ k → ¬ skipped (zn_transitions z)
    ((to_wall z now / DAY_SECONDS + k) * DAY_SECONDS + hour * HOUR_SECONDS + minute * MINUTE_SECONDS) →
  ∃ t, occurrence s z now hour minute k = Some t.
Proof.
  intros Hk Hns.
  set (w := (to_wall z now / DAY_SECONDS + k) * DAY_SECONDS + hour * HOUR_SECONDS + minute * MINUTE_SECONDS) in *.
  exists (from_wall z w). apply occurrence_Some; [done..|]. fold w.
  destruct Hs as (Ho&Hall&_).
  destruct (moment_or_skipped (zn_first z) (zn_transitions z) w Hz Ho Hall) as [Ht|]; [|done].
  pose proof (moment_first z Hz w Ht) as Hfirst. pose proof (proj1 Hfirst) as E. split_and!; [|done|done|].
  - pose proof (offset_bounded _ _ now Ho Hall) as B1. pose proof (wall_offset_bounded _ _ w Ho Hall) as B2.
    pose proof (Z.mod_pos_bound (to_wall z now) DAY_SECONDS ltac:(done)) as Hmod.
    pose proof (Z.div_mod (to_wall z now) DAY_SECONDS ltac:(done)) as Hdiv.
    unfold w in *. unfold from_wall, to_wall, wall_offset, offset, offset_ok in *. unfold DAY_SECONDS, HOUR_SECONDS, MINUTE_SECONDS in *. lia.
  - unfold occurs. rewrite E. destruct (reading_day z now hour minute Hhour Hminute k) as [_ Hm].
    fold w in Hm. split_and!; [done|exact Hm|congruence].
Qed.
Lemma daily_has_next : ∃ t, first_occurrence (occurrence s z now hour minute) next_days = Some t.
Proof.
  destruct (first_occurrence _ next_days) as [t|] eqn:E; [by exists t|]. exfalso.
  assert (∀ k, 3 ≤ k ≤ 8 → ¬ ¬ skipped (zn_transitions z)
    ((to_wall z now / DAY_SECONDS + k) * DAY_SECONDS + hour * HOUR_SECONDS + minute * MINUTE_SECONDS)) as Hall.
  { intros k Hk Hns. destruct (daily_occurrence k) as [t Ht]; [lia|done|].
    by rewrite (first_occurrence_None _ _ k E) in Ht by (apply next_days_in; lia). }
  apply (Hall 3); [lia|]. intros H3. apply (Hall 5); [lia|]. intros H5.
  apply (not_both_skipped z _ Hs H3). eapply (eq_ind _ _ H5). lia.
Qed.
End daily.

(** The next occurrence of a plan is the first one.  For a daily or weekly schedule, what is
    computed lies after now, is a moment at which the clock of the zone shows the time of the
    schedule on one of its days (and not for the second time, when clocks were put back), and
    no such moment lies between. *)
Theorem next_after_first zone_info s z now t hour minute :
  ps_kind s = Daily ∨ ps_kind s = Weekly → zone_info (ps_timezone s) = Some z → zone_ok z →
  clock_time (ps_time s) = Some (hour, minute) → next_after zone_info s now = Ok (Some t) →
  now < t ∧ occurs s z hour minute t ∧ ∀ t', now < t' → occurs s z hour minute t' → t ≤ t'.
Proof.
  intros Hk Ezone Hz Et E. destruct (clock_time_range _ _ _ Et) as [Hh Hm].
  assert (first_occurrence (occurrence s z now hour minute) next_days = Some t) as Ef.
  { unfold next_after in E. rewrite Ezone, Et in E.
    unfold next_days. destruct Hk as [Hk|Hk]; rewrite Hk in E; (destruct (first_occurrence _ _) eqn:Ef; [|done]);
      by injection E as <-. }
  apply first_occurrence_Some in Ef as (i&k&Hi&Ek&Hb). apply next_days_lookup in Hi as [-> Hi].
  pose proof Ek as (Hlt&_&_&Ho)%occurrence_Some; [|done..]. split_and!; [done..|].
  intros t' Hlt' (k'&Hk'&Ek')%(occurs_reading z Hz s now hour minute Hh Hm t' Hlt').
  destruct (decide (k' < Z.of_nat i)) as [Hki|Hki].
  { rewrite (Hb (Z.to_nat k') k') in Ek'; [done|lia|].
    assert (k' ∈ next_days) as [j Hj]%list_elem_of_lookup by (apply next_days_in; lia).
    destruct (next_days_lookup _ _ Hj) as [-> _]. by rewrite Nat2Z.id. }
  destruct (decide (k' = Z.of_nat i)) as [->|]; [rewrite Ek in Ek'; by injection Ek' as ->|].
  assert (t < t'); [|lia]. eapply (occurrence_ordered z Hz s now hour minute); [done..|lia].
Qed.

(** A daily plan always has a next occurrence, whatever clock changes lie ahead: the search
    over nine days finds one. *)
Theorem daily_next_found zone_info s z now hour minute :
  ps_kind s = Daily → zone_info (ps_timezone s) = Some z → zone_ok z → spaced z →
  clock_time (ps_time s) = Some (hour, minute) → ∃ t, next_after zone_info s now = Ok (Some t) ∧ now < t.
Proof.
  intros Hk Ezone Hz Hs Et. destruct (clock_time_range _ _ _ Et) as [Hh Hm].
  destruct (daily_has_next s z now hour minute Hz Hs Hh Hm Hk) as [t Ht]. exists t. split.
  - unfold next_after. rewrite Hk, Ezone, Et. unfold next_days in Ht. by rewrite Ht.
  - apply first_occurrence_Some in Ht as (i&k&_&Ek&_). by apply occurrence_Some in Ek as (?&_).
Qed.

(** ** New York, spring 2026: on Sunday, March 8th, 02:00 is followed by 03:00 *)

Definition new_york : zone := Zone (-5 * HOUR_SECONDS) [(1772953200, -4 * HOUR_SECONDS); (1793512800, -5 * HOUR_SECONDS)].
Definition some_zones (name : string) : option zone := if streqb name "America/New_York" then Some new_york else None.
Definition at_half_past_two (kind : schedule_kind) : plan_schedule := PlanSchedule kind "America/New_York" "02:30" [6] 1440.
(** Saturday, March 7th, 12:00 and Sunday, March 1st, 12:00. *)
Definition before_change : Z := 1772902800.
Definition week_before : Z := 1772384400.
Lemma new_york_ok : zone_ok new_york ∧ spaced new_york.
Proof.
  split; [vm_compute; repeat split; discriminate|]. split_and!; [done|repeat constructor; done|].
  intros x y Hx Hy. unfold new_york in *. simpl in *. set_unfold. unfold DAY_SECONDS, HOUR_SECONDS, MINUTE_SECONDS.
  destruct Hx as [->|[->|[]]], Hy as [->|[->|[]]]; simpl; lia.
Qed.
Lemma next_after_first_witness :
  next_after some_zones (at_half_past_two Daily) before_change = Ok (Some 1773037800) ∧
  ∀ t', before_change < t' → occurs (at_half_past_two Daily) new_york 2 30 t' → 1773037800 ≤ t'.
Proof.
  assert (next_after some_zones (at_half_past_two Daily) before_change = Ok (Some 1773037800)) as E
    by (vm_compute; reflexivity).
  split; [exact E|].
  apply (next_after_first some_zones (at_half_past_two Daily) new_york before_change 1773037800 2 30
    (or_introl eq_refl) eq_refl (proj1 new_york_ok) eq_refl E).
Defined.
Lemma daily_next_found_witness : ∃ t, next_after some_zones (at_half_past_two Daily) week_before = Ok (Some t) ∧ week_before < t.
Proof. by apply (daily_next_found _ _ new_york _ 2 30); [..|apply new_york_ok|apply new_york_ok|]. Defined.
(** A weekly plan whose only day within reach is the one of the change has none. *)
Lemma weekly_gap_raises :
  next_after some_zones (at_half_past_two Weekly) week_before = Err (ValueError "No schedule occurrence found").
Proof. vm_compute. reflexivity. Qed.
