(* ===== verification/PlanStore.v ===== *)
(** Test plans and follow-ups: the transactions of [features/automation/plan_store.py], and
    the retry policy of [features/automation/planning.py].

    A plan's templates and its schedule are texts here, which Planner reads; the capability
    check of a retry ([retry_authorized]) is an argument that Planner supplies. *)

From stdpp Require Import gmap.
From S2P Require Import Prelude Encodings Automation.

Open Scope Z_scope.

(** A prepared run: the row and its sealed secrets. *)
Record prepared_run := PreparedRun {
  pp_run : run;
  pp_secrets : list (string * string);
}.

Definition plan_is (i : string) (p : plan_row) : bool := streqb (pn_id p) i.
Definition batch_is (i : string) (b : batch_row) : bool := streqb (bt_id b) i.
Definition batch_open (s : batch_status) : bool :=
  bool_decide (s = BatchRunning ∨ s = BatchStopping).

(* src/features/automation/plan_store.py:46-61 insert_prepared_run *)
Definition insert_prepared_run (now : Z) (p : prepared_run) : M store unit :=
  let r := pp_run p in
  _ ← insert_run r;
  _ ← for_each (pp_secrets p) (λ '(name, v), insert_secret (RunSecret (rn_id r) name v now));
  insert_event {| ev_run_id := rn_id r; ev_stage := status_text (rn_status r); ev_level := "info";
    ev_message := "Automation run queued"; ev_payload := {["plan_id" := rn_plan_id r]};
    ev_trace_id := rn_id r; ev_event_type := "run.created"; ev_operation_id := rn_id r +:+ ":create";
    ev_from_status := None; ev_to_status := Some (rn_status r); ev_created_at := rn_created_at r |}.

(* src/features/automation/plan_store.py:68-71 PlanStore.get *)
Definition get_plan (plan_id : string) : M store (option plan_row) :=
  gets (λ s, fetchone (plan_is plan_id) (st_plans s)).

(* src/features/automation/plan_store.py:87-105 PlanStore.save *)
Definition save_plan (data : plan_row) (version : Z) : M store (option plan_row) :=
  _ ← atomic (
    old ← get_plan (pn_id data);
    match old with
    | Some o =>
        _ ← require (streqb (pn_created_by o) (pn_created_by data) && Z.eqb (pn_version o) version)
              (PlanConflictError "Plan changed; reload before saving");
        modify (λ s, s <| st_plans ::= update_where (plan_is (pn_id data))
          (λ p, p <| pn_name := pn_name data |> <| pn_enabled := pn_enabled data |>
                  <| pn_stop_on_failure := pn_stop_on_failure data |>
                  <| pn_schedule := pn_schedule data |> <| pn_template := pn_template data |>
                  <| pn_step_count := pn_step_count data |> <| pn_next_run_at := pn_next_run_at data |>
                  <| pn_updated_at := pn_updated_at data |> <| pn_labels := pn_labels data |>
                  <| pn_version ::= λ v, v + 1 |> <| pn_last_error := "" |>) |>)
    | None =>
        _ ← require (Z.eqb version 0) (PlanConflictError "Plan no longer exists");
        modify (λ s, s <| st_plans ::= λ t, t ++ [data] |>)
    end);
  get_plan (pn_id data).

(* src/features/automation/plan_store.py:107-114 PlanStore.set_enabled *)
Definition set_enabled (now : Z) (plan_id : string) (enabled : bool) (next_run_at : stamp) (version : Z) :
    M store (option plan_row) :=
  _ ← atomic (
    let hit p := plan_is plan_id p && Z.eqb (pn_version p) version in
    plans ← gets st_plans;
    _ ← modify (λ s, s <| st_plans ::= update_where hit
      (λ p, p <| pn_enabled := enabled |> <| pn_next_run_at := next_run_at |>
              <| pn_version ::= λ v, v + 1 |> <| pn_updated_at := now |> <| pn_last_error := "" |>) |>);
    require (bool_decide (rowcount hit plans = 1%nat)) (PlanConflictError "Plan changed; reload before updating"));
  get_plan plan_id.

(** [enabled=1 AND next_run_at!='' AND next_run_at<=now]. *)
Definition plan_due (now : Z) (p : plan_row) : bool :=
  pn_enabled p && match pn_next_run_at p with Some t => Z.leb t now | None => false end.
(* src/features/automation/plan_store.py:116-121 PlanStore.due *)
Definition due_plans (now : Z) : M store (list plan_row) :=
  gets (λ s, take 25 (order_by
    (λ a b, if bool_decide (pn_next_run_at a = pn_next_run_at b) then String.leb (pn_id a) (pn_id b)
            else stamp_leb (pn_next_run_at a) (pn_next_run_at b))
    (fetchall (plan_due now) (st_plans s)))).

(* src/features/automation/plan_store.py:123-148 PlanStore.start_batch *)
Definition start_batch (now : Z) (p : plan_row) (batch_id : string) (first : option prepared_run)
    (next_run_at : stamp) (due : bool) : M store bool :=
  atomic (
    found ← get_plan (pn_id p);
    match found with
    | None => raise (PlanConflictError "Plan changed before dispatch")
    | Some c =>
        _ ← require (Z.eqb (pn_version c) (pn_version p)) (PlanConflictError "Plan changed before dispatch");
        if due && negb (plan_due now c) then mret false
        else if nonempty (pn_active_batch_id c) then
          if due then
            _ ← modify (λ s, s <| st_plans ::= update_where (plan_is (pn_id p))
              (λ x, x <| pn_next_run_at := next_run_at |>
                      <| pn_last_error := "Previous batch is still active; scheduled occurrence skipped" |>) |>);
            mret false
          else raise (PlanConflictError "This plan already has an active batch")
        else
          match first with
          | None => mret false
          | Some f =>
              _ ← insert_prepared_run now f;
              batches ← gets st_batches;
              _ ← require (negb (exists_row (batch_is batch_id) batches)) (IntegrityError "automation_plan_batches.id");
              _ ← modify (λ s, s <| st_batches ::= λ t, t ++
                [{| bt_id := batch_id; bt_plan_id := pn_id p; bt_created_by := pn_created_by p;
                    bt_username := pn_username p; bt_template := pn_template p;
                    bt_stop_on_failure := pn_stop_on_failure p; bt_step_count := pn_step_count p;
                    bt_next_step := 1; bt_last_run_id := rn_id (pp_run f); bt_status := BatchRunning;
                    bt_created_at := now; bt_finished_at := None; bt_had_failures := false |}] |>);
              _ ← modify (λ s, s <| st_plans ::= update_where (plan_is (pn_id p))
                (λ x, x <| pn_active_batch_id := batch_id |> <| pn_last_run_at := Some now |>
                        <| pn_last_error := "" |>
                        <| pn_next_run_at := if due then next_run_at else pn_next_run_at c |>) |>);
              mret true
          end
    end).

(* src/features/automation/plan_store.py:150-154 PlanStore.defer_error *)
Definition defer_error (p : plan_row) (next_run_at : stamp) (message : string) : M store unit :=
  modify (λ s, s <| st_plans ::= update_where
    (λ x, plan_is (pn_id p) x && Z.eqb (pn_version x) (pn_version p)
          && bool_decide (pn_next_run_at x = pn_next_run_at p))
    (λ x, x <| pn_next_run_at := next_run_at |> <| pn_last_error := message |>) |>).

(* src/features/automation/plan_store.py:156-161 PlanStore.batches *)
Definition list_batches (plan_id : string) (active_only : bool) : M store (list batch_row) :=
  gets (λ s, take 200 (order_by (λ a b, Z.leb (bt_created_at b) (bt_created_at a))
    (fetchall (λ b, if active_only then batch_open (bt_status b) else streqb (bt_plan_id b) plan_id)
       (st_batches s)))).

(* src/features/automation/plan_store.py:163-186 PlanStore.advance_batch *)
Definition advance_batch (now : Z) (b : batch_row) (prepared : option prepared_run)
    (status : batch_status) (step_failed : bool) : M store bool :=
  atomic (
    found ← gets (λ s, fetchone (batch_is (bt_id b)) (st_batches s));
    match found with
    | None => mret false
    | Some c =>
        if negb (batch_open (bt_status c)) || negb (streqb (bt_last_run_id c) (bt_last_run_id b))
        then mret false
        else if bool_decide (is_Some prepared) && negb (bool_decide (bt_status c = BatchRunning))
        then mret false
        else
          previous ← get_run (bt_last_run_id c);
          match previous with
          | None => mret false
          | Some r =>
              if mem (rn_followup_state r) [""; "retried"] then mret false
              else
                match prepared with
                | Some f =>
                    _ ← insert_prepared_run now f;
                    _ ← modify (λ s, s <| st_batches ::= update_where (batch_is (bt_id b))
                      (λ x, x <| bt_next_step ::= λ n, n + 1 |> <| bt_last_run_id := rn_id (pp_run f) |>
                              <| bt_had_failures ::= λ h, h || step_failed |>) |>);
                    mret true
                | None =>
                    let status := if bool_decide (status = BatchCompleted) && (bt_had_failures c || step_failed)
                                  then BatchFailed else status in
                    _ ← modify (λ s, s <| st_batches ::= update_where (batch_is (bt_id b))
                      (λ x, x <| bt_status := status |> <| bt_finished_at := Some now |>) |>);
                    _ ← modify (λ s, s <| st_plans ::= update_where
                      (λ x, plan_is (bt_plan_id b) x && streqb (pn_active_batch_id x) (bt_id b))
                      (λ x, x <| pn_active_batch_id := "" |>
                              <| pn_last_error := if bool_decide (status = BatchFailed)
                                 then "A test step failed, had unknown results, or could not be dispatched"
                                 else "" |>) |>);
                    mret true
                end
          end
    end).

(** An automatic retry that has not started. *)
Definition pending_retry (batch_id : string) (r : run) : bool :=
  streqb (rn_plan_batch_id r) batch_id && streqb (rn_source_type r) "auto_retry"
  && bool_decide (rn_status r = RunQueued) && bool_decide (rn_started_at r = None)
  && negb (nonempty (rn_lease_owner r)).
Definition stop_run (now : Z) (r : run) : run :=
  r <| rn_status := RunCancelled |> <| rn_current_stage := RunCancelled |>
    <| rn_followup_state := "done" |> <| rn_finished_at := Some now |> <| rn_updated_at := now |>
    <| rn_state_version ::= λ v, v + 1 |>.
(* src/features/automation/plan_store.py:188-208 PlanStore.stop_batch *)
Definition stop_batch (now : Z) (plan_id : string) : M store unit :=
  atomic (
    found ← get_plan plan_id;
    match found with
    | Some p =>
        if nonempty (pn_active_batch_id p) then
          let batch_id := pn_active_batch_id p in
          _ ← modify (λ s, s <| st_batches ::= update_where
            (λ b, batch_is batch_id b && bool_decide (bt_status b = BatchRunning))
            (λ b, b <| bt_status := BatchStopping |>) |>);
          pending ← gets (λ s, fetchall (pending_retry batch_id) (st_runs s));
          for_each pending (λ r,
            _ ← modify (λ s, s <| st_runs ::= update_where (run_is (rn_id r)) (stop_run now) |>);
            insert_event {| ev_run_id := rn_id r; ev_stage := "cancelled"; ev_level := "info";
              ev_message := "Pending automatic retry stopped with its plan batch"; ev_payload := ∅;
              ev_trace_id := rn_id r; ev_event_type := "run.cancelled";
              ev_operation_id := rn_id r +:+ ":plan-stop"; ev_from_status := Some RunQueued;
              ev_to_status := Some RunCancelled; ev_created_at := now |})
        else mret tt
    | None => mret tt
    end).

(** Terminal runs whose follow-up is undecided. *)
Definition awaits_followup (r : run) : bool :=
  negb (nonempty (rn_followup_state r))
  && (Z.ltb 0 (rn_retry_limit r) || nonempty (rn_plan_batch_id r)) && terminal (rn_status r).
(* src/features/automation/plan_store.py:210-216 PlanStore.terminal_followups *)
Definition terminal_followups : M store (list run) :=
  gets (λ s, take 100 (order_by
    (λ a b, if Z.eqb (rn_updated_at a) (rn_updated_at b) then String.leb (rn_id a) (rn_id b)
            else Z.leb (rn_updated_at a) (rn_updated_at b))
    (fetchall awaits_followup (st_runs s)))).

(* src/features/automation/plan_store.py:218-240 PlanStore.finish_followup *)
Definition finish_followup (now : Z) (r : run) (decision : string) (prepared : option prepared_run) :
    M store bool :=
  atomic (
    current ← gets (λ s, fetchone (λ x, run_is (rn_id r) x && negb (nonempty (rn_followup_state x))) (st_runs s));
    match current with
    | None => mret false
    | Some c =>
        if negb (terminal (rn_status c)) then mret false
        else
          batch ← gets (λ s, fetchone (batch_is (rn_plan_batch_id r)) (st_batches s));
          let stopped :=
            bool_decide (is_Some prepared) && nonempty (rn_plan_batch_id r)
            && negb (match batch with Some b => bool_decide (bt_status b = BatchRunning) | None => false end) in
          let prepared := if stopped then None else prepared in
          let decision := if stopped then "batch_stopped" else decision in
          _ ← match prepared with
              | Some f =>
                  _ ← insert_prepared_run now f;
                  modify (λ s, s <| st_batches ::= update_where
                    (λ b, batch_is (rn_plan_batch_id r) b && streqb (bt_last_run_id b) (rn_id r)
                          && bool_decide (bt_status b = BatchRunning))
                    (λ b, b <| bt_last_run_id := rn_id (pp_run f) |>) |>)
              | None => mret tt
              end;
          _ ← modify (λ s, s <| st_runs ::= update_where (run_is (rn_id r))
                (λ x, x <| rn_followup_state := decision |>) |>);
          _ ← when (negb (Z.eqb (rn_retry_limit r) 0))
                (insert_event {| ev_run_id := rn_id r; ev_stage := "retry"; ev_level := "info";
                   ev_message := decision;
                   ev_payload := {["retry_run_id" := match prepared with Some f => rn_id (pp_run f) | None => "" end]};
                   ev_trace_id := rn_id r; ev_event_type := "run.retry_decided";
                   ev_operation_id := rn_id r +:+ ":retry-decision"; ev_from_status := None;
                   ev_to_status := None; ev_created_at := now |});
          mret (bool_decide (is_Some prepared))
    end).

(** ** The retry policy *)

(** [re.fullmatch(r'[A-Za-z0-9][A-Za-z0-9_.-]{0,255}', folder)]. *)
Definition retry_folder_ok : string → bool := plain_word "_.-" 255.

Section retry.
Context (retry_authorized : run → result (list string)).

(** The identifier of the child run comes from [new_run_id]. *)
(* src/features/automation/planning.py:142-178 AutomationPlanner._retry *)
Definition retry (now : Z) (new_run_id : string) (r : run) : result (string * option prepared_run) :=
  let limit := rn_retry_limit r in
  let index := rn_retry_index r in
  let summary := rn_test_summary r in
  let folder := default "" (ts_retry_dir summary) in
  if negb (bool_decide (rn_status r = RunCompleted)) || Z.eqb limit 0 then Ok ("done", None)
  else if negb (bool_decide (ts_outcome summary = Some "failed")) then Ok ("done", None)
  else if Z.leb limit index then Ok ("retry_limit_reached", None)
  else if negb (retry_folder_ok folder) || negb (nonempty (rn_worker_id r))
          || negb (nonempty (rn_report_id r))
          || negb (streqb (ts_retry_worker_id summary) (rn_worker_id r))
  then Ok ("missing_retry_context", None)
  else if negb (nonempty (tp_test_suite (rn_test_plan r))) then Ok ("missing_retry_context", None)
  else
    let plan := rn_test_plan r <| tp_flash_skip := true |> <| tp_has_build := false |>
                  <| tp_retry_dir := folder |> <| tp_worker_id := rn_worker_id r |> in
    match retry_authorized (r <| rn_test_plan := plan |>) with
    | Err e => Err e
    | Ok retry_capabilities =>
        let root := str_or (rn_retry_root_run_id r) (rn_id r) in
        let request := {| rq_source_type := "manual"; rq_source_key := ""; rq_jenkins_job := "";
              rq_devices := DeviceDict <$> rn_devices r; rq_test_plan := plan;
              rq_columns := filter (λ '(k, _), k ∈ ["profile_id"; "project"; "branch"; "artifact_path"])
                              (rn_columns r) |} in
        let copied := filter (λ '(k, _), k ∈ ["created_by_username"; "build_artifact_id"]) (rn_columns r) in
        let child := to_run_dict now new_run_id request
              <| rn_created_by := rn_created_by r |> <| rn_worker_id := rn_worker_id r |>
              <| rn_retry_of_run_id := rn_id r |> <| rn_retry_root_run_id := root |>
              <| rn_retry_index := index + 1 |> <| rn_retry_limit := limit |>
              <| rn_source_type := "auto_retry" |>
              <| rn_source_key := "retry:" +:+ root +:+ ":" +:+ pretty (index + 1) |>
              <| rn_plan_id := rn_plan_id r |> <| rn_plan_batch_id := rn_plan_batch_id r |>
              <| rn_not_before := Some (now + tp_retry_delay plan) |>
              <| rn_columns ::= λ c,
                   <["granted_capabilities" := join "," retry_capabilities]> (copied ∪ c) |> in
        Ok ("retried", Some (PreparedRun child []))
    end.
End retry.
