(* ===== verification/AutomationInvariants.v ===== *)
(** Histories of the automation store: any sequence of its transactions, by any number of
    controllers, workers and request handlers at any clock readings.

    [auto_op] has a constructor for every store operation that writes; a history is a list of
    operations with their clock readings.  A row enters the table only as the services
    prepare it ([prepared_row]): queued, unleased, undecided. *)

From stdpp Require Import gmap.
From S2P Require Import Prelude Encodings Automation RunHistory Orchestrator PlanStore.

Open Scope Z_scope.

(** ** Histories *)

Definition prepared_row (r : run) : Prop :=
  rn_status r = RunQueued ∧ rn_state_version r = 1 ∧ rn_lease_owner r = "" ∧
  rn_followup_state r = "".

Inductive auto_op :=
  | AoCreateRun (r : run) (secrets : list (string * string))
  | AoUpdateRun (run_id : string) (expected : run_status) (updates : list assignment)
  | AoClaimNext (owner : string) (lease_seconds : Z)
  | AoClaimRun (run_id owner : string) (lease_seconds : Z)
  | AoReleaseClaim (run_id owner : string)
  | AoRenewClaim (run_id owner : string) (lease_seconds : Z)
  | AoAppendEvent (run_id stage level message : string) (payload : gmap string string)
      (event_type operation_id : string) (from_status to_status : option run_status)
  | AoSavePlan (data : plan_row) (version : Z)
  | AoSetEnabled (plan_id : string) (enabled : bool) (next_run_at : stamp) (version : Z)
  | AoStartBatch (p : plan_row) (batch_id : string) (first : option prepared_run)
      (next_run_at : stamp) (due : bool)
  | AoDeferError (p : plan_row) (next_run_at : stamp) (message : string)
  | AoAdvanceBatch (b : batch_row) (prepared : option prepared_run) (status : batch_status)
      (step_failed : bool)
  | AoStopBatch (plan_id : string)
  | AoFinishFollowup (r : run) (decision : string) (prepared : option prepared_run).

(** The rows an operation may insert are prepared ones; a decision is a text. *)
Definition op_ok (op : auto_op) : Prop :=
  match op with
  | AoCreateRun r _ => prepared_row r
  | AoStartBatch _ _ (Some f) _ _ => prepared_row (pp_run f)
  | AoAdvanceBatch _ (Some f) _ _ => prepared_row (pp_run f)
  | AoFinishFollowup _ decision None => decision ≠ ""
  | AoFinishFollowup _ decision (Some f) => decision ≠ "" ∧ prepared_row (pp_run f)
  | _ => True
  end.

Definition auto_do (now : Z) (op : auto_op) : M store unit :=
  match op with
  | AoCreateRun r secrets => _ ← create_run now r secrets; mret tt
  | AoUpdateRun i e u => _ ← update_run_if_status now i e u; mret tt
  | AoClaimNext o n => _ ← claim_next_active now o n; mret tt
  | AoClaimRun i o n => _ ← claim_run now i o n; mret tt
  | AoReleaseClaim i o => release_claim i o
  | AoRenewClaim i o n => _ ← renew_claim now i o n; mret tt
  | AoAppendEvent i st l m p t o f t' => append_event now i st l m p t o f t'
  | AoSavePlan d v => _ ← save_plan d v; mret tt
  | AoSetEnabled i e n v => _ ← set_enabled now i e n v; mret tt
  | AoStartBatch p i f n d => _ ← start_batch now p i f n d; mret tt
  | AoDeferError p n m => defer_error p n m
  | AoAdvanceBatch b f st x => _ ← advance_batch now b f st x; mret tt
  | AoStopBatch i => stop_batch now i
  | AoFinishFollowup r d f => _ ← finish_followup now r d f; mret tt
  end.

Definition auto_step (s : store) (x : Z * auto_op) : store := (auto_do x.1 x.2 s).2.
Definition auto_run (s : store) (history : list (Z * auto_op)) : store := foldl auto_step s history.

(** ** What happens to one run *)

(** One edge of the pipeline. *)
Definition run_moves (a b : run_status) : Prop :=
  terminal a = false ∧ a ≠ b ∧ b ∈ RUN_FORWARD_TRANSITIONS a ++ [RunCancelled; RunFailed].

Lemma validate_run_transition_Ok a b :
  validate_run_transition a b = Ok tt ↔ a = b ∨ run_moves a b.
Proof.
  unfold validate_run_transition, run_moves. case_bool_decide; [by intuition|].
  destruct (terminal a); [by intuition|]. case_bool_decide; naive_solver.
Qed.

(** The [n] transitions a run made are counted by its version; a decided follow-up stays. *)
Record run_step (r r' : run) : Prop := {
  step_id : rn_id r' = rn_id r;
  step_created : rn_created_at r' = rn_created_at r;
  step_creator : rn_created_by r' = rn_created_by r;
  step_path : ∃ n, nsteps run_moves n (rn_status r) (rn_status r') ∧
                   rn_state_version r' = rn_state_version r + Z.of_nat n;
  step_recoveries : rn_recovery_count r ≤ rn_recovery_count r';
  step_followup : rn_followup_state r ≠ "" → rn_followup_state r' = rn_followup_state r;
}.

#[export] Instance run_step_preorder : PreOrder run_step.
Proof.
  split.
  - intros r. split; try done. exists 0%nat. split; [constructor|lia].
  - intros x y z [] []. split; try congruence; [|lia|].
    + destruct step_path0 as (n&?&?), step_path1 as (m&?&?). exists (n + m)%nat.
      split; [by eapply nsteps_trans|lia].
    + intros H. rewrite step_followup1; [by apply step_followup0|]. by rewrite step_followup0.
Qed.

(** A run whose follow-up is decided is over. *)
Definition decided_over (r : run) : Prop := rn_followup_state r ≠ "" → terminal (rn_status r) = true.

(** ** What one operation does to a row

    An operation leaves a row alone or has one of these effects on it. *)
Inductive row_effect (now : Z) : auto_op → relation run :=
  | EffUpdate i updates r :
      validate_run_transition (rn_status r) (target_status (rn_status r) updates) = Ok tt →
      row_effect now (AoUpdateRun i (rn_status r) updates) r
        (if bool_decide (target_status (rn_status r) updates = rn_status r)
         then assign_all updates r <| rn_updated_at := now |>
         else assign_all updates r <| rn_updated_at := now |> <| rn_state_version ::= λ v, v + 1 |>)
  | EffClaimNext owner n b r :
      lease_free now r = true →
      row_effect now (AoClaimNext owner n) r (take_lease now owner n b r)
  | EffClaimRun i owner n b r :
      lease_free now r = true ∨ rn_lease_owner r = owner →
      row_effect now (AoClaimRun i owner n) r (take_lease now owner n b r)
  | EffRelease i owner r :
      rn_lease_owner r = owner →
      row_effect now (AoReleaseClaim i owner) r (r <| rn_lease_owner := "" |> <| rn_lease_expires_at := None |>)
  | EffRenew i owner n r :
      rn_lease_owner r = owner →
      row_effect now (AoRenewClaim i owner n) r (r <| rn_lease_expires_at := Some (lease_expiry now n) |>)
  | EffStop i batch r :
      pending_retry batch r = true → row_effect now (AoStopBatch i) r (stop_run now r)
  | EffDecide x d d' f r :
      rn_followup_state r = "" → terminal (rn_status r) = true → d' ≠ "" →
      row_effect now (AoFinishFollowup x d f) r (r <| rn_followup_state := d' |>).

Lemma take_lease_step now owner n b r : run_step r (take_lease now owner n b r).
Proof. split; try done; [exists 0%nat; split; [constructor|simpl; lia]|]. simpl. destruct b; lia. Qed.

(** Assignments change nothing of the identity of a row, and its status to the target. *)
Lemma assign_all_keeps updates r :
  rn_status (assign_all updates r) = target_status (rn_status r) updates ∧
  rn_id (assign_all updates r) = rn_id r ∧ rn_created_at (assign_all updates r) = rn_created_at r ∧
  rn_created_by (assign_all updates r) = rn_created_by r ∧
  rn_state_version (assign_all updates r) = rn_state_version r ∧
  rn_recovery_count (assign_all updates r) = rn_recovery_count r ∧
  rn_followup_state (assign_all updates r) = rn_followup_state r ∧
  rn_lease_owner (assign_all updates r) = rn_lease_owner r ∧
  rn_lease_expires_at (assign_all updates r) = rn_lease_expires_at r ∧
  rn_not_before (assign_all updates r) = rn_not_before r.
Proof.
  unfold assign_all, target_status. revert r. induction updates as [|a updates IH]; intros r; [done|].
  simpl. destruct (IH (assign a r)) as (E1&E2&E3&E4&E5&E6&E7&E8&E9&E10).
  rewrite E1, E2, E3, E4, E5, E6, E7, E8, E9, E10. by destruct a.
Qed.

Lemma effect_step now op r r' :
  row_effect now op r r' → decided_over r → run_step r r' ∧ decided_over r'.
Proof.
  unfold decided_over.
  intros [i u x Hv|o n b x Hl|i o n b x Hl|i o x Ho|i o n x Ho|i b x Hp|y d d' f x Hf Ht Hd] Hover.
  - destruct (assign_all_keeps u x) as (E1&E2&E3&E4&E5&E6&E7&_).
    apply validate_run_transition_Ok in Hv. case_bool_decide as Et.
    + split; [split; simpl; try congruence; [|lia]|simpl; by rewrite E7, E1, Et].
      exists 0%nat. rewrite E1, Et, E5. split; [constructor|lia].
    + destruct Hv as [Hv|Hv]; [congruence|]. split; [split; simpl; try congruence; [|lia]|].
      * exists 1%nat. rewrite E1, E5. split; [by apply nsteps_once|lia].
      * simpl. rewrite E7, E1. intros Hne. destruct Hv as (Hnt&_). by rewrite Hover in Hnt.
  - split; [apply take_lease_step|done].
  - split; [apply take_lease_step|done].
  - split; [|done]. split; try done. exists 0%nat. split; [constructor|simpl; lia].
  - split; [|done]. split; try done. exists 0%nat. split; [constructor|simpl; lia].
  - unfold pending_retry in Hp. bool_props. split; [|done].
    assert (rn_status x = RunQueued) as Eq by done. rewrite Eq in Hover. split; try done.
    + exists 1%nat. split; [|done]. apply nsteps_once. rewrite Eq.
      split_and!; [done|done|]. simpl. set_solver.
    + intros Hne. by specialize (Hover Hne).
  - split; [split; try done|done]. exists 0%nat. split; [constructor|simpl; lia].
Qed.

(** ** The table *)

Record auto_inv (s : store) : Prop := {
  inv_ids : unique_index (λ _, true) rn_id (st_runs s);
  inv_decided : ∀ r, r ∈ st_runs s → decided_over r;
}.

Definition runs_rel (R : relation run) (t t' : list run) : Prop := ∀ r, r ∈ t → ∃ r', r' ∈ t' ∧ R r r'.
#[export] Instance runs_rel_preorder R `{!PreOrder R} : PreOrder (runs_rel R).
Proof.
  split.
  - intros t r Hr. by exists r.
  - intros x y z H1 H2 r Hr. destruct (H1 r Hr) as (r1&Hr1&?), (H2 r1 Hr1) as (r2&?&?).
    exists r2. split; [done|by etrans].
Qed.

Section operation.
Context (now : Z) (op : auto_op).

(** The operation keeps the invariant and every row, up to its effects. *)
Definition auto_rel (s s' : store) : Prop :=
  auto_inv s → auto_inv s' ∧ runs_rel (rtc (row_effect now op)) (st_runs s) (st_runs s').

#[local] Instance auto_rel_preorder : PreOrder auto_rel.
Proof.
  split.
  - by intros s Hs.
  - intros x y z H1 H2 Hx. destruct (H1 Hx) as [Hy R1], (H2 Hy) as [Hz R2]. split; [done|by etrans].
Qed.

Lemma auto_same (s s' : store) : st_runs s' = st_runs s → auto_rel s s'.
Proof. intros E []. split; [by split; rewrite E|by rewrite E]. Qed.
Lemma auto_update p f s :
  (∀ r, r ∈ st_runs s → p r = true → row_effect now op r (f r)) →
  auto_rel s (s <| st_runs ::= update_where p f |>).
Proof.
  intros Hf [Hu Hd].
  assert (∀ r, r ∈ st_runs s → p r = true → run_step r (f r) ∧ decided_over (f r)) as Hs.
  { intros r Hr Hp. by eapply effect_step; [apply Hf|apply Hd]. }
  split; [split|]; simpl.
  - apply unique_index_update; [done..|]. intros r Hr Hp. by destruct (Hs r Hr Hp) as [[] _].
  - intros r (r0&Hr0&->)%elem_of_update_where. destruct (p r0) eqn:E; [|by apply Hd].
    by apply (Hs r0 Hr0 E).
  - intros r Hr. eexists. split; [apply elem_of_update_where; by exists r|].
    destruct (p r) eqn:E; [|done]. by apply rtc_once, Hf.
Qed.
Lemma auto_insert r s :
  prepared_row r → (∀ x, x ∈ st_runs s → rn_id x ≠ rn_id r) →
  auto_rel s (s <| st_runs ::= λ t, t ++ [r] |>).
Proof.
  intros (_&_&_&Hf) Hne [Hu Hd]. split; [split|]; simpl.
  - apply unique_index_snoc; [done|]. intros _ x Hx _. by apply Hne.
  - intros x [Hx| ->%list_elem_of_singleton]%elem_of_app; [by apply Hd|]. by unfold decided_over.
  - intros x Hx. exists x. split; [|done]. apply elem_of_app. by left.
Qed.

Lemma atomic_rel {A} (m : M store A) : preserves auto_rel m → preserves auto_rel (atomic m).
Proof. intros Hm s. specialize (Hm s). unfold atomic. by destruct (m s) as [[]]. Qed.
Lemma modify_same f : (∀ s, st_runs (f s) = st_runs s) → preserves auto_rel (modify f).
Proof. intros Hf. apply preserves_modify. intros s. apply auto_same, Hf. Qed.
Lemma insert_event_rel e : preserves auto_rel (insert_event e).
Proof. by apply modify_same. Qed.
Lemma append_event_rel n i st l m p t o f t' : preserves auto_rel (append_event n i st l m p t o f t').
Proof.
  unfold append_event, get_run. apply preserves_bind; [apply _|apply preserves_gets, _|].
  intros x. apply insert_event_rel.
Qed.
Lemma insert_secret_rel x : preserves auto_rel (insert_secret x).
Proof.
  unfold insert_secret. apply preserves_bind; [apply _|apply preserves_gets, _|]. intros l.
  apply preserves_bind; [apply _|apply preserves_require, _|]. intros _. by apply modify_same.
Qed.
Lemma insert_run_rel r : prepared_row r → preserves auto_rel (insert_run r).
Proof.
  intros Hr s. unfold insert_run. rewrite bind_gets, bind_require.
  destruct (exists_row (run_is (rn_id r)) (st_runs s)) eqn:E; [done|]. simpl negb. cbv iota.
  rewrite bind_require. case_match; [|done]. apply auto_insert; [done|].
  rewrite exists_row_false in E. intros x Hx Heq. specialize (E x Hx). unfold run_is, streqb in E.
  by rewrite bool_decide_eq_true_2 in E.
Qed.
Lemma insert_prepared_rel n p : prepared_row (pp_run p) → preserves auto_rel (insert_prepared_run n p).
Proof.
  intros Hp. unfold insert_prepared_run. apply preserves_bind; [apply _|by apply insert_run_rel|]. intros _.
  apply preserves_bind; [apply _| |intros _; apply insert_event_rel].
  apply preserves_for_each; [apply _|]. intros [k v]. apply insert_secret_rel.
Qed.
Lemma update_rel p f :
  (∀ r, p r = true → row_effect now op r (f r)) →
  preserves auto_rel (modify (λ s, s <| st_runs ::= update_where p f |>)).
Proof. intros Hf. apply preserves_modify. intros s. apply auto_update. intros r _. apply Hf. Qed.
End operation.
#[export] Existing Instance auto_rel_preorder.
#[export] Hint Resolve insert_event_rel append_event_rel insert_secret_rel insert_run_rel
  insert_prepared_rel atomic_rel : gms.

(** Walk through a handler whose writes are all covered by hints. *)
Ltac auto_walk :=
  repeat first
    [ progress intros
    | by apply insert_prepared_rel | by apply insert_run_rel | apply insert_event_rel
    | apply append_event_rel | apply insert_secret_rel
    | apply preserves_bind; [apply _|..]
    | apply preserves_ret, _ | apply preserves_raise, _ | apply preserves_gets, _
    | apply preserves_require, _ | apply preserves_when; [apply _|]
    | apply atomic_rel
    | apply preserves_for_each; [apply _|]
    | by apply modify_same
    | case_match ].

Section handlers.
Context (now : Z).

Lemma create_run_rel r secrets :
  prepared_row r → preserves (auto_rel now (AoCreateRun r secrets)) (create_run now r secrets).
Proof. intros Hr. unfold create_run, get_run. auto_walk. Qed.
Lemma update_run_rel i e u :
  preserves (auto_rel now (AoUpdateRun i e u)) (update_run_if_status now i e u).
Proof.
  unfold update_run_if_status, get_run. destruct (validate_run_transition _ _) as [[]|] eqn:Ev; [|auto_walk].
  apply preserves_bind; [apply _|apply preserves_gets, _|intros t].
  apply preserves_bind; [apply _| |intros _; auto_walk].
  apply update_rel. intros r Hr. bool_props. subst e. by apply EffUpdate.
Qed.
Lemma claim_next_rel o n : preserves (auto_rel now (AoClaimNext o n)) (claim_next_active now o n).
Proof.
  unfold claim_next_active, get_run, recovery_event.
  apply preserves_bind; [apply _|apply preserves_gets, _|intros rows]. destruct rows as [|row rows]; [auto_walk|].
  apply preserves_bind; [apply _|apply preserves_gets, _|intros t].
  apply preserves_bind; [apply _| |intros _; auto_walk].
  apply update_rel. intros r Hr. bool_props. by apply EffClaimNext.
Qed.
Lemma claim_run_rel i o n : preserves (auto_rel now (AoClaimRun i o n)) (claim_run now i o n).
Proof.
  unfold claim_run, get_run, recovery_event.
  apply preserves_bind; [apply _|apply preserves_gets, _|intros c].
  apply preserves_bind; [apply _|apply preserves_gets, _|intros t].
  apply preserves_bind; [apply _| |intros _; auto_walk].
  apply update_rel. intros r Hr. bool_props. apply EffClaimRun.
  match goal with H : _ || _ = true |- _ => apply orb_true_iff in H as [|?] end; [by left|right].
  by bool_props.
Qed.
Lemma release_claim_rel i o : preserves (auto_rel now (AoReleaseClaim i o)) (release_claim i o).
Proof. unfold release_claim. apply update_rel. intros r Hr. bool_props. by apply EffRelease. Qed.
Lemma renew_claim_rel i o n : preserves (auto_rel now (AoRenewClaim i o n)) (renew_claim now i o n).
Proof.
  unfold renew_claim. apply preserves_bind; [apply _|apply preserves_gets, _|intros t].
  apply preserves_bind; [apply _| |auto_walk].
  apply update_rel. intros r Hr. bool_props. by apply EffRenew.
Qed.
Lemma start_batch_rel p i f n d :
  op_ok (AoStartBatch p i f n d) →
  preserves (auto_rel now (AoStartBatch p i f n d)) (start_batch now p i f n d).
Proof. simpl. intros Hok. unfold start_batch, get_plan. destruct f; auto_walk. Qed.
Lemma advance_batch_rel b f st x :
  op_ok (AoAdvanceBatch b f st x) →
  preserves (auto_rel now (AoAdvanceBatch b f st x)) (advance_batch now b f st x).
Proof. simpl. intros Hok. unfold advance_batch, get_run. destruct f; auto_walk. Qed.

Lemma for_each_runs {A} (body : A → M store unit) (g : A → list run → list run) :
  (∀ a s, ∃ s', body a s = (Ok tt, s') ∧ st_runs s' = g a (st_runs s)) →
  ∀ l s, ∃ s', for_each l body s = (Ok tt, s') ∧ st_runs s' = foldl (λ t a, g a t) (st_runs s) l.
Proof.
  intros Hb l. induction l as [|a l IH]; intros s; [by exists s|]. simpl.
  destruct (Hb a s) as (s1&E1&R1). destruct (IH s1) as (s2&E2&R2). exists s2.
  rewrite (bind_run _ _ _ _ _ E1). by rewrite R2, R1.
Qed.
(** The pending retries of a batch are stopped once each. *)
Lemma stop_all_rows (l t : list run) :
  NoDup (rn_id <$> l) →
  foldl (λ t r, update_where (run_is (rn_id r)) (stop_run now) t) t l =
  update_where (λ x, bool_decide (rn_id x ∈ rn_id <$> l)) (stop_run now) t.
Proof.
  revert t. induction l as [|r l IH]; intros t Hnd; simpl.
  - symmetry. by apply update_where_id.
  - apply NoDup_cons in Hnd as [Hr Hnd]. rewrite IH by done. unfold update_where. rewrite map_map.
    apply map_ext. intros x. unfold run_is, streqb. destruct (decide (rn_id x = rn_id r)) as [E|E].
    + rewrite (bool_decide_eq_true_2 (rn_id x = rn_id r)) by done.
      rewrite (bool_decide_eq_true_2 (rn_id x ∈ _ :: _)) by (rewrite E; left).
      by rewrite bool_decide_eq_false_2 by (simpl; rewrite E; exact Hr).
    + rewrite (bool_decide_eq_false_2 (rn_id x = rn_id r)) by done.
      destruct (decide (rn_id x ∈ rn_id <$> l)).
      * rewrite !bool_decide_eq_true_2; [done|by right|done].
      * rewrite !bool_decide_eq_false_2; [done|by intros [|]%elem_of_cons|done].
Qed.
Lemma stop_batch_rel i : preserves (auto_rel now (AoStopBatch i)) (stop_batch now i).
Proof.
  unfold stop_batch, get_plan. apply atomic_rel, preserves_bind; [apply _|apply preserves_gets, _|].
  intros [p|]; [|auto_walk]. case_match; [|auto_walk].
  apply preserves_bind; [apply _|by apply modify_same|intros _]. intros s. rewrite bind_gets.
  set (pending := fetchall _ (st_runs s)). intros Hinv. revert Hinv.
  match goal with |- context [for_each pending ?body s] =>
    destruct (for_each_runs body (λ r, update_where (run_is (rn_id r)) (stop_run now)) ltac:(by eexists)
                pending s) as (s'&->&Es) end.
  intros Hinv. simpl.
  assert (NoDup (rn_id <$> pending)) as Hnd by by apply (unique_index_weaken _ (λ _, true)), Hinv.
  rewrite stop_all_rows in Es by done.
  destruct (auto_update now (AoStopBatch i) (λ x, bool_decide (rn_id x ∈ rn_id <$> pending))
              (stop_run now) s) as [[Hu Hd] Hrel]; [|done|].
  { intros x Hx Hp. bool_props. apply list_elem_of_fmap in Hp as (y&Exy&[Hy Hin]%elem_of_fetchall).
    assert (x = y) as -> by by eapply (unique_index_inj (λ _, true) rn_id), Exy; try done; apply Hinv.
    by eapply EffStop. }
  simpl in *. rewrite <-Es in *. by split.
Qed.

Lemma insert_run_Ok r s s1 :
  insert_run r s = (Ok tt, s1) →
  st_runs s1 = st_runs s ++ [r] ∧ ∀ x, x ∈ st_runs s → rn_id x ≠ rn_id r.
Proof.
  unfold insert_run. rewrite bind_gets, bind_require.
  destruct (exists_row (run_is (rn_id r)) (st_runs s)) eqn:E; [done|]. cbn [negb].
  rewrite bind_require. case_match; [|done]. unfold modify. intros [= <-]. split; [done|].
  rewrite exists_row_false in E. intros x Hx Heq. specialize (E x Hx). unfold run_is, streqb in E.
  by rewrite bool_decide_eq_true_2 in E.
Qed.
Lemma insert_prepared_Ok n f s s1 :
  insert_prepared_run n f s = (Ok tt, s1) →
  st_runs s1 = st_runs s ++ [pp_run f] ∧ ∀ x, x ∈ st_runs s → rn_id x ≠ rn_id (pp_run f).
Proof.
  unfold insert_prepared_run. intros ([]&s2&E2&E)%bind_Ok. apply insert_run_Ok in E2 as [R2 Hne].
  split; [|done]. rewrite <-R2. clear R2 Hne.
  apply bind_Ok in E as ([]&s3&E3&[= <-]). simpl.
  revert s2 E3. induction (pp_secrets f) as [|[k v] l IH]; intros s2 E3; [by injection E3 as <-|].
  simpl in E3. apply bind_Ok in E3 as ([]&s4&E4&E3). rewrite (IH _ E3).
  unfold insert_secret in E4. rewrite bind_gets, bind_require in E4. case_match; [|done].
  by injection E4 as <-.
Qed.

(** The row a decision is written to. *)
Definition undecided_over (i : string) (s : store) : Prop :=
  ∀ x, x ∈ st_runs s → rn_id x = i → rn_followup_state x = "" ∧ terminal (rn_status x) = true.
Lemma undecided_unique i s c :
  auto_inv s → fetchone (λ x, run_is i x && negb (nonempty (rn_followup_state x))) (st_runs s) = Some c →
  terminal (rn_status c) = true → undecided_over i s.
Proof.
  intros [Hu _] [Hc Hp]%fetchone_Some Ht x Hx Hi. bool_props. unfold run_is in *. bool_props.
  assert (x = c) as -> by (eapply (unique_index_inj (λ _, true) rn_id); [exact Hu|done..|congruence]).
  split; [|done]. unfold nonempty in *. bool_props. by apply dec_stable.
Qed.
Lemma decide_rel x d f i d' s :
  d' ≠ "" → undecided_over i s →
  auto_rel now (AoFinishFollowup x d f) s
    (s <| st_runs ::= update_where (run_is i) (λ x, x <| rn_followup_state := d' |>) |>).
Proof.
  intros Hd Hall. apply auto_update. intros r Hr Hi. unfold run_is in Hi. bool_props.
  destruct (Hall r Hr Hi). by apply EffDecide.
Qed.
Lemma finish_followup_rel r d f :
  op_ok (AoFinishFollowup r d f) →
  preserves (auto_rel now (AoFinishFollowup r d f)) (finish_followup now r d f).
Proof.
  intros Hok. unfold finish_followup. apply atomic_rel. intros s. rewrite bind_gets.
  destruct (fetchone _ (st_runs s)) as [c|] eqn:Ec; [|done].
  destruct (terminal (rn_status c)) eqn:Et; [|done]. cbn [negb]. rewrite bind_gets. cbv zeta.
  intros Hinv. pose proof (undecided_unique _ _ _ Hinv Ec Et) as Hund.
  set (stopped := bool_decide (is_Some f) && _ && _). clearbody stopped. revert Hinv.
  assert (∀ p, p = (if stopped then None else f) → match p with Some g => prepared_row (pp_run g) | None => True end) as Hp.
  { intros p ->. destruct stopped; [done|]. destruct f; [by apply Hok|done]. }
  assert ((if stopped then "batch_stopped" else d) ≠ "") as Hd.
  { destruct stopped; [done|]. destruct f; apply Hok. }
  generalize dependent (if stopped then "batch_stopped" else d). intros d' Hd'.
  generalize dependent (if stopped then None else f). intros p Hp. specialize (Hp p eq_refl).
  match goal with |- context [(?m ≫= _) s] => set (m1 := m) end. intros Hinv.
  assert (preserves (auto_rel now (AoFinishFollowup r d f)) m1) as H1 by (unfold m1; destruct p; auto_walk).
  assert (∀ s1, m1 s = (Ok tt, s1) → undecided_over (rn_id r) s1) as Hund1.
  { intros s1 E1. unfold m1 in E1. destruct p as [g|]; [|by injection E1 as <-].
    apply bind_Ok in E1 as ([]&s2&E2&[= <-]). apply insert_prepared_Ok in E2 as [R2 Hne].
    intros x. simpl. rewrite R2. intros [Hx| ->%list_elem_of_singleton]%elem_of_app Hi; [by apply Hund|].
    exfalso. apply fetchone_Some in Ec as [Hc Hpc]. unfold run_is in Hpc. bool_props.
    apply (Hne c Hc). congruence. }
  specialize (H1 s). destruct (m1 s) as [[[]|e] s1] eqn:E1; [|by rewrite (bind_Err _ _ _ _ _ E1); apply H1].
  rewrite (bind_run _ _ _ _ _ E1). revert Hinv.
  match goal with |- _ → auto_inv (snd ?w) ∧ _ =>
    change (auto_rel now (AoFinishFollowup r d f) s (snd w)) end. etrans; [exact H1|].
  etrans; [apply (decide_rel r d f (rn_id r) d' s1 Hd'), Hund1; done|].
  match goal with |- auto_rel _ _ ?s2 _ =>
    assert (preserves (auto_rel now (AoFinishFollowup r d f))
      (_ ← when (negb (Z.eqb (rn_retry_limit r) 0)) (insert_event
           {| ev_run_id := rn_id r; ev_stage := "retry"; ev_level := "info"; ev_message := d';
              ev_payload := {["retry_run_id" := match p with Some g => rn_id (pp_run g) | None => "" end]};
              ev_trace_id := rn_id r; ev_event_type := "run.retry_decided";
              ev_operation_id := rn_id r +:+ ":retry-decision"; ev_from_status := None;
              ev_to_status := None; ev_created_at := now |});
       mret (bool_decide (is_Some p)))) as Hlast by auto_walk; apply (Hlast s2) end.
Qed.

Theorem auto_do_rel op : op_ok op → preserves (auto_rel now op) (auto_do now op).
Proof.
  intros Hok. destruct op; simpl auto_do;
    try (apply preserves_bind; [apply _| |intros; apply preserves_ret, _]).
  - by apply create_run_rel.
  - apply update_run_rel.
  - apply claim_next_rel.
  - apply claim_run_rel.
  - apply release_claim_rel.
  - apply renew_claim_rel.
  - auto_walk.
  - unfold save_plan, get_plan. auto_walk.
  - unfold set_enabled, get_plan. auto_walk.
  - by apply start_batch_rel.
  - by apply modify_same.
  - by apply advance_batch_rel.
  - apply stop_batch_rel.
  - by apply finish_followup_rel.
Qed.
End handlers.
