(* ===== verification/AutomationProperties.v ===== *)
(** What the automation pipeline guarantees: over any history of its store, for the lease of
    a run, for the stages the orchestrator drives, and for automatic retries. *)

From stdpp Require Import gmap.
From S2P Require Import Prelude Encodings Automation RunHistory Orchestrator PlanStore AutomationInvariants.

Open Scope Z_scope.

(** ** Histories *)

Lemma history_rel s history :
  auto_inv s → Forall (λ x, op_ok x.2) history →
  auto_inv (auto_run s history) ∧ runs_rel run_step (st_runs s) (st_runs (auto_run s history)).
Proof.
  intros Hs Hok. revert s Hs. induction Hok as [|[now op] history Hop _ IH]; intros s Hs; [done|].
  simpl in *. destruct (auto_do_rel now op Hop s Hs) as [Hs1 Hr1].
  destruct (IH _ Hs1) as [Hs2 Hr2]. split; [done|]. etrans; [|exact Hr2].
  intros r Hr. destruct (Hr1 r Hr) as (r'&Hr'&Heff). exists r'. split; [done|].
  assert (decided_over r) as Hd by by apply Hs. clear -Heff Hd.
  induction Heff as [|x y z Hxy _ IH]; [done|].
  destruct (effect_step _ _ _ _ Hxy Hd) as [H1 H2]. etrans; [exact H1|auto].
Qed.

Lemma terminal_stuck n a b : nsteps run_moves n a b → terminal a = true → n = 0%nat ∧ b = a.
Proof. intros [|m x y z (Hx&_) _] Ha; [done|congruence]. Qed.

(** [C8] Whatever controllers, planners and users do to the automation store, in any
    interleaving of their transactions, every run only moves along the pipeline's edges: its
    status follows the transition table, its version counts exactly the transitions it made,
    a run that is over never changes its status again (neither a late worker nor a
    cancellation revives it), the number of lease recoveries never drops, and the decision on
    its follow-up, once made, stands; no run disappears, and identifiers stay unique. *)
Theorem runs_follow_pipeline s history :
  auto_inv s → Forall (λ x, op_ok x.2) history →
  let s' := auto_run s history in
  unique_index (λ _, true) rn_id (st_runs s') ∧
  ∀ r, r ∈ st_runs s → ∃ r', r' ∈ st_runs s' ∧ run_step r r' ∧
    (terminal (rn_status r) = true →
     rn_status r' = rn_status r ∧ rn_state_version r' = rn_state_version r).
Proof.
  intros Hs Hok s'. destruct (history_rel s history Hs Hok) as [[Hu _] Hrel]. split; [done|].
  intros r Hr. destruct (Hrel r Hr) as (r'&Hr'&Hstep). exists r'. split_and!; [done..|].
  intros Ht. destruct (step_path _ _ Hstep) as (n&Hn&Hv).
  destruct (terminal_stuck _ _ _ Hn Ht) as [-> ->]. split; [done|lia].
Qed.

(** ** The lease *)

(** The owner an operation acts for. *)
Definition op_actor (op : auto_op) : option string :=
  match op with
  | AoClaimNext o _ | AoClaimRun _ o _ | AoReleaseClaim _ o | AoRenewClaim _ o _ => Some o
  | _ => None
  end.
Definition leased_until (o : string) (e : Z) (r : run) : Prop :=
  rn_lease_owner r = o ∧ rn_lease_expires_at r = Some e.

Lemma leased_not_free now o e r : o ≠ "" → now ≤ e → leased_until o e r → lease_free now r = false.
Proof.
  intros Ho He [E1 E2]. unfold lease_free, nonempty. rewrite E1, E2, bool_decide_eq_true_2 by done.
  simpl. apply Z.ltb_ge. lia.
Qed.
Lemma effect_lease now op o e r r' :
  row_effect now op r r' → o ≠ "" → now ≤ e → op_actor op ≠ Some o →
  leased_until o e r → leased_until o e r' ∧ rn_id r' = rn_id r.
Proof.
  intros Heff Ho He Ha Hl. pose proof (leased_not_free now o e r Ho He Hl) as Hnf.
  destruct Hl as [Hl1 Hl2].
  destruct Heff as [i u x Hv|o' n b x Hf|i o' n b x Hf|i o' x Ho'|i o' n x Ho'|i b x Hp|y d d' f x Hf Ht Hd];
    simpl in Ha.
  - destruct (assign_all_keeps u x) as (_&E2&_&_&_&_&_&E8&E9&_). unfold leased_until.
    case_bool_decide; simpl; by rewrite E2, E8, E9.
  - congruence.
  - destruct Hf; congruence.
  - congruence.
  - congruence.
  - unfold pending_retry, nonempty in Hp. bool_props. exfalso.
    match goal with H : ¬ (rn_lease_owner x ≠ "") |- _ => apply H; congruence end.
  - done.
Qed.
Lemma history_lease s history o e r :
  auto_inv s → r ∈ st_runs s → o ≠ "" → leased_until o e r →
  Forall (λ x, op_ok x.2 ∧ x.1 ≤ e ∧ op_actor x.2 ≠ Some o) history →
  auto_inv (auto_run s history) ∧
  ∃ r', r' ∈ st_runs (auto_run s history) ∧ rn_id r' = rn_id r ∧ leased_until o e r'.
Proof.
  intros Hs Hr Ho Hl Hh. revert s r Hs Hr Hl.
  induction Hh as [|[now op] history (Hop&Hn&Ha) _ IH]; intros s r Hs Hr Hl; [by eauto|].
  simpl in *. destruct (auto_do_rel now op Hop s Hs) as [Hs1 Hr1].
  destruct (Hr1 r Hr) as (r1&Hr1'&Heff).
  assert (leased_until o e r1 ∧ rn_id r1 = rn_id r) as [Hl1 E1].
  { clear -Heff Ho Hn Ha Hl. induction Heff as [|x y z Hxy _ IH]; [done|].
    destruct (effect_lease _ _ _ _ _ _ Hxy Ho Hn Ha Hl) as [Hy Ey]. rewrite <-Ey. auto. }
  rewrite <-E1. by apply IH.
Qed.

(** What a successful claim leaves behind. *)
Lemma claim_run_true now i o n s s1 :
  auto_inv s → claim_run now i o n s = (Ok true, s1) →
  auto_inv s1 ∧ ∃ r, r ∈ st_runs s1 ∧ rn_id r = i ∧ leased_until o (lease_expiry now n) r.
Proof.
  intros Hs E. pose proof (claim_run_rel now i o n s Hs) as [Hs1 _]. rewrite E in Hs1. simpl in Hs1.
  split; [done|]. revert E. unfold claim_run, get_run. rewrite !bind_gets. cbv zeta.
  set (hit := λ r, _ && _ && _). set (take := take_lease _ _ _ _).
  rewrite bind_modify.
  destruct (bool_decide (rowcount hit (st_runs s) = 1%nat)) eqn:Ec; [|by intros [= ]].
  intros ([]&s2&E2&[= <-])%bind_Ok. bool_props. unfold rowcount in Ec.
  destruct (fetchall hit (st_runs s)) as [|r l] eqn:Ef; [done|].
  assert (r ∈ fetchall hit (st_runs s)) as [Hp Hr]%elem_of_fetchall by (rewrite Ef; left).
  exists (take r).
  assert (st_runs s2 = update_where hit take (st_runs s)) as ->.
  { revert E2. unfold when. destruct (true && _); by intros [= <-]. }
  split; [by apply elem_of_update_where_hit|]. split; [|done]. unfold hit, run_is in Hp. by bool_props.
Qed.

Lemma leased_row_excludes s o e r now o' n :
  auto_inv s → r ∈ st_runs s → o ≠ "" → leased_until o e r → now ≤ e → o' ≠ o →
  (claim_run now (rn_id r) o' n s).1 = Ok false ∧
  ∀ c, (claim_next_active now o' n s).1 = Ok (Some c) → rn_id c ≠ rn_id r.
Proof.
  intros Hs Hr Ho Hl He Ho'. pose proof (leased_not_free now o e r Ho He Hl) as Hnf.
  assert (∀ x, x ∈ st_runs s → rn_id x = rn_id r → x = r) as Hu.
  { intros. by eapply (unique_index_inj (λ _, true) rn_id); [apply Hs|..]. }
  split.
  - unfold claim_run, get_run. rewrite !bind_gets. cbv zeta. rewrite bind_modify.
    unfold rowcount. rewrite fetchall_nil; [done|]. intros x Hx. unfold run_is, streqb.
    case_bool_decide as E; [|done]. rewrite (Hu x Hx E), Hnf. destruct Hl as [-> _].
    by rewrite bool_decide_eq_false_2.
  - intros c. unfold claim_next_active. rewrite bind_gets.
    destruct (order_by oldest_first _) as [|row rows] eqn:Eo; [done|]. cbv zeta. rewrite bind_gets.
    rewrite bind_modify. case_match; [done|]. unfold get_run.
    match goal with |- context [(?m ≫= _) ?w] => destruct (m w) as [[[]|ex] s2] eqn:E2 end;
      [|by rewrite (bind_Err _ _ _ _ _ E2)].
    rewrite (bind_run _ _ _ _ _ E2). unfold gets. intros [= Ec]. apply fetchone_Some in Ec as [_ Hi].
    unfold run_is in Hi. bool_props. intros Ecr.
    assert (row ∈ order_by oldest_first
      (fetchall (λ r, negb (terminal (rn_status r)) && run_due now r && lease_free now r) (st_runs s)))
      as [Hp Hrow]%elem_of_order_by%elem_of_fetchall by (rewrite Eo; left).
    bool_props. rewrite (Hu row Hrow) in * by congruence. congruence.
Qed.

(** [C10] A claimed run has one driver.  Once a controller's claim on a run succeeds, no other
    owner gets the run until the lease expires (at least ten seconds), whatever transactions
    other controllers, planners and users interleave: the lease stays as it was taken, a
    claim of that run by anyone else fails, and the queue never hands it out.  The lease may
    only end early by its owner's own operations. *)
Theorem run_lease_exclusive s s1 claimed_at i o n history :
  auto_inv s → o ≠ "" → claim_run claimed_at i o n s = (Ok true, s1) →
  let e := claimed_at + Z.max 10 n in
  Forall (λ x, op_ok x.2 ∧ x.1 ≤ e ∧ op_actor x.2 ≠ Some o) history →
  let s' := auto_run s1 history in
  (∃ r, r ∈ st_runs s' ∧ rn_id r = i ∧ leased_until o e r) ∧
  ∀ now o' m, now ≤ e → o' ≠ o →
    (claim_run now i o' m s').1 = Ok false ∧
    ∀ c, (claim_next_active now o' m s').1 = Ok (Some c) → rn_id c ≠ i.
Proof.
  intros Hs Ho E e Hh s'. destruct (claim_run_true _ _ _ _ _ _ Hs E) as (Hs1&r&Hr&Hi&Hl).
  destruct (history_lease s1 history o e r Hs1 Hr Ho Hl Hh) as (Hs'&r'&Hr'&Ei&Hl').
  fold s' in Hs', Hr'. rewrite <-Hi, <-Ei. split; [by exists r'|].
  intros now o' m He Ho'. by eapply leased_row_excludes.
Qed.

(** ** Driving a run to its end *)

(** How far a run is from being over.  The table has a cycle (a verified run may be verified
    again); the recorded verification breaks it, so [flash_verified] counts twice. *)
Definition distance (st : run_status) (verified : flag) : nat :=
  match st with
  | RunQueued => 16 | RunJenkinsQueued => 15 | RunJenkinsBuilding => 14 | RunArtifactReady => 13
  | RunWaitingDevice => 12 | RunDeviceLocked => 11 | RunFlashing => 10 | RunFlashCompleted => 9
  | RunFlashVerified => if is_true verified then 6 else 9
  | RunAoaRecovering => 8 | RunPostFlashVerifying => 7 | RunTesting => 5 | RunTestRunning => 4
  | RunReportCollecting => 3 | RunAnalyzing => 2 | RunReporting => 1
  | _ => 0
  end.
Definition rank (r : run) : nat := distance (rn_status r) (rd_post_flash_verified (rn_result r)).

Lemma rank_terminal r : terminal (rn_status r) = true ↔ rank r = 0%nat.
Proof. unfold rank. destruct (rn_status r); simpl; try (split; done). by destruct (is_true _). Qed.
Lemma rank_bound r : (rank r ≤ 16)%nat.
Proof. unfold rank. destruct (rn_status r); simpl; try lia. destruct (is_true _); lia. Qed.

(** An executor that answers every call, and one that never asks to be called again later. *)
Definition stage_methods (X : executor) : list (run → result stage_result) :=
  [ex_trigger_build X; ex_poll_build X; ex_select_artifact X; ex_select_devices X; ex_flash X;
   ex_verify_post_flash X; ex_aoa_recover X; ex_start_test X; ex_poll_test X; ex_collect_report X;
   ex_analyze_report X; ex_report_result X].
Definition answers (X : executor) : Prop :=
  ∀ m, m ∈ stage_methods X → ∀ r, ∃ res, m r = Ok res.
Definition decisive (X : executor) : Prop :=
  ∀ m, m ∈ stage_methods X → ∀ r res, m r = Ok res →
  sr_retry res = Falsy ∧ sr_running res = Falsy ∧ sr_building res = Falsy.

(** The outcome of working on a row: the row [r'] now in the store. *)
Definition advanced (r : run) (out : result run * store) (st : run_status) (verified : flag) : Prop :=
  ∃ r' s', out = (Ok r', s') ∧ auto_inv s' ∧ r' ∈ st_runs s' ∧ rn_id r' = rn_id r ∧
    rn_lease_owner r' = rn_lease_owner r ∧ rn_not_before r' = rn_not_before r ∧
    rn_status r' = st ∧ rd_post_flash_verified (rn_result r') = verified.

Section drive.
Context (now : Z) (s : store) (r : run).
Context (Hinv : auto_inv s) (Hr : r ∈ st_runs s).

Lemma get_current : fetchone (run_is (rn_id r)) (st_runs s) = Some r.
Proof.
  apply (fetchone_unique rn_id); [apply Hinv|done|]. intros x _. unfold run_is, streqb.
  by rewrite bool_decide_eq_true.
Qed.

Lemma update_current st u :
  target_status (rn_status r) u = st → validate_run_transition (rn_status r) st = Ok tt →
  ∃ r' s', update_run_if_status now (rn_id r) (rn_status r) u s = (Ok (r', true), s') ∧
    auto_inv s' ∧ r' ∈ st_runs s' ∧ rn_id r' = rn_id r ∧ rn_lease_owner r' = rn_lease_owner r ∧
    rn_not_before r' = rn_not_before r ∧ rn_status r' = st ∧ rn_result r' = rn_result (assign_all u r).
Proof.
  intros <- Hv. unfold update_run_if_status. rewrite Hv. cbv zeta. rewrite bind_gets, bind_modify.
  set (hit := λ x, run_is (rn_id r) x && _).
  set (write := λ x : run, if bool_decide (target_status (rn_status r) u = rn_status r) then _ else _).
  unfold get_run. rewrite bind_gets.
  destruct (assign_all_keeps u r) as (E1&E2&_&_&_&_&_&E8&_&E10).
  assert (∀ x, x ∈ st_runs s → hit x = true ↔ rn_id x = rn_id r) as Hhit.
  { intros x Hx. unfold hit, run_is, streqb. rewrite andb_true_iff, !bool_decide_eq_true.
    split; [by intros [? _]|]. intros E. split; [done|].
    by rewrite (unique_index_inj (λ _, true) rn_id _ x r (inv_ids _ Hinv)). }
  assert (auto_inv (s <| st_runs ::= update_where hit write |>)) as Hinv'.
  { apply (auto_update now (AoUpdateRun (rn_id r) (rn_status r) u)); [|done]. intros x Hx Hp.
    apply andb_true_iff in Hp as [_ Hp]. apply bool_decide_eq_true in Hp. unfold write.
    rewrite <-Hp in *. by apply EffUpdate. }
  assert (hit r = true) as Hhr by by apply Hhit.
  assert (write r ∈ update_where hit write (st_runs s)) as Hw by by apply elem_of_update_where_hit.
  assert (rn_id (write r) = rn_id r) as Ei by by (unfold write; case_bool_decide; simpl; rewrite E2).
  assert (fetchone (run_is (rn_id r)) (update_where hit write (st_runs s)) = Some (write r)) as Ef.
  { apply (fetchone_unique rn_id); [apply Hinv'|done|].
    intros x _. unfold run_is, streqb. by rewrite bool_decide_eq_true, Ei. }
  eexists _, _. split.
  { cbn. rewrite Ef. unfold mret, M_ret.
    rewrite (rowcount_unique rn_id _ r); [reflexivity|apply Hinv|done|done]. }
  split_and!; [done|done|done|..]; unfold write; case_bool_decide; simpl; congruence.
Qed.

Lemma append_event_same n i st l m p t o f t' (s1 : store) :
  ∃ s2, append_event n i st l m p t o f t' s1 = (Ok tt, s2) ∧ st_runs s2 = st_runs s1.
Proof. unfold append_event, get_run. rewrite bind_gets. unfold insert_event, modify. by eexists. Qed.
Lemma auto_inv_same (s1 s2 : store) : st_runs s2 = st_runs s1 → auto_inv s1 → auto_inv s2.
Proof. intros E []. split; by rewrite E. Qed.

Lemma transition_advances st message payload result_update u :
  terminal (rn_status r) = false → run_moves (rn_status r) st →
  Forall (λ a, match a with SetResult _ | SetStatus _ => False | _ => True end) u →
  advanced r (transition now r st message payload result_update u s) st
    (rd_post_flash_verified (default (rn_result r) result_update)).
Proof.
  intros Hnt Hm Hu. unfold transition, get_run. rewrite bind_gets, get_current. simpl. rewrite Hnt.
  match goal with |- context [[SetStartedAt ?x]] =>
    match goal with |- context [if ?b then [SetStartedAt x] else []] => set (started := if b then [SetStartedAt x] else []) end end.
  set (doc := _ <| rd_stage_started_at := _ |>).
  assert (target_status (rn_status r) (SetStatus st :: SetStage st :: u ++ SetResult doc :: started) = st) as Et.
  { unfold target_status. simpl. rewrite foldl_app. simpl.
    assert (foldl (λ s a, match a with SetStatus s' => s' | _ => s end) st u = st) as ->.
    { clear -Hu. induction Hu as [|a u Ha Hu IH]; [done|]. simpl. by destruct a. }
    unfold started. by case_match. }
  destruct (update_current st _ Et) as (r'&s1&E&Hi&Hin&Eid&Eo&Enb&Est&Eres).
  { apply validate_run_transition_Ok. by right. }
  rewrite (bind_run _ _ _ _ _ E). cbn [negb].
  match goal with |- context [append_event ?a ?b ?c ?d ?e ?f ?g ?h ?i ?j] =>
    destruct (append_event_same a b c d e f g h i j s1) as (s2&E2&R2) end.
  rewrite (bind_run _ _ _ _ _ E2). exists r', s2. rewrite R2. split_and!; [done| |done..|].
  - by eapply auto_inv_same.
  - rewrite Eres. change (SetStatus st :: SetStage st :: u ++ SetResult doc :: started)
      with ([SetStatus st; SetStage st] ++ u ++ [SetResult doc] ++ started).
    unfold assign_all. rewrite !foldl_app. simpl.
    assert (∀ x, rn_result (foldl (λ r a, assign a r) x started) = rn_result x) as ->
      by (intros x; unfold started; destruct (_ && _); reflexivity). done.
Qed.
Lemma fail_advances X st error payload :
  terminal (rn_status r) = false → run_moves (rn_status r) st →
  advanced r (fail now X r st error payload s) st (rd_post_flash_verified (rn_result r)).
Proof.
  intros Hnt Hm. unfold fail, get_run. rewrite bind_gets, get_current. simpl. rewrite Hnt.
  destruct (update_current st [SetStatus st; SetStage st; SetError error; SetFinishedAt (Some now)])
    as (r'&s1&E&Hi&Hin&Eid&Eo&Enb&Est&Eres); [done|by apply validate_run_transition_Ok; right|].
  rewrite (bind_run _ _ _ _ _ E). cbn [negb].
  match goal with |- context [append_event ?a ?b ?c ?d ?e ?f ?g ?h ?i ?j] =>
    destruct (append_event_same a b c d e f g h i j s1) as (s2&E2&R2) end.
  rewrite (bind_run _ _ _ _ _ E2). exists r', s2. rewrite R2. split_and!; try done.
  - by eapply auto_inv_same.
  - by rewrite Eres.
Qed.
Lemma stay_advances message payload u :
  Forall (λ a, match a with SetResult _ | SetStatus _ => False | _ => True end) u →
  advanced r (stay now r message payload u s) (rn_status r) (rd_post_flash_verified (rn_result r)).
Proof.
  intros Hu. assert (target_status (rn_status r) u = rn_status r) as Et.
  { unfold target_status. clear -Hu. induction Hu as [|a u Ha Hu IH]; [done|]. simpl. by destruct a. }
  unfold stay. destruct (update_current (rn_status r) u Et) as (r'&s1&E&Hi&Hin&Eid&Eo&Enb&Est&Eres).
  { apply validate_run_transition_Ok. by left. }
  rewrite (bind_run _ _ _ _ _ E). unfold when.
  match goal with |- context [append_event ?a ?b ?c ?d ?e ?f ?g ?h ?i ?j] =>
    destruct (append_event_same a b c d e f g h i j s1) as (s2&E2&R2) end.
  rewrite (bind_run _ _ _ _ _ E2). exists r', s2. rewrite R2. split_and!; try done.
  - by eapply auto_inv_same.
  - rewrite Eres. f_equal. unfold assign_all. clear -Hu. generalize r. induction Hu as [|a u Ha Hu IH]; intros x; [done|].
    simpl. rewrite IH. by destruct a.
Qed.
End drive.

(** What one stage achieves, from the store [s]: the executor raised and nothing was written,
    or it asked for more time and the run is where it was, or the run is strictly nearer to
    its end. *)
Definition progresses (s : store) (X : executor) (r : run) (out : result run * store) : Prop :=
  (∃ e, out = (Err e, s) ∧ ¬ answers X) ∨
  ∃ st v, advanced r out st v ∧
    ((st = rn_status r ∧ v = rd_post_flash_verified (rn_result r) ∧ ¬ decisive X) ∨
     (distance st v < rank r)%nat).

Section stages.
Context (now : Z) (X : executor) (s : store) (r : run).
Context (Hinv : auto_inv s) (Hr : r ∈ st_runs s).

Lemma progress_transition st message payload result_update u :
  terminal (rn_status r) = false → run_moves (rn_status r) st →
  Forall (λ a, match a with SetResult _ | SetStatus _ => False | _ => True end) u →
  (distance st (rd_post_flash_verified (default (rn_result r) result_update)) < rank r)%nat →
  progresses s X r (transition now r st message payload result_update u s).
Proof.
  intros Ht Hm Hu Hd. right. eexists st, _. split; [by apply transition_advances|]. by right.
Qed.
Lemma progress_fail st error payload :
  terminal (rn_status r) = false → terminal st = true → run_moves (rn_status r) st →
  progresses s X r (fail now X r st error payload s).
Proof.
  intros Ht Hst Hm. right. eexists st, _. split; [by apply fail_advances|]. right.
  assert (∀ v, distance st v = 0%nat) as -> by by destruct st.
  destruct (rank r) eqn:E; [|lia]. apply rank_terminal in E. congruence.
Qed.
Lemma progress_stay message payload u :
  Forall (λ a, match a with SetResult _ | SetStatus _ => False | _ => True end) u →
  ¬ decisive X → progresses s X r (stay now r message payload u s).
Proof. intros Hu Hd. right. eexists _, _. split; [by apply stay_advances|]. by left. Qed.

(** A call of the executor, answered or not. *)
Lemma called m k :
  m ∈ stage_methods X →
  (∀ res, m r = Ok res → progresses s X r (k res s)) → progresses s X r ((call (m r) ≫= k) s).
Proof.
  intros Hm Hk. unfold call. destruct (m r) as [res|e] eqn:E.
  - rewrite bind_ret. by apply Hk.
  - left. exists e. split; [done|]. intros Ha. destruct (Ha m Hm r) as [res E']. congruence.
Qed.
Lemma waiting_not_decisive m res :
  m ∈ stage_methods X → m r = Ok res →
  truthy (sr_retry res) = true ∨ truthy (sr_running res) = true ∨ truthy (sr_building res) = true →
  ¬ decisive X.
Proof.
  intros Hm E Hw Hd. destruct (Hd m Hm r res E) as (E1&E2&E3). rewrite E1, E2, E3 in Hw. naive_solver.
Qed.
End stages.

Ltac plain_assignments := repeat first [exact I | apply Forall_nil_2 | apply Forall_cons_2].
(** Enter a stage that starts by calling the executor. *)
Ltac called_stage res E := apply called; [simpl; set_solver|]; intros res E.
(** Close one outcome of a stage whose status is known. *)
Ltac stage_outcome Es :=
  cbv zeta;
  lazymatch goal with
  | |- progresses _ _ _ (transition _ _ _ _ _ _ _ _) =>
      apply progress_transition;
        [done|done|by rewrite Es|rewrite Es; split_and!; [done|done|simpl; set_solver]
        |plain_assignments|unfold rank; rewrite Es; simpl]
  | |- progresses _ _ _ (fail _ _ _ _ _ _ _) =>
      apply progress_fail;
        [done|done|by rewrite Es|done|rewrite Es; split_and!; [done|done|simpl; set_solver]]
  | |- progresses _ _ _ (stay _ _ _ _ _ _) =>
      apply progress_stay; [done|done|plain_assignments
        |eapply waiting_not_decisive; [|eassumption|tauto]; simpl; set_solver]
  end.

Lemma advance_progresses now X s r :
  auto_inv s → r ∈ st_runs s → terminal (rn_status r) = false →
  progresses s X r (advance_stage now X r s).
Proof.
  intros Hinv Hr Ht. unfold advance_stage. rewrite Ht.
  destruct (rn_status r) eqn:Es; try discriminate Ht.
  - unfold stage_queued. case_match; stage_outcome Es; lia.
  - called_stage res E. case_match; stage_outcome Es; lia.
  - called_stage res E. repeat case_match; stage_outcome Es; lia.
  - called_stage res E. case_match; stage_outcome Es; lia.
  - called_stage res E. repeat case_match; stage_outcome Es; lia.
  - stage_outcome Es; lia.
  - called_stage res E. repeat case_match; stage_outcome Es; lia.
  - unfold stage_flashed. rewrite Es, bool_decide_eq_false_2 by done. cbn [andb]. case_match; stage_outcome Es; lia.
  - called_stage res E. repeat case_match; stage_outcome Es.
    bool_props. by match goal with H : is_true (sr_verified res) = true |- _ => rewrite H; lia end.
  - unfold stage_flashed. rewrite Es, bool_decide_eq_true_2 by done. cbn [andb].
    destruct (is_true (rd_post_flash_verified _)) eqn:Ev; [stage_outcome Es; rewrite Ev; lia|].
    destruct (ex_aoa_enabled X r); stage_outcome Es; rewrite Ev; lia.
  - called_stage res E. cbv zeta. repeat case_match; stage_outcome Es; lia.
  - called_stage res E. case_match; stage_outcome Es; lia.
  - called_stage res E. repeat case_match; stage_outcome Es; lia.
  - called_stage res E. repeat case_match; stage_outcome Es; lia.
  - called_stage res E. case_match; stage_outcome Es; lia.
  - called_stage res E. case_match; stage_outcome Es; lia.
Qed.

(** ** A controller at work *)

(** The lease of a row is not another controller's. *)
Definition idle (o : string) (r : run) : Prop := rn_lease_owner r = "" ∨ rn_lease_owner r = o.

Lemma idle_claimed now o n s r :
  auto_inv s → r ∈ st_runs s → idle o r → run_due now r = true →
  ∃ b s1, claim_run now (rn_id r) o n s = (Ok true, s1) ∧ auto_inv s1 ∧
    take_lease now o n b r ∈ st_runs s1.
Proof.
  intros Hs Hr Hi Hd. pose proof (claim_run_rel now (rn_id r) o n s Hs) as [Hs1 _]. revert Hs1.
  unfold claim_run. assert (get_run (rn_id r) s = (Ok (Some r), s)) as Eg
    by (unfold get_run, gets; by rewrite (get_current s r)).
  rewrite (bind_run _ _ _ _ _ Eg).
  cbv zeta. rewrite bind_gets, bind_modify.
  set (hit := λ r0, _ && _ && _). set (b := _ && negb _).
  assert (∀ x, x ∈ st_runs s → hit x = true ↔ rn_id x = rn_id r) as Hhit.
  { intros x Hx. unfold hit, run_is, streqb. rewrite !andb_true_iff, orb_true_iff, !bool_decide_eq_true.
    split; [by intros [[? _] _]|]. intros E.
    rewrite (unique_index_inj (λ _, true) rn_id _ x r (inv_ids _ Hs) Hx Hr) by done.
    unfold lease_free, nonempty. destruct Hi as [->| ->]; [|by auto]. split_and!; auto. }
  rewrite (rowcount_unique rn_id _ r) by (done || apply Hs). rewrite bool_decide_eq_true_2 by done.
  assert (∀ s0, ∃ s2, when (true && b) (recovery_event now (rn_id r) (rn_lease_owner r) o) s0 = (Ok tt, s2) ∧
    st_runs s2 = st_runs s0) as Hev.
  { intros s0. unfold when. destruct b; [apply append_event_same|by exists s0]. }
  match goal with |- context [(_ ≫= _) ?w] => destruct (Hev w) as (s2&E2&R2) end.
  rewrite (bind_run _ _ _ _ _ E2). intros Hs1. exists b, s2. split_and!; [done|done|].
  rewrite R2. apply elem_of_update_where_hit; [done|]. by apply Hhit.
Qed.

Lemma lease_released o s r :
  auto_inv s → r ∈ st_runs s → rn_lease_owner r = o →
  ∃ s1, release_claim (rn_id r) o s = (Ok tt, s1) ∧ auto_inv s1 ∧
    r <| rn_lease_owner := "" |> <| rn_lease_expires_at := None |> ∈ st_runs s1.
Proof.
  intros Hs Hr Ho. pose proof (release_claim_rel 0 (rn_id r) o s Hs) as [Hs1 _]. revert Hs1.
  unfold release_claim, modify. cbn [snd]. intros Hs1. eexists. split_and!; [done|done|].
  apply (elem_of_update_where_hit _ (λ r, r <| rn_lease_owner := "" |> <| rn_lease_expires_at := None |>) _ r);
    [done|]. unfold run_is, streqb.
  by rewrite !bool_decide_eq_true_2.
Qed.

Definition drive_step (o i : string) (s : store) (x : Z * executor) : store :=
  (advance_run o x.2 x.1 i s).2.
(** One controller calls [advance_run] on one run, at the given times with the given
    executors. *)
Definition drive (o i : string) (s : store) (calls : list (Z * executor)) : store :=
  foldl (drive_step o i) s calls.

Lemma drive_once o s r now X :
  auto_inv s → r ∈ st_runs s → idle o r → run_due now r = true →
  let s' := drive_step o (rn_id r) s (now, X) in
  ∃ r', auto_inv s' ∧ r' ∈ st_runs s' ∧ rn_id r' = rn_id r ∧ idle o r' ∧
    rn_not_before r' = rn_not_before r ∧ (rank r' ≤ rank r)%nat ∧
    (answers X → decisive X → rank r' = 0%nat ∨ (rank r' < rank r)%nat).
Proof.
  intros Hs Hr Hi Hd s'. unfold s', drive_step, advance_run. cbn [fst snd].
  assert (get_run (rn_id r) s = (Ok (Some r), s)) as Eg
    by (unfold get_run, gets; by rewrite get_current).
  rewrite (bind_run _ _ _ _ _ Eg). destruct (terminal (rn_status r)) eqn:Ht.
  { exists r. apply rank_terminal in Ht. split_and!; auto. }
  destruct (idle_claimed now o LEASE_SECONDS s r Hs Hr Hi Hd) as (b&s1&E1&Hs1&Hr1).
  rewrite (bind_run _ _ _ _ _ E1). cbn [negb]. set (rt := take_lease _ _ _ _ r) in Hr1.
  assert (get_run (rn_id r) s1 = (Ok (Some rt), s1)) as Eg1
    by (pose proof (get_current s1 rt Hs1 Hr1) as E; unfold get_run, gets; cbn in E |- *; by rewrite E).
  unfold finally. rewrite (bind_run _ _ _ _ _ Eg1). cbv beta.
  change (default r (Some rt)) with rt.
  assert (rank rt = rank r) as Erk by done.
  destruct (advance_progresses now X s1 rt Hs1 Hr1 Ht) as [(e&E&Ha)|(st&v&(r2&s2&E&Hs2&Hr2&Ei&Eo&En&Est&Ev)&Hp)];
    rewrite E.
  - destruct (lease_released o s1 rt Hs1 Hr1 eq_refl) as (s3&E3&Hs3&Hr3).
    change (rn_id rt) with (rn_id r) in E3. rewrite E3. cbn [snd].
    eexists. split_and!; [done|exact Hr3|done|by left|done|done|by intros].
  - assert (rank r2 = distance st v) as Er2 by (unfold rank; congruence).
    destruct (lease_released o s2 r2 Hs2 Hr2 Eo) as (s3&E3&Hs3&Hr3).
    rewrite Ei in E3. change (rn_id rt) with (rn_id r) in E3. rewrite E3. cbn [snd].
    eexists. split_and!; [done|exact Hr3|done|by left|done| |].
    + change (rank r2 ≤ rank r)%nat. destruct Hp as [(->&->&_)|?]; [|lia].
      change (distance (rn_status rt) (rd_post_flash_verified (rn_result rt))) with (rank rt) in Er2. lia.
    + intros _ Hdec. change (rank r2 = 0%nat ∨ (rank r2 < rank r)%nat). right.
      destruct Hp as [(_&_&?)|?]; [done|lia].
Qed.

(** [C9] The pipeline terminates.  A controller that keeps calling [advance_run] on a run
    brings it to an end: sixteen calls in which the executor answers every request and does
    not ask for more time are enough, from any status, however many other calls (with an
    executor that raises, or that keeps answering "still running") come between them. *)
Theorem pipeline_terminates o s r calls good :
  auto_inv s → r ∈ st_runs s → idle o r → Forall (λ x, run_due x.1 r = true) calls →
  good `sublist_of` calls → Forall (λ x, answers x.2 ∧ decisive x.2) good → (16 ≤ length good)%nat →
  ∃ r', r' ∈ st_runs (drive o (rn_id r) s calls) ∧ rn_id r' = rn_id r ∧
    terminal (rn_status r') = true ∧ idle o r'.
Proof.
  intros Hs Hr Hi Hd Hsub Hg Hn. pose proof (rank_bound r) as Hb.
  assert (rank r ≤ length good)%nat as Hrk by lia. clear Hn Hb. remember (rn_id r) as i eqn:Hid.
  revert s r Hid Hs Hr Hi Hd Hrk.
  induction Hsub as [|[now X] good calls _ IH|[now X] good calls _ IH]; intros s r -> Hs Hr Hi Hd Hrk; simpl.
  - exists r. split_and!; try done. apply rank_terminal. simpl in Hrk. lia.
  - inv Hg as [|?? [Ha Hdec] Hg']. inv Hd as [|?? Hd1 Hd2].
    destruct (drive_once o s r now X Hs Hr Hi Hd1) as (r'&Hs'&Hr'&Ei&Hi'&En&_&Hlt).
    apply (IH Hg' _ r'); try done; [|simpl in Hrk; destruct (Hlt Ha Hdec); lia].
    eapply Forall_impl; [exact Hd2|]. intros x. unfold run_due. by rewrite En.
  - inv Hd as [|?? Hd1 Hd2].
    destruct (drive_once o s r now X Hs Hr Hi Hd1) as (r'&Hs'&Hr'&Ei&Hi'&En&Hle&_).
    apply (IH Hg _ r'); try done; [|lia].
    eapply Forall_impl; [exact Hd2|]. intros x. unfold run_due. by rewrite En.
Qed.

(** ** The theorems at work *)

Lemma sample_store_inv : auto_inv sample_store.
Proof.
  split.
  - vm_compute. repeat constructor; set_solver.
  - intros r Hr. unfold sample_store, sample_runs in Hr. simpl in Hr.
    repeat (apply elem_of_cons in Hr as [->|Hr]); [..|by apply not_elem_of_nil in Hr];
      intros H; by destruct H.
Qed.
Definition sample_run : run := to_run_dict 10 "ats_1" sample_request.
Lemma sample_run_stored : sample_run ∈ st_runs sample_store.
Proof. left. Qed.

(** The queued run is started and cancelled; a late stage then tries to move it. *)
Definition sample_history : list (Z * auto_op) :=
  [(40, AoClaimRun "ats_1" "c1" 120); (41, AoUpdateRun "ats_1" RunQueued [SetStatus RunWaitingDevice]);
   (42, AoUpdateRun "ats_1" RunWaitingDevice [SetStatus RunCancelled]);
   (43, AoUpdateRun "ats_1" RunWaitingDevice [SetStatus RunDeviceLocked])].
Lemma runs_follow_pipeline_witness :
  ∃ r', r' ∈ st_runs (auto_run sample_store sample_history) ∧ run_step sample_run r' ∧
    (rn_status <$> fetchone (run_is "ats_1") (st_runs (auto_run sample_store sample_history)))
      = Some RunCancelled.
Proof.
  destruct (runs_follow_pipeline sample_store sample_history sample_store_inv) as [_ H].
  - repeat constructor.
  - destruct (H sample_run sample_run_stored) as (r'&Hr'&Hs&_). exists r'. split_and!; [done..|].
    vm_compute. reflexivity.
Defined.

Lemma run_lease_exclusive_witness :
  let s1 := (claim_run 40 "ats_1" "c1" 120 sample_store).2 in
  let h := [(50, AoClaimNext "c2" 120); (55, AoReleaseClaim "ats_1" "c2")] in
  (claim_run 60 "ats_1" "c2" 120 (auto_run s1 h)).1 = Ok false.
Proof.
  intros s1 h.
  destruct (run_lease_exclusive sample_store s1 40 "ats_1" "c1" 120 h) as [_ H].
  - exact sample_store_inv.
  - discriminate.
  - unfold s1. rewrite (surjective_pairing (claim_run _ _ _ _ _)). f_equal; vm_compute; reflexivity.
  - repeat constructor; simpl; congruence || lia.
  - apply (H 60 "c2" 120); [lia|discriminate].
Defined.

(** An executor that succeeds at once, one that is still running and one that is down. *)
Definition sample_result (running verified : flag) : stage_result :=
  StageResult IsTrue None Falsy running Falsy verified Falsy "SUCCESS" "artifact" []
    (Some (AoaResult IsTrue IsTrue "device")) ∅ JNull JNull.
Definition sample_executor (answer : result stage_result) : executor :=
  let m := λ _, answer in
  Executor m m m m m (λ _, true) m m m m m m m m.
Definition ready_executor : executor := sample_executor (Ok (sample_result Falsy IsTrue)).
Definition busy_executor : executor := sample_executor (Ok (sample_result IsTrue IsTrue)).
Definition down_executor : executor := sample_executor (Err (RuntimeError "executor is down")).

Lemma ready_good : answers ready_executor ∧ decisive ready_executor.
Proof.
  split; intros m Hm; unfold stage_methods, ready_executor in Hm; simpl in Hm;
    repeat (apply elem_of_cons in Hm as [->|Hm]); try (by apply not_elem_of_nil in Hm).
  all: intros r; try (by eexists); by intros res [= <-].
Qed.
Definition sample_calls : list (Z * executor) :=
  (λ n, (100 + Z.of_nat n, ready_executor)) <$> seq 0 16.
Definition sample_faulty_calls : list (Z * executor) :=
  (50, down_executor) :: take 9 sample_calls ++ (120, down_executor) :: (130, busy_executor) :: drop 9 sample_calls.

Lemma pipeline_terminates_witness :
  ∃ r', r' ∈ st_runs (drive "c1" "ats_1" sample_store sample_faulty_calls) ∧
    terminal (rn_status r') = true ∧
    (rn_status <$> fetchone (run_is "ats_1")
       (st_runs (drive "c1" "ats_1" sample_store sample_faulty_calls))) = Some RunCompleted.
Proof.
  destruct (pipeline_terminates "c1" sample_store sample_run sample_faulty_calls sample_calls)
    as (r'&Hr'&_&Ht&_).
  - exact sample_store_inv.
  - exact sample_run_stored.
  - by left.
  - vm_compute. repeat constructor.
  - unfold sample_faulty_calls. apply sublist_cons. rewrite <-(take_drop 9 sample_calls) at 1.
    apply sublist_app; [done|]. by do 2 apply sublist_cons.
  - apply Forall_forall. intros x Hx%list_elem_of_fmap. destruct Hx as (n&->&_). exact ready_good.
  - vm_compute. lia.
  - exists r'. split_and!; [exact Hr'|done|]. vm_compute. reflexivity.
Defined.
