(* ===== verification/Retries.v ===== *)
(** Automatic retries over any history of the automation store: where the rows of a retry
    come from, that their lineage never changes, and how many there can be. *)

From stdpp Require Import gmap.
From S2P Require Import Prelude Encodings Automation RunHistory PlanStore AutomationInvariants.

Open Scope Z_scope.

(** ** Lineage *)

(** What ties a run to the run it retries; fixed when the row is inserted. *)
Definition same_lineage (r r' : run) : Prop :=
  rn_id r' = rn_id r ∧ rn_retry_root_run_id r' = rn_retry_root_run_id r ∧
  rn_retry_index r' = rn_retry_index r ∧ rn_retry_limit r' = rn_retry_limit r ∧
  rn_source_key r' = rn_source_key r.
#[export] Instance same_lineage_equiv : Equivalence same_lineage.
Proof. split; unfold same_lineage; [done| |]; [intros x y|intros x y z]; naive_solver congruence. Qed.

Lemma assign_all_lineage u r : same_lineage r (assign_all u r).
Proof.
  unfold assign_all. revert r. induction u as [|a u IH]; intros r; [done|]. simpl.
  etrans; [|apply IH]. by destruct a.
Qed.

(** The rows an operation may insert. *)
Definition op_rows (op : auto_op) : list run :=
  match op with
  | AoCreateRun r _ => [r]
  | AoStartBatch _ _ (Some f) _ _ | AoAdvanceBatch _ (Some f) _ _ | AoFinishFollowup _ _ (Some f) =>
      [pp_run f]
  | _ => []
  end.

(** The unique indexes of the table. *)
Definition indexed (t : list run) : Prop :=
  unique_index (λ _, true) rn_id t ∧
  unique_index (λ r, nonempty (rn_source_key r)) rn_source_key t.

(** Every row comes from a row that was there or from an inserted one, no row is lost, and
    the unique indexes hold. *)
Section origin.
Context (new : list run).
Definition origin_rel (s s' : store) : Prop :=
  (∀ r', r' ∈ st_runs s' → ∃ r, (r ∈ st_runs s ∨ r ∈ new) ∧ same_lineage r r') ∧
  runs_rel same_lineage (st_runs s) (st_runs s') ∧
  (indexed (st_runs s) → indexed (st_runs s')).

#[export] Instance origin_rel_preorder : PreOrder origin_rel.
Proof.
  split.
  - intros s. split_and!; [|done|done]. intros r Hr. exists r. split; [by left|done].
  - intros x y z (O1&F1&U1) (O2&F2&U2). split_and!; [|by etrans|auto].
    intros r' Hr'. destruct (O2 r' Hr') as (r1&[H1|H1]&L1); [|by eauto].
    destruct (O1 r1 H1) as (r0&H0&L0). exists r0. split; [done|by etrans].
Qed.

Lemma origin_same f : (∀ s, st_runs (f s) = st_runs s) → preserves origin_rel (modify f).
Proof.
  intros Hf. apply preserves_modify. intros s. unfold origin_rel. rewrite Hf.
  destruct (reflexivity s : origin_rel s s) as (?&?&?). done.
Qed.
Lemma origin_update p f :
  (∀ r, same_lineage r (f r)) →
  preserves origin_rel (modify (λ s, s <| st_runs ::= update_where p f |>)).
Proof.
  intros Hf. apply preserves_modify. intros s. split_and!; simpl.
  - intros r' (r&Hr&->)%elem_of_update_where. exists r. split; [by left|]. by destruct (p r).
  - intros r Hr. eexists. split; [apply elem_of_update_where; by exists r|]. by destruct (p r).
  - intros [Hi Hu]. split; apply unique_index_update; try done; intros r _ _;
      destruct (Hf r) as (E1&_&_&_&E5); by rewrite ?E1, ?E5.
Qed.
Lemma origin_insert r : r ∈ new → preserves origin_rel (insert_run r).
Proof.
  intros Hr s. unfold insert_run. rewrite bind_gets, bind_require.
  destruct (negb (exists_row _ _)) eqn:Ei; [|done]. rewrite bind_require. destruct (negb (_ && _)) eqn:E; [|done]. split_and!; simpl.
  - intros r' [H'| ->%list_elem_of_singleton]%elem_of_app; [exists r'; split; [by left|done]|exists r; split; [by right|done]].
  - intros x Hx. exists x. split; [|done]. apply elem_of_app. by left.
  - intros [Hi Hu]. split; (apply unique_index_snoc; [done|]); intros Hn x Hx _ Heq.
    + apply negb_true_iff in Ei. rewrite exists_row_false in Ei. specialize (Ei x Hx).
      unfold run_is, streqb in Ei. by rewrite bool_decide_eq_true_2 in Ei.
    + rewrite Hn in E. simpl in E. apply negb_true_iff in E. rewrite exists_row_false in E.
      specialize (E x Hx). unfold streqb in E. by rewrite bool_decide_eq_true_2 in E.
Qed.
Lemma origin_event n i st l m p t o f t' : preserves origin_rel (append_event n i st l m p t o f t').
Proof.
  unfold append_event, get_run. apply preserves_bind; [apply _|apply preserves_gets, _|].
  intros x. by apply origin_same.
Qed.
Lemma origin_prepared n p : pp_run p ∈ new → preserves origin_rel (insert_prepared_run n p).
Proof.
  intros Hp. unfold insert_prepared_run. apply preserves_bind; [apply _|by apply origin_insert|]. intros _.
  apply preserves_bind; [apply _| |intros _; by apply origin_same].
  apply preserves_for_each; [apply _|]. intros [k v]. unfold insert_secret.
  apply preserves_bind; [apply _|apply preserves_gets, _|]. intros l.
  apply preserves_bind; [apply _|apply preserves_require, _|]. intros _. by apply origin_same.
Qed.
Lemma origin_atomic {A} (m : M store A) : preserves origin_rel m → preserves origin_rel (atomic m).
Proof. intros Hm s. specialize (Hm s). unfold atomic. by destruct (m s) as [[]]. Qed.
End origin.

(** Walk through a handler: each of its writes is covered by one of the lemmas above. *)
Ltac origin_walk :=
  repeat first
    [ progress intros
    | match goal with
      | H : (if ?b then None else Some _) = Some _ |- _ => destruct b; [discriminate H|injection H as <-]
      end
    | apply origin_event
    | apply origin_prepared; left
    | apply origin_insert; left
    | apply preserves_bind; [apply _|..]
    | apply preserves_ret, _ | apply preserves_raise, _ | apply preserves_gets, _
    | apply preserves_require, _ | apply preserves_when; [apply _|]
    | apply origin_atomic
    | apply preserves_for_each; [apply _|]
    | by apply origin_same
    | apply origin_update; intros; by repeat case_match
    | apply origin_update; intros; etrans; [apply assign_all_lineage|done]
    | case_match ].

Lemma auto_do_origin now op : preserves (origin_rel (op_rows op)) (auto_do now op).
Proof.
  destruct op; simpl.
  all: unfold create_run, update_run_if_status, claim_next_active, claim_run, recovery_event,
         release_claim, renew_claim, save_plan, set_enabled, start_batch, defer_error, advance_batch,
         stop_batch, finish_followup, get_run, get_plan, insert_secret, insert_event.
  all: origin_walk.
Qed.

(** ** Histories with automatic retries *)

(** A run that is no retry. *)
Definition first_attempt (r : run) : Prop :=
  rn_id r ≠ "" ∧ rn_retry_root_run_id r = "" ∧ rn_retry_index r = 0.

(** One transaction of the store: one that inserts at most runs that are no retries, or the
    scheduler carrying out what the retry policy answers for a terminal run.  It works on a
    row it read earlier: [r] may be stale in everything but its lineage. *)
Inductive planner_step (auth : run → result (list string)) (s : store) : store → Prop :=
  | StepOther now op :
      (∀ c, c ∈ op_rows op → first_attempt c) →
      planner_step auth s (auto_step s (now, op))
  | StepRetry now t i x r decision prepared :
      x ∈ st_runs s → same_lineage x r → i ≠ "" →
      retry auth t i r = Ok (decision, prepared) →
      planner_step auth s (auto_step s (now, AoFinishFollowup r decision prepared)).

Definition retry_key (root : string) (index : Z) : string :=
  "retry:" +:+ root +:+ ":" +:+ pretty index.
(** A row is a first attempt, or one of the retries its first attempt allows. *)
Definition lineage_ok (t : list run) (r : run) : Prop :=
  first_attempt r ∨
  rn_id r ≠ "" ∧ rn_retry_root_run_id r ≠ "" ∧ 1 ≤ rn_retry_index r ≤ rn_retry_limit r ∧
  rn_source_key r = retry_key (rn_retry_root_run_id r) (rn_retry_index r) ∧
  ∃ r0, r0 ∈ t ∧ first_attempt r0 ∧ rn_id r0 = rn_retry_root_run_id r ∧
        rn_retry_limit r0 = rn_retry_limit r.
Record retry_inv (s : store) : Prop := {
  ri_indexed : indexed (st_runs s);
  ri_lineage : ∀ r, r ∈ st_runs s → lineage_ok (st_runs s) r;
}.

Lemma first_attempt_lineage r r' : same_lineage r r' → first_attempt r → first_attempt r'.
Proof. unfold first_attempt. intros (E1&E2&E3&_). by rewrite E1, E2, E3. Qed.
Lemma lineage_ok_later t t' r r' :
  runs_rel same_lineage t t' → same_lineage r r' → lineage_ok t r → lineage_ok t' r'.
Proof.
  intros Hf HL [Hr|(Hi&Hr&Hb&Hk&r0&H0&Hf0&E0&El)]; [left; by eapply first_attempt_lineage|right].
  destruct (Hf r0 H0) as (r1&H1&L1). pose proof L1 as (F1&_&_&F4&_).
  destruct HL as (E1&E2&E3&E4&E5). rewrite E1, E2, E3, E4, E5. split_and!; try done; try lia.
  exists r1. split_and!; [done|by eapply first_attempt_lineage|congruence..].
Qed.

(** What the policy answers is the next attempt of the run's lineage. *)
Lemma retry_child auth t i r d p :
  retry auth t i r = Ok (d, Some p) →
  rn_id (pp_run p) = i ∧
  rn_retry_root_run_id (pp_run p) = str_or (rn_retry_root_run_id r) (rn_id r) ∧
  rn_retry_index (pp_run p) = rn_retry_index r + 1 ∧ rn_retry_limit (pp_run p) = rn_retry_limit r ∧
  rn_retry_index r < rn_retry_limit r ∧
  rn_source_key (pp_run p) = retry_key (str_or (rn_retry_root_run_id r) (rn_id r)) (rn_retry_index r + 1).
Proof.
  unfold retry. cbv zeta. destruct (_ || Z.eqb _ 0); [done|]. case_match; [done|].
  destruct (Z.leb _ _) eqn:El; [done|]. do 2 (case_match; [done|]). case_match; [|done].
  intros [= <- <-]. simpl. apply Z.leb_gt in El. by split_and!.
Qed.

Lemma child_lineage_ok auth t i x r d p (rows : list run) :
  x ∈ rows → lineage_ok rows x → same_lineage x r → i ≠ "" →
  retry auth t i r = Ok (d, Some p) → lineage_ok rows (pp_run p).
Proof.
  intros Hx Hok (E1&E2&E3&E4&E5) Hi (F1&F2&F3&F4&F5&F6)%retry_child. right.
  rewrite F1, F2, F3, F4, F6, E1, E2, E3, E4 in *. unfold str_or.
  destruct Hok as [(Hn&Hr&Hz)|(Hn&Hr&Hb&_&r0&H0&Hf0&E0&El)].
  - rewrite Hr. cbn. split_and!; try done; try lia. exists x. by split_and!.
  - rewrite decide_False by done. split_and!; try done; try lia.
    exists r0. by split_and!.
Qed.

Lemma planner_step_inv auth s s' : planner_step auth s s' → retry_inv s → retry_inv s'.
Proof.
  intros Hstep [Hu Hl].
  assert (∃ now op, s' = auto_step s (now, op) ∧ ∀ c, c ∈ op_rows op → lineage_ok (st_runs s) c)
    as (now&op&->&Hnew).
  { destruct Hstep as [now op Hop|now t i x r d p Hx HL Hi E]; eexists _, _; (split; [done|]).
    - intros c Hc. left. by apply Hop.
    - destruct p as [p|]; simpl; [|by intros c ?%elem_of_nil]. intros c ->%list_elem_of_singleton.
      eapply child_lineage_ok; eauto. }
  destruct (auto_do_origin now op s) as (Ho&Hf&Hk). unfold auto_step. cbn [fst snd].
  split; [by apply Hk|]. intros r' Hr'. destruct (Ho r' Hr') as (r&[Hr|Hr]&HL).
  - eapply lineage_ok_later; eauto.
  - eapply lineage_ok_later; eauto.
Qed.
Lemma planner_inv auth s s' : rtc (planner_step auth) s s' → retry_inv s → retry_inv s'.
Proof. induction 1; [done|]. eauto using planner_step_inv. Qed.

Definition retries_of (root : string) (t : list run) : list run :=
  fetchall (λ r, streqb (rn_retry_root_run_id r) root) t.

Lemma unique_index_among {K} (p q : run → bool) (key : run → K) t :
  (∀ r, r ∈ t → p r = true → q r = true) → unique_index q key t → unique_index p key t.
Proof.
  induction t as [|r t IH]; intros Hpq; [done|]. rewrite !unique_index_cons. intros [Hr Hu].
  split; [|apply IH; [set_solver|done]]. intros Hp r' Hr' Hp'. apply Hr; [|done|]; apply Hpq; set_solver.
Qed.

Lemma retries_row s root r :
  retry_inv s → root ≠ "" → r ∈ retries_of root (st_runs s) →
  1 ≤ rn_retry_index r ≤ rn_retry_limit r ∧ rn_source_key r = retry_key root (rn_retry_index r) ∧
  ∃ r0, r0 ∈ st_runs s ∧ rn_id r0 = root ∧ rn_retry_limit r0 = rn_retry_limit r.
Proof.
  intros [_ Hl] Hn [Hp Hr]%elem_of_fetchall. unfold streqb in Hp. bool_props.
  destruct (Hl r Hr) as [(_&E&_)|(_&_&Hb&Hk&r0&H0&_&E0&El)]; [congruence|]. subst root. eauto 10.
Qed.
Lemma retry_numbers s root :
  retry_inv s → root ≠ "" → NoDup (rn_retry_index <$> retries_of root (st_runs s)).
Proof.
  intros Hinv Hn. pose proof Hinv as [[_ Hu] _]. apply (NoDup_fmap_1 (retry_key root)).
  rewrite <-list_fmap_compose.
  replace ((retry_key root ∘ rn_retry_index) <$> retries_of root (st_runs s))
    with (rn_source_key <$> retries_of root (st_runs s)).
  - apply (unique_index_among _ (λ r, nonempty (rn_source_key r))); [|done]. intros r Hr Hp.
    destruct (retries_row s root r) as (_&->&_); [done..|by apply elem_of_fetchall|done].
  - apply list_fmap_ext. intros i r Hr%list_elem_of_lookup_2. by apply (retries_row s root r).
Qed.

(** Distinct numbers between one and a limit are at most as many as the limit. *)
Lemma bounded_distinct (l : list Z) n :
  NoDup l → (∀ x, x ∈ l → 1 ≤ x ≤ n) → Z.of_nat (length l) ≤ Z.max 0 n.
Proof.
  intros Hnd Hl. assert (l ⊆ seqZ 1 n) as Hsub.
  { intros x Hx. apply elem_of_seqZ. specialize (Hl x Hx). lia. }
  pose proof (submseteq_length _ _ (NoDup_submseteq _ _ Hnd Hsub)) as Hle.
  rewrite length_seqZ in Hle. lia.
Qed.

(** [C30] Automatic retries are bounded.  In whatever order planners, users and controllers
    work on the store, and however late the scheduler carries out a decision it made on rows
    it read before, a run has at most as many retries as its [retry_limit] allows: they carry
    its limit, are numbered between one and that limit, and no number is used twice. *)
Theorem retries_bounded auth s s' r0 :
  retry_inv s → rtc (planner_step auth) s s' → r0 ∈ st_runs s' →
  let retries := retries_of (rn_id r0) (st_runs s') in
  Z.of_nat (length retries) ≤ Z.max 0 (rn_retry_limit r0) ∧
  NoDup (rn_retry_index <$> retries) ∧
  ∀ r, r ∈ retries → rn_retry_limit r = rn_retry_limit r0 ∧ 1 ≤ rn_retry_index r ≤ rn_retry_limit r0.
Proof.
  intros Hs Hst H0 retries. pose proof (planner_inv _ _ _ Hst Hs) as Hinv.
  assert (rn_id r0 ≠ "") as Hn by by destruct (ri_lineage _ Hinv r0 H0) as [[]|[]].
  assert (∀ r, r ∈ retries → rn_retry_limit r = rn_retry_limit r0 ∧ 1 ≤ rn_retry_index r ≤ rn_retry_limit r0)
    as Hall.
  { intros r Hr. destruct (retries_row _ _ _ Hinv Hn Hr) as (Hb&_&x&Hx&Ei&El).
    assert (x = r0) as -> by (eapply (unique_index_inj (λ _, true) rn_id); [apply Hinv|done..]).
    by rewrite El. }
  pose proof (retry_numbers s' (rn_id r0) Hinv Hn) as Hnd. split_and!; [|done|done].
  rewrite <-(length_fmap rn_retry_index). apply bounded_distinct; [done|].
  intros x (r&->&Hr)%list_elem_of_fmap. by apply Hall.
Qed.

(** ** The theorem at work *)

(** A completed run whose tests failed, with the context a retry needs. *)
Definition failed_run : run :=
  to_run_dict 10 "ats_1" sample_request
    <| rn_status := RunCompleted |> <| rn_retry_limit := 2 |> <| rn_report_id := "report" |>
    <| rn_test_summary := empty_summary <| ts_outcome := Some "failed" |>
         <| ts_retry_dir := Some "2024.01.01" |> <| ts_retry_worker_id := "worker-1" |> |>.
Definition failed_store : store := Store [failed_run] [] [] [] [] 0.
Definition any_auth (_ : run) : result (list string) := Ok ["jobs.run"].
Definition first_retry : string * option prepared_run :=
  match retry any_auth 50 "ats_2" failed_run with Ok p => p | Err _ => ("", None) end.
Definition retried_store : store :=
  auto_step failed_store (50, AoFinishFollowup failed_run first_retry.1 first_retry.2).

Definition decided_run : run := failed_run <| rn_followup_state := "retried" |>.

Lemma failed_store_inv : retry_inv failed_store.
Proof.
  split.
  - split; vm_compute; repeat constructor; set_solver.
  - intros r ->%list_elem_of_singleton. left. by vm_compute.
Qed.
Lemma decided_run_stored : decided_run ∈ st_runs retried_store.
Proof. vm_compute. left. Qed.
Lemma retried_store_reached : rtc (planner_step any_auth) failed_store retried_store.
Proof.
  apply rtc_once. unfold retried_store. apply (StepRetry any_auth failed_store 50 50 "ats_2" failed_run).
  - left.
  - done.
  - done.
  - vm_compute. reflexivity.
Qed.
Lemma retried_store_retries : length (retries_of "ats_1" (st_runs retried_store)) = 1%nat.
Proof. vm_compute. reflexivity. Qed.

Lemma retries_bounded_witness :
  length (retries_of (rn_id decided_run) (st_runs retried_store)) = 1%nat ∧
  Z.of_nat (length (retries_of (rn_id decided_run) (st_runs retried_store)))
    ≤ Z.max 0 (rn_retry_limit decided_run) ∧ rn_retry_limit decided_run = 2.
Proof.
  destruct (retries_bounded any_auth failed_store retried_store decided_run failed_store_inv
              retried_store_reached decided_run_stored) as [H _].
  split_and!; [exact retried_store_retries|exact H|reflexivity].
Defined.
