(* ===== verification/RateLimit.v ===== *)
(** The limiter of credential attempts of [features/auth/rate_limit.py].

    The SHA-256 of a text and Unicode's case mappings are parameters.  A time is in
    microseconds, the precision of the stored timestamps; their texts are ordered as the
    times are.  The limits are read from the environment when the module is loaded, so they
    are parameters too. *)

From stdpp Require Import gmap.
From S2P Require Import Prelude Encodings.

Open Scope Z_scope.

(** [hashlib.sha256(text.encode()).hexdigest()]. *)
Class Digest := sha256 : string → string.
(** No two texts in use have the same digest. *)
Class CollisionFree `{Digest} := sha256_inj :: Inj (=) (=) sha256.
#[export] Instance plain_digest : Digest := λ s, s.
#[export] Instance plain_digest_free : CollisionFree := λ x y E, E.

(** [str.casefold], [str.lower] and [str.upper]. *)
Class CaseMaps := { casefold : string → string; lower : string → string; upper : string → string }.
#[export] Instance no_case : CaseMaps := {| casefold := λ s, s; lower := λ s, s; upper := λ s, s |}.

Definition SECOND : Z := 1000000.

(* src/features/auth/rate_limit.py:36-47 initialize_auth_attempt_schema *)
Record attempt := Attempt {
  at_key : string;
  at_failed_count : Z;
  at_window_started_at : Z;
  at_blocked_until : stamp;
  at_updated_at : Z;
}.
#[export] Instance attempt_eta : Eta attempt := λ r,
  Attempt (at_key r) (at_failed_count r) (at_window_started_at r) (at_blocked_until r) (at_updated_at r).

(* src/features/auth/rate_limit.py:13-19 AUTH_MAX_ACCOUNT_IP_FAILURES *)
Record limits := Limits {
  li_window : Z;
  li_block : Z;
  li_max_account_ip : Z;
  li_max_ip : Z;
}.
Definition default_limits : limits := Limits (15 * 60 * SECOND) (15 * 60 * SECOND) 5 30.

Section limiter.
Context `{Digest} `{CaseMaps} (L : limits).

Definition attempt_key (purpose scope value : string) : string :=
  sha256 (purpose +:+ ":" +:+ scope +:+ ":" +:+ value).
Definition normalized_ip (source_ip : string) : string := lower (strip (str_or source_ip "unknown")).
Definition account_key (purpose username source_ip : string) : string :=
  attempt_key purpose "account_ip" (casefold (strip username) +:+ "@" +:+ normalized_ip source_ip).
Definition ip_key (purpose source_ip : string) : string :=
  attempt_key purpose "ip" (normalized_ip source_ip).
(* src/features/auth/rate_limit.py:58-77 AuthRateLimitMixin._auth_attempt_keys *)
Definition auth_attempt_keys (purpose username source_ip : string) : list (string * Z) :=
  [(account_key purpose username source_ip, li_max_account_ip L);
   (ip_key purpose source_ip, li_max_ip L)].

Definition attempt_is (k : string) (r : attempt) : bool := streqb (at_key r) k.
(** [math.ceil(remaining)] of a difference of times. *)
Definition ceil_seconds (us : Z) : Z := (us + (SECOND - 1)) / SECOND.

(* src/features/auth/rate_limit.py:79-107 AuthRateLimitMixin.auth_retry_after *)
Definition auth_retry_after (now : Z) (purpose username source_ip : string) : M (list attempt) Z :=
  let keys := (auth_attempt_keys purpose username source_ip).*1 in
  rows ← gets (fetchall (λ r, mem (at_key r) keys && bool_decide (is_Some (at_blocked_until r))));
  let retry_after := foldl (λ acc r,
    match at_blocked_until r with
    | Some b => Z.max acc (ceil_seconds (b - now))
    | None => acc
    end) 0 rows in
  mret (Z.max retry_after 0).

(** [INSERT ... ON CONFLICT(attempt_key) DO UPDATE]. *)
Definition upsert (row : attempt) : M (list attempt) unit :=
  modify (λ t, if exists_row (attempt_is (at_key row)) t
               then update_where (attempt_is (at_key row)) (λ _, row) t else t ++ [row]).
(** The row a failure leaves behind. *)
Definition failed_row (now : Z) (k : string) (threshold : Z) (row : option attempt) : attempt :=
  let '(count, window_started_at, existing_blocked_until) :=
    match row with
    | None => (1, now, None)
    | Some r =>
        if Z.ltb (now - li_window L) (at_window_started_at r)
        then (at_failed_count r + 1, at_window_started_at r, at_blocked_until r)
        else (1, now, at_blocked_until r)
    end in
  let next_blocked_until :=
    if Z.leb (Z.max 1 threshold) count then Some (now + li_block L) else existing_blocked_until in
  Attempt k count window_started_at next_blocked_until now.
Definition count_failure (now : Z) (item : string * Z) : M (list attempt) unit :=
  row ← gets (fetchone (attempt_is item.1));
  upsert (failed_row now item.1 item.2 row).
Definition forgettable (now : Z) (r : attempt) : bool :=
  Z.ltb (at_updated_at r) (now - li_window L)
  && match at_blocked_until r with None => true | Some b => Z.ltb b now end.
(* src/features/auth/rate_limit.py:109-181 AuthRateLimitMixin.record_auth_failure *)
Definition record_auth_failure (now : Z) (purpose username source_ip : string) : M (list attempt) Z :=
  _ ← for_each (auth_attempt_keys purpose username source_ip) (count_failure now);
  _ ← modify (delete_where (forgettable now));
  auth_retry_after now purpose username source_ip.

(* src/features/auth/rate_limit.py:183-197 AuthRateLimitMixin.clear_auth_failures *)
Definition clear_auth_failures (purpose username source_ip : string) : M (list attempt) unit :=
  modify (delete_where (attempt_is (account_key purpose username source_ip))).

(** ** Histories *)

Inductive limiter_op :=
  | RlFailure (purpose username source_ip : string)
  | RlSuccess (purpose username source_ip : string).
Definition limiter_do (now : Z) (op : limiter_op) : M (list attempt) unit :=
  match op with
  | RlFailure p u i => _ ← record_auth_failure now p u i; mret tt
  | RlSuccess p u i => clear_auth_failures p u i
  end.
Definition limiter_run (t : list attempt) (history : list (Z * limiter_op)) : list attempt :=
  foldl (λ t x, (limiter_do x.1 x.2 t).2) t history.
Definition op_purpose (op : limiter_op) : string :=
  match op with RlFailure p _ _ | RlSuccess p _ _ => p end.
(** A failure from this address for this purpose. *)
Definition fails_from (purpose ip : string) (op : limiter_op) : bool :=
  match op with
  | RlFailure p _ i => streqb p purpose && streqb (normalized_ip i) (normalized_ip ip)
  | RlSuccess _ _ _ => false
  end.
End limiter.

(** ** One row of the table *)

Section view.
Context `{Digest} `{CaseMaps} (L : limits).
Implicit Types t : list attempt.

Lemma view_upsert k row t :
  fetchone (attempt_is k) (upsert row t).2 =
  if decide (at_key row = k) then Some row else fetchone (attempt_is k) t.
Proof.
  unfold upsert, modify. cbn [snd]. set (q := attempt_is (at_key row)).
  assert (∀ r, q r = true ↔ at_key r = at_key row) as Hq
    by (intros r; unfold q, attempt_is, streqb; by rewrite bool_decide_eq_true).
  destruct (exists_row q t) eqn:E.
  - apply exists_row_true in E. induction t as [|r t IH]; [by destruct E as (?&?%elem_of_nil&_)|].
    rewrite update_where_cons, !fetchone_cons. destruct (q r) eqn:Er.
    + apply Hq in Er. unfold attempt_is, streqb. rewrite Er. case_decide.
      * by rewrite bool_decide_eq_true_2.
      * rewrite bool_decide_eq_false_2 by done. clear IH E Er.
        induction t as [|r1 t IH]; [done|]. rewrite update_where_cons, !fetchone_cons, IH.
        destruct (q r1) eqn:E1; [|done]. apply Hq in E1. rewrite E1.
        by rewrite !bool_decide_eq_false_2.
    + destruct E as (r1&[->|Hr1]%elem_of_cons&E1); [congruence|].
      rewrite IH by eauto. unfold attempt_is, streqb. case_bool_decide as Ek; [|done].
      case_decide as Ek'; [|done]. apply not_true_iff_false in Er. rewrite Hq in Er. congruence.
  - rewrite exists_row_false in E. rewrite fetchone_app, fetchone_cons.
    change (fetchone ?p []) with (@None attempt). unfold attempt_is at 2, streqb. case_decide as Ek.
    + rewrite bool_decide_eq_true_2 by done.
      replace (fetchone _ t) with (@None attempt); [done|]. symmetry. apply fetchone_None.
      intros r Hr. specialize (E r Hr). unfold q, attempt_is, streqb in E. by rewrite <-Ek.
    + rewrite bool_decide_eq_false_2 by done. by destruct (fetchone _ t).
Qed.
Lemma view_delete k p t r :
  fetchone (attempt_is k) t = Some r → p r = false →
  fetchone (attempt_is k) (delete_where p t) = Some r.
Proof.
  induction t as [|x t IH]; [done|]. unfold delete_where. rewrite fetchone_cons, filter_cons.
  destruct (attempt_is k x) eqn:Ex.
  - intros [= ->] Hp. rewrite decide_True by done. by rewrite fetchone_cons, Ex.
  - intros Hr Hp. case_decide; [rewrite fetchone_cons, Ex|]; by apply IH.
Qed.
End view.

(** ** Counting the failures of one address *)

Lemma app_until_colon (a b x y : string) :
  lacks ":" a = true → lacks ":" b = true → a +:+ String ":" x = b +:+ String ":" y → a = b ∧ x = y.
Proof.
  revert b. induction a as [|c a IH]; intros [|d b] Ha Hb; unfold lacks in *; simpl in *.
  - by intros [= ->].
  - intros [= <- _]. by rewrite bool_decide_eq_false_2 in Hb.
  - intros [= -> _]. by rewrite bool_decide_eq_false_2 in Ha.
  - apply andb_true_iff in Ha as [_ Ha], Hb as [_ Hb]. intros [= -> E].
    by destruct (IH b Ha Hb E) as [-> ->].
Qed.

Section brute_force.
Context `{CollisionFree} `{CaseMaps} (L : limits) (start : Z).
Context (Hwindow : 0 < li_window L ≤ li_block L).
Let T : Z := Z.max 1 (li_max_ip L).

Lemma account_key_other p u i p' i' :
  lacks ":" p = true → lacks ":" p' = true → account_key p u i ≠ ip_key p' i'.
Proof.
  unfold account_key, ip_key, attempt_key. intros Hp Hp' E%(inj sha256).
  by apply app_until_colon in E as [_ E].
Qed.

(** [n] failures of the row's address were counted since [start]: the address is blocked, or
    they are still in the row (once, within a window, the row may have started afresh). *)
Definition counted (n : Z) (v : option attempt) : Prop :=
  (∀ r, v = Some r → 0 ≤ at_failed_count r) ∧
  (n ≤ 0 ∨ ∃ r, v = Some r ∧ start ≤ at_updated_at r ∧
     ((∃ b, at_blocked_until r = Some b ∧ start + li_window L ≤ b) ∨
      (at_failed_count r < T ∧
       ((start ≤ at_window_started_at r ∧ n ≤ T - 1 + at_failed_count r) ∨ n ≤ at_failed_count r)))).

Lemma counted_failure n v now k :
  counted n v → 0 ≤ n → start ≤ now < start + li_window L →
  counted (n + 1) (Some (failed_row L now k (li_max_ip L) v)).
Proof.
  unfold counted, T. intros [Hc Hn] Hge Hnow.
  assert (∀ count w ex, 1 ≤ count →
    ((∃ b, ex = Some b ∧ start + li_window L ≤ b) ∨ Z.max 1 (li_max_ip L) ≤ count ∨
     (start ≤ w ∧ n + 1 ≤ Z.max 1 (li_max_ip L) - 1 + count) ∨ n + 1 ≤ count) →
    let r := Attempt k count w
      (if Z.leb (Z.max 1 (li_max_ip L)) count then Some (now + li_block L) else ex) now in
    counted (n + 1) (Some r)) as Hrow.
  { unfold counted, T. intros count w ex Hpos Hcase. split; [intros r [= <-]; simpl; lia|]. right. eexists.
    split_and!; [done|simpl; lia|]. simpl. destruct (Z.leb_spec (Z.max 1 (li_max_ip L)) count) as [Hle|Hlt].
    - left. eexists. split; [done|lia].
    - destruct Hcase as [Hb|[?|Hcase]]; [by left|lia|]. right. split; [done|]. intuition lia. }
  change (counted (n + 1) (Some (failed_row L now k (li_max_ip L) v))).
  unfold failed_row. destruct v as [r|];
    [|destruct Hn as [Hn|(?&?&_)]; [|done]; apply Hrow; [lia|right; right; left; lia]].
  specialize (Hc r eq_refl). destruct (Z.ltb_spec (now - li_window L) (at_window_started_at r)) as [Hw|Hw];
    apply Hrow; try lia.
  - destruct Hn as [Hn|(?&[= <-]&_&[Hb|[Hlt Hn]])]; [right; right; right; lia|by left|].
    right. right. intuition lia.
  - destruct Hn as [Hn|(?&[= <-]&_&[Hb|[Hlt Hn]])]; [right; right; left; lia|by left|].
    right. right. left. intuition lia.
Qed.
Lemma counted_less n m v : counted n v → m ≤ n → counted m v.
Proof.
  intros [Hc Hn] Hm. split; [done|]. destruct Hn as [?|(r&->&Hu&Hr)]; [left; lia|right]. exists r.
  split_and!; [done..|]. destruct Hr as [?|[? ?]]; [by left|right]. split; [done|]. intuition lia.
Qed.
Lemma counted_blocked n v :
  counted n v → 2 * T - 1 ≤ n → ∃ r b, v = Some r ∧ at_blocked_until r = Some b ∧ start + li_window L ≤ b.
Proof. unfold T. intros [_ [?|(r&->&_&[(b&?&?)|[? ?]])]] Hn; [lia|eauto|lia]. Qed.

Lemma counted_delete n t k p :
  counted n (fetchone (attempt_is k) t) →
  (∀ r, fetchone (attempt_is k) t = Some r → start ≤ at_updated_at r → p r = false) →
  (∀ r, r ∈ t → 0 ≤ at_failed_count r) →
  counted n (fetchone (attempt_is k) (delete_where p t)).
Proof.
  intros [Hc Hn] Hp Hall. split.
  - intros r [Hr _]%fetchone_Some. apply elem_of_delete_where in Hr as [Hr _]. by apply Hall.
  - destruct Hn as [?|(r&Er&Hu&Hr)]; [by left|right]. exists r. split; [|done].
    apply view_delete; [done|]. by apply Hp.
Qed.
Definition rows_ok (t : list attempt) : Prop := ∀ r, r ∈ t → 0 ≤ at_failed_count r.

Lemma failed_row_ok now k n v : (∀ r, v = Some r → 0 ≤ at_failed_count r) →
  0 ≤ at_failed_count (failed_row L now k n v) ∧ at_key (failed_row L now k n v) = k.
Proof.
  intros Hv. unfold failed_row. destruct v as [r|]; [|simpl; split; [lia|done]].
  specialize (Hv r eq_refl). destruct (Z.ltb _ _); simpl; split; done || lia.
Qed.
Lemma upsert_rows_ok row t : rows_ok t → 0 ≤ at_failed_count row → rows_ok (upsert row t).2.
Proof.
  intros Ht Hr r. unfold upsert, modify. cbn [snd]. destruct (exists_row _ t).
  - intros (r0&Hr0&->)%elem_of_update_where. destruct (attempt_is _ r0); [done|by apply Ht].
  - intros [?| ->%list_elem_of_singleton]%elem_of_app; [by apply Ht|done].
Qed.
Lemma view_ok t k : rows_ok t → ∀ r, fetchone (attempt_is k) t = Some r → 0 ≤ at_failed_count r.
Proof. intros Ht r [Hr _]%fetchone_Some. by apply Ht. Qed.

(** One count of a failure, seen from the row [k]. *)
Lemma count_step now k' m t n k :
  rows_ok t → counted n (fetchone (attempt_is k) t) → 0 ≤ n → start ≤ now < start + li_window L →
  (k' = k → m = li_max_ip L) →
  let t' := (count_failure L now (k', m) t).2 in
  (count_failure L now (k', m) t).1 = Ok tt ∧ rows_ok t' ∧
  counted (if decide (k' = k) then n + 1 else n) (fetchone (attempt_is k) t').
Proof.
  intros Ht Hn Hge Hnow Hm. unfold count_failure. rewrite bind_gets. cbn [fst snd].
  destruct (failed_row_ok now k' m (fetchone (attempt_is k') t) (view_ok t k' Ht)) as [Hc Ek].
  split_and!; [done|by apply upsert_rows_ok|]. rewrite view_upsert, Ek. case_decide as E; [|done].
  subst k'. rewrite (Hm eq_refl) in *. by apply counted_failure.
Qed.

Lemma record_table now p u i t t2 :
  for_each (auth_attempt_keys L p u i) (count_failure L now) t = (Ok tt, t2) →
  (limiter_do L now (RlFailure p u i) t).2 = delete_where (forgettable L now) t2.
Proof.
  intros E. unfold limiter_do, record_auth_failure. unfold mbind, M_bind. by rewrite E.
Qed.

Lemma limiter_step now op purpose ip t n :
  lacks ":" purpose = true → lacks ":" (op_purpose op) = true → start ≤ now < start + li_window L →
  rows_ok t → 0 ≤ n → counted n (fetchone (attempt_is (ip_key purpose ip)) t) →
  let t' := (limiter_do L now op t).2 in
  rows_ok t' ∧
  counted (if fails_from purpose ip op then n + 1 else n) (fetchone (attempt_is (ip_key purpose ip)) t').
Proof.
  intros Hp Hop Hnow Ht Hge Hn. destruct op as [p u i|p u i]; simpl in Hop.
  - set (k := ip_key purpose ip) in *.
    destruct (count_step now (account_key p u i) (li_max_account_ip L) t n k) as (E1&Ht1&Hn1); try done.
    { intros E. by apply account_key_other in E. }
    rewrite decide_False in Hn1 by by apply account_key_other.
    destruct (count_failure L now (account_key p u i, _) t) as [res t1] eqn:Ec1.
    cbn [fst snd] in *. subst res. cbn [for_each].
    destruct (count_step now (ip_key p i) (li_max_ip L) t1 n k) as (E2&Ht2&Hn2); try done.
    destruct (count_failure L now (ip_key p i, _) t1) as [res t2] eqn:Ec2.
    cbn [fst snd] in *. subst res.
    assert (counted (if fails_from purpose ip (RlFailure p u i) then n + 1 else n)
      (fetchone (attempt_is k) t2)) as Hn3.
    { eapply counted_less; [exact Hn2|]. simpl. unfold streqb. case_decide as Ek; [case_match; lia|].
      do 2 (case_bool_decide; [|simpl; lia]). destruct Ek. unfold k, ip_key. congruence. }
    assert (for_each (auth_attempt_keys L p u i) (count_failure L now) t = (Ok tt, t2)) as Ef.
    { unfold auth_attempt_keys. cbn [for_each]. rewrite (bind_run _ _ _ _ _ Ec1), (bind_run _ _ _ _ _ Ec2). done. }
    rewrite (record_table _ _ _ _ _ _ Ef).
    split; [intros r [Hr _]%elem_of_delete_where; by apply Ht2|].
    apply counted_delete; [done| |done]. intros r _ Hu. unfold forgettable.
    by replace (Z.ltb (at_updated_at r) (now - li_window L)) with false by (symmetry; apply Z.ltb_ge; lia).
  - simpl. split; [intros r [Hr _]%elem_of_delete_where; by apply Ht|].
    apply counted_delete; [done| |done]. intros r [_ Hk]%fetchone_Some _. unfold attempt_is, streqb in *.
    bool_props. apply bool_decide_eq_false. rewrite Hk. intros E. symmetry in E.
    by apply account_key_other in E.
Qed.

Lemma limiter_history purpose ip t history n :
  lacks ":" purpose = true →
  Forall (λ x, lacks ":" (op_purpose x.2) = true ∧ start ≤ x.1 < start + li_window L) history →
  rows_ok t → 0 ≤ n → counted n (fetchone (attempt_is (ip_key purpose ip)) t) →
  counted (n + Z.of_nat (length (filter (λ x, fails_from purpose ip x.2 = true) history)))
    (fetchone (attempt_is (ip_key purpose ip)) (limiter_run L t history)).
Proof.
  intros Hp Hh. revert t n. induction Hh as [|[now op] history [Hop Hnow] _ IH]; intros t n Ht Hge Hn.
  - by rewrite Z.add_0_r.
  - destruct (limiter_step now op purpose ip t n) as [Ht' Hn']; [done..|].
    rewrite filter_cons. simpl. destruct (fails_from purpose ip op).
    + rewrite decide_True by done. simpl length. rewrite Nat2Z.inj_succ, <-Z.add_1_l, Z.add_assoc.
      apply IH; [done|lia|done].
    + rewrite decide_False by done. by apply IH.
Qed.

Lemma retry_after_blocked now purpose username ip t r b :
  fetchone (attempt_is (ip_key purpose ip)) t = Some r → at_blocked_until r = Some b → now < b →
  ∃ w, auth_retry_after L now purpose username ip t = (Ok w, t) ∧ 0 < w.
Proof.
  intros [Hr Hk]%fetchone_Some Hb Hnow. unfold auth_retry_after. rewrite bind_gets.
  eexists. split; [reflexivity|]. set (p := λ r0, mem _ _ && _). set (f := λ acc r0, _).
  assert (r ∈ fetchall p t) as Hin.
  { apply elem_of_fetchall. split; [|done]. unfold p. rewrite Hb. unfold mem.
    rewrite !bool_decide_eq_true_2; [done|by eexists|].
    unfold attempt_is, streqb in Hk. bool_props. rewrite Hk. simpl. set_solver. }
  assert (∀ l acc, acc ≤ foldl f acc l) as Hmono.
  { intros l. induction l as [|x l IH]; intros acc; [simpl; lia|]. simpl. etrans; [|apply IH].
    unfold f. case_match; lia. }
  enough (∀ l acc, r ∈ l → 0 < foldl f acc l) as Hpos by (specialize (Hpos _ 0 Hin); lia).
  intros l. induction l as [|x l IH]; intros acc Hl; [by apply elem_of_nil in Hl|].
  apply elem_of_cons in Hl as [<-|Hl]; [|by apply IH]. simpl. eapply Z.lt_le_trans; [|apply Hmono].
  unfold f. rewrite Hb. enough (0 < ceil_seconds (b - now)) by lia. unfold ceil_seconds, SECOND.
  apply Z.div_str_pos. lia.
Qed.
End brute_force.

(** [C31] Guessing credentials of one kind (log-ins, elevations or enrollment codes, each
    counted apart) from one address is cut off, where the configured block lasts at least as long
    as the window.  Among any traffic (failures and successes of other accounts, addresses and
    kinds, and successful attempts of the same kind from the same address), one failed attempt less
    than twice the limit of an address within one window leaves that address blocked, for
    attempts of that kind, for the rest of the window and under every account name it may try. *)
Theorem brute_force_blocked `{CollisionFree} `{CaseMaps} (L : limits) start purpose ip t history :
  0 < li_window L ≤ li_block L → lacks ":" purpose = true → rows_ok t →
  Forall (λ x, lacks ":" (op_purpose x.2) = true ∧ start ≤ x.1 < start + li_window L) history →
  2 * Z.max 1 (li_max_ip L) - 1
    ≤ Z.of_nat (length (filter (λ x, fails_from purpose ip x.2 = true) history)) →
  ∀ now username, start ≤ now < start + li_window L →
  ∃ w, auth_retry_after L now purpose username ip (limiter_run L t history)
       = (Ok w, limiter_run L t history) ∧ 0 < w.
Proof.
  intros HL Hp Ht Hh Hn now username Hnow.
  pose proof (limiter_history L start HL purpose ip t history 0 Hp Hh Ht) as Hc.
  assert (counted L start 0 (fetchone (attempt_is (ip_key purpose ip)) t)) as H0t
    by (split; [by apply view_ok|by left]).
  destruct (counted_blocked L start _ _ (Hc (Z.le_refl 0) H0t)) as (r&b&Er&Eb&Hb); [lia|].
  eapply retry_after_blocked; [done..|lia].
Qed.

(** ** The limiter at work *)

Definition sample_attack : list (Z * limiter_op) :=
  (λ n, (Z.of_nat n * SECOND, RlFailure "login" (pretty n) "10.0.0.9")) <$> seq 0 59.
Lemma brute_force_blocked_witness :
  ∃ w, auth_retry_after default_limits (60 * SECOND) "login" "root" "10.0.0.9"
         (limiter_run default_limits [] sample_attack)
       = (Ok w, limiter_run default_limits [] sample_attack) ∧ 0 < w.
Proof.
  apply (brute_force_blocked default_limits 0 "login" "10.0.0.9" [] sample_attack).
  - by vm_compute.
  - reflexivity.
  - by intros r ?%elem_of_nil.
  - apply Forall_forall. intros x (n&->&Hn%elem_of_seq)%list_elem_of_fmap. simpl.
    unfold SECOND, default_limits, SECOND. simpl. split; [done|lia].
  - by vm_compute.
  - by vm_compute.
Defined.
