(* ===== verification/Approvals.v ===== *)
(** The one-shot approvals of [features/auth/approval_tokens.py]: proofs of a human's consent
    bound to one tool, one set of devices and one command.

    The raw token is an argument: what [secrets.token_urlsafe] draws. *)

From stdpp Require Import gmap.
From S2P Require Import Prelude Encodings Authority RateLimit.

Open Scope Z_scope.

(* src/features/auth/schema.py:134-143 platform_approval_tokens *)
Record approval := Approval {
  ap_token_hash : string;
  ap_user_id : string;
  ap_tool : string;
  ap_device : string;
  ap_command_hash : string;
  ap_created_at : Z;
  ap_expires_at : Z;
  ap_used_at : stamp;
}.
#[export] Instance approval_eta : Eta approval := λ r,
  Approval (ap_token_hash r) (ap_user_id r) (ap_tool r) (ap_device r) (ap_command_hash r)
    (ap_created_at r) (ap_expires_at r) (ap_used_at r).

(** [with self._connect() as conn]: nothing is kept of a block that raises. *)
Definition committed {W A} (m : M W A) : M W A := λ w,
  match m w with
  | (Ok a, w') => (Ok a, w')
  | (Err e, _) => (Err e, w)
  end.

Definition BURN_TOOL : string := "gms_rt_burn_firmware".
Definition APPROVAL_TOKEN_TTL_SECONDS : Z := 300.

Section approvals.
Context `{Digest} `{CaseMaps}.

(* src/features/auth/service.py:371-372 AuthService.hash_token *)
Definition hash_token (token : string) : string := sha256 token.
(* src/features/auth/approval_tokens.py:42-44 ApprovalTokenServiceMixin.command_hash *)
Definition command_hash (command : string) : string := sha256 command.

(* src/features/auth/approval_tokens.py:52-63 ApprovalTokenServiceMixin.normalize_burn_devices *)
Definition normalize_burn_devices (value : string) : string :=
  join "," (sorted_texts (list_to_set (strip <$> split_on "," value) ∖ {[""]})).

(* src/features/auth/approval_tokens.py:65-82 ApprovalTokenServiceMixin.derive_burn_command *)
Definition derive_burn_command (device firmware_sha256 : string) (wipe_data : bool) (burn_mode : string) :
    result string :=
  let devices := normalize_burn_devices device in
  let digest := lower (strip firmware_sha256) in
  if negb (nonempty digest) then Err (ValueError "firmware_sha256 is required")
  else
    let wipe := if wipe_data then "true" else "false" in
    let mode := lower (strip (str_or burn_mode "auto")) in
    if negb (mem mode ["auto"; "uf"]) then Err (ValueError "burn_mode must be auto or uf")
    else Ok ("burn_firmware:" +:+ devices +:+ ":" +:+ digest +:+ ":wipe=" +:+ wipe +:+ ":mode=" +:+ mode).

(** What an approval is asked for. *)
Record approval_request := ApprovalRequest {
  aq_tool : string;
  aq_device : string;
  aq_command : string;
  aq_firmware_sha256 : string;
  aq_wipe_data : bool;
  aq_burn_mode : string;
  aq_ttl_seconds : Z;
}.
(** The tool, device list and command a request is bound to: the first half of
    [create_approval_token]. *)
(* src/features/auth/approval_tokens.py:103-120 ApprovalTokenServiceMixin.create_approval_token *)
Definition bound_to (q : approval_request) : result (string * string * string) :=
  let tool_name := strip (aq_tool q) in
  let device_name := strip (aq_device q) in
  if negb (nonempty tool_name) || negb (nonempty device_name)
  then Err (ValueError "tool and device are required")
  else if streqb tool_name BURN_TOOL then
    match derive_burn_command device_name (aq_firmware_sha256 q) (aq_wipe_data q) (aq_burn_mode q) with
    | Err e => Err e
    | Ok command =>
        let device_name := normalize_burn_devices device_name in
        if negb (nonempty device_name) then Err (ValueError "device names no valid serial number")
        else Ok (tool_name, device_name, command)
    end
  else Ok (tool_name, device_name, aq_command q).
(* src/features/auth/approval_tokens.py:121-121 ApprovalTokenServiceMixin.create_approval_token *)
Definition approval_ttl (q : approval_request) : Z :=
  Z.max 30 (Z.min 600 (if Z.eqb (aq_ttl_seconds q) 0 then APPROVAL_TOKEN_TTL_SECONDS else aq_ttl_seconds q)).

Definition token_is (h : string) (r : approval) : bool := streqb (ap_token_hash r) h.
Definition used (r : approval) : bool := bool_decide (is_Some (ap_used_at r)).

(** The tool, the device list and the expiry of the answer. *)
(* src/features/auth/approval_tokens.py:84-155 ApprovalTokenServiceMixin.create_approval_token *)
Definition create_approval_token (now : Z) (token : string) (user : current_user) (q : approval_request) :
    M (list approval) (string * string * Z) :=
  match bound_to q with
  | Err e => raise e
  | Ok (tool_name, device_name, command) =>
      let expires_at := now + approval_ttl q * SECOND in
      committed (
        _ ← modify (delete_where (λ r, Z.leb (ap_expires_at r) now || used r));
        rows ← gets (λ t, t);
        _ ← require (negb (exists_row (token_is (hash_token token)) rows))
              (IntegrityError "platform_approval_tokens.token_hash");
        _ ← modify (λ t, t ++ [Approval (hash_token token) (cu_id user) tool_name device_name
                                 (command_hash command) now expires_at None]);
        mret (tool_name, device_name, expires_at))
  end.

(** [WHERE token_hash = ? AND tool = ? AND device = ?]. *)
Definition presented (token tool device : string) (r : approval) : bool :=
  token_is (hash_token token) r && streqb (ap_tool r) (strip tool) && streqb (ap_device r) (strip device).

(* src/features/auth/approval_tokens.py:157-190 ApprovalTokenServiceMixin.validate_approval_token *)
Definition validate_approval_token (now : Z) (token tool device command : string) :
    M (list approval) bool :=
  if negb (nonempty token) then mret false
  else
    row ← gets (fetchone (presented token tool device));
    match row with
    | None => mret false
    | Some r =>
        if used r || Z.leb (ap_expires_at r) now then mret false
        else mret (streqb (ap_command_hash r) (command_hash command))
    end.

(* src/features/auth/approval_tokens.py:192-228 ApprovalTokenServiceMixin.consume_approval_token *)
Definition consume_approval_token (now : Z) (token tool device command : string) :
    M (list approval) bool :=
  if negb (nonempty token) then mret false
  else
    row ← gets (fetchone (presented token tool device));
    match row with
    | None => mret false
    | Some r =>
        if used r || Z.leb (ap_expires_at r) now then mret false
        else if negb (streqb (ap_command_hash r) (command_hash command)) then mret false
        else
          let hit r := token_is (hash_token token) r && negb (used r) in
          rows ← gets (λ t, t);
          _ ← modify (update_where hit (λ r, r <| ap_used_at := Some now |>));
          mret (bool_decide (rowcount hit rows = 1%nat))
    end.

(** ** Histories *)

Inductive approval_op :=
  | OpCreate (token : string) (user : current_user) (q : approval_request)
  | OpValidate (token tool device command : string)
  | OpConsume (token tool device command : string).
(** Whether the operation consumed an approval. *)
Definition approval_do (now : Z) (op : approval_op) : M (list approval) bool :=
  match op with
  | OpCreate token user q => _ ← create_approval_token now token user q; mret false
  | OpValidate token tool device command =>
      _ ← validate_approval_token now token tool device command; mret false
  | OpConsume token tool device command => consume_approval_token now token tool device command
  end.
(** The table, and the operations that consumed an approval, in order. *)
Definition approval_step (st : list approval * list (Z * approval_op)) (x : Z * approval_op) :
    list approval * list (Z * approval_op) :=
  match approval_do x.1 x.2 st.1 with
  | (Ok true, t) => (t, st.2 ++ [x])
  | (_, t) => (t, st.2)
  end.
Definition approval_run (history : list (Z * approval_op)) : list approval * list (Z * approval_op) :=
  foldl approval_step ([], []) history.
Definition minted (op : approval_op) : list string :=
  match op with OpCreate token _ _ => [token] | _ => [] end.
Definition spent (op : approval_op) : list string :=
  match op with OpConsume token _ _ _ => [token] | _ => [] end.
End approvals.

(** ** The canonical device list *)

Lemma strip_rstrip x : strip (rstrip x) = strip x.
Proof.
  induction x as [|a x IH]; [done|]. rewrite rstrip_cons. unfold strip in *.
  destruct (is_space a) eqn:Ea.
  - simpl lstrip at 2. rewrite Ea, <-IH. destruct (nonempty (rstrip x)) eqn:Ex.
    + simpl lstrip at 1. by rewrite Ea.
    + unfold nonempty in Ex. apply bool_decide_eq_false, dec_stable in Ex. by rewrite Ex.
  - destruct (nonempty (rstrip x)) eqn:Ex; simpl lstrip; rewrite Ea, ?rstrip_cons, ?rstrip_idemp, ?Ex;
      [done|]. simpl. by rewrite Ea.
Qed.
Lemma split_comma s : split_on "," (String "," s) = "" :: split_on "," s.
Proof. done. Qed.
Lemma split_other a s x l :
  a ≠ ","%char → split_on "," s = x :: l → split_on "," (String a s) = String a x :: l.
Proof. intros Ha E. simpl. by rewrite bool_decide_eq_false_2, E. Qed.
Lemma split_nonnil c s : split_on c s ≠ [].
Proof. destruct s as [|a s]; simpl; [done|]. case_bool_decide; [done|]. by destruct (split_on c s). Qed.
Lemma empty_text s : nonempty s = false → s = "".
Proof. unfold nonempty. by intros ?%bool_decide_eq_false%dec_stable. Qed.

Lemma split_rstrip s : rstrip <$> split_on "," (rstrip s) = rstrip <$> split_on "," s.
Proof.
  induction s as [|a s IH]; [done|]. rewrite rstrip_cons.
  destruct (split_on "," (rstrip s)) as [|y l'] eqn:Ey; [by apply split_nonnil in Ey|].
  destruct (split_on "," s) as [|x l] eqn:Ex; [by apply split_nonnil in Ex|].
  rewrite !fmap_cons in IH. injection IH as E1 E2. destruct (decide (a = ","%char)) as [->|Ha].
  - rewrite (split_comma s), Ex. destruct (nonempty (rstrip s)) eqn:Es.
    + by rewrite split_comma, Ey, !fmap_cons, E1, E2.
    + apply empty_text in Es. rewrite Es in Ey. injection Ey as <- <-.
      change (split_on "," (if is_space "," then "" else ",")) with ["" ; ""].
      by rewrite !fmap_cons, <-E1, <-E2.
  - rewrite (split_other a s x l Ha Ex). destruct (nonempty (rstrip s)) eqn:Es.
    + by rewrite (split_other a _ y l' Ha Ey), !fmap_cons, !rstrip_cons, E1, E2.
    + apply empty_text in Es. rewrite Es in Ey. injection Ey as <- <-.
      rewrite fmap_cons, rstrip_cons, <-E1, <-E2. simpl nonempty.
      destruct (is_space a) eqn:Ea; [done|].
      rewrite (split_other a "" "" [] Ha) by done. by rewrite fmap_cons, rstrip_cons, Ea.
Qed.
Lemma split_lstrip s : strip <$> split_on "," (lstrip s) = strip <$> split_on "," s.
Proof.
  induction s as [|a s IH]; [done|]. simpl lstrip. destruct (is_space a) eqn:Ea; [|done].
  rewrite IH. destruct (split_on "," s) as [|x l] eqn:Ex; [by apply split_nonnil in Ex|].
  rewrite (split_other a s x l) by (done || by intros ->). rewrite !fmap_cons. f_equal. unfold strip.
  simpl lstrip. by rewrite Ea.
Qed.
Lemma split_strip s : strip <$> split_on "," (strip s) = strip <$> split_on "," s.
Proof.
  rewrite <-(split_lstrip s). unfold strip at 2.
  assert (∀ l1 l2 : list string, rstrip <$> l1 = rstrip <$> l2 → strip <$> l1 = strip <$> l2) as Hw.
  { induction l1 as [|x l1 IH]; intros [|y l2]; try done. rewrite !fmap_cons. intros [= E1 E2].
    rewrite (IH l2 E2). f_equal. by rewrite <-strip_rstrip, E1, strip_rstrip. }
  apply Hw, split_rstrip.
Qed.
Lemma split_parts_lack c s : Forall (λ x, lacks c x = true) (split_on c s).
Proof.
  induction s as [|a s IH]; simpl; [by constructor|]. case_bool_decide as E; [by constructor|].
  destruct (split_on c s) as [|x l]; inv IH; repeat constructor; try done;
    unfold lacks in *; simpl; by rewrite bool_decide_eq_true_2.
Qed.
Lemma lacks_strip c s : lacks c s = true → lacks c (strip s) = true.
Proof.
  assert (∀ x, lacks c x = true → lacks c (rstrip x) = true) as Hr.
  { unfold lacks. induction x as [|a x IH]; [done|]. rewrite rstrip_cons. simpl.
    intros [Ha Hx]%andb_true_iff. case_match; [simpl; by rewrite Ha, IH|].
    case_match; [done|]. simpl. by rewrite Ha. }
  intros Hs. unfold strip. apply Hr. revert Hs. unfold lacks.
  induction s as [|a s IH]; [done|]. simpl. intros [Ha Hs]%andb_true_iff.
  case_match; [by apply IH|]. simpl. by rewrite Ha.
Qed.

Lemma normalize_strip s : normalize_burn_devices (strip s) = normalize_burn_devices s.
Proof. unfold normalize_burn_devices. by rewrite split_strip. Qed.
Lemma elem_of_sorted_texts x (s : gset string) : x ∈ sorted_texts s ↔ x ∈ s.
Proof. unfold sorted_texts. by rewrite elem_of_order_by, elem_of_elements. Qed.
Lemma normalize_idemp s : normalize_burn_devices (normalize_burn_devices s) = normalize_burn_devices s.
Proof.
  unfold normalize_burn_devices. set (X := (list_to_set (strip <$> split_on "," s) ∖ {[""]} : permissions)).
  f_equal.
  assert (∀ x, x ∈ sorted_texts X → lacks "," x = true ∧ strip x = x ∧ x ≠ "") as HX.
  { intros x [Hx Hne]%elem_of_sorted_texts%elem_of_difference.
    apply elem_of_list_to_set, list_elem_of_fmap in Hx as (y&->&Hy).
    pose proof (split_parts_lack "," s) as Hl. rewrite Forall_forall in Hl.
    split_and!; [by apply lacks_strip, Hl|apply strip_idemp|set_solver]. }
  destruct (decide (sorted_texts X = [])) as [E|E].
  - assert (X = ∅) as HX0.
    { apply set_eq. intros x. rewrite <-elem_of_sorted_texts, E. set_solver. }
    clearbody X. subst X. reflexivity.
  - rewrite split_on_join; [|done|by apply Forall_forall; intros x Hx; apply HX].
    assert (strip <$> sorted_texts X = sorted_texts X) as ->.
    { apply list_eq. intros i. rewrite list_lookup_fmap.
      destruct (sorted_texts X !! i) as [x|] eqn:Ex; [|done]. simpl. f_equal.
      by apply HX, (list_elem_of_lookup_2 _ i). }
    f_equal. apply set_eq. intros x.
    rewrite elem_of_difference, elem_of_list_to_set, elem_of_sorted_texts, elem_of_singleton.
    split; [by intros [??]|]. intros Hx. split; [done|]. by apply HX, elem_of_sorted_texts.
Qed.

(** ** What a burn command says *)

Section burn.
Context `{Digest} `{CaseMaps}.

Lemma string_rev_app (a b : string) :
  rev (String.list_ascii_of_string (a +:+ b)) = rev (String.list_ascii_of_string b) ++ rev (String.list_ascii_of_string a).
Proof.
  rewrite <-rev_app_distr. f_equal. induction a as [|c a IH]; [done|].
  change (String c a +:+ b) with (String c (a +:+ b)). simpl. by rewrite IH.
Qed.
Lemma text_inj (a b : string) : String.list_ascii_of_string a = String.list_ascii_of_string b → a = b.
Proof. intros E. rewrite <-(String.string_of_list_ascii_of_string a), E. apply String.string_of_list_ascii_of_string. Qed.

(** The parameters at the end of a command can be read back from it. *)
Lemma command_tail_inj (d d' : string) (w w' : bool) m m' :
  m ∈ ["auto"; "uf"] → m' ∈ ["auto"; "uf"] →
  d +:+ ":wipe=" +:+ (if w then "true" else "false") +:+ ":mode=" +:+ m =
  d' +:+ ":wipe=" +:+ (if w' then "true" else "false") +:+ ":mode=" +:+ m' →
  d = d' ∧ w = w' ∧ m = m'.
Proof.
  intros Hm Hm' E. apply (f_equal (λ s, rev (String.list_ascii_of_string s))) in E.
  rewrite !(string_rev_app d), !(string_rev_app d') in E.
  repeat (apply elem_of_cons in Hm as [->|Hm]); [..|by apply elem_of_nil in Hm];
    (repeat (apply elem_of_cons in Hm' as [->|Hm']); [..|by apply elem_of_nil in Hm']);
    destruct w, w'; simpl in E; try discriminate E; injection E as E;
    apply (inj (@rev ascii)) in E || apply (f_equal (@rev ascii)) in E; rewrite ?rev_involutive in E;
    by apply text_inj in E.
Qed.

(** Two derivations of the same command for the same devices are the same operation. *)
Lemma derive_burn_inj dev dev' sha sha' w w' m m' command :
  derive_burn_command dev sha w m = Ok command → derive_burn_command dev' sha' w' m' = Ok command →
  normalize_burn_devices dev = normalize_burn_devices dev' →
  lower (strip sha) = lower (strip sha') ∧ w = w' ∧
  lower (strip (str_or m "auto")) = lower (strip (str_or m' "auto")).
Proof.
  unfold derive_burn_command. intros E E' Hd. rewrite <-Hd in E'. revert E E'.
  do 2 (case_match; [done|]). intros [= <-]. do 2 (case_match; [done|]). intros [= E].
  unfold mem in *. bool_props.
  match goal with A : _ ∈ _, B : _ ∈ _ |- _ =>
    pose proof A as Hm; pose proof B as Hm' end.
  revert E. generalize (normalize_burn_devices dev). intros devices E.
  assert (∀ a x y : string, a +:+ x = a +:+ y → x = y) as Hc.
  { intros a x y. induction a as [|c a IH]; [done|]. intros Ea. apply IH. by injection Ea. }
  do 3 apply Hc in E. symmetry in E. by apply command_tail_inj in E.
Qed.
End burn.

(** ** One approval, one use *)

(** A human asked for exactly this operation, and not too long ago. *)
Definition approves `{Digest} `{CaseMaps} (done : list (Z * approval_op)) (now : Z)
    (token tool device command : string) : Prop :=
  ∃ t0 user q, (t0, OpCreate token user q) ∈ done ∧
    bound_to q = Ok (strip tool, strip device, command) ∧ now < t0 + approval_ttl q * SECOND.
Definition all_minted (history : list (Z * approval_op)) : list string := history ≫= (minted ∘ snd).
Definition all_spent (log : list (Z * approval_op)) : list string := log ≫= (spent ∘ snd).

Section history.
Context `{CollisionFree} `{CaseMaps}.

Record approvals_inv (done : list (Z * approval_op)) (t : list approval) (log : list (Z * approval_op)) :
    Prop := {
  ai_unique : unique_index (λ _, true) ap_token_hash t;
  ai_rows : ∀ r, r ∈ t → ∃ t0 token user q command, (t0, OpCreate token user q) ∈ done ∧
    ap_token_hash r = hash_token token ∧ bound_to q = Ok (ap_tool r, ap_device r, command) ∧
    ap_command_hash r = command_hash command ∧ ap_expires_at r = t0 + approval_ttl q * SECOND;
  ai_log : ∀ x, x ∈ log → ∃ token tool device command,
    x.2 = OpConsume token tool device command ∧ approves done x.1 token tool device command;
  ai_spent : ∀ token r, token ∈ all_spent log → r ∈ t → ap_token_hash r = hash_token token → used r = true;
  ai_once : NoDup (all_spent log);
}.

Lemma elem_of_minted x done token user q : x ∈ done → x.2 = OpCreate token user q → token ∈ all_minted done.
Proof. intros Hx E. apply list_elem_of_bind. exists x. split; [|done]. simpl. rewrite E. left. Qed.
Lemma approves_later done done' now token tool device command :
  done ⊆ done' → approves done now token tool device command → approves done' now token tool device command.
Proof. intros Hd (t0&user&q&Hin&Hr). exists t0, user, q. split; [by apply Hd|done]. Qed.
(** More history, fewer rows. *)
Lemma approvals_inv_less done done' t t' log :
  done ⊆ done' → (∀ r, r ∈ t' → r ∈ t) → unique_index (λ _, true) ap_token_hash t' →
  approvals_inv done t log → approvals_inv done' t' log.
Proof.
  intros Hd Ht Hu [_ Hrows Hlog Hspent Honce]. split; [done|..|done].
  - intros r Hr. destruct (Hrows r (Ht r Hr)) as (t0&tok&u&q&c&Hin&?). exists t0, tok, u, q, c.
    split; [by apply Hd|done].
  - intros x Hx. destruct (Hlog x Hx) as (tok&tool&d&c&E&Ha). exists tok, tool, d, c.
    split; [done|by eapply approves_later].
  - intros token r Hs Hr. apply Hspent; [done|by apply Ht].
Qed.

Lemma inv_create now token user q done t log :
  approvals_inv done t log → token ∉ all_minted done →
  approvals_inv (done ++ [(now, OpCreate token user q)])
    (create_approval_token now token user q t).2 log.
Proof.
  intros Hinv Hnew. assert (done ⊆ done ++ [(now, OpCreate token user q)]) as Hsub by set_solver.
  unfold create_approval_token. destruct (bound_to q) as [[[tool device] command]|e] eqn:Eb.
  2: { eapply approvals_inv_less; try done. apply Hinv. }
  unfold committed. rewrite bind_modify, bind_gets. set (t1 := delete_where _ t).
  assert (approvals_inv (done ++ [(now, OpCreate token user q)]) t1 log) as Hinv1.
  { eapply approvals_inv_less; [done| |apply unique_index_delete, Hinv|done].
    by intros r [Hr _]%elem_of_delete_where. }
  rewrite bind_require. destruct (negb (exists_row _ t1)) eqn:En.
  2: { simpl. eapply approvals_inv_less; try done. apply Hinv. }
  unfold modify. simpl. apply negb_true_iff in En. rewrite exists_row_false in En.
  assert (∀ x, x ∈ t1 → ap_token_hash x ≠ hash_token token) as Hne.
  { intros x Hx E. specialize (En x Hx). unfold token_is, streqb in En. bool_props. done. }
  destruct Hinv1 as [Hu Hrows Hlog Hspent Honce]. split; try done.
  - apply unique_index_snoc; [done|]. intros _ x Hx _. by apply Hne.
  - intros r [Hr| ->%list_elem_of_singleton]%elem_of_app; [by apply Hrows|].
    exists now, token, user, q, command. split_and!; try done. set_solver.
  - intros token' r Hs [Hr| ->%list_elem_of_singleton]%elem_of_app E; [by eapply Hspent|].
    simpl in E. apply (inj sha256) in E as <-. exfalso. apply Hnew.
    apply list_elem_of_bind in Hs as (x&Hs&Hx).
    destruct (ai_log _ _ _ Hinv x Hx) as (tok&?&?&?&Ex&t0&u&q'&Hin&_). simpl in Hs; rewrite Ex in Hs.
    apply list_elem_of_singleton in Hs as ->. by eapply elem_of_minted.
Qed.

Lemma inv_consume now token tool device command done t log :
  approvals_inv done t log →
  let op := OpConsume token tool device command in
  match consume_approval_token now token tool device command t with
  | (Ok true, t') => approvals_inv (done ++ [(now, op)]) t' (log ++ [(now, op)])
  | (_, t') => approvals_inv (done ++ [(now, op)]) t' log
  end.
Proof.
  intros Hinv op. assert (done ⊆ done ++ [(now, op)]) as Hsub by set_solver.
  assert (approvals_inv (done ++ [(now, op)]) t log) as Hsame
    by (eapply approvals_inv_less; try done; apply Hinv).
  unfold consume_approval_token. destruct (negb (nonempty token)); [done|]. rewrite bind_gets.
  destruct (fetchone _ t) as [r|] eqn:Er; [|done]. destruct (used r || _) eqn:Eu; [done|].
  destruct (negb (streqb _ _)) eqn:Ec; [done|]. cbv zeta. rewrite bind_gets, bind_modify.
  set (hit := λ r0, _ && _). set (spend := λ r0 : approval, _ <| ap_used_at := _ |>).
  apply fetchone_Some in Er as [Hr Hp]. unfold presented, token_is, streqb in Hp. bool_props.
  unfold streqb in Ec. bool_props.
  assert (hit r = true) as Hhit.
  { unfold hit, token_is, streqb. rewrite bool_decide_eq_true_2 by done. by destruct (used r). }
  assert (∀ x, x ∈ t → hit x = true ↔ ap_token_hash x = ap_token_hash r) as Hh.
  { intros x Hx. unfold hit, token_is, streqb. rewrite andb_true_iff, bool_decide_eq_true.
    split; [intros [-> _]; congruence|]. intros E.
    assert (x = r) as -> by (eapply (unique_index_inj (λ _, true) ap_token_hash); [apply Hinv|done..]).
    split; [congruence|]. by destruct (used r). }
  rewrite (rowcount_unique ap_token_hash _ r) by (done || apply Hinv). rewrite bool_decide_eq_true_2 by done.
  destruct (ai_rows _ _ _ Hinv r Hr) as (t0&tok&u&q&cmd&Hin&Eh&Eb&Ecm&Ee).
  assert (tok = token) as -> by (apply (inj sha256); unfold hash_token in *; congruence).
  assert (cmd = command) as -> by (apply (inj sha256); unfold command_hash in *; congruence).
  assert (approves (done ++ [(now, op)]) now token tool device command) as Hap.
  { exists t0, u, q. split_and!; [by apply Hsub|congruence|lia]. }
  assert (token ∉ all_spent log) as Hfresh.
  { intros Hs. rewrite (ai_spent _ _ _ Hinv token r Hs Hr) in *; congruence. }
  assert (all_spent (log ++ [(now, op)]) = all_spent log ++ [token]) as Esp
    by (unfold all_spent; by rewrite bind_app).
  destruct Hsame as [Hu Hrows Hlog Hspent Honce]. cbn. split.
  - by apply unique_index_update.
  - intros r' (r0&Hr0&->)%elem_of_update_where. destruct (Hrows r0 Hr0) as (t1&tk&u1&q1&c1&Hrow).
    exists t1, tk, u1, q1, c1. by destruct (hit r0).
  - intros x [Hx| ->%list_elem_of_singleton]%elem_of_app; [by apply Hlog|].
    by exists token, tool, device, command.
  - rewrite Esp. intros token' r' Hs (r0&Hr0&->)%elem_of_update_where E.
    destruct (hit r0) eqn:E0; [done|]. apply elem_of_app in Hs as [Hs| ->%list_elem_of_singleton];
      [by eapply Hspent|]. assert (hit r0 = true) by (apply Hh; congruence). congruence.
  - rewrite Esp. apply NoDup_app. split_and!; [done| |apply NoDup_singleton].
    by intros x Hx ->%list_elem_of_singleton.
Qed.

Lemma approvals_history history :
  NoDup (all_minted history) →
  approvals_inv history (approval_run history).1 (approval_run history).2.
Proof.
  induction history as [|[now op] history IH] using rev_ind; intros Hnd.
  { split; try (by intros ? ?%elem_of_nil); try constructor. by intros ?? _ ?%elem_of_nil. }
  unfold all_minted in Hnd. rewrite bind_app in Hnd. apply NoDup_app in Hnd as (Hnd&Hdis&_).
  specialize (IH Hnd). unfold approval_run. rewrite foldl_app. simpl. fold (approval_run history).
  destruct (approval_run history) as [t log]. simpl in *. unfold approval_step. simpl.
  destruct op as [token user q|token tool device command|token tool device command]; simpl.
  - assert (token ∉ all_minted history) as Hnew.
    { intros Hin. apply (Hdis token Hin). simpl. set_solver. }
    pose proof (inv_create now token user q history t log IH Hnew) as Hc.
    destruct (create_approval_token now token user q t) as [[x|e] t'] eqn:E;
      [rewrite (bind_run _ _ _ _ _ E)|rewrite (bind_Err _ _ _ _ _ E)]; done.
  - assert ((validate_approval_token now token tool device command t).2 = t) as Ev.
    { unfold validate_approval_token. destruct (negb _); [done|]. rewrite bind_gets.
      repeat case_match; done. }
    destruct (validate_approval_token now token tool device command t) as [[x|e] t'] eqn:E; simpl in Ev; subst t';
      [rewrite (bind_run _ _ _ _ _ E)|rewrite (bind_Err _ _ _ _ _ E)]; simpl;
      (apply (approvals_inv_less history _ t); [by intros y Hy; apply elem_of_app; left|done|apply IH|exact IH]).
  - pose proof (inv_consume now token tool device command history t log IH) as Hc. simpl in Hc.
    by destruct (consume_approval_token now token tool device command t) as [[[]|e] t'].
Qed.
End history.

(** [C29] An approval is good for one use of what was approved.  In any history of issuing,
    checking and consuming approvals by any callers, no token is consumed twice, and whenever
    one is consumed, it was issued for exactly that tool, that list of devices and that
    command, and has not expired. *)
Theorem approval_single_use `{CollisionFree} `{CaseMaps} history :
  NoDup (all_minted history) →
  let log := (approval_run history).2 in
  NoDup (all_spent log) ∧
  ∀ now op, (now, op) ∈ log → ∃ token tool device command,
    op = OpConsume token tool device command ∧ approves history now token tool device command.
Proof.
  intros Hnd log. destruct (approvals_history history Hnd) as [_ _ Hlog _ Honce]. split; [done|].
  intros now op Hin. apply (Hlog (now, op) Hin).
Qed.

(** An approval to burn a device is an approval of one firmware: when a token is
    consumed for the burn tool with a command derived from a device list, a firmware digest,
    the wipe flag and a mode, the human was asked for the same devices, the same digest, the
    same flag and the same mode, whatever texts the caller supplied. *)
Theorem burn_approval_exact `{CollisionFree} `{CaseMaps} history now token device sha wipe mode command :
  NoDup (all_minted history) →
  derive_burn_command device sha wipe mode = Ok command →
  (now, OpConsume token BURN_TOOL device command) ∈ (approval_run history).2 →
  ∃ t0 user q, (t0, OpCreate token user q) ∈ history ∧
    normalize_burn_devices (aq_device q) = normalize_burn_devices device ∧
    lower (strip (aq_firmware_sha256 q)) = lower (strip sha) ∧ aq_wipe_data q = wipe ∧
    lower (strip (str_or (aq_burn_mode q) "auto")) = lower (strip (str_or mode "auto")) ∧
    now < t0 + 600 * SECOND.
Proof.
  intros Hnd Hd Hin. destruct (approvals_history history Hnd) as [_ _ Hlog _ _].
  destruct (Hlog _ Hin) as (?&?&?&?&[= <- <- <- <-]&t0&user&q&Hmint&Eb&Hexp).
  exists t0, user, q. simpl in Hexp. revert Eb. unfold bound_to. case_match; [done|].
  destruct (streqb (strip (aq_tool q)) BURN_TOOL) eqn:Et.
  2: { intros [= Et' _ _]. rewrite Et' in Et. done. }
  destruct (derive_burn_command (strip (aq_device q)) _ _ _) as [c|e] eqn:Ed; [|done].
  case_match; [done|]. intros [= _ En <-].
  assert (normalize_burn_devices (strip (aq_device q)) = normalize_burn_devices device) as Edev.
  { by rewrite <-normalize_idemp, En, normalize_strip. }
  destruct (derive_burn_inj _ _ _ _ _ _ _ _ _ Ed Hd Edev) as (E1&E2&E3).
  rewrite normalize_strip in Edev. split_and!; try done. unfold approval_ttl in Hexp. unfold SECOND in *. lia.
Qed.

(** ** Approvals at work *)

Definition sample_user : current_user := CurrentUserOf "u1" "ann" "user" "Ann" ∅ "u1".
Definition sample_burn : approval_request := ApprovalRequest BURN_TOOL " B , A,B" "" " abcd " true "" 0.
Definition sample_command : string := "burn_firmware:A,B:abcd:wipe=true:mode=auto".
Definition sample_consume : approval_op := OpConsume "t1" BURN_TOOL "A,B" sample_command.
Definition sample_approvals : list (Z * approval_op) :=
  [(0, OpCreate "t1" sample_user sample_burn); (SECOND, OpValidate "t1" BURN_TOOL "A,B" sample_command);
   (2 * SECOND, sample_consume); (3 * SECOND, sample_consume)].
Lemma sample_minted : NoDup (all_minted sample_approvals).
Proof. vm_compute. repeat constructor; set_solver. Qed.
Lemma sample_log : (approval_run sample_approvals).2 = [(2 * SECOND, sample_consume)].
Proof. vm_compute. reflexivity. Qed.

Lemma approval_single_use_witness :
  NoDup (all_spent (approval_run sample_approvals).2) ∧
  approves sample_approvals (2 * SECOND) "t1" BURN_TOOL "A,B" sample_command.
Proof.
  destruct (approval_single_use sample_approvals sample_minted) as [H1 H2]. split; [exact H1|].
  destruct (H2 (2 * SECOND) sample_consume) as (?&?&?&?&[= <- <- <- <-]&H); [|exact H].
  rewrite sample_log. left.
Defined.
Lemma burn_approval_exact_witness :
  ∃ t0 user q, (t0, OpCreate "t1" user q) ∈ sample_approvals ∧
    normalize_burn_devices (aq_device q) = "A,B".
Proof.
  destruct (burn_approval_exact sample_approvals (2 * SECOND) "t1" "A,B" "abcd" true "auto" sample_command)
    as (t0&user&q&Hin&Hd&_).
  - exact sample_minted.
  - vm_compute. reflexivity.
  - rewrite sample_log. left.
  - exists t0, user, q. split; [exact Hin|]. rewrite Hd. vm_compute. reflexivity.
Defined.
