(* ===== verification/AgentTokens.v ===== *)
(** The service tokens of agents, [features/auth/agent_tokens.py], and the one-shot codes a
    build server exchanges for one, [features/auth/agent_enrollment.py].

    The raw tokens, identifiers and codes are arguments: what the module [secrets] draws.
    Times are in microseconds. *)

From stdpp Require Import gmap.
From Stdlib Require Import QArith.
From S2P Require Import Prelude Encodings Authority RateLimit Approvals.

Open Scope Z_scope.

(** ** Inputs *)

(** What a client can send where a number is expected: a JSON value, or nothing. *)
Inductive py_number := PyNone | PyInt (n : Z) | PyFloat (q : Q) | PyNan | PyInfinite | PyText (s : string).
(** [int(value)], [None] when it raises. *)
Definition to_int (v : py_number) : option Z :=
  match v with
  | PyInt n => Some n
  | PyFloat q => Some (Z.quot (Qnum q) (Zpos (Qden q)))
  | PyText s => py_int s
  | PyNone | PyNan | PyInfinite => None
  end.

Definition DEFAULT_AGENT_TOKEN_DAYS : Z := 90.
Definition MAX_AGENT_TOKEN_DAYS : Z := 3650.
Definition DAY : Z := 24 * 60 * 60 * SECOND.

(* src/features/auth/agent_tokens.py:34-52 coerce_expires_days *)
Definition coerce_expires_days (value : py_number) : result (option Z) :=
  match value with
  | PyNone => Ok None
  | PyNan => Err (ValueError "expires_days must be an integer between 1 and 3650")
  | _ =>
      match to_int value with
      | None => Err (ValueError "expires_days must be an integer between 1 and 3650")
      | Some days =>
          if Z.leb 1 days && Z.leb days MAX_AGENT_TOKEN_DAYS then Ok (Some days)
          else Err (ValueError "expires_days must be between 1 and 3650")
      end
  end.

(** A list given as such, as one comma separated text, or not at all. *)
Inductive text_list := TlNone | TlText (s : string) | TlList (l : list string).
(* src/features/auth/constants.py:22-50 AGENT_SCOPES *)
Definition AGENT_SCOPES : list string :=
  ["devices.read"; "devices.database.read"; "devices.lease"; "devices.use_leased";
   "devices.inventory"; "tests.execute"; "tests.cancel"; "jobs.read"; "reports.read";
   "suites.read"; "redmine.read"; "artifacts.read_own"; "apk.analyze_own"; "sdk.read";
   "knowledge.read"; "build.read"; "build.execute"; "build.cancel"].

Fixpoint clean_scopes (scopes cleaned : list string) : result (list string) :=
  match scopes with
  | [] => Ok cleaned
  | scope :: rest =>
      let name := strip scope in
      if negb (nonempty name) then clean_scopes rest cleaned
      else if negb (mem name AGENT_SCOPES) then Err (ValueError ("unknown scope: " +:+ name))
      else clean_scopes rest (if mem name cleaned then cleaned else cleaned ++ [name])
  end.
(* src/features/auth/agent_tokens.py:78-94 AgentTokenServiceMixin.normalize_scopes *)
Definition normalize_scopes (scopes : text_list) : result string :=
  match scopes with
  | TlNone => Ok ""
  | TlText s =>
      match clean_scopes (strip <$> split_on "," s) [] with Ok l => Ok (join "," l) | Err e => Err e end
  | TlList l => match clean_scopes l [] with Ok l => Ok (join "," l) | Err e => Err e end
  end.
(* src/features/auth/agent_tokens.py:96-109 AgentTokenServiceMixin._normalize_acl *)
Definition normalize_acl (value : text_list) : string :=
  match value with
  | TlNone => "*"
  | TlText _ | TlList _ =>
      let items := match value with
        | TlText s => strip <$> split_on "," s
        | TlList l => strip <$> l
        | TlNone => []
        end in
      let items := filter (λ item, nonempty item = true) items in
      if bool_decide (items = []) || mem "*" items then "*" else join "," items
  end.

(** ** State *)

(* src/features/auth/schema.py:109-121 platform_agent_tokens *)
Record agent_token := AgentToken {
  tk_id : string;
  tk_token_hash : string;
  tk_name : string;
  tk_owner_user_id : string;
  tk_scopes : string;
  tk_allowed_workers : string;
  tk_allowed_devices : string;
  tk_created_at : Z;
  tk_expires_at : stamp;
  tk_revoked_at : stamp;
  tk_last_used_at : stamp;
}.
#[export] Instance agent_token_eta : Eta agent_token := λ t,
  AgentToken (tk_id t) (tk_token_hash t) (tk_name t) (tk_owner_user_id t) (tk_scopes t)
    (tk_allowed_workers t) (tk_allowed_devices t) (tk_created_at t) (tk_expires_at t)
    (tk_revoked_at t) (tk_last_used_at t).
(* src/features/auth/schema.py:152-164 platform_agent_enrollments *)
Record enrollment := Enrollment {
  en_code_hash : string;
  en_name : string;
  en_created_by : string;
  en_scopes : string;
  en_allowed_workers : string;
  en_allowed_devices : string;
  en_expires_days : Z;
  en_created_at : Z;
  en_expires_at : Z;
  en_used_at : stamp;
}.
#[export] Instance enrollment_eta : Eta enrollment := λ e,
  Enrollment (en_code_hash e) (en_name e) (en_created_by e) (en_scopes e) (en_allowed_workers e)
    (en_allowed_devices e) (en_expires_days e) (en_created_at e) (en_expires_at e) (en_used_at e).
(** The columns of [platform_users] that matter to agents. *)
Record account := Account { ac_id : string; ac_disabled : bool }.
Record agent_db := AgentDb {
  ad_tokens : list agent_token;
  ad_enrollments : list enrollment;
  ad_users : list account;
}.
#[export] Instance agent_db_eta : Eta agent_db := λ d, AgentDb (ad_tokens d) (ad_enrollments d) (ad_users d).

(** Characters of a UTF-8 text. *)
Fixpoint text_length (s : string) : Z :=
  match s with
  | EmptyString => 0
  | String a s' =>
      let n := N_of_ascii a in
      (if ((128 <=? n) && (n <? 192))%N then 0 else 1) + text_length s'
  end.

Section tokens.
Context `{Digest} `{CaseMaps}.

(** [INSERT INTO platform_agent_tokens]: the primary key and the unique digest. *)
Definition insert_token (t : agent_token) : M agent_db unit :=
  rows ← gets ad_tokens;
  _ ← require (negb (exists_row (λ x, streqb (tk_id x) (tk_id t)) rows))
        (IntegrityError "platform_agent_tokens.id");
  _ ← require (negb (exists_row (λ x, streqb (tk_token_hash x) (tk_token_hash t)) rows))
        (IntegrityError "platform_agent_tokens.token_hash");
  modify (λ d, d <| ad_tokens ::= λ l, l ++ [t] |>).

(** The answer adds the raw token to the row's columns. *)
(* src/features/auth/agent_tokens.py:111-165 AgentTokenServiceMixin.create_agent_token *)
Definition create_agent_token (now : Z) (token token_id name : string) (owner : current_user)
    (scopes allowed_workers allowed_devices : text_list) (expires_days : py_number) :
    M agent_db agent_token :=
  let token_name := strip name in
  if negb (nonempty token_name) || Z.ltb 64 (text_length token_name)
  then raise (ValueError "token name is required and has at most 64 characters")
  else
    match normalize_scopes scopes with
    | Err e => raise e
    | Ok scope_str =>
        match coerce_expires_days expires_days with
        | Err e => raise e
        | Ok days =>
            let t := {| tk_id := token_id; tk_token_hash := hash_token token; tk_name := token_name;
                        tk_owner_user_id := cu_id owner; tk_scopes := scope_str;
                        tk_allowed_workers := normalize_acl allowed_workers;
                        tk_allowed_devices := normalize_acl allowed_devices; tk_created_at := now;
                        tk_expires_at := (λ d, now + d * DAY) <$> days; tk_revoked_at := None;
                        tk_last_used_at := None |} in
            _ ← committed (insert_token t); mret t
        end
    end.

Definition scope_names (scopes : string) : list string :=
  filter (λ s, nonempty s = true) (split_on "," scopes).
(* src/features/auth/agent_tokens.py:167-183 AgentTokenServiceMixin.list_agent_tokens *)
Definition list_agent_tokens : M agent_db (list (agent_token * list string)) :=
  gets (λ d, (λ t, (t, scope_names (tk_scopes t))) <$>
    order_by (λ a b, Z.leb (tk_created_at a) (tk_created_at b)) (ad_tokens d)).

(* src/features/auth/agent_tokens.py:185-193 AgentTokenServiceMixin.revoke_agent_token *)
Definition revoke_agent_token (now : Z) (token_id : string) : M agent_db bool :=
  let hit t := streqb (tk_id t) token_id && bool_decide (tk_revoked_at t = None) in
  rows ← gets ad_tokens;
  _ ← modify (λ d, d <| ad_tokens ::= update_where hit (λ t, t <| tk_revoked_at := Some now |>) |>);
  mret (bool_decide (0 < rowcount hit rows)%nat).

(** [JOIN platform_users u ON u.id = t.owner_user_id]. *)
Definition owner_of (d : agent_db) (t : agent_token) : option account :=
  fetchone (λ u, streqb (ac_id u) (tk_owner_user_id t)) (ad_users d).
Definition expired (now : Z) (expires_at : stamp) : bool :=
  match expires_at with Some e => Z.leb e now | None => false end.

(* src/features/auth/agent_tokens.py:195-214 AgentTokenServiceMixin.active_agent_metadata *)
Definition active_agent_metadata (now : Z) (actor_id : string) : M agent_db (option agent_token) :=
  if negb (startswith "agent:" actor_id) then mret None
  else
    row ← gets (λ d,
      t ← fetchone (λ t, streqb ("agent:" +:+ tk_id t) actor_id && bool_decide (is_Some (owner_of d t))) (ad_tokens d);
      u ← owner_of d t; Some (t, u));
    match row with
    | None => mret None
    | Some (t, u) =>
        if ac_disabled u || bool_decide (is_Some (tk_revoked_at t)) then mret None
        else if expired now (tk_expires_at t) then mret None
        else mret (Some t)
    end.

(* src/features/auth/agent_tokens.py:62-68 _last_seen_recent *)
Definition last_seen_recent (last_seen_at : stamp) (now : Z) : bool :=
  match last_seen_at with Some t => Z.ltb (now - t) (60 * SECOND) | None => false end.

(** The principal of a row. *)
Definition agent_principal (t : agent_token) : current_user :=
  current_user_post_init
    {| cu_id := "agent:" +:+ tk_id t; cu_username := "agent:" +:+ tk_name t; cu_role := AGENT_ROLE;
       cu_display_name := tk_name t; cu_extra_permissions := list_to_set (scope_names (tk_scopes t));
       cu_resource_owner_id := tk_owner_user_id t |}.
(* src/features/auth/agent_tokens.py:216-273 AgentTokenServiceMixin.get_agent_token_principal *)
Definition get_agent_token_principal (now : Z) (token : string) :
    M agent_db (option (current_user * agent_token)) :=
  if negb (nonempty token) then mret None
  else
    row ← gets (λ d,
      t ← fetchone (λ t, streqb (tk_token_hash t) (hash_token token) && bool_decide (is_Some (owner_of d t))) (ad_tokens d);
      u ← owner_of d t; Some (t, u));
    match row with
    | None => mret None
    | Some (t, u) =>
        if bool_decide (is_Some (tk_revoked_at t)) || ac_disabled u then mret None
        else if expired now (tk_expires_at t) then mret None
        else
          _ ← when (negb (last_seen_recent (tk_last_used_at t) now))
            (modify (λ d, d <| ad_tokens ::= update_where
              (λ x, streqb (tk_token_hash x) (hash_token token) &&
                    match tk_last_used_at x with None => true | Some l => Z.ltb l (now - 60 * SECOND) end)
              (λ x, x <| tk_last_used_at := Some now |>) |>));
          mret (Some (agent_principal t, t))
    end.

(* src/features/auth/agent_tokens.py:275-283 AgentTokenServiceMixin.agent_acl_allows *)
Definition agent_acl_allows (record : option agent_token) (column : agent_token → string) (value : string) : bool :=
  match record with
  | None => false
  | Some t =>
      let allowed := str_or (column t) "*" in
      streqb allowed "*"
      || mem value (filter (λ part, nonempty part = true) (strip <$> split_on "," allowed))
  end.
(* src/features/auth/agent_tokens.py:285-298 AgentTokenServiceMixin.agent_acl_allows_all *)
Definition agent_acl_allows_all (record : option agent_token) (column : agent_token → string)
    (values : list string) : bool :=
  negb (bool_decide (values = [])) && forallb (agent_acl_allows record column) values.

(** ** Enrollment *)

Definition ENROLLMENT_TTL_MINUTES : Z := 5.
Definition code_is (h : string) (e : enrollment) : bool := streqb (en_code_hash e) h.

(* src/features/auth/agent_enrollment.py:40-108 AgentTokenEnrollmentMixin.create_agent_enrollment *)
Definition create_agent_enrollment (now : Z) (code name : string) (creator : current_user)
    (scopes allowed_workers allowed_devices : text_list) (expires_days ttl_minutes : py_number) :
    M agent_db enrollment :=
  match match ttl_minutes with PyNone => Some ENROLLMENT_TTL_MINUTES | v => to_int v end with
  | None => raise (ValueError "ttl_minutes must be an integer between 1 and 30")
  | Some ttl =>
      if negb (Z.leb 1 ttl && Z.leb ttl 30)
      then raise (ValueError "ttl_minutes must be between 1 and 30")
      else
        match coerce_expires_days
                match expires_days with PyNone => PyInt DEFAULT_AGENT_TOKEN_DAYS | v => v end with
        | Err e => raise e
        | Ok days =>
            committed (
              _ ← modify (λ d, d <| ad_enrollments ::= delete_where
                (λ e, Z.leb (en_expires_at e) now || bool_decide (is_Some (en_used_at e))) |>);
              match normalize_scopes scopes with
              | Err e => raise e
              | Ok scope_str =>
                  let e := {| en_code_hash := hash_token code; en_name := str_or (strip name) "agent";
                              en_created_by := cu_id creator; en_scopes := scope_str;
                              en_allowed_workers := normalize_acl allowed_workers;
                              en_allowed_devices := normalize_acl allowed_devices;
                              en_expires_days := default DEFAULT_AGENT_TOKEN_DAYS days;
                              en_created_at := now; en_expires_at := now + ttl * 60 * SECOND;
                              en_used_at := None |} in
                  rows ← gets ad_enrollments;
                  _ ← require (negb (exists_row (code_is (hash_token code)) rows))
                        (IntegrityError "platform_agent_enrollments.code_hash");
                  _ ← modify (λ d, d <| ad_enrollments ::= λ l, l ++ [e] |>);
                  mret e
              end)
        end
  end.

(** The reasons a code is refused. *)
Inductive refusal := Invalid | Used (at_ : stamp) | Expired (at_ : Z).
(* src/features/auth/agent_enrollment.py:110-194 AgentTokenEnrollmentMixin.redeem_agent_enrollment *)
Definition redeem_agent_enrollment (now : Z) (token token_id code : string) :
    M agent_db (agent_token + refusal) :=
  let code := upper (strip code) in
  if negb (nonempty code) then mret (inr Invalid)
  else
    committed (
      row ← gets (λ d, fetchone (code_is (hash_token code)) (ad_enrollments d));
      match row with
      | None => mret (inr Invalid)
      | Some e =>
          if bool_decide (is_Some (en_used_at e)) then mret (inr (Used (en_used_at e)))
          else if Z.leb (en_expires_at e) now then mret (inr (Expired (en_expires_at e)))
          else
            let hit x := code_is (hash_token code) x && bool_decide (en_used_at x = None) in
            rows ← gets ad_enrollments;
            _ ← modify (λ d, d <| ad_enrollments ::= update_where hit (λ x, x <| en_used_at := Some now |>) |>);
            if negb (bool_decide (rowcount hit rows = 1%nat)) then mret (inr (Used (Some now)))
            else
              let redeemed_days := match coerce_expires_days (PyInt (en_expires_days e)) with
                | Ok days => default DEFAULT_AGENT_TOKEN_DAYS days
                | Err _ => DEFAULT_AGENT_TOKEN_DAYS
                end in
              let t := {| tk_id := token_id; tk_token_hash := hash_token token; tk_name := en_name e;
                          tk_owner_user_id := en_created_by e; tk_scopes := en_scopes e;
                          tk_allowed_workers := en_allowed_workers e;
                          tk_allowed_devices := en_allowed_devices e; tk_created_at := now;
                          tk_expires_at := Some (now + redeemed_days * DAY); tk_revoked_at := None;
                          tk_last_used_at := None |} in
              _ ← insert_token t; mret (inl t)
      end).
End tokens.
