(* ===== verification/AgentProperties.v ===== *)
(** What agents may do: where the authority of a token comes from, over any history of the
    administration of agents, and that a code is exchanged once. *)

From stdpp Require Import gmap.
From S2P Require Import Prelude Encodings Authority RateLimit Approvals AgentTokens.

Open Scope Z_scope.

(** ** Scopes *)

Definition scope_items (scopes : text_list) : list string :=
  match scopes with TlNone => [] | TlText s => split_on "," s | TlList l => l end.

Lemma scope_facts x : x ∈ AGENT_SCOPES → lacks "," x = true ∧ nonempty x = true ∧ x ≠ "*".
Proof.
  assert (forallb (λ x, lacks "," x && nonempty x && negb (streqb x "*")) AGENT_SCOPES = true) as Hall
    by reflexivity.
  rewrite forallb_forall in Hall. intros Hx%list_elem_of_In%Hall. unfold streqb in Hx. bool_props. done.
Qed.

Lemma clean_scopes_elem scopes : ∀ cleaned l, clean_scopes scopes cleaned = Ok l →
  ∀ x, x ∈ l ↔ x ∈ cleaned ∨ (x ∈ AGENT_SCOPES ∧ x ∈ strip <$> scopes).
Proof.
  induction scopes as [|s scopes IH]; simpl; intros cleaned l.
  - intros [= ->] x. rewrite elem_of_nil. tauto.
  - destruct (nonempty (strip s)) eqn:En; [destruct (mem (strip s) AGENT_SCOPES) eqn:Em; [|done]|];
      intros E x; rewrite (IH _ _ E x), elem_of_cons; clear IH E.
    + unfold mem in *. bool_props. case_bool_decide.
      * split; [tauto|]. intros [?|[Ha [->|?]]]; [by left|by left|by right].
      * rewrite elem_of_app, list_elem_of_singleton. split; [|tauto].
        intros [[?| ->]|[? ?]]; [by left|right; split; [done|by left]|right; split; [done|by right]].
    + split; [tauto|]. intros [?|[Ha [->|?]]]; [by left| |by right].
      apply scope_facts in Ha as (_&Ha&_). congruence.
Qed.
Lemma scope_names_join l : (∀ x, x ∈ l → x ∈ AGENT_SCOPES) → scope_names (join "," l) = l.
Proof.
  intros Hl. unfold scope_names. destruct (decide (l = [])) as [->|Hne]; [reflexivity|].
  rewrite split_on_join; [|done|].
  - clear Hne. induction l as [|x l IH]; [done|]. rewrite filter_cons.
    rewrite decide_True by (apply scope_facts, Hl; left). f_equal. apply IH. intros y Hy. apply Hl. by right.
  - apply Forall_forall. intros x Hx. by apply scope_facts, Hl.
Qed.
Lemma normalized_scopes scopes s :
  normalize_scopes scopes = Ok s →
  ∀ x, x ∈ scope_names s ↔ x ∈ AGENT_SCOPES ∧ x ∈ strip <$> scope_items scopes.
Proof.
  assert (∀ l names, clean_scopes l [] = Ok names →
    ∀ x, x ∈ scope_names (join "," names) ↔ x ∈ AGENT_SCOPES ∧ x ∈ strip <$> l) as Hl.
  { intros l names E x. pose proof (clean_scopes_elem _ _ _ E) as Hc. rewrite scope_names_join.
    - rewrite (Hc x), elem_of_nil. tauto.
    - intros y Hy. apply Hc in Hy as [Hy|[? _]]; [by apply elem_of_nil in Hy|done]. }
  unfold normalize_scopes. destruct scopes as [|t|l]; simpl.
  - intros [= <-] x. change (scope_names "") with (@nil string). rewrite elem_of_nil. tauto.
  - case_match eqn:E; [|done]. intros [= <-] x. rewrite (Hl _ _ E x). f_equiv.
    replace (strip <$> (strip <$> split_on "," t)) with (strip <$> split_on "," t); [done|].
    rewrite <-list_fmap_compose. apply list_fmap_ext. intros i y _. simpl. by rewrite strip_idemp.
  - case_match eqn:E; [|done]. intros [= <-] x. by apply Hl.
Qed.
(** The permissions of an agent are its scopes: its role adds nothing. *)
Lemma agent_permission t perm :
  (∀ x, x ∈ scope_names (tk_scopes t) → x ∈ AGENT_SCOPES) →
  has_permission (agent_principal t) perm = true ↔ perm ∈ scope_names (tk_scopes t).
Proof.
  intros Hs. unfold has_permission, effective_permissions.
  assert (ROLE_PERMISSIONS (cu_role (agent_principal t)) ∪ cu_extra_permissions (agent_principal t)
          = list_to_set (scope_names (tk_scopes t))) as ->.
  { unfold agent_principal, current_user_post_init. case_match; simpl; set_solver. }
  rewrite orb_true_iff, !bool_decide_eq_true, !elem_of_list_to_set. split; [|by right].
  intros [H|?]; [|done]. by apply Hs, scope_facts in H as (_&_&?).
Qed.

(** ** Histories *)

Inductive agent_op :=
  | AgCreate (token token_id name : string) (owner : current_user)
      (scopes workers devices : text_list) (expires_days : py_number)
  | AgRevoke (token_id : string)
  | AgEnroll (code name : string) (creator : current_user)
      (scopes workers devices : text_list) (expires_days ttl_minutes : py_number)
  | AgRedeem (token token_id code : string)
  | AgUse (token : string)
  | AgAccounts (users : list account).

Section run.
Context `{Digest} `{CaseMaps}.

(** Whether the operation exchanged a code for a token. *)
Definition agent_do (now : Z) (op : agent_op) : M agent_db bool :=
  match op with
  | AgCreate token id name owner scopes w d days =>
      _ ← create_agent_token now token id name owner scopes w d days; mret false
  | AgRevoke id => _ ← revoke_agent_token now id; mret false
  | AgEnroll code name creator scopes w d days ttl =>
      _ ← create_agent_enrollment now code name creator scopes w d days ttl; mret false
  | AgRedeem token id code =>
      answer ← redeem_agent_enrollment now token id code;
      mret (match answer with inl _ => true | inr _ => false end)
  | AgUse token => _ ← get_agent_token_principal now token; mret false
  | AgAccounts users => _ ← modify (λ d, d <| ad_users := users |>); mret false
  end.
(** The tables, and the codes that were exchanged, in order. *)
Definition agent_step (st : agent_db * list string) (x : Z * agent_op) : agent_db * list string :=
  match agent_do x.1 x.2 st.1 with
  | (Ok true, d) => (d, st.2 ++ match x.2 with AgRedeem _ _ code => [upper (strip code)] | _ => [] end)
  | (_, d) => (d, st.2)
  end.
Definition agent_run (history : list (Z * agent_op)) : agent_db * list string :=
  foldl agent_step (AgentDb [] [] [], []) history.

(** An administrator's decision: the owner, the scopes asked for, and until when. *)
Definition offered (done : list (Z * agent_op)) (code owner : string) (scopes : text_list)
    (at_ until days : Z) : Prop :=
  ∃ name creator w d expires_days ttl n minutes,
    (at_, AgEnroll code name creator scopes w d expires_days ttl) ∈ done ∧ cu_id creator = owner ∧
    coerce_expires_days match expires_days with PyNone => PyInt DEFAULT_AGENT_TOKEN_DAYS | v => v end
      = Ok n ∧ days = default DEFAULT_AGENT_TOKEN_DAYS n ∧ 1 ≤ minutes ≤ 30 ∧
    until = at_ + minutes * 60 * SECOND.
Definition approved_by (done : list (Z * agent_op)) (token owner : string) (scopes : text_list)
    (until : stamp) : Prop :=
  (∃ at_ id name user w d expires_days n,
     (at_, AgCreate token id name user scopes w d expires_days) ∈ done ∧ cu_id user = owner ∧
     coerce_expires_days expires_days = Ok n ∧ until = (λ days, at_ + days * DAY) <$> n) ∨
  (∃ at_ id code t0 e days,
     (at_, AgRedeem token id code) ∈ done ∧ offered done (upper (strip code)) owner scopes t0 e days ∧
     at_ < e ∧ until = Some (at_ + days * DAY)).

Definition token_ok (done : list (Z * agent_op)) (t : agent_token) : Prop :=
  ∃ token scopes, tk_token_hash t = hash_token token ∧ normalize_scopes scopes = Ok (tk_scopes t) ∧
    approved_by done token (tk_owner_user_id t) scopes (tk_expires_at t).
Definition enrollment_ok (done : list (Z * agent_op)) (e : enrollment) : Prop :=
  ∃ code scopes t0, en_code_hash e = hash_token code ∧ normalize_scopes scopes = Ok (en_scopes e) ∧
    1 ≤ en_expires_days e ≤ MAX_AGENT_TOKEN_DAYS ∧
    offered done code (en_created_by e) scopes t0 (en_expires_at e) (en_expires_days e).
Record agents_inv (done : list (Z * agent_op)) (d : agent_db) : Prop := {
  ag_hashes : unique_index (λ _, true) tk_token_hash (ad_tokens d);
  ag_codes : unique_index (λ _, true) en_code_hash (ad_enrollments d);
  ag_tokens : ∀ t, t ∈ ad_tokens d → token_ok done t;
  ag_enrollments : ∀ e, e ∈ ad_enrollments d → enrollment_ok done e;
}.

Lemma coerced_range v n : coerce_expires_days v = Ok (Some n) → 1 ≤ n ≤ MAX_AGENT_TOKEN_DAYS.
Proof.
  unfold coerce_expires_days. destruct v; try done; (case_match; [|done]); destruct (_ && _) eqn:E; try done;
    intros [= <-]; bool_props; unfold MAX_AGENT_TOKEN_DAYS in *; lia.
Qed.
Lemma coerced_days n : 1 ≤ n ≤ MAX_AGENT_TOKEN_DAYS → coerce_expires_days (PyInt n) = Ok (Some n).
Proof.
  intros [H1 H2]. simpl. apply Z.leb_le in H1, H2. by rewrite H1, H2.
Qed.

Lemma offered_later done done' code owner scopes t0 e days :
  done ⊆ done' → offered done code owner scopes t0 e days → offered done' code owner scopes t0 e days.
Proof. unfold offered. intros Hd (?&?&?&?&?&?&?&?&?&?). eauto 20. Qed.
Lemma approved_later done done' token owner scopes until :
  done ⊆ done' → approved_by done token owner scopes until → approved_by done' token owner scopes until.
Proof.
  intros Hd [(?&?&?&?&?&?&?&?&?&?)|(?&?&?&?&?&?&?&?&?)]; [left|right]; [by eauto 15|].
  do 6 eexists. split_and!; [by apply Hd|by eapply offered_later|naive_solver..].
Qed.
Lemma agents_inv_less done done' d d' :
  done ⊆ done' →
  unique_index (λ _, true) tk_token_hash (ad_tokens d') →
  unique_index (λ _, true) en_code_hash (ad_enrollments d') →
  (∀ t', t' ∈ ad_tokens d' → ∃ t, t ∈ ad_tokens d ∧ tk_token_hash t' = tk_token_hash t ∧
     tk_scopes t' = tk_scopes t ∧ tk_owner_user_id t' = tk_owner_user_id t ∧ tk_expires_at t' = tk_expires_at t) →
  (∀ e', e' ∈ ad_enrollments d' → ∃ e, e ∈ ad_enrollments d ∧ en_code_hash e' = en_code_hash e ∧
     en_scopes e' = en_scopes e ∧ en_created_by e' = en_created_by e ∧ en_expires_at e' = en_expires_at e ∧
     en_expires_days e' = en_expires_days e) →
  agents_inv done d → agents_inv done' d'.
Proof.
  intros Hd Hu Hc Ht He [_ _ Hts Hes]. split; try done.
  - intros t' (t&Hin&E1&E2&E3&E4)%Ht. destruct (Hts t Hin) as (tok&sc&F1&F2&F3).
    exists tok, sc. rewrite E1, E2, E3, E4. split_and!; [done..|by eapply approved_later].
  - intros e' (e&Hin&E1&E2&E3&E4&E5)%He. destruct (Hes e Hin) as (code&sc&t0&F1&F2&F3&F4).
    exists code, sc, t0. rewrite E1, E2, E3, E4, E5. split_and!; try done; try lia. by eapply offered_later.
Qed.

Lemma inv_later done x d : agents_inv done d → agents_inv (done ++ [x]) d.
Proof.
  intros Hi. eapply agents_inv_less; [by intros y Hy; apply elem_of_app; left|apply Hi|apply Hi|..|exact Hi].
  - intros t Ht. by exists t.
  - intros e He. by exists e.
Qed.
Lemma inv_tokens done d p f :
  (∀ t, tk_token_hash (f t) = tk_token_hash t ∧ tk_scopes (f t) = tk_scopes t ∧
        tk_owner_user_id (f t) = tk_owner_user_id t ∧ tk_expires_at (f t) = tk_expires_at t) →
  agents_inv done d → agents_inv done (d <| ad_tokens ::= update_where p f |>).
Proof.
  intros Hf Hi. apply (agents_inv_less done done d); try done; simpl.
  - apply unique_index_update; [apply Hi|done|]. intros t _ _. apply Hf.
  - apply Hi.
  - intros t' (t&Ht&->)%elem_of_update_where. exists t. split; [done|]. destruct (p t); [apply Hf|done].
  - intros e He. by exists e.
Qed.
Lemma inv_enrollments done d g :
  unique_index (λ _, true) en_code_hash (g (ad_enrollments d)) →
  (∀ e', e' ∈ g (ad_enrollments d) → ∃ e, e ∈ ad_enrollments d ∧ (e' = e ∨ ∃ at_, e' = e <| en_used_at := at_ |>)) →
  agents_inv done d → agents_inv done (d <| ad_enrollments ::= g |>).
Proof.
  intros Hl He Hi. apply (agents_inv_less done done d); try done; simpl.
  - apply Hi.
  - intros t Ht. by exists t.
  - intros e' (e&Hin&[->|[a ->]])%He; by exists e.
Qed.
Lemma inv_insert done d t : agents_inv done d → token_ok done t → agents_inv done (insert_token t d).2.
Proof.
  intros Hi Ht. unfold insert_token. rewrite bind_gets, bind_require.
  match goal with |- context [if ?b then _ else _] => destruct b; [|done] end. rewrite bind_require.
  match goal with |- context [if ?b then _ else _] => destruct b eqn:E; [|done] end. apply negb_true_iff in E.
  rewrite exists_row_false in E. destruct Hi as [Hu Hc Hts Hes]. split; simpl; try assumption.
  - apply unique_index_snoc; [done|]. intros _ x Hx _ Ex. specialize (E x Hx). unfold streqb in E.
    by rewrite bool_decide_eq_true_2 in E.
  - intros x [Hx| ->%list_elem_of_singleton]%elem_of_app; [by apply Hts|done].
Qed.
Lemma committed_inv {A} done (m : M agent_db A) d :
  agents_inv done d → agents_inv done (m d).2 → agents_inv done (committed m d).2.
Proof. intros Hd Hm. unfold committed. by destruct (m d) as [[]]. Qed.
Lemma bind_inv {A B} done (m : M agent_db A) (k : A → M agent_db B) d :
  agents_inv done (m d).2 → (∀ a d', agents_inv done d' → agents_inv done (k a d').2) →
  agents_inv done ((m ≫= k) d).2.
Proof.
  intros Hm Hk. destruct (m d) as [[a|e] d'] eqn:E; [rewrite (bind_run _ _ _ _ _ E)|by rewrite (bind_Err _ _ _ _ _ E)].
  by apply Hk.
Qed.

Lemma create_inv done now token id name owner scopes w dv days d :
  agents_inv done d → (now, AgCreate token id name owner scopes w dv days) ∈ done →
  agents_inv done (create_agent_token now token id name owner scopes w dv days d).2.
Proof.
  intros Hi Hin. unfold create_agent_token. case_match; [done|].
  destruct (normalize_scopes scopes) as [s|e] eqn:Es; [|done].
  destruct (coerce_expires_days days) as [n|e] eqn:En; [|done].
  cbv zeta. apply bind_inv; [|done]. apply committed_inv; [done|]. apply inv_insert; [done|].
  exists token, scopes. split_and!; [done..|]. left. by do 8 eexists.
Qed.
Lemma enroll_inv done now code name creator scopes w dv days ttl d :
  agents_inv done d → (now, AgEnroll code name creator scopes w dv days ttl) ∈ done →
  agents_inv done (create_agent_enrollment now code name creator scopes w dv days ttl d).2.
Proof.
  intros Hi Hin. unfold create_agent_enrollment.
  destruct (match ttl with PyNone => _ | _ => _ end) as [minutes|] eqn:Em; [|done].
  destruct (negb _) eqn:Er; [done|]. destruct (coerce_expires_days _) as [n|e] eqn:En; [|done].
  apply committed_inv; [done|]. rewrite bind_modify.
  match goal with |- context [d <| ad_enrollments ::= ?g |>] =>
    assert (agents_inv done (d <| ad_enrollments ::= g |>)) as Hi1 end.
  { apply inv_enrollments; [apply unique_index_delete, Hi| |done].
    intros e' [He' _]%elem_of_delete_where. exists e'. auto. }
  destruct (normalize_scopes scopes) as [s|e] eqn:Es; [|exact Hi1]. cbv zeta.
  rewrite bind_gets, bind_require. destruct (negb (exists_row _ _)) eqn:Ex; [|exact Hi1].
  rewrite bind_modify. apply negb_true_iff in Ex. rewrite exists_row_false in Ex. simpl in Ex.
  destruct Hi1 as [Hu Hc Hts Hes]. split; simpl; try assumption.
  - apply unique_index_snoc; [done|]. intros _ x Hx _ E. specialize (Ex x Hx).
    unfold code_is, streqb in Ex. by rewrite bool_decide_eq_true_2 in Ex.
  - intros x [Hx| ->%list_elem_of_singleton]%elem_of_app; [by apply Hes|].
    assert (1 ≤ default DEFAULT_AGENT_TOKEN_DAYS n ≤ MAX_AGENT_TOKEN_DAYS) as Hdays.
    { destruct n as [n|]; simpl; [by eapply coerced_range|].
      unfold DEFAULT_AGENT_TOKEN_DAYS, MAX_AGENT_TOKEN_DAYS. lia. }
    bool_props. exists code, scopes, now. split_and!; [done|done|apply Hdays|apply Hdays|].
    exists name, creator, w, dv, days, ttl, n, minutes. split_and!; done || lia.
Qed.
Lemma redeem_inv `{!CollisionFree} done now token id code d :
  agents_inv done d → (now, AgRedeem token id code) ∈ done →
  agents_inv done (redeem_agent_enrollment now token id code d).2.
Proof.
  intros Hi Hin. unfold redeem_agent_enrollment. case_match; [done|]. apply committed_inv; [done|].
  rewrite bind_gets. destruct (fetchone _ _) as [e|] eqn:Ee; [|done]. case_match; [done|].
  destruct (Z.leb _ now) eqn:El; [done|]. cbv zeta. rewrite bind_gets, bind_modify.
  match goal with |- context [d <| ad_enrollments ::= ?g |>] =>
    assert (agents_inv done (d <| ad_enrollments ::= g |>)) as Hi1 end.
  { apply inv_enrollments; [by apply unique_index_update; try apply Hi| |done].
    intros e' (e0&He0&->)%elem_of_update_where. exists e0. split; [done|]. case_match; [right; by eexists|by left]. }
  case_match; [exact Hi1|]. apply fetchone_Some in Ee as [He Ehash]. unfold code_is, streqb in Ehash. bool_props.
  destruct (ag_enrollments _ _ Hi e He) as (code0&scopes&t0&F1&F2&F3&F4).
  assert (code0 = upper (strip code)) as -> by (apply (inj sha256); unfold hash_token in *; congruence).
  rewrite coerced_days by done.
  apply bind_inv; [|done]. apply inv_insert; [exact Hi1|]. exists token, scopes. split_and!; [done..|].
  right. exists now, id, code, t0, (en_expires_at e), (en_expires_days e). split_and!; done || lia.
Qed.
Lemma use_inv done now token d :
  agents_inv done d → agents_inv done (get_agent_token_principal now token d).2.
Proof.
  intros Hi. unfold get_agent_token_principal. case_match; [done|]. rewrite bind_gets.
  case_match; [|done]. destruct p as [t u]. case_match; [done|]. case_match; [done|].
  apply bind_inv; [|done]. unfold when. case_match; [by apply inv_tokens|done].
Qed.

Lemma agent_do_inv `{!CollisionFree} done now op d :
  agents_inv done d → (now, op) ∈ done → agents_inv done (agent_do now op d).2.
Proof.
  intros Hi Hin. destruct op; unfold agent_do.
  all: apply bind_inv; [|done].
  - by apply create_inv.
  - by apply inv_tokens.
  - by apply enroll_inv.
  - by apply redeem_inv.
  - by apply use_inv.
  - destruct Hi. by split.
Qed.
Lemma agents_history `{!CollisionFree} history : agents_inv history (agent_run history).1.
Proof.
  induction history as [|[now op] history IH] using rev_ind.
  { split; try constructor; by intros ? ?%elem_of_nil. }
  unfold agent_run. rewrite foldl_app. simpl. fold (agent_run history).
  destruct (agent_run history) as [d log]. simpl in *.
  assert (∀ st x, (agent_step st x).1 = (agent_do x.1 x.2 st.1).2) as ->.
  { intros st x. unfold agent_step. by destruct (agent_do _ _ _) as [[[]|] ?]. }
  apply agent_do_inv; [by apply inv_later|]. apply elem_of_app. right. by left.
Qed.
End run.

(** ** Where authority comes from *)

(** The answer to a presented token, from the rows. *)
Lemma principal_row `{Digest} `{CaseMaps} now token d p t d' :
  get_agent_token_principal now token d = (Ok (Some (p, t)), d') →
  t ∈ ad_tokens d ∧ tk_token_hash t = hash_token token ∧ tk_revoked_at t = None ∧
  expired now (tk_expires_at t) = false ∧ p = agent_principal t ∧
  ∃ u, owner_of d t = Some u ∧ ac_disabled u = false.
Proof.
  unfold get_agent_token_principal. case_match; [done|]. rewrite bind_gets.
  destruct (fetchone _ (ad_tokens d)) as [t1|] eqn:E1; [|done]. cbn [mbind option_bind].
  destruct (owner_of d t1) as [u|] eqn:E2; [|done]. cbn [mbind option_bind].
  destruct (_ || ac_disabled u) eqn:E3; [done|]. destruct (expired now _) eqn:E4; [done|].
  intros ([]&d1&_&E)%bind_Ok. injection E as <- <- _. apply fetchone_Some in E1 as [Hin Hp].
  unfold streqb in Hp. bool_props. split_and!; try done; [|by exists u].
  destruct (tk_revoked_at t1); [|done]. match goal with H : ¬ is_Some _ |- _ => by destruct H end.
Qed.

(** [C28] An agent acts with exactly the authority an administrator gave it.  After any history
    of creating, enrolling, revoking and using tokens and of changes to the accounts, a token
    is only accepted as an agent's if it was created, or obtained with an enrollment code
    that had not expired; then it acts for the account that approved it, which is not
    disabled, holds exactly the known scopes that were asked for (the role of agents adds
    none, and there is no wildcard), and the approved lifetime is not over. *)
Theorem agent_authority `{CollisionFree} `{CaseMaps} history now token p t d' :
  get_agent_token_principal now token (agent_run history).1 = (Ok (Some (p, t)), d') →
  ∃ owner scopes until, approved_by history token owner scopes until ∧
    (owner ≠ "" → cu_resource_owner_id p = owner) ∧ expired now until = false ∧
    (∃ u, u ∈ ad_users (agent_run history).1 ∧ ac_id u = owner ∧ ac_disabled u = false) ∧
    ∀ perm, has_permission p perm = true ↔ perm ∈ AGENT_SCOPES ∧ perm ∈ strip <$> scope_items scopes.
Proof.
  intros (Hin&Eh&_&Hexp&->&u&Hu&Hdis)%principal_row.
  destruct (ag_tokens _ _ (agents_history history) t Hin) as (token'&scopes&Eh'&Es&Hap).
  assert (token' = token) as -> by (apply (inj sha256); unfold hash_token in *; congruence).
  pose proof (normalized_scopes _ _ Es) as Hsc.
  exists (tk_owner_user_id t), scopes, (tk_expires_at t). split_and!; [done| |done| |].
  - intros Hne. unfold agent_principal, current_user_post_init. simpl. unfold nonempty.
    by rewrite bool_decide_eq_true_2.
  - apply fetchone_Some in Hu as [Hu Hid]. unfold streqb in Hid. bool_props. by exists u.
  - intros perm. rewrite agent_permission; [apply Hsc|]. intros x Hx. by apply Hsc in Hx as [? _].
Qed.

(** ** Codes *)

Section codes.
Context `{CollisionFree} `{CaseMaps}.

Definition enrolled_codes (history : list (Z * agent_op)) : list string :=
  history ≫= λ x, match x.2 with AgEnroll code _ _ _ _ _ _ _ => [code] | _ => [] end.

(** An exchanged code was issued, and its row is marked if it is still there. *)
Record codes_inv (done : list (Z * agent_op)) (d : agent_db) (log : list string) : Prop := {
  co_rows : ∀ e, e ∈ ad_enrollments d → ∃ code, code ∈ enrolled_codes done ∧ en_code_hash e = hash_token code;
  co_keys : unique_index (λ _, true) en_code_hash (ad_enrollments d);
  co_log : ∀ code, code ∈ log → code ∈ enrolled_codes done;
  co_spent : ∀ code e, code ∈ log → e ∈ ad_enrollments d → en_code_hash e = hash_token code →
    en_used_at e ≠ None;
  co_once : NoDup log;
}.

Lemma codes_inv_same done x d d' log :
  ad_enrollments d' = ad_enrollments d → codes_inv done d log → codes_inv (done ++ [x]) d' log.
Proof.
  intros E [Hr Hk Hl Hs Ho]. split; rewrite ?E; try done.
  - intros e He. destruct (Hr e He) as (code&Hc&?). exists code. split; [|done].
    unfold enrolled_codes. rewrite bind_app. apply elem_of_app. by left.
  - intros code Hc. unfold enrolled_codes. rewrite bind_app. apply elem_of_app. left. by apply Hl.
Qed.

Definition code_hit (code : string) (e : enrollment) : bool :=
  code_is (hash_token code) e && bool_decide (en_used_at e = None).
Lemma insert_token_enrollments t d : ad_enrollments (insert_token t d).2 = ad_enrollments d.
Proof.
  unfold insert_token. rewrite bind_gets, bind_require.
  match goal with |- context [if ?b then _ else _] => destruct b; [|done] end. rewrite bind_require.
  by match goal with |- context [if ?b then _ else _] => destruct b end.
Qed.
(** A code is exchanged, once, or nothing happens. *)
Lemma redeem_outcome now token id code d :
  unique_index (λ _, true) en_code_hash (ad_enrollments d) →
  let c := upper (strip code) in
  let out := redeem_agent_enrollment now token id code d in
  (∃ t e, out.1 = Ok (inl t) ∧ e ∈ ad_enrollments d ∧ en_code_hash e = hash_token c ∧ en_used_at e = None ∧
     ad_enrollments out.2 = update_where (code_hit c) (λ x, x <| en_used_at := Some now |>) (ad_enrollments d)) ∨
  ((∀ t, out.1 ≠ Ok (inl t)) ∧ ad_enrollments out.2 = ad_enrollments d).
Proof.
  intros Hu c out. unfold out, redeem_agent_enrollment. fold c. destruct (negb (nonempty c)); [by right|].
  unfold committed. rewrite bind_gets. destruct (fetchone _ (ad_enrollments d)) as [e|] eqn:Ee; [|by right].
  apply fetchone_Some in Ee as [He Eh]. unfold code_is, streqb in Eh. bool_props.
  destruct (bool_decide (is_Some (en_used_at e))) eqn:Eused; [by right|].
  destruct (Z.leb _ now); [by right|]. cbv zeta. rewrite bind_gets, bind_modify.
  assert (en_used_at e = None) as Hnone.
  { bool_props. destruct (en_used_at e); [|done]. match goal with H : ¬ is_Some _ |- _ => by destruct H end. }
  fold (code_hit c). assert (rowcount (code_hit c) (ad_enrollments d) = 1%nat) as Ec.
  { apply (rowcount_unique en_code_hash _ e); [done..|]. intros x Hx. unfold code_hit, code_is, streqb.
    rewrite andb_true_iff, !bool_decide_eq_true. split; [intros [-> _]; congruence|]. intros E.
    by rewrite (unique_index_inj (λ _, true) en_code_hash _ x e Hu). }
  change (λ x, code_is (hash_token c) x && bool_decide (en_used_at x = None)) with (code_hit c).
  rewrite Ec, bool_decide_eq_true_2 by done. cbn [negb].
  match goal with |- context [(insert_token ?t ≫= _) ?d1] =>
    pose proof (insert_token_enrollments t d1) as Ei; destruct (insert_token t d1) as [[[]|ex] d2] eqn:E end.
  - rewrite (bind_run _ _ _ _ _ E). left. eexists _, e. by split_and!.
  - rewrite (bind_Err _ _ _ _ _ E). by right.
Qed.

Lemma enroll_outcome now code name creator scopes w dv days ttl d :
  let out := create_agent_enrollment now code name creator scopes w dv days ttl d in
  ad_enrollments out.2 = ad_enrollments d ∨
  ∃ p e, ad_enrollments out.2 = delete_where p (ad_enrollments d) ++ [e] ∧
    en_code_hash e = hash_token code ∧
    ∀ x, x ∈ delete_where p (ad_enrollments d) → en_code_hash x ≠ hash_token code.
Proof.
  intros out. unfold out, create_agent_enrollment.
  destruct (match ttl with PyNone => _ | _ => _ end) as [minutes|]; [|by left].
  destruct (negb _); [by left|]. destruct (coerce_expires_days _) as [n|e]; [|by left].
  unfold committed. rewrite bind_modify. destruct (normalize_scopes scopes) as [s|e]; [|by left]. cbv zeta.
  rewrite bind_gets, bind_require. destruct (negb (exists_row _ _)) eqn:Ex; [|by left].
  rewrite bind_modify. right. eexists _, _. split; [reflexivity|]. split; [done|].
  intros x Hx E. apply negb_true_iff in Ex. rewrite exists_row_false in Ex. specialize (Ex x Hx).
  unfold code_is, streqb in Ex. by rewrite bool_decide_eq_true_2 in Ex.
Qed.

(** The operations that have nothing to do with codes. *)
Lemma other_outcome now op d :
  match op with AgEnroll _ _ _ _ _ _ _ _ | AgRedeem _ _ _ => False | _ => True end →
  ad_enrollments (agent_do now op d).2 = ad_enrollments d ∧ (agent_do now op d).1 ≠ Ok true.
Proof.
  assert (∀ {A} (m : M agent_db A), ad_enrollments (m d).2 = ad_enrollments d →
    ad_enrollments ((_ ← m; mret false) d).2 = ad_enrollments d ∧ ((_ ← m; mret false) d).1 ≠ Ok true) as Hb.
  { intros A m Hm. destruct (m d) as [[a|e] d'] eqn:E;
      [rewrite (bind_run _ _ _ _ _ E)|rewrite (bind_Err _ _ _ _ _ E)]; by split. }
  destruct op; try done; intros _; apply Hb; try done.
  - unfold create_agent_token. case_match; [done|]. case_match; [|done]. case_match; [|done]. cbv zeta.
    match goal with |- context [insert_token ?t] =>
      pose proof (insert_token_enrollments t d) as Ei; unfold committed, mbind, M_bind end.
    by destruct (insert_token _ d) as [[[]|ex] d2].
  - unfold get_agent_token_principal. case_match; [done|]. rewrite bind_gets. case_match; [|done].
    destruct p as [t u]. do 2 (case_match; [done|]). unfold when. by case_match.
Qed.

Lemma codes_inv_enroll done now code name creator scopes w dv days ttl d log :
  codes_inv done d log → code ∉ enrolled_codes done →
  codes_inv (done ++ [(now, AgEnroll code name creator scopes w dv days ttl)])
    (create_agent_enrollment now code name creator scopes w dv days ttl d).2 log.
Proof.
  intros Hi Hnew. destruct (enroll_outcome now code name creator scopes w dv days ttl d) as [E|(p&e&E&Eh&Hne)];
    [by apply codes_inv_same with d|].
  assert (enrolled_codes (done ++ [(now, AgEnroll code name creator scopes w dv days ttl)])
          = enrolled_codes done ++ [code]) as Ec by (unfold enrolled_codes; by rewrite bind_app).
  destruct Hi as [Hr Hk Hl Hs Ho]. split; rewrite ?E, ?Ec; [| | | |done].
  - intros x [[Hx _]%elem_of_delete_where| ->%list_elem_of_singleton]%elem_of_app.
    + destruct (Hr x Hx) as (c&Hc&?). exists c. split; [apply elem_of_app; by left|done].
    + exists code. split; [apply elem_of_app; right; by left|done].
  - apply unique_index_snoc; [by apply unique_index_delete|]. intros _ x Hx _. rewrite Eh. by apply Hne.
  - intros c Hc. apply elem_of_app. left. by apply Hl.
  - intros c x Hc [[Hx _]%elem_of_delete_where| ->%list_elem_of_singleton]%elem_of_app Ex; [by eapply Hs|].
    exfalso. rewrite Eh in Ex. apply (inj sha256) in Ex as <-. by apply Hnew, Hl.
Qed.
Lemma codes_inv_redeem done now token id code d log :
  codes_inv done d log →
  let c := upper (strip code) in
  let out := redeem_agent_enrollment now token id code d in
  codes_inv (done ++ [(now, AgRedeem token id code)]) out.2
    (match out.1 with Ok (inl _) => log ++ [c] | _ => log end).
Proof.
  intros Hi c out. destruct (redeem_outcome now token id code d (co_keys _ _ _ Hi))
    as [(t&e&Er&He&Eh&Hn&E)|[Hnot E]].
  2: { fold out in Hnot, E. destruct out as [[[t|x]|ex] d'] eqn:Eo; simpl in *;
         [by destruct (Hnot t)|by apply codes_inv_same with d..]. }
  fold out c in Er, E, Eh. rewrite Er.
  assert (c ∉ log) as Hfresh by (intros Hc; by apply (co_spent _ _ _ Hi c e Hc He Eh)).
  apply (codes_inv_same done (now, AgRedeem token id code) d d log eq_refl) in Hi as [Hr Hk Hl Hs Ho].
  assert (c ∈ enrolled_codes (done ++ [(now, AgRedeem token id code)])) as Hc.
  { destruct (Hr e He) as (c'&Hc'&E'). rewrite Eh in E'. by apply (inj sha256) in E' as ->. }
  split; rewrite ?E.
  - intros x (x0&Hx0&->)%elem_of_update_where. destruct (Hr x0 Hx0) as (c'&?&?). exists c'.
    by destruct (code_hit c x0).
  - by apply unique_index_update.
  - intros c' [Hc'| ->%list_elem_of_singleton]%elem_of_app; [by apply Hl|done].
  - intros c' x Hc' (x0&Hx0&->)%elem_of_update_where Ex. destruct (code_hit c x0) eqn:Eh0; [done|].
    apply elem_of_app in Hc' as [Hc'| ->%list_elem_of_singleton]; [by eapply Hs|].
    unfold code_hit, code_is, streqb in Eh0. rewrite bool_decide_eq_true_2 in Eh0 by done.
    by apply bool_decide_eq_false in Eh0.
  - apply NoDup_app. split_and!; [done| |apply NoDup_singleton].
    by intros x Hx ->%list_elem_of_singleton.
Qed.

Lemma codes_history history :
  NoDup (enrolled_codes history) →
  codes_inv history (agent_run history).1 (agent_run history).2.
Proof.
  induction history as [|[now op] history IH] using rev_ind; intros Hnd.
  { split; try constructor; by intros ? ?%elem_of_nil || (intros ? ? ?%elem_of_nil). }
  unfold enrolled_codes in Hnd. rewrite bind_app in Hnd. apply NoDup_app in Hnd as (Hnd&Hdis&_).
  specialize (IH Hnd). unfold agent_run. rewrite foldl_app. simpl. fold (agent_run history).
  destruct (agent_run history) as [d log]. simpl in IH.
  assert (match op with AgEnroll _ _ _ _ _ _ _ _ | AgRedeem _ _ _ => False | _ => True end →
    codes_inv (history ++ [(now, op)]) (agent_step (d, log) (now, op)).1 (agent_step (d, log) (now, op)).2)
    as Hother.
  { intros Ho. destruct (other_outcome now op d Ho) as [E Hr]. unfold agent_step. cbn [fst snd].
    destruct (agent_do now op d) as [[[]|ex] d'] eqn:Ed; simpl in *; [done|by apply codes_inv_same with d..]. }
  destruct op; try by apply Hother.
  - assert (code ∉ enrolled_codes history) as Hnew by (intros Hin; apply (Hdis code Hin); simpl; left).
    pose proof (codes_inv_enroll history now code name creator scopes workers devices expires_days
                  ttl_minutes d log IH Hnew) as Hc.
    unfold agent_step, agent_do. cbn [fst snd].
    destruct (create_agent_enrollment now code name creator scopes workers devices expires_days ttl_minutes d)
      as [[e|ex] d'] eqn:E; [rewrite (bind_run _ _ _ _ _ E)|rewrite (bind_Err _ _ _ _ _ E)]; exact Hc.
  - pose proof (codes_inv_redeem history now token token_id code d log IH) as Hc. cbv zeta in Hc.
    unfold agent_step, agent_do. cbn [fst snd].
    destruct (redeem_agent_enrollment now token token_id code d) as [[[t|x]|ex] d'] eqn:E;
      [rewrite (bind_run _ _ _ _ _ E)|rewrite (bind_run _ _ _ _ _ E)|rewrite (bind_Err _ _ _ _ _ E)]; exact Hc.
Qed.
End codes.

(** An enrollment code is exchanged once.  In any history, however often and by whomever
    a code is presented (in whatever case and with whatever blanks around it), at most one
    token comes out of it, and only out of codes that were issued. *)
Theorem enrollment_redeemed_once `{CollisionFree} `{CaseMaps} history :
  NoDup (enrolled_codes history) →
  NoDup (agent_run history).2 ∧ ∀ code, code ∈ (agent_run history).2 → code ∈ enrolled_codes history.
Proof. intros Hnd. by destruct (codes_history history Hnd) as [_ _ Hl _ Ho]. Qed.

(** ** Agents at work *)

Definition sample_admin : current_user := CurrentUserOf "u1" "ann" "admin" "Ann" ∅ "u1".
Definition sample_agents : list (Z * agent_op) :=
  [(0, AgAccounts [Account "u1" false]);
   (1, AgEnroll "AB12" "builder" sample_admin (TlText "build.read, jobs.read") TlNone TlNone (PyInt 30) PyNone);
   (2, AgRedeem "secret-1" "agt_1" " AB12 "); (3, AgRedeem "secret-2" "agt_2" "AB12"); (4, AgUse "secret-1")].
Lemma sample_exchanged : (agent_run sample_agents).2 = ["AB12"].
Proof. vm_compute. reflexivity. Qed.
Definition sample_answer : option (current_user * agent_token) :=
  match (get_agent_token_principal 5 "secret-1" (agent_run sample_agents).1).1 with Ok a => a | Err _ => None end.
Definition sample_db : agent_db := (get_agent_token_principal 5 "secret-1" (agent_run sample_agents).1).2.

Lemma sample_accepted : ∃ p t,
  get_agent_token_principal 5 "secret-1" (agent_run sample_agents).1 = (Ok (Some (p, t)), sample_db) ∧
  cu_id p = "agent:agt_1".
Proof. eexists _, _. split; [vm_compute; reflexivity|reflexivity]. Qed.
Lemma agent_authority_witness :
  ∃ p, cu_id p = "agent:agt_1" ∧ ∃ owner scopes until, approved_by sample_agents "secret-1" owner scopes until ∧
    (owner ≠ "" → cu_resource_owner_id p = owner) ∧ expired 5 until = false.
Proof.
  destruct sample_accepted as (p&t&E&Ep).
  destruct (agent_authority sample_agents 5 "secret-1" p t sample_db E) as (o&s&u&H1&H2&H3&_).
  exists p. split; [exact Ep|]. exists o, s, u. split_and!; [exact H1|exact H2|exact H3].
Defined.
Lemma enrollment_redeemed_once_witness :
  (agent_run sample_agents).2 = ["AB12"] ∧ NoDup (agent_run sample_agents).2.
Proof.
  split; [exact sample_exchanged|]. apply (enrollment_redeemed_once sample_agents).
  vm_compute. repeat constructor; set_solver.
Defined.
