(* ===== verification/LoadCache.v ===== *)
(** The cache with coalesced loads, [foundation/cache.py].

    Every method holds the lock of the cache while it touches it, so what runs concurrently is
    a sequence of its atomic sections: [get], [set], the beginning, storing and end of a load,
    [invalidate] and [clear].  Times are readings of the monotonic clock. *)

From S2P Require Import Prelude.

Open Scope Z_scope.

Section cache.
Context {K V : Type} `{Countable K}.

(** An OrderedDict: the entries, the least recently used first. *)
Abbreviation items := (list (K * (Z * V))).
Definition lookup_item (k : K) (l : items) : option (Z * V) :=
  snd <$> fetchone (λ x, bool_decide (x.1 = k)) l.
Definition pop_item (k : K) (l : items) : items := delete_where (λ x, bool_decide (x.1 = k)) l.

(** [_KeyVersion] objects are compared by identity: each has a number, and [ca_users] holds
    their counters.  [ca_pending] are the tasks shared by the callers of an event loop, each
    with the number of its load. *)
(* src/foundation/cache.py:33-47 TTLCache.__init__ *)
Record cache := Cache {
  ca_items : items;
  ca_generation : Z;
  ca_versions : gmap K nat;
  ca_users : gmap nat Z;
  ca_seqs : gmap K Z;
  ca_pending : list (nat * K * nat);
  ca_created : nat;
}.
#[export] Instance cache_eta : Eta cache := λ c,
  Cache (ca_items c) (ca_generation c) (ca_versions c) (ca_users c) (ca_seqs c) (ca_pending c) (ca_created c).
Definition empty_cache : cache := Cache [] 0 ∅ ∅ ∅ [] 0.

(** What a load keeps from its beginning. *)
Record ticket := Ticket { ti_key : K; ti_generation : Z; ti_version : nat; ti_seq : Z }.

Context (ttl : Z) (max_entries : option nat).

Definition expired_item (now : Z) (x : K * (Z * V)) : bool := Z.leb ttl (now - x.2.1).

(* src/foundation/cache.py:73-83 TTLCache.get *)
Definition get (now : Z) (k : K) : M cache (option V) :=
  item ← gets (λ c, lookup_item k (ca_items c));
  match item with
  | None => mret None
  | Some (created_at, value) =>
      if Z.leb ttl (now - created_at)
      then _ ← modify (λ c, c <| ca_items ::= pop_item k |>); mret None
      else _ ← modify (λ c, c <| ca_items ::= λ l, pop_item k l ++ [(k, (created_at, value))] |>);
           mret (Some value)
  end.

(** [while len(items) > max_entries: popitem(last=False)]. *)
Definition evict (l : items) : items :=
  match max_entries with Some n => drop (length l - n) l | None => l end.
(* src/foundation/cache.py:85-98 TTLCache.set *)
Definition set_ (now : Z) (k : K) (v : V) : M cache unit :=
  modify (λ c, c <| ca_items ::= λ l,
    let l := delete_where (expired_item now) l in
    if Z.eqb ttl 0 then l else evict (pop_item k l ++ [(k, (now, v))]) |>).

(* src/foundation/cache.py:49-55 TTLCache._begin_load *)
Definition begin_load (k : K) : M cache ticket :=
  c ← gets id;
  version ← match ca_versions c !! k with
            | Some version => mret version
            | None => _ ← modify (λ c, c <| ca_versions ::= <[k := ca_created c]> |>
                                         <| ca_users ::= <[ca_created c := 0]> |> <| ca_created ::= S |>);
                      mret (ca_created c)
            end;
  let seq := default 0 (ca_seqs c !! k) + 1 in
  _ ← modify (λ c, c <| ca_users ::= alter Z.succ version |> <| ca_seqs ::= <[k := seq]> |>);
  mret (Ticket k (ca_generation c) version seq).

(* src/foundation/cache.py:57-62 TTLCache._end_load *)
Definition end_load (t : ticket) : M cache unit :=
  _ ← modify (λ c, c <| ca_users ::= alter Z.pred (ti_version t) |>);
  c ← gets id;
  when (bool_decide (ca_users c !! ti_version t = Some 0)
        && bool_decide (ca_versions c !! ti_key t = Some (ti_version t)))
    (modify (λ c, c <| ca_versions ::= delete (ti_key t) |> <| ca_seqs ::= delete (ti_key t) |>)).

(** Whether the load may still populate its slot. *)
(* src/foundation/cache.py:66-70 TTLCache._store_loaded *)
Definition may_store (t : ticket) (c : cache) : bool :=
  Z.eqb (ti_generation t) (ca_generation c)
  && bool_decide (ca_versions c !! ti_key t = Some (ti_version t))
  && bool_decide (ca_seqs c !! ti_key t = Some (ti_seq t)).
(* src/foundation/cache.py:64-71 TTLCache._store_loaded *)
Definition store_loaded (now : Z) (t : ticket) (v : V) : M cache unit :=
  ok ← gets (may_store t); when ok (set_ now (ti_key t) v).

(* src/foundation/cache.py:149-155 TTLCache.invalidate *)
Definition invalidate (k : K) : M cache unit :=
  modify (λ c, c <| ca_items ::= pop_item k |> <| ca_versions ::= delete k |> <| ca_seqs ::= delete k |>
    <| ca_pending ::= delete_where (λ p, bool_decide (p.1.2 = k)) |>).
(* src/foundation/cache.py:157-163 TTLCache.clear *)
Definition clear : M cache unit :=
  modify (λ c, c <| ca_items := [] |> <| ca_generation ::= Z.succ |> <| ca_versions := ∅ |>
    <| ca_seqs := ∅ |> <| ca_pending := [] |>).

(** Nobody else at work: the load runs between its beginning and its end, which the
    [finally] clause guarantees. *)
(* src/foundation/cache.py:100-115 TTLCache.get_or_load *)
Definition get_or_load (now later : Z) (k : K) (load : result V) : M cache V :=
  cached ← get now k;
  match cached with
  | Some v => mret v
  | None =>
      cached ← get now k;
      match cached with
      | Some v => mret v
      | None =>
          t ← begin_load k;
          v ← try (match load with Ok v => _ ← store_loaded later t v; mret v | Err e => raise e end)
                (λ e, _ ← end_load t; raise e);
          _ ← end_load t; mret v
      end
  end.

(** The task of an event loop for a key: the one that is pending, or the given number for a
    load that begins. *)
Definition task_is (loop : nat) (k : K) (p : nat * K * nat) : bool :=
  bool_decide (p.1.1 = loop) && bool_decide (p.1.2 = k).
(* src/foundation/cache.py:117-147 TTLCache.get_or_load_async *)
Definition join_or_begin (loop : nat) (k : K) (n : nat) : M cache (nat * option ticket) :=
  task ← gets (λ c, fetchone (task_is loop k) (ca_pending c));
  match task with
  | Some p => mret (p.2, None)
  | None =>
      t ← begin_load k;
      _ ← modify (λ c, c <| ca_pending ::= λ l, l ++ [((loop, k), n)] |>);
      mret (n, Some t)
  end.
(** The callback of a task that is done. *)
(* src/foundation/cache.py:137-146 TTLCache.get_or_load_async *)
Definition finished (n : nat) (t : ticket) : M cache unit :=
  _ ← end_load t;
  modify (λ c, c <| ca_pending ::= delete_where (λ p, bool_decide (p.1.2 = ti_key t) && Nat.eqb p.2 n) |>).
End cache.
