(* ===== verification/LoadCacheProperties.v ===== *)
(** What the cache promises when its sections interleave: the newest load wins, nothing
    outlives an invalidation, a load is shared only while it is good, and the answers are
    those of a map from keys to the last write. *)

From S2P Require Import Prelude LoadCache.

Open Scope Z_scope.

(** Counting rows that are changed one by one. *)
Section counting.
Context {R : Type} (p : R → bool).
Lemma rowcount_cons r t : rowcount p (r :: t) = ((if p r then 1 else 0) + rowcount p t)%nat.
Proof. unfold rowcount. rewrite fetchall_cons. by case_match. Qed.
Lemma rowcount_app t t' : rowcount p (t ++ t') = (rowcount p t + rowcount p t')%nat.
Proof. unfold rowcount. by rewrite fetchall_app, length_app. Qed.
Lemma rowcount_fmap (f : R → R) t : (∀ r, p (f r) = p r) → rowcount p (f <$> t) = rowcount p t.
Proof. intros Hf. induction t as [|r t IH]; [done|]. by rewrite fmap_cons, !rowcount_cons, Hf, IH. Qed.
Lemma rowcount_insert t i r r' :
  t !! i = Some r → p r = true → p r' = false → rowcount p t = S (rowcount p (<[i := r']> t)).
Proof.
  intros Hi Hr Hr'. revert i Hi. induction t as [|x t IH]; intros [|i] Hi; [done..| |]; simpl in *.
  - injection Hi as ->. by rewrite !rowcount_cons, Hr, Hr'.
  - by rewrite !rowcount_cons, (IH i Hi).
Qed.
Lemma rowcount_insert_other t i r r' :
  t !! i = Some r → p r = p r' → rowcount p (<[i := r']> t) = rowcount p t.
Proof.
  intros Hi Hr. revert i Hi. induction t as [|x t IH]; intros [|i] Hi; [done..| |]; simpl in *.
  - injection Hi as ->. by rewrite !rowcount_cons, Hr.
  - by rewrite !rowcount_cons, (IH i Hi).
Qed.
Lemma rowcount_zero t r : rowcount p t = 0%nat → r ∈ t → p r = false.
Proof.
  intros Hz Hr. destruct (p r) eqn:E; [|done]. exfalso.
  assert (r ∈ fetchall p t) as Hin by by apply elem_of_fetchall. unfold rowcount in Hz.
  apply length_zero_iff_nil in Hz. rewrite Hz in Hin. by apply elem_of_nil in Hin.
Qed.
End counting.

Section machine.
Context {K V : Type} `{Countable K} (ttl : Z) (max_entries : option nat).
Implicit Types (k : K) (v : V) (n : nat).
Abbreviation state := (@cache K V _ _).
Abbreviation ticket := (@LoadCache.ticket K).

(** A load and what has become of it: running, not invalidated since it began, and not
    overtaken by another load of its key either. *)
Record load := Load { ld_ticket : ticket; ld_live : bool; ld_valid : bool; ld_current : bool }.

(** [sy_written] holds the last write of every key that was not invalidated since. *)
Record system := System {
  sy_cache : state; sy_loads : list load; sy_written : gmap K (Z * V);
}.
Definition empty_system : system := System empty_cache [] ∅.

(** The sections; loads are numbered in the order they begin.  [OpJoin] is an asynchronous
    caller that missed, [OpBegin] a synchronous one. *)
Inductive cache_op :=
  | OpGet k | OpSet k v | OpBegin k | OpJoin (loop : nat) k | OpStore n v | OpEnd n
  | OpInvalidate k | OpClear.

Definition key_is k (ld : load) : bool := bool_decide (ti_key (ld_ticket ld) = k).
Definition overtake k (l : list load) : list load :=
  (λ ld, if key_is k ld then Load (ld_ticket ld) (ld_live ld) (ld_valid ld) false else ld) <$> l.
Definition spoil (p : load → bool) (l : list load) : list load :=
  (λ ld, if p ld then Load (ld_ticket ld) (ld_live ld) false false else ld) <$> l.
Definition begun k (t : ticket) (l : list load) : list load := overtake k l ++ [Load t true true true].

Definition cache_step (now : Z) (op : cache_op) (s : system) : option system :=
  let '(System c l w) := s in
  match op with
  | OpGet k => Some (System (get ttl now k c).2 l w)
  | OpSet k v => Some (System (set_ ttl max_entries now k v c).2 l (<[k := (now, v)]> w))
  | OpBegin k =>
      match begin_load k c with (Ok t, c') => Some (System c' (begun k t l) w) | _ => None end
  | OpJoin loop k =>
      match join_or_begin loop k (length l) c with
      | (Ok (_, Some t), c') => Some (System c' (begun k t l) w)
      | (Ok (_, None), c') => Some (System c' l w)
      | _ => None
      end
  | OpStore n v =>
      ld ← l !! n;
      if ld_live ld
      then Some (System (store_loaded ttl max_entries now (ld_ticket ld) v c).2 l
                   (if ld_current ld then <[ti_key (ld_ticket ld) := (now, v)]> w else w))
      else None
  | OpEnd n =>
      ld ← l !! n;
      if ld_live ld
      then Some (System (finished n (ld_ticket ld) c).2
                   (<[n := Load (ld_ticket ld) false (ld_valid ld) (ld_current ld)]> l) w)
      else None
  | OpInvalidate k => Some (System (invalidate k c).2 (spoil (key_is k) l) (delete k w))
  | OpClear => Some (System (clear c).2 (spoil (λ _, true) l) ∅)
  end.
Fixpoint cache_run (s : system) (history : list (Z * cache_op)) : option system :=
  match history with
  | [] => Some s
  | (now, op) :: history => s ← cache_step now op s; cache_run s history
  end.

(** ** Versions and sequence numbers *)

Definition live_of (version : nat) (ld : load) : bool :=
  ld_live ld && Nat.eqb (ti_version (ld_ticket ld)) version.

Record load_ok (c : state) (ld : load) : Prop := {
  lo_old : (ti_version (ld_ticket ld) < ca_created c)%nat;
  lo_seq : ∀ m, ca_versions c !! ti_key (ld_ticket ld) = Some (ti_version (ld_ticket ld)) →
    ca_seqs c !! ti_key (ld_ticket ld) = Some m → ti_seq (ld_ticket ld) ≤ m;
  lo_key : ∀ k, ca_versions c !! k = Some (ti_version (ld_ticket ld)) → k = ti_key (ld_ticket ld);
  lo_valid : ld_live ld = true → (ld_valid ld = true ↔
    ca_versions c !! ti_key (ld_ticket ld) = Some (ti_version (ld_ticket ld)));
  lo_current : ld_live ld = true → (ld_current ld = true ↔
    ld_valid ld = true ∧ ca_seqs c !! ti_key (ld_ticket ld) = Some (ti_seq (ld_ticket ld)));
  lo_generation : ld_valid ld = true → ti_generation (ld_ticket ld) = ca_generation c;
}.
Record cache_ok (s : system) : Prop := {
  co_versions : ∀ k version, ca_versions (sy_cache s) !! k = Some version → (version < ca_created (sy_cache s))%nat;
  co_distinct : ∀ k k' version, ca_versions (sy_cache s) !! k = Some version →
    ca_versions (sy_cache s) !! k' = Some version → k = k';
  co_seqs : ∀ k, is_Some (ca_versions (sy_cache s) !! k) ↔ is_Some (ca_seqs (sy_cache s) !! k);
  co_users : ∀ k version, ca_versions (sy_cache s) !! k = Some version →
    ca_users (sy_cache s) !! version = Some (Z.of_nat (rowcount (live_of version) (sy_loads s)));
  co_loads : Forall (load_ok (sy_cache s)) (sy_loads s);
}.

(** What no section but those of the loads touches. *)
Definition same_versions (c c' : state) : Prop :=
  ca_generation c' = ca_generation c ∧ ca_versions c' = ca_versions c ∧ ca_users c' = ca_users c ∧
  ca_seqs c' = ca_seqs c ∧ ca_created c' = ca_created c.
Lemma load_ok_same c c' ld :
  ca_generation c' = ca_generation c → ca_versions c' = ca_versions c → ca_seqs c' = ca_seqs c →
  ca_created c' = ca_created c → load_ok c ld → load_ok c' ld.
Proof. intros Hg Hv Hs Hc []. by split; rewrite ?Hv, ?Hc, ?Hs, ?Hg. Qed.
Lemma cache_ok_same c c' l w w' : same_versions c c' → cache_ok (System c l w) → cache_ok (System c' l w').
Proof.
  intros (Hg&Hv&Hu&Hs&Hc) [H1 H2 H3 H4 H5]. split; simpl in *; rewrite ?Hv, ?Hc, ?Hs, ?Hu; try done.
  eapply Forall_impl; [exact H5|]. intros ld. by apply load_ok_same.
Qed.
Lemma get_versions now k c : same_versions c (get ttl now k c).2.
Proof. unfold get. rewrite bind_gets. repeat case_match; by split_and!. Qed.
Lemma set_versions now k v c : same_versions c (set_ ttl max_entries now k v c).2.
Proof. by split_and!. Qed.
Lemma store_versions now t v c : same_versions c (store_loaded ttl max_entries now t v c).2.
Proof. unfold store_loaded. rewrite bind_gets. unfold when. by case_match. Qed.

(** A load begins: its version is the key's, or a new one. *)
Definition version_of k (c : state) : nat := default (ca_created c) (ca_versions c !! k).
Lemma begin_load_run k (c : state) :
  ∃ users created,
    begin_load k c = (Ok (Ticket k (ca_generation c) (version_of k c) (default 0 (ca_seqs c !! k) + 1)),
      Cache (ca_items c) (ca_generation c) (<[k := version_of k c]> (ca_versions c)) users
        (<[k := default 0 (ca_seqs c !! k) + 1]> (ca_seqs c)) (ca_pending c) created) ∧
    match ca_versions c !! k with
    | Some version => users = alter Z.succ version (ca_users c) ∧ created = ca_created c
    | None => users = alter Z.succ (ca_created c) (<[ca_created c := 0]> (ca_users c)) ∧ created = S (ca_created c)
    end.
Proof.
  unfold begin_load, version_of. rewrite bind_gets. cbn [id].
  destruct (ca_versions c !! k) as [version|] eqn:E.
  - rewrite bind_ret, bind_modify. eexists _, _. split; [|by split]. unfold mret, M_ret. simpl.
    rewrite insert_id by done. reflexivity.
  - eexists _, _. split; [|by split]. reflexivity.
Qed.
Lemma begun_loads k t l ld' :
  ld' ∈ begun k t l ↔ ld' = Load t true true true ∨ ∃ ld, ld ∈ l ∧
    ld' = if key_is k ld then Load (ld_ticket ld) (ld_live ld) (ld_valid ld) false else ld.
Proof.
  unfold begun, overtake. rewrite elem_of_app, list_elem_of_singleton, list_elem_of_fmap. naive_solver.
Qed.
Lemma begun_count version k t l :
  rowcount (live_of version) (begun k t l) =
  (rowcount (live_of version) l + if Nat.eqb (ti_version t) version then 1 else 0)%nat.
Proof.
  unfold begun, overtake. rewrite rowcount_app, rowcount_fmap; [|by intros ld; case_match].
  rewrite rowcount_cons. unfold live_of at 2. simpl. by case_match.
Qed.
(** The counters when a load begins. *)
Lemma begun_users k (c : state) l users created t :
  (∀ k version, ca_versions c !! k = Some version → (version < ca_created c)%nat) →
  (∀ k', k' ≠ k → ca_versions c !! k' ≠ Some (version_of k c)) →
  (∀ k version, ca_versions c !! k = Some version →
    ca_users c !! version = Some (Z.of_nat (rowcount (live_of version) l))) →
  (∀ ld, ld ∈ l → load_ok c ld) → ti_version t = version_of k c →
  match ca_versions c !! k with
  | Some version => users = alter Z.succ version (ca_users c) ∧ created = ca_created c
  | None => users = alter Z.succ (ca_created c) (<[ca_created c := 0]> (ca_users c)) ∧ created = S (ca_created c)
  end →
  ∀ k' version, <[k := version_of k c]> (ca_versions c) !! k' = Some version →
    users !! version = Some (Z.of_nat (rowcount (live_of version) (begun k t l))).
Proof.
  intros Hv Hne Hu Hl Ht Hnew k' version Hk'. rewrite begun_count, Ht.
  apply lookup_insert_Some in Hk' as [[<- <-]|[Hk Hk']].
  - rewrite Nat.eqb_refl. unfold version_of in *.
    destruct (ca_versions c !! k) as [x|] eqn:Ek; destruct Hnew as [-> _]; simpl.
    + rewrite lookup_alter_eq, (Hu _ _ Ek). simpl. f_equal. lia.
    + rewrite lookup_alter_eq, lookup_insert_eq. simpl. f_equal. unfold rowcount. rewrite fetchall_nil; [done|].
      intros ld Hin. unfold live_of. apply andb_false_iff. right. apply Nat.eqb_neq.
      pose proof (lo_old _ _ (Hl ld Hin)). lia.
  - assert (version ≠ version_of k c) as Hx by (intros ->; by apply (Hne k' (not_eq_sym Hk))).
    assert (Nat.eqb (version_of k c) version = false) as -> by (apply Nat.eqb_neq; congruence).
    rewrite Nat.add_0_r, <-(Hu _ _ Hk'). unfold version_of in Hx. apply Hv in Hk'.
    destruct (ca_versions c !! k) as [x|]; destruct Hnew as [-> _]; simpl in Hx.
    + by rewrite lookup_alter_ne by congruence.
    + rewrite lookup_alter_ne, lookup_insert_ne by lia. done.
Qed.
(** What another load sees of it. *)
Lemma begun_other k (c c' : state) ld :
  ca_generation c' = ca_generation c ∧ ca_versions c' = <[k := version_of k c]> (ca_versions c) ∧
  ca_seqs c' = <[k := default 0 (ca_seqs c !! k) + 1]> (ca_seqs c) →
  load_ok c ld → (ca_created c ≤ ca_created c')%nat →
  (is_Some (ca_versions c !! k) ↔ is_Some (ca_seqs c !! k)) →
  load_ok c' (if key_is k ld then Load (ld_ticket ld) (ld_live ld) (ld_valid ld) false else ld).
Proof.
  intros (Eg&Ev&Es) [Ho Hseq Hkey Hval Hcur Hgen] Hcr Hs. unfold key_is.
  assert (version_of k c = ti_version (ld_ticket ld) → ca_versions c !! k = Some (ti_version (ld_ticket ld))) as Hvo.
  { unfold version_of. destruct (ca_versions c !! k); simpl; [congruence|lia]. }
  assert (ca_versions c !! k = Some (ti_version (ld_ticket ld)) → version_of k c = ti_version (ld_ticket ld)) as Hov.
  { unfold version_of. by intros ->. }
  case_bool_decide as Hk; split; simpl; rewrite ?Ev, ?Es, ?Eg; try done; try lia.
  - rewrite Hk, !lookup_insert_eq. intros m [= Hm%Hvo] [= <-].
    destruct (proj1 Hs) as [m0 Hm0]; [by eexists|]. rewrite Hm0. simpl. rewrite Hk in Hseq.
    specialize (Hseq m0 Hm Hm0). lia.
  - intros k' [[<- _]|[_ Hk']]%lookup_insert_Some; [done|by apply Hkey].
  - rewrite Hk, lookup_insert_eq. intros Hlive. rewrite (Hval Hlive), Hk. split; intros E.
    + by rewrite (Hov E).
    + apply Hvo. congruence.
  - rewrite Hk, lookup_insert_eq. intros Hlive. split; [done|]. intros [Hv%(Hval Hlive) [= Hm]]. rewrite Hk in Hv, Hseq.
    destruct (proj1 Hs) as [m0 Hm0]; [by eexists|]. rewrite Hm0 in Hm. simpl in Hm.
    specialize (Hseq m0 Hv Hm0). lia.
  - rewrite !lookup_insert_ne by congruence. done.
  - intros k' [[<- Hv]|[_ Hk']]%lookup_insert_Some; [by apply Hkey, Hvo|by apply Hkey].
  - rewrite lookup_insert_ne by congruence. done.
  - rewrite lookup_insert_ne by congruence. done.
Qed.
Lemma begin_load_ok k c l w w' :
  cache_ok (System c l w) →
  ∃ t c', begin_load k c = (Ok t, c') ∧ ti_key t = k ∧ cache_ok (System c' (begun k t l) w') ∧
    ca_items c' = ca_items c ∧ ca_pending c' = ca_pending c.
Proof.
  intros [Hv Hd Hs Hu Hl]. simpl in *. destruct (begin_load_run k c) as (users&created&E&Hnew).
  eexists _, _. split; [exact E|]. split_and!; try done. rewrite Forall_forall in Hl.
  assert (∀ version, version = version_of k c ∨ (∃ k', ca_versions c !! k' = Some version) →
    (version < created)%nat) as Hlt.
  { unfold version_of. intros version [->|[k' Hk']].
    - destruct (ca_versions c !! k) as [x|] eqn:Ek; destruct Hnew as [_ ->]; simpl; [by eapply Hv|lia].
    - apply Hv in Hk'. destruct (ca_versions c !! k); destruct Hnew as [_ ->]; lia. }
  assert (∀ k', k' ≠ k → ca_versions c !! k' ≠ Some (version_of k c)) as Hne.
  { unfold version_of. intros k' Hk' E'. destruct (ca_versions c !! k) as [x|] eqn:Ek; simpl in E'.
    - by apply Hk', (Hd k' k x).
    - apply Hv in E'. lia. }
  split; simpl.
  - intros k' version [[<- <-]|[_ Hk']]%lookup_insert_Some; apply Hlt; eauto.
  - intros k1 k2 version [[<- <-]|[? H1]]%lookup_insert_Some [[<- ?]|[? H2]]%lookup_insert_Some; subst; try done.
    + by destruct (Hne k2).
    + by destruct (Hne k1).
    + by apply (Hd k1 k2 version).
  - intros k'. rewrite !lookup_insert. destruct (decide (k = k')); [split; eauto|apply Hs].
  - by apply (begun_users k c l users created).
  - apply Forall_forall. intros ld' [->|(ld&Hin&->)]%begun_loads.
    + split; simpl; rewrite ?lookup_insert_eq; try done.
      * apply Hlt. by left.
      * intros m _ [= <-]. done.
      * intros k' [[<- _]|[Hk' Hk'v]]%lookup_insert_Some; [done|]. by destruct (Hne k').
    + apply (begun_other k c); [done|by apply Hl| |by apply Hs].
      destruct (ca_versions c !! k); destruct Hnew as [_ ->]; simpl; lia.
Qed.

(** A load ends. *)
Definition ended (ld : load) : load := Load (ld_ticket ld) false (ld_valid ld) (ld_current ld).
Lemma load_ok_ended (c : state) ld : load_ok c ld → load_ok c (ended ld).
Proof. by intros []. Qed.
Lemma load_ok_deleted (c c' : state) k ld :
  load_ok c ld → ca_generation c' = ca_generation c → ca_created c' = ca_created c →
  ca_versions c' = delete k (ca_versions c) → ca_seqs c' = delete k (ca_seqs c) →
  (ld_live ld = true → ca_versions c !! k ≠ Some (ti_version (ld_ticket ld))) → load_ok c' ld.
Proof.
  intros [Ho Hseq Hkey Hval Hcur Hgen] Eg Ec Ev Es Hk. split; rewrite ?Eg, ?Ec, ?Ev, ?Es; try done.
  - intros m [_ ?]%lookup_delete_Some [_ ?]%lookup_delete_Some. by apply Hseq.
  - intros k' [_ ?]%lookup_delete_Some. by apply Hkey.
  - intros Hlive. rewrite (Hval Hlive), lookup_delete_Some. specialize (Hk Hlive). split; [|tauto].
    intros E. split; [congruence|done].
  - intros Hlive. rewrite (Hcur Hlive), lookup_delete_Some. specialize (Hk Hlive). split; [|tauto].
    intros [Hv E]. split_and!; [done| |done]. apply (Hval Hlive) in Hv. congruence.
Qed.
Lemma ended_count version l n ld :
  l !! n = Some ld → ld_live ld = true →
  rowcount (live_of version) l =
  (rowcount (live_of version) (<[n := ended ld]> l) + if Nat.eqb (ti_version (ld_ticket ld)) version then 1 else 0)%nat.
Proof.
  intros Hn Hlive. destruct (Nat.eqb (ti_version (ld_ticket ld)) version) eqn:E.
  - rewrite (rowcount_insert _ l n ld (ended ld)); [lia|done| |done]. unfold live_of. by rewrite Hlive.
  - rewrite (rowcount_insert_other _ l n ld (ended ld)); [lia|done|]. unfold live_of. simpl. by rewrite E, andb_false_r.
Qed.
Lemma end_load_ok n ld c l w w' :
  cache_ok (System c l w) → l !! n = Some ld → ld_live ld = true →
  cache_ok (System (end_load (ld_ticket ld) c).2 (<[n := ended ld]> l) w') ∧
  ca_items (end_load (ld_ticket ld) c).2 = ca_items c ∧ ca_pending (end_load (ld_ticket ld) c).2 = ca_pending c.
Proof.
  intros [Hv Hd Hs Hu Hl] Hn Hlive. simpl in *.
  assert (load_ok c ld) as Hld by (by eapply Forall_lookup_1 in Hl).
  assert (∀ k' version, ca_versions c !! k' = Some version →
    alter Z.pred (ti_version (ld_ticket ld)) (ca_users c) !! version =
    Some (Z.of_nat (rowcount (live_of version) (<[n := ended ld]> l)))) as Husers.
  { intros k' version Hk'. pose proof (ended_count version l n ld Hn Hlive) as Hc.
    destruct (Nat.eqb_spec (ti_version (ld_ticket ld)) version) as [<-|Hne].
    - rewrite lookup_alter_eq, (Hu _ _ Hk'), Hc. simpl. f_equal. lia.
    - rewrite lookup_alter_ne, (Hu _ _ Hk'), Hc by done. do 2 f_equal. lia. }
  assert (Forall (load_ok c) (<[n := ended ld]> l)) as Hl' by (apply Forall_insert; [done|by apply load_ok_ended]).
  unfold end_load. rewrite bind_modify, bind_gets. unfold when. simpl.
  case_match eqn:E; [|split; [split; try done|done]; eapply Forall_impl; [exact Hl'|]; intros ld'; by apply load_ok_same].
  apply andb_true_iff in E as [E0%bool_decide_eq_true Ek%bool_decide_eq_true].
  rewrite (Husers _ _ Ek) in E0. injection E0 as E0. split; [|done]. split; simpl.
  - intros k' version [_ ?]%lookup_delete_Some. by eapply Hv.
  - intros k1 k2 version [_ ?]%lookup_delete_Some [_ ?]%lookup_delete_Some. by apply (Hd k1 k2 version).
  - intros k'. destruct (decide (ti_key (ld_ticket ld) = k')) as [<-|Hk'].
    + rewrite !lookup_delete_eq. split; by intros [].
    + rewrite !lookup_delete_ne by done. apply Hs.
  - intros k' version [_ Hk']%lookup_delete_Some. by apply (Husers k').
  - rewrite Forall_forall in Hl' |- *. intros ld' Hin. apply (load_ok_deleted c _ (ti_key (ld_ticket ld))); try done; [by apply Hl'|].
    simpl. intros Hlive' Ek'. rewrite Ek in Ek'. injection Ek' as Ek'.
    assert (live_of (ti_version (ld_ticket ld)) ld' = false) as Hf by (apply (rowcount_zero _ (<[n := ended ld]> l)); [lia|done]).
    unfold live_of in Hf. rewrite Hlive', <-Ek', Nat.eqb_refl in Hf. done.
Qed.
Lemma finished_ok n ld c l w w' :
  cache_ok (System c l w) → l !! n = Some ld → ld_live ld = true →
  cache_ok (System (finished n (ld_ticket ld) c).2 (<[n := ended ld]> l) w') ∧
  ca_items (finished n (ld_ticket ld) c).2 = ca_items c ∧
  ca_pending (finished n (ld_ticket ld) c).2 =
    delete_where (λ p, bool_decide (p.1.2 = ti_key (ld_ticket ld)) && Nat.eqb p.2 n) (ca_pending c).
Proof.
  intros Hok Hn Hlive. destruct (end_load_ok n ld c l w w' Hok Hn Hlive) as (Hok'&Hi&Hp). unfold finished.
  assert (∃ c', end_load (ld_ticket ld) c = (Ok tt, c')) as [c' E].
  { unfold end_load. rewrite bind_modify, bind_gets. unfold when. case_match; by eexists. }
  rewrite (bind_run _ _ _ _ _ E). rewrite E in *. simpl in *. split_and!; [|done|by rewrite Hp].
  eapply cache_ok_same; [|exact Hok']. by split_and!.
Qed.

(** Keys are invalidated. *)
Lemma spoiled_count version p l : rowcount (live_of version) (spoil p l) = rowcount (live_of version) l.
Proof. unfold spoil. apply rowcount_fmap. intros ld. by case_match. Qed.
Lemma invalidate_ok k c l w w' :
  cache_ok (System c l w) → cache_ok (System (invalidate k c).2 (spoil (key_is k) l) w').
Proof.
  intros [Hv Hd Hs Hu Hl]. simpl in *. split; simpl.
  - intros k' version [_ ?]%lookup_delete_Some. by eapply Hv.
  - intros k1 k2 version [_ ?]%lookup_delete_Some [_ ?]%lookup_delete_Some. by apply (Hd k1 k2 version).
  - intros k'. destruct (decide (k = k')) as [<-|Hk'].
    + rewrite !lookup_delete_eq. split; by intros [].
    + rewrite !lookup_delete_ne by done. apply Hs.
  - intros k' version [_ Hk']%lookup_delete_Some. rewrite spoiled_count. by apply (Hu k').
  - unfold spoil. apply Forall_fmap. eapply Forall_impl; [exact Hl|]. intros ld Hld. simpl. unfold key_is.
    case_bool_decide as Hk.
    + destruct Hld as [Ho Hseq Hkey Hval Hcur Hgen]. rewrite Hk in *. split; simpl; rewrite ?Hk, ?lookup_delete_eq; try done.
      * intros k' [_ ?]%lookup_delete_Some. by apply Hkey.
      * intros _. split; [done|]. by intros [??].
    + apply (load_ok_deleted c _ k); try done. intros _ E. by apply Hk, eq_sym, (lo_key _ _ Hld).
Qed.
Lemma clear_ok c l w w' : cache_ok (System c l w) → cache_ok (System (clear c).2 (spoil (λ _, true) l) w').
Proof.
  intros [Hv Hd Hs Hu Hl]. simpl in *. split; simpl; try done.
  - intros k. rewrite !lookup_empty. split; by intros [].
  - unfold spoil. apply Forall_fmap. eapply Forall_impl; [exact Hl|]. intros ld [Ho Hseq Hkey Hval Hcur Hgen].
    split; simpl; try done. intros _. split; [done|]. by intros [??].
Qed.

Lemma cache_step_ok now op s s' : cache_ok s → cache_step now op s = Some s' → cache_ok s'.
Proof.
  destruct s as [c l w]. intros Hok E. destruct op; simpl in E.
  - injection E as <-. eapply cache_ok_same; [apply get_versions|exact Hok].
  - injection E as <-. eapply cache_ok_same; [apply set_versions|exact Hok].
  - destruct (begin_load_ok k c l w w Hok) as (t&c'&Eb&_&Hok'&_). rewrite Eb in E. by injection E as <-.
  - unfold join_or_begin in E. rewrite bind_gets in E. destruct (fetchone _ (ca_pending c)) as [p|].
    + by injection E as <-.
    + destruct (begin_load_ok k c l w w Hok) as (t&c'&Eb&_&Hok'&_). rewrite (bind_run _ _ _ _ _ Eb), bind_modify in E.
      injection E as <-. eapply cache_ok_same; [|exact Hok']. by split_and!.
  - destruct (l !! n) as [ld|]; [|done]. simpl in E. destruct (ld_live ld); [|done]. injection E as <-.
    eapply cache_ok_same; [apply store_versions|exact Hok].
  - destruct (l !! n) as [ld|] eqn:Hn; [|done]. simpl in E. destruct (ld_live ld) eqn:Hlive; [|done].
    injection E as <-. by eapply finished_ok.
  - injection E as <-. by eapply invalidate_ok.
  - injection E as <-. by eapply clear_ok.
Qed.

(** The three comparisons of [store_loaded] say whether the load is the newest. *)
Lemma may_store_current n ld c l w :
  cache_ok (System c l w) → l !! n = Some ld → ld_live ld = true → may_store (ld_ticket ld) c = ld_current ld.
Proof.
  intros Hok Hn Hlive. assert (load_ok c ld) as [_ _ _ Hval Hcur Hgen]
    by (eapply (Forall_lookup_1 _ l), Hn; apply (co_loads _ Hok)).
  specialize (Hval Hlive). specialize (Hcur Hlive). unfold may_store. apply eq_true_iff_eq.
  rewrite !andb_true_iff, !bool_decide_eq_true, Z.eqb_eq. split; [tauto|].
  intros Hc. apply Hcur in Hc as [Hv Hs]. split_and!; [by apply Hgen|by apply Hval|done].
Qed.

(** ** Shared loads *)

(** A pending task is its loop's only one for the key, and its load is running and good. *)
Record pending_ok (s : system) : Prop := {
  po_unique : unique_index (λ _, true) fst (ca_pending (sy_cache s));
  po_load : ∀ p, p ∈ ca_pending (sy_cache s) → ∃ ld, sy_loads s !! p.2 = Some ld ∧
    ld_live ld = true ∧ ld_valid ld = true ∧ ti_key (ld_ticket ld) = p.1.2;
}.
Lemma begun_lookup k t l n ld :
  l !! n = Some ld → ∃ ld', begun k t l !! n = Some ld' ∧ ld_ticket ld' = ld_ticket ld ∧
    ld_live ld' = ld_live ld ∧ ld_valid ld' = ld_valid ld.
Proof.
  intros Hn. unfold begun, overtake. eexists. split.
  - rewrite lookup_app_l; [by rewrite list_lookup_fmap, Hn|]. rewrite length_fmap. by eapply lookup_lt_Some.
  - by case_match.
Qed.
Lemma pending_begun c c' k t l w w' :
  ca_pending c' = ca_pending c → pending_ok (System c l w) → pending_ok (System c' (begun k t l) w').
Proof.
  intros E [Hu Hl]. split; simpl in *; rewrite E; [done|]. intros p Hp. destruct (Hl p Hp) as (ld&Hn&H1&H2&H3).
  destruct (begun_lookup k t l p.2 ld Hn) as (ld'&?&Et&El&Ev). exists ld'. by rewrite Et, El, Ev.
Qed.
Lemma pending_same c c' l w w' :
  ca_pending c' = ca_pending c → pending_ok (System c l w) → pending_ok (System c' l w').
Proof. intros E [Hu Hl]. split; simpl in *; by rewrite E. Qed.
Lemma get_pending now k (c : state) : ca_pending (get ttl now k c).2 = ca_pending c.
Proof. unfold get. rewrite bind_gets. by repeat case_match. Qed.
Lemma store_pending now t v (c : state) : ca_pending (store_loaded ttl max_entries now t v c).2 = ca_pending c.
Proof. unfold store_loaded. rewrite bind_gets. unfold when. by case_match. Qed.

Lemma cache_step_pending now op s s' :
  cache_ok s → pending_ok s → cache_step now op s = Some s' → pending_ok s'.
Proof.
  destruct s as [c l w]. intros Hok Hp E. destruct op; simpl in E.
  - injection E as <-. eapply pending_same; [apply get_pending|exact Hp].
  - injection E as <-. by eapply pending_same; [|exact Hp].
  - destruct (begin_load_ok k c l w w Hok) as (t&c'&Eb&_&_&_&Ep). rewrite Eb in E. injection E as <-.
    by eapply pending_begun; [|exact Hp].
  - unfold join_or_begin in E. rewrite bind_gets in E. destruct (fetchone _ (ca_pending c)) as [p|] eqn:Ef.
    + by injection E as <-.
    + destruct (begin_load_ok k c l w w Hok) as (t&c'&Eb&Ek&_&_&Ep). rewrite (bind_run _ _ _ _ _ Eb), bind_modify in E.
      injection E as <-. apply (pending_begun c c' k t l w w Ep) in Hp as [Hu Hl]. rewrite fetchone_None in Ef.
      split; simpl in *.
      * apply unique_index_snoc; [done|]. intros _ p Hx _ Hin. rewrite Ep in Hx. apply Ef in Hx.
        unfold task_is in Hx. destruct p as [[lo k'] n']. simpl in Hin. injection Hin as -> ->. simpl in Hx.
        by rewrite !bool_decide_eq_true_2 in Hx.
      * intros p [Hin| ->%list_elem_of_singleton]%elem_of_app; [by apply Hl|]. simpl.
        exists (Load t true true true). split_and!; try done. unfold begun, overtake.
        by rewrite lookup_app_r, length_fmap, Nat.sub_diag by (by rewrite length_fmap).
  - destruct (l !! n) as [ld|]; [|done]. simpl in E. destruct (ld_live ld); [|done]. injection E as <-.
    eapply pending_same; [apply store_pending|exact Hp].
  - destruct (l !! n) as [ld|] eqn:Hn; [|done]. simpl in E. destruct (ld_live ld) eqn:Hlive; [|done].
    injection E as <-. destruct (finished_ok n ld c l w w Hok Hn Hlive) as (_&_&Ep). destruct Hp as [Hu Hl].
    split; simpl in *; rewrite Ep; [by apply unique_index_delete|].
    intros p [Hin Hk]%elem_of_delete_where. destruct (Hl p Hin) as (ld'&Hn'&?&?&Hk').
    exists ld'. split_and!; [|done..]. rewrite list_lookup_insert_ne; [done|]. intros Hnn. rewrite <-Hnn, Hn in Hn'.
    injection Hn' as <-. rewrite Hnn, Hk', Nat.eqb_refl, bool_decide_eq_true_2 in Hk; done.
  - injection E as <-. destruct Hp as [Hu Hl]. split; simpl in *; [by apply unique_index_delete|].
    intros p [Hin Hk]%elem_of_delete_where. destruct (Hl p Hin) as (ld&Hn&?&?&Hk').
    exists ld. unfold spoil. rewrite list_lookup_fmap, Hn. simpl. unfold key_is. rewrite Hk'.
    apply bool_decide_eq_false in Hk. by rewrite bool_decide_eq_false_2.
  - injection E as <-. split; simpl; [apply NoDup_nil_2|]. intros p []%elem_of_nil.
Qed.

(** ** The cache as a map *)

Definition spec_get (now : Z) k (w : gmap K (Z * V)) : option V :=
  match w !! k with Some (t, v) => if Z.leb ttl (now - t) then None else Some v | None => None end.

(** The entries against the map, at a time. *)
Record items_ok (now : Z) (w : gmap K (Z * V)) (l : list (K * (Z * V))) : Prop := {
  io_keys : unique_index (λ _, true) fst l;
  io_sound : ∀ x, x ∈ l → w !! x.1 = Some x.2;
  io_complete : max_entries = None → ∀ k x, w !! k = Some x → now - x.1 < ttl → (k, x) ∈ l;
  io_past : ∀ k x, w !! k = Some x → x.1 ≤ now;
  io_bound : ∀ n, max_entries = Some n → (length l ≤ n)%nat;
}.
Lemma items_later now now' w l : now ≤ now' → items_ok now w l → items_ok now' w l.
Proof.
  intros Hle [H1 H2 H3 H4 H5]. split; try done.
  - intros Hm k x Hx Ht. apply H3; [done..|lia].
  - intros k x Hx. specialize (H4 k x Hx). lia.
Qed.
Lemma elem_of_pop k x (l : list (K * (Z * V))) : x ∈ pop_item k l ↔ x ∈ l ∧ x.1 ≠ k.
Proof. unfold pop_item. rewrite elem_of_delete_where, bool_decide_eq_false. done. Qed.
Lemma length_delete_where {R} (p : R → bool) t : (length (delete_where p t) ≤ length t)%nat.
Proof. apply length_filter. Qed.
Lemma lookup_item_Some k x (l : list (K * (Z * V))) : lookup_item k l = Some x → (k, x) ∈ l.
Proof.
  unfold lookup_item. destruct (fetchone _ l) as [[k' x']|] eqn:E; [|done]. intros [= <-].
  apply fetchone_Some in E as [Hin Hk%bool_decide_eq_true]. simpl in Hk. by subst.
Qed.
Lemma lookup_item_None k x (l : list (K * (Z * V))) : lookup_item k l = None → (k, x) ∉ l.
Proof.
  unfold lookup_item. destruct (fetchone _ l) eqn:E; [done|]. intros _ Hx. rewrite fetchone_None in E.
  apply E in Hx. simpl in Hx. by rewrite bool_decide_eq_true_2 in Hx.
Qed.
Lemma length_pop k x (l : list (K * (Z * V))) : x ∈ l → x.1 = k → (S (length (pop_item k l)) ≤ length l)%nat.
Proof.
  intros Hx Hk. unfold pop_item. induction l as [|y l IH]; [by apply elem_of_nil in Hx|].
  unfold delete_where in *. rewrite filter_cons. apply elem_of_cons in Hx as [->|Hx].
  - rewrite decide_False by by rewrite bool_decide_eq_true_2. simpl.
    pose proof (length_filter (λ r : K * (Z * V), bool_decide (r.1 = k) = false) l). lia.
  - specialize (IH Hx). case_decide; simpl; lia.
Qed.
Lemma pop_unique k y (l : list (K * (Z * V))) :
  unique_index (λ _, true) fst l → y.1 = k → unique_index (λ _, true) fst (pop_item k l ++ [y]).
Proof.
  intros Hl Hy. apply unique_index_snoc; [by apply unique_index_delete|].
  intros _ r [_ Hr]%elem_of_pop _. congruence.
Qed.

Lemma get_items now k w c :
  items_ok now w (ca_items c) → items_ok now w (ca_items (get ttl now k c).2) ∧
  (∃ a, (get ttl now k c).1 = Ok a ∧ (a = spec_get now k w ∨ a = None ∧ max_entries ≠ None)).
Proof.
  intros Hi. unfold get, spec_get. rewrite bind_gets. destruct (lookup_item k (ca_items c)) as [[t v]|] eqn:E.
  - apply lookup_item_Some in E. destruct Hi as [H1 H2 H3 H4 H5]. pose proof (H2 _ E) as Hw. simpl in Hw. rewrite Hw.
    destruct (Z.leb ttl (now - t)) eqn:Et; (split; [|eexists; split; [done|by left]]); split; simpl; try done.
    + by apply unique_index_delete.
    + intros x [Hx _]%elem_of_pop. by apply H2.
    + intros Hm k' x Hx Ht. apply elem_of_pop. split; [by apply H3|]. simpl. intros ->. rewrite Hw in Hx.
      injection Hx as <-. simpl in Ht. lia.
    + intros n Hn. etrans; [apply length_delete_where|by apply H5].
    + by apply pop_unique.
    + intros x [[Hx _]%elem_of_pop| ->%list_elem_of_singleton]%elem_of_app; [by apply H2|done].
    + intros Hm k' x Hx Ht. apply elem_of_app. destruct (decide (k' = k)) as [->|Hk].
      * right. rewrite Hw in Hx. injection Hx as <-. left.
      * left. apply elem_of_pop. split; [by apply H3|done].
    + intros n Hn. rewrite length_app. simpl. pose proof (length_pop k _ _ E eq_refl). specialize (H5 n Hn). lia.
  - split; [done|]. eexists. split; [done|]. destruct (w !! k) as [[t v]|] eqn:Ew; [|by left].
    case_match eqn:Et; [by left|]. destruct max_entries as [m|] eqn:Em; [by right|].
    exfalso. apply (lookup_item_None _ (t, v) _ E). apply (io_complete _ _ _ Hi Em); [done|simpl; lia].
Qed.

Context (Httl : 0 ≤ ttl) (Hmax : max_entries ≠ Some 0%nat).

Lemma set_items now k v w c :
  items_ok now w (ca_items c) → items_ok now (<[k := (now, v)]> w) (ca_items (set_ ttl max_entries now k v c).2).
Proof.
  intros [H1 H2 H3 H4 H5]. simpl. set (l := delete_where (expired_item ttl now) (ca_items c)).
  assert (∀ x, x ∈ l → x ∈ ca_items c ∧ now - x.2.1 < ttl) as Hl.
  { intros x [? Hx]%elem_of_delete_where. unfold expired_item in Hx. split; [done|lia]. }
  assert (length l ≤ length (ca_items c))%nat as Hlen by apply length_delete_where.
  assert (∀ k' x, <[k := (now, v)]> w !! k' = Some x → x.1 ≤ now) as Hpast.
  { intros k' x [[<- <-]|[_ Hx]]%lookup_insert_Some; [done|by eapply H4]. }
  destruct (Z.eqb_spec ttl 0) as [E0|E0].
  { split; [by apply unique_index_delete| | |done|].
    - intros x [Hx Ht]%Hl. apply H2, H4 in Hx. lia.
    - intros _ k' x Hx Ht. specialize (Hpast k' x Hx). lia.
    - intros n Hn. specialize (H5 n Hn). lia. }
  set (l' := pop_item k l ++ [(k, (now, v))]).
  assert (unique_index (λ _, true) fst l') as Hu' by (apply pop_unique; [by apply unique_index_delete|done]).
  assert (∀ x, x ∈ l' → <[k := (now, v)]> w !! x.1 = Some x.2) as Hs'.
  { intros x [[Hx Hk]%elem_of_pop| ->%list_elem_of_singleton]%elem_of_app; simpl; [|by rewrite lookup_insert_eq].
    rewrite lookup_insert_ne by done. by apply H2, Hl. }
  unfold evict. split; [| | |done|].
  - destruct max_entries; [|done]. unfold unique_index in *. rewrite fetchall_all in * by done.
    rewrite fmap_drop. by eapply sublist_NoDup, sublist_drop.
  - intros x Hx. apply Hs'. destruct max_entries; [|done]. by eapply subseteq_drop.
  - intros Hm k' x Hx Ht. rewrite Hm. apply elem_of_app.
    apply lookup_insert_Some in Hx as [[<- <-]|[Hk Hx]]; [right; left|]. left. apply elem_of_pop.
    split; [|done]. apply elem_of_delete_where. split; [by apply H3|]. unfold expired_item. simpl. lia.
  - intros n Hn. rewrite Hn, length_drop. specialize (H5 n Hn). lia.
Qed.
Lemma cache_step_items now0 now op s s' :
  cache_ok s → items_ok now0 (sy_written s) (ca_items (sy_cache s)) → now0 ≤ now →
  cache_step now op s = Some s' → items_ok now (sy_written s') (ca_items (sy_cache s')).
Proof.
  destruct s as [c l w]. simpl. intros Hok Hi Hle E. apply (items_later _ _ _ _ Hle) in Hi. destruct op; simpl in E.
  - injection E as <-. by apply get_items.
  - injection E as <-. by apply set_items.
  - destruct (begin_load_ok k c l w w Hok) as (t&c'&Eb&_&_&Ei&_). rewrite Eb in E. injection E as <-. simpl. by rewrite Ei.
  - unfold join_or_begin in E. rewrite bind_gets in E. destruct (fetchone _ (ca_pending c)) as [p|].
    + by injection E as <-.
    + destruct (begin_load_ok k c l w w Hok) as (t&c'&Eb&_&_&Ei&_). rewrite (bind_run _ _ _ _ _ Eb), bind_modify in E.
      injection E as <-. simpl. by rewrite Ei.
  - destruct (l !! n) as [ld|] eqn:Hn; [|done]. simpl in E. destruct (ld_live ld) eqn:Hlive; [|done]. injection E as <-.
    simpl. unfold store_loaded. rewrite bind_gets. rewrite (may_store_current n ld c l w) by done.
    destruct (ld_current ld); [by apply set_items|done].
  - destruct (l !! n) as [ld|] eqn:Hn; [|done]. simpl in E. destruct (ld_live ld) eqn:Hlive; [|done].
    injection E as <-. destruct (finished_ok n ld c l w w Hok Hn Hlive) as (_&Ei&_). simpl. by rewrite Ei.
  - injection E as <-. destruct Hi as [H1 H2 H3 H4 H5]. split; simpl.
    + by apply unique_index_delete.
    + intros x [Hx Hk]%elem_of_pop. rewrite lookup_delete_ne by done. by apply H2.
    + intros Hm k' x [Hk Hx]%lookup_delete_Some Ht. apply elem_of_pop. split; [by apply H3|done].
    + intros k' x [_ Hx]%lookup_delete_Some. by eapply H4.
    + intros n Hn. etrans; [apply length_delete_where|by apply H5].
  - injection E as <-. split; simpl; [apply NoDup_nil_2|by intros x ?%elem_of_nil|done|done|lia].
Qed.

(** ** Histories *)

Lemma cache_run_ok s history s' :
  cache_ok s ∧ pending_ok s → cache_run s history = Some s' → cache_ok s' ∧ pending_ok s'.
Proof.
  revert s. induction history as [|[now op] history IH]; intros s Hs E; [by injection E as <-|].
  simpl in E. destruct (cache_step now op s) as [s1|] eqn:E1; [|done]. apply (IH s1); [|exact E].
  destruct Hs as [H1 H2]. split; [by eapply cache_step_ok|by eapply cache_step_pending].
Qed.
Lemma empty_system_ok : cache_ok empty_system ∧ pending_ok empty_system.
Proof.
  split; split; simpl; try done.
  - intros k. rewrite !lookup_empty. split; by intros [].
  - apply NoDup_nil_2.
  - intros p []%elem_of_nil.
Qed.
(** The clock never goes back. *)
Fixpoint clock_ok (now : Z) (history : list (Z * cache_op)) : Prop :=
  match history with [] => True | (t, _) :: history => now ≤ t ∧ clock_ok t history end.
Definition last_time (now : Z) (history : list (Z * cache_op)) : Z := foldl (λ _ x, x.1) now history.
Lemma cache_run_items now s history s' :
  cache_ok s → items_ok now (sy_written s) (ca_items (sy_cache s)) → clock_ok now history →
  cache_run s history = Some s' →
  items_ok (last_time now history) (sy_written s') (ca_items (sy_cache s')).
Proof.
  revert now s. induction history as [|[t op] history IH]; intros now s Hok Hi Hc E; [by injection E as <-|].
  simpl in E. destruct (cache_step t op s) as [s1|] eqn:E1; [|done]. destruct Hc as [Hle Hc]. unfold last_time. simpl.
  apply (IH t s1); [by eapply cache_step_ok|by eapply cache_step_items|done|done].
Qed.
End machine.

(** The newest load wins.  However [get], [set], loads, [invalidate] and [clear] interleave,
    when a running load comes to store its value it does so exactly if no other load of the key
    began, and neither the key nor the cache was invalidated, since it began; otherwise the
    cache is left as it is. *)
Theorem newest_load_wins {K V} `{Countable K} (ttl : Z) (max_entries : option nat)
    (history : list (Z * @cache_op K V)) s n ld now v :
  cache_run ttl max_entries empty_system history = Some s → sy_loads s !! n = Some ld → ld_live ld = true →
  (store_loaded ttl max_entries now (ld_ticket ld) v (sy_cache s)).2 =
    if ld_current ld then (set_ ttl max_entries now (ti_key (ld_ticket ld)) v (sy_cache s)).2 else sy_cache s.
Proof.
  intros E Hn Hlive. apply (cache_run_ok _ _ _ _ _ empty_system_ok) in E as [Hok _]. destruct s as [c l w].
  simpl in *. unfold store_loaded. rewrite bind_gets, (may_store_current n ld c l w) by done. by destruct (ld_current ld).
Qed.

(** [C35] The cache answers like a map.  After any history in which the clock does not go back, a
    read returns the last value written under its key (by [set] or by a load that may store)
    and not invalidated since, if it is younger than the lifetime; it can also be a miss, but
    only in a cache of bounded size.  The cache never holds more than its bound, and no key
    twice. *)
Theorem cache_refines_map {K V} `{Countable K} (ttl : Z) (max_entries : option nat)
    (history : list (Z * @cache_op K V)) s start now k :
  0 ≤ ttl → max_entries ≠ Some 0%nat → clock_ok start (history ++ [(now, OpGet k)]) →
  cache_run ttl max_entries empty_system history = Some s →
  (∃ a, (get ttl now k (sy_cache s)).1 = Ok a ∧
     (a = spec_get ttl now k (sy_written s) ∨ a = None ∧ max_entries ≠ None)) ∧
  NoDup (ca_items (sy_cache s)).*1 ∧
  ∀ n, max_entries = Some n → (length (ca_items (sy_cache s)) ≤ n)%nat.
Proof.
  intros Httl Hmax Hc E.
  assert (clock_ok start history ∧ last_time start history ≤ now) as [Hc' Hle].
  { clear E. revert start Hc. induction history as [|[t op] history IH]; intros start; simpl; [tauto|].
    intros [? Hc]. destruct (IH t Hc). by split. }
  assert (items_ok ttl max_entries start ∅ (ca_items (empty_cache : @cache K V _ _))) as H0.
  { split; simpl; [apply NoDup_nil_2|by intros x ?%elem_of_nil|done|done|lia]. }
  pose proof (cache_run_items ttl max_entries Httl Hmax start _ _ _ (proj1 empty_system_ok) H0 Hc' E) as Hi.
  apply (items_later _ _ _ _ _ _ Hle) in Hi. split; [by apply get_items|]. destruct Hi as [Hu _ _ _ Hb].
  split; [|done]. unfold unique_index in Hu. by rewrite fetchall_all in Hu.
Qed.

(** Callers share good loads only.  An asynchronous caller that misses joins the task its
    event loop has pending for the key, which is running and was not invalidated since it
    began, or begins a load that may store. *)
Theorem shared_load_good {K V} `{Countable K} (ttl : Z) (max_entries : option nat)
    (history : list (Z * @cache_op K V)) s loop k n :
  cache_run ttl max_entries empty_system history = Some s → n = length (sy_loads s) →
  match join_or_begin loop k n (sy_cache s) with
  | (Ok (task, None), _) => ∃ ld, sy_loads s !! task = Some ld ∧ ti_key (ld_ticket ld) = k ∧
      ld_live ld = true ∧ ld_valid ld = true
  | (Ok (task, Some t), c') => task = n ∧ ti_key t = k ∧ may_store t c' = true
  | (Err _, _) => False
  end.
Proof.
  intros E ->. apply (cache_run_ok _ _ _ _ _ empty_system_ok) in E as [Hok [_ Hp]]. destruct s as [c l w].
  simpl in *. unfold join_or_begin. rewrite bind_gets. destruct (fetchone _ (ca_pending c)) as [p|] eqn:Ef.
  - apply fetchone_Some in Ef as [Hin Ht]. unfold task_is in Ht. bool_props.
    destruct (Hp p Hin) as (ld&?&?&?&?). exists ld. split_and!; [done|congruence|done|done].
  - destruct (begin_load_ok k c l w w Hok) as (t&c'&Eb&Ek&Hok'&_). rewrite (bind_run _ _ _ _ _ Eb), bind_modify.
    unfold mret, M_ret. split_and!; [done..|].
    apply (may_store_current (length l) (Load t true true true) c' (begun k t l) w); [done| |done].
    unfold begun, overtake. by rewrite lookup_app_r, length_fmap, Nat.sub_diag by (by rewrite length_fmap).
Qed.

(** ** A slow load, an invalidation and a second load *)

Definition slow_load : list (Z * @cache_op string string) :=
  [(0, OpJoin 1%nat "devices"); (1, OpInvalidate "devices"); (2, OpBegin "devices");
   (3, OpStore 1%nat "new"); (4, OpEnd 1%nat)].
Lemma newest_load_wins_witness :
  ∃ s ld, cache_run 10 (Some 2%nat) empty_system slow_load = Some s ∧ sy_loads s !! 0%nat = Some ld ∧
    (store_loaded 10 (Some 2%nat) 5 (ld_ticket ld) "old" (sy_cache s)).2 = sy_cache s.
Proof.
  destruct (cache_run 10 (Some 2%nat) empty_system slow_load) as [s|] eqn:E; [|vm_compute in E; discriminate].
  destruct (sy_loads s !! 0%nat) as [ld|] eqn:Hn; [|vm_compute in E; simplify_eq; discriminate].
  assert (ld_live ld = true ∧ ld_current ld = false) as [Hl Hc]
    by (vm_compute in E; simplify_eq; vm_compute in Hn; by simplify_eq).
  exists s, ld. split_and!; [done..|].
  rewrite (newest_load_wins 10 (Some 2%nat) slow_load s 0 ld 5 "old" E Hn Hl). by rewrite Hc.
Defined.
Lemma cache_refines_map_witness :
  ∃ s, cache_run 10 None empty_system slow_load = Some s ∧
    (get 10 6 "devices" (sy_cache s)).1 = Ok (spec_get 10 6 "devices" (sy_written s)).
Proof.
  destruct (cache_run 10 None empty_system slow_load) as [s|] eqn:E; [|vm_compute in E; discriminate].
  exists s. split; [done|].
  destruct (cache_refines_map 10 None slow_load s 0 6 "devices") as [(a&->&[->|[_ Hm]]) _]; try done.
Defined.
Lemma shared_load_good_witness :
  ∃ s : @system string string _ _,
    cache_run 10 (Some 2%nat) empty_system [(0, OpJoin 1%nat "devices")] = Some s ∧
    ∃ ld, sy_loads s !! 0%nat = Some ld ∧ ld_valid ld = true.
Proof.
  destruct (cache_run 10 (Some 2%nat) empty_system [(0, @OpJoin string string 1%nat "devices")]) as [s|] eqn:E;
    [|vm_compute in E; discriminate].
  exists s. split; [done|].
  pose proof (shared_load_good 10 (Some 2%nat) _ s 1 "devices" (length (sy_loads s)) E eq_refl) as Hg.
  vm_compute in E. simplify_eq. vm_compute in Hg. destruct Hg as (ld&?&_&_&?). by exists ld.
Defined.
