(* ===== verification/EventUpload.v ===== *)
(** The upload of a command's log, [worker_agent/command_events.py]: the thread that submits
    events, the uploading thread and [flush] as machines stepping in any order, and what the
    controller has stored.

    A step is one access to what the threads share (the queue, the [stopped] flag, the counter
    of batches in flight).  A wait ends when its condition holds or, by the choice of the
    environment, when its time is over.  Logging is not state. *)

From S2P Require Import Prelude ClusterState Jobs.

Open Scope Z_scope.

Definition MAX_QUEUE_EVENTS : Z := 20000.
Definition MAX_BACKOFF_SECONDS : Z := 30.

(** Where the uploading thread is in [_run]. *)
Inductive thread :=
  | Looping                            (* at the head of the loop: stopped.is_set() *)
  | LoopEmpty                          (* stopped, nothing pending: queue.empty() *)
  | Getting (batch : list event_in)    (* in _collect_batch, with what it has *)
  | Idle                               (* nothing was collected: stopped.wait(0.2) *)
  | IdleStopped                        (* and stopped: queue.empty() *)
  | Entering                           (* about to count the batch in *)
  | Uploading                          (* in the upload of the pending batch *)
  | Waiting                            (* the upload raised: stopped.wait(backoff) *)
  | LastTry                            (* stopped meanwhile: the final upload *)
  | Leaving (return_ : bool)           (* the finally clause *)
  | Returned.
(** Where a call of [submit] is; events are submitted by one thread. *)
Inductive submitter :=
  | Calling                            (* no call is running *)
  | Putting (e : event_in)             (* put_nowait *)
  | Evicting (e : event_in)            (* the queue was full: get_nowait *)
  | PuttingAgain (e : event_in).       (* put_nowait, once more *)
(** Where the call of [flush] is. *)
Inductive flusher :=
  | NotFlushing | Draining | WaitZero | Stopping (drained : bool) | Joining (drained : bool)
  | Flushed (drained : bool).

(** What the environment makes of an upload: it is stored and answered, stored but the answer
    is lost, or it never arrives or is refused. *)
Inductive delivery := Answered | AnswerLost | NotStored.

(** [up_acked] counts the events of answered batches; [up_stored] are the batches the
    controller stored, in the order it stored them. *)
(* src/worker_agent/command_events.py:35-85 CommandEventUploader.__init__ *)
Record uploader := Uploader {
  up_queue : list event_in;
  up_stopped : bool;
  up_dropped : Z;
  up_inflight : Z;
  up_pending : option (list event_in);
  up_backoff : Z;
  up_thread : thread;
  up_submitter : submitter;
  up_flusher : flusher;
  up_acked : Z;
  up_stored : list (list event_in);
}.
#[export] Instance uploader_eta : Eta uploader := λ u,
  Uploader (up_queue u) (up_stopped u) (up_dropped u) (up_inflight u) (up_pending u) (up_backoff u)
    (up_thread u) (up_submitter u) (up_flusher u) (up_acked u) (up_stored u).
Definition start_uploader : uploader :=
  Uploader [] false 0 0 None 1 Looping Calling NotFlushing 0 [].

(** The body the controller accepts. *)
(* src/features/cluster/models.py:313-314 CommandEventBatch *)
Definition command_event_batch (events : list event_in) : bool :=
  bool_decide (1 ≤ length events ≤ 100)%nat.

(** A call of [submit] begins: it tests [stopped]. *)
(* src/worker_agent/command_events.py:86-92 CommandEventUploader.submit *)
Definition submit (e : event_in) (u : uploader) : option uploader :=
  match up_submitter u with
  | Calling => Some (if up_stopped u then u <| up_dropped ::= Z.succ |> else u <| up_submitter := Putting e |>)
  | _ => None
  end.
(** The rest of the call; the last [put_nowait] drops the event without counting it if the
    queue is full again. *)
(* src/worker_agent/command_events.py:93-104 CommandEventUploader.submit *)
Definition submit_next (u : uploader) : option uploader :=
  let full := Z.leb MAX_QUEUE_EVENTS (Z.of_nat (length (up_queue u))) in
  match up_submitter u with
  | Calling => None
  | Putting e =>
      Some (if full then u <| up_submitter := Evicting e |>
            else u <| up_queue ::= λ q, q ++ [e] |> <| up_submitter := Calling |>)
  | Evicting e =>
      Some (match up_queue u with
            | _ :: q => u <| up_queue := q |> <| up_dropped ::= Z.succ |> <| up_submitter := PuttingAgain e |>
            | [] => u <| up_submitter := PuttingAgain e |>
            end)
  | PuttingAgain e =>
      Some (if full then u <| up_submitter := Calling |>
            else u <| up_queue ::= λ q, q ++ [e] |> <| up_submitter := Calling |>)
  end.

(** A step of [flush]; [timeout] is whether its deadline has passed. *)
(* src/worker_agent/command_events.py:106-131 CommandEventUploader.flush *)
Definition flush_next (timeout : bool) (u : uploader) : option uploader :=
  match up_flusher u with
  | NotFlushing => Some (u <| up_flusher := Draining |>)
  | Draining =>
      if timeout || bool_decide (up_queue u = []) then Some (u <| up_flusher := WaitZero |>) else None
  | WaitZero =>
      if Z.leb (up_inflight u) 0 then Some (u <| up_flusher := Stopping true |>)
      else if timeout then Some (u <| up_flusher := Stopping false |>) else None
  | Stopping drained => Some (u <| up_stopped := true |> <| up_flusher := Joining drained |>)
  | Joining drained =>
      if timeout then Some (u <| up_flusher := Flushed drained |>)
      else match up_thread u with Returned => Some (u <| up_flusher := Flushed drained |>) | _ => None end
  | Flushed _ => None
  end.

Section uploader.
Context (batch_size : nat).

(** [_collect_batch]: the first [get] waits, the others do not. *)
(* src/worker_agent/command_events.py:172-183 CommandEventUploader._collect_batch *)
Definition collect_batch (batch : list event_in) (timeout : bool) (u : uploader) : option uploader :=
  match up_queue u, batch with
  | e :: q, _ =>
      let batch := batch ++ [e] in
      let u := u <| up_queue := q |> in
      Some (if Nat.ltb (length batch) batch_size then u <| up_thread := Getting batch |>
            else u <| up_pending := Some batch |> <| up_thread := Entering |>)
  | [], [] => if timeout then Some (u <| up_pending := Some [] |> <| up_thread := Idle |>) else None
  | [], _ => Some (u <| up_pending := Some batch |> <| up_thread := Entering |>)
  end.

(** Past the test at the head of the loop. *)
Definition proceed (u : uploader) : uploader :=
  match up_pending u with
  | None => u <| up_thread := Getting [] |>
  | Some _ => u <| up_thread := Entering |>
  end.

(** A step of [_run]; an upload is answered only when the controller accepts its body. *)
(* src/worker_agent/command_events.py:133-170 CommandEventUploader._run *)
Definition run_next (timeout : bool) (d : delivery) (u : uploader) : option uploader :=
  match up_thread u with
  | Looping =>
      Some (if up_stopped u && bool_decide (default [] (up_pending u) = [])
            then u <| up_thread := LoopEmpty |> else proceed u)
  | LoopEmpty =>
      Some (if bool_decide (up_queue u = []) then u <| up_thread := Returned |> else proceed u)
  | Getting batch => collect_batch batch timeout u
  | Idle =>
      if up_stopped u then Some (u <| up_thread := IdleStopped |>)
      else if timeout then Some (u <| up_thread := Looping |>) else None
  | IdleStopped =>
      Some (if bool_decide (up_queue u = []) then u <| up_thread := Returned |> else u <| up_thread := Looping |>)
  | Entering => Some (u <| up_inflight ::= Z.succ |> <| up_thread := Uploading |>)
  | Uploading =>
      let batch := default [] (up_pending u) in
      match d with
      | Answered =>
          if command_event_batch batch
          then Some (u <| up_stored ::= λ l, l ++ [batch] |> <| up_acked ::= Z.add (Z.of_nat (length batch)) |>
                       <| up_pending := None |> <| up_backoff := 1 |> <| up_thread := Leaving false |>)
          else None
      | AnswerLost =>
          if command_event_batch batch
          then Some (u <| up_stored ::= λ l, l ++ [batch] |> <| up_thread := Waiting |>) else None
      | NotStored => Some (u <| up_thread := Waiting |>)
      end
  | Waiting =>
      if up_stopped u then Some (u <| up_thread := LastTry |>)
      else if timeout
      then Some (u <| up_backoff ::= λ b, Z.min (b * 2) MAX_BACKOFF_SECONDS |> <| up_thread := Leaving false |>)
      else None
  | LastTry =>
      let batch := default [] (up_pending u) in
      let leave u := u <| up_pending := None |> <| up_thread := Leaving true |> in
      match d with
      | Answered =>
          if command_event_batch batch
          then Some (leave (u <| up_stored ::= λ l, l ++ [batch] |>
                              <| up_acked ::= Z.add (Z.of_nat (length batch)) |>)) else None
      | AnswerLost =>
          if command_event_batch batch
          then Some (leave (u <| up_stored ::= λ l, l ++ [batch] |>
                              <| up_dropped ::= Z.add (Z.of_nat (length batch)) |>)) else None
      | NotStored => Some (leave (u <| up_dropped ::= Z.add (Z.of_nat (length batch)) |>))
      end
  | Leaving return_ =>
      Some (u <| up_inflight ::= Z.pred |> <| up_thread := if return_ then Returned else Looping |>)
  | Returned => None
  end.

(** ** Schedules *)

Inductive label :=
  | Submit (e : event_in) | SubmitNext | RunNext (timeout : bool) (d : delivery) | FlushNext (timeout : bool).
Definition step (l : label) (u : uploader) : option uploader :=
  match l with
  | Submit e => submit e u
  | SubmitNext => submit_next u
  | RunNext t d => run_next t d u
  | FlushNext t => flush_next t u
  end.
Fixpoint schedule (u : uploader) (ls : list label) : option uploader :=
  match ls with
  | [] => Some u
  | l :: ls => u ← step l u; schedule u ls
  end.
(** The events submitted, in order. *)
Definition submitted (ls : list label) : list event_in :=
  ls ≫= λ l, match l with Submit e => [e] | _ => [] end.
End uploader.
