(* ===== verification/EventUploadProperties.v ===== *)
(** What the upload of a command's log guarantees under every schedule of its threads: order,
    accounting, and what the browser's cursor sees; and what an idle uploader does. *)

From Stdlib Require Import Sorted.
From S2P Require Import Prelude ClusterState Steps Jobs Commands Controller EventUpload.

Open Scope Z_scope.

Section schedules.
Context (batch_size : nat).
Implicit Types (u : uploader) (e : event_in).

(** The event of the running call of [submit], the batch the thread holds, and all the
    events that are neither answered nor dropped. *)
Definition in_hand u : list event_in :=
  match up_submitter u with Calling => [] | Putting e | Evicting e | PuttingAgain e => [e] end.
Definition in_flight u : list event_in :=
  match up_thread u with Getting batch => batch | _ => default [] (up_pending u) end.
Definition outstanding u : list event_in := in_flight u ++ up_queue u ++ in_hand u.

Lemma schedule_app u ls ls' :
  schedule batch_size u (ls ++ ls') = schedule batch_size u ls ≫= λ u', schedule batch_size u' ls'.
Proof.
  revert u. induction ls as [|l ls IH]; intros u; [done|]. simpl.
  destruct (step batch_size l u); [apply IH|done].
Qed.
Lemma schedule_ind (P : list label → uploader → Prop) :
  P [] start_uploader →
  (∀ ls l u u', schedule batch_size start_uploader ls = Some u → P ls u →
    step batch_size l u = Some u' → P (ls ++ [l]) u') →
  ∀ ls u, schedule batch_size start_uploader ls = Some u → P ls u.
Proof.
  intros H0 Hs ls. induction ls as [|l ls IH] using rev_ind; intros u E; [by injection E as <-|].
  rewrite schedule_app in E. destruct (schedule batch_size start_uploader ls) as [u0|] eqn:E0; [|done].
  simpl in E. destruct (step batch_size l u0) as [u1|] eqn:E1; [|done]. injection E as <-. eauto.
Qed.
Lemma submitted_snoc ls l :
  submitted (ls ++ [l]) = submitted ls ++ match l with Submit e => [e] | _ => [] end.
Proof. unfold submitted. rewrite bind_app. simpl. by rewrite app_nil_r. Qed.

(** One step, taken apart: a case for each way it can end. *)
Ltac split_test H :=
  match type of H with
  | context [if ?b then _ else _] => destruct b eqn:?
  | context [match ?x with _ => _ end] => destruct x eqn:?
  end.
Ltac step_cases H :=
  match type of H with
  | step _ ?l ?u = Some _ =>
      let th := fresh "th" in let sub := fresh "sub" in let fl := fresh "fl" in
      destruct u as [q stopped dropped inflight pending backoff th sub fl acked stored];
      destruct l; unfold step, submit, submit_next, run_next, flush_next, collect_batch, proceed in H; cbn in H; [destruct sub|destruct sub|destruct th|destruct fl]; cbn in H; try discriminate H;
      repeat (split_test H; cbn in H; try discriminate H);
      injection H as <-; cbn in *
  end.

(** ** Accounting *)

(** Where the thread is and the batch it holds fit together, and every submitted event is
    answered, dropped and counted, or outstanding. *)
Record accounted (ls : list label) u : Prop := {
  ac_pending : match up_thread u with
               | Getting _ => up_pending u = None
               | Idle | IdleStopped => up_pending u = Some []
               | Entering | Uploading | Waiting | LastTry => is_Some (up_pending u)
               | LoopEmpty | Leaving true | Returned => default [] (up_pending u) = []
               | _ => True
               end;
  ac_inflight : up_inflight u = match up_thread u with
                                | Uploading | Waiting | LastTry | Leaving _ => 1
                                | _ => 0
                                end;
  ac_queue : Z.of_nat (length (up_queue u)) ≤ MAX_QUEUE_EVENTS;
  ac_again : ∀ e, up_submitter u = PuttingAgain e → Z.of_nat (length (up_queue u)) < MAX_QUEUE_EVENTS;
  ac_count : Z.of_nat (length (submitted ls)) =
             up_acked u + up_dropped u + Z.of_nat (length (outstanding u));
}.

Lemma accounted_step ls l u u' : accounted ls u → step batch_size l u = Some u' → accounted (ls ++ [l]) u'.
Proof.
  intros [Hp Hi Hq Ha Hc] E. unfold outstanding, in_flight, in_hand in *. step_cases E.
  all: bool_props.
  all: split; rewrite ?submitted_snoc; unfold outstanding, in_flight, in_hand; cbn; rewrite ?app_nil_r;
    do 2 (rewrite ?length_app in *; cbn in * ).
  all: try done.
  all: try lia.
  all: first [by subst | specialize (Ha _ eq_refl); lia].
Qed.
Lemma accounted_always ls u : schedule batch_size start_uploader ls = Some u → accounted ls u.
Proof.
  revert ls u. apply schedule_ind; [by split|]. intros ls l u u' _ Hu. by apply accounted_step.
Qed.

(** ** Order *)

(** The rows of the command, as [INSERT OR IGNORE] keeps them: each sequence number once, in
    the order of arrival. *)
Definition store_event (rows : list event_in) e : list event_in :=
  if existsb (λ r, Z.eqb (ei_sequence r) (ei_sequence e)) rows then rows else rows ++ [e].
Definition store_events (rows batch : list event_in) : list event_in := foldl store_event rows batch.
Definition stored_rows (batches : list (list event_in)) : list event_in := foldl store_events [] batches.

Definition precedes (a b : event_in) : Prop := ei_sequence a < ei_sequence b.
Definition increasing (l : list event_in) : Prop := StronglySorted precedes l.
Definition all_precede (l l' : list event_in) : Prop := ∀ x y, x ∈ l → y ∈ l' → precedes x y.

Lemma increasing_app l l' : increasing (l ++ l') ↔ increasing l ∧ increasing l' ∧ all_precede l l'.
Proof.
  unfold increasing, all_precede. induction l as [|x l IH]; simpl.
  - split; [|tauto]. intros Hl. split_and!; [constructor|done|]. intros ?? []%elem_of_nil.
  - split.
    + intros [Hl Hx]%StronglySorted_inv. apply IH in Hl as (Hl&Hl'&Hb). rewrite Forall_app in Hx.
      destruct Hx as [Hx Hx']. split_and!; [by constructor|done|].
      intros a b [->|Ha]%elem_of_cons Hin; [by eapply Forall_forall in Hx'|by apply Hb].
    + intros ([Hl Hx]%StronglySorted_inv&Hl'&Hb). constructor.
      * apply IH. split_and!; [done..|]. intros a b Ha. apply Hb. by right.
      * rewrite Forall_app. split; [done|]. apply Forall_forall. intros b. apply Hb. left.
Qed.
Lemma increasing_sublist l l' : sublist l l' → increasing l' → increasing l.
Proof.
  unfold increasing. induction 1 as [|x l l' Hs IH|x l l' Hs IH]; [done|..].
  - intros [Hl Hx]%StronglySorted_inv. constructor; [by apply IH|].
    apply Forall_forall. intros y Hy. rewrite Forall_forall in Hx. apply Hx.
    by eapply elem_of_submseteq, sublist_submseteq.
  - intros [Hl _]%StronglySorted_inv. by apply IH.
Qed.

(** A batch of later events is appended; one that is there already changes nothing. *)
Lemma store_later rows batch : increasing batch → all_precede rows batch → store_events rows batch = rows ++ batch.
Proof.
  revert rows. induction batch as [|e batch IH]; intros rows Hi Hb; [by rewrite app_nil_r|].
  change (store_events rows (e :: batch)) with (store_events (store_event rows e) batch).
  apply StronglySorted_inv in Hi as [Hi He]. unfold store_event.
  destruct (existsb _ rows) eqn:Ex.
  - apply existsb_exists in Ex as (r&Hr%list_elem_of_In&Er). specialize (Hb r e Hr ltac:(left)).
    unfold precedes in Hb. lia.
  - rewrite IH; [by rewrite <-app_assoc|done|]. intros x y [Hx| ->%list_elem_of_singleton]%elem_of_app Hy.
    + apply Hb; [done|by right].
    + by eapply Forall_forall in He.
Qed.
Lemma store_again rows batch : (∀ e, e ∈ batch → e ∈ rows) → store_events rows batch = rows.
Proof.
  induction batch as [|e batch IH]; intros Hin; [done|].
  change (store_events rows (e :: batch)) with (store_events (store_event rows e) batch). unfold store_event.
  assert (existsb (λ r, Z.eqb (ei_sequence r) (ei_sequence e)) rows = true) as ->.
  { apply existsb_exists. exists e. split; [apply list_elem_of_In, Hin; left|lia]. }
  apply IH. intros x Hx. apply Hin. by right.
Qed.

Definition rows u : list event_in := stored_rows (up_stored u).
Lemma rows_snoc batches batch : stored_rows (batches ++ [batch]) = store_events (stored_rows batches) batch.
Proof. unfold stored_rows. by rewrite foldl_app. Qed.

(** The stored rows, the batch in flight unless it is stored already, the queue and the event
    in hand are, in this order, events in the order of their submission. *)
Definition ordered (ls : list label) u : Prop :=
  ∃ fresh, sublist (rows u ++ fresh ++ up_queue u ++ in_hand u) (submitted ls) ∧
    (fresh = in_flight u ∨
     fresh = [] ∧ ∃ batch, up_pending u = Some batch ∧ ∀ e, e ∈ batch → e ∈ rows u).

(** Whatever of the batch is new is appended. *)
Lemma store_fresh known fresh flight rest all :
  increasing all → sublist (known ++ fresh ++ rest) all →
  (fresh = flight ∨ fresh = [] ∧ ∀ e, e ∈ flight → e ∈ known) → store_events known flight = known ++ fresh.
Proof.
  intros Hinc Hl Hf. apply (increasing_sublist _ _ Hl) in Hinc as (_&[Hi _]%increasing_app&Hb)%increasing_app.
  assert (all_precede known fresh) as Hkf by (intros x y Hx Hy; apply Hb; [done|apply elem_of_app; by left]).
  destruct Hf as [->|[-> Hin]]; [by apply store_later|].
  rewrite app_nil_r. by apply store_again.
Qed.
(** Leaving events out. *)
Lemma sublist_without (a b c d : list event_in) : sublist (a ++ b ++ c) d → sublist (a ++ c) d.
Proof. intros H. etrans; [|exact H]. apply sublist_app; [done|]. by apply sublist_inserts_l. Qed.
Lemma sublist_later (a b : list event_in) : sublist a b → ∀ c, sublist a (b ++ c).
Proof. intros H c. by apply sublist_inserts_r. Qed.

Lemma ordered_step ls l u u' :
  increasing (submitted ls) → accounted ls u → ordered ls u → step batch_size l u = Some u' →
  ordered (ls ++ [l]) u'.
Proof.
  intros Hinc [Hp _ _ _ _] (fresh&Hl&Hf) E.
  unfold ordered, rows, in_flight, in_hand in *. rewrite submitted_snoc. step_cases E; rewrite ?app_nil_r in *.
  all: try solve [exists fresh; split; [first [exact Hl|by apply sublist_later]|exact Hf]].
  (* the submitting thread: the event comes last; the oldest is evicted; the call gives up *)
  { exists fresh. split; [|exact Hf]. rewrite !app_assoc. apply sublist_app; [by rewrite <-!app_assoc|done]. }
  { exists fresh. split; [|exact Hf]. etrans; [|exact Hl]. do 2 (apply sublist_app; [done|]). by constructor. }
  { exists fresh. split; [|exact Hf]. etrans; [|exact Hl]. do 2 (apply sublist_app; [done|]).
    by apply sublist_inserts_r. }
  (* collecting: nothing of a batch is stored before it is uploaded *)
  all: try (destruct Hf as [->|(_&b&Hb&_)]; [|congruence]; eexists; split; [|left; reflexivity];
    etrans; [|exact Hl]; cbn; rewrite <-?app_assoc; done).
  (* storing *)
  all: assert (fresh = default [] pending ∨ fresh = [] ∧
      ∀ e, e ∈ default [] pending → e ∈ foldl store_events [] stored) as Hst
    by (destruct Hf as [->|(->&b&->&Hb)]; [by left|by right]).
  all: pose proof (store_fresh _ _ _ _ _ Hinc Hl Hst) as Hs.
  all: exists []; rewrite ?foldl_app; cbn [foldl]; rewrite ?Hs, ?app_nil_l.
  all: split; [first [by rewrite <-app_assoc|by eapply sublist_without]|try by left].
  right. split; [done|]. destruct Hp as [b Hb]. exists b. split; [done|]. intros e He.
  apply elem_of_app. destruct Hst as [->|[_ Hin]]; [right|left; apply Hin]; by rewrite Hb.
Qed.
Lemma ordered_always ls u :
  schedule batch_size start_uploader ls = Some u → increasing (submitted ls) → ordered ls u.
Proof.
  revert ls u. apply (schedule_ind (λ ls u, increasing (submitted ls) → ordered ls u)).
  - intros _. exists []. split; [apply sublist_nil_l|by left].
  - intros ls l u u' Hrun IH E Hinc. assert (increasing (submitted ls)) as Hi.
    { rewrite submitted_snoc in Hinc. by apply increasing_app in Hinc as [Hinc _]. }
    apply (ordered_step ls l u u'); [done|by apply accounted_always|by apply IH|done].
Qed.

(** What is stored only grows. *)
Lemma stored_step l u u' : step batch_size l u = Some u' → ∃ more, up_stored u' = up_stored u ++ more.
Proof. intros E. step_cases E; try (exists []; by rewrite app_nil_r); by eexists. Qed.
Lemma stored_grows ls u u' : schedule batch_size u ls = Some u' → ∃ more, up_stored u' = up_stored u ++ more.
Proof.
  revert u. induction ls as [|l ls IH]; intros u E; simpl in E.
  - injection E as <-. exists []. by rewrite app_nil_r.
  - destruct (step batch_size l u) as [u1|] eqn:E1; [|done]. apply stored_step in E1 as [m1 E1].
    apply IH in E as [m2 ->]. rewrite E1, <-app_assoc. by eexists.
Qed.
Lemma store_grows known batch : ∃ later, store_events known batch = known ++ later.
Proof.
  revert known. induction batch as [|e batch IH]; intros known; [exists []; by rewrite app_nil_r|].
  change (store_events known (e :: batch)) with (store_events (store_event known e) batch).
  destruct (IH (store_event known e)) as [later ->]. unfold store_event.
  case_match; [by eexists|]. rewrite <-app_assoc. by eexists.
Qed.
Lemma rows_grow batches more : ∃ later, stored_rows (batches ++ more) = stored_rows batches ++ later.
Proof.
  induction more as [|b more [later IH]] using rev_ind; [exists []; by rewrite !app_nil_r|].
  rewrite app_assoc, rows_snoc, IH. destruct (store_grows (stored_rows batches ++ later) b) as [l ->].
  rewrite <-app_assoc. by eexists.
Qed.

(** ** An idle uploader *)

(** The thread holds an empty batch that it has to upload, or has returned. *)
Definition stuck u : Prop :=
  up_pending u = Some [] ∧ (∀ b, up_thread u ≠ Getting b) ∧ up_thread u ≠ Leaving true
  ∨ default [] (up_pending u) = [] ∧ (up_thread u = Leaving true ∨ up_thread u = Returned).
Lemma stuck_step l u u' : stuck u → step batch_size l u = Some u' → stuck u' ∧ up_stored u' = up_stored u.
Proof.
  unfold stuck, command_event_batch. intros [(Hp&Ht&Hl)|(Hp&[Ht|Ht])] E; step_cases E; bool_props.
  all: simplify_eq; simpl in *; try done; try lia.
  all: try (split; [|done]).
  all: try solve [left; by split_and!|right; split; [done|by (left + right)]].
  all: by destruct (Ht _ eq_refl).
Qed.
Lemma stuck_forever ls u u' : stuck u → schedule batch_size u ls = Some u' → up_stored u' = up_stored u.
Proof.
  revert u. induction ls as [|l ls IH]; intros u Hu E; simpl in E; [by injection E as <-|].
  destruct (step batch_size l u) as [u1|] eqn:E1; [|done]. apply (stuck_step l u u1 Hu) in E1 as [Hu1 <-].
  by apply IH.
Qed.

(** ** The rows of the controller *)

Definition as_event (r : event_row) : event_in :=
  EventIn (ev_sequence r) (ev_event_type r) (ev_source r) (ev_level r) (ev_message r) (ev_payload r).
Definition command_rows (command_id : string) (table : list event_row) : list event_row :=
  fetchall (λ r, streqb (ev_subject_id r) command_id) table.

Lemma same_event_rows command_id e table :
  exists_row (same_event command_id (ei_sequence e)) table =
  existsb (λ r, Z.eqb (ei_sequence r) (ei_sequence e)) (as_event <$> command_rows command_id table).
Proof.
  unfold command_rows, same_event. induction table as [|r table IH]; [done|]. simpl. rewrite IH.
  rewrite fetchall_cons. by destruct (streqb (ev_subject_id r) command_id).
Qed.
(** The [INSERT OR IGNORE] of a batch is [store_events] on the rows of its command. *)
Lemma insert_events_rows now command_id owner batch table seq :
  as_event <$> command_rows command_id (insert_events now command_id owner batch table seq).1.1 =
  store_events (as_event <$> command_rows command_id table) batch.
Proof.
  unfold insert_events. generalize 0%nat. revert table seq.
  induction batch as [|e batch IH]; intros table seq n; [done|].
  change (store_events ?k (e :: batch)) with (store_events (store_event k e) batch). unfold store_event.
  rewrite <-same_event_rows. simpl. destruct (exists_row _ table); [apply IH|].
  rewrite IH. f_equal. unfold command_rows. rewrite fetchall_snoc. unfold streqb. simpl.
  rewrite bool_decide_eq_true_2 by done. rewrite fmap_app. by destruct e.
Qed.
(** A worker's batches reaching the controller, each at a moment of its own. *)
Definition deliver (worker_id command_id : string) (w : world) (ds : list (Z * list event_in)) : world :=
  foldl (λ w d, (append_command_events d.1 worker_id command_id d.2 w).2) w ds.
(** The command of this worker is there and has these rows. *)
Definition log_is (worker_id command_id : string) (w : world) (events : list event_in) : Prop :=
  settled w ∧ (∃ c, get_command_row command_id (w_db w) = Some c ∧ cm_worker_id c = worker_id) ∧
  as_event <$> command_rows command_id (db_command_events (w_db w)) = events.

Lemma append_log now worker_id command_id batch w events :
  log_is worker_id command_id w events →
  log_is worker_id command_id (append_command_events now worker_id command_id batch w).2
    (store_events events batch).
Proof.
  intros (Hw&(c&Hc&Hid)&He). unfold append_command_events, transaction, select, sql.
  rewrite bind_gets, Hc, Hid. unfold streqb. rewrite bool_decide_eq_true_2 by done. cbv [negb].
  rewrite bind_gets. pose proof (insert_events_rows now command_id worker_id batch
    (db_command_events (w_db w)) (db_seq_command_events (w_db w))) as Hi.
  destruct (insert_events _ _ _ _ _ _) as [[table seq] n]. rewrite bind_modify. simpl in *.
  split_and!; [done|by exists c|]. simpl. by rewrite Hi, He.
Qed.
Lemma deliver_log worker_id command_id ds w events :
  log_is worker_id command_id w events →
  log_is worker_id command_id (deliver worker_id command_id w ds) (foldl store_events events ds.*2).
Proof.
  revert w events. induction ds as [|d ds IH]; intros w events Hw; [done|]. simpl. by apply IH, append_log.
Qed.

(** Reading with a cursor. *)
Lemma order_by_id {R} (leb : R → R → bool) t : StronglySorted (λ x y, leb x y = true) t → order_by leb t = t.
Proof.
  induction 1 as [|r t Ht IH Hr]; [done|]. simpl. rewrite IH. destruct t as [|r' t]; [done|]. simpl.
  inversion_clear Hr as [|? ? Hb _]. by rewrite Hb.
Qed.
Definition newer (after : Z) (events : list event_in) : list event_in :=
  fetchall (λ e, Z.ltb after (ei_sequence e)) events.
Definition cursor (after : Z) (page : list event_in) : Z :=
  match last page with Some e => ei_sequence e | None => after end.

Lemma newer_sublist after events : sublist (newer after events) events.
Proof. apply sublist_filter. Qed.
Lemma newer_increasing after events : increasing events → increasing (newer after events).
Proof. apply increasing_sublist, newer_sublist. Qed.
Lemma read_log worker_id command_id w events after n :
  log_is worker_id command_id w events → increasing events →
  ∃ page, list_command_events command_id after n w = (Ok page, w) ∧
    as_event <$> page = limit n (newer after events).
Proof.
  intros (Hw&_&He) Hi. unfold list_command_events, connect_read, gets. eexists. split; [done|].
  rewrite Hw. unfold newer. rewrite <-He.
  assert (fetchall (λ r, streqb (ev_subject_id r) command_id && Z.ltb after (ev_sequence r))
            (db_command_events (w_db w)) =
          fetchall (λ r, Z.ltb after (ev_sequence r)) (command_rows command_id (db_command_events (w_db w)))) as ->
    by (unfold command_rows; by rewrite fetchall_fetchall).
  rewrite <-He in Hi. revert Hi. generalize (command_rows command_id (db_command_events (w_db w))). intros t Hi.
  assert (as_event <$> fetchall (λ r, Z.ltb after (ev_sequence r)) t =
          fetchall (λ e, Z.ltb after (ei_sequence e)) (as_event <$> t)) as Hf.
  { clear. induction t as [|r t IH]; [done|]. rewrite fmap_cons, !fetchall_cons. simpl.
    by case_match; rewrite ?fmap_cons, IH. }
  rewrite order_by_id; [unfold limit; case_match; [done|]; by rewrite fmap_take, Hf|].
  assert (increasing (as_event <$> fetchall (λ r, Z.ltb after (ev_sequence r)) t)) as Hs
    by (rewrite Hf; by apply newer_increasing).
  clear -Hs. induction (fetchall _ t) as [|r l IH]; [constructor|].
  rewrite fmap_cons in Hs. apply StronglySorted_inv in Hs as [Hs Hr]. constructor; [by apply IH|].
  rewrite Forall_fmap in Hr. eapply Forall_impl; [exact Hr|]. intros x Hx. unfold by_sequence, precedes in *.
  simpl in Hx. lia.
Qed.

(** Reading on from the last event of a page misses nothing. *)
Lemma read_on after events page rest :
  increasing events → newer after events = page ++ rest → newer after events = page ++ newer (cursor after page) events.
Proof.
  intros Hi E. unfold cursor. destruct (last page) as [m|] eqn:Hm; [|by apply last_None in Hm as ->].
  apply last_Some in Hm as [page' ->]. rewrite E at 1. f_equal.
  pose proof (newer_increasing after _ Hi) as Hs. rewrite E in Hs.
  apply increasing_app in Hs as ([_ [_ Hpm]]%increasing_app&_&Hr).
  assert (after < ei_sequence m) as Ha.
  { assert (m ∈ newer after events) as [Hb _]%elem_of_fetchall; [|lia].
    rewrite E. apply elem_of_app. left. apply elem_of_app. right. left. }
  assert (newer (ei_sequence m) events = newer (ei_sequence m) (newer after events)) as ->.
  { unfold newer. rewrite fetchall_fetchall. apply list_filter_iff. intros e. split; lia. }
  rewrite E. unfold newer. rewrite fetchall_app, fetchall_nil, fetchall_all; [done|..].
  - intros e He. specialize (Hr m e). unfold precedes in Hr. apply Z.ltb_lt, Hr; [|done].
    apply elem_of_app. right. left.
  - intros e [He| ->%list_elem_of_singleton]%elem_of_app; [|lia].
    specialize (Hpm e m He ltac:(left)). unfold precedes in Hpm. lia.
Qed.
Lemma newest_prefix {A} n (l : list A) : ∃ rest, l = limit n l ++ rest.
Proof.
  unfold limit. case_match; [exists []; by rewrite app_nil_r|]. exists (drop (Z.to_nat n) l).
  by rewrite take_drop.
Qed.
End schedules.

(** What the browser sees of a command's log is in order.  Whatever the order in which the
    submitting thread, the uploading thread and [flush] step, whichever uploads fail, are lost or are
    stored without an answer: the rows of the command are submitted events in the order of their
    submission, each once; and a browser that reads a page and later reads on from the last sequence
    number it has got exactly what one complete read at the later time returns.  Nothing says that
    an event arrives: the uploader may get stuck ([idle_uploader_stuck]). *)
Theorem command_log_in_order batch_size ls u ls' u' worker_id command_id w ds ds' after n :
  schedule batch_size start_uploader ls = Some u → schedule batch_size u ls' = Some u' →
  increasing (submitted (ls ++ ls')) → log_is worker_id command_id w [] →
  ds.*2 = up_stored u → (ds ++ ds').*2 = up_stored u' →
  let w1 := deliver worker_id command_id w ds in
  let w2 := deliver worker_id command_id w1 ds' in
  sublist (as_event <$> command_rows command_id (db_command_events (w_db w2))) (submitted (ls ++ ls')) ∧
  ∃ page rest whole,
    list_command_events command_id after n w1 = (Ok page, w1) ∧
    list_command_events command_id (cursor after (as_event <$> page)) (-1) w2 = (Ok rest, w2) ∧
    list_command_events command_id after (-1) w2 = (Ok whole, w2) ∧
    as_event <$> whole = (as_event <$> page) ++ (as_event <$> rest).
Proof.
  intros E E' Hinc Hw Hd Hd' w1 w2.
  assert (schedule batch_size start_uploader (ls ++ ls') = Some u') as Eall by (rewrite schedule_app, E; exact E').
  pose proof (deliver_log _ _ ds _ _ Hw) as Hw1. pose proof (deliver_log _ _ ds' _ _ Hw1) as Hw2.
  fold w1 in Hw1, Hw2. fold w2 in Hw2. rewrite Hd in Hw1, Hw2.
  assert (foldl store_events (foldl store_events [] (up_stored u)) ds'.*2 = rows u') as Hrows
    by (unfold rows, stored_rows; by rewrite <-Hd', fmap_app, foldl_app, Hd).
  rewrite Hrows in Hw2.
  destruct (ordered_always _ _ _ Eall Hinc) as (fresh&Hl&_).
  assert (sublist (rows u') (submitted (ls ++ ls'))) as Hsub
    by (etrans; [|exact Hl]; by apply sublist_inserts_r).
  pose proof (increasing_sublist _ _ Hsub Hinc) as Hi2.
  destruct (rows_grow (up_stored u) ds'.*2) as [later Hlater].
  assert (rows u' = rows u ++ later) as Hgrow by (unfold rows; by rewrite <-Hlater, <-Hd', fmap_app, Hd).
  assert (increasing (rows u)) as Hi1 by (rewrite Hgrow in Hi2; by apply increasing_app in Hi2 as [? _]).
  split; [by destruct Hw2 as (_&_&->)|].
  destruct (read_log _ _ _ _ after n Hw1 Hi1) as (page&Ep&Hp).
  destruct (read_log _ _ _ _ (cursor after (as_event <$> page)) (-1) Hw2 Hi2) as (rest&Er&Hr).
  destruct (read_log _ _ _ _ after (-1) Hw2 Hi2) as (whole&Ew&Hwh).
  exists page, rest, whole. split_and!; [done..|]. rewrite Hwh, Hr, Hp. unfold limit at 1 3. cbn.
  destruct (newest_prefix n (newer after (rows u))) as [more Hm]. eapply read_on; [done|].
  rewrite Hgrow. unfold newer. rewrite fetchall_app. fold (newer after (rows u)). rewrite Hm at 1.
  by rewrite <-app_assoc.
Qed.

(** No event disappears without a trace.  Under every schedule each submitted event is
    answered by the controller, counted as dropped, or still with the uploader (being put,
    queued, or in the batch in flight); the queue stays within its bound, and at most one
    batch is in flight. *)
Theorem events_accounted batch_size ls u :
  schedule batch_size start_uploader ls = Some u →
  Z.of_nat (length (submitted ls)) = up_acked u + up_dropped u + Z.of_nat (length (outstanding u)) ∧
  Z.of_nat (length (up_queue u)) ≤ MAX_QUEUE_EVENTS ∧ 0 ≤ up_inflight u ≤ 1 ∧
  (up_thread u = Returned → in_flight u = []).
Proof.
  intros E. destruct (accounted_always _ _ _ E) as [Hp Hi Hq _ Hc]. split_and!; [done..| | |].
  - rewrite Hi. by case_match.
  - rewrite Hi. by case_match.
  - intros Ht. unfold in_flight. by rewrite Ht in *.
Qed.

(** An uploader that was idle once never uploads again.  When the log is silent for the
    time [_collect_batch] waits, the empty batch it returns is kept as the pending one; the
    controller refuses empty batches, so it is retried for ever, and nothing that is submitted
    later is stored, whatever happens. *)
Theorem idle_uploader_stuck batch_size ls u ls' u' :
  schedule batch_size start_uploader ls = Some u → up_thread u = Idle →
  schedule batch_size u ls' = Some u' → up_stored u' = up_stored u.
Proof.
  intros E Ht. apply stuck_forever. left. destruct (accounted_always _ _ _ E) as [Hp _ _ _ _].
  rewrite Ht in *. by split_and!.
Qed.

(** ** Schedules of a short log *)

Definition line (n : Z) : event_in := EventIn n "log" "burn" "info" "flashing" [].
Definition busy : list label :=
  [Submit (line 0); SubmitNext; Submit (line 1); SubmitNext;
   RunNext false NotStored; RunNext false NotStored; RunNext false NotStored; RunNext false NotStored;
   RunNext false AnswerLost].
(** The batch is stored without an answer, retried, and the rest of the log follows. *)
Definition busy_later : list label :=
  [Submit (line 2); SubmitNext; RunNext true NotStored; RunNext true NotStored; RunNext true NotStored;
   RunNext true NotStored; RunNext false Answered; RunNext false NotStored; RunNext false NotStored;
   RunNext false NotStored; RunNext false NotStored; RunNext false NotStored; RunNext false Answered].
(** The start command of the sample deployment is logged. *)
Lemma sample_upload : log_is "w" "cmd-4" sample_delivered [].
Proof. split_and!; [vm_compute; reflexivity|eexists; split; vm_compute; reflexivity|vm_compute; reflexivity]. Qed.
Lemma command_log_in_order_witness :
  ∃ page rest whole,
    let w1 := deliver "w" "cmd-4" sample_delivered [(110, [line 0; line 1])] in
    let w2 := deliver "w" "cmd-4" w1 [(111, [line 0; line 1]); (112, [line 2])] in
    list_command_events "cmd-4" (-1) 500 w1 = (Ok page, w1) ∧
    list_command_events "cmd-4" (cursor (-1) (as_event <$> page)) (-1) w2 = (Ok rest, w2) ∧
    list_command_events "cmd-4" (-1) (-1) w2 = (Ok whole, w2) ∧
    as_event <$> whole = (as_event <$> page) ++ (as_event <$> rest).
Proof.
  destruct (schedule 2 start_uploader busy) as [u|] eqn:E; [|vm_compute in E; discriminate].
  destruct (schedule 2 u busy_later) as [u'|] eqn:E'; [|vm_compute in E; simplify_eq; vm_compute in E'; discriminate].
  eapply (command_log_in_order 2 busy u busy_later u' "w" "cmd-4" sample_delivered [(110, [line 0; line 1])]
    [(111, [line 0; line 1]); (112, [line 2])] (-1) 500); [done..| |exact sample_upload| |].
  - vm_compute. repeat constructor.
  - vm_compute in E. by simplify_eq.
  - vm_compute in E. simplify_eq. vm_compute in E'. by simplify_eq.
Defined.
Lemma events_accounted_witness :
  ∃ u, schedule 2 start_uploader (busy ++ busy_later) = Some u ∧
    3 = up_acked u + up_dropped u + Z.of_nat (length (outstanding u)).
Proof.
  destruct (schedule 2 start_uploader (busy ++ busy_later)) as [u|] eqn:E; [|vm_compute in E; discriminate].
  exists u. split; [done|]. by apply (events_accounted 2 (busy ++ busy_later) u).
Defined.

(** Half a second without output, then a line, and [flush] to its end. *)
Definition silent : list label := [RunNext false NotStored; RunNext true NotStored].
Definition too_late : list label :=
  [Submit (line 0); SubmitNext; RunNext true NotStored; RunNext false NotStored; RunNext false NotStored;
   RunNext false NotStored; FlushNext false; FlushNext true; FlushNext true; FlushNext false;
   RunNext false NotStored; RunNext false NotStored; RunNext false NotStored; FlushNext false].
Lemma idle_uploader_stuck_witness :
  ∃ u u', schedule 50 start_uploader silent = Some u ∧ schedule 50 u too_late = Some u' ∧
    up_thread u' = Returned ∧ up_queue u' = [line 0] ∧ up_stored u' = up_stored u.
Proof.
  destruct (schedule 50 start_uploader silent) as [u|] eqn:E; [|vm_compute in E; discriminate].
  assert (up_thread u = Idle) as Ht by (vm_compute in E; by simplify_eq).
  destruct (schedule 50 u too_late) as [u'|] eqn:E'; [|vm_compute in E; simplify_eq; vm_compute in E'; discriminate].
  exists u, u'. split_and!; [done|done| | |by apply (idle_uploader_stuck 50 silent u too_late u')].
  all: vm_compute in E; simplify_eq; vm_compute in E'; by simplify_eq.
Defined.

(** [flush] can return in time although the last batch is not uploaded yet: the thread has
    taken it from the queue and not counted it in when [flush] looks. *)
Lemma flush_returns_early :
  ∃ u, schedule 1 start_uploader
    [RunNext false NotStored; Submit (line 0); SubmitNext; RunNext false NotStored;
     FlushNext false; FlushNext false; FlushNext false; FlushNext false; FlushNext true] = Some u ∧
    up_flusher u = Flushed true ∧ up_stored u = [] ∧ up_dropped u = 0.
Proof. eexists. split; [vm_compute; reflexivity|done]. Qed.
