(* ===== verification/Sessions.v ===== *)
(** Accounts and browser sessions, [features/auth/service.py].

    PBKDF2 and the syntax of IP addresses are parameters; drawn tokens and salts are
    arguments; times are in microseconds.  The background of a connection (schema, pragmas,
    a removed data directory) is not state. *)

From stdpp Require Import gmap.
From S2P Require Import Prelude Encodings Authority RateLimit Approvals AgentTokens.

Open Scope Z_scope.

(** [hashlib.pbkdf2_hmac("sha256", password, salt, iterations).hex()]. *)
Class Pbkdf2 := pbkdf2 : string → string → Z → string.
(** Whether [ipaddress.ip_address] accepts a text. *)
Class IpSyntax := ip_address : string → bool.

Definition MINUTE : Z := 60 * SECOND.
Definition HOUR : Z := 60 * MINUTE.
Definition PASSWORD_ALGORITHM : string := "pbkdf2_sha256".
Definition PASSWORD_ITERATIONS : Z := 260000.

(** The lifetimes read from the environment. *)
(* src/features/auth/service.py:62-69 SESSION_ABSOLUTE_HOURS *)
Record lifetimes := Lifetimes { lt_absolute : Z; lt_idle : Z; lt_elevation_minutes : Z }.
Definition default_lifetimes : lifetimes := Lifetimes (24 * HOUR) (12 * HOUR) 30.

(* src/features/auth/schema.py:26-37 platform_users *)
Record user_row := UserRow {
  us_id : string;
  us_username : string;
  us_password_hash : string;
  us_role : string;
  us_display_name : string;
  us_disabled : bool;
  us_created_at : Z;
  us_updated_at : Z;
}.
#[export] Instance user_row_eta : Eta user_row := λ u,
  UserRow (us_id u) (us_username u) (us_password_hash u) (us_role u) (us_display_name u)
    (us_disabled u) (us_created_at u) (us_updated_at u).
(* src/features/auth/schema.py:80-89 platform_sessions *)
Record session_row := SessionRow {
  se_token_hash : string;
  se_user_id : string;
  se_created_at : Z;
  se_last_seen_at : Z;
  se_expires_at : Z;
  se_idle_expires_at : Z;
  se_revoked_at : stamp;
  se_elevated_until : stamp;
  se_elevated_by_user_id : option string;
}.
#[export] Instance session_row_eta : Eta session_row := λ s,
  SessionRow (se_token_hash s) (se_user_id s) (se_created_at s) (se_last_seen_at s) (se_expires_at s)
    (se_idle_expires_at s) (se_revoked_at s) (se_elevated_until s) (se_elevated_by_user_id s).
Record auth_db := AuthDb { au_users : list user_row; au_sessions : list session_row }.
#[export] Instance auth_db_eta : Eta auth_db := λ d, AuthDb (au_users d) (au_sessions d).

(** ** Names and passwords *)

(** [text.rsplit(c, 1)[1]], the part behind the last [c]. *)
Definition after_last (c : ascii) (s : string) : string := List.last (split_on c s) "".
(** [text.split(c, n)]. *)
Fixpoint split_max (n : nat) (c : ascii) (s : string) : list string :=
  match n with
  | O => [s]
  | S n' =>
      (fix scan (s : string) : list string :=
         match s with
         | EmptyString => [EmptyString]
         | String a s' =>
             if bool_decide (a = c) then EmptyString :: split_max n' c s'
             else match scan s' with
                  | [] => [String a EmptyString]
                  | x :: l => String a x :: l
                  end
         end) s
  end.

Section service.
Context `{Digest} `{CaseMaps} `{Pbkdf2} `{IpSyntax} (L : lifetimes).

(* src/features/auth/service.py:35-51 is_client_form_username *)
Definition is_client_form_username (username : string) : bool :=
  let cleaned := strip username in
  negb (lacks "@" cleaned) && ip_address (after_last "@" cleaned).

(* src/features/auth/service.py:143-151 AuthService._hash_password *)
Definition hash_password (password salt : string) : string :=
  PASSWORD_ALGORITHM +:+ "$" +:+ pretty PASSWORD_ITERATIONS +:+ "$" +:+ salt +:+ "$"
  +:+ pbkdf2 password salt PASSWORD_ITERATIONS.
(** Anything malformed is refused; so are salts and digests that are not ASCII, for which
    the library raises. *)
(* src/features/auth/service.py:153-166 AuthService._verify_password *)
Definition verify_password (password stored : string) : bool :=
  match split_max 3 "$" stored with
  | [algorithm; iterations; salt; digest] =>
      if negb (streqb algorithm PASSWORD_ALGORITHM) then false
      else match py_int iterations with
           | Some n =>
               ascii_text salt && Z.leb 1 n && ascii_text digest
               && streqb (pbkdf2 password salt n) digest
           | None => false
           end
  | _ => false
  end.

(* src/features/auth/service.py:168-176 AuthService._row_to_user *)
Definition row_to_user (u : user_row) : current_user :=
  current_user_post_init
    {| cu_id := us_id u; cu_username := us_username u; cu_role := us_role u;
       cu_display_name := us_display_name u; cu_extra_permissions := ∅; cu_resource_owner_id := "" |}.

(* src/features/auth/service.py:178-186 AuthService._validate_username *)
Definition validate_username (username : string) : result string :=
  let cleaned := strip username in
  if negb (nonempty cleaned) then Err (ValueError "用户名不能为空")
  else if Z.ltb 64 (text_length cleaned) then Err (ValueError "用户名不能超过 64 个字符")
  else if negb (all_chars (λ a, negb (is_space a)) cleaned) then Err (ValueError "用户名不能包含空白字符")
  else Ok cleaned.
(* src/features/auth/service.py:188-190 AuthService._validate_password *)
Definition validate_password (password : string) : result unit :=
  if Z.ltb (text_length password) 8 then Err (ValueError "密码至少需要 8 位") else Ok tt.
Definition ROLES : list string := ["admin"; "device_operator"; "user"].

(** ** Accounts *)

Definition user_is (i : string) (u : user_row) : bool := streqb (us_id u) i.
Definition named (username : string) (u : user_row) : bool := streqb (us_username u) (strip username).
Definition checked {A} (r : result A) : M auth_db A := match r with Ok a => mret a | Err e => raise e end.

(* src/features/auth/service.py:135-141 AuthService.users_exist *)
Definition users_exist : M auth_db bool := gets (λ d, negb (bool_decide (au_users d = []))).
(** [INSERT INTO platform_users]: the primary key and the unique name. *)
Definition insert_user (u : user_row) (e : exn) : M auth_db unit :=
  users ← gets au_users;
  _ ← require (negb (exists_row (user_is (us_id u)) users)
               && negb (exists_row (λ x, streqb (us_username x) (us_username u)) users)) e;
  modify (λ d, d <| au_users ::= λ l, l ++ [u] |>).

(* src/features/auth/service.py:192-235 AuthService.create_user *)
Definition create_user (now : Z) (salt username password role display_name : string)
    (allow_client_form : bool) : M auth_db current_user :=
  username ← checked (validate_username username);
  if is_client_form_username username && negb allow_client_form
  then raise (ValueError "客户端账号使用 SSH 凭据登录，不能设置本地密码")
  else
    _ ← checked (validate_password password);
    if negb (mem role ROLES) then raise (ValueError "角色必须是 admin、device_operator 或 user")
    else
      let u := UserRow username username (hash_password password salt) role (strip display_name) false now now in
      _ ← committed (insert_user u (ValueError "用户名已存在"));
      mret (row_to_user u).

(* src/features/auth/service.py:237-266 AuthService.create_initial_admin *)
Definition create_initial_admin (now : Z) (salt username password display_name : string) :
    M auth_db current_user :=
  username ← checked (validate_username username);
  _ ← checked (validate_password password);
  let u := UserRow username username (hash_password password salt) "admin" (strip display_name) false now now in
  _ ← committed (
    users ← gets au_users;
    _ ← require (bool_decide (users = [])) (ValueError "系统已经完成初始化");
    insert_user u (IntegrityError "platform_users"));
  mret (row_to_user u).

(* src/features/auth/service.py:268-292 AuthService.authenticate *)
Definition authenticate (username password : string) : M auth_db (option current_user) :=
  if is_client_form_username username then mret None
  else
    row ← gets (λ d, fetchone (λ u, named username u && negb (us_disabled u)) (au_users d));
    match row with
    | None => mret None
    | Some u => if verify_password password (us_password_hash u) then mret (Some (row_to_user u)) else mret None
    end.

(* src/features/auth/service.py:294-301 AuthService.get_enabled_user *)
Definition get_enabled_user (username : string) : M auth_db (option current_user) :=
  gets (λ d, row_to_user <$> fetchone (λ u, named username u && negb (us_disabled u)) (au_users d)).
(* src/features/auth/service.py:303-308 AuthService.user_exists *)
Definition user_exists (username : string) : M auth_db bool :=
  gets (λ d, exists_row (named username) (au_users d)).

(** The password is drawn and forgotten. *)
(* src/features/auth/service.py:310-332 AuthService.create_client_user *)
Definition create_client_user (now : Z) (salt drawn_password username : string) : M auth_db current_user :=
  existing ← get_enabled_user username;
  match existing with
  | Some u => mret u
  | None =>
      try (create_user now salt username drawn_password "user" username true)
        (λ e, match e with
              | ValueError _ =>
                  existing ← get_enabled_user username;
                  match existing with Some u => mret u | None => raise e end
              | _ => raise e
              end)
  end.

(** ** Sessions *)

Definition session_is (h : string) (s : session_row) : bool := streqb (se_token_hash s) h.
Definition unrevoked (s : session_row) : bool := bool_decide (se_revoked_at s = None).
Definition update_sessions (p : session_row → bool) (f : session_row → session_row) : M auth_db nat :=
  rows ← gets au_sessions;
  _ ← modify (λ d, d <| au_sessions ::= update_where p f |>);
  mret (rowcount p rows).

(* src/features/auth/service.py:334-369 AuthService.create_session *)
Definition create_session (now : Z) (token user_id : string) : M auth_db string :=
  committed (
    _ ← modify (λ d, d <| au_sessions ::= delete_where
      (λ s, negb (unrevoked s) || Z.leb (se_expires_at s) now || Z.leb (se_idle_expires_at s) now) |>);
    rows ← gets au_sessions;
    _ ← require (negb (exists_row (session_is (hash_token token)) rows))
          (IntegrityError "platform_sessions.token_hash");
    _ ← modify (λ d, d <| au_sessions ::= λ l, l ++
      [SessionRow (hash_token token) user_id now now (now + lt_absolute L) (now + lt_idle L) None None None] |>);
    mret token).

(* src/features/auth/service.py:374-381 AuthService.revoke_session *)
Definition revoke_session (now : Z) (token : string) : M auth_db unit :=
  _ ← update_sessions (session_is (hash_token token)) (λ s, s <| se_revoked_at := Some now |>); mret tt.
(* src/features/auth/service.py:383-394 AuthService.revoke_user_sessions *)
Definition revoke_user_sessions (now : Z) (user_id : string) : M auth_db nat :=
  update_sessions (λ s, streqb (se_user_id s) user_id && unrevoked s) (λ s, s <| se_revoked_at := Some now |>).

Definition active_admin (u : user_row) : bool := streqb (us_role u) "admin" && negb (us_disabled u).
(* src/features/auth/service.py:396-463 AuthService.update_user *)
Definition update_user (now : Z) (user_id : string) (role display_name : option string)
    (disabled : option bool) : M auth_db current_user :=
  if match role with Some r => negb (mem r ROLES) | None => false end
  then raise (ValueError "角色必须是 admin、device_operator 或 user")
  else
    updated ← committed (
      row ← gets (λ d, fetchone (user_is user_id) (au_users d));
      match row with
      | None => raise (ValueError "用户不存在")
      | Some u =>
          let removes_admin := streqb (us_role u) "admin"
            && (match role with Some r => negb (streqb r "admin") | None => false end
                || bool_decide (disabled = Some true)) in
          users ← gets au_users;
          if removes_admin && Nat.leb (rowcount active_admin users) 1
          then raise (ValueError "不能停用或降级最后一个管理员")
          else
            let write x := x <| us_role := default (us_role u) role |>
              <| us_display_name := match display_name with Some t => strip t | None => us_display_name u end |>
              <| us_disabled := default (us_disabled u) disabled |> <| us_updated_at := now |> in
            _ ← modify (λ d, d <| au_users ::= update_where (user_is user_id) write |>);
            gets (λ d, fetchone (user_is user_id) (au_users d))
      end);
    _ ← when (bool_decide (is_Some role) || bool_decide (is_Some disabled))
          (_ ← revoke_user_sessions now user_id; mret tt);
    match updated with Some u => mret (row_to_user u) | None => raise (ValueError "用户不存在") end.

(* src/features/auth/service.py:465-487 AuthService.set_user_password *)
Definition set_user_password (now : Z) (salt user_id password : string) : M auth_db unit :=
  _ ← checked (validate_password password);
  _ ← committed (
    row ← gets (λ d, fetchone (user_is user_id) (au_users d));
    if match row with Some u => is_client_form_username (us_username u) | None => false end
    then raise (ValueError "客户端账号使用 SSH 凭据登录，不能设置本地密码")
    else
      users ← gets au_users;
      _ ← modify (λ d, d <| au_users ::= update_where (user_is user_id)
        (λ u, u <| us_password_hash := hash_password password salt |> <| us_updated_at := now |>) |>);
      require (negb (bool_decide (rowcount (user_is user_id) users = 0%nat))) (ValueError "用户不存在"));
  _ ← revoke_user_sessions now user_id; mret tt.

(** [minutes or ELEVATION_MINUTES]. *)
(* src/features/auth/service.py:489-539 AuthService.elevate_session *)
Definition elevate_session (now : Z) (token : string) (admin_user : current_user) (minutes : Z) :
    M auth_db bool :=
  if negb (streqb (cu_role admin_user) "admin") then mret false
  else
    let h := hash_token token in
    row ← gets (λ d, fetchone (λ s, session_is h s && unrevoked s && Z.ltb now (se_expires_at s)
                                    && Z.ltb now (se_idle_expires_at s)) (au_sessions d));
    match row with
    | None => mret false
    | Some s =>
        let minutes := if Z.eqb minutes 0 then lt_elevation_minutes L else minutes in
        let elevated_until := Z.min (now + Z.max 1 minutes * MINUTE) (se_expires_at s) in
        count ← update_sessions (λ s, session_is h s && unrevoked s)
          (λ s, s <| se_elevated_until := Some elevated_until |> <| se_elevated_by_user_id := Some (cu_id admin_user) |>);
        mret (bool_decide (0 < count)%nat)
    end.

(* src/features/auth/service.py:541-566 AuthService.get_elevated_until *)
Definition get_elevated_until (now : Z) (token : string) : M auth_db stamp :=
  if negb (nonempty token) then mret None
  else
    row ← gets (λ d, fetchone (λ s, session_is (hash_token token) s && unrevoked s) (au_sessions d));
    match row with
    | Some s =>
        match se_elevated_until s with
        | Some t => mret (if Z.leb t now then None else Some t)
        | None => mret None
        end
    | None => mret None
    end.

(* src/features/auth/service.py:568-583 AuthService.clear_elevation *)
Definition clear_elevation (token : string) : M auth_db bool :=
  if negb (nonempty token) then mret false
  else
    count ← update_sessions (λ s, session_is (hash_token token) s && unrevoked s)
      (λ s, s <| se_elevated_until := None |> <| se_elevated_by_user_id := None |>);
    mret (bool_decide (0 < count)%nat).

(** The row of the join: a session in force and its enabled user. *)
Definition in_force (now : Z) (token : string) (d : auth_db) (s : session_row) : bool :=
  session_is (hash_token token) s && unrevoked s
  && exists_row (λ u, user_is (se_user_id s) u && negb (us_disabled u)) (au_users d)
  && Z.ltb now (se_expires_at s) && Z.ltb now (se_idle_expires_at s)
  && Z.ltb (now - lt_absolute L) (se_created_at s).
(* src/features/auth/service.py:585-629 AuthService.get_user_for_token *)
Definition get_user_for_token (now : Z) (token : string) (refresh : bool) : M auth_db (option current_user) :=
  if negb (nonempty token) then mret None
  else
    row ← gets (λ d,
      s ← fetchone (in_force now token d) (au_sessions d);
      u ← fetchone (λ u, user_is (se_user_id s) u && negb (us_disabled u)) (au_users d);
      Some (s, u));
    match row with
    | None => mret None
    | Some (s, u) =>
        _ ← when (refresh && negb (last_seen_recent (Some (se_last_seen_at s)) now))
          (_ ← update_sessions
             (λ x, session_is (hash_token token) x && Z.ltb (se_last_seen_at x) (now - 60 * SECOND))
             (λ x, x <| se_last_seen_at := now |> <| se_idle_expires_at := now + lt_idle L |>); mret tt);
        mret (Some (row_to_user u))
    end.

(** A user with the number of its sessions in force and when it was last seen. *)
(* src/features/auth/service.py:632-651 AuthService.list_users *)
Definition list_users (now : Z) : M auth_db (list (user_row * nat * stamp)) :=
  gets (λ d, (λ u,
    let sessions := fetchall (λ s, streqb (se_user_id s) (us_id u) && unrevoked s) (au_sessions d) in
    (u, rowcount (λ s, Z.ltb now (se_expires_at s) && Z.ltb now (se_idle_expires_at s)) sessions,
     foldr (λ s acc, match acc with
                     | Some t => Some (Z.max (se_last_seen_at s) t)
                     | None => Some (se_last_seen_at s)
                     end) None sessions)) <$>
    order_by (λ a b, String.leb (us_username a) (us_username b)) (au_users d)).
End service.
