(* ===== verification/SessionProperties.v ===== *)
(** What accounts and sessions guarantee over any history: an administrator remains, a session
    is nobody else's and does not outlive its limit, and ending it is final. *)

From stdpp Require Import gmap.
From S2P Require Import Prelude Encodings Authority RateLimit Approvals AgentTokens Sessions.

Open Scope Z_scope.

Inductive auth_op :=
  | AuCreateUser (salt username password role display_name : string) (allow_client_form : bool)
  | AuInitialAdmin (salt username password display_name : string)
  | AuClientUser (salt drawn_password username : string)
  | AuUpdate (user_id : string) (role display_name : option string) (disabled : option bool)
  | AuPassword (salt user_id password : string)
  | AuSession (token user_id : string)
  | AuRevoke (token : string)
  | AuRevokeUser (user_id : string)
  | AuElevate (token : string) (admin_user : current_user) (minutes : Z)
  | AuClearElevation (token : string)
  | AuUse (token : string) (refresh : bool).

Section properties.
Context `{Digest} `{CaseMaps} `{Pbkdf2} `{IpSyntax} (L : lifetimes).

Definition auth_do (now : Z) (op : auth_op) : M auth_db unit :=
  match op with
  | AuCreateUser s u p r n a => _ ← create_user now s u p r n a; mret tt
  | AuInitialAdmin s u p n => _ ← create_initial_admin now s u p n; mret tt
  | AuClientUser s p u => _ ← create_client_user now s p u; mret tt
  | AuUpdate i r n d => _ ← update_user now i r n d; mret tt
  | AuPassword s i p => set_user_password now s i p
  | AuSession t i => _ ← create_session L now t i; mret tt
  | AuRevoke t => revoke_session now t
  | AuRevokeUser i => _ ← revoke_user_sessions now i; mret tt
  | AuElevate t u m => _ ← elevate_session L now t u m; mret tt
  | AuClearElevation t => _ ← clear_elevation t; mret tt
  | AuUse t r => _ ← get_user_for_token L now t r; mret tt
  end.
Definition auth_run (d : auth_db) (history : list (Z * auth_op)) : auth_db :=
  foldl (λ d x, (auth_do x.1 x.2 d).2) d history.

(** ** Walking through the operations

    A property of the store that the writes of an operation keep is kept by the operation. *)
Section walk.
Context (P : auth_db → Prop).
Definition keeps (d d' : auth_db) : Prop := P d → P d'.
#[local] Instance keeps_preorder : PreOrder keeps.
Proof. split; [by intros d|]. intros x y z. unfold keeps. auto. Qed.
Lemma committed_keeps {A} (m : M auth_db A) : preserves keeps m → preserves keeps (committed m).
Proof. intros Hm d. specialize (Hm d). unfold committed. by destruct (m d) as [[]]. Qed.
Lemma checked_keeps {A} (r : result A) : preserves keeps (checked r).
Proof. destruct r; by intros d. Qed.
Lemma modify_keeps f : (∀ d, P d → P (f d)) → preserves keeps (modify f).
Proof. intros Hf d. exact (Hf d). Qed.
End walk.
#[local] Existing Instance keeps_preorder.
Ltac keeps_step :=
  first
    [ progress intros
    | apply preserves_bind; [apply _|..]
    | apply preserves_ret, _ | apply preserves_raise, _ | apply preserves_gets, _
    | apply preserves_require, _ | apply preserves_when; [apply _|]
    | apply preserves_try; [apply _|..]
    | apply committed_keeps | apply checked_keeps
    | case_match ].
Ltac keeps_walk := repeat keeps_step.
(** The operations whose steps are walked through. *)
Ltac open_operations :=
  unfold auth_do, create_client_user, create_user, create_initial_admin, set_user_password,
    create_session, revoke_session, revoke_user_sessions, elevate_session, clear_elevation,
    get_user_for_token, get_enabled_user, update_sessions.

(** ** An administrator remains *)

Definition admins_inv (d : auth_db) : Prop :=
  unique_index (λ _, true) us_id (au_users d) ∧ ∃ u, u ∈ au_users d ∧ active_admin u = true.

Lemma admins_same d d' : au_users d' = au_users d → admins_inv d → admins_inv d'.
Proof. unfold admins_inv. by intros ->. Qed.
Lemma admins_insert u d :
  exists_row (user_is (us_id u)) (au_users d) = false → admins_inv d →
  admins_inv (d <| au_users ::= λ l, l ++ [u] |>).
Proof.
  intros He [Hu (a&Ha&Had)]. rewrite exists_row_false in He. split; simpl.
  - apply unique_index_snoc; [done|]. intros _ x Hx _ E. specialize (He x Hx). unfold user_is, streqb in He.
    by rewrite bool_decide_eq_true_2 in He.
  - exists a. split; [apply elem_of_app; by left|done].
Qed.
Lemma insert_user_admins u e : preserves (keeps admins_inv) (insert_user u e).
Proof.
  intros d Hd. unfold insert_user. rewrite bind_gets, bind_require. destruct (negb _ && _) eqn:E; [|done].
  apply andb_true_iff in E as [E _]. apply negb_true_iff in E. by apply admins_insert.
Qed.

(** Some other administrator stays when one of two goes. *)
Lemma other_admin i d :
  unique_index (λ _, true) us_id (au_users d) → (2 ≤ rowcount active_admin (au_users d))%nat →
  ∃ u, u ∈ au_users d ∧ active_admin u = true ∧ us_id u ≠ i.
Proof.
  intros Hu Hc. unfold rowcount in Hc. apply (unique_index_weaken active_admin) in Hu; [|done].
  unfold unique_index in Hu. destruct (fetchall active_admin (au_users d)) as [|x [|y l]] eqn:E; simpl in Hc; try lia.
  assert (∀ z, z ∈ x :: y :: l → active_admin z = true ∧ z ∈ au_users d) as Hz
    by (intros z Hz; rewrite <-E in Hz; by apply elem_of_fetchall).
  rewrite !fmap_cons in Hu. apply NoDup_cons in Hu as [Hx _].
  destruct (decide (us_id x = i)) as [Ex|Ex]; [exists y|exists x].
  - destruct (Hz y) as [? ?]; [right; left|]. split_and!; try done. intros Ey. apply Hx. rewrite Ex, <-Ey. left.
  - destruct (Hz x) as [? ?]; [left|]. by split_and!.
Qed.
Lemma update_admins i u role display_name disabled now d :
  admins_inv d → fetchone (user_is i) (au_users d) = Some u →
  streqb (us_role u) "admin" && (match role with Some r => negb (streqb r "admin") | None => false end
      || bool_decide (disabled = Some true)) && Nat.leb (rowcount active_admin (au_users d)) 1 = false →
  admins_inv (d <| au_users ::= update_where (user_is i) (λ x, x <| us_role := default (us_role u) role |>
    <| us_display_name := match display_name with Some t => strip t | None => us_display_name u end |>
    <| us_disabled := default (us_disabled u) disabled |> <| us_updated_at := now |>) |>).
Proof.
  intros [Hu (a&Ha&Had)] [Hin Hi]%fetchone_Some Hc. unfold user_is, streqb in Hi. bool_props.
  split; simpl; [by apply unique_index_update|]. apply andb_false_iff in Hc as [Hc|Hc].
  - destruct (decide (us_id a = i)) as [Ea|Ea].
    + assert (a = u) as -> by (eapply (unique_index_inj (λ _, true) us_id); [exact Hu|done..|congruence]).
      eexists. split; [apply (elem_of_update_where_hit _ _ _ u); [done|]|].
      { unfold user_is, streqb. by rewrite bool_decide_eq_true_2. }
      unfold active_admin, streqb in *. simpl in *. apply andb_true_iff in Had as [Hr Hd]. rewrite Hr in Hc.
      simpl in Hc. apply orb_false_iff in Hc as [Hrole Hdis].
      destruct role as [r|]; simpl; [apply negb_false_iff in Hrole; rewrite Hrole|rewrite Hr];
        destruct disabled as [[]|]; simpl; done.
    + exists a. split; [|done]. apply elem_of_update_where. exists a. split; [done|].
      unfold user_is, streqb. by rewrite bool_decide_eq_false_2.
  - apply Nat.leb_gt in Hc. destruct (other_admin i d Hu) as (b&Hb&Hba&Hbi); [lia|].
    exists b. split; [|done]. apply elem_of_update_where. exists b. split; [done|].
    unfold user_is, streqb. by rewrite bool_decide_eq_false_2.
Qed.
Lemma admins_map p f d :
  (∀ u, us_id (f u) = us_id u ∧ active_admin (f u) = active_admin u) → admins_inv d →
  admins_inv (d <| au_users ::= update_where p f |>).
Proof.
  intros Hf [Hu (a&Ha&Had)]. split; simpl.
  - apply unique_index_update; [done..|]. intros u _ _. apply Hf.
  - eexists. split; [apply elem_of_update_where; by exists a|]. case_match; [by rewrite (proj2 (Hf a))|done].
Qed.
Lemma update_user_admins now i role display_name disabled :
  preserves (keeps admins_inv) (update_user now i role display_name disabled).
Proof.
  unfold update_user. case_match; [keeps_walk|].
  apply preserves_bind; [apply _|apply committed_keeps|intros updated].
  - intros d Hd. rewrite bind_gets. destruct (fetchone _ _) as [u|] eqn:Eu; [|done]. cbv zeta.
    rewrite bind_gets. destruct (_ && Nat.leb _ _) eqn:E; [done|]. rewrite bind_modify.
    by apply (update_admins i u).
  - unfold revoke_user_sessions, update_sessions. keeps_walk.
    all: by apply modify_keeps; intros d; apply admins_same.
Qed.
Lemma auth_do_admins now op : preserves (keeps admins_inv) (auth_do now op).
Proof.
  destruct op; try solve [apply preserves_bind; [apply _|apply update_user_admins|keeps_walk]].
  all: open_operations.
  all: repeat first
    [ apply insert_user_admins
    | apply modify_keeps; intros d; by apply admins_same
    | apply modify_keeps; intros d; by apply admins_map
    | keeps_step ].
Qed.
(** ** Ended sessions *)

(** No session of this token is open. *)
Definition dead (token : string) (d : auth_db) : Prop :=
  ∀ s, s ∈ au_sessions d → se_token_hash s = hash_token token → se_revoked_at s ≠ None.

Lemma dead_same token d d' : au_sessions d' = au_sessions d → dead token d → dead token d'.
Proof. unfold dead. by intros ->. Qed.
Lemma dead_update token p f d :
  (∀ s, se_token_hash (f s) = se_token_hash s ∧ (se_revoked_at s ≠ None → se_revoked_at (f s) ≠ None)) →
  dead token d → dead token (d <| au_sessions ::= update_where p f |>).
Proof.
  intros Hf Hd s (s0&Hs0&->)%elem_of_update_where. destruct (p s0); [|by apply Hd].
  destruct (Hf s0) as [-> Hr]. intros E. by apply Hr, Hd.
Qed.
Lemma dead_delete token p d : dead token d → dead token (d <| au_sessions ::= delete_where p |>).
Proof. intros Hd s [Hs _]%elem_of_delete_where. by apply Hd. Qed.
Lemma auth_do_dead `{!CollisionFree} token now op :
  (∀ i, op ≠ AuSession token i) → preserves (keeps (dead token)) (auth_do now op).
Proof.
  intros Hop. destruct op; open_operations; unfold insert_user, update_user, revoke_user_sessions, update_sessions.
  all: repeat first
    [ apply modify_keeps; intros d; by apply dead_same
    | apply modify_keeps; intros d; by apply dead_update
    | apply modify_keeps; intros d; by apply dead_delete
    | keeps_step ].
  apply modify_keeps. intros d Hd s [Hs| ->%list_elem_of_singleton]%elem_of_app; [by apply Hd|].
  simpl. intros E%(inj sha256). subst. by destruct (Hop user_id).
Qed.
Lemma history_dead `{!CollisionFree} token d history :
  Forall (λ x, ∀ i, x.2 ≠ AuSession token i) history → dead token d → dead token (auth_run d history).
Proof.
  intros Hh. revert d. induction Hh as [|[now op] history Hop _ IH]; intros d Hd; [done|].
  apply IH. by apply auth_do_dead.
Qed.
Lemma dead_refused token d now refresh : dead token d → (get_user_for_token L now token refresh d).1 = Ok None.
Proof.
  intros Hd. unfold get_user_for_token. case_match; [done|]. rewrite bind_gets.
  destruct (fetchone _ (au_sessions d)) as [s|] eqn:E; [|done]. exfalso.
  apply fetchone_Some in E as [Hs Hp]. unfold in_force, session_is, streqb, unrevoked in Hp. bool_props.
  by apply (Hd s).
Qed.

(** Revoking the sessions of an account. *)
Lemma revoked_user_dead token i now s d :
  unique_index (λ _, true) se_token_hash (au_sessions d) → s ∈ au_sessions d →
  se_token_hash s = hash_token token → se_user_id s = i →
  ∃ n d', revoke_user_sessions now i d = (Ok n, d') ∧ dead token d'.
Proof.
  intros Hu Hs Eh Ei. unfold revoke_user_sessions, update_sessions. rewrite bind_gets, bind_modify.
  eexists _, _. split; [done|]. intros x (x0&Hx0&->)%elem_of_update_where E.
  assert (se_token_hash x0 = hash_token token) as E0 by by destruct (_ && _) in E.
  assert (x0 = s) as -> by (eapply (unique_index_inj (λ _, true) se_token_hash); [exact Hu|done..|congruence]).
  destruct (streqb (se_user_id s) i && unrevoked s) eqn:Ep; [done|].
  unfold streqb, unrevoked in Ep. rewrite bool_decide_eq_true_2 in Ep by done.
  by apply bool_decide_eq_false in Ep.
Qed.

(** The operations that end a session of this account: logging it out, ending all of the
    account's, and the changes to the account that end them. *)
Definition ends_session (token i : string) (op : auth_op) : Prop :=
  match op with
  | AuRevoke t => t = token
  | AuRevokeUser u | AuPassword _ u _ => u = i
  | AuUpdate u role _ disabled => u = i ∧ (is_Some role ∨ is_Some disabled)
  | _ => False
  end.
Lemma committed_sessions {A} (m : M auth_db A) d :
  au_sessions (m d).2 = au_sessions d → au_sessions (committed m d).2 = au_sessions d.
Proof. unfold committed. by destruct (m d) as [[]]. Qed.
Lemma ended_dead now op token s d d' :
  unique_index (λ _, true) se_token_hash (au_sessions d) → s ∈ au_sessions d →
  se_token_hash s = hash_token token → ends_session token (se_user_id s) op →
  auth_do now op d = (Ok tt, d') → dead token d'.
Proof.
  intros Hu Hs Eh Hop Hrun.
  assert (∀ d1, au_sessions d1 = au_sessions d → ∃ n d2,
    revoke_user_sessions now (se_user_id s) d1 = (Ok n, d2) ∧ dead token d2) as Hrev.
  { intros d1 E. by apply (revoked_user_dead token (se_user_id s) now s d1); rewrite ?E. }
  destruct op; try done; simpl in Hop, Hrun.
  - destruct Hop as [-> Hsome]. apply bind_Ok in Hrun as (cu&d0&Hrun&[= <-]). unfold update_user in Hrun.
    match type of Hrun with context [if ?b then raise _ else _] => destruct b; [done|] end.
    apply bind_Ok in Hrun as (u&d1&E&Hrun).
    match type of E with committed ?m d = _ =>
      pose proof (committed_sessions m d) as Hc; rewrite E in Hc end.
    destruct Hrev with d1 as (n&d2&E2&Hd2).
    { apply Hc. rewrite bind_gets. destruct (fetchone _ (au_users d)) as [x|]; [|done]. cbv zeta.
      rewrite bind_gets. match goal with |- context [if ?b then raise _ else _] => destruct b; [done|] end.
      by rewrite bind_modify. }
    assert (bool_decide (is_Some role) || bool_decide (is_Some disabled) = true) as Hb.
    { destruct Hsome; [by rewrite bool_decide_eq_true_2|]. rewrite orb_comm. by rewrite bool_decide_eq_true_2. }
    rewrite Hb in Hrun. unfold when in Hrun. rewrite (bind_run _ _ d1 tt d2) in Hrun
      by by rewrite (bind_run _ _ _ _ _ E2).
    destruct u; [|done]. unfold mret, M_ret in Hrun. by simplify_eq.
  - subst. unfold set_user_password in Hrun. apply bind_Ok in Hrun as ([]&d0&E0&Hrun).
    assert (d0 = d) as -> by (destruct (validate_password password) as [[]|]; [by injection E0 as <-|done]).
    apply bind_Ok in Hrun as ([]&d1&E&Hrun).
    match type of E with committed ?m d = _ =>
      pose proof (committed_sessions m d) as Hc; rewrite E in Hc end.
    destruct Hrev with d1 as (n&d2&E2&Hd2).
    { apply Hc. rewrite bind_gets.
      match goal with |- context [if ?b then raise _ else _] => destruct b; [done|] end.
      rewrite bind_gets, bind_modify. unfold require. by case_match. }
    rewrite (bind_run _ _ _ _ _ E2) in Hrun. by injection Hrun as <-.
  - subst. unfold revoke_session in Hrun. apply bind_Ok in Hrun as (n&d0&E&[= <-]).
    unfold update_sessions in E. rewrite bind_gets, bind_modify in E. unfold mret, M_ret in E.
    simplify_eq. intros x (x0&Hx0&->)%elem_of_update_where. unfold session_is, streqb.
    case_bool_decide; [done|]. intros E. congruence.
  - subst. destruct (Hrev d eq_refl) as (n&d2&E2&Hd2). rewrite (bind_run _ _ _ _ _ E2) in Hrun.
    by injection Hrun as <-.
Qed.
(** ** What a session is good for *)

(** Every session row was opened for its account, within its limit, and is verified only by
    an administrator, for a fixed time. *)
Definition session_ok (done : list (Z * auth_op)) (s : session_row) : Prop :=
  (∃ token, (se_created_at s, AuSession token (se_user_id s)) ∈ done ∧
     se_token_hash s = hash_token token ∧ se_expires_at s = se_created_at s + lt_absolute L) ∧
  ∀ e, se_elevated_until s = Some e → ∃ t0 token admin minutes,
    (t0, AuElevate token admin minutes) ∈ done ∧ hash_token token = se_token_hash s ∧
    cu_role admin = "admin" ∧
    e ≤ t0 + Z.max 1 (if Z.eqb minutes 0 then lt_elevation_minutes L else minutes) * MINUTE.
Definition sessions_ok (done : list (Z * auth_op)) (d : auth_db) : Prop :=
  ∀ s, s ∈ au_sessions d → session_ok done s.

Lemma session_ok_later done x s : session_ok done s → session_ok (done ++ [x]) s.
Proof.
  intros [(token&?&?) He]. split.
  - exists token. split; [apply elem_of_app; by left|done].
  - intros e Ee. destruct (He e Ee) as (t0&tk&a&m&?&?). exists t0, tk, a, m.
    split; [apply elem_of_app; by left|done].
Qed.
Lemma sessions_same done d d' : au_sessions d' = au_sessions d → sessions_ok done d → sessions_ok done d'.
Proof. unfold sessions_ok. by intros ->. Qed.
Lemma sessions_update done p f d :
  (∀ s, p s = true → session_ok done s → session_ok done (f s)) → sessions_ok done d →
  sessions_ok done (d <| au_sessions ::= update_where p f |>).
Proof.
  intros Hf Hd s (s0&Hs0&->)%elem_of_update_where. destruct (p s0) eqn:E; [|by apply Hd].
  by apply Hf, Hd.
Qed.
Lemma sessions_delete done p d :
  sessions_ok done d → sessions_ok done (d <| au_sessions ::= delete_where p |>).
Proof. intros Hd s [Hs _]%elem_of_delete_where. by apply Hd. Qed.

Lemma auth_do_sessions done now op :
  (now, op) ∈ done → preserves (keeps (sessions_ok done)) (auth_do now op).
Proof.
  intros Hin. destruct op; open_operations; unfold insert_user, update_user, revoke_user_sessions, update_sessions.
  all: repeat first
    [ apply modify_keeps; intros d; by apply sessions_same
    | apply modify_keeps; intros d; apply sessions_update; by intros
    | apply modify_keeps; intros d; by apply sessions_delete
    | keeps_step ].
  { apply modify_keeps. intros d Hd x [Hx| ->%list_elem_of_singleton]%elem_of_app; [by apply Hd|].
    split; [by exists token|done]. }
  all: apply modify_keeps; intros d; apply sessions_update; intros x Hp [Hx _]; split; [exact Hx|].
  all: unfold session_is, streqb in *; bool_props; intros e [= <-]; exists now, token, admin_user, minutes.
  all: case_match; try lia; split_and!; try done; apply Z.le_min_l.
Qed.
Lemma sessions_history users history : sessions_ok history (auth_run (AuthDb users []) history).
Proof.
  induction history as [|[now op] history IH] using rev_ind; [by intros s ?%elem_of_nil|].
  unfold auth_run. rewrite foldl_app. simpl. fold (auth_run (AuthDb users []) history).
  apply (auth_do_sessions (history ++ [(now, op)]) now op); [apply elem_of_app; right; left|].
  intros s Hs. by apply session_ok_later, IH.
Qed.
(** What an accepted token and a live verification go back to. *)
Lemma session_principal `{!CollisionFree} done d now token p refresh :
  sessions_ok done d → (get_user_for_token L now token refresh d).1 = Ok (Some p) →
  ∃ t0 u, (t0, AuSession token (us_id u)) ∈ done ∧ now < t0 + lt_absolute L ∧
    u ∈ au_users d ∧ us_disabled u = false ∧ p = row_to_user u.
Proof.
  intros Hall. unfold get_user_for_token. case_match; [done|]. rewrite bind_gets.
  destruct (fetchone _ (au_sessions d)) as [s|] eqn:Es; [|done]. cbn [mbind option_bind].
  destruct (fetchone _ (au_users d)) as [u|] eqn:Eu; [|done]. cbn [mbind option_bind].
  intros Hrun. assert (p = row_to_user u) as ->.
  { revert Hrun. unfold when, update_sessions. case_match; [|by intros [= ->]].
    unfold gets, modify, mbind, M_bind, mret, M_ret. simpl. by intros [= ->]. }
  apply fetchone_Some in Es as [Hs Hp], Eu as [Hu Hpu].
  unfold in_force, session_is, user_is, streqb in Hp, Hpu. bool_props.
  destruct (Hall s Hs) as [(token'&Hin&Eh&Ee) _].
  assert (token' = token) as -> by (apply (inj sha256); unfold hash_token in *; congruence).
  exists (se_created_at s), u. split_and!; try done; [congruence|lia].
Qed.
Lemma session_elevation `{!CollisionFree} done d now token e :
  sessions_ok done d → (get_elevated_until now token d).1 = Ok (Some e) →
  now < e ∧ ∃ t0 admin minutes, (t0, AuElevate token admin minutes) ∈ done ∧ cu_role admin = "admin" ∧
    e ≤ t0 + Z.max 1 (if Z.eqb minutes 0 then lt_elevation_minutes L else minutes) * MINUTE.
Proof.
  intros Hall. unfold get_elevated_until. case_match; [done|]. rewrite bind_gets.
  destruct (fetchone _ (au_sessions d)) as [s|] eqn:Es; [|done].
  destruct (se_elevated_until s) as [e'|] eqn:Ee; [|done]. unfold mret, M_ret. simpl.
  destruct (Z.leb e' now) eqn:El; [done|]. intros [= ->]. split; [lia|].
  apply fetchone_Some in Es as [Hs Hp]. unfold session_is, streqb in Hp. bool_props.
  destruct (Hall s Hs) as [_ He]. destruct (He e Ee) as (t0&tk&a&m&Hin&Eh&Ha&Hle).
  assert (tk = token) as -> by (apply (inj sha256); unfold hash_token in *; congruence).
  by exists t0, a, m.
Qed.
End properties.

(** [C32] The platform never loses its last administrator.  Once there is an account that is an
    administrator and not disabled, there is one after any history of the accounts: creating
    them, changing roles, disabling and enabling, passwords, log-ins and log-outs, in any
    order.  Identifiers stay unique. *)
Theorem last_admin_kept `{Digest} `{CaseMaps} `{Pbkdf2} `{IpSyntax} (L : lifetimes) d history :
  admins_inv d → admins_inv (auth_run L d history).
Proof.
  revert d. induction history as [|[now op] history IH]; intros d Hd; [done|]. apply IH.
  by apply auth_do_admins.
Qed.

(** [C33] Ending a session is final.  After a successful log-out, an administrator's ending of
    an account's sessions, a change of its role, its disabling, or a new password, a token of
    that account is never accepted again, whatever happens afterwards (the account may be
    enabled again, sessions refreshed, new ones opened), as long as the same token is not
    drawn a second time. *)
Theorem sessions_end `{CollisionFree} `{CaseMaps} `{Pbkdf2} `{IpSyntax} (L : lifetimes)
    d d' now op token s history :
  unique_index (λ _, true) se_token_hash (au_sessions d) → s ∈ au_sessions d →
  se_token_hash s = hash_token token → ends_session token (se_user_id s) op →
  auth_do L now op d = (Ok tt, d') →
  Forall (λ x, ∀ i, x.2 ≠ AuSession token i) history →
  ∀ later refresh, (get_user_for_token L later token refresh (auth_run L d' history)).1 = Ok None.
Proof.
  intros Hu Hs Eh Hop Hrun Hh later refresh. apply dead_refused. apply history_dead; [apply _|exact Hh|].
  by eapply ended_dead.
Qed.

(** A session is its account's, and limited.  When a token is accepted, after any history
    from a system without sessions, it was opened for exactly the account it answers for,
    which exists and is not disabled, with the role the account has now, and less than the
    absolute lifetime ago, however often it was refreshed; and when the session counts as
    verified by an administrator, an administrator verified it, for a fixed time that no
    use of the session prolongs. *)
Theorem session_authority `{CollisionFree} `{CaseMaps} `{Pbkdf2} `{IpSyntax} (L : lifetimes)
    users history now token :
  let d := auth_run L (AuthDb users []) history in
  (∀ p refresh, (get_user_for_token L now token refresh d).1 = Ok (Some p) →
     ∃ t0 u, (t0, AuSession token (us_id u)) ∈ history ∧ now < t0 + lt_absolute L ∧
       u ∈ au_users d ∧ us_disabled u = false ∧ p = row_to_user u) ∧
  (∀ e, (get_elevated_until now token d).1 = Ok (Some e) →
     now < e ∧ ∃ t0 admin minutes, (t0, AuElevate token admin minutes) ∈ history ∧ cu_role admin = "admin" ∧
       e ≤ t0 + Z.max 1 (if Z.eqb minutes 0 then lt_elevation_minutes L else minutes) * MINUTE).
Proof.
  intros d. pose proof (sessions_history L users history) as Hall. split.
  - intros p refresh. by apply session_principal.
  - intros e. by apply session_elevation.
Qed.

(** ** A small platform *)

#[export] Instance plain_pbkdf2 : Pbkdf2 := λ password _ _, password.
#[export] Instance no_ip : IpSyntax := λ _, false.
Definition ann : current_user :=
  {| cu_id := "ann"; cu_username := "ann"; cu_role := "admin"; cu_display_name := "Ann";
     cu_extra_permissions := ∅; cu_resource_owner_id := "ann" |}.
Definition platform_history : list (Z * auth_op) :=
  [(0, AuInitialAdmin "s1" "ann" "long-password" "Ann"); (1, AuCreateUser "s2" "bob" "other-password" "user" "Bob" false);
   (2, AuSession "cookie-a" "ann"); (3, AuSession "cookie-b" "bob"); (4, AuElevate "cookie-b" ann 5)].
Definition platform : auth_db := auth_run default_lifetimes (AuthDb [] []) platform_history.
Lemma platform_admins : admins_inv platform.
Proof.
  split; [vm_compute; repeat constructor; set_solver|].
  eexists. split; [vm_compute; left|reflexivity].
Qed.

Definition no_admins : list (Z * auth_op) :=
  [(5, AuUpdate "ann" (Some "user") None None); (6, AuUpdate "ann" None None (Some true))].
Lemma last_admin_kept_witness :
  admins_inv platform ∧ admins_inv (auth_run default_lifetimes platform no_admins).
Proof. split; [exact platform_admins|apply last_admin_kept, platform_admins]. Defined.

Definition bob_session : session_row :=
  SessionRow "cookie-b" "bob" 3 3 (3 + 24 * HOUR) (3 + 12 * HOUR) None (Some (4 + 5 * MINUTE)) (Some "ann").
Definition bob_out : auth_db := (auth_do default_lifetimes 5 (AuUpdate "bob" None None (Some true)) platform).2.
Lemma sessions_end_witness :
  (get_user_for_token default_lifetimes 4 "cookie-b" true platform).1 ≠ Ok None ∧
  (get_user_for_token default_lifetimes 7 "cookie-b" true
     (auth_run default_lifetimes bob_out [(6, AuUpdate "bob" None None (Some false))])).1 = Ok None.
Proof.
  split; [vm_compute; discriminate|].
  apply (sessions_end default_lifetimes platform bob_out 5 (AuUpdate "bob" None None (Some true)) "cookie-b"
           bob_session).
  - vm_compute. repeat constructor; set_solver.
  - vm_compute. right. left.
  - reflexivity.
  - split; [reflexivity|right; by eexists].
  - vm_compute. reflexivity.
  - repeat constructor. simpl. congruence.
Defined.

Lemma session_authority_witness :
  (∃ p t0, (get_user_for_token default_lifetimes 5 "cookie-b" false platform).1 = Ok (Some p) ∧
     (t0, AuSession "cookie-b" (cu_id p)) ∈ platform_history) ∧
  ∃ e t0 admin minutes, (get_elevated_until 5 "cookie-b" platform).1 = Ok (Some e) ∧
    (t0, AuElevate "cookie-b" admin minutes) ∈ platform_history.
Proof.
  pose proof (session_authority default_lifetimes [] platform_history 5 "cookie-b") as [Hu He]. split.
  - destruct (get_user_for_token default_lifetimes 5 "cookie-b" false platform).1 as [[p|]|x] eqn:E;
      [|vm_compute in E; discriminate..].
    destruct (Hu p false E) as (t0&u&Hin&_&_&_&->). by exists (row_to_user u), t0.
  - destruct (get_elevated_until 5 "cookie-b" platform).1 as [[e|]|x] eqn:E; [|vm_compute in E; discriminate..].
    destruct (He e E) as (_&t0&a&m&Hin&_). by exists e, t0, a, m.
Defined.
