(* ===== verification/Planner.v ===== *)
(** The planner, [features/automation/planning.py], [plan_tools.bulk_settings] and the
    preparation of runs in [features/automation/service.py]: people save plans, and a scheduler
    dispatches them under the authority their owners have at that time.

    Parameters: the time zones; the texts a schedule and the sealed templates are stored as
    (pydantic's JSON and Fernet), with the encryption of a password; what the cluster service
    makes of a run that is about to be created ([prepare_cluster_plan] picks a worker and a
    suite, or refuses), and what recovery profiles make of its plan ([freeze_recovery]).  One
    operation reads the clock once. *)

From stdpp Require Import gmap.
From S2P Require Import Prelude Encodings ExecutionSpec Authority Automation RunHistory Schedule PlanStore Sessions.

Open Scope Z_scope.

(* src/features/automation/plan_models.py:19-22 RetryPolicy *)
Definition retry_policy_ok (p : test_plan) : bool := within 0 5 (tp_max_retries p) && within 10 3600 (tp_retry_delay p).

(* src/features/automation/plan_models.py:73-80 PlanSettingsRequest *)
Record plan_settings := PlanSettings {
  pg_name : string;
  pg_enabled : bool;
  pg_stop_on_failure : bool;
  pg_schedule : plan_schedule;
  pg_version : Z;
  pg_labels : list string;
}.
#[export] Instance plan_settings_eta : Eta plan_settings := λ g,
  PlanSettings (pg_name g) (pg_enabled g) (pg_stop_on_failure g) (pg_schedule g) (pg_version g) (pg_labels g).
(** A body of a run: what is read of it besides the request it becomes. *)
Record run_body := RunBody {
  rb_request : run_request;
  rb_build_password : string;
  rb_has_build : bool;
  rb_test_type : string;
  rb_options : execution_spec;
}.

Definition column (r : run) (k : string) : string := default "" (rn_columns r !! k).
Definition shape_of (p : test_plan) : plan_shape :=
  PlanShape (if tp_flash_skip p then Some "skip" else None) (tp_has_build p).
(** The fields of a request that are columns of the run. *)
Definition REQUEST_COLUMNS : list string :=
  ["profile_id"; "project"; "branch"; "gerrit_change_id"; "gerrit_patchset"; "gerrit_subject"; "owner";
   "artifact_url"; "artifact_path"].
Definition control_free : string → bool := all_chars (λ a, (32 <=? N_of_ascii a)%N).
(* src/features/automation/plan_models.py:82-87 PlanSettingsRequest.valid_labels *)
Definition valid_labels (values : list string) : result (list string) :=
  if forallb (λ v, nonempty (strip v) && Z.leb (text_length v) 64 && control_free v) values
  then Ok (order_by String.leb (dedup (strip <$> values)))
  else Err (ValueError "Labels must be nonempty text of at most 64 characters").

(** [except (ValueError, LookupError)]. *)
Definition value_or_lookup_error (e : exn) : bool :=
  match e with ValueError _ | PlanConflictError _ | InvalidJobTransitionError _ | KeyError _ => true | _ => false end.

(* src/features/automation/planning.py:40-44 AutomationPlanner.require_human *)
Definition is_human (principal : option current_user) : bool :=
  match principal with
  | None => false
  | Some p => negb (mem (cu_role p) [AGENT_ROLE; "agent"]) && negb (is_machine_principal principal)
              && streqb (cu_id p) (cu_resource_owner_id p)
  end.
Definition not_human {A} : M store A := raise (ValueError "Test plans require an authenticated human owner").
(* src/features/automation/planning.py:26-30 public_plan *)
Definition public_plan (p : plan_row) : plan_row := p <| pn_template := "" |> <| pn_username := "" |>.

Section planner.
Context (zone_info : string → option zone).
Context (read_schedule : string → result plan_schedule) (write_schedule : plan_schedule → string).
Context (open_template : string → result (list prepared_run)) (seal_template : list prepared_run → string).
Context (encrypt_secret : string → string).
Context (prepare_cluster_plan : run_request → result run_request).
Context (freeze_recovery : string → run_request → result run_request).
Context (fresh_id : nat → string).
Context (auth : auth_db) (now : Z).

Definition owner_resolver (username : string) : option current_user :=
  match (get_enabled_user username auth).1 with Ok u => u | Err _ => None end.
(** [prefix + uuid.uuid4().hex[:12]]. *)
Definition draw (prefix : string) : M store string :=
  n ← gets st_drawn; _ ← modify (λ s, s <| st_drawn ::= S |>); mret (prefix +:+ fresh_id n).

(** ** Runs *)

(** Validation without scheduling or reserving anything. *)
(* src/features/automation/service.py:121-170 AutomationService.prepare_run *)
Definition prepare_run (run_id created_by : string) (principal : option current_user) (b : run_body) :
    result prepared_run :=
  let q := rb_request b in
  let plan := rq_test_plan q in
  if negb (retry_policy_ok plan) then Err (ValueError "retry_policy")
  else
    let? options := validate_execution_options (rb_options b) 0 in
    let has_artifact :=
      nonempty (strip (str_or (default "" (rq_columns q !! "artifact_path")) (default "" (rq_columns q !! "artifact_url")))) in
    if negb (tp_flash_skip plan) && negb (rb_has_build b || has_artifact || nonempty (rq_jenkins_job q))
    then Err (ValueError "Firmware artifact or build configuration is required")
    else if negb (nonempty (strip (rb_test_type b))) then Err (ValueError "test_plan.test_type is required")
    else
      let? granted_capabilities := automation_granted_capabilities principal (shape_of plan) in
      let? q := freeze_recovery (str_or created_by (match principal with Some p => cu_resource_owner_id p | None => "" end)) q in
      let? q := prepare_cluster_plan q in
      let r := to_run_dict now run_id q
            <| rn_created_by := created_by |> <| rn_retry_limit := tp_max_retries plan |>
            <| rn_columns ::= λ c,
                 <["created_by_username" := match principal with Some p => cu_username p | None => "" end]>
                 (<["granted_capabilities" := join "," granted_capabilities]> c) |> in
      Ok (PreparedRun r (if nonempty (rb_build_password b)
                         then [("build_server_password", encrypt_secret (rb_build_password b))] else [])).

(** The owner, who must still be there and hold what the stored run needs. *)
(* src/features/automation/planning.py:107-116 AutomationPlanner._authorize *)
Definition authorize (r : run) : result current_user :=
  let principal := owner_resolver (column r "created_by_username") in
  match principal with
  | Some p =>
      if negb (is_human principal) then Err (ValueError "Test plans require an authenticated human owner")
      else if negb (streqb (cu_resource_owner_id p) (rn_created_by r)) then Err (ValueError "Test plan owner is unavailable")
      else
        let? required := automation_granted_capabilities principal (shape_of (rn_test_plan r)) in
        let granted := filter (λ x, nonempty x = true) (split_on "," (column r "granted_capabilities")) in
        if forallb (λ x, mem x granted) required then Ok p
        else Err (ValueError "Stored authorization does not cover the test plan")
  | None => Err (ValueError "Test plans require an authenticated human owner")
  end.
(* src/features/automation/planning.py:118-129 AutomationPlanner._materialize *)
Definition materialize (run_id : string) (template : prepared_run) (plan_id batch_id : string) (index : Z) :
    result prepared_run :=
  let base := pp_run template in
  let? owner := authorize base in
  let body := {| rq_source_type := rn_source_type base; rq_source_key := rn_source_key base;
        rq_jenkins_job := rn_jenkins_job base; rq_devices := DeviceDict <$> rn_devices base;
        rq_test_plan := rn_test_plan base;
        rq_columns := filter (λ '(k, _), k ∈ REQUEST_COLUMNS) (rn_columns base) |} in
  let? body := prepare_cluster_plan body in
  let r := to_run_dict now run_id body
        <| rn_created_by := rn_created_by base |> <| rn_retry_limit := rn_retry_limit base |>
        <| rn_plan_id := plan_id |> <| rn_plan_batch_id := batch_id |> <| rn_source_type := "schedule" |>
        <| rn_source_key := "plan:" +:+ batch_id +:+ ":" +:+ pretty index |>
        <| rn_columns ::= λ c, <["created_by_username" := column base "created_by_username"]>
             (<["granted_capabilities" := column base "granted_capabilities"]> c) |> in
  Ok (PreparedRun r (pp_secrets template)).
(* src/features/automation/planning.py:100-105 AutomationPlanner._steps *)
Definition plan_steps (template : string) : result (list prepared_run) :=
  let? steps := open_template template in
  if bool_decide (steps = []) then Err (ValueError "Stored test plan is invalid") else Ok steps.
(** The capabilities of a retry. *)
(* src/features/automation/planning.py:163-164 AutomationPlanner._retry *)
Definition retry_authorized (r : run) : result (list string) :=
  let? principal := authorize r in automation_granted_capabilities (Some principal) (shape_of (rn_test_plan r)).

(** ** What people do *)

(* src/features/automation/planning.py:46-51 AutomationPlanner.owned *)
Definition owned (plan_id : string) (principal : option current_user) : M store plan_row :=
  match principal with
  | Some p =>
      if negb (is_human principal) then not_human
      else
        plan ← get_plan plan_id;
        match plan with
        | Some row => if streqb (pn_created_by row) (cu_resource_owner_id p) then mret row
                      else raise (KeyError "Test plan not found")
        | None => raise (KeyError "Test plan not found")
        end
  | None => not_human
  end.
Definition next_if (enabled : bool) (s : plan_schedule) : result stamp := if enabled then next_after zone_info s now else Ok None.
Fixpoint prepare_runs (created_by : string) (principal : option current_user) (l : list run_body) : M store (list prepared_run) :=
  match l with
  | [] => mret []
  | b :: l =>
      i ← draw "ats_"; p ← lift (prepare_run i created_by principal b);
      steps ← prepare_runs created_by principal l; mret (p :: steps)
  end.
(* src/features/automation/planning.py:53-74 AutomationPlanner.save *)
Definition save (g : plan_settings) (runs : list run_body) (principal : option current_user) (plan_id : string) :
    M store (option plan_row) :=
  match principal with
  | Some p =>
      if negb (is_human principal) then not_human
      else
        _ ← require (nonempty (strip (pg_name g))) (ValueError "Test plan name is required");
        _ ← (if nonempty plan_id then _ ← owned plan_id principal; mret tt else mret tt);
        steps ← prepare_runs (cu_resource_owner_id p) principal runs;
        drawn ← (if nonempty plan_id then mret plan_id else draw "plan_");
        next_run_at ← lift (next_if (pg_enabled g) (pg_schedule g));
        row ← save_plan {| pn_id := drawn; pn_created_by := cu_resource_owner_id p; pn_username := cu_username p;
            pn_name := strip (pg_name g); pn_enabled := pg_enabled g; pn_stop_on_failure := pg_stop_on_failure g;
            pn_schedule := write_schedule (pg_schedule g); pn_template := seal_template steps;
            pn_step_count := Z.of_nat (length steps); pn_next_run_at := next_run_at; pn_last_run_at := None;
            pn_last_error := ""; pn_active_batch_id := ""; pn_version := 1; pn_created_at := now;
            pn_updated_at := now; pn_labels := pg_labels g |} (pg_version g);
        mret (public_plan <$> row)
  | None => not_human
  end.
(** Current authority for every stored template. *)
Definition authorize_steps (p : plan_row) : result unit :=
  let? steps := plan_steps (pn_template p) in
  foldr (λ step rest, let? owner := authorize (pp_run step) in rest) (Ok tt) steps.
(* src/features/automation/planning.py:76-84 AutomationPlanner.enabled *)
Definition enabled (plan_id : string) (principal : option current_user) (enable : bool) (version : Z) :
    M store (option plan_row) :=
  plan ← owned plan_id principal;
  _ ← (if enable then lift (authorize_steps plan) else mret tt);
  schedule ← lift (read_schedule (pn_schedule plan));
  next_run_at ← lift (next_if enable schedule);
  row ← set_enabled now plan_id enable next_run_at version;
  mret (public_plan <$> row).
(* src/features/automation/planning.py:86-98 AutomationPlanner.settings *)
Definition settings (plan_id : string) (g : plan_settings) (principal : option current_user) : M store (option plan_row) :=
  plan ← owned plan_id principal;
  _ ← require (nonempty (strip (pg_name g))) (ValueError "Test plan name is required");
  _ ← (if pg_enabled g then lift (authorize_steps plan) else mret tt);
  next_run_at ← lift (next_if (pg_enabled g) (pg_schedule g));
  row ← save_plan (plan <| pn_name := strip (pg_name g) |> <| pn_enabled := pg_enabled g |>
    <| pn_labels := pg_labels g |> <| pn_stop_on_failure := pg_stop_on_failure g |>
    <| pn_schedule := write_schedule (pg_schedule g) |> <| pn_next_run_at := next_run_at |>
    <| pn_updated_at := now |>) (pg_version g);
  mret (public_plan <$> row).
(** [due_plan] is a plan the scheduler found due; a person names a plan of their own. *)
(* src/features/automation/planning.py:131-140 AutomationPlanner.start *)
Definition start (plan_id : string) (principal : option current_user) (due_plan : option plan_row) : M store string :=
  plan ← (match due_plan with Some p => mret p | None => owned plan_id principal end);
  batch_id ← draw "batch_";
  first ← (if bool_decide (is_Some due_plan) && nonempty (pn_active_batch_id plan) then mret None
           else
             steps ← lift (plan_steps (pn_template plan));
             i ← draw "ats_";
             match steps with
             | step :: _ => p ← lift (materialize i step (pn_id plan) batch_id 0); mret (Some p)
             | [] => raise (KeyError "list index out of range")
             end);
  schedule ← lift (read_schedule (pn_schedule plan));
  next_run_at ← lift (next_after zone_info schedule now);
  started ← start_batch now plan batch_id first next_run_at (bool_decide (is_Some due_plan));
  mret (if started : bool then batch_id else "").
(* src/features/automation/plan_api.py:98-107 stop_plan_batch *)
Definition stop (plan_id : string) (principal : option current_user) : M store unit :=
  _ ← owned plan_id principal; stop_batch now plan_id.

(** ** Many plans at once *)

(** The settings of every selected plan are checked first; [changes] overwrites some of them. *)
Definition settings_of (changes : plan_settings → plan_settings) (old : plan_row) (version : Z) : result plan_settings :=
  let? schedule := read_schedule (pn_schedule old) in
  let g := changes (PlanSettings (pn_name old) (pn_enabled old) (pn_stop_on_failure old) schedule version (pn_labels old)) in
  let? schedule := validate_schedule zone_info (pg_schedule g) in
  let? labels := valid_labels (pg_labels g) in
  Ok (g <| pg_schedule := schedule |> <| pg_labels := labels |>).
Definition update_settings (old : plan_row) (g : plan_settings) : M store unit :=
  next_run_at ← lift (next_if (pg_enabled g) (pg_schedule g));
  modify (λ s, s <| st_plans ::= update_where (plan_is (pn_id old))
    (λ p, p <| pn_enabled := pg_enabled g |> <| pn_stop_on_failure := pg_stop_on_failure g |>
            <| pn_schedule := write_schedule (pg_schedule g) |> <| pn_labels := pg_labels g |>
            <| pn_next_run_at := next_run_at |> <| pn_version ::= λ v, v + 1 |>) |>).
(* src/features/automation/plan_tools.py:57-83 bulk_settings *)
Definition bulk_settings (selections : list (string * Z)) (principal : option current_user)
    (changes : plan_settings → plan_settings) : M store nat :=
  _ ← require (negb (bool_decide (selections = [])) && Nat.leb (length selections) 100)
        (ValueError "Select between 1 and 100 plans");
  _ ← require (bool_decide (NoDup selections.*1)) (ValueError "Duplicate plan selection");
  updates ← forM selections (λ '(plan_id, version),
    old ← owned plan_id principal;
    g ← lift (settings_of changes old version);
    _ ← (if pg_enabled g then lift (authorize_steps old) else mret tt);
    mret (old, g));
  _ ← atomic (
    _ ← for_each updates (λ '(old, g),
      current ← get_plan (pn_id old);
      require (match current, principal with
               | Some c, Some p => Z.eqb (pn_version c) (pg_version g) && streqb (pn_created_by c) (cu_resource_owner_id p)
               | _, _ => false
               end) (PlanConflictError "A selected plan changed; reload before applying bulk changes"));
    for_each updates (λ '(old, g), update_settings old g));
  mret (length updates).

(** ** The scheduler *)

(** [counts += f(x)] for each [x]. *)
Fixpoint count_each {A} (l : list A) (f : A → M store Z) : M store Z :=
  match l with [] => mret 0 | x :: l => n ← f x; m ← count_each l f; mret (n + m) end.
(* src/features/automation/planning.py:181-186 AutomationPlanner.tick *)
Definition tick_followup (r : run) : M store Z :=
  i ← draw "ats_";
  outcome ← (match retry retry_authorized now i r with
             | Ok x => mret x
             | Err e => if value_or_lookup_error e then mret ("retry_authorization_unavailable", None) else raise e
             end);
  done ← finish_followup now r outcome.1 outcome.2;
  mret (Z.b2z done).
(* src/features/automation/planning.py:188-206 AutomationPlanner.tick *)
Definition tick_batch (b : batch_row) : M store Z :=
  found ← get_run (bt_last_run_id b);
  match found with
  | None => mret 0
  | Some r =>
      if negb (terminal (rn_status r)) || mem (rn_followup_state r) [""; "retried"] then mret 0
      else
        let failed := negb (bool_decide (rn_status r = RunCompleted))
                      || negb (bool_decide (ts_outcome (rn_test_summary r) = Some "passed")) in
        let advance prepared status step_failed :=
          done ← advance_batch now b prepared status step_failed; mret (Z.b2z done) in
        if bool_decide (bt_status b = BatchStopping) || bool_decide (rn_status r = RunCancelled)
        then advance None BatchCancelled false
        else if failed && bt_stop_on_failure b then advance None BatchFailed false
        else if Z.leb (bt_step_count b) (bt_next_step b) then advance None BatchCompleted failed
        else
          i ← draw "ats_";
          match (let? steps := plan_steps (bt_template b) in
                 match steps !! Z.to_nat (bt_next_step b) with
                 | Some step => materialize i step (bt_plan_id b) (bt_id b) (bt_next_step b)
                 | None => Err (KeyError "list index out of range")
                 end) with
          | Ok prepared => advance (Some prepared) BatchCompleted failed
          | Err e => if value_or_lookup_error e then _ ← advance None BatchFailed false; mret 0 else raise e
          end
  end.
(* src/features/automation/planning.py:209-215 AutomationPlanner.tick *)
Definition tick_plan (p : plan_row) : M store Z :=
  try (batch_id ← start (pn_id p) None (Some p); mret (Z.b2z (nonempty batch_id)))
    (λ e, match e with
          | PlanConflictError _ => mret 0
          | _ =>
              if value_or_lookup_error e then
                schedule ← lift (read_schedule (pn_schedule p));
                next_run_at ← lift (next_after zone_info schedule now);
                _ ← defer_error p next_run_at "Scheduled dispatch failed; check owner permissions and resource preflight";
                mret 0
              else raise e
          end).
(* src/features/automation/planning.py:179-216 AutomationPlanner.tick *)
Definition tick : M store (Z * Z * Z) :=
  runs ← terminal_followups;
  automatic_retries ← count_each runs tick_followup;
  batches ← list_batches "" true;
  advanced_batches ← count_each batches tick_batch;
  plans ← due_plans now;
  scheduled_batches ← count_each plans tick_plan;
  mret (automatic_retries, scheduled_batches, advanced_batches).
End planner.
