(* ===== verification/PlannerProperties.v ===== *)
(** What the planner guarantees: whatever it dispatches, its owner may still do;
    and people touch their own plans only, machines none. *)

From stdpp Require Import gmap.
From S2P Require Import Prelude Encodings ExecutionSpec Authority Automation AutomationProperties RunHistory Schedule ScheduleProperties PlanStore Sessions SessionProperties Planner.

Open Scope Z_scope.

(** ** Authority *)

Definition granted_list (r : run) : list string :=
  filter (λ x, nonempty x = true) (split_on "," (column r "granted_capabilities")).
(** The owner of a run is an enabled person, who holds what the run's plan needs; and the run is
    granted that. *)
Definition authorized (auth : auth_db) (r : run) : Prop :=
  ∃ owner required, owner_resolver auth (column r "created_by_username") = Some owner ∧ is_human (Some owner) = true ∧
    cu_resource_owner_id owner = rn_created_by r ∧
    automation_granted_capabilities (Some owner) (shape_of (rn_test_plan r)) = Ok required ∧
    ∀ c, c ∈ required → has_permission owner c = true ∧ c ∈ granted_list r.
(** What authority depends on. *)
Definition same_authority (r r' : run) : Prop :=
  rn_id r' = rn_id r ∧ rn_created_by r' = rn_created_by r ∧ rn_columns r' = rn_columns r ∧
  rn_test_plan r' = rn_test_plan r.
#[export] Instance same_authority_equiv : Equivalence same_authority.
Proof. split; unfold same_authority; [done| |]; [intros x y|intros x y z]; naive_solver congruence. Qed.
Lemma authorized_same auth r r' : same_authority r r' → authorized auth r → authorized auth r'.
Proof.
  unfold authorized, granted_list, column. intros (_&E2&E3&E4) H. by rewrite E2, E3, E4.
Qed.

Section planner.
Context (zone_info : string → option zone).
Context (read_schedule : string → result plan_schedule) (write_schedule : plan_schedule → string).
Context (open_template : string → result (list prepared_run)) (seal_template : list prepared_run → string).
Context (encrypt_secret : string → string).
Context (prepare_cluster_plan : run_request → result run_request).
Context (freeze_recovery : string → run_request → result run_request).
Context (fresh_id : nat → string).
Context (auth : auth_db) (now : Z).

(** What the cluster service leaves alone in a run that is about to be created. *)
Context (cluster_keeps_shape : ∀ q q', prepare_cluster_plan q = Ok q' →
  shape_of (rq_test_plan q') = shape_of (rq_test_plan q)).

Lemma authorize_Ok r p :
  authorize auth r = Ok p →
  owner_resolver auth (column r "created_by_username") = Some p ∧ authorized auth r.
Proof.
  unfold authorize. destruct (owner_resolver _ _) as [p'|] eqn:Eo; [|done].
  destruct (is_human (Some p')) eqn:Eh; [|done]. cbn [negb].
  destruct (streqb (cu_resource_owner_id p') (rn_created_by r)) eqn:Ec; [|done]. cbn [negb].
  destruct (automation_granted_capabilities _ _) as [required|] eqn:Eg; [|done].
  destruct (forallb _ _) eqn:Ef; [|done]. intros [= ->]. split; [done|].
  exists p, required. bool_props. split_and!; [done..|]. intros c Hc. split; [by eapply granted_spec|].
  rewrite forallb_forall in Ef. apply list_elem_of_In, Ef in Hc. by apply bool_decide_eq_true in Hc.
Qed.
Lemma column_columns f r k : column (r <| rn_columns ::= f |>) k = default "" (f (rn_columns r) !! k).
Proof. done. Qed.
Lemma materialize_authorized i template plan_id batch_id index p :
  materialize prepare_cluster_plan auth now i template plan_id batch_id index = Ok p → authorized auth (pp_run p).
Proof.
  unfold materialize. destruct (authorize _ _) as [owner|] eqn:Ea; [|done].
  apply authorize_Ok in Ea as [_ (owner'&required&Ho&Hh&Hc&Hg&Hr)].
  destruct (prepare_cluster_plan _) as [q|] eqn:Eq; [|done]. apply cluster_keeps_shape in Eq. intros [= <-].
  exists owner', required. cbn [pp_run]. unfold granted_list. rewrite !column_columns, lookup_insert_eq,
    lookup_insert_ne, lookup_insert_eq by done.
  match goal with |- context [rn_test_plan ?x] => change (rn_test_plan x) with (rq_test_plan q) end. rewrite Eq. by split_and!.
Qed.

Lemma granted_joined l :
  (∀ c, c ∈ l → c ∈ AUTOMATION_PLAN_CAPABILITIES) → ∀ c, c ∈ l →
  c ∈ filter (λ x, nonempty x = true) (split_on "," (join "," l)).
Proof.
  intros Hl c Hc. assert (Forall (λ x, lacks "," x = true) l) as Hf.
  { apply Forall_forall. intros x Hx. by apply plan_capability_text, Hl. }
  change "," with (String "," ""). rewrite split_on_join; [|by destruct l; [by apply elem_of_nil in Hc|]|done].
  apply list_elem_of_filter. split; [|done]. by apply plan_capability_text, Hl.
Qed.
Lemma copied_username (m : gmap string string) :
  default "" ((filter (λ '(k, _), k ∈ ["created_by_username"; "build_artifact_id"]) m
               ∪ filter (λ '(k, _), k ∈ ["profile_id"; "project"; "branch"; "artifact_path"]) m) !! "created_by_username") =
  default "" (m !! "created_by_username").
Proof.
  rewrite lookup_union, !map_lookup_filter. by destruct (m !! "created_by_username").
Qed.
Lemma retry_authorized_child i r decision p :
  retry (retry_authorized auth) now i r = Ok (decision, Some p) → authorized auth (pp_run p).
Proof.
  unfold retry. cbv zeta. do 5 (case_match; [done|]). destruct (retry_authorized auth _) as [caps|] eqn:Er; [|done].
  intros [= _ <-]. unfold retry_authorized in Er. destruct (authorize _ _) as [owner|] eqn:Ea; [|done].
  apply authorize_Ok in Ea as [Hr (owner'&required&Ho&Hh&Hc&_)]. rewrite Hr in Ho. injection Ho as <-.
  exists owner, caps. cbn [pp_run]. unfold granted_list. rewrite !column_columns, lookup_insert_ne, !lookup_insert_eq by done.
  rewrite copied_username. split_and!; [exact Hr|exact Hh|exact Hc|exact Er|].
  intros c Hin. destruct (granted_spec _ _ _ Er c Hin) as [_ Hp]. split; [done|].
  apply granted_joined; [|done]. intros x Hx. by eapply granted_spec.
Qed.

(** Every run was there before, or has authority. *)
Definition new_runs_authorized (s s' : store) : Prop :=
  ∀ r', r' ∈ st_runs s' → (∃ r, r ∈ st_runs s ∧ same_authority r r') ∨ authorized auth r'.
#[export] Instance new_runs_preorder : PreOrder new_runs_authorized.
Proof.
  split.
  - intros s r Hr. left. by exists r.
  - intros x y z H1 H2 r Hr. destruct (H2 r Hr) as [(r1&Hr1&S1)|]; [|by right].
    destruct (H1 r1 Hr1) as [(r0&Hr0&S0)|Ha]; [left; exists r0; split; [done|by etrans]|right].
    by eapply authorized_same.
Qed.
Abbreviation R := new_runs_authorized.
Lemma runs_same f : (∀ s, st_runs (f s) = st_runs s) → preserves R (modify f).
Proof. intros Hf. apply preserves_modify. intros s r. rewrite Hf. intros Hr. left. by exists r. Qed.
Lemma runs_update p f :
  (∀ r, same_authority r (f r)) → preserves R (modify (λ s, s <| st_runs ::= update_where p f |>)).
Proof.
  intros Hf. apply preserves_modify. intros s r' (r&Hr&->)%elem_of_update_where. left. exists r.
  split; [done|]. by destruct (p r).
Qed.
Lemma runs_insert r : authorized auth r → preserves R (insert_run r).
Proof.
  intros Hr. unfold insert_run. do 2 (apply preserves_bind; [apply _|by apply preserves_gets, _ || apply preserves_require, _|intros ?]).
  apply preserves_bind; [apply _|apply preserves_require, _|intros _]. apply preserves_modify.
  intros s r' [Hin| ->%list_elem_of_singleton]%elem_of_app; [left; by exists r'|by right].
Qed.
Lemma runs_prepared n p : authorized auth (pp_run p) → preserves R (insert_prepared_run n p).
Proof.
  intros Hp. unfold insert_prepared_run. apply preserves_bind; [apply _|by apply runs_insert|intros _].
  apply preserves_bind; [apply _| |intros _; by apply runs_same].
  apply preserves_for_each; [apply _|]. intros [k v]. unfold insert_secret.
  apply preserves_bind; [apply _|apply preserves_gets, _|intros l].
  apply preserves_bind; [apply _|apply preserves_require, _|intros _]. by apply runs_same.
Qed.
Lemma runs_atomic {A} (m : M store A) : preserves R m → preserves R (atomic m).
Proof. intros Hm s. specialize (Hm s). unfold atomic. destruct (m s) as [[] s']; [done|]. by reflexivity. Qed.

Ltac runs_walk :=
  repeat first
    [ progress intros
    | match goal with H : (if ?b then None else _) = Some _ |- _ => destruct b; [discriminate H|] end
    | apply runs_prepared; by eauto
    | apply preserves_bind; [apply _|..]
    | apply preserves_ret, _ | apply preserves_raise, _ | apply preserves_gets, _
    | apply preserves_require, _ | apply preserves_when; [apply _|]
    | apply preserves_try; [apply _|..]
    | apply runs_atomic
    | by apply runs_same
    | apply runs_update; intros; by repeat case_match
    | case_match ].

Definition fits (prepared : option prepared_run) : Prop := ∀ f, prepared = Some f → authorized auth (pp_run f).
Lemma start_batch_runs p i first n due : fits first → preserves R (start_batch now p i first n due).
Proof. unfold start_batch, get_plan. intros Hf. runs_walk. Qed.
Lemma advance_batch_runs b prepared st x : fits prepared → preserves R (advance_batch now b prepared st x).
Proof. unfold advance_batch, get_run. intros Hf. runs_walk. Qed.
Lemma finish_followup_runs r d prepared : fits prepared → preserves R (finish_followup now r d prepared).
Proof. unfold finish_followup, insert_event. intros Hf. runs_walk. Qed.

Abbreviation do_tick := (tick zone_info read_schedule open_template prepare_cluster_plan fresh_id auth now).
Abbreviation do_start := (start zone_info read_schedule open_template prepare_cluster_plan fresh_id auth now).
Lemma draw_runs prefix : preserves R (draw fresh_id prefix).
Proof. unfold draw. runs_walk. Qed.
Lemma lift_runs {A} (r : result A) : preserves R (lift r).
Proof. unfold lift. runs_walk. Qed.
Lemma count_each_runs {A} (l : list A) f : (∀ x, preserves R (f x)) → preserves R (count_each l f).
Proof. intros Hf. induction l as [|x l IH]; simpl; runs_walk; [apply Hf|apply IH]. Qed.
Lemma owned_runs plan_id principal : preserves R (owned plan_id principal).
Proof. unfold owned, not_human, get_plan. runs_walk. Qed.
Lemma materialized i template plan_id batch_id index p :
  materialize prepare_cluster_plan auth now i template plan_id batch_id index = Ok p → fits (Some p).
Proof. intros E f [= <-]. by eapply materialize_authorized. Qed.
Lemma start_runs plan_id principal due_plan : preserves R (do_start plan_id principal due_plan).
Proof.
  unfold start. apply preserves_bind; [apply _|destruct due_plan; [apply preserves_ret, _|apply owned_runs]|intros plan].
  apply preserves_bind; [apply _|apply draw_runs|intros batch_id]. apply (preserves_bind_Ok R fits).
  - case_match; [apply preserves_ret, _|]. apply preserves_bind; [apply _|apply lift_runs|intros steps].
    apply preserves_bind; [apply _|apply draw_runs|intros i]. destruct steps; [apply preserves_raise, _|].
    apply preserves_bind; [apply _|apply lift_runs|intros ?; apply preserves_ret, _].
  - intros w first w' E. case_match; [by injection E as <- _|]. apply bind_Ok in E as (steps&w1&_&E).
    apply bind_Ok in E as (i&w2&_&E). destruct steps as [|step steps]; [done|].
    apply bind_Ok in E as (p&w3&Em&E). injection E as <- _.
    destruct (materialize _ _ _ _ _ _ _ _) as [p'|] eqn:Ep; [|done]. injection Em as <- _. by eapply materialized.
  - intros first Hf. do 2 (apply preserves_bind; [apply _|apply lift_runs|intros ?]).
    apply preserves_bind; [apply _|by apply start_batch_runs|intros ?; apply preserves_ret, _].
Qed.
Lemma tick_followup_runs r : preserves R (tick_followup fresh_id auth now r).
Proof.
  unfold tick_followup. apply preserves_bind; [apply _|apply draw_runs|intros i].
  apply (preserves_bind_Ok R (λ outcome, fits outcome.2)).
  - repeat case_match; first [apply preserves_ret, _|apply preserves_raise, _].
  - intros w outcome w' E. destruct (retry _ _ _ _) as [[decision p]|e] eqn:Er.
    + injection E as <- _. intros f Hf. cbn in Hf. subst p. by eapply retry_authorized_child.
    + case_match; [by injection E as <- _|done].
  - intros outcome Hf. apply preserves_bind; [apply _|by apply finish_followup_runs|intros ?; apply preserves_ret, _].
Qed.
Lemma tick_batch_runs b : preserves R (tick_batch open_template prepare_cluster_plan fresh_id auth now b).
Proof.
  assert (∀ prepared st x, fits prepared →
    preserves R (done ← advance_batch now b prepared st x; mret (Z.b2z done))) as Hadvance.
  { intros prepared st x Hf. apply preserves_bind; [apply _|by apply advance_batch_runs|intros ?; apply preserves_ret, _]. }
  unfold tick_batch, get_run. apply preserves_bind; [apply _|apply preserves_gets, _|intros [r|]; [|apply preserves_ret, _]].
  cbv zeta. case_match; [apply preserves_ret, _|]. do 3 (case_match; [by apply Hadvance|]).
  apply preserves_bind; [apply _|apply draw_runs|intros i].
  match goal with |- preserves _ (match ?x with _ => _ end) => destruct x as [prepared|e] eqn:Es end.
  - apply Hadvance. destruct (plan_steps _ _) as [steps|]; [|done]. case_match; [|done]. by eapply materialized.
  - destruct (value_or_lookup_error e); [|apply preserves_raise, _].
    apply preserves_bind; [apply _|by apply Hadvance|intros ?; apply preserves_ret, _].
Qed.
Lemma tick_plan_runs p :
  preserves R (tick_plan zone_info read_schedule open_template prepare_cluster_plan fresh_id auth now p).
Proof.
  unfold tick_plan. apply preserves_try; [apply _| |].
  - apply preserves_bind; [apply _|apply start_runs|intros ?; apply preserves_ret, _].
  - assert (∀ e : exn, preserves R (if value_or_lookup_error e then
        schedule ← lift (read_schedule (pn_schedule p)); next_run_at ← lift (next_after zone_info schedule now);
        _ ← defer_error p next_run_at "Scheduled dispatch failed; check owner permissions and resource preflight"; mret 0
      else raise e)) as Hdefer.
    { intros e. case_match; [|apply preserves_raise, _]. do 2 (apply preserves_bind; [apply _|apply lift_runs|intros ?]).
      apply preserves_bind; [apply _|by apply runs_same|intros ?; apply preserves_ret, _]. }
    intros e. destruct e; try apply Hdefer. apply preserves_ret, _.
Qed.
Lemma tick_runs : preserves R do_tick.
Proof.
  unfold tick. apply preserves_bind; [apply _|apply preserves_gets, _|intros runs].
  apply preserves_bind; [apply _|apply count_each_runs, tick_followup_runs|intros n].
  apply preserves_bind; [apply _|apply preserves_gets, _|intros batches].
  apply preserves_bind; [apply _|apply count_each_runs, tick_batch_runs|intros m].
  apply preserves_bind; [apply _|apply preserves_gets, _|intros plans].
  apply preserves_bind; [apply _|apply count_each_runs, tick_plan_runs|intros k; apply preserves_ret, _].
Qed.
End planner.

(** ** Whose plans are touched *)

Definition same_plans (s s' : store) : Prop := st_plans s' = st_plans s.
#[export] Instance same_plans_equiv : Equivalence same_plans.
Proof. split; unfold same_plans; congruence. Qed.
(** The plans of other people stay as they are. *)
Definition others_plans (owner : string) (s s' : store) : Prop :=
  ∀ p, pn_created_by p ≠ owner → p ∈ st_plans s ↔ p ∈ st_plans s'.
#[export] Instance others_plans_equiv owner : Equivalence (others_plans owner).
Proof.
  split.
  - by intros s p.
  - intros x y H p Hp. symmetry. by apply H.
  - intros x y z H1 H2 p Hp. rewrite (H1 p Hp). by apply H2.
Qed.
Lemma same_others owner s s' : same_plans s s' → others_plans owner s s'.
Proof. unfold same_plans. intros E p _. by rewrite E. Qed.
Definition plan_ids_unique (s : store) : Prop := unique_index (λ _, true) pn_id (st_plans s).
(** All plans with one of these identifiers are the owner's. *)
Definition ids_owned (owner : string) (ids : list string) (s : store) : Prop :=
  ∀ p, p ∈ st_plans s → pn_id p ∈ ids → pn_created_by p = owner.
Lemma id_owned owner s p :
  plan_ids_unique s → p ∈ st_plans s → pn_created_by p = owner → ids_owned owner [pn_id p] s.
Proof.
  intros Hu Hp Ho q Hq Hi%list_elem_of_singleton.
  assert (q = p) as -> by (eapply (unique_index_inj (λ _, true) pn_id); done). done.
Qed.

Section private.
Context (owner : string) (ids : list string).
Definition private (s s' : store) : Prop := ids_owned owner ids s → ids_owned owner ids s' ∧ others_plans owner s s'.
#[export] Instance private_preorder : PreOrder private.
Proof.
  split.
  - intros s Hs. split; [done|]. by reflexivity.
  - intros x y z H1 H2 Hx. destruct (H1 Hx) as [Hy O1]. destruct (H2 Hy) as [Hz O2]. split; [done|]. by etrans.
Qed.
Lemma private_same f : (∀ s, st_plans (f s) = st_plans s) → preserves private (modify f).
Proof.
  intros Hf. apply preserves_modify. intros s Hs. unfold ids_owned, others_plans. by rewrite Hf.
Qed.
Lemma private_update p f :
  (∀ x, p x = true → pn_id x ∈ ids) → (∀ x, pn_id (f x) = pn_id x ∧ pn_created_by (f x) = pn_created_by x) →
  preserves private (modify (λ s, s <| st_plans ::= update_where p f |>)).
Proof.
  intros Hp Hf. apply preserves_modify. intros s Hs. split.
  - intros x (y&Hy&->)%elem_of_update_where. destruct (Hf y) as [E1 E2]. destruct (p y); rewrite ?E1, ?E2; by apply Hs.
  - intros x Hx. simpl. rewrite elem_of_update_where. split.
    + intros Hin. exists x. split; [done|]. destruct (p x) eqn:Ep; [|done]. destruct Hx. by apply Hs, Hp.
    + intros (y&Hy&->). destruct (p y) eqn:Ep; [|done]. destruct (Hf y) as [E1 E2]. rewrite E2 in Hx. destruct Hx. by apply Hs, Hp.
Qed.
Lemma private_atomic {A} (m : M store A) : preserves private m → preserves private (atomic m).
Proof. intros Hm s. specialize (Hm s). unfold atomic. destruct (m s) as [[] s']; [done|]. by reflexivity. Qed.
Lemma private_prepared n p : preserves private (insert_prepared_run n p).
Proof.
  unfold insert_prepared_run, insert_run, insert_secret, insert_event.
  repeat first [apply preserves_bind; [apply _|..] | apply preserves_gets, _ | apply preserves_require, _
    | apply preserves_for_each; [apply _|] | by apply private_same | progress intros | case_match].
Qed.
End private.

Ltac private_walk :=
  repeat first
    [ progress intros
    | apply private_prepared
    | apply preserves_bind; [apply _|..]
    | apply preserves_ret, _ | apply preserves_raise, _ | apply preserves_gets, _
    | apply preserves_require, _ | apply preserves_when; [apply _|]
    | apply private_atomic
    | by apply private_same
    | apply preserves_for_each; [apply _|]
    | case_match ].
Lemma start_batch_private owner now p i first n due : preserves (private owner [pn_id p]) (start_batch now p i first n due).
Proof.
  unfold start_batch, get_plan. private_walk.
  all: apply private_update; [|done]; intros x Hx; unfold plan_is in Hx; bool_props; rewrite Hx; left.
Qed.
Lemma set_enabled_private owner now i e n v : preserves (private owner [i]) (set_enabled now i e n v).
Proof.
  unfold set_enabled, get_plan. private_walk.
  all: apply private_update; [|done]; intros x Hx; unfold plan_is in Hx; bool_props; subst; left.
Qed.
Lemma stop_batch_private owner now i : preserves (private owner []) (stop_batch now i).
Proof. unfold stop_batch, get_plan, insert_event. private_walk. Qed.

Lemma save_plan_others owner data v s :
  plan_ids_unique s → pn_created_by data = owner → others_plans owner s (save_plan data v s).2.
Proof.
  intros Hu Ho. unfold save_plan. match goal with |- others_plans _ _ ((atomic ?m ≫= _) _).2 => set (body := m) end.
  enough (others_plans owner s (atomic body s).2) as H.
  { unfold mbind, M_bind. by destruct (atomic body s) as [[]]. }
  unfold atomic. destruct (body s) as [[[]|e] s'] eqn:E; [|by reflexivity]. cbn [snd].
  unfold body in E. apply bind_Ok in E as (old&s1&E1&E). unfold get_plan, gets in E1. injection E1 as <- <-.
  destruct (fetchone _ _) as [o|] eqn:Ef.
  - apply bind_Ok in E as ([]&s1&E1&E). unfold require in E1. destruct (_ && _) eqn:Ec; [|done]. injection E1 as <-.
    apply fetchone_Some in Ef as [Hin Hid]. unfold plan_is in Hid. bool_props.
    match type of E with modify ?g s = _ => assert (preserves (private owner [pn_id data]) (modify g)) as Hp end.
    + apply private_update; [|done]. intros x Hx. unfold plan_is in Hx. bool_props. rewrite Hx. left.
    + specialize (Hp s). rewrite E in Hp. apply Hp. rewrite <-Hid. apply id_owned; congruence.
  - apply bind_Ok in E as ([]&s1&E1&E). unfold require in E1. destruct (Z.eqb v 0); [|done]. injection E1 as <-.
    injection E as <-. intros p Hp. simpl. rewrite elem_of_app, list_elem_of_singleton. split; [by left|].
    intros [| ->]; [done|]. by destruct Hp.
Qed.

(** [owned] reads only, and lets the owner pass. *)
Lemma owned_Ok plan_id principal s row s' :
  owned plan_id principal s = (Ok row, s') →
  s' = s ∧ ∃ p, principal = Some p ∧ is_human principal = true ∧ row ∈ st_plans s ∧ pn_id row = plan_id ∧
    pn_created_by row = cu_resource_owner_id p.
Proof.
  unfold owned, not_human. destruct principal as [p|]; [|done]. destruct (is_human (Some p)) eqn:Eh; [|done]. cbn [negb].
  intros E. apply bind_Ok in E as (o&s1&E1&E). unfold get_plan, gets in E1. injection E1 as <- <-.
  destruct (fetchone _ _) as [o|] eqn:Ef; [|done]. destruct (streqb _ _) eqn:Ec; [|done]. injection E as <- <-.
  apply fetchone_Some in Ef as [Hin Hid]. unfold plan_is in Hid. bool_props. split; [done|]. by exists p.
Qed.
Lemma owned_reads plan_id principal s : (owned plan_id principal s).2 = s.
Proof.
  unfold owned, not_human, get_plan. destruct principal as [p|]; [|done]. destruct (is_human _); [|done].
  cbn [negb]. unfold mbind, M_bind, gets. destruct (fetchone _ _); [|done]. by case_match.
Qed.

(** ** What people do *)

Inductive person_op :=
  | PoSave (g : plan_settings) (runs : list run_body) (plan_id : string)
  | PoEnabled (plan_id : string) (enable : bool) (version : Z)
  | PoSettings (plan_id : string) (g : plan_settings)
  | PoStart (plan_id : string)
  | PoStop (plan_id : string)
  | PoBulk (selections : list (string * Z)) (changes : plan_settings → plan_settings).

Section people.
Context (zone_info : string → option zone).
Context (read_schedule : string → result plan_schedule) (write_schedule : plan_schedule → string).
Context (open_template : string → result (list prepared_run)) (seal_template : list prepared_run → string).
Context (encrypt_secret : string → string).
Context (prepare_cluster_plan : run_request → result run_request).
Context (freeze_recovery : string → run_request → result run_request).
Context (fresh_id : nat → string).
Context (auth : auth_db) (now : Z).

Definition person_do (principal : option current_user) (op : person_op) : M store unit :=
  match op with
  | PoSave g runs i =>
      _ ← save zone_info write_schedule seal_template encrypt_secret prepare_cluster_plan freeze_recovery fresh_id
            now g runs principal i; mret tt
  | PoEnabled i e v => _ ← enabled zone_info read_schedule open_template auth now i principal e v; mret tt
  | PoSettings i g => _ ← settings zone_info write_schedule open_template auth now i g principal; mret tt
  | PoStart i =>
      _ ← start zone_info read_schedule open_template prepare_cluster_plan fresh_id auth now i principal None; mret tt
  | PoStop i => stop now i principal
  | PoBulk l f => _ ← bulk_settings zone_info read_schedule write_schedule open_template auth now l principal f; mret tt
  end.

Lemma lift_plans {A} (r : result A) : preserves same_plans (lift r).
Proof. intros s. by destruct r. Qed.
Lemma draw_plans prefix : preserves same_plans (draw fresh_id prefix).
Proof. by intros s. Qed.
Lemma prepare_runs_plans owner principal l :
  preserves same_plans (prepare_runs encrypt_secret prepare_cluster_plan freeze_recovery fresh_id now owner principal l).
Proof.
  induction l as [|b l IH]; simpl; [apply preserves_ret, _|].
  apply preserves_bind; [apply _|apply draw_plans|intros i]. apply preserves_bind; [apply _|apply lift_plans|intros p].
  apply preserves_bind; [apply _|exact IH|intros steps; apply preserves_ret, _].
Qed.

(** After steps that touch no plan. *)
Lemma after_same {A B} owner (m : M store A) (k : A → M store B) s :
  preserves same_plans m → plan_ids_unique s →
  (∀ a s1, m s = (Ok a, s1) → plan_ids_unique s1 → others_plans owner s1 (k a s1).2) →
  others_plans owner s ((m ≫= k) s).2.
Proof.
  intros Hm Hu Hk. specialize (Hm s). unfold mbind, M_bind. destruct (m s) as [[a|e] s1] eqn:E; cbn [snd] in *.
  - etrans; [by apply same_others|]. apply Hk; [done|]. unfold plan_ids_unique. by rewrite Hm.
  - by apply same_others.
Qed.
(** After the check of the owner. *)
Lemma after_owned {B} p plan_id (k : plan_row → M store B) s :
  plan_ids_unique s →
  (∀ row, row ∈ st_plans s → ids_owned (cu_resource_owner_id p) [plan_id] s → pn_id row = plan_id →
     pn_created_by row = cu_resource_owner_id p → others_plans (cu_resource_owner_id p) s (k row s).2) →
  others_plans (cu_resource_owner_id p) s ((owned plan_id (Some p) ≫= k) s).2.
Proof.
  intros Hu Hk. unfold mbind, M_bind. pose proof (owned_reads plan_id (Some p) s) as Hr.
  destruct (owned plan_id (Some p) s) as [[row|e] s1] eqn:E; cbn [snd] in Hr; subst s1; [|by reflexivity].
  apply owned_Ok in E as [_ (p'&[= <-]&_&Hin&Hi&Hc)]. apply Hk; [done| |done|done]. subst plan_id. by apply id_owned.
Qed.
Lemma private_others {A} owner ids (m : M store A) s :
  preserves (private owner ids) m → ids_owned owner ids s → others_plans owner s (m s).2.
Proof. intros Hm Hs. by apply Hm. Qed.
Lemma lift_private {A} owner ids (r : result A) : preserves (private owner ids) (lift r).
Proof. destruct r; [apply preserves_ret, _|apply preserves_raise, _]. Qed.
Lemma plain_tail {A B} (m : M store A) (k : A → B) s : ((a ← m; mret (k a)) s).2 = (m s).2.
Proof. unfold mbind, M_bind. by destruct (m s) as [[]]. Qed.

Lemma bulk_checked p selections changes s updates s1 :
  plan_ids_unique s →
  forM selections (λ '(plan_id, version),
    old ← owned plan_id (Some p);
    g ← lift (settings_of zone_info read_schedule changes old version);
    _ ← (if pg_enabled g then lift (authorize_steps open_template auth old) else mret tt);
    mret (old, g)) s = (Ok updates, s1) →
  s1 = s ∧ Forall (λ x, ids_owned (cu_resource_owner_id p) [pn_id x.1] s) updates.
Proof.
  intros Hu. revert updates s1. induction selections as [|[i v] selections IH]; intros updates s1 E.
  { injection E as <- <-. by split. }
  cbn [forM] in E. apply bind_Ok in E as ([old g]&s2&E1&E). apply bind_Ok in E as (rest&s3&E2&E). injection E as <- <-.
  apply bind_Ok in E1 as (o&s4&Eo&E1). apply owned_Ok in Eo as [-> (p'&[= <-]&_&Hin&Hi&Hc)].
  apply bind_Ok in E1 as (g'&s5&Eg&E1). unfold lift in Eg. destruct (settings_of _ _ _ _ _); [|done]. injection Eg as <- <-.
  apply bind_Ok in E1 as ([]&s6&Ea&E1). injection E1 as <- <- <-.
  assert (s6 = s) as -> by (destruct (pg_enabled _); [unfold lift in Ea; destruct (authorize_steps _ _ _); [by injection Ea|done]|by injection Ea]).
  apply IH in E2 as [-> Hf]. split; [done|]. constructor; [|done]. by apply id_owned.
Qed.

Lemma checks_read p changes selections :
  preserves same_plans (forM selections (λ '(plan_id, version),
    old ← owned plan_id (Some p);
    g ← lift (settings_of zone_info read_schedule changes old version);
    _ ← (if pg_enabled g then lift (authorize_steps open_template auth old) else mret tt);
    mret (old, g))).
Proof.
  apply preserves_forM; [apply _|]. intros [i v]. apply preserves_bind; [apply _| |intros old].
  { intros s. unfold same_plans. by rewrite owned_reads. }
  apply preserves_bind; [apply _|apply lift_plans|intros g].
  apply preserves_bind; [apply _|case_match; [apply lift_plans|apply preserves_ret, _]|intros _; apply preserves_ret, _].
Qed.
Lemma preserves_for_each_in {A} (R : relation store) `{!PreOrder R} (l : list A) f :
  (∀ a, a ∈ l → preserves R (f a)) → preserves R (for_each l f).
Proof.
  intros Hf. induction l as [|a l IH]; simpl; [apply preserves_ret, _|].
  apply preserves_bind; [apply _|apply Hf; left|intros _; apply IH; intros b Hb; apply Hf; by right].
Qed.

(** Nothing is done for machines and strangers. *)
Lemma not_human_nothing principal op s :
  is_human principal = false → ∃ e, person_do principal op s = (Err e, s).
Proof.
  intros Hh. assert (∀ i, owned i principal s = (Err (ValueError "Test plans require an authenticated human owner"), s)) as Hown.
  { intros i. unfold owned, not_human. destruct principal; [by rewrite Hh|done]. }
  assert (∀ B i (k : plan_row → M store B), (owned i principal ≫= k) s =
    (Err (ValueError "Test plans require an authenticated human owner"), s)) as Hbind by (intros; unfold mbind, M_bind; by rewrite Hown).
  destruct op as [g runs i|i e v|i g|i|i|l f]; cbn [person_do].
  - unfold save, not_human. destruct principal; [rewrite Hh|]; by eexists.
  - eexists. unfold enabled. unfold mbind at 1, M_bind at 1. by rewrite Hbind.
  - eexists. unfold settings. unfold mbind at 1, M_bind at 1. by rewrite Hbind.
  - eexists. unfold start. unfold mbind at 1, M_bind at 1. by rewrite Hbind.
  - eexists. unfold stop. by rewrite Hbind.
  - unfold bulk_settings. unfold mbind at 1, M_bind at 1. rewrite bind_require. destruct (_ && _) eqn:El; [|by eexists].
    rewrite bind_require. destruct (bool_decide (NoDup _)); [|by eexists].
    destruct l as [|[i v] l]; [done|]. cbn [forM]. unfold mbind at 1, M_bind at 1. unfold mbind at 1, M_bind at 1.
    rewrite Hbind. by eexists.
Qed.
Lemma person_private p op s :
  plan_ids_unique s → others_plans (cu_resource_owner_id p) s (person_do (Some p) op s).2.
Proof.
  intros Hu. destruct op as [g runs i|i e v|i g|i|i|l f]; cbn [person_do]; rewrite ?plain_tail.
  - unfold save. destruct (is_human (Some p)); [|by apply same_others]. cbn [negb].
    apply after_same; [apply preserves_require, _|done|intros _ s1 _ Hu1].
    apply after_same; [|done|intros _ s2 _ Hu2].
    { intros s2. case_match; [|done]. rewrite plain_tail. unfold same_plans. by rewrite owned_reads. }
    apply after_same; [apply prepare_runs_plans|done|intros steps s3 _ Hu3].
    apply after_same; [case_match; [apply preserves_ret, _|apply draw_plans]|done|intros drawn s4 _ Hu4].
    apply after_same; [apply lift_plans|done|intros next s5 _ Hu5]. rewrite plain_tail. by apply save_plan_others.
  - apply after_owned; [done|]. intros row _ Hown _ _. revert Hown. apply private_others.
    apply preserves_bind; [apply _|case_match; [apply lift_private|apply preserves_ret, _]|intros _].
    do 2 (apply preserves_bind; [apply _|apply lift_private|intros ?]).
    apply preserves_bind; [apply _|apply set_enabled_private|intros ?; apply preserves_ret, _].
  - apply after_owned; [done|]. intros row _ _ _ Hc.
    apply after_same; [apply preserves_require, _|done|intros _ s1 _ Hu1].
    apply after_same; [case_match; [apply lift_plans|apply preserves_ret, _]|done|intros _ s2 _ Hu2].
    apply after_same; [apply lift_plans|done|intros next s3 _ Hu3]. rewrite plain_tail. by apply save_plan_others.
  - apply after_owned; [done|]. intros row _ Hown Hi _. revert Hown. rewrite <-Hi. apply private_others.
    apply preserves_bind; [apply _|by apply private_same|intros batch_id].
    apply preserves_bind; [apply _| |intros first].
    { cbn. apply preserves_bind; [apply _|apply lift_private|intros steps].
      apply preserves_bind; [apply _|by apply private_same|intros i']. destruct steps; [apply preserves_raise, _|].
      apply preserves_bind; [apply _|apply lift_private|intros ?; apply preserves_ret, _]. }
    do 2 (apply preserves_bind; [apply _|apply lift_private|intros ?]).
    apply preserves_bind; [apply _|apply start_batch_private|intros ?; apply preserves_ret, _].
  - apply after_owned; [done|]. intros row _ _ _ _.
    apply (private_others _ []); [apply stop_batch_private|]. by intros ? _ ?%elem_of_nil.
  - unfold bulk_settings. do 2 (apply after_same; [apply preserves_require, _|done|intros _ ? _ ?Hu1]).
    match goal with |- others_plans _ ?s1 ((forM l ?g ≫= _) _).2 => pose proof (checks_read p f l s1) as Hread;
      unfold mbind at 1, M_bind at 1; destruct (forM l g s1) as [[updates|e] s2] eqn:Ef end; [|by apply same_others].
    apply bulk_checked in Ef as [-> Hf]; [|done]. rewrite plain_tail.
    apply (private_others _ (pn_id ∘ fst <$> updates)).
    + apply private_atomic. apply preserves_bind; [apply _| |intros _].
      { apply preserves_for_each; [apply _|]. intros [old g]. unfold get_plan. private_walk. }
      apply preserves_for_each_in; [apply _|]. intros [old g] Hin. unfold update_settings.
      apply preserves_bind; [apply _|apply lift_private|intros next]. apply private_update; [|done].
      intros x Hx. unfold plan_is in Hx. bool_props. rewrite Hx. apply list_elem_of_fmap. by exists (old, g).
    + intros q Hq (x&Hx&Hin)%list_elem_of_fmap. rewrite Forall_forall in Hf. apply (Hf x Hin); [done|].
      rewrite Hx. apply list_elem_of_singleton. done.
Qed.
End people.

(** [C23] Plans are private, and for people only.  Whatever a machine principal, an agent or a caller
    without an account tries (saving, enabling, changing, starting, stopping plans, one by one or
    many at once), it is refused and the store is as it was; a person's attempts, whether they
    succeed or fail half-way, leave every plan of other people exactly as it was and create none
    in their names. *)
Theorem plans_private zone_info read_schedule write_schedule open_template seal_template encrypt_secret
    prepare_cluster_plan freeze_recovery fresh_id auth now principal op s :
  plan_ids_unique s →
  let attempt := person_do zone_info read_schedule write_schedule open_template seal_template encrypt_secret
    prepare_cluster_plan freeze_recovery fresh_id auth now principal op s in
  (is_human principal = false → ∃ e, attempt = (Err e, s)) ∧
  (∀ p plan, principal = Some p → pn_created_by plan ≠ cu_resource_owner_id p →
     plan ∈ st_plans s ↔ plan ∈ st_plans attempt.2).
Proof.
  intros Hu attempt. split; [apply not_human_nothing|]. intros p plan -> Hp. by apply person_private.
Qed.

(** [C21] Nothing is dispatched on authority that is gone.  Whatever the scheduler starts in a tick
    (retries, the next step of a batch, a plan that is due) and whatever a person starts by hand:
    every run it puts into the store belongs to a person whose account is enabled at that moment,
    who holds, at that moment, every capability the run's plan needs; and the run itself is granted
    all of them.  Every other run in the store afterwards was there before, with the same owner,
    plan and grants. *)
Theorem dispatch_authorized zone_info read_schedule open_template prepare_cluster_plan fresh_id auth now plan_id principal s :
  (∀ q q', prepare_cluster_plan q = Ok q' → shape_of (rq_test_plan q') = shape_of (rq_test_plan q)) →
  let dispatched (s' : store) := ∀ r, r ∈ st_runs s' →
    (∃ r0, r0 ∈ st_runs s ∧ same_authority r0 r) ∨ authorized auth r in
  dispatched (tick zone_info read_schedule open_template prepare_cluster_plan fresh_id auth now s).2 ∧
  dispatched (start zone_info read_schedule open_template prepare_cluster_plan fresh_id auth now plan_id principal None s).2.
Proof. intros Hshape. split; [by apply tick_runs|by apply start_runs]. Qed.

(** ** The theorems at work *)

(** Ann is an administrator; Bob may not lease devices. *)
Definition ann : current_user := CurrentUserOf "ann" "ann" "admin" "Ann" ∅ "ann".
Definition robot : current_user := CurrentUserOf "robot" "robot" AGENT_ROLE "Robot" ∅ "ann".
Definition template_run (owner : string) : run :=
  sample_run <| rn_created_by := owner |>
    <| rn_columns := {["created_by_username" := owner; "granted_capabilities" :=
         "devices.read,devices.lease,devices.use_leased,tests.execute,tests.cancel"]} |>.
Definition hourly : plan_schedule := PlanSchedule Interval "Asia/Shanghai" "02:00" [0] 60.
Definition sample_open (text : string) : result (list prepared_run) := Ok [PreparedRun (template_run text) []].
Definition sample_read (text : string) : result plan_schedule := Ok hourly.
Definition sample_cluster (q : run_request) : result run_request :=
  Ok {| rq_source_type := rq_source_type q; rq_source_key := rq_source_key q; rq_jenkins_job := rq_jenkins_job q;
        rq_devices := [DeviceText "worker-1:SER1"]; rq_test_plan := rq_test_plan q <| tp_worker_id := "worker-1" |>;
        rq_columns := rq_columns q |}.
Definition sample_id (n : nat) : string := String (ascii_of_nat (97 + n)) "".
Definition plan_of (i owner : string) (next : stamp) : plan_row :=
  PlanRow i owner owner "nightly" true true "hourly" owner 1 next None "" "" 1 0 0 [].
Definition planned : store :=
  Store [sample_run] [] [] [plan_of "plan_a" "ann" (Some 90); plan_of "plan_b" "bob" (Some 95); plan_of "plan_c" "ann" (Some 500)] [] 0.
Abbreviation ticked := (tick (λ _, None) sample_read sample_open sample_cluster sample_id platform 100 planned).

(** Ann's plan is dispatched; Bob's is put off, for want of [devices.lease]. *)
Lemma dispatch_authorized_witness :
  (pn_last_error <$> st_plans ticked.2) =
    [""; "Scheduled dispatch failed; check owner permissions and resource preflight"; ""] ∧
  (∀ r, r ∈ st_runs ticked.2 → (∃ r0, r0 ∈ st_runs planned ∧ same_authority r0 r) ∨ authorized platform r).
Proof.
  split; [vm_compute; reflexivity|].
  refine (proj1 (dispatch_authorized (λ _, None) sample_read sample_open sample_cluster sample_id platform 100 "plan_a" (Some ann) planned _)).
  by intros q q' [= <-].
Defined.

(** Bob stops his plan, and cannot stop Ann's; Ann's robot can stop none. *)
Abbreviation do_sample := (person_do (λ _, None) sample_read (λ _, "hourly") sample_open (λ _, "") (λ s, s) sample_cluster
  (λ _ q, Ok q) sample_id platform 100).
Lemma planned_unique : plan_ids_unique planned.
Proof. vm_compute. repeat constructor; set_solver. Qed.
Lemma plans_private_witness :
  (∃ e, do_sample (Some robot) (PoEnabled "plan_a" false 1) planned = (Err e, planned)) ∧
  (do_sample (Some ann) (PoEnabled "plan_a" false 1) planned).1 = Ok tt ∧
  plan_of "plan_b" "bob" (Some 95) ∈ st_plans (do_sample (Some ann) (PoEnabled "plan_a" false 1) planned).2.
Proof.
  pose proof (plans_private (λ _, None) sample_read (λ _, "hourly") sample_open (λ _, "") (λ s, s) sample_cluster
      (λ _ q, Ok q) sample_id platform 100) as private. split_and!.
  - by apply (private (Some robot) (PoEnabled "plan_a" false 1) planned planned_unique).
  - vm_compute. reflexivity.
  - refine (proj1 (proj2 (private (Some ann) (PoEnabled "plan_a" false 1) planned planned_unique) ann _ eq_refl _) _).
    + done.
    + by right; left.
Defined.
