(* ===== verification/TickProperties.v ===== *)
(** A tick of the scheduler leaves no plan due that it took: dispatched, skipped or put off, its
    next run lies in the future. *)

From stdpp Require Import gmap.
From S2P Require Import Prelude Encodings ExecutionSpec Authority Automation AutomationProperties RunHistory Schedule ScheduleProperties PlanStore Sessions SessionProperties Planner PlannerProperties.

Open Scope Z_scope.

Section due.
Context (zone_info : string → option zone).
Context (read_schedule : string → result plan_schedule) (open_template : string → result (list prepared_run)).
Context (prepare_cluster_plan : run_request → result run_request).
Context (fresh_id : nat → string).
Context (auth : auth_db) (now : Z).

(** Stored schedules were validated; and only the store of plans raises its conflicts. *)
Record planner_laws : Prop := {
  pl_interval : ∀ text sch, read_schedule text = Ok sch → 5 ≤ ps_interval_minutes sch;
  pl_schedule_conflict : ∀ text m, read_schedule text ≠ Err (PlanConflictError m);
  pl_template_conflict : ∀ text m, open_template text ≠ Err (PlanConflictError m);
  pl_cluster_conflict : ∀ q m, prepare_cluster_plan q ≠ Err (PlanConflictError m);
}.
Context (laws : planner_laws).

Abbreviation due := (plan_due now).
Lemma first_later sch t :
  match zone_info (ps_timezone sch), clock_time (ps_time sch) with
  | Some z, Some (hour, minute) =>
      match first_occurrence (occurrence sch z now hour minute) [0; 1; 2; 3; 4; 5; 6; 7; 8] with
      | Some u => Ok (Some u) | None => Err (ValueError "No schedule occurrence found") end
  | _, _ => Err (ValueError "schedule")
  end = Ok (Some t) → now < t.
Proof.
  destruct (zone_info _) as [z|]; [|done]. destruct (clock_time _) as [[hour minute]|]; [|done].
  destruct (first_occurrence _ _) as [u|] eqn:Ef; [|done]. intros [= <-].
  apply first_occurrence_Some in Ef as (i&k&_&Hk&_). unfold occurrence in Hk. cbv zeta in Hk.
  repeat match type of Hk with (if ?b then _ else _) = _ => let E := fresh in destruct b eqn:E; [done || injection Hk as <-|done || idtac] end.
  by bool_props.
Qed.
Lemma next_after_later sch t : 5 ≤ ps_interval_minutes sch → next_after zone_info sch now = Ok (Some t) → now < t.
Proof.
  intros Hi. unfold next_after. destruct (ps_kind sch); [done| | |].
  - intros [= <-]. unfold MINUTE_SECONDS. lia.
  - by apply first_later.
  - by apply first_later.
Qed.
Lemma next_after_conflict sch m : next_after zone_info sch now ≠ Err (PlanConflictError m).
Proof. unfold next_after. repeat case_match; congruence. Qed.
(** The next occurrence is not due. *)
Lemma next_not_due p text sch next :
  read_schedule text = Ok sch → next_after zone_info sch now = Ok next → pn_next_run_at p = next → due p = false.
Proof.
  intros Hr Hn Hp. unfold plan_due. rewrite Hp. destruct next as [t|]; [|apply andb_false_r].
  apply next_after_later in Hn; [|by eapply pl_interval]. apply andb_false_iff. right. lia.
Qed.

(** What became of a plan whose turn it was. *)
Definition batch_ids (s : store) : list string := bt_id <$> st_batches s.
Definition dispatched (q : plan_row) (s s' : store) : Prop :=
  pn_last_error q = "" ∧ ∃ b r, b ∈ st_batches s' ∧ (bt_id b ∉ batch_ids s) ∧ bt_plan_id b = pn_id q ∧
    pn_active_batch_id q = bt_id b ∧ bt_status b = BatchRunning ∧ r ∈ st_runs s' ∧ rn_id r = bt_last_run_id b.
Definition skipped (q : plan_row) : Prop :=
  pn_active_batch_id q ≠ "" ∧ pn_last_error q = "Previous batch is still active; scheduled occurrence skipped".
Definition put_off (q : plan_row) : Prop :=
  pn_last_error q = "Scheduled dispatch failed; check owner permissions and resource preflight".
Definition handled (q : plan_row) (s s' : store) : Prop := dispatched q s s' ∨ skipped q ∨ put_off q.

(** The row of a plan is replaced by one that is not due. *)
Definition moved (p : plan_row) (s s' : store) : Prop :=
  ∃ hit f, st_plans s' = update_where hit f (st_plans s) ∧ (∀ x, x ∈ st_plans s → hit x = true ↔ x = p) ∧
    (∀ x, pn_id (f x) = pn_id x) ∧ due (f p) = false ∧ handled (f p) s s'.
Lemma moved_count p s s' :
  plan_ids_unique s → p ∈ st_plans s → due p = true → moved p s s' →
  S (rowcount due (st_plans s')) = rowcount due (st_plans s).
Proof.
  intros Hu Hp Hd (hit&f&->&Hhit&Hid&Hf&_). unfold plan_ids_unique, unique_index in Hu.
  rewrite fetchall_all in Hu by done. apply NoDup_fmap_1 in Hu. unfold rowcount.
  induction (st_plans s) as [|x l IH]; [by apply elem_of_nil in Hp|].
  apply NoDup_cons in Hu as [Hx Hu]. rewrite update_where_cons, !fetchall_cons.
  apply elem_of_cons in Hp as [E|Hp].
  - subst x. rewrite (proj2 (Hhit p ltac:(left)) eq_refl), Hf, Hd. cbn [length]. f_equal.
    rewrite update_where_id; [done|]. intros y Hy Hh. exfalso. apply Hhit in Hh; [by subst y|by right].
  - assert (hit x = false) as ->.
    { apply not_true_iff_false. intros Hh. apply Hhit in Hh; [by subst x|left]. }
    assert (S (length (fetchall due (update_where hit f l))) = length (fetchall due l)) as Hl.
    { apply IH; [done|done|]. intros y Hy. apply Hhit. by right. }
    by destruct (due x); cbn [length]; rewrite Hl.
Qed.
Lemma moved_unique_rows s s' hit f :
  plan_ids_unique s → (∀ x, pn_id (f x) = pn_id x) → st_plans s' = update_where hit f (st_plans s) → plan_ids_unique s'.
Proof.
  unfold plan_ids_unique, unique_index. intros Hu Hid ->. rewrite fetchall_all in * by done.
  rewrite fmap_update_where; [done|]. intros x _. apply Hid.
Qed.
Lemma moved_unique p s s' : plan_ids_unique s → moved p s s' → plan_ids_unique s'.
Proof. intros Hu (hit&f&E&_&Hid&_). by eapply moved_unique_rows. Qed.
Lemma moved_others p q s s' : q ∈ st_plans s → q ≠ p → moved p s s' → q ∈ st_plans s'.
Proof.
  intros Hq Hn (hit&f&->&Hhit&_). apply elem_of_update_where_keep; [done|]. apply not_true_iff_false.
  by intros Hh%Hhit.
Qed.
Lemma plan_is_only p s x : plan_ids_unique s → p ∈ st_plans s → x ∈ st_plans s → plan_is (pn_id p) x = true ↔ x = p.
Proof.
  intros Hu Hp Hx. unfold plan_is. split; [|intros ->; by apply bool_decide_eq_true].
  intros Hi. bool_props. by eapply (unique_index_inj (λ _, true) pn_id).
Qed.

(** The new row. *)
Lemma moved_row p s s' : p ∈ st_plans s → moved p s s' →
  ∃ q, q ∈ st_plans s' ∧ pn_id q = pn_id p ∧ due q = false ∧ handled q s s'.
Proof.
  intros Hp (hit&f&E&Hhit&Hid&Hf&Hh). exists (f p). split_and!; [|apply Hid|done|done].
  rewrite E. apply elem_of_update_where_hit; [done|by apply Hhit].
Qed.

(** What leaves plans and batches alone and raises no conflict. *)
Definition same_rows (s s' : store) : Prop := st_plans s' = st_plans s ∧ st_batches s' = st_batches s.
#[export] Instance same_rows_equiv : Equivalence same_rows.
Proof. split; unfold same_rows; [done|by intros x y [-> ->]|by intros x y z [-> ->] [-> ->]]. Qed.
Definition quiet {A} (m : M store A) : Prop := ∀ s, same_rows s (m s).2 ∧ ∀ t, (m s).1 ≠ Err (PlanConflictError t).
Lemma quiet_ret {A} (a : A) : quiet (mret a).
Proof. by intros s. Qed.
Lemma quiet_lift {A} (r : result A) : (∀ t, r ≠ Err (PlanConflictError t)) → quiet (lift r).
Proof. intros Hr s. split; [by destruct r|]. destruct r; [done|]. intros t [= ->]. by eapply Hr. Qed.
Lemma quiet_draw prefix : quiet (draw fresh_id prefix).
Proof. by intros s. Qed.
Lemma quiet_bind {A B} (m : M store A) (k : A → M store B) : quiet m → (∀ a, quiet (k a)) → quiet (m ≫= k).
Proof.
  intros Hm Hk s. specialize (Hm s). unfold mbind, M_bind. destruct Hm as [H0 Hc].
  destruct (m s) as [[a|e] s1]; [|split; [done|]; intros t [= ->]; by eapply Hc].
  destruct (Hk a s1) as [H1 H2]. split; [|done]. cbn in *. by etrans.
Qed.
Lemma granted_conflict principal plan t : automation_granted_capabilities principal plan ≠ Err (PlanConflictError t).
Proof. unfold automation_granted_capabilities. destruct principal; [|done]. cbv zeta. by case_match. Qed.
Lemma authorize_conflict r t : authorize auth r ≠ Err (PlanConflictError t).
Proof.
  unfold authorize. repeat (case_match; try done). intros [= ->]. by eapply granted_conflict.
Qed.
Lemma materialize_conflict i step plan_id batch_id index t :
  materialize prepare_cluster_plan auth now i step plan_id batch_id index ≠ Err (PlanConflictError t).
Proof.
  unfold materialize. destruct (authorize _ _) eqn:Ea; [|intros [= ->]; by eapply authorize_conflict].
  destruct (prepare_cluster_plan _) eqn:Ec; [done|]. intros [= ->]. by eapply pl_cluster_conflict.
Qed.
Lemma plan_steps_conflict text t : plan_steps open_template text ≠ Err (PlanConflictError t).
Proof.
  unfold plan_steps. destruct (open_template _) eqn:Eo; [by case_bool_decide|]. intros [= ->]. by eapply pl_template_conflict.
Qed.

(** A due plan was dispatched, or its dispatch failed. *)
Definition dispatches {A} (p : plan_row) (s : store) (out : result A * store) : Prop :=
  match out.1 with
  | Ok _ => moved p s out.2
  | Err e => same_rows s out.2 ∧ ∀ t, e ≠ PlanConflictError t
  end.
Lemma dispatches_after {A B} p (m : M store A) (k : A → M store B) s :
  quiet m → (∀ a s1, m s = (Ok a, s1) → same_rows s s1 → dispatches p s1 (k a s1)) → dispatches p s ((m ≫= k) s).
Proof.
  intros Hm Hk. specialize (Hm s). unfold mbind, M_bind. destruct (m s) as [[a|e] s1].
  - destruct Hm as [Hs _]. specialize (Hk a s1 eq_refl Hs). destruct Hs as [Hs Hb].
    unfold dispatches, moved, handled, dispatched, same_rows, batch_ids in *. cbn in Hs, Hb.
    destruct (k a s1) as [[b|e] s2]; cbn in *; rewrite ?Hs, ?Hb in Hk; done.
  - destruct Hm as [Hs Hc]. split; [done|]. intros t ->. by eapply Hc.
Qed.
Lemma quiet_modify f : (∀ s, same_rows s (f s)) → quiet (modify f).
Proof. intros Hf s. by split; [apply Hf|]. Qed.
Lemma quiet_require b e : (∀ t, e ≠ PlanConflictError t) → quiet (require b e).
Proof. intros He s. unfold require. destruct b; split; try done. cbn. intros t [= ->]. by eapply He. Qed.
Lemma quiet_gets {A} (f : store → A) : quiet (gets f).
Proof. by intros s. Qed.
Lemma quiet_prepared n f : quiet (insert_prepared_run n f).
Proof.
  unfold insert_prepared_run, insert_run, insert_secret, insert_event.
  apply quiet_bind; [|intros _; apply quiet_bind; [|intros _; by apply quiet_modify]].
  - repeat first [by apply quiet_modify | apply quiet_bind | apply quiet_gets | by apply quiet_require | intros ?].
  - induction (pp_secrets f) as [|[k v] l IH]; [apply quiet_ret|]. cbn [for_each].
    repeat first [apply IH | by apply quiet_modify | apply quiet_bind | apply quiet_gets | by apply quiet_require | intros ?].
Qed.
(** Dispatching only adds runs and batches. *)
Definition grows (s s' : store) : Prop := st_batches s ⊆ st_batches s' ∧ st_runs s ⊆ st_runs s'.
#[export] Instance grows_preorder : PreOrder grows.
Proof. split; unfold grows; [done|]. intros x y z [H1 H2] [H3 H4]. split; by etrans. Qed.
Ltac grow_walk :=
  repeat first
    [ progress intros
    | apply preserves_bind; [apply _|..] | apply preserves_for_each; [apply _|]
    | apply preserves_ret, _ | apply preserves_raise, _ | apply preserves_gets, _
    | apply preserves_require, _ | apply preserves_when; [apply _|]
    | apply preserves_try; [apply _|..]
    | solve [apply preserves_modify; intros ?; unfold grows; cbn; set_solver]
    | solve [eauto]
    | case_match ].
Lemma grows_lift {A} (r : result A) : preserves grows (lift r).
Proof. intros s. by destruct r. Qed.
Lemma grows_atomic {A} (m : M store A) : preserves grows m → preserves grows (atomic m).
Proof. intros Hm s. specialize (Hm s). unfold atomic. destruct (m s) as [[] s']; [done|]. by reflexivity. Qed.
Lemma grows_prepared f : preserves grows (insert_prepared_run now f).
Proof. unfold insert_prepared_run, insert_run, insert_secret, insert_event. grow_walk. Qed.
Lemma prepared_inserted f s s1 : insert_prepared_run now f s = (Ok tt, s1) → pp_run f ∈ st_runs s1.
Proof.
  unfold insert_prepared_run. intros E. apply bind_Ok in E as ([]&s2&E2&E).
  match type of E with ?m s2 = _ => assert (preserves grows m) as Hg by (unfold insert_secret, insert_event; grow_walk) end.
  specialize (Hg s2). rewrite E in Hg. apply Hg. unfold insert_run in E2. inv_ok. apply elem_of_app. right. by left.
Qed.
Lemma start_batch_dispatches p batch_id first next s :
  plan_ids_unique s → p ∈ st_plans s → due p = true → (pn_active_batch_id p = "" → is_Some first) →
  (∀ q, pn_next_run_at q = next → due q = false) →
  dispatches p s (start_batch now p batch_id first next true s).
Proof.
  intros Hu Hp Hd Hfirst Hnext. unfold start_batch.
  assert (fetchone (plan_is (pn_id p)) (st_plans s) = Some p) as Hfound.
  { destruct (fetchone _ _) as [c|] eqn:Ef.
    - apply fetchone_Some in Ef as [Hc Hi]. f_equal. by apply (plan_is_only p s c).
    - rewrite fetchone_None in Ef. specialize (Ef p Hp). unfold plan_is in Ef. by bool_props. }
  unfold atomic, get_plan. unfold mbind at 1, M_bind at 1. unfold gets at 1. rewrite Hfound, bind_require, Z.eqb_refl, Hd.
  cbn [andb negb]. destruct (nonempty (pn_active_batch_id p)) eqn:Ea.
  - exists (plan_is (pn_id p)). eexists. split; [done|]. split; [intros x Hx; by apply (plan_is_only p s)|].
    split; [done|]. split; [by apply Hnext|]. right. left. split; [|done]. unfold nonempty in Ea. cbn. by bool_props.
  - destruct Hfirst as [f ->].
    { by destruct (pn_active_batch_id p). }
    unfold mbind at 1, M_bind at 1. destruct (insert_prepared_run now f s) as [[[]|e] s1] eqn:Ei.
    + destruct (quiet_prepared now f s) as [[Hs Hb] _]. pose proof (prepared_inserted f s s1 Ei) as Hrun. rewrite Ei in Hs, Hb. cbn in Hs, Hb.
      rewrite bind_gets, bind_require. destruct (negb _) eqn:Eb.
      * exists (plan_is (pn_id p)). eexists. split; [rewrite <-Hs; reflexivity|]. split; [intros x Hx; by apply (plan_is_only p s)|].
        split; [done|]. split; [by apply Hnext|]. left. split; [done|]. eexists _, (pp_run f). split; [cbn; apply elem_of_app; right; by left|].
        cbn. split_and!; try done.
        unfold batch_ids. rewrite <-Hb. cbn. intros (b&Eid&Hin)%list_elem_of_fmap. apply negb_true_iff in Eb. rewrite exists_row_false in Eb.
        specialize (Eb b Hin). unfold batch_is, streqb in Eb. by bool_props.
      * by split.
    + destruct (quiet_prepared now f s) as [_ Hc]. rewrite Ei in Hc. split; [done|]. intros t ->. by eapply Hc.
Qed.
Abbreviation do_start := (start zone_info read_schedule open_template prepare_cluster_plan fresh_id auth now).
Abbreviation do_plan := (tick_plan zone_info read_schedule open_template prepare_cluster_plan fresh_id auth now).
Lemma same_unique s s' : same_rows s s' → plan_ids_unique s → plan_ids_unique s'.
Proof. unfold same_rows, plan_ids_unique. by intros [-> _]. Qed.
Lemma start_dispatches p s :
  plan_ids_unique s → p ∈ st_plans s → due p = true → dispatches p s (do_start (pn_id p) None (Some p) s).
Proof.
  intros Hu Hp Hd. unfold start. cbn [mbind]. apply dispatches_after; [apply quiet_ret|]. intros ? s0 [= <- <-] _.
  apply dispatches_after; [apply quiet_draw|]. intros batch_id s1 _ Hs1.
  apply dispatches_after; [|intros first s2 Efirst Hs2].
  { case_match; [apply quiet_ret|]. apply quiet_bind; [apply quiet_lift, plan_steps_conflict|intros steps].
    apply quiet_bind; [apply quiet_draw|intros i]. destruct steps; [by intros ?|].
    apply quiet_bind; [apply quiet_lift, materialize_conflict|intros ?; apply quiet_ret]. }
  apply dispatches_after; [apply quiet_lift; intros t; by eapply pl_schedule_conflict|intros sch s3 Esch Hs3].
  apply dispatches_after; [apply quiet_lift; intros t; apply next_after_conflict|intros next s4 Enext Hs4].
  assert (same_rows s s4) as Hs by (etrans; [exact Hs1|]; etrans; [exact Hs2|]; by etrans).
  assert (dispatches p s4 (start_batch now p batch_id first next true s4)) as Hd4.
  { apply start_batch_dispatches; [by eapply same_unique|by rewrite (proj1 Hs)|done|..].
    - intros Ea. rewrite Ea in Efirst. cbn in Efirst. apply bind_Ok in Efirst as (steps&?&_&E).
      apply bind_Ok in E as (i&?&_&E). destruct steps; [done|]. apply bind_Ok in E as (f&?&_&E). by injection E as <- _.
    - intros q Hq. apply lift_Ok in Esch as [Er _]. apply lift_Ok in Enext as [En _]. by eapply next_not_due. }
  cbn [bool_decide]. unfold mbind at 1, M_bind at 1.
  match goal with |- context [start_batch now p batch_id first next ?d s4] => change d with true end.
  by destruct (start_batch now p batch_id first next true s4) as [[]].
Qed.
Lemma tick_plan_moves p s n s' :
  plan_ids_unique s → p ∈ st_plans s → due p = true → do_plan p s = (Ok n, s') → moved p s s'.
Proof.
  intros Hu Hp Hd. pose proof (start_dispatches p s Hu Hp Hd) as H. unfold tick_plan, try, mbind at 1, M_bind at 1.
  destruct (do_start _ _ _ s) as [[b|e] s1] eqn:Es; cbn in H.
  { intros [= _ <-]. exact H. }
  destruct H as [Hs Hc]. intros E.
  assert (∃ sch next, read_schedule (pn_schedule p) = Ok sch ∧ next_after zone_info sch now = Ok next ∧
    s' = (defer_error p next "Scheduled dispatch failed; check owner permissions and resource preflight" s1).2)
    as (sch&next&Er&En&->).
  { destruct e; try (exfalso; eapply Hc; reflexivity); cbn [value_or_lookup_error] in E; try done.
    all: apply bind_Ok in E as (sch&s2&E1&E); apply bind_Ok in E as (next&s3&E2&E).
    all: apply lift_Ok in E1 as [Er ->]; apply lift_Ok in E2 as [En ->].
    all: apply bind_Ok in E as ([]&s4&E3&E); injection E as _ <-; exists sch, next; by rewrite E3. }
  unfold moved. cbn. destruct Hs as [Hs Hb]. rewrite Hs. eexists _, _. split; [done|]. split; [|split; [done|split; [|by right; right]]].
  - intros x Hx. split.
    + intros ?. apply (plan_is_only p s); [done..|]. by bool_props.
    + intros ->. rewrite Z.eqb_refl, bool_decide_eq_true_2 by done. by rewrite (proj2 (plan_is_only p s p Hu Hp Hp)).
  - by eapply next_not_due.
Qed.
Lemma grows_plan p : preserves grows (do_plan p).
Proof.
  pose proof grows_prepared. unfold tick_plan, start, start_batch, get_plan, draw, defer_error. cbv zeta.
  repeat first [apply grows_lift | apply grows_atomic | progress grow_walk].
Qed.
Lemma grows_ids s s' : grows s s' → batch_ids s ⊆ batch_ids s'.
Proof. intros [H _] i (b&->&Hb)%list_elem_of_fmap. by apply list_elem_of_fmap_2, H. Qed.
Lemma handled_later q s s1 s2 s3 : batch_ids s ⊆ batch_ids s1 → grows s2 s3 → handled q s1 s2 → handled q s s3.
Proof.
  intros Hids [Hb Hr] [(He&b&r&?&Hn&?&?&?&?&?)|Hh]; [left|by right]. split; [done|]. exists b, r. split_and!; auto.
Qed.
Lemma plans_dispatched l s n s' :
  plan_ids_unique s → NoDup l → (∀ p, p ∈ l → p ∈ st_plans s ∧ due p = true) →
  count_each l do_plan s = (Ok n, s') →
  (length l + rowcount due (st_plans s'))%nat = rowcount due (st_plans s) ∧ plan_ids_unique s' ∧ grows s s' ∧
  (∀ q, q ∈ st_plans s → q ∉ l → q ∈ st_plans s') ∧
  ∀ p, p ∈ l → ∃ q, q ∈ st_plans s' ∧ pn_id q = pn_id p ∧ due q = false ∧ handled q s s'.
Proof.
  revert s n. induction l as [|p l IH]; intros s n Hu Hn Hl; cbn [count_each].
  { intros [= _ <-]. split_and!; try done. by intros p ?%elem_of_nil. }
  intros E. apply bind_Ok in E as (k&s1&E1&E). apply bind_Ok in E as (m&s2&E2&E). injection E as _ <-.
  apply NoDup_cons in Hn as [Hpl Hn]. destruct (Hl p ltac:(left)) as [Hp Hd].
  pose proof (grows_plan p s) as G1. rewrite E1 in G1. cbn in G1.
  apply tick_plan_moves in E1; [|done..].
  assert (∀ q, q ∈ st_plans s → q ≠ p → q ∈ st_plans s1) as Hkeep by (intros; by eapply moved_others).
  assert (plan_ids_unique s1) as Hu1 by (by eapply moved_unique).
  destruct (IH s1 m Hu1 Hn) as (Hc&Hu2&G2&Hrest&Hall); [|done|].
  { intros q Hq. destruct (Hl q ltac:(by right)) as [Hq1 Hq2]. split; [|done]. apply Hkeep; [done|]. by intros ->. }
  split_and!; [|done|by etrans| |].
  - pose proof (moved_count p s s1 Hu Hp Hd E1). cbn. lia.
  - intros q Hq Hnl. apply not_elem_of_cons in Hnl as [? ?]. by apply Hrest; [apply Hkeep|].
  - intros x [->|Hx]%elem_of_cons.
    + destruct (moved_row p s s1 Hp E1) as (q&Hq&Hid&Hdq&Hh). exists q. split_and!; [|done|done|by eapply handled_later; [| |exact Hh]].
      apply Hrest; [done|]. intros Hql. destruct (Hl q ltac:(by right)) as [Hqs _]. apply Hpl.
      enough (q = p) as <- by done. by apply (plan_is_only p s q Hu Hp Hqs), bool_decide_eq_true.
    + destruct (Hall x Hx) as (q&Hq&Hid&Hdq&Hh). exists q. split_and!; [done..|].
      eapply handled_later; [by apply grows_ids| |exact Hh]. done.
Qed.

(** Retries and the steps of running batches leave the plans as due as they are. *)
Definition as_due (s s' : store) : Prop :=
  (plan_ids_unique s → plan_ids_unique s') ∧ rowcount due (st_plans s') = rowcount due (st_plans s) ∧
  (∀ q, q ∈ st_plans s' → ∃ p, p ∈ st_plans s ∧ pn_id p = pn_id q ∧ due p = due q) ∧ batch_ids s ⊆ batch_ids s'.
#[export] Instance as_due_preorder : PreOrder as_due.
Proof.
  split; unfold as_due; [intros s; split_and!; eauto|]. intros x y z (U1&C1&P1&B1) (U2&C2&P2&B2). split_and!; [by auto|congruence| |by etrans].
  intros q Hq. destruct (P2 q Hq) as (p&Hp&E1&E2). destruct (P1 p Hp) as (p0&?&?&?). exists p0. split_and!; congruence.
Qed.
Lemma as_due_same f : (∀ s, st_plans (f s) = st_plans s) → (∀ s, batch_ids s ⊆ batch_ids (f s)) → preserves as_due (modify f).
Proof.
  intros Hf Hb. apply preserves_modify. intros s. unfold as_due, plan_ids_unique. rewrite Hf. split_and!; [done..| |apply Hb]. eauto.
Qed.
Lemma batch_ids_update hit f t : (∀ b, bt_id (f b) = bt_id b) → bt_id <$> update_where hit f t = bt_id <$> t.
Proof. intros Hf. apply fmap_update_where. auto. Qed.
Ltac batch_leaf :=
  intros ?; unfold batch_ids; cbn;
  first [reflexivity | by rewrite batch_ids_update | rewrite fmap_app; set_solver].
Lemma as_due_quiet {A} (m : M store A) : quiet m → preserves as_due m.
Proof. intros Hm s. destruct (Hm s) as [Hs _]. unfold as_due, plan_ids_unique, batch_ids. destruct Hs as [-> ->]. split_and!; eauto. Qed.
Lemma rowcount_updated p f t : (∀ x, due (f x) = due x) → rowcount due (update_where p f t) = rowcount due t.
Proof.
  intros Hd. unfold rowcount. induction t as [|x l IH]; [done|]. rewrite update_where_cons, !fetchall_cons.
  destruct (p x); rewrite ?Hd; destruct (due x); cbn [length]; by rewrite IH.
Qed.
Lemma as_due_update p f :
  (∀ x, pn_id (f x) = pn_id x) → (∀ x, due (f x) = due x) →
  preserves as_due (modify (λ s, s <| st_plans ::= update_where p f |>)).
Proof.
  intros Hi Hd. apply preserves_modify. intros s. split.
  - intros Hu. eapply (moved_unique_rows s); [exact Hu|exact Hi|done].
  - split_and!; [exact (rowcount_updated p f (st_plans s) Hd)| |done]. intros q (x&Hx&->)%elem_of_update_where. destruct (_ x); eauto.
Qed.
Lemma as_due_atomic {A} (m : M store A) : preserves as_due m → preserves as_due (atomic m).
Proof. intros Hm s. specialize (Hm s). unfold atomic. destruct (m s) as [[] s']; [done|]. by reflexivity. Qed.
Ltac due_walk :=
  repeat first
    [ progress intros
    | apply as_due_quiet, quiet_prepared | apply as_due_quiet, quiet_draw
    | apply preserves_bind; [apply _|..]
    | apply preserves_ret, _ | apply preserves_raise, _ | apply preserves_gets, _
    | apply preserves_require, _ | apply preserves_when; [apply _|]
    | apply as_due_atomic
    | solve [apply as_due_same; [done|batch_leaf]]
    | by apply as_due_update
    | case_match ].
Lemma tick_followup_due r : preserves as_due (tick_followup fresh_id auth now r).
Proof. unfold tick_followup, finish_followup, insert_event. due_walk. Qed.
Lemma tick_batch_due b : preserves as_due (tick_batch open_template prepare_cluster_plan fresh_id auth now b).
Proof. unfold tick_batch, get_run, advance_batch. cbv zeta. due_walk. Qed.
Lemma count_each_due {A} (l : list A) f : (∀ x, preserves as_due (f x)) → preserves as_due (count_each l f).
Proof.
  intros Hf. induction l as [|x l IH]; simpl; [apply preserves_ret, _|].
  apply preserves_bind; [apply _|apply Hf|intros n]. apply preserves_bind; [apply _|apply IH|intros m; apply preserves_ret, _].
Qed.
End due.

(** [C22] The scheduler keeps up.  A tick that runs to its end takes twenty-five of the due plans, or all
    of them if there are fewer, so that so many fewer are due afterwards.  Each plan it takes is no
    longer due (a plan whose dispatch keeps failing is not tried again at once), and it was
    dispatched, that is, it has a new running batch whose first run is in the store; or its last
    batch is still running and a note says that this occurrence was skipped; or a note says that its
    dispatch failed.  Retries and the batches that are advanced in the same tick change nothing
    about that. *)
Theorem tick_clears_due zone_info read_schedule open_template prepare_cluster_plan fresh_id auth now s counts s' :
  planner_laws read_schedule open_template prepare_cluster_plan → plan_ids_unique s →
  tick zone_info read_schedule open_template prepare_cluster_plan fresh_id auth now s = (Ok counts, s') →
  rowcount (plan_due now) (st_plans s') = (rowcount (plan_due now) (st_plans s) - 25)%nat ∧
  ∃ taken, length taken = (25 `min` rowcount (plan_due now) (st_plans s))%nat ∧ NoDup (pn_id <$> taken) ∧
    ∀ q, q ∈ taken → q ∈ st_plans s' ∧ plan_due now q = false ∧
      (dispatched q s s' ∨ skipped q ∨ put_off q) ∧
      ∃ p, p ∈ st_plans s ∧ pn_id p = pn_id q ∧ plan_due now p = true.
Proof.
  intros laws Hu E. unfold tick in E.
  apply bind_Ok in E as (runs&s0&E0&E). injection E0 as _ <-.
  apply bind_Ok in E as (n&s1&E1&E). apply bind_Ok in E as (batches&s2&E2&E). injection E2 as _ <-.
  apply bind_Ok in E as (m&s3&E3&E). apply bind_Ok in E as (plans&s4&E4&E). injection E4 as Eplans <-.
  apply bind_Ok in E as (k&s5&E5&E). injection E as _ <-.
  pose proof (count_each_due now runs _ (tick_followup_due fresh_id auth now) s) as D1. rewrite E1 in D1.
  pose proof (count_each_due now batches _ (tick_batch_due open_template prepare_cluster_plan fresh_id auth now) s1) as D3. rewrite E3 in D3.
  cbn in D1, D3. assert (as_due now s s3) as (U&C&P&B) by (by etrans). clear D1 D3. rewrite <-C. apply U in Hu.
  assert (NoDup (pn_id <$> st_plans s3)) as Hids by (unfold plan_ids_unique, unique_index in Hu; by rewrite fetchall_all in Hu).
  assert (Hin : ∀ p, p ∈ plans → p ∈ st_plans s3 ∧ plan_due now p = true).
  { intros p Hp. subst plans. apply elem_of_take in Hp as (i&Hi&_). apply list_elem_of_lookup_2 in Hi.
    apply elem_of_order_by, elem_of_fetchall in Hi. naive_solver. }
  assert (Hnd : NoDup plans).
  { subst plans. eapply sublist_NoDup; [|apply sublist_take]. rewrite order_by_perm. apply NoDup_filter. by apply NoDup_fmap_1 in Hids. }
  assert (length plans = (25 `min` rowcount (plan_due now) (st_plans s3))%nat) as Hlen
    by (subst plans; unfold rowcount; by rewrite length_take, order_by_perm).
  apply (plans_dispatched zone_info read_schedule open_template prepare_cluster_plan fresh_id auth now laws) in E5 as (Hc&_&_&_&Hall); [|done..].
  split; [lia|].
  assert (∃ taken, pn_id <$> taken = pn_id <$> plans ∧
    ∀ q, q ∈ taken → q ∈ st_plans s5 ∧ plan_due now q = false ∧ handled q s3 s5) as (taken&Eids&Ht).
  { clear Hlen Hnd Hin Eplans Hc. induction plans as [|p l IH]; [exists []; split; [done|by intros q ?%elem_of_nil]|].
    destruct IH as (taken&Eids&Ht); [intros x Hx; apply Hall; by right|].
    destruct (Hall p ltac:(left)) as (q&?&Eq&?&?). exists (q :: taken). split; [cbn; by rewrite Eq, Eids|].
    intros x [->|Hx]%elem_of_cons; [done|by apply Ht]. }
  exists taken. split_and!.
  - rewrite <-Hlen, <-(length_fmap pn_id taken), Eids. apply length_fmap.
  - rewrite Eids. subst plans. rewrite fmap_take. eapply sublist_NoDup; [|apply sublist_take]. rewrite order_by_perm.
    by apply (unique_index_weaken (plan_due now) (λ _, true)) in Hu.
  - intros q Hq. destruct (Ht q Hq) as (?&?&Hh). split_and!; [done..| |].
    + by eapply (handled_later q s s3 s5 s5).
    + assert (pn_id q ∈ pn_id <$> plans) as (p&Ep&Hp)%list_elem_of_fmap by (rewrite <-Eids; by apply list_elem_of_fmap_2).
      destruct (Hin p Hp) as [Hp3 Hdp]. destruct (P p Hp3) as (p0&?&?&?). exists p0. split_and!; congruence.
Qed.

Lemma sample_laws : planner_laws sample_read sample_open sample_cluster.
Proof. split; [|done..]. intros t sch E. by injection E as <-. Qed.
(** Of the three plans two were due. *)
Lemma tick_clears_due_witness :
  rowcount (plan_due 100) (st_plans planned) = 2%nat ∧ rowcount (plan_due 100) (st_plans ticked.2) = 0%nat.
Proof.
  split; [vm_compute; reflexivity|]. destruct ticked as [[counts|e] s'] eqn:E; [|vm_compute in E; discriminate]. cbn [snd].
  rewrite (proj1 (tick_clears_due _ _ _ _ _ _ _ _ _ _ sample_laws planned_unique E)).
  vm_compute. reflexivity.
Defined.
