(* ===== verification/Access.v ===== *)
(** Who a request speaks for and what it may do: [features/auth/access.py] over the services of
    Sessions, AgentTokens and Authority, and the request checks of
    [features/auth/request_security.py].

    The FastAPI request is its headers and its state; the environment variables are a function.
    [urllib.parse.urlsplit] is a parameter. *)

From stdpp Require Import gmap.
From S2P Require Import Prelude Encodings Authority RateLimit Approvals AgentTokens Sessions.

Open Scope Z_scope.

(** The scheme, host name and port of a URL; [None] where the library raises. *)
Class UrlSyntax := urlsplit : string → option (string * string * option Z).

Inductive auth_method :=
  | BySession | ByAgentToken | ByMachineAuthority | InvalidAgentToken | InvalidCapabilityToken.
#[export] Instance auth_method_eq_dec : EqDecision auth_method.
Proof. solve_decision. Defined.

(** A request: absent headers and cookies are empty. *)
Record request := Request {
  rq_method : string;
  rq_scheme : string;
  rq_host : string;
  rq_authorization : string;
  rq_cookie : string;
  rq_origin : string;
  rq_referer : string;
  rq_sec_fetch_site : string;
  rq_bootstrap_token : string;
}.
(** [request.state]. *)
Record request_state := RequestState {
  st_current_user : option current_user;
  st_auth_method : option auth_method;
  st_credentials_rejected : bool;
  st_agent_token_record : option agent_token;
  st_is_elevated : option bool;
}.
#[export] Instance request_state_eta : Eta request_state := λ s,
  RequestState (st_current_user s) (st_auth_method s) (st_credentials_rejected s)
    (st_agent_token_record s) (st_is_elevated s).
Definition fresh_state : request_state := RequestState None None false None None.

(** The accounts the agent tables refer to are those of [platform_users]. *)
Record site := Site { si_auth : auth_db; si_agents : agent_db; si_state : request_state }.
#[export] Instance site_eta : Eta site := λ s, Site (si_auth s) (si_agents s) (si_state s).
Definition accounts (d : auth_db) : list account := (λ u, Account (us_id u) (us_disabled u)) <$> au_users d.
Definition sessions_op {A} (m : M auth_db A) : M site A := λ s,
  let (a, d) := m (si_auth s) in (a, s <| si_auth := d |>).
Definition agents_op {A} (m : M agent_db A) : M site A := λ s,
  let (a, d) := m (si_agents s <| ad_users := accounts (si_auth s) |>) in (a, s <| si_agents := d |>).
Definition set_state (f : request_state → request_state) : M site unit := modify (λ s, s <| si_state ::= f |>).

Definition of_result {W A} (r : result A) : M W A := match r with Ok a => mret a | Err e => raise e end.

Section access.
Context `{Digest} `{CaseMaps} `{Pbkdf2} `{IpSyntax} `{UrlSyntax} (L : lifetimes).
Context (hmac_sha256 : string → string → string) (signing_key : string).
Context (environ : string → option string) (now : Z).

(** ** Settings *)

Definition TRUE_WORDS : list string := ["1"; "true"; "yes"; "on"].
(* src/foundation/runtime_settings.py:21-30 runtime_environment *)
Definition runtime_environment : string := lower (strip (default "development" (environ "GMS_ENV"))).
(* src/features/auth/request_security.py:17-21 env_flag *)
Definition env_flag (name : string) (default_ : bool) : bool :=
  match environ name with None => default_ | Some raw => mem (lower (strip raw)) TRUE_WORDS end.
(* src/features/auth/request_security.py:24-27 authentication_required *)
Definition authentication_required : bool :=
  env_flag "GMS_AUTH_REQUIRED" (streqb runtime_environment "production").
(* src/features/auth/request_security.py:30-31 secure_cookies_enabled *)
Definition secure_cookies_enabled : bool :=
  env_flag "GMS_SECURE_COOKIES" (streqb runtime_environment "production").
(* src/foundation/runtime_settings.py:37-49 allowed_origins *)
Definition configured_origins : list string :=
  filter (λ item, nonempty item = true)
    (strip <$> split_on "," (default "" (environ "GMS_ALLOWED_ORIGINS"))).
(* src/features/auth/request_security.py:34-41 bootstrap_token *)
Definition bootstrap_token : string := strip (default "" (environ "GMS_BOOTSTRAP_TOKEN")).
(** [hmac.compare_digest] raises on text that is not ASCII. *)
(* src/features/auth/request_security.py:44-50 bootstrap_token_matches *)
Definition bootstrap_token_matches (rq : request) : result bool :=
  if negb (nonempty bootstrap_token) then Ok true else compare_digest bootstrap_token (rq_bootstrap_token rq).

(** ** Origins *)

(* src/features/auth/request_security.py:53-65 _normalized_origin *)
Definition normalized_origin (value : string) : string :=
  match urlsplit (strip value) with
  | None => ""
  | Some (scheme, hostname, port) =>
      if negb (mem scheme ["http"; "https"]) || negb (nonempty hostname) then ""
      else
        let default_port := if streqb scheme "https" then 443 else 80 in
        let port := match port with Some p => if Z.eqb p 0 then default_port else p | None => default_port end in
        scheme +:+ "://" +:+ lower hostname +:+ (if Z.eqb port default_port then "" else ":" +:+ pretty port)
  end.
(* src/features/auth/request_security.py:68-83 _allowed_origins *)
Definition allowed_origins (rq : request) : list string :=
  let scheme := lower (str_or (rq_scheme rq) "http") in
  let scheme := if streqb scheme "ws" then "http" else if streqb scheme "wss" then "https" else scheme in
  let expected := normalized_origin (scheme +:+ "://" +:+ strip (rq_host rq)) in
  filter (λ o, nonempty o = true) (normalized_origin <$> configured_origins)
  ++ (if nonempty expected then [expected] else []).
(* src/features/auth/request_security.py:86-88 same_origin *)
Definition same_origin (rq : request) (candidate : string) : bool :=
  let normalized := normalized_origin candidate in
  nonempty normalized && mem normalized (allowed_origins rq).
Definition SAFE_METHODS : list string := ["GET"; "HEAD"; "OPTIONS"; "TRACE"].
(* src/features/auth/request_security.py:91-117 csrf_rejection_reason *)
Definition csrf_rejection_reason (rq : request) : string :=
  if mem (upper (rq_method rq)) SAFE_METHODS then ""
  else
    let fetch_site := lower (rq_sec_fetch_site rq) in
    if streqb fetch_site "cross-site" then "Cross-site request blocked"
    else
      let origin := strip (rq_origin rq) in
      if nonempty origin then if same_origin rq origin then "" else "Request origin is not allowed"
      else
        let referer := strip (rq_referer rq) in
        if nonempty referer then if same_origin rq referer then "" else "Request referer is not allowed"
        else if nonempty fetch_site then "Browser request is missing Origin and Referer" else "".
(* src/features/auth/request_security.py:120-126 websocket_origin_allowed *)
Definition websocket_origin_allowed (rq : request) : bool :=
  let origin := strip (rq_origin rq) in
  if nonempty origin then same_origin rq origin else negb (nonempty (strip (rq_sec_fetch_site rq))).
(* src/features/auth/request_security.py:129-141 validate_websocket_request *)
Definition validate_websocket_request (rq : request) : M site (option current_user * option Z) :=
  if negb (websocket_origin_allowed rq) then mret (None, Some 4403)
  else
    user ← sessions_op (get_user_for_token L now (rq_cookie rq) true);
    match user with
    | None => if authentication_required then mret (None, Some 4401) else mret (None, None)
    | Some u => mret (Some u, None)
    end.

(** ** The principal *)

(* src/features/auth/access.py:11-49 get_authenticated_user *)
Definition get_authenticated_user (rq : request) : M site (option current_user) :=
  st ← gets si_state;
  match st_current_user st with
  | Some user => mret (Some user)
  | None =>
      if startswith "Bearer " (rq_authorization rq) then
        let credential := strip (removeprefix "Bearer " (rq_authorization rq)) in
        if startswith CAPABILITY_TOKEN_PREFIX credential then
          principal ← of_result (verify_capability_token hmac_sha256 signing_key (now / SECOND) credential);
          match principal with
          | None =>
              _ ← set_state (λ s, s <| st_auth_method := Some InvalidCapabilityToken |> <| st_credentials_rejected := true |>);
              mret None
          | Some p =>
              _ ← set_state (λ s, s <| st_current_user := Some p |> <| st_auth_method := Some ByMachineAuthority |>);
              mret (Some p)
          end
        else
          found ← agents_op (get_agent_token_principal now credential);
          match found with
          | None =>
              _ ← set_state (λ s, s <| st_agent_token_record := None |> <| st_auth_method := Some InvalidAgentToken |>
                                    <| st_credentials_rejected := true |>);
              mret None
          | Some (p, t) =>
              _ ← set_state (λ s, s <| st_agent_token_record := Some t |> <| st_current_user := Some p |>
                                    <| st_auth_method := Some ByAgentToken |>);
              mret (Some p)
          end
      else
        _ ← set_state (λ s, s <| st_auth_method := Some BySession |>);
        user ← sessions_op (get_user_for_token L now (rq_cookie rq) true);
        match user with
        | Some u => _ ← set_state (λ s, s <| st_current_user := Some u |>); mret (Some u)
        | None => mret None
        end
  end.

(** ** Dependencies of the endpoints *)

Definition by_machine (m : option auth_method) : bool :=
  bool_decide (m = Some ByAgentToken) || bool_decide (m = Some ByMachineAuthority).
Definition unauthenticated {A} : M site A := raise (HTTPException 401 "Authentication required").

(* src/features/auth/access.py:52-62 require_authenticated_user *)
Definition require_authenticated_user (rq : request) : M site current_user :=
  user ← get_authenticated_user rq;
  match user with
  | Some u => mret u
  | None =>
      rejected ← gets (λ s, st_credentials_rejected (si_state s));
      if rejected : bool then raise (HTTPException 401 "Invalid agent credentials") else unauthenticated
  end.
(* src/features/auth/access.py:65-75 require_authenticated_user_when_auth_required *)
Definition require_authenticated_user_when_auth_required (rq : request) : M site (option current_user) :=
  user ← get_authenticated_user rq;
  match user with
  | Some u => mret (Some u)
  | None => if authentication_required then unauthenticated else mret None
  end.
Definition agent_forbidden {A} : M site A := raise (HTTPException 403 "Agent tokens cannot call this endpoint").
(* src/features/auth/access.py:78-97 require_human_principal *)
Definition require_human_principal (rq : request) : M site current_user :=
  user ← require_authenticated_user rq;
  st ← gets si_state;
  if by_machine (st_auth_method st) then agent_forbidden else mret user.
(* src/features/auth/access.py:100-125 require_human_principal_when_auth_required *)
Definition require_human_principal_when_auth_required (rq : request) : M site (option current_user) :=
  user ← require_authenticated_user_when_auth_required rq;
  st ← gets si_state;
  if bool_decide (is_Some user) && by_machine (st_auth_method st) then agent_forbidden else mret user.

(* src/features/auth/access.py:128-139 principal_owner_id *)
Definition principal_owner_id (rq : request) : M site string :=
  user ← require_authenticated_user rq; mret (cu_resource_owner_id user).
(* src/features/auth/access.py:142-156 principal_owner_id_when_auth_required *)
Definition principal_owner_id_when_auth_required (rq : request) : M site (option string) :=
  user ← get_authenticated_user rq;
  match user with
  | Some u => mret (Some (cu_resource_owner_id u))
  | None => if authentication_required then unauthenticated else mret None
  end.
(* src/features/auth/access.py:159-162 principal_actor_id *)
Definition principal_actor_id (rq : request) : M site string :=
  user ← require_authenticated_user rq; mret (cu_id user).
(* src/features/auth/access.py:165-168 principal_display_name *)
Definition principal_display_name (rq : request) : M site string :=
  user ← require_authenticated_user rq; mret (cu_username user).

Definition owns (user : current_user) (owner_id : string) : bool :=
  streqb (cu_role user) "admin" || streqb owner_id (cu_resource_owner_id user).
(* src/features/auth/access.py:171-186 require_resource_owner *)
Definition require_resource_owner (rq : request) (owner_id not_found_detail : string) : M site current_user :=
  user ← require_authenticated_user rq;
  if negb (owns user owner_id) then raise (HTTPException 404 not_found_detail) else mret user.
(* src/features/auth/access.py:189-209 require_resource_owner_when_auth_required *)
Definition require_resource_owner_when_auth_required (rq : request) (owner_id not_found_detail : string) :
    M site (option current_user) :=
  user ← get_authenticated_user rq;
  match user with
  | Some u => if negb (owns u owner_id) then raise (HTTPException 404 not_found_detail) else mret (Some u)
  | None => if authentication_required then unauthenticated else mret None
  end.

(* src/features/auth/access.py:278-299 is_elevated *)
Definition is_elevated (rq : request) : M site bool :=
  st ← gets si_state;
  match st_auth_method st with
  | Some (ByAgentToken | ByMachineAuthority | InvalidAgentToken | InvalidCapabilityToken) => mret false
  | _ =>
      match st_is_elevated st with
      | Some b => mret b
      | None =>
          elevated_until ← sessions_op (get_elevated_until now (rq_cookie rq));
          let b := bool_decide (is_Some elevated_until) in
          _ ← set_state (λ s, s <| st_is_elevated := Some b |>);
          mret b
      end
  end.
Definition elevation_required {A} : M site A := raise (HTTPException 403 "Elevation required").
Definition permission_denied {A} : M site A := raise (HTTPException 403 "Permission denied").

(* src/features/auth/access.py:212-235 require_role *)
Definition require_role (roles : list string) (rq : request) : M site current_user :=
  user ← require_authenticated_user rq;
  if mem (cu_role user) roles then mret user
  else if mem "admin" roles then
    elevated ← is_elevated rq;
    if elevated : bool then mret user else elevation_required
  else permission_denied.
(* src/features/auth/access.py:238-248 require_role_when_auth_required *)
Definition require_role_when_auth_required (roles : list string) (rq : request) : M site (option current_user) :=
  if negb authentication_required then mret None else user ← require_role roles rq; mret (Some user).
(* src/features/auth/access.py:251-262 require_permission *)
Definition require_permission (permission : string) (rq : request) : M site current_user :=
  user ← require_authenticated_user rq;
  if has_permission user permission then mret user
  else
    elevated ← is_elevated rq;
    if elevated : bool then mret user else permission_denied.
(* src/features/auth/access.py:265-275 require_permission_when_auth_required *)
Definition require_permission_when_auth_required (permission : string) (rq : request) : M site (option current_user) :=
  if negb authentication_required then mret None else user ← require_permission permission rq; mret (Some user).
(* src/features/auth/access.py:302-318 require_elevated_admin *)
Definition require_elevated_admin (rq : request) : M site current_user :=
  user ← require_authenticated_user rq;
  elevated ← is_elevated rq;
  if elevated : bool then mret user else elevation_required.
(* src/features/auth/access.py:321-326 require_elevated_admin_when_auth_required *)
Definition require_elevated_admin_when_auth_required (rq : request) : M site (option current_user) :=
  if negb authentication_required then mret None else user ← require_elevated_admin rq; mret (Some user).
(* src/features/auth/access.py:329-344 require_agent_scope *)
Definition require_agent_scope (scope : string) (rq : request) : M site current_user :=
  user ← require_authenticated_user rq;
  if has_permission user scope then mret user
  else raise (HTTPException 403 ("Agent token scope '" +:+ scope +:+ "' required")).

Definition ensure_agent_allowed (column : agent_token → string) (value message : string) : M site unit :=
  st ← gets si_state;
  if negb (bool_decide (st_auth_method st = Some ByAgentToken)) then mret tt
  else if negb (agent_acl_allows (st_agent_token_record st) column value)
  then raise (HTTPException 403 message) else mret tt.
(* src/features/auth/access.py:347-357 ensure_agent_worker_allowed *)
Definition ensure_agent_worker_allowed (worker_id : string) : M site unit :=
  ensure_agent_allowed tk_allowed_workers worker_id
    ("Agent token is not allowed to target worker '" +:+ worker_id +:+ "'").
(* src/features/auth/access.py:360-370 ensure_agent_device_allowed *)
Definition ensure_agent_device_allowed (serial : string) : M site unit :=
  ensure_agent_allowed tk_allowed_devices serial
    ("Agent token is not allowed to target device '" +:+ serial +:+ "'").
End access.
