(* ===== verification/AccessProperties.v ===== *)
(** What a request can reach: a bearer credential reaches what it was given and nothing a
    human verified in the same browser; human endpoints are reached by sessions only; requests
    from other sites change nothing. *)

From stdpp Require Import gmap.
From S2P Require Import Prelude Encodings Authority RateLimit Approvals AgentTokens AgentProperties Sessions SessionProperties Access.

Open Scope Z_scope.

Section properties.
Context `{Digest} `{CaseMaps} `{Pbkdf2} `{IpSyntax} `{UrlSyntax} (L : lifetimes).
Context (hmac_sha256 : string → string → string) (signing_key : string).
Context (environ : string → option string) (now : Z).
Implicit Types (rq : request) (s : site).

Abbreviation get_user := (get_authenticated_user L hmac_sha256 signing_key now).
Abbreviation require_user := (require_authenticated_user L hmac_sha256 signing_key now).
Definition bearer rq : bool := startswith "Bearer " (rq_authorization rq).
Definition credential rq : string := strip (removeprefix "Bearer " (rq_authorization rq)).

(** Where the principal of a request without one comes from, and what the request knows then. *)
Inductive authenticated rq s : current_user → site → Prop :=
  | FromSession u d :
      bearer rq = false → get_user_for_token L now (rq_cookie rq) true (si_auth s) = (Ok (Some u), d) →
      authenticated rq s u (Site d (si_agents s) (RequestState (Some u) (Some BySession) false None None))
  | FromAgentToken u t d :
      bearer rq = true →
      get_agent_token_principal now (credential rq) (si_agents s <| ad_users := accounts (si_auth s) |>) =
        (Ok (Some (u, t)), d) →
      authenticated rq s u (Site (si_auth s) d (RequestState (Some u) (Some ByAgentToken) false (Some t) None))
  | FromCapability u :
      bearer rq = true →
      verify_capability_token hmac_sha256 signing_key (now / SECOND) (credential rq) = Ok (Some u) →
      authenticated rq s u
        (Site (si_auth s) (si_agents s) (RequestState (Some u) (Some ByMachineAuthority) false None None)).

Lemma bind_set_state {A} f (k : unit → M site A) s : (set_state f ≫= k) s = k tt (s <| si_state ::= f |>).
Proof. done. Qed.
Lemma get_user_authenticated rq s u s' :
  si_state s = fresh_state → get_user rq s = (Ok (Some u), s') → authenticated rq s u s'.
Proof.
  intros Hs. unfold get_authenticated_user. rewrite bind_gets, Hs. cbn [st_current_user fresh_state].
  fold (credential rq). fold (bearer rq). destruct (bearer rq) eqn:Eb.
  - destruct (startswith CAPABILITY_TOKEN_PREFIX (credential rq)).
    + unfold of_result. destruct (verify_capability_token _ _ _ _) as [[p|]|] eqn:Ev; [|done..].
      rewrite bind_ret, bind_set_state. intros [= <- <-]. pose proof (FromCapability rq s p Eb Ev) as Ha.
      destruct s. simpl in *. by subst.
    + unfold agents_op. intros E. apply bind_Ok in E as (found&s1&E1&E).
      destruct (get_agent_token_principal _ _ _) as [a d] eqn:Eg. injection E1 as -> <-.
      destruct found as [[p t]|]; rewrite bind_set_state in E; [|done]. injection E as <- <-.
      pose proof (FromAgentToken rq s p t d Eb Eg) as Ha. destruct s. simpl in *. by subst.
  - rewrite bind_set_state. unfold sessions_op. intros E.
    apply bind_Ok in E as (user&s2&E1&E). simpl in E1.
    destruct (get_user_for_token _ _ _ _ _) as [a d] eqn:Eg. injection E1 as -> <-.
    destruct user as [u'|]; [|done]. rewrite bind_set_state in E. injection E as <- <-.
    pose proof (FromSession rq s u' d Eb Eg) as Ha. destruct s. simpl in *. by subst.
Qed.
Lemma require_user_authenticated rq s u s' :
  si_state s = fresh_state → require_user rq s = (Ok u, s') → authenticated rq s u s'.
Proof.
  intros Hs E. unfold require_authenticated_user in E. apply bind_Ok in E as ([u'|]&s1&E1&E).
  - injection E as <- <-. by apply get_user_authenticated.
  - rewrite bind_gets in E. by case_match.
Qed.

(** A bearer credential is never elevated. *)
Lemma bearer_not_elevated rq s u s' :
  authenticated rq s u s' → bearer rq = true → is_elevated now rq s' = (Ok false, s').
Proof. intros [] Hb; [congruence|done..]. Qed.
Lemma session_elevated rq s u s' :
  authenticated rq s u s' → bearer rq = false →
  is_elevated now rq s' = (e ← sessions_op (get_elevated_until now (rq_cookie rq));
    _ ← set_state (λ x, x <| st_is_elevated := Some (bool_decide (is_Some e)) |>);
    mret (bool_decide (is_Some e))) s'.
Proof. intros [] Hb; [done|congruence..]. Qed.
Lemma human_by_session rq s u s' :
  authenticated rq s u s' → by_machine (st_auth_method (si_state s')) = false → bearer rq = false.
Proof. by intros []. Qed.

(** A dependency that needs a principal passes only with one. *)
Lemma after_user {B} rq s (k : current_user → M site B) b :
  si_state s = fresh_state → ((require_user rq ≫= k) s).1 = Ok b →
  ∃ u s1, authenticated rq s u s1 ∧ (k u s1).1 = Ok b.
Proof.
  intros Hs E. destruct (require_user rq s) as [[u|e] s1] eqn:E1.
  - rewrite (bind_run _ _ _ _ _ E1) in E. exists u, s1. split; [by apply require_user_authenticated|done].
  - by rewrite (bind_Err _ _ _ _ _ E1) in E.
Qed.
Lemma after_user_when rq s (k : option current_user → M site (option current_user)) u :
  si_state s = fresh_state →
  ((require_authenticated_user_when_auth_required L hmac_sha256 signing_key environ now rq ≫= k) s).1 = Ok (Some u) →
  (∃ x s1, authenticated rq s x s1 ∧ (k (Some x) s1).1 = Ok (Some u)) ∨ ∃ s1, (k None s1).1 = Ok (Some u).
Proof.
  intros Hs. unfold require_authenticated_user_when_auth_required, mbind at 1, M_bind at 1.
  unfold mbind at 1, M_bind at 1. destruct (get_user rq s) as [[[x|]|e] s1] eqn:E1.
  - intros E. left. exists x, s1. split; [by apply get_user_authenticated|done].
  - destruct (authentication_required environ); [done|]. intros E. right. by exists s1.
  - done.
Qed.

(** Sessions stay what they are when a token is used. *)
Lemma use_sessions `{!CollisionFree} history d token refresh :
  sessions_ok L history d →
  sessions_ok L (history ++ [(now, AuUse token refresh)]) (get_user_for_token L now token refresh d).2.
Proof.
  intros Hd. pose proof (auth_do_sessions L (history ++ [(now, AuUse token refresh)]) now (AuUse token refresh)) as Hk.
  assert ((get_user_for_token L now token refresh d).2 = (auth_do L now (AuUse token refresh) d).2) as ->.
  { unfold auth_do, mbind, M_bind, mret, M_ret. by destruct (get_user_for_token L now token refresh d) as [[]]. }
  apply Hk; [apply elem_of_app; right; left|]. intros s Hs. by apply session_ok_later, Hd.
Qed.
End properties.

(** [C36] A bearer credential gets what it was given.  A request that carries one, whatever cookie
    rides along, never passes as a human, never counts as verified by an administrator, and
    passes a role or permission check only by the role or permissions of the principal it acts as. *)
Theorem bearer_gets_its_own `{Digest} `{CaseMaps} `{Pbkdf2} `{IpSyntax} `{UrlSyntax} (L : lifetimes)
    hmac_sha256 signing_key environ now rq s :
  bearer rq = true → si_state s = fresh_state →
  (∀ u, (require_human_principal L hmac_sha256 signing_key now rq s).1 ≠ Ok u) ∧
  (∀ u, (require_human_principal_when_auth_required L hmac_sha256 signing_key environ now rq s).1 ≠ Ok (Some u)) ∧
  (∀ u, (require_elevated_admin L hmac_sha256 signing_key now rq s).1 ≠ Ok u) ∧
  (∀ roles u, (require_role L hmac_sha256 signing_key now roles rq s).1 = Ok u → cu_role u ∈ roles) ∧
  (∀ permission u, (require_permission L hmac_sha256 signing_key now permission rq s).1 = Ok u →
     has_permission u permission = true).
Proof.
  intros Hb Hs. split_and!.
  - intros u (x&s1&Ha&E)%after_user; [|done]. rewrite bind_gets in E.
    destruct (by_machine _) eqn:Em; [done|]. apply human_by_session in Ha; congruence.
  - intros u [(x&s1&Ha&E)|[s1 E]]%after_user_when; [| |done]; rewrite bind_gets in E; [|done].
    destruct (by_machine _) eqn:Em; [done|]. apply human_by_session in Ha; congruence.
  - intros u (x&s1&Ha&E)%after_user; [|done]. by rewrite (bind_run _ _ _ _ _ (bearer_not_elevated _ _ _ _ _ _ _ _ Ha Hb)) in E.
  - intros roles u (x&s1&Ha&E)%after_user; [|done]. destruct (mem (cu_role x) roles) eqn:Er.
    + injection E as <-. by apply bool_decide_eq_true in Er.
    + destruct (mem "admin" roles); [|done].
      by rewrite (bind_run _ _ _ _ _ (bearer_not_elevated _ _ _ _ _ _ _ _ Ha Hb)) in E.
  - intros permission u (x&s1&Ha&E)%after_user; [|done]. destruct (has_permission x permission) eqn:Er.
    + by injection E as <-.
    + by rewrite (bind_run _ _ _ _ _ (bearer_not_elevated _ _ _ _ _ _ _ _ Ha Hb)) in E.
Qed.

(** Human endpoints are reached by sessions.  When a request without a principal passes an
    endpoint that is closed to machines, or one that needs an administrator's verification,
    after any history of the accounts, it carries no bearer credential and its cookie is a
    session that was opened, less than the absolute lifetime ago, for the account it then
    speaks for, which is enabled; and in the second case an administrator verified this
    session for a time that is not over. *)
Theorem human_access `{CollisionFree} `{CaseMaps} `{Pbkdf2} `{IpSyntax} `{UrlSyntax} (L : lifetimes)
    hmac_sha256 signing_key now rq s users history :
  si_state s = fresh_state → si_auth s = auth_run L (AuthDb users []) history →
  let opened u := bearer rq = false ∧ ∃ t0 row, (t0, AuSession (rq_cookie rq) (us_id row)) ∈ history ∧
    now < t0 + lt_absolute L ∧ row ∈ au_users (si_auth s) ∧ us_disabled row = false ∧ u = row_to_user row in
  (∀ u, (require_human_principal L hmac_sha256 signing_key now rq s).1 = Ok u → opened u) ∧
  (∀ u, (require_elevated_admin L hmac_sha256 signing_key now rq s).1 = Ok u → opened u ∧
     ∃ t0 admin minutes, (t0, AuElevate (rq_cookie rq) admin minutes) ∈ history ∧ cu_role admin = "admin" ∧
       now < t0 + Z.max 1 (if Z.eqb minutes 0 then lt_elevation_minutes L else minutes) * MINUTE).
Proof.
  intros Hs Hd opened. pose proof (sessions_history L users history) as Hall. rewrite <-Hd in Hall.
  assert (∀ u s1, authenticated L hmac_sha256 signing_key now rq s u s1 → bearer rq = false → opened u) as Hopen.
  { intros u s1 [u' d' Hb E|u' t d' Hb|u' Hb] Hb'; [|congruence..]. split; [done|].
    apply (session_principal L history _ now (rq_cookie rq) u' true Hall). by rewrite E. }
  split.
  - intros u (x&s1&Ha&E)%after_user; [|done]. rewrite bind_gets in E.
    destruct (by_machine _) eqn:Em; [done|]. injection E as <-. by eapply Hopen, human_by_session.
  - intros u (x&s1&Ha&E)%after_user; [|done]. destruct (bearer rq) eqn:Hb.
    { by rewrite (bind_run _ _ _ _ _ (bearer_not_elevated _ _ _ _ _ _ _ _ Ha Hb)) in E. }
    pose proof (Hopen _ _ Ha eq_refl) as Ho. unfold mbind at 1, M_bind at 1 in E.
    rewrite (session_elevated _ _ _ _ _ _ _ _ Ha Hb) in E.
    destruct Ha as [u' d' _ Eu|? ? ? ?|? ?]; [|congruence..].
    pose proof (use_sessions L now history (si_auth s) (rq_cookie rq) true Hall) as Huse. rewrite Eu in Huse.
    unfold mbind, M_bind, sessions_op in E. simpl in E.
    destruct (get_elevated_until now (rq_cookie rq) d') as [[[e|]|]] eqn:Ee; [|done..]. injection E as <-.
    split; [exact Ho|].
    destruct (session_elevation L _ d' now (rq_cookie rq) e Huse) as (Hlt&t0&admin&minutes&Hin&Ha&Hle); [by rewrite Ee|].
    exists t0, admin, minutes. split_and!; [|done|lia].
    apply elem_of_app in Hin as [Hin|Hin%list_elem_of_singleton]; [done|discriminate].
Qed.

(** Other sites cannot write.  When a request that may change something is let through, it
    either says nothing about where it comes from, as only clients that are not browsers do, or
    its Origin, or in its absence its Referer, has the normal form of the host the request was
    sent to or of a configured origin. *)
Theorem cross_site_refused `{Digest} `{CaseMaps} `{UrlSyntax} environ rq :
  csrf_rejection_reason environ rq = "" → upper (rq_method rq) ∉ SAFE_METHODS →
  lower (rq_sec_fetch_site rq) ≠ "cross-site" ∧
  ((strip (rq_origin rq) = "" ∧ strip (rq_referer rq) = "" ∧ lower (rq_sec_fetch_site rq) = "") ∨
   let claimed := str_or (strip (rq_origin rq)) (strip (rq_referer rq)) in
   normalized_origin claimed ≠ "" ∧ normalized_origin claimed ∈ allowed_origins environ rq).
Proof.
  unfold csrf_rejection_reason. intros E Hm. unfold mem, streqb, nonempty, same_origin, str_or in *.
  rewrite bool_decide_eq_false_2 in E by done. case_bool_decide as Hx; [done|]. split; [done|].
  unfold nonempty, mem in *.
  destruct (decide (strip (rq_origin rq) = "")) as [Ho|Ho].
  - rewrite bool_decide_eq_false_2 in E by tauto. destruct (decide (strip (rq_referer rq) = "")) as [Hr|Hr].
    + rewrite bool_decide_eq_false_2 in E by tauto. left. split_and!; [done..|].
      case_bool_decide as Hf; [done|]. destruct (decide (lower (rq_sec_fetch_site rq) = "")); tauto.
    + rewrite bool_decide_eq_true_2 in E by done. right. case_match eqn:Eo; [|done]. bool_props. by split.
  - rewrite bool_decide_eq_true_2 in E by done. right. case_match eqn:Eo; [|done]. bool_props. by split.
Qed.

(** ** Bob's verified browser, and an agent that borrows it *)

#[export] Instance https_only : UrlSyntax := λ s,
  if startswith "https://" s then Some ("https", removeprefix "https://" s, None) else None.
Definition agents_of_ann : agent_db :=
  (agent_run [(0, AgAccounts [Account "ann" false]);
     (1, AgEnroll "AB12" "builder" ann (TlText "build.read, jobs.read") TlNone TlNone (PyInt 30) PyNone);
     (2, AgRedeem "secret-1" "agt_1" "AB12")]).1.
Definition sample_site : site := Site platform agents_of_ann fresh_state.
Definition from_browser : request := Request "POST" "https" "gms" "" "cookie-b" "https://gms" "" "same-origin" "".
Definition from_agent : request := Request "POST" "https" "gms" "Bearer secret-1" "cookie-b" "" "" "" "".
Definition from_nobody : request := Request "GET" "https" "gms" "Bearer wrong" "" "" "" "" "".
Definition no_environ : string → option string := λ _, None.

Lemma bearer_gets_its_own_witness :
  (∃ u, (require_elevated_admin default_lifetimes length_digest "k" 5 from_browser sample_site).1 = Ok u) ∧
  (∃ u, (require_permission default_lifetimes length_digest "k" 5 "build.read" from_agent sample_site).1 = Ok u) ∧
  (∀ u, (require_elevated_admin default_lifetimes length_digest "k" 5 from_agent sample_site).1 ≠ Ok u).
Proof.
  split; [eexists; vm_compute; reflexivity|]. split; [eexists; vm_compute; reflexivity|].
  apply (bearer_gets_its_own default_lifetimes length_digest "k" no_environ 5 from_agent sample_site); reflexivity.
Defined.
Lemma human_access_witness :
  ∃ t0 admin minutes, (t0, AuElevate "cookie-b" admin minutes) ∈ platform_history ∧ cu_role admin = "admin".
Proof.
  pose proof (human_access default_lifetimes length_digest "k" 5 from_browser sample_site [] platform_history
    eq_refl eq_refl) as [_ He].
  destruct (require_elevated_admin default_lifetimes length_digest "k" 5 from_browser sample_site).1 as [u|e] eqn:E.
  - destruct (He u eq_refl) as (_&t0&admin&minutes&Hin&Ha&_). by exists t0, admin, minutes.
  - vm_compute in E. discriminate.
Defined.
Lemma cross_site_refused_witness :
  normalized_origin "https://gms" ∈ allowed_origins no_environ from_browser ∧
  csrf_rejection_reason no_environ (Request "POST" "https" "gms" "" "cookie-b" "https://evil" "" "" "") ≠ "".
Proof.
  split; [|vm_compute; discriminate].
  destruct (cross_site_refused no_environ from_browser) as [_ [(Ho&_)|[_ Hin]]];
    [reflexivity|vm_compute; set_solver|vm_compute in Ho; discriminate|exact Hin].
Defined.
(** Where authentication is not required, a rejected bearer credential is an anonymous caller. *)
Lemma rejected_bearer_anonymous :
  (require_authenticated_user_when_auth_required default_lifetimes length_digest "k" no_environ 5
     from_nobody sample_site).1 = Ok None.
Proof. vm_compute. reflexivity. Qed.
