(* ===== verification/Submission.v ===== *)
(** The submission of a test, [POST /api/cluster/jobs] of [features/cluster/jobs_api.py], end to end:
    who asks ([Access]), what may be asked ([ExecutionSpec]), where it runs ([Placement]), the job and
    its leases ([Jobs]), its start command ([Commands]) and the replay of a submission
    ([JobRequests]).

    Parameters: the fingerprint of a request, the JSON text a canonical request is stored as, the
    display identifier of a client without an account, and the files of the controller's host.  The
    display fields of the answer are left out. *)

From Stdlib Require Import QArith.
From S2P Require Import Prelude Encodings DeviceClaims JobStateMachine ClusterState Admission ClusterClaims Jobs Commands Inventory JobRequests Placement ExecutionSpec Authority AgentTokens Approvals RateLimit Sessions Access.

Open Scope Z_scope.

(* src/features/cluster/models.py:135-151 ClusterJobCreate *)
Record job_request_body := JobRequestBody {
  jc_worker_id : string;
  jc_suite_key : string;
  jc_suite_path : string;
  jc_devices : list string;
  jc_argv : list string;
  jc_env : list (string * string);
  jc_source_type : string;
  jc_priority : Z;
  jc_device_count : Z;
  jc_execution_spec : option execution_spec;
}.
#[export] Instance job_request_body_eta : Eta job_request_body := λ b,
  JobRequestBody (jc_worker_id b) (jc_suite_key b) (jc_suite_path b) (jc_devices b) (jc_argv b) (jc_env b)
    (jc_source_type b) (jc_priority b) (jc_device_count b) (jc_execution_spec b).
Definition conflict {A} (m : string) : M world A := raise (ApiError "STATE_CONFLICT" m).
Definition http {W A} (status : Z) (m : string) : M W A := raise (HTTPException status m).

Section submission.
Context `{Uuid}.
Context (min_disk_free_gb min_memory_available_gb : Q) (claim_ttl offline_seconds : Z) (local_worker_id : string).
Context (cluster_enabled remote_dispatch_enabled : bool).
Context (path_exists : string → bool) (write_spec : execution_spec → string).
Context (fingerprint : job_request_body → string).

(** [wa], [da]: the access lists of the caller's token, for workers and devices. *)
Implicit Types (wa da : string → result unit).

(* src/features/cluster/api.py:309-319 _require_cluster_enabled *)
Definition require_cluster_enabled (remote : bool) : M world unit :=
  if negb remote then mret tt
  else if negb cluster_enabled then http 409 "cluster mode is disabled"
  else if negb remote_dispatch_enabled then http 409 "remote dispatch is disabled" else mret tt.
(** The request with a worker and its devices. *)
(* src/features/cluster/jobs_api.py:169-201 _resolve_job_placement *)
Definition resolve_job_placement (now : Z) (b : job_request_body) : M world job_request_body :=
  let spec_path := match jc_execution_spec b with Some s => sp_suite_path s | None => "" end in
  let requested_path := str_or spec_path (jc_suite_path b) in
  _ ← (if bool_decide (is_Some (jc_execution_spec b)) && nonempty (jc_suite_path b)
          && negb (streqb (jc_suite_path b) requested_path)
       then conflict "execution_spec suite_path does not match the job suite_path" else mret tt);
  let requested_devices := if bool_decide (jc_devices b = [])
    then match jc_execution_spec b with Some s => sp_devices s | None => [] end else jc_devices b in
  planned_argv ← lift (match jc_execution_spec b with
                       | Some s => build_argv_from_spec (s <| sp_devices := ["selected-device"] |>)
                       | None => Ok []
                       end);
  placed ← try (select_worker min_disk_free_gb min_memory_available_gb offline_seconds local_worker_id now
                  (Demand (jc_suite_key b) (jc_device_count b) true true [] requested_devices
                     (if streqb (jc_worker_id b) "auto" then None else Some (jc_worker_id b)) requested_path
                     (Some (allowed_transports planned_argv (jc_env b)))))
             (λ e, if is_value_error e then conflict (exn_text e) else raise e);
  let '(worker_id, selected) := placed in
  mret (b <| jc_worker_id := worker_id |>
          <| jc_devices := if bool_decide (requested_devices = []) then selected else requested_devices |>).
(** The worker, and every device in both its forms. *)
(* src/features/cluster/jobs_api.py:240-252 _create_job *)
Definition check_access_lists (wa da : string → result unit) (b : job_request_body) : M world unit :=
  _ ← lift (wa (jc_worker_id b));
  let worker_prefix := jc_worker_id b +:+ ":" in
  for_each (jc_devices b) (λ device_id,
    _ ← lift (da device_id);
    if startswith worker_prefix device_id then lift (da (removeprefix worker_prefix device_id)) else mret tt).
(* src/features/cluster/jobs_api.py:281-292 _create_job *)
Definition default_command (b : job_request_body) : M world job_request_body :=
  suites ← list_suites (jc_worker_id b);
  x ← lift (build_default_argv path_exists (jc_suite_path b) (jc_suite_key b) (jc_worker_id b) local_worker_id suites);
  let '(argv, suite_path, suite_key) := x in
  mret (b <| jc_argv := argv |> <| jc_suite_path := suite_path |> <| jc_suite_key := suite_key |>).
Definition suite_of (b : job_request_body) (requested_path : string) (suites : list suite_row) : option suite_row :=
  fetchone (λ x, streqb (su_tools_path x) requested_path && su_available x
                 && (negb (nonempty (jc_suite_key b)) || streqb (su_suite_key x) (jc_suite_key b))) suites.
(** The request with its suite, its canonical form and its command line. *)
(* src/features/cluster/jobs_api.py:241-292 _create_job *)
Definition bind_suite (b : job_request_body) : M world job_request_body :=
  match jc_execution_spec b with
  | None => default_command b
  | Some spec =>
      if negb (nonempty (sp_test_type spec)) then default_command b
      else
        let requested_path := sp_suite_path spec in
        _ ← (if nonempty (jc_suite_path b) && negb (streqb (jc_suite_path b) requested_path)
             then http 409 "execution_spec suite_path does not match the job suite_path" else mret tt);
        suites ← list_suites (jc_worker_id b);
        match suite_of b requested_path suites with
        | None => http 409 "suite is not available on worker"
        | Some x =>
            canonical ← lift (canonicalize_execution_spec spec (su_tools_path x) (su_suite_type x) (jc_devices b)
                                (jc_worker_id b));
            argv ← lift (build_argv_from_spec canonical);
            row ← get_worker (jc_worker_id b);
            if (bool_decide (sp_preparations canonical ≠ []) || negb (Z.eqb (sp_shard_count canonical) 0))
               && negb (match row with Some w => capable "execution_options_v1" w | None => false end)
            then conflict "Update the Worker Agent before using preparations or explicit sharding"
            else mret (b <| jc_suite_path := su_tools_path x |> <| jc_suite_key := su_suite_key x |>
                         <| jc_execution_spec := Some canonical |> <| jc_argv := argv |>)
        end
  end.
(** The chosen devices by serial number: the last row of each. *)
(* src/features/cluster/jobs_api.py:293-322 _create_job *)
Definition check_transports (now : Z) (b : job_request_body) : M world unit :=
  rows ← list_devices now (jc_worker_id b);
  let selected_inventory := omap (λ device_id,
    last (fetchall (λ r, streqb (dev_serial r) (removeprefix (jc_worker_id b +:+ ":") device_id)) rows.*1)) (jc_devices b) in
  let incompatible := incompatible_test_devices selected_inventory (jc_argv b) (jc_env b) in
  if bool_decide (incompatible = []) then mret tt
  else http 409 ("ADB Proxy devices cannot run this test: " +:+ join ", " incompatible).

(** What is stored: no reservation, no automation run. *)
Definition job_data_of (b : job_request_body) (owner_id owner_username trace_id key request_hash : string) : job_data :=
  JobData (jc_worker_id b) (jc_devices b) owner_id owner_username "" "" trace_id (jc_source_type b) (jc_suite_key b)
    (jc_suite_path b) (jc_priority b) 0 false (jc_argv b) (write_spec <$> jc_execution_spec b) (jc_env b) key request_hash.
(** A job, and the command that starts it; a job whose command could not be queued is taken back. *)
(* src/features/cluster/jobs_api.py:323-365 _create_job *)
Definition create_and_dispatch (now : Z) (data : job_data) : M world (job_view * option command) :=
  try
    (created ← create_job_with_leases min_disk_free_gb min_memory_available_gb claim_ttl now data;
     match created.1 with
     | None => raise (TypeError "'NoneType' object is not subscriptable")
     | Some v =>
         command ← try (dispatch_job_start_command now v (jd_argv data) (jd_execution_spec data) (jd_env data) (jd_devices data))
           (λ e,
             compensated ← compensate_failed_dispatch now (jb_id (jv_job v)) (exn_text e) (jb_current_attempt_id (jv_job v));
             raise (ApiError "DEPENDENCY_UNAVAILABLE"
               (if compensated : bool then "the job was set to failed" else "the dispatch is unconfirmed; device claims remain held")));
         row ← get_job (jb_id (jv_job v));
         mret (default v row, command)
     end)
    (λ e, if is_value_error e then http 409 (exn_text e) else raise e).
(* src/features/cluster/jobs_api.py:204-365 _create_job *)
Definition create_new_job (now : Z) (b : job_request_body) (wa da : string → result unit)
    (owner_id owner_username trace_id key request_hash : string) : M world (job_view * option command) :=
  _ ← (if bool_decide (jc_argv b = []) then mret tt
       else http 400 "raw argv is not accepted from browsers; supply execution_spec");
  _ ← require_cluster_enabled (negb (mem (jc_worker_id b) ["auto"; local_worker_id]));
  _ ← (if streqb (jc_worker_id b) local_worker_id then
         agent ← has_command_agent local_worker_id local_worker_id;
         if agent : bool then mret tt else http 503 "local Worker Agent is offline"
       else mret tt);
  let '(allowed_env, rejected_env_keys) := filter_job_env (jc_env b) in
  _ ← (if bool_decide (rejected_env_keys = []) then mret tt else http 400 "env contains keys outside the job allowlist");
  b ← resolve_job_placement now (b <| jc_env := allowed_env |>);
  _ ← check_access_lists wa da b;
  b ← bind_suite b;
  _ ← check_transports now b;
  create_and_dispatch now (job_data_of b owner_id owner_username trace_id key request_hash).
(** The access lists hold for the devices of the first submission, too. *)
(* src/features/cluster/jobs_api.py:151-166 _replay_job_request *)
Definition replay_job_request (fuel : nat) (now : Z) (v : job_view) (wa da : string → result unit) :
    M world (job_view * option command) :=
  let worker_id := jb_assigned_worker_id (jv_job v) in
  _ ← lift (wa worker_id);
  _ ← for_each (jd_devices (jb_request (jv_job v))) (λ device_id,
    _ ← lift (da device_id);
    if startswith (worker_id +:+ ":") device_id then lift (da (removeprefix (worker_id +:+ ":") device_id)) else mret tt);
  command ← replay_job_command fuel now v;
  row ← get_job (jb_id (jv_job v));
  mret (default v row, command).
Definition request_key_ok (key : string) : bool :=
  nonempty key && Nat.leb (String.length key) 128 && all_chars (λ c, alnum c || has_char c "._:-") key.
(** No key is [None].  The lock that keeps two submissions with one key apart is not part of the
    model: one of them waits, or is told to. *)
(* src/features/cluster/jobs_api.py:127-148 create_job *)
Definition create_job (fuel : nat) (now : Z) (b : job_request_body) (wa da : string → result unit)
    (owner_id owner_username trace_id : string) (idempotency_key : option string) : M world (job_view * option command) :=
  let request_hash := fingerprint b in
  let fresh key := create_new_job now b wa da owner_id owner_username trace_id key request_hash in
  match idempotency_key with
  | None => fresh ""
  | Some key =>
      _ ← require (request_key_ok key)
            (ApiError "MALFORMED_REQUEST" "Idempotency-Key must contain 1-128 ASCII letters, digits, or ._:-");
      existing ← find_job_request owner_id key request_hash;
      match existing with
      | Some v => replay_job_request fuel now v wa da
      | None => fresh key
      end
  end.
End submission.

(** ** The caller *)

Section caller.
Context `{CollisionFree} `{CaseMaps} `{Pbkdf2} `{IpSyntax} `{UrlSyntax}.
Context (L : lifetimes) (hmac_sha256 : string → string → string) (signing_key : string).
Context (environ : string → option string) (clock : Z).
Context (client_display_id : request → string).

Abbreviation principal := (get_authenticated_user L hmac_sha256 signing_key clock).
(* src/features/cluster/jobs_api.py:33-45 _request_owner_id *)
Definition request_owner_id (rq : request) : M site string :=
  user ← principal rq;
  match user with
  | Some u => mret (cu_resource_owner_id u)
  | None =>
      if authentication_required environ then
        u ← require_authenticated_user L hmac_sha256 signing_key clock rq; mret (cu_resource_owner_id u)
      else mret (client_display_id rq)
  end.
(* src/features/cluster/jobs_api.py:48-54 _request_owner_username *)
Definition request_owner_username (rq : request) : M site string :=
  user ← principal rq;
  match user with
  | Some u => mret (cu_username u)
  | None =>
      if authentication_required environ then
        u ← require_authenticated_user L hmac_sha256 signing_key clock rq; mret (cu_username u)
      else mret ""
  end.
(** The dependency of the endpoint, and whose job it will be. *)
(* src/features/cluster/jobs_api.py:127-138 create_job *)
Definition admit_submission (rq : request) : M site (string * string) :=
  _ ← require_permission_when_auth_required L hmac_sha256 signing_key environ clock "tests.execute" rq;
  owner_id ← request_owner_id rq;
  owner_username ← request_owner_username rq;
  mret (owner_id, owner_username).
(** The endpoint; the access lists are those of the request's token. *)
(* src/features/cluster/jobs_api.py:127-148 create_job *)
Definition submit_job (create : (string → result unit) → (string → result unit) → string → string → M world (job_view * option command))
    (rq : request) (x : site * world) : result (job_view * option command) * (site * world) :=
  match admit_submission rq x.1 with
  | (Err e, st) => (Err e, (st, x.2))
  | (Ok (owner_id, owner_username), st) =>
      let '(r, w) := create (λ i, (ensure_agent_worker_allowed i st).1) (λ i, (ensure_agent_device_allowed i st).1)
                       owner_id owner_username x.2 in
      (r, (st, w))
  end.
End caller.
