(* ===== verification/RunPlacement.v ===== *)
(** Where an automation run runs: its check before it is created
    ([AutomationService._prepare_cluster_plan], [features/automation/service.py]) and the reservation
    of its devices when its turn comes ([select_devices] and [release_resources],
    [features/automation/executors.py]), both on the cluster store.

    Parameters: the configured build servers and templates, the folders firmware may lie in and the
    files there, what [urlparse] makes of an address, and whether a device fits a recovery profile
    ([replay_mapping_options] and what follows it).  Of the messages only the fixed parts are kept. *)

From Stdlib Require Import QArith.
From S2P Require Import Prelude Encodings DeviceClaims JobStateMachine ClusterState Admission ClusterClaims Reservations Inventory Placement Automation.

Open Scope Z_scope.

(** ** Plans *)

(** [test_plan.build]; [None]: no object, or an empty one. *)
Record build_plan := BuildPlan { bp_provider : string; bp_server_id : string; bp_template_id : string }.
(** The keys of a test plan that placement reads. *)
Record placement_plan := PlacementPlan {
  pl_worker_id : string;
  pl_test_suite : string;
  pl_test_type : string;
  pl_selector : device_selector;
  pl_shard_count : Z;
  pl_preparations : list string;
  pl_flash_skip : bool;
  pl_retry_dir : string;
  pl_test_module : string;
  pl_test_case : string;
  pl_modules : list string;
  pl_build : option build_plan;
  pl_jenkins_base_url : string;
  pl_aoa_recovery : bool;
}.
(** A request for a run: the keys read beside its plan. *)
Record placement_body := PlacementBody {
  pb_devices : list device_item;
  pb_jenkins_job : string;
  pb_artifact_url : string;
  pb_artifact_path : string;
}.
(** What placement writes to the request and its plan, and what it reports. *)
Record placement := Placed {
  pc_worker_id : string;
  pc_test_suite : string;
  pc_devices : list string;
  pc_suite_key : string;
  pc_available_device_count : Z;
}.

(** [str.upper] of an ASCII text. *)
Definition upper_char (a : ascii) : ascii := if lower_letter a then ascii_of_N (N_of_ascii a - 32) else a.
Fixpoint ascii_upper (s : string) : string :=
  match s with EmptyString => EmptyString | String a s' => String (upper_char a) (ascii_upper s') end.
Definition requires_local_usb (p : placement_plan) : bool := negb (pl_flash_skip p).
Definition minimum (p : placement_plan) : Z := Z.max 1 (sl_min_count (pl_selector p)).
(* src/features/automation/service.py:261-266 AutomationService._prepare_cluster_plan *)
Definition suite_test_type (p : placement_plan) : string :=
  let test_type := ascii_upper (strip (pl_test_type p)) in
  if streqb test_type "GSI" then "CTS" else if streqb test_type "GTS-ROOT" then "GTS" else test_type.
(** All modules of a suite. *)
Definition full_suite (p : placement_plan) : bool :=
  negb (nonempty (pl_retry_dir p) || nonempty (pl_test_module p) || nonempty (pl_test_case p)
        || negb (bool_decide (pl_modules p = []))).
(** The conditions besides the count that an automatic choice looks at. *)
Definition constrained (s : device_selector) : bool :=
  existsb nonempty [sl_product s; sl_variant s; sl_build_id s; sl_android_version s; sl_board s; sl_serial_prefix s].
(** It needs a worker that knows preparations and explicit sharding. *)
Definition advanced (p : placement_plan) : bool :=
  negb (bool_decide (pl_preparations p = [])) || negb (Z.eqb (pl_shard_count p) 0).
Definition proxied (r : device_row) : bool := streqb (ascii_lower (dev_transport r)) "adb_proxy".
(** Firmware cannot be flashed over a proxy. *)
Definition unsupported (p : placement_plan) (r : device_row) : bool := requires_local_usb p && proxied r.
Definition available (r : device_row) : bool := streqb (dev_state r) "available".
Definition count {R} (p : R → bool) (t : list R) : Z := Z.of_nat (length (fetchall p t)).
(** [inventory.get(id)]. *)
Definition device_of (inventory : list device_row) (id : string) : option device_row :=
  fetchone (λ r, streqb (dev_id r) id) inventory.
Definition holds_of (f : device_row → bool) (inventory : list device_row) (id : string) : bool :=
  match device_of inventory id with Some r => f r | None => false end.
(** Of the devices nobody named: the conditions looked at again, beside the count. *)
Definition prefix_and_board (s : device_selector) (r : device_row) : bool :=
  startswith (sl_serial_prefix s) (dev_serial r)
  && contains (ascii_lower (sl_board s)) (ascii_lower (property ["board"; "product"] r)).
(** Newest version first, then the latest scan; [reverse=True] keeps the order of equals. *)
Definition newer (a b : suite_row) : bool :=
  if decide (su_suite_version a = su_suite_version b) then stamp_leb (su_last_scanned_at b) (su_last_scanned_at a)
  else text_leb (su_suite_version b) (su_suite_version a).
Definition device_text (x : device_item) : string :=
  strip match x with DeviceText s => s | DeviceDict d => str_or (doc_get "serial" d) (doc_get "id" d) end.
(** The devices named, with their worker. *)
(* src/features/automation/service.py:392-405 AutomationService._prepare_cluster_plan *)
Fixpoint requested_devices (worker_id : string) (items : list device_item) (found : list string) : result (list string) :=
  match items with
  | [] => Ok found
  | x :: items =>
      let value := device_text x in
      if negb (nonempty value) then requested_devices worker_id items found
      else if has_char ":" value && negb (startswith (worker_id +:+ ":") value)
      then Err (ValueError ("Device " +:+ value +:+ " belongs to another Worker"))
      else
        let device_id := qualify worker_id value in
        requested_devices worker_id items (if mem device_id found then found else found ++ [device_id])
  end.
(** The devices of a worker that may be had: named ones as they are, else enough of them. *)
(* src/features/automation/service.py:409-468 AutomationService._prepare_cluster_plan *)
Definition check_devices (p : placement_plan) (worker_id : string) (requested : list string)
    (inventory : list device_row) : result unit :=
  let s := pl_selector p in
  let matching := count (λ r, available r && matches_device_selector r s) inventory in
  let none f := bool_decide (filter (λ i, f i = true) requested = []) in
  if negb (none (holds_of (λ r, negb (matches_device_selector r s)) inventory))
  then Err (ValueError "Selected devices do not match the device conditions")
  else if bool_decide (requested = []) && Z.ltb matching (minimum p)
  then Err (ValueError "idle devices match the conditions")
  else if bool_decide (requested = []) then
    if Z.ltb (count (λ r, available r && negb (unsupported p r) && prefix_and_board s r) inventory) (minimum p)
    then Err (ValueError ("Worker " +:+ worker_id +:+ " has too few idle devices"))
    else Ok tt
  else if negb (none (λ i, negb (holds_of available inventory i)))
  then Err (ValueError ("Devices are unavailable on " +:+ worker_id))
  else if negb (none (holds_of (unsupported p) inventory))
  then Err (ValueError "ADB Proxy devices cannot be used for ATS firmware flashing")
  else if Z.ltb (Z.of_nat (length requested)) (minimum p) then Err (ValueError "devices are required")
  else if requires_local_usb p && negb (Nat.eqb (length requested) 1)
  then Err (ValueError "Firmware flashing requires exactly one device")
  else Ok tt.

Section service.
Context (min_disk_free_gb min_memory_available_gb : Q) (offline_seconds : Z) (local_worker_id : string).
Context (full_cts_memory_gb : Q).
Context (build_servers build_templates : list string).
Context (urlparse : string → result (string * string)).
Context (artifact_roots : list (list string)) (resolve_file : string → list string * option Z).

Abbreviation directory := (worker_directory offline_seconds local_worker_id).
Abbreviation choose := (select_worker min_disk_free_gb min_memory_available_gb offline_seconds local_worker_id).
Abbreviation agent := (has_command_agent local_worker_id).

(** ** The check of a new run *)

(** [path == root or path.is_relative_to(root)]. *)
Definition inside (root path : list string) : bool := bool_decide (take (length root) path = root).
(** The build and the firmware a run asks for. *)
(* src/features/automation/service.py:223-259 AutomationService._prepare_cluster_plan *)
Definition check_sources (b : placement_body) (p : placement_plan) : result unit :=
  let build := default (BuildPlan "" "" "") (pl_build p) in
  let? _ :=
    (if streqb (bp_provider build) "ssh" || nonempty (bp_server_id build) then
       if negb (nonempty (bp_server_id build)) || negb (mem (bp_server_id build) build_servers)
       then Err (ValueError "Build server is not configured")
       else if negb (nonempty (bp_template_id build)) || negb (mem (bp_template_id build) build_templates)
       then Err (ValueError "Build template is not configured")
       else Ok tt
     else Ok tt) in
  if nonempty (pb_jenkins_job b) && negb (nonempty (strip (pl_jenkins_base_url p)))
  then Err (ValueError "test_plan.jenkins.base_url is required for a Jenkins build")
  else
    let artifact_url := strip (pb_artifact_url b) in
    let? _ :=
      (if nonempty artifact_url then
         let? artifact_origin := urlparse artifact_url in
         let? jenkins_origin := urlparse (pl_jenkins_base_url p) in
         if negb (mem artifact_origin.1 ["http"; "https"])
            || negb (streqb artifact_origin.1 jenkins_origin.1) || negb (streqb artifact_origin.2 jenkins_origin.2)
         then Err (ValueError "Artifact URL must use the configured Jenkins origin")
         else Ok tt
       else Ok tt) in
    let artifact_path := strip (pb_artifact_path b) in
    if nonempty artifact_path && bool_decide (pl_build p = None) then
      match resolve_file artifact_path with
      | (path, Some size) =>
          if negb (existsb (λ root, inside root path) artifact_roots)
          then Err (ValueError "Firmware artifact is missing or outside the configured firmware roots")
          else if Z.leb size 0 then Err (ValueError "Firmware artifact is empty")
          else Ok tt
      | (_, None) => Err (ValueError "Firmware artifact is missing or outside the configured firmware roots")
      end
    else Ok tt.
(* src/features/automation/service.py:280-287 AutomationService._prepare_cluster_plan *)
Definition required_memory (p : placement_plan) : Q :=
  if full_suite p && streqb (suite_test_type p) "CTS" then full_cts_memory_gb else 0.
(* src/features/automation/service.py:291-299 AutomationService._prepare_cluster_plan *)
Definition wanted_suite (p : placement_plan) (x : suite_row) : bool :=
  su_available x
  && (negb (nonempty (suite_test_type p)) || streqb (ascii_upper (su_suite_type x)) (suite_test_type p))
  && (negb (nonempty (strip (pl_test_suite p))) || streqb (su_tools_path x) (strip (pl_test_suite p))).
Definition worker_of (i : string) (workers : list worker) : option worker := fetchone (λ k, streqb (wk_id k) i) workers.
Definition run_demand (p : placement_plan) (suite_key : string) (worker_id : option string) : demand :=
  Demand suite_key (minimum p) true true (if requires_local_usb p then ["adb_proxy"] else []) [] worker_id "" None.
(** One suite of the loop: the suite that is taken, or why this one is not. *)
(* src/features/automation/service.py:311-344 AutomationService._prepare_cluster_plan *)
Definition try_suite (now : Z) (p : placement_plan) (all_suites : list suite_row) (x : suite_row) :
    M world (option suite_row * option string) :=
  workers ← (if advanced p then directory now else mret []);
  if advanced p && negb (match worker_of (su_worker_id x) workers with Some k => capable "execution_options_v1" k | None => false end)
  then mret (None, Some "No matching Worker supports preparations or explicit sharding; update the Worker Agent")
  else
    matches ← (if constrained (pl_selector p) then rows ← list_devices now (su_worker_id x);
                 mret (count (λ r, available r && matches_device_selector r (pl_selector p)) rows.*1)
               else mret (minimum p));
    if Z.ltb matches (minimum p) then mret (None, None)
    else
      chosen ← try (c ← choose now (run_demand p (su_suite_key x)
                          (if constrained (pl_selector p) || advanced p then Some (su_worker_id x) else None));
                    mret (inl c.1))
                 (λ e, if is_value_error e then mret (inr (exn_text e)) else raise e);
      mret match chosen with
           | inr message => (None, Some message)
           | inl i => (fetchone (λ y, streqb (su_worker_id y) i && streqb (su_suite_key y) (su_suite_key x)) all_suites, None)
           end.
Fixpoint try_suites (now : Z) (p : placement_plan) (all_suites suites : list suite_row) (last_error : string) :
    M world suite_row :=
  match suites with
  | [] => raise (ValueError (str_or last_error "No Worker has the requested suite and idle devices"))
  | x :: suites =>
      r ← try_suite now p all_suites x;
      match r.1 with
      | Some y => mret y
      | None => try_suites now p all_suites suites (default last_error r.2)
      end
  end.
(** The worker a person chose. *)
(* src/features/automation/service.py:348-373 AutomationService._prepare_cluster_plan *)
Definition chosen_worker (now : Z) (p : placement_plan) (all_suites : list suite_row) (worker_id : string) :
    M world suite_row :=
  workers ← directory now;
  match worker_of worker_id workers with
  | None => raise (ValueError ("Worker " +:+ worker_id +:+ " is not online"))
  | Some k =>
      _ ← require (negb (advanced p) || capable "execution_options_v1" k)
            (ValueError "Update the Worker Agent before using preparations or explicit sharding");
      durable ← agent worker_id;
      _ ← require durable (ValueError ("Worker " +:+ worker_id +:+ " has no durable command Agent"));
      let reasons := worker_admission_state min_disk_free_gb min_memory_available_gb k (required_memory p) in
      _ ← require (negb (blocked reasons))
            (ValueError ("Worker " +:+ worker_id +:+ " is not admissible ("
                         +:+ join ", " (admission_reason_text <$> reasons) +:+ ")"));
      match fetchone (λ x, streqb (su_worker_id x) worker_id) all_suites with
      | Some x => mret x
      | None => raise (ValueError ("Test suite is not available on Worker " +:+ worker_id))
      end
  end.
(** The memory of a worker that was chosen automatically. *)
(* src/features/automation/service.py:375-385 AutomationService._prepare_cluster_plan *)
Definition check_memory (now : Z) (p : placement_plan) (worker_id : string) : M world unit :=
  if Qeq_bool (required_memory p) 0 then mret tt
  else
    workers ← directory now;
    let available_memory := match worker_of worker_id workers with Some k => wk_memory_available_gb k | None => 0%Q end in
    require (Qeq_bool available_memory 0 || negb (Qlt_bool available_memory (required_memory p)))
      (ValueError ("Worker " +:+ worker_id +:+ " has too little memory for full CTS")).
(** The suite and, in [auto], the worker. *)
(* src/features/automation/service.py:267-385 AutomationService._prepare_cluster_plan *)
Definition choose_suite (now : Z) (b : placement_body) (p : placement_plan) : M world (string * suite_row) :=
  let worker_id := strip (str_or (pl_worker_id p) local_worker_id) in
  _ ← require (Z.leb (pl_shard_count p)
                 (if bool_decide (pb_devices b = []) then minimum p else Z.of_nat (length (pb_devices b))))
        (ValueError "Shard count exceeds the selected or requested device count");
  _ ← require (negb (requires_local_usb p) || Z.eqb (minimum p) 1)
        (ValueError "Firmware flashing requires device_selector.min_count = 1");
  suites ← list_suites "";
  let all_suites := fetchall (wanted_suite p) suites in
  if streqb worker_id "auto" then
    x ← try_suites now p all_suites (order_by newer all_suites) "";
    _ ← check_memory now p (su_worker_id x);
    mret (su_worker_id x, x)
  else
    x ← chosen_worker now p all_suites worker_id;
    mret (worker_id, x).
(** [provider]: the cluster service, whether it is enabled, or why there is none; [None] for an
    installation without it, where nothing is checked. *)
(* src/features/automation/service.py:211-482 AutomationService._prepare_cluster_plan *)
Definition prepare_cluster_plan (provider : option (result bool)) (now : Z) (b : placement_body) (p : placement_plan) :
    M world (option placement) :=
  match provider with
  | None => mret None
  | Some (Err e) => raise (ValueError ("Cluster service is unavailable: " +:+ exn_text e))
  | Some (Ok enabled) =>
      _ ← require enabled (ValueError "Cluster mode must be enabled for durable ATS execution");
      _ ← lift (check_sources b p);
      chosen ← choose_suite now b p;
      let (worker_id, x) := chosen : string * suite_row in
      requested ← lift (requested_devices worker_id (pb_devices b) []);
      rows ← list_devices now worker_id;
      let inventory := rows.*1 in
      _ ← lift (check_devices p worker_id requested inventory);
      mret (Some (Placed worker_id (su_tools_path x) requested (su_suite_key x)
        (count (λ r, available r && negb (unsupported p r) && matches_device_selector r (pl_selector p)) inventory)))
  end.

(** What it writes to the request. *)
(* src/features/automation/service.py:387-390 AutomationService._prepare_cluster_plan *)
Definition write_placement (c : placement) (q : run_request) : run_request :=
  RunRequest (rq_source_type q) (rq_source_key q) (rq_jenkins_job q) (DeviceText <$> pc_devices c)
    (rq_test_plan q <| tp_worker_id := pc_worker_id c |> <| tp_test_suite := pc_test_suite c |>) (rq_columns q).
(** The check on a request, of which [details] reads what placement needs. *)
Definition prepared_request (provider : option (result bool)) (now : Z) (w : world)
    (details : run_request → placement_body * placement_plan) (q : run_request) : result run_request :=
  let? c := (prepare_cluster_plan provider now (details q).1 (details q).2 w).1 in
  Ok match c with Some c => write_placement c q | None => q end.

(** ** The devices of a run *)

(** What [select_devices] answers. *)
Inductive selection :=
  | Selected (worker_id reservation_id : string) (devices : list (string * string)) (recovered : bool)
  | Refused (again : bool) (error : string).

(* src/features/automation/executors.py:27-33 _run_devices *)
Definition run_devices (r : Automation.run) : list string :=
  filter (λ s, nonempty s = true) (doc_get "serial" <$> rn_devices r).
Definition run_owner (r : Automation.run) : string :=
  str_or (str_or (rn_created_by r) (default "" (rn_columns r !! "owner"))) "automation".

Context (fits_recovery : Automation.run → option device_row → result unit).

(** Each device with the port it is plugged into. *)
(* src/features/automation/recovery_executor.py:20-44 RecoveryExecutorMixin.snapshot_devices *)
Definition snapshot_devices (now : Z) (worker_id : string) (ids : list string) (r : Automation.run) (p : placement_plan) :
    M world (list (string * string)) :=
  rows ← list_devices now worker_id;
  let inventory := rows.*1 in
  let snapshots :=
    (λ i, (i, match device_of inventory i with Some x => prop "usb" (dev_properties x) | None => "" end)) <$> ids in
  _ ← require (negb (pl_aoa_recovery p) || forallb (λ x, nonempty x.2) snapshots)
        (ValueError "AOA recovery requires a physical USB port before flashing");
  _ ← when (pl_aoa_recovery p) (for_each ids (λ i, lift (fits_recovery r (device_of inventory i))));
  mret snapshots.
Definition no_proxies : string :=
  "ADB Proxy devices cannot be used for ATS firmware flashing because they have no USB/Fastboot channel".
(** Devices nobody named. *)
(* src/features/automation/executors.py:425-441 HttpAutomationExecutor.select_devices *)
Definition selectable (p : placement_plan) (r : device_row) : bool :=
  available r && negb (unsupported p r) && prefix_and_board (pl_selector p) r
  && matches_device_selector r (pl_selector p).

Section selection.
Context `{U : Uuid}.

(** The reservation the run already has: it is used again. *)
(* src/features/automation/executors.py:336-367 HttpAutomationExecutor.select_devices *)
Definition recover_selection (now : Z) (r : Automation.run) (p : placement_plan) (existing : reservation_view) :
    M world selection :=
  rows ← list_devices now (rv_worker_id existing);
  let ids := (rv_devices existing).*1 in
  if existsb (holds_of (unsupported p) rows.*1) ids then mret (Refused false no_proxies)
  else
    _ ← renew_reservation now (rv_id existing) 21600;
    devices ← snapshot_devices now (rv_worker_id existing) ids r p;
    mret (Selected (rv_worker_id existing) (rv_id existing) devices true).
(** The worker, and the devices it would give to a run that names none. *)
(* src/features/automation/executors.py:369-384 HttpAutomationExecutor.select_devices *)
Definition run_worker (now : Z) (r : Automation.run) (p : placement_plan) : M world (string * list string) :=
  let worker_id := str_or (str_or (pl_worker_id p) (rn_worker_id r)) local_worker_id in
  let devices := run_devices r in
  if streqb worker_id "auto" then
    suites ← list_suites "";
    let suite := fetchone (λ x, streqb (su_tools_path x) (pl_test_suite p) && su_available x) suites in
    c ← choose now (run_demand p (match suite with Some x => su_suite_key x | None => "" end) None);
    mret (c.1, if bool_decide (devices = []) then c.2 else devices)
  else mret (worker_id, devices).
(** The devices to reserve. *)
(* src/features/automation/executors.py:391-448 HttpAutomationExecutor.select_devices *)
Definition run_candidates (now : Z) (p : placement_plan) (worker_id : string) (devices : list string) :
    M world (selection + list string) :=
  rows ← list_devices now worker_id;
  if negb (bool_decide (devices = [])) then
    let normalized := qualify worker_id <$> devices in
    mret (if existsb (holds_of (unsupported p) rows.*1) normalized then inl (Refused false no_proxies) else inr normalized)
  else
    let candidates := dev_id <$> fetchall (selectable p) rows.*1 in
    mret (if Z.ltb (Z.of_nat (length candidates)) (minimum p)
          then inl (Refused true ("not enough idle devices on " +:+ worker_id))
          else inr (slice_to (minimum p) candidates)).
(* src/features/automation/executors.py:316-469 HttpAutomationExecutor.select_devices *)
Definition select_devices (now : Z) (r : Automation.run) (p : placement_plan) : M world selection :=
  try (
    existing ← get_reservation_by_source now (rn_id r);
    match existing with
    | Some v => recover_selection now r p v
    | None =>
        chosen ← run_worker now r p;
        let (worker_id, devices) := chosen : string * list string in
        durable ← agent worker_id;
        if negb durable
        then mret (Refused false ("Worker " +:+ worker_id +:+ " has no durable Agent for ATS flash/test"))
        else
          candidates ← run_candidates now p worker_id devices;
          match candidates with
          | inl refused => mret refused
          | inr normalized =>
              snapshots ← snapshot_devices now worker_id (dedup normalized) r p;
              reservation ← reserve_devices now worker_id normalized (run_owner r) (rn_id r) 21600 "";
              match reservation with
              | Some v => mret (Selected worker_id (rv_id v) snapshots false)
              | None => raise (KeyError "id")
              end
          end
    end)
    (λ e, mret (Refused (is_value_error e) (exn_text e))).
(* src/features/automation/executors.py:471-481 HttpAutomationExecutor.release_resources *)
Definition release_resources (now : Z) (reservation_id : string) : M world bool :=
  if negb (nonempty reservation_id) then mret false else release_reservation now reservation_id "cancelled".
End selection.
End service.
