(* ===== verification/RunPlacementProperties.v ===== *)
(** What the placement of automation runs guarantees: the devices of a run are reserved for it and
    fenced, a run that asks again gets the reservation it has, and a run that is let in could have
    been served. *)

From Stdlib Require Import QArith.
From S2P Require Import Prelude Encodings DeviceClaims JobStateMachine ClusterState Admission ClusterClaims Reservations Inventory Controller Steps ClaimInvariants JobProperties InventoryInvariants Placement PlacementProperties Automation Authority PlanStore Planner RunPlacement.

Open Scope Z_scope.

(** ** What placement leaves alone *)

(** A device row without its state and its times. *)
Definition traits (r : device_row) : string * string * string * string * gmap string string :=
  (dev_id r, dev_worker_id r, dev_serial r, dev_transport r, dev_properties r).
(** The devices keep their traits, and a source without reservations gets none. *)
Definition tables (d : db) : list (string * string * string * string * gmap string string) * list reservation :=
  (traits <$> db_devices d, db_reservations d).
Definition placed_still (src : string) (x y : list (string * string * string * string * gmap string string) * list reservation) : Prop :=
  y.1 = x.1 ∧ (fetchall (source_active src) x.2 = [] → fetchall (source_active src) y.2 = []).
#[export] Instance placed_still_preorder src : PreOrder (placed_still src).
Proof.
  split; unfold placed_still; [by intros x|]. intros x y z [E1 H1] [E2 H2]. split; [congruence|]. auto.
Qed.
(** The registry stays well formed, too. *)
Definition placing_rel `{Uuid} (src : string) : relation world := λ w w',
  reads tables (placed_still src) w w' ∧ claims_rel w w'.
#[export] Instance placing_store `{Uuid} src : StoreRel (placing_rel src).
Proof.
  split; unfold placing_rel.
  - split; [intros w; by split|]. intros w1 w2 w3 [H1 H2] [H3 H4]. split; by etrans.
  - intros w w' d [H1 H2]. split; by apply sr_commit.
  - intros w w' [H1 H2]. split; by apply sr_rollback.
  - intros w f. split; by apply sr_events.
Qed.

Lemma traits_update p now state l : traits <$> update_where p (set_device_state now state) l = traits <$> l.
Proof. by apply fmap_update_where. Qed.
Lemma ended_quiet src p now st l : st ≠ ResActive →
  fetchall (source_active src) l = [] → fetchall (source_active src) (update_where p (end_reservation now st) l) = [].
Proof.
  intros Hst Hl. apply fetchall_nil. intros x (y&Hy&->)%elem_of_update_where.
  destruct (p y); [|apply not_true_iff_false; intros Ha; eapply not_elem_of_nil; rewrite <-Hl; by apply elem_of_fetchall].
  unfold source_active, reservation_is_active. cbn. by rewrite (bool_decide_eq_false_2 (st = ResActive)), andb_false_r.
Qed.

Section frames.
Context `{U : Uuid} (src : string).

Lemma placing_claims {A} (m : M registry A) w : (∀ r, registry_advances r (m r).2) → placing_rel src w (claims_op m w).2.
Proof. intros Hm. split; [apply reads_claims, _|by apply claims_op_rel]. Qed.
Lemma placing_sql f : (∀ d, placed_still src (tables d) (tables (f d))) → preserves (txn_rel (placing_rel src)) (sql f).
Proof. intros Hf. apply sql_txn. intros w. split; [split; [done|apply Hf]|by split]. Qed.
Lemma placing_draw w : placing_rel src w (w <| w_drawn ::= S |>).
Proof. split; [apply reads_draw, _|by split]. Qed.
Lemma placing_elsewhere f : (∀ d, tables (f d) = tables d) → preserves (txn_rel (placing_rel src)) (sql f).
Proof. intros Hf. apply placing_sql. intros d. by rewrite Hf. Qed.
Lemma placing_devices p now state : preserves (txn_rel (placing_rel src))
  (sql (λ d, d <| db_devices ::= update_where p (set_device_state now state) |>)).
Proof. apply placing_sql. intros d. split; [apply traits_update|done]. Qed.
End frames.
Ltac placing_leaf :=
  lazymatch goal with
  | |- preserves (txn_rel _) (claims_op _) => apply claims_op_txn; intros ?; apply placing_claims; intros ?; solve [eauto with gms]
  | |- preserves (top_rel _) (claims_op _) => apply claims_op_top; intros ?; apply placing_claims; intros ?; solve [eauto with gms]
  | |- preserves (txn_rel _) uuid4_hex => apply uuid_txn, placing_draw
  | |- preserves (top_rel _) uuid4_hex => apply uuid_top, placing_draw
  | |- preserves _ (append_timeline_conn _ _) => apply placing_elsewhere; reflexivity
  | |- preserves _ (sql _) => apply placing_elsewhere; intros ?; reflexivity
  | |- preserves _ _ => solve [eauto with gms]
  end.
Ltac placing_walk := repeat first [walk_step | progress cbv zeta | placing_leaf].

Section handlers.
Context `{U : Uuid} (src : string).

Lemma expire_placing now : preserves (txn_rel (placing_rel src)) (expire_device_reservations now).
Proof.
  unfold expire_device_reservations, free_reserved_device. placing_walk.
  - apply placing_sql. intros d. split; [done|]. by apply ended_quiet.
  - apply placing_sql. intros d. split; [apply traits_update|done].
Qed.
Lemma transition_placing now j st so m e oi wi pl :
  preserves (txn_rel (placing_rel src)) (transition_job_conn now j st so m e oi wi pl).
Proof. unfold transition_job_conn. placing_walk. Qed.
#[local] Hint Resolve expire_placing transition_placing : gms.
Lemma mark_offline_placing now i : preserves (top_rel (placing_rel src)) (mark_worker_offline now i).
Proof.
  unfold mark_worker_offline, emit_worker_availability. placing_walk.
  apply placing_sql. intros d. split; [apply traits_update|done].
Qed.
#[local] Hint Resolve mark_offline_placing : gms.
Lemma list_devices_placing now i : preserves (top_rel (placing_rel src)) (list_devices now i).
Proof. unfold list_devices. placing_walk. Qed.
Lemma directory_placing off local now : preserves (top_rel (placing_rel src)) (worker_directory off local now).
Proof. unfold worker_directory, list_workers. placing_walk. Qed.
Lemma agent_placing local i : preserves (top_rel (placing_rel src)) (has_command_agent local i).
Proof. unfold has_command_agent, get_worker. placing_walk. Qed.
#[local] Hint Resolve list_devices_placing directory_placing agent_placing : gms.
Lemma select_worker_placing md mm off local now q :
  preserves (top_rel (placing_rel src)) (select_worker md mm off local now q).
Proof. unfold select_worker, list_suites. placing_walk. Qed.
Lemma reservation_by_source_placing now so : preserves (top_rel (placing_rel src)) (get_reservation_by_source now so).
Proof. unfold get_reservation_by_source. placing_walk. Qed.
Lemma lift_placing {A} (r : result A) : preserves (top_rel (placing_rel src)) (lift r).
Proof. unfold lift. placing_walk. Qed.
#[local] Hint Resolve select_worker_placing lift_placing : gms.
Lemma run_worker_placing md mm off local now r p : preserves (top_rel (placing_rel src)) (run_worker md mm off local now r p).
Proof. unfold run_worker, list_suites. placing_walk. Qed.
Lemma run_candidates_placing now p i l : preserves (top_rel (placing_rel src)) (run_candidates now p i l).
Proof. unfold run_candidates. placing_walk. Qed.
Lemma snapshot_placing fits now i l r p : preserves (top_rel (placing_rel src)) (snapshot_devices fits now i l r p).
Proof. unfold snapshot_devices. placing_walk. Qed.
End handlers.

(** ** A new reservation *)

(** The row of a reserved device. *)
Definition reserving (i worker_id owner_id source_id : string) (r : device_row) (x : reservation) : Prop :=
  rs_device_id x = dev_id r ∧ rs_reservation_id x = i ∧ rs_worker_id x = worker_id ∧ rs_owner_id x = owner_id ∧
  rs_source_id x = source_id ∧ reservation_is_active x = true.
Lemma dedup_NoDup {A} `{EqDecision A} (l : list A) : NoDup (dedup l).
Proof.
  induction l as [|x l IH]; cbn [dedup]; [constructor|]. constructor; [|by apply NoDup_filter].
  rewrite list_elem_of_filter. tauto.
Qed.
Definition mark_reserved (now : Z) (l : list device_row) (r : device_row) : list device_row :=
  update_where (λ x, streqb (dev_id x) (dev_id r)) (set_device_state now "reserved") l.
(** A device a new reservation may take. *)
Definition free_device (worker_id : string) (d : db) (r : device_row) : Prop :=
  r ∈ db_devices d ∧ dev_worker_id r = worker_id ∧ dev_state r = "available" ∧ device_leased (dev_id r) d = false.
(** An identifier with both its parts, without white space around it. *)
Definition plain_id (i : string) : Prop :=
  i ≠ "" ∧ strip i = i ∧ strip (before ":" i) ≠ "" ∧ strip (after ":" i) ≠ "".

Lemma marked_kept now l rows r : r ∈ l → dev_state r = "reserved" →
  ∃ r', r' ∈ foldl (mark_reserved now) l rows ∧ dev_id r' = dev_id r ∧ dev_state r' = "reserved".
Proof.
  revert l r. induction rows as [|x rows IH]; intros l r Hr Hs; [by exists r|]. cbn [foldl].
  destruct (streqb (dev_id r) (dev_id x)) eqn:E.
  - destruct (IH (mark_reserved now l x) (set_device_state now "reserved" r)) as (r'&Hr'&Hi&Hs');
      [by apply elem_of_update_where_hit|done|by exists r'].
  - apply IH; [by apply elem_of_update_where_keep|done].
Qed.
Lemma marked now l rows i : i ∈ dev_id <$> rows → i ∈ dev_id <$> l →
  ∃ r, r ∈ foldl (mark_reserved now) l rows ∧ dev_id r = i ∧ dev_state r = "reserved".
Proof.
  revert l. induction rows as [|x rows IH]; intros l Hi Hl; [by apply not_elem_of_nil in Hi|]. cbn [foldl].
  apply list_elem_of_fmap in Hl as (r&->&Hr). destruct (decide (dev_id r = dev_id x)) as [E|E].
  - destruct (marked_kept now (mark_reserved now l x) rows (set_device_state now "reserved" r)) as (r'&Hr'&Hi'&Hs);
      [apply elem_of_update_where_hit; [done|by apply bool_decide_eq_true]|done|by exists r'].
  - apply IH; [by apply elem_of_cons in Hi as [|]|]. apply list_elem_of_fmap. exists r. split; [done|].
    apply elem_of_update_where_keep; [done|by apply bool_decide_eq_false].
Qed.

Section reserving.
Context `{U : Uuid} (now : Z) (worker_id : string).

Lemma insert_reservation_run i ow so ttl r w w' :
  insert_reservation now i worker_id ow so ttl r w = (Ok tt, w') →
  ∃ x, reserving i worker_id ow so r x ∧ db_reservations (w_db w') = db_reservations (w_db w) ++ [x] ∧
    db_devices (w_db w') = mark_reserved now (db_devices (w_db w)) r ∧ db_leases (w_db w') = db_leases (w_db w) ∧
    w_claims w' = w_claims w ∧ device_reserved (dev_id r) (w_db w) = false.
Proof.
  unfold insert_reservation. rewrite (bind_run uuid4_hex _ _ _ _ (uuid4_hex_run w)), bind_constraint.
  destruct (device_reserved _ _) eqn:E; [done|]. rewrite bind_sql. intros [= <-]. eexists. split; [|by cbn].
  by unfold reserving.
Qed.
Lemma insert_reservations_run i ow so ttl rows w w' :
  for_each rows (insert_reservation now i worker_id ow so ttl) w = (Ok tt, w') →
  ∃ xs, Forall2 (reserving i worker_id ow so) rows xs ∧ db_reservations (w_db w') = db_reservations (w_db w) ++ xs ∧
    db_devices (w_db w') = foldl (mark_reserved now) (db_devices (w_db w)) rows ∧
    db_leases (w_db w') = db_leases (w_db w) ∧ w_claims w' = w_claims w ∧
    Forall (λ r, device_reserved (dev_id r) (w_db w) = false) rows.
Proof.
  revert w. induction rows as [|r rows IH]; intros w; cbn [for_each].
  { intros [= <-]. exists []. by rewrite app_nil_r. }
  intros ([]&w1&E1&E2)%bind_Ok. apply insert_reservation_run in E1 as (x&Hx&Hr&Hd&Hl&Hc&Hf).
  apply IH in E2 as (xs&Hxs&Hr2&Hd2&Hl2&Hc2&Hf2). exists (x :: xs). split_and!; [by constructor| | |congruence..|].
  - by rewrite Hr2, Hr, <-app_assoc.
  - by rewrite Hd2, Hd.
  - constructor; [done|]. eapply Forall_impl; [exact Hf2|]. cbn. intros y. unfold device_reserved.
    rewrite !exists_row_false, Hr. intros Hy z Hz. apply Hy, elem_of_app. by left.
Qed.
Lemma reservable_device_run i w r w' :
  reservable_device worker_id i w = (Ok r, w') → w' = w ∧ dev_id r = i ∧ free_device worker_id (w_db w) r.
Proof.
  unfold reservable_device. rewrite bind_select. destruct (fetchone _ _) as [x|] eqn:E; [|done].
  apply fetchone_Some in E as [Hx Hb]. rewrite bind_require. destruct (streqb (dev_state x) _) eqn:Es; [|done].
  rewrite bind_select, bind_require. destruct (device_leased i (w_db w)) eqn:El; [done|]. intros [= <- <-].
  unfold free_device. bool_props. split_and!; try done. congruence.
Qed.
Lemma reservable_devices_run l w rows w' :
  forM l (reservable_device worker_id) w = (Ok rows, w') →
  w' = w ∧ dev_id <$> rows = l ∧ Forall (free_device worker_id (w_db w)) rows.
Proof.
  revert rows. induction l as [|i l IH]; intros rows; cbn [forM].
  { intros [= <- <-]. split_and!; [done..|constructor]. }
  intros (r&w1&E1&(rs&w2&E2&[= <- ->])%bind_Ok)%bind_Ok. apply reservable_device_run in E1 as (->&Hi&Hf).
  apply IH in E2 as (->&Hids&Hfs). split_and!; [done|cbn; congruence|by constructor].
Qed.
(** The claims of a new reservation. *)
Lemma acquired_held requests ow us st so ttl w recs w' :
  wf (w_claims w) → strip so = so →
  claims_op (acquire now requests ow us st so ttl true) w = (Ok (true, recs), w') →
  w_db w' = w_db w ∧ wf (w_claims w') ∧
  ∀ q, q ∈ requests → plain_request q → ∃ c, held_by so w' c ∧ cl_device_key c = dr_device_key q.
Proof.
  intros Hw Hso E. pose proof (acquire_inv now requests ow us st so ttl true (w_claims w) Hw) as Ha.
  pose proof (acquire_rel now requests ow us st so ttl true (w_claims w) Hw) as [Hw' _]. revert E. unfold claims_op.
  destruct (acquire _ _ _ _ _ _ _ _ _) as [a r']. intros [= -> <-]. cbn in *. split_and!; [done..|].
  destruct Ha as [(recs'&req&_&Hn&Hall)|[Hno _]]; [|by destruct (Hno recs)]. intros q Hq (H1&H2&H3&H4).
  destruct (normalize_from_in [] requests q Hq) as (d&Hd&Hk); [apply not_elem_of_nil|congruence|done|done|].
  unfold DeviceClaims.normalize_devices in Hn. destruct (normalize_from [] requests) as [|d0 l]; [done|]. injection Hn as <-.
  apply list_elem_of_lookup in Hd as [k Hd]. destruct (Forall2_lookup_l _ _ _ _ _ Hall Hd) as (c&_&Hh&Hg).
  destruct (holder_Some _ _ _ Hh) as (Hc&Hkey&Hact). exists c. destruct Hg as (_&_&Hs&_). unfold held_by.
  rewrite Hs, Hso. split_and!; [done..|]. congruence.
Qed.
Lemma claim_devices_plain l d i : i ∈ l → plain_id (qualify worker_id i) → strip i = i → i ≠ "" →
  ∃ q, q ∈ claim_devices worker_id l d ∧ dr_device_key q = qualify worker_id i ∧ plain_request q.
Proof.
  intros Hi (H1&H2&H3&H4) Hs Hne. unfold claim_devices.
  set (f := λ key, DeviceReq key (before ":" key) (after ":" key) (Some (next_lease_generation key d))).
  exists (f (qualify worker_id i)). split; [|by repeat split]. apply list_elem_of_bind. exists i. split.
  - apply (list_elem_of_fmap_2 f).
    unfold physical_alias_keys. destruct (get_device_row _ _); [|by left]. repeat case_match; apply elem_of_dedup; left.
  - apply elem_of_dedup, list_elem_of_filter. split; [done|]. rewrite <-Hs. by apply list_elem_of_fmap_2.
Qed.
(** The devices of a reservation [i] that was just made. *)
Definition just_reserved (i ow so : string) (rows : list device_row) (d : db) (w : world) : Prop :=
  ∃ xs, Forall2 (reserving i worker_id ow so) rows xs ∧ db_reservations (w_db w) = db_reservations d ++ xs ∧
    db_devices (w_db w) = foldl (mark_reserved now) (db_devices d) rows ∧ db_leases (w_db w) = db_leases d ∧
    Forall (free_device worker_id d) rows ∧ Forall (λ r, device_reserved (dev_id r) d = false) rows ∧
    ∀ r, r ∈ rows → ∃ c, held_by ("reservation:" +:+ i) w c ∧ cl_device_key c = dev_id r.
Lemma reserve_new_run requested ow so ttl us w v w' :
  wf (w_claims w) → Forall (λ i, plain_id i ∧ qualify worker_id i = i) requested →
  reserve_new now worker_id requested ow so ttl us w = (Ok v, w') →
  ∃ i rows, dev_id <$> rows = requested ∧ v = reservation_payload i (w_db w') ∧ just_reserved i ow so rows (w_db w) w'.
Proof.
  intros Hw Hids. unfold reserve_new. intros (rows&w0&E0&E)%bind_Ok.
  apply reservable_devices_run in E0 as (->&Hrows&Hfree). revert E.
  rewrite (bind_run uuid4_hex _ _ _ _ (uuid4_hex_run w)). cbv zeta. set (i := "reservation-" +:+ uuid_hex (w_drawn w)).
  set (w1 := w <| w_drawn ::= S |>). unfold connect_read. rewrite bind_gets, Hrows.
  set (requests := claim_devices worker_id requested (w_committed w1)).
  assert (strip ("reservation:" +:+ i) = "reservation:" +:+ i) as Hplain.
  { apply no_space_strip. unfold i. by rewrite !no_space_app, uuid_hex_no_space. }
  intros ([[] recs]&w2&Ea&E)%bind_Ok; [|by destruct recs].
  apply acquired_held in Ea as (Hdb&_&Hheld); [|done..]. unfold try in E.
  destruct ((_ ← for_each rows _; _) w2) as [[v'|e] w3] eqn:E3; [|revert E; unfold mbind, M_bind; by destruct (claims_op _ w3) as [[] ?]].
  injection E as -> ->. apply bind_Ok in E3 as ([]&w4&E4&[= <- ->]).
  apply insert_reservations_run in E4 as (xs&Hxs&Hr&Hd&Hl&Hc&Hf). rewrite Hdb in *.
  exists i, rows. split_and!; [done..|]. exists xs. split_and!; [done..|].
  intros r Hin. assert (dev_id r ∈ requested) as Hreq by (rewrite <-Hrows; by apply list_elem_of_fmap_2).
  rewrite Forall_forall in Hids. destruct (Hids _ Hreq) as [Hp Hq].
  destruct (claim_devices_plain requested (w_committed w1) (dev_id r)) as (q&Hq1&Hq2&Hq3);
    [done|by rewrite Hq|apply Hp|apply Hp|]. destruct (Hheld q Hq1 Hq3) as (c&Hh&Hk). exists c.
  split; [|congruence]. destruct Hh as (?&?&?). unfold held_by. rewrite Hc. done.
Qed.
Lemma requested_plain l : Forall (λ i, plain_id i ∧ qualify worker_id i = i) l → requested_device_ids worker_id l = dedup l.
Proof.
  intros Hl. unfold requested_device_ids. f_equal. induction Hl as [|i l [(H1&H2&_) H3] Hl IH]; [done|].
  rewrite fmap_cons, H2, filter_cons_True by done. rewrite fmap_cons, IH. by f_equal.
Qed.
Lemma reserve_devices_new l ow so ttl us w v w' :
  wf (w_claims w) → fetchall (source_active so) (db_reservations (w_db w)) = [] →
  Forall (λ i, plain_id i ∧ qualify worker_id i = i) l →
  reserve_devices now worker_id l ow so ttl us w = (Ok v, w') →
  ∃ i rows w1, dev_id <$> rows = dedup l ∧ v = reservation_payload i (w_db w') ∧
    placing_rel so w w1 ∧ just_reserved i ow so rows (w_db w1) w'.
Proof.
  intros Hw Hquiet Hl. unfold reserve_devices. rewrite (requested_plain l Hl). cbv zeta. destruct (bool_decide _); [done|].
  intros (w2&E&->)%transaction_inv. apply bind_Ok in E as (n&w1&E1&E).
  pose proof (expire_placing so now w) as [Hp _]. rewrite E1 in Hp. cbn in Hp. destruct Hp as [Hp1 Hp2].
  rewrite bind_select in E. pose proof (proj2 (proj2 Hp1)) as Hq. cbn in Hq.
  rewrite (proj2 (order_by_nil _ _) (Hq Hquiet)) in E. apply reserve_new_run in E as (i&rows&Hrows&Hv&Hj).
  - exists i, rows, w1. split_and!; [done..|by split|exact Hj].
  - by apply Hp2.
  - apply Forall_forall. intros x Hx. rewrite elem_of_dedup in Hx. rewrite Forall_forall in Hl. exact (Hl x Hx).
Qed.
End reserving.

(** ** What a selection looks at *)

Lemma traits_same r d : traits r = traits d → ∃ state a b c,
  d = DeviceRow (dev_id r) (dev_worker_id r) (dev_serial r) (dev_transport r) state (dev_properties r) a b c.
Proof. destruct r, d. cbn. intros [= -> -> -> -> ->]. by do 4 eexists. Qed.
Lemma traits_in (x y : list device_row) d : traits <$> y = traits <$> x → d ∈ y → ∃ r, r ∈ x ∧ traits r = traits d.
Proof.
  intros E Hd. assert (traits d ∈ traits <$> x) as (r&Hr&Hin)%list_elem_of_fmap by (rewrite <-E; by apply list_elem_of_fmap_2).
  by exists r.
Qed.
Lemma traits_keyed x y : traits <$> y = traits <$> x → keyed x → keyed y.
Proof.
  intros E [Hn Hk]. split.
  - assert (∀ l, dev_id <$> l = (λ t, t.1.1.1.1) <$> (traits <$> l)) as Ht by (intros l; by rewrite <-list_fmap_compose).
    by rewrite Ht, E, <-Ht.
  - intros d (r&Hr&Ht)%(traits_in x y d E). destruct (traits_same r d Ht) as (?&?&?&?&->). exact (Hk r Hr).
Qed.
(** Every device has an identifier the registry takes as it is. *)
Definition plain_devices (l : list device_row) : Prop := ∀ r, r ∈ l → plain_id (dev_id r).
Lemma traits_plain x y : traits <$> y = traits <$> x → plain_devices x → plain_devices y.
Proof. intros E Hp d (r&Hr&Ht)%(traits_in x y d E). destruct (traits_same r d Ht) as (?&?&?&?&->). exact (Hp r Hr). Qed.

Lemma qualify_idemp i v : qualify i (qualify i v) = qualify i v.
Proof.
  assert (startswith (i +:+ ":") (qualify i v) = true) as E.
  { unfold qualify. destruct (startswith (i +:+ ":") v) eqn:E; [done|]. rewrite <-string_app_assoc. apply startswith_app. }
  unfold qualify at 1. by rewrite E.
Qed.
Lemma keyed_qualify l r : keyed l → r ∈ l → qualify (dev_worker_id r) (dev_id r) = dev_id r.
Proof.
  intros [_ Hk] Hr. rewrite (Hk r Hr). unfold qualify. by rewrite <-string_app_assoc, startswith_app.
Qed.

Section selecting.
Context `{U : Uuid} (now : Z).

Lemma by_source_none so w w' : so ≠ "" → get_reservation_by_source now so w = (Ok None, w') →
  fetchall (source_active so) (db_reservations (w_db w')) = [].
Proof.
  intros Hso. unfold get_reservation_by_source, nonempty. rewrite bool_decide_eq_true_2 by done.
  intros (w1&E&->)%transaction_inv. apply bind_Ok in E as (n&w2&_&E). unfold select, gets in E.
  injection E as E <-. cbn. destruct (order_by _ _) as [|row l] eqn:El in E.
  { by apply order_by_nil in El. }
  cbn in E. unfold reservation_payload in E. destruct (order_by by_device_id _) as [|y l'] eqn:Ey in E; [|done].
  apply order_by_nil in Ey. exfalso.
  assert (row ∈ order_by (λ a b, stamp_leb (rs_acquired_at b) (rs_acquired_at a))
    (fetchall (λ r, streqb (rs_source_id r) so && reservation_is_active r) (db_reservations (w_db w2)))) as Hin
    by (rewrite El; left).
  apply elem_of_order_by, elem_of_fetchall in Hin as [_ Hin].
  apply (not_elem_of_nil row). rewrite <-Ey. apply elem_of_fetchall. split; [by apply bool_decide_eq_true|done].
Qed.
Lemma list_devices_run i w : ∃ rows w', list_devices now i w = (Ok rows, w') ∧
  rows.*1 ≡ₚ fetchall (worker_filter dev_worker_id i) (db_devices (w_committed w)) ∧ w_db w' = w_db w.
Proof.
  unfold list_devices, list_active, select_after_expire. eexists _, _. split; [reflexivity|]. split; [|reflexivity].
  rewrite <-list_fmap_compose, (list_fmap_ext _ id) by done. by rewrite list_fmap_id, order_by_perm.
Qed.
Lemma filtered_worker i r : i ≠ "" → worker_filter dev_worker_id i r = true ↔ dev_worker_id r = i.
Proof.
  intros Hi. unfold worker_filter, nonempty. rewrite bool_decide_eq_true_2 by done. cbn. split; intros H; [by bool_props|].
  by apply bool_decide_eq_true.
Qed.
(** The device of an identifier. *)
Lemma holds_of_false f inventory r : NoDup (dev_id <$> inventory) → r ∈ inventory → holds_of f inventory (dev_id r) = false → f r = false.
Proof.
  intros Hn Hr. unfold holds_of, device_of. destruct (fetchone _ _) as [x|] eqn:E.
  - apply fetchone_Some in E as [Hx Hb]. bool_props. intros <-. f_equal.
    eapply (unique_index_inj (λ _, true) dev_id inventory); try done. unfold unique_index. by rewrite fetchall_all.
  - rewrite fetchone_None in E. specialize (E r Hr). by bool_props.
Qed.
(** The devices to reserve: those named, none behind a proxy if firmware is to be flashed, or as many
    as needed of those that fit. *)
Lemma run_candidates_run p i ds w l w' :
  let inventory := db_devices (w_committed w) in
  keyed inventory → i ≠ "" → run_candidates now p i ds w = (Ok (inr l), w') →
  (∀ r, r ∈ inventory → dev_worker_id r = i → dev_id r ∈ l → unsupported p r = false) ∧
  (ds ≠ [] → l = qualify i <$> ds) ∧
  (ds = [] → Z.of_nat (length l) = minimum p ∧ NoDup l ∧
     ∀ j, j ∈ l → ∃ r, r ∈ inventory ∧ dev_id r = j ∧ dev_worker_id r = i ∧ selectable p r = true).
Proof.
  intros inventory [Hn Hk] Hi. unfold run_candidates. destruct (list_devices_run i w) as (rows&w1&E1&Hp&_).
  rewrite (bind_run _ _ _ _ _ E1). fold inventory in Hp.
  assert (∀ r, r ∈ rows.*1 ↔ r ∈ inventory ∧ dev_worker_id r = i) as Hin.
  { intros r. rewrite Hp, elem_of_fetchall, filtered_worker by done. tauto. }
  assert (NoDup (dev_id <$> rows.*1)) as Hnd.
  { rewrite Hp. eapply sublist_NoDup; [exact Hn|]. apply fmap_sublist, sublist_filter. }
  case_bool_decide as Ed; cbn [negb].
  - destruct (Z.ltb _ _) eqn:El; [done|]. intros [= <- _]. apply Z.ltb_ge in El. rewrite length_fmap in El.
    destruct (slice_all (minimum p) (dev_id <$> fetchall (selectable p) rows.*1)) as [Hsub Hlen].
    { rewrite length_fmap. unfold minimum in *. lia. }
    assert (NoDup (dev_id <$> fetchall (selectable p) rows.*1)) as Hnf.
    { eapply sublist_NoDup; [exact Hnd|]. apply fmap_sublist, sublist_filter. }
    assert (∀ j, j ∈ slice_to (minimum p) (dev_id <$> fetchall (selectable p) rows.*1) →
      ∃ r, r ∈ inventory ∧ dev_id r = j ∧ dev_worker_id r = i ∧ selectable p r = true) as Hall.
    { intros j Hj. eapply sublist_subseteq in Hj; [|exact Hsub]. apply list_elem_of_fmap in Hj as (r&->&[Hs Hr]%elem_of_fetchall).
      apply Hin in Hr as [? ?]. by exists r. }
    split_and!; [|done|intros _; split_and!; [done|by eapply sublist_NoDup|exact Hall]].
    intros r Hr _ (r'&Hr'&E&_&Hs)%Hall. unfold selectable in Hs. bool_props.
    assert (r' = r) as <-; [|done]. eapply (unique_index_inj (λ _, true) dev_id inventory); try done.
    unfold unique_index. by rewrite fetchall_all.
  - destruct (existsb _ _) eqn:Ee; [done|]. intros [= <- _]. split_and!; [|done|done].
    intros r Hr Hw Hj. apply (holds_of_false _ rows.*1); [done|by apply Hin|].
    change (exists_row (holds_of (unsupported p) rows.*1) (qualify i <$> ds) = false) in Ee.
    rewrite exists_row_false in Ee. by apply Ee.
Qed.
End selecting.

(** ** The selection of devices *)

Section selection.
Context `{U : Uuid} (md mm : Q) (off : Z) (local : string) (fits : Automation.run → option device_row → result unit).
Context (now : Z) (r : Automation.run) (p : placement_plan).

(** The worker that was asked for. *)
Definition asked_worker : string := str_or (str_or (pl_worker_id p) (rn_worker_id r)) local.
(** A device that is reserved for the run, and for nothing else: in the store and in the registry. *)
Definition reserved_for (w : world) (i res id : string) : Prop :=
  (∃ d, d ∈ db_devices (w_db w) ∧ dev_id d = id ∧ dev_worker_id d = i ∧ dev_state d = "reserved" ∧ unsupported p d = false ∧
     (run_devices r = [] → asked_worker ≠ "auto" → prefix_and_board (pl_selector p) d = true ∧ matches_device_selector d (pl_selector p) = true)) ∧
  device_leased id (w_db w) = false ∧
  (∀ y, y ∈ db_reservations (w_db w) → reservation_is_active y = true → rs_device_id y = id →
     rs_reservation_id y = res ∧ rs_source_id y = rn_id r ∧ rs_owner_id y = run_owner r ∧ rs_worker_id y = i) ∧
  (∃ y, y ∈ db_reservations (w_db w) ∧ reservation_is_active y = true ∧ rs_device_id y = id) ∧
  ∃ c, held_by ("reservation:" +:+ res) w c ∧ cl_device_key c = id.

Lemma run_worker_run w i ds w' :
  inventory_keyed (w_committed w) → run_worker md mm off local now r p w = (Ok (i, ds), w') →
  (run_devices r ≠ [] → ds = run_devices r) ∧ (asked_worker ≠ "auto" → i = asked_worker ∧ ds = run_devices r) ∧
  (run_devices r = [] → ∀ j, j ∈ ds → ∃ d, d ∈ db_devices (w_committed w) ∧ dev_id d = j ∧ dev_worker_id d = i).
Proof.
  intros Hk. unfold run_worker. fold asked_worker. unfold streqb. case_bool_decide as Ea.
  - intros (suites&w1&[= _ <-]&E)%bind_Ok. apply bind_Ok in E as ([k ids]&w2&E&[= <- <- _]).
    match type of E with select_worker _ _ _ _ _ ?asked _ = _ => set (q := asked) in E end.
    pose proof (select_worker_spec md mm off local now q w Hk) as Hs.
    rewrite E in Hs. destruct Hs as (k'&rows&Hs&->&->&_). { intros _. cbn. unfold minimum. lia. }
    split_and!; [by intros ?; rewrite bool_decide_eq_false_2|done|].
    intros Hr j Hj. cbn in Hj. rewrite bool_decide_eq_true_2 in Hj by done. apply list_elem_of_fmap in Hj as (d&->&Hd).
    destruct (sb_devices _ _ _ _ _ _ _ _ _ Hs d Hd) as (?&_&?). by exists d.
  - intros [= <- <- _]. split_and!; [done..|]. intros -> j []%not_elem_of_nil.
Qed.
(** What is handed to the reservation: identifiers of the worker's devices, as they are. *)
Lemma selected_plain w i ds l w' :
  let inventory := db_devices (w_committed w) in
  keyed inventory → plain_devices inventory → i ≠ "" → (∀ v, v ∈ run_devices r → plain_id (qualify i v)) →
  (run_devices r ≠ [] → ds = run_devices r) →
  (run_devices r = [] → ∀ j, j ∈ ds → ∃ d, d ∈ inventory ∧ dev_id d = j ∧ dev_worker_id d = i) →
  run_candidates now p i ds w = (Ok (inr l), w') → Forall (λ j, plain_id j ∧ qualify i j = j) l.
Proof.
  intros inventory Hk Hp Hi Hv Hn Ha E. destruct (run_candidates_run now p i ds w l w' Hk Hi E) as (_&Hnamed&Hnone).
  apply Forall_forall. intros j Hj. destruct (decide (ds = [])) as [Ed|Ed].
  - destruct (Hnone Ed) as (_&_&Hall). destruct (Hall j Hj) as (d&Hd&<-&<-&_). split; [by apply Hp|by eapply keyed_qualify].
  - rewrite (Hnamed Ed) in Hj. apply list_elem_of_fmap in Hj as (v&->&Hin). split; [|apply qualify_idemp].
    destruct (decide (run_devices r = [])) as [Er|Er]; [|apply Hv; by rewrite <-(Hn Er)].
    destruct (Ha Er v Hin) as (d&Hd&<-&<-). rewrite (keyed_qualify _ _ Hk Hd). by apply Hp.
Qed.
Lemma marks_traits rows l : traits <$> foldl (mark_reserved now) l rows = traits <$> l.
Proof. revert l. induction rows as [|x rows IH]; intros l; [done|]. cbn [foldl]. rewrite IH. apply traits_update. Qed.
Lemma reserving_of i res ow so rows xs x : Forall2 (reserving res i ow so) rows xs → x ∈ xs →
  ∃ d, d ∈ rows ∧ reserving res i ow so d x.
Proof.
  intros Hf [k Hx]%list_elem_of_lookup. destruct (Forall2_lookup_r _ _ _ _ _ Hf Hx) as (d&Hd&Hr).
  exists d. split; [by eapply list_elem_of_lookup_2|done].
Qed.
(** The devices of a new reservation are the run's. *)
Lemma just_reserved_for i res rows d w :
  keyed (db_devices d) → just_reserved now i res (run_owner r) (rn_id r) rows d w →
  (∀ x, x ∈ db_devices d → dev_worker_id x = i → dev_id x ∈ dev_id <$> rows →
     unsupported p x = false ∧
     (run_devices r = [] → asked_worker ≠ "auto" → prefix_and_board (pl_selector p) x = true ∧ matches_device_selector x (pl_selector p) = true)) →
  ∀ id, id ∈ dev_id <$> rows → reserved_for w i res id.
Proof.
  intros Hk (xs&Hxs&Hr&Hd&Hl&Hfree&Hfresh&Hheld) Hfit id Hid. rewrite !Forall_forall in *.
  apply list_elem_of_fmap in Hid as (x&->&Hx). destruct (Hfree x Hx) as (Hx1&Hx2&Hx3&Hx4).
  assert (dev_id x ∈ dev_id <$> rows) as Hin by (by apply list_elem_of_fmap_2). split_and!.
  - destruct (marked now (db_devices d) rows (dev_id x) Hin) as (y&Hy&Hy1&Hy2); [by apply list_elem_of_fmap_2|].
    destruct (traits_in (db_devices d) _ y (marks_traits rows _) Hy) as (z&Hz&Ht). exists y. rewrite Hd.
    destruct (traits_same z y Ht) as (?&?&?&?&Ey).
    assert (z = x) as -> by (eapply (keyed_inj d); [exact Hk|done..|rewrite <-Hy1, Ey; done]).
    destruct (Hfit x Hx1 Hx2 Hin) as [Hu Hm]. split_and!; [done..|by rewrite Ey|done|by rewrite Ey|].
    intros H1 H2. destruct (Hm H1 H2). by rewrite Ey.
  - unfold device_leased, active_lease in *. by rewrite Hl.
  - intros y Hy Ha Ei. rewrite Hr in Hy. apply elem_of_app in Hy as [Hy|Hy].
    + specialize (Hfresh x Hx). unfold device_reserved in Hfresh. rewrite exists_row_false in Hfresh.
      specialize (Hfresh y Hy). rewrite Ha, Ei in Hfresh. unfold streqb in Hfresh. by rewrite bool_decide_eq_true_2 in Hfresh.
    + destruct (reserving_of _ _ _ _ _ _ _ Hxs Hy) as (z&_&_&->&->&->&->&_). done.
  - apply list_elem_of_lookup in Hx as [k Hk']. destruct (Forall2_lookup_l _ _ _ _ _ Hxs Hk') as (y&Hy&Ey&_&_&_&_&Ha).
    exists y. split_and!; [|done..]. rewrite Hr. apply elem_of_app. right. by eapply list_elem_of_lookup_2.
  - by apply Hheld.
Qed.
Lemma snapshot_run i ids w l w' : snapshot_devices fits now i ids r p w = (Ok l, w') → l.*1 = ids.
Proof.
  unfold snapshot_devices. intros H. inv_ok. rewrite <-list_fmap_compose, (list_fmap_ext _ id) by done. apply list_fmap_id.
Qed.
Lemma recovered v w i res l b w' : recover_selection fits now r p v w = (Ok (Selected i res l b), w') → b = true.
Proof. unfold recover_selection. intros (rows&w1&_&E)%bind_Ok. destruct (existsb _ _); [done|]. inv_ok. congruence. Qed.
Lemma run_candidates_refused i ds w x w' : run_candidates now p i ds w = (Ok (inl x), w') → ∃ again e, x = Refused again e.
Proof.
  unfold run_candidates. intros (rows&w1&_&E)%bind_Ok. destruct (negb _); destruct (_ : bool) in E; try done;
    injection E as <- _; by do 2 eexists.
Qed.
(** The steps of a new selection. *)
Lemma selection_steps w i res devs w' :
  settled w → rn_id r ≠ "" → select_devices md mm off local fits now r p w = (Ok (Selected i res devs false), w') →
  ∃ w1 ds w2 w3 l w3' w4 v, placing_rel (rn_id r) w w1 ∧ settled w1 ∧ fetchall (source_active (rn_id r)) (db_reservations (w_db w1)) = [] ∧
    run_worker md mm off local now r p w1 = (Ok (i, ds), w2) ∧
    placing_rel (rn_id r) w1 w3 ∧ settled w3 ∧ run_candidates now p i ds w3 = (Ok (inr l), w3') ∧
    placing_rel (rn_id r) w3 w4 ∧ devs.*1 = dedup l ∧
    reserve_devices now i l (run_owner r) (rn_id r) 21600 "" w4 = (Ok (Some v), w') ∧ rv_id v = res.
Proof.
  intros Hs Hsrc. unfold select_devices, try.
  match goal with |- (match ?m w with _ => _ end) = _ → _ => destruct (m w) as [[sel|e] wz] eqn:E end; [|done].
  intros [= -> ->]. apply bind_Ok in E as ([v|]&wa&Ea&E); [by apply recovered in E|].
  pose proof (reservation_by_source_placing (rn_id r) now (rn_id r) w Hs) as [Pa Sa]. rewrite Ea in Pa, Sa. cbn in Pa, Sa.
  apply by_source_none in Ea; [|done].
  apply bind_Ok in E as ([k ds]&wb&Eb&E).
  pose proof (run_worker_placing (rn_id r) md mm off local now r p wa Sa) as [Pb Sb]. rewrite Eb in Pb, Sb. cbn in Pb, Sb.
  apply bind_Ok in E as (durable&wc&Ec&E).
  pose proof (agent_placing (rn_id r) local k wb Sb) as [Pc Sc]. rewrite Ec in Pc, Sc. cbn in Pc, Sc.
  destruct durable; cbn [negb] in E; [|done]. apply bind_Ok in E as ([x|l]&wd&Ed&E).
  { apply run_candidates_refused in Ed as (?&?&->). done. }
  pose proof (run_candidates_placing (rn_id r) now p k ds wc Sc) as [Pd Sd]. rewrite Ed in Pd, Sd. cbn in Pd, Sd.
  apply bind_Ok in E as (snapshots&we&Ee&E).
  pose proof (snapshot_placing (rn_id r) fits now k (dedup l) r p wd Sd) as [Pe Se]. rewrite Ee in Pe, Se. cbn in Pe, Se.
  apply snapshot_run in Ee. apply bind_Ok in E as ([v|]&w6&Ef&E); [|done]. injection E as -> <- <- ->.
  exists wa, ds, wb, wc, l, wd, we, v. split_and!; try done; by etrans.
Qed.
Lemma placing_traits src w w' : placing_rel src w w' → traits <$> db_devices (w_db w') = traits <$> db_devices (w_db w).
Proof. by intros [[_ [E _]] _]. Qed.
Lemma placing_quiet src w w' : placing_rel src w w' → fetchall (source_active src) (db_reservations (w_db w)) = [] →
  fetchall (source_active src) (db_reservations (w_db w')) = [].
Proof. by intros [[_ [_ E]] _]. Qed.
Lemma placing_wf src w w' : placing_rel src w w' → wf (w_claims w) → wf (w_claims w').
Proof. intros [_ H] Hw. by apply H. Qed.
Lemma payload_id i d v : reservation_payload i d = Some v → rv_id v = i.
Proof. unfold reservation_payload. destruct (order_by _ _); [done|]. by intros [= <-]. Qed.
(** The devices of a new selection, and what they were before. *)
Lemma selection_reserved w i res devs w' :
  settled w → wf (w_claims w) → inventory_keyed (w_db w) → plain_devices (db_devices (w_db w)) →
  rn_id r ≠ "" → i ≠ "" → (∀ v, v ∈ run_devices r → plain_id (qualify i v)) →
  select_devices md mm off local fits now r p w = (Ok (Selected i res devs false), w') →
  ∃ ds w3 l w3' w5 rows, settled w3 ∧ placing_rel (rn_id r) w w3 ∧
    (run_devices r ≠ [] → ds = run_devices r) ∧ (asked_worker ≠ "auto" → i = asked_worker ∧ ds = run_devices r) ∧
    run_candidates now p i ds w3 = (Ok (inr l), w3') ∧ devs.*1 = dedup l ∧ placing_rel (rn_id r) w3 w5 ∧
    fetchall (source_active (rn_id r)) (db_reservations (w_db w5)) = [] ∧
    dev_id <$> rows = dedup l ∧ just_reserved now i res (run_owner r) (rn_id r) rows (w_db w5) w'.
Proof.
  intros Hs Hw Hk Hp Hsrc Hi Hv E.
  destruct (selection_steps w i res devs w' Hs Hsrc E)
    as (w1&ds&w2&w3&l&w3'&w4&v&P1&S1&Hquiet&E2&P3&S3&E3&P4&Hdevs&E4&Hres).
  pose proof (placing_traits _ _ _ P1) as T1. pose proof (placing_traits _ _ _ P3) as T3.
  assert (inventory_keyed (w_committed w1)) as K1 by (rewrite S1; exact (traits_keyed _ _ T1 Hk)).
  destruct (run_worker_run w1 i ds w2 K1 E2) as (Hnamed&Hasked&Hauto). rewrite S1 in K1, Hauto.
  assert (Forall (λ j, plain_id j ∧ qualify i j = j) l) as Hl.
  { eapply (selected_plain w3 i ds l w3'); rewrite ?S3; try done.
    - exact (traits_keyed _ _ T3 K1).
    - apply (traits_plain (db_devices (w_db w))); [congruence|done].
    - intros Hr j Hj. destruct (Hauto Hr j Hj) as (d&Hd&Hd1&Hd2). destruct (traits_in _ _ d (eq_sym T3) Hd) as (d'&Hd'&Ht).
      exists d'. destruct (traits_same d' d Ht) as (?&?&?&?&->). done. }
  assert (placing_rel (rn_id r) w w4) as P by (etrans; [exact P1|by etrans]).
  apply reserve_devices_new in E4 as (j&rows&w5&Hrows&Hpay&P5&Hj); [|by eapply placing_wf| |done].
  2:{ eapply placing_quiet; [exact P4|]. by eapply placing_quiet. }
  apply eq_sym, payload_id in Hpay. assert (j = res) as -> by congruence.
  assert (placing_rel (rn_id r) w w3) by (by trans w1). assert (placing_rel (rn_id r) w3 w5) as P35 by (by trans w4).
  assert (placing_rel (rn_id r) w1 w5) as P15 by (by trans w3). pose proof (placing_quiet _ _ _ P15 Hquiet).
  exists ds, w3, l, w3', w5, rows. repeat (split; [assumption|]). exact Hj.
Qed.
End selection.

(** [C15] What a run gets.  When the devices of a run are selected anew, each of them is reserved for
    it: the device is on the chosen worker and marked reserved, nobody leases it, the one active
    reservation it has is the run's, under the account that started the run, and a live claim of the
    registry fences it; no device behind a proxy is flashed.  No other reservation is the run's.  A
    run that named its devices gets these; one that named neither devices nor left the worker open
    gets as many as it needs, and all meet its conditions. *)
Theorem selection_sound `{Uuid} md mm off local fits now r p w i res devs w' :
  settled w → wf (w_claims w) → inventory_keyed (w_db w) → plain_devices (db_devices (w_db w)) →
  rn_id r ≠ "" → i ≠ "" → (∀ v, v ∈ run_devices r → plain_id (qualify i v)) →
  select_devices md mm off local fits now r p w = (Ok (Selected i res devs false), w') →
  (∀ id, id ∈ devs.*1 → reserved_for local r p w' i res id) ∧
  (∀ y, y ∈ db_reservations (w_db w') → source_active (rn_id r) y = true → rs_reservation_id y = res ∧ rs_device_id y ∈ devs.*1) ∧
  NoDup devs.*1 ∧
  (run_devices r ≠ [] → devs.*1 = dedup (qualify i <$> run_devices r)) ∧
  (run_devices r = [] → asked_worker local r p ≠ "auto" → i = asked_worker local r p ∧ Z.of_nat (length devs) = minimum p).
Proof.
  intros Hs Hw Hk Hp Hsrc Hi Hv E.
  destruct (selection_reserved md mm off local fits now r p w i res devs w' Hs Hw Hk Hp Hsrc Hi Hv E)
    as (ds&w3&l&w3'&w5&rows&S3&P3&Hnamed&Hasked&E3&Hdevs&P5&Hquiet&Hrows&Hj).
  pose proof (placing_traits _ _ _ P3) as T3. pose proof (placing_traits _ _ _ P5) as T5.
  pose proof (traits_keyed _ _ T3 Hk) as K3. pose proof (traits_keyed _ _ T5 K3) as K5.
  destruct (run_candidates_run now p i ds w3 l w3') as (Huns&Hqual&Hnone); [by rewrite S3|done..|]. rewrite S3 in *.
  rewrite Hdevs. split_and!.
  - rewrite <-Hrows. apply (just_reserved_for local now r p i res rows (w_db w5)); [done..|].
    intros x Hx Hxi Hin. rewrite Hrows, elem_of_dedup in Hin. destruct (traits_in _ _ x T5 Hx) as (y&Hy&Ht).
    destruct (traits_same y x Ht) as (?&?&?&?&Ex). rewrite Ex in Hxi, Hin |- *. cbn in Hxi, Hin. split; [by apply (Huns y)|].
    intros Hr Ha. destruct (Hasked Ha) as [_ Hds]. destruct (Hnone ltac:(congruence)) as (_&_&Hall).
    destruct (Hall _ Hin) as (z&Hz&Hzi&_&Hsel). assert (z = y) as -> by (by eapply (keyed_inj (w_db w3))).
    unfold selectable in Hsel. by bool_props.
  - intros y Hy Ha. destruct Hj as (xs&Hxs&Hr&_). rewrite Hr in Hy. apply elem_of_app in Hy as [Hy|Hy].
    + exfalso. apply (not_elem_of_nil y). rewrite <-Hquiet. by apply elem_of_fetchall.
    + destruct (reserving_of _ _ _ _ _ _ _ Hxs Hy) as (x&Hx&->&->&_). split; [done|]. rewrite <-Hrows. by apply list_elem_of_fmap_2.
  - apply dedup_NoDup.
  - intros Hr. by rewrite (Hqual ltac:(rewrite (Hnamed Hr); done)), (Hnamed Hr).
  - intros Hr Ha. destruct (Hasked Ha) as [-> Hds]. destruct (Hnone ltac:(congruence)) as (Hlen&Hnd&_). split; [done|].
    rewrite <-Hlen. f_equal. rewrite <-(length_fmap fst), Hdevs. apply Permutation_length, NoDup_Permutation; [apply dedup_NoDup|done|].
    intros x. apply elem_of_dedup.
Qed.

(** ** A run that asks again *)

(** What makes a reservation. *)
Definition reservation_key (y : reservation) : string * string * string * string :=
  (rs_reservation_id y, rs_device_id y, rs_source_id y, rs_worker_id y).
Definition reservation_keys (d : db) : list (string * string * string * string) := reservation_key <$> db_reservations d.
Definition same_keys : relation world := reads reservation_keys eq.
#[export] Instance same_keys_store : StoreRel same_keys := reads_store _ _.
(** The rows of active reservations name devices and owners the registry takes. *)
Definition plain_reservations (d : db) : Prop := ∀ y, y ∈ db_reservations d → reservation_is_active y = true →
  plain_id (rs_device_id y) ∧ qualify (rs_worker_id y) (rs_device_id y) = rs_device_id y ∧ strip (rs_owner_id y) ≠ "".

Lemma keys_update p f l : (∀ y, reservation_key (f y) = reservation_key y) → reservation_key <$> update_where p f l = reservation_key <$> l.
Proof. intros Hf. by apply fmap_update_where. Qed.
Ltac keys_leaf :=
  lazymatch goal with
  | |- preserves (txn_rel _) (claims_op _) => apply claims_op_txn; intros ?; apply reads_claims, _
  | |- preserves (top_rel _) (claims_op _) => apply claims_op_top; intros ?; apply reads_claims, _
  | |- preserves _ (sql _) => apply reads_sql; intros ?; first [reflexivity | symmetry; apply keys_update; by intros []]
  | |- preserves _ _ => solve [eauto with gms]
  end.
Ltac keys_walk := repeat first [walk_step | progress cbv zeta | keys_leaf].
Lemma strip_letter a s : is_space a = false → strip (String a s) ≠ "".
Proof. intros Ha. unfold strip. cbn. rewrite Ha. cbn. destruct (rstrip s); [by rewrite Ha|done]. Qed.

Section again.
Context `{U : Uuid} (now : Z).

Lemma for_each_releases l w :
  ∃ w', for_each l (λ i, _ ← claims_op (release now ("reservation:" +:+ i) "expired" []); mret tt) w = (Ok tt, w') ∧
    w_db w' = w_db w ∧ w_committed w' = w_committed w.
Proof.
  revert w. induction l as [|i l IH]; intros w; cbn [for_each]; [by exists w|].
  destruct (release_claims_op now ("reservation:" +:+ i) "expired" w) as (n&s&_&E); [done|].
  destruct (IH (w <| w_claims ::= λ r, r <| rg_claims ::=
    update_where (λ c, source_is ("reservation:" +:+ i) c && is_active c && true) (retire now s) |> |>)) as (w'&E'&Hd&Hc).
  exists w'. unfold mbind at 1, M_bind at 1. rewrite (bind_run _ _ _ _ _ E). unfold mret at 1, M_ret at 1. by rewrite E'.
Qed.
Lemma expire_run w : ∃ n w', expire_device_reservations now w = (Ok n, w') ∧ w_committed w' = w_committed w ∧
  db_reservations (w_db w') = update_where (reservation_overdue now) (end_reservation now ResExpired) (db_reservations (w_db w)).
Proof.
  unfold expire_device_reservations. rewrite bind_select. case_bool_decide as Er.
  { eexists _, w. split_and!; [done..|]. rewrite update_where_id; [done|]. intros y Hy Ho. exfalso. apply (not_elem_of_nil y). rewrite <-Er. by apply elem_of_fetchall. }
  rewrite bind_sql, bind_for_each_sql, bind_select. cbv zeta.
  match goal with |- context [mbind _ (for_each ?l _) ?w1] => destruct (for_each_releases l w1) as (w'&E&Hd&Hc) end.
  rewrite (bind_run _ _ _ _ _ E). eexists _, w'. split; [reflexivity|]. rewrite Hc, Hd. split; [done|].
  cbn. by rewrite (foldl_frame db_reservations).
Qed.
Lemma plain_normalized l q : q ∈ l → plain_request q → ∃ req, DeviceClaims.normalize_devices l = Ok req.
Proof.
  intros Hq (H1&H2&H3&H4).
  destruct (normalize_from_in [] l q Hq) as (d&Hd&_); [apply not_elem_of_nil|congruence|done..|].
  unfold DeviceClaims.normalize_devices. destruct (normalize_from [] l); [by apply not_elem_of_nil in Hd|by eexists].
Qed.
Lemma acquire_answers ds ow us st so ttl r req : wf r → DeviceClaims.normalize_devices ds = Ok req → strip ow ≠ "" → strip so ≠ "" →
  ∃ b recs r', acquire now ds ow us st so ttl true r = (Ok (b, recs), r').
Proof.
  intros Hw Hn How Hso.
  destruct (conflicts_of (strip ow) (strip so) true (expire now (rg_claims r)) req) as [|c cs] eqn:Hc.
  - destruct (acquire_ok now ds ow us st so ttl true r req Hw Hn How Hso Hc) as (recs&r'&E&_). by eauto.
  - unfold acquire, nonempty. rewrite Hn, !bool_decide_eq_true_2 by done. cbn [negb orb]. cbv zeta. rewrite Hc. by eauto.
Qed.
(** Renewal answers, one way or the other. *)
Lemma renew_answers i ttl w : wf (w_claims w) → plain_reservations (w_db w) → ∃ b w', renew_reservation now i ttl w = (Ok b, w').
Proof.
  intros Hw Hp. unfold renew_reservation.
  match goal with |- ∃ b w', transaction ?m w = _ => enough (∃ b w', m w = (Ok b, w')) as (b&w'&E) by
    (eexists _, _; by apply transaction_Ok) end.
  destruct (expire_run w) as (n&w1&E1&_&Hr). rewrite (bind_run _ _ _ _ _ E1), bind_select.
  assert (wf (w_claims w1)) as Hw1.
  { pose proof (expire_claims now w) as [Hc _]. rewrite E1 in Hc. by apply Hc. }
  destruct (order_by _ _) as [|y rows] eqn:Ey; [by eauto|].
  assert (y ∈ order_by by_device_id (fetchall (active_of i) (db_reservations (w_db w1)))) as Hy by (rewrite Ey; left).
  apply elem_of_order_by, elem_of_fetchall in Hy as [Ha Hy]. unfold active_of in Ha. bool_props.
  rewrite Hr in Hy. apply elem_of_update_where in Hy as (y0&Hy0&->). destruct (reservation_overdue now y0); [done|].
  destruct (Hp y0 Hy0) as (Hp1&Hp2&Hp3); [done|]. unfold connect_read. rewrite bind_gets.
  destruct (claim_devices_plain (rs_worker_id y0) (rs_device_id <$> y0 :: rows) (w_committed w1) (rs_device_id y0))
    as (q&Hq&_&Hqp); [left|by rewrite Hp2|apply Hp1|apply Hp1|].
  destruct (plain_normalized _ _ Hq Hqp) as [req Hn].
  destruct (acquire_answers _ (rs_owner_id y0) (rs_owner_id y0) "cluster-reservation" ("reservation:" +:+ i) ttl (w_claims w1) req Hw1 Hn Hp3)
    as (b&recs&r'&Ea); [by apply strip_letter|].
  assert (claims_op (acquire now (claim_devices (rs_worker_id y0) (rs_device_id <$> y0 :: rows) (w_committed w1)) (rs_owner_id y0)
    (rs_owner_id y0) "cluster-reservation" ("reservation:" +:+ i) ttl true) w1 = (Ok (b, recs), w1 <| w_claims := r' |>)) as Ec
    by (unfold claims_op; by rewrite Ea).
  rewrite (bind_run _ _ _ _ _ Ec). destruct b; rewrite bind_sql; [by eauto|]. rewrite bind_for_each_sql. by eauto.
Qed.
#[local] Hint Resolve expire_claims transition_claims : gms.
Lemma selection_claims md mm off local fits r p : preserves (top_rel claims_rel) (select_devices md mm off local fits now r p).
Proof.
  unfold select_devices, get_reservation_by_source, recover_selection, run_worker, select_worker,
    worker_directory, list_workers, mark_worker_offline, emit_worker_availability, has_command_agent, get_worker, run_candidates,
    snapshot_devices, list_devices, renew_reservation, reserve_devices, reserve_new, renew_same_reservation, reservable_device,
    insert_reservation, refuse_claim, list_suites, lift.
  claims_walk.
Qed.
(** The reservation of a run is found. *)
Lemma by_source_some so w y :
  settled w → so ≠ "" → y ∈ db_reservations (w_db w) → source_active so y = true → reservation_overdue now y = false →
  ∃ v w1 row, get_reservation_by_source now so w = (Ok (Some v), w1) ∧
    db_reservations (w_db w1) = update_where (reservation_overdue now) (end_reservation now ResExpired) (db_reservations (w_db w)) ∧
    row ∈ db_reservations (w_db w1) ∧ source_active so row = true ∧ reservation_payload (rs_reservation_id row) (w_db w1) = Some v.
Proof.
  intros Hs Hso Hy Ha Ho. unfold get_reservation_by_source, nonempty. rewrite bool_decide_eq_true_2 by done. cbn [negb].
  destruct (expire_run w) as (n&w1&E1&_&Hr).
  match goal with |- ∃ v w1 row, transaction ?body w = _ ∧ _ => set (m := body) end.
  destruct (order_by (λ a b, stamp_leb (rs_acquired_at b) (rs_acquired_at a))
    (fetchall (λ r, streqb (rs_source_id r) so && reservation_is_active r) (db_reservations (w_db w1)))) as [|row rows] eqn:El.
  { exfalso. apply order_by_nil in El. apply (not_elem_of_nil y). rewrite <-El. apply elem_of_fetchall. split; [done|].
    rewrite Hr. by apply elem_of_update_where_keep. }
  assert (row ∈ order_by (λ a b, stamp_leb (rs_acquired_at b) (rs_acquired_at a))
    (fetchall (λ r, streqb (rs_source_id r) so && reservation_is_active r) (db_reservations (w_db w1)))) as Hrow by (rewrite El; left).
  apply elem_of_order_by, elem_of_fetchall in Hrow as [Hra Hrow].
  destruct (reservation_payload (rs_reservation_id row) (w_db w1)) as [v|] eqn:Ev.
  - exists v, (w1 <| w_committed := w_db w1 |>), row. split_and!; [|done..]. apply transaction_Ok. subst m.
    rewrite (bind_run _ _ _ _ _ E1). unfold select, gets. by rewrite El; cbn; rewrite Ev.
  - exfalso. unfold reservation_payload in Ev. destruct (order_by by_device_id _) eqn:Eo; [|done].
    apply order_by_nil in Eo. apply (not_elem_of_nil row). rewrite <-Eo. apply elem_of_fetchall. split; [by apply bool_decide_eq_true|done].
Qed.
Lemma by_source_keys so : preserves (top_rel same_keys) (get_reservation_by_source now so).
Proof. unfold get_reservation_by_source, expire_device_reservations, free_reserved_device. keys_walk. Qed.
Lemma recover_keys fits r p v : preserves (top_rel same_keys) (recover_selection fits now r p v).
Proof.
  unfold recover_selection, renew_reservation, snapshot_devices, list_devices, expire_device_reservations, free_reserved_device, lift.
  keys_walk.
Qed.
Lemma for_each_lift {A} (f : A → result unit) l (w : world) :
  for_each l (λ a, lift (f a)) w = (Ok tt, w) ∨ ∃ a e, f a = Err e ∧ for_each l (λ a, lift (f a)) w = (Err e, w).
Proof.
  induction l as [|a l IH]; cbn [for_each]; [by left|]. unfold mbind, M_bind, lift. destruct (f a) as [[]|e] eqn:E; [|by right; exists a, e].
  exact IH.
Qed.
(** Why a run with AOA recovery may be refused. *)
Definition aoa_refusal (fits : Automation.run → option device_row → result unit) (r : Automation.run) (p : placement_plan) (e : exn) : Prop :=
  pl_aoa_recovery p = true ∧
  (e = ValueError "AOA recovery requires a physical USB port before flashing" ∨ ∃ d, fits r d = Err e).
Lemma snapshot_answers fits worker_id ids r p w :
  (∃ devs, (snapshot_devices fits now worker_id ids r p w).1 = Ok devs ∧ devs.*1 = ids) ∨
  ∃ e, (snapshot_devices fits now worker_id ids r p w).1 = Err e ∧ aoa_refusal fits r p e.
Proof.
  unfold snapshot_devices. destruct (list_devices_run now worker_id w) as (rows&w1&E1&_).
  rewrite (bind_run _ _ _ _ _ E1). cbv zeta. rewrite bind_require.
  destruct (pl_aoa_recovery p) eqn:Ha; cbn [negb orb].
  2:{ left. eexists. split; [done|]. rewrite <-list_fmap_compose, (list_fmap_ext _ id) by done. apply list_fmap_id. }
  destruct (forallb _ _); [|right; eexists; split; [done|]; by split; [|left]].
  cbn [when].
  destruct (for_each_lift (λ i, fits r (device_of rows.*1 i)) ids w1) as [E|(i&e&Ef&E)]; unfold mbind, M_bind; rewrite E; cbn.
  - left. eexists. split; [done|]. rewrite <-list_fmap_compose, (list_fmap_ext _ id) by done. apply list_fmap_id.
  - right. exists e. split; [done|]. split; [done|]. right. by eexists.
Qed.
(** What a recovered run is told. *)
Lemma recover_run fits r p v w :
  settled w → wf (w_claims w) → plain_reservations (w_db w) →
  ((recover_selection fits now r p v w).1 = Ok (Refused false no_proxies) ∧
     ∃ d, d ∈ db_devices (w_db w) ∧ unsupported p d = true ∧ dev_id d ∈ (rv_devices v).*1) ∨
  (∃ devs, (recover_selection fits now r p v w).1 = Ok (Selected (rv_worker_id v) (rv_id v) devs true) ∧ devs.*1 = (rv_devices v).*1) ∨
  ∃ e, (recover_selection fits now r p v w).1 = Err e ∧ aoa_refusal fits r p e.
Proof.
  intros Hs Hw Hp. unfold recover_selection. destruct (list_devices_run now (rv_worker_id v) w) as (rows&w1&E1&Hin&Hdb).
  pose proof (list_devices_placing "" now (rv_worker_id v) w Hs) as [P1 S1]. rewrite E1 in P1, S1. cbn in P1, S1.
  rewrite (bind_run _ _ _ _ _ E1). destruct (existsb _ _) eqn:Ee.
  - left. split; [done|]. change (exists_row (holds_of (unsupported p) rows.*1) (rv_devices v).*1 = true) in Ee.
    apply exists_row_true in Ee as (j&Hj&Hu). unfold holds_of, device_of in Hu.
    destruct (fetchone _ _) as [d|] eqn:Ef; [|done]. apply fetchone_Some in Ef as [Hd Hb]. bool_props.
    rewrite Hin in Hd. apply elem_of_fetchall in Hd as [_ Hd]. rewrite Hs in Hd. exists d. by subst j.
  - right. destruct (renew_answers (rv_id v) 21600 w1) as (b&w2&E2); [exact (placing_wf _ _ _ P1 Hw)|by rewrite Hdb|].
    rewrite (bind_run _ _ _ _ _ E2). unfold mbind, M_bind.
    destruct (snapshot_answers fits (rv_worker_id v) (rv_devices v).*1 r p w2) as [(devs&Ed&Hdevs)|(e&Ed&He)];
    destruct (snapshot_devices _ _ _ _ _ _ w2) as [a w3]; cbn in Ed |- *; subst a; cbn; [left|right]; eauto.
Qed.
Lemma payload_devices i d v : reservation_payload i d = Some v →
  ∀ id, id ∈ (rv_devices v).*1 ↔ ∃ y, y ∈ db_reservations d ∧ rs_reservation_id y = i ∧ rs_device_id y = id.
Proof.
  unfold reservation_payload. destruct (order_by _ _) as [|y l] eqn:E; [done|]. intros [= <-] id. cbn [rv_devices].
  transitivity (id ∈ rs_device_id <$> y :: l); [cbn; by rewrite <-list_fmap_compose|].
  rewrite list_elem_of_fmap, <-E. setoid_rewrite elem_of_order_by. setoid_rewrite elem_of_fetchall.
  unfold reservation_is, streqb. setoid_rewrite bool_decide_eq_true. cbn. naive_solver.
Qed.
Lemma keys_in d d' y : reservation_keys d' = reservation_keys d → y ∈ db_reservations d' →
  ∃ x, x ∈ db_reservations d ∧ reservation_key x = reservation_key y.
Proof.
  unfold reservation_keys. intros E Hy. assert (reservation_key y ∈ reservation_key <$> db_reservations d) as (x&Hx&Hin)%list_elem_of_fmap
    by (rewrite <-E; by apply list_elem_of_fmap_2). by exists x.
Qed.
End again.

(** [C16] A run that asks again.  When a run that still has a reservation selects its devices again, as
    after a restart of the controller between reserving and noting it, nothing else is reserved, and it
    is given that reservation with exactly its devices, or refused for one of these reasons: firmware
    is to be flashed and a device of the reservation has moved behind a proxy; or, for a run with AOA
    recovery only, a device is not known to be on a USB port or does not fit the recovery profile. *)
Theorem selection_recovers `{Uuid} md mm off local fits now r p w y :
  settled w → wf (w_claims w) → plain_reservations (w_db w) → rn_id r ≠ "" →
  y ∈ db_reservations (w_db w) → source_active (rn_id r) y = true → reservation_overdue now y = false →
  let (a, w') := select_devices md mm off local fits now r p w in
  reservation_keys (w_db w') = reservation_keys (w_db w) ∧
  (∃ x, x ∈ db_reservations (w_db w) ∧ source_active (rn_id r) x = true ∧
     let held id := ∃ z, z ∈ db_reservations (w_db w) ∧ rs_reservation_id z = rs_reservation_id x ∧ rs_device_id z = id in
     (∃ i devs, a = Ok (Selected i (rs_reservation_id x) devs true) ∧ ∀ id, id ∈ devs.*1 ↔ held id) ∨
     (a = Ok (Refused false no_proxies) ∧ requires_local_usb p = true ∧
        ∃ d, d ∈ db_devices (w_db w) ∧ proxied d = true ∧ held (dev_id d)) ∨
     ∃ e, a = Ok (Refused (is_value_error e) (exn_text e)) ∧ aoa_refusal fits r p e).
Proof.
  intros Hs Hw Hp Hsrc Hy Ha Ho.
  destruct (by_source_some now (rn_id r) w y Hs Hsrc Hy Ha Ho) as (v&w1&row&E1&Hr&Hrow&Hra&Hv).
  pose proof (by_source_keys now (rn_id r) w Hs) as [K1 S1]. pose proof (reservation_by_source_placing "" now (rn_id r) w Hs) as [P1 _].
  rewrite E1 in K1, S1, P1. cbn in K1, S1, P1. destruct K1 as [_ K1].
  assert (∀ z, z ∈ db_reservations (w_db w1) → reservation_is_active z = true → z ∈ db_reservations (w_db w)) as Hback.
  { rewrite Hr. intros z (z0&Hz&->)%elem_of_update_where. by destruct (reservation_overdue now z0). }
  pose proof (recover_keys now fits r p v w1 S1) as [[_ K2] _]. cbn in K2. 
  assert (plain_reservations (w_db w1)) as Hp1 by (intros z Hz Hza; by apply Hp; [apply Hback|]).
  pose proof (recover_run now fits r p v w1 S1 (placing_wf _ _ _ P1 Hw) Hp1) as Hrun.
  unfold select_devices, try. rewrite (bind_run _ _ _ _ _ E1). cbv beta iota.
  destruct (recover_selection fits now r p v w1) as [a w2]. cbn in K2, Hrun.
  assert (reservation_keys (w_db w2) = reservation_keys (w_db w)) as K3 by congruence.
  destruct a as [sel|e]; (split; [exact K3|]); destruct (proj1 (andb_true_iff _ _) Hra) as [_ Hact];
  exists row; (split_and!; [by apply Hback|done|]).
  2:{ destruct Hrun as [[? _]|[(?&?&_)|(e'&[= ->]&He)]]; [done..|]. right. right. by exists e'. }
  assert (∀ id, id ∈ (rv_devices v).*1 ↔ ∃ z, z ∈ db_reservations (w_db w) ∧ rs_reservation_id z = rs_reservation_id row ∧ rs_device_id z = id) as Hdev.
  { intros id. rewrite (payload_devices _ _ _ Hv). split; intros (z&Hz&<-&<-).
    - destruct (keys_in (w_db w) (w_db w1) z (eq_sym K1) Hz) as (x&Hx&Ek). exists x. unfold reservation_key in Ek. by injection Ek as -> -> _ _.
    - destruct (keys_in (w_db w1) (w_db w) z K1 Hz) as (x&Hx&Ek). exists x. unfold reservation_key in Ek. by injection Ek as -> -> _ _. }
  destruct Hrun as [[[= ->] (d&Hd&Hu&Hin)]|[(devs&[= ->]&Hdevs)|(?&?&_)]]; [| |done].
  - right. left. unfold unsupported in Hu. apply andb_true_iff in Hu as [Hu1 Hu2].
    destruct (traits_in _ _ d (placing_traits _ _ _ P1) Hd) as (d'&Hd'&Ht). destruct (traits_same d' d Ht) as (?&?&?&?&->).
    split_and!; [done..|]. exists d'. by rewrite <-Hdev.
  - left. rewrite (payload_id _ _ _ Hv). exists (rv_worker_id v), devs. split; [done|]. by rewrite Hdevs.
Qed.

(** ** The check of a new run *)

(** Workers are only ever marked lost. *)
Definition lost_only (x y : list worker) : Prop := ∀ k, k ∈ y → k ∈ x ∨ wk_status k = WorkerOffline.
Definition lost_rel : relation world := reads db_workers lost_only.
#[export] Instance lost_only_preorder : PreOrder lost_only.
Proof. split; unfold lost_only; [by left|]. intros x y z H1 H2 k [Hk|Hk]%H2; [by apply H1|by right]. Qed.
#[export] Instance lost_rel_store : StoreRel lost_rel := reads_store _ _.
Ltac lost_leaf :=
  lazymatch goal with
  | |- preserves (txn_rel _) (claims_op _) => apply claims_op_txn; intros ?; apply reads_claims, _
  | |- preserves (top_rel _) (claims_op _) => apply claims_op_top; intros ?; apply reads_claims, _
  | |- preserves _ uuid4_hex => first [apply uuid_txn | apply uuid_top]; intros ?; apply reads_draw, _
  | |- preserves _ (append_timeline_conn _ _) => apply reads_sql_frame; [apply _|reflexivity]
  | |- preserves _ (sql _) => apply reads_sql_frame; [apply _|intros ?; reflexivity]
  | |- preserves _ _ => solve [eauto with gms]
  end.
Ltac lost_walk := repeat first [walk_step | progress cbv zeta | lost_leaf].

Section preparing.
Context (now : Z).

Lemma transition_lost j st so m e oi wi pl : preserves (txn_rel lost_rel) (transition_job_conn now j st so m e oi wi pl).
Proof. unfold transition_job_conn. lost_walk. Qed.
#[local] Hint Resolve transition_lost : gms.
Lemma mark_offline_lost i : preserves (top_rel lost_rel) (mark_worker_offline now i).
Proof.
  unfold mark_worker_offline, emit_worker_availability. lost_walk.
  apply reads_sql. intros d k (x&Hx&->)%elem_of_update_where. destruct (streqb _ _); [by right|by left].
Qed.
#[local] Hint Resolve mark_offline_lost : gms.
Context (md mm : Q) (off : Z) (local : string) (full : Q).
Lemma directory_lost : preserves (top_rel lost_rel) (worker_directory off local now).
Proof. unfold worker_directory, list_workers. lost_walk. Qed.
Lemma list_devices_lost i : preserves (top_rel lost_rel) (list_devices now i).
Proof. unfold list_devices. lost_walk. Qed.
#[local] Hint Resolve directory_lost list_devices_lost : gms.
Lemma select_worker_lost q : preserves (top_rel lost_rel) (select_worker md mm off local now q).
Proof. unfold select_worker, list_suites. lost_walk. Qed.
#[local] Hint Resolve select_worker_lost : gms.
Lemma try_suite_lost p all x : preserves (top_rel lost_rel) (try_suite md mm off local now p all x).
Proof. unfold try_suite. lost_walk. Qed.

(** The worker of a decision may take tests. *)
Lemma offered q suites inventory k l : offer md mm local q suites inventory k = Some l →
  blocked (worker_admission_state md mm k 0) = false ∧ (dm_require_agent q = true → no_agent local (wk_id k) k = false).
Proof.
  unfold offer. cbv zeta. match goal with |- (if ?b then None else _) = _ → _ => destruct b eqn:Eb; [done|] end.
  match goal with |- match ?x with Some _ => _ | None => None end = _ → _ => destruct x as [selected|]; [|done] end.
  destruct (blocked _); [done|]. intros _. split; [done|].
  intros Ha. rewrite Ha in Eb. by bool_props.
Qed.
(** A worker that may take a run: heard from, admitted, and an agent of its own. *)
Definition ready (memory : Q) (i : string) (d : db) : Prop :=
  (∃ k, k ∈ db_workers d ∧ wk_id k = i ∧ heartbeat_lost off now k = false ∧ blocked (worker_admission_state md mm k memory) = false) ∧
  ∃ k, k ∈ db_workers d ∧ wk_id k = i ∧ wk_status k ≠ WorkerOffline ∧ no_agent local i k = false.
Lemma admitted_online k memory : blocked (worker_admission_state md mm k memory) = false → wk_status k ≠ WorkerOffline.
Proof. intros H E. apply admission_exact in H as [[?|?] _]; congruence. Qed.
Lemma admitted_seen k memory : blocked (worker_admission_state md mm (seen off now k) memory) = false →
  heartbeat_lost off now k = false ∧ blocked (worker_admission_state md mm k memory) = false.
Proof.
  intros H. pose proof (admitted_online _ _ H) as Ho. unfold seen in *. by destruct (heartbeat_lost off now k).
Qed.
Lemma select_worker_ready q w i ids w' : dm_require_agent q = true →
  select_worker md mm off local now q w = (Ok (i, ids), w') → ready 0 i (w_committed w).
Proof.
  intros Ha. unfold select_worker. destruct (list_suites_all w) as (suites&Es&_). rewrite (bind_run _ _ _ _ _ Es).
  destruct (list_devices_all now w) as (rows&w1&Er&_&Hc). rewrite (bind_run _ _ _ _ _ Er).
  pose proof (directory_all off local now w1) as Hdir. rewrite Hc in Hdir.
  intros (workers&w2&Ed&E)%bind_Ok. rewrite Ed in Hdir. cbn in Hdir.
  destruct (candidates _ _ _ _ _ _ _) as [|c l] eqn:Ec; [done|]. injection E as <- <- _.
  destruct (best_spec c l) as [Hin _]. rewrite <-Ec in Hin. apply list_elem_of_omap in Hin as (k&Hk&Eo).
  destruct (offer _ _ _ _ _ _ k) as [sel|] eqn:E; [|done]. injection Eo as <-. cbn.
  apply offered in E as [Hb Hg]. specialize (Hg Ha). rewrite Hdir in Hk. apply list_elem_of_fmap in Hk as (k0&->&Hk).
  apply admitted_seen in Hb as [Hh Hb]. rewrite (seen_kept off now k0 Hh) in *.
  pose proof (admitted_online _ _ Hb). split; by exists k0.
Qed.
Lemma ready_back memory i d d' : lost_only (db_workers d) (db_workers d') → ready memory i d' → ready memory i d.
Proof.
  intros Hl [(k&Hk&Hi&Hh&Hb) (x&Hx&Hxi&Hxs&Hxa)]. split.
  - exists k. split_and!; [|done..]. destruct (Hl k Hk) as [|E]; [done|]. by apply admitted_online in Hb.
  - exists x. split_and!; [|done..]. by destruct (Hl x Hx).
Qed.
Lemma agent_run i w b w' : has_command_agent local i w = (Ok b, w') → w' = w ∧
  (b = true → ∃ k, k ∈ db_workers (w_committed w) ∧ wk_id k = i ∧ wk_status k ≠ WorkerOffline ∧ no_agent local i k = false).
Proof.
  unfold has_command_agent, get_worker, connect_read. rewrite bind_gets. intros [= <- <-]. split; [done|].
  destruct (get_worker_row _ _) as [k|] eqn:E; [|done]. apply fetchone_Some in E as [Hk Hi]. intros Hb.
  apply andb_true_iff in Hb as [Hs Ha]. exists k. unfold streqb in Hi. bool_props. split_and!; try done.
  apply orb_true_iff in Hs as [Hs|Hs]; bool_props; congruence.
Qed.
Lemma chosen_worker_ready p all i w x w' : settled w →
  chosen_worker md mm off local full now p all i w = (Ok x, w') → x ∈ all ∧ su_worker_id x = i ∧ ready (required_memory full p) i (w_db w).
Proof.
  intros Hs. unfold chosen_worker. intros (workers&w1&E1&E)%bind_Ok. pose proof (directory_lost w Hs) as [[_ Hl] S1].
  pose proof (directory_all off local now w) as Hdir. rewrite E1 in Hl, S1, Hdir. cbn in Hl, S1, Hdir.
  destruct (worker_of i workers) as [k|] eqn:Ek; [|done]. rewrite bind_require in E. destruct (_ || _) in E; [|done].
  apply bind_Ok in E as (durable&w2&E2&E). apply agent_run in E2 as [-> Ha]. rewrite bind_require in E.
  destruct durable; [|done]. cbv zeta in E. rewrite bind_require in E. destruct (blocked _) eqn:Eb; [done|].
  destruct (fetchone _ all) as [y|] eqn:Ef; [|done]. injection E as -> _. apply fetchone_Some in Ef as [Hx Hxi].
  apply fetchone_Some in Ek as [Hk Hki]. rewrite Hdir in Hk. apply list_elem_of_fmap in Hk as (k0&->&Hk).
  apply admitted_seen in Eb as [Hh Hb]. rewrite (seen_kept off now k0 Hh) in Hki. unfold streqb in *. bool_props. split_and!; [done..|].
  rewrite Hs in Hk. split; [by exists k0|]. destruct (Ha eq_refl) as (z&Hz&?&?&?). rewrite S1 in Hz. exists z.
  split_and!; [|done..]. by destruct (Hl z Hz).
Qed.
Lemma try_suite_ready p all y w r w' x : settled w →
  try_suite md mm off local now p all y w = (Ok r, w') → r.1 = Some x → x ∈ all ∧ ready 0 (su_worker_id x) (w_db w).
Proof.
  intros Hs. unfold try_suite. intros (workers&w1&E1&E)%bind_Ok Hr.
  assert (lost_only (db_workers (w_db w)) (db_workers (w_db w1)) ∧ settled w1) as [L1 S1].
  { destruct (advanced p); [pose proof (directory_lost w Hs) as [[_ Hl] S1]; by rewrite E1 in Hl, S1|by injection E1 as _ <-]. }
  destruct (_ && _) in E; [by injection E as <- _|]. apply bind_Ok in E as (matches&w2&E2&E).
  assert (lost_only (db_workers (w_db w)) (db_workers (w_db w2)) ∧ settled w2) as [L2 S2].
  { destruct (constrained _); [|by injection E2 as _ <-]. apply bind_Ok in E2 as (rows&w3&E3&[= _ <-]).
    pose proof (list_devices_lost (su_worker_id y) w1 S1) as [[_ Hl] S3]. rewrite E3 in Hl, S3. cbn in Hl, S3. split; [by etrans|done]. }
  destruct (Z.ltb _ _); [by injection E as <- _|]. apply bind_Ok in E as (chosen&w4&E4&[= <- _]). destruct chosen as [i|m]; [|done].
  cbn in Hr. apply fetchone_Some in Hr as [Hx Hb]. apply andb_true_iff in Hb as [Hb _]. unfold streqb in Hb. bool_props. split; [done|].
  unfold try in E4. match type of E4 with match ?m w2 with _ => _ end = _ => destruct (m w2) as [[c|e] w5] eqn:E5 end;
    [|destruct (is_value_error e); discriminate E4].
  injection E4 as -> _. apply bind_Ok in E5 as ([j ids]&w6&E6&[= -> _]). apply select_worker_ready in E6; [|done].
  rewrite S2 in E6. rewrite Hb. by eapply ready_back.
Qed.
Lemma try_suites_ready p all l e w x w' : settled w →
  try_suites md mm off local now p all l e w = (Ok x, w') → x ∈ all ∧ ready 0 (su_worker_id x) (w_db w).
Proof.
  revert e w. induction l as [|y l IH]; intros e w Hs; cbn [try_suites]; [done|]. intros (r&w1&E1&E)%bind_Ok.
  destruct (r.1) as [z|] eqn:Er; [injection E as <- _; by eapply try_suite_ready|].
  pose proof (try_suite_lost p all y w Hs) as [[_ Hl] S1]. rewrite E1 in Hl, S1. cbn in Hl, S1.
  apply IH in E as [Hx Hr]; [|done]. split; [done|]. by eapply ready_back.
Qed.
(** The worker asked for, or [auto]. *)
Definition plan_worker (p : placement_plan) : string := strip (str_or (pl_worker_id p) local).
Lemma choose_suite_ready b p w i x w' : settled w →
  choose_suite md mm off local full now b p w = (Ok (i, x), w') →
  x ∈ db_suites (w_db w) ∧ wanted_suite p x = true ∧ su_worker_id x = i ∧
  ready (if streqb (plan_worker p) "auto" then 0 else required_memory full p) i (w_db w) ∧
  (requires_local_usb p = true → minimum p = 1) ∧
  pl_shard_count p ≤ (if bool_decide (pb_devices b = []) then minimum p else Z.of_nat (length (pb_devices b))).
Proof.
  intros Hs. unfold choose_suite. cbv zeta. fold (plan_worker p). rewrite bind_require. destruct (Z.leb _ _) eqn:Esh; [|done].
  rewrite bind_require. destruct (_ || _) eqn:Em; [|done]. destruct (list_suites_all w) as (suites&Es&Hp).
  rewrite (bind_run _ _ _ _ _ Es). rewrite Hs in Hp. intros E.
  assert (∀ x, x ∈ fetchall (wanted_suite p) suites → x ∈ db_suites (w_db w) ∧ wanted_suite p x = true) as Hin.
  { intros z [Hw Hz]%elem_of_fetchall. by rewrite Hp in Hz. }
  apply Z.leb_le in Esh. assert (requires_local_usb p = true → minimum p = 1) as Hmin.
  { intros Hu. rewrite Hu in Em. cbn in Em. by apply Z.eqb_eq. }
  destruct (streqb (plan_worker p) "auto").
  - apply bind_Ok in E as (z&w1&E1&E). apply try_suites_ready in E1 as [Hz Hr]; [|done].
    apply bind_Ok in E as ([]&w2&_&[= <- <- _]). destruct (Hin z Hz). by split_and!.
  - apply bind_Ok in E as (z&w1&E1&[= <- <- _]). apply chosen_worker_ready in E1 as (Hz&Hi&Hr); [|done]. destruct (Hin z Hz). by split_and!.
Qed.
(** The devices named, once each. *)
Lemma requested_devices_ok i items found l : requested_devices i items found = Ok l → NoDup found →
  NoDup l ∧ ∀ j, j ∈ l → j ∈ found ∨ ∃ v, j = qualify i v.
Proof.
  revert found. induction items as [|x items IH]; intros found; cbn [requested_devices]; cbv zeta.
  { intros [= <-] Hn. split; [done|]. by left. }
  destruct (negb _); [apply IH|]. destruct (_ && _); [done|]. intros E Hn. unfold mem in E.
  case_bool_decide as Em; [by apply IH|]. apply IH in E as [Hl Hall].
  - split; [done|]. intros j Hj. destruct (Hall j Hj) as [[?| ->%list_elem_of_singleton]%elem_of_app|?]; [by left|right; by eexists|by right].
  - apply NoDup_app. split_and!; [done| |apply NoDup_singleton]. by intros j Hj ->%list_elem_of_singleton.
Qed.
Lemma none_filtered (f : string → bool) l : bool_decide (filter (λ i, f i = true) l = []) = true → ∀ i, i ∈ l → f i = false.
Proof.
  rewrite bool_decide_eq_true. intros E i Hi. apply not_true_iff_false. intros Hf. apply (not_elem_of_nil i). rewrite <-E.
  by apply list_elem_of_filter.
Qed.
Lemma check_devices_ok p i l inventory : check_devices p i l inventory = Ok tt →
  (∀ j, j ∈ l → ∃ d, d ∈ inventory ∧ dev_id d = j ∧ dev_state d = "available" ∧ matches_device_selector d (pl_selector p) = true ∧ unsupported p d = false) ∧
  (l ≠ [] → minimum p ≤ Z.of_nat (length l) ∧ (requires_local_usb p = true → length l = 1%nat)) ∧
  (l = [] → minimum p ≤ count (λ d, available d && matches_device_selector d (pl_selector p)) inventory ∧
     minimum p ≤ count (λ d, available d && negb (unsupported p d) && prefix_and_board (pl_selector p) d) inventory).
Proof.
  unfold check_devices. cbv zeta. destruct (bool_decide (filter _ l = [])) eqn:E1; [|done]. cbn [negb].
  destruct (bool_decide (l = [])) eqn:El; [apply bool_decide_eq_true in El|apply bool_decide_eq_false in El]; cbn [andb].
  - subst l. destruct (Z.ltb _ _) eqn:E2; [done|]. destruct (Z.ltb (count (λ r, _ && prefix_and_board _ r) _) _) eqn:E3; [done|]. intros _.
    apply Z.ltb_ge in E2, E3. split_and!; [by intros j ?%not_elem_of_nil|done|done].
  - destruct (bool_decide (filter (λ j, negb _ = true) l = [])) eqn:E2; [|done]. cbn [negb].
    destruct (bool_decide (filter _ l = [])) eqn:E3 in |- *; [|done]. cbn [negb].
    destruct (Z.ltb (Z.of_nat _) _) eqn:E4; [done|]. destruct (_ && _) eqn:E5; [done|]. intros _. apply Z.ltb_ge in E4.
    split_and!; [|intros _; split; [done|]|done].
    + intros j Hj. pose proof (none_filtered _ _ E1 j Hj) as H1. pose proof (none_filtered _ _ E2 j Hj) as H2.
      pose proof (none_filtered _ _ E3 j Hj) as H3. unfold holds_of, device_of, available in *.
      destruct (fetchone _ _) as [d|] eqn:Ed; [|done]. apply fetchone_Some in Ed as [Hd Hb]. unfold streqb in *. bool_props.
      by exists d.
    + intros Hu. rewrite Hu in E5. cbn in E5. apply negb_false_iff, Nat.eqb_eq in E5. done.
Qed.
Lemma choose_suite_settled b p : preserves (top_rel lost_rel) (choose_suite md mm off local full now b p).
Proof.
  unfold choose_suite, list_suites, check_memory, chosen_worker, has_command_agent, get_worker.
  assert (∀ all l e, preserves (top_rel lost_rel) (try_suites md mm off local now p all l e)) as Hsuites.
  { intros all l. induction l as [|x l IH]; intros e; cbn [try_suites]; [lost_walk|]. pose proof try_suite_lost. lost_walk. }
  lost_walk.
Qed.
Lemma count_worker f i d rows : i ≠ "" → rows ≡ₚ fetchall (worker_filter dev_worker_id i) (db_devices d) →
  count f rows = count (λ r, streqb (dev_worker_id r) i && f r) (db_devices d).
Proof.
  intros Hi Hp. unfold count. f_equal. assert (fetchall f rows ≡ₚ fetchall f (fetchall (worker_filter dev_worker_id i) (db_devices d))) as ->
    by (unfold fetchall at 1 2; by rewrite Hp). rewrite fetchall_fetchall. f_equal. unfold fetchall. apply list_filter_iff. intros r.
  rewrite !andb_true_iff, filtered_worker by done. unfold streqb. by rewrite bool_decide_eq_true.
Qed.
End preparing.

(** [C17] A run that is let in.  When the check of a new run accepts it, the worker was heard from in
    time, admits tests (with the memory a full CTS needs, if it was asked for by name) and has an
    agent of its own; the suite is available there, of the type and path wanted; the devices named
    are all there, different, available, as the conditions demand, and not behind a proxy if they are
    to be flashed, which is done to one device only; if none is named, there are enough that are
    available and meet the conditions, and enough that can be reached. *)
Theorem prepared_admissible md mm off local full servers templates parse roots resolve now b p w c w' :
  settled w → (∀ k, k ∈ db_workers (w_db w) → wk_id k ≠ "") →
  prepare_cluster_plan md mm off local full servers templates parse roots resolve (Some (Ok true)) now b p w = (Ok (Some c), w') →
  let i := pc_worker_id c in
  let on_worker f := count (λ d, streqb (dev_worker_id d) i && f d) (db_devices (w_db w')) in
  ready now md mm off local (if streqb (plan_worker local p) "auto" then 0 else required_memory full p) i (w_db w) ∧
  (∃ x, x ∈ db_suites (w_db w) ∧ wanted_suite p x = true ∧ su_worker_id x = i ∧ su_tools_path x = pc_test_suite c ∧ su_suite_key x = pc_suite_key c) ∧
  NoDup (pc_devices c) ∧
  (∀ id, id ∈ pc_devices c → ∃ d, d ∈ db_devices (w_db w') ∧ dev_id d = id ∧ dev_worker_id d = i ∧ dev_state d = "available" ∧
     matches_device_selector d (pl_selector p) = true ∧ unsupported p d = false) ∧
  (pc_devices c ≠ [] → minimum p ≤ Z.of_nat (length (pc_devices c)) ∧ (requires_local_usb p = true → length (pc_devices c) = 1%nat)) ∧
  (pc_devices c = [] → minimum p ≤ on_worker (λ d, available d && matches_device_selector d (pl_selector p)) ∧
     minimum p ≤ on_worker (λ d, available d && negb (unsupported p d) && prefix_and_board (pl_selector p) d)) ∧
  (requires_local_usb p = true → minimum p = 1) ∧
  pl_shard_count p ≤ (if bool_decide (pb_devices b = []) then minimum p else Z.of_nat (length (pb_devices b))).
Proof.
  intros Hs Hn. unfold prepare_cluster_plan. rewrite bind_require. intros ([]&w0&[_ ->]%lift_Ok&E)%bind_Ok.
  apply bind_Ok in E as ([i x]&w1&E1&E). pose proof (choose_suite_settled now md mm off local full b p w Hs) as [_ S1].
  rewrite E1 in S1. cbn in S1. destruct (choose_suite_ready now md mm off local full b p w i x w1 Hs E1) as (Hx&Hw&Hi&Hr&Hmin&Hshard).
  apply bind_Ok in E as (l&w2&[El ->]%lift_Ok&E). destruct (requested_devices_ok i _ _ l El) as [Hl _]; [constructor|].
  destruct (list_devices_run now i w1) as (rows&w3&E3&Hp&Hd). rewrite (bind_run _ _ _ _ _ E3) in E. cbv zeta in E.
  apply bind_Ok in E as ([]&w4&[Ec ->]%lift_Ok&[= <- <-]). apply check_devices_ok in Ec as (Hdev&Hsome&Hnone). cbn.
  assert (i ≠ "") as Hne by (destruct Hr as [(k&Hk&<-&_) _]; by apply Hn).
  rewrite S1, <-Hd in Hp. split; [exact Hr|]. split; [by exists x|]. split_and!; try done.
  - intros id (d&Hd1&?&?&?&?)%Hdev. rewrite Hp, elem_of_fetchall, filtered_worker in Hd1 by done. exists d. by destruct Hd1.
  - intros Hl0. destruct (Hnone Hl0) as [H1 H2]. rewrite (count_worker _ i (w_db w3) rows.*1 Hne Hp) in H1.
    by rewrite (count_worker _ i (w_db w3) rows.*1 Hne Hp) in H2.
Qed.

(** The check leaves a request its shape: the planner asks this of it. *)
Lemma prepared_request_shape md mm off local full servers templates parse roots resolve provider now w details q q' :
  prepared_request md mm off local full servers templates parse roots resolve provider now w details q = Ok q' →
  shape_of (rq_test_plan q') = shape_of (rq_test_plan q).
Proof.
  unfold prepared_request. destruct (prepare_cluster_plan _ _ _ _ _ _ _ _ _ _ _ _ _ _ _).1 as [[c|]|e]; [|by intros [= <-]|done].
  by intros [= <-].
Qed.

(** ** The theorems at work *)

(** The farm of [PlacementProperties]: [w2] has [d3] and [d4], and [d5] behind a proxy. *)
Definition any_device : device_selector := DeviceSelector "" "" "" "" "" "" 1.
Definition flash_plan (worker_id : string) (s : device_selector) : placement_plan :=
  PlacementPlan worker_id "" "cts" s 0 [] false "" "CtsViewTestCases" "" [] None "" false.
Definition flash_run (devices : list device_doc) : Automation.run :=
  to_run_dict 100 "ats_1" (RunRequest "" "" "" [] (TestPlan false "" "" false "w2" 0 10) ∅)
    <| rn_devices := devices |> <| rn_created_by := "ann" |>.
Definition no_body : placement_body := PlacementBody [] "" "" "".
Abbreviation select_farm := (select_devices (U := counting_uuid) 50 8 45 "local" (λ _ _, Ok tt)).
Abbreviation prepare_farm := (prepare_cluster_plan 50 8 45 "local" 28 [] [] (λ _, Ok ("", "")) [] (λ _, ([], None)) (Some (Ok true))).
Lemma farm_settled : settled farm.
Proof. vm_compute. reflexivity. Qed.
Lemma farm_wf : wf (H := counting_uuid) (w_claims farm).
Proof. assert (w_claims farm = empty_registry) as -> by (vm_compute; reflexivity). apply empty_registry_wf. Qed.
Lemma farm_plain : plain_devices (db_devices (w_db farm)).
Proof. unfold plain_devices. apply Forall_forall. vm_compute. by repeat constructor. Qed.
Definition reserved_farm : world := (select_farm 110 (flash_run []) (flash_plan "w2" any_device) farm).2.
Lemma first_of {A B} (x : A * B) a : x.1 = a → x = (a, x.2).
Proof. by destruct x; intros <-. Qed.
Lemma farm_picked : (select_farm 110 (flash_run []) (flash_plan "w2" any_device) farm).1 = Ok (Selected "w2" "reservation-0" [("w2:d3", "")] false).
Proof. vm_compute. reflexivity. Qed.
Lemma farm_selected : select_farm 110 (flash_run []) (flash_plan "w2" any_device) farm =
  (Ok (Selected "w2" "reservation-0" [("w2:d3", "")] false), reserved_farm).
Proof. exact (first_of _ _ farm_picked). Qed.
(** Four minutes later the controller was restarted. *)
Lemma farm_selected_again : (select_farm 350 (flash_run []) (flash_plan "w2" any_device) reserved_farm).1 =
  Ok (Selected "w2" "reservation-0" [("w2:d3", "")] true).
Proof. vm_compute. reflexivity. Qed.
Lemma selection_sound_witness : reserved_for "local" (flash_run []) (flash_plan "w2" any_device) reserved_farm "w2" "reservation-0" "w2:d3".
Proof.
  destruct (selection_sound (H := counting_uuid) 50 8 45 "local" (λ _ _, Ok tt) 110 (flash_run []) (flash_plan "w2" any_device) farm "w2"
    "reservation-0" [("w2:d3", "")] reserved_farm farm_settled farm_wf) as [Hr _]; [|exact farm_plain|done|done|by intros v ?%not_elem_of_nil|exact farm_selected|].
  - rewrite <-farm_settled. exact farm_keyed.
  - apply Hr. left.
Defined.

(** The reservation of the run. *)
Definition farm_reservation : reservation :=
  default (Reservation "" "" "" "" "" "" "" ResReleased None None None None) (head (db_reservations (w_db reserved_farm))).
Lemma reserved_farm_settled : settled reserved_farm.
Proof. vm_compute. reflexivity. Qed.
Lemma reserved_farm_plain : plain_reservations (w_db reserved_farm).
Proof.
  assert (Forall (λ y, plain_id (rs_device_id y) ∧ qualify (rs_worker_id y) (rs_device_id y) = rs_device_id y ∧ strip (rs_owner_id y) ≠ "")
    (db_reservations (w_db reserved_farm))) as H by (vm_compute; by repeat constructor).
  rewrite Forall_forall in H. intros y Hy _. by apply H.
Qed.
Lemma head_in {A} (l : list A) x : head l = Some x → x ∈ l.
Proof. destruct l as [|y l]; [done|]. intros [= ->]. left. Qed.
Lemma farm_reservation_first : head (db_reservations (w_db reserved_farm)) = Some farm_reservation.
Proof. vm_compute. reflexivity. Qed.
Lemma farm_reserved : farm_reservation ∈ db_reservations (w_db reserved_farm).
Proof. exact (head_in _ _ farm_reservation_first). Qed.
Lemma reserved_farm_wf : wf (H := counting_uuid) (w_claims reserved_farm).
Proof.
  destruct (selection_claims (U := counting_uuid) 110 50 8 45 "local" (λ _ _, Ok tt) (flash_run []) (flash_plan "w2" any_device) farm
    farm_settled) as [Hc _]. by apply Hc, farm_wf.
Qed.
Lemma selection_recovers_witness : ∃ devs,
  (select_farm 350 (flash_run []) (flash_plan "w2" any_device) reserved_farm).1 = Ok (Selected "w2" "reservation-0" devs true) ∧
  ∀ id, id ∈ devs.*1 → ∃ z, z ∈ db_reservations (w_db reserved_farm) ∧ rs_device_id z = id.
Proof.
  pose proof (selection_recovers (H := counting_uuid) 50 8 45 "local" (λ _ _, Ok tt) 350 (flash_run []) (flash_plan "w2" any_device)
    reserved_farm farm_reservation reserved_farm_settled reserved_farm_wf reserved_farm_plain ltac:(done) farm_reserved
    ltac:(vm_compute; reflexivity) ltac:(vm_compute; reflexivity)) as H.
  pose proof farm_selected_again as Ha. destruct (select_farm 350 _ _ reserved_farm) as [a w']. cbn in Ha. subst a.
  destruct H as [_ (x&_&_&[(i&devs&[= <- Hres <-]&Hd)|[[? _]|(?&?&_)]])]; [|done..].
  exists [("w2:d3", "")]. split; [done|]. intros id Hid. apply Hd in Hid as (z&Hz&_&Hi). by exists z.
Defined.
(** A run on [d3] of [w2] is let in. *)
Definition named_body : placement_body := PlacementBody [DeviceText "d3"] "" "" "".
Lemma farm_prepared : (prepare_farm 110 named_body (flash_plan "w2" any_device) farm).1 =
  Ok (Some (Placed "w2" "/suites/cts" ["w2:d3"] "CTS:17_r1" 2)).
Proof. vm_compute. reflexivity. Qed.
Lemma farm_workers_named : ∀ k, k ∈ db_workers (w_db farm) → wk_id k ≠ "".
Proof. apply Forall_forall. vm_compute. by repeat constructor. Qed.
Lemma prepared_admissible_witness :
  ready 110 50 8 45 "local" 0 "w2" (w_db farm) ∧
  ∃ d, d ∈ db_devices (w_db (prepare_farm 110 named_body (flash_plan "w2" any_device) farm).2) ∧ dev_id d = "w2:d3" ∧ dev_state d = "available".
Proof.
  pose proof (prepared_admissible 50 8 45 "local" 28 [] [] (λ _, Ok ("", "")) [] (λ _, ([], None)) 110 named_body (flash_plan "w2" any_device)
    farm _ _ farm_settled farm_workers_named (first_of _ _ farm_prepared)) as (Hr&_&_&Hd&_).
  split; [exact Hr|]. destruct (Hd "w2:d3") as (d&H1&H2&_&H3&_); [left|]. by exists d.
Defined.
(** A run that no device can serve is let in, and then waits: the conditions are counted over devices
    behind proxies, which are not flashed, and those that can be flashed are counted without the
    conditions. *)
Definition mixed_farm : world := cluster_run (U := counting_uuid) sample_settings
  (farm_history ++ [(103, CHeartbeat "w2" (farm_report [farm_device "d3" "local_usb";
     DeviceIn "d5" "adb_proxy" "available" {["product" := "tangor"]}] 10))]) empty_world.
Definition tangor : device_selector := DeviceSelector "tangor" "" "" "" "" "" 1.
Lemma unservable_let_in :
  (prepare_farm 110 no_body (flash_plan "w2" tangor) mixed_farm).1 = Ok (Some (Placed "w2" "/suites/cts" [] "CTS:17_r1" 0)) ∧
  (select_farm 110 (flash_run []) (flash_plan "w2" tangor) mixed_farm).1 = Ok (Refused true "not enough idle devices on w2").
Proof. vm_compute. split; reflexivity. Qed.
