(* ===== verification/SubmissionProperties.v ===== *)
(** What an accepted submission amounts to: the job belongs to the caller, runs on a worker that may
    take it and on devices that are there and allowed, and carries the command line and environment
    that were checked; and that a submission repeated under its key creates nothing. *)

From Stdlib Require Import QArith.
From S2P Require Import Prelude Encodings DeviceClaims JobStateMachine ClusterState Admission ClusterClaims Jobs Commands Inventory JobRequests Controller InventoryInvariants Steps JobInvariants JobProperties Placement PlacementProperties ExecutionSpec ExecutionSpecProperties Submission.

Open Scope Z_scope.

Lemma try_inv {W A} (m : M W A) h w a w' :
  try m h w = (Ok a, w') → m w = (Ok a, w') ∨ ∃ e w1, m w = (Err e, w1) ∧ h e w1 = (Ok a, w').
Proof. unfold try. destruct (m w) as [[b|e] w1]; [by left|right; by exists e, w1]. Qed.
(** A handler that raises again lets no result through. *)
Lemma try_raises {W A} (m : M W A) h w a w' :
  (∀ e w1, (h e w1).1 ≠ Ok a) → try m h w = (Ok a, w') → m w = (Ok a, w').
Proof. intros Hh [?|(e&w1&_&E)]%try_inv; [done|]. destruct (Hh e w1). by rewrite E. Qed.

(** ** Jobs along the way *)

Abbreviation no_new_jobs := (top_rel (jobs_rel (λ _, False))).
Lemma jobs_ok_kept `{Uuid} w w' : jobs_ok w → no_new_jobs w w' → jobs_ok w'.
Proof.
  intros [Hs Hu Hd] Hr. destruct (Hr Hs) as [[Hle Hadv] Hs']. destruct (Hadv Hu) as [Hu' Hj].
  split; [done|done|]. intros j' Hj'. destruct (Hj j' Hj') as [(j&Hin&C)|[[] _]].
  destruct (Hd j Hin) as (n&?&E). exists n. rewrite (ct_id _ _ C). split; [lia|done].
Qed.
Lemma later_job `{Uuid} w w' j j' :
  jobs_ok w → no_new_jobs w w' → j ∈ db_jobs (w_db w) → j' ∈ db_jobs (w_db w') → jb_id j' = jb_id j → continues j j'.
Proof.
  intros [Hs Hu _] Hr Hj Hj' Hid. destruct (Hr Hs) as [[_ Hadv] _]. destruct (Hadv Hu) as [_ Hl].
  destruct (Hl j' Hj') as [(j0&Hj0&C)|[[] _]]. assert (j0 = j) as ->; [|done].
  eapply (unique_index_inj _ _ _ j0 j Hu); try done. rewrite <-Hid. symmetry. apply C.
Qed.
Lemma create_job_Ok `{Uuid} md mm ttl now data w v ids w' :
  jobs_ok w → create_job_with_leases md mm ttl now data w = (Ok (Some v, ids), w') →
  jobs_ok w' ∧ jv_job v ∈ db_jobs (w_db w') ∧ jb_id (jv_job v) = fresh_job_id w ∧ jb_owner_id (jv_job v) = jd_owner_id data ∧
  jb_assigned_worker_id (jv_job v) = jd_worker_id data ∧ same_submission data (jb_request (jv_job v)) ∧
  (jd_idempotency_key data ≠ "" → receipt data (jb_id (jv_job v)) ∈ db_job_requests (w_db w')).
Proof.
  intros Hok E.
  pose proof (create_job_jobs md mm ttl now data w (jo_settled _ Hok)) as [[Hle Hadv] Hs'].
  pose proof (create_job_draws md mm ttl now data w (jo_settled _ Hok)) as Hdr. rewrite E in Hle, Hadv, Hs', Hdr. cbn in *.
  destruct (Hadv (jo_unique _ Hok)) as [Hu' Hl].
  assert (jobs_ok w') as Hok'.
  { split; [done|done|]. intros j' Hj'. destruct (Hl j' Hj') as [(j&Hin&C)|[-> _]].
    - destruct (jo_drawn _ Hok j Hin) as (n&?&En). exists n. rewrite (ct_id _ _ C). split; [lia|done].
    - exists (w_drawn w). split; [lia|done]. }
  split; [done|].
  unfold create_job_with_leases in E. rewrite (bind_run uuid4_hex _ _ _ _ (uuid4_hex_run w)) in E. cbv zeta in E.
  fold (fresh_job_id w) in E. apply bind_Ok in E as (row&w1&_&E). destruct row as [wk|]; [|done].
  rewrite bind_require in E. destruct (_ || _); [|done]. apply bind_Ok in E as (ds&w2&_&E).
  rewrite bind_require in E. destruct (nonempty _); [|done]. apply bind_Ok in E as ([transferred recs]&w3&_&E).
  apply try_raises in E; [|intros e w4; unfold mbind, M_bind; match goal with |- context [match ?x with (_, _) => _ end] =>
    destruct x as [[]] end; done].
  apply metadata_ok in E as (j&Hj&Hi&_&Ho&Hwk&_&Hreq&Hv&Hreceipt).
  unfold get_job_view in Hv. assert (get_job_row (fresh_job_id w) (w_db w') = Some j) as Ej.
  { rewrite <-Hi. by apply get_job_row_unique. }
  rewrite Ej in Hv. injection Hv as ->. cbn. by rewrite Hi.
Qed.
Lemma dispatch_no_jobs `{Uuid} now v argv es env ds : preserves no_new_jobs (dispatch_job_start_command now v argv es env ds).
Proof. apply dispatch_jobs. Qed.

(** The receipts of submissions stay. *)
Abbreviation receipts_kept := (top_rel (reads db_job_requests eq)).
Ltac receipts_leaf :=
  lazymatch goal with
  | |- preserves (txn_rel _) (claims_op _) => apply claims_op_txn; intros ?; apply reads_claims, _
  | |- preserves (top_rel _) (claims_op _) => apply claims_op_top; intros ?; apply reads_claims, _
  | |- preserves (txn_rel _) uuid4_hex => apply uuid_txn; intros ?; apply reads_draw, _
  | |- preserves (top_rel _) uuid4_hex => apply uuid_top; intros ?; apply reads_draw, _
  | |- preserves _ (append_timeline_conn _ _) => apply reads_sql_frame; [apply _|reflexivity]
  | |- preserves _ (sql _) => apply reads_sql_frame; [apply _|intros ?; reflexivity]
  end.
Lemma dispatch_receipts `{Uuid} now v argv es env ds : preserves receipts_kept (dispatch_job_start_command now v argv es env ds).
Proof.
  unfold dispatch_job_start_command, create_command, create_new_command, insert_command, require_same_request,
    get_command, attach_command_to_job_conn, transition_job_conn.
  repeat first [walk_step | progress cbv zeta | receipts_leaf].
Qed.

(** The job whose command was queued, as it is read back. *)
Lemma create_and_dispatch_Ok `{Uuid} md mm ttl now data w v command w' :
  jobs_ok w → create_and_dispatch md mm ttl now data w = (Ok (v, command), w') →
  jb_owner_id (jv_job v) = jd_owner_id data ∧ jb_assigned_worker_id (jv_job v) = jd_worker_id data ∧
  same_submission data (jb_request (jv_job v)) ∧
  (jd_idempotency_key data ≠ "" → receipt data (jb_id (jv_job v)) ∈ db_job_requests (w_db w')).
Proof.
  intros Hok E. unfold create_and_dispatch in E. apply try_raises in E; [|intros e w1; by case_match].
  apply bind_Ok in E as ([found ids]&w1&Ec&E). cbn in E. destruct found as [v0|]; [|done].
  apply create_job_Ok in Ec as (Hok1&Hin0&_&Ho&Hwk&Hreq&Hrec); [|done].
  apply bind_Ok in E as (c&w2&Ed&E). apply try_raises in Ed.
  2:{ intros e w3. unfold mbind, M_bind. match goal with |- context [match ?x with (_, _) => _ end] => destruct x as [[]] end; done. }
  pose proof (dispatch_no_jobs now v0 (jd_argv data) (jd_execution_spec data) (jd_env data) (jd_devices data) w1) as Hd.
  pose proof (dispatch_receipts now v0 (jd_argv data) (jd_execution_spec data) (jd_env data) (jd_devices data) w1
    (jo_settled _ Hok1)) as [[_ Hr] _]. rewrite Ed in Hd, Hr. cbn in Hr. rewrite Hr in Hrec. pose proof (jobs_ok_kept _ _ Hok1 Hd) as Hok2.
  unfold get_job, connect_read in E. rewrite bind_gets in E. injection E as <- <- <-.
  rewrite (jo_settled _ Hok2). destruct (get_job_view _ _) as [v1|] eqn:Ev; cbn.
  - unfold get_job_view in Ev. destruct (get_job_row _ _) as [j|] eqn:Ej; [|done]. injection Ev as <-. cbn.
    apply get_job_row_Some in Ej as [Hj Hid]. pose proof (later_job _ _ _ _ Hok1 Hd Hin0 Hj Hid) as [C1 C2 C3 _ C5 _ _].
    by rewrite C1, C2, C3, C5.
  - done.
Qed.

(** ** Step by step *)

(** One device under the access list, in both its forms. *)
Definition device_allowed (da : string → result unit) (worker_id device_id : string) : Prop :=
  da device_id = Ok tt ∧
  (startswith (worker_id +:+ ":") device_id = true → da (removeprefix (worker_id +:+ ":") device_id) = Ok tt).
Lemma check_access_Ok wa da b w w' :
  check_access_lists wa da b w = (Ok tt, w') →
  w' = w ∧ wa (jc_worker_id b) = Ok tt ∧ ∀ d, d ∈ jc_devices b → device_allowed da (jc_worker_id b) d.
Proof.
  unfold check_access_lists. intros E. apply bind_Ok in E as ([]&w1&[Ew ->]%lift_Ok&E).
  cut (w' = w ∧ ∀ d, d ∈ jc_devices b → device_allowed da (jc_worker_id b) d); [naive_solver|].
  revert E. induction (jc_devices b) as [|d l IH]; cbn [for_each].
  { intros [= <-]. split; [done|]. by intros d ?%elem_of_nil. }
  intros E. apply bind_Ok in E as ([]&w1&E1&E). apply bind_Ok in E1 as ([]&w2&[Ed ->]%lift_Ok&E1).
  assert (w1 = w ∧ device_allowed da (jc_worker_id b) d) as [-> Hd].
  { unfold device_allowed. destruct (startswith _ _); [apply lift_Ok in E1 as [E1 ->]; by split_and!|by injection E1 as <-]. }
  apply IH in E as [-> Hl]. split; [done|]. intros x [->|Hx]%elem_of_cons; auto.
Qed.
(** The worker and the devices a request is given. *)
Definition placed (md mm : Q) (off : Z) (local : string) (now : Z) (d : db) (b b' : job_request_body) : Prop :=
  ∃ q k rows, suitable md mm off local now q d k rows ∧ dm_require_agent q = true ∧
    dm_suite_key q = jc_suite_key b ∧ (jc_worker_id b ≠ "auto" → jc_worker_id b ≠ "" → wk_id k = jc_worker_id b) ∧
    b' = b <| jc_worker_id := wk_id k |> <| jc_devices := jc_devices b' |> ∧
    (jc_devices b ≠ [] → jc_devices b' = jc_devices b) ∧ Forall2 (names (db_devices d)) (jc_devices b') rows.
Lemma select_no_jobs md mm off local now q P : preserves (top_rel (jobs_rel P)) (select_worker md mm off local now q).
Proof.
  unfold select_worker, list_suites, list_devices, worker_directory, list_workers.
  repeat first [apply mark_offline_jobs | jobs_walk].
Qed.
Lemma names_self inventory r : r ∈ inventory → names inventory (dev_id r) r.
Proof. intros Hr. unfold names, mem. rewrite bool_decide_eq_true_2; [done|]. by apply list_elem_of_fmap_2. Qed.
Lemma resolve_Ok `{Uuid} md mm off local now b w b' w' :
  jobs_ok w → inventory_keyed (w_db w) → 0 ≤ jc_device_count b →
  resolve_job_placement md mm off local now b w = (Ok b', w') →
  placed md mm off local now (w_db w) b b' ∧ jobs_ok w'.
Proof.
  intros Hok Hkeyed Hcount E. unfold resolve_job_placement in E. cbv zeta in E.
  apply bind_Ok in E as ([]&w1&E1&E). assert (w1 = w) as ->.
  { destruct (_ && _); [done|by injection E1 as <-]. }
  apply bind_Ok in E as (planned&w2&[_ ->]%lift_Ok&E). apply bind_Ok in E as ([i ids]&w3&E3&E). injection E as <- <-.
  apply try_raises in E3; [|intros e ?; by destruct (is_value_error e)].
  match type of E3 with select_worker _ _ _ _ _ ?x _ = _ => set (q := x) in E3 end.
  pose proof (select_no_jobs md mm off local now q (λ _, False) w) as Hn. rewrite E3 in Hn. cbn in Hn.
  split; [|by eapply jobs_ok_kept].
  pose proof (select_worker_spec md mm off local now q w) as Hbest. rewrite E3, (jo_settled _ Hok) in Hbest.
  destruct Hbest as (k&rows&Hk&->&->&_); [done|done|]. exists q, k, rows.
  set (requested := if bool_decide (jc_devices b = []) then _ else _) in *.
  split_and!; [done..| | | |].
  - intros Ha Hne. apply (sb_asked _ _ _ _ _ _ _ _ _ Hk); [|done]. unfold q, streqb. cbn. by rewrite bool_decide_eq_false_2.
  - done.
  - intros Hne. cbn. unfold requested. by rewrite !(bool_decide_eq_false_2 (jc_devices b = [])) by done.
  - cbn. destruct (decide (requested = [])) as [Er|Er].
    + rewrite bool_decide_eq_true_2 by done. pose proof (sb_devices _ _ _ _ _ _ _ _ _ Hk) as Hrows. clear -Hrows. induction rows as [|r rows IH]; constructor.
      * apply names_self. by apply Hrows; left.
      * apply IH. intros x Hx. apply Hrows. by right.
    + rewrite bool_decide_eq_false_2 by done. by apply (sb_named _ _ _ _ _ _ _ _ _ Hk).
Qed.

(** Placing a test leaves the suites as they are. *)
Abbreviation suites_kept := (top_rel (reads db_suites eq)).
Ltac suites_leaf :=
  lazymatch goal with
  | |- preserves (txn_rel _) (claims_op _) => apply claims_op_txn; intros ?; apply reads_claims, _
  | |- preserves (top_rel _) (claims_op _) => apply claims_op_top; intros ?; apply reads_claims, _
  | |- preserves _ (append_timeline_conn _ _) => apply reads_sql_frame; [apply _|reflexivity]
  | |- preserves _ (sql _) => apply reads_sql_frame; [apply _|intros ?; reflexivity]
  end.
Lemma select_suites md mm off local now q : preserves suites_kept (select_worker md mm off local now q).
Proof.
  unfold select_worker, list_suites, list_devices, worker_directory, list_workers, mark_worker_offline,
    transition_job_conn, emit_worker_availability.
  repeat first [walk_step | progress cbv zeta | suites_leaf].
Qed.
Lemma resolve_suites md mm off local now b : preserves suites_kept (resolve_job_placement md mm off local now b).
Proof.
  unfold resolve_job_placement, conflict, lift.
  repeat first [walk_step | progress cbv zeta | apply select_suites].
Qed.
(** What the command of a job is made of. *)
Definition bound (d : db) (b b' : job_request_body) : Prop :=
  jc_worker_id b' = jc_worker_id b ∧ jc_devices b' = jc_devices b ∧ jc_env b' = jc_env b ∧
  ∀ spec, jc_execution_spec b = Some spec → sp_test_type spec ≠ "" → ∃ canonical x,
    x ∈ db_suites d ∧ su_available x = true ∧ (jc_worker_id b = "" ∨ su_worker_id x = jc_worker_id b) ∧
    su_tools_path x = sp_suite_path spec ∧ jc_suite_path b' = su_tools_path x ∧ jc_suite_key b' = su_suite_key x ∧
    canonicalize_execution_spec spec (su_tools_path x) (su_suite_type x) (jc_devices b) (jc_worker_id b) = Ok canonical ∧
    build_argv_from_spec canonical = Ok (jc_argv b') ∧ jc_execution_spec b' = Some canonical.
Lemma bind_suite_Ok local pe b w b' w' :
  bind_suite local pe b w = (Ok b', w') → w' = w ∧ bound (w_committed w) b b'.
Proof.
  assert (∀ w b' w', default_command local pe b w = (Ok b', w') →
    w' = w ∧ jc_worker_id b' = jc_worker_id b ∧ jc_devices b' = jc_devices b ∧ jc_env b' = jc_env b) as Hdefault.
  { clear. intros w b' w' E. unfold default_command in E. apply bind_Ok in E as (suites&w1&[= _ <-]&E).
    apply bind_Ok in E as ([[argv path] key]&w2&[_ ->]%lift_Ok&E). injection E as <- <-. done. }
  unfold bind_suite, bound. destruct (jc_execution_spec b) as [spec|].
  2:{ intros E%Hdefault. naive_solver. }
  destruct (nonempty (sp_test_type spec)) eqn:Et; cbn [negb].
  2:{ intros E%Hdefault. unfold nonempty in Et. bool_props. split; [apply E|]. split_and!; [apply E..|].
      intros s [= <-] Hs. by destruct Et. }
  cbv zeta. intros E. apply bind_Ok in E as ([]&w1&E1&E).
  assert (w1 = w) as -> by (destruct (_ && _); [done|by injection E1 as <-]).
  apply bind_Ok in E as (suites&w2&E2&E). injection E2 as Es <-.
  destruct (suite_of b (sp_suite_path spec) suites) as [x|] eqn:Ex; [|done].
  apply bind_Ok in E as (canonical&w3&[Ec ->]%lift_Ok&E). apply bind_Ok in E as (argv&w4&[Ea ->]%lift_Ok&E).
  apply bind_Ok in E as (row&w5&[= _ <-]&E). destruct (_ && _); [done|]. injection E as <- <-. split; [done|].
  split_and!; [done..|]. intros s [= <-] _. exists canonical, x. unfold suite_of in Ex. apply fetchone_Some in Ex as [Hx Hfit].
  subst suites. rewrite elem_of_order_by, elem_of_fetchall in Hx. destruct Hx as [Hf Hx]. bool_props.
  split_and!; try done. unfold worker_filter in Hf. apply orb_true_iff in Hf as [Hf|Hf]; [left|right].
  - unfold nonempty in Hf. bool_props. by apply dec_stable in Hf.
  - by bool_props.
Qed.
Lemma transports_Ok now b w w' P : check_transports now b w = (Ok tt, w') → top_rel (jobs_rel P) w w'.
Proof.
  assert (preserves (top_rel (jobs_rel P)) (check_transports now b)) as Hp.
  { unfold check_transports, list_devices, http. jobs_walk. }
  intros E. specialize (Hp w). by rewrite E in Hp.
Qed.

(** [C12] An accepted test is what was checked.  When a submission creates a job, the job belongs to the
    caller; its worker may take the test and has an agent, and is the one that was asked for, if one
    was; its devices are available devices of this worker, all different, the ones that were named, if
    any were; the caller's token may use the worker and every device, by identifier and by serial
    number; the command line was not the caller's but was built from the canonical form of the
    request, for exactly these devices and an available suite of the worker; and of the environment
    asked for, nothing was on no list. *)
Theorem submission_sound `{Uuid} md mm ttl off local on remote pe write now b wa da owner name trace key hash w v command w' :
  jobs_ok w → inventory_keyed (w_db w) → 0 ≤ jc_device_count b →
  create_new_job md mm ttl off local on remote pe write now b wa da owner name trace key hash w = (Ok (v, command), w') →
  let data := jb_request (jv_job v) in let worker_id := jb_assigned_worker_id (jv_job v) in
  jb_owner_id (jv_job v) = owner ∧
  (∃ q k rows, suitable md mm off local now q (w_db w) k rows ∧ dm_require_agent q = true ∧ wk_id k = worker_id ∧
     (jc_worker_id b ≠ "auto" → jc_worker_id b ≠ "" → worker_id = jc_worker_id b) ∧
     (jc_devices b ≠ [] → jd_devices data = jc_devices b) ∧ Forall2 (names (db_devices (w_db w))) (jd_devices data) rows) ∧
  wa worker_id = Ok tt ∧ (∀ d, d ∈ jd_devices data → device_allowed da worker_id d) ∧
  jc_argv b = [] ∧ jd_env data = jc_env b ∧ (∀ x, x ∈ jc_env b → job_env_ok x = true) ∧
  (∀ spec, jc_execution_spec b = Some spec → sp_test_type spec ≠ "" → ∃ canonical x,
     x ∈ db_suites (w_db w) ∧ su_available x = true ∧ (worker_id = "" ∨ su_worker_id x = worker_id) ∧
     su_tools_path x = sp_suite_path spec ∧ jd_suite_path data = su_tools_path x ∧
     canonicalize_execution_spec spec (su_tools_path x) (su_suite_type x) (jd_devices data) worker_id = Ok canonical ∧
     build_argv_from_spec canonical = Ok (jd_argv data) ∧ jd_execution_spec data = Some (write canonical)).
Proof.
  intros Hok Hkeyed Hcount E data worker_id. unfold create_new_job in E.
  apply bind_Ok in E as ([]&w1&E1&E). case_bool_decide as Hargv; [injection E1 as <-|done].
  apply bind_Ok in E as ([]&w2&E2&E). assert (w2 = w) as ->.
  { unfold require_cluster_enabled, http in E2. repeat case_match; try done; by injection E2 as <-. }
  apply bind_Ok in E as ([]&w3&E3&E). assert (w3 = w) as ->.
  { destruct (streqb _ _); [|by injection E3 as <-]. apply bind_Ok in E3 as (agent&w4&E4&E3).
    unfold has_command_agent, get_worker, connect_read in E4. rewrite bind_gets in E4. injection E4 as _ <-.
    destruct agent; [by injection E3 as <-|done]. }
  destruct (filter_job_env (jc_env b)) as [env rejected] eqn:Eenv.
  apply bind_Ok in E as ([]&w4&E4&E). case_bool_decide as Hrej; [injection E4 as <-|done].
  assert (env = jc_env b ∧ ∀ x, x ∈ jc_env b → job_env_ok x = true) as [-> Henv].
  { unfold filter_job_env in Eenv. injection Eenv as <- Er. subst rejected. apply fmap_nil_inv in Hrej.
    assert (∀ x, x ∈ jc_env b → job_env_ok x = true) as Hall.
    { intros x Hx. apply not_false_iff_true. intros Hf.
      assert (x ∈ filter (λ x, job_env_ok x = false) (jc_env b)) as Hin by (by apply list_elem_of_filter).
      rewrite Hrej in Hin. by apply elem_of_nil in Hin. }
    split; [|done]. clear -Hall. induction (jc_env b) as [|x l IH]; [done|]. rewrite filter_cons_True by (apply Hall; left).
    f_equal. apply IH. intros y Hy. apply Hall. by right. }
  apply bind_Ok in E as (b1&w5&E5&E). pose proof (resolve_suites md mm off local now (b <| jc_env := jc_env b |>) w (jo_settled _ Hok)) as [Hsuites _].
  rewrite E5 in Hsuites. cbn in Hsuites. destruct Hsuites as [_ Hsuites].
  apply resolve_Ok in E5 as ((q&k&rows&Hk&Hagent&_&Hasked&Hb1&Hkept&Hnames)&Hok5); [|done..].
  apply bind_Ok in E as ([]&w6&E6&E). apply check_access_Ok in E6 as (->&Hwa&Hda).
  apply bind_Ok in E as (b2&w7&E7&E). apply bind_suite_Ok in E7 as (->&Hwk&Hdev&Henv2&Hspec).
  rewrite (jo_settled _ Hok5), <-Hsuites in Hspec.
  apply bind_Ok in E as ([]&w8&E8&E). pose proof (jobs_ok_kept _ _ Hok5 (transports_Ok _ _ _ _ _ E8)) as Hok8.
  apply create_and_dispatch_Ok in E as (Ho&Hw&Hreq&_); [|done]. cbn in Ho, Hw.
  assert (worker_id = wk_id k ∧ jd_devices data = jc_devices b1 ∧ jd_env data = jc_env b ∧ jd_suite_path data = jc_suite_path b2 ∧
    jd_argv data = jc_argv b2 ∧ jd_execution_spec data = write <$> jc_execution_spec b2) as (Ew&Ed&Ee&Ep&Ea&Es).
  { unfold worker_id, data. rewrite Hw, Hwk, Hreq. cbn. rewrite Hdev, Henv2, Hb1. done. }
  clearbody data worker_id. subst worker_id. rewrite Ed, Ee, Ep, Ea, Es.
  assert (jc_worker_id b1 = wk_id k ∧ jc_execution_spec b1 = jc_execution_spec b) as [Eb1 Es1] by (by rewrite Hb1).
  rewrite Eb1 in *. split_and!; try done.
  - exists q, k, rows. split_and!; done.
  - intros spec Hs Ht. rewrite <-Es1 in Hs. destruct (Hspec spec Hs Ht) as (canonical&x&Hx&Ha&Hw'&Hp&Hp'&_&Hc&Hbuild&Hstored).
    exists canonical, x. rewrite Hstored. by split_and!.
Qed.

(** ** Submitting again *)

Definition receipts_keyed (w : world) : Prop :=
  unique_index (λ _, true) (λ x, (jr_owner_id x, jr_request_key x)) (db_job_requests (w_db w)).
Lemma get_job_id i d v : get_job_view i d = Some v → jb_id (jv_job v) = i.
Proof.
  unfold get_job_view. destruct (get_job_row i d) as [j|] eqn:Ej; [|done]. intros [= <-]. by apply get_job_row_Some in Ej as [_ ?].
Qed.
Lemma find_job_request_spec owner key hash w x :
  settled w → receipts_keyed w → x ∈ db_job_requests (w_db w) → jr_owner_id x = owner → jr_request_key x = key →
  (∃ v, find_job_request owner key hash w = (Ok (Some v), w) ∧ jr_request_hash x = hash ∧ jb_id (jv_job v) = jr_job_id x) ∨
  ∃ m, find_job_request owner key hash w = (Err (ApiError "STATE_CONFLICT" m), w).
Proof.
  intros Hs Hu Hx <- <-. unfold find_job_request. rewrite bind_connect_read by done.
  assert (fetchone (λ r, streqb (jr_owner_id r) (jr_owner_id x) && streqb (jr_request_key r) (jr_request_key x))
    (db_job_requests (w_db w)) = Some x) as ->.
  { eapply fetchone_unique; [exact Hu|exact Hx|]. intros r _. unfold streqb. rewrite andb_true_iff, !bool_decide_eq_true.
    split; [intros [-> ->]; done|by intros [= -> ->]]. }
  rewrite bind_require. destruct (streqb _ _) eqn:Eh; [|by right; eexists]. unfold get_job. rewrite bind_connect_read by done.
  destruct (get_job_view _ _) as [v|] eqn:Ev; [|by right; eexists]. left. exists v. apply get_job_id in Ev. bool_props. done.
Qed.
Lemma kept_by `{Uuid} {A} (m : M world A) w a w' : jobs_ok w → preserves no_new_jobs m → m w = (Ok a, w') → jobs_ok w'.
Proof. intros Hok Hm E. eapply jobs_ok_kept; [exact Hok|]. specialize (Hm w). by rewrite E in Hm. Qed.
Lemma create_new_job_dispatches `{Uuid} md mm ttl off local on remote pe write now b wa da owner name trace key hash w v c w' :
  jobs_ok w → create_new_job md mm ttl off local on remote pe write now b wa da owner name trace key hash w = (Ok (v, c), w') →
  ∃ b' w1, jobs_ok w1 ∧ create_and_dispatch md mm ttl now (job_data_of write b' owner name trace key hash) w1 = (Ok (v, c), w').
Proof.
  intros Hok E. unfold create_new_job in E. destruct (filter_job_env (jc_env b)) as [env rejected].
  do 3 (apply bind_Ok in E as ([]&?&E1&E); eapply kept_by in E1; [|exact Hok|
    unfold require_cluster_enabled, has_command_agent, get_worker, http; jobs_walk]; clear Hok; rename E1 into Hok).
  apply bind_Ok in E as ([]&?&E1&E); eapply kept_by in E1; [|exact Hok|unfold http; jobs_walk]; clear Hok; rename E1 into Hok.
  apply bind_Ok in E as (b1&w5&E5&E). eapply kept_by in E5; [|exact Hok|].
  2:{ unfold resolve_job_placement, conflict, lift. repeat first [apply select_no_jobs | jobs_walk]. }
  apply bind_Ok in E as ([]&w6&E6&E). apply check_access_Ok in E6 as (->&_&_).
  apply bind_Ok in E as (b2&w7&E7&E). apply bind_suite_Ok in E7 as (->&_).
  apply bind_Ok in E as ([]&w8&E8&E). exists b2, w8. split; [|exact E].
  eapply jobs_ok_kept; [exact E5|by eapply transports_Ok].
Qed.
Lemma replay_no_jobs `{Uuid} fuel now v wa da P : preserves (top_rel (jobs_rel P)) (replay_job_request fuel now v wa da).
Proof.
  unfold replay_job_request, get_job, lift. repeat first [apply replay_jobs | jobs_walk].
Qed.
Lemma replay_same_job `{Uuid} fuel now v wa da w v' c w' :
  replay_job_request fuel now v wa da w = (Ok (v', c), w') → jb_id (jv_job v') = jb_id (jv_job v).
Proof.
  unfold replay_job_request. cbv zeta. intros E. do 3 apply bind_Ok in E as (?&?&_&E). apply bind_Ok in E as (row&w1&E1&E).
  injection E as <- _ <-. unfold get_job, connect_read, gets in E1. injection E1 as Ev ->.
  destruct row as [v1|]; [|done]. by apply get_job_id in Ev.
Qed.

(** [C14] A submission repeated under its key creates nothing.  Once the receipt of a submission is
    stored, submitting again under the same key and for the same account, at any later time and
    whatever happened to the job since, creates no job: it answers with the job of the receipt, or
    fails, and fails without any effect when the request is not the one of the receipt.  And
    the submission that created a job stored this receipt. *)
Theorem submission_once `{Uuid} md mm ttl off local on remote pe write fingerprint fuel now b wa da owner name trace key w r w' :
  jobs_ok w → receipts_keyed w →
  create_job md mm ttl off local on remote pe write fingerprint fuel now b wa da owner name trace (Some key) w = (r, w') →
  (∀ x, x ∈ db_job_requests (w_db w) → jr_owner_id x = owner → jr_request_key x = key →
     (∀ j', j' ∈ db_jobs (w_db w') → ∃ j, j ∈ db_jobs (w_db w) ∧ continues j j') ∧
     (∀ v c, r = Ok (v, c) → jb_id (jv_job v) = jr_job_id x ∧ jr_request_hash x = fingerprint b) ∧
     (jr_request_hash x ≠ fingerprint b → (∃ e, r = Err e) ∧ w' = w)) ∧
  ((∀ x, x ∈ db_job_requests (w_db w) → jr_owner_id x = owner → jr_request_key x ≠ key) →
     ∀ v c, r = Ok (v, c) → JobRequest owner key (fingerprint b) (jb_id (jv_job v)) ∈ db_job_requests (w_db w')).
Proof.
  intros Hok Hkeyed E. unfold create_job in E. cbv zeta in E. rewrite bind_require in E.
  destruct (request_key_ok key) eqn:Ekey.
  2:{ injection E as <- <-. split; [|done]. intros x Hx _ _. split_and!; [|done|by eauto]. intros j Hj. by exists j. }
  split.
  - intros x Hx Ho Hk. destruct (find_job_request_spec owner key (fingerprint b) w x (jo_settled _ Hok) Hkeyed Hx Ho Hk)
      as [(v0&Ef&Eh&Ei)|(m&Ef)].
    + rewrite (bind_run _ _ _ _ _ Ef) in E. pose proof (replay_no_jobs fuel now v0 wa da (λ _, False) w (jo_settled _ Hok)) as [[_ Hadv] _].
      rewrite E in Hadv. destruct (Hadv (jo_unique _ Hok)) as [_ Hl]. split_and!.
      * intros j' Hj'. destruct (Hl j' Hj') as [?|[[] _]]. done.
      * intros v c ->. split; [|done]. rewrite <-Ei. by eapply replay_same_job.
      * by intros [].
    + rewrite (bind_Err _ _ _ _ _ Ef) in E. injection E as <- <-. split_and!; [|done|by eauto]. intros j Hj. by exists j.
  - intros Hnone v c ->. apply bind_Ok in E as (found&w1&Ef&E).
    unfold find_job_request in Ef. rewrite bind_connect_read in Ef by apply Hok.
    destruct (fetchone _ _) as [x|] eqn:Ex.
    { apply fetchone_Some in Ex as [Hx Hxk]. bool_props. by destruct (Hnone x Hx). }
    injection Ef as <- <-. apply create_new_job_dispatches in E as (b2&w2&Hok2&E); [|done].
    apply create_and_dispatch_Ok in E as (_&_&_&Hr); [|done]. apply Hr. cbn. by intros ->.
Qed.

(** ** The theorem at work *)

(** Alice asks for one device anywhere; her module is tested on the second worker of the farm. *)
Definition farm_spec : execution_spec := ExecutionSpec "cts" "/suites/cts" "CtsViewTestCases" "" "" [] "" false false 0 [] 0 0 0.
Definition farm_request : job_request_body :=
  JobRequestBody "auto" "CTS:17_r1" "" [] [] [("TERM", "xterm")] "manual" 100 1 (Some farm_spec).
Definition no_list (x : string) : result unit := Ok tt.
Definition only_usbip (x : string) : result unit :=
  if mem x ["w2:d4"; "d4"] then Ok tt else Err (HTTPException 403 "Agent token is not allowed to target the device").
Definition stored_spec (s : execution_spec) : string := join " " (sp_devices s).
Abbreviation submit_farm := (create_new_job (H := counting_uuid) 50 8 90 45 "local" true true (λ _, true) stored_spec 110).
Lemma farm_jobs_ok : jobs_ok (H := counting_uuid) farm.
Proof. apply cluster_run_jobs, empty_jobs_ok. Qed.
Lemma farm_keyed_db : inventory_keyed (w_db farm).
Proof. rewrite <-(jo_settled (H := counting_uuid) farm farm_jobs_ok). apply farm_keyed. Qed.
Definition summary (x : result (job_view * option command)) : option (string * list string * list string * bool) :=
  match x with
  | Ok (v, c) => Some (jb_assigned_worker_id (jv_job v), jd_devices (jb_request (jv_job v)), jd_argv (jb_request (jv_job v)),
                       bool_decide (is_Some c))
  | Err _ => None
  end.
Lemma farm_submitted :
  summary (submit_farm farm_request no_list no_list "alice" "Alice" "" "" "" farm).1 =
  Some ("w2", ["w2:d3"], ["/run_GMS_Test_Auto.sh"; "cts"; "CtsViewTestCases"; "--device-args"; "-s d3"; "--test-suite"; "/suites/cts"], true).
Proof. vm_compute. reflexivity. Qed.
(** A token for the other device gets nothing. *)
Lemma farm_refused :
  (submit_farm farm_request no_list only_usbip "alice" "Alice" "" "" "" farm).1 =
  Err (HTTPException 403 "Agent token is not allowed to target the device").
Proof. vm_compute. reflexivity. Qed.
Lemma submission_sound_witness : ∃ v command w',
  submit_farm farm_request no_list no_list "alice" "Alice" "" "" "" farm = (Ok (v, command), w') ∧
  jb_owner_id (jv_job v) = "alice" ∧ ∃ q k rows, suitable 50 8 45 "local" 110 q (w_db farm) k rows ∧ wk_id k = "w2".
Proof.
  destruct (submit_farm farm_request no_list no_list "alice" "Alice" "" "" "" farm) as [[[v command]|e] w'] eqn:E.
  - exists v, command, w'. pose proof farm_submitted as Hs. rewrite E in Hs. injection Hs as Hw _ _ _.
    pose proof (submission_sound (H := counting_uuid) 50 8 90 45 "local" true true (λ _, true) stored_spec 110 farm_request no_list
      no_list "alice" "Alice" "" "" "" farm v command w' farm_jobs_ok farm_keyed_db ltac:(done) E) as (Ho&(q&k&rows&Hk&_&Hi&_)&_).
    split; [done|]. split; [done|]. exists q, k, rows. split; [done|congruence].
  - pose proof farm_submitted as Hs. by rewrite E in Hs.
Defined.

(** Where remote dispatch is switched off, a request for any worker still goes to a remote one. *)
Lemma auto_passes_remote_switch :
  summary (create_new_job (H := counting_uuid) 50 8 90 45 "local" true false (λ _, true) stored_spec 110
             farm_request no_list no_list "alice" "Alice" "" "" "" farm).1 =
  summary (submit_farm farm_request no_list no_list "alice" "Alice" "" "" "" farm).1 ∧
  (create_new_job (H := counting_uuid) 50 8 90 45 "local" true false (λ _, true) stored_spec 110
     (farm_request <| jc_worker_id := "w2" |>) no_list no_list "alice" "Alice" "" "" "" farm).1 =
  Err (HTTPException 409 "remote dispatch is disabled").
Proof. split; vm_compute; reflexivity. Qed.

(** The same request again, and another one under its key, an hour later. *)
Abbreviation resubmit := (create_job (H := counting_uuid) 50 8 90 45 "local" true true (λ _, true) stored_spec
  (λ b, join " " (jc_suite_key b :: jc_devices b)) 3).
Definition submitted : world := (resubmit 110 farm_request no_list no_list "alice" "Alice" "" (Some "key-1") farm).2.
Lemma submitted_ok : jobs_ok (H := counting_uuid) submitted.
Proof.
  split.
  - vm_compute. reflexivity.
  - vm_compute. repeat constructor. set_solver.
  - vm_compute. intros j Hj. apply elem_of_cons in Hj as [->|Hj]; [|by apply elem_of_nil in Hj].
    exists 0%nat. split; [lia|reflexivity].
Qed.
Lemma submission_once_witness :
  (∃ x, db_job_requests (w_db submitted) = [x] ∧
     (∀ v c, (resubmit 3710 farm_request no_list no_list "alice" "Alice" "" (Some "key-1") submitted).1 = Ok (v, c) →
        jb_id (jv_job v) = jr_job_id x)) ∧
  (∃ e, resubmit 3710 (farm_request <| jc_devices := ["d1"] |>) no_list no_list "alice" "Alice" "" (Some "key-1") submitted =
     (Err e, submitted)).
Proof.
  assert (receipts_keyed submitted) as Hkeyed by (vm_compute; repeat constructor; set_solver).
  pose proof (λ b r w', submission_once (H := counting_uuid) 50 8 90 45 "local" true true (λ _, true) stored_spec
    (λ b, join " " (jc_suite_key b :: jc_devices b)) 3 3710 b no_list no_list "alice" "Alice" "" "key-1" submitted r w'
    submitted_ok Hkeyed) as once.
  assert (∃ x, db_job_requests (w_db submitted) = [x] ∧ jr_owner_id x = "alice" ∧ jr_request_key x = "key-1" ∧
    jr_request_hash x = "CTS:17_r1") as (x&Ex&Ho&Hk&Hh) by (eexists; split; [vm_compute; reflexivity|by split_and!]).
  assert (x ∈ db_job_requests (w_db submitted)) as Hx by (rewrite Ex; left). split.
  - exists x. split; [done|]. intros v c E. destruct (resubmit 3710 farm_request _ _ _ _ _ _ _) as [r w'] eqn:Er.
    destruct (proj1 (once _ _ _ Er) x Hx Ho Hk) as (_&H&_). by apply (H v c).
  - destruct (resubmit 3710 (farm_request <| jc_devices := ["d1"] |>) _ _ _ _ _ _ _) as [r w'] eqn:Er.
    destruct (proj1 (once _ _ _ Er) x Hx Ho Hk) as (_&_&H). destruct H as [[e ->] ->]; [by rewrite Hh|by exists e].
Defined.
