(* ===== verification/UsbipProtocol.v ===== *)
(** The protocol probe of devices attached over USB/IP, [features/devices/usbip_protocol.py]:
    what the listings of adb and fastboot say, and which of it is about the devices of one
    attachment.

    The remote command is a parameter ([execute]: standard output and error, or an
    exception).  White space and line breaks are the ASCII ones. *)

From stdpp Require Import gmap.
From S2P Require Import Prelude Encodings.

Open Scope Z_scope.

(** ** Text *)

(** [str.splitlines]. *)
Definition line_break (a : ascii) : bool :=
  let n := N_of_ascii a in (((10 <=? n) && (n <=? 13)) || ((28 <=? n) && (n <=? 30)))%N.
Definition CR : ascii := ascii_of_N 13.
Definition LF : ascii := ascii_of_N 10.
Fixpoint splitlines (s : string) : list string :=
  match s with
  | EmptyString => []
  | String a s' =>
      if line_break a then
        EmptyString ::
          match s' with
          | String b s'' => if bool_decide (a = CR) && bool_decide (b = LF) then splitlines s'' else splitlines s'
          | EmptyString => []
          end
      else match splitlines s' with
           | [] => [String a EmptyString]
           | x :: l => String a x :: l
           end
  end.

(** [shlex.quote]. *)
Definition safe_char (a : ascii) : bool :=
  let n := N_of_ascii a in
  (((48 <=? n) && (n <=? 57)) || ((65 <=? n) && (n <=? 90)) || ((97 <=? n) && (n <=? 122)))%N
  || mem (String a EmptyString) ["_"; "@"; "%"; "+"; "="; ":"; ","; "."; "/"; "-"].
Definition APOSTROPHE : ascii := ascii_of_N 39.
Definition QUOTE : ascii := ascii_of_N 34.
Fixpoint escape_quotes (s : string) : string :=
  match s with
  | EmptyString => EmptyString
  | String a s' =>
      if bool_decide (a = APOSTROPHE)
      then String APOSTROPHE (String QUOTE (String APOSTROPHE (String QUOTE (String APOSTROPHE (escape_quotes s')))))
      else String a (escape_quotes s')
  end.
Definition shlex_quote (s : string) : string :=
  if nonempty s && all_chars safe_char s then s
  else String APOSTROPHE (escape_quotes s) +:+ String APOSTROPHE EmptyString.

(** ** Parsing *)

(** A dict in insertion order. *)
Fixpoint dict_set (k v : string) (d : list (string * string)) : list (string * string) :=
  match d with
  | [] => [(k, v)]
  | (k', v') :: d' => if bool_decide (k' = k) then (k, v) :: d' else (k', v') :: dict_set k v d'
  end.
Definition adb_line (raw_line : string) : option (string * string) :=
  let line := strip raw_line in
  if negb (nonempty line) || startswith "list of devices" (ascii_lower line) then None
  else match words line with
       | serial :: state :: _ => Some (serial, state)
       | _ => None
       end.
(* src/features/devices/usbip_protocol.py:29-39 parse_adb_device_states *)
Definition parse_adb_device_states (output : string) : list (string * string) :=
  foldl (λ d '(k, v), dict_set k v d) [] (omap adb_line (splitlines output)).

Definition fastboot_line (line : string) : option string :=
  match words line with
  | serial :: (_ :: _) as states =>
      if existsb (λ s, mem (ascii_lower s) ["fastboot"; "fastbootd"]) states then Some serial else None
  | _ => None
  end.
(* src/features/devices/utils.py:97-108 DeviceUtils.parse_fastboot_devices *)
Definition parse_fastboot_devices (output : string) : list string := omap fastboot_line (splitlines output).

(* src/features/devices/usbip_protocol.py:47-55 build_adb_devices_command *)
Definition build_adb_devices_command (adb_server_socket : option string) : string :=
  match adb_server_socket with
  | Some s => if nonempty s then "ADB_SERVER_SOCKET=" +:+ shlex_quote s +:+ " adb devices" else "adb devices"
  | None => "adb devices"
  end.

(** ** The status *)

(* src/features/devices/usbip_protocol.py:90-99 probe_protocol_status *)
Record protocol_fields := ProtocolFields {
  pf_adb : list (string * string);
  pf_adb_ready : list string;
  pf_recovery : list string;
  pf_sideload : list string;
  pf_unauthorized : list string;
  pf_offline : list string;
  pf_fastboot : list string;
  pf_mode : string;
}.
#[export] Instance protocol_fields_eta : Eta protocol_fields := λ p,
  ProtocolFields (pf_adb p) (pf_adb_ready p) (pf_recovery p) (pf_sideload p) (pf_unauthorized p)
    (pf_offline p) (pf_fastboot p) (pf_mode p).
(** The key [unscoped] holds the whole probe when it cannot be attributed. *)
Inductive protocol_status :=
  | StatusOf (fields : protocol_fields)
  | Unscoped (fields : protocol_fields) (unscoped : protocol_status).
Definition pr_fields (s : protocol_status) : protocol_fields :=
  match s with StatusOf p | Unscoped p _ => p end.
Definition with_fields (p : protocol_fields) (s : protocol_status) : protocol_status :=
  match s with StatusOf _ => StatusOf p | Unscoped _ u => Unscoped p u end.

Definition some_of {A} (l : list A) : bool := match l with [] => false | _ => true end.
(* src/features/devices/usbip_protocol.py:58-81 recompute_protocol_mode *)
Definition recompute_protocol_mode (p : protocol_fields) : string :=
  if some_of (pf_fastboot p) then "fastboot"
  else if some_of (pf_recovery p) || some_of (pf_sideload p) then "recovery"
  else if some_of (pf_adb_ready p) then "adb"
  else if some_of (pf_unauthorized p) then "unauthorized"
  else if some_of (pf_offline p) then "offline"
  else if some_of (pf_adb p) then "adb_non_device"
  else "unknown".

Definition serials_in (state : string) (states : list (string * string)) : list string :=
  (filter (λ kv, kv.2 = state) states).*1.
Definition with_adb (states : list (string * string)) (p : protocol_fields) : protocol_fields :=
  p <| pf_adb := states |> <| pf_adb_ready := serials_in "device" states |>
    <| pf_recovery := serials_in "recovery" states |> <| pf_sideload := serials_in "sideload" states |>
    <| pf_unauthorized := serials_in "unauthorized" states |> <| pf_offline := serials_in "offline" states |>.
Definition empty_fields : protocol_fields := ProtocolFields [] [] [] [] [] [] [] "unknown".

Section probe.
Context {W : Type} (execute : string → M W (string * string)).

(* src/features/devices/usbip_protocol.py:84-126 probe_protocol_status *)
Definition probe_protocol_status (adb_server_socket : option string) : M W protocol_status :=
  status ← try
    ('(stdout, stderr) ← execute (build_adb_devices_command adb_server_socket);
     mret (with_adb (parse_adb_device_states (str_or stdout stderr)) empty_fields))
    (λ _, mret empty_fields);
  status ← try
    ('(stdout, stderr) ← execute "fastboot devices";
     mret (status <| pf_fastboot := parse_fastboot_devices (str_or stdout stderr) |>))
    (λ _, mret status);
  mret (StatusOf (status <| pf_mode := recompute_protocol_mode status |>)).
End probe.

(* src/features/devices/usbip_protocol.py:129-165 scope_protocol_status *)
Definition scope_protocol_status (status : protocol_status) (device_list : list string) : protocol_status :=
  let p := pr_fields status in
  match device_list with
  | [] => Unscoped empty_fields status
  | _ =>
      let keep l := filter (λ serial, serial ∈ device_list) l in
      let scoped := p <| pf_adb ::= filter (λ kv, kv.1 ∈ device_list) |>
        <| pf_adb_ready ::= keep |> <| pf_recovery ::= keep |> <| pf_sideload ::= keep |>
        <| pf_unauthorized ::= keep |> <| pf_offline ::= keep |> <| pf_fastboot ::= keep |> in
      with_fields (scoped <| pf_mode := recompute_protocol_mode scoped |>) status
  end.

(* src/features/devices/usbip_protocol.py:168-179 build_attach_message *)
Definition build_attach_message (attached device_list : list string) (status : protocol_status) : string :=
  if some_of device_list
  then "✅ 成功连接" +:+ pretty (length attached) +:+ "个USB/IP设备，ADB在线: " +:+ join ", " device_list
  else
    let mode := str_or (pf_mode (pr_fields status)) "unknown" in
    if mem mode ["fastboot"; "recovery"; "unauthorized"; "offline"; "adb_non_device"]
    then "✅ USB/IP传输已连接，当前协议状态: " +:+ mode
    else "✅ USB/IP传输已连接，等待设备枚举完成".

(** ** Reading only the lines about some devices *)

Lemma split_spaces_nonnil s : split_spaces s ≠ [].
Proof. destruct s as [|a s]; simpl; [done|]. case_match; [done|]. by destruct (split_spaces s). Qed.
Lemma words_lstrip s : words (lstrip s) = words s.
Proof.
  induction s as [|a s IH]; [done|]. simpl lstrip. destruct (is_space a) eqn:Ea; [|done].
  rewrite IH. unfold words_by. simpl split_by at 2. by rewrite Ea.
Qed.
Lemma words_rstrip s : words (rstrip s) = words s.
Proof.
  unfold words_by. enough (∃ x l l', split_spaces (rstrip s) = x :: l ∧ split_spaces s = x :: l' ∧
    filter (λ w, nonempty w = true) l = filter (λ w, nonempty w = true) l') as (x&l&l'&->&->&E).
  { rewrite !filter_cons. by rewrite E. }
  induction s as [|a s (x&l&l'&E1&E2&E)]; [by exists "", [], []|]. rewrite rstrip_cons. simpl split_by at 2.
  destruct (nonempty (rstrip s)) eqn:Es.
  - simpl split_by. destruct (is_space a); rewrite ?E1, ?E2; eexists _, _, _; split_and!; try done.
    rewrite !filter_cons. by rewrite E.
  - assert (rstrip s = "") as Er by (unfold nonempty in Es; by apply bool_decide_eq_false, dec_stable in Es).
    rewrite Er in E1. injection E1 as <- <-. rewrite E2. destruct (is_space a) eqn:Ea.
    + exists "", [], ("" :: l'). split_and!; [done|done|]. by rewrite filter_cons.
    + exists (String a ""), [], l'. split_and!; [|done|done]. simpl. by rewrite Ea.
Qed.
Lemma words_strip s : words (strip s) = words s.
Proof. unfold strip. by rewrite words_rstrip, words_lstrip. Qed.

(** The lines whose first word is one of the devices. *)
Definition about (device_list : list string) (line : string) : bool :=
  match words line with w :: _ => mem w device_list | [] => false end.
Definition keep_lines (device_list : list string) (output : string) : string :=
  join (String LF "") (filter (λ l, about device_list l = true) (splitlines output)).
Definition unbroken (s : string) : bool := all_chars (λ a, negb (line_break a)) s.

Lemma splitlines_unbroken s : Forall (λ l, unbroken l = true) (splitlines s).
Proof.
  enough (∀ n s, (String.length s ≤ n)%nat → Forall (λ l, unbroken l = true) (splitlines s)) as Hn
    by by apply (Hn (String.length s)).
  clear s. induction n as [|n IH]; intros [|a s] Hs; simpl in *; try (constructor || lia).
  destruct (line_break a) eqn:Ea.
  - constructor; [done|]. destruct s as [|b s]; [constructor|]. simpl in Hs.
    case_match; apply IH; simpl; lia.
  - specialize (IH s). destruct (splitlines s) as [|x l].
    + repeat constructor. unfold unbroken. simpl. by rewrite Ea.
    + assert (Forall (λ l, unbroken l = true) (x :: l)) as Hl by (apply IH; lia). inv Hl.
      constructor; [|done]. unfold unbroken in *. simpl. by rewrite Ea.
Qed.
Lemma splitlines_cons x rest :
  unbroken x = true → splitlines (x +:+ String LF rest) = x :: splitlines rest.
Proof.
  induction x as [|a x IH]; intros Hx.
  - change ("" +:+ String LF rest) with (String LF rest). by destruct rest.
  - unfold unbroken in *. simpl in Hx. apply andb_true_iff in Hx as [Ha Hx]. apply negb_true_iff in Ha.
    change (String a x +:+ String LF rest) with (String a (x +:+ String LF rest)). simpl. by rewrite Ha, IH.
Qed.
Lemma splitlines_one x : unbroken x = true → x ≠ "" → splitlines x = [x].
Proof.
  induction x as [|a x IH]; intros Hx Hne; [done|]. unfold unbroken in *. simpl in *.
  apply andb_true_iff in Hx as [Ha Hx]. apply negb_true_iff in Ha. rewrite Ha.
  destruct x as [|b x]; [done|]. by rewrite IH.
Qed.
Lemma splitlines_join l :
  Forall (λ x, unbroken x = true) l → Forall (λ x, x ≠ "") l → splitlines (join (String LF "") l) = l.
Proof.
  induction l as [|x l IH]; intros Hu Hn; [done|]. inv Hu. inv Hn. destruct l as [|y l]; [by apply splitlines_one|].
  change (join (String LF "") (x :: y :: l)) with (x +:+ String LF (join (String LF "") (y :: l))).
  rewrite splitlines_cons by done. by rewrite IH.
Qed.
Lemma splitlines_keep device_list output :
  splitlines (keep_lines device_list output) = filter (λ l, about device_list l = true) (splitlines output).
Proof.
  apply splitlines_join.
  - apply Forall_forall. intros x [_ Hx]%list_elem_of_filter.
    pose proof (splitlines_unbroken output) as Hu. rewrite Forall_forall in Hu. by apply Hu.
  - apply Forall_forall. by intros x [Hx _]%list_elem_of_filter ->.
Qed.

Lemma adb_line_about line k v : adb_line line = Some (k, v) → ∀ l : list string, about l line = mem k l.
Proof.
  unfold adb_line, about. case_match; [done|]. rewrite words_strip.
  destruct (words line) as [|w [|w' ws]]; try done. by intros [= <- <-].
Qed.
Lemma fastboot_line_about line k : fastboot_line line = Some k → ∀ l : list string, about l line = mem k l.
Proof.
  unfold fastboot_line, about. destruct (words line) as [|w [|w' ws]]; try done. case_match; [|done].
  by intros [= <-].
Qed.
(** Reading commutes with dropping lines. *)
Lemma omap_about {A} (f : string → option A) (key : A → string) devs (lines : list string) :
  (∀ line a, f line = Some a → ∀ l : list string, about l line = mem (key a) l) →
  omap f (filter (λ l, about devs l = true) lines) = filter (λ a, key a ∈ devs) (omap f lines).
Proof.
  intros Hf.
  assert (∀ x l, omap f (x :: l) = match f x with Some a => a :: omap f l | None => omap f l end) as Hc by done.
  induction lines as [|line lines IH]; [done|]. rewrite filter_cons, Hc. destruct (f line) as [a|] eqn:E.
  - rewrite filter_cons, <-IH. specialize (Hf line a E devs). unfold mem in Hf.
    destruct (decide (key a ∈ devs)).
    + rewrite bool_decide_eq_true_2 in Hf by done. rewrite decide_True by done. by rewrite Hc, E.
    + rewrite bool_decide_eq_false_2 in Hf by done. rewrite decide_False; [done|congruence].
  - rewrite <-IH. case_decide; [by rewrite Hc, E|done].
Qed.
Lemma dict_set_filter (devs : list string) k v d :
  filter (λ kv, kv.1 ∈ devs) (dict_set k v d) =
  if decide (k ∈ devs) then dict_set k v (filter (λ kv, kv.1 ∈ devs) d) else filter (λ kv, kv.1 ∈ devs) d.
Proof.
  induction d as [|[k' v'] d IH]; simpl.
  - rewrite filter_cons. simpl. by case_decide.
  - case_bool_decide as Ek; rewrite !filter_cons; simpl.
    + subst k'. case_decide; [|done]. simpl. by rewrite bool_decide_eq_true_2.
    + rewrite IH. destruct (decide (k' ∈ devs)), (decide (k ∈ devs)); try done. simpl.
      by rewrite bool_decide_eq_false_2.
Qed.
Lemma parse_adb_keep (devs : list string) output :
  parse_adb_device_states (keep_lines devs output) =
  filter (λ kv, kv.1 ∈ devs) (parse_adb_device_states output).
Proof.
  unfold parse_adb_device_states. rewrite splitlines_keep, (omap_about adb_line fst).
  2: { intros line [k v] E. by eapply adb_line_about. }
  assert (∀ l d, foldl (λ d '(k, v), dict_set k v d) (filter (λ kv, kv.1 ∈ devs) d)
                   (filter (λ kv : string * string, kv.1 ∈ devs) l) =
                 filter (λ kv, kv.1 ∈ devs) (foldl (λ d '(k, v), dict_set k v d) d l)) as Hl.
  { induction l as [|[k v] l IH]; intros d; [done|]. rewrite filter_cons. simpl.
    rewrite <-IH, dict_set_filter. by case_decide. }
  apply (Hl _ []).
Qed.
Lemma parse_fastboot_keep (devs : list string) output :
  parse_fastboot_devices (keep_lines devs output) = filter (λ s, s ∈ devs) (parse_fastboot_devices output).
Proof.
  unfold parse_fastboot_devices. rewrite splitlines_keep. apply (omap_about fastboot_line (λ s, s)).
  apply fastboot_line_about.
Qed.
Lemma serials_in_filter (devs : list string) state l :
  serials_in state (filter (λ kv, kv.1 ∈ devs) l) = filter (λ s, s ∈ devs) (serials_in state l).
Proof.
  unfold serials_in. induction l as [|[k v] l IH]; [done|]. rewrite !filter_cons. simpl.
  destruct (decide (k ∈ devs)), (decide (v = state)); rewrite ?filter_cons; simpl;
    rewrite ?decide_True by done; rewrite ?decide_False by done; rewrite ?fmap_cons, ?filter_cons;
    simpl; rewrite ?decide_True by done; rewrite ?decide_False by done; by rewrite ?fmap_cons, IH.
Qed.
Lemma with_adb_filter (devs : list string) states :
  with_adb (filter (λ kv, kv.1 ∈ devs) states) empty_fields =
  with_adb states empty_fields <| pf_adb ::= filter (λ kv, kv.1 ∈ devs) |>
    <| pf_adb_ready ::= filter (λ s, s ∈ devs) |> <| pf_recovery ::= filter (λ s, s ∈ devs) |>
    <| pf_sideload ::= filter (λ s, s ∈ devs) |> <| pf_unauthorized ::= filter (λ s, s ∈ devs) |>
    <| pf_offline ::= filter (λ s, s ∈ devs) |>.
Proof. unfold with_adb, empty_fields. simpl. by rewrite !serials_in_filter. Qed.

(** The listings with only the lines about the given devices. *)
Definition restricted {W} (devs : list string) (execute : string → M W (string * string)) :
    string → M W (string * string) := λ command,
  '(stdout, stderr) ← execute command; mret (keep_lines devs (str_or stdout stderr), "").

(** [C40] The status attributed to an attachment is what a probe would report that had only
    seen its devices: narrowing the global status down afterwards (entries, every list, and
    the mode derived again) is equivalent to dropping the lines about other devices from the
    listings before they are read, whatever the commands print and whether or not they fail. *)
Theorem scope_equivalent {W} (execute : string → M W (string * string)) socket devs (w : W) :
  devs ≠ [] →
  (status ← probe_protocol_status execute socket; mret (scope_protocol_status status devs)) w =
  probe_protocol_status (restricted devs execute) socket w.
Proof.
  intros Hne. destruct devs as [|dev devs]; [done|]. set (l := dev :: devs).
  assert (∀ x : string, str_or x "" = x) as Hor by (intros x; unfold str_or; case_decide; congruence).
  unfold probe_protocol_status, restricted, try, mbind, M_bind, mret, M_ret, scope_protocol_status. fold l.
  destruct (execute (build_adb_devices_command socket) w) as [[[out err]|e] w1];
    destruct (execute "fastboot devices" w1) as [[[out' err']|e'] w2];
    rewrite ?Hor, ?parse_adb_keep, ?parse_fastboot_keep, ?with_adb_filter; reflexivity.
Qed.

(** ** The probe at work *)

Definition sample_listing (command : string) : M unit (string * string) :=
  mret (if startswith "adb" command
        then ("List of devices attached" +:+ String LF ("SER1 device" +:+ String LF "SER2 recovery"), "")
        else ("LOCAL Android Fastboot", "")).
Lemma scope_equivalent_witness :
  (status ← probe_protocol_status sample_listing None; mret (scope_protocol_status status ["SER1"])) () =
  probe_protocol_status (restricted ["SER1"] sample_listing) None () ∧
  (pf_mode ∘ pr_fields <$> match (probe_protocol_status sample_listing None ()).1 with Ok s => Some s | Err _ => None end)
    = Some "fastboot" ∧
  (pf_mode ∘ pr_fields <$> match (probe_protocol_status (restricted ["SER1"] sample_listing) None ()).1 with
                           Ok s => Some s | Err _ => None end) = Some "adb".
Proof.
  split_and!; [apply (scope_equivalent sample_listing None ["SER1"] ()); discriminate|..]; vm_compute; reflexivity.
Defined.
