(* ===== verification/Regex.v ===== *)
(** Regular expressions as Python's [re] runs them: backtracking, greedy, first alternative first.
    A match is computed as the list of all ways to match, in the order they are tried; the first one
    counts.  Groups are named, and patterns are about ASCII text. *)

From S2P Require Import Prelude Encodings.

(** ** Patterns *)

Inductive re :=
  | Chars (p : ascii → bool)         (* one character *)
  | Then (a b : re)
  | Either (a b : re)
  | Many (a : re)                    (* zero or more, as many as can be *)
  | Group (name : string) (a : re)
  | Boundary                         (* \b *)
  | AtStart                          (* ^ *)
  | AtEnd                            (* $ *)
  | Nothing.                         (* the empty text *)

Definition Some_ (a : re) : re := Then a (Many a).
Definition Maybe (a : re) : re := Either a Nothing.
Fixpoint Text (s : string) : re :=
  match s with
  | EmptyString => Nothing
  | String a s' => Then (Chars (λ c, bool_decide (c = a))) (Text s')
  end.
(** [re.IGNORECASE]. *)
Fixpoint AnyCase (s : string) : re :=
  match s with
  | EmptyString => Nothing
  | String a s' => Then (Chars (λ c, bool_decide (lower_char c = lower_char a))) (AnyCase s')
  end.
Fixpoint Seq (l : list re) : re := match l with [] => Nothing | [a] => a | a :: l => Then a (Seq l) end.
Definition Digit : re := Chars (λ c, bool_decide (is_Some (digit_val c))).
Definition Space : re := Chars is_space.
Definition word_char (c : ascii) : bool := alnum c || bool_decide (c = "_"%char).

(** ** Matching *)

(** Where a match is: the character before, the text that is left, and the groups so far. *)
Record cursor := Cursor { cu_before : option ascii; cu_rest : string; cu_groups : list (string * string) }.
Definition boundary (before : option ascii) (rest : string) : bool :=
  negb (Bool.eqb match before with Some c => word_char c | None => false end
                 match rest with String c _ => word_char c | EmptyString => false end).
(** Repeat while something is consumed. *)
Fixpoint repeat_match (m : cursor → list cursor) (fuel : nat) (c : cursor) : list cursor :=
  match fuel with
  | O => [c]
  | S fuel =>
      (m c ≫= λ c', if Nat.ltb (String.length (cu_rest c')) (String.length (cu_rest c)) then repeat_match m fuel c' else [])
      ++ [c]
  end.
Fixpoint matches (r : re) (c : cursor) : list cursor :=
  match r with
  | Chars p =>
      match cu_rest c with
      | String a s => if p a then [Cursor (Some a) s (cu_groups c)] else []
      | EmptyString => []
      end
  | Then a b => matches a c ≫= matches b
  | Either a b => matches a c ++ matches b c
  | Many a => repeat_match (matches a) (String.length (cu_rest c)) c
  | Group name a =>
      (λ c', Cursor (cu_before c') (cu_rest c')
         (cu_groups c' ++ [(name, String.substring 0 (String.length (cu_rest c) - String.length (cu_rest c')) (cu_rest c))])) <$> matches a c
  | Boundary => if boundary (cu_before c) (cu_rest c) then [c] else []
  | AtStart => if bool_decide (cu_before c = None) then [c] else []
  | AtEnd => if mem (cu_rest c) [""; String "010" EmptyString] then [c] else []
  | Nothing => [c]
  end.
Definition groups := list (string * string).
Definition group (name : string) (g : groups) : string :=
  match fetchone (λ x, streqb x.1 name) g with Some x => x.2 | None => "" end.
(** [re.match], and [re.search]: from the first place that matches. *)
Definition match_at (r : re) (before : option ascii) (s : string) : option groups :=
  cu_groups <$> head (matches r (Cursor before s [])).
Definition re_match (r : re) (s : string) : option groups := match_at r None s.
Fixpoint search_from (r : re) (before : option ascii) (s : string) : option groups :=
  match match_at r before s with
  | Some g => Some g
  | None => match s with String a s' => search_from r (Some a) s' | EmptyString => None end
  end.
Definition re_search (r : re) (s : string) : option groups := search_from r None s.
Definition found (r : re) (s : string) : bool := bool_decide (is_Some (re_search r s)).

(** [re.sub] with the empty text. *)
Fixpoint remove_from (r : re) (fuel : nat) (before : option ascii) (s : string) : string :=
  match fuel, s with
  | S fuel, String a s' =>
      match head (matches r (Cursor before s [])) with
      | Some c =>
          if Nat.ltb (String.length (cu_rest c)) (String.length s) then remove_from r fuel (cu_before c) (cu_rest c)
          else String a (remove_from r fuel (Some a) s')
      | None => String a (remove_from r fuel (Some a) s')
      end
  | _, _ => s
  end.
Definition re_remove (r : re) (s : string) : string := remove_from r (String.length s) None s.

(** ** Lemmas *)

(** A match takes a prefix: the text left is never longer. *)
Lemma matches_shorter r c c' : c' ∈ matches r c → (String.length (cu_rest c') ≤ String.length (cu_rest c))%nat.
Proof.
  revert c c'. induction r as [p|a IHa b IHb|a IHa b IHb|a IHa|n a IHa| | | |]; intros c c'; cbn [matches].
  - destruct (cu_rest c) as [|x s] eqn:E; [by intros ?%not_elem_of_nil|]. destruct (p x); [|by intros ?%not_elem_of_nil].
    intros ->%list_elem_of_singleton. cbn. lia.
  - intros (d&Hd&Hc)%list_elem_of_bind. apply IHb in Hd. apply IHa in Hc. lia.
  - intros [H|H]%elem_of_app; auto.
  - generalize (String.length (cu_rest c)) at 1 as fuel. intros fuel. revert c. induction fuel as [|fuel IH]; intros c; cbn [repeat_match].
    { by intros ->%list_elem_of_singleton. }
    intros [(d&Hd&Hc)%list_elem_of_bind| ->%list_elem_of_singleton]%elem_of_app; [|done].
    destruct (Nat.ltb _ _) eqn:E; [|by apply not_elem_of_nil in Hd]. apply Nat.ltb_lt in E. apply IH in Hd. lia.
  - intros (d&->&Hd)%list_elem_of_fmap. by apply IHa in Hd.
  - destruct (boundary _ _); [by intros ->%list_elem_of_singleton|by intros ?%not_elem_of_nil].
  - case_bool_decide; [by intros ->%list_elem_of_singleton|by intros ?%not_elem_of_nil].
  - destruct (mem _ _); [by intros ->%list_elem_of_singleton|by intros ?%not_elem_of_nil].
  - by intros ->%list_elem_of_singleton.
Qed.
