(* ===== verification/UsbipTransaction.v ===== *)
(** Attaching devices over USB/IP: [features/devices/usbip.py] ([USBIPManager.start_usbip]) with
    [usbip_transaction.py], [usbip_source_sessions.py], [usb.py] and [usbipd_setup.py].

    A source host exports USB devices, a target host attaches them.  The model keeps the history of
    what was done; what the hosts answer is any function of that history ([Environment]).  A command
    always answers: [SSHExecutor.run] turns exceptions into the exit code -1.  The server of a Linux
    source ([usbip_linux_source.py]) is an interface.  The lookup of hosts and passwords before the
    connection to the source, log lines, timeouts of commands, remediation texts and the quality of the
    network are left out.  Sets are iterated in the order they were filled. *)

From stdpp Require Import gmap.
From S2P Require Import Prelude Encodings Regex UsbipProtocol.

Open Scope Z_scope.

(** ** Hosts *)

(* src/foundation/command_result.py:17-34 CommandResult *)
Record command_result := CommandResult { cr_stdout : string; cr_stderr : string; cr_code : Z }.
Definition succeeded (r : command_result) : bool := Z.eqb (cr_code r) 0.

Inductive side := OnSource | OnTarget.
(** What was done: a command and its answer, a sleep in seconds, anything else by name. *)
Inductive event :=
  | Ran (s : side) (command : string) (r : command_result)
  | Slept (seconds : Z)
  | Did (what : string).
Record usb_item := UsbItem { ub_busid : string; ub_serial : string; ub_vid_pid : string }.

(** What the hosts answer after what was done.  [list_ubuntu_usb_devices], [ensure_ubuntu_usbip_server]
    (its [started] and [success]) and [stop_ubuntu_usbip_server] are the interface of a Linux source. *)
Class Environment := {
  answer : side → string → list event → command_result;
  now_ms : list event → Z;
  reachable : list event → bool;
  connection : list event → result bool;
  returned : list event → result unit;
  closed : list event → result unit;
  usb_devices : bool → list event → result (list usb_item);
  server_ensured : list string → list string → list event → result (bool * bool);
  server_stopped : list event → result bool;
  usbip_binary : string;
}.
(** [device_sources]: the devices the manager knows the source of. *)
Record world := World { history : list event; device_sources : list string }.
#[export] Instance world_eta : Eta world := λ w, World (history w) (device_sources w).

Section hosts.
Context `{Environment}.
Definition did (e : event) : M world unit := modify (λ w, w <| history ::= λ l, l ++ [e] |>).
Definition execute_command (s : side) (command : string) : M world command_result :=
  r ← gets (λ w, answer s command (history w)); _ ← did (Ran s command r); mret r.
Definition sleep (seconds : Z) : M world unit := did (Slept seconds).
Definition time : M world Z := gets (λ w, now_ms (history w)).
Definition asked {A} (what : string) (f : list event → result A) : M world A :=
  r ← gets (λ w, f (history w)); _ ← did (Did what); lift r.
End hosts.

(** ** The ports of a target *)

Record port_entry := PortEntry { pe_port : string; pe_busid : string; pe_host : string; pe_local_busid : string }.
#[export] Instance port_entry_eq_dec : EqDecision port_entry.
Proof. solve_decision. Defined.

Definition one_of (cs : string) : re := Chars (λ c, has_char c cs).
Definition none_of (cs : string) : re := Chars (λ c, negb (has_char c cs)).
(** [\d+(?:[-.]\d+)+]. *)
Definition BusId : re := Then (Some_ Digit) (Some_ (Then (one_of "-.") (Some_ Digit))).
Definition PortLine : re := Seq [Many Space; Text "Port"; Some_ Space; Group "port" (Some_ Digit); Text ":"].
(* src/features/devices/usbip_transaction.py:51-53 _USBIP_PORT_DEVICE_RE *)
Definition PortDevice : re :=
  Seq [AtStart; Many Space; Group "busid" BusId; Many Space; Text "|"; Many (none_of "|"); Text "|"; Many (none_of "|");
       Text "|"; Many Space; Text "Remote USB/IP host "; Group "host" (Some_ (Chars (λ c, negb (is_space c)))); Many Space; AtEnd].
Definition hex_or_colon (c : ascii) : bool := has_char c "0123456789abcdefABCDEF:".
(* src/features/devices/usbip_transaction.py:54-59 _USBIP_PORT_URL_RE *)
Definition PortUrl : re :=
  Seq [Boundary; Group "local_busid" BusId; Many Space; Text "->"; Many Space; AnyCase "usbip://";
       Group "host" (Either (Seq [Text "["; Some_ (Chars hex_or_colon); Text "]"])
                            (Some_ (Chars (λ c, negb (has_char c "/:" || is_space c)))));
       Maybe (Then (Text ":") (Some_ Digit)); Text "/"; Group "busid" BusId; Boundary].
(** [host.strip('[]')]. *)
Fixpoint lstrip_of (cs s : string) : string :=
  match s with String a s' => if has_char a cs then lstrip_of cs s' else s | EmptyString => EmptyString end.
Fixpoint rstrip_of (cs s : string) : string :=
  match s with
  | EmptyString => EmptyString
  | String a s' =>
      match rstrip_of cs s' with
      | EmptyString => if has_char a cs then EmptyString else String a EmptyString
      | r => String a r
      end
  end.
Definition bare_host (s : string) : string := rstrip_of "[]" (lstrip_of "[]" s).
Definition update_last {A} (f : A → A) (l : list A) : list A :=
  match rev l with x :: l' => rev (f x :: l') | [] => [] end.
(** One line: a new port, or what it says of the last one. *)
Definition port_step (entries : list port_entry) (line : string) : list port_entry :=
  match re_match PortLine line with
  | Some g => entries ++ [PortEntry (group "port" g) "" "" ""]
  | None =>
      match re_match PortDevice line with
      | Some g => update_last (λ e, PortEntry (pe_port e) (group "busid" g) (bare_host (group "host" g)) (pe_local_busid e)) entries
      | None =>
          match re_search PortUrl line with
          | Some g => update_last (λ e, PortEntry (pe_port e) (group "busid" g) (bare_host (group "host" g)) (group "local_busid" g)) entries
          | None => entries
          end
      end
  end.
(* src/features/devices/usbip_transaction.py:62-100 parse_usbip_port_entries *)
Definition parse_usbip_port_entries (output : string) : list port_entry := foldl port_step [] (splitlines output).

(** An attachment of these devices of this host. *)
Definition from_host (remote_host : string) (busids : list string) (e : port_entry) : bool :=
  streqb (pe_host e) remote_host && mem (pe_busid e) busids.

(** ** What a Windows source says *)

(** [\x1b(?:[@-Z\\-_]|\[[0-?]*[ -/]*[@-~])]. *)
Definition between (lo hi : N) : re := Chars (λ c, let n := N_of_ascii c in ((lo <=? n) && (n <=? hi))%N).
Definition AnsiEscape : re :=
  Then (Text (String "027" EmptyString))
    (Either (Chars (λ c, let n := N_of_ascii c in (((64 <=? n) && (n <=? 90)) || ((92 <=? n) && (n <=? 95)))%N))
       (Seq [Text "["; Many (between 48 63); Many (between 32 47); between 64 126])).
(* src/features/devices/usb.py:32-32 USBIPD_BUSID_RE *)
Definition usbipd_busid (s : string) : bool :=
  bool_decide (is_Some (re_match (Seq [AtStart; Some_ Digit; Some_ (Then (Text "-") (Some_ Digit)); AtEnd]) s)).
Definition first_word (line : string) : string := default "" (head (words line)).
(** The lines about devices that are plugged in; [None]: past the end. *)
(* src/features/devices/usb.py:68-87 _iter_connected_lines *)
Fixpoint connected_lines (in_connected saw_section : bool) (lines : list string) : list string :=
  match lines with
  | [] => []
  | line :: lines =>
      let stripped := strip line in
      if negb (nonempty stripped) then connected_lines in_connected saw_section lines
      else if startswith "Connected:" stripped then connected_lines true true lines
      else if startswith "Persisted:" stripped then []
      else
        (if in_connected || (negb saw_section && usbipd_busid (first_word stripped)) then [stripped] else [])
        ++ connected_lines in_connected saw_section lines
  end.
Definition device_lines (output : string) : list string :=
  connected_lines false false (splitlines (re_remove AnsiEscape output)).
(* src/features/devices/usb.py:13-31 DEFAULT_ANDROID_USBIP_VID_PIDS *)
Definition DEFAULT_VID_PIDS : list string := ["2207:0006"; "18d1:4d00"; "2207:351a"; "2207:350e"].
Definition ANDROID_USBIP_MARKERS : list string :=
  ["android"; "adb"; "fastboot"; "usb download gadget"; "rockusb"; "rk356"; "rockchip"].
Definition vid_pid_text (s : string) : bool :=
  let hex c := has_char c "0123456789abcdefABCDEF" in
  match split_on ":" s with
  | [a; b] => Nat.eqb (String.length a) 4 && Nat.eqb (String.length b) 4 && all_chars hex a && all_chars hex b
  | _ => false
  end.
(* src/features/devices/usb.py:37-47 normalize_usbip_vid_pids *)
Definition normalize_usbip_vid_pids (values : list string) : list string :=
  dedup (filter (λ s, vid_pid_text s = true) ((λ s, ascii_lower (strip s)) <$> values)).
(* src/features/devices/usb.py:90-107 parse_usbipd_android_busids *)
Definition parse_usbipd_android_busids (output : string) (vid_pids : list string) : list string :=
  let accepted := match normalize_usbip_vid_pids vid_pids with [] => DEFAULT_VID_PIDS | l => l end in
  omap (λ line,
    let lowered := ascii_lower line in
    if existsb (λ x, contains x lowered) (accepted ++ ANDROID_USBIP_MARKERS) && usbipd_busid (first_word line)
    then Some (first_word line) else None) (device_lines output).
(** The keys. *)
(* src/features/devices/usb.py:110-125 parse_usbipd_busid_statuses *)
Definition parse_usbipd_busid_statuses (output : string) : list string :=
  dedup (filter (λ s, usbipd_busid s = true) (first_word <$> device_lines output)).
(* src/features/devices/usbip_source_sessions.py:32-32 _BUSID_PATTERN *)
Definition valid_busid (s : string) : bool :=
  nonempty s && Nat.leb (String.length s) 64 && all_chars (λ c, alnum c || has_char c "._-") s.
(** The line of a device, and its state. *)
(* src/features/devices/usbip_source_sessions.py:398-414 bind_usbipd_devices *)
Definition state_line (busid output : string) : string :=
  default "" (find (found (Seq [Either AtStart Space; Text busid; Space])) (splitlines output)).
Definition word (s : string) : re := Seq [Boundary; Text s; Boundary].
Definition already_shared (line : string) : bool := found (word "Shared") line && negb (found (word "Not Shared") line).
Definition already_attached (line : string) : bool := found (word "Attached") line.

Definition join_parts (r : command_result) : string :=
  join (String LF EmptyString) (filter (λ s, nonempty s = true) [cr_stdout r; cr_stderr r]).

Definition LISTING `{Environment} : string := "sudo -n " +:+ usbip_binary +:+ " port".
Definition detach_command (port : string) : string := "sudo usbip detach -p " +:+ port.
Definition attach_command (host busid : string) : string := "sudo usbip attach -r " +:+ host +:+ " -b " +:+ busid.
Definition bind_command (busid : string) : string := "usbipd bind --busid " +:+ busid.
Definition unbind_command (busid : string) : string := "usbipd unbind --busid " +:+ busid.
Definition source_detach_command (busid : string) : string := "usbipd detach --busid " +:+ busid.

Section operations.
Context `{Environment}.

(** ** Detaching *)

(** The empty list of [busids] is [None] or [[]]. *)
Definition port_selected (remote_host : option string) (detach_all : bool) (busids : list string) (e : port_entry) : bool :=
  detach_all ||
  match remote_host with
  | Some host => nonempty host && streqb (pe_host e) host && match busids with [] => true | _ => mem (pe_busid e) busids end
  | None => false
  end.
(* src/features/devices/usbip_transaction.py:103-120 usbip_attached_ports *)
Definition usbip_attached_ports : M world (option (list string)) :=
  r ← execute_command OnTarget LISTING;
  mret (if succeeded r then Some (pe_port <$> parse_usbip_port_entries (cr_stdout r)) else None).
Definition detach_port (e : port_entry) : M world (list string) :=
  r ← execute_command OnTarget (detach_command (pe_port e));
  ports_after ← usbip_attached_ports;
  let port_gone := match ports_after with Some ports => negb (mem (pe_port e) ports) | None => false end in
  mret (if succeeded r || port_gone then [pe_port e] else []).
(* src/features/devices/usbip_transaction.py:123-182 detach_ubuntu_usbip_ports *)
Definition detach_ubuntu_usbip_ports (remote_host : option string) (detach_all : bool) (busids : list string) : M world (list string) :=
  r ← execute_command OnTarget LISTING;
  if negb (succeeded r) then mret [] else
  let selected := filter (λ e, port_selected remote_host detach_all busids e = true) (parse_usbip_port_entries (cr_stdout r)) in
  detached ← forM selected detach_port;
  let detached := concat detached in
  _ ← when (some_of detached) (sleep 2);
  mret detached.

(** ** Rollback *)

(* src/features/devices/usbip_transaction.py:185-226 rollback_ubuntu_attachments *)
Definition rollback_ubuntu_attachments (remote_host : string) (busids : list string) : M world bool :=
  _ ← detach_ubuntu_usbip_ports (Some remote_host) false busids;
  r ← execute_command OnTarget LISTING;
  if negb (succeeded r) then mret false else
  let entries := parse_usbip_port_entries (cr_stdout r) in
  if existsb (λ e, negb (nonempty (pe_host e)) || negb (nonempty (pe_busid e))) entries then mret false else
  mret (negb (existsb (from_host remote_host busids) entries)).

Definition unbind_one (busid : string) : M world (list string) :=
  if negb (valid_busid busid) then mret [] else
  _ ← execute_command OnSource (source_detach_command busid);
  r ← execute_command OnSource (unbind_command busid);
  mret (if succeeded r then [busid] else []).
(** The connection to the source is there. *)
(* src/features/devices/usbip_transaction.py:229-273 rollback_windows_binds *)
Definition rollback_windows_binds (newly_bound : list string) : M world bool :=
  match newly_bound with
  | [] => mret true
  | _ =>
      rolled_back ← forM newly_bound unbind_one;
      mret (forallb (λ b, mem b (concat rolled_back)) newly_bound && forallb (λ b, mem b newly_bound) (concat rolled_back))
  end.

(** What was done on the source: the devices bound, whether the server was started. *)
Inductive source_txn := WindowsTxn (newly_bound : list string) | LinuxTxn (started : bool).
(* src/features/devices/usbip.py:653-673 _rollback_source_side *)
Definition rollback_source_side (txn : source_txn) : M world bool :=
  match txn with
  | WindowsTxn newly_bound => rollback_windows_binds newly_bound
  | LinuxTxn true => asked "stop_ubuntu_usbip_server" server_stopped
  | LinuxTxn false => mret true
  end.

(** ** A Windows source *)

(* src/features/devices/usbip_source_sessions.py:40-45 is_windows_host *)
Definition is_windows_host : M world bool :=
  r ← execute_command OnSource "ver 2>&1";
  mret (contains "microsoft" (ascii_lower (cr_stdout r)) || contains "windows" (ascii_lower (cr_stdout r))).
(* src/features/devices/usbip.py:161-177 _detect_source_os *)
Definition detect_source_os : M world string :=
  windows ← is_windows_host;
  if windows : bool then mret "windows" else
  r ← execute_command OnSource "uname -s";
  mret (if succeeded r && contains "linux" (ascii_lower (strip (cr_stdout r))) then "linux" else "").
(* src/features/devices/usbipd_setup.py:30-39 check_usbipd_installed *)
Definition check_usbipd_installed : M world bool :=
  r ← execute_command OnSource "usbipd --version";
  mret (succeeded r && nonempty (strip (cr_stdout r))).
(* src/features/devices/usbip_source_inventory.py:303-312 _usbipd_list_output *)
Definition usbipd_list_output : M world string :=
  r ← execute_command OnSource "usbipd list"; mret (join_parts r).

(** Whether the device is bound now, and whether this call bound it. *)
Definition bind_one (busid : string) : M world (bool * bool) :=
  if negb (valid_busid busid) then mret (false, false) else
  l ← execute_command OnSource ("usbipd list | findstr " +:+ busid);
  if negb (Z.eqb (cr_code l) 0 || Z.eqb (cr_code l) 1) then mret (false, false) else
  let line := state_line busid (cr_stdout l) in
  if already_shared line then mret (true, false) else
  go ← (if already_attached line then
          d ← execute_command OnSource (source_detach_command busid);
          if succeeded d then (_ ← sleep 1; mret true) else mret false
        else mret true);
  if negb go then mret (false, false) else
  b ← execute_command OnSource (bind_command busid);
  if negb (succeeded b) then mret (false, false) else
  _ ← sleep 2;
  mret (true, true).
(** The devices bound, and those this call bound. *)
(* src/features/devices/usbip_source_sessions.py:365-452 bind_usbipd_devices *)
Definition bind_usbipd_devices (busids : list string) : M world (list string * list string) :=
  bound ← forM busids (λ b, r ← bind_one b; mret (b, r));
  mret ((filter (λ x, x.2.1 = true) bound).*1, (filter (λ x, x.2.2 = true) bound).*1).

Definition TASKLIST : string :=
  "tasklist /FI " +:+ String QUOTE "IMAGENAME eq adb.exe" +:+ String QUOTE " /NH".
(** The answer's [success]. *)
(* src/features/devices/usbip_source_sessions.py:455-524 stop_windows_adb *)
Definition stop_windows_adb : M world bool :=
  let adb r := contains "adb.exe" (ascii_lower (cr_stdout r)) in
  l ← execute_command OnSource TASKLIST;
  if negb (succeeded l) then mret false else
  if negb (adb l) then mret true else
  _ ← execute_command OnSource "adb kill-server";
  _ ← sleep 1;
  l ← execute_command OnSource TASKLIST;
  if negb (succeeded l) then mret false else
  if adb l then
    _ ← execute_command OnSource "taskkill /F /IM adb.exe /T";
    _ ← sleep 1;
    v ← execute_command OnSource TASKLIST;
    mret (negb (negb (succeeded v) || adb v))
  else mret true.
End operations.

(** ** Attaching *)

(* src/features/devices/utils.py:81-95 DeviceUtils.parse_adb_devices *)
Definition parse_adb_devices (output : string) : list string :=
  let serial line := default "" (head (split_on "009" line)) in
  serial <$> filter (λ line, nonempty (strip line) && contains (String "009" "device") line
                             && negb (startswith "localhost:" (serial line)) = true) (tail (split_on LF output)).
Definition dict_get (k : string) (d : list (string * string)) : option string :=
  snd <$> fetchone (λ kv, streqb kv.1 k) d.

Section attaching.
Context `{Environment}.

(* src/features/devices/usbip.py:675-683 _ensure_vhci_driver *)
Definition ensure_vhci_driver : M world unit :=
  l ← execute_command OnTarget "lsmod | grep vhci_hcd";
  when (negb (nonempty (strip (cr_stdout l))))
    (_ ← execute_command OnTarget "sudo modprobe vhci_hcd"; sleep 1).

(** The requested devices that a listing shows. *)
Definition snapshot (host : string) (busids : list string) (output : string) : list string :=
  filter (λ b, existsb (from_host host [b]) (parse_usbip_port_entries output) = true) busids.
Definition missing_in (seen busids : list string) : list string := filter (λ b, mem b seen = false) busids.
(** Attach what is not stable yet: the devices whose command succeeded. *)
Definition attach_commands (host : string) (busids stable : list string) : M world (list string) :=
  oks ← forM (missing_in stable busids) (λ b,
    r ← execute_command OnTarget (attach_command host b); mret (if succeeded r then [b] else []));
  mret (concat oks).
(** List the ports until all are there; [None]: a listing failed. *)
Fixpoint poll_ports (host : string) (busids : list string) (polls : nat) (again : bool) (last : list string) : M world (option (list string)) :=
  match polls with
  | O => mret (Some last)
  | S polls =>
      _ ← when again (sleep 1);
      r ← execute_command OnTarget LISTING;
      if negb (succeeded r) then mret None else
      let seen := snapshot host busids (cr_stdout r) in
      match missing_in seen busids with [] => mret (Some seen) | _ => poll_ports host busids polls true seen end
  end.
Definition USBIP_ATTACH_STABILIZATION_ATTEMPTS : nat := 3.
Definition USBIP_ATTACH_PORT_POLL_ATTEMPTS : nat := 6.
(** The attempts left: whether every device was there twice in a row. *)
(* src/features/devices/usbip.py:715-811 _attach_devices *)
Fixpoint stabilize (host : string) (busids : list string) (attempts : nat) (stable retryable : list string) : M world bool :=
  match attempts with
  | O => mret false
  | S attempts =>
      oks ← attach_commands host busids stable;
      first ← poll_ports host busids USBIP_ATTACH_PORT_POLL_ATTEMPTS false [];
      match first with
      | None => mret false
      | Some first =>
          _ ← sleep 1;
          r ← execute_command OnTarget LISTING;
          if negb (succeeded r) then mret false else
          let stable := filter (λ b, mem b first = true) (snapshot host busids (cr_stdout r)) in
          let missing := missing_in stable busids in
          match missing with
          | [] => mret true
          | _ =>
              if Nat.eqb attempts 0 || negb (forallb (λ b, mem b (retryable ++ oks)) missing) then mret false else
              _ ← sleep 1;
              stabilize host busids attempts stable (retryable ++ oks)
          end
      end
  end.

Section waiting.
Context (adb_command : string) (devices_before : list string) (states_before : list (string * string)) (fastboot_before : list string).
Definition new_of (after before : list string) : list string := filter (λ d, mem d before = false) (dedup after).
(** A device with a source already, as the only one. *)
Definition known_device (devices : list string) : M world (list string) :=
  known ← gets device_sources; mret (option_list (find (λ d, mem d known) devices)).
(** Wait for devices until the deadline; out of fuel: an error. *)
(* src/features/devices/usbip.py:827-886 _attach_devices *)
Fixpoint wait_devices (fuel : nat) (deadline : Z) (devices_after : list string) : M world (list string) :=
  now ← time;
  if Z.ltb now deadline then
    match fuel with
    | O => raise (RuntimeError "out of fuel")
    | S fuel =>
        a ← execute_command OnTarget adb_command;
        let states := parse_adb_device_states (cr_stdout a) in
        let devices_after := dedup (parse_adb_devices (cr_stdout a)) in
        match new_of devices_after devices_before with
        | (_ :: _) as new_devices => mret new_devices
        | [] =>
            if existsb (λ kv, negb (streqb kv.2 "device") && negb (bool_decide (dict_get kv.1 states_before = Some kv.2))) states then mret [] else
            f ← execute_command OnTarget "fastboot devices";
            match new_of (parse_fastboot_devices (str_or (cr_stdout f) (cr_stderr f))) fastboot_before with
            | _ :: _ => mret []
            | [] =>
                known ← known_device devices_after;
                match known with
                | _ :: _ => mret known
                | [] => _ ← sleep 1; wait_devices fuel deadline devices_after
                end
            end
        end
    end
  else
    match new_of devices_after devices_before with
    | [] => known_device devices_after
    | new_devices => mret new_devices
    end.
End waiting.

(** The devices attached, and those adb sees now. *)
(* src/features/devices/usbip.py:685-890 _attach_devices *)
Definition attach_devices (fuel : nat) (host : string) (busids : list string) (adb_server_socket : option string)
    (allow_transport_only : bool) : M world (list string * list string) :=
  try
    (let adb_command := build_adb_devices_command adb_server_socket in
     a ← execute_command OnTarget adb_command;
     f ← execute_command OnTarget "fastboot devices";
     stable ← stabilize host busids USBIP_ATTACH_STABILIZATION_ATTEMPTS [] [];
     if negb stable then mret ([], []) else
     _ ← execute_command OnTarget "sudo udevadm trigger";
     _ ← execute_command OnTarget "sudo udevadm settle";
     if allow_transport_only then mret (busids, []) else
     now ← time;
     devices ← wait_devices adb_command (parse_adb_devices (cr_stdout a)) (parse_adb_device_states (cr_stdout a))
       (parse_fastboot_devices (str_or (cr_stdout f) (cr_stderr f))) fuel (now + 30000) [];
     mret (busids, devices))
    (λ _, mret ([], [])).
End attaching.

(** ** The whole transaction *)

(** [error_code], the fixed part of [error], and [rollback_complete] if it is there. *)
(* src/features/devices/usbip.py:553-591 start_usbip *)
Inductive attach_outcome :=
  | Attached (devices device_list : list string) (message protocol_state readiness source_os : string)
  | NotAttached (error_code error : string) (rollback_complete : option bool).
(** A step that may answer the request before the rest. *)
Definition step (A : Type) := (attach_outcome + A)%type.
Definition stop {A} `{Environment} (code text : string) (rollback : option bool) : M world (step A) :=
  mret (inl (NotAttached code text rollback)).

Section transaction.
Context `{Environment} (vid_pids : list string) (attach_host : string) (selected_busids : list string).

(** The requested devices, if all may be attached. *)
Definition choose_busids (discovered allowed : list string) : step (list string) :=
  if negb (forallb (λ b, mem b allowed) selected_busids) then inl (NotAttached "" "选择的USB设备已不可用，请刷新后重试" None) else
  match selected_busids with
  | [] => match discovered with [] => inl (NotAttached "" "未找到Android设备" None) | _ => inr discovered end
  | _ => inr selected_busids
  end.
(** Bind the chosen devices. *)
Definition bind_chosen (chosen : step (list string)) : M world (step (list string * source_txn)) :=
  match chosen with
  | inl r => mret (inl r)
  | inr busids =>
      '(bound, newly_bound) ← bind_usbipd_devices busids;
      match bound with
      | [] => stop "" "设备绑定失败" None
      | _ => mret (inr (busids, WindowsTxn newly_bound))
      end
  end.
Definition UNREACHABLE : string := "无法连接USB/IP来源".
(* src/features/devices/usbip.py:351-395 start_usbip *)
Definition prepare_windows (allow_transport_only : bool) (tcp : bool) : M world (step (list string * source_txn)) :=
  if negb tcp then stop "USBIP_TCP_UNREACHABLE" UNREACHABLE None else
  released ← stop_windows_adb;
  if negb released then stop "USBIP_ADB_RELEASE_FAILED" "释放Windows ADB占用失败" None else
  out ← usbipd_list_output;
  let discovered := parse_usbipd_android_busids out vid_pids in
  extra ← (if some_of selected_busids && allow_transport_only
           then (out ← usbipd_list_output; mret (parse_usbipd_busid_statuses out)) else mret []);
  bind_chosen (choose_busids discovered (discovered ++ extra)).
(** [sorted]. *)
Definition sorted_set (l : list string) : list string := order_by String.leb (dedup l).
Definition find_android_devices_linux (include_all : bool) : M world (list usb_item) :=
  try (asked "list_ubuntu_usb_devices" (usb_devices include_all)) (λ _, mret []).
(* src/features/devices/usbip.py:397-474 start_usbip *)
Definition prepare_linux (allow_transport_only : bool) : M world (step (list string * source_txn)) :=
  inventory ← find_android_devices_linux false;
  let discovered := ub_busid <$> inventory in
  all_inventory ← (if some_of selected_busids && allow_transport_only then find_android_devices_linux true else mret inventory);
  match choose_busids discovered (discovered ++ (ub_busid <$> all_inventory)) with
  | inl r => mret (inl r)
  | inr busids =>
      let selected := filter (λ i, mem (ub_busid i) busids = true) all_inventory in
      let serials := filter (λ s, nonempty s = true) (ub_serial <$> selected) in
      let vids := sorted_set (before ":" <$> filter (λ s, nonempty s = true) (ub_vid_pid <$> selected)) in
      '(started, success) ← asked "ensure_ubuntu_usbip_server"
        (server_ensured serials match serials with [] => vids | _ => [] end);
      if negb success then stop "USBIP_SOURCE_SERVER_FAILED" "Ubuntu来源USB/IP服务启动失败" None else
      tcp ← gets (λ w, reachable (history w)); _ ← did (Did "probe_tcp_quality");
      if negb tcp then (_ ← rollback_source_side (LinuxTxn started); stop "USBIP_TCP_UNREACHABLE" UNREACHABLE None)
      else mret (inr (busids, LinuxTxn started))
  end.

(** [get_connection] of the target, which the class calls [connection]. *)
Definition get_connection : M world bool := asked "get_connection" connection.
Definition return_connection : M world unit := asked "return_connection" returned.
Definition close_connection : M world unit := asked "close" closed.
Definition source_os_public (source_os : string) : string :=
  if streqb source_os "linux" then "ubuntu" else source_os.
Definition remember_source (device : string) : M world unit :=
  modify (λ w, w <| device_sources ::= λ l, if mem device l then l else l ++ [device] |>).
Definition run_probe (command : string) : M world (string * string) :=
  r ← execute_command OnTarget command; mret (cr_stdout r, cr_stderr r).
Definition readiness_of (mode : string) : string :=
  if mem mode ["adb"; "fastboot"; "recovery"] then "test_ready"
  else if mem mode ["unknown"; "offline"; "unauthorized"] then "transport_ready" else "protocol_ready".
(** Undo both sides. *)
Definition undo (busids : list string) (txn : source_txn) (after_target : M world unit) : M world bool :=
  target ← rollback_ubuntu_attachments attach_host busids;
  _ ← after_target;
  source ← rollback_source_side txn;
  mret (target && source).
(* src/features/devices/usbip.py:490-591 start_usbip *)
Definition attach_target (fuel : nat) (source_os : string) (adb_server_socket : option string) (allow_transport_only : bool)
    (busids : list string) (txn : source_txn) : M world attach_outcome :=
  try
    (_ ← ensure_vhci_driver;
     _ ← detach_ubuntu_usbip_ports (Some attach_host) false busids;
     '(attached, device_list) ← attach_devices fuel attach_host busids adb_server_socket allow_transport_only;
     match attached with
     | [] =>
         complete ← undo busids txn return_connection;
         mret (NotAttached "USBIP_ATTACH_FAILED" "USB/IP attach 失败，未成功连接任何设备" (Some complete))
     | _ =>
         probed ← probe_protocol_status run_probe adb_server_socket;
         let status := scope_protocol_status probed device_list in
         _ ← for_each device_list remember_source;
         _ ← return_connection;
         let mode := pf_mode (pr_fields status) in
         mret (Attached attached device_list (build_attach_message attached device_list status)
                 (str_or mode "unknown") (readiness_of mode) (source_os_public source_os))
     end)
    (λ e,
       complete ← undo busids txn close_connection;
       mret (NotAttached "USBIP_ATTACH_FAILED" (exn_text e) (Some complete))).
(** [try: ... finally: source_ssh.close()]. *)
Definition closing {A} (m : M world A) : M world A := λ w,
  match m w with
  | (r, w') => (_ ← close_connection; lift r) w'
  end.
Definition refused (e : exn) : M world attach_outcome := mret (NotAttached "" (exn_text e) None).
(* src/features/devices/usbip.py:476-508 start_usbip *)
Definition attach_prepared (fuel : nat) (source_os : string) (adb_server_socket : option string) (allow_transport_only : bool)
    (prepared : step (list string * source_txn)) : M world attach_outcome :=
  match prepared with
  | inl r => mret r
  | inr (busids, txn) =>
      connected ← get_connection;
      if negb connected then
        complete ← rollback_source_side txn;
        mret (NotAttached "USBIP_ATTACH_FAILED" "无法连接Ubuntu主机" (Some complete))
      else attach_target fuel source_os adb_server_socket allow_transport_only busids txn
  end.
(* src/features/devices/usbip.py:337-349 start_usbip *)
Definition attach_from_source (fuel : nat) (adb_server_socket : option string) (allow_transport_only : bool) : M world attach_outcome :=
  source_os ← detect_source_os;
  if negb (mem source_os ["windows"; "linux"]) then mret (NotAttached "" "USB/IP仅支持Windows或Ubuntu主机" None) else
  installed ← (if streqb source_os "windows" then check_usbipd_installed else mret true);
  if negb installed then mret (NotAttached "" "usbipd未安装" None) else
  tcp ← gets (λ w, reachable (history w)); _ ← did (Did "probe_tcp_quality");
  prepared ← (if streqb source_os "windows" then prepare_windows allow_transport_only tcp else prepare_linux allow_transport_only);
  attach_prepared fuel source_os adb_server_socket allow_transport_only prepared.
(** From the connection to the source on. *)
(* src/features/devices/usbip.py:337-601 start_usbip *)
Definition start_usbip (fuel : nat) (adb_server_socket : option string) (allow_transport_only : bool) : M world attach_outcome :=
  try (closing (try (attach_from_source fuel adb_server_socket allow_transport_only) refused)) refused.
End transaction.
