(* ===== verification/UsbipTransactionProperties.v ===== *)
(** What attaching devices over USB/IP guarantees, whatever the two hosts answer: it acts on the
    requested devices only, a success was seen twice in a row, and a failure that reports a complete
    rollback has undone what it did.  The rules at the top compute what a program adds to the
    history. *)

From stdpp Require Import gmap.
From S2P Require Import Prelude Encodings Regex UsbipProtocol UsbipTransaction.

Open Scope Z_scope.

Section rules.
Context `{Environment}.

(** [runs m Q]: [m] adds events [l] to the history and ends in [r] with [Q l r]. *)
Definition runs {A} (m : M world A) (Q : list event → result A → Prop) : Prop :=
  ∀ w, ∃ l, history (m w).2 = history w ++ l ∧ Q l (m w).1.

Lemma runs_mono {A} (m : M world A) (Q Q' : list event → result A → Prop) :
  runs m Q → (∀ l r, Q l r → Q' l r) → runs m Q'.
Proof. intros Hm HQ w. destruct (Hm w) as (l&E&Hl). eauto. Qed.
Lemma runs_and {A} (m : M world A) (Q Q' : list event → result A → Prop) :
  runs m Q → runs m Q' → runs m (λ l r, Q l r ∧ Q' l r).
Proof.
  intros Hm Hm' w. destruct (Hm w) as (l&E&Hl), (Hm' w) as (l'&E'&Hl'). rewrite E in E'. apply app_inv_head in E' as <-. eauto.
Qed.
Lemma runs_bind {A B} (m : M world A) (k : A → M world B) (Q : list event → result B → Prop) :
  runs m (λ l r, match r with Ok a => runs (k a) (λ l', Q (l ++ l')) | Err e => Q l (Err e) end) → runs (m ≫= k) Q.
Proof.
  intros Hm w. destruct (Hm w) as (l&E&Hl). unfold mbind, M_bind. destruct (m w) as [[a|e] w1]; cbn in *; [|eauto].
  destruct (Hl w1) as (l'&E'&Hl'). exists (l ++ l'). by rewrite E', E, app_assoc.
Qed.
Lemma runs_try {A} (m : M world A) (h : exn → M world A) (Q : list event → result A → Prop) :
  runs m (λ l r, match r with Ok a => Q l (Ok a) | Err e => runs (h e) (λ l', Q (l ++ l')) end) → runs (try m h) Q.
Proof.
  intros Hm w. destruct (Hm w) as (l&E&Hl). unfold try. destruct (m w) as [[a|e] w1]; cbn in *; [eauto|].
  destruct (Hl w1) as (l'&E'&Hl'). exists (l ++ l'). by rewrite E', E, app_assoc.
Qed.
Lemma runs_ret {A} (a : A) (Q : list event → result A → Prop) : Q [] (Ok a) → runs (mret a) Q.
Proof. intros HQ w. exists []. by rewrite app_nil_r. Qed.
Lemma runs_raise {A} e (Q : list event → result A → Prop) : Q [] (Err e) → runs (raise e) Q.
Proof. intros HQ w. exists []. by rewrite app_nil_r. Qed.
Lemma runs_gets {A} (f : world → A) (Q : list event → result A → Prop) : (∀ a, Q [] (Ok a)) → runs (gets f) Q.
Proof. intros HQ w. exists []. split; [by rewrite app_nil_r|apply HQ]. Qed.
Lemma runs_did e (Q : list event → result unit → Prop) : Q [e] (Ok tt) → runs (did e) Q.
Proof. intros HQ w. by exists [e]. Qed.
Lemma runs_execute s c (Q : list event → result command_result → Prop) :
  (∀ r, Q [Ran s c r] (Ok r)) → runs (execute_command s c) Q.
Proof. intros HQ w. exists [Ran s c (answer s c (history w))]. split; [done|apply HQ]. Qed.
Lemma runs_asked {A} what (f : list event → result A) (Q : list event → result A → Prop) :
  (∀ h, Q [Did what] (f h)) → runs (asked what f) Q.
Proof.
  intros HQ w. exists [Did what]. specialize (HQ (history w)). unfold asked, lift. monad.
  by destruct (f (history w)).
Qed.
Lemma runs_remember d (Q : list event → result unit → Prop) : Q [] (Ok tt) → runs (remember_source d) Q.
Proof. intros HQ w. exists []. by rewrite app_nil_r. Qed.
Lemma runs_when b (m : M world unit) (Q : list event → result unit → Prop) :
  (b = true → runs m Q) → (b = false → Q [] (Ok tt)) → runs (when b m) Q.
Proof. destruct b; intros H1 H2; [by apply H1|by apply runs_ret, H2]. Qed.

(** ** What every part of a history has *)

Class Closed (C : list event → Prop) := { closed_nil : C []; closed_app l l' : C l → C l' → C (l ++ l') }.
#[export] Instance forall_closed (P : event → Prop) : Closed (Forall P).
Proof. split; [done|]. intros. by apply Forall_app. Qed.
Definition stays {A} (C : list event → Prop) (m : M world A) : Prop := runs m (λ l _, C l).

Context (C : list event → Prop) `{!Closed C}.
Lemma stays_ret {A} (a : A) : stays C (mret a).
Proof. apply runs_ret, closed_nil. Qed.
Lemma stays_raise {A} e : stays C (raise e : M world A).
Proof. apply runs_raise, closed_nil. Qed.
Lemma stays_gets {A} (f : world → A) : stays C (gets f).
Proof. apply runs_gets. intros _. apply closed_nil. Qed.
Lemma stays_bind {A B} (m : M world A) (k : A → M world B) : stays C m → (∀ a, stays C (k a)) → stays C (m ≫= k).
Proof.
  intros Hm Hk. apply runs_bind. eapply runs_mono; [exact Hm|]. intros l [a|e] Hl; [|done].
  eapply runs_mono; [apply Hk|]. intros. by apply closed_app.
Qed.
Lemma stays_bind_Ok {A B} (P : A → Prop) (m : M world A) (k : A → M world B) :
  runs m (λ l r, C l ∧ ∀ a, r = Ok a → P a) → (∀ a, P a → stays C (k a)) → stays C (m ≫= k).
Proof.
  intros Hm Hk. apply runs_bind. eapply runs_mono; [exact Hm|]. intros l [a|e] [Hl HP]; [|done].
  eapply runs_mono; [by apply Hk, HP|]. intros. by apply closed_app.
Qed.
Lemma stays_try {A} (m : M world A) h : stays C m → (∀ e, stays C (h e)) → stays C (try m h).
Proof.
  intros Hm Hh. apply runs_try. eapply runs_mono; [exact Hm|]. intros l [a|e] Hl; [done|].
  eapply runs_mono; [apply Hh|]. intros. by apply closed_app.
Qed.
Lemma stays_when b (m : M world unit) : stays C m → stays C (when b m).
Proof. intros Hm. apply runs_when; [done|]. intros _. apply closed_nil. Qed.
Lemma stays_forM {A B} (l : list A) (f : A → M world B) : (∀ a, a ∈ l → stays C (f a)) → stays C (forM l f).
Proof.
  induction l as [|a l IH]; cbn; intros Hf; [apply stays_ret|].
  apply stays_bind; [apply Hf; left|]. intros b. apply stays_bind; [|intros ?; apply stays_ret].
  apply IH. intros x Hx. apply Hf. by right.
Qed.
Lemma stays_for_each {A} (l : list A) (f : A → M world unit) : (∀ a, a ∈ l → stays C (f a)) → stays C (for_each l f).
Proof.
  induction l as [|a l IH]; cbn; intros Hf; [apply stays_ret|].
  apply stays_bind; [apply Hf; left|]. intros b. apply IH. intros x Hx. apply Hf. by right.
Qed.
End rules.

(** ** Plain events: those that change no share and no attachment *)

Definition actions : list (side * string) :=
  [(OnTarget, "sudo usbip detach -p "); (OnTarget, "sudo usbip attach -r "); (OnSource, "usbipd bind --busid ");
   (OnSource, "usbipd unbind --busid "); (OnSource, "usbipd detach --busid ")].
Definition same_side (s t : side) : bool :=
  match s, t with OnSource, OnSource | OnTarget, OnTarget => true | _, _ => false end.
Definition plain (e : event) : bool :=
  match e with
  | Ran s c _ => negb (existsb (λ '(t, p), same_side s t && startswith p c) actions)
  | _ => true
  end.
Abbreviation Plain := (Forall (λ e, plain e = true)).

Lemma stays_mono `{Environment} {A} (C C' : list event → Prop) (m : M world A) :
  (∀ l, C l → C' l) → stays C m → stays C' m.
Proof. intros HC Hm. eapply runs_mono; [exact Hm|]. auto. Qed.
Lemma runs_closing `{Environment} {A} (m : M world A) (Q : list event → result A → Prop) :
  runs m (λ l r, runs close_connection (λ l' c, Q (l ++ l') match c with Ok _ => r | Err e => Err e end)) → runs (closing m) Q.
Proof.
  intros Hm w. destruct (Hm w) as (l&E&Hl). unfold closing. destruct (m w) as [r w1]; cbn in *.
  destruct (Hl w1) as (l'&E'&Hl'). exists (l ++ l'). unfold mbind, M_bind.
  destruct (close_connection w1) as [[[]|e] w2]; cbn in *; [|by rewrite E', E, app_assoc].
  destruct r; cbn; by rewrite E', E, app_assoc.
Qed.
Lemma stays_closing `{Environment} {A} C `{!Closed C} (m : M world A) : stays C close_connection → stays C m → stays C (closing m).
Proof.
  intros Hc Hm. apply runs_closing. eapply runs_mono; [exact Hm|]. intros l r Hl.
  eapply runs_mono; [exact Hc|]. intros l' c Hl'. by apply closed_app.
Qed.
Lemma stays_execute `{Environment} (P : event → Prop) s c : (∀ r, P (Ran s c r)) → stays (Forall P) (execute_command s c).
Proof. intros HP. apply runs_execute. intros r. by constructor. Qed.
Lemma plain_execute `{Environment} s c : plain (Ran s c (CommandResult "" "" 0)) = true → stays Plain (execute_command s c).
Proof. intros Hc. by apply stays_execute. Qed.
Lemma plain_sleep `{Environment} n : stays Plain (sleep n).
Proof. apply runs_did. by repeat constructor. Qed.
Lemma plain_did `{Environment} what : stays Plain (did (Did what)).
Proof. apply runs_did. by repeat constructor. Qed.
Lemma plain_asked `{Environment} {A} what (f : list event → result A) : stays Plain (asked what f).
Proof. apply runs_asked. intros _. by repeat constructor. Qed.
Lemma plain_time `{Environment} : stays Plain time.
Proof. apply stays_gets, _. Qed.
Lemma plain_remember `{Environment} d : stays Plain (remember_source d).
Proof. by apply runs_remember. Qed.
Lemma adb_command_plain socket r : plain (Ran OnTarget (build_adb_devices_command socket) r) = true.
Proof. destruct socket as [s|]; [|done]. unfold build_adb_devices_command. by destruct (nonempty s). Qed.

Create HintDb usbip discriminated.
#[export] Hint Constants Opaque : usbip.
#[export] Hint Resolve plain_sleep plain_did plain_asked plain_time plain_remember : usbip.

(** Take a program apart; what is left are its commands. *)
Ltac stays_step :=
  lazymatch goal with
  | |- stays _ (_ ≫= _) => apply stays_bind; [apply _| |intros ?]
  | |- stays _ (mret _) => apply stays_ret, _
  | |- stays _ (raise _) => apply stays_raise, _
  | |- stays _ (gets _) => apply stays_gets, _
  | |- stays _ (when _ _) => apply stays_when; [apply _|]
  | |- stays _ (try _ _) => apply stays_try; [apply _| |intros ?]
  | |- stays _ (forM _ _) => apply stays_forM; [apply _|intros ? ?]
  | |- stays _ (for_each _ _) => apply stays_for_each; [apply _|intros ? ?]
  | |- stays _ (let '(_, _) := ?x in _) => destruct x
  | |- stays _ (if ?b then _ else _) => destruct b
  | |- stays _ (match ?o with _ => _ end) => destruct o eqn:?
  | |- stays (Forall _) (execute_command _ _) =>
      first [apply plain_execute; first [reflexivity|apply adb_command_plain]|apply stays_execute; intros ?; reflexivity]
  | |- stays _ _ => solve [eauto with usbip]
  end.
Ltac stays_steps := repeat (cbv beta zeta; stays_step).

Section plain_parts.
Context `{Environment}.

Lemma plain_attached_ports : stays Plain usbip_attached_ports.
Proof. unfold usbip_attached_ports. stays_steps. Qed.
Lemma plain_detect_source_os : stays Plain detect_source_os.
Proof. unfold detect_source_os, is_windows_host. stays_steps. Qed.
Lemma plain_check_usbipd_installed : stays Plain check_usbipd_installed.
Proof. unfold check_usbipd_installed. stays_steps. Qed.
Lemma plain_usbipd_list_output : stays Plain usbipd_list_output.
Proof. unfold usbipd_list_output. stays_steps. Qed.
Lemma plain_stop_windows_adb : stays Plain stop_windows_adb.
Proof. unfold stop_windows_adb. stays_steps. Qed.
Lemma plain_ensure_vhci_driver : stays Plain ensure_vhci_driver.
Proof. unfold ensure_vhci_driver. stays_steps. Qed.
Lemma plain_poll_ports host busids n again last : stays Plain (poll_ports host busids n again last).
Proof. revert again last. induction n as [|n IH]; intros again last; cbn [poll_ports]; stays_steps; apply IH. Qed.
Lemma plain_known_device ds : stays Plain (known_device ds).
Proof. unfold known_device. stays_steps. Qed.
Lemma plain_wait_devices socket db sb fb fuel deadline ds :
  stays Plain (wait_devices (build_adb_devices_command socket) db sb fb fuel deadline ds).
Proof.
  pose proof plain_known_device. revert ds. induction fuel as [|fuel IH]; intros ds; cbn [wait_devices]; stays_steps; try apply H0; apply IH.
Qed.
Lemma plain_probe socket : stays Plain (probe_protocol_status run_probe socket).
Proof. unfold probe_protocol_status, run_probe. stays_steps. Qed.
Lemma plain_linux_devices all : stays Plain (find_android_devices_linux all).
Proof. unfold find_android_devices_linux. stays_steps. Qed.
Lemma plain_connections : stays Plain get_connection ∧ stays Plain return_connection ∧ stays Plain close_connection.
Proof. split_and!; apply plain_asked. Qed.
End plain_parts.
#[export] Hint Resolve plain_attached_ports plain_detect_source_os plain_check_usbipd_installed plain_usbipd_list_output
  plain_stop_windows_adb plain_ensure_vhci_driver plain_poll_ports plain_known_device plain_wait_devices plain_probe
  plain_linux_devices : usbip.

(** ** Acting on the requested devices only *)

Section own.
Context `{Environment} (host : string) (busids : list string).

(** A listing of these events showed such a port. *)
Definition listed (l : list event) (port : string) : Prop :=
  ∃ out e, Ran OnTarget LISTING out ∈ l ∧ succeeded out = true ∧ e ∈ parse_usbip_port_entries (cr_stdout out) ∧
    pe_port e = port ∧ from_host host busids e = true.
(** What may be done after [before]. *)
Definition own_event (before : list event) (e : event) : Prop :=
  plain e = true ∨
  (∃ b r, b ∈ busids ∧ (e = Ran OnSource (bind_command b) r ∨ e = Ran OnSource (unbind_command b) r ∨
    e = Ran OnSource (source_detach_command b) r ∨ e = Ran OnTarget (attach_command host b) r)) ∨
  (∃ port r, e = Ran OnTarget (detach_command port) r ∧ listed before port).
Definition own (l : list event) : Prop := ∀ l1 e l2, l = l1 ++ e :: l2 → own_event l1 e.

Lemma own_event_more before more e : own_event before e → own_event (more ++ before) e.
Proof.
  intros [?|[?|(p&r&->&out&x&Hin&?)]]; [by left|by right; left|].
  right. right. exists p, r. split; [done|]. exists out, x. rewrite elem_of_app. tauto.
Qed.
#[export] Instance own_closed : Closed own.
Proof.
  split; [by intros [] ? ? ?|]. intros l l' Hl Hl' l1 e l2 E.
  apply app_eq_app in E as (k&[[-> E]|[-> ->]]).
  - destruct k as [|y k]; [|cbn in E; injection E as -> _; by eapply Hl].
    cbn in E. subst. pose proof (Hl' [] e l2 eq_refl) as Ho.
    apply (own_event_more [] l1) in Ho. by rewrite app_nil_r in Ho.
  - by apply own_event_more, (Hl' k e l2).
Qed.
Lemma own_plain l : Plain l → own l.
Proof. intros Hl l1 e l2 ->. left. by apply Forall_app in Hl as [_ [??]%Forall_cons]. Qed.
Lemma own_stays_plain {A} (m : M world A) : stays Plain m → stays own m.
Proof. apply stays_mono, own_plain. Qed.
Lemma own_singleton e : own_event [] e → own [e].
Proof. intros He [|x l1] e' l2 [= <- E]; [done|by destruct l1]. Qed.
Lemma own_execute s c b r0 :
  b ∈ busids → Ran s c r0 ∈ [Ran OnSource (bind_command b) r0; Ran OnSource (unbind_command b) r0;
    Ran OnSource (source_detach_command b) r0; Ran OnTarget (attach_command host b) r0] → stays own (execute_command s c).
Proof.
  intros Hb Hin. apply runs_execute. intros r. apply own_singleton. right. left. exists b, r. split; [done|].
  rewrite !elem_of_cons in Hin. destruct Hin as [[= -> ->]|[[= -> ->]|[[= -> ->]|[[= -> ->]|[]%not_elem_of_nil]]]]; tauto.
Qed.

Lemma own_snoc l e : own l → own_event l e → own (l ++ [e]).
Proof.
  intros Hl He l1 x l2 E. destruct l2 as [|y l2 _] using rev_ind.
  - by apply app_inj_2 in E as [<- [= ->]].
  - change (x :: l2 ++ [y]) with ((x :: l2) ++ [y]) in E. rewrite app_assoc in E. apply app_inj_2 in E as [E _]; [|done]. by eapply Hl.
Qed.

(** Detaching lists first: what is detached then is from that listing. *)
Definition detaches (ports : list string) (e : event) : Prop :=
  plain e = true ∨ ∃ p r, e = Ran OnTarget (detach_command p) r ∧ p ∈ ports.
Lemma own_after_listing out l :
  busids ≠ [] → succeeded out = true →
  Forall (detaches (pe_port <$> filter (λ e, port_selected (Some host) false busids e = true) (parse_usbip_port_entries (cr_stdout out)))) l →
  own (Ran OnTarget LISTING out :: l).
Proof.
  intros Hne Hout. induction l as [|e l IH] using rev_ind; [intros _; by apply own_plain; repeat constructor|].
  intros [Hl [He _]%Forall_cons]%Forall_app. rewrite app_comm_cons. apply own_snoc; [by apply IH|].
  destruct He as [He|(p&r&->&(x&->&[Hx Hin]%list_elem_of_filter)%list_elem_of_fmap)]; [by left|].
  right. right. exists (pe_port x), r. split; [done|]. exists out, x. split_and!; [left|done..|].
  unfold port_selected in Hx. cbn in Hx. bool_props. unfold from_host. apply andb_true_iff.
  split; [by apply bool_decide_eq_true|]. by destruct busids.
Qed.
Lemma own_detach : busids ≠ [] → stays own (detach_ubuntu_usbip_ports (Some host) false busids).
Proof.
  intros Hne. unfold detach_ubuntu_usbip_ports. apply runs_bind, runs_execute. intros r.
  destruct (succeeded r) eqn:Er; cbn [negb]; [|apply runs_ret; by apply own_plain; repeat constructor].
  set (sel := filter _ _). apply (runs_mono _ (λ l _, Forall (detaches (pe_port <$> sel)) l)); [|intros l ? Hl; by apply own_after_listing].
  assert (Hp : ∀ A ports (m : M world A), stays Plain m → stays (Forall (detaches ports)) m).
  { intros A ports m. apply stays_mono. intros l Hl. eapply Forall_impl; [exact Hl|]. by left. }
  apply stays_bind; [apply _| |intros ?; apply Hp; stays_steps].
  apply stays_forM; [apply _|]. intros e He. unfold detach_port.
  apply stays_bind; [apply _| |intros ?; apply Hp; stays_steps].
  apply stays_execute. intros r'. right. eexists _, _. split; [done|]. by apply list_elem_of_fmap_2.
Qed.

Lemma own_unbind_one b : b ∈ busids → stays own (unbind_one b).
Proof.
  intros Hb. unfold unbind_one. stays_steps; eapply (own_execute _ _ b (CommandResult "" "" 0)); try done; set_solver.
Qed.
Lemma own_rollback_source newly : newly ⊆ busids → stays own (rollback_source_side (WindowsTxn newly)).
Proof.
  intros Hn. cbn [rollback_source_side]. unfold rollback_windows_binds. destruct newly; [stays_steps|].
  stays_steps. apply own_unbind_one. by apply Hn.
Qed.
Lemma own_bind_one b : b ∈ busids → stays own (bind_one b).
Proof.
  intros Hb. unfold bind_one. stays_steps;
  first [by apply own_stays_plain; stays_steps|eapply (own_execute _ _ b (CommandResult "" "" 0)); [done|set_solver]].
Qed.
Lemma own_rollback_target : busids ≠ [] → stays own (rollback_ubuntu_attachments host busids).
Proof.
  intros Hne. unfold rollback_ubuntu_attachments. apply stays_bind; [apply _|by apply own_detach|intros ?].
  apply own_stays_plain. stays_steps.
Qed.
Lemma own_attach_commands stable : stays own (attach_commands host busids stable).
Proof.
  unfold attach_commands. stays_steps.
  match goal with H : _ ∈ missing_in _ _ |- _ => apply list_elem_of_filter in H as [_ Hb] end.
  eapply (own_execute _ _ a (CommandResult "" "" 0)); [done|set_solver].
Qed.
Lemma own_stabilize n stable retryable : stays own (stabilize host busids n stable retryable).
Proof.
  revert stable retryable. induction n as [|n IH]; intros stable retryable; cbn [stabilize]; stays_steps;
  first [apply own_attach_commands|by apply IH|by apply own_stays_plain; stays_steps].
Qed.
Lemma own_attach_devices fuel socket transport : stays own (attach_devices fuel host busids socket transport).
Proof.
  unfold attach_devices. stays_steps; first [apply own_stabilize|by apply own_stays_plain; stays_steps].
Qed.
End own.

(** What [bind_usbipd_devices] answers is about the given devices. *)
Lemma forM_tags {A B C} (f : A → M C B) (l : list A) w bs w' :
  forM l (λ a, r ← f a; mret (a, r)) w = (Ok bs, w') → bs.*1 = l.
Proof.
  revert bs w. induction l as [|a l IH]; cbn; intros bs w E; inv_ok; simplify_eq/=; [done|].
  f_equal. by eapply IH.
Qed.
Lemma stays_answer `{Environment} {A} (C : list event → Prop) (P : A → Prop) (m : M world A) :
  stays C m → (∀ w a w', m w = (Ok a, w') → P a) → runs m (λ l r, C l ∧ ∀ a, r = Ok a → P a).
Proof.
  intros Hm HP w. destruct (Hm w) as (l&E&Hl). exists l. split_and!; [done..|]. intros a Ea.
  destruct (m w) as [r w'] eqn:Em. cbn in Ea. subst. by eapply HP.
Qed.
Lemma newly_bound_of `{Environment} busids w bound newly w' :
  bind_usbipd_devices busids w = (Ok (bound, newly), w') → newly ⊆ busids.
Proof.
  unfold bind_usbipd_devices. intros E. inv_ok. simplify_eq/=.
  match goal with E : forM _ _ _ = _ |- _ => apply forM_tags in E as <- end.
  intros b (y&->&[_ Hy]%list_elem_of_filter)%list_elem_of_fmap. by apply list_elem_of_fmap_2.
Qed.

Section own_transaction.
Context `{Environment} (vid_pids : list string) (attach_host : string) (selected : list string).
Abbreviation own := (own attach_host selected).

Lemma own_bind_devices : stays own (bind_usbipd_devices selected).
Proof. unfold bind_usbipd_devices. stays_steps. by apply own_bind_one. Qed.
Lemma own_connections : stays own get_connection ∧ stays own return_connection ∧ stays own close_connection.
Proof. destruct plain_connections as (?&?&?). split_and!; by apply own_stays_plain. Qed.
Lemma own_undo txn after :
  selected ≠ [] → (∀ newly, txn = WindowsTxn newly → newly ⊆ selected) → stays own after → stays own (undo attach_host selected txn after).
Proof.
  intros Hne Ht Ha. unfold undo. stays_steps; [by apply own_rollback_target|].
  destruct txn as [newly|started]; [by apply own_rollback_source, Ht|]. apply own_stays_plain. cbn. stays_steps.
Qed.
Lemma own_attach_target fuel os socket transport txn :
  selected ≠ [] → (∀ newly, txn = WindowsTxn newly → newly ⊆ selected) →
  stays own (attach_target attach_host fuel os socket transport selected txn).
Proof.
  intros Hne Ht. destruct own_connections as (?&?&?). unfold attach_target.
  stays_steps; first [by apply own_undo|by apply own_detach|by apply own_attach_devices|done|by apply own_stays_plain; stays_steps].
Qed.
(** What is prepared is about the selected devices. *)
Definition about_selected (r : step (list string * source_txn)) : Prop :=
  ∀ busids txn, r = inr (busids, txn) → busids = selected ∧ ∀ newly, txn = WindowsTxn newly → newly ⊆ selected.
Lemma choose_selected discovered allowed busids :
  selected ≠ [] → choose_busids selected discovered allowed = inr busids → busids = selected.
Proof. unfold choose_busids. intros ?. case_match; [done|]. destruct selected; [done|congruence]. Qed.
Lemma own_bind_chosen discovered allowed :
  selected ≠ [] → runs (bind_chosen (choose_busids selected discovered allowed)) (λ l r, own l ∧ ∀ a, r = Ok a → about_selected a).
Proof.
  intros Hne. apply stays_answer.
  - unfold bind_chosen, stop. stays_steps.
    match goal with E : choose_busids _ _ _ = _ |- _ => apply choose_selected in E as ->; [|done] end. apply own_bind_devices.
  - intros w a w' E busids txn ->. unfold bind_chosen, stop in E.
    destruct (choose_busids _ _ _) as [|chosen] eqn:Ec; [discriminate E|]. apply choose_selected in Ec as ->; [|done].
    apply bind_Ok in E as ([bound newly]&w1&Eb&E). apply newly_bound_of in Eb. destruct bound; [discriminate E|]. inv_ok. simplify_eq/=.
    split; [done|]. by intros ? [= <-].
Qed.
Lemma own_then {A} (m : M world A) (k : A → M world (step (list string * source_txn))) :
  stays own m → (∀ a, runs (k a) (λ l r, own l ∧ ∀ a, r = Ok a → about_selected a)) →
  runs (m ≫= k) (λ l r, own l ∧ ∀ a, r = Ok a → about_selected a).
Proof.
  intros Hm Hk. apply runs_bind. eapply runs_mono; [exact Hm|]. intros l [a|e] Hl; [|done].
  eapply runs_mono; [apply Hk|]. intros l' r [??]. split; [by apply closed_app|done].
Qed.
Lemma own_stop code text rb : runs (stop code text rb) (λ l r, own l ∧ ∀ a, r = Ok a → about_selected a).
Proof. apply runs_ret. split; [apply closed_nil|]. by intros ? [= <-] ??. Qed.
Lemma own_prepare_windows transport tcp :
  selected ≠ [] → runs (prepare_windows vid_pids selected transport tcp) (λ l r, own l ∧ ∀ a, r = Ok a → about_selected a).
Proof.
  intros Hne. unfold prepare_windows. destruct (negb tcp); [apply own_stop|].
  apply own_then; [apply own_stays_plain; stays_steps|]. intros []; cbn [negb]; [|apply own_stop].
  apply own_then; [apply own_stays_plain; stays_steps|]. intros out. cbv zeta.
  apply own_then; [apply own_stays_plain; stays_steps|]. intros extra. by apply own_bind_chosen.
Qed.
Lemma own_prepare_linux transport :
  selected ≠ [] → runs (prepare_linux selected transport) (λ l r, own l ∧ ∀ a, r = Ok a → about_selected a).
Proof.
  intros Hne. unfold prepare_linux. apply own_then; [apply own_stays_plain; stays_steps|]. intros inventory. cbv zeta.
  apply own_then; [apply own_stays_plain; stays_steps|]. intros all.
  destruct (choose_busids _ _ _) as [r|busids] eqn:E.
  { apply runs_ret. split; [apply closed_nil|]. by intros ? [= <-]. }
  apply choose_selected in E as ->; [|done].
  apply own_then; [apply own_stays_plain; stays_steps|]. intros [started []]; cbn [negb]; [|apply own_stop].
  apply own_then; [apply own_stays_plain; stays_steps|]. intros tcp.
  apply own_then; [apply own_stays_plain; stays_steps|]. intros []. destruct tcp; cbn [negb].
  - apply runs_ret. split; [apply closed_nil|]. by intros ? [= <-] ?? [= <- <-].
  - apply own_then; [|intros ?; apply own_stop]. apply own_stays_plain. cbn [rollback_source_side]. stays_steps.
Qed.
Lemma own_start fuel socket transport : selected ≠ [] → stays own (start_usbip vid_pids attach_host selected fuel socket transport).
Proof.
  intros Hne. destruct own_connections as (?&?&?). unfold start_usbip, refused.
  apply stays_try; [apply _| |intros ?; stays_steps]. apply stays_closing; [apply _|done|].
  apply stays_try; [apply _| |intros ?; stays_steps]. unfold attach_from_source.
  apply stays_bind; [apply _|by apply own_stays_plain; stays_steps|]. intros os. destruct (negb (mem _ _)); [stays_steps|].
  apply stays_bind; [apply _|by apply own_stays_plain; stays_steps|]. intros []; cbn [negb]; [|stays_steps].
  do 2 (apply stays_bind; [apply _|by apply own_stays_plain; stays_steps|]; intros ?).
  apply stays_bind_Ok with about_selected; [apply _| |intros prepared Hp].
  - case_match; [by apply own_prepare_windows|by apply own_prepare_linux].
  - unfold attach_prepared. destruct prepared as [r|[busids txn]]; [stays_steps|]. destruct (Hp busids txn) as [-> Ht]; [done|].
    stays_steps; [|by apply own_attach_target]. destruct txn as [newly|started]; [by apply own_rollback_source, Ht|].
    apply own_stays_plain. cbn. stays_steps.
Qed.
End own_transaction.

(** ** Undoing what was done *)

Definition is_action (a : side * string) (e : event) : bool :=
  match e with Ran s c _ => same_side s a.1 && startswith a.2 c | _ => false end.
Definition BIND : side * string := (OnSource, "usbipd bind --busid ").
Definition ATTACH : side * string := (OnTarget, "sudo usbip attach -r ").
Definition REMOVE_TARGET : side * string := (OnTarget, "sudo usbip detach -p ").
Definition UNBIND : side * string := (OnSource, "usbipd unbind --busid ").
Definition REMOVE_SOURCE : side * string := (OnSource, "usbipd detach --busid ").
Abbreviation Never a := (Forall (λ e, is_action a e = false)).

Lemma plain_never a l : a ∈ actions → Plain l → Never a l.
Proof.
  intros Ha Hl. eapply Forall_impl; [exact Hl|]. intros [s c r|n|what]; [|done..]. cbn [plain is_action].
  rewrite negb_true_iff. intros Hn. apply not_true_iff_false. intros He. apply not_true_iff_false in Hn. apply Hn.
  apply existsb_exists. exists a. split; [by apply list_elem_of_In|]. by destruct a.
Qed.
(** Every occurrence of an event has a later one of a kind. *)
Definition followed (e : event) (Q : event → Prop) (l : list event) : Prop :=
  ∀ l1 l2, l = l1 ++ e :: l2 → ∃ e', e' ∈ l2 ∧ Q e'.
Lemma followed_later e (Q : event → Prop) l l' : (∃ e', e' ∈ l' ∧ Q e') → e ∉ l' → followed e Q (l ++ l').
Proof.
  intros (e'&Hin&HQ) Hn l1 l2 E. apply app_eq_app in E as (k&[[-> E]|[-> ->]]); [|set_solver].
  destruct k as [|y k]; cbn in E; [subst; set_solver|]. injection E as -> ->. exists e'. set_solver.
Qed.
Lemma followed_never e Q l : e ∉ l → followed e Q l.
Proof. intros Hn l1 l2 ->. set_solver. Qed.
Lemma followed_more e Q l l' : followed e Q l → e ∉ l' → followed e Q (l ++ l').
Proof.
  intros Hl Hn l1 l2 E. apply app_eq_app in E as (k&[[-> E]|[-> ->]]); [|set_solver].
  destruct k as [|y k]; cbn in E; [subst; set_solver|]. injection E as -> ->.
  destruct (Hl l1 k) as (e'&?&?); [done|]. exists e'. set_solver.
Qed.
Lemma not_never a l e : Never a l → is_action a e = true → e ∉ l.
Proof. intros Hl He Hin. eapply Forall_forall in Hl; [|exact Hin]. cbn in Hl. congruence. Qed.
Lemma bind_absent b r l : Never BIND l → Ran OnSource (bind_command b) r ∉ l.
Proof. intros Hl. by apply (not_never BIND). Qed.
Lemma attach_absent host b r l : Never ATTACH l → Ran OnTarget (attach_command host b) r ∉ l.
Proof. intros Hl. by apply (not_never ATTACH). Qed.
Lemma stays_never `{Environment} {A} a (m : M world A) : a ∈ actions → stays Plain m → stays (Never a) m.
Proof. intros Ha. apply stays_mono. intros l. by apply plain_never. Qed.

Ltac never Ha :=
  repeat rewrite elem_of_cons in Ha; destruct Ha as [->|[->|[]%not_elem_of_nil]];
  stays_steps; try (apply stays_never; [set_solver|stays_steps; eauto with usbip]).

Section never.
Context `{Environment} (a : side * string) (Ha : a ∈ [BIND; ATTACH]).

Lemma never_detach host all busids : stays (Never a) (detach_ubuntu_usbip_ports host all busids).
Proof. unfold detach_ubuntu_usbip_ports, detach_port. never Ha. Qed.
Lemma never_rollback_target host busids : stays (Never a) (rollback_ubuntu_attachments host busids).
Proof. pose proof never_detach. unfold rollback_ubuntu_attachments. never Ha. Qed.
Lemma never_rollback_source txn : stays (Never a) (rollback_source_side txn).
Proof. unfold rollback_source_side, rollback_windows_binds, unbind_one. never Ha. Qed.
End never.
(** A loop that never raises: what each answer says holds of the whole. *)
Lemma runs_forM `{Environment} {A B} (l : list A) (f : A → M world B) (P : list event → B → Prop) :
  (∀ l l' b, P l b → l ⊆ l' → P l' b) → (∀ a, runs (f a) (λ l r, ∃ b, r = Ok b ∧ P l b)) →
  runs (forM l f) (λ l r, ∃ bs, r = Ok bs ∧ ∀ b, b ∈ bs → P l b).
Proof.
  intros Hmono Hf. induction l as [|a l IH]; cbn; [apply runs_ret; exists []; split; [done|]; by intros ? ?%not_elem_of_nil|].
  apply runs_bind. eapply runs_mono; [apply Hf|]. intros l1 r1 (b&->&Hb). apply runs_bind.
  eapply runs_mono; [exact IH|]. intros l2 r2 (bs&->&Hbs). apply runs_ret. exists (b :: bs). split; [done|].
  intros x [->|Hx]%elem_of_cons; [eapply Hmono; [exact Hb|]|eapply Hmono; [by apply Hbs|]]; intros y; rewrite !elem_of_app; tauto.
Qed.

Section undoing.
Context `{Environment} (host : string) (busids : list string).

Definition unbound (b : string) (e : event) : Prop := ∃ r, e = Ran OnSource (unbind_command b) r ∧ succeeded r = true.
Definition all_unbound (newly : list string) (l : list event) : Prop := ∀ b, b ∈ newly → ∃ e, e ∈ l ∧ unbound b e.
(** A listing without the devices. *)
Definition shows_none (e : event) : Prop :=
  ∃ out, e = Ran OnTarget LISTING out ∧ succeeded out = true ∧
    existsb (from_host host busids) (parse_usbip_port_entries (cr_stdout out)) = false.
(** The listing is the last thing done. *)
Definition cleared (l : list event) : Prop := ∃ l1 e, l = l1 ++ [e] ∧ shows_none e.

Lemma unbind_one_post b : runs (unbind_one b) (λ l r, ∃ bs, r = Ok bs ∧ all_unbound bs l).
Proof.
  unfold unbind_one. destruct (negb _); [apply runs_ret; exists []; split; [done|]; by intros ? ?%not_elem_of_nil|].
  apply runs_bind, runs_execute. intros r1. apply runs_bind, runs_execute. intros r2. apply runs_ret.
  destruct (succeeded r2) eqn:E; eexists; (split; [done|]); [|by intros ? ?%not_elem_of_nil].
  intros x ->%list_elem_of_singleton. eexists. split; [|by exists r2]. set_solver.
Qed.
Lemma rollback_windows_post newly : runs (rollback_windows_binds newly) (λ l r, ∃ c, r = Ok c ∧ (c = true → all_unbound newly l)).
Proof.
  unfold rollback_windows_binds. destruct newly as [|b newly].
  { apply runs_ret. exists true. split; [done|]. by intros _ ? ?%not_elem_of_nil. }
  set (all := b :: newly). apply runs_bind. eapply runs_mono.
  { apply (runs_forM _ _ (λ l bs, all_unbound bs l)); [|apply unbind_one_post].
    intros l l' bs Hl Hsub x Hx. destruct (Hl x Hx) as (e&?&?). exists e. auto. }
  intros l r (bs&->&Hbs). apply runs_ret. eexists. split; [done|]. rewrite app_nil_r. intros [Hc _]%andb_true_iff x Hx.
  rewrite forallb_forall in Hc. apply list_elem_of_In, Hc, bool_decide_eq_true in Hx. apply list_elem_of_In, in_concat in Hx as (y&Hy&Hxy).
  eapply Hbs; by apply list_elem_of_In.
Qed.
Lemma rollback_source_post txn newly :
  txn = WindowsTxn newly → runs (rollback_source_side txn) (λ l r, ∃ c, r = Ok c ∧ (c = true → all_unbound newly l)).
Proof. intros ->. apply rollback_windows_post. Qed.

(** A command never raises. *)
Definition answers {A} (m : M world A) : Prop := runs m (λ _ r, ∃ a, r = Ok a).
Lemma answers_execute s c : answers (execute_command s c).
Proof. apply runs_execute. eauto. Qed.
Lemma answers_ret {A} (a : A) : answers (mret a).
Proof. apply runs_ret. eauto. Qed.
Lemma answers_bind {A B} (m : M world A) (k : A → M world B) : answers m → (∀ a, answers (k a)) → answers (m ≫= k).
Proof.
  intros Hm Hk. apply runs_bind. eapply runs_mono; [exact Hm|]. intros l r (a&->). eapply runs_mono; [apply Hk|]. eauto.
Qed.
Lemma answers_forM {A B} (l : list A) (f : A → M world B) : (∀ a, answers (f a)) → answers (forM l f).
Proof.
  intros Hf. eapply runs_mono; [apply (runs_forM _ _ (λ _ _, True)); [done|]|naive_solver].
  intros a. eapply runs_mono; [apply Hf|]. naive_solver.
Qed.
Lemma answers_detach all ids h : answers (detach_ubuntu_usbip_ports h all ids).
Proof.
  unfold detach_ubuntu_usbip_ports, detach_port, usbip_attached_ports. apply answers_bind; [apply answers_execute|]. intros r.
  destruct (negb _); [apply answers_ret|]. apply answers_bind.
  - apply answers_forM. intros e. apply answers_bind; [apply answers_execute|intros r1].
    apply answers_bind; [|intros ports; apply answers_ret]. apply answers_bind; [apply answers_execute|intros r2; apply answers_ret].
  - intros ds. apply answers_bind; [|intros ?; apply answers_ret]. unfold when. destruct (some_of _); [apply runs_did; eauto|apply answers_ret].
Qed.
Lemma rollback_target_post : runs (rollback_ubuntu_attachments host busids) (λ l r, ∃ c, r = Ok c ∧ (c = true → cleared l)).
Proof.
  unfold rollback_ubuntu_attachments. apply runs_bind. eapply runs_mono; [apply answers_detach|]. intros l1 r1 (ds&->).
  apply runs_bind, runs_execute. intros out.
  destruct (succeeded out) eqn:Eo; cbn [negb]; [|apply runs_ret; by exists false].
  destruct (existsb (λ e, _ || _) _); [apply runs_ret; by exists false|]. apply runs_ret. eexists. split; [done|].
  intros Hc%negb_true_iff. exists l1. eexists. split; [done|]. by exists out.
Qed.
End undoing.

(** ** What was bound *)

Section binding.
Context `{Environment}.

(** The devices whose bind command succeeded. *)
Definition binds_in (l : list event) (newly : list string) : Prop :=
  ∀ b r, Ran OnSource (bind_command b) r ∈ l → succeeded r = true → b ∈ newly.
Lemma binds_never l newly : Never BIND l → binds_in l newly.
Proof. intros Hl b r Hin. by eapply not_never in Hin. Qed.
Lemma binds_app l l' newly : binds_in l newly → binds_in l' newly → binds_in (l ++ l') newly.
Proof. intros H1 H2 b r [?|?]%elem_of_app ?; eauto. Qed.
Lemma binds_more l newly newly' : binds_in l newly → newly ⊆ newly' → binds_in l newly'.
Proof. intros Hl Hs b r Hin Hr. by eapply Hs, Hl. Qed.

Definition bind_ok (b : string) (l : list event) (r : result (bool * bool)) : Prop :=
  ∃ x y, r = Ok (x, y) ∧ (y = true → x = true) ∧ binds_in l (if y then [b] else []).
Lemma bind_ok_plain b l x : Never BIND l → bind_ok b l (Ok (x, false)).
Proof. intros Hl. exists x, false. split_and!; [done..|]. by apply binds_never. Qed.
Lemma append_inj (p a b : string) : p +:+ a = p +:+ b → a = b.
Proof. induction p as [|c p IH]; cbn; [done|]. intros [= E]. by apply IH. Qed.
Lemma plain_binds l : Plain l → Never BIND l.
Proof. apply plain_never. set_solver. Qed.
Lemma detached_first (attached : bool) b :
  runs (if attached then d ← execute_command OnSource (source_detach_command b); if succeeded d then (_ ← sleep 1; mret true) else mret false
        else mret true) (λ l r, Never BIND l ∧ ∃ go, r = Ok go).
Proof.
  destruct attached; [|apply runs_ret; eauto]. apply runs_bind, runs_execute. intros d. destruct (succeeded d).
  - apply runs_bind, runs_did, runs_ret. split; [by repeat constructor|eauto].
  - apply runs_ret. split; [by repeat constructor|eauto].
Qed.
Lemma bind_one_post b : runs (bind_one b) (bind_ok b).
Proof.
  unfold bind_one. destruct (negb (valid_busid b)); [by apply runs_ret, bind_ok_plain|].
  apply runs_bind, runs_execute. intros r1. destruct (negb (_ || _)); [apply runs_ret, bind_ok_plain; by repeat constructor|].
  cbv zeta. destruct (already_shared _); [apply runs_ret, bind_ok_plain; by repeat constructor|].
  apply runs_bind. eapply runs_mono; [apply detached_first|]. intros l r [Hl [go ->]].
  assert (Hl' : Never BIND ([Ran OnSource ("usbipd list | findstr " +:+ b) r1] ++ l)) by (apply Forall_app; by repeat constructor).
  destruct go; cbn [negb]; [|apply runs_ret, bind_ok_plain; by rewrite app_nil_r].
  apply runs_bind, runs_execute. intros r2. destruct (succeeded r2) eqn:E2; cbn [negb].
  - apply runs_bind, runs_did, runs_ret. exists true, true. split_and!; [done..|]. rewrite app_nil_r, !app_assoc.
    intros b' r [[Hin|[= Hb ->]%list_elem_of_singleton]%elem_of_app|[=]%list_elem_of_singleton]%elem_of_app _; [by eapply not_never in Hin|].
    apply list_elem_of_singleton. by eapply append_inj.
  - apply runs_ret. exists false, false. split_and!; [done..|]. rewrite app_nil_r, app_assoc.
    intros b' r [Hin|[= Hb ->]%list_elem_of_singleton]%elem_of_app Hr; [by eapply not_never in Hin|congruence].
Qed.
Lemma bind_devices_post busids :
  runs (bind_usbipd_devices busids) (λ l r, ∃ bound newly, r = Ok (bound, newly) ∧ binds_in l newly ∧ newly ⊆ bound).
Proof.
  unfold bind_usbipd_devices. apply runs_bind.
  apply runs_mono with (λ l r, ∃ bs, r = Ok bs ∧ binds_in l (filter (λ x, x.2.2 = true) bs).*1 ∧ ∀ x, x ∈ bs → x.2.2 = true → x.2.1 = true).
  - induction busids as [|b busids IH]; cbn [forM].
    { apply runs_ret. exists []. split_and!; [done| |]; [by intros ? ? ?%not_elem_of_nil|by intros ? ?%not_elem_of_nil]. }
    apply runs_bind, runs_bind. eapply runs_mono; [apply bind_one_post|]. intros l1 r1 (x&y&->&Hxy&H1). apply runs_ret, runs_bind.
    eapply runs_mono; [exact IH|]. intros l2 r2 (bs&->&H2&Hbs). apply runs_ret. eexists. split; [done|]. rewrite !app_nil_r. split.
    + rewrite filter_cons. cbn. apply binds_app.
      * eapply binds_more; [exact H1|]. destruct y; [rewrite decide_True by done|]; set_solver.
      * eapply binds_more; [exact H2|]. destruct (decide _); set_solver.
    + intros z [->|Hz]%elem_of_cons; [exact Hxy|by apply Hbs].
  - intros l r (bs&->&Hl&Hbs). apply runs_ret. eexists _, _. split; [done|]. rewrite app_nil_r. split; [done|].
    intros b (x&->&[Hx Hin]%list_elem_of_filter)%list_elem_of_fmap. apply list_elem_of_fmap_2, list_elem_of_filter. auto.
Qed.
End binding.
(** ** Preparing and undoing *)

Section preparing.
Context `{Environment} (vid_pids selected : list string).

(** Nothing is attached; what is bound is in the transaction, and there is one unless nothing is bound. *)
Definition prepared_ok (l : list event) (r : result (step (list string * source_txn))) : Prop :=
  Never ATTACH l ∧
  match r with
  | Ok (inr (_, WindowsTxn newly)) => binds_in l newly
  | Ok (inr (_, LinuxTxn _)) | Err _ | Ok (inl (NotAttached _ _ None)) => binds_in l []
  | Ok (inl _) => False
  end.
Lemma prepared_then {A} (m : M world A) k : stays Plain m → (∀ a, runs (k a) prepared_ok) → runs (m ≫= k) prepared_ok.
Proof.
  intros Hm Hk. apply runs_bind. eapply runs_mono; [exact Hm|]. intros l r Hl.
  assert (Never ATTACH l ∧ Never BIND l) as [Ha Hb] by (split; eapply plain_never; try done; set_solver).
  destruct r as [a|e]; [|split; [exact Ha|by apply binds_never]].
  eapply runs_mono; [apply Hk|]. intros l' r' [Ha' Hr]. split; [exact (proj2 (Forall_app _ _ _) (conj Ha Ha'))|].
  destruct r' as [[[?|? ? []]|[? []]]|]; try done; (apply binds_app; [by apply binds_never|done]).
Qed.
Lemma prepared_stop code text : runs (stop code text None) prepared_ok.
Proof. apply runs_ret. split; [done|by apply binds_never]. Qed.
Lemma choose_refuses discovered allowed r :
  choose_busids selected discovered allowed = inl r → runs (mret (inl r)) prepared_ok.
Proof.
  intros E. assert (∃ text, r = NotAttached "" text None) as [text ->].
  { unfold choose_busids in E. destruct (negb _); [by injection E as <-; eauto|].
    destruct selected; [destruct discovered|]; simplify_eq; eauto. }
  apply prepared_stop.
Qed.
Lemma binding_never_attaches busids : stays (Never ATTACH) (bind_usbipd_devices busids).
Proof. unfold bind_usbipd_devices, bind_one. stays_steps; (apply stays_never; [set_solver|stays_steps]). Qed.
Lemma bind_chosen_post discovered allowed : runs (bind_chosen (choose_busids selected discovered allowed)) prepared_ok.
Proof.
  unfold bind_chosen. destruct (choose_busids _ _ _) as [r|busids] eqn:E; [by eapply choose_refuses|].
  apply runs_bind. eapply runs_mono; [apply runs_and; [apply bind_devices_post|apply binding_never_attaches]|].
  intros l r [(bound&newly&->&Hl&Hsub) Ha]. destruct bound as [|x bound].
  - assert (newly = []) as -> by (destruct newly as [|n newly]; [done|]; specialize (Hsub n); set_solver).
    apply runs_ret. rewrite app_nil_r. by split.
  - apply runs_ret. rewrite app_nil_r. by split.
Qed.
Lemma prepare_windows_post transport tcp : runs (prepare_windows vid_pids selected transport tcp) prepared_ok.
Proof.
  unfold prepare_windows. destruct (negb tcp); [apply prepared_stop|].
  apply prepared_then; [stays_steps|]. intros []; cbn [negb]; [|apply prepared_stop].
  apply prepared_then; [stays_steps|]. intros out. cbv zeta.
  apply prepared_then; [stays_steps|]. intros extra. apply bind_chosen_post.
Qed.
Lemma prepare_linux_post transport : runs (prepare_linux selected transport) prepared_ok.
Proof.
  unfold prepare_linux. apply prepared_then; [stays_steps|]. intros inventory. cbv zeta.
  apply prepared_then; [stays_steps|]. intros all.
  destruct (choose_busids _ _ _) as [r|busids] eqn:E; [by eapply choose_refuses|].
  apply prepared_then; [stays_steps|]. intros [started []]; cbn [negb]; [|apply prepared_stop].
  apply prepared_then; [stays_steps|]. intros tcp.
  apply prepared_then; [stays_steps|]. intros []. destruct tcp; cbn [negb].
  - apply runs_ret. split; [done|by apply binds_never].
  - apply prepared_then; [cbn [rollback_source_side]; stays_steps|intros ?; apply prepared_stop].
Qed.
End preparing.

Section undo.
Context `{Environment} (host : string) (busids : list string).

(** The last events, none of which attaches, show that the devices are gone. *)
Definition undone (txn : source_txn) (l : list event) : Prop :=
  (∃ l1 l2, l = l1 ++ l2 ∧ Never ATTACH l2 ∧ ∃ e, e ∈ l2 ∧ shows_none host busids e) ∧
  ∀ newly, txn = WindowsTxn newly → all_unbound newly l.
Lemma undone_after txn l l' : undone txn l' → undone txn (l ++ l').
Proof.
  intros [(l1&l2&->&?&?) Hn]. split; [exists (l ++ l1), l2; by rewrite app_assoc|].
  intros newly Ht b Hb. destruct (Hn newly Ht b Hb) as (e&?&?). exists e. rewrite elem_of_app. auto.
Qed.
Lemma undo_post txn after :
  stays Plain after → runs (undo host busids txn after) (λ l r, r = Ok true → undone txn l).
Proof.
  intros Hafter. unfold undo. apply runs_bind.
  eapply runs_mono; [apply runs_and; [apply rollback_target_post|apply (never_rollback_target ATTACH); set_solver]|].
  intros l1 r1 [(c1&->&H1) Ha1]. apply runs_bind. eapply runs_mono; [exact Hafter|]. intros l2 [a|e] Hl2; [|done].
  apply (plain_never ATTACH) in Hl2; [|set_solver]. apply runs_bind.
  eapply runs_mono; [apply runs_and; [|apply (never_rollback_source ATTACH); set_solver]|].
  { instantiate (1 := λ l r, ∀ newly, txn = WindowsTxn newly → ∃ c, r = Ok c ∧ (c = true → all_unbound newly l)).
    destruct txn as [newly|started]; [|by eapply runs_mono; [apply (never_rollback_source BIND); set_solver|]].
    eapply runs_mono; [by eapply rollback_source_post|]. by intros l r Hr ? [= <-]. }
  intros l3 [c3|e] [H3 Ha3]; [|done]. apply runs_ret. intros [= [-> ->]%andb_true_iff]. split.
  - destruct (H1 eq_refl) as (l0&e&->&He). exists [], ((l0 ++ [e]) ++ l2 ++ l3 ++ []). split; [done|]. split.
    + rewrite app_nil_r. repeat (apply Forall_app; split); try done; by apply Forall_app in Ha1 as [??].
    + exists e. split; [rewrite !elem_of_app, list_elem_of_singleton; tauto|done].
  - intros newly Ht b Hb. destruct (H3 newly Ht) as (c&[= <-]&Hc). destruct (Hc eq_refl b Hb) as (e'&?&?).
    exists e'. rewrite !elem_of_app. tauto.
Qed.
End undo.
Section failing.
Context `{Environment} (vid_pids : list string) (host : string).

Lemma never_bind_attach_devices fuel busids socket transport : stays (Never BIND) (attach_devices fuel host busids socket transport).
Proof.
  assert (Hs : ∀ n stable retryable, stays (Never BIND) (stabilize host busids n stable retryable)).
  { intros n. induction n as [|n IH]; intros stable retryable; cbn [stabilize]; unfold attach_commands; stays_steps;
    first [apply IH|apply stays_never; [set_solver|stays_steps]]. }
  unfold attach_devices. stays_steps; first [apply Hs|apply stays_never; [set_solver|stays_steps]].
Qed.
Lemma never_bind_target fuel os socket transport busids txn :
  stays (Never BIND) (attach_target host fuel os socket transport busids txn).
Proof.
  assert (BIND ∈ [BIND; ATTACH]) by set_solver. destruct plain_connections as (_&?&?).
  assert (Hu : ∀ after, stays Plain after → stays (Never BIND) (undo host busids txn after)).
  { intros after Ha. unfold undo. stays_steps; [by apply never_rollback_target|apply stays_never; [set_solver|done]|by apply never_rollback_source]. }
  unfold attach_target. stays_steps;
  first [by apply Hu|by apply never_detach|by apply never_bind_attach_devices|apply stays_never; [set_solver|stays_steps]].
Qed.

Context (closing_works : ∀ h, closed h = Ok tt).
Lemma answers_undo busids newly : answers (undo host busids (WindowsTxn newly) close_connection).
Proof.
  unfold undo. apply answers_bind.
  { eapply runs_mono; [apply rollback_target_post|]. naive_solver. }
  intros t. apply answers_bind; [apply runs_asked; intros h; rewrite closing_works; eauto|]. intros ?.
  apply answers_bind; [|intros ?; apply answers_ret]. eapply runs_mono; [by eapply rollback_source_post|]. naive_solver.
Qed.
(** A failure of the second half. *)
Definition target_ok (busids : list string) (txn : source_txn) (l : list event) (r : result attach_outcome) : Prop :=
  match r with
  | Ok (NotAttached _ _ rollback) => ∃ c, rollback = Some c ∧ (c = true → undone host busids txn l)
  | Ok _ => True
  | Err _ => ∀ newly, txn ≠ WindowsTxn newly
  end.
(** Before the handler. *)
Definition body_ok (busids : list string) (txn : source_txn) (l : list event) (r : result attach_outcome) : Prop :=
  match r with Ok a => target_ok busids txn l (Ok a) | Err _ => True end.
Lemma body_then {A} C (m : M world A) k busids txn l0 :
  stays C m → (∀ l a, runs (k a) (λ l', body_ok busids txn (l ++ l'))) → runs (m ≫= k) (λ l', body_ok busids txn (l0 ++ l')).
Proof.
  intros Hm Hk. apply runs_bind. eapply runs_mono; [exact Hm|]. intros l [a|e] _; [|done].
  eapply runs_mono; [apply (Hk (l0 ++ l))|]. intros l' r. by rewrite app_assoc.
Qed.
Lemma body_undo busids txn l : 
  runs (complete ← undo host busids txn return_connection;
        mret (NotAttached "USBIP_ATTACH_FAILED" "USB/IP attach 失败，未成功连接任何设备" (Some complete))) (λ l', body_ok busids txn (l ++ l')).
Proof.
  apply runs_bind. eapply runs_mono; [apply undo_post; apply plain_asked|]. intros l4 [c|e] Hc; [|done]. apply runs_ret.
  exists c. split; [done|]. intros ->. rewrite app_nil_r. by apply undone_after, Hc.
Qed.
Lemma body_attached busids txn l a b c d e f : runs (mret (Attached a b c d e f)) (λ l', body_ok busids txn (l ++ l')).
Proof. by apply runs_ret. Qed.
Lemma attach_target_post fuel os socket transport busids txn :
  runs (attach_target host fuel os socket transport busids txn) (target_ok busids txn).
Proof.
  destruct plain_connections as (_&Hret&Hclose). assert (BIND ∈ [BIND; ATTACH]) by set_solver.
  unfold attach_target. apply runs_try. apply runs_mono with (body_ok busids txn).
  - apply (body_then Plain _ _ _ _ []); [apply plain_ensure_vhci_driver|]. intros ? [].
    eapply body_then; [by apply (never_detach BIND)|]. intros ? ds.
    eapply body_then; [apply never_bind_attach_devices|]. intros ? [[|x attached] device_list]; [apply body_undo|].
    eapply body_then; [apply plain_probe|]. intros ? probed. cbv zeta.
    eapply body_then; [apply (stays_for_each Plain); intros; apply plain_remember|]. intros ? [].
    eapply body_then; [apply Hret|]. intros ? []. apply body_attached.
  - intros l [a|e] Hl; [exact Hl|]. apply runs_bind.
    eapply runs_mono; [apply runs_and; [by apply undo_post|]|].
    { instantiate (1 := λ _ r, ∀ newly, txn = WindowsTxn newly → ∃ c, r = Ok c). destruct txn as [newly|started].
      - eapply runs_mono; [apply answers_undo|]. eauto.
      - eapply runs_mono; [by apply undo_post|]. naive_solver. }
    intros l' [c|e'] [Hc Hw]; [|intros newly ->; by destruct (Hw newly eq_refl)].
    apply runs_ret. exists c. split; [done|]. intros ->. rewrite app_nil_r. by apply undone_after, Hc.
Qed.

(** ** The whole *)

Context (connecting_works : ∀ h, ∃ c, connection h = Ok c).
Definition binds_undone (l : list event) : Prop :=
  ∀ b r, succeeded r = true → followed (Ran OnSource (bind_command b) r) (unbound b) l.
Definition attachments_undone (l : list event) : Prop :=
  ∀ b r, followed (Ran OnTarget (attach_command host b) r) (shows_none host [b]) l.
Definition failure_ok (l : list event) (r : result attach_outcome) : Prop :=
  match r with
  | Ok (NotAttached _ _ rollback) => (rollback ≠ Some false → binds_undone l) ∧ (rollback = Some true → attachments_undone l)
  | Ok _ => True
  | Err _ => binds_undone l
  end.
Lemma binds_undone_nil l : binds_in l [] → binds_undone l.
Proof. intros Hl b r Hr. apply followed_never. intros Hin. specialize (Hl b r Hin Hr). set_solver. Qed.
Lemma binds_undone_after l l' newly : binds_in l newly → Never BIND l' → all_unbound newly l' → binds_undone (l ++ l').
Proof.
  intros Hl Hn Hu b r Hr. assert (Hn' : Ran OnSource (bind_command b) r ∉ l') by (by eapply not_never).
  destruct (decide (b ∈ newly)) as [Hb|Hb]; [by apply followed_later; [apply Hu|]|].
  apply followed_never. intros [Hin|]%elem_of_app; [|done]. by apply Hb, (Hl b r).
Qed.
Definition attaches_in (busids : list string) : list event → Prop :=
  Forall (λ e, is_action ATTACH e = true → ∃ b r, b ∈ busids ∧ e = Ran OnTarget (attach_command host b) r).
Lemma attaches_never busids l : Never ATTACH l → attaches_in busids l.
Proof. intros Hl. eapply Forall_impl; [exact Hl|]. cbn. congruence. Qed.
Lemma attaches_target fuel os socket transport busids txn :
  stays (attaches_in busids) (attach_target host fuel os socket transport busids txn).
Proof.
  assert (Hn : ∀ A (m : M world A), stays (Never ATTACH) m → stays (attaches_in busids) m)
    by (intros A m; apply stays_mono, attaches_never).
  assert (Hp : ∀ A (m : M world A), stays Plain m → stays (attaches_in busids) m)
    by (intros A m ?; apply Hn, stays_never; [set_solver|done]).
  destruct plain_connections as (_&?&?). assert (Ha : ATTACH ∈ [BIND; ATTACH]) by set_solver. unfold attaches_in in *.
  assert (Hu : ∀ after, stays Plain after → stays (attaches_in busids) (undo host busids txn after)).
  { intros after Hafter. apply Hn. unfold undo. stays_steps;
    first [by apply never_rollback_target|by apply never_rollback_source|apply stays_never; [set_solver|done]]. }
  assert (Hs : ∀ n stable retryable, stays (attaches_in busids) (stabilize host busids n stable retryable)).
  { intros n. induction n as [|n IH]; intros stable retryable; cbn [stabilize]; unfold attach_commands, attaches_in in *; stays_steps;
    try first [apply IH|solve [apply Hp; stays_steps]].
    match goal with H : _ ∈ missing_in _ _ |- _ => apply list_elem_of_filter in H as [_ Hb] end.
    apply stays_execute. intros r _. eauto. }
  unfold attach_target, attach_devices, attaches_in in *. stays_steps;
  first [by apply Hu|apply Hs|by apply Hn, never_detach|apply Hp; stays_steps; done].
Qed.
Lemma attachments_undone_after busids txn l l' :
  Never ATTACH l → attaches_in busids l' → undone host busids txn l' → attachments_undone (l ++ l').
Proof.
  intros Hl Hl' [(l1&l2&->&Hn&e&He&out&->&Hout&Hno) _] b r. rewrite app_assoc. set (ev := Ran OnTarget (attach_command host b) r).
  destruct (decide (b ∈ busids)) as [Hb|Hb].
  - apply followed_later; [|by eapply not_never]. eexists. split; [exact He|]. exists out. split_and!; [done..|].
    apply not_true_iff_false. intros (x&Hx&Hf)%existsb_exists. apply not_true_iff_false in Hno. apply Hno, existsb_exists.
    exists x. split; [done|]. unfold from_host, mem in *. apply andb_true_iff in Hf as [-> Hf%bool_decide_eq_true%list_elem_of_singleton].
    rewrite Hf. by apply bool_decide_eq_true.
  - apply followed_never. rewrite <-app_assoc. intros [Hin|Hin]%elem_of_app; [by eapply not_never in Hin|].
    eapply Forall_forall in Hl'; [|exact Hin]. destruct Hl' as (b'&r'&Hb'&[= E ->]); [done|].
    apply Hb. unfold attach_command in E. do 3 apply append_inj in E. by subst.
Qed.
Lemma failure_ok_plain l l' r : failure_ok l r → Plain l' → failure_ok (l ++ l') r.
Proof.
  intros Hf Hl'. assert (Never BIND l' ∧ Never ATTACH l') as [Hb Ha] by (split; eapply plain_never; try done; set_solver).
  assert (Hbinds : binds_undone l → binds_undone (l ++ l')) by (intros Hl b r' Hr; apply followed_more; [by apply Hl|exact (bind_absent _ _ _ Hb)]).
  destruct r as [[|? ? rollback]|]; [done| |by apply Hbinds]. destruct Hf as [H1 H2]. split; [by intros ?; apply Hbinds, H1|].
  intros Hrb b r'. apply followed_more; [by apply H2|exact (attach_absent _ _ _ _ Ha)].
Qed.
Lemma attach_prepared_post fuel os socket transport l0 prepared :
  prepared_ok l0 (Ok prepared) →
  runs (attach_prepared host fuel os socket transport prepared) (λ l, failure_ok (l0 ++ l)).
Proof.
  intros [Ha Hp]. unfold attach_prepared. destruct prepared as [r|[busids txn]].
  { apply runs_ret. rewrite app_nil_r. destruct r as [|? ? []]; try done. split; [by intros ?; apply binds_undone_nil|done]. }
  apply runs_bind, runs_asked. intros h. destruct (connecting_works h) as [connected ->].
  set (l1 := [Did "get_connection"]). assert (Never ATTACH l1 ∧ Never BIND l1) as [Ha1 Hb1] by (split; by repeat constructor).
  assert (BIND ∈ [BIND; ATTACH] ∧ ATTACH ∈ [BIND; ATTACH]) as [] by set_solver. destruct connected; cbn [negb].
  - eapply runs_mono; [apply runs_and; [apply attach_target_post|apply runs_and; [apply never_bind_target|apply attaches_target]]|].
    intros l2 r (Hr&Hb&Hat). rewrite app_assoc.
    assert (Hu : undone host busids txn l2 → binds_undone ((l0 ++ l1) ++ l2)).
    { intros [_ Hn]. destruct txn as [newly|started].
      - eapply binds_undone_after; [apply binds_app; [done|by apply binds_never]|done|by apply Hn].
      - apply binds_undone_nil. repeat apply binds_app; first [done|by apply binds_never]. }
    destruct r as [[|? ? rollback]|e]; [done| |].
    + destruct Hr as ([]&->&Hc); [|done]. split; intros _; [by apply Hu, Hc|].
      eapply attachments_undone_after; [exact (proj2 (Forall_app _ _ _) (conj Ha Ha1))|exact Hat|by apply Hc].
    + destruct txn as [newly|started]; [by destruct (Hr newly)|]. apply binds_undone_nil. repeat apply binds_app; first [done|by apply binds_never].
  - apply runs_bind. eapply runs_mono.
    { apply runs_and; [|apply runs_and; [by apply (never_rollback_source BIND)|by apply (never_rollback_source ATTACH)]].
      instantiate (1 := λ l r, ∀ newly, txn = WindowsTxn newly → ∃ c, r = Ok c ∧ (c = true → all_unbound newly l)).
      destruct txn; [|by eapply runs_mono; [by apply (never_rollback_source BIND)|]].
      eapply runs_mono; [by eapply rollback_source_post|]. by intros l r Hr ? [= <-]. }
    intros l2 r (Hr&Hb&Hat).
    assert (Hu : ∀ newly, txn = WindowsTxn newly → all_unbound newly l2 → binds_undone (l0 ++ l1 ++ l2)).
    { intros newly -> Hn. rewrite app_assoc. eapply binds_undone_after; [exact (binds_app _ _ _ Hp (binds_never _ _ Hb1))|exact Hb|exact Hn]. }
    assert (Hlinux : (∀ newly, txn ≠ WindowsTxn newly) → binds_undone (l0 ++ l1 ++ l2)).
    { intros Hn. destruct txn as [newly|]; [by destruct (Hn newly)|].
      exact (binds_undone_nil _ (binds_app _ _ _ Hp (binds_never _ _ (proj2 (Forall_app _ _ _) (conj Hb1 Hb))))). }
    assert (Hboth : r = Ok true ∨ (∃ e, r = Err e) → binds_undone (l0 ++ l1 ++ l2)).
    { intros Hc. destruct txn as [newly|]; [|by apply Hlinux]. destruct (Hr newly eq_refl) as (c&->&Hn).
      apply (Hu newly); [done|]. apply Hn. destruct Hc as [[= ->]|[? [=]]]. done. }
    destruct r as [c|e]; [|by apply Hboth; eauto]. apply runs_ret. rewrite app_nil_r. split.
    + intros Hc. apply Hboth. left. by destruct c.
    + intros _ b r. apply followed_never, (not_never ATTACH); [|done]. exact (proj2 (Forall_app _ _ _) (conj Ha (proj2 (Forall_app _ _ _) (conj Ha1 Hat)))).
Qed.
Lemma followed_before e Q l l' : e ∉ l → followed e Q l' → followed e Q (l ++ l').
Proof.
  intros Hn Hl l1 l2 E. apply app_eq_app in E as (k&[[-> E]|[-> ->]]); [|by eapply Hl].
  destruct k as [|y k]; cbn in E; [by apply (Hl [])|]. injection E as -> ->. set_solver.
Qed.
Lemma failure_ok_before l l' r : Plain l → failure_ok l' r → failure_ok (l ++ l') r.
Proof.
  intros Hl Hf. assert (Never BIND l ∧ Never ATTACH l) as [Hb Ha] by (split; eapply plain_never; try done; set_solver).
  assert (Hbinds : binds_undone l' → binds_undone (l ++ l')) by (intros Hl' b r' Hr; apply followed_before; [exact (bind_absent _ _ _ Hb)|by apply Hl']).
  destruct r as [[|? ? rollback]|]; [done| |by apply Hbinds]. destruct Hf as [H1 H2]. split; [by intros ?; apply Hbinds, H1|].
  intros Hrb b r'. apply followed_before; [exact (attach_absent _ _ _ _ Ha)|by apply H2].
Qed.
Lemma failure_then {A} (m : M world A) k : stays Plain m → (∀ a, runs (k a) failure_ok) → runs (m ≫= k) failure_ok.
Proof.
  intros Hm Hk. apply runs_bind. eapply runs_mono; [exact Hm|]. intros l [a|e] Hl.
  - eapply runs_mono; [apply Hk|]. intros l' r. by apply failure_ok_before.
  - apply binds_undone_nil, binds_never. by apply plain_binds.
Qed.
Lemma failure_none code text : runs (mret (NotAttached code text None)) failure_ok.
Proof. apply runs_ret. split; [|done]. intros _. by apply binds_undone_nil, binds_never. Qed.
Lemma attach_from_source_post selected fuel socket transport : runs (attach_from_source vid_pids host selected fuel socket transport) failure_ok.
Proof.
  unfold attach_from_source. apply failure_then; [stays_steps|]. intros os. destruct (negb (mem _ _)); [apply failure_none|].
  apply failure_then; [stays_steps|]. intros []; cbn [negb]; [|apply failure_none].
  do 2 (apply failure_then; [stays_steps|]; intros ?). apply runs_bind. apply runs_mono with prepared_ok.
  { case_match; [apply prepare_windows_post|apply prepare_linux_post]. }
  intros l [prepared|e] Hl; [by apply attach_prepared_post|]. by apply binds_undone_nil, Hl.
Qed.
Lemma start_post selected fuel socket transport : runs (start_usbip vid_pids host selected fuel socket transport) failure_ok.
Proof.
  unfold start_usbip, refused. apply runs_try, runs_closing, runs_try.
  eapply runs_mono; [apply attach_from_source_post|]. intros l [a|e] Hl.
  - apply runs_asked. intros h. rewrite closing_works. apply failure_ok_plain; [done|by repeat constructor].
  - apply runs_ret, runs_asked. intros h. rewrite closing_works. apply failure_ok_plain; [|by repeat constructor].
    rewrite app_nil_r. by split.
Qed.
End failing.
(** ** Success *)

Section success.
Context `{Environment} (vid_pids : list string) (host : string).

Definition shows_all (busids : list string) (out : command_result) : Prop :=
  succeeded out = true ∧ ∀ b, b ∈ busids → existsb (from_host host [b]) (parse_usbip_port_entries (cr_stdout out)) = true.
(** Two listings a second apart showed every device, and nothing was bound, detached or attached since. *)
Definition verified (busids : list string) (l : list event) : Prop :=
  ∃ l1 first second l2, l = l1 ++ [Ran OnTarget LISTING first; Slept 1; Ran OnTarget LISTING second] ++ l2 ∧
    shows_all busids first ∧ shows_all busids second ∧ Plain l2.
Lemma verified_app busids l0 l l' : verified busids l → Plain l' → verified busids (l0 ++ l ++ l').
Proof.
  intros (l1&o1&o2&l2&->&H1&H2&Hl2) Hl'. exists (l0 ++ l1), o1, o2, (l2 ++ l'). rewrite <-!app_assoc.
  split_and!; [done..|]. by apply Forall_app.
Qed.
Lemma verified_after busids l0 l : verified busids l → verified busids (l0 ++ l).
Proof. intros Hv. rewrite <-(app_nil_r l). by apply verified_app. Qed.

Definition last_seen (busids seen : list string) (l : list event) : Prop :=
  ∃ l1 out, l = l1 ++ [Ran OnTarget LISTING out] ∧ succeeded out = true ∧ seen = snapshot host busids (cr_stdout out).
Lemma last_seen_after busids seen l0 l : last_seen busids seen l → last_seen busids seen (l0 ++ l).
Proof. intros (l1&out&->&?). exists (l0 ++ l1), out. by rewrite app_assoc. Qed.
Lemma poll_ports_post busids n again last :
  runs (poll_ports host busids n again last)
    (λ l r, ∃ o, r = Ok o ∧ ∀ seen, o = Some seen → (n = 0%nat ∧ l = [] ∧ seen = last) ∨ last_seen busids seen l).
Proof.
  revert again last. induction n as [|n IH]; intros again last; cbn [poll_ports].
  { apply runs_ret. eexists. split; [done|]. intros seen [= <-]. by left. }
  apply runs_bind. apply runs_mono with (λ _ r, r = Ok tt); [by apply runs_when; [intros _; apply runs_did|]|].
  intros l0 ? ->. apply runs_bind, runs_execute. intros out.
  destruct (succeeded out) eqn:Eo; cbn [negb]; [|apply runs_ret; by exists None].
  assert (Hseen : ∀ l', last_seen busids (snapshot host busids (cr_stdout out)) (l0 ++ [Ran OnTarget LISTING out] ++ l') ∨ l' ≠ []).
  { intros [|]; [left|by right]. exists l0, out. by rewrite app_nil_r. }
  cbv zeta. destruct (missing_in _ _) as [|m missing].
  - apply runs_ret. eexists. split; [done|]. intros seen [= <-]. right. destruct (Hseen []); [done|congruence].
  - eapply runs_mono; [apply IH|]. intros l r (o&->&Ho). exists o. split; [done|]. intros seen Es.
    right. destruct (Ho seen Es) as [(_&->&->)|Hs]; [destruct (Hseen []); [done|congruence]|].
    by apply last_seen_after, last_seen_after.
Qed.
Lemma elem_of_snapshot busids output b :
  b ∈ snapshot host busids output → existsb (from_host host [b]) (parse_usbip_port_entries output) = true.
Proof. by intros [? _]%list_elem_of_filter. Qed.
Lemma missing_none seen busids b : missing_in seen busids = [] → b ∈ busids → b ∈ seen.
Proof.
  intros Hm Hb. destruct (mem b seen) eqn:E; [by apply bool_decide_eq_true in E|].
  assert (b ∈ missing_in seen busids) by (by apply list_elem_of_filter). rewrite Hm in *. set_solver.
Qed.
Lemma stabilize_post busids n stable retryable :
  runs (stabilize host busids n stable retryable) (λ l r, r = Ok true → verified busids l).
Proof.
  revert stable retryable. induction n as [|n IH]; intros stable retryable; cbn [stabilize]; [by apply runs_ret|].
  apply runs_bind. eapply runs_mono; [apply (own_attach_commands host busids)|]. intros l1 [oks|e] _; [|done].
  apply runs_bind. eapply runs_mono; [apply poll_ports_post|]. intros l2 r (first&->&Hfirst). destruct first as [first|]; [|by apply runs_ret].
  apply runs_bind, runs_did, runs_bind, runs_execute. intros out. destruct (succeeded out) eqn:Eo; cbn [negb]; [|by apply runs_ret].
  cbv zeta. destruct (missing_in _ busids) as [|m missing] eqn:Em.
  - apply runs_ret. intros _. destruct (Hfirst first eq_refl) as [(?&_)|(l3&o1&->&Ho1&->)]; [done|].
    exists (l1 ++ l3), o1, out, []. rewrite !app_nil_r, <-!app_assoc. split_and!; [done| | |done];
    (split; [done|]); intros b Hb; eapply missing_none in Em; try exact Hb; apply list_elem_of_filter in Em as [Hf Hs];
    eapply elem_of_snapshot; [by apply bool_decide_eq_true in Hf|exact Hs].
  - destruct (_ || _); [by apply runs_ret|]. apply runs_bind, runs_did. eapply runs_mono; [apply IH|].
    intros l r Hr Et. by do 5 apply verified_after; apply Hr.
Qed.
(** What is attached is what was asked for, and was seen. *)
Definition seen_ok (busids : list string) (l : list event) (r : result (list string * list string)) : Prop :=
  ∀ attached device_list, r = Ok (attached, device_list) → attached = [] ∨ attached = busids ∧ verified busids l.
Lemma seen_then {A} busids (m : M world A) k l0 :
  stays Plain m → verified busids l0 → (∀ l a, verified busids l → runs (k a) (λ l', seen_ok busids (l ++ l'))) →
  runs (m ≫= k) (λ l', seen_ok busids (l0 ++ l')).
Proof.
  intros Hm Hv Hk. apply runs_bind. eapply runs_mono; [exact Hm|]. intros l [a|e] Hl; [|done].
  eapply runs_mono; [apply (Hk (l0 ++ l))|]; [by apply (verified_app _ [])|]. intros l' r. by rewrite app_assoc.
Qed.
Lemma seen_ret busids l0 device_list : verified busids l0 → runs (mret (busids, device_list)) (λ l', seen_ok busids (l0 ++ l')).
Proof. intros Hv. apply runs_ret. intros ? ? [= <- <-]. rewrite app_nil_r. by right. Qed.
Lemma attach_devices_post fuel busids socket transport :
  runs (attach_devices fuel host busids socket transport) (seen_ok busids).
Proof.
  unfold attach_devices. apply runs_try. apply runs_mono with (seen_ok busids).
  2:{ intros l [a|e] Hl; [exact Hl|]. apply runs_ret. intros ? ? [= <- <-]. by left. }
  apply runs_bind, runs_execute. intros a. apply runs_bind, runs_execute. intros f.
  apply runs_bind. eapply runs_mono; [apply stabilize_post|]. intros l [c|e] Hc; [|done]. cbn beta iota.
  destruct c; cbn [negb]; [|apply runs_ret; intros ? ? [= <- <-]; by left].
  set (l0 := [_]) at 2. set (l1 := [_]). specialize (Hc eq_refl).
  eapply runs_mono; [|intros l' r Hr; rewrite !app_assoc; exact Hr].
  assert (Hv : verified busids ((l1 ++ l0) ++ l)) by (by apply verified_after).
  eapply seen_then; [by apply plain_execute|exact Hv|]. intros ? ? Hv1.
  eapply seen_then; [by apply plain_execute|exact Hv1|]. intros ? ? Hv2.
  destruct transport; [by apply seen_ret|]. eapply seen_then; [apply plain_time|exact Hv2|]. intros ? ? Hv3.
  eapply seen_then; [apply plain_wait_devices|exact Hv3|]. intros ? ? Hv4. by apply seen_ret.
Qed.

Context (selected : list string).
Definition success_ok (l : list event) (r : result attach_outcome) : Prop :=
  ∀ devices device_list message protocol_state readiness source_os,
    r = Ok (Attached devices device_list message protocol_state readiness source_os) →
    verified devices l ∧ (selected ≠ [] → devices = selected).
Lemma success_after l l' r : success_ok l' r → success_ok (l ++ l') r.
Proof. intros Hs ? ? ? ? ? ? E. apply Hs in E as [??]. split; [by apply verified_after|done]. Qed.
Lemma success_skip {A} C (m : M world A) k : stays C m → (∀ a, runs (k a) success_ok) → runs (m ≫= k) success_ok.
Proof.
  intros Hm Hk. apply runs_bind. eapply runs_mono; [exact Hm|]. intros l [a|e] _; [|done].
  eapply runs_mono; [apply Hk|]. intros l' r. apply success_after.
Qed.
Lemma success_not code text rollback : runs (mret (NotAttached code text rollback)) success_ok.
Proof. by apply runs_ret. Qed.
(** After the devices were seen, while nothing changes. *)
Lemma success_then {A} busids (m : M world A) k l0 :
  stays Plain m → verified busids l0 → (∀ l a, verified busids l → runs (k a) (λ l', success_ok (l ++ l'))) →
  runs (m ≫= k) (λ l', success_ok (l0 ++ l')).
Proof.
  intros Hm Hv Hk. apply runs_bind. eapply runs_mono; [exact Hm|]. intros l [a|e] Hl; [|done].
  eapply runs_mono; [apply (Hk (l0 ++ l))|]; [by apply (verified_app _ [])|]. intros l' r. by rewrite app_assoc.
Qed.
Lemma success_target fuel os socket transport busids txn :
  (selected ≠ [] → busids = selected) → runs (attach_target host fuel os socket transport busids txn) success_ok.
Proof.
  intros Hsel. destruct plain_connections as (_&Hret&Hclose). assert (BIND ∈ [BIND; ATTACH]) by set_solver.
  assert (Hundo : ∀ after code text, stays Plain after →
    runs (complete ← undo host busids txn after; mret (NotAttached code text (Some complete))) success_ok).
  { intros after code text Ha. eapply (success_skip (λ _, True)); [|intros ?; apply success_not].
    eapply runs_mono; [by apply undo_post|done]. }
  unfold attach_target. apply runs_try. apply runs_mono with success_ok.
  2:{ intros l [a|e] Hl; [exact Hl|]. eapply runs_mono; [by apply Hundo|]. intros l' r. apply success_after. }
  eapply success_skip; [apply plain_ensure_vhci_driver|]. intros [].
  eapply success_skip; [by apply (never_detach BIND)|]. intros ds.
  apply runs_bind. eapply runs_mono; [apply attach_devices_post|]. intros l [[attached device_list]|e] Hl; [|done].
  destruct attached as [|x attached]; [eapply runs_mono; [by apply Hundo|]; intros l' r; apply success_after|].
  destruct (Hl (x :: attached) device_list eq_refl) as [|[-> Hv]]; [done|]. clear Hl.
  eapply success_then; [apply plain_probe|exact Hv|]. intros ? probed Hv1. cbv zeta.
  eapply success_then; [apply (stays_for_each Plain); intros; apply plain_remember|exact Hv1|]. intros ? [] Hv2.
  eapply success_then; [exact Hret|exact Hv2|]. intros ? [] Hv3.
  apply runs_ret. rewrite app_nil_r. intros ? ? ? ? ? ? [= <- _ _ _ _ _]. by split.
Qed.
Lemma success_start fuel socket transport : runs (start_usbip vid_pids host selected fuel socket transport) success_ok.
Proof.
  destruct plain_connections as (Hconn&Hret&Hclose).
  assert (Hbody : runs (attach_from_source vid_pids host selected fuel socket transport) success_ok).
  { unfold attach_from_source. eapply success_skip; [apply plain_detect_source_os|]. intros os. destruct (negb (mem _ _)); [apply success_not|].
    apply (success_skip Plain); [stays_steps|]. intros []; cbn [negb]; [|apply success_not].
    do 2 (apply (success_skip Plain); [stays_steps|]; intros ?). apply runs_bind.
    apply runs_mono with (λ l r, prepared_ok l r ∧ (selected ≠ [] → ∀ a, r = Ok a → about_selected selected a)).
    { destruct (decide (selected = [])) as [->|Hne].
      - apply runs_mono with prepared_ok; [case_match; [apply prepare_windows_post|apply prepare_linux_post]|]. by split.
      - case_match; (eapply runs_mono; [apply runs_and; [|by apply (own_prepare_windows _ host)+apply (own_prepare_linux host)]; apply prepare_windows_post+apply prepare_linux_post|]); naive_solver. }
    intros l [prepared|e] [Hp Ha]; [|done]. apply runs_mono with success_ok; [|intros l' r; apply success_after].
    unfold attach_prepared. destruct prepared as [r|[busids txn]].
    { apply runs_ret. destruct Hp as [_ Hp]. by destruct r. }
    eapply success_skip; [exact Hconn|]. intros []; cbn [negb].
    - apply success_target. intros Hne. by apply (Ha Hne _ eq_refl busids txn).
    - eapply (success_skip (Never BIND)); [apply never_rollback_source; set_solver|intros ?; apply success_not]. }
  unfold start_usbip, refused. apply runs_try, runs_closing, runs_try. eapply runs_mono; [exact Hbody|].
  assert (Hplain : ∀ l l' r, success_ok l r → Plain l' → success_ok (l ++ l') r).
  { intros l l' r Hs Hl' ? ? ? ? ? ? E. apply Hs in E as [??]. split; [by apply (verified_app _ [])|done]. }
  intros l [a|e] Hl.
  - eapply runs_mono; [exact Hclose|]. intros l' [[]|e] Hl'; [by apply Hplain|]. by apply runs_ret.
  - apply runs_ret. eapply runs_mono; [exact Hclose|]. intros l' [[]|e'] _; [|by apply runs_ret]. by intros ? ? ? ? ? ? [=].
Qed.
End success.
(** ** The wait *)

Section waiting.
Context `{Environment} (clock_forward : ∀ h e, now_ms h ≤ now_ms (h ++ [e])).
Context (sleep_passes : ∀ h n, now_ms h + 1000 * n ≤ now_ms (h ++ [Slept n])).

Lemma execute_run {B} s c (k : command_result → M world B) w :
  (execute_command s c ≫= k) w =
    k (answer s c (history w)) (w <| history ::= λ l, l ++ [Ran s c (answer s c (history w))] |>).
Proof. done. Qed.
Lemma sleep_run {B} n (k : unit → M world B) w : (sleep n ≫= k) w = k tt (w <| history ::= λ l, l ++ [Slept n] |>).
Proof. done. Qed.
Lemma known_run {B} ds (k : list string → M world B) w :
  (known_device ds ≫= k) w = k (option_list (find (λ d, mem d (device_sources w)) ds)) w.
Proof. done. Qed.
Lemma wait_over before devices w :
  ∃ found, (match new_of devices before with [] => known_device devices | new_devices => mret new_devices end w).1 = Ok found.
Proof. destruct (new_of _ _); by eexists. Qed.
(** Each round of the wait takes a second. *)
Lemma wait_devices_enough cmd before states fastboot fuel more deadline devices w :
  deadline ≤ now_ms (history w) + 1000 * Z.of_nat fuel →
  wait_devices cmd before states fastboot (fuel + more) deadline devices w = wait_devices cmd before states fastboot fuel deadline devices w ∧
  ∃ found, (wait_devices cmd before states fastboot fuel deadline devices w).1 = Ok found.
Proof.
  revert devices w. induction fuel as [|fuel IH]; intros devices w Hd.
  - cbn [Nat.add]. assert (E : (now_ms (history w) <? deadline) = false) by (apply Z.ltb_ge; lia).
    destruct more; cbn [wait_devices]; unfold time; rewrite !bind_gets, E; (split; [done|apply wait_over]).
  - cbn [Nat.add wait_devices]. unfold time. rewrite !bind_gets. destruct (now_ms (history w) <? deadline).
    2:{ split; [done|apply wait_over]. }
    rewrite !execute_run. cbv zeta. destruct (new_of (dedup _) before); [|by split; [|eexists]].
    destruct (existsb _ _); [by split; [|eexists]|]. rewrite !execute_run.
    destruct (new_of _ fastboot); [|by split; [|eexists]]. rewrite !known_run.
    destruct (option_list _); [|by split; [|eexists]]. rewrite !sleep_run. apply IH.
    cbn [history upd]. eapply Z.le_trans; [exact Hd|]. rewrite Nat2Z.inj_succ.
    set (h := history w). etrans; [|apply Z.add_le_mono_r, sleep_passes].
    match goal with |- _ ≤ now_ms ((h ++ [?a]) ++ [?b]) + _ + _ => pose proof (clock_forward h a); pose proof (clock_forward (h ++ [a]) b) end.
    lia.
Qed.
End waiting.

Lemma start_answers `{Environment} vid_pids attach_host selected fuel socket transport w :
  ∃ outcome, (start_usbip vid_pids attach_host selected fuel socket transport w).1 = Ok outcome.
Proof. unfold start_usbip, try. repeat case_match; simplify_eq/=; by eexists. Qed.

(** Whatever the hosts answer, an attach for selected devices binds, unbinds, detaches and attaches
    only those devices on the source and from it, and detaches a port of the target only after a
    listing showed one of those devices of this host on that port. *)
Theorem only_selected_touched `{Environment} vid_pids attach_host selected fuel socket transport w :
  selected ≠ [] →
  ∃ l, history (start_usbip vid_pids attach_host selected fuel socket transport w).2 = history w ++ l ∧
    own attach_host selected l.
Proof.
  intros Hne. by apply own_start.
Qed.

(** [C34] An attach over USB/IP is a transaction, whatever the hosts answer.  It never raises.  When it
    succeeds, two listings of the target a second apart both showed every device attached as coming
    from this source, after them nothing was bound, unbound, detached or attached, and the devices are
    the selected ones if any were selected.  When it fails, and neither closing a connection nor asking for one raises:
    unless the answer says that the rollback is incomplete, every device that this call bound on the
    source was unbound afterwards; and if it says that the rollback is complete, every attach command
    was followed by a listing of the target that does not show the device. *)
Theorem attach_transaction `{Environment} vid_pids attach_host selected fuel socket transport w :
  let attempt := start_usbip vid_pids attach_host selected fuel socket transport w in
  ∃ l outcome, history attempt.2 = history w ++ l ∧ attempt.1 = Ok outcome ∧
  match outcome with
  | Attached devices _ _ _ _ _ => (selected ≠ [] → devices = selected) ∧ verified attach_host devices l
  | NotAttached _ _ rollback =>
      (∀ h, closed h = Ok tt) → (∀ h, ∃ c, connection h = Ok c) →
      (rollback ≠ Some false → binds_undone l) ∧ (rollback = Some true → attachments_undone attach_host l)
  end.
Proof.
  intros attempt. destruct (success_start vid_pids attach_host selected fuel socket transport w) as (l&E&Hl).
  destruct (start_answers vid_pids attach_host selected fuel socket transport w) as (outcome&Er).
  fold attempt in E, Hl, Er. rewrite Er in Hl. exists l, outcome. split_and!; [done..|].
  destruct outcome as [devices a b c d e|code text rollback].
  - destruct (Hl _ _ _ _ _ _ eq_refl) as [Hv Hs]. eauto.
  - intros Hclose Hconnect.
    destruct (start_post vid_pids attach_host Hclose Hconnect selected fuel socket transport w) as (l'&E'&Hl').
    fold attempt in E', Hl'. rewrite E in E'. apply app_inv_head in E' as <-. by rewrite Er in Hl'.
Qed.

(** When the clock only goes forward and a sleep takes its time, the wait for new devices ends by its
    deadline of thirty seconds after at most thirty rounds, and returns. *)
Theorem attach_wait_ends `{Environment} cmd before states fastboot fuel devices w :
  (∀ h e, now_ms h ≤ now_ms (h ++ [e])) → (∀ h n, now_ms h + 1000 * n ≤ now_ms (h ++ [Slept n])) → (30 ≤ fuel)%nat →
  let wait := wait_devices cmd before states fastboot in
  let deadline := now_ms (history w) + 30000 in
  wait fuel deadline devices w = wait 30%nat deadline devices w ∧ ∃ found, (wait fuel deadline devices w).1 = Ok found.
Proof.
  intros Hf Hs Hfuel. cbv zeta. replace fuel with (30 + (fuel - 30))%nat by lia.
  destruct (wait_devices_enough Hf Hs cmd before states fastboot 30 (fuel - 30) (now_ms (history w) + 30000) devices w) as [E Hok]; [lia|].
  split; [exact E|]. rewrite E. exact Hok.
Qed.

(** ** The theorems at work *)

(** A Windows source with one device, and a target on which attaching works or does not. *)
Definition bench_line : string := "1-2    2207:0006  Android Composite ADB Interface     Not shared".
Definition text_lines (l : list string) : string := join (String LF EmptyString) l.
Definition said (text : string) : command_result := CommandResult text "" 0.
Definition was_run (c : string) (h : list event) : bool :=
  existsb (λ e, match e with Ran _ c' _ => streqb c' c | _ => false end) h.
Definition bench_answer (works : bool) (s : side) (c : string) (h : list event) : command_result :=
  let attached := works && was_run (attach_command "10.0.0.5" "1-2") h in
  match s with
  | OnSource =>
      if streqb c "ver 2>&1" then said "Microsoft Windows [Version 10.0]"
      else if streqb c "usbipd --version" then said "4.3.0"
      else if streqb c "usbipd list" then said (text_lines ["Connected:"; bench_line; ""; "Persisted:"])
      else if startswith "usbipd list | findstr " c then said bench_line
      else said ""
  | OnTarget =>
      if streqb c "sudo -n usbip port" then
        said (if attached then text_lines ["Imported USB devices"; "Port 00: <Port in Use> at High Speed(480Mbps)";
                                           "  3-1 -> usbip://10.0.0.5:3240/1-2"] else "Imported USB devices")
      else if startswith "sudo usbip attach" c then CommandResult "" "" (if works then 0 else 1)
      else if streqb c "adb devices" then
        said (if attached then text_lines ["List of devices attached"; "RK1" +:+ String "009" "device"] else "List of devices attached")
      else said ""
  end.
Definition bench (works : bool) : Environment := {|
  answer := bench_answer works;
  now_ms h := Z.of_nat (length h);
  reachable _ := true;
  connection _ := Ok true;
  returned _ := Ok tt;
  closed _ := Ok tt;
  usb_devices _ _ := Ok [];
  server_ensured _ _ _ := Ok (false, false);
  server_stopped _ := Ok true;
  usbip_binary := "usbip";
|}.
Definition bench_run (works : bool) : result attach_outcome * world :=
  start_usbip (H := bench works) DEFAULT_VID_PIDS "10.0.0.5" ["1-2"] 30 None false (World [] []).
Lemma bench_attached : (bench_run true).1 =
  Ok (Attached ["1-2"] ["RK1"] "✅ 成功连接1个USB/IP设备，ADB在线: RK1" "adb" "test_ready" "windows").
Proof. vm_compute. reflexivity. Qed.
Lemma bench_failed : (bench_run false).1 =
  Ok (NotAttached "USBIP_ATTACH_FAILED" "USB/IP attach 失败，未成功连接任何设备" (Some true)).
Proof. vm_compute. reflexivity. Qed.
Definition lasting (works : bool) (h : list event) : Prop :=
  if works then verified (H := bench true) "10.0.0.5" ["1-2"] h
  else (∃ r, Ran OnSource (bind_command "1-2") r ∈ h) ∧ binds_undone h ∧ attachments_undone (H := bench false) "10.0.0.5" h.
Lemma attach_transaction_witness :
  lasting true (history (bench_run true).2) ∧ lasting false (history (bench_run false).2).
Proof.
  split.
  - destruct (attach_transaction (H := bench true) DEFAULT_VID_PIDS "10.0.0.5" ["1-2"] 30 None false (World [] []))
      as (l&outcome&Hl&Er&H).
    change (history (bench_run true).2 = l) in Hl. change ((bench_run true).1 = Ok outcome) in Er.
    rewrite Hl. rewrite bench_attached in Er. injection Er as <-. apply H.
  - destruct (attach_transaction (H := bench false) DEFAULT_VID_PIDS "10.0.0.5" ["1-2"] 30 None false (World [] []))
      as (l&outcome&Hl&Er&H).
    change (history (bench_run false).2 = l) in Hl. change ((bench_run false).1 = Ok outcome) in Er.
    rewrite Hl. rewrite bench_failed in Er. injection Er as <-. destruct H as [H1 H2]; [reflexivity|intros h; by exists true|].
    split; [|split; [by apply H1|by apply H2]].
    rewrite <-Hl. exists (said ""). apply list_elem_of_In. vm_compute. tauto.
Defined.
